(* ===== verification/_CoqProject ===== *)
-Q . S2P
Prelude.v
CString.v
Text.v
Utility.v
UtilProps.v
Queue.v
Timer.v
TimerProps.v
Crypt.v
SvcParse.v
SvcHost.v
SvcProps.v
SvcDemo.v
SvcRun.v
SvcDispatch.v
Crc.v
HashMap.v
CfgType.v
CfgPath.v
CfgObj.v
CfgSave.v
CfgCli.v
CfgHeap.v
CfgStore.v
CfgCreate.v
CfgSpec.v
CfgProps.v
SaveProps.v
CfgDoc.v
CfgReload.v
XmlText.v
Romfile.v
RomProps.v
RomBoot.v
LanEntry.v
LanHost.v
LanProps.v
LanDemo.v
LanRun.v
LanName.v
WanObj.v
WanRoute.v
WanCfg.v
WanDev.v
WanMgr.v
WanList.v
WanProps.v
WanRun.v
WanLife.v
WanEvents.v
WanService.v
WanDemo.v
WanPpp.v
WanStable.v
WanBoot.v
CfgTyped.v
