(* ===== verification/Prelude.v ===== *)
(** * Configuration service of the ONU firmware: verification library

    ** The program

    The firmware ([src/tclinux_phoenix]) keeps the configuration of the device
    in one tree of objects, such as [root.wan.pvc.1.entry.2], each with named
    attributes.  The tree lives in a memory segment shared by the processes;
    the library [apps/private/cfg_ng/service/cfg] gives access to it, and the
    service process, the web server and the command line tools are its
    clients.  What kinds of objects there are, and below which others, is
    fixed by a static table of types ([cfg/type/cfg_type_*.c]).  The library
    is the part of the repository that has its own algorithms and data
    structures, and it is modelled here with what stands around it: the host
    that loads the service and its neighbours and passes them messages
    ([cfg_ng/svchost]), the timers, queue, hash map and checksums the services
    use, the service that keeps the connections to the Internet
    ([cfg_ng/service/wan]), the table of the hosts behind the device that one of
    its clients keeps ([lan_host_mgr]), and the encryption of passwords in the web server's
    library ([tcapi_lib/crypt_func.c]).

    ** Files

    - [Prelude]: machine integers as [Z] with their wrap-around, the result
      type [res] ([Ok], [Fault] for what C leaves undefined, [NoFuel]), the
      state monad [M] over it, forests, shared lemmas and tactics.
    - [CString], [Text]: the C library's string functions the sources call.
    - [Utility], [UtilProps]: [cfg/utility.c], its pure functions: numbers,
      escaping and screening of shell commands, addresses, profile files.
    - [Queue]: [cfg/queue_api.c].  [Crc]: the checksums of [cfg/hashmap.c] and
      [cfg/cfg_romfile.c].  [HashMap]: [cfg/hashmap.c].
    - [CfgType]: [cfg/cfg_type.c], the type table and its numbering, with
      four of the tables of [cfg/type] as written there.
    - [CfgPath]: the part of [cfg/cfg_obj.c] that turns written paths into
      types and identifiers.
    - [CfgObj]: the rest of [cfg/cfg_obj.c] that reads or changes the tree.
      The state is [store]: nodes and attribute lists by address, the root
      pointer, the depth of the lock.
    - [CfgSave]: saving to XML, attribute files, listing, [cfg_readAll].
    - [CfgCli]: [cfg/cfg_cli.c]: dispatch to the types' handlers, the commit
      lock, loading from XML, names in web requests.
    - [CfgHeap], [CfgStore], [CfgCreate], [CfgSpec], [CfgProps], [SaveProps]:
      the theorems on the store.  [CfgDoc], [CfgReload]: the saved document
      and loading it.  [CfgTyped]: the types of the objects, along sequences
      of operations.
    - [Romfile]: [cfg/cfg_romfile.c], the saved configuration in flash: header
      and checksum, saving, the choice among the copies at start-up.
      [RomProps], [RomBoot]: its theorems; [XmlText]: a reader of the saved
      documents, for the examples.
    - [Timer], [TimerProps]: [central_ctrl/uloop_timer.c] with the list macros
      of [central_ctrl/list.h].
    - [Crypt]: [tcapi_lib/crypt_func.c].
    - [SvcParse]: [svchost/svchost_parse.c].  [SvcHost]:
      [svchost/svchost_loop.c] and the registration part of
      [svchost/svchost_api.c].  The parser reads and writes its buffer by
      position, and a position outside it is a fault.  The state [host] holds the services by
      address, the head of their list, their number, the strings of the
      services and the rest of the world.  [SvcProps]: the invariant [ready]
      and the loading of the list; [SvcDemo]: a small world;  [SvcRun],
      [SvcDispatch]: the theorems on runs and on messages.
    - [LanEntry]: an entry of the LAN host table with the texts kept in it, and
      the two notations of MAC addresses.  [LanHost]: [charsetconv] of
      [ecnt_utility/ecnt_utility.c], [lan_host_mgr/lan_host_api.c], the periodic check of [lan_host_mgr.c] and
      the event handlers of [lan_host_msg.c].  The state [lan] holds the table,
      its sizes, the per-port and per-band counters and the rest of the world.
      [LanProps]: the steps of the program [lan_step] and their invariant
      [hosts_ok]; [LanDemo]: a small network; [LanRun], [LanName]: the theorems.
    - [WanObj]: a connection with its configuration, the calls to the rest of the
      firmware, and the list of [wan/wan_link_list.c].  The state [wan] holds the
      objects by address, the head of the list, one static variable and the
      rest of the world.  [WanRoute]: [wan/default_route_handle.c].  [WanCfg]:
      [wan/wan_cfg.c].  [WanDev]: the devices, files and commands of
      [wan/wan_interface.c].  [WanMgr]: the rest of that file, [wan/wan_nat.c],
      and of [wan/wan_mgr.c] the requests and the events on connections.
      [WanList]: runs that return, and the list; [WanProps]: the view [look] of
      a state and its invariant [sound]; [WanRun], [WanLife], [WanEvents]:
      reports of addresses, starts and stops, events; [WanService]: the
      theorems; [WanDemo]: small worlds; [WanPpp]: the command line of [pppd];
      [WanStable], [WanBoot]: what the service leaves alone of its
      configuration, and its start ([wan/wan_svc.c]).

    ** How the parts interact

    A request names an object by its path.  [cfg_cli.c] finds the type of the
    path ([CfgPath]) and calls the operation in the type's table ([CfgType]);
    the default operations work on the store ([CfgObj]).  The specification of
    the store is a forest of entries ([CfgHeap]): [obj_rep] says which forest
    the pointers of a store stand for, and each operation is shown to do to
    that forest what it promises, errors and exhaustion of the shared memory
    included.  Clients reason with paths and forests only.

    The service is a library the host loads: [SvcParse] reads which, the host
    registers each on the message bus and calls the functions it has
    registered.  What a service may do to the host's state is the relation
    [api_step]: the services see the host's records as an opaque type and
    change them through the two registration functions only.

    The WAN service is one of those libraries.  Events of the bus make it read
    the configuration of a connection, stop or start its interface, and write
    what becomes of it back to the configuration.  The other files of its
    directory ([policy_route.c], [port_binding.c], [vlan_binding.c], ...), the
    scripts and the messages it sends are calls ([call]) that act on the rest
    of the world.  Stopping a PPP interface and setting static addresses raise
    events that are handled at once, inside the request.

    The LAN host manager is another process.  Kernel events and a periodic
    check, each a step of [lan_step], change its table; what is in the table is
    copied to the configuration ([sync_lan_host_info]), the names of hosts from
    GB2312 to UTF-8 as the profile's build has it, through the client library and with the paths that [Utility] and [CfgPath] deal with.

    ** What the theorems show

    - Store: creating, deleting, writing and reading attributes, listing the
      instances of a type, and the initial tree refine the corresponding
      operations on the abstract forest, also when shared memory runs out: a
      refused object is an error, while a refused attribute and refused objects
      below a new one are not reported ([CfgProps]); so do saving an object's
      attributes and reading them back, and the names of web requests
      ([SaveProps]).
    - Save and load: the text written is the document of the tree, and loading
      it gives each object saved under a tag of its type its attributes back; the
      numbered objects that are not called entry or pvc are saved under tags
      that name no type, and are lost ([CfgReload]).  Along any sequence of
      client operations under stated conditions ([allowed]) the tree stays well
      typed ([CfgTyped]).
    - Flash: what is saved and not lost in that way comes back at the next start, from the partition or
      the backup, into the store; start-up implements an abstract choice of
      the first intact copy and repairs the others ([RomBoot]); the container
      round-trips and a changed byte is refused, but the length in its header
      is trusted ([RomProps]).
    - Service host: the configuration is read as its services, whatever is in
      the file the parser stays in its buffer; either the host gives up or all
      services are registered, those with the flag for it are started in order,
      and none is lost track of; messages reach the function registered for their
      name; unloading unlinks the right service, and then its callers read
      the freed record ([SvcParse], [SvcRun], [SvcDispatch]).
    - LAN hosts: in every order of checks and events no host is in the table
      twice; which host gives up its place in a full table; a host keeps the name it
      had first, converted forth and back, over its leases; a Wi-Fi host that gets no address is forgotten, and one
      that takes another's place takes its lease ([LanName], [LanRun]).
    - WAN connections: the start of the service brings up every connection of
      the configuration whose configuration is valid ([WanBoot]); whatever
      events come, in whatever order, under the conditions of [allowed], the list is
      well formed, each default route designates an Internet connection that
      is up or nothing, and the next event returns; an update brings a
      connection to its configuration, a removal leaves nothing of it, and the
      end of the service frees everything; which connection is elected for the
      default route; where the service leaves a running interface with another
      configuration, or a route of a stopped one ([WanService]); the name and
      the password reach [pppd] as they are, through a shell that expands
      backquotes and those dollars that begin an expansion, and the idle time
      does not ([WanPpp]).
    - Timers: the list stays sorted, operations return, a run serves exactly
      the due timers ([TimerProps]).
    - Passwords: decryption inverts encryption ([Crypt]).
    - Paths and types: translation of paths is total within its bounds, agrees
      with the types' names, and round-trips for exactly the types that are,
      with all above them, the first of their name; start-up numbering is a
      bijection ([CfgPath], [CfgType]).
    - Containers: what the hash map holds for a key is a list of values in probe
      order, of which lookup takes the first and removal drops the first; while
      keys are stored once it is a finite map, which a put of a stored key after
      a removal can end; the queue is a list.
    - Checksums equal the bit-serial CRC-32; a changed byte changes them.
    - Utilities: what the escaping functions write can be read back; which
      commands [system_escape] runs; which masks, ranges and MAC addresses are
      accepted; the exact buffer sizes from which functions overrun.

    ** Bounds and fuel

    A walk along pointers takes as fuel one more than the number of nodes of
    the store ([with_fuel]); a store that stands for a forest never runs out
    of it, which the refinement theorems include, since they give the result.
    The walks along the host's services have as fuel the number of services
    allocated, which a list without repetition cannot exceed; those along the
    connections, the number of objects allocated.  Only the
    attempts to reach the bus and the rounds of the message loop, which the
    code does not bound, are numbers given from outside.
    Loops over strings recurse on the string; the recursion over types uses
    the number of types, and [rehash] a fuel that is shown to be enough.
    Where C would overrun a buffer or follow a bad pointer the model returns
    [Fault], and theorems say for which inputs that is so.

    ** Interfaces

    Shared memory and XML attribute lists come as object files ([cfg_shm.c],
    [cfg_xml.c] are not in the repository): [Shm] and [Xml] are classes (an
    object or an attribute may find no room) with their documented laws [ShmLaws] and [XmlLaws], and instances for the
    examples.  The handlers of [cfg/type/cfg_type_*.c] are the class
    [Handlers].  The dynamic loader, the message bus and the functions of the
    services are the class [Externs], with the laws [ServiceLaws].  The commands
    that write flash, [tar], the layout of the header and the XML reader are
    the class [Platform], with the laws [PlatformLaws].  What the LAN host
    manager reads from the kernel, the lease files and the configuration, and
    what it writes there, is the class [World], with the library that converts
    character sets; only the theorem on names needs a law, [ConfigLaws], that
    a name written to the configuration is read back.
    What the WAN service reads and calls is the class [WanWorld].  Its laws
    [WanLaws] say that an attribute of the default routes that is written is
    read back and that nothing else changes it, the mark of a commit by the
    TR-069 client likewise, how the path of a connection is split, and two
    numbers that come with the build.  The events are those a running service
    receives ([allowed]): the paths are those of the 64 connections, an address
    is reported for an interface that is started and serves that protocol, and
    an update is not one that the TR-069 client commits over its own
    connection, which is a theorem of its own.  That what the service writes
    and runs does not touch the configuration of the connections is the class
    [WanConf] ([Undisturbed] for any part of the world), which the start needs.

    ** Not modelled

    Functions whose body is a call of the operating system or of a daemon:
    sockets, ioctls, scripts run with [system]; with them most of the handlers
    for WLAN, mesh and VoIP.  Of the WAN service, the files that only put
    commands together, the polling thread with DS-Lite, the events of the
    optical link and of the access point, and the variants for other operators
    (JOYME4, SDN, CMCC, UBUS); an IPv6 address of 48 characters, which leaves
    its array without an end, is taken to end there.  Of [cfg_romfile.c], the choice of the
    default file and the parameters of the production line.  Waiting for file locks, and
    interleavings inside one operation: the library holds the pool's lock
    throughout.  The threads of the service host: each has a list of its own
    and runs [svchost_run].  Of the LAN host manager, the scans of the drivers'
    files under [/proc] and of the tables of wireless stations, the IPv6
    addresses of leases, and the variants for other operators; its check and
    its events run in two threads without a lock, and are single steps here.
    Third-party code: BusyBox, Dropbear, OpenSSH, Boa,
    menuconfig. *)

From stdpp Require Export base tactics option list numbers gmap strings.
From Stdlib Require Export ZArith Lia Ascii.

(** ** Machine integers

    The targets (MIPS and ARM32) have 8-bit chars, 16-bit shorts and 32-bit
    [int], [long] and pointers.  A value of such a type is a [Z]; the
    conversions below write the wrap-around out. *)

Definition u8 (z : Z) : Z := z mod 2 ^ 8.
Definition u16 (z : Z) : Z := z mod 2 ^ 16.
Definition u32 (z : Z) : Z := z mod 2 ^ 32.
Definition s32 (z : Z) : Z := (z + 2 ^ 31) mod 2 ^ 32 - 2 ^ 31.
(** The value of a byte read through a (signed) [char]. *)
Definition schar (z : Z) : Z := (z + 128) mod 256 - 128.

Definition INT_MAX : Z := 2 ^ 31 - 1.
Definition INT_MIN : Z := - 2 ^ 31.

Abbreviation zlen l := (Z.of_nat (length l)).

(** ** Outcomes

    [Fault] is what the C standard leaves undefined and the hardware
    punishes: a null or dangling pointer dereference, an access outside an
    array.  [NoFuel] is the model's own: a loop was cut by its fuel bound. *)

Inductive res (A : Type) : Type :=
| Ok (a : A)
| Fault
| NoFuel.
Arguments Ok {A} a.
Arguments Fault {A}.
Arguments NoFuel {A}.

#[export] Instance res_ret : MRet res := λ A a, Ok a.
#[export] Instance res_bind : MBind res := λ A B f m,
  match m with Ok a => f a | Fault => Fault | NoFuel => NoFuel end.

(** A dereference: [Fault] when there is nothing there. *)
Definition deref {A} (o : option A) : res A :=
  match o with Some a => Ok a | None => Fault end.

(** Stateful code threads a state [S] and may fault. *)
Definition M (S A : Type) : Type := S → res (A * S).

#[export] Instance M_ret {S} : MRet (M S) := λ A a s, Ok (a, s).
#[export] Instance M_bind {S} : MBind (M S) := λ A B f m s,
  match m s with
  | Ok (a, s') => f a s'
  | Fault => Fault
  | NoFuel => NoFuel
  end.

Definition lift {S A} (r : res A) : M S A :=
  λ s, match r with Ok a => Ok (a, s) | Fault => Fault | NoFuel => NoFuel end.
Definition gets {S A} (f : S → A) : M S A := λ s, Ok (f s, s).
Definition modify {S} (f : S → S) : M S unit := λ s, Ok (tt, f s).
Definition out_of_fuel {S A} : M S A := λ _, NoFuel.

(** One step of a run: the head of a sequence succeeds. *)
Lemma M_bind_Ok {S A B} (m : M S A) (f : A → M S B) s a s' :
  m s = Ok (a, s') → mbind f m s = f a s'.
Proof. intros H. unfold mbind, M_bind. by rewrite H. Qed.

Lemma lift_Ok {S A} (r : res A) a (s : S) : r = Ok a → (lift r : M S A) s = Ok (a, s).
Proof. by intros ->. Qed.

Lemma M_bind_Fault {S A B} (m : M S A) (f : A → M S B) s :
  m s = Fault → mbind f m s = Fault.
Proof. intros H. unfold mbind, M_bind. by rewrite H. Qed.

(** A successful sequence splits into its steps. *)
Lemma M_bind_inv {S A B} (m : M S A) (f : A → M S B) s b s' :
  mbind f m s = Ok (b, s') → ∃ a s1, m s = Ok (a, s1) ∧ f a s1 = Ok (b, s').
Proof. unfold mbind, M_bind. destruct (m s) as [[a s1]| |]; naive_solver. Qed.

(** The parts of an outcome, for states that are better left unevaluated. *)
Lemma ok_state {S A} (a b : A) (s t : S) : Ok (a, s) = Ok (b, t) → s = t.
Proof. by intros [= _ ->]. Qed.
Lemma ok_value {S A} (a b : A) (s t : S) : Ok (a, s) = Ok (b, t) → a = b.
Proof. by intros [= -> _]. Qed.

(** ** Automation *)

(** Steps a run whose head is known by hypothesis [H]. *)
Ltac step_by H := erewrite M_bind_Ok by (exact H); cbv beta.

(** Unfolds monadic plumbing, cases on the scrutinee of the [match] in a
    hypothesis, and simplifies the resulting equations. *)
Ltac case_hyp H :=
  match type of H with
  | context [match ?x with _ => _ end] => destruct x eqn:?; simplify_eq/=
  end.

(** Boolean comparisons on [Z] to propositions, everywhere. *)
Ltac zify_bool :=
  repeat match goal with
  | H : (_ && _) = true |- _ => apply andb_true_iff in H as [? ?]
  | H : (_ && _) = false |- _ => apply andb_false_iff in H
  | H : (_ || _) = true |- _ => apply orb_true_iff in H
  | H : (_ || _) = false |- _ => apply orb_false_iff in H as [? ?]
  | H : negb _ = true |- _ => apply negb_true_iff in H
  | H : negb _ = false |- _ => apply negb_false_iff in H
  | H : Z.eqb _ _ = true |- _ => apply Z.eqb_eq in H
  | H : Z.eqb _ _ = false |- _ => apply Z.eqb_neq in H
  | H : Z.ltb _ _ = true |- _ => apply Z.ltb_lt in H
  | H : Z.ltb _ _ = false |- _ => apply Z.ltb_ge in H
  | H : Z.leb _ _ = true |- _ => apply Z.leb_le in H
  | H : Z.leb _ _ = false |- _ => apply Z.leb_gt in H
  | H : bool_decide _ = true |- _ => apply bool_decide_eq_true in H
  | H : bool_decide _ = false |- _ => apply bool_decide_eq_false in H
  end.

Ltac zbool := zify_bool; try lia.

(** Decidable side conditions on concrete data, by evaluation. *)
Ltac by_compute := apply (bool_decide_unpack _); vm_compute; exact I.

Create HintDb cfg.

(** ** Generic lemmas on machine integers *)

Lemma u32_small z : (0 ≤ z < 2 ^ 32)%Z → u32 z = z.
Proof. intros ?. unfold u32. by apply Z.mod_small. Qed.

Lemma u32_range z : (0 ≤ u32 z < 2 ^ 32)%Z.
Proof. unfold u32. apply Z.mod_pos_bound. lia. Qed.

Lemma u16_range z : (0 ≤ u16 z < 2 ^ 16)%Z.
Proof. unfold u16. apply Z.mod_pos_bound. lia. Qed.

Lemma u8_range z : (0 ≤ u8 z < 2 ^ 8)%Z.
Proof. unfold u8. apply Z.mod_pos_bound. lia. Qed.

Lemma s32_small z : (INT_MIN ≤ z ≤ INT_MAX)%Z → s32 z = z.
Proof.
  unfold s32, INT_MIN, INT_MAX. intros ?. rewrite Z.mod_small; lia.
Qed.

Lemma s32_range z : (INT_MIN ≤ s32 z ≤ INT_MAX)%Z.
Proof.
  unfold s32, INT_MIN, INT_MAX.
  pose proof (Z.mod_pos_bound (z + 2 ^ 31) (2 ^ 32)). lia.
Qed.

#[export] Hint Resolve u32_range u16_range u8_range s32_range : cfg.

(** ** Generic lemmas on lists *)

(** Induction in steps of a fixed stride, for loops that consume a block of
    the input at a time. *)
Lemma list_ind3 {A} (P : list A → Prop) :
  P [] → (∀ a, P [a]) → (∀ a b, P [a; b]) →
  (∀ a b c l, P l → P (a :: b :: c :: l)) → ∀ l, P l.
Proof.
  intros H0 H1 H2 H3. fix IH 1. intros [|a [|b [|c l]]].
  - exact H0.
  - exact (H1 a).
  - exact (H2 a b).
  - apply H3. apply IH.
Qed.

(** ** First-child / next-sibling trees

    The service links its type tables and its objects through a [child] and a
    [brother] pointer.  A [forest] is the value such a pointer stands for:
    the node it designates, what hangs below it, and its later siblings. *)

Inductive forest (A : Type) : Type :=
| FNil
| FCons (a : A) (kids sibs : forest A).
Arguments FNil {A}.
Arguments FCons {A} a kids sibs.

(** The nodes in the order a walk that goes down before it goes right meets
    them. *)
Fixpoint preorder {A} (f : forest A) : list A :=
  match f with
  | FNil => []
  | FCons a kids sibs => a :: preorder kids ++ preorder sibs
  end.

(** The top level of a forest. *)
Fixpoint roots {A} (f : forest A) : list A :=
  match f with
  | FNil => []
  | FCons a _ sibs => a :: roots sibs
  end.

Lemma roots_preorder {A} (f : forest A) a : a ∈ roots f → a ∈ preorder f.
Proof. induction f; set_solver. Qed.
