(* ===== verification/CString.v ===== *)
(** * C strings

    The part of the C library's string functions that the configuration
    service uses.  A string is the list of its bytes before the terminating
    NUL; a buffer is the list of all its bytes. *)

From S2P Require Import Prelude.
Open Scope Z_scope.

Abbreviation cstr := (list Z).

(** Literals: [cs "root"] is the C string ["root"], [chr "."] a character. *)
Definition chr (a : ascii) : Z := Z.of_N (N_of_ascii a).
Fixpoint cs (s : string) : cstr :=
  match s with
  | EmptyString => []
  | String a s' => chr a :: cs s'
  end.

(** A well-formed string has no NUL byte inside. *)
Definition byte_ok (c : Z) : Prop := 0 ≤ c < 256.
Definition char_ok (c : Z) : Prop := 1 ≤ c < 256.
Abbreviation str_ok s := (Forall char_ok s).

#[export] Instance byte_ok_dec c : Decision (byte_ok c).
Proof. unfold byte_ok. apply _. Defined.
#[export] Instance char_ok_dec c : Decision (char_ok c).
Proof. unfold char_ok. apply _. Defined.

(** The string a buffer holds: the bytes before the first NUL. *)
Fixpoint str_of (buf : list Z) : cstr :=
  match buf with
  | [] => []
  | c :: buf' => if c =? 0 then [] else c :: str_of buf'
  end.

Definition strlen (s : cstr) : Z := zlen s.
Definition streq (s1 s2 : cstr) : bool := bool_decide (s1 = s2).

(** [strcmp]: the sign of the first difference. *)
Fixpoint strcmp (s1 s2 : cstr) : Z :=
  match s1, s2 with
  | [], [] => 0
  | [], _ :: _ => -1
  | _ :: _, [] => 1
  | a :: s1', b :: s2' => if a =? b then strcmp s1' s2' else if a <? b then -1 else 1
  end.

(** [strncpy(dst, s, size - 1)] into a zeroed buffer of [size] bytes. *)
Definition strncpy_z (size : nat) (s : cstr) : cstr := take (size - 1) s.

(** [strchr]: the part of [s] before the first [c] and the part after it. *)
Fixpoint strchr (s : cstr) (c : Z) : option (cstr * cstr) :=
  match s with
  | [] => None
  | d :: s' =>
      if d =? c then Some ([], s')
      else match strchr s' c with
           | Some (pre, post) => Some (d :: pre, post)
           | None => None
           end
  end.

Fixpoint is_prefix (p s : cstr) : bool :=
  match p, s with
  | [], _ => true
  | a :: p', b :: s' => (a =? b) && is_prefix p' s'
  | _, _ => false
  end.

(** [strstr]: what precedes the first occurrence of [p], and the string from
    it on. *)
Fixpoint strstr (s p : cstr) : option (cstr * cstr) :=
  if is_prefix p s then Some ([], s)
  else match s with
       | [] => None
       | d :: s' =>
           match strstr s' p with
           | Some (pre, post) => Some (d :: pre, post)
           | None => None
           end
       end.

(** ** Characters *)

Definition is_digit (c : Z) : bool := (48 <=? c) && (c <=? 57).
Definition is_space (c : Z) : bool := (c =? 32) || ((9 <=? c) && (c <=? 13)).
Definition tolower (c : Z) : Z := if (65 <=? c) && (c <=? 90) then c + 32 else c.

(** ** Numbers *)

Fixpoint atoi_digits (acc : Z) (s : cstr) : Z :=
  match s with
  | c :: s' => if is_digit c then atoi_digits (acc * 10 + (c - 48)) s' else acc
  | [] => acc
  end.

Fixpoint skip_space (s : cstr) : cstr :=
  match s with
  | c :: s' => if is_space c then skip_space s' else s
  | [] => []
  end.

(** [atoi] is [(int) strtol(s, NULL, 10)]: the result saturates. *)
Definition clamp_int (z : Z) : Z := Z.max INT_MIN (Z.min INT_MAX z).
Definition atoi (s : cstr) : Z :=
  match skip_space s with
  | c :: s' =>
      if c =? 45 then clamp_int (- atoi_digits 0 s')
      else if c =? 43 then clamp_int (atoi_digits 0 s')
      else clamp_int (atoi_digits 0 (c :: s'))
  | [] => 0
  end.

(** Decimal digits, most significant first ([%u], [%d]).  Ten steps print
    any 32-bit value. *)
Fixpoint dec_digits (fuel : nat) (n : Z) (acc : cstr) : cstr :=
  match fuel with
  | O => acc
  | S fuel' =>
      let acc' := (48 + n mod 10) :: acc in
      if n <? 10 then acc' else dec_digits fuel' (n / 10) acc'
  end.
Definition fmt_u (n : Z) : cstr := dec_digits 10 n [].
Definition fmt_d (n : Z) : cstr :=
  if n <? 0 then 45 :: fmt_u (- n) else fmt_u n.

(** ** Lemmas *)

#[export] Hint Unfold byte_ok char_ok : cfg.

Lemma streq_eq s1 s2 : streq s1 s2 = true ↔ s1 = s2.
Proof. unfold streq. apply bool_decide_eq_true. Qed.

Lemma streq_neq s1 s2 : streq s1 s2 = false ↔ s1 ≠ s2.
Proof. unfold streq. apply bool_decide_eq_false. Qed.

Lemma streq_refl s : streq s s = true.
Proof. by apply streq_eq. Qed.

Lemma strcmp_eq s1 s2 : strcmp s1 s2 = 0 ↔ s1 = s2.
Proof.
  revert s2. induction s1 as [|a s1 IH]; intros [|b s2]; simpl; [done|done|done|].
  destruct (a =? b) eqn:E; [|destruct (a <? b)]; zify_bool; subst; naive_solver.
Qed.

Lemma strlen_cons c s : strlen (c :: s) = strlen s + 1.
Proof. unfold strlen. simpl length. lia. Qed.

Lemma strlen_app s t : strlen (s ++ t) = strlen s + strlen t.
Proof. unfold strlen. rewrite length_app. lia. Qed.

Lemma strlen_nonneg s : 0 ≤ strlen s.
Proof. unfold strlen. lia. Qed.

Lemma str_of_ok s : str_ok s → str_of s = s.
Proof.
  induction 1 as [|c s Hc Hs IH]; simpl; [done|].
  rewrite (proj2 (Z.eqb_neq c 0)) by (unfold char_ok in *; lia). by rewrite IH.
Qed.

Lemma str_of_app_nul s rest : str_ok s → str_of (s ++ 0 :: rest) = s.
Proof.
  induction 1 as [|c s Hc Hs IH]; simpl; [done|].
  rewrite (proj2 (Z.eqb_neq c 0)) by (unfold char_ok in *; lia). by rewrite IH.
Qed.

Lemma strchr_Some s c pre post :
  strchr s c = Some (pre, post) → s = pre ++ c :: post ∧ c ∉ pre.
Proof.
  revert pre post. induction s as [|d s IH]; intros pre post; simpl; [done|].
  destruct (d =? c) eqn:E.
  - intros [= <- <-]. zify_bool. subst. split; [done|]. set_solver.
  - destruct (strchr s c) as [[p q]|] eqn:E2; intros [= <- <-].
    destruct (IH p q eq_refl) as [-> ?]. zify_bool. set_solver.
Qed.

Lemma strchr_None s c : strchr s c = None ↔ c ∉ s.
Proof.
  induction s as [|d s IH]; simpl; [set_solver|].
  destruct (d =? c) eqn:E; zify_bool.
  - subst. set_solver.
  - destruct (strchr s c) as [[p q]|]; set_solver.
Qed.

Lemma strchr_app s c post : c ∉ s → strchr (s ++ c :: post) c = Some (s, post).
Proof.
  induction s as [|d s IH]; intros Hc; simpl.
  - by rewrite Z.eqb_refl.
  - rewrite (proj2 (Z.eqb_neq d c)) by set_solver. rewrite IH by set_solver. done.
Qed.

Lemma strchr_length s c pre post :
  strchr s c = Some (pre, post) → (length post < length s)%nat.
Proof.
  intros [-> _]%strchr_Some. rewrite length_app. simpl. lia.
Qed.

(** *** Decimal numbers *)

Lemma is_digit_iff c : is_digit c = true ↔ 48 ≤ c ≤ 57.
Proof. unfold is_digit. rewrite andb_true_iff, !Z.leb_le. lia. Qed.

Abbreviation digits s := (Forall (λ c, 48 ≤ c ≤ 57) s).

(** The value of a string of digits. *)
Definition digits_val (acc : Z) (s : cstr) : Z :=
  foldl (λ a c, a * 10 + (c - 48)) acc s.

Definition starts_with_digit (s : cstr) : bool :=
  match s with c :: _ => is_digit c | [] => false end.

Lemma atoi_digits_app acc s rest :
  digits s → starts_with_digit rest = false →
  atoi_digits acc (s ++ rest) = digits_val acc s.
Proof.
  intros Hs Hr. revert acc. induction Hs as [|c s Hc Hs IH]; intros acc; simpl.
  - destruct rest as [|c rest]; simpl in *; [done|]. by rewrite Hr.
  - rewrite (proj2 (is_digit_iff c)) by lia. apply IH.
Qed.

Lemma dec_digits_acc fuel n acc : dec_digits fuel n acc = dec_digits fuel n [] ++ acc.
Proof.
  revert n acc. induction fuel as [|f IH]; intros n acc; simpl; [done|].
  destruct (n <? 10); [done|].
  rewrite IH, (IH _ [_]), <- app_assoc. done.
Qed.

Lemma dec_digits_digits fuel n : 0 ≤ n → digits (dec_digits fuel n []).
Proof.
  revert n. induction fuel as [|f IH]; intros n Hn; simpl; [constructor|].
  pose proof (Z.mod_pos_bound n 10).
  destruct (n <? 10).
  - constructor; [lia|constructor].
  - rewrite dec_digits_acc, Forall_app. split.
    + apply IH. apply Z.div_pos; lia.
    + constructor; [lia|constructor].
Qed.

Lemma digits_val_app acc s t : digits_val acc (s ++ t) = digits_val (digits_val acc s) t.
Proof. unfold digits_val. by rewrite foldl_app. Qed.

Lemma dec_digits_val fuel n :
  0 ≤ n < 10 ^ Z.of_nat fuel → digits_val 0 (dec_digits fuel n []) = n.
Proof.
  revert n. induction fuel as [|f IH]; intros n Hn.
  - simpl in *. lia.
  - rewrite Nat2Z.inj_succ, Z.pow_succ_r in Hn by lia. simpl.
    pose proof (Z.div_mod n 10). pose proof (Z.mod_pos_bound n 10).
    destruct (n <? 10) eqn:E; zify_bool.
    + unfold digits_val. simpl. rewrite Z.mod_small; lia.
    + rewrite dec_digits_acc, digits_val_app, IH.
      * unfold digits_val. simpl. lia.
      * split; [apply Z.div_pos; lia|]. apply Z.div_lt_upper_bound; lia.
Qed.

Lemma dec_digits_head fuel n :
  0 ≤ n → fuel ≠ O → ∃ c s, dec_digits fuel n [] = c :: s ∧ 48 ≤ c ≤ 57.
Proof.
  intros Hn Hf. pose proof (dec_digits_digits fuel n Hn) as Hd.
  destruct fuel as [|f]; [done|].
  assert (Hne : dec_digits (S f) n [] ≠ []).
  { simpl. destruct (n <? 10); [done|]. rewrite dec_digits_acc.
    by destruct (dec_digits f _ []). }
  destruct (dec_digits (S f) n []) as [|c s]; [done|].
  inversion Hd; subst. eauto.
Qed.

Lemma fmt_u_digits n : 0 ≤ n → digits (fmt_u n).
Proof. apply dec_digits_digits. Qed.

Lemma digits_val_mono acc s : 0 ≤ acc → digits s → 0 ≤ digits_val acc s.
Proof.
  intros Ha Hs. revert acc Ha. induction Hs as [|c s Hc Hs IH]; intros acc Ha; simpl; [done|].
  apply IH. lia.
Qed.

Lemma skip_space_digit c s : 48 ≤ c ≤ 57 → skip_space (c :: s) = c :: s.
Proof.
  intros Hc. simpl. unfold is_space.
  destruct (c =? 32) eqn:?, (9 <=? c) eqn:?, (c <=? 13) eqn:?; zbool; done.
Qed.

(** Printing then reading a number gives it back, whatever follows it. *)
Lemma atoi_fmt_u n rest :
  0 ≤ n ≤ INT_MAX → starts_with_digit rest = false → atoi (fmt_u n ++ rest) = n.
Proof.
  intros Hn Hr. unfold INT_MAX in Hn.
  destruct (dec_digits_head 10 n) as (c & s & Hs & Hc); [lia|done|].
  pose proof (fmt_u_digits n) as Hd. unfold atoi, fmt_u in *. rewrite Hs in *.
  rewrite <- app_comm_cons, skip_space_digit by lia.
  rewrite (proj2 (Z.eqb_neq c 45)), (proj2 (Z.eqb_neq c 43)) by lia.
  rewrite app_comm_cons, atoi_digits_app by (auto; apply Hd; lia).
  rewrite <- Hs, dec_digits_val by lia.
  unfold clamp_int, INT_MAX, INT_MIN. lia.
Qed.

Lemma atoi_fmt_d n rest :
  INT_MIN < n ≤ INT_MAX → starts_with_digit rest = false → atoi (fmt_d n ++ rest) = n.
Proof.
  intros Hn Hr. unfold fmt_d. destruct (n <? 0) eqn:E; zify_bool; [|apply atoi_fmt_u; lia || done].
  unfold INT_MIN, INT_MAX in *.
  pose proof (fmt_u_digits (- n)). unfold atoi. simpl.
  rewrite atoi_digits_app by (auto; apply fmt_u_digits; lia).
  unfold fmt_u. rewrite dec_digits_val by lia.
  unfold clamp_int, INT_MIN, INT_MAX. lia.
Qed.

Lemma digits_char_ok s : digits s → str_ok s.
Proof. intros H. eapply Forall_impl; [done|]. unfold char_ok. simpl. lia. Qed.

#[export] Hint Resolve fmt_u_digits digits_char_ok : cfg.

(** ** Bits of bytes *)

Lemma byte_high z i : byte_ok z → 8 ≤ i → Z.testbit z i = false.
Proof.
  intros Hz Hi. unfold byte_ok in Hz. rewrite <- (Z.mod_small z (2 ^ 8)) by lia. apply Z.mod_pow2_bits_high. lia.
Qed.

(** Equality of bytes, bit by bit. *)
Lemma byte_ext a b : byte_ok a → byte_ok b → (∀ i, 0 ≤ i < 8 → Z.testbit a i = Z.testbit b i) → a = b.
Proof.
  intros Ha Hb Hbits. apply Z.bits_inj'. intros i Hi. destruct (decide (i < 8)) as [|Hge]; [by apply Hbits|].
  by rewrite !byte_high by (done || lia).
Qed.

Lemma schar_bit z i : 0 ≤ i < 8 → Z.testbit (schar z) i = Z.testbit z i.
Proof.
  intros Hi. rewrite <- (Z.mod_pow2_bits_low (schar z) 8), <- (Z.mod_pow2_bits_low z 8) by lia. f_equal.
  unfold schar. change (2 ^ 8) with 256. rewrite Zminus_mod, Zmod_mod, <- Zminus_mod. f_equal. lia.
Qed.

(** Bits of expressions over bytes, at a literal position. *)
Ltac bit_step :=
  match goal with
  | |- context [Z.testbit (Z.lor ?a ?b) ?k] => rewrite (Z.lor_spec a b k)
  | |- context [Z.testbit (Z.land ?a ?b) ?k] => rewrite (Z.land_spec a b k)
  | |- context [Z.testbit (Z.shiftl ?a ?n) ?k] => rewrite (Z.shiftl_spec a n k) by lia
  | |- context [Z.testbit (Z.shiftr ?a ?n) ?k] => rewrite (Z.shiftr_spec a n k) by lia
  | |- context [Z.testbit ?a (?k + ?n)] => let v := eval vm_compute in (k + n) in change (k + n) with v
  | |- context [Z.testbit ?a (?k - ?n)] => let v := eval vm_compute in (k - n) in change (k - n) with v
  | |- context [Z.testbit ?a (Zneg ?p)] => rewrite (Z.testbit_neg_r a (Zneg p)) by lia
  | |- context [Z.testbit (Zpos ?p) ?k] => let v := eval vm_compute in (Z.testbit (Zpos p) k) in change (Z.testbit (Zpos p) k) with v
  | |- context [Z.testbit (schar ?a) ?k] => rewrite (schar_bit a k) by lia
  end.

Lemma byte_cases i : 0 ≤ i < 8 → i = 0 ∨ i = 1 ∨ i = 2 ∨ i = 3 ∨ i = 4 ∨ i = 5 ∨ i = 6 ∨ i = 7.
Proof. lia. Qed.

Lemma u8_bit z i : 0 ≤ i < 8 → Z.testbit (u8 z) i = Z.testbit z i.
Proof. intros Hi. unfold u8. apply Z.mod_pow2_bits_low. lia. Qed.

Lemma land_255_bit z i : 0 ≤ i < 8 → Z.testbit (Z.land z 255) i = Z.testbit z i.
Proof. intros Hi. rewrite Z.land_spec. change 255 with (Z.ones 8). by rewrite Z.ones_spec_low, andb_true_r by lia. Qed.
