(* ===== verification/Text.v ===== *)
(** * Text routines shared by the string utilities

    [strtok], [strcasestr], [fgets] and backslash escaping, with the lemmas
    the components use. *)

From S2P Require Import Prelude CString.
Open Scope Z_scope.

Module Text.
(** ** Tokens *)

Definition in_set (delim : list Z) (c : Z) : bool := existsb (Z.eqb c) delim.

(** What successive calls of [strtok] return before [NULL]. *)
Fixpoint tokens (delim : list Z) (s : cstr) : list cstr :=
  match s with
  | [] => []
  | c :: s' =>
      if in_set delim c then tokens delim s'
      else match s' with
           | [] => [[c]]
           | c' :: _ =>
               if in_set delim c' then [c] :: tokens delim s'
               else match tokens delim s' with
                    | t :: ts => (c :: t) :: ts
                    | [] => [[c]]
                    end
           end
  end.

Fixpoint take_while (p : Z → bool) (s : cstr) : cstr :=
  match s with
  | c :: s' => if p c then c :: take_while p s' else []
  | [] => []
  end.

Fixpoint drop_while (p : Z → bool) (s : cstr) : cstr :=
  match s with
  | c :: s' => if p c then drop_while p s' else s
  | [] => []
  end.

(** What a first call of [strtok] leaves in the buffer, read from its start. *)
Definition strtok_cut (delim : list Z) (s : cstr) : cstr :=
  take_while (in_set delim) s ++
  take_while (λ c, negb (in_set delim c)) (drop_while (in_set delim) s).

Fixpoint join_by (sep : Z) (ts : list cstr) : cstr :=
  match ts with
  | [] => []
  | [t] => t
  | t :: ts' => t ++ sep :: join_by sep ts'
  end.

(** A token: not empty, and free of separators. *)
Definition tok (delim : list Z) (t : cstr) : Prop :=
  t ≠ [] ∧ Forall (λ c, in_set delim c = false) t.

Lemma tokens_cons delim t s :
  tok delim t → match s with [] => True | c :: _ => in_set delim c = true end →
  tokens delim (t ++ s) = t :: tokens delim s.
Proof.
  intros [Hne Ht] Hs. induction t as [|c t IH]; [done|].
  apply Forall_cons in Ht as [Hc Ht]. cbn [app tokens]. rewrite Hc.
  destruct t as [|c' t]; cbn [app].
  - destruct s as [|d s]; [done|]. by rewrite Hs.
  - rewrite (proj1 (proj1 (Forall_cons _ _ _) Ht)).
    change (c' :: t ++ s) with ((c' :: t) ++ s). by rewrite IH.
Qed.

Lemma tokens_join delim sep ts :
  in_set delim sep = true → Forall (tok delim) ts → tokens delim (join_by sep ts) = ts.
Proof.
  intros Hsep Hts. induction Hts as [|t ts Ht Hts IH]; [done|].
  destruct ts as [|t' ts].
  - cbn [join_by]. rewrite <- (app_nil_r t) at 1. by rewrite tokens_cons.
  - change (join_by sep (t :: t' :: ts)) with (t ++ sep :: join_by sep (t' :: ts)).
    rewrite tokens_cons by done. cbn [tokens]. by rewrite Hsep, IH.
Qed.

Lemma tokens_ok delim s : Forall (tok delim) (tokens delim s).
Proof.
  induction s as [|c s IH]; [constructor|]. cbn [tokens].
  destruct (in_set delim c) eqn:Hc; [done|].
  destruct s as [|c' s]; [repeat constructor; done|].
  destruct (in_set delim c') eqn:Hc'; [repeat constructor; done|].
  destruct (tokens delim (c' :: s)) as [|t ts]; [repeat constructor; done|].
  apply Forall_cons in IH as [[_ Ht] IH]. constructor; [|done]. split; [done|]. by constructor.
Qed.

(** ** Searching without case *)

Definition casefold (s : cstr) : cstr := map tolower s.

(** [strcasecmp] gives 0. *)
Definition case_eq (s t : cstr) : bool := bool_decide (casefold s = casefold t).

(** [strncasecmp(s, p, strlen(p)) == 0]. *)
Definition has_case_prefix (p s : cstr) : bool := is_prefix (casefold p) (casefold s).

Definition strcasestr (s p : cstr) : option (cstr * cstr) :=
  match strstr (casefold s) (casefold p) with
  | Some (pre, _) => Some (take (length pre) s, drop (length pre) s)
  | None => None
  end.

Lemma is_prefix_app p s : is_prefix p s = true ↔ ∃ post, s = p ++ post.
Proof.
  revert s. induction p as [|a p IH]; intros s; simpl; [split; eauto|].
  destruct s as [|b s]; [split; [done|]; by intros [? ?]|]. rewrite andb_true_iff, IH, Z.eqb_eq. split.
  - intros [-> [post ->]]. by exists post.
  - intros [post [= -> ->]]. eauto.
Qed.

Lemma is_prefix_length p s : is_prefix p s = true → (length p ≤ length s)%nat.
Proof. intros [post ->]%is_prefix_app. rewrite length_app. lia. Qed.

Lemma strstr_split s p pre post :
  strstr s p = Some (pre, post) → s = pre ++ post ∧ is_prefix p post = true.
Proof.
  revert pre post. induction s as [|d s IH]; intros pre post; cbn [strstr];
    destruct (is_prefix p _) eqn:Hp; intros H; simplify_eq; try done.
  destruct (strstr s p) as [[pre' post']|] eqn:E; simplify_eq.
  destruct (IH _ _ eq_refl) as [-> ?]. done.
Qed.

Lemma strstr_here s p : is_prefix p s = true → strstr s p = Some ([], s).
Proof. intros H. destruct s; cbn [strstr]; by rewrite H. Qed.

Lemma strstr_None s p : strstr s p = None → is_prefix p s = false.
Proof. destruct s; cbn [strstr]; by destruct (is_prefix p _). Qed.

(** Whether a line starts with a key is whether [strstr] finds it at the
    start. *)
Lemma strstr_start s p :
  match strstr s p with Some ([], _) => is_prefix p s = true | _ => is_prefix p s = false end.
Proof.
  destruct s as [|c s]; cbn [strstr]; destruct (is_prefix p _) eqn:E; try done.
  by destruct (strstr s p) as [[? ?]|].
Qed.

(** ** Lines *)

(** [fgets(stream, size, fp)] on what is left of the file: at most [size - 1]
    bytes, up to and including a newline. *)
Fixpoint fgets_loop (n : nat) (content : cstr) : cstr * cstr :=
  match n, content with
  | O, _ | _, [] => ([], content)
  | S n', c :: content' =>
      if c =? 10 then ([c], content')
      else let '(line, rest) := fgets_loop n' content' in (c :: line, rest)
  end.

Definition fgets (size : nat) (content : cstr) : option (cstr * cstr) :=
  match content with
  | [] => None
  | _ => Some (fgets_loop (size - 1) content)
  end.

Lemma fgets_loop_line n l rest :
  (length l < n)%nat → Forall (λ c, c ≠ 10) l → fgets_loop n (l ++ 10 :: rest) = (l ++ [10], rest).
Proof.
  revert n. induction l as [|c l IH]; intros n Hn Hl.
  - destruct n; [simpl in Hn; lia|done].
  - destruct n as [|n]; [simpl in Hn; lia|]. apply Forall_cons in Hl as [Hc Hl]. cbn [fgets_loop app].
    rewrite (proj2 (Z.eqb_neq _ _) Hc), IH; [done|simpl in Hn; lia|done].
Qed.

Lemma fgets_line size l rest :
  (length l + 1 < size)%nat → Forall (λ c, c ≠ 10) l →
  fgets size (l ++ 10 :: rest) = Some (l ++ [10], rest).
Proof.
  intros Hn Hl. unfold fgets. rewrite (fgets_loop_line (size - 1)) by (lia || done).
  by destruct l.
Qed.

Lemma fgets_shorter size s line rest :
  (1 < size)%nat → fgets size s = Some (line, rest) → (length rest < length s)%nat.
Proof.
  intros Hs. unfold fgets. destruct s as [|c s]; [done|]. intros [= H].
  assert (Hle : ∀ n s l r, fgets_loop n s = (l, r) → (length r ≤ length s)%nat).
  { clear. induction n as [|n IH]; intros [|c s] l r; simpl; intros H; simplify_eq; simpl; try lia.
    destruct (c =? 10); simplify_eq; [lia|]. destruct (fgets_loop n s) as [l' r'] eqn:E.
    simplify_eq. apply IH in E. lia. }
  destruct size as [|[|n]]; simpl in H; [lia..|]. destruct (c =? 10); simplify_eq; [simpl; lia|].
  destruct (fgets_loop _ s) as [l' r'] eqn:E. simplify_eq. apply Hle in E. simpl. lia.
Qed.

(** ** Escaping *)

(** Every character in need of it is preceded by a backslash. *)
Definition esc (need : Z → bool) (s : cstr) : cstr :=
  concat (map (λ c, if need c then [92; c] else [c]) s).

Fixpoint unesc (s : cstr) : cstr :=
  match s with
  | [] => []
  | c :: s' =>
      if c =? 92 then match s' with d :: s'' => d :: unesc s'' | [] => [c] end
      else c :: unesc s'
  end.

Lemma unesc_esc need s :
  need 92 = true ∨ 92 ∉ s → unesc (esc need s) = s.
Proof.
  intros H. induction s as [|c s IH]; [done|]. unfold esc in *. cbn [map concat].
  assert (IH' : unesc (concat (map (λ c, if need c then [92; c] else [c]) s)) = s).
  { apply IH. destruct H; [by left|right; set_solver]. }
  destruct (need c) eqn:Hc; cbn [app unesc].
  - change (92 =? 92) with true. cbn iota. by rewrite IH'.
  - rewrite (proj2 (Z.eqb_neq c 92)), IH'; [done|]. destruct H; [congruence|set_solver].
Qed.

Lemma esc_app need s1 s2 : esc need (s1 ++ s2) = esc need s1 ++ esc need s2.
Proof. unfold esc. by rewrite map_app, concat_app. Qed.

Lemma esc_length need s : (length s ≤ length (esc need s) ≤ 2 * length s)%nat.
Proof.
  unfold esc. induction s as [|c s IH]; simpl; [lia|]. rewrite length_app.
  destruct (need c); simpl; lia.
Qed.

Lemma esc_id need s : Forall (λ c, need c = false) s → esc need s = s.
Proof. intros H. unfold esc. induction H as [|c s Hc _ IH]; [done|]. simpl. by rewrite Hc, IH. Qed.

(** Is every special character of [s] preceded by its own backslash? *)
Fixpoint guarded (need : Z → bool) (s : cstr) : bool :=
  match s with
  | [] => true
  | c :: s' =>
      if c =? 92 then match s' with _ :: s'' => guarded need s'' | [] => true end
      else negb (need c) && guarded need s'
  end.

Lemma esc_guarded need s : need 92 = true ∨ 92 ∉ s → guarded need (esc need s) = true.
Proof.
  intros H. induction s as [|c s IH]; [done|]. unfold esc in *. cbn [map concat].
  assert (IH' : guarded need (concat (map (λ c, if need c then [92; c] else [c]) s)) = true).
  { apply IH. destruct H; [by left|right; set_solver]. }
  destruct (need c) eqn:Hc; cbn [app guarded]; [done|].
  rewrite (proj2 (Z.eqb_neq c 92)), Hc, IH'; [done|]. destruct H; [congruence|set_solver].
Qed.
End Text.
