(* ===== verification/Utility.v ===== *)
(** * String utilities of the configuration service

    The pure part of [service/cfg/utility.c]: escaping and screening of
    command lines, number and address formats, MAC notation, cutting and
    adding substrings, and reading a value back from a profile file.  A
    function that writes to a caller's or a local buffer returns [Fault] when
    it writes outside it. *)

From S2P Require Import Prelude CString Text.
Open Scope Z_scope.

Module Utility.
Import Text.

(** ** Numbers and letters *)

Fixpoint isNumber_loop (buf : cstr) : Z :=
  match buf with
  | [] => 1
  | c :: buf' => if is_digit c then isNumber_loop buf' else 0
  end.
Definition isNumber (buf : cstr) : Z :=
  match buf with [] => 0 | _ => isNumber_loop buf end.

(** [itoa] fills its static buffer of 7 bytes from the end; [b] is the text
    written so far, of which at most 6 bytes fit. *)
Definition put_front (c : Z) (b : cstr) : res cstr :=
  if strlen b <? 6 then mret (c :: b) else Fault.

Fixpoint itoa_loop (fuel : nat) (i : Z) (b : cstr) : res cstr :=
  match fuel with
  | O => NoFuel
  | S fuel' =>
      b' ← put_front (48 + Z.rem i 10) b;
      if Z.quot i 10 =? 0 then mret b' else itoa_loop fuel' (Z.quot i 10) b'
  end.

Definition itoa (i : Z) : res cstr :=
  let sign := i <? 0 in
  b ← itoa_loop 10 (if sign then s32 (- i) else i) [];
  if sign then put_front 45 b else mret b.

Definition string_tolower (s : cstr) : cstr :=
  map (λ c, if (65 <=? c) && (c <=? 90) then c + 32 else c) s.
Definition string_toUper (s : cstr) : cstr :=
  map (λ c, if (97 <=? c) && (c <=? 122) then c - 32 else c) s.

(** On a buffer that holds at least one byte; the first one is changed
    whatever it is. *)
Definition string_FirstCharToUp (s : cstr) : cstr :=
  match string_tolower s with
  | c :: s' => u8 (c - 32) :: s'
  | [] => [u8 (0 - 32)]
  end.

(** ** Escaping and screening of commands *)

Definition needs_escape (c : Z) : bool := c =? 96.

(** What the loop of [escape_special_character] ends with: the text written
    to [outp], or, the buffer being full, the rest of [inp]. *)
Inductive escaped := Written (outp : cstr) | NeedsIncrease (inp : cstr).

Fixpoint escape_loop (inp outp : cstr) (len : Z) : res escaped :=
  match inp with
  | [] => if strlen outp <? len then mret (Written outp) else Fault
  | c :: inp' =>
      let outp' := outp ++ (if needs_escape c then [92; c] else [c]) in
      if len <? strlen outp' then Fault
      else if len <=? strlen outp' then mret (NeedsIncrease inp')
      else escape_loop inp' outp' len
  end.

(** How far the last [c] of [s] is from its start. *)
Fixpoint last_pos (s : cstr) (c : Z) : option nat :=
  match s with
  | [] => None
  | d :: s' =>
      match last_pos s' c with
      | Some n => Some (S n)
      | None => if d =? c then Some O else None
      end
  end.

(** The string the returned pointer points to. *)
Definition escape_special_character (inp : cstr) (len : Z) : res cstr :=
  match strchr inp 96 with
  | None => mret inp
  | Some (_, post) =>
      let ptrend := default O (last_pos (96 :: post) 96) in
      if Nat.leb ptrend 1 then mret inp
      else r ← escape_loop inp [] len;
           match r with Written outp => mret outp | NeedsIncrease rest => mret rest end
  end.

Definition s_inject_code : list Z := cs ";&|$<'\!#".

Definition check_injection_code (ch_at : Z) : Z :=
  if existsb (Z.eqb ch_at) s_inject_code then -1 else 0.

Fixpoint injection_loop (cmd : cstr) (idx cmd_len : Z) : Z :=
  match cmd with
  | [] => 0
  | ch_at :: cmd' =>
      if check_injection_code ch_at =? -1 then
        if (ch_at =? chr "&") && (2 <=? cmd_len) && ((cmd_len - 1 =? idx) || (cmd_len - 2 =? idx))
        then injection_loop cmd' (idx + 1) cmd_len
        else if (ch_at =? chr "#") && (1 <=? cmd_len) && (0 =? idx)
        then injection_loop cmd' (idx + 1) cmd_len
        else -1
      else injection_loop cmd' (idx + 1) cmd_len
  end.

(** Called with [cmd_len = strlen(cmd)]; the argument [type] is only printed. *)
Definition check_injection_code_command (cmd : option cstr) : Z :=
  match cmd with
  | None | Some [] => 0
  | Some cmd => injection_loop cmd 0 (strlen cmd)
  end.

(** [system_escape]: the value returned without running anything, or the
    command line handed to [system]. *)
Inductive command := Refused (ret : Z) | System (pcmd : cstr).

Definition system_escape (cmd : option cstr) : res command :=
  match cmd with
  | None => mret (Refused (-1))
  | Some cmd =>
      if check_injection_code_command (Some cmd) =? -1 then mret (Refused (-1))
      else pcmd ← escape_special_character cmd 1025; mret (System pcmd)
  end.

(** [fputs_escape] and [fputs_escape_normal_file]: what is written to [fp]. *)
Definition fputs_escape (cmd : option cstr) : res cstr :=
  match cmd with
  | None => mret []
  | Some cmd =>
      if check_injection_code_command (Some cmd) =? -1 then mret []
      else escape_special_character cmd 1025
  end.

Definition fputs_escape_normal_file (cmd : option cstr) : res cstr :=
  match cmd with None => mret [] | Some cmd => escape_special_character cmd 1025 end.

Definition NEED_C (x : Z) : bool := (x =? 96) || (x =? 34) || (x =? 92) || (x =? 36).

(** The text [escape_param] writes. *)
Fixpoint escape_param_loop (chk_val : cstr) (remain_len : Z) : cstr :=
  match chk_val with
  | [] => []
  | c :: chk_val' =>
      if 2 <=? remain_len then
        if NEED_C c then 92 :: c :: escape_param_loop chk_val' (remain_len - 2)
        else c :: escape_param_loop chk_val' (remain_len - 1)
      else []
  end.

(** [out_val] is the buffer before the call; the result is the string found
    in it afterwards: no terminator is written. *)
Definition escape_param (chk_val : option cstr) (out_val : option (list Z)) (out_val_len : Z) : res cstr :=
  match chk_val, out_val with
  | Some chk_val, Some out_val =>
      if out_val_len - 1 <? 2 then mret []
      else if strlen chk_val <=? 0 then mret []
      else
        let w := escape_param_loop chk_val (out_val_len - 1) in
        if zlen out_val <? zlen w then Fault
        else mret (str_of (w ++ drop (length w) out_val))
  | _, _ => mret []
  end.

(** [specialCharacterHandle] builds the escaped text in 160 bytes and copies it
    back over the string, whose buffer has [cap] bytes. *)
Definition special (c : Z) : bool := (c =? 34) || (c =? 92) || (c =? 36) || (c =? 96).

Fixpoint special_loop (s handle : cstr) : res cstr :=
  match s with
  | [] => if strlen handle <? 160 then mret handle else Fault
  | c :: s' =>
      let handle' := handle ++ (if special c then [92; c] else [c]) in
      if strlen handle' <=? 160 then special_loop s' handle' else Fault
  end.

Definition specialCharacterHandle (oriStr : cstr) (cap : Z) : res cstr :=
  handle ← special_loop oriStr [];
  if strlen handle <? cap then mret handle else Fault.

(** ** Splitting and reading *)

Definition get_entry_number_cfg2 (buffer keyword : cstr) : option Z :=
  match strstr buffer keyword with
  | Some (_, tmp2) => Some (atoi (drop (length keyword) tmp2))
  | None => None
  end.

(** [cutPath] into rows of 32 bytes, [rows] of them. *)
Definition cutPath (path : cstr) (rows : nat) : res (Z * list cstr) :=
  match tokens [46] path with
  | [] => mret (-1, [])
  | ts =>
      if forallb (λ t, strlen t <? 32) ts && Nat.leb (length ts) rows then mret (0, ts) else Fault
  end.

(** The rows [splitName] writes: at most four, cut to 31 bytes. *)
Definition splitName (name : cstr) (delim : list Z) : list cstr :=
  let tmp := take 31 name in
  match tokens delim tmp with
  | [] => [strtok_cut delim tmp]
  | t :: ts => strtok_cut delim tmp :: map (take 31) (take 3 ts)
  end.

Definition MAXGET_PROFILE_SIZE : nat := 128.
Definition FAIL : Z := -1.
Definition NO_QMARKS : Z := 0.
Definition QMARKS : Z := 1.

(** A value cut out of a line, or the error. *)
Definition take_value (value : cstr) (totalLength size : Z) : Z * option cstr :=
  if size <? totalLength + 1 then (FAIL, Some [])
  else if totalLength <? 0 then (FAIL, Some [])
  else let str_return := take (Z.to_nat totalLength) value in (strlen str_return, Some str_return).

Fixpoint profile_loop (fuel : nat) (keyname : cstr) (size qmarkLength : Z) (skipQmark : nat)
    (fp : cstr) : res (Z * option cstr) :=
  match fuel with
  | O => NoFuel
  | S fuel' =>
      match fgets MAXGET_PROFILE_SIZE fp with
      | None => mret (FAIL, Some [])
      | Some (stream, fp') =>
          let enterOffSet := match last_pos stream 10 with None => 0 | Some _ => 1 end in
          match strstr stream keyname with
          | Some ([], _) =>
              mret (take_value (drop (length keyname + skipQmark) stream)
                      (s32 (strlen stream - strlen keyname - enterOffSet - qmarkLength)) size)
          | _ => profile_loop fuel' keyname size qmarkLength skipQmark fp'
          end
      end
  end.

(** The value returned and what is left in [str_return]; [file] is the content
    of the file, [None] when it cannot be opened. *)
Definition get_profile_str (keyname : cstr) (size type : Z) (file : option cstr) : res (Z * option cstr) :=
  match file with
  | None => mret (FAIL, None)
  | Some content =>
      if type =? QMARKS then profile_loop (S (length content)) keyname size 2 1 content
      else if type =? NO_QMARKS then profile_loop (S (length content)) keyname size 0 0 content
      else mret (FAIL, Some [])
  end.

Fixpoint profile_new_loop (fuel : nat) (keyname : cstr) (size : Z) (fp : cstr) : res (Z * option cstr) :=
  match fuel with
  | O => NoFuel
  | S fuel' =>
      match fgets MAXGET_PROFILE_SIZE fp with
      | None => mret (FAIL, Some [])
      | Some (stream, fp') =>
          match strstr stream keyname with
          | Some ([], _) =>
              let stream' := strtok_cut [10] (strtok_cut [13] stream) in
              mret (take_value (drop (length keyname) stream')
                      (s32 (strlen stream' - strlen keyname)) size)
          | _ => profile_new_loop fuel' keyname size fp'
          end
      end
  end.

Definition get_profile_str_new (keyname : cstr) (size : Z) (file : option cstr) : res (Z * option cstr) :=
  match file with
  | None => mret (FAIL, None)
  | Some content => profile_new_loop (S (length content)) keyname size content
  end.

(** ** Addresses *)

(** Does [s] begin with one to three digits and then what [k] accepts?  The
    regular expressions are greedy with backtracking. *)
Definition digits13 (k : cstr → bool) (s : cstr) : bool :=
  match s with
  | a :: s1 =>
      is_digit a &&
      (k s1 ||
       match s1 with
       | b :: s2 =>
           is_digit b && (k s2 || match s2 with c :: s3 => is_digit c && k s3 | [] => false end)
       | [] => false
       end)
  | [] => false
  end.

Definition dot (k : cstr → bool) (s : cstr) : bool :=
  match s with c :: s' => (c =? 46) && k s' | [] => false end.

(** [([0-9]{1,3})\.([0-9]{1,3})\.([0-9]{1,3})\.([0-9]{1,3})] *)
Definition ip_here (s : cstr) : bool :=
  digits13 (dot (digits13 (dot (digits13 (dot (digits13 (λ _, true))))))) s.

Definition is_xdigit (c : Z) : bool :=
  is_digit c || ((97 <=? c) && (c <=? 102)) || ((65 <=? c) && (c <=? 70)).

(** [([0-9a-fA-F]{2}:){5}[0-9a-fA-F]{2}] *)
Fixpoint mac_here (n : nat) (s : cstr) : bool :=
  match s with
  | a :: b :: s' =>
      is_xdigit a && is_xdigit b &&
      match n with
      | O => true
      | S n' => match s' with c :: s'' => (c =? 58) && mac_here n' s'' | [] => false end
      end
  | _ => false
  end.

(** The expressions are not anchored: a match anywhere will do. *)
Fixpoint regexec (here : cstr → bool) (s : cstr) : bool :=
  here s || match s with [] => false | _ :: s' => regexec here s' end.

Definition check_ip_format (ip_arg : cstr) : Z :=
  if regexec ip_here (take 15 ip_arg) then 1 else 0.
Definition check_mac_format (mac_arg : cstr) : Z :=
  if regexec (mac_here 5) (take 23 mac_arg) then 1 else 0.

(** [atoi(p[i])], where [p[i]] may be [NULL]. *)
Definition atoi_tok (ts : list cstr) (i : nat) : res Z := t ← deref (ts !! i); mret (atoi t).

(** The scan of the mask from its low bit on: the number of ones, or [None]. *)
Fixpoint mask_scan (n : nat) (binary_mask mask_counter : Z) : option Z :=
  match n with
  | O => Some mask_counter
  | S n' =>
      if Z.land binary_mask 1 =? 0 then
        if negb (mask_counter =? 0) then None else mask_scan n' (Z.shiftr binary_mask 1) mask_counter
      else mask_scan n' (Z.shiftr binary_mask 1) (mask_counter + 1)
  end.

(** [binary_mask |= x; binary_mask <<= 8]. *)
Definition mask_byte (binary_mask x : Z) : Z := Z.lor binary_mask (u32 x).
Definition mask_shift (binary_mask : Z) : Z := u32 (Z.shiftl binary_mask 8).

(** The value returned and the text written to [mask_decimal]. *)
Definition check_mask_format (mask_arg : cstr) (len : Z) : res (Z * option cstr) :=
  let mask := take 15 mask_arg in
  if check_ip_format mask =? 0 then mret (0, None)
  else
    let p := tokens [46] mask in
    p0 ← atoi_tok p 0; p1 ← atoi_tok p 1; p2 ← atoi_tok p 2; p3 ← atoi_tok p 3;
    let b0 := mask_shift (mask_byte 0 p0) in
    let b1 := mask_shift (mask_byte b0 p1) in
    let b2 := mask_shift (mask_byte b1 p2) in
    match mask_scan 32 (mask_byte b2 p3) 0 with
    | None => mret (0, None)
    | Some mask_counter => mret (1, Some (take (Z.to_nat (len - 1)) (fmt_d mask_counter)))
    end.

Definition check_ip_range (ip_begin_arg ip_end_arg : cstr) : res Z :=
  let ip_begin := take 15 ip_begin_arg in
  let ip_end := take 15 ip_end_arg in
  if streq ip_begin (cs "0.0.0.0") && streq ip_end (cs "0.0.0.0") then mret 1
  else
    let b := tokens [46] ip_begin in
    let e := tokens [46] ip_end in
    b0 ← atoi_tok b 0; e0 ← atoi_tok e 0;
    if negb (b0 =? e0) then mret 0
    else b1 ← atoi_tok b 1; e1 ← atoi_tok e 1;
    if negb (b1 =? e1) then mret 0
    else b2 ← atoi_tok b 2; e2 ← atoi_tok e 2;
    if negb (b2 =? e2) then mret 0
    else b3 ← atoi_tok b 3; e3 ← atoi_tok e 3;
    if e3 <? b3 then mret 0 else mret 1.

(** ** MAC notation *)

Definition MAC_STR_LEN : Z := 12.
Definition MAC_STR_DOT_LEN : Z := 17.

(** Reading a byte of a buffer. *)
Definition rd (buf : list Z) (i : Z) : res Z := deref (buf !! Z.to_nat i).

(** One round per byte of the address; [j] indexes the text written. *)
Fixpoint add_dot_loop (rounds : nat) (old_mac : list Z) (i j : Z) : res cstr :=
  match rounds with
  | O => mret []
  | S rounds' =>
      a ← rd old_mac i;
      b ← rd old_mac (i + 1);
      if j <? MAC_STR_DOT_LEN - 2 then
        c ← rd old_mac (i + 2);
        rest ← add_dot_loop rounds' old_mac ((if c =? 58 then i + 1 else i) + 2) (j + 3);
        mret (a :: b :: 58 :: rest)
      else rest ← add_dot_loop rounds' old_mac (i + 2) (j + 3); mret (a :: b :: rest)
  end.

(** The value returned and the 18 bytes written to [new_mac]; [old_mac] is the
    whole buffer. *)
Definition mac_add_dot (old_mac : option (list Z)) (new_given : bool) : res (Z * list Z) :=
  match old_mac with
  | Some old_mac =>
      if new_given then new_mac ← add_dot_loop 6 old_mac 0 0; mret (0, new_mac ++ [0])
      else mret (-1, [])
  | None => mret (-1, [])
  end.

(** The loop of [mac_rm_dot] over the first 17 bytes. *)
Fixpoint rm_dot_loop (n : nat) (old_mac : list Z) : res cstr :=
  match n with
  | O => mret []
  | S n' =>
      match old_mac with
      | [] => Fault
      | c :: old_mac' =>
          rest ← rm_dot_loop n' old_mac';
          mret (if negb (c =? 58) then c :: rest else rest)
      end
  end.

(** The buffer [new_mac] before and after. *)
Definition mac_rm_dot (old_mac new_mac : list Z) : res (list Z) :=
  w ← rm_dot_loop 17 old_mac;
  let new_mac' := w ++ drop (length w) new_mac in
  if (length new_mac' =? length new_mac)%nat && (MAC_STR_LEN <? zlen new_mac)
  then mret (<[Z.to_nat MAC_STR_LEN := 0]> new_mac')
  else Fault.

(** ** Cutting and adding substrings *)

(** [flag] asks for a search that minds the case. *)
Definition find_in (s p : cstr) (flag : bool) : option (cstr * cstr) :=
  if flag then strstr s p else strcasestr s p.

(** [outlen < strlen(in) - strlen(cut)] compares as [size_t]. *)
Definition cutString (in_ : cstr) (outlen : Z) (cut : cstr) (flag : bool) : res (Z * cstr) :=
  match find_in in_ cut flag with
  | None => mret (-1, [])
  | Some (before, p) =>
      if u32 outlen <? u32 (strlen in_ - strlen cut) then mret (-1, [])
      else
        let out := before ++ drop (length cut) p in
        if strlen out <? outlen then mret (0, out) else Fault
  end.

Definition addString (in_ : cstr) (outlen : Z) (add : cstr) (flag : bool) : res (Z * cstr) :=
  match find_in in_ add flag with
  | Some _ => mret (-1, [])
  | None =>
      if u32 outlen <? u32 (strlen in_ + strlen add) then mret (-1, [])
      else
        let out := take (Z.to_nat (outlen - 1)) in_ ++ add in
        if strlen out <? outlen then mret (0, out) else Fault
  end.

(** [parseUrlHostInfo]: the value returned, the host and the port.  [strtoul]
    is cut to 16 bits by the assignment. *)
Definition strtoul (s : cstr) : Z :=
  match skip_space s with
  | c :: s' =>
      if c =? 45 then
        let n := atoi_digits 0 s' in if 2 ^ 32 <=? n then 2 ^ 32 - 1 else u32 (- n)
      else if c =? 43 then Z.min (2 ^ 32 - 1) (atoi_digits 0 s')
      else Z.min (2 ^ 32 - 1) (atoi_digits 0 (c :: s'))
  | [] => 0
  end.

Definition parseUrlHostInfo (pUrl : cstr) (hostlen : Z) : Z * cstr * Z :=
  if hostlen =? 0 then (-1, [], 0)
  else
    let '(pPort, pSource) :=
      if has_case_prefix (cs "https://") pUrl then (443, drop 8 pUrl)
      else if has_case_prefix (cs "http://") pUrl then (80, drop 7 pUrl)
      else (80, pUrl) in
    match strchr pSource 58 with
    | Some (host, p) =>
        if hostlen <? strlen host then (-1, [], pPort)
        else (0, take (Z.to_nat hostlen) host, u16 (strtoul p))
    | None =>
        if hostlen <? strlen pSource then (-1, [], pPort)
        else (0, take (Z.to_nat hostlen) pSource, pPort)
    end.
End Utility.
