(* ===== verification/UtilProps.v ===== *)
(** * What the string utilities guarantee *)

From S2P Require Import Prelude CString Text Utility.
Open Scope Z_scope.

Module UtilProps.
Import Text Utility.

(** ** Numbers in [itoa]'s buffer *)

Lemma put_front_ok c b : strlen b < 6 → put_front c b = Ok (c :: b).
Proof. intros H. unfold put_front. by rewrite (proj2 (Z.ltb_lt _ _) H). Qed.

Lemma itoa_loop_ok fuel i b k :
  0 ≤ i < 10 ^ Z.of_nat k → (1 ≤ k ≤ fuel)%nat → strlen b + Z.of_nat k ≤ 6 →
  itoa_loop fuel i b = Ok (dec_digits fuel i b).
Proof.
  revert i b k. induction fuel as [|fuel IH]; intros i b k Hi Hk Hb; [lia|].
  cbn [itoa_loop dec_digits]. unfold mbind, res_bind. rewrite put_front_ok by lia.
  rewrite Z.quot_div_nonneg, Z.rem_mod_nonneg by lia.
  pose proof (Z.div_mod i 10 ltac:(lia)). pose proof (Z.mod_pos_bound i 10 ltac:(lia)).
  destruct (i / 10 =? 0) eqn:E; destruct (i <? 10) eqn:E'; zify_bool; try done; try lia.
  destruct k as [|[|k]]; [lia|simpl in Hi; lia|].
  rewrite Nat2Z.inj_succ, Z.pow_succ_r in Hi by lia.
  rewrite (IH _ _ (S k)); [done| | lia|].
  - split; [lia|]. apply Z.div_lt_upper_bound; lia.
  - rewrite strlen_cons. lia.
Qed.

Lemma itoa_loop_fault fuel i b m :
  10 ^ Z.of_nat m ≤ i < 10 ^ Z.of_nat fuel → strlen b + Z.of_nat m = 6 →
  itoa_loop fuel i b = Fault.
Proof.
  revert i b m. induction fuel as [|fuel IH]; intros i b m Hi Hb; [simpl in Hi; lia|].
  cbn [itoa_loop]. unfold mbind, res_bind. destruct m as [|m].
  { unfold put_front. by rewrite (proj2 (Z.ltb_ge _ _)) by lia. }
  rewrite put_front_ok by lia. rewrite !Nat2Z.inj_succ, !Z.pow_succ_r in Hi by lia.
  rewrite Z.quot_div_nonneg by lia.
  assert (10 ^ Z.of_nat m ≤ i / 10) by (apply Z.div_le_lower_bound; lia).
  rewrite (proj2 (Z.eqb_neq _ 0)) by lia. apply (IH _ _ m).
  - split; [done|]. apply Z.div_lt_upper_bound; lia.
  - rewrite strlen_cons. lia.
Qed.

(** A number below [10 ^ k] has at most [k] digits, and one from [10 ^ k] on
    has more. *)
Lemma dec_digits_short fuel n b k :
  0 ≤ n < 10 ^ Z.of_nat k → (1 ≤ k ≤ fuel)%nat →
  strlen (dec_digits fuel n b) ≤ strlen b + Z.of_nat k.
Proof.
  revert n b k. induction fuel as [|fuel IH]; intros n b k Hn Hk; [lia|]. cbn [dec_digits].
  destruct (n <? 10) eqn:E; zify_bool; [rewrite strlen_cons; lia|].
  destruct k as [|[|k]]; [lia|simpl in Hn; lia|].
  rewrite Nat2Z.inj_succ, Z.pow_succ_r in Hn by lia.
  etransitivity; [apply (IH _ _ (S k)); [|lia]|].
  - split; [apply Z.div_pos; lia|apply Z.div_lt_upper_bound; lia].
  - rewrite strlen_cons. lia.
Qed.

Lemma dec_digits_long fuel n b k :
  10 ^ Z.of_nat k ≤ n → (k < fuel)%nat → strlen b + Z.of_nat k < strlen (dec_digits fuel n b).
Proof.
  revert n b k. induction fuel as [|fuel IH]; intros n b k Hn Hk; [lia|]. cbn [dec_digits].
  assert (Hge : ∀ f m acc, strlen acc ≤ strlen (dec_digits f m acc)).
  { intros f m acc. rewrite dec_digits_acc. rewrite strlen_app. pose proof (strlen_nonneg (dec_digits f m [])). lia. }
  destruct k as [|k].
  { destruct (n <? 10); [rewrite strlen_cons; lia|].
    eapply Z.lt_le_trans; [|apply Hge]. rewrite strlen_cons. lia. }
  rewrite Nat2Z.inj_succ, Z.pow_succ_r in Hn by lia.
  assert (1 ≤ 10 ^ Z.of_nat k) by (change 1 with (10 ^ 0); apply Z.pow_le_mono_r; lia).
  rewrite (proj2 (Z.ltb_ge _ _)) by lia.
  eapply Z.le_lt_trans; [|apply (IH _ _ k); [apply Z.div_le_lower_bound; lia|lia]].
  rewrite strlen_cons. lia.
Qed.

(** Bounds that mention [10 ^ Z.of_nat k] for a literal [k]. *)
Local Ltac num := unfold strlen in *; simpl length in *; simpl Z.of_nat in *; lia.

(** [itoa] prints exactly the numbers that fit its static buffer of seven
    bytes, as [printf("%d")] would, and writes before the start of the buffer
    for every other [int]. *)
Theorem itoa_prints_six_characters i :
  INT_MIN ≤ i ≤ INT_MAX →
  itoa i = if (-99999 <=? i) && (i <=? 999999) then Ok (fmt_d i) else Fault.
Proof.
  intros Hi. unfold INT_MIN, INT_MAX in Hi. unfold itoa, fmt_d, fmt_u, mbind, res_bind.
  destruct (decide (i = - 2 ^ 31)) as [->|Hmin]; [by vm_compute|].
  destruct (i <? 0) eqn:Hneg; zify_bool.
  - rewrite (s32_small (- i)) by (unfold INT_MIN, INT_MAX; lia). rewrite (proj2 (Z.leb_le i 999999)), andb_true_r by lia.
    destruct (-99999 <=? i) eqn:Hr; zify_bool.
    + rewrite (itoa_loop_ok 10 (- i) [] 5) by num. apply put_front_ok.
      pose proof (dec_digits_short 10 (- i) [] 5). num.
    + destruct (decide (- i < 1000000)).
      * rewrite (itoa_loop_ok 10 (- i) [] 6) by num. unfold put_front.
        rewrite (proj2 (Z.ltb_ge _ _)); [done|].
        pose proof (dec_digits_long 10 (- i) [] 5). num.
      * rewrite (itoa_loop_fault 10 (- i) [] 6); [done|num|num].
  - rewrite (proj2 (Z.leb_le _ i)) by lia. cbn [andb]. destruct (i <=? 999999) eqn:Hr; zify_bool.
    + by rewrite (itoa_loop_ok 10 i [] 6) by num.
    + by rewrite (itoa_loop_fault 10 i [] 6) by num.
Qed.

Lemma itoa_prints_six_characters_witness :
  itoa 999999 = Ok (cs "999999") ∧ itoa (-100000) = Fault ∧ itoa 1000000 = Fault.
Proof.
  split; [|split].
  - rewrite (itoa_prints_six_characters 999999) by (unfold INT_MIN, INT_MAX; lia). reflexivity.
  - apply (itoa_prints_six_characters (-100000)). unfold INT_MIN, INT_MAX; lia.
  - apply (itoa_prints_six_characters 1000000). unfold INT_MIN, INT_MAX; lia.
Defined.

(** ** Screening and escaping of command lines *)

Lemma last_pos_spec s c :
  match last_pos s c with
  | Some n => s !! n = Some c ∧ ∀ m, (n < m)%nat → s !! m ≠ Some c
  | None => c ∉ s
  end.
Proof.
  induction s as [|d s IH]; cbn [last_pos]; [set_solver|].
  destruct (last_pos s c) as [n|].
  - destruct IH as [Hn Hlast]. split; [done|]. intros [|m] Hm; [lia|]. apply Hlast. lia.
  - destruct (d =? c) eqn:E; zify_bool; [subst; split; [done|]|set_solver].
    intros [|m] Hm; [lia|]. intros Hc. by apply IH, (list_elem_of_lookup_2 _ m).
Qed.

Lemma escape_loop_spec inp outp len :
  strlen outp < len →
  match escape_loop inp outp len with
  | Ok (Written r) => r = outp ++ esc needs_escape inp ∧ strlen r < len
  | Ok (NeedsIncrease rest) =>
      len ≤ strlen (outp ++ esc needs_escape inp) ∧ ∃ pre, pre ≠ [] ∧ inp = pre ++ rest
  | Fault => len ≤ strlen (outp ++ esc needs_escape inp)
  | NoFuel => False
  end.
Proof.
  revert outp. induction inp as [|c inp IH]; intros outp Ho; cbn [escape_loop].
  { rewrite (proj2 (Z.ltb_lt _ _) Ho). unfold esc. simpl. by rewrite app_nil_r. }
  set (outp' := outp ++ _).
  assert (He : outp ++ esc needs_escape (c :: inp) = outp' ++ esc needs_escape inp).
  { unfold outp', esc. cbn [map concat]. by rewrite app_assoc. }
  rewrite He. pose proof (strlen_app outp' (esc needs_escape inp)) as Hl.
  pose proof (strlen_nonneg (esc needs_escape inp)).
  destruct (len <? strlen outp') eqn:E1; zify_bool; [lia|].
  destruct (len <=? strlen outp') eqn:E2; zify_bool.
  { split; [lia|]. by exists [c]. }
  specialize (IH outp' E2). destruct (escape_loop inp outp' len) as [[r|rest]| |]; try done.
  destruct IH as [? (pre & _ & ->)]. split; [done|]. by exists (c :: pre).
Qed.

(** Backquotes that stand apart, as a command substitution needs them. *)
Definition substitution (s : cstr) : Prop :=
  ∃ i j, s !! i = Some 96 ∧ s !! j = Some 96 ∧ (S i < j)%nat.

Lemma escape_spec inp len :
  0 < len →
  match escape_special_character inp len with
  | Ok r =>
      (r = inp ∧ ¬ substitution inp) ∨ r = esc needs_escape inp ∨
      (len ≤ strlen (esc needs_escape inp) ∧ ∃ pre, pre ≠ [] ∧ inp = pre ++ r)
  | Fault => len ≤ strlen (esc needs_escape inp)
  | NoFuel => False
  end.
Proof.
  intros Hlen. unfold escape_special_character.
  destruct (strchr inp 96) as [[pre post]|] eqn:Hs.
  2:{ cbn [mret res_ret]. left. split; [done|]. intros (i & _ & Hi & _). apply strchr_None in Hs.
      by apply list_elem_of_lookup_2 in Hi. }
  apply strchr_Some in Hs as [-> Hpre]. pose proof (last_pos_spec (96 :: post) 96) as Hlast.
  destruct (last_pos (96 :: post) 96) as [n|]; [|set_solver]. destruct Hlast as [_ Hlast].
  change (default O (Some n)) with n. destruct (Nat.leb n 1) eqn:Hn; [apply Nat.leb_le in Hn|].
  - cbn [mret res_ret]. left. split; [done|]. intros (i & j & Hi & Hj & Hij).
    assert (Hge : ∀ m, (pre ++ 96 :: post) !! m = Some 96 → (length pre ≤ m)%nat).
    { intros m Hm. destruct (decide (m < length pre)%nat); [|lia].
      rewrite lookup_app_l in Hm by done. by apply list_elem_of_lookup_2 in Hm. }
    pose proof (Hge _ Hi). pose proof (Hge _ Hj). rewrite lookup_app_r in Hj by lia.
    apply (Hlast (j - length pre)%nat); [lia|done].
  - pose proof (escape_loop_spec (pre ++ 96 :: post) [] len Hlen) as H. cbn [app] in H.
    unfold mbind, res_bind. destruct (escape_loop _ _ _) as [[r|rest]| |]; naive_solver.
Qed.

(** The characters that pass the screening, at position [idx] of a command of
    [len] characters. *)
Definition harmless (c idx len : Z) : Prop :=
  c ∉ s_inject_code ∨ (c = chr "&" ∧ 2 ≤ len ∧ len - 2 ≤ idx) ∨ (c = chr "#" ∧ idx = 0).

Lemma inject_elem c : check_injection_code c = (if bool_decide (c ∈ s_inject_code) then -1 else 0).
Proof.
  unfold check_injection_code. destruct (existsb _ _) eqn:E; case_bool_decide as Hc; try done.
  - apply existsb_exists in E as (d & Hd & ->%Z.eqb_eq). by apply list_elem_of_In in Hd.
  - exfalso. apply not_true_iff_false in E. apply E, existsb_exists. exists c.
    split; [by apply list_elem_of_In|apply Z.eqb_refl].
Qed.

Lemma injection_loop_spec cmd idx len :
  0 ≤ idx → idx + strlen cmd = len →
  (injection_loop cmd idx len = 0 ∧
     ∀ k c, cmd !! k = Some c → harmless c (idx + Z.of_nat k) len) ∨
  (injection_loop cmd idx len = -1 ∧
     ∃ k c, cmd !! k = Some c ∧ ¬ harmless c (idx + Z.of_nat k) len).
Proof.
  revert idx. induction cmd as [|c cmd IH]; intros idx Hidx Hlen; cbn [injection_loop]; [by left|].
  rewrite strlen_cons in Hlen. pose proof (strlen_nonneg cmd).
  assert (Hnext : harmless c idx len →
    (injection_loop cmd (idx + 1) len = 0 ∧
       ∀ k d, (c :: cmd) !! k = Some d → harmless d (idx + Z.of_nat k) len) ∨
    (injection_loop cmd (idx + 1) len = -1 ∧
       ∃ k d, (c :: cmd) !! k = Some d ∧ ¬ harmless d (idx + Z.of_nat k) len)).
  { intros Hc. destruct (IH (idx + 1)) as [[-> Hall]|[-> (k & d & Hk & Hbad)]]; [lia|lia| |].
    - left. split; [done|]. intros [|k] d Hd.
      + injection Hd as <-. by rewrite Z.add_0_r.
      + replace (idx + Z.of_nat (S k)) with (idx + 1 + Z.of_nat k) by lia. by apply Hall.
    - right. split; [done|]. exists (S k), d. split; [done|].
      by replace (idx + Z.of_nat (S k)) with (idx + 1 + Z.of_nat k) by lia. }
  rewrite inject_elem. case_bool_decide as Hc;
    [change (-1 =? -1) with true|change (0 =? -1) with false]; cbn iota.
  2:{ apply Hnext. by left. }
  destruct ((c =? chr "&") && (2 <=? len) && ((len - 1 =? idx) || (len - 2 =? idx))) eqn:E1.
  { apply Hnext. right. left. rewrite !andb_true_iff, orb_true_iff, !Z.eqb_eq, Z.leb_le in E1. lia. }
  destruct ((c =? chr "#") && (1 <=? len) && (0 =? idx)) eqn:E2.
  { apply Hnext. right. right. rewrite !andb_true_iff, !Z.eqb_eq in E2. lia. }
  right. split; [done|]. exists O, c. split; [done|]. rewrite Z.add_0_r.
  rewrite !andb_false_iff, orb_false_iff, !Z.eqb_neq, Z.leb_gt in E1.
  rewrite !andb_false_iff, !Z.eqb_neq, Z.leb_gt in E2.
  intros [?|[(-> & ? & ?)|(-> & ->)]]; [done| |]; lia.
Qed.

(** What [system_escape] lets through. A command with a character of the
    blacklist ([&] in the last two places and a leading [#] aside) is refused
    with -1, and only such a command is. Otherwise what reaches the shell is
    the command itself when it holds no command substitution, or the command
    with every backquote escaped, so that removing the backslashes gives the
    command back; but when the escaped text does not fit 1025 bytes, a proper
    tail of the command is run, or the buffer is overrun. *)
Theorem system_escape_policy cmd :
  let harmful := ∃ k c, cmd !! k = Some c ∧ ¬ harmless c (Z.of_nat k) (strlen cmd) in
  match system_escape (Some cmd) with
  | Ok (Refused r) => r = -1 ∧ harmful
  | Ok (System run) =>
      ¬ harmful ∧
      ((run = cmd ∧ ¬ substitution cmd) ∨
       (guarded needs_escape run = true ∧ unesc run = cmd) ∨
       (1025 ≤ strlen (esc needs_escape cmd) ∧ ∃ pre, pre ≠ [] ∧ cmd = pre ++ run))
  | Fault => ¬ harmful ∧ 1025 ≤ strlen (esc needs_escape cmd)
  | NoFuel => False
  end.
Proof.
  intros harmful. unfold system_escape.
  assert (Hi : check_injection_code_command (Some cmd) = injection_loop cmd 0 (strlen cmd)).
  { by destruct cmd. }
  rewrite Hi. destruct (injection_loop_spec cmd 0 (strlen cmd) ltac:(lia) ltac:(lia)) as [[-> Hall]|[-> Hbad]].
  2:{ cbn. split; [done|]. exact Hbad. }
  change (0 =? -1) with false. cbn iota.
  assert (Hok : ¬ harmful) by (intros (k & c & Hk & Hc); apply Hc, (Hall k c Hk)).
  assert (Hslash : 92 ∉ cmd).
  { intros (k & Hk)%list_elem_of_lookup. pose proof (Hall k 92 Hk) as H.
    destruct H as [H|[[? _]|[? _]]]; [|done|done]. apply H. by_compute. }
  pose proof (escape_spec cmd 1025 ltac:(lia)) as H. unfold mbind, res_bind.
  destruct (escape_special_character cmd 1025) as [r| |]; [|done|done].
  cbn [mret res_ret]. split; [done|]. destruct H as [H|[->|H]]; [by left| |by right; right].
  right. left. split; [apply esc_guarded; by right|apply unesc_esc; by right].
Qed.

(** A long command: what comes after the text that fits is run instead. *)
Example long_command_runs_its_tail :
  system_escape (Some (cs "`date`" ++ replicate 1016 (chr "x") ++ cs " reboot")) = Ok (System (cs "reboot")).
Proof. by vm_compute. Qed.

Lemma escape_param_loop_spec s rem :
  str_ok s → 0 ≤ rem → ∃ k,
  escape_param_loop s rem = esc NEED_C (take k s) ∧ str_ok (escape_param_loop s rem) ∧
  strlen (escape_param_loop s rem) ≤ rem ∧
  (take k s = s ∨ rem - 1 ≤ strlen (escape_param_loop s rem)).
Proof.
  revert rem. induction s as [|c s IH]; intros rem Hs Hr; cbn [escape_param_loop].
  { exists O. unfold esc, strlen. simpl. split; [done|]. split; [done|]. split; [lia|by left]. }
  apply Forall_cons in Hs as [Hc Hs]. destruct (2 <=? rem) eqn:E; zify_bool.
  2:{ exists O. unfold esc, strlen. simpl. split; [done|]. split; [done|]. split; [lia|right; lia]. }
  destruct (NEED_C c) eqn:Hn.
  - destruct (IH (rem - 2) Hs ltac:(lia)) as (k & Hk & Hok & Hl & Hend). exists (S k).
    rewrite !strlen_cons. split; [|split; [|split; [lia|]]].
    + unfold esc in *. cbn [take map concat]. rewrite Hn, Hk. done.
    + repeat constructor; try done; unfold char_ok in *; lia.
    + cbn [take]. destruct Hend as [->|]; [by left|right; lia].
  - destruct (IH (rem - 1) Hs ltac:(lia)) as (k & Hk & Hok & Hl & Hend). exists (S k).
    rewrite strlen_cons. split; [|split; [|split; [lia|]]].
    + unfold esc in *. cbn [take map concat]. rewrite Hn, Hk. done.
    + by constructor.
    + cbn [take]. destruct Hend as [->|]; [by left|right; lia].
Qed.

(** [escape_param] into a zeroed buffer escapes a prefix of the value,
    without splitting an escape pair and with room for the terminator: every
    special character of the result is escaped, removing the backslashes gives
    that prefix, and the prefix is the whole value unless the result comes
    within two bytes of the size given. *)
Theorem escape_param_escapes_a_prefix val cap len :
  str_ok val → 3 ≤ len ≤ Z.of_nat cap →
  ∃ k r, escape_param (Some val) (Some (replicate cap 0)) len = Ok r ∧
    guarded NEED_C r = true ∧ unesc r = take k val ∧ strlen r < len ∧
    (take k val = val ∨ len - 2 ≤ strlen r).
Proof.
  intros Hval Hlen.
  destruct (escape_param_loop_spec val (len - 1) Hval ltac:(lia)) as (k & Hk & Hok & Hl & Hend).
  exists k, (escape_param_loop val (len - 1)). split.
  - unfold escape_param. rewrite (proj2 (Z.ltb_ge _ _)) by lia.
    destruct val as [|c val]; [reflexivity|].
    rewrite strlen_cons, (proj2 (Z.leb_gt _ _)) by (pose proof (strlen_nonneg val); lia).
    set (w := escape_param_loop (c :: val) (len - 1)) in *.
    rewrite length_replicate. unfold strlen in Hl. rewrite (proj2 (Z.ltb_ge _ _)) by lia.
    rewrite drop_replicate. destruct (cap - length w)%nat as [|n] eqn:En; [lia|].
    simpl replicate. by rewrite str_of_app_nul.
  - rewrite Hk. split; [apply esc_guarded; by left|]. split; [apply unesc_esc; by left|].
    rewrite <- Hk. split; [lia|]. destruct Hend; [by left|right; lia].
Qed.

Lemma escape_param_escapes_a_prefix_witness :
  ∃ k r, escape_param (Some (cs "my$pass`word")) (Some (replicate 16 0)) 10 = Ok r ∧
    guarded NEED_C r = true ∧ unesc r = take k (cs "my$pass`word") ∧ strlen r < 10 ∧
    (take k (cs "my$pass`word") = cs "my$pass`word" ∨ 10 - 2 ≤ strlen r).
Proof.
  apply escape_param_escapes_a_prefix; [by_compute|lia].
Defined.

(** ** Addresses *)

Definition dotted (a b c d : Z) : cstr := join_by 46 (map fmt_u [a; b; c; d]).

Definition octet (x : Z) : Prop := 0 ≤ x < 256.

Lemma octet_digits x :
  octet x →
  ∃ l, fmt_u x = l ∧ (1 ≤ length l ≤ 3)%nat ∧ Forall (λ c, is_digit c = true) l.
Proof.
  intros Hx. eexists. split; [done|]. split.
  - pose proof (dec_digits_short 10 x [] 3) as H1. pose proof (dec_digits_head 10 x) as H2.
    unfold octet in Hx. destruct H2 as (c & s & Hc & _); [lia|done|].
    unfold fmt_u in *. rewrite Hc in *. simpl length in *. num.
  - unfold octet in Hx. eapply Forall_impl; [apply fmt_u_digits; lia|]. intros c ?. by apply is_digit_iff.
Qed.

Lemma digits13_octet k x rest : octet x → k rest = true → digits13 k (fmt_u x ++ rest) = true.
Proof.
  intros Hx Hk. destruct (octet_digits x Hx) as (l & -> & Hlen & Hd).
  destruct l as [|a [|b [|c [|? ?]]]]; simpl length in Hlen; try lia;
    repeat match goal with H : Forall _ (_ :: _) |- _ => apply Forall_cons in H as [? H] end;
    cbn [app digits13]; rewrite ?Hk, ?orb_true_r;
    repeat match goal with H : is_digit _ = true |- _ => rewrite H end; cbn [andb];
    rewrite ?orb_true_r; done.
Qed.

Lemma dotted_ip a b c d : octet a → octet b → octet c → octet d → ip_here (dotted a b c d) = true.
Proof.
  intros. unfold ip_here, dotted. cbn [map join_by].
  apply digits13_octet; [done|]. cbn [dot]. change (46 =? 46) with true. cbn [andb].
  apply digits13_octet; [done|]. cbn [dot]. change (46 =? 46) with true. cbn [andb].
  apply digits13_octet; [done|]. cbn [dot]. change (46 =? 46) with true. cbn [andb].
  rewrite <- (app_nil_r (fmt_u d)). by apply digits13_octet.
Qed.

Lemma dotted_short a b c d :
  octet a → octet b → octet c → octet d → take 15 (dotted a b c d) = dotted a b c d.
Proof.
  intros Ha Hb Hc Hd. apply take_ge. unfold dotted. cbn [map join_by].
  repeat (rewrite length_app; simpl length).
  destruct (octet_digits a Ha) as (? & -> & ? & _), (octet_digits b Hb) as (? & -> & ? & _),
    (octet_digits c Hc) as (? & -> & ? & _), (octet_digits d Hd) as (? & -> & ? & _). lia.
Qed.

Lemma dotted_tokens a b c d :
  octet a → octet b → octet c → octet d → tokens [46] (dotted a b c d) = map fmt_u [a; b; c; d].
Proof.
  intros Ha Hb Hc Hd. unfold dotted. apply tokens_join; [done|].
  assert (H : ∀ x, octet x → tok [46] (fmt_u x)).
  { intros x Hx. destruct (octet_digits x Hx) as (l & -> & Hl & Hdig). split; [destruct l; [simpl in Hl; lia|done]|].
    eapply Forall_impl; [exact Hdig|]. intros ch ?%is_digit_iff. simpl.
    rewrite orb_false_r. apply Z.eqb_neq. lia. }
  cbn [map]. do 4 (apply Forall_cons; split; [by apply H|]). constructor.
Qed.

Lemma atoi_octet x : octet x → atoi (fmt_u x) = x.
Proof.
  intros Hx. unfold octet in Hx. rewrite <- (app_nil_r (fmt_u x)). apply atoi_fmt_u; [|done].
  unfold INT_MAX. lia.
Qed.

Lemma check_dotted a b c d :
  octet a → octet b → octet c → octet d → check_ip_format (dotted a b c d) = 1.
Proof.
  intros. unfold check_ip_format. rewrite dotted_short by done.
  assert (Hh : regexec ip_here (dotted a b c d) = true); [|by rewrite Hh].
  assert (Hh : ip_here (dotted a b c d) = true) by (by apply dotted_ip).
  destruct (dotted a b c d); cbn [regexec]; by rewrite Hh.
Qed.

(** Scanning the bits of a mask from the low end. *)
Lemma land_1 m : Z.land m 1 = m mod 2.
Proof. change 1 with (Z.ones 1). by rewrite Z.land_ones. Qed.

Lemma mask_scan_ones n m cnt :
  0 ≤ m < 2 ^ Z.of_nat n → cnt ≠ 0 → 0 ≤ cnt →
  mask_scan n m cnt = if m =? 2 ^ Z.of_nat n - 1 then Some (cnt + Z.of_nat n) else None.
Proof.
  revert m cnt. induction n as [|n IH]; intros m cnt Hm Hc Hc'.
  - simpl in *. rewrite (proj2 (Z.eqb_eq _ _)) by lia. f_equal. lia.
  - rewrite Nat2Z.inj_succ, Z.pow_succ_r in * by lia. cbn [mask_scan].
    rewrite land_1, (proj2 (Z.eqb_neq cnt 0) Hc). cbn [negb].
    pose proof (Z.div_mod m 2 ltac:(lia)). pose proof (Z.mod_pos_bound m 2 ltac:(lia)).
    rewrite Z.shiftr_div_pow2 by lia. change (2 ^ 1) with 2.
    destruct (m mod 2 =? 0) eqn:E; zify_bool; [by rewrite (proj2 (Z.eqb_neq _ _)) by lia|].
    rewrite IH by lia. destruct (m / 2 =? _) eqn:E1, (m =? _) eqn:E2; zify_bool; try lia; [f_equal; lia|done].
Qed.

Lemma mask_scan_spec n m r :
  0 ≤ m < 2 ^ Z.of_nat n →
  mask_scan n m 0 = Some r ↔ 0 ≤ r ≤ Z.of_nat n ∧ m = 2 ^ Z.of_nat n - 2 ^ (Z.of_nat n - r).
Proof.
  revert m. induction n as [|n IH]; intros m Hm.
  - simpl in *. split; [intros [= <-]; simpl; lia|intros [? _]; f_equal; lia].
  - rewrite Nat2Z.inj_succ, Z.pow_succ_r in * by lia. cbn [mask_scan].
    rewrite land_1. change (negb (0 =? 0)) with false. cbn iota.
    pose proof (Z.div_mod m 2 ltac:(lia)). pose proof (Z.mod_pos_bound m 2 ltac:(lia)).
    rewrite Z.shiftr_div_pow2 by lia. change (2 ^ 1) with 2.
    assert (Hp : ∀ x, 0 ≤ x → 2 ^ Z.succ x = 2 * 2 ^ x) by (intros; apply Z.pow_succ_r; lia).
    assert (Hz : ∀ x, 0 ≤ x → 0 < 2 ^ x) by (intros; apply Z.pow_pos_nonneg; lia).
    destruct (m mod 2 =? 0) eqn:E; zify_bool.
    + rewrite IH by lia. split; intros [Hr Hm'].
      * split; [lia|]. replace (Z.succ (Z.of_nat n) - r) with (Z.succ (Z.of_nat n - r)) by lia.
        rewrite Hp by lia. lia.
      * destruct (decide (r = Z.succ (Z.of_nat n))) as [->|].
        { rewrite Z.sub_diag in Hm'. change (2 ^ 0) with 1 in Hm'. lia. }
        split; [lia|]. replace (Z.succ (Z.of_nat n) - r) with (Z.succ (Z.of_nat n - r)) in Hm' by lia.
        rewrite Hp in Hm' by lia. lia.
    + rewrite mask_scan_ones by lia. destruct (m / 2 =? _) eqn:E1; zify_bool; split.
      * intros [= <-]. split; [lia|]. replace (Z.succ (Z.of_nat n) - (0 + 1 + Z.of_nat n)) with 0 by lia. lia.
      * intros [Hr Hm']. f_equal. destruct (decide (r = Z.succ (Z.of_nat n))); [lia|].
        replace (Z.succ (Z.of_nat n) - r) with (Z.succ (Z.of_nat n - r)) in Hm' by lia.
        rewrite Hp in Hm' by lia. lia.
      * done.
      * intros [Hr Hm']. exfalso. destruct (decide (r = Z.succ (Z.of_nat n))) as [->|].
        { rewrite Z.sub_diag in Hm'. change (2 ^ 0) with 1 in Hm'. lia. }
        replace (Z.succ (Z.of_nat n) - r) with (Z.succ (Z.of_nat n - r)) in Hm' by lia.
        rewrite Hp in Hm' by lia. lia.
Qed.

Lemma lor_low x c : 0 ≤ c < 2 ^ 8 → Z.lor (x * 2 ^ 8) c = x * 2 ^ 8 + c.
Proof.
  intros Hc. rewrite <- Z.add_lor_land, <- Z.shiftl_mul_pow2 by lia.
  assert (Hl : Z.land (Z.shiftl x 8) c = 0); [|by rewrite Hl, Z.add_0_r].
  apply Z.bits_inj'. intros i Hi. rewrite Z.land_spec, Z.bits_0.
  destruct (decide (i < 8)); [by rewrite Z.shiftl_spec_low|].
  rewrite (proj1 (Z.bounded_iff_bits_nonneg 8 c ltac:(lia) ltac:(lia))) by lia. apply andb_false_r.
Qed.

Lemma mask_step x c :
  0 ≤ x < 2 ^ 24 → octet c → mask_byte (mask_shift x) c = x * 2 ^ 8 + c.
Proof.
  intros Hx Hc. unfold octet in Hc. unfold mask_byte, mask_shift.
  rewrite Z.shiftl_mul_pow2, (u32_small (x * 2 ^ 8)), (u32_small c) by lia. apply lor_low. lia.
Qed.

(** The value of a dotted address. *)
Definition addr (a b c d : Z) : Z := ((a * 2 ^ 8 + b) * 2 ^ 8 + c) * 2 ^ 8 + d.

(** On a dotted address [check_mask_format] accepts exactly the network
    masks, the addresses whose bits are [n] ones followed by zeros, and writes
    the prefix length [n] in decimal, cut to the caller's buffer. *)
Theorem check_mask_format_accepts_prefixes a b c d len :
  octet a → octet b → octet c → octet d →
  match check_mask_format (dotted a b c d) len with
  | Ok (1, Some text) =>
      ∃ n, 0 ≤ n ≤ 32 ∧ addr a b c d = 2 ^ 32 - 2 ^ (32 - n) ∧
           text = take (Z.to_nat (len - 1)) (fmt_d n)
  | Ok (0, None) => ∀ n, 0 ≤ n ≤ 32 → addr a b c d ≠ 2 ^ 32 - 2 ^ (32 - n)
  | _ => False
  end.
Proof.
  intros Ha Hb Hc Hd. unfold check_mask_format.
  rewrite dotted_short, check_dotted, dotted_tokens by done. change (1 =? 0) with false. cbn iota.
  unfold atoi_tok. cbn [lookup list_lookup map nth_error]. unfold mbind, res_bind. cbn [lookup deref mret res_ret].
  rewrite !atoi_octet by done.
  assert (Hm : mask_byte (mask_shift (mask_byte (mask_shift (mask_byte (mask_shift (mask_byte 0 a)) b)) c)) d
               = addr a b c d).
  { unfold octet in *. assert (H0 : mask_byte 0 a = a) by (unfold mask_byte; rewrite u32_small by lia; apply Z.lor_0_l).
    rewrite H0, (mask_step a), (mask_step (a * 2 ^ 8 + b)), mask_step by (done || lia). done. }
  rewrite Hm. assert (Hr : 0 ≤ addr a b c d < 2 ^ Z.of_nat 32) by (unfold addr, octet in *; simpl Z.of_nat; lia).
  pose proof (mask_scan_spec 32 (addr a b c d)) as Hs. change (Z.of_nat 32) with 32 in *.
  destruct (mask_scan 32 (addr a b c d) 0) as [n|].
  - cbn [mret res_ret]. exists n. destruct (proj1 (Hs n Hr) eq_refl) as [? ?]. done.
  - cbn [mret res_ret]. intros n Hn Heq. by pose proof (proj2 (Hs n Hr) (conj Hn Heq)).
Qed.

Lemma check_mask_format_accepts_prefixes_witness :
  ∃ n, 0 ≤ n ≤ 32 ∧ addr 255 255 240 0 = 2 ^ 32 - 2 ^ (32 - n) ∧ cs "20" = take 15 (fmt_d n).
Proof.
  assert (Ho : ∀ x, (0 <=? x) && (x <? 256) = true → octet x) by (unfold octet; intros; zify_bool; lia).
  exact (check_mask_format_accepts_prefixes 255 255 240 0 16
           (Ho 255 eq_refl) (Ho 255 eq_refl) (Ho 240 eq_refl) (Ho 0 eq_refl)).
Defined.

(** On dotted addresses [check_ip_range] says whether both lie in the same
    /24 network with the first not after the second. *)
Theorem check_ip_range_same_subnet a b c d a' b' c' d' :
  octet a → octet b → octet c → octet d → octet a' → octet b' → octet c' → octet d' →
  check_ip_range (dotted a b c d) (dotted a' b' c' d')
  = Ok (if bool_decide (addr a b c d / 2 ^ 8 = addr a' b' c' d' / 2 ^ 8 ∧ addr a b c d ≤ addr a' b' c' d')
        then 1 else 0).
Proof.
  intros Ha Hb Hc Hd Ha' Hb' Hc' Hd'. unfold check_ip_range. rewrite !dotted_short by done.
  assert (Hcond : (addr a b c d / 2 ^ 8 = addr a' b' c' d' / 2 ^ 8 ∧ addr a b c d ≤ addr a' b' c' d')
                  ↔ a = a' ∧ b = b' ∧ c = c' ∧ d ≤ d').
  { unfold addr, octet in *. rewrite !(Z.add_comm (_ * 2 ^ 8)), !Z.div_add, !(Z.div_small _ (2 ^ 8)) by lia. lia. }
  rewrite (bool_decide_ext _ _ Hcond).
  destruct (streq _ _ && streq _ _) eqn:Hz.
  - apply andb_true_iff in Hz as [H1%streq_eq H2%streq_eq].
    assert (Heq : map fmt_u [a; b; c; d] = map fmt_u [a'; b'; c'; d']).
    { rewrite <- !dotted_tokens by done. by rewrite H1, H2. }
    rewrite bool_decide_eq_true_2; [done|].
    injection Heq as E1 E2 E3 E4. apply (f_equal atoi) in E1, E2, E3, E4.
    rewrite !atoi_octet in * by done. lia.
  - rewrite !dotted_tokens by done. unfold atoi_tok, mbind, res_bind.
    cbn [lookup list_lookup map nth_error deref mret res_ret]. rewrite !atoi_octet by done.
    destruct (a =? a') eqn:E1, (b =? b') eqn:E2, (c =? c') eqn:E3, (d' <? d) eqn:E4; cbn [negb];
      zify_bool; case_bool_decide; try done; lia.
Qed.

Lemma check_ip_range_same_subnet_witness :
  check_ip_range (cs "192.168.1.33") (cs "192.168.1.254") = Ok 1.
Proof.
  assert (Ho : ∀ x, (0 <=? x) && (x <? 256) = true → octet x) by (unfold octet; intros; zify_bool; lia).
  exact (check_ip_range_same_subnet 192 168 1 33 192 168 1 254
           (Ho 192 eq_refl) (Ho 168 eq_refl) (Ho 1 eq_refl) (Ho 33 eq_refl)
           (Ho 192 eq_refl) (Ho 168 eq_refl) (Ho 1 eq_refl) (Ho 254 eq_refl)).
Defined.

Lemma M_res_Ok {A B} (m : res A) (k : A → res B) a : m = Ok a → (m ≫= k) = k a.
Proof. by intros ->. Qed.

(** One round of [mac_add_dot]: two digits and a separator are written; a
    colon that follows the digits is skipped. *)
Lemma add_dot_round n buf i j a b c rest :
  (j <? 15) = true →
  buf !! Z.to_nat i = Some a → buf !! Z.to_nat (i + 1) = Some b → buf !! Z.to_nat (i + 2) = Some c →
  add_dot_loop n buf ((if c =? 58 then i + 1 else i) + 2) (j + 3) = Ok rest →
  add_dot_loop (S n) buf i j = Ok (a :: b :: 58 :: rest).
Proof.
  intros Hj Ha Hb Hc Hrest. cbn [add_dot_loop]. unfold mbind, res_bind, rd.
  rewrite Ha, Hb, Hc. change (MAC_STR_DOT_LEN - 2) with 15. rewrite Hj. cbn [deref]. by rewrite Hrest.
Qed.

Lemma add_dot_last buf i a b :
  buf !! Z.to_nat i = Some a → buf !! Z.to_nat (i + 1) = Some b →
  add_dot_loop 1 buf i 15 = Ok [a; b].
Proof. intros Ha Hb. cbn [add_dot_loop]. unfold mbind, res_bind, rd. by rewrite Ha, Hb. Qed.

(** The two MAC notations. For twelve hexadecimal digits [mac_add_dot]
    writes the colon notation, which [check_mac_format] accepts, which
    [mac_add_dot] leaves alone, and from which [mac_rm_dot] gives the digits
    back. *)
Theorem mac_notation_roundtrip m new :
  length m = 12%nat → Forall (λ c, is_xdigit c = true) m → (13 ≤ length new)%nat →
  ∃ dots, mac_add_dot (Some (m ++ [0])) true = Ok (0, dots ++ [0]) ∧ length dots = 17%nat ∧
    check_mac_format dots = 1 ∧
    mac_add_dot (Some (dots ++ [0])) true = Ok (0, dots ++ [0]) ∧
    mac_rm_dot (dots ++ [0]) new = Ok (m ++ 0 :: drop 13 new).
Proof.
  intros Hlen Hm Hnew.
  do 12 (destruct m as [|? m]; [done|]). destruct m; [|done].
  do 13 (destruct new as [|? new]; [simpl in Hnew; lia|]). clear Hlen Hnew.
  repeat match goal with H : Forall _ (_ :: _) |- _ => apply Forall_cons in H as [? H] end.
  assert (Hcolon : ∀ c, is_xdigit c = true → (c =? 58) = false).
  { intros c Hc. apply Z.eqb_neq. intros ->. vm_compute in Hc. done. }
  match goal with |- context [mac_add_dot (Some ([?a; ?b; ?c; ?d; ?e; ?f; ?g; ?h; ?i; ?j; ?k; ?l] ++ [0]))] =>
    exists [a; b; 58; c; d; 58; e; f; 58; g; h; 58; i; j; 58; k; l] end.
  split; [|split; [done|split; [|split]]].
  - unfold mac_add_dot. erewrite M_res_Ok; [reflexivity|].
    do 5 (eapply add_dot_round; [reflexivity..|]; rewrite ?Hcolon by done; cbn [Z.eqb Pos.eqb Z.add Pos.add Pos.succ]).
    by apply add_dot_last.
  - unfold check_mac_format. cbn [take].
    match goal with |- context [regexec ?h ?s] => assert (Hr : h s = true) end.
    { cbn [mac_here]. repeat match goal with H : is_xdigit _ = true |- _ => rewrite H; clear H end. done. }
    cbn [regexec]. by rewrite Hr.
  - unfold mac_add_dot. erewrite M_res_Ok; [reflexivity|].
    do 5 (eapply add_dot_round; [reflexivity..|]; rewrite ?Hcolon by done; cbn [Z.eqb Pos.eqb Z.add Pos.add Pos.succ]).
    by apply add_dot_last.
  - unfold mac_rm_dot. cbn. rewrite !Hcolon by done. cbn.
    rewrite Nat.eqb_refl, (proj2 (Z.ltb_lt _ _)) by (unfold MAC_STR_LEN; lia). cbn. by rewrite drop_0.
Qed.

Lemma mac_notation_roundtrip_witness :
  ∃ dots, mac_add_dot (Some (cs "00aAbB123456" ++ [0])) true = Ok (0, dots ++ [0]) ∧ length dots = 17%nat ∧
    check_mac_format dots = 1 ∧
    mac_add_dot (Some (dots ++ [0])) true = Ok (0, dots ++ [0]) ∧
    mac_rm_dot (dots ++ [0]) (replicate 18 0) = Ok (cs "00aAbB123456" ++ 0 :: drop 13 (replicate 18 0)).
Proof.
  apply mac_notation_roundtrip; [reflexivity|by_compute|]. simpl. lia.
Defined.

(** ** Cutting and adding substrings *)

Lemma casefold_length s : length (casefold s) = length s.
Proof. apply length_map. Qed.

Lemma find_in_split s p flag before post :
  find_in s p flag = Some (before, post) →
  s = before ++ post ∧ (length p ≤ length post)%nat.
Proof.
  unfold find_in. destruct flag; intros H.
  - apply strstr_split in H as [-> Hp]. split; [done|]. by apply is_prefix_length.
  - unfold strcasestr in H. destruct (strstr _ _) as [[pre q]|] eqn:E; [|done]. simplify_eq.
    split; [symmetry; apply take_drop|]. apply strstr_split in E as [Hs Hp%is_prefix_length].
    apply (f_equal length) in Hs. rewrite casefold_length, length_app in *.
    rewrite length_drop. lia.
Qed.

(** [cutString] and [addString] test the size of the output without its
    terminator. With at least one byte to spare they remove the first
    occurrence, or append the text; with a buffer of exactly the length of the
    result they write the terminator behind it; with less they give -1. *)
Theorem cut_and_add_off_by_one s x outlen flag :
  0 ≤ outlen < 2 ^ 31 → strlen s + strlen x < 2 ^ 31 →
  match find_in s x flag with
  | Some (before, post) =>
      let r := before ++ drop (length x) post in
      addString s outlen x flag = Ok (-1, []) ∧
      cutString s outlen x flag
      = (if outlen <? strlen r then Ok (-1, []) else if outlen =? strlen r then Fault else Ok (0, r))
  | None =>
      let r := s ++ x in
      cutString s outlen x flag = Ok (-1, []) ∧
      addString s outlen x flag
      = (if outlen <? strlen r then Ok (-1, []) else if outlen =? strlen r then Fault else Ok (0, r))
  end.
Proof.
  intros Ho Hl. unfold cutString, addString. pose proof (strlen_nonneg s). pose proof (strlen_nonneg x).
  destruct (find_in s x flag) as [[before post]|] eqn:Hf; cbv zeta; (split; [done|]).
  - apply find_in_split in Hf as [-> Hp]. set (r := before ++ drop (length x) post).
    assert (Hr : strlen (before ++ post) - strlen x = strlen r).
    { unfold r, strlen. rewrite !length_app, length_drop. lia. }
    rewrite Hr. rewrite (u32_small outlen), (u32_small (strlen r)) by (pose proof (strlen_nonneg r); lia).
    destruct (outlen <? strlen r) eqn:E1; [done|]. destruct (outlen =? strlen r) eqn:E2; zify_bool.
    + by rewrite (proj2 (Z.ltb_ge _ _)) by lia.
    + by rewrite (proj2 (Z.ltb_lt _ _)) by lia.
  - assert (Hx : 0 < strlen x).
    { destruct x; [|rewrite strlen_cons; pose proof (strlen_nonneg x); lia].
      exfalso. revert Hf. unfold find_in, strcasestr. intros Hf; destruct flag; rewrite strstr_here in Hf by done; done. }
    rewrite !strlen_app, (u32_small outlen), (u32_small (strlen s + strlen x)) by lia.
    destruct (outlen <? strlen s + strlen x) eqn:E1; [done|]. zify_bool.
    rewrite (take_ge s) by (unfold strlen in *; lia).
    destruct (outlen =? strlen s + strlen x) eqn:E2; zify_bool.
    + by rewrite (proj2 (Z.ltb_ge _ _)) by lia.
    + by rewrite (proj2 (Z.ltb_lt _ _)) by lia.
Qed.

Lemma cut_and_add_off_by_one_witness :
  addString (cs "nas0_0,") 16 (cs "nas0_1,") true = Ok (0, cs "nas0_0,nas0_1,") ∧
  addString (cs "nas0_0,") 14 (cs "nas0_1,") true = Fault.
Proof.
  split.
  - exact (proj2 (cut_and_add_off_by_one (cs "nas0_0,") (cs "nas0_1,") 16 true ltac:(lia) ltac:(done))).
  - exact (proj2 (cut_and_add_off_by_one (cs "nas0_0,") (cs "nas0_1,") 14 true ltac:(lia) ltac:(done))).
Defined.

(** ** [specialCharacterHandle] *)

Lemma special_loop_spec s handle :
  strlen handle ≤ 160 →
  special_loop s handle
  = (if strlen (handle ++ esc special s) <? 160 then Ok (handle ++ esc special s) else Fault).
Proof.
  revert handle. induction s as [|c s IH]; intros handle Hh; cbn [special_loop].
  { unfold esc. simpl. by rewrite app_nil_r. }
  set (h' := handle ++ _). assert (He : handle ++ esc special (c :: s) = h' ++ esc special s).
  { unfold h', esc. cbn [map concat]. by rewrite app_assoc. }
  rewrite He. destruct (strlen h' <=? 160) eqn:E; zify_bool; [by apply IH|].
  rewrite (proj2 (Z.ltb_ge _ _)); [done|]. rewrite strlen_app. pose proof (strlen_nonneg (esc special s)). lia.
Qed.

(** [specialCharacterHandle] replaces the string by its escaped form,
    from which removing the backslashes gives the string back, when that form
    fits both its own 160 bytes and the caller's buffer; otherwise it writes
    outside a buffer. *)
Theorem specialCharacterHandle_roundtrip s cap :
  match specialCharacterHandle s cap with
  | Ok r => r = esc special s ∧ guarded special r = true ∧ unesc r = s ∧ strlen r < Z.min 160 cap
  | Fault => Z.min 160 cap ≤ strlen (esc special s)
  | NoFuel => False
  end.
Proof.
  unfold specialCharacterHandle. rewrite special_loop_spec by done. cbn [app].
  unfold mbind, res_bind. destruct (strlen (esc special s) <? 160) eqn:E1; zify_bool; [|lia].
  destruct (strlen (esc special s) <? cap) eqn:E2; zify_bool; [|lia]. cbn [mret res_ret].
  split; [done|]. split; [apply esc_guarded; by left|]. split; [apply unesc_esc; by left|lia].
Qed.
End UtilProps.
