(* ===== verification/Queue.v ===== *)
(** * The event queue ([service/cfg/queue_api.c])

    A doubly linked FIFO of client pointers.  The nodes live in a store, so
    that links, frees and leaks are visible; [rep] relates a store to the
    list of the queue's nodes, and the theorems show that the operations
    implement a plain list. *)

From S2P Require Import Prelude CString.
Open Scope Z_scope.

Module Queue.

Abbreviation loc := positive.

(** [struct _QueueNode]; a client pointer is a [Z], [0] being [NULL]. *)
Record QueueNode := {
  qn_data : Z;
  qn_next : option loc;
  qn_prev : option loc
}.

(** [struct _Queue]; [length] is an [unsigned long] of 32 bits. *)
Record Queue := {
  q_head : option loc;
  q_tail : option loc;
  q_length : Z
}.

(** The memory the component works on: live nodes, live queue headers, and
    the client pointers handed to [free]. *)
Record mem := {
  m_nodes : gmap loc QueueNode;
  m_queues : gmap loc Queue;
  m_freed : list Z
}.

Definition load_node (l : loc) : M mem QueueNode := λ m,
  match m_nodes m !! l with Some n => Ok (n, m) | None => Fault end.
Definition store_node (l : loc) (n : QueueNode) : M mem unit := λ m,
  Ok (tt, {| m_nodes := <[l := n]> (m_nodes m); m_queues := m_queues m; m_freed := m_freed m |}).
Definition free_node (l : loc) : M mem unit := λ m,
  match m_nodes m !! l with
  | Some _ => Ok (tt, {| m_nodes := delete l (m_nodes m); m_queues := m_queues m; m_freed := m_freed m |})
  | None => Fault
  end.
Definition load_queue (q : loc) : M mem Queue := λ m,
  match m_queues m !! q with Some Q => Ok (Q, m) | None => Fault end.
Definition store_queue (q : loc) (Q : Queue) : M mem unit := λ m,
  Ok (tt, {| m_nodes := m_nodes m; m_queues := <[q := Q]> (m_queues m); m_freed := m_freed m |}).
Definition free_queue (q : loc) : M mem unit := λ m,
  match m_queues m !! q with
  | Some _ => Ok (tt, {| m_nodes := m_nodes m; m_queues := delete q (m_queues m); m_freed := m_freed m |})
  | None => Fault
  end.
Definition free_data (d : Z) : M mem unit := λ m,
  Ok (tt, {| m_nodes := m_nodes m; m_queues := m_queues m; m_freed := d :: m_freed m |}).

Section ops.
(** [malloc], for the two structures the component allocates. *)
Context (malloc_node : gmap loc QueueNode → option loc).
Context (malloc_queue : gmap loc Queue → option loc).

Definition QueueInit : M mem (option loc) := λ m,
  match malloc_queue (m_queues m) with
  | None => Ok (None, m)
  | Some q =>
      (store_queue q {| q_head := None; q_tail := None; q_length := 0 |};; mret (Some q)) m
  end.

Definition QueuePushTail (queue : option loc) (data : Z) : M mem Z :=
  match queue with
  | None => mret (-1)
  | Some q => λ m,
      match malloc_node (m_nodes m) with
      | None => Ok (-1, m)
      | Some node =>
          (store_node node {| qn_data := data; qn_next := None; qn_prev := None |};;
           Q ← load_queue q;
           Q' ← (match q_tail Q, q_head Q with
                 | None, None =>
                     mret {| q_head := Some node; q_tail := Some node; q_length := q_length Q |}
                 | tail, _ =>
                     t ← lift (deref tail);
                     tn ← load_node t;
                     store_node t {| qn_data := qn_data tn; qn_next := Some node; qn_prev := qn_prev tn |};;
                     store_node node {| qn_data := data; qn_next := None; qn_prev := Some t |};;
                     mret {| q_head := q_head Q; q_tail := Some node; q_length := q_length Q |}
                 end);
           store_queue q {| q_head := q_head Q'; q_tail := q_tail Q'; q_length := u32 (q_length Q' + 1) |};;
           mret 0) m
      end
  end.

Definition QueuePopHead (queue : option loc) : M mem Z :=
  match queue with
  | None => mret 0
  | Some q =>
      Q ← load_queue q;
      match q_head Q with
      | None => mret 0
      | Some node =>
          n ← load_node node;
          tail ← (match qn_next n with
                  | Some h =>
                      hn ← load_node h;
                      store_node h {| qn_data := qn_data hn; qn_next := qn_next hn; qn_prev := None |};;
                      mret (q_tail Q)
                  | None => mret None
                  end);
          store_queue q {| q_head := qn_next n; q_tail := tail; q_length := u32 (q_length Q - 1) |};;
          n' ← load_node node;
          free_node node;;
          mret (qn_data n')
      end
  end.

(** The drain loop of [QueueFree]: it stops at the first [NULL] popped. *)
Fixpoint QueueFree_loop (fuel : nat) (q : loc) (isFreeData : bool) : M mem unit :=
  match fuel with
  | O => out_of_fuel
  | S fuel' =>
      data ← QueuePopHead (Some q);
      if data =? 0 then mret tt
      else
        (if isFreeData then free_data data else mret tt);;
        QueueFree_loop fuel' q isFreeData
  end.

Definition QueueFree (fuel : nat) (queue : option loc) (isFreeData : bool) : M mem unit :=
  match queue with
  | None => mret tt
  | Some q => QueueFree_loop fuel q isFreeData;; free_queue q
  end.
End ops.

(** ** Abstraction: a store holds the queue whose nodes are [xs], in order *)

Fixpoint dll (h : gmap loc QueueNode) (prev : option loc) (xs : list (loc * Z)) : Prop :=
  match xs with
  | [] => True
  | (l, d) :: xs' =>
      h !! l = Some {| qn_data := d; qn_next := fst <$> head xs'; qn_prev := prev |} ∧
      dll h (Some l) xs'
  end.

Definition rep (m : mem) (q : loc) (xs : list (loc * Z)) : Prop :=
  m_queues m !! q = Some {| q_head := fst <$> head xs; q_tail := fst <$> last xs;
                            q_length := u32 (zlen xs) |} ∧
  dll (m_nodes m) None xs ∧ NoDup xs.*1.

(** A store in which only the nodes in [S] may have changed. *)
Definition frame (S : gset loc) (h h' : gmap loc QueueNode) : Prop :=
  ∀ l, l ∉ S → h' !! l = h !! l.

Definition locs (xs : list (loc * Z)) : gset loc := list_to_set xs.*1.

Lemma dll_lookup_live h p xs l : dll h p xs → l ∈ xs.*1 → is_Some (h !! l).
Proof.
  revert p. induction xs as [|[l' d] xs IH]; intros p; simpl; [set_solver|].
  intros [Hl Hd] [->|?]%elem_of_cons; eauto.
Qed.

(** Changing a node outside the list keeps the list. *)
Lemma dll_insert_other h p xs l n : l ∉ xs.*1 → dll h p xs → dll (<[l := n]> h) p xs.
Proof.
  revert p. induction xs as [|[l' d] xs IH]; intros p; simpl; [done|].
  intros Hl [H1 H2]. rewrite lookup_insert_ne by set_solver. split; [done|].
  apply IH; [set_solver|done].
Qed.

Lemma dll_delete_other h p xs l : l ∉ xs.*1 → dll h p xs → dll (delete l h) p xs.
Proof.
  revert p. induction xs as [|[l' d] xs IH]; intros p; simpl; [done|].
  intros Hl [H1 H2]. rewrite lookup_delete_ne by set_solver. split; [done|].
  apply IH; [set_solver|done].
Qed.

(** Linking a fresh node behind the last one. *)
Lemma dll_snoc h p xs t dt l d :
  last xs = Some (t, dt) → NoDup xs.*1 → l ∉ xs.*1 → dll h p xs →
  ∃ n, h !! t = Some n ∧
    dll (<[l := {| qn_data := d; qn_next := None; qn_prev := Some t |}]>
        (<[t := {| qn_data := qn_data n; qn_next := Some l; qn_prev := qn_prev n |}]> h))
        p (xs ++ [(l, d)]).
Proof.
  revert p. induction xs as [|[l' d'] xs IH]; intros p Hlast Hnd Hl; [done|].
  simpl. intros [H1 H2]. apply NoDup_cons in Hnd as [Hl' Hnd].
  destruct xs as [|x xs].
  - simpl in Hlast. simplify_eq/=. eexists. split; [exact H1|].
    rewrite lookup_insert_ne by set_solver. rewrite !lookup_insert_eq. done.
  - destruct (IH (Some l')) as (n & Ht & Hd);
      [by rewrite last_cons_cons in Hlast|done|set_solver|done|].
    exists n. split; [done|]. split; [|done].
    assert (Htin : t ∈ ((x :: xs).*1)).
    { rewrite last_cons_cons in Hlast. apply last_Some in Hlast as [l0 ->].
      rewrite fmap_app. set_solver. }
    rewrite lookup_insert_ne by set_solver.
    rewrite lookup_insert_ne by set_solver. done.
Qed.

(** Dropping the head relinks the second node only. *)
Lemma dll_tail h l d x y xs :
  NoDup (l :: x :: xs.*1) → dll h None ((l, d) :: (x, y) :: xs) →
  ∃ n, h !! x = Some n ∧
    dll (<[x := {| qn_data := qn_data n; qn_next := qn_next n; qn_prev := None |}]> h) None ((x, y) :: xs).
Proof.
  intros Hnd (H1 & H2 & H3). eexists. split; [exact H2|]. simpl.
  rewrite lookup_insert_eq. split; [done|].
  apply dll_insert_other; [|done].
  apply NoDup_cons in Hnd as [_ Hnd]. by apply NoDup_cons in Hnd as [? _].
Qed.

#[export] Hint Resolve dll_insert_other dll_delete_other : cfg.

(** Clients: a producer and a consumer. *)
Fixpoint push_all (malloc_node : gmap loc QueueNode → option loc) (q : loc) (ds : list Z) : M mem unit :=
  match ds with
  | [] => mret tt
  | d :: ds' => QueuePushTail malloc_node (Some q) d;; push_all malloc_node q ds'
  end.
Fixpoint pop_all (q : loc) (n : nat) : M mem (list Z) :=
  match n with
  | O => mret []
  | S n' => d ← QueuePopHead (Some q); ds ← pop_all q n'; mret (d :: ds)
  end.

Lemma pop_spec m q l d xs :
  rep m q ((l, d) :: xs) →
  ∃ m', QueuePopHead (Some q) m = Ok (d, m') ∧ rep m' q xs ∧
        m_freed m' = m_freed m ∧ m_nodes m' !! l = None ∧
        frame (locs ((l, d) :: xs)) (m_nodes m) (m_nodes m') ∧
        dom (m_nodes m') = dom (m_nodes m) ∖ {[l]}.
Proof.
  intros (Hq & Hd & Hnd). pose proof Hd as [H1 _].
  assert (Hlen : u32 (u32 (zlen ((l, d) :: xs)) - 1) = u32 (zlen xs)).
  { unfold u32. rewrite Zminus_mod_idemp_l. f_equal. simpl. lia. }
  apply NoDup_cons in Hnd as [Hl Hnd].
  remember (u32 (zlen ((l, d) :: xs))) as n0 eqn:Hn0. clear Hn0.
  unfold QueuePopHead, mbind, M_bind, load_queue, load_node, store_node, store_queue, free_node.
  rewrite Hq. simpl. rewrite Hlen, H1. simpl. destruct xs as [|[x y] xs]; simpl.
  - repeat (rewrite H1; simpl). eexists. split; [done|]. split; [|simpl].
    + split; simpl; [by rewrite lookup_insert_eq|]. by split.
    + split; [done|]. rewrite lookup_delete_eq. split; [done|]. split; [|set_solver].
      intros l' Hl'. unfold locs in Hl'. rewrite lookup_delete_ne; set_solver.
  - destruct (dll_tail (m_nodes m) l d x y xs) as (n & Hn & Hd');
      [by apply NoDup_cons|done|].
    rewrite Hn. simpl. repeat (rewrite lookup_insert_ne by set_solver; rewrite H1; simpl).
    eexists. split; [done|]. split; [|simpl].
    + split; simpl; [rewrite lookup_insert_eq; done|].
      split; [|done]. apply (dll_delete_other _ _ ((x, y) :: xs)); done.
    + split; [done|]. rewrite lookup_delete_eq. split; [done|]. split.
      * intros l' Hl'. unfold locs in Hl'. rewrite lookup_delete_ne, lookup_insert_ne; set_solver.
      * rewrite dom_delete_L, dom_insert_L.
        assert (x ∈ dom (m_nodes m)) by (apply elem_of_dom; eauto). set_solver.
Qed.

Lemma pop_empty m q : rep m q [] → QueuePopHead (Some q) m = Ok (0, m).
Proof.
  intros (Hq & _). unfold QueuePopHead, mbind, M_bind, load_queue. by rewrite Hq.
Qed.

(** The drain loop on a queue whose first [length xs] data are non-null
    and whose next one, if any, is [NULL]. *)
Lemma free_loop_spec m q xs ys fuel b :
  rep m q (xs ++ ys) → Forall (λ x, x.2 ≠ 0) xs →
  match ys with [] => True | (_, d) :: _ => d = 0 end →
  (length xs < fuel)%nat →
  ∃ m', QueueFree_loop fuel q b m = Ok (tt, m') ∧ rep m' q (tail ys) ∧
        m_freed m' = (if b then reverse xs.*2 else []) ++ m_freed m ∧
        dom (m_nodes m') = dom (m_nodes m) ∖ locs (xs ++ take 1 ys).
Proof.
  revert m fuel. induction xs as [|[l d] xs IH]; intros m fuel Hrep Hnz Hys Hf;
    (destruct fuel as [|fuel]; [simpl in Hf; lia|]).
  - destruct ys as [|[l d] ys]; cbn [QueueFree_loop app] in *.
    + step_by (pop_empty m q Hrep). simpl. eexists. split; [done|]. split; [done|].
      split; [by destruct b|]. unfold locs. set_solver.
    + destruct (pop_spec m q l d ys Hrep) as (m' & Hp & Hr & Hfr & _ & _ & Hdom). subst d.
      step_by Hp. simpl.
      exists m'. split; [done|]. split; [done|]. split; [by destruct b|].
      rewrite Hdom. unfold locs. simpl. set_solver.
  - apply Forall_cons in Hnz as [Hd Hnz]. simpl in Hd, Hf.
    destruct (pop_spec m q l d (xs ++ ys) Hrep) as (m1 & Hp & Hr & Hfr & _ & _ & Hdom).
    cbn [QueueFree_loop]. step_by Hp.
    rewrite (proj2 (Z.eqb_neq d 0) Hd).
    set (m2 := if b then {| m_nodes := m_nodes m1; m_queues := m_queues m1; m_freed := d :: m_freed m1 |}
               else m1).
    assert (Hr2 : rep m2 q (xs ++ ys)) by (unfold m2; destruct b; done).
    destruct (IH m2 fuel Hr2 Hnz Hys) as (m' & Hl & Hrep' & Hf' & Hdom'); [lia|].
    exists m'. split; [|split; [done|split]].
    + destruct b; simpl; apply Hl.
    + rewrite Hf'. unfold m2. destruct b; simpl; rewrite ?Hfr; [|done].
      rewrite reverse_cons, <- app_assoc. done.
    + rewrite Hdom'. unfold m2. destruct b; simpl; rewrite Hdom; unfold locs; simpl; set_solver.
Qed.

Lemma pop_all_spec m q xs ys :
  rep m q (xs ++ ys) →
  ∃ m', pop_all q (length xs) m = Ok (xs.*2, m') ∧ rep m' q ys ∧
        dom (m_nodes m') = dom (m_nodes m) ∖ locs xs.
Proof.
  revert m. induction xs as [|[l d] xs IH]; intros m Hrep; simpl.
  - exists m. unfold locs. simpl. split; [done|]. split; [done|]. set_solver.
  - destruct (pop_spec m q l d (xs ++ ys) Hrep) as (m1 & Hp & Hr & _ & _ & _ & Hdom1).
    destruct (IH m1 Hr) as (m' & Hps & Hr' & Hdom).
    exists m'. cbn [pop_all]. step_by Hp. step_by Hps. split; [done|]. split; [done|].
    rewrite Hdom, Hdom1. unfold locs. simpl. set_solver.
Qed.

Section proofs.
Context (malloc_node : gmap loc QueueNode → option loc).
Context (malloc_node_fresh : ∀ h l, malloc_node h = Some l → h !! l = None).

Lemma fresh_not_listed h p xs l :
  malloc_node h = Some l → dll h p xs → l ∉ xs.*1.
Proof.
  intros Hm Hd Hin. apply malloc_node_fresh in Hm.
  destruct (dll_lookup_live _ _ _ _ Hd Hin). congruence.
Qed.

Lemma push_spec m q xs l d :
  rep m q xs → malloc_node (m_nodes m) = Some l →
  ∃ m', QueuePushTail malloc_node (Some q) d m = Ok (0, m') ∧ rep m' q (xs ++ [(l, d)]) ∧
        frame ({[l]} ∪ locs xs) (m_nodes m) (m_nodes m') ∧
        dom (m_nodes m') = {[l]} ∪ dom (m_nodes m).
Proof.
  intros (Hq & Hd & Hnd) Hm. pose proof (fresh_not_listed _ _ _ _ Hm Hd) as Hl.
  assert (Hlen : u32 (u32 (zlen xs) + 1) = u32 (zlen (xs ++ [(l, d)]))).
  { unfold u32. rewrite Zplus_mod_idemp_l, length_app. f_equal. simpl. lia. }
  assert (Hnd' : NoDup ((xs ++ [(l, d)]).*1)).
  { rewrite fmap_app, NoDup_app. repeat split; [done|set_solver|]. simpl. apply NoDup_singleton. }
  unfold QueuePushTail. rewrite Hm. simpl.
  unfold mbind, M_bind, store_node, load_queue. simpl. rewrite Hq. simpl.
  destruct (last xs) as [[t dt]|] eqn:Hlast; simpl.
  - destruct (dll_snoc (<[l := {| qn_data := d; qn_next := None; qn_prev := None |}]> (m_nodes m))
                None xs t dt l d) as (n & Hn & Hd'); auto with cfg.
    unfold lift, load_node. simpl. rewrite Hn. simpl.
    assert (Ht : t ∈ xs.*1).
    { apply last_Some in Hlast as [x ->]. rewrite fmap_app. set_solver. }
    destruct (dll_lookup_live _ _ _ t Hd Ht) as [nt Hnt].
    eexists. split; [done|]. simpl. split; [|split].
    + split; simpl; [|by split].
      rewrite lookup_insert_eq, Hlen, last_snoc. by destruct xs.
    + intros l'. unfold locs. rewrite not_elem_of_union, elem_of_list_to_set. intros [? ?].
      rewrite !lookup_insert_ne; set_solver.
    + rewrite !dom_insert_L. apply elem_of_dom_2 in Hnt. set_solver.
  - apply last_None in Hlast as ->. simpl. eexists. split; [done|]. simpl. split; [|split].
    + split; simpl; [by rewrite lookup_insert_eq|]. split; [|done]. split; [|done].
      by rewrite lookup_insert_eq.
    + intros l' Hl'. rewrite lookup_insert_ne; set_solver.
    + by rewrite dom_insert_L.
Qed.

Lemma push_all_spec m q xs ds :
  (∀ h, is_Some (malloc_node h)) → rep m q xs →
  ∃ m' ls, push_all malloc_node q ds m = Ok (tt, m') ∧ length ls = length ds ∧
           rep m' q (xs ++ zip ls ds) ∧ locs (zip ls ds) ## dom (m_nodes m) ∧
           dom (m_nodes m') = locs (zip ls ds) ∪ dom (m_nodes m).
Proof.
  intros Hok. revert m xs. induction ds as [|d ds IH]; intros m xs Hrep; simpl.
  - exists m, []. rewrite app_nil_r. unfold locs. simpl.
    split; [done|]. split; [done|]. split; [done|]. split; set_solver.
  - destruct (Hok (m_nodes m)) as [l Hl]. pose proof (malloc_node_fresh _ _ Hl) as Hfr.
    destruct (push_spec m q xs l d Hrep Hl) as (m1 & Hp & Hr1 & _ & Hdom1).
    destruct (IH m1 _ Hr1) as (m' & ls & Hps & Hls & Hr & Hdis & Hdom).
    exists m', (l :: ls). step_by Hp. split; [done|].
    split; [simpl; lia|]. simpl. rewrite <- app_assoc in Hr. split; [done|].
    apply not_elem_of_dom in Hfr. rewrite Hdom1 in Hdis, Hdom.
    unfold locs in *. simpl. split; [set_solver|]. rewrite Hdom. set_solver.
Qed.

End proofs.

(** ** Properties *)

(** The queue is a FIFO. Starting from an empty queue, pushing the data [ds] one by
    one and popping as many times returns exactly [ds] in order, ends with an empty
    queue, and frees every node the pushes allocated (the set of live nodes is the
    initial one). *)
Theorem queue_fifo malloc_node m q ds :
  (∀ h l, malloc_node h = Some l → h !! l = None) →
  (∀ h, is_Some (malloc_node h)) →
  rep m q [] →
  ∃ m1 m2,
    push_all malloc_node q ds m = Ok (tt, m1) ∧
    pop_all q (length ds) m1 = Ok (ds, m2) ∧
    rep m2 q [] ∧ dom (m_nodes m2) = dom (m_nodes m).
Proof.
  intros Hfresh Hok Hrep.
  destruct (push_all_spec malloc_node Hfresh m q [] ds Hok Hrep) as (m1 & ls & H1 & Hls & Hr1 & Hdis & Hd1).
  destruct (pop_all_spec m1 q (zip ls ds) []) as (m2 & H2 & Hr2 & Hd2); [by rewrite app_nil_r|].
  exists m1, m2. split; [done|].
  rewrite length_zip_with, Hls, Nat.min_id in H2.
  rewrite snd_zip in H2 by lia. split; [done|]. split; [done|].
  rewrite Hd2, Hd1. set_solver.
Qed.

(** A fresh-address allocator, and an empty queue at address 1. *)
Definition demo_malloc (h : gmap loc QueueNode) : option loc := Some (fresh (dom h)).
Definition demo_mem : mem :=
  {| m_nodes := ∅;
     m_queues := {[ 1%positive := {| q_head := None; q_tail := None; q_length := 0 |} ]};
     m_freed := [] |}.

Lemma demo_malloc_fresh h l : demo_malloc h = Some l → h !! l = None.
Proof. intros [= <-]. apply not_elem_of_dom, is_fresh. Qed.

Lemma demo_rep : rep demo_mem 1 [].
Proof. repeat split; constructor. Qed.

Lemma queue_fifo_witness :
  ∃ m1 m2, push_all demo_malloc 1 [10; 0; 30] demo_mem = Ok (tt, m1) ∧
    pop_all 1 3 m1 = Ok ([10; 0; 30], m2) ∧ rep m2 1 [] ∧ dom (m_nodes m2) = dom (m_nodes demo_mem).
Proof.
  apply (queue_fifo demo_malloc demo_mem 1 [10; 0; 30]).
  - exact demo_malloc_fresh.
  - intros h. by eexists.
  - exact demo_rep.
Defined.

(** [QueueFree] takes the data [NULL] for the end of the queue. It frees the nodes
    up to and including the first one whose data is [NULL] (with their data when asked),
    frees the header, and leaks every node behind it; without a [NULL] datum it frees
    everything. *)
Theorem queue_free_stops_at_null m q xs ys b fuel :
  rep m q (xs ++ ys) → Forall (λ x, x.2 ≠ 0) xs →
  match ys with [] => True | (_, d) :: _ => d = 0 end →
  (length xs < fuel)%nat →
  ∃ m', QueueFree fuel (Some q) b m = Ok (tt, m') ∧
        m_queues m' !! q = None ∧
        m_freed m' = (if b then reverse xs.*2 else []) ++ m_freed m ∧
        dom (m_nodes m') = dom (m_nodes m) ∖ locs (xs ++ take 1 ys).
Proof.
  intros Hrep Hnz Hys Hf.
  destruct (free_loop_spec m q xs ys fuel b Hrep Hnz Hys Hf) as (m' & Hl & (Hq & _) & Hfr & Hdom).
  unfold QueueFree. step_by Hl. unfold free_queue. rewrite Hq.
  eexists. split; [done|]. simpl. rewrite lookup_delete_eq. done.
Qed.

Lemma queue_free_stops_at_null_witness :
  let node d n p := {| qn_data := d; qn_next := n; qn_prev := p |} in
  let m := {| m_nodes := <[2%positive := node 7 (Some 3%positive) None]>
                         (<[3%positive := node 0 (Some 4%positive) (Some 2%positive)]>
                         {[4%positive := node 9 None (Some 3%positive)]});
              m_queues := {[1%positive := {| q_head := Some 2%positive; q_tail := Some 4%positive; q_length := 3 |}]};
              m_freed := [] |} in
  ∃ m', QueueFree 5 (Some 1%positive) true m = Ok (tt, m') ∧
        m_queues m' !! 1%positive = None ∧ m_freed m' = [7] ∧ dom (m_nodes m') = {[4%positive]}.
Proof.
  intros node m.
  destruct (queue_free_stops_at_null m 1 [(2%positive, 7)] [(3%positive, 0); (4%positive, 9)] true 5)
    as (m' & H1 & H2 & H3 & H4).
  - split; [reflexivity|]. split; [repeat split; reflexivity|].
    simpl. repeat (apply NoDup_cons; split; [set_solver|]). constructor.
  - by constructor.
  - done.
  - simpl. lia.
  - exists m'. split; [exact H1|]. split; [exact H2|]. split; [exact H3|].
    rewrite H4. reflexivity.
Defined.
End Queue.
