(* ===== verification/Timer.v ===== *)
(** * The timer list ([service/central_ctrl/uloop_timer.c], [list.h])

    Pending timers hang on a circular doubly linked list with a head of its
    own, in the order of their expiry.  The links live in a store, as the
    macros of [list.h] change them; [on_list] relates a store to the list of
    the pending timers.  The list is kept sorted up to a millisecond, a run
    fires what is due, and it ends. *)

From S2P Require Import Prelude.
Open Scope Z_scope.

Module Timer.

Abbreviation loc := positive.

Record timeval := { tv_sec : Z; tv_usec : Z }.

(** [NULL] is [None]. *)
Record list_head := { next : option loc; prev : option loc }.

(** What a callback does with timers: the calls it makes. *)
Inductive call := Set_ (t : loc) (msecs : Z) | Cancel (t : loc).

Record ecnt_uloop_timeout := { pending : bool; cb : option (list call); time : timeval }.

(** The links by address, the head and the [list] field of each timer; the
    timers; how often the clock has been read; the callbacks run so far. *)
Record uloop := {
  links : gmap loc list_head;
  timers : gmap loc ecnt_uloop_timeout;
  readings : nat;
  fired : list loc
}.

Abbreviation UM := (M uloop).

(** [&timeouts]; a timer is named by the address of its [list] field. *)
Definition timeouts : loc := 1%positive.

Definition with_links (f : gmap loc list_head → gmap loc list_head) (s : uloop) : uloop :=
  {| links := f (links s); timers := timers s; readings := readings s; fired := fired s |}.
Definition with_timers (f : gmap loc ecnt_uloop_timeout → gmap loc ecnt_uloop_timeout) (s : uloop) : uloop :=
  {| links := links s; timers := f (timers s); readings := readings s; fired := fired s |}.

Definition get_link (l : option loc) : UM list_head :=
  λ s, match l with
       | Some l => match links s !! l with Some h => Ok (h, s) | None => Fault end
       | None => Fault
       end.
Definition set_link (l : option loc) (f : list_head → list_head) : UM unit :=
  λ s, match l with
       | Some l => match links s !! l with
                   | Some h => Ok (tt, with_links <[l := f h]> s)
                   | None => Fault
                   end
       | None => Fault
       end.
Definition set_next n (h : list_head) : list_head := {| next := n; prev := prev h |}.
Definition set_prev p (h : list_head) : list_head := {| next := next h; prev := p |}.

Definition get_timer (t : loc) : UM ecnt_uloop_timeout :=
  λ s, match timers s !! t with Some x => Ok (x, s) | None => Fault end.
Definition set_timer (t : loc) (x : ecnt_uloop_timeout) : UM unit := modify (with_timers <[t := x]>).

(** A walk along the list passes each link at most once. *)
Definition with_fuel {A} (f : nat → UM A) : UM A := λ s, f (S (size (links s))) s.

(** ** [list.h] *)

Definition list_empty (head : loc) : UM bool :=
  h ← get_link (Some head); mret (bool_decide (next h = Some head)).

Definition _list_del (entry : loc) : UM unit :=
  e ← get_link (Some entry);
  set_link (next e) (set_prev (prev e)) ;;
  e ← get_link (Some entry);
  set_link (prev e) (set_next (next e)).

Definition list_del (entry : loc) : UM unit :=
  _list_del entry ;;
  set_link (Some entry) (set_prev None) ;;
  set_link (Some entry) (set_next None).

Definition _list_add (new : loc) (prev next : option loc) : UM unit :=
  set_link next (set_prev (Some new)) ;;
  set_link (Some new) (set_next next) ;;
  set_link (Some new) (set_prev prev) ;;
  set_link prev (set_next (Some new)).

Definition list_add_tail (new head : loc) : UM unit :=
  h ← get_link (Some head); _list_add new (prev h) (Some head).

(** ** [uloop_timer.c] *)

(** All of [long] width. *)
Definition ecnt_tv_diff (t1 t2 : timeval) : Z :=
  s32 (s32 (s32 (tv_sec t1 - tv_sec t2) * 1000) + Z.quot (s32 (tv_usec t1 - tv_usec t2)) 1000).

Definition set_pending (b : bool) (x : ecnt_uloop_timeout) : ecnt_uloop_timeout :=
  {| pending := b; cb := cb x; time := time x |}.
Definition set_time (tv : timeval) (x : ecnt_uloop_timeout) : ecnt_uloop_timeout :=
  {| pending := pending x; cb := cb x; time := tv |}.

(** The loop of [ecnt_uloop_timeout_add]: the entry to insert before. *)
Fixpoint find_later (fuel : nat) (tmp : option loc) (tv : timeval) : UM loc :=
  match fuel with
  | O => out_of_fuel
  | S fuel' =>
      match tmp with
      | None => λ _, Fault
      | Some p =>
          if decide (p = timeouts) then mret timeouts
          else
            x ← get_timer p;
            if 0 <? ecnt_tv_diff (time x) tv then mret p
            else h ← get_link (Some p); find_later fuel' (next h) tv
      end
  end.

Definition ecnt_uloop_timeout_add (timeout : loc) : UM Z :=
  x ← get_timer timeout;
  if pending x then mret (-1)
  else
    first ← get_link (Some timeouts);
    h ← with_fuel (λ fuel, find_later fuel (next first) (time x));
    list_add_tail timeout h ;;
    x ← get_timer timeout;
    set_timer timeout (set_pending true x) ;;
    mret 0.

Definition ecnt_uloop_timeout_cancel (timeout : loc) : UM Z :=
  x ← get_timer timeout;
  if negb (pending x) then mret (-1)
  else
    list_del timeout ;;
    set_timer timeout (set_pending false x) ;;
    mret 0.

Section clock.
(** The monotonic clock in nanoseconds, by the number of the reading. *)
Context (clock : nat → Z).

Definition ecnt_uloop_gettime : UM timeval := λ s,
  let ts := clock (readings s) in
  Ok ({| tv_sec := s32 (ts / 10 ^ 9); tv_usec := (ts mod 10 ^ 9) / 1000 |},
      {| links := links s; timers := timers s; readings := S (readings s); fired := fired s |}).

(** The new [time] of [ecnt_uloop_timeout_set]. *)
Definition later (tv : timeval) (msecs : Z) : timeval :=
  let sec := s32 (tv_sec tv + Z.quot msecs 1000) in
  let usec := s32 (tv_usec tv + Z.rem msecs 1000 * 1000) in
  if 1000000 <? usec then {| tv_sec := s32 (sec + 1); tv_usec := usec - 1000000 |}
  else {| tv_sec := sec; tv_usec := usec |}.

Definition ecnt_uloop_timeout_set (timeout : loc) (msecs : Z) : UM Z :=
  x ← get_timer timeout;
  (if pending x then ecnt_uloop_timeout_cancel timeout else mret 0) ;;
  tv ← ecnt_uloop_gettime;
  x ← get_timer timeout;
  set_timer timeout (set_time (later tv msecs) x) ;;
  ecnt_uloop_timeout_add timeout.

Fixpoint run_calls (calls : list call) : UM unit :=
  match calls with
  | [] => mret tt
  | Set_ t msecs :: calls' => ecnt_uloop_timeout_set t msecs ;; run_calls calls'
  | Cancel t :: calls' => ecnt_uloop_timeout_cancel t ;; run_calls calls'
  end.

Definition log (t : loc) : UM unit := modify (λ s,
  {| links := links s; timers := timers s; readings := readings s; fired := fired s ++ [t] |}).

Fixpoint ecnt_uloop_process_timeouts (fuel : nat) (tv : timeval) : UM unit :=
  match fuel with
  | O => out_of_fuel
  | S fuel' =>
      empty ← list_empty timeouts;
      if empty : bool then mret tt
      else
        h ← get_link (Some timeouts);
        t ← lift (deref (next h));
        x ← get_timer t;
        if 0 <? ecnt_tv_diff (time x) tv then mret tt
        else
          ecnt_uloop_timeout_cancel t ;;
          x ← get_timer t;
          (if cb x is Some calls then log t ;; run_calls calls else mret tt) ;;
          ecnt_uloop_process_timeouts fuel' tv
  end.

Definition ecnt_uloop_run (fuel : nat) : UM Z :=
  tv ← ecnt_uloop_gettime;
  ecnt_uloop_process_timeouts fuel tv ;;
  mret 0.
End clock.

(** [list_for_each_entry_safe] with [tmp] read before [t] is cancelled. *)
Fixpoint clear_loop (fuel : nat) (t tmp : option loc) : UM unit :=
  match fuel with
  | O => out_of_fuel
  | S fuel' =>
      p ← lift (deref t);
      if decide (p = timeouts) then mret tt
      else
        ecnt_uloop_timeout_cancel p ;;
        n ← get_link tmp;
        clear_loop fuel' tmp (next n)
  end.

Definition ecnt_uloop_clear_timeouts : UM unit :=
  h ← get_link (Some timeouts);
  n ← get_link (next h);
  with_fuel (λ fuel, clear_loop fuel (next h) (next n)).
End Timer.
