(* ===== verification/TimerProps.v ===== *)
(** * What the timer list guarantees *)

From stdpp Require Import sorting.
From S2P Require Import Prelude Timer.
Open Scope Z_scope.

Module TimerProps.
Import Timer.

(** ** The list in the links *)

Definition nx (s : uloop) (a : loc) : option loc := links s !! a ≫= next.
Definition pv (s : uloop) (a : loc) : option loc := links s !! a ≫= prev.

(** The pairs of neighbours on the way from [a] through [l] to [b]. *)
Fixpoint edges (a : loc) (l : list loc) (b : loc) : list (loc * loc) :=
  match l with
  | [] => [(a, b)]
  | x :: l' => (a, x) :: edges x l' b
  end.

Lemma edges_fst a l b : map fst (edges a l b) = a :: l.
Proof. revert a. induction l as [|x l IH]; intros a; simpl; [done|]. by rewrite IH. Qed.
Lemma edges_snd a l b : map snd (edges a l b) = l ++ [b].
Proof. revert a. induction l as [|x l IH]; intros a; simpl; [done|]. by rewrite IH. Qed.

Lemma edges_split a l1 l2 b :
  ∃ P1 P2 p h, edges a (l1 ++ l2) b = P1 ++ (p, h) :: P2 ∧ h = default b (head l2) ∧
    ∀ new, edges a (l1 ++ new :: l2) b = P1 ++ (p, new) :: (new, h) :: P2.
Proof.
  revert a. induction l1 as [|x l1 IH]; intros a.
  - destruct l2 as [|y l2]; [exists [], [], a, b|exists [], (edges y l2 b), a, y]; done.
  - destruct (IH x) as (P1 & P2 & p & h & He & Hh & Hn). exists ((a, x) :: P1), P2, p, h.
    simpl. rewrite He. split; [done|]. split; [done|]. intros new. by rewrite Hn.
Qed.

(** The store's links are those of the circle through [l]; the timers on it
    are the pending ones. *)
Record on_list (s : uloop) (l : list loc) : Prop := {
  ol_nodup : NoDup (timeouts :: l);
  ol_links a b : (a, b) ∈ edges timeouts l timeouts → nx s a = Some b ∧ pv s b = Some a;
  ol_pending t x : timers s !! t = Some x → (pending x = true ↔ t ∈ l);
  ol_timer t : t ∈ l → is_Some (timers s !! t);
  ol_alloc t : is_Some (timers s !! t) → t ≠ timeouts ∧ is_Some (links s !! t)
}.

(** Only the links change, to the functions given. *)
Record relinked (s s' : uloop) (N P : loc → option loc) : Prop := {
  rl_next x : nx s' x = N x;
  rl_prev x : pv s' x = P x;
  rl_dom x : is_Some (links s' !! x) ↔ is_Some (links s !! x);
  rl_timers : timers s' = timers s;
  rl_readings : readings s' = readings s;
  rl_fired : fired s' = fired s
}.

Lemma set_next_ok s l n :
  is_Some (links s !! l) →
  ∃ s', set_link (Some l) (set_next n) s = Ok (tt, s') ∧
    relinked s s' (λ x, if decide (x = l) then n else nx s x) (pv s).
Proof.
  intros [h Hh]. eexists. unfold set_link. rewrite Hh. split; [done|].
  split; try done; intros x; unfold nx, pv; simpl; destruct (decide (x = l)) as [->|Hne];
    rewrite ?lookup_insert_eq, ?lookup_insert_ne by done; rewrite ?Hh; done || by split; eauto.
Qed.

Lemma set_prev_ok s l p :
  is_Some (links s !! l) →
  ∃ s', set_link (Some l) (set_prev p) s = Ok (tt, s') ∧
    relinked s s' (nx s) (λ x, if decide (x = l) then p else pv s x).
Proof.
  intros [h Hh]. eexists. unfold set_link. rewrite Hh. split; [done|].
  split; try done; intros x; unfold nx, pv; simpl; destruct (decide (x = l)) as [->|Hne];
    rewrite ?lookup_insert_eq, ?lookup_insert_ne by done; rewrite ?Hh; done || by split; eauto.
Qed.

Lemma get_link_ok s l a : nx s l = Some a → ∃ h, get_link (Some l) s = Ok (h, s) ∧ next h = Some a ∧ links s !! l = Some h.
Proof.
  unfold nx, get_link. destruct (links s !! l) as [h|]; [|done]. simpl. intros Hn. by exists h.
Qed.

Lemma nx_some s l a : nx s l = Some a → is_Some (links s !! l).
Proof. unfold nx. destruct (links s !! l); [by eauto|done]. Qed.
Lemma pv_some s l a : pv s l = Some a → is_Some (links s !! l).
Proof. unfold pv. destruct (links s !! l); [by eauto|done]. Qed.

(** [list_add_tail new h] behind [p]. *)
Lemma list_add_tail_ok s new p h :
  pv s h = Some p → is_Some (links s !! p) → is_Some (links s !! new) → new ≠ p → new ≠ h →
  ∃ s', list_add_tail new h s = Ok (tt, s') ∧
    relinked s s' (λ x, if decide (x = p) then Some new else if decide (x = new) then Some h else nx s x)
      (λ x, if decide (x = new) then Some p else if decide (x = h) then Some new else pv s x).
Proof.
  intros Hp Hps Hns Hnp Hnh. unfold list_add_tail.
  assert (Hg : ∃ hd, get_link (Some h) s = Ok (hd, s) ∧ prev hd = Some p).
  { unfold pv in Hp. unfold get_link. destruct (links s !! h) as [hd|]; [|done]. by exists hd. }
  destruct Hg as (hd & Hg & Hpv). step_by Hg. unfold _list_add. rewrite Hpv.
  destruct (set_prev_ok s h (Some new) (pv_some _ _ _ Hp)) as (s1 & Hr1 & [N1 P1 D1 T1 C1 F1]). step_by Hr1.
  destruct (set_next_ok s1 new (Some h)) as (s2 & Hr2 & [N2 P2 D2 T2 C2 F2]); [by apply D1|]. step_by Hr2.
  destruct (set_prev_ok s2 new (Some p)) as (s3 & Hr3 & [N3 P3 D3 T3 C3 F3]); [by apply D2, D1|]. step_by Hr3.
  destruct (set_next_ok s3 p (Some new)) as (s4 & Hr4 & [N4 P4 D4 T4 C4 F4]); [by apply D3, D2, D1|].
  exists s4. split; [done|]. split; try congruence.
  - intros x. rewrite N4. destruct (decide (x = p)); [done|]. rewrite N3, N2. destruct (decide (x = new)); [done|]. apply N1.
  - intros x. rewrite P4, P3. destruct (decide (x = new)); [done|]. rewrite P2. apply P1.
  - intros x. rewrite D4, D3, D2. apply D1.
Qed.

(** [list_del t] between [p] and [h]. *)
Lemma list_del_ok s t p h :
  nx s t = Some h → pv s t = Some p → is_Some (links s !! p) → is_Some (links s !! h) → t ≠ p → t ≠ h →
  ∃ s', list_del t s = Ok (tt, s') ∧
    relinked s s' (λ x, if decide (x = t) then None else if decide (x = p) then Some h else nx s x)
      (λ x, if decide (x = t) then None else if decide (x = h) then Some p else pv s x).
Proof.
  intros Hn Hp Hps Hhs Htp Hth. unfold list_del, _list_del.
  assert (Hg : ∀ s', nx s' t = Some h → pv s' t = Some p →
            ∃ e, get_link (Some t) s' = Ok (e, s') ∧ next e = Some h ∧ prev e = Some p).
  { intros s' Hn' Hp'. unfold nx, pv in *. unfold get_link. destruct (links s' !! t) as [e|]; [|done]. by exists e. }
  destruct (Hg s Hn Hp) as (e & Hge & Hen & Hep).
  destruct (set_prev_ok s h (Some p) Hhs) as (s1 & Hr1 & [N1 P1 D1 T1 C1 F1]).
  destruct (Hg s1) as (e1 & Hge1 & Hen1 & Hep1); [by rewrite N1|by rewrite P1, decide_False|].
  destruct (set_next_ok s1 p (Some h)) as (s2 & Hr2 & [N2 P2 D2 T2 C2 F2]); [by apply D1|].
  destruct (set_prev_ok s2 t None) as (s3 & Hr3 & [N3 P3 D3 T3 C3 F3]); [apply D2, D1; by eapply nx_some|].
  destruct (set_next_ok s3 t None) as (s4 & Hr4 & [N4 P4 D4 T4 C4 F4]); [apply D3, D2, D1; by eapply nx_some|].
  exists s4. split.
  - rewrite (M_bind_Ok _ _ _ tt s2).
    + step_by Hr3. exact Hr4.
    + step_by Hge. rewrite Hen, Hep. step_by Hr1. step_by Hge1. by rewrite Hen1, Hep1.
  - split; try congruence.
    + intros x. rewrite N4. destruct (decide (x = t)); [done|]. rewrite N3, N2. destruct (decide (x = p)); [done|]. apply N1.
    + intros x. rewrite P4, P3. destruct (decide (x = t)); [done|]. rewrite P2. apply P1.
    + intros x. rewrite D4, D3, D2. apply D1.
Qed.

(** The two operations on the circle.  Away from the place, no end of an edge
    is one of the links that change. *)
Lemma edges_apart l P1 P2 p new h a b :
  NoDup (timeouts :: l) → edges timeouts l timeouts = P1 ++ (p, new) :: (new, h) :: P2 →
  p ≠ new ∧ new ≠ h ∧ ((a, b) ∈ P1 ∨ (a, b) ∈ P2 → a ≠ p ∧ a ≠ new ∧ b ≠ h ∧ b ≠ new).
Proof.
  intros Hnd He.
  assert (Hnds : NoDup (l ++ [timeouts])) by (by rewrite (Permutation_app_comm l [timeouts])).
  rewrite <- (edges_fst _ _ timeouts), He, map_app in Hnd. rewrite <- (edges_snd timeouts), He, map_app in Hnds.
  cbn [map fst snd] in Hnd, Hnds.
  apply NoDup_app in Hnd as (_ & Hd1 & [Hp1 [Hn1 _]%NoDup_cons]%NoDup_cons).
  apply NoDup_app in Hnds as (_ & Hd2 & [Hp2 [Hn2 _]%NoDup_cons]%NoDup_cons).
  split; [intros ->; apply Hp1; by left|]. split; [intros ->; apply Hp2; by left|].
  assert (Hne : ∀ (x y : loc) (L L' : list loc), (∀ z, z ∈ L → z ∉ x :: y :: L') → x ∉ y :: L' → y ∉ L' →
            ∀ z, z ∈ L ∨ z ∈ L' → z ≠ x ∧ z ≠ y).
  { intros x y L L' HL Hx Hy z [Hz|Hz].
    - specialize (HL z Hz). rewrite !not_elem_of_cons in HL. tauto.
    - rewrite not_elem_of_cons in Hx. split; intros ->; tauto. }
  intros Hin. destruct (Hne p new _ _ Hd1 Hp1 Hn1 a) as [? ?].
  { destruct Hin as [Hin|Hin]; [left|right]; by apply (list_elem_of_fmap_2 fst) in Hin. }
  destruct (Hne new h _ _ Hd2 Hp2 Hn2 b) as [? ?]; [|done].
  destruct Hin as [Hin|Hin]; [left|right]; by apply (list_elem_of_fmap_2 snd) in Hin.
Qed.

Definition circle (s : uloop) (E : list (loc * loc)) : Prop := ∀ a b, (a, b) ∈ E → nx s a = Some b ∧ pv s b = Some a.

Lemma circle_insert s s' l P1 P2 p h new :
  edges timeouts l timeouts = P1 ++ (p, new) :: (new, h) :: P2 → NoDup (timeouts :: l) →
  circle s (P1 ++ (p, h) :: P2) →
  relinked s s' (λ x, if decide (x = p) then Some new else if decide (x = new) then Some h else nx s x)
    (λ x, if decide (x = new) then Some p else if decide (x = h) then Some new else pv s x) →
  circle s' (P1 ++ (p, new) :: (new, h) :: P2).
Proof.
  intros He Hnd Hl [HN HP _ _ _ _] a b. destruct (edges_apart l P1 P2 p new h a b Hnd He) as (Hpn & Hnh & Hother).
  rewrite HN, HP, elem_of_app, !elem_of_cons. intros Hin. destruct (decide ((a, b) ∈ P1 ∨ (a, b) ∈ P2)) as [Hin'|Hno].
  - destruct (Hother Hin') as (? & ? & ? & ?). rewrite !decide_False by done. apply Hl.
    rewrite elem_of_app, elem_of_cons. tauto.
  - destruct Hin as [Hin|[Hin|[Hin|Hin]]]; [by destruct Hno; left| | |by destruct Hno; right]; injection Hin as -> ->.
    + by rewrite !decide_True.
    + rewrite (decide_False (P := new = p)), !decide_True by done. rewrite decide_False by done. by rewrite decide_True.
Qed.

Lemma circle_remove s s' l P1 P2 p h t :
  edges timeouts l timeouts = P1 ++ (p, t) :: (t, h) :: P2 → NoDup (timeouts :: l) →
  circle s (P1 ++ (p, t) :: (t, h) :: P2) →
  relinked s s' (λ x, if decide (x = t) then None else if decide (x = p) then Some h else nx s x)
    (λ x, if decide (x = t) then None else if decide (x = h) then Some p else pv s x) →
  circle s' (P1 ++ (p, h) :: P2).
Proof.
  intros He Hnd Hl [HN HP _ _ _ _] a b. destruct (edges_apart l P1 P2 p t h a b Hnd He) as (Hpn & Hnh & Hother).
  rewrite HN, HP, elem_of_app, !elem_of_cons. intros Hin. destruct (decide ((a, b) ∈ P1 ∨ (a, b) ∈ P2)) as [Hin'|Hno].
  - destruct (Hother Hin') as (? & ? & ? & ?). rewrite !decide_False by done. apply Hl.
    rewrite elem_of_app, !elem_of_cons. tauto.
  - destruct Hin as [Hin|[Hin|Hin]]; [by destruct Hno; left| |by destruct Hno; right]; injection Hin as -> ->.
    rewrite (decide_False (P := p = t)), (decide_False (P := h = t)), !decide_True by done. done.
Qed.

(** ** Times

    In microseconds, for instants of a window of some twenty days in which
    [ecnt_tv_diff] cannot overflow. *)

Definition us (tv : timeval) : Z := tv_sec tv * 10 ^ 6 + tv_usec tv.

Definition win (base : Z) (tv : timeval) : Prop :=
  base ≤ tv_sec tv ≤ base + 2 * 10 ^ 6 + 1 ∧ 0 ≤ tv_usec tv ≤ 10 ^ 6.

Lemma tv_diff_spec base t1 t2 :
  win base t1 → win base t2 →
  (0 <? ecnt_tv_diff t1 t2) = true ∧ us t2 < us t1 ∨
  (0 <? ecnt_tv_diff t1 t2) = false ∧ us t1 < us t2 + 1000.
Proof.
  unfold win, us, ecnt_tv_diff. intros [Hs1 Hu1] [Hs2 Hu2].
  assert (Hq := Z.quot_rem' (tv_usec t1 - tv_usec t2) 1000).
  assert (Hr := Z.rem_bound_abs (tv_usec t1 - tv_usec t2) 1000 ltac:(done)).
  rewrite (s32_small (tv_sec t1 - tv_sec t2)), (s32_small (tv_usec t1 - tv_usec t2)), (s32_small (_ * 1000)), s32_small by (unfold INT_MIN, INT_MAX; lia).
  destruct (0 <? _) eqn:E; [left|right]; (split; [done|]); lia.
Qed.

Definition due (s : uloop) (t : loc) : Z := from_option (us ∘ time) 0 (timers s !! t).

(** [later] adds the delay. *)
Lemma later_spec base tv ms :
  0 ≤ base → base + 3 * 10 ^ 6 < 2 ^ 31 → base ≤ tv_sec tv ≤ base + 10 ^ 6 → 0 ≤ tv_usec tv < 10 ^ 6 →
  0 ≤ ms ≤ 10 ^ 9 → win base (later tv ms) ∧ us (later tv ms) = us tv + ms * 1000.
Proof.
  intros Hb0 Hb Hs Hu Hms. unfold later, win, us.
  assert (Hq := Z.quot_rem' ms 1000). assert (Hr := Z.rem_bound_pos ms 1000 ltac:(lia) ltac:(done)).
  rewrite (s32_small (tv_sec tv + _)), (s32_small (tv_usec tv + _)) by (unfold INT_MIN, INT_MAX; lia).
  destruct (1000000 <? _) eqn:E; cbn [tv_sec tv_usec]; rewrite ?s32_small by (unfold INT_MIN, INT_MAX; lia); lia.
Qed.

(** ** The invariant *)

Definition without (t : loc) (l : list loc) : list loc := filter (λ u, u ≠ t) l.

Lemma elem_of_without t u l : u ∈ without t l ↔ u ≠ t ∧ u ∈ l.
Proof. unfold without. by rewrite list_elem_of_filter. Qed.
Lemma NoDup_without t l : NoDup l → NoDup (without t l).
Proof. apply NoDup_filter. Qed.
Lemma without_notin (t : loc) l : t ∉ l → without t l = l.
Proof.
  unfold without. induction l as [|u l IH]; intros Ht; [done|]. apply not_elem_of_cons in Ht as [? ?].
  rewrite filter_cons_True by done. by rewrite IH.
Qed.
Lemma without_mid (t : loc) l1 l2 : NoDup (l1 ++ t :: l2) → without t (l1 ++ t :: l2) = l1 ++ l2.
Proof.
  intros (_ & Hd & [Ht _]%NoDup_cons)%NoDup_app. unfold without. rewrite filter_app, filter_cons_False by naive_solver. fold (without t l1) (without t l2).
  rewrite !without_notin; [done|done|]. intros Hin. apply (Hd t Hin). by left.
Qed.

Lemma without_head t l : NoDup (t :: l) → without t (t :: l) = l.
Proof. apply (without_mid t []). Qed.

Lemma StronglySorted_weaken {A} (R R' : A → A → Prop) l :
  (∀ a b, a ∈ l → b ∈ l → R a b → R' a b) → StronglySorted R l → StronglySorted R' l.
Proof.
  induction l as [|x l IH]; [constructor|]. rewrite !StronglySorted_cons, !Forall_forall.
  intros HR [Hx Hl]. split.
  - intros b Hb. apply HR; [by left|by right|auto].
  - apply IH; [|done]. intros a b Ha Hb. apply HR; by right.
Qed.

Section window.
Context (base : Z) (Hb0 : 0 ≤ base) (Hb1 : base + 3 * 10 ^ 6 < 2 ^ 31).

(** [l] hangs on the list, a later timer behind an earlier one unless they
    are less than a millisecond apart. *)
Record inv (s : uloop) (l : list loc) : Prop := {
  inv_list : on_list s l;
  inv_sorted : StronglySorted (λ a b, due s a < due s b + 1000) l;
  inv_win t x : timers s !! t = Some x → t ∈ l → win base (time x)
}.

Record unchanged (s s' : uloop) : Prop := {
  un_cb u : cb <$> timers s' !! u = cb <$> timers s !! u;
  un_fired : fired s' = fired s
}.

Lemma unchanged_refl s : unchanged s s.
Proof. by split. Qed.
Lemma unchanged_trans s1 s2 s3 : unchanged s1 s2 → unchanged s2 s3 → unchanged s1 s3.
Proof. intros [C1 F1] [C2 F2]. split; [intros u; by rewrite C2|congruence]. Qed.

Lemma get_timer_ok s t x : timers s !! t = Some x → get_timer t s = Ok (x, s).
Proof. intros Ht. unfold get_timer. by rewrite Ht. Qed.

(** The invariant after one timer's record and the links have changed. *)
Lemma inv_update s s' l l' t x x' :
  inv s l → timers s !! t = Some x → timers s' = <[t := x']> (timers s) →
  (∀ u, is_Some (links s' !! u) ↔ is_Some (links s !! u)) → circle s' (edges timeouts l' timeouts) →
  NoDup l' → (∀ u, u ∈ l' ↔ if pending x' then u = t ∨ u ∈ l else u ≠ t ∧ u ∈ l) →
  StronglySorted (λ a b, due s' a < due s' b + 1000) l' → (t ∈ l' → win base (time x')) → inv s' l'.
Proof.
  intros [[Hnd _ Hp Ht Ha] _ Hw] Hx Ht' Hd Hc Hnd' Hin Hs Hw'.
  assert (Hold : ∀ u, u ∈ l' → u ≠ t → u ∈ l) by (intros u Hu ?; apply Hin in Hu; destruct (pending x'); tauto).
  split; [split|done|].
  - apply NoDup_cons. split; [|done]. intros Hin'. destruct (Ha t) as [Hne _]; [by rewrite Hx|].
    apply NoDup_cons in Hnd as [[] _]. apply Hold; congruence.
  - intros a b Hab. by apply Hc.
  - intros u y. rewrite Ht'. destruct (decide (u = t)) as [->|Hne].
    + rewrite lookup_insert_eq. intros [= <-]. rewrite Hin. destruct (pending x'); naive_solver.
    + rewrite lookup_insert_ne by done. intros Hy. rewrite (Hp u y Hy), Hin. destruct (pending x'); naive_solver.
  - intros u Hu. rewrite Ht'. destruct (decide (u = t)) as [->|Hne]; [by rewrite lookup_insert_eq|].
    rewrite lookup_insert_ne by done. by apply Ht, Hold.
  - intros u Hu. rewrite Ht' in Hu. rewrite Hd. apply Ha.
    destruct (decide (u = t)) as [->|Hne]; [by rewrite Hx|]. by rewrite lookup_insert_ne in Hu.
  - intros u y Hy Hu. rewrite Ht' in Hy. destruct (decide (u = t)) as [->|Hne].
    + rewrite lookup_insert_eq in Hy. injection Hy as <-. auto.
    + rewrite lookup_insert_ne in Hy by done. eauto.
Qed.

(** The [pending] flag alone changes no due time. *)
Lemma pending_frame s s1 t x b :
  timers s !! t = Some x → timers s1 = timers s → fired s1 = fired s →
  let s2 := with_timers <[t := set_pending b x]> s1 in unchanged s s2 ∧ (∀ u, due s2 u = due s u).
Proof.
  intros Hx T F s2. split; [split; [|done]|]; intros u; unfold due; simpl; rewrite T;
    (destruct (decide (u = t)) as [->|Hne]; [by rewrite lookup_insert_eq, Hx|by rewrite lookup_insert_ne]).
Qed.

Lemma cancel_spec s l t x :
  inv s l → timers s !! t = Some x →
  ∃ r s', ecnt_uloop_timeout_cancel t s = Ok (r, s') ∧ inv s' (without t l) ∧ unchanged s s' ∧
    readings s' = readings s ∧ (∀ u, due s' u = due s u) ∧ pending <$> timers s' !! t = Some false.
Proof.
  intros Hinv Hx. destruct (Hinv) as [[Hnd Hl Hp Ht Ha] Hs Hw]. unfold ecnt_uloop_timeout_cancel.
  step_by (get_timer_ok _ _ _ Hx). destruct (pending x) eqn:Epx; cbn [negb].
  2:{ eexists _, s. split; [done|]. rewrite without_notin; [|rewrite <- (Hp t x Hx); congruence].
      rewrite Hx. simpl. rewrite Epx. by split_and!. }
  assert (Hin : t ∈ l) by by apply (Hp t x Hx).
  apply list_elem_of_split in Hin as (l1 & l2 & ->).
  destruct (edges_split timeouts l1 l2 timeouts) as (P1 & P2 & p & h & He & _ & He'). specialize (He' t).
  destruct (Ha t) as [Htt Hlt]; [by rewrite Hx|].
  destruct (Hl p t) as [Hnp Hpt]; [rewrite He'; set_solver|]. destruct (Hl t h) as [Hnt Hph]; [rewrite He'; set_solver|].
  destruct (edges_apart _ _ _ p t h p t Hnd He') as (Hpn & Hnh & _).
  destruct (list_del_ok s t p h) as (s1 & Hr & Hrl); try done; [by eapply nx_some|by eapply pv_some|].
  step_by Hr. eexists _, _. split; [done|]. destruct (Hrl) as [N P D T C F].
  destruct (pending_frame s s1 t x false Hx T F) as [Hun Hdue].
  apply NoDup_cons in Hnd as [Hnt' Hnd]. rewrite without_mid by done.
  assert (Hnd2 : NoDup (l1 ++ l2)) by (rewrite <- (without_mid t) by done; by apply NoDup_without).
  split_and!.
  - apply (inv_update s _ (l1 ++ t :: l2) _ t x (set_pending false x)); try done.
    + simpl. by rewrite T.
    + rewrite He. apply (circle_remove s s1 (l1 ++ t :: l2) _ _ _ _ t); [done|by apply NoDup_cons| |done].
      rewrite <- He'. exact Hl.
    + intros u. simpl. rewrite <- (without_mid t l1 l2) by done. by rewrite elem_of_without.
    + eapply (StronglySorted_weaken (λ a b, due s a < due s b + 1000)); [intros a b _ _; by rewrite !Hdue|].
      apply StronglySorted_app in Hs as (H1 & H2 & [_ H3]%StronglySorted_cons).
      apply StronglySorted_app_2; [|done..]. intros. apply H1; [done|by right].
    + intros Hin. rewrite <- (without_mid t l1 l2), elem_of_without in Hin by done. tauto.
  - exact Hun.
  - done.
  - exact Hdue.
  - simpl. by rewrite lookup_insert_eq.
Qed.

Lemma edge_next a l1 p l2 b : (p, default b (head l2)) ∈ edges a (l1 ++ p :: l2) b.
Proof.
  destruct (edges_split a l1 l2 b) as (P1 & P2 & q & h & _ & -> & ->).
  apply elem_of_app. right. apply elem_of_cons. right. by left.
Qed.
Lemma edge_first a l b : (a, default b (head l)) ∈ edges a l b.
Proof. destruct l; by left. Qed.

Lemma list_length s l : on_list s l → (length l ≤ size (links s))%nat.
Proof.
  intros [Hnd _ _ Ht Ha]. apply NoDup_cons in Hnd as [_ Hnd].
  rewrite <- (size_list_to_set (C := gset loc) l), <- size_dom by done. apply subseteq_size.
  intros u Hu. apply elem_of_list_to_set in Hu. apply elem_of_dom. by apply Ha, Ht.
Qed.

Lemma due_timer s t x : timers s !! t = Some x → due s t = us (time x).
Proof. intros Hx. unfold due. by rewrite Hx. Qed.

(** The walk stops at the first timer that is later. *)
Lemma find_later_spec s l tv l2 : ∀ l1 fuel,
  inv s l → win base tv → l = l1 ++ l2 → (length l2 < fuel)%nat → (∀ a, a ∈ l1 → due s a < us tv + 1000) →
  ∃ l1' l2', l = l1' ++ l2' ∧
    find_later fuel (Some (default timeouts (head l2))) tv s = Ok (default timeouts (head l2'), s) ∧
    (∀ a, a ∈ l1' → due s a < us tv + 1000) ∧ (∀ b, b ∈ l2' → us tv < due s b + 1000).
Proof.
  induction l2 as [|p l2 IH]; intros l1 fuel Hinv Htv -> Hf Hl1; (destruct fuel as [|fuel]; [simpl in Hf; lia|]).
  - exists l1, []. split_and!; [done| |done|]. 2:{ intros b Hb. by apply not_elem_of_nil in Hb. }
    cbn [find_later default head]. by rewrite decide_True by done.
  - destruct (Hinv) as [[Hnd Hl Hp Ht Ha] Hs Hw].
    assert (Hin : p ∈ l1 ++ p :: l2) by (apply elem_of_app; right; by left).
    destruct (Ht p Hin) as [x Hx]. destruct (Ha p) as [Hne Hlk]; [by rewrite Hx|].
    cbn [find_later default head from_option]. rewrite decide_False by done. step_by (get_timer_ok _ _ _ Hx).
    destruct (tv_diff_spec base (time x) tv) as [[-> Hlt]|[-> Hlt]]; [by eapply Hw|done| |].
    + exists l1, (p :: l2). split_and!; [done|done|done|]. rewrite <- (due_timer _ _ _ Hx) in Hlt.
      apply StronglySorted_app in Hs as (_ & _ & [Hs _]%StronglySorted_cons). rewrite Forall_forall in Hs.
      intros b [->|Hb]%elem_of_cons; [lia|]. specialize (Hs b Hb). simpl in Hs. lia.
    + destruct (Hl _ _ (edge_next timeouts l1 p l2 timeouts)) as [Hn _].
      destruct (get_link_ok _ _ _ Hn) as (h & Hg & Hnh & _). step_by Hg. rewrite Hnh.
      apply (IH (l1 ++ [p])); [done|done|by rewrite <- app_assoc|simpl in Hf; lia|].
      intros a [Hin'|Hin']%elem_of_app; [auto|]. apply list_elem_of_singleton in Hin' as ->.
      by rewrite (due_timer _ _ _ Hx).
Qed.

Lemma add_spec s l t x :
  inv s l → timers s !! t = Some x → pending x = false → win base (time x) →
  ∃ s' l1 l2, ecnt_uloop_timeout_add t s = Ok (0, s') ∧ l = l1 ++ l2 ∧ inv s' (l1 ++ t :: l2) ∧ unchanged s s' ∧
    readings s' = readings s ∧ (∀ u, due s' u = due s u).
Proof.
  intros Hinv Hx Epx Hwx. destruct (Hinv) as [Hon Hs Hw]. destruct (Hon) as [Hnd Hl Hp Ht Ha].
  destruct (Hl _ _ (edge_first timeouts l timeouts)) as [Hn0 _].
  destruct (get_link_ok _ _ _ Hn0) as (h0 & Hg0 & Hnh0 & _).
  destruct (find_later_spec s l (time x) l [] (S (size (links s)))) as (l1 & l2 & Hll & Hfind & Hbefore & Hafter);
    [done|done|done|pose proof (list_length s l Hon); lia|intros a Hin; by apply not_elem_of_nil in Hin|].
  destruct (edges_split timeouts l1 l2 timeouts) as (P1 & P2 & p & h & He & Hh & He'). specialize (He' t).
  rewrite <- Hll in He. rewrite <- Hh in Hfind.
  assert (Hnin : t ∉ l) by (rewrite <- (Hp t x Hx); congruence).
  destruct (Ha t) as [Htt Hlt]; [by rewrite Hx|].
  assert (Hnd' : NoDup (timeouts :: l1 ++ t :: l2)).
  { rewrite <- Permutation_middle, <- Hll, NoDup_cons in *. rewrite NoDup_cons, not_elem_of_cons. naive_solver. }
  destruct (edges_apart _ _ _ p t h p t Hnd' He') as (Hpn & Hnh & _).
  destruct (Hl p h) as [Hnp Hph]; [rewrite He; apply elem_of_app; right; by left|].
  destruct (list_add_tail_ok s t p h) as (s1 & Hr & Hrl); try done; [by eapply nx_some|].
  destruct (Hrl) as [N P D T C F].
  assert (Hx1 : timers s1 !! t = Some x) by by rewrite T.
  eexists _, l1, l2. split.
  { unfold ecnt_uloop_timeout_add. step_by (get_timer_ok _ _ _ Hx). rewrite Epx. step_by Hg0. rewrite Hnh0.
    rewrite (M_bind_Ok (with_fuel (λ fuel, find_later fuel (Some (default timeouts (head l))) (time x))) _ _ h s Hfind).
    step_by Hr. step_by (get_timer_ok _ _ _ Hx1). done. }
  destruct (pending_frame s s1 t x true Hx T F) as [Hun Hdue].
  split_and!; [done| | |done|exact Hdue].
  - apply (inv_update s _ l _ t x (set_pending true x)); try done.
    + simpl. by rewrite T.
    + rewrite He'. apply (circle_insert s s1 (l1 ++ t :: l2) P1 P2 p h t); [done|done| |done]. rewrite <- He. exact Hl.
    + by apply NoDup_cons in Hnd' as [_ ?].
    + intros u. simpl. rewrite Hll, !elem_of_app, elem_of_cons. tauto.
    + eapply (StronglySorted_weaken (λ a b, due s a < due s b + 1000)); [intros a b _ _; by rewrite !Hdue|].
      rewrite Hll in Hs. apply StronglySorted_app in Hs as (H1 & H2 & H3). rewrite <- (due_timer _ _ _ Hx) in Hbefore, Hafter.
      apply StronglySorted_app_2; [|done|apply StronglySorted_cons; split; [|done]].
      * intros a b Hain [->|Hbin]%elem_of_cons; auto.
      * apply Forall_forall. auto.
  - exact Hun.
Qed.

Lemma inv_same s s' l : links s' = links s → timers s' = timers s → inv s l → inv s' l.
Proof.
  destruct s as [L T c F], s' as [L' T' c' F']. simpl. intros -> -> [[Hnd Hl Hp Ht Ha] Hs Hw].
  by split; [split|..].
Qed.

Section clock.
(** The clock does not go back, and stays within the window's first half. *)
Context (clock : nat → Z) (Hmono : ∀ n m, (n ≤ m)%nat → clock n ≤ clock m)
  (Hclock : ∀ n, base * 10 ^ 9 ≤ clock n ≤ (base + 10 ^ 6) * 10 ^ 9).

(** The [n]-th reading in microseconds. *)
Definition now (n : nat) : Z := clock n / 1000.
Definition bump (s : uloop) : uloop :=
  {| links := links s; timers := timers s; readings := S (readings s); fired := fired s |}.

Lemma now_mono n m : (n ≤ m)%nat → now n ≤ now m.
Proof. intros Hn. apply Z.div_le_mono; [done|]. by apply Hmono. Qed.

Lemma gettime_spec s :
  ∃ tv, ecnt_uloop_gettime clock s = Ok (tv, bump s) ∧ us tv = now (readings s) ∧
    base ≤ tv_sec tv ≤ base + 10 ^ 6 ∧ 0 ≤ tv_usec tv < 10 ^ 6.
Proof.
  specialize (Hclock (readings s)). eexists. split; [done|]. unfold us, now. cbn [tv_sec tv_usec].
  assert (Hsec : base ≤ clock (readings s) / 10 ^ 9 ≤ base + 10 ^ 6).
  { split; [apply Z.div_le_lower_bound|apply Z.div_le_upper_bound]; lia. }
  rewrite s32_small by (unfold INT_MIN, INT_MAX; lia).
  assert (Hr := Z.mod_pos_bound (clock (readings s)) (10 ^ 9) ltac:(lia)).
  assert (Hu : 0 ≤ clock (readings s) mod 10 ^ 9 / 1000 < 10 ^ 6).
  { split; [apply Z.div_pos; lia|]. apply Z.div_lt_upper_bound; lia. }
  split; [|by split].
  rewrite (Z.div_mod (clock (readings s)) (10 ^ 9)) at 3 by lia.
  replace (10 ^ 9 * _ + _) with (clock (readings s) / 10 ^ 9 * 10 ^ 6 * 1000 + clock (readings s) mod 10 ^ 9) by lia.
  by rewrite Z.div_add_l by lia.
Qed.

Lemma set_spec s l t ms :
  inv s l → is_Some (timers s !! t) → 0 ≤ ms ≤ 10 ^ 9 →
  ∃ s' l1 l2, ecnt_uloop_timeout_set clock t ms s = Ok (0, s') ∧ without t l = l1 ++ l2 ∧ inv s' (l1 ++ t :: l2) ∧
    unchanged s s' ∧ readings s' = S (readings s) ∧
    (∀ u, due s' u = if decide (u = t) then now (readings s) + ms * 1000 else due s u).
Proof.
  intros Hinv [x Hx] Hms. unfold ecnt_uloop_timeout_set. step_by (get_timer_ok _ _ _ Hx).
  assert (Hc : ∃ r s1 x1, (if pending x then ecnt_uloop_timeout_cancel t else mret 0) s = Ok (r, s1) ∧
            inv s1 (without t l) ∧ unchanged s s1 ∧ readings s1 = readings s ∧ (∀ u, due s1 u = due s u) ∧
            timers s1 !! t = Some x1 ∧ pending x1 = false).
  { destruct (pending x) eqn:Ep.
    - destruct (cancel_spec s l t x Hinv Hx) as (r & s1 & Hr & Hi & Hu & Hrd & Hd & Hp1).
      destruct (timers s1 !! t) as [x1|] eqn:Hx1; [|done]. injection Hp1 as Hp1. by exists r, s1, x1.
    - exists 0, s, x. rewrite without_notin; [by split_and!|].
      destruct Hinv as [[_ _ Hp _ _] _ _]. rewrite <- (Hp t x Hx). congruence. }
  destruct Hc as (r & s1 & x1 & Hr & Hi & Hu & Hrd & Hd & Hx1 & Ep). step_by Hr.
  destruct (gettime_spec s1) as (tv & Hg & Hus & Hsec & Husec). step_by Hg. rewrite Hrd in Hus.
  destruct (later_spec base tv ms) as [Hw Hlater]; [done..|].
  assert (Hx2 : timers (bump s1) !! t = Some x1) by done. step_by (get_timer_ok _ _ _ Hx2).
  set (x3 := set_time (later tv ms) x1). set (s3 := with_timers <[t := x3]> (bump s1)).
  rewrite (M_bind_Ok _ _ _ tt s3) by done.
  assert (Hne : ∀ u, u ∈ without t l → u ≠ t) by (intros u Hin; by apply elem_of_without in Hin as [? _]).
  assert (Hd3 : ∀ u, due s3 u = if decide (u = t) then us (later tv ms) else due s u).
  { intros u. unfold due at 1. simpl. destruct (decide (u = t)) as [->|Hn]; [by rewrite lookup_insert_eq|].
    rewrite lookup_insert_ne by done. apply Hd. }
  assert (Hi3 : inv s3 (without t l)).
  { destruct (Hi) as [[Hnd Hl _ _ _] Hs _].
    apply (inv_update s1 s3 (without t l) (without t l) t x1 x3); try done.
    - by apply NoDup_cons in Hnd as [_ ?].
    - intros u. simpl. rewrite Ep. split; [|tauto]. intros Hin. split; [by apply Hne|done].
    - eapply StronglySorted_weaken; [|exact Hs]. intros a b Ha Hb. rewrite !Hd3, !decide_False by auto. by rewrite !Hd. }
  assert (Hx3 : timers s3 !! t = Some x3) by (simpl; by rewrite lookup_insert_eq).
  destruct (add_spec s3 _ t x3 Hi3 Hx3 Ep Hw) as (s4 & l1 & l2 & Hr4 & Hl & Hi4 & Hu4 & Hrd4 & Hd4).
  exists s4, l1, l2. split_and!; [done|done|done| |by rewrite Hrd4; simpl; rewrite Hrd|].
  - apply (unchanged_trans _ s3); [|done]. apply (unchanged_trans _ s1); [done|]. split; [|done]. intros u. simpl.
    destruct (decide (u = t)) as [->|Hn]; [by rewrite lookup_insert_eq, Hx1|by rewrite lookup_insert_ne].
  - intros u. rewrite Hd4, Hd3, Hlater, Hus. done.
Qed.

(** ** Callbacks and the run *)

Definition target (c : call) : loc := match c with Set_ t _ => t | Cancel t => t end.
Definition good_call (s : uloop) (c : call) : Prop :=
  is_Some (timers s !! target c) ∧ match c with Set_ _ ms => 1 ≤ ms ≤ 10 ^ 9 | Cancel _ => True end.

(** The calls the callback of [t] makes. *)
Definition cb_calls (s : uloop) (t : loc) : list call := default [] (timers s !! t ≫= cb).

Lemma unchanged_timers s s' u : unchanged s s' → is_Some (timers s' !! u) ↔ is_Some (timers s !! u).
Proof. intros [Hc _]. by rewrite <- (fmap_is_Some cb (timers s' !! u)), Hc, fmap_is_Some. Qed.
Lemma unchanged_good s s' c : unchanged s s' → good_call s c → good_call s' c.
Proof. intros Hu [Hs Hc]. split; [|done]. by apply (unchanged_timers _ _ _ Hu). Qed.
Lemma unchanged_cb s s' t : unchanged s s' → timers s' !! t ≫= cb = timers s !! t ≫= cb.
Proof. intros [Hc _]. specialize (Hc t). destruct (timers s' !! t), (timers s !! t); simplify_eq/=; congruence. Qed.

Lemma call_spec s l c :
  inv s l → good_call s c →
  ∃ r s' l', match c with Set_ t ms => ecnt_uloop_timeout_set clock t ms s | Cancel t => ecnt_uloop_timeout_cancel t s end
             = Ok (r, s') ∧ inv s' l' ∧ unchanged s s' ∧ (readings s ≤ readings s')%nat ∧
    (∀ u, u ∈ l' → u ∈ l ∧ due s' u = due s u ∨ now (readings s) + 1000 ≤ due s' u) ∧
    (∀ u, u ∈ l → u ≠ target c → u ∈ l' ∧ due s' u = due s u).
Proof.
  intros Hinv [Hs Hc]. destruct c as [t ms|t]; simpl in Hs |- *.
  - destruct (set_spec s l t ms Hinv Hs) as (s' & l1 & l2 & Hr & Hl & Hi & Hu & Hrd & Hd); [lia|].
    exists 0, s', (l1 ++ t :: l2). split_and!; [done|done|done|rewrite Hrd; lia| |].
    + intros u. rewrite <- Permutation_middle, elem_of_cons, <- Hl, elem_of_without, Hd.
      intros [->|[Hne Hin]]; [right; rewrite decide_True by done; lia|left; by rewrite decide_False].
    + intros u Hin Hne. rewrite <- Permutation_middle, elem_of_cons, <- Hl, elem_of_without, Hd, decide_False by done. tauto.
  - destruct Hs as [x Hx]. destruct (cancel_spec s l t x Hinv Hx) as (r & s' & Hr & Hi & Hu & Hrd & Hd & _).
    exists r, s', (without t l). split_and!; [done|done|done|rewrite Hrd; lia| |]; intros u; rewrite elem_of_without, Hd; tauto.
Qed.

Lemma calls_spec calls : ∀ s l,
  inv s l → Forall (good_call s) calls →
  ∃ s' l', run_calls clock calls s = Ok (tt, s') ∧ inv s' l' ∧ unchanged s s' ∧ (readings s ≤ readings s')%nat ∧
    (∀ u, u ∈ l' → u ∈ l ∧ due s' u = due s u ∨ now (readings s) + 1000 ≤ due s' u) ∧
    (∀ u, u ∈ l → u ∉ map target calls → u ∈ l' ∧ due s' u = due s u).
Proof.
  induction calls as [|c calls IH]; intros s l Hinv Hgood.
  { exists s, l. split_and!; try done. by left. }
  apply Forall_cons in Hgood as [Hc Hgood].
  destruct (call_spec s l c Hinv Hc) as (r & s1 & l1 & Hr & Hi1 & Hu1 & Hrd1 & Hnew1 & Hold1).
  destruct (IH s1 l1 Hi1) as (s2 & l2 & Hr2 & Hi2 & Hu2 & Hrd2 & Hnew2 & Hold2).
  { eapply Forall_impl; [exact Hgood|]. intros c'. by apply unchanged_good. }
  exists s2, l2. split_and!; [|done|by eapply unchanged_trans|lia| |].
  - destruct c; simpl in Hr |- *; by step_by Hr.
  - pose proof (now_mono _ _ Hrd1). intros u Hu. destruct (Hnew2 u Hu) as [[Hin Hd]|Hd]; [|right; lia].
    destruct (Hnew1 u Hin) as [[Hin' Hd']|Hd']; [left; split; congruence|right; lia].
  - intros u Hin Hnt. simpl in Hnt. apply not_elem_of_cons in Hnt as [Hne Hnt].
    destruct (Hold1 u Hin Hne) as [Hin1 Hd1]. destruct (Hold2 u Hin1 Hnt) as [Hin2 Hd2]. split; congruence.
Qed.

(** How many timers a run at [tv] would find due. *)
Definition is_due (s : uloop) (tv : timeval) (u : loc) : Prop := due s u < us tv + 1000.
#[export] Instance is_due_dec s tv u : Decision (is_due s tv u) := ltac:(unfold is_due; apply _).
Definition n_due (s : uloop) (l : list loc) (tv : timeval) : nat := length (filter (is_due s tv) l).

Lemma n_due_lt s s' l l' tv t :
  NoDup l' → t ∈ l → is_due s tv t → (∀ u, u ∈ l' → is_due s' tv u → u ≠ t ∧ u ∈ l ∧ is_due s tv u) →
  (n_due s' l' tv < n_due s l tv)%nat.
Proof.
  intros Hnd Ht Hdt Hsub. unfold n_due. change (S ?n) with (1 + n)%nat.
  change (length (t :: filter (is_due s' tv) l') ≤ length (filter (is_due s tv) l))%nat.
  apply submseteq_length, NoDup_submseteq.
  - apply NoDup_cons. split; [|by apply NoDup_filter]. rewrite list_elem_of_filter. intros [Hd Hin]. by destruct (Hsub t Hin Hd).
  - intros u. rewrite elem_of_cons, !list_elem_of_filter. intros [->|[Hd Hin]]; [done|]. by destruct (Hsub u Hin Hd) as (_ & ? & ?).
Qed.

(** What a run at the instant [i] from [s] to [s'] does: it runs the callbacks [F]. *)
Record run_result (s : uloop) (l : list loc) (i : Z) (s' : uloop) (l' F : list loc) : Prop := {
  rr_inv : inv s' l';
  rr_cb u : cb <$> timers s' !! u = cb <$> timers s !! u;
  rr_fired : fired s' = fired s ++ F;
  rr_once : NoDup F;
  rr_due u : u ∈ F → u ∈ l ∧ due s u < i + 1000;
  rr_left u : u ∈ l' → i < due s' u + 1000;
  rr_all u : u ∈ l → due s u + 1000 ≤ i →
    u ∈ F ∨ timers s !! u ≫= cb = None ∨ ∃ v, v ∈ F ∧ u ∈ map target (cb_calls s v)
}.

Definition good_cbs (s : uloop) : Prop := ∀ t, Forall (good_call s) (cb_calls s t).

Lemma unchanged_good_cbs s s' : unchanged s s' → good_cbs s → good_cbs s'.
Proof.
  intros Hu Hg t. unfold cb_calls. rewrite (unchanged_cb _ _ t Hu). eapply Forall_impl; [exact (Hg t)|].
  intros c. by apply unchanged_good.
Qed.

(** One round of the loop: the first timer goes, and its callback runs. *)
Lemma fire_spec s t l x :
  inv s (t :: l) → timers s !! t = Some x → good_cbs s →
  ∃ r s1 x1 s2 l2, ecnt_uloop_timeout_cancel t s = Ok (r, s1) ∧ get_timer t s1 = Ok (x1, s1) ∧
    (if cb x1 is Some calls then log t ;; run_calls clock calls else mret tt) s1 = Ok (tt, s2) ∧ inv s2 l2 ∧
    (∀ u, cb <$> timers s2 !! u = cb <$> timers s !! u) ∧ (readings s ≤ readings s2)%nat ∧
    fired s2 = fired s ++ (if cb x is Some _ then [t] else []) ∧
    (∀ u, u ∈ l2 → u ∈ l ∧ due s2 u = due s u ∨ now (readings s) + 1000 ≤ due s2 u) ∧
    (∀ u, u ∈ l → u ∉ map target (cb_calls s t) → u ∈ l2 ∧ due s2 u = due s u).
Proof.
  intros Hinv Hx Hg. destruct (cancel_spec s _ t x Hinv Hx) as (r & s1 & Hr & Hi1 & Hu1 & Hrd1 & Hd1 & _).
  assert (Hl : without t (t :: l) = l).
  { destruct Hinv as [[Hnd _ _ _ _] _ _]. apply NoDup_cons in Hnd as [_ Hnd]. by apply without_head. }
  rewrite Hl in Hi1. destruct (Hu1) as [Hc1 Hf1].
  destruct (timers s1 !! t) as [x1|] eqn:Hx1; [|specialize (Hc1 t); by rewrite Hx1, Hx in Hc1].
  assert (Hcx : cb x1 = cb x) by (specialize (Hc1 t); rewrite Hx1, Hx in Hc1; by injection Hc1).
  set (s1' := {| links := links s1; timers := timers s1; readings := readings s1;
                 fired := fired s1 ++ (if cb x is Some _ then [t] else []) |}).
  assert (Hi1' : inv s1' l) by by apply (inv_same s1).
  destruct (calls_spec (cb_calls s t) s1' l Hi1') as (s2 & l2 & Hr2 & Hi2 & [Hc2 Hf2] & Hrd2 & Hnew & Hold).
  { eapply Forall_impl; [exact (Hg t)|]. intros c. by apply (unchanged_good s s1). }
  exists r, s1, x1, s2, l2. split_and!; [done|by apply get_timer_ok| |done| | | | |].
  - unfold cb_calls in Hr2. rewrite Hx in Hr2. rewrite Hcx. simpl in Hr2. destruct (cb x) as [calls|] eqn:Ecb.
    + by rewrite (M_bind_Ok _ _ _ tt s1').
    + simpl in Hr2. rewrite <- Hr2. unfold s1'. rewrite app_nil_r. by destruct s1.
  - intros u. by rewrite Hc2, <- Hc1.
  - rewrite <- Hrd1. done.
  - by rewrite Hf2, <- Hf1.
  - intros u Hu. simpl in Hnew. rewrite Hrd1 in Hnew. change (due s1' u) with (due s1 u) in Hnew.
    destruct (Hnew u Hu) as [[Hin Hd]|Hd]; [left|by right]. split; [done|]. rewrite Hd. apply Hd1.
  - intros u Hin Hnt. destruct (Hold u Hin Hnt) as [Hin2 Hd]. split; [done|]. rewrite Hd. apply Hd1.
Qed.

Lemma run_result_stop s l tv : inv s l → (∀ u, u ∈ l → us tv < due s u + 1000) → run_result s l (us tv) s l [].
Proof.
  intros Hinv Hl. split; try done.
  - by rewrite app_nil_r.
  - constructor.
  - intros u Hu. by apply not_elem_of_nil in Hu.
  - intros u Hu Hd. specialize (Hl u Hu). lia.
Qed.

Lemma run_result_step s t l x tv s2 l2 s' l' F :
  timers s !! t = Some x → NoDup (t :: l) → is_due s tv t → us tv ≤ now (readings s) →
  (∀ u, cb <$> timers s2 !! u = cb <$> timers s !! u) → fired s2 = fired s ++ (if cb x is Some _ then [t] else []) →
  (∀ u, u ∈ l2 → u ∈ l ∧ due s2 u = due s u ∨ now (readings s) + 1000 ≤ due s2 u) →
  (∀ u, u ∈ l → u ∉ map target (cb_calls s t) → u ∈ l2 ∧ due s2 u = due s u) →
  run_result s2 l2 (us tv) s' l' F →
  run_result s (t :: l) (us tv) s' l' ((if cb x is Some _ then [t] else []) ++ F).
Proof.
  intros Hx Hnd Hdt Htv Hc Hf Hnew Hold [Hi Hcb Hfired Honce Hdue Hleft Hall].
  assert (HF : ∀ u, u ∈ F → u ∈ l ∧ due s u < us tv + 1000).
  { intros u Hu. destruct (Hdue u Hu) as [Hin Hd]. destruct (Hnew u Hin) as [[? <-]|?]; [done|lia]. }
  apply NoDup_cons in Hnd as [Hnt Hnd].
  split; [done|intros u; by rewrite Hcb|by rewrite Hfired, Hf, app_assoc| | |done|].
  - destruct (cb x); [|done]. apply NoDup_cons. split; [|done]. intros Hin. by destruct (HF t Hin).
  - intros u [Hu|Hu]%elem_of_app.
    + destruct (cb x); [apply list_elem_of_singleton in Hu as ->; split; [by left|done]|by apply not_elem_of_nil in Hu].
    + destruct (HF u Hu). split; [by right|done].
  - assert (Hcalls : ∀ v, timers s2 !! v ≫= cb = timers s !! v ≫= cb).
    { intros v. specialize (Hc v). destruct (timers s2 !! v), (timers s !! v); simplify_eq/=; congruence. }
    assert (Hbind : timers s !! t ≫= cb = cb x) by by rewrite Hx.
    intros u Hu Hd. setoid_rewrite elem_of_app. apply elem_of_cons in Hu as [->|Hu].
    + rewrite Hbind. destruct (cb x); [left; left; by left|by right; left].
    + destruct (decide (u ∈ map target (cb_calls s t))) as [Hin|Hno].
      * right. right. exists t. split; [|done]. left. unfold cb_calls in Hin. rewrite Hbind in Hin.
        destruct (cb x); [by left|by apply not_elem_of_nil in Hin].
      * destruct (Hold u Hu Hno) as [Hu2 Hd2]. destruct (Hall u Hu2) as [HuF|[Hnone|(v & Hv & Huv)]]; [by rewrite Hd2| | |].
        -- by left; right.
        -- right. left. by rewrite <- Hcalls.
        -- right. right. exists v. split; [by right|]. unfold cb_calls in Huv |- *. by rewrite <- Hcalls.
Qed.

Lemma process_spec fuel : ∀ s l tv,
  inv s l → good_cbs s → win base tv → us tv ≤ now (readings s) → (n_due s l tv < fuel)%nat →
  ∃ s' l' F, ecnt_uloop_process_timeouts clock fuel tv s = Ok (tt, s') ∧ run_result s l (us tv) s' l' F.
Proof.
  induction fuel as [|fuel IH]; intros s l tv Hinv Hg Hwin Htv Hfuel; [lia|].
  destruct (Hinv) as [[Hnd Hl Hp Ht Ha] Hs Hw]. cbn [ecnt_uloop_process_timeouts]. unfold list_empty.
  destruct (Hl _ _ (edge_first timeouts l timeouts)) as [Hn0 _].
  destruct (get_link_ok _ _ _ Hn0) as (h0 & Hg0 & Hnh0 & _).
  rewrite (M_bind_Ok _ _ _ (bool_decide (next h0 = Some timeouts)) s) by by step_by Hg0. rewrite Hnh0.
  destruct l as [|t l]; cbn [head default from_option].
  { rewrite bool_decide_true by done. exists s, [], []. split; [done|]. apply run_result_stop; [done|].
    intros u Hu. by apply not_elem_of_nil in Hu. }
  apply NoDup_cons in Hnd as [Hnt Hnd]. rewrite bool_decide_false by (intros [= ->]; apply Hnt; by left).
  step_by Hg0. rewrite Hnh0. cbn [head default from_option id]. rewrite (M_bind_Ok _ _ _ t s) by done.
  destruct (Ht t) as [x Hx]; [by left|]. step_by (get_timer_ok _ _ _ Hx).
  destruct (tv_diff_spec base (time x) tv) as [[-> Hlt]|[-> Hlt]]; [eapply Hw; [done|by left]|done| |];
    rewrite <- (due_timer _ _ _ Hx) in Hlt.
  - exists s, (t :: l), []. split; [done|]. apply run_result_stop; [done|].
    apply StronglySorted_cons in Hs as [Hs _]. rewrite Forall_forall in Hs.
    intros u [->|Hu]%elem_of_cons; [lia|]. specialize (Hs u Hu). simpl in Hs. lia.
  - destruct (fire_spec s t l x Hinv Hx Hg) as (r & s1 & x1 & s2 & l2 & Hr & Hx1 & Hr2 & Hi2 & Hc2 & Hrd2 & Hf2 & Hnew & Hold).
    step_by Hr. step_by Hx1. step_by Hr2.
    assert (Hg2 : good_cbs s2).
    { apply (unchanged_good_cbs {| links := links s; timers := timers s; readings := readings s; fired := fired s2 |}); by try split. }
    destruct (IH s2 l2 tv) as (s' & l' & F & Hr' & Hres); [done|done|done|pose proof (now_mono _ _ Hrd2); lia| |].
    { apply Nat.lt_le_trans with (n_due s (t :: l) tv); [|lia]. destruct Hi2 as [[Hnd2 _ _ _ _] _ _].
      apply NoDup_cons in Hnd2 as [_ Hnd2]. apply (n_due_lt _ _ _ _ _ t); [done|by left|done|].
      intros u Hu Hdu. unfold is_due in *. destruct (Hnew u Hu) as [[Hul Hd]|Hd]; [|lia].
      split; [|split; [by right|lia]]. intros ->. apply NoDup_cons in Hnd as [? _]. done. }
    exists s', l', ((if cb x is Some _ then [t] else []) ++ F). split; [exact Hr'|].
    by apply (run_result_step s t l x tv s2 l2).
Qed.

Lemma run_spec s l fuel :
  inv s l → good_cbs s → (length l < fuel)%nat →
  ∃ s' l' F, ecnt_uloop_run clock fuel s = Ok (0, s') ∧ run_result s l (now (readings s)) s' l' F.
Proof.
  intros Hinv Hg Hf. destruct (gettime_spec s) as (tv & Ht & Hus & Hsec & Husec).
  destruct (process_spec fuel (bump s) l tv) as (s' & l' & F & Hr & Hres).
  - by apply (inv_same s).
  - apply (unchanged_good_cbs s); [by split|done].
  - unfold win. lia.
  - rewrite Hus. apply now_mono. simpl. lia.
  - unfold n_due. pose proof (length_filter (is_due (bump s) tv) l). lia.
  - rewrite Hus in Hres. exists s', l', F. split; [|by destruct Hres].
    unfold ecnt_uloop_run. step_by Ht. by step_by Hr.
Qed.
End clock.

(** [list_for_each_entry_safe] stands on [t] and remembers the one behind. *)
Lemma clear_spec fuel : ∀ s l tmp,
  inv s l → (length l < fuel)%nat → tmp = default timeouts (head (tail l)) →
  ∃ s', clear_loop fuel (Some (default timeouts (head l))) (Some tmp) s = Ok (tt, s') ∧ inv s' [] ∧ unchanged s s'.
Proof.
  induction fuel as [|fuel IH]; intros s l tmp Hinv Hf ->; [lia|].
  cbn [clear_loop]. rewrite (M_bind_Ok _ _ _ (default timeouts (head l)) s) by done.
  destruct l as [|t l]; cbn [head tail default from_option].
  { rewrite decide_True by done. exists s. by split_and!. }
  destruct (Hinv) as [[Hnd Hl Hp Ht Ha] Hs Hw]. destruct (Ht t) as [x Hx]; [by left|].
  destruct (Ha t) as [Hne _]; [by rewrite Hx|]. cbn [id]. rewrite decide_False by done.
  destruct (cancel_spec s _ t x Hinv Hx) as (r & s1 & Hr & Hi1 & Hu1 & _ & _ & _).
  apply NoDup_cons in Hnd as [_ Hnd]. rewrite (without_head t l Hnd) in Hi1. step_by Hr.
  destruct (IH s1 l (default timeouts (head (tail l)))) as (s2 & Hr2 & Hi2 & Hu2); [done|simpl in Hf; lia|done|].
  assert (Hn : nx s1 (default timeouts (head l)) = Some (default timeouts (head (tail l)))).
  { destruct Hi1 as [[_ Hl1 _ _ _] _ _]. destruct l as [|u l]; [apply (Hl1 _ timeouts), (edge_first _ [])|].
    apply (Hl1 _ _ (edge_next timeouts [] u l timeouts)). }
  destruct (get_link_ok _ _ _ Hn) as (h & Hg & Hnh & _). step_by Hg. rewrite Hnh.
  exists s2. split_and!; [done|done|by eapply unchanged_trans].
Qed.

Lemma clear_timeouts_spec s l :
  inv s l → ∃ s', ecnt_uloop_clear_timeouts s = Ok (tt, s') ∧ inv s' [] ∧ unchanged s s'.
Proof.
  intros Hinv. destruct (Hinv) as [Hon _ _]. destruct (Hon) as [_ Hl _ _ _].
  destruct (Hl _ _ (edge_first timeouts l timeouts)) as [Hn0 _].
  destruct (get_link_ok _ _ _ Hn0) as (h0 & Hg0 & Hnh0 & _).
  assert (Hn : nx s (default timeouts (head l)) = Some (default timeouts (head (tail l)))).
  { destruct l as [|u l]; [done|]. apply (Hl _ _ (edge_next timeouts [] u l timeouts)). }
  destruct (get_link_ok _ _ _ Hn) as (h & Hg & Hnh & _).
  destruct (clear_spec (S (size (links s))) s l (default timeouts (head (tail l))) Hinv) as (s' & Hr & Hi & Hu); [|done|].
  { pose proof (list_length s l Hon). lia. }
  exists s'. split; [|done]. unfold ecnt_uloop_clear_timeouts. step_by Hg0. rewrite Hnh0. step_by Hg. by rewrite Hnh.
Qed.
End window.

(** ** The service's use of the timers *)

Inductive operation := OSet (t : loc) (msecs : Z) | OCancel (t : loc) | ORun | OClear.

Definition exec (clock : nat → Z) (o : operation) : UM Z :=
  match o with
  | OSet t msecs => ecnt_uloop_timeout_set clock t msecs
  | OCancel t => ecnt_uloop_timeout_cancel t
  | ORun => λ s, ecnt_uloop_run clock (S (size (links s))) s
  | OClear => ecnt_uloop_clear_timeouts ;; mret 0
  end.

(** Timers are known and delays between 0 ms and eleven days. *)
Definition allowed (s : uloop) (o : operation) : Prop :=
  match o with
  | OSet t msecs => is_Some (timers s !! t) ∧ 0 ≤ msecs ≤ 10 ^ 9
  | OCancel t => is_Some (timers s !! t)
  | _ => True
  end.

Inductive step (clock : nat → Z) : uloop → uloop → Prop :=
| step_exec s o r s' : allowed s o → exec clock o s = Ok (r, s') → step clock s s'.

(** At start no timer is pending and the head points to itself. *)
Record initial (s : uloop) : Prop := {
  init_head : links s !! timeouts = Some {| next := Some timeouts; prev := Some timeouts |};
  init_timers t x : timers s !! t = Some x → pending x = false ∧ t ≠ timeouts ∧ is_Some (links s !! t)
}.

(** A clock that does not go back, within [10^6] seconds from [base]. *)
Record steady (base : Z) (clock : nat → Z) : Prop := {
  st_base : 0 ≤ base ∧ base + 3 * 10 ^ 6 < 2 ^ 31;
  st_mono n m : (n ≤ m)%nat → clock n ≤ clock m;
  st_window n : base * 10 ^ 9 ≤ clock n ≤ (base + 10 ^ 6) * 10 ^ 9
}.

Lemma initial_inv base s : initial s → inv base s [].
Proof.
  intros [Hh Ht]. split; [split|constructor|].
  - apply NoDup_singleton.
  - intros a b Hab. apply list_elem_of_singleton in Hab as [= -> ->]. unfold nx, pv. by rewrite Hh.
  - intros t x Hx. destruct (Ht t x Hx) as [-> _]. by rewrite elem_of_nil.
  - intros t Hin. by apply not_elem_of_nil in Hin.
  - intros t [x Hx]. by destruct (Ht t x Hx) as (_ & ? & ?).
  - intros t x _ Hin. by apply not_elem_of_nil in Hin.
Qed.

Lemma exec_spec base clock s l o :
  steady base clock → inv base s l → good_cbs s → allowed s o →
  ∃ r s' l', exec clock o s = Ok (r, s') ∧ inv base s' l' ∧ good_cbs s'.
Proof.
  intros [[Hb0 Hb1] Hm Hc] Hinv Hg Ho. destruct o as [t ms|t| |]; simpl in Ho |- *.
  - destruct Ho as [Hs Hms]. destruct (set_spec base Hb0 Hb1 clock Hc s l t ms) as (s' & l1 & l2 & Hr & _ & Hi & Hu & _); [done..|].
    exists 0, s', (l1 ++ t :: l2). split_and!; [done|done|by apply (unchanged_good_cbs s)].
  - destruct Ho as [x Hx]. destruct (cancel_spec base Hb0 Hb1 s l t x) as (r & s' & Hr & Hi & Hu & _); [done..|].
    exists r, s', (without t l). split_and!; [done|done|by apply (unchanged_good_cbs s)].
  - destruct (run_spec base Hb0 Hb1 clock Hm Hc s l (S (size (links s)))) as (s' & l' & F & Hr & [Hi Hcb _ _ _ _ _]); [done|done| |].
    { destruct Hinv as [Hon _ _]. pose proof (list_length s l Hon). lia. }
    exists 0, s', l'. split_and!; [done|done|].
    apply (unchanged_good_cbs {| links := links s; timers := timers s; readings := readings s; fired := fired s' |}); by try split.
  - destruct (clear_timeouts_spec base Hb0 Hb1 s l Hinv) as (s' & Hr & Hi & Hu).
    exists 0, s', []. split_and!; [by step_by Hr|done|by apply (unchanged_good_cbs s)].
Qed.

Lemma reachable_inv base clock s0 s :
  steady base clock → initial s0 → good_cbs s0 → rtc (step clock) s0 s → ∃ l, inv base s l ∧ good_cbs s.
Proof.
  intros Hst Hi Hg Hrtc.
  assert (H0 : ∃ l, inv base s0 l ∧ good_cbs s0) by (exists []; split; [by apply initial_inv|done]).
  clear Hi Hg. induction Hrtc as [s|s1 s2 s3 [s1' o r s2' Ho He] _ IH]; [done|]. apply IH.
  destruct H0 as (l & Hinv & Hg). destruct (exec_spec base clock s1' l o) as (r' & s' & l' & Hr & Hinv' & Hg'); [done..|].
  rewrite He in Hr. injection Hr as -> ->. by exists l'.
Qed.

(** ** Properties *)

(** C16: every operation on the timers returns, in every state the service can
    reach: no walk meets a bad pointer or goes round for ever, whatever the
    callbacks start and stop.  The pending timers are then those on the list,
    and a timer on the list is at most a millisecond later than those behind
    it. *)
Theorem timer_operations_return base clock s0 s :
  steady base clock → initial s0 → good_cbs s0 → rtc (step clock) s0 s →
  (∀ o, allowed s o → ∃ r s', exec clock o s = Ok (r, s')) ∧
  ∃ l, (∀ t x, timers s !! t = Some x → (pending x = true ↔ t ∈ l)) ∧
    StronglySorted (λ a b, due s a < due s b + 1000) l.
Proof.
  intros Hst Hi Hg Hrtc. destruct (reachable_inv base clock s0 s Hst Hi Hg Hrtc) as (l & Hinv & Hg'). split.
  - intros o Ho. destruct (exec_spec base clock s l o Hst Hinv Hg' Ho) as (r & s' & _ & Hr & _). by exists r, s'.
  - exists l. destruct Hinv as [[_ _ Hp _ _] Hs _]. by split.
Qed.

(** C17: a run of the loop ends and serves every timer.  Each callback is run
    at most once and for a timer that is due within a millisecond; every
    pending timer that has been due for a millisecond has its callback run,
    unless it has none or a callback of this run stopped or restarted it; and
    no timer left on the list is overdue by a millisecond. *)
Theorem run_serves_due_timers base clock s0 s :
  steady base clock → initial s0 → good_cbs s0 → rtc (step clock) s0 s →
  ∃ s' F, exec clock ORun s = Ok (0, s') ∧ fired s' = fired s ++ F ∧ NoDup F ∧
    let i := clock (readings s) / 1000 in
    (∀ t, t ∈ F → (pending <$> timers s !! t) = Some true ∧ due s t < i + 1000) ∧
    (∀ t x, timers s !! t = Some x → pending x = true → due s t + 1000 ≤ i →
       t ∈ F ∨ cb x = None ∨ ∃ v, v ∈ F ∧ t ∈ map target (cb_calls s v)) ∧
    (∀ t, (pending <$> timers s' !! t) = Some true → i < due s' t + 1000).
Proof.
  intros Hst Hi Hg Hrtc. destruct (reachable_inv base clock s0 s Hst Hi Hg Hrtc) as (l & Hinv & Hg').
  destruct Hst as [[Hb0 Hb1] Hm Hc]. destruct (Hinv) as [Hon _ _].
  destruct (run_spec base Hb0 Hb1 clock Hm Hc s l (S (size (links s)))) as (s' & l' & F & Hr & [Hi' _ Hf Ho Hd Hl Ha]); [done|done| |].
  { pose proof (list_length s l Hon). lia. }
  destruct Hon as [_ _ Hp Ht _], Hi' as [[_ _ Hp' _ _] _ _].
  exists s', F. cbv zeta. split_and!; [done|done|done| | |].
  - intros t Hin. destruct (Hd t Hin) as [Htl Hdt]. split; [|done]. destruct (Ht t Htl) as [x Hx]. rewrite Hx. simpl.
    f_equal. by apply (Hp t x Hx).
  - intros t x Hx Hpx Hdt. specialize (Ha t (proj1 (Hp t x Hx) Hpx) Hdt). by rewrite Hx in Ha.
  - intros t Hpt. apply Hl. destruct (timers s' !! t) as [x|] eqn:Hx; [|done]. apply (Hp' t x Hx). by injection Hpt.
Qed.

(** ** An example: two timers, the first restarts itself and stops the second *)

Definition demo_timers : uloop :=
  let self := {| next := None; prev := None |} in
  let at0 := {| tv_sec := 0; tv_usec := 0 |} in
  {| links := {[1%positive := {| next := Some timeouts; prev := Some timeouts |}; 2%positive := self; 3%positive := self]};
     timers := {[2%positive := {| pending := false; cb := Some [Set_ 2 500; Cancel 3]; time := at0 |};
                 3%positive := {| pending := false; cb := Some []; time := at0 |}]};
     readings := 0; fired := [] |}.

(** Half a second between readings, up to a limit. *)
Definition demo_clock (n : nat) : Z := Z.of_nat (n `min` 1000) * 500000000.

Lemma demo_steady : steady 0 demo_clock.
Proof.
  split; unfold demo_clock; [lia| |]; intros n.
  - intros m Hnm. assert (n `min` 1000 ≤ m `min` 1000)%nat by lia. lia.
  - assert (n `min` 1000 ≤ 1000)%nat by lia. lia.
Qed.

Lemma demo_timers_lookup t x : timers demo_timers !! t = Some x → t = 2%positive ∨ t = 3%positive.
Proof.
  cbn [timers demo_timers]. intros H.
  destruct (decide (t = 2%positive)) as [|H2]; [by left|]. destruct (decide (t = 3%positive)) as [|H3]; [by right|].
  rewrite lookup_insert_ne in H by done. by rewrite lookup_singleton_ne in H.
Qed.

Lemma demo_initial : initial demo_timers.
Proof.
  split; [done|]. intros t x Hx. destruct (demo_timers_lookup t x Hx) as [-> | ->];
    (vm_compute in Hx; injection Hx as <-; split_and!; [done|done|by eexists]).
Qed.

Lemma demo_good : good_cbs demo_timers.
Proof.
  intros t. unfold cb_calls. destruct (timers demo_timers !! t) as [x|] eqn:Hx; [|constructor].
  destruct (demo_timers_lookup t x Hx) as [-> | ->]; vm_compute in Hx; injection Hx as <-; simpl; [|constructor].
  constructor; [|constructor; [|constructor]]; (split; [by eexists|]); simpl; lia || done.
Qed.

Lemma demo_step s o r s' : exec demo_clock o s = Ok (r, s') → allowed s o → rtc (step demo_clock) s s'.
Proof. intros He Ho. eapply rtc_once, step_exec; done. Qed.

(** Both timers are set, half a second apart, for 400 ms and 450 ms. *)
Definition demo_pending : uloop :=
  match (exec demo_clock (OSet 2 400) ≫= λ _, exec demo_clock (OSet 3 450)) demo_timers with
  | Ok (_, s) => s
  | _ => demo_timers
  end.

Lemma demo_reachable : rtc (step demo_clock) demo_timers demo_pending.
Proof.
  destruct (exec demo_clock (OSet 2 400) demo_timers) as [[r s1]| |] eqn:H1; [|by vm_compute in H1..].
  transitivity s1.
  - apply (demo_step _ _ _ _ H1). split; [by eexists|lia].
  - vm_compute in H1. injection H1 as _ <-. eapply (demo_step _ (OSet 3 450)); [vm_compute; reflexivity|].
    split; [by eexists|lia].
Qed.

Lemma timer_operations_return_witness : ∃ r s', exec demo_clock (OCancel 3) demo_pending = Ok (r, s').
Proof.
  apply (timer_operations_return 0 demo_clock demo_timers demo_pending demo_steady demo_initial demo_good demo_reachable).
  by eexists.
Defined.

Lemma run_serves_due_timers_witness :
  ∃ s' F, exec demo_clock ORun demo_pending = Ok (0, s') ∧ fired s' = fired demo_pending ++ F ∧ NoDup F.
Proof.
  destruct (run_serves_due_timers 0 demo_clock demo_timers demo_pending demo_steady demo_initial demo_good demo_reachable)
    as (s' & F & Hr & Hf & Hn & _).
  exists s', F. exact (conj Hr (conj Hf Hn)).
Defined.

(** Both are due at the run; timer 2 is first, restarts itself and stops 3. *)
Example demo_run :
  (exec demo_clock ORun demo_pending ≫= λ '(_, s),
     Ok (fired s, pending <$> timers s !! 2%positive, pending <$> timers s !! 3%positive))
  = Ok ([2%positive], Some true, Some false).
Proof. vm_compute. reflexivity. Qed.
End TimerProps.
