(* ===== verification/Crypt.v ===== *)
(** * Stored passwords ([tcapi_lib/crypt_func.c])

    Passwords are kept in the configuration in Base64.  The lengths are of
    type [unsigned short]: of a long password only a part is kept. *)

From S2P Require Import Prelude CString.
Open Scope Z_scope.

Module Crypt.

Definition isPasswdAttr (attr : cstr) : Z :=
  if (strcmp attr (cs "web_passwd") =? 0) || (strcmp attr (cs "console_passwd") =? 0) then 1 else 0.

Definition kAscii_Equal : Z := 0x3D.

Definition gBase64Table : list Z :=
  cs "ABCDEFGHIJKLMNOPQRSTUVWXYZabcdefghijklmnopqrstuvwxyz0123456789+/".

Definition ConvertBase64Character (theInputCharacter : Z) : Z :=
  let c := theInputCharacter in
  if (0x41 <=? c) && (c <=? 0x5A) then c - 0x41
  else if (0x61 <=? c) && (c <=? 0x7A) then c - 0x61 + 26
  else if (0x30 <=? c) && (c <=? 0x39) then c - 0x30 + 52
  else if c =? 0x2B then 62
  else if c =? 0x2F then 63
  else 0.

(** [gBase64Table[i]], and [*p++] where a pointer is what lies behind it. *)
Definition table (i : Z) : res Z := deref (gBase64Table !! Z.to_nat i).
Definition next_char (p : list Z) : res (Z * list Z) :=
  match p with c :: p' => Ok (c, p') | [] => Fault end.

(** The loop of [decodeBase64Data]: one round for each four characters of
    the count. *)
Fixpoint decode_loop (rounds : nat) (theInputPtr : list Z) : res (list Z) :=
  match rounds with
  | O => mret []
  | S rounds' =>
      '(c1, p) ← next_char theInputPtr;
      '(c2, p) ← next_char p;
      let g := Z.lor (Z.shiftl (ConvertBase64Character c1) 18) (Z.shiftl (ConvertBase64Character c2) 12) in
      let o1 := u8 (Z.shiftr g 16) in
      '(c3, p3) ← next_char p;
      if c3 =? kAscii_Equal then rest ← decode_loop rounds' p; mret (o1 :: rest)
      else
        let g := Z.lor g (Z.shiftl (ConvertBase64Character c3) 6) in
        let o2 := u8 (Z.shiftr g 8) in
        '(c4, p4) ← next_char p3;
        if c4 =? kAscii_Equal then rest ← decode_loop rounds' p3; mret (o1 :: o2 :: rest)
        else
          let g := Z.lor g (ConvertBase64Character c4) in
          rest ← decode_loop rounds' p4; mret (o1 :: o2 :: u8 g :: rest)
  end.

(** The bytes written, before the NUL that ends them. *)
Definition decodeBase64Data (theInputPtr : list Z) (theInputCount : Z) : res (list Z) :=
  let count := theInputCount - theInputCount mod 4 in
  decode_loop (Z.to_nat (count / 4)) theInputPtr.

(** Reads through [char]; the masks leave the same bits of a signed one. *)
Definition BuildBase64Group (c0 c1 c2 : Z) : res (list Z) :=
  let theFirstByte := Z.land (Z.shiftr (schar c0) 2) 63 in
  let theSecondByte := Z.lor (Z.land (Z.shiftl (schar c0) 4) 48) (Z.land (Z.shiftr (schar c1) 4) 15) in
  let theThirdByte := Z.lor (Z.land (Z.shiftl (schar c1) 2) 60) (Z.land (Z.shiftr (schar c2) 6) 3) in
  let theFourthByte := Z.land (schar c2) 63 in
  o1 ← table theFirstByte; o2 ← table theSecondByte; o3 ← table theThirdByte; o4 ← table theFourthByte;
  mret [o1; o2; o3; o4].

(** What is left when fewer than three bytes are to be encoded. *)
Definition encode_tail (theInputPtr : list Z) (theInputCount : Z) : res (list Z) :=
  if (theInputCount =? 2) || (theInputCount =? 1) then
    '(theFirstInputByte, p) ← next_char theInputPtr;
    '(theSecondInputByte, _) ← (if theInputCount =? 2 then next_char p else mret (0, p));
    let theFirstOutputByte := Z.shiftr theFirstInputByte 2 in
    let theSecondOutputByte :=
      Z.lor (Z.land (Z.shiftl theFirstInputByte 4) 48) (Z.land (Z.shiftr theSecondInputByte 4) 15) in
    o1 ← table theFirstOutputByte; o2 ← table theSecondOutputByte;
    if theInputCount =? 1 then mret [o1; o2; kAscii_Equal; kAscii_Equal]
    else
      let theThirdOutputByte := Z.land (Z.shiftl theSecondInputByte 2) 60 in
      o3 ← table theThirdOutputByte;
      mret [o1; o2; o3; kAscii_Equal]
  else mret [].

Fixpoint encode_loop (fuel : nat) (theInputPtr : list Z) (theInputCount : Z) : res (list Z) :=
  match fuel with
  | O => NoFuel
  | S fuel' =>
      if 2 <? theInputCount then
        '(c0, p) ← next_char theInputPtr; '(c1, p) ← next_char p; '(c2, p) ← next_char p;
        group ← BuildBase64Group c0 c1 c2;
        rest ← encode_loop fuel' p (theInputCount - 3);
        mret (group ++ rest)
      else encode_tail theInputPtr theInputCount
  end.

(** The characters written, before the NUL that ends them. *)
Definition encodeBase64String (theInputPtr : list Z) (theInputCount : Z) : res (list Z) :=
  encode_loop (S (Z.to_nat theInputCount)) theInputPtr theInputCount.

(** The result and the string in the output buffer. *)
Definition enCryptPasswd (orgPass : option cstr) : res (Z * option cstr) :=
  match orgPass with
  | None => mret (1, None)
  | Some s => out ← encodeBase64String (s ++ [0]) (u16 (strlen s)); mret (0, Some out)
  end.

Definition deCryptPasswd (cryptPass : option cstr) : res (Z * option cstr) :=
  match cryptPass with
  | None => mret (1, None)
  | Some s => out ← decodeBase64Data (s ++ [0]) (u16 (strlen s)); mret (0, Some out)
  end.

(** ** One group *)

(** A table entry decodes to its index. *)
Lemma table_ok i : 0 ≤ i < 64 → ∃ c, table i = Ok c ∧ ConvertBase64Character c = i ∧ c ≠ kAscii_Equal ∧ char_ok c.
Proof.
  intros Hi. assert (Hall : forallb (λ n, match table (Z.of_nat n) with
      | Ok c => (ConvertBase64Character c =? Z.of_nat n) && negb (c =? kAscii_Equal) && (1 <=? c) && (c <? 256)
      | _ => false end) (seq 0 64) = true) by (vm_compute; reflexivity).
  rewrite forallb_forall in Hall. specialize (Hall (Z.to_nat i)). rewrite Z2Nat.id in Hall by lia.
  destruct (table i) as [c| |]; [|discriminate Hall; apply in_seq; lia..].
  exists c. assert (Hc := Hall ltac:(apply in_seq; lia)). zify_bool. split; [done|]. split; [done|].
  split; [done|]. unfold char_ok. lia.
Qed.

(** Six bits of a value are an index of the table. *)
Lemma low6 z : (∀ i, 6 ≤ i → Z.testbit z i = false) → 0 ≤ z → 0 ≤ z < 64.
Proof.
  intros Hbits Hz. split; [done|]. change 64 with (2 ^ 6). replace z with (z mod 2 ^ 6); [apply Z.mod_pos_bound; lia|].
  apply Z.bits_inj'. intros i Hi. destruct (decide (i < 6)); [by rewrite Z.mod_pow2_bits_low|].
  rewrite Z.mod_pow2_bits_high by lia. symmetry. apply Hbits. lia.
Qed.

Lemma mask_index z m : 0 ≤ m < 64 → 0 ≤ Z.land z m < 64.
Proof.
  intros Hm. apply low6; [|apply Z.land_nonneg; lia]. intros i Hi. rewrite Z.land_spec.
  rewrite <- (Z.mod_small m (2 ^ 6)), Z.mod_pow2_bits_high, andb_false_r; [done|lia|exact Hm].
Qed.
Lemma lor_index a b : 0 ≤ a < 64 → 0 ≤ b < 64 → 0 ≤ Z.lor a b < 64.
Proof.
  intros Ha Hb. apply low6; [|apply Z.lor_nonneg; lia]. intros i Hi. rewrite Z.lor_spec.
  rewrite <- (Z.mod_small a (2 ^ 6)), <- (Z.mod_small b (2 ^ 6)), !Z.mod_pow2_bits_high; [done|lia..].
Qed.

Ltac byte_eq :=
  apply byte_ext; [apply u8_range|done|]; intros i Hi; rewrite u8_bit by done;
  destruct (byte_cases i Hi) as [->|[->|[->|[->|[->|[->|[->| ->]]]]]]]; repeat bit_step;
  repeat match goal with |- context [Z.testbit ?a ?k] => destruct (Z.testbit a k) end; reflexivity.

(** The three bytes come back out of the four indices. *)
Lemma group_bytes a b c :
  byte_ok a → byte_ok b → byte_ok c →
  let A := Z.land (Z.shiftr (schar a) 2) 63 in
  let B := Z.lor (Z.land (Z.shiftl (schar a) 4) 48) (Z.land (Z.shiftr (schar b) 4) 15) in
  let C := Z.lor (Z.land (Z.shiftl (schar b) 2) 60) (Z.land (Z.shiftr (schar c) 6) 3) in
  let D := Z.land (schar c) 63 in
  let g := Z.lor (Z.shiftl A 18) (Z.shiftl B 12) in
  u8 (Z.shiftr g 16) = a ∧ u8 (Z.shiftr (Z.lor g (Z.shiftl C 6)) 8) = b ∧
  u8 (Z.lor (Z.lor g (Z.shiftl C 6)) D) = c.
Proof. intros Ha Hb Hc A B C D g. unfold g, A, B, C, D. split; [|split]; byte_eq. Qed.

Lemma tail_bytes a b :
  byte_ok a → byte_ok b →
  let g := Z.lor (Z.shiftl (Z.shiftr a 2) 18)
             (Z.shiftl (Z.lor (Z.land (Z.shiftl a 4) 48) (Z.land (Z.shiftr b 4) 15)) 12) in
  u8 (Z.shiftr g 16) = a ∧ u8 (Z.shiftr (Z.lor g (Z.shiftl (Z.land (Z.shiftl b 2) 60) 6)) 8) = b.
Proof. intros Ha Hb g. unfold g. split; byte_eq. Qed.

(** ** The loops *)

Lemma shiftr_index a n : byte_ok a → 2 ≤ n → 0 ≤ Z.shiftr a n < 64.
Proof.
  intros Ha Hn. apply low6; [|apply Z.shiftr_nonneg; unfold byte_ok in Ha; lia]. intros i Hi.
  rewrite Z.shiftr_spec by lia. apply byte_high; [done|lia].
Qed.

(** A property of each element of a short list. *)
Ltac chars_ok := repeat (apply Forall_cons; split; [done|]); apply Forall_nil_2.

(** One group, written and read. *)
Lemma group_ok a b c :
  byte_ok a → byte_ok b → byte_ok c →
  ∃ c1 c2 c3 c4, BuildBase64Group a b c = Ok [c1; c2; c3; c4] ∧ Forall char_ok [c1; c2; c3; c4] ∧
    ∀ r rest, decode_loop (S r) (c1 :: c2 :: c3 :: c4 :: rest)
              = (t ← decode_loop r rest; Ok (a :: b :: c :: t)).
Proof.
  intros Ha Hb Hc. destruct (group_bytes a b c Ha Hb Hc) as (H1 & H2 & H3). unfold BuildBase64Group.
  destruct (table_ok (Z.land (Z.shiftr (schar a) 2) 63)) as (c1 & -> & E1 & _ & K1); [by apply mask_index|].
  destruct (table_ok (Z.lor (Z.land (Z.shiftl (schar a) 4) 48) (Z.land (Z.shiftr (schar b) 4) 15))) as (c2 & -> & E2 & _ & K2);
    [by apply lor_index; apply mask_index|].
  destruct (table_ok (Z.lor (Z.land (Z.shiftl (schar b) 2) 60) (Z.land (Z.shiftr (schar c) 6) 3))) as (c3 & -> & E3 & N3 & K3);
    [by apply lor_index; apply mask_index|].
  destruct (table_ok (Z.land (schar c) 63)) as (c4 & -> & E4 & N4 & K4); [by apply mask_index|].
  exists c1, c2, c3, c4. split; [done|]. split; [chars_ok|]. intros r rest.
  cbn [decode_loop next_char]. unfold mbind, res_bind. cbn [next_char]. rewrite (proj2 (Z.eqb_neq c3 _) N3), (proj2 (Z.eqb_neq c4 _) N4).
  rewrite E1, E2, E3, E4, H1, H2, H3. by destruct (decode_loop r rest).
Qed.

(** The last, incomplete group. *)
Lemma tail_ok s n :
  Forall byte_ok s → n = 1 ∨ n = 2 → n ≤ zlen s →
  ∃ out, encode_tail s n = Ok out ∧ zlen out = 4 ∧ Forall char_ok out ∧
    ∀ rest, decode_loop 1 (out ++ rest) = Ok (take (Z.to_nat n) s).
Proof.
  intros Hs Hn Hlen. destruct s as [|a s]; [simpl in Hlen; lia|]. apply Forall_cons in Hs as [Ha Hs].
  assert (Hb : ∃ b s', (if n =? 2 then next_char s else mret (0, s)) = Ok (b, s') ∧ byte_ok b ∧ (n = 2 → ∃ t, s = b :: t)).
  { destruct Hn as [-> | ->]; [by exists 0, s|]. destruct s as [|b s]; [simpl in Hlen; lia|].
    apply Forall_cons in Hs as [Hb _]. exists b, s. split; [done|]. split; [done|]. by exists s. }
  destruct Hb as (b & s' & Hr & Hb & Heq). destruct (tail_bytes a b Ha Hb) as [H1 H2].
  destruct (table_ok (Z.shiftr a 2)) as (c1 & T1 & E1 & _ & K1); [by apply shiftr_index|].
  destruct (table_ok (Z.lor (Z.land (Z.shiftl a 4) 48) (Z.land (Z.shiftr b 4) 15))) as (c2 & T2 & E2 & _ & K2);
    [by apply lor_index; apply mask_index|].
  destruct (table_ok (Z.land (Z.shiftl b 2) 60)) as (c3 & T3 & E3 & N3 & K3); [by apply mask_index|].
  unfold encode_tail. replace ((n =? 2) || (n =? 1)) with true by (by destruct Hn as [-> | ->]).
  cbn [next_char]. unfold mbind, res_bind. rewrite Hr, T1, T2. destruct Hn as [-> | ->].
  - exists [c1; c2; kAscii_Equal; kAscii_Equal]. split; [done|]. split; [done|].
    split; [chars_ok|]. intros rest. cbn. by rewrite E1, E2, H1.
  - cbn [Z.eqb Pos.eqb]. rewrite T3. exists [c1; c2; c3; kAscii_Equal]. split; [done|]. split; [done|].
    split; [chars_ok|]. intros rest. destruct Heq as [t ->]; [done|].
    cbn [decode_loop next_char app]. unfold mbind, res_bind. cbn [next_char]. rewrite (proj2 (Z.eqb_neq c3 _) N3). cbn.
    by rewrite E1, E2, E3, H1, H2.
Qed.

(** Any number of whole groups of the encoding decodes to their bytes. *)
Lemma codec fuel : ∀ s n,
  Forall byte_ok s → 0 ≤ n ≤ zlen s → n < Z.of_nat fuel →
  ∃ out, encode_loop fuel s n = Ok out ∧ zlen out = 4 * ((n + 2) / 3) ∧ Forall char_ok out ∧
    ∀ r rest, Z.of_nat r ≤ (n + 2) / 3 → decode_loop r (out ++ rest) = Ok (take (3 * r) (take (Z.to_nat n) s)).
Proof.
  induction fuel as [|fuel IH]; intros s n Hs Hn Hf; [lia|]. cbn [encode_loop]. destruct (2 <? n) eqn:E; zify_bool.
  - destruct s as [|a [|b [|c s]]]; try (simpl in Hn; lia).
    apply Forall_cons in Hs as [Ha [Hb [Hc Hs]%Forall_cons]%Forall_cons].
    destruct (group_ok a b c Ha Hb Hc) as (c1 & c2 & c3 & c4 & Hg & Hk & Hdec).
    destruct (IH s (n - 3) Hs) as (out & Hout & Hlen & Hok & Hd); [cbn [length] in Hn; lia|lia|].
    unfold mbind, res_bind. cbn [next_char]. rewrite Hg. cbn iota. rewrite Hout. exists ([c1; c2; c3; c4] ++ out). split; [done|].
    assert (Hdiv : (n + 2) / 3 = (n - 3 + 2) / 3 + 1) by (replace (n + 2) with (n - 3 + 2 + 1 * 3) by lia; by rewrite Z.div_add).
    split; [rewrite length_app, Hdiv; cbn [length]; lia|]. split; [by apply Forall_app|].
    intros [|r] rest Hr; [done|]. cbn [app]. rewrite Hdec, (Hd r rest) by lia. unfold mbind, res_bind.
    replace (Z.to_nat n) with (3 + Z.to_nat (n - 3))%nat by lia. replace (3 * S r)%nat with (3 + 3 * r)%nat by lia. done.
  - destruct (decide (n = 0)) as [->|Hne].
    + exists []. split; [done|]. split; [done|]. split; [constructor|]. intros r rest Hr.
      change ((0 + 2) / 3) with 0 in Hr. by replace r with 0%nat by lia.
    + destruct (tail_ok s n Hs) as (out & Hout & Hlen & Hok & Hd); [lia|lia|].
      assert (Hdiv : (n + 2) / 3 = 1) by (assert (n = 1 ∨ n = 2) as [-> | ->] by lia; done).
      exists out. split; [done|]. rewrite Hdiv. split; [done|]. split; [done|].
      intros [|[|r]] rest Hr; [done| |lia]. rewrite Hd. rewrite (take_ge (take _ _)); [done|]. rewrite length_take. lia.
Qed.

(** ** Properties *)

(** C24: the length that is encoded is that of the password modulo 65536, and
    the encoding is text of [4 * ceil (n / 3)] characters; decoding takes the
    length of that text modulo 65536 again, and gives back the password's
    bytes as far as both reach, so the whole password up to 49149
    characters. *)
Theorem password_roundtrip s :
  str_ok s →
  let n := u16 (strlen s) in
  ∃ c, enCryptPasswd (Some s) = Ok (0, Some c) ∧ str_ok c ∧ strlen c = 4 * ((n + 2) / 3) ∧
    deCryptPasswd (Some c)
    = Ok (0, Some (take (Z.to_nat (3 * (u16 (strlen c) / 4))) (take (Z.to_nat n) s))) ∧
    (strlen s ≤ 49149 → deCryptPasswd (Some c) = Ok (0, Some s)).
Proof.
  intros Hs n. pose proof (u16_range (strlen s)) as Hn. assert (Hle : n ≤ strlen s) by (apply Z.mod_le; unfold strlen; lia).
  assert (Hb : Forall byte_ok (s ++ [0])).
  { apply Forall_app. split; [|chars_ok]. eapply Forall_impl; [exact Hs|]. unfold char_ok, byte_ok. lia. }
  destruct (codec (S (Z.to_nat n)) (s ++ [0]) n Hb) as (c & Hc & Hlen & Hok & Hd);
    [rewrite length_app; unfold strlen in *; fold n in Hn; simpl; lia|fold n in Hn; lia|].
  exists c. assert (Henc : enCryptPasswd (Some s) = Ok (0, Some c)).
  { unfold enCryptPasswd, encodeBase64String, mbind, res_bind. fold n. by rewrite Hc. }
  split; [done|]. split; [done|]. split; [exact Hlen|]. rewrite take_app_le in Hd by (unfold strlen in Hle; lia).
  assert (Hdec : deCryptPasswd (Some c)
            = Ok (0, Some (take (Z.to_nat (3 * (u16 (strlen c) / 4))) (take (Z.to_nat n) s)))).
  { unfold deCryptPasswd, decodeBase64Data, mbind, res_bind. pose proof (u16_range (strlen c)) as Hcr.
    assert (Hmod : u16 (strlen c) mod 4 = 0).
    { unfold u16, strlen. rewrite Hlen. generalize ((n + 2) / 3). intros q. change (2 ^ 16) with 65536. Z.to_euclidean_division_equations. lia. }
    assert (Hcle : u16 (strlen c) ≤ strlen c) by (apply Z.mod_le; unfold strlen; lia).
    assert (Hr : 0 ≤ u16 (strlen c) / 4 ≤ (n + 2) / 3).
    { split; [apply Z.div_pos; lia|]. apply Z.div_le_upper_bound; [lia|]. unfold strlen in *. lia. }
    rewrite Hmod, Z.sub_0_r, Hd by lia. do 4 f_equal. lia. }
  split; [exact Hdec|]. intros Hsmall. rewrite Hdec. assert (Hnn : n = strlen s) by (apply Z.mod_small; unfold strlen in *; lia).
  assert (Hq : n ≤ 3 * ((n + 2) / 3) ≤ n + 2).
  { pose proof (Z.div_mod (n + 2) 3 ltac:(lia)). pose proof (Z.mod_pos_bound (n + 2) 3 ltac:(lia)). lia. }
  assert (Hu : u16 (strlen c) = strlen c) by (apply Z.mod_small; unfold strlen in *; lia).
  assert (Hd4 : strlen c / 4 = (n + 2) / 3) by (unfold strlen; by rewrite Hlen, Z.mul_comm, Z.div_mul).
  rewrite Hu, Hd4, !take_ge; [done|rewrite ?length_take; unfold strlen in *; lia..].
Qed.

Lemma password_roundtrip_witness :
  ∃ c, enCryptPasswd (Some (cs "admin")) = Ok (0, Some c) ∧ deCryptPasswd (Some c) = Ok (0, Some (cs "admin")).
Proof.
  destruct (password_roundtrip (cs "admin")) as (c & He & _ & _ & _ & Hd); [by_compute|].
  exists c. split; [exact He|]. apply Hd. vm_compute. discriminate.
Defined.

Example password_example :
  enCryptPasswd (Some (cs "admin")) = Ok (0, Some (cs "YWRtaW4=")) ∧
  deCryptPasswd (Some (cs "YWRtaW4=")) = Ok (0, Some (cs "admin")).
Proof. split; vm_compute; reflexivity. Qed.
End Crypt.
