(* ===== verification/SvcParse.v ===== *)
(** * The configuration of the service host ([svchost/svchost_parse.c])

    Each line [path : entry : param] names a service to load.  The parser
    works in the buffer the file was read into: it puts NULs over the colons
    and the ends of lines, and the services point into the buffer. *)

From S2P Require Import Prelude CString.
Open Scope Z_scope.

Module SvcParse.

(** Pointers into the buffer are offsets; [NULL] is [None]. *)
Record host_service := { path : nat; entry : nat; param : option nat }.

Abbreviation COLON := 58.
Abbreviation BLANK := 0x20.
Abbreviation NEWLINE := 10.

Section parse.
(** Whether the [k]-th allocation of a service finds memory. *)
Context (malloc : nat → bool).

(** [while ( *tmp && *tmp == 0x20) tmp++], the number of steps. *)
Fixpoint blanks (l : list Z) : res nat :=
  match l with
  | [] => Fault
  | c :: l' => if c =? BLANK then n ← blanks l'; mret (S n) else mret 0%nat
  end.

(** [while ( *tmp && *tmp != '\n') tmp++]. *)
Fixpoint to_end (l : list Z) : res nat :=
  match l with
  | [] => Fault
  | c :: l' => if (c =? 0) || (c =? NEWLINE) then mret 0%nat else n ← to_end l'; mret (S n)
  end.

(** [buf] is what lies behind the pointer, up to the end of the buffer. *)
Definition svchost_parse_get_line (buf : list Z) : res (nat * nat) :=
  s ← blanks buf;
  t ← to_end (drop s buf);
  let e := (s + t)%nat in
  c ← deref (buf !! s);
  mret (if c =? 35 then e else s, e).

(** The string a piece of the buffer starts with: when no NUL ends it, looking
    for the end leaves the buffer. *)
Fixpoint c_string (l : list Z) : res cstr :=
  match l with
  | [] => Fault
  | c :: l' => if c =? 0 then mret [] else s ← c_string l'; mret (c :: s)
  end.

Definition svchost_parse_check_line (buf : list Z) (len : nat) : res Z :=
  s ← c_string buf;
  mret (match strchr s COLON with
        | None => -1
        | Some (pre, _) => if (len <? length pre)%nat || (length pre =? 0)%nat then -1 else 0
        end).

Fixpoint svchost_parse_check_conf (fuel : nat) (buf : list Z) : res Z :=
  match fuel with
  | O => NoFuel
  | S fuel' =>
      match buf with
      | [] => mret 0
      | _ =>
          '(s, e) ← svchost_parse_get_line buf;
          r ← (if negb (s =? e)%nat then svchost_parse_check_line buf e else mret 0);
          if r <? 0 then mret (-1) else svchost_parse_check_conf fuel' (drop (S e) buf)
      end
  end.

(** The string at an offset, and a NUL written at one. *)
Definition string_at (buf : list Z) (off : nat) : res cstr := c_string (drop off buf).
Definition put_nul (buf : list Z) (off : nat) : res (list Z) :=
  if (off <? length buf)%nat then mret (<[off := 0]> buf) else Fault.

Fixpoint skip (s : cstr) : cstr :=
  match s with c :: s' => if c =? BLANK then skip s' else s | [] => [] end.

Definition svchost_parse_check_blank (buf : list Z) (str : option nat) : res bool :=
  match str with
  | None => mret false
  | Some off => s ← string_at buf off; mret (bool_decide (skip s = []))
  end.

Definition svchost_parse_skip_blank (buf : list Z) (str : option nat) : res (option nat) :=
  match str with
  | None => mret None
  | Some off => s ← string_at buf off; mret (Some (off + (length s - length (skip s)))%nat)
  end.

(** The operator [||]. *)
Definition either (a b : res bool) : res bool := x ← a; if x : bool then mret true else b.

(** The buffer afterwards, and the service. *)
Definition svchost_parse_alloc_svc (k : nat) (buf : list Z) (tmp endp : nat) : res (list Z * option host_service) :=
  buf ← put_nul buf (tmp + endp);
  s ← string_at buf tmp;
  match strchr s COLON with
  | None => mret (buf, None)
  | Some (pre, _) =>
      buf ← put_nul buf (tmp + length pre);
      let ent := S (tmp + length pre) in
      s ← string_at buf ent;
      '(buf, par) ← match strchr s COLON with
                    | Some (pre', _) =>
                        buf ← put_nul buf (ent + length pre');
                        mret (buf, Some (S (ent + length pre')))
                    | None => mret (buf, None)
                    end;
      blank ← either (svchost_parse_check_blank buf (Some tmp))
                (either (svchost_parse_check_blank buf (Some ent)) (svchost_parse_check_blank buf par));
      if blank : bool then mret (buf, None)
      else if malloc k then
        pa ← svchost_parse_skip_blank buf (Some tmp);
        pa ← deref pa;
        en ← svchost_parse_skip_blank buf (Some ent);
        en ← deref en;
        pm ← svchost_parse_skip_blank buf par;
        mret (buf, Some {| path := pa; entry := en; param := pm |})
      else mret (buf, None)
  end.

(** The services made so far are [svcs], in the order of their [next]
    pointers.  On an error they are freed. *)
Fixpoint conf_loop (fuel : nat) (buf : list Z) (tmp : nat) (svcs : list host_service)
    : res (list Z * list host_service) :=
  match fuel with
  | O => NoFuel
  | S fuel' =>
      if (tmp <? length buf)%nat then
        '(s, e) ← svchost_parse_get_line (drop tmp buf);
        if negb (s =? e)%nat then
          '(buf, cur) ← svchost_parse_alloc_svc (length svcs) buf tmp e;
          match cur with
          | None => mret (buf, [])
          | Some cur => conf_loop fuel' buf (tmp + S e) (svcs ++ [cur])
          end
        else conf_loop fuel' buf (tmp + S e) svcs
      else mret (buf, svcs)
  end.

Definition svchost_parse_conf (buf : list Z) : res (list Z * list host_service) :=
  conf_loop (S (length buf)) buf 0 [].

(** The content of the file, or [None] when it cannot be read. *)
Definition svchost_parse_read_conf (file : option (list Z)) : option (list Z) :=
  match file with
  | Some ((_ :: _) as text) => Some (text ++ [0])
  | _ => None
  end.

(** The services and the buffer they point into. *)
Definition svchost_parse (file : option (list Z)) : res (option (list host_service * list Z)) :=
  match svchost_parse_read_conf file with
  | None => mret None
  | Some buf =>
      r ← svchost_parse_check_conf (S (length buf)) buf;
      if r <? 0 then mret None
      else
        '(buf, svcs) ← svchost_parse_conf buf;
        match svcs with [] => mret None | _ => mret (Some (svcs, buf)) end
  end.
End parse.

(** ** Configurations and their text *)

Record svc_line := { l_path : cstr; l_entry : cstr; l_param : option cstr }.

(** A line is [lead] blanks and nothing, a comment, or a service; blanks may
    also stand behind the colons. *)
Inductive conf_line :=
| Blank (lead : nat)
| Comment (lead : nat) (text : cstr)
| Service (lead : nat) (svc : svc_line) (lead_e lead_p : nat).

Definition spaces (n : nat) : cstr := replicate n BLANK.

Definition line_text (l : conf_line) : cstr :=
  match l with
  | Blank n => spaces n
  | Comment n text => spaces n ++ 35 :: text
  | Service n svc ne np =>
      spaces n ++ l_path svc ++ COLON :: spaces ne ++ l_entry svc ++
      match l_param svc with Some p => COLON :: spaces np ++ p | None => [] end
  end.

Fixpoint conf_text (ls : list conf_line) : cstr :=
  match ls with
  | [] => []
  | [l] => line_text l
  | l :: ls' => line_text l ++ NEWLINE :: conf_text ls'
  end.

(** A word starts with no blank, and has no character that ends it. *)
Definition word (stop : list Z) (s : cstr) : Prop :=
  head s ≠ Some BLANK ∧ s ≠ [] ∧ Forall (λ c, char_ok c ∧ c ≠ NEWLINE ∧ c ∉ stop) s.

Definition line_ok (l : conf_line) : Prop :=
  match l with
  | Blank _ => True
  | Comment _ text => Forall (λ c, char_ok c ∧ c ≠ NEWLINE) text
  | Service _ svc _ _ =>
      word [COLON] (l_path svc) ∧ head (l_path svc) ≠ Some 35 ∧ word [COLON] (l_entry svc) ∧
      match l_param svc with Some p => word [] p | None => True end
  end.

Definition services (ls : list conf_line) : list svc_line :=
  omap (λ l, match l with Service _ svc _ _ => Some svc | _ => None end) ls.

(** What a service's pointers point to. *)
Definition text_at (buf : list Z) (off : nat) : cstr := str_of (drop off buf).
Definition service_of (buf : list Z) (h : host_service) : svc_line :=
  {| l_path := text_at buf (path h); l_entry := text_at buf (entry h); l_param := text_at buf <$> param h |}.

(** ** The parser inside a buffer that ends in a NUL

    There no access fails, and its functions have values. *)

(** A buffer ends in a NUL. *)
Definition ended (buf : list Z) : Prop := last buf = Some 0.

Lemma ended_nonempty buf : ended buf → (0 < length buf)%nat.
Proof. destruct buf; [done|simpl; lia]. Qed.
Lemma ended_drop n buf : ended buf → (n < length buf)%nat → ended (drop n buf).
Proof. unfold ended. rewrite !last_lookup, length_drop, lookup_drop. intros <- Hn. f_equal. lia. Qed.
Lemma ended_insert i buf : ended buf → ended (<[i := 0]> buf).
Proof.
  unfold ended. rewrite !last_lookup, length_insert. intros He.
  destruct (decide (i = pred (length buf))) as [-> |Hne]; [|by rewrite list_lookup_insert_ne].
  apply list_lookup_insert_eq. by apply lookup_lt_Some in He.
Qed.
Lemma str_of_short l : ended l → (length (str_of l) < length l)%nat.
Proof.
  induction l as [|c l IH]; [done|]. intros He. cbn [str_of]. destruct (c =? 0) eqn:E; [simpl; lia|].
  destruct l as [|c' l]; [injection He as ->; done|]. specialize (IH He). cbn [length] in *. lia.
Qed.
Lemma text_at_short buf off : ended buf → (off < length buf)%nat → (off + length (text_at buf off) < length buf)%nat.
Proof. intros He Ho. pose proof (str_of_short _ (ended_drop off buf He Ho)) as H. rewrite length_drop in H. unfold text_at. lia. Qed.
Lemma strchr_short s c pre post : strchr s c = Some (pre, post) → (length pre < length s)%nat.
Proof.
  revert pre. induction s as [|d s IH]; intros pre; cbn [strchr]; [intros H; discriminate H|]. destruct (d =? c).
  - intros H. injection H as <- _. simpl. lia.
  - destruct (strchr s c) as [[a b]|]; [|intros H; discriminate H]. intros H. injection H as <- <-. specialize (IH a eq_refl). simpl. lia.
Qed.

Lemma c_string_ended l : ended l → c_string l = Ok (str_of l).
Proof.
  induction l as [|c l IH]; [done|]. intros He. cbn [c_string str_of]. destruct (c =? 0) eqn:E; [done|].
  destruct l as [|c' l]; [injection He as ->; done|]. by rewrite (IH He).
Qed.
Lemma string_at_ended buf off : ended buf → (off < length buf)%nat → string_at buf off = Ok (text_at buf off).
Proof. intros He Ho. by apply c_string_ended, ended_drop. Qed.
Lemma put_nul_ended buf off : (off < length buf)%nat → put_nul buf off = Ok (<[off := 0]> buf).
Proof. intros Ho. unfold put_nul. by rewrite (proj2 (Nat.ltb_lt _ _)). Qed.

Definition line_status (buf : list Z) (len : nat) : Z :=
  match strchr (str_of buf) COLON with
  | None => -1
  | Some (pre, _) => if (len <? length pre)%nat || (length pre =? 0)%nat then -1 else 0
  end.
Lemma check_line_ended buf len : ended buf → svchost_parse_check_line buf len = Ok (line_status buf len).
Proof. intros He. unfold svchost_parse_check_line. by rewrite c_string_ended. Qed.

Definition all_blank (buf : list Z) (str : option nat) : bool :=
  match str with None => false | Some off => bool_decide (skip (text_at buf off) = []) end.
Definition skipped (buf : list Z) (off : nat) : nat :=
  let s := text_at buf off in (off + (length s - length (skip s)))%nat.
Definition inside (buf : list Z) (str : option nat) : Prop := from_option (λ off, (off < length buf)%nat) True str.

Lemma check_blank_ended buf str : ended buf → inside buf str → svchost_parse_check_blank buf str = Ok (all_blank buf str).
Proof. intros He Hs. destruct str as [off|]; [|done]. unfold svchost_parse_check_blank. by rewrite string_at_ended. Qed.
Lemma skip_blank_ended buf str :
  ended buf → inside buf str → svchost_parse_skip_blank buf str = Ok (skipped buf <$> str).
Proof. intros He Hs. destruct str as [off|]; [|done]. unfold svchost_parse_skip_blank. by rewrite string_at_ended. Qed.
Lemma either_Ok a b : either (Ok a) (Ok b) = Ok (a || b).
Proof. by destruct a. Qed.
Lemma skipped_short buf off : ended buf → (off < length buf)%nat → (skipped buf off < length buf)%nat.
Proof. intros He Ho. pose proof (text_at_short buf off He Ho). unfold skipped. lia. Qed.

(** The cuts of a line: the buffer, and where its entry and parameter are. *)
Definition cut_param (buf : list Z) (ent : nat) : list Z * option nat :=
  match strchr (text_at buf ent) COLON with
  | Some (pre', _) => (<[(ent + length pre')%nat := 0]> buf, Some (S (ent + length pre')))
  | None => (buf, None)
  end.
Definition made_svc (malloc : nat → bool) (k : nat) (buf : list Z) (tmp endp : nat) : list Z * option host_service :=
  let buf := <[(tmp + endp)%nat := 0]> buf in
  match strchr (text_at buf tmp) COLON with
  | None => (buf, None)
  | Some (pre, _) =>
      let buf := <[(tmp + length pre)%nat := 0]> buf in
      let ent := S (tmp + length pre) in
      let '(buf, par) := cut_param buf ent in
      if all_blank buf (Some tmp) || (all_blank buf (Some ent) || all_blank buf par) then (buf, None)
      else if malloc k then
        (buf, Some {| path := skipped buf tmp; entry := skipped buf ent; param := skipped buf <$> par |})
      else (buf, None)
  end.

Lemma cut_param_inside buf ent :
  ended buf → (ent < length buf)%nat →
  let '(buf', par) := cut_param buf ent in ended buf' ∧ length buf' = length buf ∧ inside buf' par.
Proof.
  intros He Hent. unfold cut_param. destruct (strchr (text_at buf ent) COLON) as [[pre post]|] eqn:E; [|done].
  apply strchr_short in E. pose proof (text_at_short buf ent He Hent). split; [by apply ended_insert|].
  unfold inside. rewrite length_insert. split; [done|]. cbn [from_option]. lia.
Qed.

(** The pointers of a service lie in the buffer. *)
Definition in_buffer (n : nat) (h : host_service) : Prop :=
  (path h < n)%nat ∧ (entry h < n)%nat ∧ from_option (λ p, (p < n)%nat) True (param h).

Lemma alloc_svc_ended malloc k buf tmp e : ended buf → (tmp + e < length buf)%nat →
  svchost_parse_alloc_svc malloc k buf tmp e = Ok (made_svc malloc k buf tmp e) ∧
  let '(buf', r) := made_svc malloc k buf tmp e in
  ended buf' ∧ length buf' = length buf ∧ from_option (in_buffer (length buf)) True r.
Proof.
  intros He Ho. unfold svchost_parse_alloc_svc, made_svc. rewrite put_nul_ended by done. unfold mbind, res_bind.
  pose proof (length_insert buf (tmp + e) 0) as L0. apply (ended_insert (tmp + e)) in He. set (b0 := <[_:=0]> buf) in *.
  rewrite string_at_ended by (done || lia). destruct (strchr _ _) as [[pre post]|] eqn:E1; [|done].
  apply strchr_short in E1. pose proof (text_at_short b0 tmp He ltac:(lia)) as S1. rewrite put_nul_ended by lia.
  pose proof (length_insert b0 (tmp + length pre) 0) as L1. apply (ended_insert (tmp + length pre)) in He. set (b1 := <[_:=0]> b0) in *.
  set (ent := S (tmp + length pre)) in *. assert (Hent : (ent < length b1)%nat) by (unfold ent; lia).
  rewrite string_at_ended by done. pose proof (cut_param_inside b1 ent He Hent) as Hcut.
  assert (Hrun : match strchr (text_at b1 ent) COLON with
                 | Some (pre', _) => match put_nul b1 (ent + length pre') with
                                     | Ok buf => mret (buf, Some (S (ent + length pre')))
                                     | Fault => Fault | NoFuel => NoFuel end
                 | None => mret (b1, None)
                 end = Ok (cut_param b1 ent)).
  { unfold cut_param. destruct (strchr (text_at b1 ent) COLON) as [[pre' post']|] eqn:E2; [|done].
    apply strchr_short in E2. pose proof (text_at_short b1 ent He Hent). by rewrite put_nul_ended by lia. }
  rewrite Hrun. clear Hrun. destruct (cut_param b1 ent) as [b2 par]. destruct Hcut as (He2 & L2 & Hp).
  assert (Htmp : inside b2 (Some tmp)) by (unfold inside; simpl; lia).
  assert (Hen : inside b2 (Some ent)) by (unfold inside; simpl; lia).
  rewrite !check_blank_ended, !either_Ok by done.
  destruct (_ || _); [split; [done|]; split_and!; [done|lia|done]|].
  destruct (malloc k); [|split; [done|]; split_and!; [done|lia|done]].
  rewrite !skip_blank_ended by done. split; [done|]. split_and!; [done|lia|]. rewrite <- L0, <- L1, <- L2. split_and!.
  - apply skipped_short; [done|]. exact Htmp.
  - apply skipped_short; [done|]. exact Hen.
  - destruct par as [p|]; [|done]. by apply skipped_short.
Qed.

(** ** Reading one line *)

(** A character of a line, and a line without the characters that end it. *)
Definition inline (c : Z) : Prop := char_ok c ∧ c ≠ NEWLINE.

Lemma inline_chars s : Forall inline s → str_ok s.
Proof. intros H. eapply Forall_impl; [exact H|]. by intros c [? _]. Qed.
Lemma word_inline stop s : word stop s → Forall inline s.
Proof. intros (_ & _ & H). eapply Forall_impl; [exact H|]. by intros c (? & ? & _). Qed.
Lemma word_stop stop s c : word stop s → c ∈ stop → c ∉ s.
Proof. intros (_ & _ & H) Hc Hin. rewrite Forall_forall in H. by destruct (H c Hin) as (_ & _ & ?). Qed.
Lemma spaces_inline n : Forall inline (spaces n).
Proof. apply Forall_replicate. split; [unfold char_ok; lia|done]. Qed.
Lemma spaces_colon n : COLON ∉ spaces n.
Proof. intros Hin. apply elem_of_replicate in Hin as [Hbad _]. discriminate Hbad. Qed.

Lemma line_inline l : line_ok l → Forall inline (line_text l).
Proof.
  assert (Hc : ∀ c s, inline c → Forall inline s → Forall inline (c :: s)) by (intros; by constructor).
  assert (H35 : inline 35) by (split; [unfold char_ok; lia|done]). assert (H58 : inline COLON) by (split; [unfold char_ok; lia|done]).
  destruct l as [n|n text|n [p e o] ne np]; cbn [line_text line_ok l_path l_entry l_param].
  - intros _. apply spaces_inline.
  - intros Ht. apply Forall_app. split; [apply spaces_inline|]. by apply Hc.
  - intros (Hp & _ & He & Ho). rewrite !Forall_app. split; [apply spaces_inline|]. split; [by eapply word_inline|].
    apply Hc; [done|]. rewrite !Forall_app. split; [apply spaces_inline|]. split; [by eapply word_inline|].
    destruct o as [q|]; [|by constructor]. apply Hc; [done|]. apply Forall_app. split; [apply spaces_inline|by eapply word_inline].
Qed.

Lemma blanks_spec n c r : c ≠ BLANK → blanks (spaces n ++ c :: r) = Ok n.
Proof.
  intros Hc. induction n as [|n IH]; cbn [spaces replicate app blanks].
  - by rewrite (proj2 (Z.eqb_neq c _) Hc).
  - fold (spaces n). by rewrite IH.
Qed.

Lemma to_end_spec s t r : Forall inline s → t = 0 ∨ t = NEWLINE → to_end (s ++ t :: r) = Ok (length s).
Proof.
  intros Hs Ht. induction Hs as [|c s [Hc Hn] _ IH]; cbn [app to_end].
  - by replace ((t =? 0) || (t =? NEWLINE)) with true by (destruct Ht as [-> | ->]; done).
  - unfold char_ok in Hc. rewrite (proj2 (Z.eqb_neq c 0)), (proj2 (Z.eqb_neq c NEWLINE)) by lia. cbn [orb]. by rewrite IH.
Qed.

Lemma skip_spaces n s : skip (spaces n ++ s) = skip s.
Proof. induction n as [|n IH]; [done|]. exact IH. Qed.
Lemma skip_word stop s : word stop s → skip s = s.
Proof. intros (Hh & _ & _). destruct s as [|c s]; [done|]. simpl in *. destruct (c =? BLANK) eqn:E; [|done]. zify_bool. congruence. Qed.

Lemma spaces_length n : length (spaces n) = n.
Proof. apply length_replicate. Qed.
Lemma drop_spaces n s : drop n (spaces n ++ s) = s.
Proof. rewrite drop_app_length'; [done|]. by rewrite spaces_length. Qed.
Lemma lookup_spaces n s : (spaces n ++ s) !! n = head s.
Proof. rewrite lookup_app_r by (rewrite spaces_length; lia). rewrite spaces_length, Nat.sub_diag. by destruct s. Qed.

Lemma get_line_empty n t r :
  t = 0 ∨ t = NEWLINE → svchost_parse_get_line (spaces n ++ t :: r) = Ok (n, n).
Proof.
  intros Ht. unfold svchost_parse_get_line. rewrite blanks_spec by (destruct Ht; lia). unfold mbind, res_bind.
  pose proof (to_end_spec [] t r ltac:(constructor) Ht) as He. cbn [app length] in He.
  rewrite drop_spaces, lookup_spaces, He. cbn. rewrite !Nat.add_0_r. by destruct (_ =? _).
Qed.

Lemma get_line_text n c m t r :
  c ≠ BLANK → Forall inline (c :: m) → t = 0 ∨ t = NEWLINE →
  svchost_parse_get_line (spaces n ++ (c :: m) ++ t :: r)
  = Ok (if c =? 35 then (n + length (c :: m))%nat else n, (n + length (c :: m))%nat).
Proof.
  intros Hc Hm Ht. unfold svchost_parse_get_line.
  rewrite <- app_comm_cons, blanks_spec by done. unfold mbind, res_bind. rewrite drop_spaces, lookup_spaces.
  by rewrite app_comm_cons, to_end_spec.
Qed.

Lemma service_text n svc ne np :
  line_text (Service n svc ne np)
  = spaces n ++ l_path svc ++ COLON :: spaces ne ++ l_entry svc ++
    match l_param svc with Some p => COLON :: spaces np ++ p | None => [] end.
Proof. done. Qed.

(** A line is skipped unless it is a service. *)
Lemma get_line_spec l t r :
  line_ok l → t = 0 ∨ t = NEWLINE →
  svchost_parse_get_line (line_text l ++ t :: r)
  = Ok (match l with Service n _ _ _ => n | _ => length (line_text l) end, length (line_text l)) ∧
  match l with Service n _ _ _ => n ≠ length (line_text l) | _ => True end.
Proof.
  intros Hl Ht. pose proof (line_inline l Hl) as Hin. destruct l as [n|n text|n svc ne np].
  - cbn [line_text]. rewrite get_line_empty, spaces_length by done. done.
  - cbn [line_text] in *. apply Forall_app in Hin as [_ Hin]. rewrite <- app_assoc, get_line_text by done.
    rewrite length_app, spaces_length. done.
  - rewrite service_text in *. destruct Hl as ((Hh & Hne & _) & H35 & _). apply Forall_app in Hin as [_ Hin].
    destruct (l_path svc) as [|c p]; [done|]. simpl in Hh, H35. cbn [app] in *.
    rewrite <- app_assoc, get_line_text by (done || congruence).
    rewrite (proj2 (Z.eqb_neq c 35)) by congruence. rewrite length_app, spaces_length. split; [done|]. cbn [length]. lia.
Qed.

(** ** The first pass *)

Fixpoint buffer_of (ls : list conf_line) : list Z :=
  match ls with
  | [] => []
  | l :: ls' => line_text l ++ (if ls' is [] then 0 else NEWLINE) :: buffer_of ls'
  end.

Lemma buffer_of_text ls : ls ≠ [] → conf_text ls ++ [0] = buffer_of ls.
Proof.
  induction ls as [|l ls IH]; [done|]. intros _. destruct ls as [|l' ls]; [done|].
  change (conf_text (l :: l' :: ls)) with (line_text l ++ NEWLINE :: conf_text (l' :: ls)).
  rewrite <- app_assoc, <- app_comm_cons, IH by done. done.
Qed.

Lemma line_end (ls : list conf_line) : (if ls is [] then 0 else NEWLINE) = 0 ∨ (if ls is [] then 0 else NEWLINE) = NEWLINE.
Proof. destruct ls; [by left|by right]. Qed.

Lemma str_of_app s r : str_ok s → str_of (s ++ r) = s ++ str_of r.
Proof.
  induction 1 as [|c s Hc _ IH]; [done|]. cbn [app str_of]. unfold char_ok in Hc.
  by rewrite (proj2 (Z.eqb_neq c 0)), IH by lia.
Qed.

Lemma check_line_spec n svc ne np t r :
  line_ok (Service n svc ne np) → 
  let s := line_text (Service n svc ne np) in line_status (s ++ t :: r) (length s) = 0.
Proof.
  intros Hl s. pose proof (line_inline _ Hl) as Hin. destruct Hl as (Hp & _ & _).
  unfold line_status. rewrite str_of_app by by apply inline_chars. unfold s. rewrite service_text.
  set (m := spaces ne ++ _). rewrite <- !app_assoc, <- app_comm_cons. rewrite (app_assoc (spaces n)).
  rewrite strchr_app.
  2:{ intros [Hbad|Hbad]%elem_of_app; [by apply spaces_colon in Hbad|]. eapply word_stop; [exact Hp| |exact Hbad]. by left. }
  rewrite (proj2 (Nat.ltb_ge _ _)) by (rewrite !length_app; lia).
  destruct Hp as (_ & Hne & _). destruct (l_path svc) as [|c p]; [done|]. rewrite length_app. cbn [length].
  by rewrite (proj2 (Nat.eqb_neq _ 0)) by lia.
Qed.

Lemma buffer_of_ended pre ls : ls ≠ [] → ended (pre ++ buffer_of ls).
Proof.
  intros Hne. rewrite <- buffer_of_text by done. unfold ended. by rewrite app_assoc, last_snoc.
Qed.

Lemma check_conf_spec ls : ∀ fuel,
  Forall line_ok ls → (length (buffer_of ls) < fuel)%nat → svchost_parse_check_conf fuel (buffer_of ls) = Ok 0.
Proof.
  induction ls as [|l ls IH]; intros [|fuel] Hok Hf; try lia; [done|]. apply Forall_cons in Hok as [Hl Hok].
  pose proof (buffer_of_ended [] (l :: ls) ltac:(done)) as He. cbn [app] in He.
  cbn [buffer_of svchost_parse_check_conf] in *. rewrite length_app in Hf. cbn [length] in Hf.
  set (t := if ls is [] then 0 else NEWLINE) in *. set (s := line_text l) in *.
  assert (Hne : s ++ t :: buffer_of ls ≠ []) by (by destruct s).
  destruct (s ++ t :: buffer_of ls) as [|c b] eqn:Eb; [done|]. rewrite <- Eb in He |- *. clear Hne.
  destruct (get_line_spec l t (buffer_of ls) Hl (line_end ls)) as [Hg Hs]. fold s in Hg, Hs. rewrite Hg.
  unfold mbind, res_bind. assert (Hd : drop (S (length s)) (s ++ t :: buffer_of ls) = buffer_of ls).
  { change (S (length s)) with (1 + length s)%nat. rewrite Nat.add_comm, <- drop_drop, drop_app_length. done. }
  rewrite Hd, IH by (done || lia). rewrite (check_line_ended _ _ He).
  destruct l as [n|n text|n svc ne np]; rewrite ?Nat.eqb_refl; [done..|].
  rewrite (proj2 (Nat.eqb_neq _ _) Hs). pose proof (check_line_spec n svc ne np t (buffer_of ls) Hl) as Hc.
  cbv zeta in Hc. fold s in Hc. by rewrite Hc.
Qed.

(** ** The second pass *)

Lemma insert_mid {A} (a : list A) x y b n : n = length a → <[n := y]> (a ++ x :: b) = a ++ y :: b.
Proof. intros ->. rewrite insert_app_r_alt by lia. by rewrite Nat.sub_diag. Qed.

Lemma text_at_app a b n : n = length a → text_at (a ++ b) n = str_of b.
Proof. intros ->. unfold text_at. by rewrite drop_app_length. Qed.

(** A field of a line, once its end is a NUL. *)
Definition field (n : nat) (w : cstr) : cstr := spaces n ++ w.

Lemma field_ok stop n w : word stop w → str_ok (field n w).
Proof. intros Hw. apply inline_chars, Forall_app. split; [apply spaces_inline|by eapply word_inline]. Qed.

Lemma field_at stop a n w b off :
  word stop w → off = length a →
  let buf := a ++ field n w ++ 0 :: b in
  text_at buf off = field n w ∧ all_blank buf (Some off) = false ∧
  skipped buf off = (off + n)%nat.
Proof.
  intros Hw Hoff buf. assert (Hs : text_at buf off = field n w).
  { unfold buf. rewrite text_at_app by done. apply str_of_app_nul. by eapply field_ok. }
  unfold all_blank, skipped. rewrite Hs. unfold field.
  rewrite skip_spaces, (skip_word stop w Hw). destruct (Hw) as (_ & Hne & _).
  split; [done|]. split; [by apply bool_decide_eq_false|]. rewrite length_app, spaces_length. lia.
Qed.

Lemma field_points stop a n w b off : word stop w → off = length a → text_at (a ++ field n w ++ 0 :: b) (off + n) = w.
Proof.
  intros Hw Hoff. unfold field. rewrite <- app_assoc, (app_assoc a).
  rewrite text_at_app by (rewrite length_app, spaces_length; lia).
  apply str_of_app_nul. by eapply inline_chars, word_inline.
Qed.

(** The line once it has been cut up. *)
Definition cut_line (n : nat) (svc : svc_line) (ne np : nat) : list Z :=
  field n (l_path svc) ++ 0 :: field ne (l_entry svc) ++
  match l_param svc with Some p => 0 :: field np p | None => [] end.

Lemma cut_line_length n svc ne np : length (cut_line n svc ne np) = length (line_text (Service n svc ne np)).
Proof.
  unfold cut_line, field. rewrite service_text. destruct (l_param svc);
    rewrite ?length_app; cbn [length]; rewrite ?length_app; cbn [length]; rewrite ?length_app; cbn [length]; lia.
Qed.

(** Where the fields of a cut line start. *)
Definition entry_at (pre : list Z) (n : nat) (svc : svc_line) : nat := S (length pre + length (field n (l_path svc))).
Definition param_at (pre : list Z) (n : nat) (svc : svc_line) (ne : nat) : nat :=
  S (entry_at pre n svc + length (field ne (l_entry svc))).

Record field_seen (buf : list Z) (off n : nat) (w : cstr) : Prop := {
  fs_blank : all_blank buf (Some off) = false;
  fs_skip : skipped buf off = (off + n)%nat;
  fs_word : text_at buf (off + n) = w
}.

Lemma field_seen_at stop a n w b off buf :
  word stop w → off = length a → buf = a ++ field n w ++ 0 :: b → field_seen buf off n w.
Proof.
  intros Hw Ho ->. destruct (field_at stop a n w b off Hw Ho) as (_ & ? & ?). split; [done|done|]. by eapply field_points.
Qed.

Lemma cut_fields pre n svc ne np out :
  line_ok (Service n svc ne np) →
  let buf := pre ++ cut_line n svc ne np ++ 0 :: out in
  field_seen buf (length pre) n (l_path svc) ∧ field_seen buf (entry_at pre n svc) ne (l_entry svc) ∧
  ∀ p, l_param svc = Some p → field_seen buf (param_at pre n svc ne) np p.
Proof.
  intros (Hp & _ & He & Ho) buf. unfold buf, cut_line, param_at, entry_at.
  set (P := field n (l_path svc)). set (En := field ne (l_entry svc)). split; [|split].
  - eapply (field_seen_at _ pre); [exact Hp|done|]. fold P. by simplify_list_eq.
  - destruct (l_param svc) as [p|];
      (eapply (field_seen_at _ (pre ++ P ++ [0])); [exact He|rewrite !length_app; simpl; lia|fold En; by simplify_list_eq]).
  - intros p Hpar. rewrite Hpar in Ho |- *. eapply (field_seen_at _ (pre ++ P ++ 0 :: En ++ [0])); [exact Ho| |by simplify_list_eq].
    rewrite !length_app. cbn [length]. rewrite !length_app. simpl. lia.
Qed.

Lemma field_strchr stop n w post : word stop w → COLON ∈ stop → strchr (field n w ++ COLON :: post) COLON = Some (field n w, post).
Proof.
  intros Hw Hc. apply strchr_app. intros [Hbad|Hbad]%elem_of_app; [by apply spaces_colon in Hbad|].
  exact (word_stop _ _ _ Hw Hc Hbad).
Qed.
Lemma field_strchr_None stop n w : word stop w → COLON ∈ stop → strchr (field n w) COLON = None.
Proof.
  intros Hw Hc. apply strchr_None. intros [Hbad|Hbad]%elem_of_app; [by apply spaces_colon in Hbad|].
  exact (word_stop _ _ _ Hw Hc Hbad).
Qed.

Lemma service_fields n svc ne np :
  line_text (Service n svc ne np)
  = field n (l_path svc) ++ COLON :: field ne (l_entry svc) ++
    match l_param svc with Some p => COLON :: field np p | None => [] end.
Proof. rewrite service_text. unfold field. by simplify_list_eq. Qed.

Lemma alloc_svc_spec malloc k pre n svc ne np t r :
  line_ok (Service n svc ne np) → malloc k = true →
  let s := line_text (Service n svc ne np) in
  ∃ h, made_svc malloc k (pre ++ s ++ t :: r) (length pre) (length s)
       = (pre ++ cut_line n svc ne np ++ 0 :: r, Some h) ∧
    ∀ out, service_of (pre ++ cut_line n svc ne np ++ 0 :: out) h = svc.
Proof.
  intros Hl Hm s. pose proof (inline_chars _ (line_inline _ Hl)) as Hs. fold s in Hs.
  pose proof (λ out, cut_fields pre n svc ne np out Hl) as Hcut. destruct Hl as (Hp & _ & He & Ho).
  unfold made_svc, cut_param. rewrite (app_assoc pre), insert_mid, <- app_assoc by by rewrite length_app.
  rewrite (text_at_app pre) by done. rewrite str_of_app_nul by done. unfold s in *. rewrite service_fields in Hs |- *.
  rewrite (field_strchr [COLON]) by (done || by left).
  set (P := field n (l_path svc)) in *. set (En := field ne (l_entry svc)) in *.
  set (Q := match l_param svc with Some p => COLON :: field np p | None => [] end) in *.
  rewrite <- app_assoc, <- app_comm_cons, (app_assoc pre), insert_mid, <- (app_assoc pre) by by rewrite length_app.
  assert (HEQ : str_ok (En ++ Q)) by (apply Forall_app in Hs as [_ Hs]; by apply Forall_cons in Hs as [_ Hs]).
  replace (pre ++ P ++ 0 :: (En ++ Q) ++ 0 :: r) with ((pre ++ P ++ [0]) ++ (En ++ Q) ++ 0 :: r) by by simplify_list_eq.
  rewrite (text_at_app (pre ++ P ++ [0])) by (rewrite !length_app; simpl; lia).
  rewrite str_of_app_nul by done. specialize (Hcut r) as Hc. unfold cut_line in Hc |- *. fold P En in Hc |- *.
  destruct Hc as ([B1 S1 _] & [B2 S2 _] & H3). destruct (l_param svc) as [p|] eqn:Eo; unfold Q in *.
  - assert (HE : strchr (En ++ COLON :: field np p) COLON = Some (En, field np p)) by (apply (field_strchr [COLON]); [done|by left]).
    rewrite HE.
    destruct (H3 p eq_refl) as [B3 S3 _]. unfold param_at, entry_at in *. fold P En in B2, S2, B3, S3.
    replace ((pre ++ P ++ [0]) ++ (En ++ COLON :: field np p) ++ 0 :: r)
      with ((pre ++ P ++ 0 :: En) ++ COLON :: field np p ++ 0 :: r) by by simplify_list_eq.
    rewrite insert_mid by (rewrite !length_app; cbn [length]; lia).
    replace ((pre ++ P ++ 0 :: En) ++ 0 :: field np p ++ 0 :: r)
      with (pre ++ (P ++ 0 :: En ++ 0 :: field np p) ++ 0 :: r) by by simplify_list_eq.
    rewrite B1, B2, B3, Hm. cbn [orb fmap option_fmap option_map]. eexists. split; [done|]. intros out.
    destruct (Hcut out) as ([_ _ W1] & [_ _ W2] & H3'). destruct (H3' p eq_refl) as [_ _ W3].
    unfold service_of, cut_line in *. rewrite Eo in *. cbn [path entry param fmap option_fmap option_map].
    unfold param_at, entry_at in *. fold P En in W1, W2, W3. rewrite S1, S2, S3, W1, W2, W3. destruct svc. simpl in *. congruence.
  - assert (HE : strchr (En ++ []) COLON = None) by (rewrite app_nil_r; apply (field_strchr_None [COLON]); [done|by left]).
    rewrite HE. replace ((pre ++ P ++ [0]) ++ (En ++ []) ++ 0 :: r) with (pre ++ (P ++ 0 :: En ++ []) ++ 0 :: r) by by simplify_list_eq.
    unfold entry_at in *. fold P in B2, S2. rewrite B1, B2, Hm. cbn [orb fmap option_fmap option_map all_blank].
    eexists. split; [done|]. intros out. destruct (Hcut out) as ([_ _ W1] & [_ _ W2] & _).
    unfold service_of, cut_line in *. rewrite Eo in *. cbn [path entry param fmap option_fmap option_map].
    unfold entry_at in *. fold P En in W1, W2. rewrite S1, S2, W1, W2. destruct svc. simpl in *. congruence.
Qed.

Lemma get_line_of ls l r :
  line_ok l → let t := if (ls : list conf_line) is [] then 0 else NEWLINE in
  ∃ s, svchost_parse_get_line (line_text l ++ t :: r) = Ok (s, length (line_text l)) ∧
    (s =? length (line_text l))%nat = match l with Service _ _ _ _ => false | _ => true end.
Proof.
  intros Hl t. destruct (get_line_spec l t r Hl (line_end ls)) as [Hg Hs]. eexists. split; [exact Hg|].
  destruct l; [by apply Nat.eqb_refl..|]. by apply Nat.eqb_neq.
Qed.

(** The loop, from a line on: the lines before are cut up already. *)
Lemma conf_loop_spec malloc ls : ∀ fuel pre svcs,
  Forall line_ok ls → (∀ k, (k < length svcs + length (services ls))%nat → malloc k = true) →
  (length (buffer_of ls) < fuel)%nat →
  ∃ out new, conf_loop malloc fuel (pre ++ buffer_of ls) (length pre) svcs = Ok (pre ++ out, svcs ++ new) ∧
    map (service_of (pre ++ out)) new = services ls.
Proof.
  induction ls as [|l ls IH]; intros [|fuel] pre svcs Hok Hm Hf; try lia.
  { exists [], []. cbn [conf_loop buffer_of]. by rewrite (proj2 (Nat.ltb_ge _ _)), !app_nil_r by (rewrite app_nil_r; lia). }
  apply Forall_cons in Hok as [Hl Hok]. cbn [buffer_of conf_loop] in *. rewrite length_app in Hf. cbn [length] in Hf.
  destruct (get_line_of ls l (buffer_of ls) Hl) as (s0 & Hg & Hs0). cbv zeta in Hg.
  set (t := if ls is [] then 0 else NEWLINE) in *. set (s := line_text l) in *.
  rewrite (proj2 (Nat.ltb_lt _ _)) by (rewrite !length_app; cbn [length]; lia).
  rewrite drop_app_length, Hg. unfold mbind, res_bind. rewrite Hs0.
  assert (Hlen : ∀ m c, length m = length s → (length pre + S (length s))%nat = length (pre ++ m ++ [c : Z])).
  { intros m c Hmc. rewrite !length_app. simpl. lia. }
  assert (Hskip : services (l :: ls) = services ls → 
            ∃ out new, conf_loop malloc fuel (pre ++ s ++ t :: buffer_of ls) (length pre + S (length s)) svcs
                       = Ok (pre ++ out, svcs ++ new) ∧ map (service_of (pre ++ out)) new = services (l :: ls)).
  { intros Hsv. rewrite Hsv in *. rewrite (Hlen s t eq_refl).
    replace (pre ++ s ++ t :: buffer_of ls) with ((pre ++ s ++ [t]) ++ buffer_of ls) by by simplify_list_eq.
    destruct (IH fuel (pre ++ s ++ [t]) svcs) as (out & new & Hr & Hnew); [done|done|lia|].
    assert (Heq : (pre ++ s ++ [t]) ++ out = pre ++ s ++ t :: out) by by simplify_list_eq.
    exists (s ++ t :: out), new. by rewrite Hr, Heq in *. }
  destruct l as [n|n text|n svc ne np]; cbn [negb]; [by apply Hskip|by apply Hskip|clear Hskip].
  destruct (alloc_svc_spec malloc (length svcs) pre n svc ne np t (buffer_of ls) Hl) as (h & Ha & Hh).
  { apply Hm. cbn [services omap list_omap length]. lia. }
  cbv zeta in Ha. fold s in Ha.
  destruct (alloc_svc_ended malloc (length svcs) (pre ++ s ++ t :: buffer_of ls) (length pre) (length s)) as [Hrun _];
    [exact (buffer_of_ended pre (Service n svc ne np :: ls) ltac:(done))|rewrite !length_app; cbn [length]; lia|].
  rewrite Hrun, Ha. set (m := cut_line n svc ne np) in *.
  rewrite (Hlen m 0) by apply cut_line_length.
  replace (pre ++ m ++ 0 :: buffer_of ls) with ((pre ++ m ++ [0]) ++ buffer_of ls) by by simplify_list_eq.
  destruct (IH fuel (pre ++ m ++ [0]) (svcs ++ [h]) Hok) as (out & new & Hr & Hnew); [|lia|].
  { intros k Hk. apply Hm. rewrite length_app in Hk. change (services (Service n svc ne np :: ls)) with (svc :: services ls). cbn [length] in *. lia. }
  assert (Heq : (pre ++ m ++ [0]) ++ out = pre ++ m ++ 0 :: out) by by simplify_list_eq.
  exists (m ++ 0 :: out), (h :: new). rewrite Hr, Heq in *. rewrite <- app_assoc. split; [done|].
  change (services (Service n svc ne np :: ls)) with (svc :: services ls). cbn [map]. by rewrite Hh, Hnew.
Qed.

(** ** The file *)

Lemma no_text ls : conf_text ls = [] → services ls = [].
Proof.
  destruct ls as [|l [|l' ls]]; [done| |].
  - cbn [conf_text]. destruct l as [n|n text|n svc ne np]; [done|done|]. intros Hbad. rewrite service_text in Hbad.
    by apply app_eq_nil in Hbad as [_ [_ Hbad]%app_eq_nil].
  - change (conf_text (l :: l' :: ls)) with (line_text l ++ NEWLINE :: conf_text (l' :: ls)).
    intros [_ Hbad]%app_eq_nil. discriminate Hbad.
Qed.

Lemma parse_buffer malloc ls :
  ls ≠ [] → Forall line_ok ls → (∀ k, (k < length (services ls))%nat → malloc k = true) →
  ∃ buf svcs, svchost_parse_conf malloc (buffer_of ls) = Ok (buf, svcs) ∧ map (service_of buf) svcs = services ls.
Proof.
  intros Hne Hok Hm. destruct (conf_loop_spec malloc ls (S (length (buffer_of ls))) [] [] Hok) as (buf & svcs & Hr & Hs).
  { exact Hm. } { lia. } by exists buf, svcs.
Qed.

Lemma parse_lines malloc ls :
  ls ≠ [] → Forall line_ok ls → (∀ k, (k < length (services ls))%nat → malloc k = true) →
  ∃ r, svchost_parse malloc (Some (conf_text ls)) = Ok r ∧
    match r with
    | None => services ls = []
    | Some (svcs, buf) => services ls ≠ [] ∧ map (service_of buf) svcs = services ls
    end.
Proof.
  intros Hne Hok Hm.
  destruct (parse_buffer malloc ls Hne Hok Hm) as (buf & svcs & Hr & Hs). unfold svchost_parse, svchost_parse_read_conf.
  destruct (conf_text ls) as [|c text] eqn:Et; [exists None; split; [done|by apply no_text]|].
  rewrite <- Et, (buffer_of_text _ Hne), check_conf_spec by (done || lia). unfold mbind, res_bind.
  change (0 <? 0) with false. cbv iota. rewrite Hr. destruct svcs as [|h svcs].
  - by exists None.
  - eexists. split; [done|]. by rewrite <- Hs.
Qed.

(** *** Files as they are written

    The fields of a service are bare words here, without a blank at either
    end; the blanks around them are given apart. *)
Record blanks_around := {
  before_path : nat; after_path : nat; before_entry : nat; after_entry : nat; before_param : nat; after_param : nat }.
Inductive file_line :=
| Empty_line (n : nat)
| Comment_line (n : nat) (text : cstr)
| Service_line (svc : svc_line) (around : blanks_around).

Definition bare (stop : list Z) (s : cstr) : Prop := word stop s ∧ last s ≠ Some BLANK.
Definition file_line_ok (l : file_line) : Prop :=
  match l with
  | Empty_line _ => True
  | Comment_line _ text => Forall (λ c, char_ok c ∧ c ≠ NEWLINE) text
  | Service_line svc _ =>
      bare [COLON] (l_path svc) ∧ head (l_path svc) ≠ Some 35 ∧ bare [COLON] (l_entry svc) ∧
      match l_param svc with Some p => bare [] p | None => True end
  end.

Definition file_line_text (l : file_line) : cstr :=
  match l with
  | Empty_line n => spaces n
  | Comment_line n text => spaces n ++ 35 :: text
  | Service_line svc b =>
      spaces (before_path b) ++ l_path svc ++ spaces (after_path b) ++ COLON ::
      spaces (before_entry b) ++ l_entry svc ++ spaces (after_entry b) ++
      match l_param svc with Some p => COLON :: spaces (before_param b) ++ p ++ spaces (after_param b) | None => [] end
  end.
Fixpoint file_text (ls : list file_line) : cstr :=
  match ls with
  | [] => []
  | [l] => file_line_text l
  | l :: ls' => file_line_text l ++ NEWLINE :: file_text ls'
  end.

(** What the parser makes of a service: the blanks before a field are left
    out, those after it are part of it. *)
Definition kept (svc : svc_line) (b : blanks_around) : svc_line :=
  {| l_path := l_path svc ++ spaces (after_path b); l_entry := l_entry svc ++ spaces (after_entry b);
     l_param := (λ p, p ++ spaces (after_param b)) <$> l_param svc |}.
Definition file_services (ls : list file_line) : list svc_line :=
  omap (λ l, match l with Service_line svc b => Some (kept svc b) | _ => None end) ls.

Definition plain_line (l : file_line) : conf_line :=
  match l with
  | Empty_line n => Blank n
  | Comment_line n text => Comment n text
  | Service_line svc b => Service (before_path b) (kept svc b) (before_entry b) (before_param b)
  end.
Lemma plain_line_text l : line_text (plain_line l) = file_line_text l.
Proof. destruct l as [| |[p e [q|]] b]; [done..| |]; cbn; by rewrite <- ?app_assoc, ?app_nil_r. Qed.
Lemma plain_text ls : conf_text (map plain_line ls) = file_text ls.
Proof.
  induction ls as [|l [|l' ls] IH]; [done|apply plain_line_text|].
  change (line_text (plain_line l) ++ NEWLINE :: conf_text (map plain_line (l' :: ls))
          = file_line_text l ++ NEWLINE :: file_text (l' :: ls)). by rewrite plain_line_text, IH.
Qed.
Lemma plain_services ls : services (map plain_line ls) = file_services ls.
Proof. induction ls as [|l ls IH]; [done|]. unfold services, file_services in *. destruct l; cbn; by rewrite IH. Qed.

Lemma word_trail stop s n : BLANK ∉ stop → word stop s → word stop (s ++ spaces n).
Proof.
  intros Hb (Hh & Hne & Hs). destruct s as [|c s]; [done|]. split; [exact Hh|]. split; [done|].
  apply Forall_app. split; [exact Hs|]. apply Forall_replicate. by split; [unfold char_ok; lia|].
Qed.
Lemma plain_line_ok l : file_line_ok l → line_ok (plain_line l).
Proof.
  destruct l as [n|n text|[p e o] b]; [done..|]. intros ([Hp _] & H35 & [He _] & Ho).
  assert (Hcol : BLANK ∉ [COLON]) by (intros Hin%list_elem_of_singleton; discriminate Hin).
  split; [by apply word_trail|]. split; [destruct p; [by destruct Hp as (_ & [] & _)|done]|]. split; [by apply word_trail|].
  destruct o as [q|]; [|done]. destruct Ho as [Hq _]. apply word_trail; [apply not_elem_of_nil|exact Hq].
Qed.

(** C22: A configuration file made of empty lines, comments and services
    [path:entry] or [path:entry:param], with any number of blanks around each
    part, is read, when memory suffices, as its services in the file's order,
    and the pointers of the services reach them in the buffer the parser has
    cut up.  Each part is read from its first character that is not a blank up
    to the colon or the end of the line: the blanks before it are dropped, those
    after it are kept.  So the services are as they are written when no blank
    stands behind a part; of [ibso.so : init : aaaa], the format given in the
    source's comment, the path is read with a blank at its end.  A file without
    a service gives no list. *)
Theorem svchost_parse_reads_services malloc ls
  (Hne : ls ≠ []) (Hok : Forall file_line_ok ls) (Hm : ∀ k, (k < length (file_services ls))%nat → malloc k = true) :
  ∃ r, svchost_parse malloc (Some (file_text ls)) = Ok r ∧
    match r with
    | None => file_services ls = []
    | Some (svcs, buf) => file_services ls ≠ [] ∧ map (service_of buf) svcs = file_services ls
    end.
Proof.
  rewrite <- plain_text. rewrite <- plain_services in *. apply parse_lines; [by destruct ls| |exact Hm].
  apply Forall_map. eapply Forall_impl; [exact Hok|]. apply plain_line_ok.
Qed.

Definition demo_svc : svc_line := {| l_path := cs "libwan.so"; l_entry := cs "svc_wan_main"; l_param := None |}.
Definition no_blanks : blanks_around :=
  {| before_path := 0; after_path := 0; before_entry := 0; after_entry := 0; before_param := 0; after_param := 0 |}.
Definition comment_svc : svc_line := {| l_path := cs "ibso.so"; l_entry := cs "init"; l_param := Some (cs "aaaa") |}.
Definition comment_blanks : blanks_around :=
  {| before_path := 0; after_path := 1; before_entry := 1; after_entry := 1; before_param := 1; after_param := 0 |}.
Definition demo_conf : list file_line :=
  [Comment_line 0 (cs " services"); Service_line demo_svc no_blanks; Empty_line 2; Service_line comment_svc comment_blanks].

Example demo_conf_text :
  file_text demo_conf = cs "# services" ++ NEWLINE :: cs "libwan.so:svc_wan_main" ++ NEWLINE :: cs "  " ++ NEWLINE :: cs "ibso.so : init : aaaa".
Proof. reflexivity. Qed.
Example demo_conf_services :
  file_services demo_conf
  = [demo_svc; {| l_path := cs "ibso.so "; l_entry := cs "init "; l_param := Some (cs "aaaa") |}].
Proof. reflexivity. Qed.

#[export] Instance bare_dec stop s : Decision (bare stop s).
Proof. unfold bare, word, char_ok. apply _. Defined.
Lemma demo_conf_ok : Forall file_line_ok demo_conf.
Proof. repeat (apply Forall_cons; split; [|]); [..|by apply Forall_nil_2]; cbn; split_and?; try done; by_compute. Qed.

Example svchost_parse_reads_services_witness :
  ∃ r, svchost_parse (λ _, true) (Some (file_text demo_conf)) = Ok r ∧
    match r with
    | None => file_services demo_conf = []
    | Some (svcs, buf) => file_services demo_conf ≠ [] ∧ map (service_of buf) svcs = file_services demo_conf
    end.
Proof. apply (svchost_parse_reads_services (λ _, true) demo_conf); [discriminate|exact demo_conf_ok|done]. Defined.


(** ** Whatever the file holds *)

Lemma blanks_total l : ended l → ∃ n c, blanks l = Ok n ∧ l !! n = Some c ∧ c ≠ BLANK.
Proof.
  induction l as [|c l IH]; [done|]. intros He. cbn [blanks]. destruct (c =? BLANK) eqn:E.
  - destruct l as [|c' l]; [injection He as ->; done|]. destruct (IH He) as (n & d & Hn & Hd). rewrite Hn. by exists (S n), d.
  - exists 0%nat, c. split; [done|]. split; [done|]. by apply Z.eqb_neq.
Qed.
Lemma to_end_total l : ended l → ∃ n, to_end l = Ok n ∧ (n < length l)%nat.
Proof.
  induction l as [|c l IH]; [done|]. intros He. cbn [to_end]. destruct ((c =? 0) || (c =? NEWLINE)) eqn:E.
  - exists 0%nat. split; [done|]. simpl. lia.
  - destruct l as [|c' l]; [injection He as ->; done|]. destruct (IH He) as (n & Hn & Hl). rewrite Hn.
    exists (S n). split; [done|]. simpl in *. lia.
Qed.

Lemma get_line_total buf : ended buf → ∃ s e, svchost_parse_get_line buf = Ok (s, e) ∧ (e < length buf)%nat.
Proof.
  intros He. destruct (blanks_total buf He) as (s & c & Hs & Hc & _). apply lookup_lt_Some in Hc as Hl.
  destruct (to_end_total (drop s buf)) as (t & Ht & Hlt); [by apply ended_drop|]. rewrite length_drop in Hlt.
  unfold svchost_parse_get_line. rewrite Hs. unfold mbind, res_bind. rewrite Ht, Hc. cbn [deref].
  eexists _, _. split; [done|]. lia.
Qed.

Lemma check_conf_total fuel : ∀ buf,
  ended buf ∨ buf = [] → (length buf < fuel)%nat → ∃ r, svchost_parse_check_conf fuel buf = Ok r.
Proof.
  induction fuel as [|fuel IH]; intros buf Hb Hf; [lia|]. cbn [svchost_parse_check_conf].
  destruct buf as [|c l]; [by eexists|]. destruct Hb as [He|Hbad]; [|discriminate Hbad].
  destruct (get_line_total _ He) as (s & e & Hg & Hlt). rewrite Hg. unfold mbind, res_bind.
  assert (Hr : ∃ r, (if negb (s =? e)%nat then svchost_parse_check_line (c :: l) e else mret 0) = Ok r).
  { rewrite check_line_ended by done. destruct (negb _); by eexists. }
  destruct Hr as [r Hr]. rewrite Hr. destruct (r <? 0); [by eexists|]. apply IH; [|rewrite length_drop; simpl in *; lia].
  destruct (decide (S e < length (c :: l))%nat); [left; by apply ended_drop|right; apply drop_ge; lia].
Qed.

Lemma conf_loop_total malloc fuel : ∀ buf tmp svcs,
  ended buf → Forall (in_buffer (length buf)) svcs → (length buf - tmp < fuel)%nat →
  ∃ buf' svcs', conf_loop malloc fuel buf tmp svcs = Ok (buf', svcs') ∧
    length buf' = length buf ∧ ended buf' ∧ Forall (in_buffer (length buf)) svcs'.
Proof.
  induction fuel as [|fuel IH]; intros buf tmp svcs He Hs Hf; [lia|]. cbn [conf_loop].
  destruct (tmp <? length buf)%nat eqn:Et; [|by exists buf, svcs]. apply Nat.ltb_lt in Et.
  destruct (get_line_total _ (ended_drop tmp buf He Et)) as (s & e & Hg & Hlt). rewrite length_drop in Hlt.
  rewrite Hg. unfold mbind, res_bind. destruct (negb _).
  - destruct (alloc_svc_ended malloc (length svcs) buf tmp e He ltac:(lia)) as [Hrun Ha]. rewrite Hrun.
    destruct (made_svc _ _ _ _ _) as [buf' [h|]]; destruct Ha as (He' & Hl & Hh).
    + rewrite <- Hl in *. apply IH; [done| |lia]. apply Forall_app. split; [done|by apply Forall_singleton].
    + by exists buf', [].
  - apply IH; [done|done|lia].
Qed.

(** C23: Whatever bytes the configuration file holds, embedded NULs and
    malformed lines included, and whatever allocations fail, the parser
    returns: no read and no write leaves the buffer, each of them being a fault
    in the model.  Each pointer of each service it gives lies in that buffer,
    which ends in a NUL. *)
Theorem svchost_parse_safe malloc file :
  ∃ r, svchost_parse malloc file = Ok r ∧
    match r with
    | None => True
    | Some (svcs, buf) => svcs ≠ [] ∧ ended buf ∧ Forall (in_buffer (length buf)) svcs ∧
                          option_map S (length <$> file) = Some (length buf)
    end.
Proof.
  unfold svchost_parse, svchost_parse_read_conf. destruct file as [[|c text]|]; [by exists None| |by exists None].
  set (buf := (c :: text) ++ [0]). assert (He : ended buf) by apply last_snoc.
  destruct (check_conf_total (S (length buf)) buf) as [r Hr]; [by left|lia|]. rewrite Hr. unfold mbind, res_bind.
  destruct (r <? 0); [by exists None|]. unfold svchost_parse_conf.
  destruct (conf_loop_total malloc (S (length buf)) buf 0 [] He) as (buf' & svcs & Hc & Hl & He' & Hs); [by constructor|lia|].
  rewrite Hc. destruct svcs as [|h svcs]; [by exists None|]. eexists. split; [done|]. split; [done|]. rewrite Hl.
  split; [done|]. split; [done|]. unfold buf. cbn [fmap option_fmap option_map]. rewrite length_app. simpl. do 2 f_equal. lia.
Qed.

(** A file with a NUL between two lines, and no end of line. *)
Lemma svchost_parse_safe_witness :
  ∃ svcs buf, svchost_parse (λ _, true) (Some (cs "a.so:run" ++ [0; 98; 58; 99])) = Ok (Some (svcs, buf)) ∧
    length buf = 13%nat ∧ Forall (in_buffer 13) svcs.
Proof.
  destruct (svchost_parse_safe (λ _, true) (Some (cs "a.so:run" ++ [0; 98; 58; 99]))) as (r & Hr & Hin).
  destruct r as [[svcs buf]|]; [|vm_compute in Hr; discriminate Hr].
  destruct Hin as (_ & _ & Hin & Hlen). change (Some 13%nat = Some (length buf)) in Hlen. injection Hlen as Hlen.
  exists svcs, buf. split; [exact Hr|]. rewrite <- Hlen in Hin. split; [symmetry; exact Hlen|exact Hin].
Defined.
End SvcParse.
