(* ===== verification/SvcHost.v ===== *)
(** * The service host ([svchost/svchost_loop.c], [svchost/svchost_api.c])

    One process loads the services named in its configuration, registers
    each as an object on the message bus, passes messages on to the
    functions the service has registered, and unloads services on request.
    Services know the host's records as an opaque type: they change them
    with [svchost_reg_method] and [svchost_reg_event] only.

    The dynamic loader, the bus ([libubus]) and the functions of the services
    are parameters, the class [Externs]. *)

From stdpp Require Import gmap.
From S2P Require Import Prelude CString.
Open Scope Z_scope.

Module SvcHost.

(** ** Data *)

(** Addresses: of functions, of services, of strings, of loaded libraries. *)
Abbreviation fptr := nat.
Abbreviation sptr := nat.

(** A [char*]: a literal of the host, or a string in a service's memory. *)
Inductive char_ptr :=
| Lit (s : cstr)
| Mem (a : nat).

Record host_service_intf := {
  id : Z; intf_flag : Z;
  start : option fptr; stop : option fptr; status : option fptr; init : option fptr
}.

Record host_service_method := { meth_name : option char_ptr; method : option fptr }.
Record host_service_event := { event_name : option char_ptr; event_fn : option fptr }.

(** The two functions the host hands to the bus. *)
Inductive hook := Intf_hook | Handle_hook.
Record ubus_method := { name : option char_ptr; handler : option hook }.

(** The fields of [ubus_object] the host sets; [methods] says whether they
    point to [inner_meth]. *)
Record ubus_object := { obj_id : Z; methods : bool; n_methods : Z }.

(** [env] says whether the pointer to the one [host_run_env] is set. *)
Record host_service := {
  path : cstr; entry : cstr; param : option cstr;
  intf : option host_service_intf; env : bool; flag : Z; handle : option nat;
  meth_cnt : Z; meth : option (list host_service_method);
  evt_cnt : Z; event : option (list host_service_event);
  next : option sptr;
  inner_obj : ubus_object; inner_cnt : Z; inner_meth : list ubus_method
}.

Abbreviation HOST_SERVICE_METHOD_MAX := 512.
Abbreviation SVCHOST_FLAG_REGISTERED := (2 ^ 16).
Abbreviation SVCHOST_FLAG_REQUNLOAD := (2 ^ 17).
Abbreviation UBUS_STATUS_METHOD_NOT_FOUND := 3.

(** The services allocated, the fields of the one [host_run_env], the strings
    in the services' memory, and the rest of the world. *)
Record host {U : Type} := {
  svcs : gmap sptr host_service;
  env_svc : option sptr; ctx : bool; nsvc : Z;
  strs : gmap nat cstr;
  world : U
}.
Arguments host : clear implicits.

(** What the host calls and the repository has no source of, or calls
    through pointers. *)
Class Externs (U : Type) := {
  dlopen : cstr → U → option nat * U;
  dlsym : nat → cstr → option fptr;
  dlclose : nat → U → U;
  call_entry : fptr → option cstr → U → res (option host_service_intf * U);
  ubus_connect : U → bool * U;
  ubus_free : U → U;
  uloop_init : U → Z * U;
  uloop_done : U → U;
  uloop_cancelled : U → bool;
  usleep : U → U;
  ubus_add_object : sptr → ubus_object → U → Z * U;
  ubus_remove_object : sptr → U → U;
  ubus_register_event_handler : sptr → cstr → U → Z * U;
  (** [start], [stop] and [init] of a service. *)
  call_svc : fptr → sptr → M (host U) Z;
  call_status : fptr → M (host U) Z;
  (** A method or an event function, with the name and content of the message. *)
  call_meth : fptr → sptr → cstr → list Z → M (host U) Z;
  (** Waits for messages and runs the hooks they call for. *)
  ubus_loop_poll : M (host U) Z
}.

(** Updates of one field. *)
Definition set_intf i s := {| path := path s; entry := entry s; param := param s; intf := i; env := env s; flag := flag s;
  handle := handle s; meth_cnt := meth_cnt s; meth := meth s; evt_cnt := evt_cnt s; event := event s; next := next s;
  inner_obj := inner_obj s; inner_cnt := inner_cnt s; inner_meth := inner_meth s |}.
Definition set_env s := {| path := path s; entry := entry s; param := param s; intf := intf s; env := true; flag := flag s;
  handle := handle s; meth_cnt := meth_cnt s; meth := meth s; evt_cnt := evt_cnt s; event := event s; next := next s;
  inner_obj := inner_obj s; inner_cnt := inner_cnt s; inner_meth := inner_meth s |}.
Definition set_flag f s := {| path := path s; entry := entry s; param := param s; intf := intf s; env := env s; flag := f;
  handle := handle s; meth_cnt := meth_cnt s; meth := meth s; evt_cnt := evt_cnt s; event := event s; next := next s;
  inner_obj := inner_obj s; inner_cnt := inner_cnt s; inner_meth := inner_meth s |}.
Definition set_handle d s := {| path := path s; entry := entry s; param := param s; intf := intf s; env := env s; flag := flag s;
  handle := d; meth_cnt := meth_cnt s; meth := meth s; evt_cnt := evt_cnt s; event := event s; next := next s;
  inner_obj := inner_obj s; inner_cnt := inner_cnt s; inner_meth := inner_meth s |}.
Definition set_next o s := {| path := path s; entry := entry s; param := param s; intf := intf s; env := env s; flag := flag s;
  handle := handle s; meth_cnt := meth_cnt s; meth := meth s; evt_cnt := evt_cnt s; event := event s; next := o;
  inner_obj := inner_obj s; inner_cnt := inner_cnt s; inner_meth := inner_meth s |}.
Definition set_meth n m s := {| path := path s; entry := entry s; param := param s; intf := intf s; env := env s; flag := flag s;
  handle := handle s; meth_cnt := n; meth := m; evt_cnt := evt_cnt s; event := event s; next := next s;
  inner_obj := inner_obj s; inner_cnt := inner_cnt s; inner_meth := inner_meth s |}.
Definition set_event n e s := {| path := path s; entry := entry s; param := param s; intf := intf s; env := env s; flag := flag s;
  handle := handle s; meth_cnt := meth_cnt s; meth := meth s; evt_cnt := n; event := e; next := next s;
  inner_obj := inner_obj s; inner_cnt := inner_cnt s; inner_meth := inner_meth s |}.
Definition set_inner o n l s := {| path := path s; entry := entry s; param := param s; intf := intf s; env := env s; flag := flag s;
  handle := handle s; meth_cnt := meth_cnt s; meth := meth s; evt_cnt := evt_cnt s; event := event s; next := next s;
  inner_obj := o; inner_cnt := n; inner_meth := l |}.

Section host.
Context `{Externs U}.
Abbreviation HM := (M (host U)).

Definition with_svcs (m : gmap sptr host_service) (h : host U) : host U :=
  {| svcs := m; env_svc := env_svc h; ctx := ctx h; nsvc := nsvc h; strs := strs h; world := world h |}.
Definition with_env (o : option sptr) (c : bool) (n : Z) (h : host U) : host U :=
  {| svcs := svcs h; env_svc := o; ctx := c; nsvc := n; strs := strs h; world := world h |}.
Definition with_world (m : gmap nat cstr) (w : U) (h : host U) : host U :=
  {| svcs := svcs h; env_svc := env_svc h; ctx := ctx h; nsvc := nsvc h; strs := m; world := w |}.

(** Reading a service, changing it, and giving it back: after [free] the
    address reads no more. *)
Definition fetch (p : sptr) : HM host_service := s ← gets (λ h, svcs h !! p); lift (deref s).
Definition put (p : sptr) (f : host_service → host_service) : HM unit :=
  s ← fetch p; modify (λ h, with_svcs (<[p := f s]> (svcs h)) h).
Definition free (p : sptr) : HM unit := _ ← fetch p; modify (λ h, with_svcs (delete p (svcs h)) h).

(** [svc->env], whose record the host has one of. *)
Definition host_env (p : sptr) : HM unit := s ← fetch p; lift (if env s then Ok tt else Fault).
Definition set_nsvc (f : Z → Z) : HM unit := modify (λ h, with_env (env_svc h) (ctx h) (f (nsvc h)) h).
Definition set_env_svc (o : option sptr) : HM unit := modify (λ h, with_env o (ctx h) (nsvc h) h).

(** A call into the world. *)
Definition world_call {A} (f : U → A * U) : HM A := λ h, let '(a, w) := f (world h) in Ok (a, with_world (strs h) w h).

Definition read_str (c : char_ptr) : HM cstr :=
  match c with
  | Lit s => mret s
  | Mem a => s ← gets (λ h, strs h !! a); lift (deref s)
  end.
(** [tmp->name[len-1] = 0]: a literal cannot be written. *)
Definition cut_last (c : char_ptr) : HM unit :=
  match c with
  | Lit _ => lift Fault
  | Mem a => s ← read_str c; modify (λ h, with_world (<[a := removelast s]> (strs h)) (world h) h)
  end.

(** A write into [inner_meth]. *)
Definition put_inner (p : sptr) (k : Z) (f : ubus_method → ubus_method) : HM unit :=
  s ← fetch p;
  if (0 <=? k) && (k <? zlen (inner_meth s)) then
    put p (λ s, set_inner (inner_obj s) (inner_cnt s) (alter f (Z.to_nat k) (inner_meth s)) s)
  else lift Fault.

(** ** The interface for services *)

Fixpoint meth_loop (p : sptr) (ptr : list host_service_method) (n : nat) (k : Z) : HM Z :=
  match n, ptr with
  | O, _ => mret k
  | S _, [] => lift Fault
  | S n', tmp :: ptr' =>
      match meth_name tmp, method tmp with
      | Some c, Some _ =>
          s ← read_str c;
          if strlen s =? 0 then meth_loop p ptr' n' k
          else
            put_inner p k (λ m, {| name := Some c; handler := handler m |});;
            meth_loop p ptr' n' (k + 1)
      | _, _ => meth_loop p ptr' n' k
      end
  end.

Definition svchost_reg_method (p : sptr) (ptr : list host_service_method) (n : Z) : HM Z :=
  s ← fetch p;
  if bool_decide (is_Some (meth s)) || (0 <? meth_cnt s) then mret n
  else if HOST_SERVICE_METHOD_MAX <=? s32 (inner_cnt s + n) then mret (-1)
  else
    k ← meth_loop p ptr (Z.to_nat n) (inner_cnt s);
    let ret := k - inner_cnt s in
    if negb (ret =? n) then mret 0
    else
      put p (λ s, set_meth n (Some ptr)
                    (set_inner {| obj_id := obj_id (inner_obj s); methods := methods (inner_obj s); n_methods := k |}
                       k (inner_meth s) s));;
      mret ret.

Definition STAR : Z := 42.

Fixpoint event_loop (p : sptr) (ptr : list host_service_event) (n : nat) (k : Z) : HM Z :=
  match n, ptr with
  | O, _ => mret k
  | S _, [] => lift Fault
  | S n', tmp :: ptr' =>
      match event_name tmp, event_fn tmp with
      | Some c, Some _ =>
          s ← read_str c;
          if strlen s =? 0 then event_loop p ptr' n' k
          else
            host_env p;;
            ret ← world_call (ubus_register_event_handler p s);
            if negb (ret =? 0) then event_loop p ptr' n' k
            else
              put_inner p k (λ m, {| name := Some c; handler := handler m |});;
              (if bool_decide (last s = Some STAR) then cut_last c else mret tt);;
              event_loop p ptr' n' (k + 1)
      | _, _ => event_loop p ptr' n' k
      end
  end.

Definition svchost_reg_event (p : sptr) (ptr : list host_service_event) (n : Z) : HM Z :=
  s ← fetch p;
  if bool_decide (is_Some (event s)) || (0 <? evt_cnt s) then mret n
  else if HOST_SERVICE_METHOD_MAX <=? s32 (inner_cnt s + n) then mret (-1)
  else
    k ← event_loop p ptr (Z.to_nat n) (inner_cnt s);
    let ret := k - inner_cnt s in
    if negb (ret =? n) then mret 0
    else
      put p (λ s, set_event n (Some ptr)
                    (set_inner {| obj_id := obj_id (inner_obj s); methods := methods (inner_obj s); n_methods := k |}
                       k (inner_meth s) s));;
      mret ret.

(** ** Messages *)

(** The function of the first method called [method]. *)
Fixpoint find_method (tbl : list host_service_method) (n : nat) (m : cstr) : HM (option fptr) :=
  match n, tbl with
  | O, _ => mret None
  | S _, [] => lift Fault
  | S n', t :: tbl' =>
      c ← lift (deref (meth_name t));
      s ← read_str c;
      if streq s m then f ← lift (deref (method t)); mret (Some f) else find_method tbl' n' m
  end.
Fixpoint find_event (tbl : list host_service_event) (n : nat) (m : cstr) : HM (option fptr) :=
  match n, tbl with
  | O, _ => mret None
  | S _, [] => lift Fault
  | S n', t :: tbl' =>
      c ← lift (deref (event_name t));
      s ← read_str c;
      if (strlen s =? 0) || streq s m then f ← lift (deref (event_fn t)); mret (Some f) else find_event tbl' n' m
  end.

(** A table behind a pointer: reading from a null pointer is a fault, unless
    nothing is read. *)
Definition table {A} (o : option (list A)) : list A := from_option (λ l, l) [] o.

(** [msg] is the content of the message, copied into a buffer of its own. *)
Definition svchost_meth_handle_hook (p : sptr) (m : cstr) (msg : list Z) : HM Z :=
  s ← fetch p;
  f ← find_method (table (meth s)) (Z.to_nat (meth_cnt s)) m;
  match f with
  | Some f => call_meth f p m msg
  | None =>
      g ← find_event (table (event s)) (Z.to_nat (evt_cnt s)) m;
      match g with
      | Some g => call_meth g p m msg
      | None => mret UBUS_STATUS_METHOD_NOT_FOUND
      end
  end.

(** The state is read and printed. *)
Definition svchost_dump_svc (p : sptr) : HM Z :=
  s ← fetch p;
  _ ← lift (deref (intf s));
  mret 0.

Definition svchost_meth_intf_hook (p : sptr) (m : cstr) : HM Z :=
  s ← fetch p;
  let intf_of := lift (deref (intf s)) : HM host_service_intf in
  b ← (if is_prefix (cs "__start") m then i ← intf_of; mret (start i) else mret None);
  match b with
  | Some f => call_svc f p
  | None =>
      b ← (if is_prefix (cs "__stop") m then i ← intf_of; mret (stop i) else mret None);
      match b with
      | Some f => call_svc f p
      | None =>
          if is_prefix (cs "__statu") m then
            i ← intf_of;
            match status i with Some f => call_status f | None => svchost_dump_svc p end
          else if is_prefix (cs "__unload") m then
            put p (λ s, set_flag (Z.lor (flag s) SVCHOST_FLAG_REQUNLOAD) s);; mret 0
          else mret UBUS_STATUS_METHOD_NOT_FOUND
      end
  end.

(** ** Loading *)

Fixpoint check_loop (fuel : nat) (p : sptr) (i : Z) (tmp : option sptr) : HM Z :=
  match tmp with
  | None => mret 0
  | Some q =>
      match fuel with
      | O => out_of_fuel
      | S fuel' =>
          t ← fetch q;
          if negb (bool_decide (q = p)) && from_option (λ j, id j =? i) false (intf t) then mret (-1)
          else check_loop fuel' p i (next t)
      end
  end.

Definition svchost_check_svc (p : sptr) : HM Z :=
  s ← fetch p;
  host_env p;;
  tmp ← gets env_svc;
  match intf s with
  | None => mret (-1)
  | Some i =>
      if bool_decide (start i = None) || bool_decide (stop i = None) || (id i =? 0) then mret (-1)
      else
        n ← gets (λ h, size (svcs h));
        check_loop n p (id i) tmp
  end.

Definition svchost_load_lib (p : sptr) : HM Z :=
  s ← fetch p;
  d ← world_call (dlopen (path s));
  put p (set_handle d);;
  match d with
  | None => mret (-1)
  | Some lib =>
      match dlsym lib (entry s) with
      | None => mret (-1)
      | Some f =>
          h ← gets world;
          r ← lift (call_entry f (param s) h);
          world_call (λ _, r) ≫= λ i,
          put p (set_intf i);;
          match i with
          | None => mret (-1)
          | Some i => put p (set_flag (s32 (intf_flag i)));; mret 0
          end
      end
  end.

Definition meth_names : list cstr := [cs "__start"; cs "__stop"; cs "__status"; cs "__unload"].

(** The table of a service when it is registered. *)
Definition fill_inner (l : list ubus_method) : list ubus_method :=
  map (λ s, {| name := Some (Lit s); handler := Some Intf_hook |}) meth_names ++
  map (λ m, {| name := name m; handler := Some Handle_hook |}) (drop (length meth_names) l).

Definition svchost_reg_svc (p : sptr) : HM Z :=
  s ← fetch p;
  i ← lift (deref (intf s));
  put p (λ s, set_inner {| obj_id := id i; methods := true; n_methods := zlen meth_names |} (zlen meth_names)
                (fill_inner (inner_meth s)) s);;
  host_env p;;
  s ← fetch p;
  r ← world_call (ubus_add_object p (inner_obj s));
  if negb (r =? 0) then mret (-1)
  else
    put p (λ s, set_flag (Z.lor (flag s) SVCHOST_FLAG_REGISTERED) s);;
    set_nsvc (λ n, n + 1);;
    match init i with
    | Some f => _ ← call_svc f p; mret 0
    | None => mret 0
    end.

Fixpoint start_loop (fuel : nat) (tmp : option sptr) : HM Z :=
  match tmp with
  | None => mret 0
  | Some p =>
      match fuel with
      | O => out_of_fuel
      | S fuel' =>
          s ← fetch p;
          (if Z.testbit (flag s) 0 then
             i ← lift (deref (intf s));
             f ← lift (deref (start i));
             call_svc f p
           else mret 0);;
          s ← fetch p;
          start_loop fuel' (next s)
      end
  end.
Definition svchost_auto_start : HM Z :=
  svc ← gets env_svc;
  n ← gets (λ h, size (svcs h));
  start_loop n svc.

Fixpoint init_loop (fuel : nat) (tmp : option sptr) : HM Z :=
  match tmp with
  | None => mret 0
  | Some p =>
      match fuel with
      | O => out_of_fuel
      | S fuel' =>
          r ← svchost_load_lib p;
          if r <? 0 then mret (-1) else
          r ← svchost_check_svc p;
          if r <? 0 then mret (-1) else
          r ← svchost_reg_svc p;
          if r <? 0 then mret (-1) else
          s ← fetch p;
          init_loop fuel' (next s)
      end
  end.
Definition svchost_init_lib : HM Z :=
  svc ← gets env_svc;
  n ← gets (λ h, size (svcs h));
  r ← init_loop n svc;
  if r <? 0 then mret (-1)
  else _ ← svchost_auto_start; mret 0.

(** ** Unloading *)

Definition svchost_unreg_svc (p : sptr) : HM Z :=
  put p (λ s, set_inner (inner_obj s) 0 (inner_meth s) s);;
  put p (λ s, set_inner (inner_obj s) (inner_cnt s)
                (take 2 (inner_meth s) ++ map (λ _, {| name := None; handler := None |}) (drop 2 (inner_meth s))) s);;
  host_env p;;
  world_call (λ w, (tt, ubus_remove_object p w));;
  mret 0.

Fixpoint free_loop (fuel : nat) (p tmp : sptr) : HM Z :=
  match fuel with
  | O => out_of_fuel
  | S fuel' =>
      t ← fetch tmp;
      match next t with
      | None => mret 0
      | Some q =>
          if bool_decide (q = p) then
            s ← fetch p;
            put tmp (set_next (next s));;
            free p;;
            mret 1
          else free_loop fuel' p q
      end
  end.
Definition svchost_free_svc (p : sptr) : HM Z :=
  host_env p;;
  tmp ← gets env_svc;
  if bool_decide (tmp = Some p) then
    s ← fetch p;
    set_env_svc (next s);;
    free p;;
    mret 1
  else
    tmp ← lift (deref tmp);
    n ← gets (λ h, size (svcs h));
    free_loop n p tmp.

Definition svchost_unload_svc (p : sptr) : HM Z :=
  s ← fetch p;
  match intf s with
  | Some i => match stop i with Some f => _ ← call_svc f p; mret tt | None => mret tt end
  | None => mret tt
  end;;
  s ← fetch p;
  (if negb (Z.land (flag s) SVCHOST_FLAG_REGISTERED =? 0) then _ ← svchost_unreg_svc p; mret tt else mret tt);;
  s ← fetch p;
  match handle s with Some d => world_call (λ w, (tt, dlclose d w)) | None => mret tt end;;
  put p (set_handle None);;
  host_env p;;
  set_nsvc (λ n, n - 1);;
  _ ← svchost_free_svc p;
  mret 0.

Fixpoint deinit_loop (fuel : nat) (tmp : option sptr) : HM Z :=
  match tmp with
  | None => mret 0
  | Some p =>
      match fuel with
      | O => out_of_fuel
      | S fuel' =>
          _ ← svchost_unload_svc p;
          s ← fetch p;
          deinit_loop fuel' (next s)
      end
  end.
Definition svchost_deinit_lib : HM Z :=
  svc ← gets env_svc;
  n ← gets (λ h, size (svcs h));
  deinit_loop n svc.

Fixpoint unload_loop (fuel : nat) (tmp : option sptr) : HM Z :=
  match tmp with
  | None => mret 0
  | Some p =>
      match fuel with
      | O => out_of_fuel
      | S fuel' =>
          s ← fetch p;
          (if negb (Z.land (flag s) SVCHOST_FLAG_REQUNLOAD =? 0) then svchost_unload_svc p else mret 0);;
          s ← fetch p;
          unload_loop fuel' (next s)
      end
  end.
Definition svchost_check_unload : HM Z :=
  svc ← gets env_svc;
  n ← gets (λ h, size (svcs h));
  unload_loop n svc.

(** ** A run *)

Definition svchost_init_conn : HM Z :=
  c ← world_call ubus_connect;
  modify (λ h, with_env (env_svc h) c (nsvc h) h);;
  mret (if c : bool then 0 else -1).

Definition svchost_deinit_conn : HM Z :=
  c ← gets ctx;
  if c : bool then
    world_call (λ w, (tt, ubus_free w));;
    modify (λ h, with_env (env_svc h) false (nsvc h) h);;
    mret 0
  else mret 0.

Fixpoint env_loop (fuel : nat) (tmp : option sptr) : HM unit :=
  match tmp with
  | None => mret tt
  | Some p =>
      match fuel with
      | O => out_of_fuel
      | S fuel' => put p set_env;; s ← fetch p; env_loop fuel' (next s)
      end
  end.

(** Tries until the bus can be reached, at most [tries] times. *)
Fixpoint conn_loop (tries : nat) : HM unit :=
  match tries with
  | O => out_of_fuel
  | S tries' =>
      r ← svchost_init_conn;
      if r <? 0 then world_call (λ w, (tt, usleep w));; conn_loop tries' else mret tt
  end.

Definition svchost_run_init (tries : nat) : HM Z :=
  tmp ← gets env_svc;
  n ← gets (λ h, size (svcs h));
  env_loop n tmp;;
  r ← world_call uloop_init;
  if r <? 0 then mret (-1)
  else
    conn_loop tries;;
    r ← svchost_init_lib;
    if r <? 0 then mret (-1) else mret 0.

Definition svchost_run_deinit : HM Z :=
  _ ← svchost_deinit_lib;
  _ ← svchost_deinit_conn;
  world_call (λ w, (tt, uloop_done w));;
  mret 0.

(** At most [rounds] rounds of messages. *)
Fixpoint svchost_run_loop (rounds : nat) : HM Z :=
  match rounds with
  | O => out_of_fuel
  | S rounds' =>
      c ← gets (λ h, uloop_cancelled (world h));
      n ← gets nsvc;
      if negb c && (0 <? n) then
        _ ← ubus_loop_poll;
        _ ← svchost_check_unload;
        svchost_run_loop rounds'
      else mret 0
  end.

(** One thread of the host, from the services it is given. *)
Definition svchost_run (tries rounds : nat) (ptr : option sptr) : HM Z :=
  modify (with_env ptr false 0);;
  ret ← svchost_run_init tries;
  (if ret =? 0 then _ ← svchost_run_loop rounds; mret tt else mret tt);;
  _ ← svchost_run_deinit;
  mret 0.
End host.
End SvcHost.
