(* ===== verification/SvcProps.v ===== *)
(** * What the service host guarantees

    The services form a linked list; [ready] says what holds of each once
    the host has started them, [api_step] what a service may do to the
    host's records.  The theorems: starting, messages, unloading. *)

From stdpp Require Import gmap.
From stdpp Require Import relations.
From S2P Require Import Prelude CString SvcHost.
Open Scope Z_scope.

Module SvcProps.
Import SvcHost.

(** ** The tables of a service *)

Definition valid_method (t : host_service_method) : Prop := is_Some (meth_name t) ∧ is_Some (method t).
Definition valid_event (t : host_service_event) : Prop := is_Some (event_name t) ∧ is_Some (event_fn t).

(** The first [n] entries of a table are there and valid. *)
Definition covers {A} (P : A → Prop) (tbl : list A) (n : Z) : Prop :=
  0 ≤ n ≤ zlen tbl ∧ Forall P (take (Z.to_nat n) tbl).

(** The four built-in methods come first; the methods and the events the
    service has registered follow, all handled by the second hook. *)
Record table_ok (s : host_service) : Prop := {
  to_len : length (inner_meth s) = 512%nat;
  to_count : inner_cnt s = 4 + meth_cnt s + evt_cnt s;
  to_max : inner_cnt s < HOST_SERVICE_METHOD_MAX;
  to_obj : n_methods (inner_obj s) = inner_cnt s;
  to_builtin : take 4 (inner_meth s) = map (λ m, {| name := Some (Lit m); handler := Some Intf_hook |}) meth_names;
  to_handlers j m : (4 ≤ j)%nat → inner_meth s !! j = Some m → handler m = Some Handle_hook;
  to_names j m : (4 ≤ j)%nat → Z.of_nat j < inner_cnt s → inner_meth s !! j = Some m → is_Some (name m);
  to_meth : covers valid_method (table (meth s)) (meth_cnt s);
  to_event : covers valid_event (table (event s)) (evt_cnt s)
}.

(** What services cannot change of a record of the host; a service that is not
    loaded yet nobody knows. *)
Record frame (s s' : host_service) : Prop := {
  fr_path : path s' = path s; fr_entry : entry s' = entry s; fr_param : param s' = param s;
  fr_intf : intf s' = intf s; fr_env : env s' = env s; fr_flag : flag s' = flag s;
  fr_handle : handle s' = handle s; fr_next : next s' = next s;
  fr_id : obj_id (inner_obj s') = obj_id (inner_obj s);
  fr_len : length (inner_meth s') = length (inner_meth s);
  fr_table : table_ok s → table_ok s';
  fr_idle : intf s = None → s' = s
}.

#[export] Instance frame_preorder : PreOrder frame.
Proof. split; [by split|]. intros s1 s2 s3 [] []. split; [congruence..|auto|].
  intros Hn. assert (s2 = s1) as -> by auto. auto.
Qed.

Section props.
Context `{Externs U}.
Abbreviation Host := (host U).

Record framed (h h' : Host) : Prop := {
  fd_svcs p : option_Forall2 frame (svcs h !! p) (svcs h' !! p);
  fd_env : env_svc h' = env_svc h; fd_ctx : ctx h' = ctx h; fd_nsvc : nsvc h' = nsvc h
}.

#[export] Instance framed_preorder : PreOrder framed.
Proof.
  split.
  - intros h. split; [intros p; by destruct (svcs h !! p); constructor|done..].
  - intros h1 h2 h3 [H1 E1 C1 N1] [H2 E2 C2 N2]. split; [|congruence..].
    intros p. specialize (H1 p). specialize (H2 p). by etrans.
Qed.

Lemma framed_lookup h h' p s : framed h h' → svcs h !! p = Some s → ∃ s', svcs h' !! p = Some s' ∧ frame s s'.
Proof. intros [Hf _ _ _] Hs. specialize (Hf p). rewrite Hs in Hf. inversion Hf; subst. eauto. Qed.
Lemma framed_None h h' p : framed h h' → svcs h !! p = None → svcs h' !! p = None.
Proof. intros [Hf _ _ _] Hs. specialize (Hf p). rewrite Hs in Hf. by inversion Hf. Qed.

Lemma framed_size h h' : framed h h' → size (svcs h') = size (svcs h).
Proof.
  intros Hf. rewrite <- !size_dom. f_equal. apply set_eq. intros p. rewrite !elem_of_dom. destruct Hf as [Hf _ _ _].
  specialize (Hf p). split; intros [s Hs]; rewrite Hs in Hf; inversion Hf; eauto.
Qed.

Lemma framed_world m w (h : Host) : framed h (with_world m w h).
Proof. split; [|done..]. intros p. by destruct (svcs h !! p) eqn:E; cbn [with_world svcs]; rewrite E; constructor. Qed.

Lemma framed_insert (h : Host) p s s' : svcs h !! p = Some s → frame s s' → framed h (with_svcs (<[p := s']> (svcs h)) h).
Proof.
  intros Hs Hf. split; [|done..]. intros q. cbn [with_svcs svcs]. destruct (decide (p = q)) as [<-|Hne].
  - rewrite lookup_insert_eq, Hs. by constructor.
  - rewrite lookup_insert_ne by done. by destruct (svcs h !! q); constructor.
Qed.

(** ** Steps of the state *)

Lemma fetch_Ok (h : Host) p s : svcs h !! p = Some s → fetch p h = Ok (s, h).
Proof. intros Hs. unfold fetch, gets, mbind, M_bind. by rewrite Hs. Qed.
Lemma fetch_inv (h h' : Host) p s : fetch p h = Ok (s, h') → svcs h !! p = Some s ∧ h' = h.
Proof. unfold fetch, gets, mbind, M_bind, lift, deref. destruct (svcs h !! p); intros Hr; simplify_eq. done. Qed.
Lemma fetch_Fault (h : Host) p : svcs h !! p = None → fetch p h = Fault.
Proof. intros Hs. unfold fetch, gets, mbind, M_bind. by rewrite Hs. Qed.
Lemma put_Ok (h : Host) p s f : svcs h !! p = Some s → put p f h = Ok (tt, with_svcs (<[p := f s]> (svcs h)) h).
Proof. intros Hs. unfold put. by step_by (fetch_Ok _ _ _ Hs). Qed.
Lemma host_env_Ok (h : Host) p s : svcs h !! p = Some s → env s = true → host_env p h = Ok (tt, h).
Proof. intros Hs He. unfold host_env. step_by (fetch_Ok _ _ _ Hs). by rewrite He. Qed.

Lemma put_inner_inv (h h' : Host) p k f s u :
  svcs h !! p = Some s → put_inner p k f h = Ok (u, h') →
  0 ≤ k < zlen (inner_meth s) ∧
  h' = with_svcs (<[p := set_inner (inner_obj s) (inner_cnt s) (alter f (Z.to_nat k) (inner_meth s)) s]> (svcs h)) h.
Proof.
  intros Hs. unfold put_inner. step_by (fetch_Ok _ _ _ Hs). destruct (_ && _) eqn:E; [|intros Hr; discriminate Hr].
  rewrite (put_Ok _ _ _ _ Hs). intros [= <- <-]. split; [zify_bool; lia|done].
Qed.

(** ** Registration *)

Definition inner_to (s : host_service) (l : list ubus_method) : host_service := set_inner (inner_obj s) (inner_cnt s) l s.

(** Entries [k] to [k'] have been given names. *)
Record filled (l l' : list ubus_method) (k k' : Z) : Prop := {
  fi_len : length l' = length l;
  fi_handlers : map handler l' = map handler l;
  fi_out j : Z.of_nat j < k ∨ k' ≤ Z.of_nat j → l' !! j = l !! j;
  fi_in j m : k ≤ Z.of_nat j < k' → l' !! j = Some m → is_Some (name m)
}.

Record reg_run (p : sptr) (s : host_service) (k k' : Z) (l' : list ubus_method) (h h' : Host) : Prop := {
  rr_svcs : svcs h' = <[p := inner_to s l']> (svcs h);
  rr_env : env_svc h' = env_svc h; rr_ctx : ctx h' = ctx h; rr_nsvc : nsvc h' = nsvc h;
  rr_filled : filled (inner_meth s) l' k k'
}.

Lemma reg_run_refl p s k (h : Host) : svcs h !! p = Some s → reg_run p s k k (inner_meth s) h h.
Proof.
  intros Hs. split; [|done..|split; [done..|lia]]. rewrite insert_id; [done|]. rewrite Hs. by destruct s.
Qed.

(** A change of the rest of the world before the loop does not matter. *)
Lemma reg_run_world p s k k' l' m w (h h' : Host) : reg_run p s k k' l' (with_world m w h) h' → reg_run p s k k' l' h h'.
Proof. by intros [E1 E2 E3 E4 Hf]. Qed.

Lemma reg_run_step p s k k' c l' (h h1 h' : Host) :
  0 ≤ k < k' →
  h1 = with_svcs (<[p := inner_to s (alter (λ m, {| name := Some c; handler := handler m |}) (Z.to_nat k) (inner_meth s))]> (svcs h)) h →
  reg_run p (inner_to s (alter (λ m, {| name := Some c; handler := handler m |}) (Z.to_nat k) (inner_meth s))) (k + 1) k' l' h1 h' →
  reg_run p s k k' l' h h'.
Proof.
  intros Hk -> [E1 E2 E3 E4 [F1 F2 F3 F4]]. split; [|done..|].
  - rewrite E1. cbn [with_svcs svcs]. by rewrite insert_insert_eq.
  - cbn [inner_to set_inner inner_meth] in *. split.
    + by rewrite F1, length_alter.
    + rewrite F2. apply list_eq. intros j. rewrite !list_lookup_fmap. destruct (decide (j = Z.to_nat k)) as [-> |Hne].
      * rewrite list_lookup_alter_eq. by destruct (inner_meth s !! Z.to_nat k).
      * by rewrite list_lookup_alter_ne by congruence.
    + intros j Hj. rewrite F3 by lia. apply list_lookup_alter_ne. lia.
    + intros j m Hj Hm. destruct (decide (Z.of_nat j = k)) as [Hjk|Hne]; [|apply (F4 j m); [lia|done]].
      rewrite F3 in Hm by lia. replace j with (Z.to_nat k) in Hm by lia. rewrite list_lookup_alter_eq in Hm.
      destruct (inner_meth s !! Z.to_nat k); cbn in Hm; simplify_eq. by eexists.
Qed.

(** What a loop over [n] entries of a table does. *)
Definition loop_spec {A} (P : A → Prop) (p : sptr) (tbl : list A) (n : nat) (k k' : Z) (h h' : Host) : Prop :=
  ∀ s, svcs h !! p = Some s →
  ∃ l', reg_run p s k k' l' h h' ∧ k ≤ k' ≤ k + Z.of_nat n ∧ k' ≤ Z.max k (zlen (inner_meth s)) ∧
    (k' = k + Z.of_nat n → (n ≤ length tbl)%nat ∧ Forall P (take n tbl)).

Lemma loop_done {A} (P : A → Prop) p tbl k (h : Host) : loop_spec P p tbl 0 k k h h.
Proof. intros s Hs. exists (inner_meth s). split; [by apply reg_run_refl|]. split_and!; [lia..|]. intros _. split; [lia|constructor]. Qed.
Lemma loop_skip {A} (P : A → Prop) p t tbl n k k' (h h' : Host) : loop_spec P p tbl n k k' h h' → loop_spec P p (t :: tbl) (S n) k k' h h'.
Proof. intros Hl s Hs. destruct (Hl s Hs) as (l' & Hr & Hb & Hm & _). exists l'. split_and!; [done|lia..|]. intros. lia. Qed.
Lemma loop_world {A} (P : A → Prop) p tbl n k k' m w (h h' : Host) :
  loop_spec P p tbl n k k' (with_world m w h) h' → loop_spec P p tbl n k k' h h'.
Proof.
  intros Hl s Hs. destruct (Hl s Hs) as (l' & Hr & Hrest). exists l'. split; [by eapply reg_run_world|done].
Qed.
Lemma loop_put {A} (P : A → Prop) p t tbl n c k k' u (h h1 h' : Host) :
  P t → put_inner p k (λ m, {| name := Some c; handler := handler m |}) h = Ok (u, h1) →
  loop_spec P p tbl n (k + 1) k' h1 h' → loop_spec P p (t :: tbl) (S n) k k' h h'.
Proof.
  intros Ht Hput Hl s Hs. destruct (put_inner_inv _ _ _ _ _ _ _ Hs Hput) as [Hkl ->].
  set (s1 := set_inner _ _ _ s) in *.
  destruct (Hl s1) as (l' & Hr & Hb & Hm & Hfull); [cbn [with_svcs svcs]; apply lookup_insert_eq|].
  unfold s1 in Hm. cbn [set_inner inner_meth] in Hm. rewrite length_alter in Hm. exists l'. split_and!; [|lia..|].
  - by eapply reg_run_step; [lia|done|exact Hr].
  - intros Hk'. destruct Hfull as [Hn HP]; [lia|]. simpl. split; [lia|]. by constructor.
Qed.

Lemma read_str_state c (h h' : Host) s : read_str c h = Ok (s, h') → h' = h.
Proof. destruct c; [by intros [= _ <-]|]. unfold read_str, gets, mbind, M_bind, lift, deref. destruct (strs h !! a); intros Hr; simplify_eq; done. Qed.

Lemma meth_loop_spec p n : ∀ ptr k (h h' : Host) k',
  meth_loop p ptr n k h = Ok (k', h') → loop_spec valid_method p ptr n k k' h h'.
Proof.
  induction n as [|n IH]; intros ptr k h h' k' Hr; [destruct ptr; injection Hr as <- <-; apply loop_done|].
  destruct ptr as [|t ptr]; [discriminate Hr|]. cbn [meth_loop] in Hr.
  destruct (meth_name t) as [c|] eqn:Ec; [|by apply loop_skip, IH]. destruct (method t) as [f|] eqn:Ef; [|by apply loop_skip, IH].
  apply M_bind_inv in Hr as (s & h1 & Hs & Hr). apply read_str_state in Hs as ->. destruct (strlen s =? 0); [by apply loop_skip, IH|].
  apply M_bind_inv in Hr as (u & h1 & Hp & Hr). eapply loop_put; [by split; eexists|exact Hp|by apply IH].
Qed.

Lemma world_call_state {A} (f : U → A * U) (h h' : Host) a :
  world_call f h = Ok (a, h') → h' = with_world (strs h) (snd (f (world h))) h.
Proof. unfold world_call. destruct (f (world h)) as [b w]. by intros [= _ <-]. Qed.
Lemma cut_last_state c (h h' : Host) u : cut_last c h = Ok (u, h') → ∃ m, h' = with_world m (world h) h.
Proof.
  destruct c as [s|a]; [intros Hr; discriminate Hr|]. unfold cut_last. intros (s & h1 & Hs & Hr)%M_bind_inv.
  apply read_str_state in Hs as ->. injection Hr as _ <-. by eexists.
Qed.

Lemma event_loop_spec p n : ∀ ptr k (h h' : Host) k',
  event_loop p ptr n k h = Ok (k', h') → loop_spec valid_event p ptr n k k' h h'.
Proof.
  induction n as [|n IH]; intros ptr k h h' k' Hr; [destruct ptr; injection Hr as <- <-; apply loop_done|].
  destruct ptr as [|t ptr]; [discriminate Hr|]. cbn [event_loop] in Hr.
  destruct (event_name t) as [c|] eqn:Ec; [|by apply loop_skip, IH]. destruct (event_fn t) as [f|] eqn:Ef; [|by apply loop_skip, IH].
  apply M_bind_inv in Hr as (s & h1 & Hs & Hr). apply read_str_state in Hs as ->. destruct (strlen s =? 0); [by apply loop_skip, IH|].
  apply M_bind_inv in Hr as (u & h1 & He & Hr). apply M_bind_inv in He as (sv & h2 & He & He2). apply fetch_inv in He as [_ ->].
  assert (h1 = h) as ->. { destruct (env sv); [by injection He2|discriminate He2]. }
  apply M_bind_inv in Hr as (ret & h1 & Hw & Hr). apply world_call_state in Hw as ->. eapply loop_world.
  destruct (negb (ret =? 0)); [by apply loop_skip, IH|].
  apply M_bind_inv in Hr as (u' & h1 & Hp & Hr). eapply loop_put; [by split; eexists|exact Hp|].
  apply M_bind_inv in Hr as (u'' & h2 & Hc & Hr). destruct (bool_decide _).
  - apply cut_last_state in Hc as [m ->]. by eapply loop_world, IH.
  - injection Hc as _ <-. by apply IH.
Qed.

(** New names behind the ones in use change nothing. *)
Lemma filled_frame s l' k' : is_Some (intf s) → filled (inner_meth s) l' (inner_cnt s) k' → frame s (inner_to s l').
Proof.
  intros [i Hi] [F1 F2 F3 F4]. split; [done..| |by rewrite Hi]. intros [T1 T2 T3 T4 T5 T6 T7 T8 T9]. destruct T8 as [[T8 T8'] T8p], T9 as [[T9 T9'] T9p].
  split; cbn [inner_to set_inner inner_meth inner_cnt meth_cnt evt_cnt inner_obj meth event]; [by rewrite F1|done|done|done| | | |done|done].
  - rewrite <- T5. apply list_eq. intros j. destruct (decide (j < 4)%nat); [|by rewrite !lookup_take_ge by lia].
    rewrite !lookup_take_lt by done. apply F3. lia.
  - intros j m Hj Hm. assert (Hh : map handler l' !! j = Some (handler m)) by (by rewrite list_lookup_fmap, Hm).
    rewrite F2, list_lookup_fmap in Hh. destruct (inner_meth s !! j) as [m0|] eqn:E0; [|discriminate Hh].
    injection Hh as Hh. rewrite <- Hh. by apply (T6 j).
  - intros j m Hj Hjc Hm. rewrite F3 in Hm by lia. by apply (T7 j).
Qed.

(** The names in use afterwards. *)
Lemma filled_names s l' k' j m :
  table_ok s → filled (inner_meth s) l' (inner_cnt s) k' → (4 ≤ j)%nat → Z.of_nat j < k' → l' !! j = Some m → is_Some (name m).
Proof.
  intros Ht Hf Hj Hk Hm. destruct (decide (Z.of_nat j < inner_cnt s)).
  - rewrite (fi_out _ _ _ _ Hf) in Hm by lia. by apply (to_names _ Ht j).
  - apply (fi_in _ _ _ _ Hf j m); [lia|done].
Qed.

Lemma covers_take {A} (P : A → Prop) tbl n : 0 ≤ n → (Z.to_nat n ≤ length tbl)%nat → Forall P (take (Z.to_nat n) tbl) → covers P tbl n.
Proof. intros Hn Hl HP. split; [lia|done]. Qed.

Lemma small_count c n k : 4 ≤ c → c < 512 → k = c + n → k ≤ 512 → s32 (c + n) < 512 → k < 512.
Proof. intros ? ? -> Hk Hs. destruct (decide (c + n < - 2 ^ 31)); [lia|]. unfold s32 in Hs. rewrite Z.mod_small in Hs by lia. lia. Qed.

Definition with_meth n ptr (s : host_service) (l' : list ubus_method) (k : Z) : host_service :=
  set_meth n (Some ptr) (set_inner {| obj_id := obj_id (inner_obj s); methods := methods (inner_obj s); n_methods := k |} k l' s).
Definition with_event n ptr (s : host_service) (l' : list ubus_method) (k : Z) : host_service :=
  set_event n (Some ptr) (set_inner {| obj_id := obj_id (inner_obj s); methods := methods (inner_obj s); n_methods := k |} k l' s).

(** A list of methods or of events has been taken over. *)
Lemma with_meth_frame s n ptr l' k' :
  is_Some (intf s) → meth s = None → meth_cnt s <= 0 → s32 (inner_cnt s + n) < 512 → k' = inner_cnt s + n → inner_cnt s ≤ k' →
  k' ≤ Z.max (inner_cnt s) (zlen (inner_meth s)) → (Z.to_nat n ≤ length ptr)%nat → Forall valid_method (take (Z.to_nat n) ptr) →
  filled (inner_meth s) l' (inner_cnt s) k' → frame s (with_meth n ptr s l' k').
Proof.
  intros Hi Hm Hc Hs Hk Hge Hmax Hn HP Hf.
  split; [done..|apply Hf| |by destruct Hi as [i ->]]. intros Ht. destruct (filled_frame _ _ _ Hi Hf) as [_ _ _ _ _ _ _ _ _ _ Ht2 _].
  specialize (Ht2 Ht) as [T1 T2 T3 T4 T5 T6 T7 T8 T9]. cbn [inner_to set_inner inner_meth inner_cnt meth_cnt evt_cnt inner_obj meth event] in *.
  destruct T8 as [[T8 _] _], T9 as [T9 T9p]. rewrite (to_len _ Ht) in Hmax.
  split; cbn [with_meth set_meth set_inner inner_meth inner_cnt meth_cnt evt_cnt inner_obj meth event n_methods]; [done|lia| |done|done|done| |apply covers_take; [lia|done..]|done].
  - apply (small_count (inner_cnt s) n); lia.
  - intros j m. by apply (filled_names s).
Qed.
Lemma with_event_frame s n ptr l' k' :
  is_Some (intf s) → event s = None → evt_cnt s <= 0 → s32 (inner_cnt s + n) < 512 → k' = inner_cnt s + n → inner_cnt s ≤ k' →
  k' ≤ Z.max (inner_cnt s) (zlen (inner_meth s)) → (Z.to_nat n ≤ length ptr)%nat → Forall valid_event (take (Z.to_nat n) ptr) →
  filled (inner_meth s) l' (inner_cnt s) k' → frame s (with_event n ptr s l' k').
Proof.
  intros Hi Hm Hc Hs Hk Hge Hmax Hn HP Hf.
  split; [done..|apply Hf| |by destruct Hi as [i ->]]. intros Ht. destruct (filled_frame _ _ _ Hi Hf) as [_ _ _ _ _ _ _ _ _ _ Ht2 _].
  specialize (Ht2 Ht) as [T1 T2 T3 T4 T5 T6 T7 T8 T9]. cbn [inner_to set_inner inner_meth inner_cnt meth_cnt evt_cnt inner_obj meth event] in *.
  destruct T8 as [[T8 T8'] T8p], T9 as [[T9 _] _]. rewrite (to_len _ Ht) in Hmax.
  split; cbn [with_event set_event set_inner inner_meth inner_cnt meth_cnt evt_cnt inner_obj meth event n_methods]; [done|lia| |done|done|done| |done|apply covers_take; [lia|done..]].
  - apply (small_count (inner_cnt s) n); lia.
  - intros j m. by apply (filled_names s).
Qed.

Lemma reg_run_framed p s k' l' (h h' : Host) s' :
  svcs h !! p = Some s → frame s s' → reg_run p s (inner_cnt s) k' l' h h' → framed h (with_svcs (<[p := s']> (svcs h')) h').
Proof.
  intros Hs Hf [E1 E2 E3 E4 _]. split; [|done..]. intros q. cbn [with_svcs svcs]. rewrite E1.
  destruct (decide (p = q)) as [<-|Hne]; [rewrite lookup_insert_eq, Hs; by constructor|].
  rewrite !lookup_insert_ne by done. by destruct (svcs h !! q); constructor.
Qed.
Lemma reg_run_kept p s k' l' (h h' : Host) : is_Some (intf s) → svcs h !! p = Some s → reg_run p s (inner_cnt s) k' l' h h' → framed h h'.
Proof.
  intros Hi Hs Hr. pose proof (reg_run_framed p s k' l' h h' (inner_to s l') Hs (filled_frame _ _ _ Hi (rr_filled _ _ _ _ _ _ _ Hr)) Hr) as [F1 F2 F3 F4].
  split; [|done..]. intros q. specialize (F1 q). cbn [with_svcs svcs] in F1. rewrite (rr_svcs _ _ _ _ _ _ _ Hr) in *.
  by rewrite insert_insert_eq in F1.
Qed.

Lemma reg_run_lookup p s k k' l' (h h' : Host) : reg_run p s k k' l' h h' → svcs h' !! p = Some (inner_to s l').
Proof. intros Hr. rewrite (rr_svcs _ _ _ _ _ _ _ Hr). apply lookup_insert_eq. Qed.

(** A service learns its address once it is loaded. *)
Definition handed (h : Host) (p : sptr) : Prop := ∀ s, svcs h !! p = Some s → is_Some (intf s).

Lemma reg_method_framed p ptr n (h h' : Host) r : handed h p → svchost_reg_method p ptr n h = Ok (r, h') → framed h h'.
Proof.
  intros Hi. unfold svchost_reg_method. intros (s & h1 & Hs & Hr)%M_bind_inv. apply fetch_inv in Hs as [Hs ->]. specialize (Hi s Hs).
  destruct (bool_decide _ || _) eqn:E1; [by injection Hr as _ <-|]. destruct (_ <=? _) eqn:E2; [by injection Hr as _ <-|].
  apply M_bind_inv in Hr as (k & h1 & Hl & Hr). apply meth_loop_spec in Hl. destruct (Hl s Hs) as (l' & Hrun & Hk & Hmax & Hfull).
  destruct (negb _) eqn:E3; [injection Hr as _ <-; by eapply reg_run_kept|].
  rewrite (M_bind_Ok _ _ _ _ _ (put_Ok _ _ _ _ (reg_run_lookup _ _ _ _ _ _ _ Hrun))) in Hr. injection Hr as _ <-.
  apply orb_false_iff in E1 as [Em E1]. apply bool_decide_eq_false, eq_None_not_Some in Em. zify_bool.
  destruct Hfull as [Hn HP]; [lia|]. eapply reg_run_framed; [exact Hs| |exact Hrun].
  apply (with_meth_frame s n ptr l' k); [done|done|lia..|done|apply Hrun].
Qed.
Lemma reg_event_framed p ptr n (h h' : Host) r : handed h p → svchost_reg_event p ptr n h = Ok (r, h') → framed h h'.
Proof.
  intros Hi. unfold svchost_reg_event. intros (s & h1 & Hs & Hr)%M_bind_inv. apply fetch_inv in Hs as [Hs ->]. specialize (Hi s Hs).
  destruct (bool_decide _ || _) eqn:E1; [by injection Hr as _ <-|]. destruct (_ <=? _) eqn:E2; [by injection Hr as _ <-|].
  apply M_bind_inv in Hr as (k & h1 & Hl & Hr). apply event_loop_spec in Hl. destruct (Hl s Hs) as (l' & Hrun & Hk & Hmax & Hfull).
  destruct (negb _) eqn:E3; [injection Hr as _ <-; by eapply reg_run_kept|].
  rewrite (M_bind_Ok _ _ _ _ _ (put_Ok _ _ _ _ (reg_run_lookup _ _ _ _ _ _ _ Hrun))) in Hr. injection Hr as _ <-.
  apply orb_false_iff in E1 as [Em E1]. apply bool_decide_eq_false, eq_None_not_Some in Em. zify_bool.
  destruct Hfull as [Hn HP]; [lia|]. eapply reg_run_framed; [exact Hs| |exact Hrun].
  apply (with_event_frame s n ptr l' k); [done|done|lia..|done|apply Hrun].
Qed.

(** ** What a service may do *)

Inductive api_step : Host → Host → Prop :=
| api_reg_method p ptr n r h h' : handed h p → svchost_reg_method p ptr n h = Ok (r, h') → api_step h h'
| api_reg_event p ptr n r h h' : handed h p → svchost_reg_event p ptr n h = Ok (r, h') → api_step h h'
| api_world m w h : api_step h (with_world m w h).

Lemma api_framed (h h' : Host) : rtc api_step h h' → framed h h'.
Proof.
  induction 1 as [|h1 h2 h3 Hs _ IH]; [done|]. etrans; [|exact IH].
  destruct Hs; [by eapply reg_method_framed|by eapply reg_event_framed|apply framed_world].
Qed.
End props.

(** A service that is loaded, with sound tables: its functions can be called. *)
Definition callable `{Externs U} (h : host U) (p : sptr) : Prop :=
  ∃ s, svcs h !! p = Some s ∧ env s = true ∧ table_ok s ∧ is_Some (intf s).

(** Services use the interface the host gives them, and return. *)
Class ServiceLaws (U : Type) `{Externs U} := {
  svc_api f p h r h' : handed h p → call_svc f p h = Ok (r, h') → rtc api_step h h';
  meth_api f p m msg h r h' : handed h p → call_meth f p m msg h = Ok (r, h') → rtc api_step h h';
  status_api f h r h' : call_status f h = Ok (r, h') → rtc api_step h h';
  svc_returns f p h : callable h p → ∃ r h', call_svc f p h = Ok (r, h')
}.

(** ** The list of services *)

Fixpoint chain (m : gmap sptr host_service) (o : option sptr) (l : list sptr) : Prop :=
  match l with
  | [] => o = None
  | p :: l' => o = Some p ∧ ∃ s, m !! p = Some s ∧ chain m (next s) l'
  end.

(** Every service of a list satisfies [P]. *)
Definition each (m : gmap sptr host_service) (P : host_service → Prop) (l : list sptr) : Prop :=
  ∀ p, p ∈ l → ∃ s, m !! p = Some s ∧ P s.

Lemma chain_each m l : ∀ o, chain m o l → each m (λ _, True) l.
Proof.
  induction l as [|q l IH]; intros o Hc p Hp; [by apply elem_of_nil in Hp|]. destruct Hc as (_ & s & Hs & Hc).
  apply elem_of_cons in Hp as [-> |Hp]; [by exists s|by eapply IH].
Qed.
Lemma chain_head m o p l : chain m o (p :: l) → o = Some p.
Proof. by intros [-> _]. Qed.
Lemma chain_next m o p l s : chain m o (p :: l) → m !! p = Some s → chain m (next s) l.
Proof. intros (_ & s' & Hs' & Hc) Hs. by simplify_eq. Qed.
Lemma chain_suffix m l1 l2 : ∀ o, chain m o (l1 ++ l2) → ∃ o', chain m o' l2.
Proof. induction l1 as [|q l1 IH]; intros o Hc; [by exists o|]. destruct Hc as (_ & s & _ & Hc). by eapply IH. Qed.

(** The links are what matters. *)
Lemma chain_ext m m' l : ∀ o,
  (∀ p s, p ∈ l → m !! p = Some s → ∃ s', m' !! p = Some s' ∧ next s' = next s) → chain m o l → chain m' o l.
Proof.
  induction l as [|q l IH]; intros o He; [done|]. intros (Ho & s & Hs & Hc). split; [done|].
  destruct (He q s) as (s' & Hs' & Hn); [by left|done|]. exists s'. split; [done|]. rewrite Hn. apply IH; [|done].
  intros p sp Hp. apply He. by right.
Qed.

Lemma chain_size m o l : chain m o l → NoDup l → (length l ≤ size m)%nat.
Proof.
  intros Hc Hnd. rewrite <- size_dom, <- (size_list_to_set (C := gset sptr) l) by done. apply subseteq_size.
  intros p Hp%elem_of_list_to_set. destruct (chain_each _ _ _ Hc p Hp) as (s & Hs & _). by apply elem_of_dom_2 in Hs.
Qed.

(** Cutting the service behind [q] out. *)
Lemma chain_cut m l1 q p l2 : ∀ o sq sp,
  NoDup (l1 ++ q :: p :: l2) → chain m o (l1 ++ q :: p :: l2) → m !! q = Some sq → m !! p = Some sp →
  chain (delete p (<[q := set_next (next sp) sq]> m)) o (l1 ++ q :: l2).
Proof.
  induction l1 as [|r l1 IH]; intros o sq sp Hnd Hc Hq Hp.
  - cbn [app] in *. apply NoDup_cons in Hnd as [Hq2 Hnd]. apply NoDup_cons in Hnd as [Hp2 _].
    assert (q ≠ p) by (intros ->; apply Hq2; by left). assert (Hql : q ∉ l2) by (intros Hbad; apply Hq2; by right).
    split; [by eapply chain_head|]. exists (set_next (next sp) sq). rewrite lookup_delete_ne, lookup_insert_eq by done. split; [done|].
    cbn [set_next next]. eapply chain_next in Hc; [|exact Hq]. eapply chain_next in Hc; [|exact Hp].
    eapply chain_ext; [|exact Hc]. intros x s Hx Hs. exists s. split; [|done].
    rewrite lookup_delete_ne by (intros ->; done). by rewrite lookup_insert_ne by (intros ->; done).
  - cbn [app] in *. apply NoDup_cons in Hnd as [Hr Hnd]. destruct Hc as (Ho & s & Hs & Hc).
    assert (r ≠ q) by (intros ->; apply Hr, elem_of_app; right; by left).
    assert (r ≠ p) by (intros ->; apply Hr, elem_of_app; right; right; by left).
    split; [done|]. exists s. split; [by rewrite lookup_delete_ne, lookup_insert_ne by congruence|]. by apply IH.
Qed.

Section host.
Context `{Externs U}.
Abbreviation Host := (host U).

Lemma framed_each (h h' : Host) (P : host_service → Prop) l :
  framed h h' → (∀ s s', frame s s' → P s → P s') → each (svcs h) P l → each (svcs h') P l.
Proof.
  intros Hf HP He p Hp. destruct (He p Hp) as (s & Hs & HPs). destruct (framed_lookup _ _ _ _ Hf Hs) as (s' & Hs' & Hfr).
  exists s'. split; [done|by eapply HP].
Qed.
Lemma framed_chain (h h' : Host) l : framed h h' → chain (svcs h) (env_svc h) l → chain (svcs h') (env_svc h') l.
Proof.
  intros Hf Hc. rewrite (fd_env _ _ Hf). eapply chain_ext; [|exact Hc]. intros p s _ Hs.
  destruct (framed_lookup _ _ _ _ Hf Hs) as (s' & Hs' & Hfr). exists s'. split; [done|apply Hfr].
Qed.

(** A service as the parser leaves it, but for [env], and one that is
    registered on the bus. *)
Record idle (s : host_service) : Prop := {
  id_intf : intf s = None; id_len : length (inner_meth s) = 512%nat;
  id_meth : meth_cnt s = 0 ∧ meth s = None; id_event : evt_cnt s = 0 ∧ event s = None
}.
Definition registered (s : host_service) : Prop :=
  env s = true ∧ table_ok s ∧ Z.land (flag s) SVCHOST_FLAG_REGISTERED ≠ 0 ∧
  ∃ i, intf s = Some i ∧ is_Some (start i) ∧ is_Some (stop i) ∧ id i ≠ 0 ∧ obj_id (inner_obj s) = id i.

Lemma registered_frame s s' : frame s s' → registered s → registered s'.
Proof.
  intros Hf (He & Ht & Hfl & i & Hi & Hst & Hsp & Hid & Ho). split; [by rewrite (fr_env _ _ Hf)|]. split; [by apply Hf|].
  rewrite (fr_flag _ _ Hf). split; [done|]. exists i. rewrite (fr_intf _ _ Hf), (fr_id _ _ Hf). done.
Qed.

(** The lowest flag is that of the library's interface. *)
Definition flag_kept (s : host_service) : Prop := ∀ i, intf s = Some i → Z.testbit (flag s) 0 = Z.testbit (intf_flag i) 0.
Lemma flag_kept_frame s s' : frame s s' → flag_kept s → flag_kept s'.
Proof. intros Hf Hk i. rewrite (fr_intf _ _ Hf), (fr_flag _ _ Hf). apply Hk. Qed.

(** What the library's entry function is called with, it can handle. *)
Definition entry_returns (s : host_service) : Prop :=
  ∀ lib f w, dlsym lib (entry s) = Some f → ∃ r, call_entry f (param s) w = Ok r.
Definition waiting (s : host_service) : Prop := env s = true ∧ idle s ∧ entry_returns s.

Lemma waiting_frame s s' : frame s s' → waiting s → waiting s'.
Proof. intros Hf Hw. by rewrite (fr_idle _ _ Hf (id_intf _ (proj1 (proj2 Hw)))). Qed.

(** No two services have one id. *)
Definition distinct_ids (m : gmap sptr host_service) (l : list sptr) : Prop :=
  ∀ p q s t i j, p ∈ l → q ∈ l → m !! p = Some s → m !! q = Some t → intf s = Some i → intf t = Some j → id i = id j → p = q.

(** The services [l1] are registered, the services [l2] still to be loaded. *)
Record loading (h : Host) (l1 l2 : list sptr) : Prop := {
  ld_chain : chain (svcs h) (env_svc h) (l1 ++ l2);
  ld_nodup : NoDup (l1 ++ l2);
  ld_reg : each (svcs h) registered l1;
  ld_idle : each (svcs h) waiting l2;
  ld_ids : distinct_ids (svcs h) l1;
  ld_count : nsvc h = zlen l1
}.
Definition ready (h : Host) (l : list sptr) : Prop := loading h l [].

Lemma framed_ids (h h' : Host) l : each (svcs h) (λ _, True) l → framed h h' → distinct_ids (svcs h) l → distinct_ids (svcs h') l.
Proof.
  intros He Hf Hd p q s t i j Hp Hq Hs Ht Hi Hj.
  destruct (He p Hp) as (s0 & Hs0 & _). destruct (He q Hq) as (t0 & Ht0 & _).
  destruct (framed_lookup _ _ _ _ Hf Hs0) as (s' & Hs' & F1). destruct (framed_lookup _ _ _ _ Hf Ht0) as (t' & Ht' & F2). simplify_eq.
  apply (Hd p q s0 t0); [done..| |]; [by rewrite <- (fr_intf _ _ F1)|by rewrite <- (fr_intf _ _ F2)].
Qed.

Lemma framed_loading (h h' : Host) l1 l2 : framed h h' → loading h l1 l2 → loading h' l1 l2.
Proof.
  intros Hf [L1 L2 L3 L4 L5 L6]. split.
  - by eapply framed_chain.
  - done.
  - eapply framed_each; [exact Hf|exact registered_frame|done].
  - eapply framed_each; [exact Hf|exact waiting_frame|done].
  - eapply framed_ids; [|exact Hf|done]. intros p Hp. destruct (L3 p Hp) as (s & Hs & _). by exists s.
  - by rewrite (fd_nsvc _ _ Hf).
Qed.

(** ** Loading one service *)

(** Only the services' records and the rest of the world change. *)
Record same_env (h h' : Host) : Prop := {
  se_env : env_svc h' = env_svc h; se_ctx : ctx h' = ctx h; se_nsvc : nsvc h' = nsvc h
}.

(** Runs the calls into the world and the writes a handler starts with. *)
Lemma world_call_Ok {A} (f : U → A * U) (h : Host) : world_call f h = Ok (fst (f (world h)), with_world (strs h) (snd (f (world h))) h).
Proof. unfold world_call. by destruct (f (world h)). Qed.

Definition loaded d i (s : host_service) : host_service := set_flag (s32 (intf_flag i)) (set_intf (Some i) (set_handle d s)).

Lemma load_lib_spec p s (h : Host) :
  svcs h !! p = Some s → entry_returns s →
  ∃ r h', svchost_load_lib p h = Ok (r, h') ∧ same_env h h' ∧
    (r = -1 ∨ r = 0 ∧ ∃ d i, svcs h' = <[p := loaded d i s]> (svcs h)).
Proof.
  intros Hs He. unfold svchost_load_lib. step_by (fetch_Ok _ _ _ Hs). rewrite (M_bind_Ok _ _ _ _ _ (world_call_Ok _ _)).
  destruct (dlopen (path s) (world h)) as [d w]. cbn [fst snd].
  erewrite M_bind_Ok by (apply put_Ok; exact Hs). set (h1 := with_svcs _ _).
  assert (Hs1 : svcs h1 !! p = Some (set_handle d s)) by apply lookup_insert_eq.
  destruct d as [lib|]; [|eexists _, _; by split_and!; [done|split|left]].
  destruct (dlsym lib (entry s)) as [f|] eqn:Ef; [|eexists _, _; by split_and!; [done|split|left]].
  destruct (He lib f (world h1) Ef) as [[i w'] Hc].
  rewrite (M_bind_Ok _ _ h1 (world h1) h1) by done. rewrite (M_bind_Ok _ _ h1 (i, w') h1) by by rewrite Hc.
  rewrite (M_bind_Ok _ _ _ _ _ (world_call_Ok _ _)). cbn [fst snd]. set (h2 := with_world _ _ _).
  assert (Hs2 : svcs h2 !! p = Some (set_handle (Some lib) s)) by exact Hs1.
  rewrite (M_bind_Ok _ _ _ _ _ (put_Ok _ _ _ _ Hs2)). set (h3 := with_svcs _ h2).
  assert (Hs3 : svcs h3 !! p = Some (set_intf i (set_handle (Some lib) s))) by apply lookup_insert_eq.
  destruct i as [i|]; [|eexists _, _; by split_and!; [done|split|left]].
  rewrite (M_bind_Ok _ _ _ _ _ (put_Ok _ _ _ _ Hs3)). eexists _, _. split; [done|]. split; [by split|]. right. split; [done|].
  exists (Some lib), i. cbn [with_svcs svcs h3 h2 h1 with_world]. by rewrite !insert_insert_eq.
Qed.

(** Another service on the list has the id. *)
Definition clash (m : gmap sptr host_service) (p : sptr) (i : Z) (l : list sptr) : Prop :=
  ∃ q t j, q ∈ l ∧ q ≠ p ∧ m !! q = Some t ∧ intf t = Some j ∧ id j = i.

Lemma check_loop_spec p i (h : Host) l : ∀ fuel o,
  chain (svcs h) o l → (length l ≤ fuel)%nat →
  ∃ r, check_loop fuel p i o h = Ok (r, h) ∧ (r = -1 ∨ r = 0 ∧ ¬ clash (svcs h) p i l).
Proof.
  induction l as [|q l IH]; intros fuel o Hc Hf.
  - cbn in Hc. subst o. exists 0. split; [by destruct fuel|]. right. split; [done|]. by intros (q & t & j & Hq%elem_of_nil & _).
  - destruct Hc as (-> & t & Ht & Hc). destruct fuel as [|fuel]; [simpl in Hf; lia|]. cbn [check_loop]. step_by (fetch_Ok _ _ _ Ht).
    destruct (negb _ && _) eqn:E; [exists (-1); split; [done|by left]|].
    destruct (IH fuel (next t) Hc) as (r & Hr & Hcl); [simpl in Hf; lia|]. exists r. split; [done|].
    destruct Hcl as [Hl|[-> Hcl]]; [by left|]. right. split; [done|].
    intros (q' & t' & j & [-> |Hq]%elem_of_cons & Hne & Ht' & Hj & Hid); [|apply Hcl; by exists q', t', j]. simplify_eq.
    rewrite (bool_decide_eq_false_2 (q = p)), Hj in E by done. cbn in E. apply Z.eqb_neq in E. by subst.
Qed.

Lemma check_svc_spec p s i (h : Host) l :
  svcs h !! p = Some s → env s = true → intf s = Some i → chain (svcs h) (env_svc h) l → NoDup l →
  ∃ r, svchost_check_svc p h = Ok (r, h) ∧
    (r = -1 ∨ r = 0 ∧ is_Some (start i) ∧ is_Some (stop i) ∧ id i ≠ 0 ∧ ¬ clash (svcs h) p (id i) l).
Proof.
  intros Hs He Hi Hc Hnd. unfold svchost_check_svc. step_by (fetch_Ok _ _ _ Hs). step_by (host_env_Ok _ _ _ Hs He).
  rewrite (M_bind_Ok _ _ h (env_svc h) h), Hi by done.
  destruct (_ || _) eqn:E; [exists (-1); split; [done|by left]|]. rewrite !orb_false_iff in E. destruct E as [[E1 E2] E3].
  apply bool_decide_eq_false in E1, E2. apply Z.eqb_neq in E3. rewrite (M_bind_Ok _ _ h (size (svcs h)) h) by done.
  destruct (check_loop_spec p (id i) h l (size (svcs h)) (env_svc h) Hc) as (r & Hr & Hcl); [by eapply chain_size|].
  exists r. split; [done|]. destruct Hcl as [Hl|[-> Hcl]]; [by left|]. right. by rewrite <- !not_eq_None_Some.
Qed.

(** ** Registering it *)

Definition new_obj (i : host_service_intf) : ubus_object := {| obj_id := id i; methods := true; n_methods := 4 |}.
Definition on_bus i (s : host_service) : host_service :=
  set_flag (Z.lor (flag s) SVCHOST_FLAG_REGISTERED) (set_inner (new_obj i) 4 (fill_inner (inner_meth s)) s).

Lemma on_bus_table i s :
  length (inner_meth s) = 512%nat → meth_cnt s = 0 ∧ meth s = None → evt_cnt s = 0 ∧ event s = None → table_ok (on_bus i s).
Proof.
  intros Hl [Hm Hm'] [He He'].
  assert (Hd : length (fill_inner (inner_meth s)) = 512%nat) by (unfold fill_inner; rewrite length_app, !length_map, length_drop, Hl; done).
  assert (Hin : ∀ j m, (4 ≤ j)%nat → fill_inner (inner_meth s) !! j = Some m → handler m = Some Handle_hook).
  { intros j m Hj Hjm. unfold fill_inner in Hjm. rewrite lookup_app_r in Hjm by done. rewrite list_lookup_fmap in Hjm.
    destruct (drop _ _ !! _); [|discriminate Hjm]. by injection Hjm as <-. }
  split; cbn [on_bus set_flag set_inner inner_meth inner_cnt meth_cnt evt_cnt inner_obj meth event]; rewrite ?Hm, ?He, ?Hm', ?He';
    [done|done|lia|done|done|exact Hin|lia|split; [split; done|constructor]|split; [split; done|constructor]].
Qed.

Lemma land_lor_flag z : Z.land (Z.lor z SVCHOST_FLAG_REGISTERED) SVCHOST_FLAG_REGISTERED ≠ 0.
Proof. rewrite Z.land_lor_distr_l, Z.land_diag. intros Hz. apply Z.lor_eq_0_iff in Hz as [_ Hz]. discriminate Hz. Qed.

Lemma on_bus_registered i s :
  intf s = Some i → env s = true → is_Some (start i) → is_Some (stop i) → id i ≠ 0 → table_ok (on_bus i s) → registered (on_bus i s).
Proof. intros Hi He Hst Hsp Hid Ht. split; [done|]. split; [done|]. split; [apply land_lor_flag|]. by exists i. Qed.
End host.

Section laws.
Context `{Externs U} `{!ServiceLaws U}.
Abbreviation Host := (host U).

Lemma call_svc_framed f p (h : Host) : callable h p → ∃ r h', call_svc f p h = Ok (r, h') ∧ framed h h'.
Proof.
  intros Hc. destruct (svc_returns f p h Hc) as (r & h' & Hr). exists r, h'. split; [done|]. eapply api_framed, svc_api; [|exact Hr].
  destruct Hc as (s & Hs & _ & _ & Hi). intros s' Hs'. by simplify_eq.
Qed.

Lemma reg_svc_spec p s i (h : Host) :
  svcs h !! p = Some s → intf s = Some i → env s = true → table_ok (on_bus i s) →
  ∃ r h', svchost_reg_svc p h = Ok (r, h') ∧
    (r = -1 ∨ r = 0 ∧ ∃ h1, framed h1 h' ∧ svcs h1 = <[p := on_bus i s]> (svcs h) ∧
                          env_svc h1 = env_svc h ∧ nsvc h1 = nsvc h + 1).
Proof.
  intros Hs Hi He Ht. unfold svchost_reg_svc. step_by (fetch_Ok _ _ _ Hs). rewrite (M_bind_Ok _ _ h i h) by by rewrite Hi.
  rewrite (M_bind_Ok _ _ _ _ _ (put_Ok _ _ _ _ Hs)). set (h1 := with_svcs _ h). set (s1 := set_inner _ _ _ s) in h1.
  assert (Hs1 : svcs h1 !! p = Some s1) by apply lookup_insert_eq. step_by (host_env_Ok _ _ _ Hs1 He). step_by (fetch_Ok _ _ _ Hs1).
  rewrite (M_bind_Ok _ _ _ _ _ (world_call_Ok _ _)). destruct (ubus_add_object p _ _) as [r w]. cbn [fst snd].
  destruct (negb (r =? 0)); [eexists _, _; split; [done|by left]|]. set (h2 := with_world _ _ h1).
  assert (Hs2 : svcs h2 !! p = Some s1) by exact Hs1. rewrite (M_bind_Ok _ _ _ _ _ (put_Ok _ _ _ _ Hs2)).
  set (h3 := with_svcs _ h2). unfold set_nsvc. rewrite (M_bind_Ok _ _ h3 tt (with_env (env_svc h3) (ctx h3) (nsvc h3 + 1) h3)) by done.
  set (h4 := with_env _ _ _ h3).
  assert (H4 : svcs h4 = <[p := on_bus i s]> (svcs h)).
  { cbn [h4 h3 h2 h1 with_env with_svcs with_world svcs]. by rewrite insert_insert_eq. }
  assert (Hc : callable h4 p) by (exists (on_bus i s); rewrite H4; split_and!; [apply lookup_insert_eq|done|done|by exists i]).
  destruct (init i) as [f|].
  - destruct (call_svc_framed f p h4 Hc) as (r' & h' & Hr & Hf). step_by Hr. eexists _, _. split; [done|]. right. split; [done|].
    by exists h4.
  - eexists _, _. split; [done|]. right. split; [done|]. by exists h4.
Qed.

(** ** Loading the list *)

Lemma chain_set m o l p s s' : m !! p = Some s → next s' = next s → chain m o l → chain (<[p := s']> m) o l.
Proof.
  intros Hs Hn. apply chain_ext. intros q sq _ Hq. destruct (decide (p = q)) as [<-|Hne].
  - exists s'. simplify_eq. by rewrite lookup_insert_eq.
  - exists sq. by rewrite lookup_insert_ne.
Qed.
Lemma each_set m (P : host_service → Prop) l p s' : p ∉ l → each m P l → each (<[p := s']> m) P l.
Proof.
  intros Hp He q Hq. destruct (He q Hq) as (s & Hs & HP). exists s. by rewrite lookup_insert_ne by congruence.
Qed.

Lemma loading_step (h h' h1 : Host) l1 p l2 s d i :
  loading h l1 (p :: l2) → svcs h !! p = Some s → table_ok (on_bus i (loaded d i s)) →
  is_Some (start i) → is_Some (stop i) → id i ≠ 0 → ¬ clash (<[p := loaded d i s]> (svcs h)) p (id i) (l1 ++ p :: l2) →
  svcs h1 = <[p := on_bus i (loaded d i s)]> (svcs h) → env_svc h1 = env_svc h → nsvc h1 = nsvc h + 1 → framed h1 h' →
  loading h' (l1 ++ [p]) l2.
Proof.
  intros [L1 L2 L3 L4 L5 L6] Hs Ht Hst Hsp Hid Hcl E1 E2 E3 Hf. set (s' := on_bus i (loaded d i s)) in *.
  destruct (L4 p) as (s0 & Hs0 & He & Hidle & _); [by left|]. simplify_eq.
  apply NoDup_app in L2 as L2'. destruct L2' as (_ & Hdis & Hnd2). apply NoDup_cons in Hnd2 as [Hp2 _].
  assert (Hp1 : p ∉ l1) by (intros Hbad; apply (Hdis p Hbad); by left).
  apply (framed_loading h1 h'); [done|]. split; rewrite ?E1, ?E2, ?E3, <- ?app_assoc; cbn [app].
  - by eapply chain_set.
  - done.
  - intros q [Hq| ->%list_elem_of_singleton]%elem_of_app; [exact (each_set _ registered _ _ s' Hp1 L3 q Hq)|]. exists s'. split; [apply lookup_insert_eq|].
    by apply on_bus_registered.
  - apply each_set; [done|]. intros q Hq. apply L4. by right.
  - assert (Hnew : ∀ q t j, q ∈ l1 → svcs h !! q = Some t → intf t = Some j → id j ≠ id i).
    { intros q t j Hq Hqt Hj Heq. apply Hcl. exists q, t, j. assert (q ≠ p) by (intros ->; done).
      split; [apply elem_of_app; by left|]. by rewrite lookup_insert_ne by congruence. }
    intros q r t u j k Hq Hr Hqt Hru Hj Hk Heq.
    apply elem_of_app in Hq as [Hq| ->%list_elem_of_singleton], Hr as [Hr| ->%list_elem_of_singleton].
    + rewrite lookup_insert_ne in Hqt, Hru by (intros ->; done). by apply (L5 q r t u j k).
    + rewrite lookup_insert_ne in Hqt by (intros ->; done). rewrite lookup_insert_eq in Hru. simplify_eq. cbn in Hk. simplify_eq.
      by destruct (Hnew q t j Hq Hqt Hj).
    + rewrite lookup_insert_ne in Hru by (intros ->; done). rewrite lookup_insert_eq in Hqt. simplify_eq. cbn in Hj. simplify_eq.
      by destruct (Hnew r u k Hr Hru Hk).
    + done.
  - rewrite L6, length_app. simpl. lia.
Qed.

Lemma on_bus_flag d i s : flag_kept (on_bus i (loaded d i s)).
Proof.
  intros j [= <-]. change (Z.testbit (Z.lor (s32 (intf_flag i)) SVCHOST_FLAG_REGISTERED) 0 = Z.testbit (intf_flag i) 0).
  rewrite Z.lor_spec. change (Z.testbit SVCHOST_FLAG_REGISTERED 0) with false. rewrite orb_false_r, !Z.bit0_odd.
  unfold s32. rewrite Z.mod_eq by done. set (q := (_ / _)).
  replace (intf_flag i + 2 ^ 31 - 2 ^ 32 * q - 2 ^ 31) with (intf_flag i + 2 * (- 2 ^ 31 * q)) by ring. apply Z.odd_add_mul_2.
Qed.
Lemma flags_step (h h' h1 : Host) l1 p s d i :
  each (svcs h) flag_kept l1 → p ∉ l1 → svcs h1 = <[p := on_bus i (loaded d i s)]> (svcs h) → framed h1 h' →
  each (svcs h') flag_kept (l1 ++ [p]).
Proof.
  intros He Hp E Hf. eapply framed_each; [exact Hf|exact flag_kept_frame|]. rewrite E.
  intros q [Hq| ->%list_elem_of_singleton]%elem_of_app; [by apply (each_set _ flag_kept _ _ _ Hp He)|].
  eexists. split; [apply lookup_insert_eq|apply on_bus_flag].
Qed.

Lemma init_loop_spec l2 : ∀ l1 fuel o (h : Host),
  loading h l1 l2 → each (svcs h) flag_kept l1 → chain (svcs h) o l2 → (length l2 ≤ fuel)%nat →
  ∃ r h', init_loop fuel o h = Ok (r, h') ∧ (r = -1 ∨ r = 0 ∧ ready h' (l1 ++ l2) ∧ each (svcs h') flag_kept (l1 ++ l2)).
Proof.
  induction l2 as [|p l2 IH]; intros l1 fuel o h HL Hfl Hc Hf.
  { cbn in Hc. subst o. exists 0, h. split; [by destruct fuel|]. right. split; [done|]. by rewrite app_nil_r. }
  destruct Hc as (-> & s & Hs & Hc). destruct fuel as [|fuel]; [simpl in Hf; lia|]. cbn [init_loop].
  destruct (ld_idle _ _ _ HL p) as (s0 & Hs0 & He & Hidle & Hret); [by left|]. simplify_eq.
  destruct (load_lib_spec p s h Hs Hret) as (r & h1 & Hr & [Ee1 Ec1 En1] & [-> |(-> & d & i & E1)]); step_by Hr; [by eexists _, _; split; [|left]|].
  change (0 <? 0) with false. cbv iota. assert (Hs1 : svcs h1 !! p = Some (loaded d i s)) by (rewrite E1; apply lookup_insert_eq).
  destruct (check_svc_spec p (loaded d i s) i h1 (l1 ++ p :: l2)) as (r & Hk & [-> |(-> & Hst & Hsp & Hid & Hcl)]);
    [done|done|done|rewrite E1, Ee1; by eapply chain_set; [exact Hs|done|apply HL]|apply HL|step_by Hk; by eexists _, _; split; [|left]|].
  step_by Hk. change (0 <? 0) with false. cbv iota.
  assert (Ht : table_ok (on_bus i (loaded d i s))) by (apply on_bus_table; apply Hidle).
  destruct (reg_svc_spec p (loaded d i s) i h1 Hs1) as (r & h3 & Hg & [-> |(-> & h2 & Hfr & E2 & Ee2 & En2)]); [done..|step_by Hg; by eexists _, _; split; [|left]|].
  step_by Hg. change (0 <? 0) with false. cbv iota. rewrite E1, insert_insert_eq in E2.
  assert (HL3 : loading h3 (l1 ++ [p]) l2).
  { eapply (loading_step h h3 h2 l1 p l2 s d i); [done|done|done|done|done|done|by rewrite <- E1|done|congruence|congruence|done]. }
  pose proof (ld_chain _ _ _ HL3) as Hc3. destruct (ld_reg _ _ _ HL3 p) as (s3 & Hs3 & _); [apply elem_of_app; right; by left|].
  step_by (fetch_Ok _ _ _ Hs3). destruct (IH (l1 ++ [p]) fuel (next s3) h3 HL3) as (r & h4 & Hr4 & Hl4); [| |simpl in Hf; lia|].
  - eapply (flags_step h h3 h2); [done| |exact E2|done]. intros Hbad. pose proof (ld_nodup _ _ _ HL) as Hnd.
    apply NoDup_app in Hnd as (_ & Hd & _). apply (Hd p Hbad). by left.
  - rewrite <- app_assoc in Hc3. apply chain_suffix in Hc3 as [o Hc3]. by eapply chain_next.
  - exists r, h4. split; [done|]. by rewrite <- app_assoc in Hl4.
Qed.

(** ** Starting the list *)

Lemma registered_callable (h : Host) l p : each (svcs h) registered l → p ∈ l → callable h p.
Proof. intros He Hp. destruct (He p Hp) as (s & Hs & Henv & Ht & _ & i & Hi & _). exists s. by rewrite Hi. Qed.

(** The services of a list started one after the other: those whose flag 1 is
    set, and no others. *)
Inductive starts : list sptr → Host → Host → Prop :=
| starts_done h : starts [] h h
| starts_called p l s i f r h h1 h2 :
    svcs h !! p = Some s → intf s = Some i → start i = Some f → Z.testbit (flag s) 0 = true →
    call_svc f p h = Ok (r, h1) → starts l h1 h2 → starts (p :: l) h h2
| starts_left p l s h h2 : svcs h !! p = Some s → Z.testbit (flag s) 0 = false → starts l h h2 → starts (p :: l) h h2.

Lemma start_loop_spec l : ∀ fuel o (h : Host),
  chain (svcs h) o l → each (svcs h) registered l → (length l ≤ fuel)%nat →
  ∃ h', start_loop fuel o h = Ok (0, h') ∧ framed h h' ∧ starts l h h'.
Proof.
  induction l as [|p l IH]; intros fuel o h Hc He Hf.
  { cbn in Hc. subst o. exists h. split; [by destruct fuel|]. split; [done|constructor]. }
  destruct Hc as (-> & s & Hs & Hc). destruct fuel as [|fuel]; [simpl in Hf; lia|]. cbn [start_loop]. step_by (fetch_Ok _ _ _ Hs).
  assert (Hrun : ∃ r h1, (if Z.testbit (flag s) 0 then
       i ← lift (deref (intf s)); f ← lift (deref (start i)); call_svc f p else mret 0) h = Ok (r, h1) ∧ framed h h1 ∧
       ∀ h2, starts l h1 h2 → starts (p :: l) h h2).
  { destruct (Z.testbit (flag s) 0) eqn:Eb; [|exists 0, h; split; [done|]; split; [done|]; intros h2; by econstructor]. destruct (He p) as (s0 & Hs0 & _ & _ & _ & i & Hi & [f Hst] & _); [by left|].
    simplify_eq. rewrite (M_bind_Ok _ _ h i h), (M_bind_Ok _ _ h f h) by (by rewrite ?Hi, ?Hst).
    destruct (call_svc_framed f p h) as (r & h1 & Hr & Hf1); [apply (registered_callable h (p :: l)); [done|by left]|].
    exists r, h1. split; [exact Hr|]. split; [done|]. intros h2. by eapply starts_called. }
  destruct Hrun as (r & h1 & Hr & Hf1 & Hst). rewrite (M_bind_Ok _ _ _ _ _ Hr). destruct (framed_lookup _ _ _ _ Hf1 Hs) as (s1 & Hs1 & Hfr).
  step_by (fetch_Ok _ _ _ Hs1). rewrite (fr_next _ _ Hfr). destruct (IH fuel (next s) h1) as (h2 & Hr2 & Hf2 & Hst2); [| |simpl in Hf; lia|].
  - eapply chain_ext; [|exact Hc]. intros q t _ Hq. destruct (framed_lookup _ _ _ _ Hf1 Hq) as (t' & Ht' & Hft). exists t'. split; [done|apply Hft].
  - eapply framed_each; [exact Hf1|exact registered_frame|]. intros q Hq. apply He. by right.
  - exists h2. split; [done|]. split; [by etrans|by apply Hst].
Qed.

Lemma auto_start_spec (h : Host) l : ready h l → ∃ h', svchost_auto_start h = Ok (0, h') ∧ framed h h' ∧ starts l h h'.
Proof.
  intros [L1 L2 L3 _ _ _]. rewrite app_nil_r in L1, L2. unfold svchost_auto_start.
  rewrite (M_bind_Ok _ _ h (env_svc h) h), (M_bind_Ok _ _ h (size (svcs h)) h) by done. apply (start_loop_spec l); [done|done|by eapply chain_size].
Qed.

Lemma init_lib_spec (h : Host) l :
  loading h [] l →
  ∃ r h', svchost_init_lib h = Ok (r, h') ∧ (r = -1 ∨ r = 0 ∧ ready h' l ∧ ∃ h0, ready h0 l ∧ each (svcs h0) flag_kept l ∧ starts l h0 h').
Proof.
  intros HL. pose proof (ld_chain _ _ _ HL) as Hc. unfold svchost_init_lib.
  rewrite (M_bind_Ok _ _ h (env_svc h) h), (M_bind_Ok _ _ h (size (svcs h)) h) by done.
  destruct (init_loop_spec l [] (size (svcs h)) (env_svc h) h HL) as (r & h1 & Hr & [-> |(-> & Hl & Hfl)]); [by intros q Hbad%elem_of_nil|done|eapply chain_size; apply HL|step_by Hr; by eexists _, _; split; [|left]|].
  step_by Hr. change (0 <? 0) with false. cbv iota. destruct (auto_start_spec h1 l Hl) as (h2 & Hs & Hf & Hst). step_by Hs.
  eexists _, _. split; [done|]. right. split; [done|]. split; [by eapply framed_loading|by exists h1].
Qed.

(** The state in which the host gets the list from the parser. *)
Record parsed (h : Host) (l : list sptr) : Prop := {
  pa_chain : chain (svcs h) (env_svc h) l; pa_nodup : NoDup l;
  pa_idle : each (svcs h) (λ s, idle s ∧ entry_returns s) l;
  pa_nsvc : nsvc h = 0
}.

(** The bus answers within [tries] attempts. *)
Fixpoint connects (tries : nat) (w : U) : Prop :=
  match tries with
  | O => False
  | S tries' => let '(c, w) := ubus_connect w in if c : bool then True else connects tries' (usleep w)
  end.

Lemma conn_loop_spec tries : ∀ h : Host, connects tries (world h) →
  ∃ h', conn_loop tries h = Ok (tt, h') ∧ svcs h' = svcs h ∧ env_svc h' = env_svc h ∧ nsvc h' = nsvc h.
Proof.
  induction tries as [|tries IH]; intros h Hc; [done|]. cbn [connects conn_loop] in *. unfold svchost_init_conn, world_call, modify, mbind, M_bind, mret, M_ret.
  destruct (ubus_connect (world h)) as [[] w].
  - by eexists.
  - cbn beta iota zeta. change (-1 <? 0) with true. cbv beta iota.
    match goal with |- context [conn_loop tries ?h2] => destruct (IH h2 Hc) as (h' & Hr & E1 & E2 & E3); exists h' end. done.
Qed.

Lemma env_loop_spec l : ∀ fuel o (h : Host),
  chain (svcs h) o l → NoDup l → (length l ≤ fuel)%nat →
  ∃ h', env_loop fuel o h = Ok (tt, h') ∧ same_env h h' ∧ strs h' = strs h ∧ world h' = world h ∧
    ∀ q, svcs h' !! q = (if bool_decide (q ∈ l) then set_env else (λ s, s)) <$> svcs h !! q.
Proof.
  induction l as [|p l IH]; intros fuel o h Hc Hnd Hf.
  { cbn in Hc. subst o. exists h. split; [by destruct fuel|]. split; [done|]. split_and!; [done..|]. intros q. by destruct (svcs h !! q). }
  destruct Hc as (-> & s & Hs & Hc). destruct fuel as [|fuel]; [simpl in Hf; lia|]. cbn [env_loop].
  rewrite (M_bind_Ok _ _ _ _ _ (put_Ok _ _ _ _ Hs)). set (h1 := with_svcs _ h).
  assert (Hs1 : svcs h1 !! p = Some (set_env s)) by apply lookup_insert_eq. step_by (fetch_Ok _ _ _ Hs1).
  apply NoDup_cons in Hnd as [Hp Hnd]. destruct (IH fuel (next s) h1) as (h2 & Hr & [Ee Ec En] & E1 & E2 & E3); [|done|simpl in Hf; lia|].
  { by eapply chain_set. }
  exists h2. split; [done|]. split; [done|]. split; [done|]. split; [done|]. intros q. rewrite E3. cbn [h1 with_svcs svcs].
  destruct (decide (p = q)) as [<-|Hne].
  - rewrite lookup_insert_eq, Hs, (bool_decide_eq_false_2 (p ∈ l)), bool_decide_eq_true_2 by (done || by left). done.
  - rewrite lookup_insert_ne by done. destruct (decide (q ∈ l)) as [Hq|Hq].
    + by rewrite !bool_decide_eq_true_2 by (done || by right).
    + rewrite !bool_decide_eq_false_2; [done| |done]. intros [-> |]%elem_of_cons; done.
Qed.

Lemma parsed_loading (h h' : Host) l :
  parsed h l → env_svc h' = env_svc h → nsvc h' = nsvc h →
  (∀ q, svcs h' !! q = (if bool_decide (q ∈ l) then set_env else (λ s, s)) <$> svcs h !! q) → loading h' [] l.
Proof.
  intros [P1 P2 P3 P4] E1 E2 E3. split; cbn [app].
  - rewrite E1. eapply chain_ext; [|exact P1]. intros p s Hp Hs. rewrite E3, Hs, bool_decide_eq_true_2 by done. by exists (set_env s).
  - done.
  - by intros p Hp%elem_of_nil.
  - intros p Hp. destruct (P3 p Hp) as (s & Hs & [I1 I2 I3 I4] & Her). exists (set_env s). by rewrite E3, Hs, bool_decide_eq_true_2 by done.
  - by intros p q s t i j Hp%elem_of_nil.
  - by rewrite E2, P4.
Qed.
End laws.
End SvcProps.
