(* ===== verification/SvcDemo.v ===== *)
(** * A world for the service host

    One instance of what the host calls: the library gives every service an
    interface with the next id, a service without a parameter registers one
    method when it is initialised, and the bus accepts everything.  It obeys
    [ServiceLaws], so the theorems on the host apply to it. *)

From stdpp Require Import gmap.
From stdpp Require Import relations.
From S2P Require Import Prelude CString SvcHost SvcProps.
Open Scope Z_scope.

Module SvcDemo.
Import SvcHost SvcProps.

Definition boot_table : list host_service_method := [{| meth_name := Some (Lit (cs "boot")); method := Some 7%nat |}].

#[export] Instance demo_world : Externs nat := {
  dlopen _ w := (Some 1%nat, w);
  dlsym _ e := if streq e (cs "svc_main") then Some 1%nat else None;
  dlclose _ w := w;
  call_entry _ p w := Ok (Some {| id := 4096 + Z.of_nat w; intf_flag := 1; start := Some 2%nat; stop := Some 3%nat;
    status := None; init := if p is None then Some 4%nat else None |}, S w);
  ubus_connect w := (true, w); ubus_free w := w;
  uloop_init w := (0, w); uloop_done w := w; uloop_cancelled _ := false; usleep w := w;
  ubus_add_object _ _ w := (0, w); ubus_remove_object _ w := w; ubus_register_event_handler _ _ w := (0, w);
  call_svc f p := if (f =? 4)%nat then svchost_reg_method p boot_table 1 else mret 0;
  call_status _ := mret 0;
  call_meth _ _ _ _ := mret 0;
  ubus_loop_poll := mret 0
}.

Lemma boot_returns (h : host nat) p : callable h p → ∃ r h', svchost_reg_method p boot_table 1 h = Ok (r, h').
Proof.
  intros (s & Hs & _ & Ht & _). unfold svchost_reg_method. step_by (fetch_Ok _ _ _ Hs).
  destruct (_ || _) eqn:E1; [by eexists _, _|]. destruct (_ <=? _) eqn:E2; [by eexists _, _|].
  pose proof (to_max _ Ht) as Hmax. pose proof (to_len _ Ht) as Hlen. pose proof (to_count _ Ht) as Hcnt.
  destruct (to_meth _ Ht) as [[Hm _] _], (to_event _ Ht) as [[He _] _].
  assert (Hloop : ∃ h1, meth_loop p boot_table 1 (inner_cnt s) h = Ok (inner_cnt s + 1, h1) ∧ is_Some (svcs h1 !! p)).
  { cbn [boot_table meth_loop meth_name method]. rewrite (M_bind_Ok _ _ h (cs "boot") h) by done.
    change (strlen (cs "boot") =? 0) with false. cbv iota. unfold put_inner. rewrite (M_bind_Ok _ _ h tt
      (with_svcs (<[p := inner_to s (alter (λ m, {| name := Some (Lit (cs "boot")); handler := handler m |}) (Z.to_nat (inner_cnt s)) (inner_meth s))]> (svcs h)) h)).
    - eexists. split; [done|]. cbn [with_svcs svcs]. rewrite lookup_insert_eq. by eexists.
    - step_by (fetch_Ok _ _ _ Hs).
      replace ((0 <=? inner_cnt s) && (inner_cnt s <? zlen (inner_meth s))) with true by (symmetry; apply andb_true_iff; zbool).
      by rewrite (put_Ok _ _ _ _ Hs). }
  destruct Hloop as (h1 & Hloop & s1 & Hs1). change (Z.to_nat 1) with 1%nat. step_by Hloop.
  destruct (negb _); [by eexists _, _|]. rewrite (M_bind_Ok _ _ _ _ _ (put_Ok _ _ _ _ Hs1)). by eexists _, _.
Qed.

#[export] Instance demo_laws : ServiceLaws nat.
Proof.
  split.
  - intros f p h r h' Hh. cbn [call_svc demo_world]. destruct (f =? 4)%nat; [|by intros [= _ <-]].
    intros Hr. by eapply rtc_once, api_reg_method.
  - intros f p m msg h r h' _. by intros [= _ <-].
  - intros f h r h'. by intros [= _ <-].
  - intros f p h Hc. cbn [call_svc demo_world]. destruct (f =? 4)%nat; [by apply boot_returns|by eexists _, _].
Qed.

(** Two services as the parser leaves them. *)
Definition fresh (path : string) (param : option cstr) (next : option sptr) : host_service :=
  {| path := cs path; entry := cs "svc_main"; param := param; intf := None; env := false; flag := 0; handle := None;
     meth_cnt := 0; meth := None; evt_cnt := 0; event := None; next := next;
     inner_obj := {| obj_id := 0; methods := false; n_methods := 0 |}; inner_cnt := 0;
     inner_meth := replicate 512 {| name := None; handler := None |} |}.
Definition demo_host : host nat :=
  {| svcs := {[ 1%nat := fresh "libcfg.so" None (Some 2%nat); 2%nat := fresh "libwan.so" (Some (cs "hook")) None ]};
     env_svc := Some 1%nat; ctx := false; nsvc := 0; strs := {[ 5%nat := cs "*" ]}; world := 1%nat |}.

Lemma demo_parsed : parsed demo_host [1%nat; 2%nat].
Proof.
  assert (Hi : ∀ a b c, idle (fresh a b c) ∧ entry_returns (fresh a b c)).
  { intros a b c. split; [split; done|]. intros lib f w _. by eexists. }
  split.
  - split; [done|]. eexists. split; [reflexivity|]. split; [done|]. eexists. by split.
  - apply (bool_decide_unpack _). by vm_compute.
  - intros p Hp. apply elem_of_cons in Hp as [-> |Hp]; [eexists; split; [reflexivity|apply Hi]|].
    apply list_elem_of_singleton in Hp as ->. eexists; split; [reflexivity|apply Hi].
  - done.
Qed.

(** The host once they have been started. *)
Definition demo_started : host nat := match svchost_run_init 1 demo_host with Ok (_, h) => h | _ => demo_host end.

Lemma demo_runs : svchost_run_init 1 demo_host = Ok (0, demo_started).
Proof. vm_compute. reflexivity. Qed.
End SvcDemo.
