(* ===== verification/SvcRun.v ===== *)
(** * The runs of the service host

    From the list the parser made to the registered services, the messages
    they then handle, and what happens when one is unloaded. *)

From stdpp Require Import gmap.
From stdpp Require Import relations.
From S2P Require Import Prelude CString SvcHost SvcProps SvcDemo.
Open Scope Z_scope.

Module SvcRun.
Import SvcHost SvcProps SvcDemo.

Section run.
Context `{Externs U} `{!ServiceLaws U}.
Abbreviation Host := (host U).

(** ** Starting *)

Lemma gets_Ok {A} (f : Host → A) h : gets f h = Ok (f h, h).
Proof. done. Qed.

Lemma run_init_spec tries (h : Host) l :
  parsed h l → (0 ≤ fst (uloop_init (world h)) → connects tries (snd (uloop_init (world h)))) →
  ∃ r h', svchost_run_init tries h = Ok (r, h') ∧
    (r = -1 ∨ r = 0 ∧ ready h' l ∧ ∃ h0, ready h0 l ∧ each (svcs h0) flag_kept l ∧ starts l h0 h').
Proof.
  intros Hp Hc. unfold svchost_run_init. rewrite !(M_bind_Ok _ _ _ _ _ (gets_Ok _ _)).
  destruct (env_loop_spec l (size (svcs h)) (env_svc h) h) as (h1 & Hr & [E1 E2 E3] & _ & Ew & Es);
    [apply Hp|apply Hp|eapply chain_size; apply Hp|]. step_by Hr.
  rewrite (M_bind_Ok _ _ _ _ _ (world_call_Ok _ _)), Ew. destruct (uloop_init (world h)) as [r w]. cbn [fst snd] in *.
  destruct (r <? 0) eqn:Er; [eexists _, _; split; [done|by left]|]. set (h2 := with_world _ w h1).
  destruct (conn_loop_spec tries h2) as (h3 & Hr3 & F1 & F2 & F3); [apply Hc; zify_bool; lia|]. step_by Hr3.
  destruct (init_lib_spec h3 l) as (r' & h4 & Hr4 & Hl).
  { eapply parsed_loading; [exact Hp|by rewrite F2|by rewrite F3|]. intros q. by rewrite F1. }
  step_by Hr4. destruct Hl as [-> |[-> Hl]]; [by eexists _, _; split; [|left]|]. eexists _, _. split; [done|]. by right.
Qed.

(** ** Unloading *)

(** The search stops at the service before [p]. *)
Lemma free_search_spec p sp l2 l1 : ∀ q fuel (h : Host),
  NoDup (q :: l1 ++ p :: l2) → chain (svcs h) (Some q) (q :: l1 ++ p :: l2) → svcs h !! p = Some sp → (length l1 < fuel)%nat →
  ∃ a x sx, q :: l1 = a ++ [x] ∧ svcs h !! x = Some sx ∧
    free_loop fuel p q h = Ok (1, with_svcs (delete p (<[x := set_next (next sp) sx]> (svcs h))) h).
Proof.
  induction l1 as [|r l1 IH]; intros q fuel h Hnd Hc Hp Hf; (destruct fuel as [|fuel]; [simpl in Hf; lia|]); cbn [free_loop app] in *.
  - pose proof Hc as (_ & sq & Hq & Hp' & _). step_by (fetch_Ok _ _ _ Hq). rewrite Hp', bool_decide_eq_true_2 by done.
    step_by (fetch_Ok _ _ _ Hp). rewrite (M_bind_Ok _ _ _ _ _ (put_Ok _ _ _ _ Hq)). unfold free.
    assert (Hqp : q ≠ p) by (intros ->; apply NoDup_cons in Hnd as [Hnd _]; apply Hnd; by left).
    set (h1 := with_svcs _ h). assert (Hp1 : svcs h1 !! p = Some sp) by (cbn [h1 with_svcs svcs]; by rewrite lookup_insert_ne).
    rewrite (M_bind_Ok _ _ h1 tt (with_svcs (delete p (svcs h1)) h1)) by by step_by (fetch_Ok _ _ _ Hp1).
    by exists [], q, sq.
  - pose proof Hc as (_ & sq & Hq & Hc'). step_by (fetch_Ok _ _ _ Hq). pose proof Hc' as (Hn & _). rewrite Hn in *.
    apply NoDup_cons in Hnd as [Hqn Hnd]. assert (Hrp : r ≠ p).
    { intros ->. apply NoDup_cons in Hnd as [Hnd _]. apply Hnd. apply elem_of_app. right. by left. }
    rewrite bool_decide_eq_false_2 by done. destruct (IH r fuel h Hnd Hc' Hp) as (a & x & sx & Ha & Hx & Hr); [simpl in Hf; lia|].
    exists (q :: a), x, sx. rewrite Ha. done.
Qed.

(** The list and the services left when one is freed. *)
Lemma free_svc_spec p sp l1 l2 (h : Host) :
  NoDup (l1 ++ p :: l2) → chain (svcs h) (env_svc h) (l1 ++ p :: l2) → svcs h !! p = Some sp → env sp = true →
  ∃ h', svchost_free_svc p h = Ok (1, h') ∧ svcs h' !! p = None ∧ chain (svcs h') (env_svc h') (l1 ++ l2) ∧ nsvc h' = nsvc h ∧
    ∀ q s, q ≠ p → svcs h !! q = Some s → ∃ o, svcs h' !! q = Some (set_next o s).
Proof.
  intros Hnd Hc Hp He. unfold svchost_free_svc. step_by (host_env_Ok _ _ _ Hp He). rewrite (M_bind_Ok _ _ _ _ _ (gets_Ok _ _)).
  pose proof (chain_size _ _ _ Hc Hnd) as Hsize. destruct l1 as [|q l1]; cbn [app] in *.
  - pose proof (chain_head _ _ _ _ Hc) as Eo. rewrite bool_decide_eq_true_2 by done. step_by (fetch_Ok _ _ _ Hp). unfold set_env_svc, free.
    set (h1 := with_env (next sp) (ctx h) (nsvc h) h). rewrite (M_bind_Ok _ _ h tt h1) by done.
    assert (Hp1 : svcs h1 !! p = Some sp) by done.
    rewrite (M_bind_Ok _ _ h1 tt (with_svcs (delete p (svcs h1)) h1)) by by step_by (fetch_Ok _ _ _ Hp1).
    eexists. split; [done|]. cbn [with_svcs h1 with_env svcs env_svc nsvc]. split; [apply lookup_delete_eq|]. split; [|split; [done|]].
    + apply NoDup_cons in Hnd as [Hn _]. eapply chain_ext; [|eapply chain_next; [exact Hc|done]].
      intros x s Hx Hs. exists s. by rewrite lookup_delete_ne by congruence.
    + intros x s Hx Hs. exists (next s). rewrite lookup_delete_ne by done. rewrite Hs. by destruct s.
  - pose proof (chain_head _ _ _ _ Hc) as Eo. rewrite Eo in *.
    assert (Hqp : q ≠ p) by (intros ->; apply NoDup_cons in Hnd as [Hnd _]; apply Hnd, elem_of_app; right; by left).
    rewrite bool_decide_eq_false_2 by congruence. rewrite (M_bind_Ok _ _ h q h), (M_bind_Ok _ _ _ _ _ (gets_Ok _ _)) by done.
    destruct (free_search_spec p sp l2 l1 q (size (svcs h)) h Hnd Hc Hp) as (a & x & sx & Ha & Hx & Hr).
    { cbn [length] in Hsize. rewrite length_app in Hsize. cbn [length] in Hsize. lia. }
    rewrite Hr. eexists. split; [done|]. cbn [with_svcs svcs env_svc nsvc]. split; [apply lookup_delete_eq|].
    rewrite Eo, !(app_comm_cons l1), Ha in *. rewrite <- app_assoc in Hc, Hnd |- *. cbn [app] in *.
    split; [by apply chain_cut|]. split; [done|]. intros y s Hy Hs. rewrite lookup_delete_ne by done. destruct (decide (x = y)) as [<-|Hne].
    + simplify_eq. rewrite lookup_insert_eq. by eexists.
    + exists (next s). rewrite lookup_insert_ne, Hs by done. by destruct s.
Qed.

Lemma unreg_svc_spec p s (h : Host) :
  svcs h !! p = Some s → env s = true →
  ∃ h' n l, svchost_unreg_svc p h = Ok (0, h') ∧ same_env h h' ∧ svcs h' = <[p := set_inner (inner_obj s) n l s]> (svcs h).
Proof.
  intros Hs He. unfold svchost_unreg_svc. rewrite (M_bind_Ok _ _ _ _ _ (put_Ok _ _ _ _ Hs)). set (h1 := with_svcs _ h).
  assert (Hs1 : svcs h1 !! p = Some (set_inner (inner_obj s) 0 (inner_meth s) s)) by apply lookup_insert_eq.
  rewrite (M_bind_Ok _ _ _ _ _ (put_Ok _ _ _ _ Hs1)). set (h2 := with_svcs _ h1). pose proof (lookup_insert_eq (svcs h1) p) as Hs2.
  specialize (Hs2 (set_inner (inner_obj s) 0 (take 2 (inner_meth s) ++ map (λ _, {| name := None; handler := None |}) (drop 2 (inner_meth s))) s)).
  rewrite (M_bind_Ok _ _ h2 tt h2) by (eapply host_env_Ok; [exact Hs2|done]). rewrite (M_bind_Ok _ _ _ _ _ (world_call_Ok _ _)).
  eexists _, _, _. split; [done|]. split; [by split|]. cbn [with_world h2 h1 with_svcs svcs]. by rewrite insert_insert_eq.
Qed.

Lemma registered_set_next o s : registered s → registered (set_next o s).
Proof. intros (He & [] & Hf & Hi). split; [done|]. split; [by split|]. done. Qed.

(** What is left of [ready] when the record of [p] has been changed in
    passing and then freed. *)
Lemma ready_without (h h' : Host) p l1 l2 :
  ready h (l1 ++ p :: l2) → chain (svcs h') (env_svc h') (l1 ++ l2) → nsvc h' = nsvc h - 1 →
  (∀ q s, q ≠ p → svcs h !! q = Some s → ∃ o, svcs h' !! q = Some (set_next o s)) → ready h' (l1 ++ l2).
Proof.
  intros [_ L2 L3 _ L5 L6] Hc Hn Hq. rewrite app_nil_r in L2.
  assert (Hsub : ∀ q, q ∈ l1 ++ l2 → q ∈ l1 ++ p :: l2) by (intros q; rewrite !elem_of_app, elem_of_cons; tauto).
  assert (Hnp : p ∉ l1 ++ l2).
  { apply NoDup_app in L2 as (_ & Hd & Hnd). apply NoDup_cons in Hnd as [Hp2 _]. intros [Hp|Hp]%elem_of_app; [|done].
    apply (Hd p Hp). by left. }
  assert (Hold : ∀ q s', q ∈ l1 ++ l2 → svcs h' !! q = Some s' → ∃ s o, svcs h !! q = Some s ∧ s' = set_next o s).
  { intros q s' Hin Hs'. destruct (L3 q (Hsub q Hin)) as (s & Hs & _). destruct (Hq q s) as [o Ho]; [by intros ->|done|]. exists s, o. by simplify_eq. }
  split; rewrite ?app_nil_r.
  - done.
  - apply NoDup_app in L2 as (N1 & Hd & N2). apply NoDup_cons in N2 as [_ N2]. apply NoDup_app. split; [done|]. split; [|done].
    intros q H1 H2. apply (Hd q H1). by right.
  - intros q Hin. destruct (L3 q (Hsub q Hin)) as (s & Hs & Hr). destruct (Hq q s) as [o Ho]; [by intros ->|done|].
    exists (set_next o s). split; [done|]. by apply registered_set_next.
  - by intros q Hbad%elem_of_nil.
  - intros q r s t i j Hq1 Hr1 Hs Ht Hi Hj Hid. destruct (Hold q s Hq1 Hs) as (s0 & o & Hs0 & ->).
    destruct (Hold r t Hr1 Ht) as (t0 & o' & Ht0 & ->). apply (L5 q r s0 t0 i j); try done; by apply Hsub.
  - rewrite Hn, L6, !length_app. simpl. lia.
Qed.

Lemma unload_spec p l1 l2 (h : Host) :
  ready h (l1 ++ p :: l2) →
  ∃ h', svchost_unload_svc p h = Ok (0, h') ∧ svcs h' !! p = None ∧ ready h' (l1 ++ l2).
Proof.
  intros HL. assert (Hin : p ∈ l1 ++ p :: l2) by (apply elem_of_app; right; by left).
  destruct (ld_reg _ _ _ HL p Hin) as (s & Hs & _ & _ & _ & i & Hi & _ & [f Hst] & _). unfold svchost_unload_svc. step_by (fetch_Ok _ _ _ Hs).
  destruct (call_svc_framed f p h) as (r & h1 & Hr & Hf); [eapply registered_callable; [apply HL|done]|].
  rewrite Hi, Hst. rewrite (M_bind_Ok _ _ h tt h1) by by step_by Hr.
  pose proof (framed_loading _ _ _ _ Hf HL) as HL1. destruct (ld_reg _ _ _ HL1 p Hin) as (s1 & Hs1 & He & _ & Hfl & _). clear s Hs Hi Hst Hf Hr HL.
  step_by (fetch_Ok _ _ _ Hs1). apply Z.eqb_neq in Hfl. rewrite Hfl. cbn [negb].
  destruct (unreg_svc_spec p s1 h1 Hs1 He) as (h2 & n & tbl & Hr2 & [E1 E2 E3] & Es). rewrite (M_bind_Ok _ _ h1 tt h2) by by step_by Hr2.
  set (s2 := set_inner _ n tbl s1) in Es. assert (Hs2 : svcs h2 !! p = Some s2) by (rewrite Es; apply lookup_insert_eq).
  step_by (fetch_Ok _ _ _ Hs2).
  assert (Hclose : ∃ w, (match handle s2 with Some d => world_call (λ w, (tt, dlclose d w)) | None => mret tt end) h2 = Ok (tt, with_world (strs h2) w h2)).
  { destruct (handle s2); [rewrite world_call_Ok; by eexists|]. exists (world h2). by destruct h2. }
  destruct Hclose as [w Hclose]. rewrite (M_bind_Ok _ _ _ _ _ Hclose). set (h3 := with_world _ w h2).
  assert (Hs3 : svcs h3 !! p = Some s2) by done. rewrite (M_bind_Ok _ _ _ _ _ (put_Ok _ _ _ _ Hs3)). set (h4 := with_svcs _ h3).
  assert (Hs4 : svcs h4 !! p = Some (set_handle None s2)) by apply lookup_insert_eq. step_by (host_env_Ok _ _ _ Hs4 He).
  unfold set_nsvc. set (h5 := with_env (env_svc h4) (ctx h4) (nsvc h4 - 1) h4). rewrite (M_bind_Ok _ _ h4 tt h5) by done.
  assert (Em : svcs h5 = <[p := set_handle None s2]> (svcs h1)).
  { cbn [h5 h4 h3 with_env with_svcs with_world svcs]. by rewrite Es, insert_insert_eq. }
  pose proof (ld_chain _ _ _ HL1) as Hc. pose proof (ld_nodup _ _ _ HL1) as Hnd. rewrite app_nil_r in Hc, Hnd.
  destruct (free_svc_spec p (set_handle None s2) l1 l2 h5) as (h6 & Hr6 & Hp6 & Hc6 & En6 & Hq6); [done| |done|done|].
  { rewrite Em. cbn [h5 h4 h3 with_env with_svcs with_world env_svc]. rewrite E1. by eapply chain_set. }
  step_by Hr6. exists h6. split; [done|]. split; [done|]. eapply ready_without; [exact HL1|done| |].
  - rewrite En6. cbn [h5 h4 h3 with_env with_svcs with_world nsvc]. by rewrite E3.
  - intros q s Hqp Hqs. apply Hq6; [done|]. by rewrite Em, lookup_insert_ne.
Qed.

(** ** The requests to unload *)

Definition requests (h : Host) (p : sptr) : Prop := ∃ s, svcs h !! p = Some s ∧ Z.land (flag s) SVCHOST_FLAG_REQUNLOAD ≠ 0.

Lemma unload_loop_none l : ∀ fuel o (h : Host),
  chain (svcs h) o l → (∀ p, p ∈ l → ¬ requests h p) → (length l ≤ fuel)%nat → unload_loop fuel o h = Ok (0, h).
Proof.
  induction l as [|p l IH]; intros fuel o h Hc Hno Hf; [cbn in Hc; subst o; by destruct fuel|].
  destruct Hc as (-> & s & Hs & Hc). destruct fuel as [|fuel]; [simpl in Hf; lia|]. cbn [unload_loop]. step_by (fetch_Ok _ _ _ Hs).
  assert (Hreq : Z.land (flag s) SVCHOST_FLAG_REQUNLOAD = 0).
  { destruct (decide (Z.land (flag s) SVCHOST_FLAG_REQUNLOAD = 0)) as [E|E]; [done|]. destruct (Hno p); [by left|by exists s]. }
  rewrite Hreq. rewrite (M_bind_Ok _ _ h 0 h) by done. step_by (fetch_Ok _ _ _ Hs). apply IH; [done| |simpl in Hf; lia].
  intros q Hq. apply Hno. by right.
Qed.

(** After a service is unloaded, its [next] is read. *)
Lemma next_of_freed {A} p l1 l2 (h : Host) (k : host_service → M Host A) :
  ready h (l1 ++ p :: l2) → (_ ← svchost_unload_svc p; s ← fetch p; k s) h = Fault.
Proof.
  intros HL. destruct (unload_spec p l1 l2 h HL) as (h' & Hr & Hp & _). step_by Hr. apply M_bind_Fault. by apply fetch_Fault.
Qed.

Lemma unload_loop_some l2 : ∀ l1 fuel o (h : Host) p,
  ready h (l1 ++ l2) → chain (svcs h) o l2 → p ∈ l2 → requests h p → (length l2 ≤ fuel)%nat → unload_loop fuel o h = Fault.
Proof.
  induction l2 as [|q l2 IH]; intros l1 fuel o h p HL Hc Hp Hreq Hf; [by apply elem_of_nil in Hp|].
  destruct Hc as (-> & s & Hs & Hc). destruct fuel as [|fuel]; [simpl in Hf; lia|]. cbn [unload_loop]. step_by (fetch_Ok _ _ _ Hs).
  destruct (decide (Z.land (flag s) SVCHOST_FLAG_REQUNLOAD = 0)) as [E|E].
  - rewrite E. rewrite (M_bind_Ok _ _ h 0 h) by done. step_by (fetch_Ok _ _ _ Hs).
    apply elem_of_cons in Hp as [-> |Hp]; [destruct Hreq as (s' & Hs' & Hbad); by simplify_eq|].
    apply (IH (l1 ++ [q]) fuel (next s) h p); [by rewrite <- app_assoc|done|done|done|simpl in Hf; lia].
  - apply Z.eqb_neq in E. rewrite E. cbn [negb]. by eapply next_of_freed.
Qed.

(** C20: A service of a started host is unloaded cleanly: it is stopped, taken
    off the bus and freed, the list is relinked around it wherever it stands,
    and all that holds of a started host holds of the rest. *)
Theorem svchost_unload_svc_removes p l1 l2 (h : Host) (HL : ready h (l1 ++ p :: l2)) :
  ∃ h', svchost_unload_svc p h = Ok (0, h') ∧ svcs h' !! p = None ∧ ready h' (l1 ++ l2).
Proof. by apply unload_spec. Qed.

(** C21: But its two callers go on with the [next] pointer of the service they
    have just had freed: as soon as a service asks to be unloaded, the check
    after the next message reads freed memory, and so does the end of every
    run with a service in the list. Without a request the check does
    nothing. *)
Theorem unload_reads_freed_service l (h : Host) (HL : ready h l) :
  ((∀ p, p ∈ l → ¬ requests h p) → svchost_check_unload h = Ok (0, h)) ∧
  ((∃ p, p ∈ l ∧ requests h p) → svchost_check_unload h = Fault) ∧
  (l ≠ [] → svchost_run_deinit h = Fault).
Proof.
  pose proof (ld_chain _ _ _ HL) as Hc. pose proof (ld_nodup _ _ _ HL) as Hnd. rewrite app_nil_r in Hc, Hnd.
  pose proof (chain_size _ _ _ Hc Hnd) as Hsize. unfold svchost_check_unload, svchost_run_deinit, svchost_deinit_lib.
  rewrite !(M_bind_Ok _ _ _ _ _ (gets_Ok _ _)). split; [|split].
  - intros Hno. by eapply unload_loop_none.
  - intros (p & Hp & Hreq). by apply (unload_loop_some l [] _ _ h p).
  - intros Hne. apply M_bind_Fault. rewrite !(M_bind_Ok _ _ _ _ _ (gets_Ok _ _)). destruct l as [|p l]; [done|].
    rewrite (chain_head _ _ _ _ Hc). destruct (size (svcs h)) as [|fuel]; [simpl in Hsize; lia|]. cbn [deinit_loop].
    by apply (next_of_freed p [] l).
Qed.

(** ** Messages *)

(** What happens between two rounds: the bus calls a hook, or a service
    calls the host. *)
Inductive event_step : Host → Host → Prop :=
| ev_handle p m msg r h h' : handed h p → svchost_meth_handle_hook p m msg h = Ok (r, h') → event_step h h'
| ev_intf p m r h h' : handed h p → svchost_meth_intf_hook p m h = Ok (r, h') → event_step h h'
| ev_api h h' : api_step h h' → event_step h h'
| ev_check r h h' : svchost_check_unload h = Ok (r, h') → event_step h h'.

Lemma lift_inv {A} (r : res A) (h h' : Host) a : (lift r : M Host A) h = Ok (a, h') → r = Ok a ∧ h' = h.
Proof. unfold lift. destruct r; intros Hr; simplify_eq; done. Qed.

Lemma find_method_state m n : ∀ tbl (h h' : Host) o, find_method tbl n m h = Ok (o, h') → h' = h.
Proof.
  induction n as [|n IH]; intros tbl h h' o Hr; [destruct tbl; by injection Hr|]. destruct tbl as [|t tbl]; [discriminate Hr|].
  cbn [find_method] in Hr. apply M_bind_inv in Hr as (c & h1 & Hc & Hr). apply lift_inv in Hc as [_ ->].
  apply M_bind_inv in Hr as (s & h2 & Hs & Hr). apply read_str_state in Hs as ->.
  destruct (streq s m); [|by eapply IH]. apply M_bind_inv in Hr as (f & h2 & Hf & Hr).
  apply lift_inv in Hf as [_ ->]. by injection Hr.
Qed.
Lemma find_event_state m n : ∀ tbl (h h' : Host) o, find_event tbl n m h = Ok (o, h') → h' = h.
Proof.
  induction n as [|n IH]; intros tbl h h' o Hr; [destruct tbl; by injection Hr|]. destruct tbl as [|t tbl]; [discriminate Hr|].
  cbn [find_event] in Hr. apply M_bind_inv in Hr as (c & h1 & Hc & Hr). apply lift_inv in Hc as [_ ->].
  apply M_bind_inv in Hr as (s & h2 & Hs & Hr). apply read_str_state in Hs as ->.
  destruct (_ || _); [|by eapply IH]. apply M_bind_inv in Hr as (f & h2 & Hf & Hr).
  apply lift_inv in Hf as [_ ->]. by injection Hr.
Qed.

Lemma handle_hook_framed p m msg (h h' : Host) r : handed h p → svchost_meth_handle_hook p m msg h = Ok (r, h') → framed h h'.
Proof.
  intros Hi. unfold svchost_meth_handle_hook. intros (s & h1 & Hs & Hr)%M_bind_inv. apply fetch_inv in Hs as [_ ->].
  apply M_bind_inv in Hr as (f & h1 & Hf & Hr). apply find_method_state in Hf as ->.
  destruct f as [f|]; [by eapply api_framed, meth_api|]. apply M_bind_inv in Hr as (g & h1 & Hg & Hr). apply find_event_state in Hg as ->.
  destruct g as [g|]; [by eapply api_framed, meth_api|]. by injection Hr as _ <-.
Qed.

(** A request keeps the other flags. *)
Lemma registered_request s : registered s → registered (set_flag (Z.lor (flag s) SVCHOST_FLAG_REQUNLOAD) s).
Proof.
  intros (He & [] & Hf & Hi). split; [done|]. split; [by split|]. split; [|done]. cbn [set_flag flag]. intros Hz. apply Hf.
  rewrite Z.land_lor_distr_l in Hz. by apply Z.lor_eq_0_iff in Hz as [? _].
Qed.

Lemma ready_request (h : Host) l p s :
  ready h l → svcs h !! p = Some s →
  ready (with_svcs (<[p := set_flag (Z.lor (flag s) SVCHOST_FLAG_REQUNLOAD) s]> (svcs h)) h) l.
Proof.
  intros [L1 L2 L3 L4 L5 L6] Hs. rewrite app_nil_r in *. split; rewrite ?app_nil_r; cbn [with_svcs svcs env_svc nsvc].
  - by eapply chain_set.
  - done.
  - intros q Hq. destruct (L3 q Hq) as (sq & Hsq & Hr). destruct (decide (p = q)) as [<-|Hne].
    + simplify_eq. eexists. rewrite lookup_insert_eq. split; [done|]. by apply registered_request.
    + exists sq. by rewrite lookup_insert_ne.
  - by intros q Hbad%elem_of_nil.
  - intros q r s1 t1 i j Hq Hr. assert (Hold : ∀ x s', <[p := set_flag (Z.lor (flag s) SVCHOST_FLAG_REQUNLOAD) s]> (svcs h) !! x = Some s' →
      ∃ s0, svcs h !! x = Some s0 ∧ intf s0 = intf s').
    { intros x s' Hx. destruct (decide (p = x)) as [<-|Hne]; [rewrite lookup_insert_eq in Hx; simplify_eq; by exists s|].
      rewrite lookup_insert_ne in Hx by done. by exists s'. }
    intros (s0 & Hs0 & <-)%Hold (t0 & Ht0 & <-)%Hold. by apply L5.
  - done.
Qed.

(** The condition under which a hook calls a function of the service. *)
Lemma guard_inv (b : bool) (s : host_service) (f : host_service_intf → option fptr) (h h1 : Host) o :
  (if b then i ← lift (deref (intf s)); mret (f i) else mret None) h = Ok (o, h1) → h1 = h.
Proof. destruct b; [|by intros [= _ <-]]. intros (i & h2 & Hi & Hr)%M_bind_inv. apply lift_inv in Hi as [_ ->]. by injection Hr. Qed.

Lemma intf_hook_ready p m (h h' : Host) r l : ready h l → handed h p → svchost_meth_intf_hook p m h = Ok (r, h') → ready h' l.
Proof.
  intros HL Hh. unfold svchost_meth_intf_hook. intros (s & h1 & Hs & Hr)%M_bind_inv. apply fetch_inv in Hs as [Hs ->]. cbv zeta in Hr.
  apply M_bind_inv in Hr as (o & h1 & Hg & Hr). apply guard_inv in Hg as ->.
  destruct o as [f|]; [eapply framed_loading; [by eapply api_framed, svc_api|done]|].
  apply M_bind_inv in Hr as (o & h1 & Hg & Hr). apply guard_inv in Hg as ->.
  destruct o as [f|]; [eapply framed_loading; [by eapply api_framed, svc_api|done]|]. destruct (is_prefix _ _).
  - apply M_bind_inv in Hr as (i & h1 & Hi & Hr). apply lift_inv in Hi as [_ ->].
    destruct (status i) as [f|]; [eapply framed_loading; [by eapply api_framed, status_api|done]|].
    apply M_bind_inv in Hr as (s' & h1 & Hs' & Hr). apply fetch_inv in Hs' as [_ ->].
    apply M_bind_inv in Hr as (i' & h1 & Hi & Hr). apply lift_inv in Hi as [_ ->]. by injection Hr as _ <-.
  - destruct (is_prefix (cs "__unload") m); [|by injection Hr as _ <-].
    rewrite (M_bind_Ok _ _ _ _ _ (put_Ok _ _ _ _ Hs)) in Hr. injection Hr as _ <-. by apply ready_request.
Qed.

Lemma check_unload_ready (h h' : Host) r l : ready h l → svchost_check_unload h = Ok (r, h') → ready h' l.
Proof.
  intros HL. pose proof (ld_chain _ _ _ HL) as Hc. pose proof (ld_nodup _ _ _ HL) as Hnd. rewrite app_nil_r in Hc, Hnd.
  pose proof (chain_size _ _ _ Hc Hnd) as Hsize. unfold svchost_check_unload. rewrite !(M_bind_Ok _ _ _ _ _ (gets_Ok _ _)). intros Hr.
  set (wants := λ p, from_option (λ s, negb (Z.land (flag s) SVCHOST_FLAG_REQUNLOAD =? 0)) false (svcs h !! p)).
  assert (Hw : ∀ p, wants p = true ↔ requests h p).
  { intros p. unfold wants, requests. destruct (svcs h !! p) as [s|]; cbn; [|split; [done|by intros (s & ? & _)]].
    rewrite negb_true_iff, Z.eqb_neq. split; [intros ?; by exists s|]. intros (s' & Hs' & ?). by simplify_eq. }
  destruct (decide (Exists (λ p, wants p = true) l)) as [(p & Hp & Hreq%Hw)%Exists_exists|He].
  - rewrite (unload_loop_some l [] _ _ h p) in Hr by done. discriminate Hr.
  - rewrite (unload_loop_none l) in Hr; [by injection Hr as _ <-|done| |done]. intros p Hp Hreq%Hw. apply He, Exists_exists.
    by exists p.
Qed.

Lemma event_ready (h h' : Host) l : ready h l → event_step h h' → ready h' l.
Proof.
  intros HL Hs. revert HL. destruct Hs as [p m msg r h1 h2 Hi Hr|p m r h1 h2 Hi Hr|h1 h2 Hs|r h1 h2 Hr]; intros HL.
  - eapply framed_loading; [by eapply handle_hook_framed|done].
  - by eapply intf_hook_ready.
  - eapply framed_loading; [|done]. by eapply api_framed, rtc_once.
  - by eapply check_unload_ready.
Qed.

(** C18: Started with the list the parser made, the host, if the bus can be
    reached within the attempts counted by [tries], loads, checks and
    registers every service or gives up with [-1], and it does not fail in
    any other way. When it succeeds, then the start functions of those
    services whose interface has the flag 1 have been called, in the order of
    the list and after all were registered, and those of no others; and
    whatever messages arrive and whatever the services register from then on, each service of the list
    stays reachable in its place, has its start and stop functions and an id
    of its own that is not zero, is counted, is flagged as registered, and
    has a method table whose first four entries are the built-in ones and
    whose names and counts are sound. *)
Theorem svchost_run_init_starts tries (h : Host) l
  (Hp : parsed h l) (Hc : 0 ≤ fst (uloop_init (world h)) → connects tries (snd (uloop_init (world h)))) :
  ∃ r h1, svchost_run_init tries h = Ok (r, h1) ∧ (r = -1 ∨ r = 0) ∧
    (r = 0 → (∃ h0, ready h0 l ∧ each (svcs h0) flag_kept l ∧ starts l h0 h1) ∧ ∀ h2, rtc event_step h1 h2 → ready h2 l).
Proof.
  destruct (run_init_spec tries h l Hp Hc) as (r & h1 & Hr & Hl). exists r, h1. split; [done|]. split; [tauto|].
  intros ->. destruct Hl as [Hl|(_ & Hl & Hst)]; [discriminate Hl|]. split; [done|]. intros h2 Hs. clear Hr Hst. induction Hs as [|x y z Hxy _ IH]; [done|].
  by eapply IH, event_ready.
Qed.
End run.

(** ** The demo host *)

Lemma demo_ready : ready demo_started [1%nat; 2%nat].
Proof.
  destruct (run_init_spec 1 demo_host [1%nat; 2%nat] demo_parsed) as (r & h & Hr & Hl); [done|]. rewrite demo_runs in Hr.
  pose proof (ok_state _ _ _ _ Hr) as <-. pose proof (ok_value _ _ _ _ Hr) as <-.
  destruct Hl as [Hl|(_ & Hl & _)]; [discriminate Hl|exact Hl].
Qed.

(** The second service after a request to unload it. *)
Definition demo_asked : host nat := match svchost_meth_intf_hook 2%nat (cs "__unload") demo_started with Ok (_, h) => h | _ => demo_started end.

Lemma demo_asked_ready : ready demo_asked [1%nat; 2%nat] ∧ requests demo_asked 2%nat.
Proof.
  assert (Hr : svchost_meth_intf_hook 2%nat (cs "__unload") demo_started = Ok (0, demo_asked)) by (vm_compute; reflexivity). split.
  - eapply (intf_hook_ready 2%nat _ demo_started); [exact demo_ready| |exact Hr]. intros s Hs.
    destruct (ld_reg _ _ _ demo_ready 2%nat) as (s' & Hs' & _ & _ & _ & i & Hi & _); [by right; left|].
    rewrite Hs in Hs'. injection Hs' as <-. exists i. exact Hi.
  - eexists. split; [vm_compute; reflexivity|]. by vm_compute.
Qed.

Example svchost_run_init_starts_witness :
  (∃ h1, svchost_run_init 1 demo_host = Ok (0, h1)) ∧
  ∃ r h1, svchost_run_init 1 demo_host = Ok (r, h1) ∧ (r = -1 ∨ r = 0) ∧ 
    (r = 0 → (∃ h0, ready h0 [1%nat; 2%nat] ∧ each (svcs h0) flag_kept [1%nat; 2%nat] ∧ starts [1%nat; 2%nat] h0 h1) ∧
             ∀ h2, rtc event_step h1 h2 → ready h2 [1%nat; 2%nat]).
Proof.
  split; [eexists; exact demo_runs|]. apply (svchost_run_init_starts 1 demo_host [1%nat; 2%nat]); [exact demo_parsed|done].
Defined.

Example svchost_unload_svc_removes_witness :
  ∃ h', svchost_unload_svc 2%nat demo_started = Ok (0, h') ∧ svcs h' !! 2%nat = None ∧ ready h' [1%nat].
Proof. apply (svchost_unload_svc_removes 2%nat [1%nat] []). exact demo_ready. Defined.

Example unload_reads_freed_service_witness :
  (∃ p, p ∈ [1%nat; 2%nat] ∧ requests demo_asked p) ∧
  ((∀ p, p ∈ [1%nat; 2%nat] → ¬ requests demo_asked p) → svchost_check_unload demo_asked = Ok (0, demo_asked)) ∧
  ((∃ p, p ∈ [1%nat; 2%nat] ∧ requests demo_asked p) → svchost_check_unload demo_asked = Fault) ∧
  ([1%nat; 2%nat] ≠ [] → svchost_run_deinit demo_asked = Fault).
Proof.
  split; [exists 2%nat; split; [right; by left|apply demo_asked_ready]|]. apply (unload_reads_freed_service [1%nat; 2%nat]). apply demo_asked_ready.
Defined.
End SvcRun.
