(* ===== verification/SvcDispatch.v ===== *)
(** * Which function a message reaches

    A service registers a table of methods and a table of events; afterwards
    the hook of the host picks the function for a message by its name. *)

From stdpp Require Import gmap.
From S2P Require Import Prelude CString SvcHost SvcProps SvcDemo SvcRun.
Open Scope Z_scope.

Module SvcDispatch.
Import SvcHost SvcProps SvcDemo SvcRun.

(** The abstract tables: names and functions. *)
Abbreviation names := (list (cstr * fptr)).

(** An event name loses a star at its end when it is registered. *)
Definition unstar (s : cstr) : cstr := if bool_decide (last s = Some STAR) then removelast s else s.

Definition method_for (ms : names) (m : cstr) : option fptr := snd <$> List.find (λ x, streq (fst x) m) ms.
Definition event_for (es : names) (m : cstr) : option fptr :=
  snd <$> List.find (λ x, (strlen (unstar (fst x)) =? 0) || streq (unstar (fst x)) m) es.

(** The first method of the name; if there is none, the first event whose
    name, without the star, is the name or is empty. *)
Definition target (ms es : names) (m : cstr) : option fptr :=
  match method_for ms m with Some f => Some f | None => event_for es m end.

Section dispatch.
Context `{Externs U} `{!ServiceLaws U}.
Abbreviation Host := (host U).

(** A string in a memory of strings. *)
Definition str_at (m : gmap nat cstr) (c : char_ptr) : option cstr := match c with Lit s => Some s | Mem a => m !! a end.

Lemma read_str_Ok (h : Host) c s : str_at (strs h) c = Some s → read_str c h = Ok (s, h).
Proof.
  destruct c as [s'|a]; [by intros [= ->]|]. intros Ha. unfold read_str. rewrite (M_bind_Ok _ _ _ _ _ (gets_Ok _ _)).
  cbn in Ha. by rewrite Ha.
Qed.

Definition method_at (m : gmap nat cstr) (t : host_service_method) (x : cstr * fptr) : Prop :=
  ∃ c, meth_name t = Some c ∧ str_at m c = Some (fst x) ∧ method t = Some (snd x).
Definition event_at (m : gmap nat cstr) (t : host_service_event) (x : cstr * fptr) : Prop :=
  ∃ c, event_name t = Some c ∧ str_at m c = Some (fst x) ∧ event_fn t = Some (snd x).

(** The strings of a table of events that are not literals. *)
Definition event_mem (t : host_service_event) : option nat :=
  match event_name t with Some (Mem a) => Some a | _ => None end.
Definition mems (et : list host_service_event) : list nat := omap event_mem et.

(** ** The search *)

Lemma find_method_run m (h : Host) tbl ms :
  Forall2 (method_at (strs h)) tbl ms → find_method tbl (length tbl) m h = Ok (method_for ms m, h).
Proof.
  induction 1 as [|t x tbl ms (c & Hc & Hs & Hf) _ IH]; [done|]. cbn [length find_method]. rewrite Hc, Hf.
  rewrite (M_bind_Ok _ _ h c h) by done. step_by (read_str_Ok _ _ _ Hs). unfold method_for in *. cbn [List.find].
  by destruct (streq (fst x) m).
Qed.
Lemma find_event_run m (h : Host) tbl es :
  Forall2 (λ t x, event_at (strs h) t (unstar (fst x), snd x)) tbl es → find_event tbl (length tbl) m h = Ok (event_for es m, h).
Proof.
  induction 1 as [|t x tbl es (c & Hc & Hs & Hf) _ IH]; [done|]. cbn [length find_event]. rewrite Hc, Hf.
  rewrite (M_bind_Ok _ _ h c h) by done. step_by (read_str_Ok _ _ _ Hs). unfold event_for in *. cbn [List.find fst snd].
  by destruct (_ || _).
Qed.

(** ** Registration *)

Lemma put_inner_Ok (h : Host) p k f s :
  svcs h !! p = Some s → 0 ≤ k < zlen (inner_meth s) →
  put_inner p k f h = Ok (tt, with_svcs (<[p := inner_to s (alter f (Z.to_nat k) (inner_meth s))]> (svcs h)) h).
Proof.
  intros Hs Hk. unfold put_inner. step_by (fetch_Ok _ _ _ Hs).
  replace ((0 <=? k) && (k <? zlen (inner_meth s))) with true by (symmetry; apply andb_true_iff; zbool).
  by rewrite (put_Ok _ _ _ _ Hs).
Qed.

Lemma strlen_pos s : s ≠ [] → (strlen s =? 0) = false.
Proof. intros Hs. apply Z.eqb_neq. destruct s; [done|]. unfold strlen. simpl. lia. Qed.

Lemma meth_loop_run p m tbl ms : Forall2 (method_at m) tbl ms → ∀ k s (h : Host),
  Forall (λ x, fst x ≠ []) ms → strs h = m → svcs h !! p = Some s → 0 ≤ k → k + zlen tbl ≤ zlen (inner_meth s) →
  ∃ h', meth_loop p tbl (length tbl) k h = Ok (k + zlen tbl, h') ∧ strs h' = m.
Proof.
  induction 1 as [|t x tbl ms (c & Hc & Hx & Hf) _ IH]; intros k s h Hne <- Hs Hk Hb.
  - exists h. cbn [length meth_loop]. by rewrite Z.add_0_r.
  - apply Forall_cons in Hne as [Hx0 Hne]. cbn [length meth_loop] in *. rewrite Hc, Hf. step_by (read_str_Ok _ _ _ Hx).
    rewrite strlen_pos by done. erewrite M_bind_Ok by (apply put_inner_Ok; [exact Hs|lia]).
    match goal with |- context [meth_loop p tbl (length tbl) (k + 1) ?h2] => set (h1 := h2) end.
    destruct (IH (k + 1) (inner_to s (alter (λ m, {| name := Some c; handler := handler m |}) (Z.to_nat k) (inner_meth s))) h1) as (h' & Hr & Hm);
      [done|done|apply lookup_insert_eq|lia| |].
    { cbn [inner_to set_inner inner_meth]. rewrite length_alter. lia. }
    exists h'. rewrite Hr. split; [|done]. do 2 f_equal. lia.
Qed.

(** The names afterwards: those with a star have lost it. *)
Definition starred (t : host_service_event) (x : cstr * fptr) : Prop :=
  last (fst x) = Some STAR → is_Some (event_mem t).

Lemma cut_last_Ok (h : Host) a s : strs h !! a = Some s →
  cut_last (Mem a) h = Ok (tt, with_world (<[a := removelast s]> (strs h)) (world h) h).
Proof. intros Ha. unfold cut_last. by step_by (read_str_Ok h (Mem a) s Ha). Qed.

Lemma str_at_ne m a s c : c ≠ Mem a → str_at (<[a := s]> m) c = str_at m c.
Proof. destruct c as [|b]; [done|]. intros Hne. cbn. apply lookup_insert_ne. congruence. Qed.

Lemma cut_event (h : Host) t x c :
  event_name t = Some c → str_at (strs h) c = Some (fst x) → starred t x →
  ∃ m', (if bool_decide (last (fst x) = Some STAR) then cut_last c else mret tt) h = Ok (tt, with_world m' (world h) h) ∧
    str_at m' c = Some (unstar (fst x)) ∧ ∀ c', event_mem t = None ∨ c' ≠ c → str_at m' c' = str_at (strs h) c'.
Proof.
  intros Hc Hx Hst. unfold unstar. destruct (bool_decide (last (fst x) = Some STAR)) eqn:E.
  - apply bool_decide_eq_true in E. destruct (Hst E) as [a Ha]. unfold event_mem in *. rewrite Hc in *. destruct c as [|a']; [done|].
    eexists. split; [by apply cut_last_Ok|]. split; [apply lookup_insert_eq|]. intros c' [Hbad|Hne]; [done|]. by apply str_at_ne.
  - exists (strs h). split; [by destruct h|]. by split.
Qed.

Lemma event_at_keep m m' tbl es :
  (∀ t c, t ∈ tbl → event_name t = Some c → str_at m' c = str_at m c) → Forall2 (event_at m) tbl es → Forall2 (event_at m') tbl es.
Proof.
  intros Hk Hev. induction Hev as [|t x tbl es (c & Hc & Hx & Hf) _ IH]; [constructor|]. constructor.
  - exists c. split; [done|]. rewrite (Hk t c) by (done || by left). done.
  - apply IH. intros t' c' Ht. apply Hk. by right.
Qed.

Lemma mems_in t tbl a : t ∈ tbl → event_name t = Some (Mem a) → a ∈ mems tbl.
Proof. intros Ht Hn. apply list_elem_of_omap. exists t. unfold event_mem. by rewrite Hn. Qed.

Lemma event_loop_run p tbl es : (∀ pat w, fst (ubus_register_event_handler p pat w) = 0) →
  ∀ k s (h : Host),
  Forall2 (event_at (strs h)) tbl es → Forall2 starred tbl es → Forall (λ x, fst x ≠ []) es → NoDup (mems tbl) →
  svcs h !! p = Some s → env s = true → 0 ≤ k → k + zlen tbl ≤ zlen (inner_meth s) →
  ∃ h', event_loop p tbl (length tbl) k h = Ok (k + zlen tbl, h') ∧
    Forall2 (λ t x, event_at (strs h') t (unstar (fst x), snd x)) tbl es ∧
    ∀ c, (∀ a, c = Mem a → a ∉ mems tbl) → str_at (strs h') c = str_at (strs h) c.
Proof.
  intros Hbus. revert es. induction tbl as [|t tbl IH]; intros es k s h Hev Hst Hne Hnd Hs He Hk Hb.
  { inversion Hev; subst. exists h. cbn [length event_loop]. rewrite Z.add_0_r. by split_and!. }
  inversion Hev as [|? x ? es' (c & Hc & Hx & Hf) Hev']; subst. inversion Hst as [|? ? ? ? Hst1 Hst']; subst.
  apply Forall_cons in Hne as [Hx0 Hne]. cbn [length event_loop] in *. rewrite Hc, Hf. step_by (read_str_Ok _ _ _ Hx).
  rewrite strlen_pos by done. step_by (host_env_Ok _ _ _ Hs He). rewrite (M_bind_Ok _ _ _ _ _ (world_call_Ok _ _)), Hbus. cbn [Z.eqb negb].
  set (h1 := with_world _ _ h). assert (Hs1 : svcs h1 !! p = Some s) by done.
  erewrite M_bind_Ok by (apply put_inner_Ok; [exact Hs1|lia]). set (h2 := with_svcs _ h1).
  destruct (cut_event h2 t x c Hc Hx Hst1) as (m' & Hcut & Hc' & Hother). step_by Hcut. set (h3 := with_world _ _ h2).
  assert (Hmem : ∀ a, event_mem t = Some a → c = Mem a ∧ a ∉ mems tbl).
  { intros a Ha. cbn [mems omap list_omap] in Hnd. rewrite Ha in Hnd. apply NoDup_cons in Hnd as [Hnd _]. split; [|done].
    unfold event_mem in Ha. rewrite Hc in Ha. destruct c; by simplify_eq. }
  assert (Hkeep : ∀ c', (∀ a, c' = Mem a → event_mem t ≠ Some a) → str_at m' c' = str_at (strs h) c').
  { intros c1 Hc1. apply (Hother c1). destruct (event_mem t) as [a|] eqn:Ea; [|by left]. right. intros ->.
    destruct (Hmem a eq_refl) as [-> _]. by destruct (Hc1 a). }
  destruct (IH es' (k + 1) (inner_to s (alter (λ m, {| name := Some c; handler := handler m |}) (Z.to_nat k) (inner_meth s))) h3)
    as (h' & Hr & Hfin & Hfin'); [| done|done| |apply lookup_insert_eq|done|lia| |].
  - eapply event_at_keep; [|exact Hev']. intros t' c' Ht' Hc1. apply Hkeep. intros a -> Ha. apply (Hmem a Ha). by eapply mems_in.
  - cbn [mems omap list_omap] in Hnd. destruct (event_mem t); [by apply NoDup_cons in Hnd as [_ ?]|done].
  - cbn [inner_to set_inner inner_meth]. rewrite length_alter. lia.
  - exists h'. rewrite Hr. split; [do 2 f_equal; lia|]. split.
    + constructor; [|done]. exists c. split; [done|]. split; [|done]. rewrite Hfin'; [done|]. intros a ->. apply Hmem. unfold event_mem. by rewrite Hc.
    + intros c' Hc1. rewrite Hfin'.
      * apply Hkeep. intros a -> Ha. apply (Hc1 a eq_refl). cbn [mems omap list_omap]. rewrite Ha. by left.
      * intros a -> Hbad. apply (Hc1 a eq_refl). cbn [mems omap list_omap]. destruct (event_mem t); [by right|done].
Qed.

(** A service that has registered neither, or one, of its tables. *)
Lemma no_methods s : table_ok s → meth s = None → meth_cnt s = 0.
Proof. intros Ht Hm. pose proof (to_meth _ Ht) as [Hc _]. rewrite Hm in Hc. simpl in Hc. lia. Qed.
Lemma no_events s : table_ok s → event s = None → evt_cnt s = 0.
Proof. intros Ht Hm. pose proof (to_event _ Ht) as [Hc _]. rewrite Hm in Hc. simpl in Hc. lia. Qed.
Lemma count_pos s : table_ok s → 4 ≤ inner_cnt s.
Proof. intros Ht. pose proof (to_count _ Ht). pose proof (to_meth _ Ht) as [? _]. pose proof (to_event _ Ht) as [? _]. lia. Qed.

(** The start of a registration, which is the same for both. *)
Lemma fits_s32 c n : 0 ≤ c → 0 ≤ n → c + n < 512 → (HOST_SERVICE_METHOD_MAX <=? s32 (c + n)) = false.
Proof. intros. unfold s32. rewrite Z.mod_small by lia. zbool. Qed.

Lemma reg_method_run p tbl ms (h : Host) s :
  svcs h !! p = Some s → table_ok s → is_Some (intf s) → meth s = None → inner_cnt s + zlen tbl < 512 →
  Forall2 (method_at (strs h)) tbl ms → Forall (λ x, fst x ≠ []) ms →
  ∃ h' s', svchost_reg_method p tbl (zlen tbl) h = Ok (zlen tbl, h') ∧ svcs h' !! p = Some s' ∧ frame s s' ∧ strs h' = strs h ∧
    meth s' = Some tbl ∧ meth_cnt s' = zlen tbl ∧ event s' = event s ∧ inner_cnt s' = inner_cnt s + zlen tbl.
Proof.
  intros Hs Ht Hi Hm Hb Hms Hne. pose proof (count_pos s Ht) as Hpos. pose proof (to_len _ Ht) as Hlen.
  assert (Hreg : ∃ h1, svchost_reg_method p tbl (zlen tbl) h = Ok (zlen tbl, h1) ∧ strs h1 = strs h ∧
    ∃ l', svcs h1 !! p = Some (with_meth (zlen tbl) tbl s l' (inner_cnt s + zlen tbl))).
  { unfold svchost_reg_method. step_by (fetch_Ok _ _ _ Hs). rewrite Hm, (no_methods s Ht Hm), fits_s32 by lia.
    change (bool_decide (is_Some None) || (0 <? 0)) with false. cbv iota. rewrite Nat2Z.id.
    destruct (meth_loop_run p (strs h) tbl ms Hms (inner_cnt s) s h) as (h1 & Hr & Es); [done|done|done|lia|lia|]. step_by Hr.
    replace (inner_cnt s + zlen tbl - inner_cnt s) with (zlen tbl) by lia. rewrite Z.eqb_refl. cbn [negb].
    apply meth_loop_spec in Hr. destruct (Hr s Hs) as (l' & Hrun & _).
    rewrite (M_bind_Ok _ _ _ _ _ (put_Ok _ _ _ _ (reg_run_lookup _ _ _ _ _ _ _ Hrun))). eexists. split; [done|]. split; [done|].
    exists l'. apply lookup_insert_eq. }
  destruct Hreg as (h1 & Hr & Es & l' & Hs'). exists h1, (with_meth (zlen tbl) tbl s l' (inner_cnt s + zlen tbl)).
  split; [done|]. split; [done|]. split; [|done].
  assert (Hh : handed h p) by (intros s0 Hs0; by simplify_eq). pose proof (reg_method_framed _ _ _ _ _ _ Hh Hr) as Hf.
  destruct (framed_lookup _ _ _ _ Hf Hs) as (s'' & Hs'' & Hfr). by simplify_eq.
Qed.

Lemma reg_event_run p tbl es (h : Host) s : (∀ pat w, fst (ubus_register_event_handler p pat w) = 0) →
  svcs h !! p = Some s → env s = true → table_ok s → is_Some (intf s) → event s = None → inner_cnt s + zlen tbl < 512 →
  Forall2 (event_at (strs h)) tbl es → Forall2 starred tbl es → Forall (λ x, fst x ≠ []) es → NoDup (mems tbl) →
  ∃ h' s', svchost_reg_event p tbl (zlen tbl) h = Ok (zlen tbl, h') ∧ svcs h' !! p = Some s' ∧
    event s' = Some tbl ∧ evt_cnt s' = zlen tbl ∧ meth s' = meth s ∧ meth_cnt s' = meth_cnt s ∧
    Forall2 (λ t x, event_at (strs h') t (unstar (fst x), snd x)) tbl es ∧
    ∀ c, (∀ a, c = Mem a → a ∉ mems tbl) → str_at (strs h') c = str_at (strs h) c.
Proof.
  intros Hbus Hs He Ht Hi Hm Hb Hev Hst Hne Hnd. pose proof (count_pos s Ht) as Hpos. pose proof (to_len _ Ht) as Hlen.
  unfold svchost_reg_event. step_by (fetch_Ok _ _ _ Hs). rewrite Hm, (no_events s Ht Hm), fits_s32 by lia.
  change (bool_decide (is_Some None) || (0 <? 0)) with false. cbv iota. rewrite Nat2Z.id.
  destruct (event_loop_run p tbl es Hbus (inner_cnt s) s h) as (h1 & Hr & Hfin & Hk); [done|done|done|done|done|done|lia|lia|].
  step_by Hr. replace (inner_cnt s + zlen tbl - inner_cnt s) with (zlen tbl) by lia. rewrite Z.eqb_refl. cbn [negb].
  apply event_loop_spec in Hr. destruct (Hr s Hs) as (l' & Hrun & _).
  rewrite (M_bind_Ok _ _ _ _ _ (put_Ok _ _ _ _ (reg_run_lookup _ _ _ _ _ _ _ Hrun))). eexists _, _. split; [done|].
  split; [apply lookup_insert_eq|]. done.
Qed.

(** C19: A registered service that has given the host a table of methods and
    a table of events gets each message at the function [target] says: the
    first method of that name; else the first event whose name equals the
    message's, or whose name was only a star; else the sender is told that
    there is no such method. So a star matches every name on its own, but
    at the end of a longer name it is taken off and the rest has to match
    exactly. *)
Theorem dispatch_after_registration p mt et ms es (h : Host) s
  (Hbus : ∀ pat w, fst (ubus_register_event_handler p pat w) = 0)
  (Hs : svcs h !! p = Some s) (Hreg : registered s) (Hfresh : meth s = None ∧ event s = None)
  (Hb : zlen mt + zlen et < 508)
  (Hms : Forall2 (method_at (strs h)) mt ms) (Hes : Forall2 (event_at (strs h)) et es) (Hst : Forall2 starred et es)
  (Hne : Forall (λ x, fst x ≠ []) (ms ++ es)) (Hnd : NoDup (mems et))
  (Hsep : ∀ t a, t ∈ mt → meth_name t = Some (Mem a) → a ∉ mems et) :
  ∃ h1 h2, svchost_reg_method p mt (zlen mt) h = Ok (zlen mt, h1) ∧ svchost_reg_event p et (zlen et) h1 = Ok (zlen et, h2) ∧
    ∀ m msg, svchost_meth_handle_hook p m msg h2 =
      match target ms es m with Some f => call_meth f p m msg h2 | None => Ok (UBUS_STATUS_METHOD_NOT_FOUND, h2) end.
Proof.
  destruct Hreg as (He & Ht & _ & i & Hi & _). destruct Hfresh as [Hm Hev]. apply Forall_app in Hne as [Hne1 Hne2].
  assert (Hcnt : inner_cnt s = 4) by (rewrite (to_count _ Ht), (no_methods s Ht Hm), (no_events s Ht Hev); done).
  destruct (reg_method_run p mt ms h s) as (h1 & s1 & Hr1 & Hs1 & Hf1 & Es1 & M1 & M2 & M3 & M4);
    [done|done|by rewrite Hi|done|lia|done|done|].
  destruct (reg_event_run p et es h1 s1) as (h2 & s2 & Hr2 & Hs2 & N1 & N2 & N3 & N4 & Hfin & Hk);
    [done|done|by rewrite (fr_env _ _ Hf1)|by apply Hf1|by rewrite (fr_intf _ _ Hf1), Hi|congruence|lia|by rewrite Es1|done|done|done|].
  exists h1, h2. split; [done|]. split; [done|]. intros m msg. unfold svchost_meth_handle_hook, target. step_by (fetch_Ok _ _ _ Hs2).
  rewrite N1, N2, N3, N4, M1, M2, !Nat2Z.id. cbn [table from_option].
  assert (Hms2 : Forall2 (method_at (strs h2)) mt ms).
  { clear - Hms Hsep Hk Es1. induction Hms as [|t x mt ms (c & Hc & Hx & Hf) _ IH]; [constructor|]. constructor.
    - exists c. split; [done|]. rewrite Hk, Es1; [done|]. intros a ->. apply (Hsep t); [by left|done].
    - apply IH. intros t' a Ht'. apply Hsep. by right. }
  step_by (find_method_run m h2 mt ms Hms2). destruct (method_for ms m) as [f|]; [done|].
  step_by (find_event_run m h2 et es Hfin). by destruct (event_for es m).
Qed.
End dispatch.

(** ** A service of the demo host *)

Definition demo_second : host_service := default (fresh "" None None) (svcs demo_started !! 2%nat).
Definition demo_methods : list host_service_method :=
  [{| meth_name := Some (Lit (cs "boot")); method := Some 7%nat |}; {| meth_name := Some (Lit (cs "wan")); method := Some 8%nat |}].
Definition demo_events : list host_service_event :=
  [{| event_name := Some (Lit (cs "cfg.internal")); event_fn := Some 9%nat |}; {| event_name := Some (Mem 5%nat); event_fn := Some 10%nat |}].

Lemma demo_second_registered : svcs demo_started !! 2%nat = Some demo_second ∧ registered demo_second ∧ meth demo_second = None ∧ event demo_second = None.
Proof.
  assert (Hs : svcs demo_started !! 2%nat = Some demo_second) by (vm_compute; reflexivity). split; [exact Hs|]. split; [|split; vm_compute; reflexivity].
  destruct (ld_reg _ _ _ demo_ready 2%nat) as (s' & Hs' & Hr); [by right; left|]. 
  assert (s' = demo_second) as <- by (apply (inj Some); rewrite <- Hs'; exact Hs). exact Hr.
Qed.

Example dispatch_after_registration_witness :
  let ms := [(cs "boot", 7%nat); (cs "wan", 8%nat)] in let es := [(cs "cfg.internal", 9%nat); (cs "*", 10%nat)] in
  map (target ms es) [cs "wan"; cs "cfg.internal"; cs "pon"] = [Some 8%nat; Some 9%nat; Some 10%nat] ∧
  ∃ h1 h2, svchost_reg_method 2%nat demo_methods 2 demo_started = Ok (2, h1) ∧ svchost_reg_event 2%nat demo_events 2 h1 = Ok (2, h2) ∧
    ∀ m msg, svchost_meth_handle_hook 2%nat m msg h2 =
      match target ms es m with Some f => call_meth f 2%nat m msg h2 | None => Ok (UBUS_STATUS_METHOD_NOT_FOUND, h2) end.
Proof.
  intros ms es. split; [vm_compute; reflexivity|].
  apply (dispatch_after_registration 2%nat demo_methods demo_events ms es demo_started demo_second).
  - done.
  - apply demo_second_registered.
  - apply demo_second_registered.
  - apply demo_second_registered.
  - done.
  - repeat constructor; eexists; split_and!; reflexivity.
  - constructor; [|constructor; [|constructor]]; eexists; (split; [reflexivity|]); (split; [vm_compute; reflexivity|reflexivity]).
  - constructor; [intros Hbad; vm_compute in Hbad; discriminate Hbad|]. constructor; [|constructor]. intros _. by eexists.
  - repeat constructor; discriminate.
  - apply (bool_decide_unpack _). by vm_compute.
  - intros t a Ht Hn. apply elem_of_cons in Ht as [-> |Ht]; [discriminate Hn|].
    apply list_elem_of_singleton in Ht as ->. discriminate Hn.
Defined.
End SvcDispatch.
