(* ===== verification/Crc.v ===== *)
(** * CRC-32 ([service/cfg/hashmap.c], [service/cfg/cfg_romfile.c])

    The two table-driven CRC routines of the configuration service, with
    their tables as they stand in the source, and the proof that both compute
    the bit-serial CRC of polynomial [0xedb88320]. *)

From S2P Require Import Prelude CString.
Open Scope Z_scope.

Module Crc.

(** [crc32_tab] of [hashmap.c]. *)
Definition crc32_tab : list Z :=
  [
    0x00000000; 0x77073096; 0xee0e612c; 0x990951ba; 0x076dc419; 0x706af48f;
    0xe963a535; 0x9e6495a3; 0x0edb8832; 0x79dcb8a4; 0xe0d5e91e; 0x97d2d988;
    0x09b64c2b; 0x7eb17cbd; 0xe7b82d07; 0x90bf1d91; 0x1db71064; 0x6ab020f2;
    0xf3b97148; 0x84be41de; 0x1adad47d; 0x6ddde4eb; 0xf4d4b551; 0x83d385c7;
    0x136c9856; 0x646ba8c0; 0xfd62f97a; 0x8a65c9ec; 0x14015c4f; 0x63066cd9;
    0xfa0f3d63; 0x8d080df5; 0x3b6e20c8; 0x4c69105e; 0xd56041e4; 0xa2677172;
    0x3c03e4d1; 0x4b04d447; 0xd20d85fd; 0xa50ab56b; 0x35b5a8fa; 0x42b2986c;
    0xdbbbc9d6; 0xacbcf940; 0x32d86ce3; 0x45df5c75; 0xdcd60dcf; 0xabd13d59;
    0x26d930ac; 0x51de003a; 0xc8d75180; 0xbfd06116; 0x21b4f4b5; 0x56b3c423;
    0xcfba9599; 0xb8bda50f; 0x2802b89e; 0x5f058808; 0xc60cd9b2; 0xb10be924;
    0x2f6f7c87; 0x58684c11; 0xc1611dab; 0xb6662d3d; 0x76dc4190; 0x01db7106;
    0x98d220bc; 0xefd5102a; 0x71b18589; 0x06b6b51f; 0x9fbfe4a5; 0xe8b8d433;
    0x7807c9a2; 0x0f00f934; 0x9609a88e; 0xe10e9818; 0x7f6a0dbb; 0x086d3d2d;
    0x91646c97; 0xe6635c01; 0x6b6b51f4; 0x1c6c6162; 0x856530d8; 0xf262004e;
    0x6c0695ed; 0x1b01a57b; 0x8208f4c1; 0xf50fc457; 0x65b0d9c6; 0x12b7e950;
    0x8bbeb8ea; 0xfcb9887c; 0x62dd1ddf; 0x15da2d49; 0x8cd37cf3; 0xfbd44c65;
    0x4db26158; 0x3ab551ce; 0xa3bc0074; 0xd4bb30e2; 0x4adfa541; 0x3dd895d7;
    0xa4d1c46d; 0xd3d6f4fb; 0x4369e96a; 0x346ed9fc; 0xad678846; 0xda60b8d0;
    0x44042d73; 0x33031de5; 0xaa0a4c5f; 0xdd0d7cc9; 0x5005713c; 0x270241aa;
    0xbe0b1010; 0xc90c2086; 0x5768b525; 0x206f85b3; 0xb966d409; 0xce61e49f;
    0x5edef90e; 0x29d9c998; 0xb0d09822; 0xc7d7a8b4; 0x59b33d17; 0x2eb40d81;
    0xb7bd5c3b; 0xc0ba6cad; 0xedb88320; 0x9abfb3b6; 0x03b6e20c; 0x74b1d29a;
    0xead54739; 0x9dd277af; 0x04db2615; 0x73dc1683; 0xe3630b12; 0x94643b84;
    0x0d6d6a3e; 0x7a6a5aa8; 0xe40ecf0b; 0x9309ff9d; 0x0a00ae27; 0x7d079eb1;
    0xf00f9344; 0x8708a3d2; 0x1e01f268; 0x6906c2fe; 0xf762575d; 0x806567cb;
    0x196c3671; 0x6e6b06e7; 0xfed41b76; 0x89d32be0; 0x10da7a5a; 0x67dd4acc;
    0xf9b9df6f; 0x8ebeeff9; 0x17b7be43; 0x60b08ed5; 0xd6d6a3e8; 0xa1d1937e;
    0x38d8c2c4; 0x4fdff252; 0xd1bb67f1; 0xa6bc5767; 0x3fb506dd; 0x48b2364b;
    0xd80d2bda; 0xaf0a1b4c; 0x36034af6; 0x41047a60; 0xdf60efc3; 0xa867df55;
    0x316e8eef; 0x4669be79; 0xcb61b38c; 0xbc66831a; 0x256fd2a0; 0x5268e236;
    0xcc0c7795; 0xbb0b4703; 0x220216b9; 0x5505262f; 0xc5ba3bbe; 0xb2bd0b28;
    0x2bb45a92; 0x5cb36a04; 0xc2d7ffa7; 0xb5d0cf31; 0x2cd99e8b; 0x5bdeae1d;
    0x9b64c2b0; 0xec63f226; 0x756aa39c; 0x026d930a; 0x9c0906a9; 0xeb0e363f;
    0x72076785; 0x05005713; 0x95bf4a82; 0xe2b87a14; 0x7bb12bae; 0x0cb61b38;
    0x92d28e9b; 0xe5d5be0d; 0x7cdcefb7; 0x0bdbdf21; 0x86d3d2d4; 0xf1d4e242;
    0x68ddb3f8; 0x1fda836e; 0x81be16cd; 0xf6b9265b; 0x6fb077e1; 0x18b74777;
    0x88085ae6; 0xff0f6a70; 0x66063bca; 0x11010b5c; 0x8f659eff; 0xf862ae69;
    0x616bffd3; 0x166ccf45; 0xa00ae278; 0xd70dd2ee; 0x4e048354; 0x3903b3c2;
    0xa7672661; 0xd06016f7; 0x4969474d; 0x3e6e77db; 0xaed16a4a; 0xd9d65adc;
    0x40df0b66; 0x37d83bf0; 0xa9bcae53; 0xdebb9ec5; 0x47b2cf7f; 0x30b5ffe9;
    0xbdbdf21c; 0xcabac28a; 0x53b39330; 0x24b4a3a6; 0xbad03605; 0xcdd70693;
    0x54de5729; 0x23d967bf; 0xb3667a2e; 0xc4614ab8; 0x5d681b02; 0x2a6f2b94;
    0xb40bbe37; 0xc30c8ea1; 0x5a05df1b; 0x2d02ef8d
  ].

(** [crc_32_tab] of [cfg_romfile.c]. *)
Definition crc_32_tab : list Z :=
  [
    0x00000000; 0x77073096; 0xee0e612c; 0x990951ba; 0x076dc419; 0x706af48f;
    0xe963a535; 0x9e6495a3; 0x0edb8832; 0x79dcb8a4; 0xe0d5e91e; 0x97d2d988;
    0x09b64c2b; 0x7eb17cbd; 0xe7b82d07; 0x90bf1d91; 0x1db71064; 0x6ab020f2;
    0xf3b97148; 0x84be41de; 0x1adad47d; 0x6ddde4eb; 0xf4d4b551; 0x83d385c7;
    0x136c9856; 0x646ba8c0; 0xfd62f97a; 0x8a65c9ec; 0x14015c4f; 0x63066cd9;
    0xfa0f3d63; 0x8d080df5; 0x3b6e20c8; 0x4c69105e; 0xd56041e4; 0xa2677172;
    0x3c03e4d1; 0x4b04d447; 0xd20d85fd; 0xa50ab56b; 0x35b5a8fa; 0x42b2986c;
    0xdbbbc9d6; 0xacbcf940; 0x32d86ce3; 0x45df5c75; 0xdcd60dcf; 0xabd13d59;
    0x26d930ac; 0x51de003a; 0xc8d75180; 0xbfd06116; 0x21b4f4b5; 0x56b3c423;
    0xcfba9599; 0xb8bda50f; 0x2802b89e; 0x5f058808; 0xc60cd9b2; 0xb10be924;
    0x2f6f7c87; 0x58684c11; 0xc1611dab; 0xb6662d3d; 0x76dc4190; 0x01db7106;
    0x98d220bc; 0xefd5102a; 0x71b18589; 0x06b6b51f; 0x9fbfe4a5; 0xe8b8d433;
    0x7807c9a2; 0x0f00f934; 0x9609a88e; 0xe10e9818; 0x7f6a0dbb; 0x086d3d2d;
    0x91646c97; 0xe6635c01; 0x6b6b51f4; 0x1c6c6162; 0x856530d8; 0xf262004e;
    0x6c0695ed; 0x1b01a57b; 0x8208f4c1; 0xf50fc457; 0x65b0d9c6; 0x12b7e950;
    0x8bbeb8ea; 0xfcb9887c; 0x62dd1ddf; 0x15da2d49; 0x8cd37cf3; 0xfbd44c65;
    0x4db26158; 0x3ab551ce; 0xa3bc0074; 0xd4bb30e2; 0x4adfa541; 0x3dd895d7;
    0xa4d1c46d; 0xd3d6f4fb; 0x4369e96a; 0x346ed9fc; 0xad678846; 0xda60b8d0;
    0x44042d73; 0x33031de5; 0xaa0a4c5f; 0xdd0d7cc9; 0x5005713c; 0x270241aa;
    0xbe0b1010; 0xc90c2086; 0x5768b525; 0x206f85b3; 0xb966d409; 0xce61e49f;
    0x5edef90e; 0x29d9c998; 0xb0d09822; 0xc7d7a8b4; 0x59b33d17; 0x2eb40d81;
    0xb7bd5c3b; 0xc0ba6cad; 0xedb88320; 0x9abfb3b6; 0x03b6e20c; 0x74b1d29a;
    0xead54739; 0x9dd277af; 0x04db2615; 0x73dc1683; 0xe3630b12; 0x94643b84;
    0x0d6d6a3e; 0x7a6a5aa8; 0xe40ecf0b; 0x9309ff9d; 0x0a00ae27; 0x7d079eb1;
    0xf00f9344; 0x8708a3d2; 0x1e01f268; 0x6906c2fe; 0xf762575d; 0x806567cb;
    0x196c3671; 0x6e6b06e7; 0xfed41b76; 0x89d32be0; 0x10da7a5a; 0x67dd4acc;
    0xf9b9df6f; 0x8ebeeff9; 0x17b7be43; 0x60b08ed5; 0xd6d6a3e8; 0xa1d1937e;
    0x38d8c2c4; 0x4fdff252; 0xd1bb67f1; 0xa6bc5767; 0x3fb506dd; 0x48b2364b;
    0xd80d2bda; 0xaf0a1b4c; 0x36034af6; 0x41047a60; 0xdf60efc3; 0xa867df55;
    0x316e8eef; 0x4669be79; 0xcb61b38c; 0xbc66831a; 0x256fd2a0; 0x5268e236;
    0xcc0c7795; 0xbb0b4703; 0x220216b9; 0x5505262f; 0xc5ba3bbe; 0xb2bd0b28;
    0x2bb45a92; 0x5cb36a04; 0xc2d7ffa7; 0xb5d0cf31; 0x2cd99e8b; 0x5bdeae1d;
    0x9b64c2b0; 0xec63f226; 0x756aa39c; 0x026d930a; 0x9c0906a9; 0xeb0e363f;
    0x72076785; 0x05005713; 0x95bf4a82; 0xe2b87a14; 0x7bb12bae; 0x0cb61b38;
    0x92d28e9b; 0xe5d5be0d; 0x7cdcefb7; 0x0bdbdf21; 0x86d3d2d4; 0xf1d4e242;
    0x68ddb3f8; 0x1fda836e; 0x81be16cd; 0xf6b9265b; 0x6fb077e1; 0x18b74777;
    0x88085ae6; 0xff0f6a70; 0x66063bca; 0x11010b5c; 0x8f659eff; 0xf862ae69;
    0x616bffd3; 0x166ccf45; 0xa00ae278; 0xd70dd2ee; 0x4e048354; 0x3903b3c2;
    0xa7672661; 0xd06016f7; 0x4969474d; 0x3e6e77db; 0xaed16a4a; 0xd9d65adc;
    0x40df0b66; 0x37d83bf0; 0xa9bcae53; 0xdebb9ec5; 0x47b2cf7f; 0x30b5ffe9;
    0xbdbdf21c; 0xcabac28a; 0x53b39330; 0x24b4a3a6; 0xbad03605; 0xcdd70693;
    0x54de5729; 0x23d967bf; 0xb3667a2e; 0xc4614ab8; 0x5d681b02; 0x2a6f2b94;
    0xb40bbe37; 0xc30c8ea1; 0x5a05df1b; 0x2d02ef8d
  ].

(** Table access; the index is masked to 8 bits by every caller. *)
Definition tab_get (t : list Z) (i : Z) : Z := default 0 (t !! Z.to_nat i).

(** One byte of either routine, on a register of 32 bits
    ([UPDC32(octet, crc)] in [cfg_romfile.c]). *)
Definition updc32 (t : list Z) (octet crc : Z) : Z :=
  Z.lxor (tab_get t (Z.land (Z.lxor crc octet) 255)) (Z.shiftr crc 8).

(** [crc32] of [hashmap.c]: the buffer is [unsigned char]. *)
Fixpoint crc32_loop (s : list Z) (crc32val : Z) : Z :=
  match s with
  | [] => crc32val
  | c :: s' => crc32_loop s' (updc32 crc32_tab c crc32val)
  end.
Definition crc32 (s : list Z) : Z := crc32_loop s 0.

(** [compute_crc32buf] of [cfg_romfile.c]: the buffer is [char], so an octet
    enters the exclusive-or sign-extended to 32 bits. *)
Fixpoint compute_crc32buf_loop (s : list Z) (crc : Z) : Z :=
  match s with
  | [] => crc
  | c :: s' => compute_crc32buf_loop s' (updc32 crc_32_tab (u32 (schar c)) crc)
  end.
Definition compute_crc32buf (s : list Z) : Z := compute_crc32buf_loop s 0xFFFFFFFF.

(** ** Reference: the shift register, one bit at a time *)

Definition crc_poly : Z := 0xedb88320.

Definition crc_bit (r : Z) : Z :=
  if Z.testbit r 0 then Z.lxor (Z.shiftr r 1) crc_poly else Z.shiftr r 1.

Definition crc_byte (r c : Z) : Z := Nat.iter 8 crc_bit (Z.lxor r c).

Definition crc_ref (init : Z) (s : list Z) : Z := foldl crc_byte init s.

(** ** The table routine is the shift register *)

Lemma crc_bit_lxor x y : crc_bit (Z.lxor x y) = Z.lxor (crc_bit x) (crc_bit y).
Proof.
  unfold crc_bit. rewrite Z.lxor_spec, Z.shiftr_lxor.
  destruct (Z.testbit x 0), (Z.testbit y 0); simpl; apply Z.bits_inj'; intros n Hn;
    rewrite ?Z.lxor_spec;
    destruct (Z.testbit (Z.shiftr x 1) n), (Z.testbit (Z.shiftr y 1) n), (Z.testbit crc_poly n);
    done.
Qed.

Lemma crc_bits_lxor k x y :
  Nat.iter k crc_bit (Z.lxor x y) = Z.lxor (Nat.iter k crc_bit x) (Nat.iter k crc_bit y).
Proof. induction k as [|k IH]; simpl; [done|]. by rewrite IH, crc_bit_lxor. Qed.

(** Bits above the register's low end only move down. *)
Lemma crc_bits_shift k x : Nat.iter k crc_bit (Z.shiftl x (Z.of_nat k)) = x.
Proof.
  revert x. induction k as [|k IH]; intros x; [apply Z.shiftl_0_r|].
  rewrite Nat.iter_succ_r.
  replace (crc_bit (Z.shiftl x (Z.of_nat (S k)))) with (Z.shiftl x (Z.of_nat k)); [apply IH|].
  unfold crc_bit. rewrite Z.shiftl_spec_low by lia.
  rewrite Z.shiftr_shiftl_l by lia. f_equal. lia.
Qed.

(** Split a register into its low byte and the rest. *)
Lemma split_low_byte v : v = Z.lxor (Z.land v 255) (Z.shiftl (Z.shiftr v 8) 8).
Proof.
  apply Z.bits_inj'. intros n Hn.
  rewrite Z.lxor_spec, Z.land_spec, Z.shiftl_spec by lia.
  change 255 with (Z.ones 8).
  destruct (Z.lt_ge_cases n 8).
  - rewrite Z.ones_spec_low, andb_true_r, (Z.testbit_neg_r _ (n - 8)) by lia.
    by rewrite xorb_false_r.
  - rewrite Z.ones_spec_high, andb_false_r, Z.shiftr_spec by lia.
    rewrite xorb_false_l. f_equal. lia.
Qed.

Definition tab_ok (t : list Z) : bool :=
  forallb (λ i, tab_get t i =? Nat.iter 8 crc_bit i) (seqZ 0 256).

Lemma tab_ok_spec t i : tab_ok t = true → 0 ≤ i < 256 → tab_get t i = Nat.iter 8 crc_bit i.
Proof.
  unfold tab_ok. rewrite forallb_forall. intros H Hi. apply Z.eqb_eq, H.
  apply list_elem_of_In, elem_of_seqZ. lia.
Qed.

Lemma crc32_tab_ok : tab_ok crc32_tab = true.
Proof. by vm_compute. Qed.

Lemma crc_32_tab_ok : tab_ok crc_32_tab = true.
Proof. by vm_compute. Qed.

Lemma land_255_range v : 0 ≤ Z.land v 255 < 256.
Proof. change 255 with (Z.ones 8). rewrite Z.land_ones by lia. apply Z.mod_pos_bound. lia. Qed.

Lemma shiftr_lxor_byte crc c : 0 ≤ c < 256 → Z.shiftr (Z.lxor crc c) 8 = Z.shiftr crc 8.
Proof.
  intros Hc. rewrite Z.shiftr_lxor, (Z.shiftr_div_pow2 c) by lia.
  rewrite Z.div_small by lia. apply Z.lxor_0_r.
Qed.

Lemma updc32_crc_byte t c crc :
  tab_ok t = true → 0 ≤ c < 256 → updc32 t c crc = crc_byte crc c.
Proof.
  intros Ht Hc. unfold updc32, crc_byte.
  rewrite (split_low_byte (Z.lxor crc c)) at 2.
  rewrite crc_bits_lxor, (crc_bits_shift 8), shiftr_lxor_byte by done.
  rewrite (tab_ok_spec t) by (done || apply land_255_range). done.
Qed.

(** The register always holds 32 bits: a sign-extended octet only changes
    bits the mask removes. *)
Lemma updc32_octet t c crc : 0 ≤ c < 256 → updc32 t (u32 (schar c)) crc = updc32 t c crc.
Proof.
  intros Hc. unfold updc32. do 2 f_equal. apply Z.bits_inj'. intros n Hn.
  change 255 with (Z.ones 8).
  rewrite !Z.land_spec, !Z.lxor_spec. destruct (Z.lt_ge_cases n 8);
    [|by rewrite Z.ones_spec_high, !andb_false_r by lia].
  do 2 f_equal. unfold u32, schar.
  rewrite <- (Z.mod_pow2_bits_low _ 8 n), <- (Z.mod_pow2_bits_low c 8 n) by lia. f_equal.
  change (2 ^ 8) with 256. rewrite <- Znumtheory.Zmod_div_mod; [|lia|lia|by exists (2 ^ 24)].
  rewrite Zminus_mod_idemp_l. f_equal. lia.
Qed.

Lemma crc32_loop_ref s r : Forall byte_ok s → crc32_loop s r = crc_ref r s.
Proof.
  intros Hs. revert r. induction Hs as [|c s Hc Hs IH]; intros r; simpl; [done|].
  rewrite IH, updc32_crc_byte by (apply crc32_tab_ok || apply Hc). done.
Qed.

Lemma compute_crc32buf_loop_ref s r :
  Forall byte_ok s → compute_crc32buf_loop s r = crc_ref r s.
Proof.
  intros Hs. revert r. induction Hs as [|c s Hc Hs IH]; intros r; simpl; [done|].
  rewrite IH, updc32_octet, updc32_crc_byte by (apply crc_32_tab_ok || apply Hc). done.
Qed.

(** ** Range and injectivity *)

Lemma crc_bit_range r : 0 ≤ r < 2 ^ 32 → 0 ≤ crc_bit r < 2 ^ 32.
Proof.
  intros Hr. unfold crc_bit.
  assert (Hs : 0 ≤ Z.shiftr r 1 < 2 ^ 32).
  { rewrite Z.shiftr_div_pow2 by lia. split; [apply Z.div_pos; lia|].
    apply Z.div_lt_upper_bound; lia. }
  destruct (Z.testbit r 0); [|done].
  split; [apply Z.lxor_nonneg; unfold crc_poly; lia|].
  destruct (Z.eq_dec (Z.lxor (Z.shiftr r 1) crc_poly) 0) as [->|Hne]; [lia|].
  apply Z.log2_lt_pow2.
  - assert (0 ≤ Z.lxor (Z.shiftr r 1) crc_poly) by (apply Z.lxor_nonneg; unfold crc_poly; lia). lia.
  - eapply Z.le_lt_trans; [apply Z.log2_lxor; unfold crc_poly; lia|].
    apply Z.max_lub_lt; [|by vm_compute].
    destruct (Z.eq_dec (Z.shiftr r 1) 0) as [->|?]; [by vm_compute|].
    apply Z.log2_lt_pow2; lia.
Qed.

(** The top bit tells whether the polynomial was added, so a step can be
    undone. *)
Lemma crc_bit_top r : 0 ≤ r < 2 ^ 32 → Z.testbit (crc_bit r) 31 = Z.testbit r 0.
Proof.
  intros Hr. unfold crc_bit.
  assert (H32 : Z.testbit r 32 = false).
  { apply (Z.bits_above_log2); [lia|]. destruct (Z.eq_dec r 0) as [->|?]; [by vm_compute|].
    apply Z.log2_lt_pow2; lia. }
  destruct (Z.testbit r 0); rewrite ?Z.lxor_spec, Z.shiftr_spec by lia;
    change (31 + 1) with 32; rewrite H32; done.
Qed.

Lemma crc_bit_inj x y :
  0 ≤ x < 2 ^ 32 → 0 ≤ y < 2 ^ 32 → crc_bit x = crc_bit y → x = y.
Proof.
  intros Hx Hy Heq.
  assert (H0 : Z.testbit x 0 = Z.testbit y 0) by (rewrite <- !crc_bit_top by done; by rewrite Heq).
  assert (Hs : Z.shiftr x 1 = Z.shiftr y 1).
  { unfold crc_bit in Heq. rewrite H0 in Heq. destruct (Z.testbit y 0); [|done].
    apply (f_equal (λ z, Z.lxor z crc_poly)) in Heq.
    by rewrite !Z.lxor_assoc, Z.lxor_nilpotent, !Z.lxor_0_r in Heq. }
  apply Z.bits_inj'. intros n Hn. destruct (Z.eq_dec n 0) as [->|?]; [done|].
  replace n with (n - 1 + 1) by lia. rewrite <- !Z.shiftr_spec by lia. by rewrite Hs.
Qed.

Lemma lxor_range x y : 0 ≤ x < 2 ^ 32 → 0 ≤ y < 2 ^ 32 → 0 ≤ Z.lxor x y < 2 ^ 32.
Proof.
  intros Hx Hy. split; [apply Z.lxor_nonneg; lia|].
  assert (0 ≤ Z.lxor x y) by (apply Z.lxor_nonneg; lia).
  destruct (Z.eq_dec (Z.lxor x y) 0) as [->|Hne]; [lia|].
  apply Z.log2_lt_pow2; [lia|]. eapply Z.le_lt_trans; [apply Z.log2_lxor; lia|].
  assert (Hl : ∀ z, 0 ≤ z < 2 ^ 32 → Z.log2 z < 32).
  { intros z Hz. destruct (Z.eq_dec z 0) as [->|?]; [by vm_compute|]. apply Z.log2_lt_pow2; lia. }
  apply Z.max_lub_lt; auto.
Qed.

Lemma crc_bits_range k r : 0 ≤ r < 2 ^ 32 → 0 ≤ Nat.iter k crc_bit r < 2 ^ 32.
Proof. intros Hr. induction k as [|k IH]; [done|]. by apply crc_bit_range. Qed.

Lemma crc_byte_range r c : 0 ≤ r < 2 ^ 32 → byte_ok c → 0 ≤ crc_byte r c < 2 ^ 32.
Proof. intros Hr Hc. unfold byte_ok in Hc. apply crc_bits_range, lxor_range; lia. Qed.

Lemma crc_ref_range r s : 0 ≤ r < 2 ^ 32 → Forall byte_ok s → 0 ≤ crc_ref r s < 2 ^ 32.
Proof.
  intros Hr Hs. revert r Hr. induction Hs as [|c s Hc Hs IH]; intros r Hr; simpl; [done|].
  by apply IH, crc_byte_range.
Qed.

Lemma crc_bits_inj k x y :
  0 ≤ x < 2 ^ 32 → 0 ≤ y < 2 ^ 32 → Nat.iter k crc_bit x = Nat.iter k crc_bit y → x = y.
Proof.
  intros Hx Hy. induction k as [|k IH]; simpl; [done|]. intros H%crc_bit_inj; auto using crc_bits_range.
Qed.

Lemma lxor_cancel_r x y c : Z.lxor x c = Z.lxor y c → x = y.
Proof.
  intros H. apply (f_equal (λ z, Z.lxor z c)) in H.
  by rewrite !Z.lxor_assoc, Z.lxor_nilpotent, !Z.lxor_0_r in H.
Qed.

Lemma crc_ref_inj_init s x y :
  0 ≤ x < 2 ^ 32 → 0 ≤ y < 2 ^ 32 → Forall byte_ok s → crc_ref x s = crc_ref y s → x = y.
Proof.
  intros Hx Hy Hs. revert x y Hx Hy.
  induction Hs as [|c s Hc Hs IH]; intros x y Hx Hy; simpl; [done|].
  intros H%IH; auto using crc_byte_range. unfold crc_byte in H. unfold byte_ok in Hc.
  apply crc_bits_inj in H; try (apply lxor_range; lia). by apply lxor_cancel_r in H.
Qed.

Lemma crc_ref_app r s t : crc_ref r (s ++ t) = crc_ref (crc_ref r s) t.
Proof. apply foldl_app. Qed.

(** ** Properties *)

(** C36: both table-driven CRC routines compute the reflected CRC-32 with polynomial
    0xedb88320 bit by bit, [crc32] of hashmap.c from the register 0 and
    [compute_crc32buf] of cfg_romfile.c from 0xFFFFFFFF (the sign of the [char] it reads
    does not matter), and their result is a 32-bit word. *)
Theorem crc_tables_are_bit_serial s :
  Forall byte_ok s →
  crc32 s = crc_ref 0 s ∧ compute_crc32buf s = crc_ref 0xFFFFFFFF s ∧
  0 ≤ crc32 s < 2 ^ 32 ∧ 0 ≤ compute_crc32buf s < 2 ^ 32.
Proof.
  intros Hs. unfold crc32, compute_crc32buf.
  rewrite crc32_loop_ref, compute_crc32buf_loop_ref by done.
  repeat split; try apply crc_ref_range; done || lia.
Qed.

(** The check value of the CRC catalogue, complemented: "123456789". *)
Lemma crc_tables_are_bit_serial_witness :
  Forall byte_ok (cs "123456789") ∧
  compute_crc32buf (cs "123456789") = crc_ref 0xFFFFFFFF (cs "123456789") ∧
  Z.lxor (compute_crc32buf (cs "123456789")) 0xFFFFFFFF = 0xCBF43926.
Proof.
  assert (H : Forall byte_ok (cs "123456789")) by by_compute.
  split; [exact H|]. split; [|vm_compute; reflexivity].
  exact (proj1 (proj2 (crc_tables_are_bit_serial (cs "123456789") H))).
Defined.

(** The checksum stored with a saved configuration detects every change of a single
    byte. *)
Theorem compute_crc32buf_detects_byte_change pre c c' post :
  Forall byte_ok (pre ++ c :: post) → byte_ok c' → c ≠ c' →
  compute_crc32buf (pre ++ c :: post) ≠ compute_crc32buf (pre ++ c' :: post).
Proof.
  intros Hall Hc' Hne Heq. apply Forall_app in Hall as [Hpre [Hc Hpost]%Forall_cons].
  unfold compute_crc32buf in Heq.
  rewrite !compute_crc32buf_loop_ref in Heq by (apply Forall_app; auto).
  rewrite !crc_ref_app in Heq. simpl in Heq.
  assert (Hr : 0 ≤ crc_ref 0xFFFFFFFF pre < 2 ^ 32) by (apply crc_ref_range; done || lia).
  apply crc_ref_inj_init in Heq; auto using crc_byte_range.
  unfold crc_byte, byte_ok in *. apply crc_bits_inj in Heq; try (apply lxor_range; lia).
  rewrite !(Z.lxor_comm (crc_ref _ _)) in Heq. by apply lxor_cancel_r in Heq.
Qed.

Lemma compute_crc32buf_detects_byte_change_witness :
  compute_crc32buf (cs "ab" ++ chr "c" :: cs "d") ≠ compute_crc32buf (cs "ab" ++ chr "x" :: cs "d").
Proof.
  apply compute_crc32buf_detects_byte_change; [by_compute|by_compute|done].
Defined.
End Crc.
