(* ===== verification/HashMap.v ===== *)
(** * The string-keyed hash map ([service/cfg/hashmap.c])

    Open addressing with a probe sequence of [MAX_CHAIN_LENGTH] slots and
    doubling on overflow.  [stored] is what a table holds for a key, its values
    in probe order, [amap] the finite map of a table that holds each key once;
    lookups, removals and insertions of new keys are shown to implement them,
    and the two ways in which re-inserting a key goes wrong are exhibited. *)

From S2P Require Import Prelude CString Crc.
Open Scope Z_scope.

Module HashMap.

Definition MAP_MISSING : Z := -3.
Definition MAP_FULL : Z := -2.
Definition MAP_OMEM : Z := -1.
Definition MAP_OK : Z := 0.
Definition INITIAL_SIZE : Z := 256.
Definition MAX_CHAIN_LENGTH : nat := 8.

(** [hashmap_element]; the key is kept by pointer, [None] being [NULL], and a
    client value is a pointer, [0] being [NULL]. *)
Record elem := { e_key : option cstr; e_in_use : Z; e_data : Z }.

(** [hashmap_map]. *)
Record hmap := { table_size : Z; size : Z; data : list elem }.

Definition empty_elem : elem := {| e_key := None; e_in_use := 0; e_data := 0 |}.

(** What [calloc(n, sizeof(hashmap_element))] returns. *)
Definition calloc_table (n : Z) : list elem := replicate (Z.to_nat n) empty_elem.

(** The mixing steps of [hashmap_hash_int], on 32-bit words. *)
Definition hash_mix (key : Z) : Z :=
  let key := u32 (key + u32 (Z.shiftl key 12)) in
  let key := Z.lxor key (Z.shiftr key 22) in
  let key := u32 (key + u32 (Z.shiftl key 4)) in
  let key := Z.lxor key (Z.shiftr key 9) in
  let key := u32 (key + u32 (Z.shiftl key 10)) in
  let key := Z.lxor key (Z.shiftr key 2) in
  let key := u32 (key + u32 (Z.shiftl key 7)) in
  let key := Z.lxor key (Z.shiftr key 12) in
  u32 (Z.shiftr key 3 * 2654435761).

Definition hashmap_hash_int (m : hmap) (keystring : cstr) : Z :=
  hash_mix (Crc.crc32 keystring) mod table_size m.

(** [m->data[curr]]. *)
Definition slot (m : hmap) (curr : Z) : res elem :=
  if (0 <=? curr) && (curr <? table_size m) then deref (data m !! Z.to_nat curr) else Fault.

Definition set_slot (m : hmap) (curr : Z) (e : elem) : list elem :=
  <[Z.to_nat curr := e]> (data m).

(** [in_use == 1 && strcmp(.key, key) == 0]. *)
Definition holds (e : elem) (key : cstr) : res bool :=
  if e_in_use e =? 1 then k ← deref (e_key e); mret (streq k key) else mret false.

(** The probing loop of [hashmap_hash]. *)
Fixpoint hash_loop (n : nat) (m : hmap) (curr : Z) (key : cstr) : res Z :=
  match n with
  | O => mret MAP_FULL
  | S n' =>
      e ← slot m curr;
      if e_in_use e =? 0 then mret curr
      else
        b ← holds e key;
        if (b : bool) then mret curr
        else hash_loop n' m ((curr + 1) mod table_size m) key
  end.

Definition hashmap_hash (m : hmap) (key : cstr) : res Z :=
  if Z.quot (table_size m) 2 <=? size m then mret MAP_FULL
  else hash_loop MAX_CHAIN_LENGTH m (hashmap_hash_int m key) key.

(** The searching loop of [hashmap_get] and [hashmap_remove]: the slot that
    holds the key. *)
Fixpoint find_loop (n : nat) (m : hmap) (curr : Z) (key : cstr) : res (option (Z * elem)) :=
  match n with
  | O => mret None
  | S n' =>
      e ← slot m curr;
      b ← holds e key;
      if (b : bool) then mret (Some (curr, e))
      else find_loop n' m ((curr + 1) mod table_size m) key
  end.

Definition hashmap_get (m : hmap) (key : cstr) : res (Z * Z) :=
  r ← find_loop MAX_CHAIN_LENGTH m (hashmap_hash_int m key) key;
  match r with
  | Some (_, e) => mret (MAP_OK, e_data e)
  | None => mret (MAP_MISSING, 0)
  end.

Definition hashmap_remove (m : hmap) (key : cstr) : res (Z * hmap) :=
  r ← find_loop MAX_CHAIN_LENGTH m (hashmap_hash_int m key) key;
  match r with
  | Some (curr, _) =>
      mret (MAP_OK, {| table_size := table_size m; size := size m - 1;
                       data := set_slot m curr empty_elem |})
  | None => mret (MAP_MISSING, m)
  end.

Definition hashmap_length (m : option hmap) : Z :=
  match m with Some m => size m | None => 0 end.

(** [hashmap_iterate]: the callback threads the client's [item]. *)
Fixpoint iterate_loop {S} (f : S → Z → Z * S) (es : list elem) (item : S) : Z * S :=
  match es with
  | [] => (MAP_OK, item)
  | e :: es' =>
      if e_in_use e =? 0 then iterate_loop f es' item
      else
        let '(status, item') := f item (e_data e) in
        if status =? MAP_OK then iterate_loop f es' item' else (status, item')
  end.

Definition hashmap_iterate {S} (m : hmap) (f : S → Z → Z * S) (item : S) : Z * S :=
  if hashmap_length (Some m) <=? 0 then (MAP_MISSING, item)
  else iterate_loop f (data m) item.

(** The clearing loop of [hashmap_remove_all]: the new table, the number of
    slots cleared, and what was passed to [free]. *)
Fixpoint remove_all_loop (es : list elem) : list elem * Z * list Z * list cstr :=
  match es with
  | [] => ([], 0, [], [])
  | e :: es' =>
      let '(t, n, ds, ks) := remove_all_loop es' in
      if e_in_use e =? 0 then (e :: t, n, ds, ks)
      else
        (empty_elem :: t, n + 1,
         (if e_data e =? 0 then ds else e_data e :: ds),
         match e_key e with Some k => k :: ks | None => ks end)
  end.

Definition hashmap_remove_all (m : hmap) : Z * hmap * list Z * list cstr :=
  if hashmap_length (Some m) <=? 0 then (MAP_MISSING, m, [], [])
  else
    let '(t, n, ds, ks) := remove_all_loop (data m) in
    (MAP_OK, {| table_size := table_size m; size := size m - n; data := t |}, ds, ks).

Section alloc.
(** Whether [calloc] finds room for a table of [n] elements. *)
Context (calloc_ok : Z → bool).

Definition hashmap_new : option hmap :=
  if calloc_ok INITIAL_SIZE then
    Some {| table_size := INITIAL_SIZE; size := 0; data := calloc_table INITIAL_SIZE |}
  else None.

(** The reinsertion loop of [hashmap_rehash]; [put] is [hashmap_put]. *)
Fixpoint rehash_loop (put : hmap → cstr → Z → res (Z * hmap)) (curr : list elem) (m : hmap)
  : res (Z * hmap) :=
  match curr with
  | [] => mret (MAP_OK, m)
  | e :: curr' =>
      if e_in_use e =? 0 then rehash_loop put curr' m
      else
        k ← deref (e_key e);
        '(status, m') ← put m k (e_data e);
        if status =? MAP_OK then rehash_loop put curr' m' else mret (status, m')
  end.

Definition rehash_with (put : hmap → cstr → Z → res (Z * hmap)) (m : hmap) : res (Z * hmap) :=
  if INT_MAX <? 2 * table_size m then Fault
  else if calloc_ok (2 * table_size m) then
    rehash_loop put (data m)
      {| table_size := 2 * table_size m; size := 0; data := calloc_table (2 * table_size m) |}
  else mret (MAP_OMEM, m).

(** [hashmap_put] and [hashmap_rehash] call each other; a unit of fuel is
    spent per entry of [hashmap_put] and per turn of its retry loop. *)
Fixpoint hashmap_put (fuel : nat) (m : hmap) (key : cstr) (value : Z) : res (Z * hmap) :=
  match fuel with
  | O => NoFuel
  | S fuel' =>
      index ← hashmap_hash m key;
      if index =? MAP_FULL then
        '(status, m') ← rehash_with (hashmap_put fuel') m;
        if status =? MAP_OMEM then mret (MAP_OMEM, m')
        else hashmap_put fuel' m' key value
      else
        mret (MAP_OK, {| table_size := table_size m; size := size m + 1;
                         data := set_slot m index
                           {| e_key := Some key; e_in_use := 1; e_data := value |} |})
  end.

Definition hashmap_rehash (fuel : nat) (m : hmap) : res (Z * hmap) :=
  rehash_with (hashmap_put fuel) m.
End alloc.

#[local] Opaque hash_mix Crc.crc32.

(** ** Abstraction *)

Definition live_elem (e : elem) : option (cstr * Z) :=
  if e_in_use e =? 1 then (λ k, (k, e_data e)) <$> e_key e else None.

(** The bindings of a table, in slot order, and the map they make. *)
Definition live (es : list elem) : list (cstr * Z) := omap live_elem es.
Definition amap (m : hmap) : gmap cstr Z := list_to_map (live (data m)).

Definition elem_ok (e : elem) : Prop :=
  e_in_use e = 0 ∨ (e_in_use e = 1 ∧ is_Some (e_key e)).

(** The largest table 32 bits of memory can hold (12 bytes per slot). *)
Definition TABLE_LIMIT : Z := 2 ^ 29.

(** The slot probed at step [d]. *)
Definition probe (m : hmap) (k : cstr) (d : Z) : Z := (hashmap_hash_int m k + d) mod table_size m.

Record shape (m : hmap) : Prop := {
  sh_size : 0 < table_size m ≤ TABLE_LIMIT;
  sh_len : zlen (data m) = table_size m;
  sh_elems : Forall elem_ok (data m)
}.

(** Every key is stored once, within reach of its probe sequence. *)
Record wf (m : hmap) : Prop := {
  wf_shape : shape m;
  wf_nodup : NoDup (live (data m)).*1;
  wf_placed : ∀ j e k v, data m !! j = Some e → live_elem e = Some (k, v) →
              ∃ d, 0 ≤ d < Z.of_nat MAX_CHAIN_LENGTH ∧ Z.of_nat j = probe m k d
}.

(** The element counter agrees with the number of bindings. *)
Definition counted (m : hmap) : Prop := size m = Z.of_nat (base.size (amap m)).

(** ** Bindings of a table *)

Lemma live_elem_Some e k v :
  live_elem e = Some (k, v) ↔ e_in_use e = 1 ∧ e_key e = Some k ∧ e_data e = v.
Proof.
  unfold live_elem. destruct (e_in_use e =? 1) eqn:E; zify_bool; [|naive_solver].
  destruct (e_key e); naive_solver.
Qed.

Lemma live_app es1 es2 : live (es1 ++ es2) = live es1 ++ live es2.
Proof. apply omap_app. Qed.

Lemma elem_of_live es k v : (k, v) ∈ live es ↔ ∃ e, e ∈ es ∧ live_elem e = Some (k, v).
Proof. apply list_elem_of_omap. Qed.

Lemma app_swap_perm {A} (a b c d : list A) : (a ++ b ++ c) ++ d ≡ₚ b ++ a ++ d ++ c.
Proof.
  rewrite <- !(assoc_L (++)), (Permutation_app_swap_app a b).
  by rewrite (Permutation_app_comm c d).
Qed.

Lemma live_insert es i e e' :
  es !! i = Some e → live (<[i := e']> es) ++ live [e] ≡ₚ live [e'] ++ live es.
Proof.
  intros Hi. pose proof (lookup_lt_Some _ _ _ Hi).
  rewrite insert_take_drop by done.
  rewrite <- (take_drop_middle es i e Hi) at 3.
  change (e' :: drop (S i) es) with ([e'] ++ drop (S i) es).
  change (e :: drop (S i) es) with ([e] ++ drop (S i) es).
  rewrite !live_app. apply app_swap_perm.
Qed.

Lemma amap_lookup m k v : NoDup (live (data m)).*1 → amap m !! k = Some v ↔ (k, v) ∈ live (data m).
Proof. intros Hnd. unfold amap. symmetry. by apply elem_of_list_to_map. Qed.

Lemma amap_absent m k : amap m !! k = None ↔ k ∉ (live (data m)).*1.
Proof. unfold amap. symmetry. apply not_elem_of_list_to_map. Qed.

(** ** Probing *)

Lemma hash_int_range m k : shape m → 0 ≤ hashmap_hash_int m k < table_size m.
Proof. intros [? _ _]. apply Z.mod_pos_bound. lia. Qed.

Lemma probe_range m k d : shape m → 0 ≤ probe m k d < table_size m.
Proof. intros [? _ _]. apply Z.mod_pos_bound. lia. Qed.

Lemma probe_0 m k : shape m → probe m k 0 = hashmap_hash_int m k.
Proof. intros H. unfold probe. rewrite Z.add_0_r, Z.mod_small; [done|]. by apply hash_int_range. Qed.

Lemma probe_succ m k d : (probe m k d + 1) mod table_size m = probe m k (d + 1).
Proof. unfold probe. rewrite Zplus_mod_idemp_l. f_equal. lia. Qed.

Lemma slot_ok m i : shape m → 0 ≤ i < table_size m →
  ∃ e, slot m i = Ok e ∧ data m !! Z.to_nat i = Some e ∧ elem_ok e.
Proof.
  intros [Hs Hl He] Hi. unfold slot.
  rewrite (proj2 (Z.leb_le 0 i)), (proj2 (Z.ltb_lt i _)) by lia. simpl.
  destruct (lookup_lt_is_Some_2 (data m) (Z.to_nat i)) as [e Hle]; [lia|].
  rewrite Hle. exists e. repeat split. rewrite Forall_lookup in He. eauto.
Qed.

Lemma holds_ok e k : elem_ok e → ∃ b, holds e k = Ok b ∧ (b = true ↔ ∃ v, live_elem e = Some (k, v)).
Proof.
  intros [H0|[H1 [k' Hk']]]; unfold holds, live_elem.
  - rewrite H0. simpl. eexists. split; [done|]. naive_solver.
  - rewrite H1, Hk'. simpl. eexists. split; [done|]. rewrite streq_eq. naive_solver.
Qed.

Lemma live_elem_in_use e : elem_ok e → e_in_use e = 0 ↔ live_elem e = None.
Proof.
  intros [H0|[H1 [k Hk]]]; unfold live_elem; rewrite ?H0, ?H1, ?Hk; simpl; naive_solver.
Qed.

Lemma find_loop_spec n m k d :
  shape m →
  (∃ i e v, find_loop n m (probe m k d) k = Ok (Some (i, e)) ∧ 0 ≤ i < table_size m ∧
            data m !! Z.to_nat i = Some e ∧ live_elem e = Some (k, v)) ∨
  (find_loop n m (probe m k d) k = Ok None ∧
   ∀ d' e v, d ≤ d' < d + Z.of_nat n → data m !! Z.to_nat (probe m k d') = Some e →
             live_elem e ≠ Some (k, v)).
Proof.
  intros Hsh. revert d. induction n as [|n IH]; intros d; [right; split; [done|]; lia|].
  destruct (slot_ok m (probe m k d)) as (e & He & Hd & Hok); [done|by apply probe_range|].
  destruct (holds_ok e k Hok) as (b & Hb & Hbk).
  cbn [find_loop]. unfold mbind, res_bind. rewrite He, Hb. destruct b.
  - left. destruct Hbk as [[v Hv] _]; [done|]. exists (probe m k d), e, v.
    repeat split; try done; by apply probe_range.
  - rewrite probe_succ. destruct (IH (d + 1)) as [Hl|[Hf Hnone]]; [by left|right].
    split; [done|]. intros d' e' v Hd' He' Hv.
    destruct (Z.eq_dec d' d) as [->|?].
    + assert (e' = e) as -> by congruence. destruct Hbk as [_ Hbk].
      discriminate Hbk. eauto.
    + eapply Hnone; [|done|done]. lia.
Qed.

Lemma hash_loop_spec n m k d :
  shape m →
  hash_loop n m (probe m k d) k = Ok MAP_FULL ∨
  ∃ d' e, d ≤ d' < d + Z.of_nat n ∧ hash_loop n m (probe m k d) k = Ok (probe m k d') ∧
          data m !! Z.to_nat (probe m k d') = Some e ∧
          (live_elem e = None ∨ ∃ v, live_elem e = Some (k, v)).
Proof.
  intros Hsh. revert d. induction n as [|n IH]; intros d; [by left|].
  destruct (slot_ok m (probe m k d)) as (e & He & Hd & Hok); [done|by apply probe_range|].
  destruct (holds_ok e k Hok) as (b & Hb & Hbk).
  cbn [hash_loop]. unfold mbind, res_bind. rewrite He.
  destruct (e_in_use e =? 0) eqn:E0; zify_bool.
  - right. exists d, e. repeat split; [lia|lia|done|]. left. by apply live_elem_in_use.
  - rewrite Hb. destruct b.
    + right. exists d, e. repeat split; [lia|lia|done|]. right. by apply Hbk.
    + rewrite probe_succ. destruct (IH (d + 1)) as [Hl|(d' & e' & Hd' & Hrest)]; [by left|right].
      exists d', e'. split; [lia|done].
Qed.

Lemma hashmap_hash_spec m k :
  shape m →
  hashmap_hash m k = Ok MAP_FULL ∨
  ∃ d e, 0 ≤ d < Z.of_nat MAX_CHAIN_LENGTH ∧ hashmap_hash m k = Ok (probe m k d) ∧
         data m !! Z.to_nat (probe m k d) = Some e ∧
         (live_elem e = None ∨ ∃ v, live_elem e = Some (k, v)).
Proof.
  intros Hsh. unfold hashmap_hash. destruct (_ <=? _); [by left|].
  rewrite <- probe_0 by done. exact (hash_loop_spec MAX_CHAIN_LENGTH m k 0 Hsh).
Qed.

(** ** Lookup *)

Lemma live_in_table m j e k v : data m !! j = Some e → live_elem e = Some (k, v) → (k, v) ∈ live (data m).
Proof. intros Hj He. apply elem_of_live. exists e. split; [|done]. by eapply list_elem_of_lookup_2. Qed.

Lemma find_spec m k :
  wf m →
  match amap m !! k with
  | Some v => ∃ i e, find_loop MAX_CHAIN_LENGTH m (hashmap_hash_int m k) k = Ok (Some (i, e)) ∧
                0 ≤ i < table_size m ∧ data m !! Z.to_nat i = Some e ∧ live_elem e = Some (k, v)
  | None => find_loop MAX_CHAIN_LENGTH m (hashmap_hash_int m k) k = Ok None
  end.
Proof.
  intros [Hsh Hnd Hpl]. rewrite <- probe_0 by done.
  destruct (find_loop_spec MAX_CHAIN_LENGTH m k 0 Hsh) as [(i & e & v & Hf & Hi & He & Hv)|[Hf Hnone]].
  - pose proof (live_in_table _ _ _ _ _ He Hv) as Hin. apply amap_lookup in Hin; [|done].
    rewrite Hin. eauto 10.
  - destruct (amap m !! k) as [v|] eqn:Hv; [|done].
    apply amap_lookup in Hv; [|done]. apply elem_of_live in Hv as (e & He & Hv).
    apply list_elem_of_lookup in He as [j Hj].
    destruct (Hpl _ _ _ _ Hj Hv) as (d & Hd & Hjd).
    exfalso. apply (Hnone d e v); [lia| |done]. rewrite <- Hjd, Nat2Z.id. done.
Qed.

(** ** Insertion of a new key at a free slot *)

Lemma slot_update_wf m i e e' s' :
  wf m → 0 ≤ i < table_size m → data m !! Z.to_nat i = Some e → elem_ok e' →
  (∀ k v, live_elem e' = Some (k, v) →
     k ∉ (live (data m)).*1 ∧ ∃ d, 0 ≤ d < Z.of_nat MAX_CHAIN_LENGTH ∧ i = probe m k d) →
  wf {| table_size := table_size m; size := s'; data := set_slot m i e' |}.
Proof.
  intros [[Hs Hl He] Hnd Hpl] Hi Hie Hok' Hnew.
  assert (Hp : live (set_slot m i e') ++ live [e] ≡ₚ live [e'] ++ live (data m)) by by apply live_insert.
  split; [split; simpl; [done| |]|simpl|simpl].
  - unfold set_slot. by rewrite length_insert.
  - unfold set_slot. by apply Forall_insert.
  - assert (Hnd' : NoDup ((live [e'] ++ live (data m)).*1)).
    { rewrite fmap_app, NoDup_app. unfold live at 1 2. simpl.
      destruct (live_elem e') as [[k v]|] eqn:Hk; simpl; [|by split; [constructor|]; split; [set_solver|]].
      destruct (Hnew k v eq_refl) as [? _]. split; [apply NoDup_singleton|]. split; [set_solver|done]. }
    rewrite <- Hp, fmap_app in Hnd'. apply NoDup_app in Hnd' as [? _]. done.
  - intros j e0 k v Hj Hk. unfold set_slot in Hj.
    destruct (decide (j = Z.to_nat i)) as [->|Hne].
    + rewrite list_lookup_insert_eq in Hj by (by apply lookup_lt_Some in Hie). simplify_eq.
      destruct (Hnew k v Hk) as [_ (d & Hd & Hd')]. exists d. split; [exact Hd|].
      change (Z.of_nat (Z.to_nat i) = probe m k d). rewrite <- Hd'.
      apply Z2Nat.id. lia.
    + rewrite list_lookup_insert_ne in Hj by done. by eapply Hpl.
Qed.

Lemma slot_fill_amap m i e k v s' :
  data m !! Z.to_nat i = Some e → live_elem e = None → k ∉ (live (data m)).*1 → NoDup (live (data m)).*1 →
  amap {| table_size := table_size m; size := s';
          data := set_slot m i {| e_key := Some k; e_in_use := 1; e_data := v |} |} = <[k := v]> (amap m).
Proof.
  intros Hi He Hk Hnd. unfold amap. simpl.
  pose proof (live_insert (data m) (Z.to_nat i) e {| e_key := Some k; e_in_use := 1; e_data := v |} Hi) as Hp.
  unfold live at 2 3 in Hp. simpl in Hp. rewrite He in Hp. simpl in Hp. rewrite app_nil_r in Hp.
  rewrite (list_to_map_proper _ ((k, v) :: live (data m))); [done| |done].
  rewrite Hp. simpl. by apply NoDup_cons.
Qed.

Lemma slot_clear_amap m i e k v s' :
  data m !! Z.to_nat i = Some e → live_elem e = Some (k, v) → NoDup (live (data m)).*1 →
  amap {| table_size := table_size m; size := s'; data := set_slot m i empty_elem |} = delete k (amap m) ∧
  amap m !! k = Some v.
Proof.
  intros Hi He Hnd. unfold amap. simpl.
  pose proof (live_insert (data m) (Z.to_nat i) e empty_elem Hi) as Hp.
  unfold live at 2 3 in Hp. simpl in Hp. rewrite He in Hp. simpl in Hp.
  rewrite Permutation_app_comm in Hp. simpl in Hp.
  assert (Hnd' : NoDup (((k, v) :: live (set_slot m i empty_elem)).*1)).
  { unfold set_slot. by rewrite Hp. }
  rewrite <- (list_to_map_proper ((k, v) :: live (set_slot m i empty_elem)) (live (data m))) by done.
  simpl. rewrite lookup_insert_eq. split; [|done].
  apply NoDup_cons in Hnd' as [Hk _]. rewrite delete_insert_id; [done|].
  by apply not_elem_of_list_to_map.
Qed.

(** ** Insertion and rehashing *)

#[local] Arguments hashmap_put : simpl never.

Lemma hashmap_put_S calloc_ok fuel m key value :
  hashmap_put calloc_ok (S fuel) m key value =
  (index ← hashmap_hash m key;
   if index =? MAP_FULL then
     '(status, m') ← rehash_with calloc_ok (hashmap_put calloc_ok fuel) m;
     if status =? MAP_OMEM then mret (MAP_OMEM, m') else hashmap_put calloc_ok fuel m' key value
   else
     mret (MAP_OK, {| table_size := table_size m; size := size m + 1;
                      data := set_slot m index
                        {| e_key := Some key; e_in_use := 1; e_data := value |} |})).
Proof. reflexivity. Qed.

Section put.
Context (calloc_ok : Z → bool).
(** A 32-bit address space has no room for more slots. *)
Context (calloc_limit : ∀ n, calloc_ok n = true → n ≤ TABLE_LIMIT).

Lemma calloc_wf n :
  0 < n ≤ TABLE_LIMIT → wf {| table_size := n; size := 0; data := calloc_table n |}.
Proof.
  intros Hn.
  assert (Hel : live (calloc_table n) = []).
  { unfold calloc_table. induction (Z.to_nat n); simpl; done. }
  split; simpl.
  - split; simpl; [done| |].
    + unfold calloc_table. rewrite length_replicate. lia.
    + apply Forall_replicate. by left.
  - rewrite Hel. constructor.
  - intros j e k v Hj Hk. assert (Hin : (k, v) ∈ live (calloc_table n)).
    { apply elem_of_live. exists e. split; [|done]. by eapply list_elem_of_lookup_2. }
    rewrite Hel in Hin. set_solver.
Qed.

Lemma calloc_amap n s : amap {| table_size := n; size := s; data := calloc_table n |} = ∅.
Proof.
  unfold amap. simpl. unfold calloc_table, live.
  induction (Z.to_nat n) as [|j IH]; simpl; [done|]. exact IH.
Qed.

(** What an insertion of a new key does to the table. *)
Definition put_new_post (m : hmap) (k : cstr) (v : Z) (st : Z) (m' : hmap) : Prop :=
  wf m' ∧ table_size m ≤ table_size m' ∧
  ((st = MAP_OK ∧ amap m' = <[k := v]> (amap m) ∧ (counted m → counted m')) ∨ st = MAP_OMEM).

Definition put_new_spec (put : hmap → cstr → Z → res (Z * hmap)) : Prop :=
  ∀ m k v st m', wf m → amap m !! k = None → put m k v = Ok (st, m') → put_new_post m k v st m'.

Lemma rehash_loop_spec put es m1 st m2 :
  put_new_spec put → wf m1 → counted m1 → Forall elem_ok es → NoDup (live es).*1 →
  (∀ k, k ∈ (live es).*1 → amap m1 !! k = None) →
  rehash_loop put es m1 = Ok (st, m2) →
  wf m2 ∧ table_size m1 ≤ table_size m2 ∧
  ((st = MAP_OK ∧ counted m2 ∧ amap m2 = amap m1 ∪ list_to_map (live es)) ∨ st = MAP_OMEM).
Proof.
  intros Hput. revert m1. induction es as [|e es IH]; intros m1 Hwf Hc Hok Hnd Habs Hr.
  { injection Hr as <- <-. split; [done|]. split; [done|]. left. simpl. by rewrite map_union_empty. }
  apply Forall_cons in Hok as [He Hok]. unfold live in Hnd, Habs |- *. simpl in Hnd, Habs |- *.
  cbn [rehash_loop] in Hr. destruct (live_elem e) as [[k v]|] eqn:Hk; simpl in *.
  - apply live_elem_Some in Hk as (H1 & H2 & H3). rewrite H1, H2, H3 in Hr. simpl in Hr.
    unfold mbind, res_bind in Hr. destruct (put m1 k v) as [[st1 m']| |] eqn:Hp; try done.
    apply NoDup_cons in Hnd as [Hkn Hnd].
    destruct (Hput m1 k v st1 m' Hwf (Habs k ltac:(set_solver)) Hp) as (Hwf' & Hts & [(-> & Ham & Hc')| ->]).
    + rewrite Z.eqb_refl in Hr.
      destruct (IH m' Hwf' (Hc' Hc) Hok Hnd) as (Hwf2 & Hts2 & Hres); [|done|].
      { intros k' Hk'. rewrite Ham, lookup_insert_ne by (intros ->; done). apply Habs. set_solver. }
      split; [done|]. split; [lia|]. destruct Hres as [(-> & Hc2 & ->)| ->]; [left|by right].
      split; [done|]. split; [done|]. rewrite Ham, <- insert_union_l, insert_union_r; [done|].
      apply Habs. set_solver.
    + injection Hr as <- <-. auto.
  - apply live_elem_in_use in Hk; [|done]. rewrite Hk in Hr. simpl in Hr. by apply IH.
Qed.

Lemma rehash_with_spec put m st m' :
  put_new_spec put → wf m → rehash_with calloc_ok put m = Ok (st, m') →
  wf m' ∧ table_size m ≤ table_size m' ∧
  ((st = MAP_OK ∧ counted m' ∧ amap m' = amap m) ∨ st = MAP_OMEM).
Proof using calloc_limit.
  intros Hput Hwf. unfold rehash_with. destruct (INT_MAX <? _); [done|].
  destruct (calloc_ok (2 * table_size m)) eqn:Hc; [|intros [= <- <-]; split; [done|]; split; [done|]; by right].
  intros Hr. pose proof (sh_size _ (wf_shape _ Hwf)). apply calloc_limit in Hc.
  eapply rehash_loop_spec in Hr as (Hwf' & Hts & Hres); try done.
  - simpl in Hts. split; [done|]. split; [lia|].
    destruct Hres as [(-> & ? & ->)| ->]; [left|by right].
    rewrite calloc_amap, map_empty_union. auto.
  - apply calloc_wf. lia.
  - unfold counted. by rewrite calloc_amap.
  - apply (sh_elems _ (wf_shape _ Hwf)).
  - apply Hwf.
  - intros k _. by rewrite calloc_amap.
Qed.

Lemma put_new fuel : put_new_spec (hashmap_put calloc_ok fuel).
Proof using calloc_limit.
  induction fuel as [|fuel IH]; intros m k v st m' Hwf Hk Hp; [done|].
  rewrite hashmap_put_S in Hp. unfold mbind, res_bind in Hp.
  destruct (hashmap_hash_spec m k (wf_shape _ Hwf)) as [Hh|(d & e & Hd & Hh & He & Hfree)]; rewrite Hh in Hp.
  - simpl in Hp. destruct (rehash_with _ _ m) as [[st1 m1]| |] eqn:Hr; try done.
    apply rehash_with_spec in Hr as (Hwf1 & Hts & Hres); [|done|done].
    destruct Hres as [(-> & Hc & Ham)| ->]; simpl in Hp.
    + apply IH in Hp as (Hwf' & Hts' & Hres'); [|done|by rewrite Ham].
      split; [done|]. split; [lia|].
      destruct Hres' as [(-> & Ham' & Hc')| ->]; [left|by right].
      rewrite Ham in Ham'. auto.
    + injection Hp as <- <-. split; [done|]. auto.
  - pose proof (probe_range m k d (wf_shape _ Hwf)).
    destruct (probe m k d =? MAP_FULL) eqn:E; zify_bool; [unfold MAP_FULL in *; lia|].
    injection Hp as <- <-.
    assert (Hnone : live_elem e = None).
    { destruct Hfree as [|[v' Hv']]; [done|].
      pose proof (live_in_table _ _ _ _ _ He Hv') as Hin.
      apply amap_lookup in Hin; [congruence|apply Hwf]. }
    apply amap_absent in Hk.
    split; [|split; [done|left]].
    + apply (slot_update_wf m _ e); try done; [right; simpl; eauto|].
      intros k' v' [_ [Hk' _]]%live_elem_Some. simpl in Hk'. simplify_eq. eauto.
    + split; [done|]. erewrite slot_fill_amap by (done || apply Hwf). split; [done|].
      unfold counted. simpl. erewrite slot_fill_amap by (done || apply Hwf).
      rewrite map_size_insert_None by (by apply amap_absent). lia.
Qed.

(** *** Termination: a table can double only finitely often *)

Definition put_total_spec (f : Z) (put : hmap → cstr → Z → res (Z * hmap)) : Prop :=
  ∀ m k v, shape m → TABLE_LIMIT < table_size m * f →
  ∃ st m', put m k v = Ok (st, m') ∧ shape m' ∧ table_size m ≤ table_size m' ∧
           (st = MAP_OK ∨ st = MAP_OMEM).

Lemma rehash_loop_total put f es m1 :
  put_total_spec f put → 0 ≤ f → shape m1 → TABLE_LIMIT < table_size m1 * f → Forall elem_ok es →
  ∃ st m2, rehash_loop put es m1 = Ok (st, m2) ∧ shape m2 ∧ table_size m1 ≤ table_size m2 ∧
           (st = MAP_OK ∨ st = MAP_OMEM).
Proof.
  intros Hput Hf0. revert m1. induction es as [|e es IH]; intros m1 Hsh Hf Hok; [by eauto 10 using Z.le_refl|].
  apply Forall_cons in Hok as [He Hok]. cbn [rehash_loop].
  destruct He as [H0|[H1 [k Hk]]].
  - rewrite H0. simpl. by apply IH.
  - rewrite H1, Hk. simpl.
    destruct (Hput m1 k (e_data e) Hsh Hf) as (st & m' & Hp & Hsh' & Hts & Hst).
    unfold mbind, res_bind. rewrite Hp. destruct Hst as [-> | ->]; simpl; [|by eauto 10 using Z.le_refl].
    destruct (IH m' Hsh') as (st2 & m2 & Hr & Hsh2 & Hts2 & Hst2); [nia|done|].
    exists st2, m2. split; [done|]. split; [done|]. split; [lia|done].
Qed.

Lemma put_total n : put_total_spec (2 ^ Z.of_nat n) (hashmap_put calloc_ok (S n)).
Proof using calloc_limit.
  induction n as [|n IH]; intros m k v Hsh Hf.
  { pose proof (sh_size _ Hsh). simpl in Hf. lia. }
  rewrite Nat2Z.inj_succ, Z.pow_succ_r in Hf by lia.
  rewrite hashmap_put_S. unfold mbind, res_bind.
  destruct (hashmap_hash_spec m k Hsh) as [->|(d & e & Hd & -> & He & Hfree)].
  - simpl. unfold rehash_with. pose proof (sh_size _ Hsh).
    unfold TABLE_LIMIT, INT_MAX in *.
    rewrite (proj2 (Z.ltb_ge _ (2 * table_size m))) by lia.
    destruct (calloc_ok (2 * table_size m)) eqn:Hc; [|by eauto 10 using Z.le_refl].
    apply calloc_limit in Hc. unfold TABLE_LIMIT in Hc.
    destruct (rehash_loop_total (hashmap_put calloc_ok (S n)) (2 ^ Z.of_nat n) (data m)
                {| table_size := 2 * table_size m; size := 0; data := calloc_table (2 * table_size m) |})
      as (st & m1 & Hr & Hsh1 & Hts & Hst); try done.
    + lia.
    + apply calloc_wf. unfold TABLE_LIMIT. lia.
    + simpl. unfold TABLE_LIMIT. lia.
    + apply (sh_elems _ Hsh).
    + rewrite Hr. simpl in Hts. destruct Hst as [-> | ->]; simpl.
      * destruct (IH m1 k v Hsh1) as (st & m' & Hp & Hsh' & Hts' & Hst'); [unfold TABLE_LIMIT; nia|].
        exists st, m'. split; [done|]. split; [done|]. split; [lia|done].
      * exists MAP_OMEM, m1. split; [done|]. split; [done|]. split; [lia|by right].
  - pose proof (probe_range m k d Hsh).
    destruct (probe m k d =? MAP_FULL) eqn:E; zify_bool; [unfold MAP_FULL in *; lia|].
    eexists MAP_OK, _. split; [done|]. split; [|split; [done|by left]].
    split; simpl; [apply Hsh| |].
    + unfold set_slot. rewrite length_insert. apply Hsh.
    + unfold set_slot. apply Forall_insert; [apply Hsh|]. right. simpl. eauto.
Qed.
End put.

(** *** Writing over a stored key *)

Definition put_slot (m : hmap) (i : Z) (k : cstr) (v : Z) : hmap :=
  {| table_size := table_size m; size := size m + 1;
     data := set_slot m i {| e_key := Some k; e_in_use := 1; e_data := v |} |}.

(** After a store the probing loop stops at the slot just written. *)
Lemma hash_loop_again n m k v d i :
  shape m → hash_loop n m (probe m k d) k = Ok i → i ≠ MAP_FULL →
  hash_loop n (put_slot m i k v) (probe m k d) k = Ok i.
Proof.
  intros Hsh. revert d. induction n as [|n IH]; intros d; [intros [= <-]; done|].
  destruct (slot_ok m (probe m k d)) as (e & He & Hd & Hok); [done|by apply probe_range|].
  pose proof (probe_range m k d Hsh) as Hr. pose proof (lookup_lt_Some _ _ _ Hd).
  cbn [hash_loop]. unfold mbind, res_bind, mret, res_ret. rewrite He. intros Hloop Hne.
  assert (Hslot : ∀ e', data (put_slot m i k v) !! Z.to_nat (probe m k d) = Some e' →
                   slot (put_slot m i k v) (probe m k d) = Ok e').
  { intros e' He'. unfold slot. simpl table_size.
    rewrite (proj2 (Z.leb_le 0 _)), (proj2 (Z.ltb_lt _ _)) by lia. simpl andb. by rewrite He'. }
  destruct (decide (probe m k d = i)) as [Hi|Hi].
  - erewrite Hslot by (unfold put_slot, set_slot; simpl; rewrite Hi in *; by apply list_lookup_insert_eq).
    unfold holds. simpl. by rewrite streq_refl, Hi.
  - destruct (holds_ok e k Hok) as (b & Hb & _). rewrite Hb in Hloop.
    destruct (e_in_use e =? 0) eqn:E0; [congruence|]. destruct b; [congruence|].
    assert (0 ≤ i).
    { rewrite probe_succ in Hloop. destruct (hash_loop_spec n m k (d + 1) Hsh) as [Hf|(d' & e' & ? & Hf & _)];
        rewrite Hloop in Hf; simplify_eq. by apply probe_range. }
    erewrite Hslot by (unfold put_slot, set_slot; simpl; rewrite list_lookup_insert_ne by lia; exact Hd).
    rewrite E0, Hb. change (table_size (put_slot m i k v)) with (table_size m).
    rewrite probe_succ in Hloop |- *. by apply IH.
Qed.

(** ** Any sequence of operations

    A table in which a key is stored more than once is no longer a finite map;
    what it holds for a key is the list of its values in probe order. *)

Definition value_at (m : hmap) (k : cstr) (d : Z) : option Z :=
  e ← data m !! Z.to_nat (probe m k d);
  '(k', v) ← live_elem e;
  if decide (k' = k) then Some v else None.

Definition stored (m : hmap) (k : cstr) : list Z :=
  omap (value_at m k) (seqZ 0 (Z.of_nat MAX_CHAIN_LENGTH)).

Definition new_map : hmap :=
  {| table_size := INITIAL_SIZE; size := 0; data := calloc_table INITIAL_SIZE |}.

(** The tables that a client's calls lead to; [hashmap_new] makes [new_map], and
    23 units of fuel are enough for every put (see [put_total]). *)
Inductive reachable (calloc_ok : Z → bool) : hmap → Prop :=
| reach_new : reachable calloc_ok new_map
| reach_put m k v st m' :
    reachable calloc_ok m → hashmap_put calloc_ok 23 m k v = Ok (st, m') → reachable calloc_ok m'
| reach_remove m k st m' :
    reachable calloc_ok m → hashmap_remove m k = Ok (st, m') → reachable calloc_ok m'
| reach_remove_all m st m' ds ks :
    reachable calloc_ok m → hashmap_remove_all m = (st, m', ds, ks) → reachable calloc_ok m'.

Lemma value_at_Some m k d v :
  value_at m k d = Some v ↔ ∃ e, data m !! Z.to_nat (probe m k d) = Some e ∧ live_elem e = Some (k, v).
Proof.
  unfold value_at. destruct (data m !! _) as [e|]; simpl; [|naive_solver].
  destruct (live_elem e) as [[k' v']|] eqn:He; simpl; [|naive_solver].
  case_decide; naive_solver.
Qed.

Lemma omap_step {A B} (f : A → option B) x l :
  omap f (x :: l) = match f x with Some y => y :: omap f l | None => omap f l end.
Proof. done. Qed.

Lemma omap_none {A B} (f : A → option B) l : Forall (λ x, f x = None) l → omap f l = [].
Proof. induction 1 as [|x l Hx _ IH]; [done|]. by rewrite omap_step, Hx. Qed.

Lemma find_loop_stored n m k d :
  shape m →
  match omap (value_at m k) (seqZ d (Z.of_nat n)) with
  | v :: older => ∃ l1 d' l2 e, find_loop n m (probe m k d) k = Ok (Some (probe m k d', e)) ∧
      seqZ d (Z.of_nat n) = l1 ++ d' :: l2 ∧ Forall (λ j, value_at m k j = None) l1 ∧
      data m !! Z.to_nat (probe m k d') = Some e ∧ live_elem e = Some (k, v) ∧
      older = omap (value_at m k) l2
  | [] => find_loop n m (probe m k d) k = Ok None
  end.
Proof.
  intros Hsh. revert d. induction n as [|n IH]; intros d; [done|].
  destruct (slot_ok m (probe m k d)) as (e & He & Hd & Hok); [done|by apply probe_range|].
  destruct (holds_ok e k Hok) as (b & Hb & Hbk).
  rewrite Nat2Z.inj_succ, seqZ_cons, Z.pred_succ by lia. cbn [find_loop].
  unfold mbind, res_bind, mret, res_ret. rewrite He, Hb. destruct b.
  - destruct Hbk as [[v Hv] _]; [done|].
    assert (Hat : value_at m k d = Some v) by (apply value_at_Some; eauto).
    rewrite omap_step, Hat. exists [], d, (seqZ (Z.succ d) (Z.of_nat n)), e. by repeat split.
  - assert (Hat : value_at m k d = None).
    { destruct (value_at m k d) as [v|] eqn:Hat; [|done]. apply value_at_Some in Hat as (e' & He' & Hv).
      assert (e' = e) as -> by congruence. destruct Hbk as [_ Hbk]. discriminate Hbk. eauto. }
    rewrite omap_step, Hat, probe_succ, Z.add_1_r. specialize (IH (Z.succ d)).
    destruct (omap _ _) as [|v older]; [done|].
    destruct IH as (l1 & d' & l2 & e' & Hf & -> & Hl1 & Hrest).
    exists (d :: l1), d', l2, e'. split; [done|]. split; [done|]. split; [by constructor|done].
Qed.

(** A table without the slot [i]. *)
Definition clear (m : hmap) (i : Z) : hmap :=
  {| table_size := table_size m; size := size m - 1; data := set_slot m i empty_elem |}.

Lemma value_at_clear m k i d :
  shape m → 0 ≤ i → value_at (clear m i) k d = if decide (probe m k d = i) then None else value_at m k d.
Proof.
  intros Hsh Hi. unfold value_at. change (probe (clear m i) k d) with (probe m k d). simpl. unfold set_slot.
  pose proof (probe_range m k d Hsh) as Hr. case_decide as Hd.
  - subst i. destruct (slot_ok m (probe m k d) Hsh Hr) as (e & _ & He & _).
    by rewrite list_lookup_insert_eq by (by eapply lookup_lt_Some).
  - by rewrite list_lookup_insert_ne by lia.
Qed.

Lemma probe_inj m k d d' :
  shape m → 0 ≤ d < table_size m → 0 ≤ d' < table_size m → probe m k d = probe m k d' → d = d'.
Proof.
  intros Hsh Hd Hd' Heq. unfold probe in Heq. pose proof (sh_size _ Hsh).
  apply (f_equal (λ x, (x - hashmap_hash_int m k) mod table_size m)) in Heq.
  rewrite !Zminus_mod_idemp_l in Heq.
  replace (hashmap_hash_int m k + d - hashmap_hash_int m k) with d in Heq by lia.
  replace (hashmap_hash_int m k + d' - hashmap_hash_int m k) with d' in Heq by lia.
  by rewrite !Z.mod_small in Heq.
Qed.

Lemma stored_clear m k d l1 l2 :
  shape m → Z.of_nat MAX_CHAIN_LENGTH ≤ table_size m →
  seqZ 0 (Z.of_nat MAX_CHAIN_LENGTH) = l1 ++ d :: l2 → Forall (λ j, value_at m k j = None) l1 →
  stored (clear m (probe m k d)) k = omap (value_at m k) l2.
Proof.
  intros Hsh Hts Hseq Hl1. pose proof (probe_range m k d Hsh) as Hr.
  pose proof (NoDup_seqZ 0 (Z.of_nat MAX_CHAIN_LENGTH)) as Hnd. rewrite Hseq in Hnd.
  assert (Hin : ∀ j, j ∈ l1 ++ d :: l2 → 0 ≤ j < table_size m).
  { intros j. rewrite <- Hseq, elem_of_seqZ. lia. }
  unfold stored. rewrite Hseq, omap_app, omap_none.
  2:{ eapply Forall_impl; [exact Hl1|]. intros j Hj. rewrite value_at_clear, Hj by (done || lia). by case_decide. }
  rewrite omap_step, value_at_clear, decide_True by (done || lia). cbn [app].
  apply list_omap_ext, Forall_Forall2_diag, Forall_forall. intros j Hj.
  rewrite value_at_clear by (done || lia). rewrite decide_False; [done|]. intros Heq.
  apply probe_inj in Heq as ->; [|done|set_solver..].
  apply NoDup_app in Hnd as (_ & _ & Hnd). by apply NoDup_cons in Hnd as [? _].
Qed.

Lemma stored_clear_ne m k d e v k' :
  shape m → data m !! Z.to_nat (probe m k d) = Some e → live_elem e = Some (k, v) → k' ≠ k →
  stored (clear m (probe m k d)) k' = stored m k'.
Proof.
  intros Hsh He Hv Hne. pose proof (probe_range m k d Hsh) as Hr.
  apply list_omap_ext, Forall_Forall2_diag, Forall_forall. intros j _.
  rewrite value_at_clear by (done || lia). case_decide as Hj; [|done].
  destruct (value_at m k' j) as [v'|] eqn:Hat; [|done].
  apply value_at_Some in Hat as (e' & He' & Hv'). rewrite Hj, He in He'. congruence.
Qed.

Lemma clear_wf m i e k v :
  wf m → 0 ≤ i < table_size m → data m !! Z.to_nat i = Some e → live_elem e = Some (k, v) →
  wf (clear m i) ∧ amap (clear m i) = delete k (amap m) ∧ (counted m → counted (clear m i)).
Proof.
  intros Hwf Hi He Hv.
  destruct (slot_clear_amap m i e k v (size m - 1) He Hv (wf_nodup _ Hwf)) as [Ham _].
  split; [apply (slot_update_wf m i e); try done; by left|]. split; [exact Ham|].
  intros Hc. unfold counted, clear. rewrite Ham. cbn [size].
  assert (Hk : amap m !! k = Some v) by (apply amap_lookup; [apply Hwf|]; by eapply live_in_table).
  rewrite map_size_delete_Some by eauto.
  assert (base.size (amap m) ≠ 0%nat).
  { intros H0. apply map_size_empty_iff in H0. rewrite H0 in Hk. done. }
  unfold counted in Hc. lia.
Qed.

Lemma stored_absent m k : wf m → amap m !! k = None → stored m k = [].
Proof.
  intros Hwf Hk. apply omap_none, Forall_forall. intros d _.
  destruct (value_at m k d) as [v|] eqn:Hat; [|done]. apply value_at_Some in Hat as (e & He & Hv).
  apply amap_absent in Hk. destruct Hk. apply list_elem_of_fmap. exists (k, v). split; [done|].
  by eapply live_in_table.
Qed.

Lemma stored_wf m k :
  wf m → Z.of_nat MAX_CHAIN_LENGTH ≤ table_size m → stored m k = option_list (amap m !! k).
Proof.
  intros Hwf Hts. pose proof (wf_shape _ Hwf) as Hsh.
  pose proof (find_spec m k Hwf) as Hspec. pose proof (find_loop_stored MAX_CHAIN_LENGTH m k 0 Hsh) as Hf.
  rewrite probe_0 in Hf by done. fold (stored m k) in Hf.
  destruct (amap m !! k) as [v|] eqn:Hk; [|by apply stored_absent].
  destruct Hspec as (i & e & Hi & _). destruct (stored m k) as [|w older]; [congruence|].
  destruct Hf as (l1 & d & l2 & e' & _ & Hseq & Hl1 & He & Hw & ->).
  assert (Some v = Some w) as [= <-].
  { rewrite <- Hk. apply amap_lookup; [apply Hwf|]. by eapply live_in_table. }
  destruct (clear_wf m (probe m k d) e' k v Hwf (probe_range _ _ _ Hsh) He Hw) as (Hwf' & Ham & _).
  rewrite <- (stored_clear m k d l1 l2), stored_absent; try done. by rewrite Ham, lookup_delete_eq.
Qed.

Lemma remove_all_loop_table es :
  length (remove_all_loop es).1.1.1 = length es ∧ (Forall elem_ok es → Forall elem_ok (remove_all_loop es).1.1.1).
Proof.
  induction es as [|e es [IHl IHf]]; [done|]. simpl. destruct (remove_all_loop es) as [[[t n] ds] ks]; simpl in *.
  split; [destruct (e_in_use e =? 0); simpl; congruence|]. rewrite Forall_cons. intros [He Hes].
  destruct (e_in_use e =? 0); simpl; constructor; auto. by left.
Qed.

Lemma remove_all_shape m st m' ds ks :
  shape m → hashmap_remove_all m = (st, m', ds, ks) → shape m' ∧ table_size m' = table_size m.
Proof.
  intros [Hs Hl He]. unfold hashmap_remove_all. destruct (_ <=? 0); [by intros [= <- <- <- <-]|].
  destruct (remove_all_loop_table (data m)) as [Hlen Hok]. destruct (remove_all_loop (data m)) as [[[t n] ds'] ks'].
  intros [= <- <- <- <-]. simpl in *. split; [|done]. split; simpl; [done| |by apply Hok].
  unfold zlen in *. by rewrite Hlen.
Qed.

Lemma clear_shape m i : shape m → shape (clear m i).
Proof.
  intros [Hs Hl He]. split; simpl; [done| |]; unfold set_slot.
  - unfold zlen in *. by rewrite length_insert.
  - apply Forall_insert; [done|]. by left.
Qed.

Lemma remove_shape m k st m' :
  shape m → hashmap_remove m k = Ok (st, m') → shape m' ∧ table_size m' = table_size m.
Proof.
  intros Hsh. unfold hashmap_remove, mbind, res_bind. destruct (find_loop _ _ _ _) as [[[i e]|]| |]; try done.
  - intros [= <- <-]. split; [by apply (clear_shape m i)|done].
  - by intros [= <- <-].
Qed.

Lemma reachable_shape calloc_ok :
  (∀ n, calloc_ok n = true → n ≤ TABLE_LIMIT) →
  ∀ m, reachable calloc_ok m → shape m ∧ INITIAL_SIZE ≤ table_size m.
Proof.
  intros Hlim m. induction 1 as [|m k v st m' _ [Hsh Hts] Hp|m k st m' _ [Hsh Hts] Hr|m st m' ds ks _ [Hsh Hts] Hr].
  - split; [|done]. apply (calloc_wf _ Hlim). unfold INITIAL_SIZE, TABLE_LIMIT. lia.
  - destruct (put_total calloc_ok Hlim 22 m k v Hsh) as (st1 & m1 & Hp1 & Hsh1 & Hts1 & _).
    { unfold INITIAL_SIZE, TABLE_LIMIT in *. simpl Z.of_nat. lia. }
    rewrite Hp in Hp1. injection Hp1 as <- <-. split; [done|lia].
  - destruct (remove_shape _ _ _ _ Hsh Hr) as [? ->]. by split.
  - destruct (remove_all_shape _ _ _ _ _ Hsh Hr) as [? ->]. by split.
Qed.

(** ** Properties *)

(** C34: in every table that operations on a fresh map can lead to, duplicates of a
    key included, [hashmap_get] answers with the value of the key stored first in
    its probe sequence and [hashmap_remove] takes exactly that one away: what was
    stored for the key behind it, and all that is stored for other keys, stays.  A
    key that is not stored gives [MAP_MISSING] and leaves the table alone.  While
    every key is stored once ([wf]; a put of a stored key after a removal can break
    it, see [hashmap_removed_value_comes_back]) the two are lookup and deletion of
    the finite map the table stands for, with the element count right. *)
Theorem hashmap_get_remove_refine calloc_ok m k :
  (∀ n, calloc_ok n = true → n ≤ TABLE_LIMIT) → reachable calloc_ok m →
  match stored m k with
  | v :: older =>
      hashmap_get m k = Ok (MAP_OK, v) ∧
      ∃ m', hashmap_remove m k = Ok (MAP_OK, m') ∧
            stored m' k = older ∧ (∀ k', k' ≠ k → stored m' k' = stored m k') ∧
            (wf m → wf m' ∧ amap m' = delete k (amap m) ∧ (counted m → counted m'))
  | [] => hashmap_get m k = Ok (MAP_MISSING, 0) ∧ hashmap_remove m k = Ok (MAP_MISSING, m)
  end ∧
  (wf m → stored m k = option_list (amap m !! k)).
Proof.
  intros Hlim Hreach. destruct (reachable_shape _ Hlim _ Hreach) as [Hsh Hts].
  split; [|intros Hwf; apply stored_wf; [done|]; unfold INITIAL_SIZE, MAX_CHAIN_LENGTH in *; lia].
  pose proof (find_loop_stored MAX_CHAIN_LENGTH m k 0 Hsh) as Hf. rewrite probe_0 in Hf by done.
  unfold hashmap_get, hashmap_remove, mbind, res_bind. fold (stored m k) in Hf.
  destruct (stored m k) as [|v older]; [by rewrite Hf|].
  destruct Hf as (l1 & d & l2 & e & -> & Hseq & Hl1 & He & Hv & ->).
  pose proof (proj1 (live_elem_Some _ _ _) Hv) as (_ & _ & ->).
  split; [done|]. eexists. split; [done|].
  pose proof (probe_range m k d Hsh). split; [|split].
  - apply (stored_clear m k d l1 l2); try done. unfold INITIAL_SIZE in Hts. unfold MAX_CHAIN_LENGTH. lia.
  - intros k' Hne. by apply (stored_clear_ne m k d e v).
  - intros Hwf. by apply (clear_wf m (probe m k d) e k v).
Qed.

(** C35: [hashmap_put] of a new key always returns (the rehashing recursion ends within
    23 doublings), keeps the table well formed, and either adds exactly that binding
    with the element count right, or reports [MAP_OMEM]. *)
Theorem hashmap_put_new_refines calloc_ok m k v :
  (∀ n, calloc_ok n = true → n ≤ TABLE_LIMIT) →
  wf m → INITIAL_SIZE ≤ table_size m → amap m !! k = None →
  ∃ st m', hashmap_put calloc_ok 23 m k v = Ok (st, m') ∧ wf m' ∧
    ((st = MAP_OK ∧ amap m' = <[k := v]> (amap m) ∧ (counted m → counted m')) ∨ st = MAP_OMEM).
Proof.
  intros Hlim Hwf Hts Hk. unfold INITIAL_SIZE in Hts.
  destruct (put_total calloc_ok Hlim 22 m k v (wf_shape _ Hwf)) as (st & m' & Hp & _).
  { unfold TABLE_LIMIT. simpl Z.of_nat. lia. }
  destruct (put_new calloc_ok Hlim 23 m k v st m' Hwf Hk Hp) as (Hwf' & _ & Hres). eauto 10.
Qed.

(** A machine with room for tables of up to 1024 slots. *)
Definition small_machine (n : Z) : bool := n <=? 1024.

Lemma small_machine_limit n : small_machine n = true → n ≤ TABLE_LIMIT.
Proof. unfold small_machine, TABLE_LIMIT. intros. zify_bool. lia. Qed.

Lemma new_map_wf : wf new_map.
Proof. apply (calloc_wf small_machine small_machine_limit). unfold INITIAL_SIZE, TABLE_LIMIT. lia. Qed.

Lemma hashmap_put_new_refines_witness :
  ∃ st m', hashmap_put small_machine 23 new_map (cs "ssid2") 7 = Ok (st, m') ∧ wf m' ∧
    ((st = MAP_OK ∧ amap m' = <[cs "ssid2" := 7]> (amap new_map) ∧ (counted new_map → counted m'))
     ∨ st = MAP_OMEM).
Proof.
  apply hashmap_put_new_refines;
    [exact small_machine_limit|exact new_map_wf|by apply Z.leb_le|reflexivity].
Defined.

(** What a client's put or removal leaves, on a small machine. *)
Definition after_put (m : hmap) (k : cstr) (v : Z) : hmap :=
  match hashmap_put small_machine 23 m k v with Ok (_, m') => m' | _ => m end.
Definition after_remove (m : hmap) (k : cstr) : hmap :=
  match hashmap_remove m k with Ok (_, m') => m' | _ => m end.

Lemma after_put_reachable m k v : reachable small_machine m → reachable small_machine (after_put m k v).
Proof.
  intros Hm. unfold after_put. destruct (hashmap_put _ _ _ _ _) as [[st m']| |] eqn:Hp; [|done..].
  by eapply reach_put.
Qed.

Lemma after_remove_reachable m k : reachable small_machine m → reachable small_machine (after_remove m k).
Proof.
  intros Hm. unfold after_remove. destruct (hashmap_remove _ _) as [[st m']| |] eqn:Hr; [|done..].
  by eapply reach_remove.
Qed.

(** Two networks are stored, the first is removed, and the second is stored
    again: its new value goes to the slot the first one had. *)
Definition twice_stored : hmap :=
  after_put (after_remove (after_put (after_put new_map (cs "ssid2") 1) (cs "ssid3") 2) (cs "ssid2")) (cs "ssid3") 3.

Lemma twice_stored_reachable : reachable small_machine twice_stored.
Proof. apply after_put_reachable, after_remove_reachable, after_put_reachable, after_put_reachable, reach_new. Qed.

Lemma hashmap_get_remove_refine_witness :
  hashmap_get twice_stored (cs "ssid3") = Ok (MAP_OK, 3) ∧
  ∃ m', hashmap_remove twice_stored (cs "ssid3") = Ok (MAP_OK, m') ∧ stored m' (cs "ssid3") = [2].
Proof.
  destruct (hashmap_get_remove_refine small_machine twice_stored (cs "ssid3")
              small_machine_limit twice_stored_reachable) as [Hgr _].
  replace (stored twice_stored (cs "ssid3")) with [3; 2] in Hgr by (vm_compute; reflexivity).
  destruct Hgr as (Hg & m' & Hr & Hs & _). split; [exact Hg|]. exists m'. split; [exact Hr|exact Hs].
Defined.

(** Writing a key that is already stored replaces its value but increments [size]
    again, so the element count exceeds the number of bindings. *)
Theorem hashmap_overwrite_counts_twice calloc_ok fuel m k v1 v2 m1 :
  wf m → counted m → amap m !! k = None → size m + 1 < Z.quot (table_size m) 2 →
  hashmap_hash m k ≠ Ok MAP_FULL →
  hashmap_put calloc_ok (S fuel) m k v1 = Ok (MAP_OK, m1) →
  ∃ m2, hashmap_put calloc_ok (S fuel) m1 k v2 = Ok (MAP_OK, m2) ∧
        amap m2 = <[k := v2]> (amap m) ∧
        size m2 = Z.of_nat (base.size (amap m2)) + 1.
Proof.
  intros Hwf Hc Hk Hroom Hnf Hp1. pose proof (wf_shape _ Hwf) as Hsh.
  rewrite hashmap_put_S in *. unfold mbind, res_bind in *.
  destruct (hashmap_hash_spec m k Hsh) as [?|(d & e & Hd & Hh & He & Hfree)]; [done|].
  rewrite Hh in Hp1. pose proof (probe_range m k d Hsh) as Hr.
  assert (HF : (probe m k d =? MAP_FULL) = false) by (apply Z.eqb_neq; unfold MAP_FULL; lia).
  rewrite HF in Hp1. injection Hp1 as <-. fold (put_slot m (probe m k d) k v1).
  assert (Hagain : hashmap_hash (put_slot m (probe m k d) k v1) k = Ok (probe m k d)).
  { unfold hashmap_hash in Hh |- *. simpl table_size. simpl size.
    rewrite (proj2 (Z.leb_gt _ (size m + 1))) by lia.
    rewrite (proj2 (Z.leb_gt _ (size m))) in Hh by lia.
    change (hashmap_hash_int (put_slot m (probe m k d) k v1) k) with (hashmap_hash_int m k).
    rewrite <- probe_0 in Hh |- * by done. apply hash_loop_again; [done|done|].
    by apply Z.eqb_neq. }
  rewrite Hagain, HF. eexists. split; [done|].
  assert (Hnone : live_elem e = None).
  { destruct Hfree as [|[v' Hv']]; [done|].
    pose proof (live_in_table _ _ _ _ _ He Hv') as Hin.
    apply amap_lookup in Hin; [congruence|apply Hwf]. }
  assert (Ham : ∀ s, amap {| table_size := table_size m; size := s;
      data := set_slot (put_slot m (probe m k d) k v1) (probe m k d)
                {| e_key := Some k; e_in_use := 1; e_data := v2 |} |} = <[k := v2]> (amap m)).
  { intros s'. erewrite <- (slot_fill_amap m (probe m k d) e k v2 s') by (done || (by apply amap_absent) || apply Hwf).
    unfold amap. simpl. unfold put_slot, set_slot. simpl. by rewrite list_insert_insert_eq. }
  simpl table_size. rewrite Ham. split; [done|]. simpl size.
  rewrite map_size_insert_None by done. unfold counted in Hc. lia.
Qed.

Lemma hashmap_overwrite_counts_twice_witness :
  ∃ m2, hashmap_put small_machine 23 (put_slot new_map (hashmap_hash_int new_map (cs "ssid2")) (cs "ssid2") 1)
          (cs "ssid2") 2 = Ok (MAP_OK, m2) ∧
        amap m2 = <[cs "ssid2" := 2]> (amap new_map) ∧ size m2 = Z.of_nat (base.size (amap m2)) + 1.
Proof.
  apply (hashmap_overwrite_counts_twice small_machine 22 new_map (cs "ssid2") 1 2).
  - exact new_map_wf.
  - vm_compute. reflexivity.
  - reflexivity.
  - vm_compute. reflexivity.
  - vm_compute. discriminate.
  - vm_compute. reflexivity.
Defined.

(** A put takes the first free slot of the probe sequence without looking further
    for the key. In this session the slot before a stored key is freed, the key is put
    again (and so stored twice) and removed: a get then answers with the value 2 that
    had been overwritten, instead of [MAP_MISSING]. *)
Theorem hashmap_removed_value_comes_back :
  hashmap_get (after_remove twice_stored (cs "ssid3")) (cs "ssid3") = Ok (MAP_OK, 2).
Proof. vm_compute. reflexivity. Qed.
End HashMap.
