(* ===== verification/CfgType.v ===== *)
(** * Node types ([service/cfg/cfg_type.c])

    The static table of node types, their numbering at start-up, and the
    lookups by identifier.  A type is a C object of the table; a pointer to it
    is a [tloc].  Everything in it is constant but its [id], which
    [cfg_type_alloc_id] writes: the identifiers, the cache and the counter
    form the state [type_reg]. *)

From S2P Require Import Prelude CString.
Open Scope Z_scope.

Module CfgType.

Definition CFG_TYPE_BASE_VAL : Z := 100.
Definition CFG_TYPE_MAX_NUM : Z := 1000.
Definition CFG_TYPE_FLAG_MULTIPLE : Z := Z.shiftl 1 8.
Definition CFG_TYPE_FLAG_MEMORY : Z := Z.shiftl 1 9.
Definition CFG_MAX_TYPE_NAME : Z := 32.
Definition CFG_MAX_PATH_NAME : Z := 512.
Definition CFG_MAX_NODE_LEVEL : nat := 8.

Abbreviation tloc := positive.

(** A function pointer of an operation table: one of the default functions
    of [cfg_type.c], or a function of a [type/cfg_type_*.c] file. *)
Inductive handler : Type := H_default | H_type (f : cstr).

Record cfg_node_ops := {
  op_create : option handler;
  op_delete : option handler;
  op_set : option handler;
  op_get : option handler;
  op_commit : option handler;
  op_query : option handler;
  op_memory_type_read : option handler
}.

Record cfg_node_type := {
  t_name : cstr;
  t_flag : Z;
  t_parent : option tloc;
  t_subtype : option (list tloc);  (* the entries before the NULL one *)
  t_ops : option cfg_node_ops;
  t_index : option (list cstr)
}.

Record type_reg := {
  r_id : gmap tloc Z;                 (* the [id] fields *)
  cfg_type_cache : list (option tloc);
  cfg_type_total_cnt : Z
}.

Section types.
(** The table and [&cfg_type_root]. *)
Context (T : gmap tloc cfg_node_type) (cfg_type_root : tloc).

Definition cfg_type_get_root : tloc := cfg_type_root.

Definition type_at (n : tloc) : res cfg_node_type := deref (T !! n).

(** [node->id]; it is 0 until it is written. *)
Definition type_id (R : type_reg) (n : tloc) : Z := default 0 (r_id R !! n).

Definition cfg_type_find_by_id (R : type_reg) (id : Z) : option tloc :=
  let size := cfg_type_total_cnt R in
  let id := u32 (id - CFG_TYPE_BASE_VAL) in
  if id <? u32 size then default None (cfg_type_cache R !! Z.to_nat id) else None.

Definition cfg_type_get_child (node : option tloc) : res (option tloc) :=
  match node with
  | None => Ok None
  | Some n =>
      ty ← type_at n;
      mret (match t_subtype ty with Some l => head l | None => None end)
  end.

(** [for(i = 0; child[i] && child[i] != node; i++)] and [child[i+1]]. *)
Fixpoint child_after (child : list tloc) (node : tloc) : option tloc :=
  match child with
  | [] => None
  | c :: child' => if decide (c = node) then head child' else child_after child' node
  end.

Definition cfg_type_get_brother (node : option tloc) : res (option tloc) :=
  match node with
  | None => Ok None
  | Some n =>
      ty ← type_at n;
      match t_parent ty with
      | None => mret None
      | Some p =>
          pty ← type_at p;
          match t_subtype pty with
          | None => mret None
          | Some child => mret (child_after child n)
          end
      end
  end.

Definition cfg_type_is_dynamic_type (R : type_reg) (type : Z) : res bool :=
  match cfg_type_find_by_id R type with
  | None => mret false
  | Some n =>
      ty ← type_at n;
      mret (match t_ops ty with
            | Some ops => bool_decide (is_Some (op_create ops))
            | None => false
            end)
  end.

(** *** Numbering *)

Definition register (n : tloc) : M type_reg unit := λ R,
  let cnt := cfg_type_total_cnt R in
  if (0 <=? cnt) && (cnt <? zlen (cfg_type_cache R)) then
    Ok (tt, {| r_id := <[n := CFG_TYPE_BASE_VAL + cnt]> (r_id R);
               cfg_type_cache := <[Z.to_nat cnt := Some n]> (cfg_type_cache R);
               cfg_type_total_cnt := cnt + 1 |})
  else Fault.

Fixpoint cfg_type_alloc_id (fuel : nat) (node : option tloc) : M type_reg Z :=
  match fuel with
  | O => out_of_fuel
  | S fuel' =>
      match node with
      | None => mret 0
      | Some n =>
          register n ;;
          tmp ← lift (cfg_type_get_child node);
          (if tmp is Some _ then cfg_type_alloc_id fuel' tmp else mret 0) ;;
          tmp ← lift (cfg_type_get_brother node);
          (if tmp is Some _ then cfg_type_alloc_id fuel' tmp else mret 0) ;;
          mret 0
      end
  end.

(** The state before start-up: zeroed static variables. *)
Definition reg0 : type_reg :=
  {| r_id := ∅;
     cfg_type_cache := replicate (Z.to_nat CFG_TYPE_MAX_NUM) None;
     cfg_type_total_cnt := 0 |}.

Definition cfg_type_init (fuel : nat) : M type_reg Z :=
  cfg_type_alloc_id fuel (Some cfg_type_root).

(** *** From an identifier to a path *)

(** The [while(type)] loop: the names from the type up to the root, each cut
    to its row of [tmp]; a row past the last is outside the array. *)
Fixpoint type_names (rows : nat) (type : option tloc) : res (list cstr) :=
  match type with
  | None => mret []
  | Some n =>
      match rows with
      | O => Fault
      | S rows' =>
          ty ← type_at n;
          rest ← type_names rows' (t_parent ty);
          mret (strncpy_z (Z.to_nat CFG_MAX_TYPE_NAME) (t_name ty) :: rest)
      end
  end.

(** [snprintf(path + len, sizeof(path) - len, "%s.", ...)] over the rows, last
    row first, then the last dot is cut. *)
Definition path_of_names (names : list cstr) : cstr :=
  concat (map (λ s, s ++ [chr "."]) (rev names)).

(** Eight rows of at most 31 characters fit into [path[512]].  [strncpy]
    with a size of -1 writes past any buffer. *)
Definition cfg_type_id_to_path (R : type_reg) (id : Z) (buflen : Z) : res (Z * cstr) :=
  match cfg_type_find_by_id R id with
  | None => mret (-1, [])
  | Some n =>
      names ← type_names CFG_MAX_NODE_LEVEL (Some n);
      let path := path_of_names names in
      if buflen <=? 0 then Fault
      else mret (0, take (Z.to_nat buflen - 1) (take (length path - 1) path))
  end.

(** What [cfg_type_dump] prints: the indentation, the name, the id and the
    flag of each type. *)
Fixpoint cfg_type_dump (fuel : nat) (R : type_reg) (tabs : nat) (node : option tloc)
    : res (list (nat * cstr * Z * Z)) :=
  match fuel with
  | O => NoFuel
  | S fuel' =>
      match node with
      | None => mret []
      | Some n =>
          ty ← type_at n;
          c ← cfg_type_get_child node;
          below ← (if c is Some _ then cfg_type_dump fuel' R (S tabs) c else mret []);
          b ← cfg_type_get_brother node;
          right ← (if b is Some _ then cfg_type_dump fuel' R tabs b else mret []);
          mret ((tabs, t_name ty, type_id R n, t_flag ty) :: below ++ right)
      end
  end.

(** ** The table as a forest *)

Definition subtypes (ty : cfg_node_type) : list tloc := default [] (t_subtype ty).

(** [f] is what the table holds below [parent]: every node of [f] has the
    [parent] and [subtype] fields its place in [f] says. *)
Fixpoint types_rep (parent : option tloc) (f : forest tloc) : Prop :=
  match f with
  | FNil => True
  | FCons n k s =>
      (∃ ty, T !! n = Some ty ∧ t_parent ty = parent ∧ subtypes ty = roots k) ∧
      types_rep (Some n) k ∧ types_rep parent s
  end.

(** The siblings of [f] are the last entries of their parent's [subtype]. *)
Definition siblings_rep (parent : option tloc) (f : forest tloc) : Prop :=
  match parent with
  | None => (length (roots f) ≤ 1)%nat
  | Some p => ∃ pty pre, T !! p = Some pty ∧ subtypes pty = pre ++ roots f ∧
                         NoDup (pre ++ roots f)
  end.

(** A well-formed table: the nodes below the root form a tree. *)
Record wf_types (k : forest tloc) : Prop := {
  wf_rep : types_rep None (FCons cfg_type_root k FNil);
  wf_nodup : NoDup (preorder (FCons cfg_type_root k FNil))
}.

Definition all_types (k : forest tloc) : list tloc := cfg_type_root :: preorder k.

Lemma child_after_app pre n post : n ∉ pre → child_after (pre ++ n :: post) n = head post.
Proof.
  induction pre as [|c pre IH]; intros Hn; simpl; [by rewrite decide_True|].
  rewrite decide_False by set_solver. apply IH. set_solver.
Qed.

Lemma types_rep_child parent n k s :
  types_rep parent (FCons n k s) → cfg_type_get_child (Some n) = Ok (head (roots k)).
Proof.
  intros [(ty & Hty & _ & Hk) _]. simpl. unfold type_at, mbind, res_bind. rewrite Hty. simpl.
  rewrite <- Hk. unfold subtypes. by destruct (t_subtype ty).
Qed.

Lemma types_rep_brother parent n k s :
  types_rep parent (FCons n k s) → siblings_rep parent (FCons n k s) →
  cfg_type_get_brother (Some n) = Ok (head (roots s)).
Proof.
  intros [(ty & Hty & Hp & _) _]. simpl. unfold type_at, mbind, res_bind. rewrite Hty. simpl.
  rewrite Hp. destruct parent as [p|]; simpl.
  - intros (pty & pre & Hpty & Hsub & Hnd). rewrite Hpty. simpl. unfold subtypes in Hsub.
    destruct (t_subtype pty) as [child|]; simpl in Hsub; [|by destruct pre].
    subst child. unfold mret, res_ret. f_equal. apply child_after_app.
    apply NoDup_app in Hnd as (_ & Hnd & _). set_solver.
  - intros. destruct s; simpl in *; [done|lia].
Qed.

Lemma siblings_rep_child parent n k s :
  types_rep parent (FCons n k s) → NoDup (preorder k) → siblings_rep (Some n) k.
Proof.
  intros [(ty & Hty & _ & Hk) _] Hnd. exists ty, []. split; [done|]. split; [done|].
  simpl. clear -Hnd. induction k as [|a k1 IH1 k2 IH2]; simpl in *; [constructor|].
  apply NoDup_cons in Hnd as [Ha Hnd]. apply NoDup_app in Hnd as (_ & _ & Hnd).
  constructor; [|auto]. intros H%roots_preorder. set_solver.
Qed.

Lemma siblings_rep_next parent n k s :
  siblings_rep parent (FCons n k s) → siblings_rep parent s.
Proof.
  destruct parent as [p|]; simpl; [|lia].
  intros (pty & pre & Hpty & Hsub & Hnd). exists pty, (pre ++ [n]).
  rewrite <- app_assoc. simpl. eauto.
Qed.

(** ** Numbering is a pass over the preorder *)

Fixpoint register_all (l : list tloc) : M type_reg unit :=
  match l with
  | [] => mret tt
  | n :: l' => register n ;; register_all l'
  end.

Lemma register_all_app l1 l2 R :
  register_all (l1 ++ l2) R = (register_all l1 ;; register_all l2) R.
Proof.
  revert R. induction l1 as [|n l1 IH]; intros R; [done|]. simpl.
  unfold mbind, M_bind in *. destruct (register n R) as [[[] R1]| |]; [|done|done]. apply IH.
Qed.

Lemma alloc_is_preorder fuel parent f :
  types_rep parent f → siblings_rep parent f → NoDup (preorder f) →
  (length (preorder f) < fuel)%nat → f ≠ FNil → ∀ R,
  cfg_type_alloc_id fuel (head (roots f)) R = (register_all (preorder f) ;; mret 0) R.
Proof.
  revert parent f. induction fuel as [|fuel IH]; intros parent [|n k s]; [done|simpl; lia|done|].
  intros Hrep Hsib Hnd Hlen _ R. simpl in Hlen. rewrite length_app in Hlen.
  pose proof (types_rep_child _ _ _ _ Hrep) as Hc.
  pose proof (types_rep_brother _ _ _ _ Hrep Hsib) as Hb.
  pose proof Hnd as [Hn [Hk [_ Hs]]%NoDup_app]%NoDup_cons.
  pose proof (siblings_rep_child _ _ _ _ Hrep Hk) as Hsk.
  pose proof (siblings_rep_next _ _ _ _ Hsib) as Hss.
  destruct Hrep as (_ & Hrk & Hrs).
  assert (Hstep : ∀ p g R0, types_rep p g → siblings_rep p g → NoDup (preorder g) →
            (length (preorder g) < fuel)%nat →
            (if head (roots g) is Some _ then cfg_type_alloc_id fuel (head (roots g)) else mret 0) R0
            = (register_all (preorder g) ;; mret 0) R0).
  { intros p [|n' k' s'] R0 ? ? ? ?; [done|]. by apply (IH p). }
  cbn [cfg_type_alloc_id roots head preorder register_all].
  unfold mbind at 1, M_bind at 1. unfold mbind at 5, M_bind at 5.
  unfold mbind at 5, M_bind at 5.
  destruct (register n R) as [[[] R1]| |]; [|done|done].
  unfold lift, mbind, M_bind in *. rewrite Hc, Hb.
  rewrite (Hstep (Some n) k R1) by (done || lia). rewrite register_all_app. unfold mbind, M_bind.
  destruct (register_all (preorder k) R1) as [[[] R2]| |]; [|done|done].
  specialize (Hstep parent s R2 Hrs Hss Hs ltac:(lia)).
  unfold mbind, M_bind, mret, M_ret in *. rewrite Hstep.
  by destruct (register_all (preorder s) R2) as [[[] R3]| |].
Qed.

(** One pass of [register]: the next free places of the cache, in order. *)
Lemma register_all_ok l R :
  NoDup l → 0 ≤ cfg_type_total_cnt R →
  cfg_type_total_cnt R + zlen l ≤ zlen (cfg_type_cache R) →
  ∃ R', register_all l R = Ok (tt, R') ∧
    cfg_type_total_cnt R' = cfg_type_total_cnt R + zlen l ∧
    (∀ n, n ∉ l → r_id R' !! n = r_id R !! n) ∧
    (∀ j, (j < Z.to_nat (cfg_type_total_cnt R))%nat →
       cfg_type_cache R' !! j = cfg_type_cache R !! j) ∧
    (∀ i n, l !! i = Some n →
       r_id R' !! n = Some (CFG_TYPE_BASE_VAL + cfg_type_total_cnt R + Z.of_nat i) ∧
       cfg_type_cache R' !! (Z.to_nat (cfg_type_total_cnt R) + i)%nat = Some (Some n)).
Proof.
  revert R. induction l as [|n l IH]; intros R Hnd H0 Hlen.
  { exists R. simpl. repeat split; try done. lia. }
  apply NoDup_cons in Hnd as [Hn Hnd]. cbn [register_all]. rewrite length_cons in Hlen.
  unfold mbind, M_bind, register.
  rewrite (proj2 (Z.leb_le _ _)), (proj2 (Z.ltb_lt _ _)) by lia. simpl.
  edestruct IH as (R' & Hrun & Hcnt & Hold & Hcache & Hnew); [done| | |].
  3: rewrite Hrun. all: cbn [cfg_type_total_cnt cfg_type_cache r_id] in *.
  { lia. } { rewrite length_insert. lia. }
  exists R'. split; [done|]. split; [lia|]. split; [|split].
  - intros n' Hn'. rewrite Hold, lookup_insert_ne by set_solver. done.
  - intros j Hj. rewrite Hcache by lia. rewrite list_lookup_insert_ne by lia. done.
  - intros [|i] n' Hi; simpl in Hi.
    + injection Hi as <-. rewrite Hold, lookup_insert_eq by done. split; [f_equal; lia|].
      rewrite Hcache by lia. replace (_ + 0)%nat with (Z.to_nat (cfg_type_total_cnt R)) by lia.
      apply list_lookup_insert_eq. lia.
    + destruct (Hnew i n' Hi) as [-> Hc]. split; [f_equal; lia|]. rewrite <- Hc. f_equal. lia.
Qed.

Lemma register_all_overflow l R :
  0 ≤ cfg_type_total_cnt R ≤ zlen (cfg_type_cache R) →
  zlen (cfg_type_cache R) < cfg_type_total_cnt R + zlen l →
  register_all l R = Fault.
Proof.
  revert R. induction l as [|n l IH]; intros R H0 Hlen; [simpl in *; lia|].
  rewrite length_cons in Hlen. cbn [register_all]. unfold mbind, M_bind, register.
  rewrite (proj2 (Z.leb_le 0 _)) by lia. simpl.
  destruct (cfg_type_total_cnt R <? zlen (cfg_type_cache R)) eqn:E; [|done]. zify_bool.
  apply IH; simpl; rewrite length_insert; lia.
Qed.

(** What start-up establishes and every later lookup relies on. *)
Record numbered (k : forest tloc) (R : type_reg) : Prop := {
  nb_id n : n ∈ all_types k →
    CFG_TYPE_BASE_VAL ≤ type_id R n < CFG_TYPE_BASE_VAL + CFG_TYPE_MAX_NUM;
  nb_find n : n ∈ all_types k → cfg_type_find_by_id R (type_id R n) = Some n;
  nb_inv id n : 0 ≤ id < 2 ^ 32 → cfg_type_find_by_id R id = Some n →
    n ∈ all_types k ∧ type_id R n = id
}.

Lemma cfg_type_init_run k fuel :
  wf_types k → (length (all_types k) < fuel)%nat →
  cfg_type_init fuel reg0 = (register_all (all_types k) ;; mret 0) reg0.
Proof.
  intros [Hrep Hnd] Hf. unfold cfg_type_init.
  pose proof (alloc_is_preorder fuel None _ Hrep) as Hrun. simpl in Hrun. simpl in Hnd.
  rewrite app_nil_r in *. by apply Hrun.
Qed.

Lemma reg0_cache : zlen (cfg_type_cache reg0) = CFG_TYPE_MAX_NUM.
Proof. unfold reg0. cbn [cfg_type_cache]. rewrite length_replicate. done. Qed.

Lemma find_by_id_at R i :
  0 ≤ cfg_type_total_cnt R < 2 ^ 31 → 0 ≤ i < cfg_type_total_cnt R →
  cfg_type_find_by_id R (CFG_TYPE_BASE_VAL + i) = default None (cfg_type_cache R !! Z.to_nat i).
Proof.
  intros Hc Hi. unfold cfg_type_find_by_id.
  replace (CFG_TYPE_BASE_VAL + i - CFG_TYPE_BASE_VAL) with i by lia.
  rewrite !u32_small by lia. by rewrite (proj2 (Z.ltb_lt _ _)) by lia.
Qed.

Lemma cfg_type_init_numbered k fuel :
  wf_types k → zlen (all_types k) ≤ CFG_TYPE_MAX_NUM → (length (all_types k) < fuel)%nat →
  ∃ R, cfg_type_init fuel reg0 = Ok (0, R) ∧ numbered k R.
Proof.
  intros Hwf Hmax Hf. rewrite (cfg_type_init_run k) by done.
  destruct Hwf as [_ Hnd]. simpl in Hnd. rewrite app_nil_r in Hnd.
  destruct (register_all_ok (all_types k) reg0 Hnd) as (R & Hrun & Hcnt & _ & _ & Hnew).
  { done. } { rewrite reg0_cache. exact Hmax. }
  change (cfg_type_total_cnt reg0) with 0 in *. exists R. rewrite (M_bind_Ok _ _ _ _ _ Hrun). split; [done|].
  unfold CFG_TYPE_MAX_NUM in *.
  assert (Hat : ∀ i n, all_types k !! i = Some n →
            type_id R n = CFG_TYPE_BASE_VAL + Z.of_nat i ∧
            cfg_type_find_by_id R (CFG_TYPE_BASE_VAL + Z.of_nat i) = Some n).
  { intros i n Hi. pose proof (lookup_lt_Some _ _ _ Hi). destruct (Hnew i n Hi) as [Hid Hca].
    unfold type_id. rewrite Hid. split; [unfold default, id; lia|].
    rewrite find_by_id_at by lia. rewrite Nat2Z.id. change (Z.to_nat 0 + i)%nat with i in Hca. by rewrite Hca. }
  split.
  - intros n [i Hi]%list_elem_of_lookup. pose proof (lookup_lt_Some _ _ _ Hi).
    destruct (Hat i n Hi) as [-> _]. unfold CFG_TYPE_BASE_VAL, CFG_TYPE_MAX_NUM. lia.
  - intros n [i Hi]%list_elem_of_lookup. by destruct (Hat i n Hi) as [-> ?].
  - intros id n Hid Hfind. unfold cfg_type_find_by_id in Hfind.
    destruct (u32 (id - CFG_TYPE_BASE_VAL) <? u32 (cfg_type_total_cnt R)) eqn:E; [|done]. zify_bool.
    rewrite (u32_small (cfg_type_total_cnt R)) in E by lia.
    pose proof (u32_range (id - CFG_TYPE_BASE_VAL)).
    assert (Hlt : (Z.to_nat (u32 (id - CFG_TYPE_BASE_VAL)) < length (all_types k))%nat) by lia.
    destruct (lookup_lt_is_Some_2 _ _ Hlt) as [n' Hi].
    destruct (Hnew _ _ Hi) as [_ Hca]. change (Z.to_nat 0) with 0%nat in Hca. rewrite Nat.add_0_l in Hca. rewrite Hca in Hfind.
    cbn in Hfind. injection Hfind as ->. split; [by eapply list_elem_of_lookup_2|].
    destruct (Hat _ _ Hi) as [-> _].
    assert (CFG_TYPE_BASE_VAL ≤ id).
    { destruct (decide (id < CFG_TYPE_BASE_VAL)) as [Hlt'|]; [|lia]. exfalso.
      unfold u32, CFG_TYPE_BASE_VAL in *.
      rewrite <- (Z.mod_add (id - 100) 1), Z.mod_small in E by lia. lia. }
    rewrite u32_small by (unfold CFG_TYPE_BASE_VAL in *; lia). lia.
Qed.
End types.

(** ** Four subtrees of the table

    The types of [type/cfg_type_wan.c], [type/cfg_type_dmz.c],
    [type/cfg_type_timezone.c] and [type/cfg_type_vpnlist.c], under a root that
    has only these. *)
Module Table.
Definition l_root : tloc := 1.
Definition l_wan : tloc := 2.
Definition l_wan_pvc : tloc := 3.
Definition l_wan_pvc_entry : tloc := 4.
Definition l_wan_common : tloc := 5.
Definition l_dmz : tloc := 6.
Definition l_dmz_entry : tloc := 7.
Definition l_timezone : tloc := 8.
Definition l_timezone_entry : tloc := 9.
Definition l_timezone_entry_success : tloc := 10.
Definition l_timezone_entry_fail : tloc := 11.
Definition l_vpnlist : tloc := 12.
Definition l_vpnlist_entry : tloc := 13.
Definition l_vpnlist_common : tloc := 14.
Definition l_vpnlist_del_domain_entry : tloc := 15.

(** The operations all tables share: default [get], [set] and [query]. *)
Definition plain_ops (commit : handler) : cfg_node_ops :=
  {| op_create := None; op_delete := None; op_set := Some H_default; op_get := Some H_default;
     op_commit := Some commit; op_query := Some H_default; op_memory_type_read := None |}.
Definition dynamic_ops (delete commit : handler) : cfg_node_ops :=
  {| op_create := Some H_default; op_delete := Some delete; op_set := Some H_default;
     op_get := Some H_default; op_commit := Some commit; op_query := Some H_default;
     op_memory_type_read := None |}.

Definition leaf name flag parent index ops : cfg_node_type :=
  {| t_name := cs name; t_flag := flag; t_parent := Some parent; t_subtype := None;
     t_ops := Some ops; t_index := index |}.

Definition cfg_type_wan_index : option (list cstr) := Some [cs "wan_pvc"].
Definition cfg_type_wan_pvc_entry_ops : cfg_node_ops :=
  dynamic_ops (H_type (cs "cfg_type_wan_pvc_entry_func_delete"))
              (H_type (cs "cfg_type_wan_pvc_entry_func_commit")).
Definition cfg_type_wan_pvc_entry : cfg_node_type :=
  leaf "Entry" (Z.lor CFG_TYPE_FLAG_MULTIPLE 8) l_wan_pvc cfg_type_wan_index
       cfg_type_wan_pvc_entry_ops.
Definition cfg_type_wan_pvc_ops : cfg_node_ops :=
  dynamic_ops (H_type (cs "cfg_type_wan_pvc_func_delete"))
              (H_type (cs "cfg_type_wan_pvc_func_commit")).
Definition cfg_type_wan_pvc : cfg_node_type :=
  {| t_name := cs "PVC"; t_flag := Z.lor CFG_TYPE_FLAG_MULTIPLE 8; t_parent := Some l_wan;
     t_subtype := Some [l_wan_pvc_entry]; t_ops := Some cfg_type_wan_pvc_ops;
     t_index := cfg_type_wan_index |}.
Definition cfg_type_wan_common : cfg_node_type :=
  leaf "Common" 1 l_wan None (plain_ops H_default).
Definition cfg_type_wan : cfg_node_type :=
  {| t_name := cs "Wan"; t_flag := 1; t_parent := Some l_root;
     t_subtype := Some [l_wan_pvc; l_wan_common]; t_ops := Some (plain_ops H_default);
     t_index := None |}.

Definition cfg_type_dmz_entry : cfg_node_type :=
  leaf "Entry" (Z.lor CFG_TYPE_FLAG_MULTIPLE 64) l_dmz (Some [cs "nat_pvc"])
       (dynamic_ops H_default (H_type (cs "cfg_type_dmz_entry_func_commit"))).
Definition cfg_type_dmz : cfg_node_type :=
  {| t_name := cs "Dmz"; t_flag := 1; t_parent := Some l_root; t_subtype := Some [l_dmz_entry];
     t_ops := Some (plain_ops (H_type (cs "cfg_type_dmz_entry_func_commit"))); t_index := None |}.

Definition timezone_ops : cfg_node_ops :=
  plain_ops (H_type (cs "cfg_type_timezone_entry_func_commit")).
Definition cfg_type_timezone_entry_success : cfg_node_type :=
  leaf "Success" 1 l_timezone_entry None timezone_ops.
Definition cfg_type_timezone_entry_fail : cfg_node_type :=
  leaf "Fail" 1 l_timezone_entry None timezone_ops.
Definition cfg_type_timezone_entry : cfg_node_type :=
  {| t_name := cs "Entry"; t_flag := 1; t_parent := Some l_timezone;
     t_subtype := Some [l_timezone_entry_success; l_timezone_entry_fail];
     t_ops := Some timezone_ops; t_index := None |}.
Definition cfg_type_timezone : cfg_node_type :=
  {| t_name := cs "Timezone"; t_flag := 1; t_parent := Some l_root;
     t_subtype := Some [l_timezone_entry]; t_ops := Some timezone_ops; t_index := None |}.

Definition VPN_INSTANCE_NUM : Z := 16.
Definition vpnlist_commit : handler := H_type (cs "cfg_type_vpnlist_func_commit").
Definition cfg_type_vpnlist_entry : cfg_node_type :=
  leaf "Entry" (Z.lor CFG_TYPE_FLAG_MULTIPLE VPN_INSTANCE_NUM) l_vpnlist None (dynamic_ops H_default vpnlist_commit).
Definition cfg_type_vpnlist_common : cfg_node_type :=
  leaf "Common" (Z.lor CFG_TYPE_FLAG_MULTIPLE 1) l_vpnlist None (plain_ops vpnlist_commit).
Definition cfg_type_vpnlist_del_domain_entry : cfg_node_type :=
  leaf "DelDomainEntry" (Z.lor CFG_TYPE_FLAG_MULTIPLE VPN_INSTANCE_NUM) l_vpnlist None (plain_ops vpnlist_commit).
Definition cfg_type_vpnlist : cfg_node_type :=
  {| t_name := cs "VPN"; t_flag := 1; t_parent := Some l_root;
     t_subtype := Some [l_vpnlist_entry; l_vpnlist_common; l_vpnlist_del_domain_entry];
     t_ops := Some (plain_ops vpnlist_commit); t_index := None |}.

Definition demo_root : cfg_node_type :=
  {| t_name := cs "root"; t_flag := 1; t_parent := None;
     t_subtype := Some [l_wan; l_dmz; l_timezone; l_vpnlist]; t_ops := Some (plain_ops H_default);
     t_index := None |}.

Definition types : gmap tloc cfg_node_type :=
  list_to_map [(l_root, demo_root); (l_wan, cfg_type_wan); (l_wan_pvc, cfg_type_wan_pvc);
     (l_wan_pvc_entry, cfg_type_wan_pvc_entry); (l_wan_common, cfg_type_wan_common);
     (l_dmz, cfg_type_dmz); (l_dmz_entry, cfg_type_dmz_entry);
     (l_timezone, cfg_type_timezone); (l_timezone_entry, cfg_type_timezone_entry);
     (l_timezone_entry_success, cfg_type_timezone_entry_success);
     (l_timezone_entry_fail, cfg_type_timezone_entry_fail);
     (l_vpnlist, cfg_type_vpnlist); (l_vpnlist_entry, cfg_type_vpnlist_entry);
     (l_vpnlist_common, cfg_type_vpnlist_common);
     (l_vpnlist_del_domain_entry, cfg_type_vpnlist_del_domain_entry)].

(** Its shape. *)
Definition tree : forest tloc :=
  FCons l_wan
    (FCons l_wan_pvc (FCons l_wan_pvc_entry FNil FNil) (FCons l_wan_common FNil FNil))
    (FCons l_dmz (FCons l_dmz_entry FNil FNil)
      (FCons l_timezone
        (FCons l_timezone_entry
          (FCons l_timezone_entry_success FNil (FCons l_timezone_entry_fail FNil FNil)) FNil)
        (FCons l_vpnlist
          (FCons l_vpnlist_entry FNil
            (FCons l_vpnlist_common FNil (FCons l_vpnlist_del_domain_entry FNil FNil)))
          FNil))).

(** The registry after start-up. *)
Definition reg : type_reg :=
  match cfg_type_init types l_root 20 reg0 with Ok (_, R) => R | _ => reg0 end.

Lemma types_wf : wf_types types l_root tree.
Proof.
  split; [|by_compute].
  repeat first [exact I | split]; (eexists; split; [reflexivity|split; reflexivity]).
Qed.

Lemma reg_run : cfg_type_init types l_root 20 reg0 = Ok (0, reg).
Proof.
  destruct (cfg_type_init_numbered types l_root tree 20 types_wf) as (R & Hrun & _).
  { by apply Z.leb_le. } { by apply Nat.ltb_lt. }
  unfold reg. by rewrite Hrun.
Qed.

Lemma reg_numbered : numbered l_root tree reg.
Proof.
  destruct (cfg_type_init_numbered types l_root tree 20 types_wf) as (R & Hrun & Hn).
  { by apply Z.leb_le. } { by apply Nat.ltb_lt. }
  unfold reg. by rewrite Hrun.
Qed.
End Table.

(** ** Properties *)

(** C33: start-up numbers the type table. When the table has at most [CFG_TYPE_MAX_NUM]
    types, [cfg_type_init] returns and afterwards [cfg_type_find_by_id] and the [id]
    fields are inverse bijections between the types and the identifiers in use; a larger
    table makes it write past [cfg_type_cache]. *)
Theorem cfg_type_init_bijection T root k fuel :
  wf_types T root k → (length (all_types root k) < fuel)%nat →
  if zlen (all_types root k) <=? CFG_TYPE_MAX_NUM then
    ∃ R, cfg_type_init T root fuel reg0 = Ok (0, R) ∧
      (∀ n, n ∈ all_types root k → cfg_type_find_by_id R (type_id R n) = Some n) ∧
      (∀ id n, 0 ≤ id < 2 ^ 32 → cfg_type_find_by_id R id = Some n →
         n ∈ all_types root k ∧ type_id R n = id)
  else cfg_type_init T root fuel reg0 = Fault.
Proof.
  intros Hwf Hf. destruct (_ <=? _) eqn:E; zify_bool.
  - destruct (cfg_type_init_numbered T root k fuel Hwf E Hf) as (R & Hrun & [_ Hfind Hinv]). eauto 10.
  - rewrite (cfg_type_init_run T root k) by done. apply M_bind_Fault.
    apply register_all_overflow; rewrite reg0_cache; change (cfg_type_total_cnt reg0) with 0;
      unfold CFG_TYPE_MAX_NUM in *; lia.
Qed.

Lemma cfg_type_init_bijection_witness :
  ∃ R, cfg_type_init Table.types Table.l_root 20 reg0 = Ok (0, R) ∧
    (∀ n, n ∈ all_types Table.l_root Table.tree → cfg_type_find_by_id R (type_id R n) = Some n) ∧
    (∀ id n, 0 ≤ id < 2 ^ 32 → cfg_type_find_by_id R id = Some n →
       n ∈ all_types Table.l_root Table.tree ∧ type_id R n = id).
Proof.
  refine (cfg_type_init_bijection Table.types Table.l_root Table.tree 20 Table.types_wf _).
  by apply Nat.ltb_lt.
Defined.
End CfgType.
