(* ===== verification/CfgPath.v ===== *)
(** * Object paths ([service/cfg/cfg_obj.c], the part on names)

    Paths such as ["root.wan.pvc.1.entry.2"] name an object by the types on
    the way to it and, for types with several objects, their instance numbers.
    They are cut into tokens, resolved against the type table, and turned into
    object identifiers. *)

From S2P Require Import Prelude CString CfgType.
Open Scope Z_scope.

Module CfgPath.
Import CfgType.

Definition CFG_TYPE_SHIFT : Z := 16.
Definition CFG_TYPE_MASK : Z := 0xffff0000.
Definition CFG_OBJ_MASK : Z := 0xffff.
Definition CFG_OID_TO_TID (x : Z) : Z := Z.land (Z.shiftr x 16) 0xffff.
Definition CFG_OID_TO_ID (x : Z) : Z := Z.land x 0xffff.
Definition CFG_NODE_SPELIRATE_CHAR : Z := chr ".".

(** What does not change after start-up: the table, its root, the identifiers,
    and a bound for the walks along [brother]. *)
Record cfg_env := {
  env_types : gmap tloc cfg_node_type;
  env_root : tloc;
  env_reg : type_reg;
  env_fuel : nat
}.

(** *** Tokens *)

(** [cfg_get_token]: the value returned, the token, and what is left of the
    path; [None] is -1.  The last token is copied with [strcpy] into a buffer
    of [CFG_MAX_TYPE_NAME] bytes, whatever its length. *)
Definition cfg_get_token (objpath : option cstr) : res (option (Z * cstr * cstr)) :=
  match objpath with
  | None => mret None
  | Some [] => mret None
  | Some (c :: s) =>
      let start := c :: s in
      if c =? CFG_NODE_SPELIRATE_CHAR then mret None
      else match strchr start CFG_NODE_SPELIRATE_CHAR with
           | Some (token, rest) =>
               if CFG_MAX_TYPE_NAME <=? strlen token then mret None
               else mret (Some (1, token, rest))
           | None =>
               if CFG_MAX_TYPE_NAME <=? strlen start then Fault
               else mret (Some (0, start, []))
           end
  end.

Definition cfg_str_to_lower (str : cstr) : cstr := map tolower str.

Definition cfg_type_compare (s1 s2 : option cstr) : Z :=
  match s1, s2 with
  | Some s1, Some s2 =>
      let tmp1 := strncpy_z (Z.to_nat CFG_MAX_TYPE_NAME) s1 in
      let tmp2 := strncpy_z (Z.to_nat CFG_MAX_TYPE_NAME) s2 in
      strcmp (cfg_str_to_lower tmp1) (cfg_str_to_lower tmp2)
  | _, _ => -1
  end.

(** [if (token[0] >= '1' && token[0] <= '9') digit = atoi(token); else digit = 0;] *)
Definition token_digit (token : cstr) : Z :=
  match token with
  | c :: _ => if (chr "1" <=? c) && (c <=? chr "9") then atoi token else 0
  | [] => 0
  end.

(** The index of the last ['.'] at or before [len], or 0. *)
Fixpoint sep_back (s : cstr) (len : nat) : nat :=
  match len with
  | O => O
  | S len' =>
      if bool_decide (s !! len = Some CFG_NODE_SPELIRATE_CHAR) then len else sep_back s len'
  end.

Section path.
Context (E : cfg_env).
Let T := env_types E.
Let root := env_root E.
Let R := env_reg E.

Definition cfg_type_from_oid (oid : Z) : option tloc :=
  cfg_type_find_by_id R (CFG_OID_TO_TID oid).

(** [while(subtype)] of [cfg_type_query_child]. *)
Fixpoint query_brothers (fuel : nat) (subtype : option tloc) (child : option cstr)
    : res (option tloc) :=
  match fuel with
  | O => NoFuel
  | S fuel' =>
      match subtype with
      | None => mret None
      | Some n =>
          ty ← type_at T n;
          if cfg_type_compare (Some (t_name ty)) child =? 0 then mret (Some n)
          else b ← cfg_type_get_brother T subtype; query_brothers fuel' b child
      end
  end.

Definition cfg_type_query_child (type : option tloc) (child : option cstr)
    : res (option tloc) :=
  match child with
  | None => mret None
  | Some _ =>
      match type with
      | None =>
          ty ← type_at T root;
          if cfg_type_compare (Some (t_name ty)) child =? 0 then mret (Some root)
          else mret None
      | Some _ => sub ← cfg_type_get_child T type; query_brothers (env_fuel E) sub child
      end
  end.

(** The loop of [cfg_type_query], with [CFG_MAX_NODE_LEVEL - level] rounds
    left: [None] for an early [return NULL], else the node reached, what is
    left of the path and the rounds left. *)
Fixpoint type_query_loop (k : nat) (tmp : option cstr) (node : option tloc) (need_alpha : bool)
    : res (option (option tloc * option cstr * nat)) :=
  t ← cfg_get_token tmp;
  match t, k with
  | Some (_, token, rest), S k' =>
      let digit := token_digit token in
      if need_alpha && negb (digit =? 0) then mret None
      else if negb (digit =? 0) then type_query_loop k' (Some rest) node true
      else
        n ← cfg_type_query_child node (Some token);
        match n with
        | None => mret None
        | Some _ => type_query_loop k' (Some rest) n false
        end
  | Some (_, _, rest), O => mret (Some (node, Some rest, k))
  | None, _ => mret (Some (node, tmp, k))
  end.

Definition left_over (tmp : option cstr) : bool :=
  match tmp with Some (_ :: _) => true | _ => false end.

Definition cfg_type_query (path : option cstr) : res (option tloc) :=
  r ← type_query_loop CFG_MAX_NODE_LEVEL path None true;
  match r with
  | None => mret None
  | Some (node, tmp, k) => if left_over tmp || Nat.eqb k 0 then mret None else mret node
  end.

Definition cfg_type_path_to_id (path : option cstr) : res Z :=
  r ← cfg_type_query path;
  match r with None => mret (-1) | Some n => mret (s32 (type_id R n)) end.

(** The loop of [cfg_path_to_oid_array]; [objid] holds the [level] entries
    stored so far.  [None] is an early [return -1]. *)
Fixpoint oid_array_loop (fuel : nat) (tmp : option cstr) (node : option tloc)
    (need_alpha : bool) (oid tid : Z) (objid : list Z)
    : res (option (option cstr * Z * Z * list Z)) :=
  match fuel with
  | O => NoFuel
  | S fuel' =>
      t ← cfg_get_token tmp;
      match t with
      | None => mret (Some (tmp, oid, tid, objid))
      | Some (_, token, rest) =>
          if Nat.ltb (length objid) CFG_MAX_NODE_LEVEL then
            let digit := token_digit token in
            if need_alpha && negb (digit =? 0) then mret None
            else if negb (digit =? 0) then
              oid_array_loop fuel' (Some rest) node true digit tid objid
            else
              let objid :=
                if negb (oid =? 0) && negb (tid =? 0)
                then objid ++ [s32 (Z.lor (Z.shiftl tid CFG_TYPE_SHIFT) oid)] else objid in
              n ← cfg_type_query_child node (Some token);
              match n with
              | None => mret None
              | Some n' =>
                  oid_array_loop fuel' (Some rest) n false 1 (s32 (type_id R n')) objid
              end
          else mret (Some (Some rest, oid, tid, objid))
      end
  end.

(** [cfg_path_to_oid_array]: [Some objid] when it returns [level > 0] with
    [objid] copied to [id], [None] when it returns -1.  Every round takes at
    least one character of the path. *)
Definition cfg_path_to_oid_array (objpath : option cstr) (id_given : bool)
    : res (option (list Z)) :=
  if negb id_given then mret None
  else
    let fuel := match objpath with Some s => S (length s) | None => 1%nat end in
    r ← oid_array_loop fuel objpath None true 0 0 [];
    match r with
    | None => mret None
    | Some (tmp, oid, tid, objid) =>
        if left_over tmp || Nat.eqb (length objid) CFG_MAX_NODE_LEVEL then mret None
        else mret (Some (objid ++ [s32 (Z.lor (Z.shiftl tid CFG_TYPE_SHIFT) oid)]))
    end.

Definition cfg_path_to_oid (objpath : option cstr) : res Z :=
  s ← deref objpath;
  let tmp := sep_back s (length s) in
  let isid := if Nat.eqb tmp 0 then false else 0 <? atoi (drop (S tmp) s) in
  r ← cfg_path_to_oid_array objpath true;
  match r with
  | None => mret 0
  | Some objid =>
      if Nat.leb CFG_MAX_NODE_LEVEL (length objid) then mret 0
      else
        o ← deref (last objid);
        mret (if isid then o else s32 (Z.land (u32 o) CFG_TYPE_MASK))
  end.
End path.

(** [cfg_get_parent_path], into the caller's buffer of [CFG_MAX_PATH_NAME]
    bytes: [None] is -1. *)
Definition cfg_get_parent_path (objpath : option cstr) : res (option cstr) :=
  match objpath with
  | None => mret None
  | Some s =>
      if CFG_MAX_PATH_NAME <=? strlen s then Fault
      else
        let len := sep_back s (length s) in
        if Nat.eqb len 0 then mret None
        else if (if s !! S len is Some c then is_digit c else false) then
          let len := sep_back s (len - 1) in
          if Nat.eqb len 0 then mret None else mret (Some (take len s))
        else mret (Some (take len s))
  end.

(** ** Resolving names *)

Section named.
Context (T : gmap tloc cfg_node_type).

Definition named (n : tloc) (tok : cstr) : bool :=
  match T !! n with
  | Some ty => cfg_type_compare (Some (t_name ty)) (Some tok) =? 0
  | None => false
  end.

(** The first of [l] that answers to the name [tok]. *)
Fixpoint first_named (l : list tloc) (tok : cstr) : option tloc :=
  match l with
  | [] => None
  | n :: l' => if named n tok then Some n else first_named l' tok
  end.

Lemma first_named_elem l tok n : first_named l tok = Some n → n ∈ l ∧ named n tok = true.
Proof.
  induction l as [|a l IH]; simpl; [done|]. destruct (named a tok) eqn:E; [|set_solver].
  intros [= <-]. set_solver.
Qed.

(** A name that no other of [l] answers to finds its own type. *)
Lemma first_named_unique l tok n :
  n ∈ l → named n tok = true → (∀ m, m ∈ l → named m tok = true → m = n) →
  first_named l tok = Some n.
Proof.
  intros Hn Hnamed Hu. induction l as [|a l IH]; [set_solver|]. simpl.
  destruct (named a tok) eqn:E; [f_equal; apply Hu; [by left|done]|].
  apply elem_of_cons in Hn as [->|Hn]; [congruence|].
  apply IH; [done|]. intros m Hm. apply Hu. by right.
Qed.

Lemma query_brothers_spec root R parent f fuel fuel' tok :
  let E := {| env_types := T; env_root := root; env_reg := R; env_fuel := fuel' |} in
  types_rep T parent f → siblings_rep T parent f → (length (roots f) < fuel)%nat →
  query_brothers E fuel (head (roots f)) (Some tok) = Ok (first_named (roots f) tok).
Proof.
  intros E. revert fuel. induction f as [|n k _ s IH]; intros [|fuel] Hrep Hsib Hlen;
    [simpl in Hlen; lia|done|simpl in Hlen; lia|]. simpl in Hlen.
  pose proof (types_rep_brother _ _ _ _ _ Hrep Hsib) as Hb.
  pose proof (siblings_rep_next _ _ _ _ _ Hsib) as Hss.
  destruct Hrep as ((ty & Hty & _) & _ & Hrs).
  cbn [query_brothers roots head first_named].
  unfold named, type_at, mbind, res_bind. simpl env_types. rewrite Hty. cbn [deref].
  destruct (_ =? 0); [done|]. rewrite Hb. apply IH; [done|done|lia].
Qed.

(** Every node of a represented forest has its own children represented. *)
Lemma types_rep_node parent f n :
  types_rep T parent f → NoDup (preorder f) → n ∈ preorder f →
  ∃ ty k, T !! n = Some ty ∧ subtypes ty = roots k ∧ types_rep T (Some n) k ∧
          siblings_rep T (Some n) k ∧ cfg_type_get_child T (Some n) = Ok (head (roots k)) ∧
          NoDup (preorder k) ∧ preorder k ⊆ preorder f.
Proof.
  revert parent. induction f as [|a k1 IH1 s IH2]; intros parent Hrep Hnd Hn; [set_solver|].
  simpl in Hnd. pose proof Hnd as [_ [Hk [_ Hs]]%NoDup_app]%NoDup_cons.
  simpl in Hn. apply elem_of_cons in Hn as [->|[Hn|Hn]%elem_of_app].
  - pose proof (types_rep_child _ _ _ _ _ Hrep). pose proof (siblings_rep_child _ _ _ _ _ Hrep Hk).
    destruct Hrep as ((ty & Hty & _ & Hsub) & Hrk & _). exists ty, k1.
    repeat (split; [done|]). set_solver.
  - destruct Hrep as (_ & Hrk & _). destruct (IH1 _ Hrk Hk Hn) as (ty & k & ?). exists ty, k. set_solver.
  - destruct Hrep as (_ & _ & Hrs). destruct (IH2 _ Hrs Hs Hn) as (ty & k & ?). exists ty, k. set_solver.
Qed.
End named.

(** A table that is well formed, numbered, and within the walk bound. *)
Record wf_env (E : cfg_env) (k : forest tloc) : Prop := {
  we_types : wf_types (env_types E) (env_root E) k;
  we_numbered : numbered (env_root E) k (env_reg E);
  we_fuel : (length (all_types (env_root E) k) < env_fuel E)%nat
}.

Definition children (E : cfg_env) (n : tloc) : list tloc :=
  match env_types E !! n with Some ty => subtypes ty | None => [] end.

Lemma roots_length {A} (f : forest A) : (length (roots f) ≤ length (preorder f))%nat.
Proof. induction f; simpl; [done|]. rewrite length_app. lia. Qed.

Section env.
Context (E : cfg_env) (k : forest tloc) (wf : wf_env E k).
Let T := env_types E.
Let types := all_types (env_root E) k.

Lemma all_types_preorder : preorder (FCons (env_root E) k FNil) = types.
Proof. simpl. by rewrite app_nil_r. Qed.

(** What [cfg_type_query_child] computes on any type of the table. *)
Lemma query_child_spec n tok :
  n ∈ types →
  cfg_type_query_child E (Some n) (Some tok) = Ok (first_named T (children E n) tok).
Proof using wf.
  intros Hn. destruct wf as [[Hrep Hnd] _ Hfuel]. rewrite <- all_types_preorder in Hn.
  destruct (types_rep_node _ _ _ n Hrep Hnd Hn) as (ty & k' & Hty & Hsub & Hrep' & Hsib & Hc & Hndk & Hin).
  unfold cfg_type_query_child, mbind, res_bind. rewrite Hc.
  unfold children. rewrite Hty, Hsub. unfold T. destruct E as [T0 r R fu]. simpl in *.
  apply (query_brothers_spec T0 r R (Some n)); [done|done|].
  pose proof (submseteq_length _ _ (NoDup_submseteq _ _ Hndk Hin)) as Hl.
  pose proof (roots_length k'). simpl in *. rewrite app_nil_r in Hl. unfold all_types in *. simpl in *. lia.
Qed.

Lemma children_types n m : n ∈ types → m ∈ children E n → m ∈ types.
Proof using wf.
  intros Hn Hm. destruct wf as [[Hrep Hnd] _ _]. rewrite <- all_types_preorder in Hn |- *.
  destruct (types_rep_node _ _ _ n Hrep Hnd Hn) as (ty & k' & Hty & Hsub & _ & _ & _ & _ & Hin).
  unfold children in Hm. rewrite Hty, Hsub in Hm. apply Hin. by apply roots_preorder.
Qed.

Lemma query_child_root tok :
  cfg_type_query_child E None (Some tok)
  = Ok (if named T (env_root E) tok then Some (env_root E) else None).
Proof using wf.
  destruct wf as [[((ty & Hty & _) & _) _] _ _].
  unfold cfg_type_query_child, named, type_at, mbind, res_bind, T. rewrite Hty. simpl.
  by destruct (_ =? 0).
Qed.

Lemma query_child_types node tok n :
  (∀ m, node = Some m → m ∈ types) →
  cfg_type_query_child E node (Some tok) = Ok (Some n) → n ∈ types.
Proof using wf.
  intros Hnode. destruct node as [m|].
  - rewrite query_child_spec by auto. intros [= [Hn _]%first_named_elem].
    eapply children_types; eauto.
  - rewrite query_child_root. destruct (named _ _ _); intros [= <-]. unfold types, all_types. set_solver.
Qed.
End env.

(** ** Writing paths

    A path is a list of segments: a type, a name that finds it, and possibly
    an instance number. *)

Record seg := { sg_type : tloc; sg_name : cstr; sg_inst : option Z }.

Definition seg_tokens (s : seg) : list cstr :=
  sg_name s :: match sg_inst s with Some n => [fmt_u n] | None => [] end.

Fixpoint join (toks : list cstr) : cstr :=
  match toks with
  | [] => []
  | [t] => t
  | t :: toks' => t ++ CFG_NODE_SPELIRATE_CHAR :: join toks'
  end.

Definition path_of (p : list seg) : cstr := join (concat (map seg_tokens p)).

Definition seg_oid (R : type_reg) (s : seg) : Z :=
  type_id R (sg_type s) * 2 ^ 16 + default 1 (sg_inst s).

(** A token that goes through [cfg_get_token] unharmed. *)
Definition token_ok (t : cstr) : Prop :=
  t ≠ [] ∧ strlen t < CFG_MAX_TYPE_NAME ∧ CFG_NODE_SPELIRATE_CHAR ∉ t.
Definition name_ok (t : cstr) : Prop := token_ok t ∧ token_digit t = 0.
Definition inst_ok (i : option Z) : Prop := match i with Some n => 1 ≤ n ≤ CFG_OBJ_MASK | None => True end.

#[export] Instance name_ok_dec t : Decision (name_ok t).
Proof. unfold name_ok, token_ok. apply _. Defined.
#[export] Instance inst_ok_dec i : Decision (inst_ok i).
Proof. destruct i; simpl; apply _. Defined.

(** The segments lead from one type to the next. *)
Fixpoint resolves (E : cfg_env) (node : option tloc) (p : list seg) : Prop :=
  match p with
  | [] => True
  | s :: p' =>
      cfg_type_query_child E node (Some (sg_name s)) = Ok (Some (sg_type s)) ∧
      name_ok (sg_name s) ∧ inst_ok (sg_inst s) ∧ resolves E (Some (sg_type s)) p'
  end.

Definition last_type (node : option tloc) (p : list seg) : option tloc :=
  match last p with Some s => Some (sg_type s) | None => node end.

Lemma get_token_join t ts :
  token_ok t → ∃ b, cfg_get_token (Some (join (t :: ts))) = Ok (Some (b, t, join ts)).
Proof.
  intros (Hne & Hlen & Hdot). unfold CFG_MAX_TYPE_NAME in *.
  destruct t as [|c t]; [done|]. assert (Hc : (c =? CFG_NODE_SPELIRATE_CHAR) = false).
  { apply Z.eqb_neq. set_solver. }
  destruct ts as [|t' ts].
  - exists 0. cbn [join]. unfold cfg_get_token. rewrite Hc.
    rewrite (proj2 (strchr_None _ _) Hdot). unfold CFG_MAX_TYPE_NAME.
    by rewrite (proj2 (Z.leb_gt _ _) Hlen).
  - exists 1. change (join ((c :: t) :: t' :: ts))
      with (c :: t ++ CFG_NODE_SPELIRATE_CHAR :: join (t' :: ts)).
    unfold cfg_get_token. rewrite Hc, app_comm_cons, strchr_app by done.
    unfold CFG_MAX_TYPE_NAME. by rewrite (proj2 (Z.leb_gt _ _) Hlen).
Qed.

Lemma fmt_u_length n : (length (fmt_u n) ≤ 10)%nat.
Proof.
  unfold fmt_u. assert (H : ∀ f m acc, (length (dec_digits f m acc) ≤ f + length acc)%nat).
  { induction f as [|f IH]; intros m acc; simpl; [lia|].
    destruct (m <? 10); simpl; [lia|]. etransitivity; [apply IH|]. simpl. lia. }
  etransitivity; [apply H|]. simpl. lia.
Qed.

(** The first digit of a positive number is not 0. *)
Lemma dec_digits_first fuel n :
  1 ≤ n < 10 ^ Z.of_nat fuel → ∃ c s, dec_digits fuel n [] = c :: s ∧ 49 ≤ c ≤ 57.
Proof.
  revert n. induction fuel as [|f IH]; intros n Hn; [simpl in Hn; lia|].
  rewrite Nat2Z.inj_succ, Z.pow_succ_r in Hn by lia. simpl.
  pose proof (Z.mod_pos_bound n 10). destruct (n <? 10) eqn:E; zify_bool.
  - eexists _, _. split; [done|]. rewrite Z.mod_small; lia.
  - rewrite dec_digits_acc. destruct (IH (n / 10)) as (c & s & -> & Hc).
    { split; [apply Z.div_le_lower_bound; lia|apply Z.div_lt_upper_bound; lia]. }
    eexists _, _. split; [done|]. done.
Qed.

Lemma inst_token n : 1 ≤ n ≤ INT_MAX → token_ok (fmt_u n) ∧ token_digit (fmt_u n) = n.
Proof.
  intros Hn. unfold INT_MAX in Hn.
  destruct (dec_digits_first 10 n) as (c & s & Hs & Hc); [lia|].
  pose proof (fmt_u_digits n) as Hd. split.
  - split; [unfold fmt_u; by rewrite Hs|]. split.
    + pose proof (fmt_u_length n). unfold strlen, CFG_MAX_TYPE_NAME. lia.
    + intros Hin. rewrite Forall_forall in Hd.
      specialize (Hd ltac:(lia) _ Hin). unfold CFG_NODE_SPELIRATE_CHAR, chr in Hd. simpl in Hd. lia.
  - unfold token_digit. unfold fmt_u in *. rewrite Hs in *.
    change (chr "1") with 49. change (chr "9") with 57.
    rewrite (proj2 (Z.leb_le _ _)), (proj2 (Z.leb_le _ _)) by lia. simpl.
    rewrite <- Hs, <- (app_nil_r (dec_digits 10 n [])).
    apply (atoi_fmt_u n []); [unfold INT_MAX; lia|done].
Qed.

Lemma path_of_cons s p :
  path_of (s :: p) = join (sg_name s :: (if sg_inst s is Some n then [fmt_u n] else [])
                                       ++ concat (map seg_tokens p)).
Proof. unfold path_of. by destruct s as [ty nm [n|]]. Qed.

Lemma join_cons_length t ts : (length t + length (join ts) ≤ length (join (t :: ts)))%nat.
Proof. destruct ts; simpl; [lia|]. rewrite length_app. simpl. lia. Qed.

Lemma pack_oid tid n : 0 ≤ tid < 2 ^ 15 → 0 ≤ n < 2 ^ 16 →
  s32 (Z.lor (Z.shiftl tid CFG_TYPE_SHIFT) n) = tid * 2 ^ 16 + n.
Proof.
  intros Ht Hn. unfold CFG_TYPE_SHIFT.
  assert (Hl : Z.land (Z.shiftl tid 16) n = 0).
  { apply Z.bits_inj'. intros i Hi. rewrite Z.land_spec, Z.bits_0.
    destruct (decide (i < 16)).
    - by rewrite Z.shiftl_spec_low.
    - rewrite (proj1 (Z.bounded_iff_bits_nonneg 16 n ltac:(lia) ltac:(lia))) by lia. apply andb_false_r. }
  rewrite <- Z.lxor_lor, <- Z.add_nocarry_lxor, Z.shiftl_mul_pow2 by done || lia.
  apply s32_small. unfold INT_MIN, INT_MAX. lia.
Qed.

(** The identifier the loop has not stored yet. *)
Definition pending (tid oid : Z) : list Z :=
  if negb (oid =? 0) && negb (tid =? 0)
  then [s32 (Z.lor (Z.shiftl tid CFG_TYPE_SHIFT) oid)] else [].

Section resolve.
Context (E : cfg_env) (k : forest tloc) (wf : wf_env E k).
Let R := env_reg E.
Let types := all_types (env_root E) k.

Lemma pending_seg n i :
  n ∈ types → inst_ok i → pending (s32 (type_id R n)) (default 1 i) = [type_id R n * 2 ^ 16 + default 1 i].
Proof using wf.
  intros Hn Hi. destruct wf as [_ [Hid _ _] _]. specialize (Hid n Hn).
  unfold CFG_TYPE_BASE_VAL, CFG_TYPE_MAX_NUM in Hid.
  rewrite s32_small by (unfold INT_MIN, INT_MAX, R; lia). unfold pending.
  assert (1 ≤ default 1 i ≤ CFG_OBJ_MASK) by (destruct i; simpl in *; unfold CFG_OBJ_MASK in *; lia).
  unfold CFG_OBJ_MASK in *.
  rewrite (proj2 (Z.eqb_neq (default 1 i) 0)), (proj2 (Z.eqb_neq (type_id R n) 0)) by (unfold R; lia).
  simpl. rewrite pack_oid by (unfold R; lia). done.
Qed.

(** A round of the loop on a name, and one on an instance number. *)
Lemma oid_round_name fuel t ts node na oid tid objid n :
  name_ok t → (length objid < CFG_MAX_NODE_LEVEL)%nat →
  cfg_type_query_child E node (Some t) = Ok (Some n) →
  oid_array_loop E (S fuel) (Some (join (t :: ts))) node na oid tid objid
  = oid_array_loop E fuel (Some (join ts)) (Some n) false 1 (s32 (type_id R n))
      (objid ++ pending tid oid).
Proof using.
  intros [Hok Hd] Hlen Hq. destruct (get_token_join t ts Hok) as [b Htok].
  cbn [oid_array_loop]. unfold mbind, res_bind in *. rewrite Htok.
  rewrite (proj2 (Nat.ltb_lt _ _)) by lia. rewrite Hd, Hq, andb_false_r. simpl negb. cbn iota.
  f_equal. unfold pending. destruct (_ && _); [done|]. by rewrite app_nil_r.
Qed.

Lemma oid_round_inst fuel i ts node oid tid objid :
  1 ≤ i ≤ INT_MAX → (length objid < CFG_MAX_NODE_LEVEL)%nat →
  oid_array_loop E (S fuel) (Some (join (fmt_u i :: ts))) node false oid tid objid
  = oid_array_loop E fuel (Some (join ts)) node true i tid objid.
Proof using.
  intros Hi Hlen. destruct (inst_token i Hi) as [Hok Hd].
  destruct (get_token_join _ ts Hok) as [b Htok].
  cbn [oid_array_loop]. unfold mbind, res_bind. rewrite Htok.
  rewrite (proj2 (Nat.ltb_lt _ _)) by lia. rewrite Hd. simpl andb.
  by rewrite (proj2 (Z.eqb_neq i 0)) by lia.
Qed.

Lemma pending_nonzero tid oid o : pending tid oid = [o] → oid ≠ 0 ∧ tid ≠ 0.
Proof using.
  unfold pending. destruct (oid =? 0) eqn:E1, (tid =? 0) eqn:E2; zify_bool; done.
Qed.

(** The length of what a round consumes. *)
Lemma token_consumes t ts : token_ok t → (length (join ts) < length (join (t :: ts)))%nat.
Proof using.
  intros (Hne & _). pose proof (join_cons_length t ts). destruct t; [done|]. simpl in *. lia.
Qed.

Lemma oid_loop_resolves p fuel node na oid tid objid :
  (∀ m, node = Some m → m ∈ types) → resolves E node p →
  (length objid + length (pending tid oid) + length p ≤ CFG_MAX_NODE_LEVEL)%nat →
  (length (path_of p) < fuel)%nat → (p = [] → oid ≠ 0 ∧ tid ≠ 0) →
  ∃ oid' tid' objid',
    oid_array_loop E fuel (Some (path_of p)) node na oid tid objid
      = Ok (Some (Some [], oid', tid', objid')) ∧
    objid' ++ [s32 (Z.lor (Z.shiftl tid' CFG_TYPE_SHIFT) oid')]
      = objid ++ pending tid oid ++ map (seg_oid R) p.
Proof using wf.
  revert fuel node na oid tid objid.
  induction p as [|s p IH]; intros fuel node na oid tid objid Hnode Hres Hlen Hfuel Hne.
  { destruct fuel as [|fuel]; [simpl in Hfuel; lia|]. exists oid, tid, objid. split; [done|].
    destruct (Hne eq_refl). unfold pending.
    rewrite (proj2 (Z.eqb_neq oid 0)), (proj2 (Z.eqb_neq tid 0)) by done. by rewrite app_nil_r. }
  destruct Hres as (Hq & Hok & Hi & Hres). rewrite path_of_cons in Hfuel |- *.
  pose proof (query_child_types E k wf node _ _ Hnode Hq) as Hty.
  pose proof (pending_seg _ _ Hty Hi) as Hpend.
  pose proof (token_consumes _ ((if sg_inst s is Some n then [fmt_u n] else []) ++
              concat (map seg_tokens p)) (proj1 Hok)) as Hjoin.
  simpl in Hlen. destruct fuel as [|fuel]; [lia|].
  rewrite (oid_round_name fuel _ _ _ _ _ _ _ (sg_type s) Hok) by (exact Hq || lia).
  assert (Hsome : ∀ m, Some (sg_type s) = Some m → m ∈ types) by (by intros m [= <-]).
  assert (Hgo : ∀ fuel' na', (length (path_of p) < fuel')%nat →
    ∃ oid' tid' objid',
      oid_array_loop E fuel' (Some (path_of p)) (Some (sg_type s)) na' (default 1 (sg_inst s))
        (s32 (type_id R (sg_type s))) (objid ++ pending tid oid) = Ok (Some (Some [], oid', tid', objid')) ∧
      objid' ++ [s32 (Z.lor (Z.shiftl tid' CFG_TYPE_SHIFT) oid')]
        = objid ++ pending tid oid ++ seg_oid R s :: map (seg_oid R) p).
  { intros fuel' na' Hf.
    destruct (IH fuel' (Some (sg_type s)) na' (default 1 (sg_inst s)) (s32 (type_id R (sg_type s)))
                (objid ++ pending tid oid) Hsome Hres) as (o' & t' & ob' & Hrun & Heq); [|done| |].
    - rewrite length_app, Hpend. simpl. lia.
    - intros _. by eapply pending_nonzero.
    - exists o', t', ob'. split; [exact Hrun|]. rewrite Heq, Hpend. by rewrite <- app_assoc. }
  destruct (sg_inst s) as [n|] eqn:Hn; simpl default in *; [|apply Hgo; unfold path_of; simpl in *; lia].
  simpl in Hi. unfold CFG_OBJ_MASK in Hi.
  pose proof (token_consumes _ (concat (map seg_tokens p))
                (proj1 (inst_token n ltac:(unfold INT_MAX; lia)))) as Hjoin2.
  change ([fmt_u n] ++ ?l) with (fmt_u n :: l) in *. destruct fuel as [|fuel]; [lia|].
  rewrite oid_round_inst by (unfold INT_MAX, CFG_MAX_NODE_LEVEL in *; rewrite ?length_app; lia).
  apply Hgo. unfold path_of. lia.
Qed.

(** A path that goes on behind resolved segments. *)
Lemma oid_loop_prefix p ts fuel node na oid tid objid :
  resolves E node p → (length objid + length p < CFG_MAX_NODE_LEVEL)%nat →
  (length (join (concat (map seg_tokens p) ++ ts)) < fuel)%nat →
  ∃ fuel' na' oid' tid' objid',
    oid_array_loop E fuel (Some (join (concat (map seg_tokens p) ++ ts))) node na oid tid objid
    = oid_array_loop E fuel' (Some (join ts)) (last_type node p) na' oid' tid' objid' ∧
    (length objid' ≤ length objid + length p)%nat ∧ (length (join ts) < fuel')%nat.
Proof using.
  revert fuel node na oid tid objid. induction p as [|s p IH]; intros fuel node na oid tid objid Hres Hlen Hfuel.
  { exists fuel, na, oid, tid, objid. split; [done|]. split; [simpl; lia|done]. }
  destruct Hres as (Hq & Hok & Hi & Hres). unfold seg_tokens in Hfuel |- *. cbn [map concat app] in Hfuel |- *.
  fold seg_tokens in Hfuel |- *. rewrite <- app_assoc in Hfuel |- *. simpl length in Hlen.
  set (more := concat (map seg_tokens p) ++ ts) in *. set (inst := match sg_inst s with Some n => [fmt_u n] | None => [] end) in *.
  pose proof (token_consumes (sg_name s) (inst ++ more) (proj1 Hok)) as Hjoin. destruct fuel as [|fuel]; [lia|].
  rewrite (oid_round_name fuel _ _ _ _ _ _ _ (sg_type s) Hok) by (exact Hq || lia).
  set (o1 := objid ++ pending tid oid).
  assert (Ho1 : (length o1 ≤ S (length objid))%nat).
  { unfold o1, pending. rewrite length_app. destruct (_ && _); simpl; lia. }
  assert (Hlast : last_type (Some (sg_type s)) p = last_type node (s :: p)).
  { unfold last_type. rewrite last_cons. by destruct (last p). }
  assert (Hgo : ∀ fuel' na' oid', (length (join more) < fuel')%nat → ∃ fuel2 na2 oid2 tid2 objid2,
    oid_array_loop E fuel' (Some (join more)) (Some (sg_type s)) na' oid' (s32 (type_id R (sg_type s))) o1
    = oid_array_loop E fuel2 (Some (join ts)) (last_type node (s :: p)) na2 oid2 tid2 objid2 ∧
    (length objid2 ≤ length objid + S (length p))%nat ∧ (length (join ts) < fuel2)%nat).
  { intros fuel' na' oid' Hf. destruct (IH fuel' (Some (sg_type s)) na' oid' (s32 (type_id R (sg_type s))) o1 Hres)
      as (f2 & n2 & d2 & t2 & b2 & Hr & Hb & Hf2); [lia|done|].
    exists f2, n2, d2, t2, b2. rewrite Hr, Hlast. split; [done|]. split; [lia|done]. }
  unfold inst in *. destruct (sg_inst s) as [n|] eqn:Hn; [|change ([] ++ more) with more in *; apply Hgo; lia].
  simpl in Hi. unfold CFG_OBJ_MASK in Hi.
  pose proof (token_consumes _ more (proj1 (inst_token n ltac:(unfold INT_MAX; lia)))) as Hjoin2.
  change ([fmt_u n] ++ more) with (fmt_u n :: more) in *. destruct fuel as [|fuel]; [lia|].
  rewrite oid_round_inst by (unfold INT_MAX, CFG_MAX_NODE_LEVEL in *; lia). apply Hgo. lia.
Qed.

Lemma oid_array_unknown p tok :
  resolves E None p → (length p < CFG_MAX_NODE_LEVEL)%nat → name_ok tok →
  cfg_type_query_child E (last_type None p) (Some tok) = Ok None →
  cfg_path_to_oid_array E (Some (join (concat (map seg_tokens p) ++ [tok]))) true = Ok None.
Proof using.
  intros Hres Hlen [Hok Hd] Hq. unfold cfg_path_to_oid_array. cbn [negb]. set (path := join _).
  destruct (oid_loop_prefix p [tok] (S (length path)) None true 0 0 [] Hres) as (f & na & o & t & b & Hr & Hb & Hf); [simpl; lia|unfold path; lia|].
  fold path in Hr. unfold mbind, res_bind. rewrite Hr. clear Hr. destruct f as [|f]; [lia|].
  destruct (get_token_join tok [] Hok) as [b' Htok]. cbn [oid_array_loop]. unfold mbind, res_bind. rewrite Htok.
  rewrite (proj2 (Nat.ltb_lt _ _)) by (simpl in Hb; lia). by rewrite Hd, Hq, andb_false_r.
Qed.

(** *** The type a path names *)

Lemma query_loop_resolves p node na rounds :
  resolves E node p → (length (concat (map seg_tokens p)) ≤ rounds)%nat →
  type_query_loop E rounds (Some (path_of p)) node na
  = Ok (Some (last_type node p, Some [], (rounds - length (concat (map seg_tokens p)))%nat)).
Proof using.
  revert node na rounds. induction p as [|s p IH]; intros node na rounds Hres Hlen.
  { simpl. rewrite Nat.sub_0_r. by destruct rounds. }
  destruct Hres as (Hq & [Hok Hd] & Hi & Hres). rewrite path_of_cons.
  cbn [map concat] in Hlen |- *. rewrite length_app in *.
  destruct (get_token_join (sg_name s) ((if sg_inst s is Some n then [fmt_u n] else []) ++
              concat (map seg_tokens p)) Hok) as [b Htok].
  assert (Hlast : last_type (Some (sg_type s)) p = last_type node (s :: p)).
  { unfold last_type. rewrite last_cons. by destruct (last p). }
  unfold seg_tokens at 1 in Hlen. unfold seg_tokens at 2. destruct rounds as [|rounds]; [simpl in Hlen; lia|].
  destruct (sg_inst s) as [n|]; simpl in Hi; simpl length in *;
    cbn [type_query_loop]; unfold mbind, res_bind in *; rewrite Htok; cbn iota;
    rewrite Hd, andb_false_r; simpl negb; cbn iota; rewrite Hq.
  - unfold CFG_OBJ_MASK in Hi. destruct (inst_token n) as [Hokn Hdn]; [unfold INT_MAX; lia|].
    destruct (get_token_join (fmt_u n) (concat (map seg_tokens p)) Hokn) as [b2 Htok2].
    destruct rounds as [|rounds]; [lia|]. change ([fmt_u n] ++ ?l) with (fmt_u n :: l).
    cbn [type_query_loop]. unfold mbind, res_bind. rewrite Htok2. cbn iota. rewrite Hdn.
    rewrite (proj2 (Z.eqb_neq n 0)) by lia. simpl andb. simpl negb. cbn iota.
    fold (path_of p). rewrite IH by (done || lia). by rewrite Hlast.
  - simpl app. fold (path_of p). rewrite IH by (done || lia). by rewrite Hlast.
Qed.

Lemma query_loop_prefix p ts node na rounds :
  resolves E node p → (length (concat (map seg_tokens p)) ≤ rounds)%nat →
  ∃ na', type_query_loop E rounds (Some (join (concat (map seg_tokens p) ++ ts))) node na
  = type_query_loop E (rounds - length (concat (map seg_tokens p))) (Some (join ts)) (last_type node p) na'.
Proof using.
  revert node na rounds. induction p as [|s p IH]; intros node na rounds Hres Hlen.
  { exists na. by rewrite Nat.sub_0_r. }
  destruct Hres as (Hq & [Hok Hd] & Hi & Hres). unfold seg_tokens in Hlen |- *. cbn [map concat app length] in Hlen |- *.
  fold seg_tokens in Hlen |- *. rewrite <- app_assoc. rewrite length_app in *. set (more := concat (map seg_tokens p) ++ ts) in *.
  assert (Hlast : last_type (Some (sg_type s)) p = last_type node (s :: p)).
  { unfold last_type. rewrite last_cons. by destruct (last p). }
  set (inst := match sg_inst s with Some n => [fmt_u n] | None => [] end) in *.
  destruct (get_token_join (sg_name s) (inst ++ more) Hok) as [b Htok]. destruct rounds as [|rounds]; [lia|].
  cbn [type_query_loop]. unfold mbind, res_bind. rewrite Htok. cbn iota. rewrite Hd, andb_false_r. cbn [negb]. cbn iota. rewrite Hq.
  unfold inst in *. destruct (sg_inst s) as [n|]; cbn [app length] in *.
  - simpl in Hi. unfold CFG_OBJ_MASK in Hi. destruct (inst_token n) as [Hokn Hdn]; [unfold INT_MAX; lia|].
    destruct (get_token_join (fmt_u n) more Hokn) as [b2 Htok2]. destruct rounds as [|rounds]; [lia|].
    cbn [type_query_loop]. unfold mbind, res_bind. rewrite Htok2. cbn iota. rewrite Hdn.
    rewrite (proj2 (Z.eqb_neq n 0)) by lia. cbn [andb negb]. cbn iota.
    destruct (IH (Some (sg_type s)) true rounds Hres ltac:(lia)) as [na' Hr]. fold more in Hr. exists na'. by rewrite Hr, Hlast.
  - destruct (IH (Some (sg_type s)) false rounds Hres ltac:(lia)) as [na' Hr]. fold more in Hr. exists na'. by rewrite Hr, Hlast.
Qed.

Lemma type_query_unknown p tok :
  resolves E None p → (length (concat (map seg_tokens p)) < CFG_MAX_NODE_LEVEL)%nat → name_ok tok →
  cfg_type_query_child E (last_type None p) (Some tok) = Ok None →
  cfg_type_query E (Some (join (concat (map seg_tokens p) ++ [tok]))) = Ok None.
Proof using.
  intros Hres Hlen [Hok Hd] Hq. unfold cfg_type_query.
  destruct (query_loop_prefix p [tok] None true CFG_MAX_NODE_LEVEL Hres ltac:(lia)) as [na Hr].
  unfold mbind, res_bind. rewrite Hr. clear Hr.
  destruct (CFG_MAX_NODE_LEVEL - length (concat (map seg_tokens p)))%nat as [|k'] eqn:Hk; [lia|].
  destruct (get_token_join tok [] Hok) as [b Htok]. cbn [type_query_loop]. unfold mbind, res_bind. rewrite Htok. cbn iota.
  by rewrite Hd, andb_false_r, Hq.
Qed.
End resolve.

Lemma type_query_written E p :
  resolves E None p → p ≠ [] → (length (concat (map seg_tokens p)) < CFG_MAX_NODE_LEVEL)%nat →
  cfg_type_query E (Some (path_of p)) = Ok (last_type None p).
Proof.
  intros Hres Hne Hlen. unfold cfg_type_query, mbind, res_bind. rewrite (query_loop_resolves E) by (done || lia).
  simpl left_over. rewrite (proj2 (Nat.eqb_neq _ 0)) by lia. done.
Qed.

(** *** Paths of any depth *)

Lemma oid_array_written E k p :
  wf_env E k → resolves E None p → (1 ≤ length p ≤ CFG_MAX_NODE_LEVEL)%nat →
  cfg_path_to_oid_array E (Some (path_of p)) true = Ok (Some (map (seg_oid (env_reg E)) p)).
Proof.
  intros wf Hres Hlen. unfold cfg_path_to_oid_array, mbind, res_bind. simpl negb. cbn iota.
  destruct (oid_loop_resolves E k wf p (S (length (path_of p))) None true 0 0 []) as (o & t & ob & Hrun & Heq);
    [done|done|simpl; lia|lia|intros ->; simpl in Hlen; lia|].
  rewrite Hrun. simpl left_over. simpl in Heq. simpl orb.
  apply (f_equal length) in Heq as Hl. rewrite length_app, length_map in Hl. simpl length in Hl.
  rewrite (proj2 (Nat.eqb_neq _ _)) by lia. by rewrite Heq.
Qed.

Lemma resolves_types E k node p :
  wf_env E k → (∀ m, node = Some m → m ∈ all_types (env_root E) k) → resolves E node p →
  Forall (λ s, sg_type s ∈ all_types (env_root E) k) p.
Proof.
  intros wf. revert node. induction p as [|s p IH]; intros node Hnode; [constructor|].
  intros (Hq & _ & _ & Hr). pose proof (query_child_types E k wf node _ _ Hnode Hq) as Hty.
  constructor; [done|]. apply (IH (Some (sg_type s))); [by intros m [= <-]|done].
Qed.

(** Tokens the loop can take one by one. *)
Lemma resolves_tokens E node p :
  resolves E node p → Forall token_ok (concat (map seg_tokens p)).
Proof.
  revert node. induction p as [|s p IH]; intros node; simpl; [constructor|].
  intros (_ & [Hok _] & Hi & Hr). constructor; [done|]. apply Forall_app. split; [|by eapply IH].
  destruct (sg_inst s) as [n|]; [|constructor]. simpl in Hi. unfold CFG_OBJ_MASK in Hi.
  constructor; [|constructor]. apply inst_token. unfold INT_MAX. lia.
Qed.

(** Once [objid] is full the loop stops at the next token. *)
Lemma oid_loop_full E fuel ts node na oid tid objid :
  Forall token_ok ts → length objid = CFG_MAX_NODE_LEVEL → (0 < fuel)%nat →
  ∃ tmp, oid_array_loop E fuel (Some (join ts)) node na oid tid objid = Ok (Some (tmp, oid, tid, objid)).
Proof.
  intros Hts Hlen Hf. destruct fuel as [|fuel]; [lia|]. destruct Hts as [|t ts Ht Hts].
  - by exists (Some []).
  - destruct (get_token_join t ts Ht) as [b Htok]. cbn [oid_array_loop]. unfold mbind, res_bind.
    rewrite Htok, Hlen. by exists (Some (join ts)).
Qed.

Lemma oid_loop_deep E k p fuel node na oid tid objid :
  wf_env E k → (∀ m, node = Some m → m ∈ all_types (env_root E) k) → resolves E node p →
  (length objid ≤ CFG_MAX_NODE_LEVEL)%nat →
  (CFG_MAX_NODE_LEVEL < length objid + length (pending tid oid) + length p)%nat →
  (length (path_of p) < fuel)%nat → (p = [] → False) →
  ∃ tmp oid' tid' objid',
    oid_array_loop E fuel (Some (path_of p)) node na oid tid objid = Ok (Some (tmp, oid', tid', objid')) ∧
    length objid' = CFG_MAX_NODE_LEVEL.
Proof.
  intros wf. revert fuel node na oid tid objid.
  induction p as [|s p IH]; intros fuel node na oid tid objid Hnode Hres Hob Hlen Hfuel Hne; [by exfalso; apply Hne|].
  pose proof (resolves_tokens _ _ _ Hres) as Htoks.
  destruct (decide (length objid = CFG_MAX_NODE_LEVEL)) as [Hfull|Hnf].
  { destruct (oid_loop_full E fuel _ node na oid tid objid Htoks Hfull ltac:(lia)) as [tmp Hrun]. eauto 10. }
  destruct Hres as (Hq & Hok & Hi & Hres). rewrite path_of_cons in Hfuel |- *.
  pose proof (query_child_types E k wf node _ _ Hnode Hq) as Hty.
  pose proof (pending_seg E k wf _ _ Hty Hi) as Hpend.
  pose proof (token_consumes _ ((if sg_inst s is Some n then [fmt_u n] else []) ++
              concat (map seg_tokens p)) (proj1 Hok)) as Hjoin.
  destruct fuel as [|fuel]; [lia|].
  rewrite (oid_round_name E fuel _ _ _ _ _ _ _ (sg_type s) Hok) by (exact Hq || lia).
  simpl in Htoks. apply Forall_cons in Htoks as [_ Htoks].
  assert (Hpl : (length (pending tid oid) ≤ 1)%nat) by (unfold pending; by destruct (_ && _); simpl; lia).
  assert (Hob' : (length (objid ++ pending tid oid) ≤ CFG_MAX_NODE_LEVEL)%nat) by (rewrite length_app; lia).
  destruct (decide (length (objid ++ pending tid oid) = CFG_MAX_NODE_LEVEL)) as [Hfull|Hnf'].
  { destruct (oid_loop_full E fuel _ (Some (sg_type s)) false 1 (s32 (type_id (env_reg E) (sg_type s))) _
                Htoks Hfull ltac:(lia)) as [tmp Hrun]. eauto 10. }
  assert (Hsome : ∀ m, Some (sg_type s) = Some m → m ∈ all_types (env_root E) k) by (by intros m [= <-]).
  rewrite length_app in Hnf', Hob'.
  assert (Hgo : ∀ fuel' na', (length (path_of p) < fuel')%nat →
    ∃ tmp oid' tid' objid',
      oid_array_loop E fuel' (Some (path_of p)) (Some (sg_type s)) na' (default 1 (sg_inst s))
        (s32 (type_id (env_reg E) (sg_type s))) (objid ++ pending tid oid)
      = Ok (Some (tmp, oid', tid', objid')) ∧ length objid' = CFG_MAX_NODE_LEVEL).
  { intros fuel' na' Hf. simpl in Hlen.
    apply IH; [done|done|rewrite length_app; lia|rewrite length_app, Hpend; simpl; lia|done|].
    intros ->. simpl in Hlen. lia. }
  destruct (sg_inst s) as [n|] eqn:Hn; simpl default in *; [|apply Hgo; unfold path_of; simpl in *; lia].
  simpl in Hi. unfold CFG_OBJ_MASK in Hi.
  pose proof (token_consumes _ (concat (map seg_tokens p))
                (proj1 (inst_token n ltac:(unfold INT_MAX; lia)))) as Hjoin2.
  change ([fmt_u n] ++ ?l) with (fmt_u n :: l) in *. destruct fuel as [|fuel]; [lia|].
  rewrite oid_round_inst by (unfold INT_MAX, CFG_MAX_NODE_LEVEL in *; rewrite ?length_app; lia).
  apply Hgo. unfold path_of. lia.
Qed.

Lemma oid_array_too_deep E k p :
  wf_env E k → resolves E None p → (CFG_MAX_NODE_LEVEL < length p)%nat →
  cfg_path_to_oid_array E (Some (path_of p)) true = Ok None.
Proof.
  intros wf Hres Hlen. unfold cfg_path_to_oid_array, mbind, res_bind. simpl negb. cbn iota.
  destruct (oid_loop_deep E k p (S (length (path_of p))) None true 0 0 []) as (tmp & o & t & ob & Hrun & Hl);
    [done|done|done|simpl; lia|simpl; lia|lia|intros ->; simpl in Hlen; lia|].
  rewrite Hrun, Hl. by destruct (left_over tmp).
Qed.

(** ** From an identifier to a path and back *)

Definition type_name (T : gmap tloc cfg_node_type) (n : tloc) : cstr :=
  match T !! n with Some ty => t_name ty | None => [] end.

Fixpoint depth {A} (f : forest A) : nat :=
  match f with FNil => 0 | FCons _ k s => Nat.max (S (depth k)) (depth s) end.

(** The type's name finds it among its brothers; the way to another of that
    name is barred. *)
Definition first_of_name (E : cfg_env) (n : tloc) : Prop :=
  match env_types E !! n with
  | Some {| t_parent := Some p |} => first_named (env_types E) (children E p) (type_name (env_types E) n) = Some n
  | Some _ => True
  | None => False
  end.

(** A way down the table: each type is a child of the one before it. *)
Fixpoint chain (E : cfg_env) (parent : option tloc) (l : list tloc) : Prop :=
  match l with
  | [] => True
  | n :: l' =>
      (∃ ty, env_types E !! n = Some ty ∧ t_parent ty = parent) ∧
      (match parent with None => n = env_root E | Some p => n ∈ children E p end) ∧
      chain E (Some n) l'
  end.

Definition type_seg (T : gmap tloc cfg_node_type) (n : tloc) : seg :=
  {| sg_type := n; sg_name := type_name T n; sg_inst := None |}.

(** Every node of the table is at the end of a way down from the top. *)
Lemma chain_exists E parent f n :
  types_rep (env_types E) parent f → n ∈ preorder f →
  (∀ m, m ∈ roots f → match parent with None => m = env_root E | Some p => m ∈ children E p end) →
  ∃ l, chain E parent (l ++ [n]) ∧ (S (length l) ≤ depth f)%nat.
Proof.
  revert parent. induction f as [|a k1 IH1 s IH2]; intros parent Hrep Hn Htop; [set_solver|].
  destruct Hrep as ((ty & Hty & Hpar & Hsub) & Hrk & Hrs). simpl.
  assert (Ha := Htop a ltac:(simpl; set_solver)).
  apply elem_of_cons in Hn as [->|[Hn|Hn]%elem_of_app].
  - exists []. simpl. split; [|lia]. split; [eauto|]. split; [done|exact I].
  - destruct (IH1 (Some a) Hrk Hn) as (l & Hl & Hlen).
    { intros m Hm. unfold children. by rewrite Hty, Hsub. }
    exists (a :: l). simpl. split; [|lia]. split; [eauto|]. split; [done|exact Hl].
  - destruct (IH2 parent Hrs Hn) as (l & Hl & Hlen).
    { intros m Hm. apply Htop. simpl. set_solver. }
    exists l. split; [done|lia].
Qed.

Lemma chain_app E parent l1 l2 :
  chain E parent (l1 ++ l2) ↔ chain E parent l1 ∧ chain E (if last l1 is Some n then Some n else parent) l2.
Proof.
  revert parent. induction l1 as [|a l1 IH]; intros parent; simpl; [naive_solver|].
  rewrite IH. rewrite last_cons. destruct (last l1); naive_solver.
Qed.

(** The rows [cfg_type_id_to_path] fills are the names of the way down. *)
Lemma type_names_chain E l rows :
  chain E None l → (length l ≤ rows)%nat → Forall (λ n, name_ok (type_name (env_types E) n)) l →
  type_names (env_types E) rows (last l) = Ok (map (type_name (env_types E)) (rev l)).
Proof.
  revert rows. induction l as [|n l IH] using rev_ind; intros rows Hc Hlen Hok; [by destruct rows|].
  apply chain_app in Hc as [Hc ((ty & Hty & Hpar) & _)].
  rewrite length_app in Hlen. simpl in Hlen. destruct rows as [|rows]; [lia|].
  apply Forall_app in Hok as [Hok [Hn _]%Forall_cons].
  rewrite last_snoc, rev_app_distr. simpl. unfold type_at, mbind, res_bind. rewrite Hty. simpl.
  replace (t_parent ty) with (last l) by (by destruct (last l)).
  rewrite IH by (done || lia). unfold mret, res_ret. do 2 f_equal.
  destruct Hn as [(_ & Hlt & _) _]. unfold type_name in *. rewrite Hty in *.
  unfold strlen, CFG_MAX_TYPE_NAME in Hlt. unfold strncpy_z. apply take_ge. simpl. lia.
Qed.

Lemma join_dots names :
  names ≠ [] →
  take (length (concat (map (λ s, s ++ [chr "."]) names)) - 1) (concat (map (λ s, s ++ [chr "."]) names))
  = join names.
Proof.
  induction names as [|a names IH]; [done|intros _]. destruct names as [|b names].
  - simpl. rewrite app_nil_r, length_app. simpl. rewrite Nat.add_sub. by rewrite take_app_length.
  - specialize (IH ltac:(done)). cbn [map concat join] in *. rewrite <- IH.
    rewrite !length_app in *. simpl length. rewrite take_app, take_ge by (rewrite length_app; simpl; lia).
    rewrite <- app_assoc. simpl. do 2 f_equal. f_equal. rewrite length_app. simpl. lia.
Qed.

Lemma chain_types E k parent l :
  wf_env E k → chain E parent l → (∀ p, parent = Some p → p ∈ all_types (env_root E) k) →
  Forall (λ n, n ∈ all_types (env_root E) k) l.
Proof.
  intros wf. revert parent. induction l as [|n l IH]; intros parent Hc Hp; [constructor|].
  destruct Hc as (_ & Hin & Hc).
  assert (n ∈ all_types (env_root E) k).
  { destruct parent; [eapply children_types; eauto|subst; unfold all_types; set_solver]. }
  constructor; [done|]. eapply IH; [done|]. by intros p [= <-].
Qed.

Lemma named_self E n ty : env_types E !! n = Some ty → named (env_types E) n (type_name (env_types E) n) = true.
Proof. intros Hty. unfold named, type_name. rewrite Hty. unfold cfg_type_compare. apply Z.eqb_eq. by apply strcmp_eq. Qed.

Lemma chain_resolves E k parent l :
  wf_env E k → Forall (λ n, name_ok (type_name (env_types E) n)) l → Forall (first_of_name E) l → chain E parent l →
  (∀ p, parent = Some p → p ∈ all_types (env_root E) k) →
  resolves E parent (map (type_seg (env_types E)) l).
Proof.
  intros wf. revert parent. induction l as [|n l IH]; intros parent Hok Hfirst Hc Hp; [done|].
  pose proof (chain_types E k parent (n :: l) wf Hc Hp) as [Hn _]%Forall_cons.
  apply Forall_cons in Hok as [Hok Hoks]. apply Forall_cons in Hfirst as [Hf Hfs].
  destruct Hc as ((ty & Hty & Hpar) & Hin & Hc). cbn [map resolves type_seg sg_name sg_type sg_inst].
  split; [|split; [done|split; [done|]]]; [|apply IH; [done..|]; by intros p [= <-]].
  destruct parent as [p|].
  - rewrite (query_child_spec E k wf) by auto. f_equal. unfold first_of_name in Hf. rewrite Hty in Hf.
    destruct ty. cbn in Hpar. by subst.
  - subst n. by rewrite (query_child_root E k wf), (named_self _ _ _ Hty).
Qed.

(** Where a type is in the table. *)
Lemma types_rep_root T parent f m : types_rep T parent f → m ∈ roots f → ∃ ty, T !! m = Some ty ∧ t_parent ty = parent.
Proof.
  induction f as [|a ka _ sb IH]; cbn [types_rep roots]; [by intros _ ?%not_elem_of_nil|].
  intros ((ty & Hty & Hp & _) & _ & Hs) [->|Hm]%elem_of_cons; [by exists ty|by apply IH].
Qed.

Lemma child_parent E k p m :
  wf_env E k → p ∈ all_types (env_root E) k → m ∈ children E p → ∃ ty, env_types E !! m = Some ty ∧ t_parent ty = Some p.
Proof.
  intros wf Hp Hm. destruct wf as [[Hrep Hnd] _ _]. rewrite <- all_types_preorder in Hp.
  destruct (types_rep_node _ _ _ p Hrep Hnd Hp) as (ty & k' & Hty & Hsub & Hrep' & _). unfold children in Hm. rewrite Hty, Hsub in Hm.
  by eapply types_rep_root.
Qed.

Lemma chain_unique E l1 l2 n : chain E None (l1 ++ [n]) → chain E None (l2 ++ [n]) → l1 = l2.
Proof.
  revert l2 n. induction l1 as [|m l1 IH] using rev_ind; intros l2 n [H1 ((ty & Hty & Hp) & _)]%chain_app [H2 ((ty' & Hty' & Hp') & _)]%chain_app.
  - simplify_eq. destruct (last l2) eqn:Hl; [cbn in Hp; congruence|]. by apply last_None in Hl as ->.
  - rewrite last_snoc in Hp. simplify_eq. destruct l2 as [|m' l2 _] using rev_ind; [cbn in Hp'; congruence|].
    rewrite last_snoc in Hp'. assert (m' = m) as -> by congruence. f_equal. by apply (IH _ m).
Qed.

(** What the names of a path lead to is at the end of a way down. *)
Lemma query_names E k names node na rounds r tmp k' :
  wf_env E k → (∀ m, node = Some m → m ∈ all_types (env_root E) k) → Forall name_ok names → (length names ≤ rounds)%nat →
  type_query_loop E rounds (Some (join names)) node na = Ok (Some (Some r, tmp, k')) →
  ∃ l, chain E node l ∧ length l = length names ∧ (if last l is Some m then Some m else node) = Some r ∧
    (names = map (type_name (env_types E)) l → Forall (first_of_name E) l).
Proof.
  intros wf. revert node na rounds. induction names as [|t names IH]; intros node na rounds Hnode Hok Hlen Hrun.
  { exists []. destruct rounds; cbn in Hrun; injection Hrun as -> _ _; done. }
  apply Forall_cons in Hok as [[Ht Hd] Hok]. destruct rounds as [|rounds]; [simpl in Hlen; lia|].
  destruct (get_token_join t names Ht) as [b Htok]. cbn [type_query_loop] in Hrun. unfold mbind, res_bind in Hrun.
  rewrite Htok in Hrun. cbn iota in Hrun. rewrite Hd, andb_false_r in Hrun. cbn [negb] in Hrun. cbn iota in Hrun.
  destruct (cfg_type_query_child E node (Some t)) as [[n|]| |] eqn:Hq; try done.
  pose proof (query_child_types E k wf node _ _ Hnode Hq) as Hn.
  destruct (IH (Some n) false rounds) as (l & Hc & Hl & Hlast & Hfirst); [by intros m [= <-]|done|simpl in Hlen; lia|done|].
  assert (Hhere : (∃ ty, env_types E !! n = Some ty ∧ t_parent ty = node) ∧
                  match node with None => n = env_root E | Some p => n ∈ children E p ∧ first_named (env_types E) (children E p) t = Some n end).
  { destruct node as [p|].
    - rewrite (query_child_spec E k wf) in Hq by auto. injection Hq as Hq. apply first_named_elem in Hq as Hin.
      split; [|by split; [apply Hin|]]. eapply (child_parent E k); [done|by apply Hnode|apply Hin].
    - rewrite (query_child_root E k wf) in Hq. destruct (named _ _ _); [|done]. injection Hq as <-. split; [|done].
      destruct wf as [[Hrep _] _ _]. apply (types_rep_root _ _ _ _ Hrep). by left. }
  destruct Hhere as [(ty & Hty & Hpar) Hin]. exists (n :: l). split; [|split; [simpl; lia|split]].
  - split; [by exists ty|]. split; [|done]. destruct node; [apply Hin|done].
  - rewrite last_cons. by destruct (last l).
  - cbn [map]. intros Heq. constructor; [|apply Hfirst; by injection Heq]. assert (Htn : t = type_name (env_types E) n) by congruence.
    unfold first_of_name. rewrite Hty. destruct ty as [? ? par ? ? ?]. cbn in Hpar. subst par t. destruct node; [apply Hin|done].
Qed.

(** ** The bounds of [objid] *)

Lemma get_token_shorter s b tok rest :
  cfg_get_token (Some s) = Ok (Some (b, tok, rest)) → (length rest < length s)%nat.
Proof.
  destruct s as [|c s]; [done|]. unfold cfg_get_token.
  destruct (c =? _); [done|].
  destruct (strchr (c :: s) CFG_NODE_SPELIRATE_CHAR) as [[t r]|] eqn:Hs; destruct (_ <=? _); try done.
  - intros [= _ _ <-]. by eapply strchr_length.
  - intros [= _ _ <-]. simpl. lia.
Qed.

(** [cfg_get_token] faults only on a last token too long for its buffer. *)
Lemma get_token_fault s :
  cfg_get_token (Some s) = Fault → CFG_NODE_SPELIRATE_CHAR ∉ s ∧ CFG_MAX_TYPE_NAME ≤ strlen s.
Proof.
  destruct s as [|c s]; [done|]. unfold cfg_get_token.
  destruct (c =? _); [done|].
  destruct (strchr (c :: s) CFG_NODE_SPELIRATE_CHAR) as [[t r]|] eqn:Hs.
  - by destruct (_ <=? _).
  - destruct (_ <=? _) eqn:E; [|done]. intros _. zify_bool. by apply strchr_None in Hs.
Qed.

Lemma get_token_total s : cfg_get_token s ≠ NoFuel.
Proof.
  unfold cfg_get_token. destruct s as [[|c s]|]; [done| |done].
  destruct (c =? _); [done|]. destruct (strchr _ _) as [[t r]|]; by destruct (_ <=? _).
Qed.

Lemma get_token_suffix s b tok rest :
  cfg_get_token (Some s) = Ok (Some (b, tok, rest)) → ∃ pre, s = pre ++ rest.
Proof.
  destruct s as [|c s]; [done|]. unfold cfg_get_token.
  destruct (c =? _); [done|].
  destruct (strchr (c :: s) CFG_NODE_SPELIRATE_CHAR) as [[t r]|] eqn:Hs; destruct (_ <=? _); try done.
  - intros [= _ <- <-]. apply strchr_Some in Hs as [-> _]. exists (t ++ [CFG_NODE_SPELIRATE_CHAR]).
    by rewrite <- app_assoc.
  - intros [= _ _ <-]. exists (c :: s). by rewrite app_nil_r.
Qed.

(** The token at the end of [s] does not fit the buffer. *)
Definition long_last_token (s : cstr) : Prop :=
  ∃ pre tok, s = pre ++ tok ∧ CFG_NODE_SPELIRATE_CHAR ∉ tok ∧ CFG_MAX_TYPE_NAME ≤ strlen tok.

Lemma oid_loop_total E k fuel s node na oid tid objid :
  wf_env E k → (∀ m, node = Some m → m ∈ all_types (env_root E) k) →
  (length s < fuel)%nat → (length objid ≤ CFG_MAX_NODE_LEVEL)%nat →
  match oid_array_loop E fuel (Some s) node na oid tid objid with
  | Ok (Some (_, _, _, objid')) => (length objid' ≤ CFG_MAX_NODE_LEVEL)%nat
  | Ok None => True
  | NoFuel => False
  | Fault => long_last_token s
  end.
Proof.
  intros wf. revert s node na oid tid objid.
  induction fuel as [|fuel IH]; intros s node na oid tid objid Hnode Hf Hlen; [lia|].
  cbn [oid_array_loop]. unfold mbind, res_bind.
  destruct (cfg_get_token (Some s)) as [[[[b tok] rest]|]| |] eqn:Ht; [|done| |by apply get_token_total in Ht].
  2: { exists [], s. split; [done|]. by apply get_token_fault. }
  pose proof (get_token_shorter _ _ _ _ Ht). destruct (get_token_suffix _ _ _ _ Ht) as [pre Hpre].
  assert (Hlong : long_last_token rest → long_last_token s).
  { intros (p & t & -> & ? & ?). exists (pre ++ p), t. split; [by rewrite <- app_assoc|done]. }
  destruct (Nat.ltb _ _) eqn:Elt; [|done]. apply Nat.ltb_lt in Elt. cbn zeta.
  set (objid1 := if negb (oid =? 0) && negb (tid =? 0) then _ else objid).
  assert (Hlen1 : (length objid1 ≤ CFG_MAX_NODE_LEVEL)%nat).
  { unfold objid1. destruct (_ && _); [|done]. rewrite length_app. simpl length. lia. }
  destruct (na && _); [done|]. destruct (negb (token_digit tok =? 0)).
  - specialize (IH rest node true (token_digit tok) tid objid Hnode ltac:(lia) Hlen).
    destruct (oid_array_loop _ _ _ _ _ _ _ _) as [[[[[? ?] ?] ?]|]| |]; auto.
  - destruct (cfg_type_query_child E node (Some tok)) as [[n|]| |] eqn:Hq.
    + assert (Hn : ∀ m, Some n = Some m → m ∈ all_types (env_root E) k).
      { intros m [= <-]. by eapply query_child_types. }
      specialize (IH rest (Some n) false 1 (s32 (type_id (env_reg E) n)) objid1 Hn ltac:(lia) Hlen1).
      destruct (oid_array_loop _ _ _ _ _ _ _ _) as [[[[[? ?] ?] ?]|]| |]; auto.
    + done.
    + destruct node as [m|]; [rewrite (query_child_spec E k wf) in Hq by auto|
                              rewrite (query_child_root E k wf) in Hq]; done.
    + destruct node as [m|]; [rewrite (query_child_spec E k wf) in Hq by auto|
                              rewrite (query_child_root E k wf) in Hq]; done.
Qed.

(** ** The environment of the three subtrees of [CfgType.Table] *)

Definition demo_env : cfg_env :=
  {| env_types := Table.types; env_root := Table.l_root; env_reg := Table.reg; env_fuel := 20 |}.

Lemma demo_env_wf : wf_env demo_env Table.tree.
Proof. split; [exact Table.types_wf|exact Table.reg_numbered|by apply Nat.ltb_lt]. Qed.

(** ["root.wan.pvc.2.entry.1"]. *)
Definition demo_path : list seg :=
  [ {| sg_type := Table.l_root; sg_name := cs "root"; sg_inst := None |};
    {| sg_type := Table.l_wan; sg_name := cs "wan"; sg_inst := None |};
    {| sg_type := Table.l_wan_pvc; sg_name := cs "pvc"; sg_inst := Some 2 |};
    {| sg_type := Table.l_wan_pvc_entry; sg_name := cs "entry"; sg_inst := Some 1 |} ].

Lemma demo_path_resolves : resolves demo_env None demo_path.
Proof.
  cbn [resolves demo_path].
  repeat (split; [vm_compute; reflexivity|split; [by_compute|split; [by_compute|]]]). exact I.
Qed.

(** ** Properties *)

(** [cfg_path_to_oid_array] of the written form of a resolved path gives the object
    identifier (type and instance number) of each of its segments, and fails exactly
    when there are more than [CFG_MAX_NODE_LEVEL] of them. *)
Theorem path_to_oid_array_of_path E k p :
  wf_env E k → resolves E None p → p ≠ [] →
  cfg_path_to_oid_array E (Some (path_of p)) true
  = Ok (if Nat.leb (length p) CFG_MAX_NODE_LEVEL then Some (map (seg_oid (env_reg E)) p) else None).
Proof.
  intros wf Hres Hne. destruct (Nat.leb _ _) eqn:Hl.
  - apply Nat.leb_le in Hl. apply (oid_array_written E k); [done|done|]. destruct p; [done|]. simpl in *. lia.
  - apply Nat.leb_gt in Hl. by apply (oid_array_too_deep E k).
Qed.

Lemma path_to_oid_array_of_path_witness :
  cfg_path_to_oid_array demo_env (Some (path_of demo_path)) true
  = Ok (if Nat.leb (length demo_path) CFG_MAX_NODE_LEVEL
        then Some (map (seg_oid (env_reg demo_env)) demo_path) else None).
Proof.
  apply (path_to_oid_array_of_path demo_env Table.tree); [exact demo_env_wf|exact demo_path_resolves|done].
Defined.

(** C31: for every string, [cfg_path_to_oid_array] ends, never stores more than
    [CFG_MAX_NODE_LEVEL] identifiers, and overruns its token buffer only when the text
    after the last separator does not fit it. *)
Theorem path_to_oid_array_bounds E k s :
  wf_env E k →
  match cfg_path_to_oid_array E (Some s) true with
  | Ok (Some objid) => (1 ≤ length objid ≤ CFG_MAX_NODE_LEVEL)%nat
  | Ok None => True
  | NoFuel => False
  | Fault => long_last_token s
  end.
Proof.
  intros wf. unfold cfg_path_to_oid_array, mbind, res_bind. simpl negb. cbn iota.
  pose proof (oid_loop_total E k (S (length s)) s None true 0 0 [] wf ltac:(done) ltac:(lia) ltac:(simpl; lia)) as H.
  destruct (oid_array_loop _ _ _ _ _ _ _ _) as [[[[[tmp o] t] ob]|]| |]; try done.
  destruct (left_over tmp || _) eqn:E0; [done|]. apply orb_false_iff in E0 as [_ E0%Nat.eqb_neq].
  cbn [mret res_ret].   rewrite length_app. simpl length. lia.
Qed.

Lemma path_to_oid_array_bounds_witness :
  match cfg_path_to_oid_array demo_env (Some (cs "root.wan.pvc.1")) true with
  | Ok (Some objid) => (1 ≤ length objid ≤ CFG_MAX_NODE_LEVEL)%nat
  | Ok None => True
  | NoFuel => False
  | Fault => long_last_token (cs "root.wan.pvc.1")
  end.
Proof.
  pose proof (path_to_oid_array_bounds demo_env Table.tree (cs "root.wan.pvc.1") demo_env_wf) as H.
  exact H.
Defined.

(** C32: round trip: [cfg_type_id_to_path] writes a path for the identifier of
    every type of the table, and [cfg_type_query] resolves that path to the
    type if and only if the type and every type above it is the first of its
    name among its brothers.  (Names are tokens: not empty, without dot or
    leading digit, below 32 characters; the table is less than eight levels
    deep.) *)
Theorem id_to_path_query_roundtrip E k n buflen :
  wf_env E k → Forall (λ m, name_ok (type_name (env_types E) m)) (all_types (env_root E) k) →
  (depth (FCons (env_root E) k FNil) < CFG_MAX_NODE_LEVEL)%nat →
  CFG_MAX_PATH_NAME ≤ buflen → n ∈ all_types (env_root E) k →
  ∃ above path, chain E None (above ++ [n]) ∧
    cfg_type_id_to_path (env_types E) (env_reg E) (type_id (env_reg E) n) buflen = Ok (0, path) ∧
    (cfg_type_query E (Some path) = Ok (Some n) ↔ Forall (first_of_name E) (above ++ [n])).
Proof.
  intros wf Hnames Hdepth Hbuf Hn. pose proof wf as [[Hrep _] [_ Hfind _] _].
  rewrite <- all_types_preorder in Hn.
  destruct (chain_exists E None _ n Hrep Hn) as (l & Hl & Hlen); [simpl; set_solver|].
  set (w := l ++ [n]) in *. assert (Hlw : (length w < CFG_MAX_NODE_LEVEL)%nat).
  { unfold w. rewrite length_app. simpl length. lia. }
  pose proof (chain_types E k None w wf Hl ltac:(done)) as Hin.
  assert (Hok : Forall (λ m, name_ok (type_name (env_types E) m)) w).
  { eapply Forall_impl; [exact Hin|]. intros m Hm. rewrite Forall_forall in Hnames. by apply Hnames. }
  assert (Hlast : last w = Some n) by apply last_snoc.
  assert (Htok : concat (map seg_tokens (map (type_seg (env_types E)) w)) = map (type_name (env_types E)) w).
  { clear. induction w; simpl; [done|]. by f_equal. }
  exists l. unfold cfg_type_id_to_path. rewrite Hfind by (by rewrite <- all_types_preorder).
  rewrite <- Hlast. rewrite type_names_chain by (done || lia). unfold mbind, res_bind.
  unfold CFG_MAX_PATH_NAME in Hbuf. rewrite (proj2 (Z.leb_gt buflen 0)) by lia.
  unfold path_of_names. rewrite <- map_rev, rev_involutive.
  rewrite join_dots by (unfold w; by destruct l).
  assert (Hsize : (length (join (map (type_name (env_types E)) w)) ≤ 32 * length w)%nat).
  { clear -Hok. induction Hok as [|m w' Hm _ IH]; [done|]. destruct Hm as [(_ & Hm & _) _].
    unfold strlen, CFG_MAX_TYPE_NAME in Hm. cbn [map]. destruct w' as [|m' w']; [simpl; lia|].
    cbn [map join] in *. rewrite length_app. simpl length in *. lia. }
  eexists. split; [done|]. split; [reflexivity|].
  unfold CFG_MAX_NODE_LEVEL in *. rewrite take_ge by lia. rewrite Hlast. split.
  - unfold cfg_type_query, mbind, res_bind. intros Hq.
    destruct (type_query_loop _ _ _ _ _) as [[[[node tmp] k']|]| |] eqn:Hr; try done.
    destruct (left_over tmp || _); [done|]. injection Hq as ->.
    destruct (query_names E k _ None true CFG_MAX_NODE_LEVEL n tmp k' wf ltac:(done) (proj2 (Forall_map _ _ _) Hok)
      ltac:(rewrite length_map; unfold CFG_MAX_NODE_LEVEL; lia) Hr) as (l' & Hc & Hll & Hl' & Hf).
    destruct l' as [|m l' _] using rev_ind; [done|]. rewrite last_snoc in Hl'. injection Hl' as ->.
    rewrite (chain_unique E l' l n Hc Hl) in *. by apply Hf.
  - intros Hfirst. rewrite <- Htok. fold (path_of (map (type_seg (env_types E)) w)).
    unfold cfg_type_query, mbind, res_bind. rewrite (query_loop_resolves E).
    + rewrite Htok, length_map. simpl left_over. simpl orb.
      rewrite (proj2 (Nat.eqb_neq _ 0)) by (unfold CFG_MAX_NODE_LEVEL; lia).
      unfold last_type. change (map ?f w) with (f <$> w). by rewrite fmap_last, Hlast.
    + by apply (chain_resolves E k).
    + rewrite Htok, length_map. unfold CFG_MAX_NODE_LEVEL. lia.
Qed.

#[export] Instance first_of_name_dec E n : Decision (first_of_name E n).
Proof. unfold first_of_name. destruct (env_types E !! n) as [[? ? [p|] ? ? ?]|]; apply _. Defined.

Lemma id_to_path_query_roundtrip_witness :
  ∃ path, cfg_type_id_to_path (env_types demo_env) (env_reg demo_env)
            (type_id (env_reg demo_env) Table.l_timezone_entry_fail) 512 = Ok (0, path) ∧
          cfg_type_query demo_env (Some path) = Ok (Some Table.l_timezone_entry_fail).
Proof.
  destruct (id_to_path_query_roundtrip demo_env Table.tree Table.l_timezone_entry_fail 512) as (l & path & Hc & Hp & Hq).
  - exact demo_env_wf.
  - by_compute.
  - by apply Nat.ltb_lt.
  - done.
  - by_compute.
  - exists path. split; [exact Hp|]. apply Hq. apply Forall_forall. intros m Hm.
    pose proof (chain_types _ _ _ _ demo_env_wf Hc ltac:(done)) as Hin. rewrite Forall_forall in Hin. specialize (Hin m Hm).
    assert (Hall : Forall (first_of_name demo_env) (all_types (env_root demo_env) Table.tree)) by by_compute.
    rewrite Forall_forall in Hall. by apply Hall.
Defined.
End CfgPath.
