(* ===== verification/CfgObj.v ===== *)
(** * The object store ([service/cfg/cfg_obj.c])

    The configuration is a tree of objects in shared memory, linked by
    [parent], [child] and [brother] pointers; every object carries an XML node
    with its attributes.  This file has the store, the operations on it as the
    code performs them on the pointers, and the relation that says which
    forest the pointers stand for.  [CfgHeap] and [CfgStore] prove what the operations do
    to that forest. *)

From S2P Require Import Prelude CString CfgType CfgPath.
Open Scope Z_scope.

Module CfgObj.
Import CfgType CfgPath.

Abbreviation oloc := positive.

Record cfg_node_obj := {
  id : Z;
  parent : option oloc;
  child : option oloc;
  brother : option oloc;
  private : option oloc
}.

(** The attributes of an XML node, in order. *)
Abbreviation xattrs := (list (cstr * cstr)).

Record store := {
  nodes : gmap oloc cfg_node_obj;
  xmls : gmap oloc xattrs;
  cfg_obj_root : option oloc;
  lock_depth : Z  (* locks of the shared pool taken and not released *)
}.

(** ** What is not in the sources

    [cfg_shm.c] and [cfg_xml.c] come as object files.  The allocator answers
    with an unused address or with NULL.  Attributes live in the same memory:
    one is found by name after it was set when the memory was enough for it
    ([xml_room]), and setting it leaves the others alone in any case. *)

Class Shm := shm_calloc : store → option oloc.
Class ShmLaws `{Shm} := {
  shm_fresh s l : shm_calloc s = Some l → nodes s !! l = None ∧ xmls s !! l = None
}.

Class Xml := {
  cfg_xml_set_attr : store → xattrs → cstr → cstr → xattrs;
  cfg_xml_get_attr : xattrs → cstr → option cstr;
  xml_room : store → xattrs → cstr → cstr → bool
}.
Class XmlLaws `{Xml} := {
  xml_get_set s a n v : xml_room s a n v = true → cfg_xml_get_attr (cfg_xml_set_attr s a n v) n = Some v;
  xml_get_set_ne s a n m v :
    n ≠ m → cfg_xml_get_attr (cfg_xml_set_attr s a n v) m = cfg_xml_get_attr a m
}.

(** ** Access to the store *)

Definition with_nodes (f : gmap oloc cfg_node_obj → gmap oloc cfg_node_obj) (s : store) : store :=
  {| nodes := f (nodes s); xmls := xmls s; cfg_obj_root := cfg_obj_root s;
     lock_depth := lock_depth s |}.
Definition with_xmls (f : gmap oloc xattrs → gmap oloc xattrs) (s : store) : store :=
  {| nodes := nodes s; xmls := f (xmls s); cfg_obj_root := cfg_obj_root s;
     lock_depth := lock_depth s |}.
Definition with_lock (d : Z) (s : store) : store :=
  {| nodes := nodes s; xmls := xmls s; cfg_obj_root := cfg_obj_root s;
     lock_depth := lock_depth s + d |}.

Abbreviation SM := (M store).

Definition get_node (l : oloc) : SM cfg_node_obj :=
  λ s, match nodes s !! l with Some o => Ok (o, s) | None => Fault end.
Definition set_node (l : oloc) (o : cfg_node_obj) : SM unit :=
  λ s, match nodes s !! l with Some _ => Ok (tt, with_nodes <[l := o]> s) | None => Fault end.
Definition get_xml (x : option oloc) : SM xattrs :=
  λ s, match x with
       | Some x => match xmls s !! x with Some a => Ok (a, s) | None => Fault end
       | None => Fault
       end.
Definition set_xml (x : option oloc) (a : xattrs) : SM unit :=
  λ s, match x with
       | Some x => match xmls s !! x with
                   | Some _ => Ok (tt, with_xmls <[x := a]> s) | None => Fault end
       | None => Fault
       end.

Definition set_id i (o : cfg_node_obj) :=
  {| id := i; parent := parent o; child := child o; brother := brother o; private := private o |}.
Definition set_parent p (o : cfg_node_obj) :=
  {| id := id o; parent := p; child := child o; brother := brother o; private := private o |}.
Definition set_child c (o : cfg_node_obj) :=
  {| id := id o; parent := parent o; child := c; brother := brother o; private := private o |}.
Definition set_brother b (o : cfg_node_obj) :=
  {| id := id o; parent := parent o; child := child o; brother := b; private := private o |}.
Definition set_private p (o : cfg_node_obj) :=
  {| id := id o; parent := parent o; child := child o; brother := brother o; private := p |}.

Definition alter_node (l : oloc) (f : cfg_node_obj → cfg_node_obj) : SM unit :=
  o ← get_node l; set_node l (f o).

Definition cfg_obj_lock : SM unit := modify (with_lock 1).
Definition cfg_obj_unlock : SM unit := modify (with_lock (-1)).

Definition cfg_obj_set_root (node : option oloc) : SM (option oloc) := λ s,
  Ok (cfg_obj_root s, {| nodes := nodes s; xmls := xmls s; cfg_obj_root := node; lock_depth := lock_depth s |}).

(** A walk along the pointers of a store without cycles visits each node at
    most once. *)
Definition walk_fuel (s : store) : nat := S (base.size (nodes s)).
Definition with_fuel {A} (f : nat → SM A) : SM A := λ s, f (walk_fuel s) s.

Section obj.
Context (E : cfg_env) `{Shm} `{Xml}.
Let T := env_types E.
Let R := env_reg E.

(** *** Finding objects *)

Fixpoint get_child_loop (fuel : nat) (child_ : option oloc) (oid : Z) : SM (option oloc) :=
  match fuel with
  | O => out_of_fuel
  | S fuel' =>
      match child_ with
      | None => mret None
      | Some c =>
          o ← get_node c;
          if id o =? u32 oid then mret (Some c) else get_child_loop fuel' (brother o) oid
      end
  end.

Definition cfg_obj_get_child (parent_ : option oloc) (oid : Z) : SM (option oloc) :=
  match parent_ with
  | None => mret None
  | Some p => o ← get_node p; with_fuel (λ fuel, get_child_loop fuel (child o) oid)
  end.

(** [while(i < level)] of [cfg_obj_get_obj], over the identifiers left. *)
Fixpoint descend (parent_ : option oloc) (ids : list Z) : SM (option oloc) :=
  match ids with
  | [] => mret parent_
  | oid :: ids' =>
      c ← cfg_obj_get_child parent_ oid;
      match c with None => mret None | Some _ => descend c ids' end
  end.

Definition cfg_obj_get_obj (objpath : option cstr) : SM (option oloc) :=
  r ← gets cfg_obj_root;
  match r with
  | None => mret None
  | Some _ =>
      ids ← lift (cfg_path_to_oid_array E objpath true);
      match ids with
      | None | Some [] => mret None
      | Some [_] => mret r
      | Some (_ :: ids') => descend r ids'
      end
  end.

(** *** New identifiers *)

(** [again:]: [child] is not set back to the first child between rounds, so
    a later round starts from the node that ended the one before. *)
Fixpoint first_unused_loop (fuel : nat) (child_ : option oloc) (first : Z) : SM Z :=
  match fuel with
  | O => out_of_fuel
  | S fuel' =>
      match child_ with
      | None => mret (s32 first)
      | Some c =>
          o ← get_node c;
          if id o =? first
          then first_unused_loop fuel' child_ (u32 (first + 1))  (* goto again *)
          else first_unused_loop fuel' (brother o) first
      end
  end.

(** Each node ends at most one round, since the identifier it stopped is
    then increased. *)
Definition cfg_obj_first_unused_oid (obj : oloc) (oid : Z) : SM Z :=
  o ← get_node obj;
  let first := Z.land oid CFG_TYPE_MASK in
  with_fuel (λ fuel, first_unused_loop (2 * fuel) (child o) (u32 (first + 1))).

Fixpoint max_oid_loop (fuel : nat) (child_ : option oloc) (type maxid : Z) : SM Z :=
  match fuel with
  | O => out_of_fuel
  | S fuel' =>
      match child_ with
      | None => mret maxid
      | Some c =>
          o ← get_node c;
          let maxid' :=
            if (Z.land (id o) CFG_TYPE_MASK =? type) && (maxid <? id o) then id o else maxid in
          max_oid_loop fuel' (brother o) type maxid'
      end
  end.

Definition cfg_obj_auto_oid (obj : oloc) (oid : Z) : SM Z :=
  let type := Z.land oid CFG_TYPE_MASK in
  o ← get_node obj;
  maxid ← with_fuel (λ fuel, max_oid_loop fuel (child o) type type);
  if Z.land maxid CFG_OBJ_MASK =? CFG_OBJ_MASK then cfg_obj_first_unused_oid obj oid
  else mret (s32 (u32 (maxid + 1))).

(** *** Allocation *)

Definition zeroed : cfg_node_obj :=
  {| id := 0; parent := None; child := None; brother := None; private := None |}.

Definition calloc_node : SM (option oloc) := λ s,
  match shm_calloc s with
  | Some l => Ok (Some l, with_nodes <[l := zeroed]> s)
  | None => Ok (None, s)
  end.
Definition calloc_xml : SM (option oloc) := λ s,
  match shm_calloc s with
  | Some l => Ok (Some l, with_xmls <[l := []]> s)
  | None => Ok (None, s)
  end.
(** [shm_free] of a node, and [cfg_xml_release_node]: freeing twice faults. *)
Definition free_node (l : oloc) : SM unit := λ s,
  match nodes s !! l with Some _ => Ok (tt, with_nodes (delete l) s) | None => Fault end.
Definition cfg_xml_release_node (x : oloc) : SM unit := λ s,
  match xmls s !! x with Some _ => Ok (tt, with_xmls (delete x) s) | None => Fault end.

Definition cfg_obj_alloc_node : SM (option oloc) :=
  node ← calloc_node;
  match node with
  | None => mret None
  | Some n =>
      xmlnode ← calloc_xml;
      match xmlnode with
      | None => free_node n ;; mret None
      | Some _ => alter_node n (set_private xmlnode) ;; mret (Some n)
      end
  end.

(** A node for [type], its subtypes below it and its later siblings beside
    it; what could not be allocated is missing. *)
Fixpoint cfg_obj_create_from_type (fuel : nat) (parent_ : option oloc) (type : tloc)
    : SM (option oloc) :=
  match fuel with
  | O => out_of_fuel
  | S fuel' =>
      node ← cfg_obj_alloc_node;
      match node with
      | None => mret None
      | Some n =>
          alter_node n (set_id (u32 (Z.shiftl (type_id R type) CFG_TYPE_SHIFT + 1))) ;;
          alter_node n (set_parent parent_) ;;
          tmp ← lift (cfg_type_get_child T (Some type));
          (match tmp with
           | Some t => c ← cfg_obj_create_from_type fuel' (Some n) t; alter_node n (set_child c)
           | None => mret tt
           end) ;;
          tmp ← lift (cfg_type_get_brother T (Some type));
          (match tmp with
           | Some t => b ← cfg_obj_create_from_type fuel' parent_ t; alter_node n (set_brother b)
           | None => mret tt
           end) ;;
          mret (Some n)
      end
  end.

(** *** Removal *)

(** [while(first && first != node)]: the node before [node], or [None] when
    [node] is not among them. *)
Fixpoint find_prev (fuel : nat) (first prev : option oloc) (node : oloc)
    : SM (option (option oloc)) :=
  match fuel with
  | O => out_of_fuel
  | S fuel' =>
      match first with
      | None => mret None
      | Some f =>
          if decide (f = node) then mret (Some prev)
          else o ← get_node f; find_prev fuel' (brother o) first node
      end
  end.

(** The part of [cfg_obj_unlink_object] that redirects the pointer to [node]
    among the children of [p]. *)
Definition unlink_from (p node : oloc) (next : option oloc) : SM unit :=
  po ← get_node p;
  if decide (child po = Some node) then alter_node p (set_child next)
  else
    r ← with_fuel (λ fuel, find_prev fuel (child po) None node);
    match r with
    | Some prev => l ← lift (deref prev); alter_node l (set_brother next)
    | None => mret tt
    end.

Definition cfg_obj_unlink_object (node : oloc) : SM Z :=
  o ← get_node node;
  (match parent o with Some p => unlink_from p node (brother o) | None => mret tt end) ;;
  alter_node node (set_brother None) ;;
  alter_node node (set_parent None) ;;
  mret 0.

Definition cfg_obj_free_object (node : oloc) : SM Z :=
  o ← get_node node;
  (if private o is Some x then cfg_xml_release_node x else mret tt) ;;
  free_node node ;;
  mret 0.

Fixpoint cfg_obj_release_object (fuel : nat) (obj : option oloc) : SM Z :=
  match fuel with
  | O => out_of_fuel
  | S fuel' =>
      match obj with
      | None => mret 0
      | Some l =>
          o ← get_node l;
          cfg_obj_release_object fuel' (child o) ;;
          o ← get_node l;
          cfg_obj_release_object fuel' (brother o) ;;
          cfg_obj_free_object l ;;
          mret 0
      end
  end.

Definition cfg_obj_del_object (obj : option oloc) : SM Z :=
  match obj with
  | None => mret (-1)
  | Some l =>
      o ← get_node l;
      cfg_obj_unlink_object l ;;
      with_fuel (λ fuel, cfg_obj_release_object fuel obj) ;;
      mret (s32 (id o))
  end.

Definition cfg_obj_delete_object (objpath : option cstr) : SM Z :=
  cfg_obj_lock ;;
  node ← cfg_obj_get_obj objpath;
  ret ← (match node with None => mret (-1) | Some _ => cfg_obj_del_object node end);
  cfg_obj_unlock ;;
  mret ret.

(** Removes the objects of dynamic types from a tree made from the table. *)
Fixpoint cfg_obj_del_from_type (fuel : nat) (node : option oloc) : SM Z :=
  match fuel with
  | O => out_of_fuel
  | S fuel' =>
      match node with
      | None => mret 0
      | Some l =>
          o ← get_node l;
          cfg_obj_del_from_type fuel' (child o) ;;
          o ← get_node l;
          cfg_obj_del_from_type fuel' (brother o) ;;
          o ← get_node l;
          dyn ← lift (cfg_type_is_dynamic_type T R (CFG_OID_TO_TID (id o)));
          (if dyn : bool then cfg_obj_del_object node else mret 0) ;;
          mret 1
      end
  end.

Definition cfg_obj_load_from_type : SM (option oloc) :=
  node ← cfg_obj_create_from_type (env_fuel E) None (env_root E);
  (match node with
   | Some _ => with_fuel (λ fuel, cfg_obj_del_from_type fuel node)
   | None => mret 0
   end) ;;
  mret node.

(** Start-up.  The root is kept in shared memory too ([shm_settree]). *)
Definition svc_cfg_load_object (cfg_load_romfile : SM unit) : SM (option oloc) :=
  node ← cfg_obj_load_from_type;
  match node with
  | None => mret None
  | Some _ => cfg_obj_set_root node ;; cfg_load_romfile ;; mret node
  end.

(** *** Creation *)

Fixpoint last_brother (fuel : nat) (l : oloc) : SM oloc :=
  match fuel with
  | O => out_of_fuel
  | S fuel' =>
      o ← get_node l;
      match brother o with Some b => last_brother fuel' b | None => mret l end
  end.

(** [node->child = ...] and the removal of its dynamic objects. *)
Definition create_subtree (n : oloc) (type : tloc) : SM Z :=
  sub ← lift (cfg_type_get_child T (Some type));
  ch ← (match sub with
        | Some t => cfg_obj_create_from_type (env_fuel E) (Some n) t
        | None => mret None
        end);
  alter_node n (set_child ch) ;;
  if ch is Some _ then with_fuel (λ fuel, cfg_obj_del_from_type fuel ch) else mret 0.

(** Links [n] as the last child of [obj]. *)
Definition link_last (obj n : oloc) : SM unit :=
  po ← get_node obj;
  match child po with
  | None => alter_node obj (set_child (Some n))
  | Some c =>
      l ← with_fuel (λ fuel, last_brother fuel c);
      alter_node l (set_brother (Some n))
  end.

Definition cfg_obj_create_sub_obj (obj : oloc) (oid : Z) : SM Z :=
  c ← cfg_obj_get_child (Some obj) oid;
  match c with
  | Some _ => mret (-1)
  | None =>
      match cfg_type_from_oid E oid with
      | None => mret (-1)
      | Some type =>
          node ← cfg_obj_alloc_node;
          match node with
          | None => mret (-1)
          | Some n =>
              i ← (if CFG_OID_TO_ID oid =? 0 then cfg_obj_auto_oid obj oid else mret oid);
              alter_node n (set_id (u32 i)) ;;
              alter_node n (set_brother None) ;;
              alter_node n (set_parent (Some obj)) ;;
              create_subtree n type ;;
              link_last obj n ;;
              o ← get_node n;
              mret (s32 (id o))
          end
      end
  end.

(** *** Attributes and queries *)

(** [cfg_obj_get_child_oid]: the count, and what is written to [id]. *)
Fixpoint child_oid_loop (fuel : nat) (child_ : option oloc) (type : Z) : SM (list Z) :=
  match fuel with
  | O => out_of_fuel
  | S fuel' =>
      match child_ with
      | None => mret []
      | Some c =>
          o ← get_node c;
          rest ← child_oid_loop fuel' (brother o) type;
          mret (if CFG_OID_TO_TID (id o) =? type
                then Z.land (id o) CFG_OBJ_MASK :: rest else rest)
      end
  end.

Definition cfg_obj_get_child_oid (node : oloc) (type : Z) (id_given : bool) : SM (Z * list Z) :=
  o ← get_node node;
  ids ← with_fuel (λ fuel, child_oid_loop fuel (child o) type);
  mret (zlen ids, if id_given then ids else []).

Definition cfg_obj_query_object (objpath subtype : option cstr) (id_given : bool)
    : SM (Z * list Z) :=
  type ← (match subtype with
          | None => mret (Some None)
          | Some _ =>
              t ← lift (cfg_type_query E objpath);
              match t with
              | None => mret None
              | Some _ =>
                  t' ← lift (cfg_type_query_child E t subtype);
                  match t' with None => mret None | Some c => mret (Some (Some c)) end
              end
          end);
  match type with
  | None => mret (-1, [])
  | Some type =>
      cfg_obj_lock ;;
      node ← cfg_obj_get_obj objpath;
      ret ← (match node, type with
             | None, _ => mret (-1, [])
             | Some n, None =>
                 o ← get_node n;
                 mret (1, if id_given then [Z.land (id o) CFG_OBJ_MASK] else [])
             | Some n, Some t => cfg_obj_get_child_oid n (type_id R t) id_given
             end);
      cfg_obj_unlock ;;
      mret ret
  end.

(** The value returned, and what is written to [val]. *)
Definition cfg_obj_get_obj_attr (node : oloc) (name : cstr) (size : Z) : SM (Z * option cstr) :=
  o ← get_node node;
  a ← get_xml (private o);
  match cfg_xml_get_attr a name with
  | None => mret (-2, None)
  | Some tmp => let val := take (Z.to_nat (size - 1)) tmp in mret (strlen val, Some val)
  end.

Definition cfg_obj_get_object_attr (path attr : option cstr) (val_given : bool) (size : Z)
    : SM (Z * option cstr) :=
  match path, attr with
  | Some _, Some attr =>
      if negb val_given || (size <=? 0) then mret (-1, None)
      else
        cfg_obj_lock ;;
        node ← cfg_obj_get_obj path;
        ret ← (match node with
               | None => mret (-1, None)
               | Some n => cfg_obj_get_obj_attr n attr size
               end);
        cfg_obj_unlock ;;
        mret ret
  | _, _ => mret (-1, None)
  end.

(** [cfg_xml_set_attr] on a node, whose result nobody looks at. *)
Definition xml_set_attr (x : option oloc) (name val : cstr) : SM unit :=
  a ← get_xml x;
  s ← gets (λ s, s);
  set_xml x (cfg_xml_set_attr s a name val).

Definition cfg_obj_set_obj_attr (node : oloc) (name val : cstr) : SM Z :=
  o ← get_node node;
  xml_set_attr (private o) name val ;;
  mret 0.

Definition cfg_obj_set_object_attr (path attr val : option cstr) : SM Z :=
  match path, attr, val with
  | Some _, Some attr, Some val =>
      if bool_decide (attr = []) then mret (-1)
      else
        cfg_obj_lock ;;
        node ← cfg_obj_get_obj path;
        ret ← (match node with
               | None => mret (-1)
               | Some n => cfg_obj_set_obj_attr n attr val
               end);
        cfg_obj_unlock ;;
        mret ret
  | _, _, _ => mret (-1)
  end.

(** [for(i=0;i < num;i++) cfg_xml_set_attr(dstnode,attr[i].name,attr[i].value)].
    Source and destination may be the same node: the attributes are read
    one at a time from the array being written. *)
Fixpoint copy_loop (num i : nat) (srcnode dstnode : option oloc) : SM unit :=
  match num with
  | O => mret tt
  | S num' =>
      a ← get_xml srcnode;
      nv ← lift (deref (a !! i));
      xml_set_attr dstnode nv.1 nv.2 ;;
      copy_loop num' (S i) srcnode dstnode
  end.

Definition cfg_obj_copy_private (dst src : option cstr) : SM Z :=
  cfg_obj_lock ;;
  dstobj ← cfg_obj_get_obj dst;
  srcobj ← cfg_obj_get_obj src;
  ret ← (match dstobj, srcobj with
         | Some d, Some s =>
             so ← get_node s;
             dstnode ← calloc_xml;
             match private so, dstnode with
             | Some _, Some _ =>
                 a ← get_xml (private so);
                 copy_loop (length a) 0 (private so) dstnode ;;
                 od ← get_node d;
                 (if private od is Some x then cfg_xml_release_node x else mret tt) ;;
                 alter_node d (set_private dstnode) ;;
                 mret 0
             | _, _ => mret (-1)
             end
         | _, _ => mret (-1)
         end);
  cfg_obj_unlock ;;
  mret ret.

Definition cfg_obj_copy_private_without_del (dst src : option cstr) : SM Z :=
  cfg_obj_lock ;;
  dstobj ← cfg_obj_get_obj dst;
  srcobj ← cfg_obj_get_obj src;
  ret ← (match dstobj, srcobj with
         | Some d, Some s =>
             so ← get_node s;
             od ← get_node d;
             match private so, private od with
             | Some _, Some _ =>
                 a ← get_xml (private so);
                 copy_loop (length a) 0 (private so) (private od) ;;
                 mret 0
             | _, _ => mret (-1)
             end
         | _, _ => mret (-1)
         end);
  cfg_obj_unlock ;;
  mret ret.

(** *** Creation by path *)

(** Creates the missing dynamic ancestors first.  Every round works on a
    shorter path. *)
Fixpoint create_object (fuel : nat) (objpath : option cstr) : SM Z :=
  match fuel with
  | O => out_of_fuel
  | S fuel' =>
      par ← lift (cfg_get_parent_path objpath);
      match par with
      | None => mret (-1)
      | Some _ =>
          q ← cfg_obj_query_object par None false;
          ready ← (if q.1 <=? 0 then
                     t ← lift (cfg_type_query E par);
                     dyn ← (match t with
                            | Some t => lift (cfg_type_is_dynamic_type T R (type_id R t))
                            | None => mret false
                            end);
                     if dyn : bool then r ← create_object fuel' par; mret (0 <? r)
                     else mret false
                   else mret true);
          if negb ready then mret (-1)
          else
            oid ← lift (cfg_path_to_oid E objpath);
            if oid <=? 0 then mret (-1)
            else
              cfg_obj_lock ;;
              node ← cfg_obj_get_obj par;
              ret ← (match node with
                     | None => mret 0
                     | Some n => cfg_obj_create_sub_obj n oid
                     end);
              cfg_obj_unlock ;;
              mret ret
      end
  end.

Definition cfg_obj_create_object (objpath : option cstr) : SM Z :=
  create_object (match objpath with Some s => S (length s) | None => 1%nat end) objpath.

(** [commit] operations belong to the type's own file. *)
Definition cfg_obj_commit_object (run_commit : handler → option cstr → SM Z)
    (objpath : option cstr) : SM Z :=
  cfg_obj_lock ;;
  node ← cfg_obj_get_obj objpath;
  cfg_obj_unlock ;;
  match node with
  | None => mret (-1)
  | Some n =>
      o ← get_node n;
      match cfg_type_find_by_id R (Z.shiftr (id o) CFG_TYPE_SHIFT) with
      | None => mret (-1)
      | Some t =>
          ty ← lift (type_at T t);
          ops ← lift (deref (t_ops ty));
          (if op_commit ops is Some f then run_commit f objpath else mret 0) ;;
          mret 0
      end
  end.
End obj.
End CfgObj.
