(* ===== verification/CfgSave.v ===== *)
(** * Saving, dumping and resetting the configuration

    The rest of [service/cfg/cfg_obj.c]: the XML text of [cfg_obj_save_tree],
    the attribute files of [cfg_save_attrs_to_file], the listing of
    [cfg_obj_dump], and [cfg_readAll].  What goes to a stream is returned as
    the text written. *)

From S2P Require Import Prelude CString Text Utility CfgType CfgPath CfgObj.
Open Scope Z_scope.

Module CfgSave.
Import Text Utility CfgType CfgPath CfgObj.

Definition NL : Z := 10.
Definition TAB : Z := 9.

(** ** Attribute values in XML *)

(** What replaces a character. *)
Definition xml_char (c : Z) : cstr :=
  if c =? 38 then cs "&amp;"
  else if c =? 60 then cs "&lt;"
  else if c =? 62 then cs "&gt;"
  else if c =? 34 then cs "&quot;"
  else [c].

(** [replacedstr] is a zeroed buffer; the argument is the string in it. *)
Fixpoint checkvalue_loop (attrvalue replacedstr : cstr) (replacedstr_len : Z) : cstr :=
  match attrvalue with
  | [] => replacedstr
  | c :: attrvalue' =>
      checkvalue_loop attrvalue'
        (if strlen replacedstr <? replacedstr_len - 1
         then replacedstr ++ take (Z.to_nat (replacedstr_len - strlen replacedstr - 1)) (xml_char c)
         else replacedstr)
        replacedstr_len
  end.

(** The last statement stores a NUL behind the terminator. *)
Definition checkvalue (attrvalue : cstr) (replacedstr_len : Z) : res cstr :=
  let replacedstr := checkvalue_loop attrvalue [] replacedstr_len in
  if strlen replacedstr + 1 <? replacedstr_len then mret replacedstr else Fault.

Definition xmlFormatFunc (attrvalue : cstr) (len : Z) : res cstr := checkvalue attrvalue len.

(** The attributes of a tag, as printed with a buffer of 1024 bytes each. *)
Fixpoint attrs_text (attrs : xattrs) : res cstr :=
  match attrs with
  | [] => mret []
  | (name, value) :: attrs' =>
      v ← xmlFormatFunc value 1024;
      rest ← attrs_text attrs';
      mret (cs " " ++ name ++ [61; 34] ++ v ++ [34] ++ rest)
  end.

(** The name of an object's tag: multiple instances carry their number less
    one, the root has a name of its own. *)
Definition tag_name (ty : cfg_node_type) (oid : Z) : cstr :=
  if negb (Z.land (t_flag ty) CFG_TYPE_FLAG_MULTIPLE =? 0)
  then t_name ty ++ fmt_d (CFG_OID_TO_ID oid - 1)
  else if strcmp (t_name ty) (cs "root") =? 0 then cs "ROMFILE" else t_name ty.

(** ** Attribute files *)

Definition NO_ATTRIBUTE : Z := 2.
Definition MAX_TCAPI_MSG_SIZE : Z := 1024.

(** One line, formatted by [snprintf] into [buf]. *)
Definition attr_line (type : Z) (attr : cstr * cstr) : res cstr :=
  let '(name, value) := attr in
  let fit (l : cstr) := take (Z.to_nat (MAX_TCAPI_MSG_SIZE * 2 + 128)) l in
  if type =? NO_QMARKS then mret (fit (name ++ [61] ++ value ++ [NL]))
  else if type =? QMARKS then
    escape_buf ← escape_special_character value (MAX_TCAPI_MSG_SIZE * 2 + 1);
    mret (fit (name ++ [61; 34] ++ escape_buf ++ [34; NL]))
  else if type =? NO_ATTRIBUTE then mret (fit (value ++ [NL]))
  else mret [].

Fixpoint attr_lines (type : Z) (attrs : xattrs) : res cstr :=
  match attrs with
  | [] => mret []
  | a :: attrs' => l ← attr_line type a; rest ← attr_lines type attrs'; mret (l ++ rest)
  end.

Section save.
Context (E : cfg_env) `{Shm} `{Xml}.
Let T := env_types E.
Let R := env_reg E.

(** [cfg_obj_save_tree]: [mode] is not used. *)
Fixpoint save_tree (fuel : nat) (node : option oloc) : SM cstr :=
  match fuel with
  | O => out_of_fuel
  | S fuel' =>
      match node with
      | None => mret []
      | Some n =>
          o ← get_node n;
          match cfg_type_from_oid E (id o) with
          | None => mret []
          | Some t =>
              ty ← lift (type_at T t);
              here ← (if negb (Z.land (t_flag ty) CFG_TYPE_FLAG_MEMORY =? 0) then mret []
                      else
                        attrs ← get_xml (private o);
                        text ← lift (attrs_text attrs);
                        let open := cs "<" ++ tag_name ty (id o) ++ text
                                    ++ (if zlen attrs =? 0 then [] else cs " ") in
                        match child o with
                        | Some _ =>
                            below ← save_tree fuel' (child o);
                            mret (open ++ cs "> " ++ [NL] ++ below
                                  ++ cs "</" ++ tag_name ty (id o) ++ cs "> " ++ [NL])
                        | None => mret (open ++ cs "/> " ++ [NL])
                        end);
              match brother o with
              | Some _ => rest ← save_tree fuel' (brother o); mret (here ++ rest)
              | None => mret here
              end
          end
      end
  end.

Definition cfg_obj_save_tree (node : option oloc) : SM cstr :=
  with_fuel (λ fuel, save_tree fuel node).

(** [cfg_save_object]: the value returned and the text of the file; opening it
    may fail. *)
Definition cfg_save_object (opened : bool) : SM (Z * cstr) :=
  if opened then
    cfg_obj_lock ;;
    root ← gets cfg_obj_root;
    text ← cfg_obj_save_tree root;
    cfg_obj_unlock ;;
    mret (0, text)
  else mret (-1, []).

Definition cfg_save_attrs_to_file_fp (path : option cstr) (opened : bool) (type : Z) : SM (Z * cstr) :=
  if negb opened then mret (-1, [])
  else
    cfg_obj_lock ;;
    obj ← cfg_obj_get_obj E path;
    r ← (match obj with
         | None => mret (-1, [])
         | Some l =>
             o ← get_node l;
             match private o with
             | None => mret (-1, [])
             | Some x =>
                 attrs ← get_xml (Some x);
                 text ← lift (attr_lines type attrs);
                 mret (0, text)
             end
         end);
    cfg_obj_unlock ;;
    mret r.

(** The file is created before the object is looked up. *)
Definition cfg_save_attrs_to_file (path : option cstr) (opened : bool) (type : Z) : SM (Z * cstr) :=
  cfg_save_attrs_to_file_fp path opened type.

(** ** Listing *)

Definition tabs_text (tabs : nat) : cstr :=
  (if Nat.ltb 0 tabs then [TAB] else []) ++ replicate tabs TAB.

Fixpoint dump_attrs (tabs : nat) (flag : bool) (attrs : xattrs) : cstr :=
  match attrs with
  | [] => []
  | (name, value) :: attrs' =>
      tabs_text tabs ++ (if flag then [TAB] else []) ++ [TAB] ++ cs "[" ++ name ++ cs " = " ++ value
      ++ cs "]" ++ [NL] ++ dump_attrs tabs flag attrs'
  end.

Definition oid_text (oid : Z) : cstr :=
  cs "[" ++ fmt_d (CFG_OID_TO_TID oid) ++ cs ":" ++ fmt_d (CFG_OID_TO_ID oid) ++ cs "]".

Definition cfg_obj_dump_attr (obj : oloc) (tabs : nat) (flag : bool) : SM (Z * cstr) :=
  o ← get_node obj;
  match cfg_type_from_oid E (id o) with
  | None => mret (-1, cs "cfg_obj_dump_attr: error obj " ++ oid_text (id o) ++ cs " " ++ [NL])
  | Some t =>
      ty ← lift (type_at T t);
      attrs ← get_xml (private o);
      mret (0, tabs_text tabs ++ cs "OID " ++ oid_text (id o) ++ cs "[" ++ t_name ty ++ cs "]:" ++ [NL]
               ++ dump_attrs tabs flag attrs ++ [NL])
  end.

(** [tabs] is the static counter, which every call restores. *)
Fixpoint cfg_obj_dump_obj (fuel : nat) (tabs : nat) (obj : option oloc) (depth : Z) : SM cstr :=
  match fuel with
  | O => out_of_fuel
  | S fuel' =>
      match obj with
      | None => mret []
      | Some l =>
          o ← get_node l;
          here ← cfg_obj_dump_attr l tabs true;
          below ← (if negb (depth =? 0) then cfg_obj_dump_obj fuel' (S tabs) (child o) (depth - 1)
                   else mret []);
          rest ← cfg_obj_dump_obj fuel' tabs (brother o) depth;
          mret ([TAB] ++ here.2 ++ below ++ rest)
      end
  end.

Definition cfg_obj_dump (path : option cstr) (level : Z) : SM cstr :=
  let level := if level <=? 0 then 1 else level in
  cfg_obj_lock ;;
  node ← cfg_obj_get_obj E path;
  text ← (match node with
          | None => mret []
          | Some l =>
              o ← get_node l;
              here ← cfg_obj_dump_attr l 0 false;
              below ← with_fuel (λ fuel, cfg_obj_dump_obj fuel 0 (child o) (level - 1));
              mret (here.2 ++ below)
          end);
  cfg_obj_unlock ;;
  mret text.

(** ** Starting over *)

(** [snprintf(buf, size, "root.%s", type->name)]. *)
Definition root_path (size : nat) (name : cstr) : cstr := take (size - 1) (cs "root." ++ name).

Fixpoint delete_nodes (subtypes : list tloc) : SM unit :=
  match subtypes with
  | [] => mret tt
  | t :: subtypes' =>
      ty ← lift (type_at T t);
      let nodepath := root_path 64 (t_name ty) in
      cfg_obj_delete_object E (Some nodepath) ;;
      cfg_obj_create_object E (Some nodepath) ;;
      delete_nodes subtypes'
  end.

Definition cfg_delete_node : SM Z :=
  root ← lift (type_at T (env_root E));
  subtype ← lift (deref (t_subtype root));
  delete_nodes subtype ;;
  mret 0.

(** [memory_type_read] functions belong to the types' own files. *)
Fixpoint load_web (memory_type_read : handler → cstr → SM unit) (subtypes : list tloc) : SM unit :=
  match subtypes with
  | [] => mret tt
  | t :: subtypes' =>
      ty ← lift (type_at T t);
      let path := root_path 128 (t_name ty) in
      (if negb (Z.land (t_flag ty) CFG_TYPE_FLAG_MEMORY =? 0) then
         match t_ops ty with
         | Some ops => match op_memory_type_read ops with Some f => memory_type_read f path | None => mret tt end
         | None => mret tt
         end
       else mret tt) ;;
      load_web memory_type_read subtypes'
  end.

Definition cfg_load_web_type_node (memory_type_read : handler → cstr → SM unit) : SM Z :=
  root ← lift (type_at T (env_root E));
  subtype ← lift (deref (t_subtype root));
  load_web memory_type_read subtype ;;
  mret 0.

Definition cfg_readAll (tc_parse_romfile : SM unit) (memory_type_read : handler → cstr → SM unit) : SM unit :=
  cfg_delete_node ;;
  tc_parse_romfile ;;
  cfg_load_web_type_node memory_type_read ;;
  mret tt.
End save.
End CfgSave.
