(* ===== verification/CfgCli.v ===== *)
(** * The client library ([service/cfg/cfg_cli.c])

    Requests are dispatched through the operation table of the type their
    path names; the default handlers of [cfg_type.c] lead to the object store.
    Then the loading of a configuration from its XML tree, and the short
    names of web requests. *)

From S2P Require Import Prelude CString Text Utility CfgType CfgPath CfgObj.
Open Scope Z_scope.

Module CfgCli.
Import Text Utility CfgType CfgPath CfgObj.

(** The handlers of the [type/cfg_type_*.c] files, by name. *)
Class Handlers := {
  type_create : cstr → option cstr → SM Z;
  type_delete : cstr → option cstr → SM Z;
  type_set : cstr → option cstr → option cstr → option cstr → SM Z;
  type_get : cstr → option cstr → option cstr → bool → Z → SM (Z * option cstr);
  type_commit : cstr → option cstr → SM Z;
  type_query : cstr → option cstr → option cstr → bool → SM (Z * list Z)
}.

(** An XML node: its name and its attributes; a forest of them is a document. *)
Abbreviation xnode := (cstr * xattrs)%type.

Section cli.
Context (E : cfg_env) `{Shm} `{Xml} `{Handlers}.
Let T := env_types E.
Let R := env_reg E.

(** ** Default handlers *)

Definition cfg_type_default_func_create (path : option cstr) : SM Z := cfg_obj_create_object E path.
Definition cfg_type_default_func_delete (path : option cstr) : SM Z := cfg_obj_delete_object E path.
Definition cfg_type_default_func_set (path attr val : option cstr) : SM Z :=
  cfg_obj_set_object_attr E path attr val.
Definition cfg_type_default_func_get (path attr : option cstr) (val_given : bool) (len : Z)
    : SM (Z * option cstr) :=
  cfg_obj_get_object_attr E path attr val_given len.
Definition cfg_type_default_func_commit (path : option cstr) : SM Z := mret 0.
Definition cfg_type_default_func_query (path subtype : option cstr) (id_given : bool) : SM (Z * list Z) :=
  cfg_obj_query_object E path subtype id_given.

(** ** Dispatch *)

(** The operation the type of [path] has in a slot of its table: [None] when
    there is no such type, no table, or nothing in the slot. *)
Definition slot_of (slot : cfg_node_ops → option handler) (path : option cstr) : SM (option handler) :=
  type ← lift (cfg_type_query E path);
  match type with
  | None => mret None
  | Some t =>
      ty ← lift (type_at T t);
      mret (match t_ops ty with Some ops => slot ops | None => None end)
  end.

Definition cfg_create_object (path : option cstr) : SM Z :=
  op ← slot_of op_create path;
  match op with
  | None => mret (-1)
  | Some H_default => cfg_type_default_func_create path
  | Some (H_type f) => type_create f path
  end.

Definition cfg_check_create_object (path : option cstr) : SM Z :=
  q ← cfg_obj_query_object E path None false;
  if q.1 <=? 0 then
    type ← lift (cfg_type_query E path);
    dyn ← (match type with
           | Some t => lift (cfg_type_is_dynamic_type T R (type_id R t))
           | None => mret false
           end);
    if dyn : bool then
      r ← cfg_obj_create_object E path;
      mret (if r <=? 0 then -1 else 0)
    else mret (-1)
  else mret 0.

Definition cfg_delete_object (path : option cstr) : SM Z :=
  op ← slot_of op_delete path;
  match op with
  | None => mret (-1)
  | Some H_default => cfg_type_default_func_delete path
  | Some (H_type f) => type_delete f path
  end.

Definition cfg_query_object (path subtype : option cstr) (id_given : bool) : SM (Z * list Z) :=
  op ← slot_of op_query path;
  match op with
  | None => mret (-1, [])
  | Some H_default => cfg_type_default_func_query path subtype id_given
  | Some (H_type f) => type_query f path subtype id_given
  end.

Definition cfg_get_object_attr (path attr : option cstr) (val_given : bool) (size : Z) : SM (Z * option cstr) :=
  op ← slot_of op_get path;
  match op with
  | None => mret (-1, None)
  | Some H_default => cfg_type_default_func_get path attr val_given size
  | Some (H_type f) => type_get f path attr val_given size
  end.

Definition cfg_set_object_attr (path attr val : option cstr) : SM Z :=
  op ← slot_of op_set path;
  match op with
  | None => mret (-1)
  | Some H_default => cfg_type_default_func_set path attr val
  | Some (H_type f) => type_set f path attr val
  end.

(** *** Commit *)

(** The lock file of [cfg_commit_lock]; [None] is -1.  [node] is not terminated
    when the path fills its 128 bytes, and [fpath] has 128 bytes too. *)
Definition commit_lock_file (path : cstr) : res (option cstr) :=
  if 127 <=? strlen path then Fault
  else match strchr path CFG_NODE_SPELIRATE_CHAR with
       | None => mret None
       | Some (first, rest) =>
           let node := match strchr rest CFG_NODE_SPELIRATE_CHAR with
                       | Some (second, _) => first ++ [CFG_NODE_SPELIRATE_CHAR] ++ second
                       | None => path
                       end in
           let fpath := cs "/tmp/" ++ node ++ cs ".lock" in
           if strlen fpath <? 128 then mret (Some fpath) else Fault
       end.

(** [openable] says for which files [open(fpath, O_RDWR | O_CREAT)] succeeds;
    waiting for the lock is not modelled. *)
Definition cfg_commit_object (openable : cstr → bool) (path : option cstr) : SM Z :=
  op ← slot_of op_commit path;
  match op, path with
  | Some f, Some p =>
      lockf ← lift (commit_lock_file p);
      match lockf with
      | None => mret (-1)
      | Some file =>
          if openable file then
            match f with
            | H_default => cfg_type_default_func_commit path
            | H_type f => type_commit f path
            end
          else mret (-1)
      end
  | _, _ => mret (-1)
  end.

(** ** Loading the XML tree *)

(** A row of the 32-byte table: it has no terminator when 31 characters or more
    are copied into it. *)
Definition row (s : cstr) : res cstr := if strlen s <? 31 then mret s else Fault.

Fixpoint rows (l : list cstr) : res (list cstr) :=
  match l with
  | [] => mret []
  | s :: l' => r ← row s; rs ← rows l'; mret (r :: rs)
  end.

(** [prefix] followed by a number becomes [prefix.] and that number plus one. *)
Definition renumber (prefix tmp : cstr) : cstr :=
  match drop (length prefix) tmp with
  | c :: s =>
      if is_prefix prefix tmp && is_digit c
      then prefix ++ [46] ++ fmt_d (s32 (atoi (c :: s) + 1)) else tmp
  | [] => tmp
  end.

Definition node_segment (tmp : cstr) : cstr :=
  renumber (cs "pvc") (renumber (cs "entry") (cfg_str_to_lower tmp)).

(** [cfg_xml_node_to_path]; the argument is the names of the node and of its
    ancestors, innermost first. *)
Definition cfg_xml_node_to_path (names : list cstr) : res cstr :=
  root ← type_at T (env_root E);
  let used := take CFG_MAX_NODE_LEVEL names in
  tmp ← rows (take (length used - 1) used ++ (if Nat.ltb 0 (length used) then [t_name root] else []));
  mret (join_by 46 (rev (map node_segment tmp))).

Fixpoint set_attrs (path : cstr) (attrs : xattrs) : SM unit :=
  match attrs with
  | [] => mret tt
  | (name, value) :: attrs' =>
      cfg_obj_set_object_attr E (Some path) (Some name) (Some value) ;;
      set_attrs path attrs'
  end.

(** [node] and its brothers; [above] is the names of its ancestors. *)
Fixpoint cfg_load_from_xml (above : list cstr) (node : forest xnode) : SM Z :=
  match node with
  | FNil => mret 0
  | FCons (name, attrs) children next =>
      path ← lift (cfg_xml_node_to_path (name :: above));
      q ← cfg_obj_query_object E (Some path) None false;
      type ← (if q.1 <=? 0 then lift (cfg_type_query E (Some path)) else mret None);
      if (q.1 <=? 0) && (if type is None then true else false) then cfg_load_from_xml above next
      else
        exist ← (match type with
                 | Some t =>
                     dyn ← lift (cfg_type_is_dynamic_type T R (type_id R t));
                     if dyn : bool then r ← cfg_obj_create_object E (Some path); mret (0 <? r)
                     else mret false
                 | None => mret true
                 end);
        (if exist : bool then
           set_attrs path attrs ;;
           cfg_load_from_xml (name :: above) children ;;
           mret tt
         else mret tt) ;;
        cfg_load_from_xml above next ;;
        mret 0
  end.

(** [cfg_load_object]: the parsed document, if the file can be opened and
    parsed. *)
Definition cfg_load_object (doc : option (forest xnode)) : SM Z :=
  match doc with
  | None => mret (-1)
  | Some node => cfg_load_from_xml [] node
  end.

(** ** Names of web requests *)

Definition MAX_NODE_NAME : nat := 32.
Definition MAX_NODE_LEVEL : nat := 4.
Definition CFG_WEB_INDEX_NODE : cstr := cs "root.webcurset.entry".

(** [name[n] > 0], a [char] being signed. *)
Definition positive_at (name : cstr) (n : nat) : bool :=
  match name !! n with Some c => 0 <? schar c | None => false end.

(** The first index attribute that has a value, in a buffer of 32 bytes. *)
Fixpoint web_index (index : list cstr) : SM (option cstr) :=
  match index with
  | [] => mret None
  | attr :: index' =>
      r ← cfg_obj_get_object_attr E (Some CFG_WEB_INDEX_NODE) (Some attr) true 32;
      if 0 <? r.1 then mret r.2 else web_index index'
  end.

Definition named_number (name : cstr) : option Z :=
  if is_prefix (cs "entry") name && positive_at name 5 then Some (atoi (drop 5 name))
  else if is_prefix (cs "pvc") name && positive_at name 3 then Some (atoi (drop 3 name))
  else if is_prefix (cs "rai") name && positive_at name 3 then Some (atoi (drop 3 name))
  else if is_prefix (cs "ra") name && positive_at name 2 then Some (atoi (drop 2 name))
  else None.

Definition cfg_parse_entry_pvc_number (path name : cstr) : SM Z :=
  type ← lift (cfg_type_query E (Some path));
  match type with
  | None => mret 0
  | Some t =>
      ty ← lift (type_at T t);
      if Z.land (t_flag ty) CFG_TYPE_FLAG_MULTIPLE =? 0 then mret 1
      else
        let num := default (-1) (named_number name) in
        if 0 <=? num then mret (s32 (num + 1))
        else match t_index ty with
             | None => mret 0
             | Some index =>
                 v ← web_index index;
                 match v with Some val => mret (s32 (atoi val + 1)) | None => mret 0 end
             end
  end.

(** The value returned and the rows written. *)
Definition cfg_parse_split_name (name : cstr) (delim : list Z) : res (nat * list cstr) :=
  let others := take (MAX_NODE_LEVEL - 1) (drop 1 (tokens delim name)) in
  first ← row (strtok_cut delim name);
  rest ← rows others;
  mret (S (length rest), first :: rest).

(** What is written to [path], a buffer of [size] bytes. *)
Definition fits (size : Z) (path : cstr) : SM cstr :=
  if strlen path <? size then mret path else λ _, Fault.

Definition numbered_path (size : Z) (prefix name : cstr) : SM cstr :=
  path ← fits size prefix;
  num ← cfg_parse_entry_pvc_number path name;
  fits size (path ++ [46] ++ fmt_d num).

(** [*(ptmp + 1) = *(ptmp + 1) + 1] behind the first dot. *)
Definition bump_after_dot (name : cstr) : cstr :=
  match strchr name 46 with
  | Some (pre, c :: post) =>
      if (c =? 10) || (c =? 13) then name else pre ++ [46; u8 (c + 1)] ++ post
  | _ => name
  end.

Definition second_level (size : Z) (rname buf0 buf1 : cstr) : SM cstr :=
  let base := rname ++ [46] ++ buf0 ++ [46] in
  if is_prefix (cs "entry") buf1 then numbered_path size (base ++ cs "entry") buf1
  else if is_prefix (cs "pvc") buf1 then numbered_path size (base ++ cs "pvc") buf1
  else if is_prefix (cs "info") buf0 then
    if is_prefix (cs "nas") buf1 then fits size (base ++ bump_after_dot buf1)
    else if is_prefix (cs "rai") buf1 then numbered_path size (base ++ cs "rai") buf1
    else if is_prefix (cs "ra") buf1 then numbered_path size (base ++ cs "ra") buf1
    else fits size (base ++ buf1)
  else fits size (base ++ buf1).

(** The value returned and the path. *)
Definition cfg_parse_node_name (name : cstr) (size : Z) : SM (Z * cstr) :=
  if size <? strlen name then mret (-1, [])
  else
    path ← fits size name;
    let path := cfg_str_to_lower path in
    split ← lift (cfg_parse_split_name path [95]);
    if Nat.ltb 3 split.1 then mret (-1, strtok_cut [95] path)
    else
      root ← lift (type_at T (env_root E));
      let rname := t_name root in
      match split.2 with
      | [buf0] => p ← fits size (rname ++ [46] ++ buf0); mret (0, p)
      | [buf0; buf1] => p ← second_level size rname buf0 buf1; mret (0, p)
      | [buf0; buf1; buf2] =>
          p ← second_level size rname buf0 buf1;
          p' ← (if is_prefix (cs "entry") buf2 then numbered_path size (p ++ cs ".entry") buf2
                else fits size (p ++ [46] ++ buf2));
          mret (0, p')
      | _ => mret (-1, path)
      end.
End cli.
End CfgCli.
