(* ===== verification/CfgHeap.v ===== *)
(** * What the object store represents

    The abstract configuration is a forest of entries; [obj_rep] ties it to
    the nodes and pointers of a [store].  The lemmas below say, operation by
    operation of [CfgObj], what happens to that forest; the properties at the
    end are stated on it. *)

From S2P Require Import Prelude CString CfgType CfgPath CfgObj.
Open Scope Z_scope.

Module CfgHeap.
Import CfgType CfgPath CfgObj.

Record entry := { e_loc : oloc; e_xml : oloc; e_id : Z; e_attrs : xattrs }.
Abbreviation eforest := (forest entry).

Definition top (f : eforest) : option oloc :=
  match f with FNil => None | FCons e _ _ => Some (e_loc e) end.

Definition locs (f : eforest) : list oloc := map e_loc (preorder f).
Definition xlocs (f : eforest) : list oloc := map e_xml (preorder f).

Definition node_of (e : entry) (par c b : option oloc) : cfg_node_obj :=
  {| id := e_id e; parent := par; child := c; brother := b; private := Some (e_xml e) |}.

Fixpoint obj_rep (s : store) (par : option oloc) (f : eforest) : Prop :=
  match f with
  | FNil => True
  | FCons e k sb =>
      nodes s !! e_loc e = Some (node_of e par (top k) (top sb)) ∧
      xmls s !! e_xml e = Some (e_attrs e) ∧
      obj_rep s (Some (e_loc e)) k ∧ obj_rep s par sb
  end.

(** No sharing: every node and XML node of the forest is its own. *)
Definition separate (f : eforest) : Prop := NoDup (locs f) ∧ NoDup (xlocs f).

(** Two stores differ at most on the nodes [L] and the XML nodes [X]. *)
Record same_but (L X : list oloc) (s s' : store) : Prop := {
  sb_nodes l : l ∉ L → nodes s' !! l = nodes s !! l;
  sb_xmls x : x ∉ X → xmls s' !! x = xmls s !! x;
  sb_root : cfg_obj_root s' = cfg_obj_root s;
  sb_lock : lock_depth s' = lock_depth s
}.

Lemma same_but_refl L X s : same_but L X s s.
Proof. by split. Qed.

Lemma same_but_trans L1 X1 L2 X2 s1 s2 s3 :
  same_but L1 X1 s1 s2 → same_but L2 X2 s2 s3 → same_but (L1 ++ L2) (X1 ++ X2) s1 s3.
Proof.
  intros [Hn1 Hx1 Hr1 Hl1] [Hn2 Hx2 Hr2 Hl2]. split; [| |congruence|congruence].
  - intros l Hl. rewrite Hn2, Hn1; set_solver.
  - intros x Hx. rewrite Hx2, Hx1; set_solver.
Qed.

Lemma same_but_weaken L X L' X' s s' :
  same_but L X s s' → L ⊆ L' → X ⊆ X' → same_but L' X' s s'.
Proof. intros [Hn Hx Hr Hl] HL HX. split; [set_solver..|done|done]. Qed.

Lemma obj_rep_frame s s' par f L X :
  same_but L X s s' → L ## locs f → X ## xlocs f → obj_rep s par f → obj_rep s' par f.
Proof.
  intros [Hn Hx _ _] HL HX. revert par. induction f as [|e k IHk sb IHs]; intros par; [done|].
  unfold locs, xlocs in *. cbn [preorder map] in HL, HX. rewrite map_app in HL, HX.
  intros (He & Ha & Hk & Hs). simpl.
  rewrite Hn, Hx by set_solver. split; [done|]. split; [done|].
  split; [apply IHk|apply IHs]; set_solver.
Qed.

Lemma obj_rep_locs s par f : obj_rep s par f → ∀ l, l ∈ locs f → is_Some (nodes s !! l).
Proof.
  revert par. induction f as [|e k IHk sb IHs]; intros par; [set_solver|].
  intros (He & _ & Hk & Hs) l. unfold locs. cbn [preorder map]. rewrite map_app.
  intros [->|[Hl|Hl]%elem_of_app]%elem_of_cons; eauto.
Qed.

Lemma obj_rep_xlocs s par f : obj_rep s par f → ∀ x, x ∈ xlocs f → is_Some (xmls s !! x).
Proof.
  revert par. induction f as [|e k IHk sb IHs]; intros par; [set_solver|].
  intros (_ & Hx & Hk & Hs) l. unfold xlocs. cbn [preorder map]. rewrite map_app.
  intros [->|[Hl|Hl]%elem_of_app]%elem_of_cons; eauto.
Qed.

Lemma locs_cons e k sb : locs (FCons e k sb) = e_loc e :: locs k ++ locs sb.
Proof. unfold locs. simpl. by rewrite map_app. Qed.
Lemma xlocs_cons e k sb : xlocs (FCons e k sb) = e_xml e :: xlocs k ++ xlocs sb.
Proof. unfold xlocs. simpl. by rewrite map_app. Qed.

Lemma separate_cons e k sb :
  separate (FCons e k sb) →
  separate k ∧ separate sb ∧ e_loc e ∉ locs k ++ locs sb ∧ e_xml e ∉ xlocs k ++ xlocs sb ∧
  locs k ## locs sb ∧ xlocs k ## xlocs sb.
Proof.
  unfold separate. rewrite locs_cons, xlocs_cons, !NoDup_cons, !NoDup_app. set_solver.
Qed.

(** A separated forest has no more nodes than the store. *)
Lemma locs_fuel s par f :
  obj_rep s par f → separate f → (length (locs f) < walk_fuel s)%nat.
Proof.
  intros Hrep [Hnd _]. unfold walk_fuel. apply le_n_S.
  rewrite <- size_dom, <- (size_list_to_set (C := gset oloc) (locs f)) by done.
  apply subseteq_size. intros l. rewrite elem_of_list_to_set, elem_of_dom. by apply (obj_rep_locs s par).
Qed.

(** *** Steps *)

Lemma get_node_Ok l s o : nodes s !! l = Some o → get_node l s = Ok (o, s).
Proof. unfold get_node. by intros ->. Qed.

Lemma alter_node_Ok l f s o :
  nodes s !! l = Some o → alter_node l f s = Ok (tt, with_nodes <[l := f o]> s).
Proof. intros Hl. unfold alter_node. step_by (get_node_Ok _ _ _ Hl). unfold set_node. by rewrite Hl. Qed.

Lemma get_xml_Ok x s a : xmls s !! x = Some a → get_xml (Some x) s = Ok (a, s).
Proof. unfold get_xml. by intros ->. Qed.

Lemma set_xml_Ok x s a b :
  xmls s !! x = Some a → set_xml (Some x) b s = Ok (tt, with_xmls <[x := b]> s).
Proof. unfold set_xml. by intros ->. Qed.

(** ** Finding *)

(** The first of a list of siblings with identifier [o], then down along
    [ids]: the entry and what is below it. *)
Fixpoint f_find (f : eforest) (o : Z) (ids : list Z) : option (entry * eforest) :=
  match f with
  | FNil => None
  | FCons e k sb =>
      if e_id e =? o then
        match ids with [] => Some (e, k) | o' :: ids' => f_find k o' ids' end
      else f_find sb o ids
  end.

(** Replaces what [f_find] finds. *)
Fixpoint f_update (f : eforest) (o : Z) (ids : list Z) (e' : entry) (k' : eforest) : eforest :=
  match f with
  | FNil => FNil
  | FCons e k sb =>
      if e_id e =? o then
        match ids with
        | [] => FCons e' k' sb
        | o' :: ids' => FCons e (f_update k o' ids' e' k') sb
        end
      else FCons e k (f_update sb o ids e' k')
  end.

Lemma get_child_loop_spec s par f fuel oid :
  obj_rep s par f → (length (locs f) < fuel)%nat →
  get_child_loop fuel (top f) oid s
  = Ok (option_map (λ ek, e_loc ek.1) (f_find f (u32 oid) []), s).
Proof.
  revert par fuel. induction f as [|e k _ sb IH]; intros par [|fuel]; [simpl; lia|done|simpl; lia|].
  rewrite locs_cons. intros (He & _ & _ & Hs) Hlen. cbn [length] in Hlen. rewrite length_app in Hlen.
  cbn [get_child_loop top f_find]. step_by (get_node_Ok _ _ _ He). simpl id.
  destruct (_ =? _); [done|]. apply (IH par); [done|lia].
Qed.

Lemma get_child_spec s e par b k oid :
  nodes s !! e_loc e = Some (node_of e par (top k) b) → obj_rep s (Some (e_loc e)) k → separate k →
  cfg_obj_get_child (Some (e_loc e)) oid s
  = Ok (option_map (λ ek, e_loc ek.1) (f_find k (u32 oid) []), s).
Proof.
  intros He Hk Hsep. unfold cfg_obj_get_child. step_by (get_node_Ok _ _ _ He).
  unfold with_fuel. simpl child. eapply get_child_loop_spec; [done|]. by eapply locs_fuel.
Qed.

(** What is found is represented too, whatever replaces it leaves the rest. *)
Lemma focus s par f o ids e k :
  obj_rep s par f → separate f → f_find f o ids = Some (e, k) →
  ∃ par' b rest,
    nodes s !! e_loc e = Some (node_of e par' (top k) b) ∧ xmls s !! e_xml e = Some (e_attrs e) ∧
    obj_rep s (Some (e_loc e)) k ∧ separate k ∧
    preorder f ≡ₚ e :: preorder k ++ rest ∧
    ∀ e' k', e_loc e' = e_loc e →
      preorder (f_update f o ids e' k') ≡ₚ e' :: preorder k' ++ rest ∧
      top (f_update f o ids e' k') = top f ∧
      ∀ s' L X, same_but L X s s' → (∀ l, l ∈ L → l ∉ map e_loc rest) → (∀ x, x ∈ X → x ∉ map e_xml rest) →
        nodes s' !! e_loc e = Some (node_of e' par' (top k') b) →
        xmls s' !! e_xml e' = Some (e_attrs e') → obj_rep s' (Some (e_loc e)) k' →
        obj_rep s' par (f_update f o ids e' k').
Proof.
  revert par o ids. induction f as [|a ka IHk sb IHs]; intros par o ids; [done|].
  intros (Ha & Hxa & Hka & Hsb) Hsep. pose proof (separate_cons _ _ _ Hsep) as (Hsk & Hss & Hnl & Hnx & Hd & Hdx).
  cbn [f_find f_update]. destruct (e_id a =? o).
  - destruct ids as [|o' ids'].
    + intros [= <- <-]. exists par, (top sb), (preorder sb). do 5 (split; [done|]).
      intros e' k' He'. split; [done|]. split; [simpl; congruence|].
      intros s' L X Hsame HL HX Hn Hx Hk'. cbn [obj_rep]. rewrite He'. do 3 (split; [done|]).
      eapply obj_rep_frame; [done|..|done]; unfold locs, xlocs; set_solver.
    + intros Hf. destruct (IHk (Some (e_loc a)) o' ids' Hka Hsk Hf)
        as (par' & b & rest & He & Hxe & Hke & Hsepk & Hperm & Hupd).
      exists par', b, (a :: rest ++ preorder sb). do 4 (split; [done|]). split.
      { simpl. rewrite Hperm. solve_Permutation. }
      intros e' k' He'. destruct (Hupd e' k' He') as (Hperm' & Htop & Hrep).
      split; [simpl; rewrite Hperm'; solve_Permutation|]. split; [done|].
      intros s' L X Hsame HL HX Hn Hx Hk'. cbn [obj_rep]. rewrite Htop.
      rewrite (sb_nodes _ _ _ _ Hsame), (sb_xmls _ _ _ _ Hsame) by set_solver.
      do 2 (split; [done|]). split.
      * apply (Hrep s' L X); set_solver.
      * eapply obj_rep_frame; [done|..|done]; unfold locs, xlocs; rewrite ?map_app in *; set_solver.
  - intros Hf. destruct (IHs par o ids Hsb Hss Hf)
      as (par' & b & rest & He & Hxe & Hke & Hsepk & Hperm & Hupd).
    exists par', b, (a :: preorder ka ++ rest). do 4 (split; [done|]). split.
    { simpl. rewrite Hperm. solve_Permutation. }
    intros e' k' He'. destruct (Hupd e' k' He') as (Hperm' & Htop & Hrep).
    split; [simpl; rewrite Hperm'; solve_Permutation|]. split; [done|].
    intros s' L X Hsame HL HX Hn Hx Hk'. cbn [obj_rep]. rewrite Htop.
    rewrite (sb_nodes _ _ _ _ Hsame), (sb_xmls _ _ _ _ Hsame) by set_solver.
    do 2 (split; [done|]). split.
    * eapply obj_rep_frame; [done|..|done]; unfold locs, xlocs; rewrite ?map_app in *; set_solver.
    * apply (Hrep s' L X); set_solver.
Qed.

(** *** From the root *)

(** The entry at the end of [ids], which start below the root. *)
Definition lookup (F : eforest) (ids : list Z) : option (entry * eforest) :=
  match F with FCons r _ _ => f_find F (e_id r) ids | FNil => None end.
Definition update (F : eforest) (ids : list Z) (e' : entry) (k' : eforest) : eforest :=
  match F with FCons r _ _ => f_update F (e_id r) ids e' k' | FNil => FNil end.

Definition uint (z : Z) : Prop := 0 ≤ z < 2 ^ 32.

(** The store stands for the tree [F]. *)
Record rep_tree (s : store) (F : eforest) : Prop := {
  rt_root : cfg_obj_root s = top F;
  rt_rep : obj_rep s None F;
  rt_sep : separate F;
  rt_single : match F with FCons _ _ sb => sb = FNil | FNil => True end;
  rt_ids : Forall (λ e, uint (e_id e)) (preorder F)
}.

Lemma f_find_step f o o' ids :
  f_find f o (o' :: ids) = match f_find f o [] with Some (_, k) => f_find k o' ids | None => None end.
Proof. induction f as [|e k _ sb IH]; simpl; [done|]. by destruct (_ =? _). Qed.

Section find.
Context (E : cfg_env) `{Shm} `{Xml}.

Lemma descend_spec s e par b k ids :
  nodes s !! e_loc e = Some (node_of e par (top k) b) → obj_rep s (Some (e_loc e)) k → separate k →
  Forall uint ids →
  descend (Some (e_loc e)) ids s
  = Ok (match ids with
        | [] => Some (e_loc e)
        | o :: ids' => option_map (λ ek, e_loc ek.1) (f_find k o ids')
        end, s).
Proof.
  revert e par b k. induction ids as [|o ids IH]; intros e par b k He Hk Hsep Hids; [done|].
  apply Forall_cons in Hids as [Ho Hids]. cbn [descend].
  step_by (get_child_spec s e par b k o He Hk Hsep). rewrite (u32_small o) by done.
  destruct (f_find k o []) as [[e2 k2]|] eqn:Hf; simpl.
  - destruct (focus s _ k o [] e2 k2 Hk Hsep Hf) as (par2 & b2 & _ & He2 & _ & Hk2 & Hsep2 & _).
    rewrite (IH e2 par2 b2 k2) by done. destruct ids as [|o' ids]; [by rewrite Hf|].
    by rewrite f_find_step, Hf.
  - destruct ids; [by rewrite Hf|]. by rewrite f_find_step, Hf.
Qed.

(** The identifiers of a path, as the kernel of the store computes them. *)
Definition path_ids (objpath : option cstr) : option (list Z) :=
  match cfg_path_to_oid_array E objpath true with
  | Ok (Some (_ :: ids)) => Some ids
  | _ => None
  end.

(** [cfg_obj_get_obj] finds the entry its path names. *)
Lemma get_obj_spec s F path o ids :
  rep_tree s F → cfg_path_to_oid_array E path true = Ok (Some (o :: ids)) → Forall uint ids →
  cfg_obj_get_obj E path s = Ok (option_map (λ ek, e_loc ek.1) (lookup F ids), s).
Proof.
  intros [Hroot Hrep Hsep _ _] Hpath Hids. unfold cfg_obj_get_obj, mbind, M_bind, gets, lift.
  rewrite Hroot. destruct F as [|r K sb]; [done|]. simpl top. cbn iota. rewrite Hpath. unfold lookup.
  destruct Hrep as (Hr & _ & HK & _). apply separate_cons in Hsep as (HsK & _).
  cbn [f_find]. rewrite Z.eqb_refl.
  destruct ids as [|o' ids]; [done|]. by apply (descend_spec s r None (top sb) K (o' :: ids)).
Qed.

Lemma get_obj_none s path :
  cfg_path_to_oid_array E path true = Ok None → cfg_obj_get_obj E path s = Ok (None, s).
Proof.
  intros Hp. unfold cfg_obj_get_obj, mbind, M_bind, gets, lift. rewrite Hp. by destruct (cfg_obj_root s).
Qed.
End find.

(** *** Locks *)

Lemma lock_unlock s : with_lock (-1) (with_lock 1 s) = s.
Proof. unfold with_lock. destruct s. simpl. f_equal. lia. Qed.

Lemma lock_Ok s : cfg_obj_lock s = Ok (tt, with_lock 1 s).
Proof. done. Qed.

Lemma unlock_Ok s : cfg_obj_unlock (with_lock 1 s) = Ok (tt, s).
Proof. rewrite <- (lock_unlock s) at 2. done. Qed.

Lemma mret_Ok {A} (a : A) (s : store) : (mret a : SM A) s = Ok (a, s).
Proof. done. Qed.

Lemma with_lock_same d s : nodes (with_lock d s) = nodes s ∧ xmls (with_lock d s) = xmls s.
Proof. done. Qed.

Lemma obj_rep_lock d s par f : obj_rep (with_lock d s) par f ↔ obj_rep s par f.
Proof. revert par. induction f as [|e k IHk sb IHs]; intros par; [done|]. simpl. by rewrite IHk, IHs. Qed.

Lemma rep_tree_lock d s F : rep_tree s F → rep_tree (with_lock d s) F.
Proof. intros [? ? ? ? ?]. split; try done. by apply obj_rep_lock. Qed.

(** *** Focus, from the root *)

Lemma focus_tree s F ids e k :
  rep_tree s F → lookup F ids = Some (e, k) →
  ∃ par b rest,
    nodes s !! e_loc e = Some (node_of e par (top k) b) ∧ xmls s !! e_xml e = Some (e_attrs e) ∧
    obj_rep s (Some (e_loc e)) k ∧ separate k ∧ preorder F ≡ₚ e :: preorder k ++ rest ∧
    ∀ e' k' s' L X,
      e_loc e' = e_loc e → same_but L X s s' →
      (∀ l, l ∈ L → l ∉ map e_loc rest) → (∀ x, x ∈ X → x ∉ map e_xml rest) →
      nodes s' !! e_loc e = Some (node_of e' par (top k') b) →
      xmls s' !! e_xml e' = Some (e_attrs e') → obj_rep s' (Some (e_loc e)) k' →
      NoDup (map e_loc (e' :: preorder k' ++ rest)) → NoDup (map e_xml (e' :: preorder k' ++ rest)) →
      Forall (λ e, uint (e_id e)) (e' :: preorder k') →
      rep_tree s' (update F ids e' k') ∧ preorder (update F ids e' k') ≡ₚ e' :: preorder k' ++ rest.
Proof.
  intros [Hroot Hrep Hsep Hone Hids] Hf. destruct F as [|r K sb]; [done|]. unfold lookup, update in *.
  destruct (focus s None _ _ _ e k Hrep Hsep Hf) as (par & b & rest & He & Hx & Hk & Hsepk & Hperm & Hupd).
  exists par, b, rest. do 5 (split; [done|]).
  intros e' k' s' L X He' Hsame HL HX Hn Hx' Hk' Hnd Hndx Hi.
  destruct (Hupd e' k' He') as (Hperm' & Htop & Hrep'). split; [|done]. split.
  - rewrite (sb_root _ _ _ _ Hsame), Hroot. by rewrite Htop.
  - by apply (Hrep' s' L X).
  - unfold separate, locs, xlocs. by rewrite Hperm'.
  - subst sb. cbn [f_update] in *. rewrite Z.eqb_refl. by destruct ids.
  - rewrite Hperm' in *. rewrite Hperm in Hids.
    apply Forall_cons in Hids as [_ [_ Hr]%Forall_app]. rewrite app_comm_cons, Forall_app. done.
Qed.
End CfgHeap.
