(* ===== verification/CfgStore.v ===== *)
(** * What the operations do to the configuration tree

    Each operation of [CfgObj], on a store that stands for a tree, leaves a
    store that stands for the tree the operation means. *)

From S2P Require Import Prelude CString CfgType CfgPath CfgObj CfgHeap.
Open Scope Z_scope.

Module CfgStore.
Import CfgType CfgPath CfgObj CfgHeap.

(** ** Attributes *)

(** The entry with other attributes. *)
Definition with_attrs (e : entry) (a : xattrs) : entry :=
  {| e_loc := e_loc e; e_xml := e_xml e; e_id := e_id e; e_attrs := a |}.

Section attr.
Context (E : cfg_env) `{Shm} `{Xml}.

Lemma get_object_attr_run s F path attr size o ids :
  rep_tree s F → cfg_path_to_oid_array E (Some path) true = Ok (Some (o :: ids)) →
  Forall uint ids → 0 < size →
  cfg_obj_get_object_attr E (Some path) (Some attr) true size s
  = Ok (match lookup F ids with
        | None => (-1, None)
        | Some (e, _) =>
            match cfg_xml_get_attr (e_attrs e) attr with
            | None => (-2, None)
            | Some v => (Z.min (size - 1) (strlen v), Some (take (Z.to_nat (size - 1)) v))
            end
        end, s).
Proof.
  intros HF Hp Hids Hsize. unfold cfg_obj_get_object_attr.
  rewrite (proj2 (Z.leb_gt _ _)) by lia. cbn [negb orb].
  step_by (lock_Ok s).
  step_by (get_obj_spec E _ F _ o ids (rep_tree_lock 1 s F HF) Hp Hids).
  destruct (lookup F ids) as [[e k]|] eqn:Hl; simpl option_map; cbn iota.
  - destruct (focus_tree s F ids e k HF Hl) as (par & b & _ & He & Hx & _).
    assert (Hrun : cfg_obj_get_obj_attr (e_loc e) attr size (with_lock 1 s)
      = Ok (match cfg_xml_get_attr (e_attrs e) attr with
            | None => (-2, None)
            | Some v => (Z.min (size - 1) (strlen v), Some (take (Z.to_nat (size - 1)) v))
            end, with_lock 1 s)).
    { unfold cfg_obj_get_obj_attr. step_by (get_node_Ok (e_loc e) (with_lock 1 s) _ He).
      simpl private. step_by (get_xml_Ok (e_xml e) (with_lock 1 s) _ Hx).
      destruct (cfg_xml_get_attr _ _) as [v|]; [|done].
      unfold mret, M_ret, strlen. rewrite length_take. repeat f_equal. lia. }
    step_by Hrun. by step_by (unlock_Ok s).
  - step_by (mret_Ok (-1, @None cstr) (with_lock 1 s)).
    by step_by (unlock_Ok s).
Qed.

(** The store after writing the XML node of [e]. *)
Lemma set_xml_tree s F ids e k a :
  rep_tree s F → lookup F ids = Some (e, k) →
  rep_tree (with_xmls <[e_xml e := a]> s) (update F ids (with_attrs e a) k) ∧
  same_but [] [e_xml e] s (with_xmls <[e_xml e := a]> s).
Proof.
  intros HF Hl. destruct (focus_tree s F ids e k HF Hl) as (par & b & rest & He & Hx & Hk & Hsk & Hperm & Hupd).
  assert (Hsame : same_but [] [e_xml e] s (with_xmls <[e_xml e := a]> s)).
  { split; [done| |done|done]. intros x Hx'. simpl. by rewrite lookup_insert_ne by set_solver. }
  split; [|done].
  destruct HF as [_ _ [Hnd Hndx] _ Hids]. unfold locs, xlocs in *.
  rewrite Hperm in Hnd, Hndx, Hids. simpl in Hnd, Hndx. rewrite map_app in Hndx.
  apply (Hupd (with_attrs e a) k _ [] [e_xml e]); try done.
  - set_solver.
  - apply NoDup_cons in Hndx as [Hn _]. set_solver.
  - simpl. by rewrite lookup_insert_eq.
  - eapply obj_rep_frame; [exact Hsame|set_solver| |exact Hk].
    apply NoDup_cons in Hndx as [Hn _]. unfold xlocs. set_solver.
  - simpl. by rewrite map_app.
  - rewrite app_comm_cons in Hids. apply Forall_app in Hids as [Hids _].
    apply Forall_cons in Hids as [? ?]. by constructor.
Qed.

Lemma xml_set_Ok x s a n v :
  xmls s !! x = Some a → xml_set_attr (Some x) n v s = Ok (tt, with_xmls <[x := cfg_xml_set_attr s a n v]> s).
Proof.
  intros Hx. unfold xml_set_attr. step_by (get_xml_Ok x s _ Hx). rewrite (M_bind_Ok _ _ s s s) by done. exact (set_xml_Ok x s a _ Hx).
Qed.

(** What becomes of some attributes when others are set one after the other. *)
Fixpoint copied (d l d' : xattrs) : Prop :=
  match l with [] => d' = d | nv :: l' => ∃ s, copied (cfg_xml_set_attr s d nv.1 nv.2) l' d' end.

Lemma set_object_attr_run s F path attr val o ids :
  rep_tree s F → cfg_path_to_oid_array E (Some path) true = Ok (Some (o :: ids)) →
  Forall uint ids → attr ≠ [] →
  cfg_obj_set_object_attr E (Some path) (Some attr) (Some val) s
  = Ok (match lookup F ids with
        | None => (-1, s)
        | Some (e, _) =>
            (0, with_xmls <[e_xml e := cfg_xml_set_attr (with_lock 1 s) (e_attrs e) attr val]> s)
        end).
Proof.
  intros HF Hp Hids Hne. unfold cfg_obj_set_object_attr. rewrite bool_decide_eq_false_2 by done.
  step_by (lock_Ok s).
  step_by (get_obj_spec E _ F _ o ids (rep_tree_lock 1 s F HF) Hp Hids).
  destruct (lookup F ids) as [[e k]|] eqn:Hl; simpl option_map; cbn iota.
  - destruct (focus_tree s F ids e k HF Hl) as (par & b & _ & He & Hx & _).
    assert (Hrun : cfg_obj_set_obj_attr (e_loc e) attr val (with_lock 1 s)
      = Ok (0, with_xmls <[e_xml e := cfg_xml_set_attr (with_lock 1 s) (e_attrs e) attr val]> (with_lock 1 s))).
    { unfold cfg_obj_set_obj_attr. step_by (get_node_Ok (e_loc e) (with_lock 1 s) _ He).
      simpl private. by step_by (xml_set_Ok (e_xml e) (with_lock 1 s) _ attr val Hx). }
    step_by Hrun. unfold cfg_obj_unlock, modify, mbind, M_bind, mret, M_ret, with_lock, with_xmls.
    destruct s. simpl. do 3 f_equal. lia.
  - step_by (mret_Ok (-1) (with_lock 1 s)).
    by step_by (unlock_Ok s).
Qed.
End attr.

(** ** Sibling lists *)

Fixpoint fapp (f g : eforest) : eforest :=
  match f with FNil => g | FCons e k sb => FCons e k (fapp sb g) end.

(** The last of a list of siblings. *)
Fixpoint flast (f : eforest) : option oloc :=
  match f with
  | FNil => None
  | FCons e _ FNil => Some (e_loc e)
  | FCons _ _ sb => flast sb
  end.

(** Takes the first sibling with identifier [o] out. *)
Fixpoint f_remove (f : eforest) (o : Z) : eforest :=
  match f with
  | FNil => FNil
  | FCons e k sb => if e_id e =? o then sb else FCons e k (f_remove sb o)
  end.

Lemma preorder_fapp f g : preorder (fapp f g) = preorder f ++ preorder g.
Proof. induction f as [|e k _ sb IH]; simpl; [done|]. by rewrite IH, app_assoc. Qed.

Lemma locs_fapp f g : locs (fapp f g) = locs f ++ locs g.
Proof. unfold locs. by rewrite preorder_fapp, map_app. Qed.
Lemma xlocs_fapp f g : xlocs (fapp f g) = xlocs f ++ xlocs g.
Proof. unfold xlocs. by rewrite preorder_fapp, map_app. Qed.

Lemma separate_fapp f g :
  separate (fapp f g) → separate f ∧ separate g ∧ locs f ## locs g ∧ xlocs f ## xlocs g.
Proof. unfold separate. rewrite locs_fapp, xlocs_fapp, !NoDup_app. set_solver. Qed.

Lemma obj_rep_fapp s par f g : obj_rep s par (fapp f g) → obj_rep s par g.
Proof. induction f as [|e k _ sb IH]; simpl; [done|]. tauto. Qed.

Lemma f_find_split f o e k :
  f_find f o [] = Some (e, k) →
  ∃ pre sb, f = fapp pre (FCons e k sb) ∧ f_remove f o = fapp pre sb ∧ e_id e = o.
Proof.
  induction f as [|a ka _ sb IH]; simpl; [done|]. destruct (e_id a =? o) eqn:Ea.
  - intros [= <- <-]. exists FNil, sb. zify_bool. done.
  - intros Hf. destruct (IH Hf) as (pre & sb' & -> & -> & He). by exists (FCons a ka pre), sb'.
Qed.

Lemma flast_locs f l : flast f = Some l → l ∈ locs f.
Proof.
  induction f as [|e k _ sb IH]; [done|]. rewrite locs_cons. simpl. destruct sb as [|e' k' sb'].
  - intros [= <-]. set_solver.
  - intros Hl. specialize (IH Hl). set_solver.
Qed.

Lemma top_fapp_ne pre g g' : pre ≠ FNil → top (fapp pre g) = top (fapp pre g').
Proof. by destruct pre. Qed.

Lemma flast_None f : flast f = None → f = FNil.
Proof. induction f as [|e k _ sb IH]; [done|]. simpl. destruct sb; [done|]. intros H. by specialize (IH H). Qed.

(** Redirecting the last of [pre] from [g] to [g']. *)
Lemma relink s par pre g g' l :
  obj_rep s par (fapp pre g) → separate (fapp pre g) → flast pre = Some l →
  l ∉ locs g' → obj_rep s par g' →
  ∃ o, nodes s !! l = Some o ∧ brother o = top g ∧
       obj_rep (with_nodes <[l := set_brother (top g') o]> s) par (fapp pre g').
Proof.
  intros Hrep Hsep Hl Hg' Hrep'. induction pre as [|e k _ sb IH]; [done|].
  destruct Hrep as (He & Hx & Hk & Hsb). simpl fapp in Hsep.
  pose proof (separate_cons _ _ _ Hsep) as (_ & Hss & Hnl & _ & Hd & _).
  assert (Hframe : ∀ o h, l ∉ locs h → obj_rep s par h →
            obj_rep (with_nodes <[l := o]> s) par h).
  { intros o h Hh Hr. eapply (obj_rep_frame s _ _ _ [l] []); [|set_solver|set_solver|done].
    split; try done. intros l' Hl'. simpl. by rewrite lookup_insert_ne by set_solver. }
  destruct sb as [|e2 k2 sb2].
  - simpl in Hl. injection Hl as <-. simpl fapp in *. eexists. split; [exact He|]. split; [done|].
    cbn [obj_rep with_nodes nodes xmls]. rewrite lookup_insert_eq. split; [done|]. split; [done|].
    split; [|by apply Hframe].
    eapply (obj_rep_frame s _ _ _ [e_loc e] []); [|set_solver|set_solver|done].
    split; try done. intros l' Hl'. simpl. by rewrite lookup_insert_ne by set_solver.
  - destruct (IH Hsb Hss Hl) as (o & Ho & Hb & Hnew). exists o. split; [done|]. split; [done|].
    assert (Hne : l ≠ e_loc e).
    { intros ->. apply Hnl. apply elem_of_app. right. rewrite locs_fapp.
      apply elem_of_app. left. apply flast_locs. exact Hl. }
    change (fapp (FCons e k (FCons e2 k2 sb2)) g') with (FCons e k (fapp (FCons e2 k2 sb2) g')).
    cbn [obj_rep]. simpl nodes at 1. rewrite lookup_insert_ne by done.
    split; [exact He|]. split; [done|]. split; [|exact Hnew].
    eapply (obj_rep_frame s _ _ _ [l] []); [| |set_solver|done].
    + split; try done. intros l' Hl'. simpl. by rewrite lookup_insert_ne by set_solver.
    + pose proof (flast_locs (FCons e2 k2 sb2) l Hl). rewrite locs_fapp in Hd. set_solver.
Qed.

Lemma find_prev_spec s par pre e k sb fuel prev :
  obj_rep s par (fapp pre (FCons e k sb)) → separate (fapp pre (FCons e k sb)) →
  (length (locs pre) < fuel)%nat →
  find_prev fuel (top (fapp pre (FCons e k sb))) prev (e_loc e) s
  = Ok (Some (match flast pre with Some l => Some l | None => prev end), s).
Proof.
  revert fuel prev. induction pre as [|a ka _ sa IH]; intros [|fuel] prev Hrep Hsep Hlen;
    try (simpl in Hlen; lia).
  - simpl. by rewrite decide_True.
  - destruct Hrep as (Ha & _ & _ & Hsb). simpl fapp in Hsep.
    pose proof (separate_cons _ _ _ Hsep) as (_ & Hss & Hnl & _).
    rewrite locs_cons in Hlen. cbn [length] in Hlen. rewrite length_app in Hlen.
    simpl fapp. cbn [find_prev top]. rewrite decide_False.
    2: { intros Heq. apply Hnl. rewrite Heq, locs_fapp, locs_cons. set_solver. }
    step_by (get_node_Ok _ _ _ Ha). simpl brother. rewrite IH by (done || lia).
    destruct sa as [|a2 ka2 sa2]; [done|].
    change (flast (FCons a ka (FCons a2 ka2 sa2))) with (flast (FCons a2 ka2 sa2)).
    destruct (flast _) eqn:Hf; [done|]. by apply flast_None in Hf.
Qed.

(** ** Removal *)

(** The nodes of [f] are freed and nothing else has changed. *)
Record freed (f : eforest) (s s' : store) : Prop := {
  fr_same : same_but (locs f) (xlocs f) s s';
  fr_nodes l : l ∈ locs f → nodes s' !! l = None;
  fr_xmls x : x ∈ xlocs f → xmls s' !! x = None
}.

Lemma with_nodes_same l o s : same_but [l] [] s (with_nodes <[l := o]> s).
Proof. split; try done. intros l' Hl'. simpl. by rewrite lookup_insert_ne by set_solver. Qed.

Lemma free_object_spec s e par c b :
  nodes s !! e_loc e = Some (node_of e par c b) →
  is_Some (xmls s !! e_xml e) →
  cfg_obj_free_object (e_loc e) s
  = Ok (0, with_nodes (delete (e_loc e)) (with_xmls (delete (e_xml e)) s)).
Proof.
  intros Hc [a Ha].
  unfold cfg_obj_free_object. step_by (get_node_Ok _ _ _ Hc). simpl private.
  assert (Hx : cfg_xml_release_node (e_xml e) s = Ok (tt, with_xmls (delete (e_xml e)) s)).
  { unfold cfg_xml_release_node. by rewrite Ha. }
  step_by Hx.
  assert (Hn : free_node (e_loc e) (with_xmls (delete (e_xml e)) s)
               = Ok (tt, with_nodes (delete (e_loc e)) (with_xmls (delete (e_xml e)) s))).
  { unfold free_node. simpl. by rewrite Hc. }
  by step_by Hn.
Qed.

Lemma release_spec s par f fuel :
  obj_rep s par f → separate f → (length (locs f) < fuel)%nat →
  ∃ s', cfg_obj_release_object fuel (top f) s = Ok (0, s') ∧ freed f s s'.
Proof.
  revert s par fuel. induction f as [|e k IHk sb IHs]; intros s par [|fuel] Hrep Hsep Hlen;
    try (simpl in Hlen; lia).
  { exists s. split; [done|]. split; [apply same_but_refl|set_solver|set_solver]. }
  destruct Hrep as (He & Hx & Hk & Hsb).
  pose proof (separate_cons _ _ _ Hsep) as (Hsk & Hss & Hnl & Hnx & Hd & Hdx).
  rewrite locs_cons in Hlen. cbn [length] in Hlen. rewrite length_app in Hlen.
  cbn [cfg_obj_release_object top]. step_by (get_node_Ok _ _ _ He). simpl child.
  destruct (IHk s _ fuel Hk Hsk ltac:(lia)) as (s1 & Hr1 & [Hsame1 Hn1 Hx1]). step_by Hr1.
  assert (He1 : nodes s1 !! e_loc e = Some (node_of e par (top k) (top sb))).
  { rewrite (sb_nodes _ _ _ _ Hsame1); [done|]. clear -Hnl. set_solver. }
  step_by (get_node_Ok _ _ _ He1). simpl brother.
  assert (Hsb1 : obj_rep s1 par sb).
  { eapply obj_rep_frame; [exact Hsame1|done|done|done]. }
  destruct (IHs s1 par fuel Hsb1 Hss ltac:(lia)) as (s2 & Hr2 & [Hsame2 Hn2 Hx2]). step_by Hr2.
  assert (He2 : nodes s2 !! e_loc e = Some (node_of e par (top k) (top sb))).
  { rewrite (sb_nodes _ _ _ _ Hsame2); [done|]. clear -Hnl. set_solver. }
  assert (Hxe2 : is_Some (xmls s2 !! e_xml e)).
  { rewrite (sb_xmls _ _ _ _ Hsame2), (sb_xmls _ _ _ _ Hsame1), Hx by (clear -Hnx; set_solver). done. }
  step_by (free_object_spec s2 e _ _ _ He2 Hxe2).
  eexists. split; [done|]. split; rewrite ?locs_cons, ?xlocs_cons.
  - pose proof (same_but_trans _ _ _ _ _ _ _ Hsame1 Hsame2) as [Hn Hxs Hr Hl]. split; try done.
    + intros l Hl'. simpl. rewrite lookup_delete_ne by (clear -Hl'; set_solver). apply Hn.
      clear -Hl'. set_solver.
    + intros x Hx'. simpl. rewrite lookup_delete_ne by (clear -Hx'; set_solver). apply Hxs.
      clear -Hx'. set_solver.
  - intros l [->|[Hl|Hl]%elem_of_app]%elem_of_cons; simpl; [by rewrite lookup_delete_eq| |].
    + rewrite lookup_delete_ne by (clear -Hl Hnl; set_solver).
      rewrite (sb_nodes _ _ _ _ Hsame2); [by apply Hn1|]. clear -Hd Hl. set_solver.
    + rewrite lookup_delete_ne by (clear -Hl Hnl; set_solver). by apply Hn2.
  - intros x [->|[Hl|Hl]%elem_of_app]%elem_of_cons; simpl; [by rewrite lookup_delete_eq| |].
    + rewrite lookup_delete_ne by (clear -Hl Hnx; set_solver).
      rewrite (sb_xmls _ _ _ _ Hsame2); [by apply Hx1|]. clear -Hdx Hl. set_solver.
    + rewrite lookup_delete_ne by (clear -Hl Hnx; set_solver). by apply Hx2.
Qed.

(** Taking [e] out of the children of [ep]. *)
Section unlink.
Context (s : store) (ep e : entry) (par b : option oloc) (pre k sb : eforest).
Let kids := fapp pre (FCons e k sb).
Context (Hp : nodes s !! e_loc ep = Some (node_of ep par (top kids) b))
        (Hkids : obj_rep s (Some (e_loc ep)) kids) (Hsep : separate (FCons ep kids FNil)).

Lemma unlink_apart :
  e_loc ep ∉ locs pre ++ e_loc e :: locs k ++ locs sb ∧
  locs pre ## e_loc e :: locs k ++ locs sb ∧ e_loc e ∉ locs k ++ locs sb ∧ locs k ## locs sb.
Proof using Hsep.
  apply separate_cons in Hsep as (Hsk & _ & Hnp & _). rewrite app_nil_r in Hnp.
  pose proof (separate_fapp _ _ Hsk) as (_ & Hse & Hd & _).
  pose proof (separate_cons _ _ _ Hse) as (_ & _ & Hne & _ & Hdk & _).
  unfold kids in *. by rewrite locs_fapp, locs_cons in Hnp; rewrite locs_cons in Hd.
Qed.

Lemma unlink_from_spec :
  ∃ s', unlink_from (e_loc ep) (e_loc e) (top sb) s = Ok (tt, s') ∧
    same_but (e_loc ep :: locs pre) [] s s' ∧
    nodes s' !! e_loc ep = Some (node_of ep par (top (fapp pre sb)) b) ∧
    obj_rep s' (Some (e_loc ep)) (fapp pre sb).
Proof using Hp Hkids Hsep.
  pose proof unlink_apart as (Hnp & Hd & _).
  pose proof (proj1 (separate_cons _ _ _ Hsep)) as Hsk.
  pose proof (obj_rep_fapp _ _ _ _ Hkids) as (_ & _ & _ & Hsb).
  unfold unlink_from. step_by (get_node_Ok _ _ _ Hp). simpl child.
  destruct (flast pre) as [l|] eqn:Hl.
  - pose proof (flast_locs _ _ Hl) as Hlin.
    assert (Hlsb : l ∉ locs sb) by (clear -Hd Hlin; set_solver).
    destruct (relink s _ pre _ sb l Hkids Hsk Hl Hlsb Hsb) as (o & Ho & Hb & Hnew).
    exists (with_nodes <[l := set_brother (top sb) o]> s). split; [|split; [|split; [|exact Hnew]]].
    + rewrite decide_False.
      2: { destruct pre; [done|]. simpl. intros [= Heq]. rewrite locs_cons in Hd. clear -Hd Heq.
           set_solver. }
      assert (Hprev : with_fuel (λ fuel, find_prev fuel (top kids) None (e_loc e)) s
                      = Ok (Some (Some l), s)).
      { unfold with_fuel, kids. rewrite (find_prev_spec s (Some (e_loc ep))) by
          (done || (pose proof (locs_fuel _ _ _ Hkids Hsk); unfold kids in *;
                    rewrite locs_fapp, length_app in *; lia)).
        by rewrite Hl. }
      step_by Hprev. cbn iota. step_by (eq_refl : lift (deref (Some l)) s = Ok (l, s)).
      by apply alter_node_Ok.
    + eapply same_but_weaken; [apply with_nodes_same|clear -Hlin; set_solver|done].
    + simpl. rewrite lookup_insert_ne by (clear -Hnp Hlin; set_solver). rewrite Hp.
      unfold kids. by rewrite (top_fapp_ne pre _ sb) by (by intros ->).
  - apply flast_None in Hl. unfold kids in *. subst pre. simpl fapp in *.
    rewrite decide_True by done.
    exists (with_nodes <[e_loc ep := set_child (top sb) (node_of ep par (top (FCons e k sb)) b)]> s).
    split; [by apply alter_node_Ok|split; [|split]].
    + eapply same_but_weaken; [apply with_nodes_same|clear; set_solver|done].
    + simpl. by rewrite lookup_insert_eq.
    + eapply (obj_rep_frame s _ _ _ [e_loc ep] []); [apply with_nodes_same| |clear; set_solver|done].
      clear -Hnp. set_solver.
Qed.

Lemma unlink_spec :
  ∃ s', cfg_obj_unlink_object (e_loc e) s = Ok (0, s') ∧
    same_but (e_loc ep :: e_loc e :: locs pre) [] s s' ∧
    nodes s' !! e_loc ep = Some (node_of ep par (top (fapp pre sb)) b) ∧
    obj_rep s' (Some (e_loc ep)) (fapp pre sb) ∧ obj_rep s' None (FCons e k FNil).
Proof using Hp Hkids Hsep.
  pose proof unlink_apart as (Hnp & Hd & Hne & Hdk).
  pose proof (obj_rep_fapp _ _ _ _ Hkids) as (He & Hx & Hk & Hsb).
  assert (Hpe : e_loc ep ≠ e_loc e) by (clear -Hnp; set_solver).
  unfold cfg_obj_unlink_object. step_by (get_node_Ok _ _ _ He). simpl parent. cbn iota.
  destruct unlink_from_spec as (s1 & Hrun & Hsame & Hp1 & Hrep1). simpl brother. step_by Hrun.
  assert (He1 : nodes s1 !! e_loc e = Some (node_of e (Some (e_loc ep)) (top k) (top sb))).
  { rewrite (sb_nodes _ _ _ _ Hsame); [done|]. clear -Hpe Hd. set_solver. }
  step_by (alter_node_Ok _ (set_brother None) _ _ He1).
  set (s2 := with_nodes _ s1).
  assert (He2 : nodes s2 !! e_loc e = Some (node_of e (Some (e_loc ep)) (top k) None)).
  { unfold s2. simpl. by rewrite lookup_insert_eq. }
  step_by (alter_node_Ok _ (set_parent None) _ _ He2). set (s3 := with_nodes _ s2).
  exists s3. split; [done|].
  assert (Hsame13 : same_but [e_loc e] [] s1 s3).
  { eapply same_but_weaken; [eapply (same_but_trans [e_loc e] [] [e_loc e] []); apply with_nodes_same|..];
      clear; set_solver. }
  pose proof (same_but_trans _ _ _ _ _ _ _ Hsame Hsame13) as Hsame3.
  split; [eapply same_but_weaken; [exact Hsame3|clear; set_solver..]|].
  split; [rewrite (sb_nodes _ _ _ _ Hsame13); [done|clear -Hpe; set_solver]|]. split.
  - eapply obj_rep_frame; [exact Hsame13| |clear; set_solver|done]. rewrite locs_fapp.
    clear -Hd Hne. set_solver.
  - cbn [obj_rep]. split; [unfold s3; simpl; by rewrite lookup_insert_eq|].
    split; [rewrite (sb_xmls _ _ _ _ Hsame3); [done|clear; set_solver]|]. split; [|exact I].
    eapply obj_rep_frame; [exact Hsame3| |clear; set_solver|done].
    clear -Hnp Hd Hne. set_solver.
Qed.

Lemma del_object_spec :
  ∃ s', cfg_obj_del_object (Some (e_loc e)) s = Ok (s32 (e_id e), s') ∧
    same_but (e_loc ep :: locs pre ++ locs (FCons e k FNil)) (xlocs (FCons e k FNil)) s s' ∧
    nodes s' !! e_loc ep = Some (node_of ep par (top (fapp pre sb)) b) ∧
    obj_rep s' (Some (e_loc ep)) (fapp pre sb) ∧
    (∀ l, l ∈ locs (FCons e k FNil) → nodes s' !! l = None) ∧
    (∀ x, x ∈ xlocs (FCons e k FNil) → xmls s' !! x = None).
Proof using Hp Hkids Hsep.
  pose proof unlink_apart as (Hnp & Hd & Hne & Hdk).
  pose proof (obj_rep_fapp _ _ _ _ Hkids) as (He & _).
  pose proof (proj1 (separate_cons _ _ _ Hsep)) as Hsk. unfold kids in Hsk.
  pose proof (separate_fapp _ _ Hsk) as (_ & Hse & _ & Hdx).
  pose proof (separate_cons _ _ _ Hse) as (Hk & _ & _ & Hnx & _ & Hdkx).
  destruct unlink_spec as (s1 & Hrun & Hsame & Hp1 & Hrep1 & He1).
  assert (Hs1 : separate (FCons e k FNil)).
  { split; rewrite ?locs_cons, ?xlocs_cons, app_nil_r; apply NoDup_cons; (split; [|apply Hk]).
    - clear -Hne. set_solver.
    - clear -Hnx. set_solver. }
  destruct (release_spec s1 None _ _ He1 Hs1 (locs_fuel _ _ _ He1 Hs1)) as (s2 & Hrel & [Hsame2 Hn2 Hx2]).
  unfold cfg_obj_del_object. step_by (get_node_Ok _ _ _ He). step_by Hrun.
  unfold with_fuel at 1. step_by Hrel. exists s2. split; [done|].
  pose proof (same_but_trans _ _ _ _ _ _ _ Hsame Hsame2) as Hsame12.
  split; [eapply same_but_weaken; [exact Hsame12|rewrite !locs_cons; clear; set_solver|clear; set_solver]|].
  rewrite locs_cons, xlocs_cons, !app_nil_r in *. split; [|split; [|done]].
  - rewrite (sb_nodes _ _ _ _ Hsame2); [done|]. clear -Hnp. set_solver.
  - eapply obj_rep_frame; [exact Hsame2|..|done]; rewrite ?locs_fapp, ?xlocs_fapp, ?xlocs_cons in *.
    + clear -Hd Hne Hdk. set_solver.
    + clear -Hdx Hnx Hdkx. set_solver.
Qed.
End unlink.

(** What lies outside a focus is apart from it. *)
Lemma focus_apart F e k rest :
  separate F → preorder F ≡ₚ e :: preorder k ++ rest →
  separate (FCons e k FNil) ∧
  (∀ l, l ∈ e_loc e :: locs k → l ∉ map e_loc rest) ∧ (∀ x, x ∈ e_xml e :: xlocs k → x ∉ map e_xml rest).
Proof.
  intros [Hn Hx] Hperm. unfold separate, locs, xlocs in *. rewrite Hperm in Hn, Hx. simpl in *.
  rewrite app_nil_r. rewrite !map_app, app_comm_cons in *.
  apply NoDup_app in Hn as (? & Hd & _). apply NoDup_app in Hx as (? & Hdx & _). done.
Qed.

(** The memory in use: addresses of nodes and of XML nodes. *)
Definition in_use (s : store) : gset oloc * gset oloc := (dom (nodes s), dom (xmls s)).

Lemma f_remove_preorder kids o e k :
  f_find kids o [] = Some (e, k) →
  preorder kids ≡ₚ (e :: preorder k) ++ preorder (f_remove kids o).
Proof.
  intros Hf. destruct (f_find_split _ _ _ _ Hf) as (pre & sb & -> & -> & _).
  rewrite !preorder_fapp. simpl. solve_Permutation.
Qed.

Lemma NoDup_drop_mid {A} (a : A) l1 l2 l3 : NoDup (a :: (l1 ++ l2) ++ l3) → NoDup (a :: l2 ++ l3).
Proof. rewrite !NoDup_cons, !NoDup_app. set_solver. Qed.

(** The store after the object [o] below the one at [ids] is gone: the tree
    without it, and exactly its memory released. *)
Lemma del_tree s F ids o ep kids e k :
  rep_tree s F → lookup F ids = Some (ep, kids) → f_find kids o [] = Some (e, k) →
  ∃ s', cfg_obj_del_object (Some (e_loc e)) s = Ok (s32 o, s') ∧
    rep_tree s' (update F ids ep (f_remove kids o)) ∧ lock_depth s' = lock_depth s ∧
    in_use s' = ((in_use s).1 ∖ list_to_set (locs (FCons e k FNil)),
                 (in_use s).2 ∖ list_to_set (xlocs (FCons e k FNil))).
Proof.
  intros HF Hl Hf. pose proof (f_remove_preorder _ _ _ _ Hf) as Hrem.
  destruct (f_find_split _ _ _ _ Hf) as (pre & sb & Hkids & Hrm & Heid).
  destruct (focus_tree s F ids ep kids HF Hl) as (par & b & rest & He & Hx & Hk & Hsk & Hperm & Hupd).
  destruct (focus_apart F ep kids rest (rt_sep _ _ HF) Hperm) as (Hsep & HdL & HdX).
  rewrite Hkids in He, Hk, Hsep.
  destruct (del_object_spec s ep e par b pre k sb He Hk Hsep) as (s' & Hrun & Hsame & He' & Hk' & Hn & Hxn).
  rewrite <- Hrm in He', Hk'. rewrite Heid in Hrun. exists s'. split; [done|].
  pose proof (rt_sep _ _ HF) as [Hnd Hndx]. pose proof (rt_ids _ _ HF) as Hids.
  unfold locs, xlocs in Hnd, Hndx. rewrite Hperm, Hrem in Hnd, Hndx, Hids.
  assert (Hin : ∀ l, l ∈ e_loc ep :: locs pre ++ locs (FCons e k FNil) → l ∈ e_loc ep :: locs kids).
  { rewrite Hkids, locs_fapp, !locs_cons. clear. set_solver. }
  assert (Hinx : ∀ x, x ∈ xlocs (FCons e k FNil) → x ∈ e_xml ep :: xlocs kids).
  { rewrite Hkids, xlocs_fapp, !xlocs_cons. clear. set_solver. }
  split; [|split; [apply Hsame|]].
  - apply (Hupd ep (f_remove kids o) s' _ _ eq_refl Hsame); try done; auto.
    + rewrite (sb_xmls _ _ _ _ Hsame); [done|].
      apply separate_cons in Hsep as (_ & _ & _ & Hnx & _).
      rewrite xlocs_fapp, !xlocs_cons in Hnx. rewrite xlocs_cons. clear -Hnx. set_solver.
    + cbn [map] in Hnd |- *. rewrite !map_app in *. by eapply NoDup_drop_mid.
    + cbn [map] in Hndx |- *. rewrite !map_app in *. by eapply NoDup_drop_mid.
    + apply Forall_cons in Hids as [Hi Hids]. apply Forall_app in Hids as [Hids _].
      apply Forall_app in Hids as [_ Hids]. by constructor.
  - unfold in_use. f_equal; apply set_eq; intros l; cbn [fst snd]; rewrite elem_of_difference, elem_of_list_to_set, !elem_of_dom.
    + destruct (decide (l ∈ locs (FCons e k FNil))) as [Hd|Hd].
      * rewrite (Hn l Hd). split; [by intros [? ?]|tauto].
      * destruct (decide (l ∈ e_loc ep :: locs pre)) as [Hp|Hp].
        -- apply elem_of_cons in Hp as [->|Hp]; [rewrite He, He'; naive_solver|].
           assert (l ∈ locs (f_remove kids o)) by (rewrite Hrm, locs_fapp; clear -Hp; set_solver).
           assert (l ∈ locs (fapp pre (FCons e k sb))) by (rewrite locs_fapp; clear -Hp; set_solver).
           pose proof (obj_rep_locs _ _ _ Hk' l). pose proof (obj_rep_locs _ _ _ Hk l). naive_solver.
        -- rewrite (sb_nodes _ _ _ _ Hsame) by (clear -Hd Hp; set_solver). tauto.
    + destruct (decide (l ∈ xlocs (FCons e k FNil))) as [Hd|Hd].
      * rewrite (Hxn l Hd). split; [by intros [? ?]|tauto].
      * rewrite (sb_xmls _ _ _ _ Hsame) by done. tauto.
Qed.

Lemma f_find_snoc f i ids o e k :
  f_find f i ids = Some (e, k) → f_find f i (ids ++ [o]) = f_find k o [].
Proof.
  revert i ids. induction f as [|a ka IHk sb IHs]; intros i ids; [done|]. simpl.
  destruct (e_id a =? i); [|apply IHs].
  destruct ids as [|i' ids]; simpl; [by intros [= <- <-]|apply IHk].
Qed.

Lemma lookup_snoc F ids o e k :
  lookup F ids = Some (e, k) → lookup F (ids ++ [o]) = f_find k o [].
Proof. unfold lookup. destruct F; [done|]. apply f_find_snoc. Qed.

Lemma delete_object_run E `{Shm} s F path o0 ids o ep kids e k :
  rep_tree s F → cfg_path_to_oid_array E (Some path) true = Ok (Some (o0 :: ids ++ [o])) →
  Forall uint (ids ++ [o]) → lookup F ids = Some (ep, kids) → f_find kids o [] = Some (e, k) →
  ∃ s', cfg_obj_delete_object E (Some path) s = Ok (s32 o, s') ∧
    rep_tree s' (update F ids ep (f_remove kids o)) ∧ lock_depth s' = lock_depth s ∧
    in_use s' = ((in_use s).1 ∖ list_to_set (locs (FCons e k FNil)),
                 (in_use s).2 ∖ list_to_set (xlocs (FCons e k FNil))).
Proof.
  intros HF Hp Hids Hl Hf. unfold cfg_obj_delete_object. step_by (lock_Ok s).
  step_by (get_obj_spec E _ F _ o0 (ids ++ [o]) (rep_tree_lock 1 s F HF) Hp Hids).
  rewrite (lookup_snoc _ _ _ _ _ Hl), Hf. simpl option_map. cbn iota.
  destruct (del_tree _ F ids o ep kids e k (rep_tree_lock 1 s F HF) Hl Hf) as (s' & Hrun & HF' & Hlock & Huse).
  step_by Hrun. exists (with_lock (-1) s'). split; [done|].
  split; [by apply rep_tree_lock|]. split; [simpl in *; lia|exact Huse].
Qed.

(** ** Creation *)

(** Nodes that were not there before. *)
Record fresh_in (f : eforest) (s : store) : Prop := {
  fi_nodes l : l ∈ locs f → nodes s !! l = None;
  fi_xmls x : x ∈ xlocs f → xmls s !! x = None
}.

Lemma fresh_disjoint s par f g :
  obj_rep s par f → fresh_in g s → locs f ## locs g ∧ xlocs f ## xlocs g.
Proof.
  intros Hrep [Hn Hx]. split; intros l Hf Hg.
  - destruct (obj_rep_locs _ _ _ Hrep l Hf). rewrite Hn in *; done.
  - destruct (obj_rep_xlocs _ _ _ Hrep l Hf). rewrite Hx in *; done.
Qed.

Lemma fresh_back L X s s' g :
  fresh_in g s' → same_but L X s s' → locs g ## L → xlocs g ## X → fresh_in g s.
Proof.
  intros [Hn Hx] [Hsn Hsx _ _] HL HX. split; intros l Hl.
  - rewrite <- Hsn by set_solver. auto.
  - rewrite <- Hsx by set_solver. auto.
Qed.

(** A node, what was made below it and what was made after that beside it. *)
Lemma made_node s s3 s4 s5 par e fk fs :
  nodes s !! e_loc e = None → xmls s !! e_xml e = None →
  same_but [e_loc e] [e_xml e] s s3 → is_Some (nodes s3 !! e_loc e) →
  xmls s3 !! e_xml e = Some (e_attrs e) →
  obj_rep s4 (Some (e_loc e)) fk → separate fk → fresh_in fk s3 →
  is_Some (nodes s4 !! e_loc e) → same_but (e_loc e :: locs fk) (xlocs fk) s3 s4 →
  obj_rep s5 par fs → separate fs → fresh_in fs s4 →
  nodes s5 !! e_loc e = Some (node_of e par (top fk) (top fs)) →
  same_but (e_loc e :: locs fs) (xlocs fs) s4 s5 →
  let f := FCons e fk fs in
  obj_rep s5 par f ∧ separate f ∧ fresh_in f s ∧ same_but (locs f) (xlocs f) s s5.
Proof.
  intros Hfl Hfx Hs3 Hl3 Hx3 Hrepk Hsepk Hfrk Hl4 Hs4 Hreps Hseps Hfrs Hl5 Hs5 f.
  destruct (fresh_disjoint _ _ _ _ Hrepk Hfrs) as [Hd Hdx].
  assert (Hlk : e_loc e ∉ locs fk).
  { intros Hin. rewrite (fi_nodes _ _ Hfrk _ Hin) in Hl3. by destruct Hl3. }
  assert (Hls : e_loc e ∉ locs fs).
  { intros Hin. rewrite (fi_nodes _ _ Hfrs _ Hin) in Hl4. by destruct Hl4. }
  assert (Hxk : e_xml e ∉ xlocs fk).
  { intros Hin. by rewrite (fi_xmls _ _ Hfrk _ Hin) in Hx3. }
  assert (Hx4 : xmls s4 !! e_xml e = Some (e_attrs e)) by (by rewrite (sb_xmls _ _ _ _ Hs4)).
  assert (Hxs : e_xml e ∉ xlocs fs).
  { intros Hin. by rewrite (fi_xmls _ _ Hfrs _ Hin) in Hx4. }
  assert (Hfrs3 : fresh_in fs s3).
  { eapply fresh_back; [exact Hfrs|exact Hs4|clear -Hd Hls; set_solver|clear -Hdx; set_solver]. }
  unfold f. rewrite locs_cons, xlocs_cons. split; [|split; [|split]].
  - cbn [obj_rep]. split; [done|]. split; [by rewrite (sb_xmls _ _ _ _ Hs5)|]. split; [|done].
    eapply obj_rep_frame; [exact Hs5|clear -Hd Hlk; set_solver|clear -Hdx; set_solver|done].
  - split; rewrite ?locs_cons, ?xlocs_cons; apply NoDup_cons; rewrite NoDup_app.
    + split; [clear -Hlk Hls; set_solver|]. split; [apply Hsepk|]. split; [|apply Hseps].
      clear -Hd. set_solver.
    + split; [clear -Hxk Hxs; set_solver|]. split; [apply Hsepk|]. split; [|apply Hseps].
      clear -Hdx. set_solver.
  - split; rewrite ?locs_cons, ?xlocs_cons.
    + intros l [->|[Hl|Hl]%elem_of_app]%elem_of_cons; [done|..];
        rewrite <- (sb_nodes _ _ _ _ Hs3); [by apply Hfrk| |by apply Hfrs3|]; clear -Hlk Hls Hl; set_solver.
    + intros x [->|[Hl|Hl]%elem_of_app]%elem_of_cons; [done|..];
        rewrite <- (sb_xmls _ _ _ _ Hs3); [by apply Hfrk| |by apply Hfrs3|]; clear -Hxk Hxs Hl; set_solver.
  - eapply same_but_weaken;
      [eapply same_but_trans; [exact Hs3|eapply same_but_trans; [exact Hs4|exact Hs5]]|..];
      clear; set_solver.
Qed.

Section create.
Context (E : cfg_env) `{ShmLaws}.
Let T := env_types E.
Let R := env_reg E.

(** A forest made for the types of [tf]: the identifiers of first
    instances, no attributes.  It may lack a node, and what would be below
    and beside it, only when the allocator fails. *)
Fixpoint made (tf : forest tloc) (f : eforest) : Prop :=
  match tf, f with
  | FNil, FNil => True
  | FCons n tk ts, FCons e k sb =>
      e_id e = u32 (Z.shiftl (type_id R n) CFG_TYPE_SHIFT + 1) ∧ e_attrs e = [] ∧
      made tk k ∧ made ts sb
  | FCons _ _ _, FNil => ∃ s, shm_calloc s = None
  | FNil, FCons _ _ _ => False
  end.

(** Memory is refused for the node of a new object or for its attributes. *)
Definition refuses (s : store) : bool :=
  match shm_calloc s with
  | None => true
  | Some n => if shm_calloc (with_nodes <[n := zeroed]> s) is Some _ then false else true
  end.

Lemma refuses_none s : refuses s = true → ∃ s0, shm_calloc s0 = None.
Proof. unfold refuses. destruct (shm_calloc s) as [n|] eqn:Hn; [|eauto]. destruct (shm_calloc (with_nodes _ s)) eqn:Hx; [done|eauto]. Qed.

Lemma alloc_node_spec s :
  (refuses s = false ∧ ∃ n x, cfg_obj_alloc_node s
            = Ok (Some n, with_nodes <[n := set_private (Some x) zeroed]> (with_xmls <[x := []]> s)) ∧
          nodes s !! n = None ∧ xmls s !! x = None)
  ∨ (cfg_obj_alloc_node s = Ok (None, s) ∧ refuses s = true).
Proof.
  unfold cfg_obj_alloc_node, refuses. destruct (shm_calloc s) as [n|] eqn:Hn.
  2: { right. split; [|done]. assert (Hc : calloc_node s = Ok (None, s)) by (unfold calloc_node; by rewrite Hn).
       by step_by Hc. }
  destruct (shm_fresh _ _ Hn) as [Hfn _]. set (s1 := with_nodes <[n := zeroed]> s).
  assert (Hc : calloc_node s = Ok (Some n, s1)) by (unfold calloc_node; by rewrite Hn).
  assert (Hn1 : nodes s1 !! n = Some zeroed) by (simpl; by rewrite lookup_insert_eq).
  step_by Hc. cbn iota. destruct (shm_calloc s1) as [x|] eqn:Hx.
  - left. split; [done|]. exists n, x. destruct (shm_fresh _ _ Hx) as [_ Hfx]. split; [|done].
    assert (Hc2 : calloc_xml s1 = Ok (Some x, with_xmls <[x := []]> s1)) by (unfold calloc_xml; by rewrite Hx).
    step_by Hc2. cbn iota.
    assert (Hn2 : nodes (with_xmls <[x := []]> s1) !! n = Some zeroed) by exact Hn1.
    step_by (alter_node_Ok _ (set_private (Some x)) _ _ Hn2).
    unfold mret, M_ret, s1, with_nodes, with_xmls. simpl. by rewrite insert_insert_eq.
  - right. split; [|done].
    assert (Hc2 : calloc_xml s1 = Ok (None, s1)) by (unfold calloc_xml; by rewrite Hx).
    step_by Hc2. cbn iota.
    assert (Hfr : free_node n s1 = Ok (tt, with_nodes (delete n) s1)) by (unfold free_node; by rewrite Hn1).
    step_by Hfr. unfold mret, M_ret, s1, with_nodes. destruct s. simpl in *.
    by rewrite delete_insert_id.
Qed.

Definition creates (fuel : nat) (tf : forest tloc) : Prop :=
  ∀ par s n, head (roots tf) = Some n →
  ∃ f s', cfg_obj_create_from_type E fuel par n s = Ok (top f, s') ∧
    made tf f ∧ obj_rep s' par f ∧ separate f ∧ fresh_in f s ∧ same_but (locs f) (xlocs f) s s'.

(** One of the two recursive calls, and the store of its result in a field
    of the node [l]. *)
Lemma create_link fuel tf par (upd : option oloc → cfg_node_obj → cfg_node_obj) l o s :
  (tf ≠ FNil → creates fuel tf) → nodes s !! l = Some o → upd None o = o →
  ∃ f s', (match head (roots tf) with
           | Some t => c ← cfg_obj_create_from_type E fuel par t; alter_node l (upd c)
           | None => mret tt
           end) s = Ok (tt, s') ∧
    made tf f ∧ obj_rep s' par f ∧ separate f ∧ fresh_in f s ∧
    nodes s' !! l = Some (upd (top f) o) ∧ same_but (l :: locs f) (xlocs f) s s'.
Proof.
  intros Hcr Hl Hupd. destruct tf as [|n tk ts].
  { exists FNil, s. split; [done|]. split; [done|]. split; [done|]. split; [split; constructor|].
    split; [split; set_solver|]. simpl. rewrite Hupd. split; [done|apply same_but_refl]. }
  destruct (Hcr ltac:(done) par s n eq_refl) as (f & s1 & Hrun & Hm & Hrep & Hsep & [Hfn Hfx] & Hsame).
  assert (Hlf : l ∉ locs f) by (intros Hin; specialize (Hfn _ Hin); congruence).
  assert (Hl1 : nodes s1 !! l = Some o) by (by rewrite (sb_nodes _ _ _ _ Hsame)).
  exists f, (with_nodes <[l := upd (top f) o]> s1). cbn [roots head]. step_by Hrun.
  split; [by apply alter_node_Ok|]. split; [done|]. split.
  { eapply (obj_rep_frame s1 _ _ _ [l] []); [apply with_nodes_same|set_solver|set_solver|done]. }
  split; [done|]. split; [done|]. split; [simpl; by rewrite lookup_insert_eq|].
  eapply same_but_weaken; [eapply same_but_trans; [exact Hsame|apply with_nodes_same]|..]; set_solver.
Qed.

Lemma create_from_type_spec fuel tpar tf :
  types_rep T tpar tf → siblings_rep T tpar tf → NoDup (preorder tf) →
  (length (preorder tf) ≤ fuel)%nat → creates fuel tf.
Proof.
  revert fuel tpar. induction tf as [|n tk IHk ts IHs]; intros fuel tpar Hrep Hsib Hnd Hlen par s m; [done|].
  pose proof (types_rep_child _ _ _ _ _ Hrep) as Hc.
  pose proof (types_rep_brother _ _ _ _ _ Hrep Hsib) as Hb.
  pose proof Hnd as [_ [Hndk [_ Hnds]]%NoDup_app]%NoDup_cons.
  pose proof (siblings_rep_child _ _ _ _ _ Hrep Hndk) as Hsk.
  pose proof (siblings_rep_next _ _ _ _ _ Hsib) as Hss.
  destruct Hrep as (_ & Hrk & Hrs). simpl in Hlen. rewrite length_app in Hlen.
  destruct fuel as [|fuel]; [lia|]. cbn [roots head cfg_obj_create_from_type]. intros [= <-].
  destruct (alloc_node_spec s) as [[_ (l & x & Hal & Hfl & Hfx)]|[Hal Hnone]].
  2: { exists FNil, s. step_by Hal. split; [done|]. split; [by eapply refuses_none|]. split; [done|].
       split; [split; constructor|]. split; [split; set_solver|apply same_but_refl]. }
  step_by Hal. cbn iota. set (s1 := with_nodes _ _).
  set (i := u32 (Z.shiftl (type_id (env_reg E) n) CFG_TYPE_SHIFT + 1)).
  assert (Hl1 : nodes s1 !! l = Some (set_private (Some x) zeroed)) by apply lookup_insert_eq.
  step_by (alter_node_Ok _ (set_id i) _ _ Hl1). set (s2 := with_nodes _ s1).
  assert (Hl2 : nodes s2 !! l = Some (set_id i (set_private (Some x) zeroed))) by apply lookup_insert_eq.
  step_by (alter_node_Ok _ (set_parent par) _ _ Hl2). set (s3 := with_nodes _ s2).
  set (o := {| id := i; parent := par; child := None; brother := None; private := Some x |}).
  assert (Hl3 : nodes s3 !! l = Some o) by apply lookup_insert_eq.
  assert (Hs3 : same_but [l] [x] s s3).
  { split; try done.
    - intros l' Hl'. unfold s3, s2, s1. simpl. by rewrite !lookup_insert_ne by set_solver.
    - intros x' Hx'. simpl. by rewrite lookup_insert_ne by set_solver. }
  step_by (lift_Ok _ _ s3 Hc).
  destruct (create_link fuel tk (Some l) set_child l o s3) as (fk & s4 & Hrunk & Hmk & Hrepk & Hsepk & Hfrk & Hl4 & Hs4);
    [intros _; apply (IHk fuel (Some n)); done || lia|exact Hl3|done|].
  step_by Hrunk. step_by (lift_Ok _ _ s4 Hb).
  destruct (create_link fuel ts par set_brother l (set_child (top fk) o) s4) as (fs & s5 & Hruns & Hms & Hreps & Hseps & Hfrs & Hl5 & Hs5);
    [intros _; apply (IHs fuel tpar); done || lia|exact Hl4|done|].
  step_by Hruns.
  exists (FCons {| e_loc := l; e_xml := x; e_id := i; e_attrs := [] |} fk fs), s5.
  split; [done|]. split; [done|].
  apply (made_node s s3 s4 s5 par {| e_loc := l; e_xml := x; e_id := i; e_attrs := [] |}); try done.
  apply lookup_insert_eq.
Qed.
End create.
End CfgStore.
