(* ===== verification/CfgCreate.v ===== *)
(** * Creating objects in the configuration tree

    [cfg_obj_create_sub_obj] makes a node with everything the type table has
    below it, takes the objects of dynamic types out again, and links the
    result as the last child. *)

From S2P Require Import Prelude CString CfgType CfgPath CfgObj CfgHeap CfgStore.
Open Scope Z_scope.

Module CfgCreate.
Import CfgType CfgPath CfgObj CfgHeap CfgStore.

(** ** Dynamic types *)

Definition dynamic (T : gmap tloc cfg_node_type) (R : type_reg) (tid : Z) : bool :=
  match cfg_type_find_by_id R tid with
  | Some n =>
      match T !! n with
      | Some {| t_ops := Some ops |} => bool_decide (is_Some (op_create ops))
      | _ => false
      end
  | None => false
  end.

Lemma tid_range z : 0 ≤ CFG_OID_TO_TID z < 2 ^ 16.
Proof.
  unfold CFG_OID_TO_TID. rewrite (Z.land_ones _ 16) by lia. apply Z.mod_pos_bound. lia.
Qed.

Lemma is_dynamic_type_spec E k tid :
  wf_env E k → 0 ≤ tid < 2 ^ 32 →
  cfg_type_is_dynamic_type (env_types E) (env_reg E) tid = Ok (dynamic (env_types E) (env_reg E) tid).
Proof.
  intros [[Hrep Hnd] [_ _ Hinv] _] Htid. unfold cfg_type_is_dynamic_type, dynamic.
  destruct (cfg_type_find_by_id (env_reg E) tid) as [n|] eqn:Hf; [|done].
  destruct (Hinv tid n Htid Hf) as [Hn _]. rewrite <- all_types_preorder in Hn.
  destruct (types_rep_node _ _ _ n Hrep Hnd Hn) as (ty & k' & Hty & _).
  unfold type_at, mbind, res_bind. rewrite Hty. simpl. by destruct ty as [? ? ? ? [ops|] ?].
Qed.

(** What is left of a forest without its dynamic objects. *)
Fixpoint prune (dyn : Z → bool) (f : eforest) : eforest :=
  match f with
  | FNil => FNil
  | FCons e k sb =>
      if dyn (CFG_OID_TO_TID (e_id e)) then prune dyn sb
      else FCons e (prune dyn k) (prune dyn sb)
  end.

Lemma prune_sublist dyn f : preorder (prune dyn f) `sublist_of` preorder f.
Proof.
  induction f as [|e k IHk sb IHs]; simpl; [done|]. destruct (dyn _).
  - apply sublist_cons. by apply sublist_inserts_l.
  - simpl. apply sublist_skip. by apply sublist_app.
Qed.

Lemma prune_locs dyn f : locs (prune dyn f) ⊆ locs f.
Proof.
  intros l Hl. eapply elem_of_sublist; [exact Hl|]. apply (fmap_sublist e_loc), prune_sublist.
Qed.

Lemma prune_xlocs dyn f : xlocs (prune dyn f) ⊆ xlocs f.
Proof.
  intros l Hl. eapply elem_of_sublist; [exact Hl|]. apply (fmap_sublist e_xml), prune_sublist.
Qed.

Lemma fapp_assoc f g h : fapp (fapp f g) h = fapp f (fapp g h).
Proof. induction f as [|e k _ sb IH]; simpl; [done|]. by rewrite IH. Qed.

(** A sibling list is separate when its parts are. *)
Lemma separate_intro f g :
  separate f → separate g → locs f ## locs g → xlocs f ## xlocs g → separate (fapp f g).
Proof. unfold separate. rewrite locs_fapp, xlocs_fapp, !NoDup_app. set_solver. Qed.

Lemma separate_sub f g :
  separate f → preorder g `sublist_of` preorder f → separate g.
Proof.
  intros [Hn Hx] Hsub. split.
  - eapply sublist_NoDup; [exact Hn|]. by apply (fmap_sublist e_loc).
  - eapply sublist_NoDup; [exact Hx|]. by apply (fmap_sublist e_xml).
Qed.

Lemma top_fapp_cons pre e k k' sb sb' :
  top (fapp pre (FCons e k sb)) = top (fapp pre (FCons e k' sb')).
Proof. by destruct pre. Qed.

(** Replacing what is below one of a list of siblings. *)
Lemma replace_kids s s' p pre e k k' sb L X :
  obj_rep s p (fapp pre (FCons e k sb)) → same_but L X s s' →
  L ## locs pre → L ## locs sb → X ## e_xml e :: xlocs pre ++ xlocs sb →
  nodes s' !! e_loc e = Some (node_of e p (top k') (top sb)) → obj_rep s' (Some (e_loc e)) k' →
  obj_rep s' p (fapp pre (FCons e k' sb)).
Proof.
  intros Hrep Hsame HL HLs HX He Hk'. induction pre as [|a ka _ sa IH]; simpl fapp in *.
  - destruct Hrep as (_ & Hx & _ & Hsb). cbn [obj_rep]. split; [done|].
    split; [rewrite (sb_xmls _ _ _ _ Hsame); [done|set_solver]|]. split; [done|].
    eapply obj_rep_frame; [exact Hsame|done| |done]. set_solver.
  - rewrite locs_cons in HL. rewrite xlocs_cons in HX. destruct Hrep as (Ha & Hxa & Hka & Hsa).
    cbn [obj_rep]. rewrite (top_fapp_cons sa e k' k sb sb).
    rewrite (sb_nodes _ _ _ _ Hsame), (sb_xmls _ _ _ _ Hsame) by (clear -HL HX; set_solver).
    do 2 (split; [done|]). split.
    + eapply obj_rep_frame; [exact Hsame|clear -HL; set_solver|clear -HX; set_solver|done].
    + apply IH; [done|clear -HL; set_solver|clear -HX; set_solver].
Qed.

Section prune.
Context (E : cfg_env) (tk : forest tloc) (wf : wf_env E tk).
Let dyn := dynamic (env_types E) (env_reg E).

(** The children [fapp pre f] of [ep] become [fapp pre f']: what is gone
    from [f] is free. *)
Record pruned (ep : entry) (par b : option oloc) (pre f f' : eforest) (s s' : store) : Prop := {
  pr_same : same_but (e_loc ep :: locs (fapp pre f)) (xlocs f) s s';
  pr_node : nodes s' !! e_loc ep = Some (node_of ep par (top (fapp pre f')) b);
  pr_rep : obj_rep s' (Some (e_loc ep)) (fapp pre f');
  pr_nodes l : l ∈ locs f → l ∉ locs f' → nodes s' !! l = None;
  pr_xmls x : x ∈ xlocs f → x ∉ xlocs f' → xmls s' !! x = None
}.

(** The children of [ep] are [g]. *)
Definition below (ep : entry) (par b : option oloc) (g : eforest) (s : store) : Prop :=
  nodes s !! e_loc ep = Some (node_of ep par (top g) b) ∧
  obj_rep s (Some (e_loc ep)) g ∧ separate (FCons ep g FNil).

(** [cfg_obj_del_from_type] does that to the last siblings of any list. *)
Definition prunes (fuel : nat) (f : eforest) : Prop :=
  ∀ s ep par b pre, below ep par b (fapp pre f) s →
  ∃ r s', cfg_obj_del_from_type E fuel (top f) s = Ok (r, s') ∧ pruned ep par b pre f (prune dyn f) s s'.

(** The addresses of a sibling list with one of them singled out. *)
Lemma apart ep pre e k sb :
  separate (FCons ep (fapp pre (FCons e k sb)) FNil) →
  e_loc ep ∉ locs pre ++ e_loc e :: locs k ++ locs sb ∧
  locs pre ## e_loc e :: locs k ++ locs sb ∧ xlocs pre ## e_xml e :: xlocs k ++ xlocs sb ∧
  e_loc e ∉ locs k ++ locs sb ∧ e_xml e ∉ xlocs k ++ xlocs sb ∧
  locs k ## locs sb ∧ xlocs k ## xlocs sb ∧ separate k.
Proof using.
  intros Hsep. apply separate_cons in Hsep as (Hsk & _ & Hnp & _). rewrite app_nil_r in Hnp.
  pose proof (separate_fapp _ _ Hsk) as (_ & Hse & Hd & Hdx).
  pose proof (separate_cons _ _ _ Hse) as (? & ? & ? & ? & ? & ?).
  rewrite locs_fapp, locs_cons in Hnp. rewrite locs_cons in Hd. rewrite xlocs_cons in Hdx. done.
Qed.

Lemma separate_single e k sb pre ep :
  separate (FCons ep (fapp pre (FCons e k sb)) FNil) → separate (FCons e k FNil).
Proof using.
  intros Hsep. eapply separate_sub; [exact Hsep|]. simpl. rewrite !app_nil_r, preorder_fapp. simpl.
  apply sublist_cons, sublist_inserts_l, sublist_skip, sublist_inserts_r. done.
Qed.

Lemma prune_below fuel s ep par b pre e k sb :
  prunes fuel k → below ep par b (fapp pre (FCons e k sb)) s →
  ∃ r s', cfg_obj_del_from_type E fuel (top k) s = Ok (r, s') ∧
    pruned e (Some (e_loc ep)) (top sb) FNil k (prune dyn k) s s' ∧
    below ep par b (fapp pre (FCons e (prune dyn k) sb)) s'.
Proof using.
  intros Hk (Hp & Hrep & Hsep). destruct (apart _ _ _ _ _ Hsep) as (Hnp & Hd & Hdx & Hne & Hnx & Hdk & Hdkx & _).
  pose proof (obj_rep_fapp _ _ _ _ Hrep) as (He & Hx & Hrk & _).
  destruct (Hk s e (Some (e_loc ep)) (top sb) FNil) as (r & s1 & Hr & Hpr).
  { split; [done|]. split; [done|]. exact (separate_single _ _ _ _ _ Hsep). }
  exists r, s1. split; [done|]. split; [done|]. destruct Hpr as [Hsame He1 Hk1 _ _]. cbn [fapp] in *.
  split; [|split].
  - rewrite (sb_nodes _ _ _ _ Hsame) by (clear -Hnp; set_solver).
    by rewrite Hp, (top_fapp_cons pre e k (prune dyn k) sb sb).
  - eapply replace_kids; [exact Hrep|exact Hsame|..|exact He1|exact Hk1]; clear -Hd Hne Hdk Hdx Hnx Hdkx; set_solver.
  - eapply separate_sub; [exact Hsep|]. simpl. rewrite !app_nil_r, !preorder_fapp. simpl.
    apply sublist_skip, sublist_app; [done|]. apply sublist_skip, sublist_app; [apply prune_sublist|done].
Qed.

Lemma prune_beside fuel s ep par b pre e k sb :
  prunes fuel sb → below ep par b (fapp pre (FCons e k sb)) s →
  ∃ r s', cfg_obj_del_from_type E fuel (top sb) s = Ok (r, s') ∧
    pruned ep par b (fapp pre (FCons e k FNil)) sb (prune dyn sb) s s' ∧
    below ep par b (fapp pre (FCons e k (prune dyn sb))) s'.
Proof using.
  intros Hs Hb. assert (Ha : ∀ g, fapp pre (FCons e k g) = fapp (fapp pre (FCons e k FNil)) g)
    by (intros g; by rewrite fapp_assoc).
  rewrite Ha in Hb. destruct (Hs s ep par b _ Hb) as (r & s1 & Hr & Hpr).
  exists r, s1. split; [done|]. split; [done|]. rewrite Ha. destruct Hb as (_ & _ & Hsep).
  split; [apply Hpr|]. split; [apply Hpr|]. eapply separate_sub; [exact Hsep|]. simpl.
  rewrite !app_nil_r, !preorder_fapp. apply sublist_skip, sublist_app; [done|]. apply prune_sublist.
Qed.

(** [e] itself goes when its type is dynamic. *)
Lemma prune_self s ep par b pre e k sb :
  below ep par b (fapp pre (FCons e k sb)) s →
  ∃ r s', (if dyn (CFG_OID_TO_TID (e_id e)) then cfg_obj_del_object (Some (e_loc e)) else mret 0) s
            = Ok (r, s') ∧
    pruned ep par b pre (FCons e k sb)
      (if dyn (CFG_OID_TO_TID (e_id e)) then sb else FCons e k sb) s s' ∧
    same_but (e_loc ep :: locs pre ++ locs (FCons e k FNil)) (xlocs (FCons e k FNil)) s s'.
Proof using.
  intros (Hp & Hrep & Hsep). destruct (dyn _).
  - destruct (del_object_spec s ep e par b pre k sb Hp Hrep Hsep)
      as (s' & Hr & Hsame & Hp' & Hrep' & Hn & Hx).
    eexists _, s'. split; [exact Hr|]. split; [|done]. split; [|done|done| |].
    + rewrite locs_fapp, !locs_cons, !xlocs_cons, !app_nil_r in *.
      eapply same_but_weaken; [exact Hsame|..]; clear; set_solver.
    + intros l. rewrite locs_cons. intros Hl Hnl. apply Hn. rewrite locs_cons.
      clear -Hl Hnl. set_solver.
    + intros l. rewrite xlocs_cons. intros Hl Hnl. apply Hx. rewrite xlocs_cons.
      clear -Hl Hnl. set_solver.
  - exists 0, s. split; [done|]. split; [|apply same_but_refl].
    split; [apply same_but_refl|done|done|done|done].
Qed.

Lemma del_from_type_spec f fuel : (length (locs f) < fuel)%nat → prunes fuel f.
Proof using wf.
  revert fuel. induction f as [|e k IHk sb IHs]; intros [|fuel] Hlen s ep par b pre Hb;
    try (simpl in Hlen; lia).
  { exists 0, s. split; [done|]. destruct Hb as (Hp & Hrep & _).
    split; [apply same_but_refl|done|done|set_solver|set_solver]. }
  rewrite locs_cons in Hlen. cbn [length] in Hlen. rewrite length_app in Hlen.
  destruct (apart _ _ _ _ _ (proj2 (proj2 Hb))) as (Hnp & Hd & Hdx & Hne & Hnx & Hdk & Hdkx & _).
  pose proof (prune_locs dyn k) as Hpk. pose proof (prune_xlocs dyn k) as Hpkx.
  cbn [cfg_obj_del_from_type top].
  pose proof (obj_rep_fapp _ _ _ _ (proj1 (proj2 Hb))) as (He & _). step_by (get_node_Ok _ _ _ He).
  destruct (prune_below fuel s ep par b pre e k sb (IHk fuel ltac:(lia)) Hb) as (r1 & s1 & Hr1 & Hp1 & Hb1).
  step_by Hr1. pose proof (obj_rep_fapp _ _ _ _ (proj1 (proj2 Hb1))) as (He1 & _).
  step_by (get_node_Ok _ _ _ He1).
  destruct (prune_beside fuel s1 ep par b pre e _ sb (IHs fuel ltac:(lia)) Hb1) as (r2 & s2 & Hr2 & Hp2 & Hb2).
  step_by Hr2. pose proof (obj_rep_fapp _ _ _ _ (proj1 (proj2 Hb2))) as (He2 & _).
  step_by (get_node_Ok _ _ _ He2). simpl id.
  pose proof (tid_range (e_id e)).
  step_by (lift_Ok _ _ s2 (is_dynamic_type_spec E tk (CFG_OID_TO_TID (e_id e)) wf ltac:(lia))).
  destruct (prune_self s2 ep par b pre e _ (prune dyn sb) Hb2) as (r3 & s3 & Hr3 & Hp3 & Hs3).
  fold dyn. step_by Hr3. exists 1, s3. split; [done|].
  (* the three stages together *)
  destruct Hp1 as [Hs1 _ _ Hn1 Hx1], Hp2 as [Hs2 _ _ Hn2 Hx2], Hp3 as [_ Hp3 Hrep3 Hn3 Hx3].
  rewrite !fapp_assoc, !locs_fapp, ?locs_cons, ?xlocs_cons, ?app_nil_r in *. cbn [fapp] in *.
  cbn [prune]. split; [|done|done| |].
  - rewrite locs_fapp, locs_cons, xlocs_cons.
    eapply same_but_weaken;
      [eapply same_but_trans; [exact Hs1|eapply same_but_trans; [exact Hs2|exact Hs3]]|..];
      clear -Hpk Hpkx; rewrite ?locs_cons; set_solver.
  - rewrite locs_cons. intros l Hl Hnl.
    destruct (decide (l ∈ locs (FCons e (prune dyn k) (prune dyn sb)))) as [Hin|Hout].
    { apply Hn3; [by rewrite locs_cons in Hin|exact Hnl]. }
    rewrite locs_cons in Hout. rewrite (sb_nodes _ _ _ _ Hs3) by (clear -Hl Hout Hnp Hd Hpk; set_solver).
    destruct (decide (l ∈ locs sb)) as [Hsb|Hsb]; [apply Hn2; clear -Hsb Hout; set_solver|].
    rewrite (sb_nodes _ _ _ _ Hs2) by (clear -Hl Hsb Hout Hnp Hd Hpk; set_solver).
    apply Hn1; clear -Hl Hsb Hout; set_solver.
  - rewrite xlocs_cons. intros l Hl Hnl.
    destruct (decide (l ∈ xlocs (FCons e (prune dyn k) (prune dyn sb)))) as [Hin|Hout].
    { apply Hx3; [by rewrite xlocs_cons in Hin|exact Hnl]. }
    rewrite xlocs_cons in Hout. rewrite (sb_xmls _ _ _ _ Hs3) by (clear -Hl Hout Hdx Hpkx; set_solver).
    destruct (decide (l ∈ xlocs sb)) as [Hsb|Hsb]; [apply Hx2; clear -Hsb Hout; set_solver|].
    rewrite (sb_xmls _ _ _ _ Hs2) by (clear -Hl Hsb Hout Hdx Hpkx; set_solver).
    apply Hx1; clear -Hl Hsb Hout; set_solver.
Qed.
End prune.

Lemma subtree_none en par s :
  nodes s !! e_loc en = Some (node_of en par None None) → xmls s !! e_xml en = Some (e_attrs en) →
  let s' := with_nodes <[e_loc en := set_child None (node_of en par None None)]> s in
  nodes s' !! e_loc en = Some (node_of en par (top FNil) None) ∧ xmls s' !! e_xml en = Some (e_attrs en) ∧
  obj_rep s' (Some (e_loc en)) FNil ∧ separate (FCons en FNil FNil) ∧ fresh_in FNil s ∧
  same_but (e_loc en :: locs FNil) (xlocs FNil) s s'.
Proof.
  intros He Hx s'. split; [apply lookup_insert_eq|]. do 2 (split; [done|]).
  split; [split; apply NoDup_singleton|]. split; [split; set_solver|]. apply with_nodes_same.
Qed.

(** ** The subtree of a new object *)

Section create.
Context (E : cfg_env) (tk : forest tloc) (wf : wf_env E tk) `{ShmLaws}.
Let T := env_types E.
Let dyn := dynamic (env_types E) (env_reg E).

(** What [create_subtree] leaves below [en]: the table's subtypes of [n],
    without the dynamic ones. *)
Definition subtree (n : tloc) (f : eforest) : Prop :=
  ∃ ck fk, types_rep T (Some n) ck ∧ children E n = roots ck ∧ NoDup (preorder ck) ∧
           made E ck fk ∧ f = prune dyn fk.

Lemma create_subtree_spec n en par s :
  n ∈ all_types (env_root E) tk →
  nodes s !! e_loc en = Some (node_of en par None None) → xmls s !! e_xml en = Some (e_attrs en) →
  ∃ r f s', create_subtree E (e_loc en) n s = Ok (r, s') ∧ subtree n f ∧
    nodes s' !! e_loc en = Some (node_of en par (top f) None) ∧
    xmls s' !! e_xml en = Some (e_attrs en) ∧
    obj_rep s' (Some (e_loc en)) f ∧ separate (FCons en f FNil) ∧ fresh_in f s ∧
    same_but (e_loc en :: locs f) (xlocs f) s s'.
Proof.
  intros Hn He Hx. pose proof wf as [[Hrep Hnd] _ Hfuel]. rewrite <- all_types_preorder in Hn.
  destruct (types_rep_node _ _ _ n Hrep Hnd Hn) as (ty & ck & Hty & Hsub & Hrepc & Hsib & Hc & Hndc & Hin).
  assert (Hlen : (length (preorder ck) ≤ env_fuel E)%nat).
  { rewrite all_types_preorder in Hin. apply NoDup_submseteq, submseteq_length in Hin; [lia|done]. }
  unfold create_subtree. step_by (lift_Ok _ _ s Hc).
  assert (Hch : children E n = roots ck) by (unfold children, T in *; by rewrite Hty).
  destruct ck as [|c ck1 ck2].
  { exists 0, FNil. eexists. cbn [roots head]. step_by (mret_Ok (@None oloc) s).
    step_by (alter_node_Ok _ (set_child None) _ _ He). split; [done|].
    split; [exists FNil, FNil; do 2 (split; [done|]); split; [constructor|done]|]. exact (subtree_none en par s He Hx). }
  destruct (create_from_type_spec E (env_fuel E) _ _ Hrepc Hsib Hndc Hlen (Some (e_loc en)) s c eq_refl)
    as (fk & s1 & Hr1 & Hm & Hk1 & Hsk & Hfr & Hs1).
  assert (Hef : e_loc en ∉ locs fk) by (intros Hi; by rewrite (fi_nodes _ _ Hfr _ Hi) in He).
  assert (Hexf : e_xml en ∉ xlocs fk) by (intros Hi; by rewrite (fi_xmls _ _ Hfr _ Hi) in Hx).
  assert (He1 : nodes s1 !! e_loc en = Some (node_of en par None None)) by (by rewrite (sb_nodes _ _ _ _ Hs1)).
  cbn [roots head]. step_by Hr1. step_by (alter_node_Ok _ (set_child (top fk)) _ _ He1).
  set (s2 := with_nodes _ s1).
  assert (Hs2 : same_but [e_loc en] [] s1 s2) by apply with_nodes_same.
  assert (Hb2 : below en par None (fapp FNil fk) s2).
  { split; [apply lookup_insert_eq|]. split.
    - eapply obj_rep_frame; [exact Hs2|clear -Hef; set_solver|clear; set_solver|exact Hk1].
    - split; rewrite ?locs_cons, ?xlocs_cons, app_nil_r; apply NoDup_cons; (split; [done|apply Hsk]). }
  assert (Hsub' : subtree n (prune dyn fk)) by (exists (FCons c ck1 ck2), fk; done).
  assert (Hdel : ∃ r s3, (if top fk is Some _ then with_fuel (λ fuel, cfg_obj_del_from_type E fuel (top fk))
                          else mret 0) s2 = Ok (r, s3) ∧ pruned en par None FNil fk (prune dyn fk) s2 s3).
  { destruct fk as [|e0 k0 sb0].
    - exists 0, s2. split; [done|]. destruct Hb2 as (? & ? & _).
      split; [apply same_but_refl|done|done|done|done].
    - cbn [top]. unfold with_fuel.
      apply (del_from_type_spec E tk wf (FCons e0 k0 sb0) (walk_fuel s2)); [|exact Hb2].
      eapply locs_fuel; [exact (proj1 (proj2 Hb2))|exact Hsk]. }
  destruct Hdel as (r & s3 & Hr3 & [Hs3 He3 Hk3 Hn3 Hx3]). exists r, (prune dyn fk), s3.
  split; [exact Hr3|]. split; [done|]. split; [done|]. cbn [fapp] in *.
  pose proof (prune_locs dyn fk) as Hpl. pose proof (prune_xlocs dyn fk) as Hpx.
  split; [rewrite (sb_xmls _ _ _ _ Hs3), (sb_xmls _ _ _ _ Hs2), (sb_xmls _ _ _ _ Hs1) by
            (clear -Hexf; set_solver); done|].
  split; [done|]. split.
  { eapply separate_sub; [exact (proj2 (proj2 Hb2))|]. simpl. rewrite !app_nil_r.
    apply sublist_skip, prune_sublist. }
  split; [split; intros l Hl; [apply (fi_nodes _ _ Hfr)|apply (fi_xmls _ _ Hfr)]; auto|].
  split.
  - intros l Hl. destruct (decide (l ∈ locs fk)) as [Hin'|Hout].
    + rewrite (Hn3 l), (fi_nodes _ _ Hfr l) by (done || (clear -Hl; set_solver)). done.
    + rewrite (sb_nodes _ _ _ _ Hs3), (sb_nodes _ _ _ _ Hs2), (sb_nodes _ _ _ _ Hs1) by
        (clear -Hl Hout; set_solver). done.
  - intros l Hl. destruct (decide (l ∈ xlocs fk)) as [Hin'|Hout].
    + rewrite (Hx3 l), (fi_xmls _ _ Hfr l) by (done || (clear -Hl; set_solver)). done.
    + rewrite (sb_xmls _ _ _ _ Hs3), (sb_xmls _ _ _ _ Hs2), (sb_xmls _ _ _ _ Hs1) by
        (clear -Hl Hout; set_solver). done.
  - rewrite (sb_root _ _ _ _ Hs3), (sb_root _ _ _ _ Hs2), (sb_root _ _ _ _ Hs1). done.
  - rewrite (sb_lock _ _ _ _ Hs3), (sb_lock _ _ _ _ Hs2), (sb_lock _ _ _ _ Hs1). done.
Qed.
End create.

(** ** Linking *)

Lemma last_brother_spec s par f fuel l :
  obj_rep s par f → top f = Some l → (length (locs f) < fuel)%nat →
  ∃ l', last_brother fuel l s = Ok (l', s) ∧ flast f = Some l'.
Proof.
  revert fuel l. induction f as [|e k _ sb IH]; intros fuel l Hrep Htop Hlen; [done|].
  destruct Hrep as (He & _ & _ & Hsb). injection Htop as <-.
  rewrite locs_cons in Hlen. cbn [length] in Hlen. rewrite length_app in Hlen.
  destruct fuel as [|fuel]; [lia|]. cbn [last_brother]. step_by (get_node_Ok _ _ _ He). simpl brother.
  destruct sb as [|e2 k2 sb2]; [eexists; done|]. simpl top. cbn iota.
  destruct (IH fuel (e_loc e2) Hsb eq_refl ltac:(lia)) as (l' & Hr & Hl). eauto.
Qed.

Lemma fapp_nil_r f : fapp f FNil = f.
Proof. induction f as [|e k _ sb IH]; simpl; [done|]. by rewrite IH. Qed.

Lemma top_fapp_app kids g : kids ≠ FNil → top (fapp kids g) = top kids.
Proof. by destruct kids. Qed.

Lemma link_last_spec s ep par b kids en f :
  below ep par b kids s → obj_rep s (Some (e_loc ep)) (FCons en f FNil) →
  separate (FCons ep (fapp kids (FCons en f FNil)) FNil) →
  ∃ s', link_last (e_loc ep) (e_loc en) s = Ok (tt, s') ∧
    same_but (e_loc ep :: locs kids) [] s s' ∧ below ep par b (fapp kids (FCons en f FNil)) s'.
Proof.
  intros (Hp & Hk & Hsk) Hen Hsep. destruct (apart _ _ _ _ _ Hsep) as (Hnp & Hd & _).
  rewrite app_nil_r in *. unfold link_last. step_by (get_node_Ok _ _ _ Hp). simpl child.
  destruct kids as [|e k sb].
  - simpl top. cbn iota. simpl fapp in *. eexists. split; [by apply alter_node_Ok|].
    split; [apply with_nodes_same|]. split; [apply lookup_insert_eq|]. split; [|done].
    eapply (obj_rep_frame s _ _ _ [e_loc ep] []); [apply with_nodes_same| |set_solver|exact Hen].
    rewrite locs_cons, app_nil_r. clear -Hnp. set_solver.
  - set (kids := FCons e k sb) in *.
    assert (Hsk' : separate kids) by (by apply separate_cons in Hsk as (? & _)).
    destruct (last_brother_spec s _ kids (walk_fuel s) (e_loc e) Hk eq_refl (locs_fuel _ _ _ Hk Hsk'))
      as (l & Hr & Hl). pose proof (flast_locs _ _ Hl) as Hlin.
    assert (Hr' : with_fuel (λ fuel, last_brother fuel (e_loc e)) s = Ok (l, s)) by exact Hr.
    destruct (relink s (Some (e_loc ep)) kids FNil (FCons en f FNil) l) as (o & Ho & _ & Hnew);
      [by rewrite fapp_nil_r|by rewrite fapp_nil_r|done| |done|].
    { rewrite locs_cons, app_nil_r. clear -Hd Hlin. set_solver. }
    eexists. split; [cbn [child node_of top kids]; step_by Hr'; by apply alter_node_Ok|]. split.
    { eapply same_but_weaken; [apply with_nodes_same|clear -Hlin; set_solver|done]. }
    split; [|split; [exact Hnew|done]].
    simpl nodes. rewrite lookup_insert_ne by (clear -Hnp Hlin; set_solver). by rewrite Hp.
Qed.

(** ** New identifiers *)

Lemma land_obj z : Z.land z CFG_OBJ_MASK = z mod 2 ^ 16.
Proof. unfold CFG_OBJ_MASK. by rewrite (Z.land_ones _ 16) by lia. Qed.

Lemma land_type z : uint z → Z.land z CFG_TYPE_MASK = z - z mod 2 ^ 16.
Proof.
  intros Hz. unfold CFG_TYPE_MASK. change 0xffff0000 with (Z.shiftl (Z.ones 16) 16).
  replace (Z.land z (Z.shiftl (Z.ones 16) 16)) with (Z.shiftl (Z.land (Z.shiftr z 16) (Z.ones 16)) 16).
  - rewrite Z.land_ones, Z.shiftl_mul_pow2, Z.shiftr_div_pow2 by lia.
    rewrite (Z.mod_small (z / 2 ^ 16)).
    + pose proof (Z.div_mod z (2 ^ 16)). lia.
    + split; [apply Z.div_pos; unfold uint in *; lia|]. apply Z.div_lt_upper_bound; unfold uint in *; lia.
  - apply Z.bits_inj'. intros i Hi. rewrite Z.land_spec. destruct (decide (i < 16)).
    + rewrite !Z.shiftl_spec_low by lia. by rewrite andb_false_r.
    + rewrite !Z.shiftl_spec, Z.land_spec, Z.shiftr_spec by lia. f_equal. f_equal. lia.
Qed.

(** The greatest identifier of its type among siblings. *)
Fixpoint max_oid (f : eforest) (type maxid : Z) : Z :=
  match f with
  | FNil => maxid
  | FCons e _ sb =>
      max_oid sb type
        (if (Z.land (e_id e) CFG_TYPE_MASK =? type) && (maxid <? e_id e) then e_id e else maxid)
  end.

Definition next_oid (kids : eforest) (oid : Z) : Z :=
  let type := Z.land oid CFG_TYPE_MASK in max_oid kids type type + 1.

(** The last instance number of the type is not taken. *)
Definition room_for (kids : eforest) (oid : Z) : Prop :=
  let type := Z.land oid CFG_TYPE_MASK in Z.land (max_oid kids type type) CFG_OBJ_MASK ≠ CFG_OBJ_MASK.

Lemma max_oid_loop_spec s par f fuel type maxid :
  obj_rep s par f → (length (locs f) < fuel)%nat →
  max_oid_loop fuel (top f) type maxid s = Ok (max_oid f type maxid, s).
Proof.
  revert fuel maxid. induction f as [|e k _ sb IH]; intros [|fuel] maxid Hrep Hlen; [simpl in Hlen; lia|done|simpl in Hlen; lia|].
  destruct Hrep as (He & _ & _ & Hsb). rewrite locs_cons in Hlen. cbn [length] in Hlen. rewrite length_app in Hlen.
  cbn [max_oid_loop top max_oid]. step_by (get_node_Ok _ _ _ He). simpl id. by apply IH; [|lia].
Qed.

Lemma max_oid_ge f type maxid : maxid ≤ max_oid f type maxid.
Proof.
  revert maxid. induction f as [|e k _ sb IH]; intros maxid; simpl; [lia|].
  etransitivity; [|apply IH]. destruct (_ && _) eqn:Eq; [|lia]. zify_bool. lia.
Qed.

Lemma max_oid_type f type maxid :
  Z.land maxid CFG_TYPE_MASK = type → Z.land (max_oid f type maxid) CFG_TYPE_MASK = type.
Proof.
  revert maxid. induction f as [|e k _ sb IH]; intros maxid Hm; simpl; [done|]. apply IH.
  destruct (_ && _) eqn:Eq; [|done]. by zify_bool.
Qed.

Lemma max_oid_range f type maxid :
  uint maxid → Forall (λ e, uint (e_id e)) (roots f) → uint (max_oid f type maxid).
Proof.
  revert maxid. induction f as [|e k _ sb IH]; intros maxid Hm Hf; simpl in *; [done|].
  apply Forall_cons in Hf as [He Hf]. apply IH; [|done]. by destruct (_ && _).
Qed.

Lemma max_oid_bound f type maxid e :
  e ∈ roots f → Z.land (e_id e) CFG_TYPE_MASK = type → e_id e ≤ max_oid f type maxid.
Proof.
  revert maxid. induction f as [|a k _ sb IH]; intros maxid He Ht; simpl in *; [set_solver|].
  apply elem_of_cons in He as [->|He]; [|by apply IH].
  etransitivity; [|apply max_oid_ge]. rewrite (proj2 (Z.eqb_eq _ _) Ht). simpl.
  destruct (maxid <? e_id a) eqn:Eq; zify_bool; lia.
Qed.

(** [cfg_obj_auto_oid] gives an identifier of the wanted type that no sibling
    has, as long as instance 65535 is free. *)
Lemma next_oid_fresh kids oid :
  uint oid → Forall (λ e, uint (e_id e)) (roots kids) → room_for kids oid →
  Z.land (next_oid kids oid) CFG_TYPE_MASK = Z.land oid CFG_TYPE_MASK ∧
  uint (next_oid kids oid) ∧ 0 < next_oid kids oid mod 2 ^ 16 ∧
  ∀ e, e ∈ roots kids → e_id e ≠ next_oid kids oid.
Proof.
  intros Ho Hids Hroom. unfold next_oid, room_for in *. set (t := Z.land oid CFG_TYPE_MASK) in *.
  assert (Htu : uint t).
  { unfold t. rewrite land_type by done. unfold uint in *. pose proof (Z.mod_pos_bound oid (2 ^ 16)).
    pose proof (Z.mod_le oid (2 ^ 16)). lia. }
  assert (Ht0 : Z.land t CFG_TYPE_MASK = t).
  { unfold t. by rewrite <- Z.land_assoc, Z.land_diag. }
  pose proof (max_oid_range kids t t Htu Hids) as Hm. pose proof (max_oid_type kids t t Ht0) as Hmt.
  pose proof (max_oid_bound kids t t) as Hb.
  set (m := max_oid kids t t) in *. rewrite land_obj in Hroom. unfold CFG_OBJ_MASK in Hroom.
  pose proof (Z.mod_pos_bound m (2 ^ 16)). pose proof (Z.div_mod m (2 ^ 16)).
  assert (Hmod : (m + 1) mod 2 ^ 16 = m mod 2 ^ 16 + 1).
  { symmetry. apply (Z.mod_unique _ _ (m / 2 ^ 16)); lia. }
  assert (Hu : uint (m + 1)).
  { unfold uint in *. split; [lia|]. assert (m ≠ 2 ^ 32 - 1); [|lia]. intros ->. by vm_compute in Hroom. }
  rewrite land_type in Hmt by done.
  assert (Hml : Z.land (m + 1) CFG_TYPE_MASK = t) by (rewrite land_type by done; lia).
  split; [done|]. split; [done|]. split; [lia|].
  intros e He Heq. assert (e_id e ≤ m); [|lia]. apply Hb; [done|]. by rewrite Heq.
Qed.

(** ** The whole operation *)

(** The identifier a new object gets. *)
Definition new_oid (kids : eforest) (oid : Z) : Z :=
  if CFG_OID_TO_ID oid =? 0 then next_oid kids oid else oid.

(** A non-negative [int]. *)
Definition sint (z : Z) : Prop := 0 ≤ z < 2 ^ 31.

Lemma sint_uint z : sint z → uint z.
Proof. unfold sint, uint. lia. Qed.

Lemma s32_u32 z : sint z → s32 (u32 z) = z.
Proof. unfold sint. intros ?. rewrite u32_small, s32_small; unfold INT_MIN, INT_MAX; lia. Qed.

Section create_sub.
Context (E : cfg_env) (tk : forest tloc) (wf : wf_env E tk) `{ShmLaws}.

Lemma auto_oid_spec s ep par b kids oid :
  nodes s !! e_loc ep = Some (node_of ep par (top kids) b) →
  obj_rep s (Some (e_loc ep)) kids → separate kids → room_for kids oid →
  cfg_obj_auto_oid (e_loc ep) oid s = Ok (s32 (u32 (next_oid kids oid)), s).
Proof using.
  intros Hp Hk Hsep Hroom. unfold cfg_obj_auto_oid. step_by (get_node_Ok _ _ _ Hp).
  assert (Hm : with_fuel (λ fuel, max_oid_loop fuel (child (node_of ep par (top kids) b))
                (Z.land oid CFG_TYPE_MASK) (Z.land oid CFG_TYPE_MASK)) s
              = Ok (max_oid kids (Z.land oid CFG_TYPE_MASK) (Z.land oid CFG_TYPE_MASK), s)).
  { eapply max_oid_loop_spec; [exact Hk|]. by eapply locs_fuel. }
  step_by Hm. unfold room_for in Hroom. by rewrite (proj2 (Z.eqb_neq _ _) Hroom).
Qed.

(** Up to the subtree: the new node, filled in, not linked yet. *)
Lemma create_sub_start s ep par b kids oid n :
  nodes s !! e_loc ep = Some (node_of ep par (top kids) b) →
  obj_rep s (Some (e_loc ep)) kids → separate kids → sint oid → sint (new_oid kids oid) →
  cfg_type_from_oid E oid = Some n → f_find kids oid [] = None →
  (CFG_OID_TO_ID oid = 0 → room_for kids oid) →
  (cfg_obj_create_sub_obj E (e_loc ep) oid s = Ok (-1, s) ∧ refuses s = true) ∨
  refuses s = false ∧ ∃ en s', cfg_obj_create_sub_obj E (e_loc ep) oid s
    = (create_subtree E (e_loc en) n ;; link_last (e_loc ep) (e_loc en) ;;
       o ← get_node (e_loc en); mret (s32 (id o))) s' ∧
    e_id en = new_oid kids oid ∧ e_attrs en = [] ∧
    nodes s' !! e_loc en = Some (node_of en (Some (e_loc ep)) None None) ∧
    xmls s' !! e_xml en = Some (e_attrs en) ∧
    same_but [e_loc en] [e_xml en] s s' ∧
    nodes s !! e_loc en = None ∧ xmls s !! e_xml en = None.
Proof using wf H0.
  intros Hp Hk Hsk Ho Hi Hty Hnone Hroom. pose proof (sint_uint _ Ho) as Hou.
  unfold cfg_obj_create_sub_obj.
  rewrite (M_bind_Ok _ _ _ _ _ (get_child_spec s ep par b kids oid Hp Hk Hsk)).
  rewrite (u32_small oid), Hnone, Hty by done. cbn [option_map].
  destruct (alloc_node_spec s) as [[Hgive (l & x & Hal & Hfl & Hfx)]|[Hal Hno]];
    rewrite (M_bind_Ok _ _ _ _ _ Hal); [right; split; [done|]|by left].
  set (s1 := with_nodes _ _). set (i := new_oid kids oid) in *. cbn iota.
  assert (Hs1 : same_but [l] [x] s s1).
  { split; try done; intros y Hy; unfold s1; simpl; by rewrite lookup_insert_ne by set_solver. }
  assert (Hlk : e_loc ep ≠ l ∧ l ∉ locs kids ∧ x ∉ xlocs kids).
  { split; [intros Heq; congruence|]. split; intros Hin.
    - destruct (obj_rep_locs _ _ _ Hk l Hin). congruence.
    - destruct (obj_rep_xlocs _ _ _ Hk x Hin). congruence. }
  assert (Hid : (if CFG_OID_TO_ID oid =? 0 then cfg_obj_auto_oid (e_loc ep) oid else mret oid) s1
                = Ok (i, s1)).
  { unfold i, new_oid in *. destruct (CFG_OID_TO_ID oid =? 0) eqn:Eid; [|done]. zify_bool.
    rewrite (auto_oid_spec s1 ep par b kids oid); [by rewrite s32_u32| | |done|auto].
    - rewrite (sb_nodes _ _ _ _ Hs1); [done|]. set_solver.
    - eapply obj_rep_frame; [exact Hs1|set_solver|set_solver|exact Hk]. }
  rewrite (M_bind_Ok _ _ _ _ _ Hid).
  assert (Hl1 : nodes s1 !! l = Some (set_private (Some x) zeroed)) by apply lookup_insert_eq.
  rewrite (M_bind_Ok _ _ _ _ _ (alter_node_Ok _ (set_id (u32 i)) _ _ Hl1)). set (s2 := with_nodes _ s1).
  assert (Hl2 : nodes s2 !! l = Some (set_id (u32 i) (set_private (Some x) zeroed))) by apply lookup_insert_eq.
  rewrite (M_bind_Ok _ _ _ _ _ (alter_node_Ok _ (set_brother None) _ _ Hl2)). set (s3 := with_nodes _ s2).
  assert (Hl3 : nodes s3 !! l = Some (set_brother None (set_id (u32 i) (set_private (Some x) zeroed))))
    by apply lookup_insert_eq.
  rewrite (M_bind_Ok _ _ _ _ _ (alter_node_Ok _ (set_parent (Some (e_loc ep))) _ _ Hl3)).
  set (s4 := with_nodes _ s3).
  exists {| e_loc := l; e_xml := x; e_id := i; e_attrs := [] |}, s4. do 3 (split; [done|]).
  split; [|split; [apply lookup_insert_eq|split; [|done]]].
  - simpl. rewrite lookup_insert_eq. unfold node_of, set_id, set_parent, set_brother. simpl.
    rewrite u32_small; [done|]. unfold sint in Hi. lia.
  - split; try done; intros y Hy; simpl; by rewrite !lookup_insert_ne by set_solver.
Qed.

Lemma create_sub_obj_spec s ep par b kids oid n :
  below ep par b kids s → is_Some (xmls s !! e_xml ep) → sint oid → sint (new_oid kids oid) →
  cfg_type_from_oid E oid = Some n → f_find kids oid [] = None →
  (CFG_OID_TO_ID oid = 0 → room_for kids oid) →
  (cfg_obj_create_sub_obj E (e_loc ep) oid s = Ok (-1, s) ∧ refuses s = true) ∨
  refuses s = false ∧ ∃ en f s', cfg_obj_create_sub_obj E (e_loc ep) oid s = Ok (new_oid kids oid, s') ∧
    e_id en = new_oid kids oid ∧ e_attrs en = [] ∧ subtree E n f ∧
    below ep par b (fapp kids (FCons en f FNil)) s' ∧ fresh_in (FCons en f FNil) s ∧
    same_but (e_loc ep :: locs kids ++ locs (FCons en f FNil)) (xlocs (FCons en f FNil)) s s'.
Proof using wf H0.
  intros (Hp & Hk & Hsep) Hxp Ho Hi Hty Hnone Hroom.
  pose proof (separate_cons _ _ _ Hsep) as (Hsk & _ & Hnp & Hnpx & _). rewrite app_nil_r in *.
  assert (Hn : n ∈ all_types (env_root E) tk).
  { destruct wf as [_ [_ _ Hinv] _]. unfold cfg_type_from_oid in Hty. eapply Hinv; [|exact Hty].
    pose proof (tid_range oid). lia. }
  destruct (create_sub_start s ep par b kids oid n Hp Hk Hsk Ho Hi Hty Hnone Hroom)
    as [?|(Hgive & en & s1 & Hrun & Hid & Hat & Hl1 & Hx1 & Hs1 & Hfl & Hfx)]; [by left|right; split; [done|]].
  destruct (create_subtree_spec E tk wf n en _ s1 Hn Hl1 Hx1)
    as (r & f & s2 & Hr2 & Hsub & Hl2 & Hx2 & Hf2 & Hsepf & Hfr & Hs2).
  set (new := FCons en f FNil) in *.
  assert (Hfrn : fresh_in new s).
  { destruct (separate_cons _ _ _ Hsepf) as (_ & _ & Hne & Hnx & _).
    destruct Hfr as [Hfn Hfxn]. unfold new. split; rewrite ?locs_cons, ?xlocs_cons; intros l Hl.
    - apply elem_of_cons in Hl as [->|Hl]; [done|]. rewrite <- (sb_nodes _ _ _ _ Hs1); set_solver.
    - apply elem_of_cons in Hl as [->|Hl]; [done|]. rewrite <- (sb_xmls _ _ _ _ Hs1); set_solver. }
  assert (Hs2' : same_but (locs new) (xlocs new) s s2).
  { unfold new. rewrite locs_cons, xlocs_cons, !app_nil_r.
    eapply same_but_weaken; [eapply same_but_trans; [exact Hs1|exact Hs2]|..]; clear; set_solver. }
  destruct (fresh_disjoint _ _ _ _ Hk Hfrn) as [Hd Hdx].
  assert (Hpn : e_loc ep ∉ locs new) by (intros Hin; by rewrite (fi_nodes _ _ Hfrn _ Hin) in Hp).
  assert (Hpxn : e_xml ep ∉ xlocs new).
  { intros Hin. rewrite (fi_xmls _ _ Hfrn _ Hin) in Hxp. by destruct Hxp. }
  assert (Hsep2 : separate (FCons ep (fapp kids new) FNil)).
  { destruct Hsepf as [Hf1 Hf1x].
    split; rewrite ?locs_cons, ?xlocs_cons, app_nil_r, ?locs_fapp, ?xlocs_fapp; apply NoDup_cons;
      (split; [clear -Hnp Hnpx Hpn Hpxn; set_solver|]); apply NoDup_app; (split; [apply Hsk|]); (split; [|done]).
    - clear -Hd. set_solver.
    - clear -Hdx. set_solver. }
  assert (Hb2 : below ep par b kids s2).
  { split; [by rewrite (sb_nodes _ _ _ _ Hs2')|]. split; [|done].
    eapply obj_rep_frame; [exact Hs2'|clear -Hd; set_solver|clear -Hdx; set_solver|exact Hk]. }
  assert (Hnew : obj_rep s2 (Some (e_loc ep)) new) by (cbn [new obj_rep]; split; [done|]; split; [done|]; done).
  destruct (link_last_spec s2 ep par b kids en f Hb2 Hnew Hsep2) as (s3 & Hr3 & Hs3 & Hb3).
  exists en, f, s3. split; [|do 3 (split; [done|]); split; [exact Hb3|]; split; [exact Hfrn|]].
  - rewrite Hrun. step_by Hr2. step_by Hr3. pose proof (obj_rep_fapp _ _ _ _ (proj1 (proj2 Hb3))) as (Hen & _).
    step_by (get_node_Ok _ _ _ Hen). simpl id. rewrite Hid, s32_small; [done|].
    unfold sint, INT_MIN, INT_MAX in *. lia.
  - fold new. eapply same_but_weaken; [eapply same_but_trans; [exact Hs2'|exact Hs3]|..]; clear; set_solver.
Qed.
End create_sub.
End CfgCreate.
