(* ===== verification/CfgSpec.v ===== *)
(** * The configuration service, seen through paths

    The operations on objects ([cfg_obj_create_object], [.._delete_object],
    [.._set_object_attr], [.._get_object_attr], [.._query_object]) named by
    written paths, against the tree the store stands for. *)

From S2P Require Import Prelude CString CfgType CfgPath CfgObj CfgHeap CfgStore CfgCreate.
Open Scope Z_scope.

Module CfgSpec.
Import CfgType CfgPath CfgObj CfgHeap CfgStore CfgCreate.

(** ** Written paths *)

Lemma join_app l1 l2 :
  l1 ≠ [] → l2 ≠ [] → join (l1 ++ l2) = join l1 ++ CFG_NODE_SPELIRATE_CHAR :: join l2.
Proof.
  intros H1 H2. induction l1 as [|a l1 IH]; [done|]. destruct l1 as [|b l1].
  - simpl. by destruct l2.
  - change (join ((a :: b :: l1) ++ l2)) with (a ++ CFG_NODE_SPELIRATE_CHAR :: join ((b :: l1) ++ l2)).
    rewrite IH by done. simpl. by rewrite <- app_assoc.
Qed.

(** [sep_back] finds the last separator at or before [n]. *)
Lemma sep_back_at s i n :
  (0 < i ≤ n)%nat → s !! i = Some CFG_NODE_SPELIRATE_CHAR →
  (∀ j, (i < j ≤ n)%nat → s !! j ≠ Some CFG_NODE_SPELIRATE_CHAR) → sep_back s n = i.
Proof.
  induction n as [|n IH]; intros Hin Hi Hno; [lia|]. cbn [sep_back].
  destruct (decide (S n = i)) as [->|Hne]; [by rewrite bool_decide_eq_true_2|].
  rewrite bool_decide_eq_false_2 by (apply Hno; lia). apply IH; [lia|done|]. intros j Hj. apply Hno. lia.
Qed.

Lemma sep_back_app a b c n :
  CFG_NODE_SPELIRATE_CHAR ∉ b → a ≠ [] → (length a ≤ n)%nat →
  (n ≤ length a + length b ∨ c = [])%nat →
  sep_back (a ++ CFG_NODE_SPELIRATE_CHAR :: b ++ c) n = length a.
Proof.
  intros Hb Ha Hn Hn2. apply sep_back_at; [destruct a; simpl in *; [done|lia]|by apply list_lookup_middle|].
  intros j Hj Hl. rewrite lookup_app_r in Hl by lia.
  destruct (j - length a)%nat as [|m] eqn:Hm; [lia|]. simpl in Hl. apply Hb.
  destruct (decide (m < length b)%nat) as [Hlt|Hge].
  - rewrite lookup_app_l in Hl by done. by eapply list_elem_of_lookup_2.
  - destruct Hn2 as [Hn2| ->]; [lia|]. rewrite app_nil_r in Hl. by eapply list_elem_of_lookup_2.
Qed.

(** A segment whose last token the path functions read as what it is. *)
Definition seg_ok (s : seg) : Prop :=
  match sg_name s with c :: _ => is_digit c = false | [] => False end ∧ atoi (sg_name s) ≤ 0.

#[export] Instance seg_ok_dec s : Decision (seg_ok s).
Proof. unfold seg_ok. destruct (sg_name s); apply _. Defined.

(** The identifier [cfg_path_to_oid] gives for a path that ends in [s]. *)
Definition target_oid (R : type_reg) (s : seg) : Z :=
  type_id R (sg_type s) * 2 ^ 16 + default 0 (sg_inst s).

Lemma path_of_snoc p s :
  p ≠ [] → path_of (p ++ [s]) = path_of p ++ CFG_NODE_SPELIRATE_CHAR :: join (seg_tokens s).
Proof.
  intros Hp. unfold path_of. rewrite map_app, concat_app. simpl. rewrite app_nil_r.
  apply join_app; [|done]. destruct p; [done|]. done.
Qed.

Lemma path_of_ne E node p : resolves E node p → p ≠ [] → path_of p ≠ [].
Proof.
  intros Hr Hp. destruct p as [|s p]; [done|]. destruct Hr as (_ & [(Hne & _) _] & _).
  rewrite path_of_cons. intros H.
  pose proof (join_cons_length (sg_name s)
    ((if sg_inst s is Some n then [fmt_u n] else []) ++ concat (map seg_tokens p))) as Hl.
  rewrite H in Hl. destruct (sg_name s); [done|]. simpl in Hl. lia.
Qed.

Section written.
Context (E : cfg_env) (p : list seg) (s : seg).
Context (Hp : p ≠ []) (Hres : resolves E None (p ++ [s])) (Hs : seg_ok s).
Context (Hlen : strlen (path_of (p ++ [s])) < CFG_MAX_PATH_NAME).

Lemma last_seg : name_ok (sg_name s) ∧ inst_ok (sg_inst s) ∧ path_of p ≠ [].
Proof using Hres Hp.
  assert (Hr : ∀ q node, resolves E node (q ++ [s]) →
            resolves E node q ∧ name_ok (sg_name s) ∧ inst_ok (sg_inst s)).
  { clear. induction q as [|a q IH]; intros node; simpl; [tauto|].
    intros (? & ? & ? & Hq). destruct (IH _ Hq) as (? & ? & ?). tauto. }
  destruct (Hr p None Hres) as (Hq & ? & ?). split; [done|]. split; [done|].
  by eapply path_of_ne.
Qed.

Lemma inst_head i : 1 ≤ i ≤ CFG_OBJ_MASK →
  ∃ c t, fmt_u i = c :: t ∧ is_digit c = true ∧ 0 < atoi (fmt_u i) ∧ CFG_NODE_SPELIRATE_CHAR ∉ fmt_u i.
Proof using.
  unfold CFG_OBJ_MASK. intros Hi. destruct (inst_token i) as [(Hne & _ & Hdot) Hd]; [unfold INT_MAX; lia|].
  pose proof (fmt_u_digits i ltac:(lia)) as Hds.
  destruct (fmt_u i) as [|c t] eqn:Hf; [done|]. exists c, t. split; [done|].
  apply Forall_cons in Hds as [Hc _]. split; [apply is_digit_iff; lia|]. split; [|done].
  rewrite <- Hf, <- (app_nil_r (fmt_u i)), atoi_fmt_u; [lia|unfold INT_MAX; lia|done].
Qed.

Lemma parent_path_of :
  cfg_get_parent_path (Some (path_of (p ++ [s]))) = Ok (Some (path_of p)).
Proof using Hp Hres Hs Hlen.
  destruct last_seg as ([(Hnn & _ & Hdot) _] & Hi & Hne). destruct Hs as [Hd _].
  unfold cfg_get_parent_path. rewrite (proj2 (Z.leb_gt _ _)) by exact Hlen. rewrite (path_of_snoc p s Hp).
  set (A := path_of p) in *. assert (HA : (0 < length A)%nat) by (destruct A; simpl; [done|lia]).
  unfold seg_tokens. destruct (sg_inst s) as [i|]; cbn [join].
  - simpl in Hi. destruct (inst_head i Hi) as (c & t & Hf & Hc & _ & Hid).
    set (B := A ++ CFG_NODE_SPELIRATE_CHAR :: sg_name s).
    assert (HB : A ++ CFG_NODE_SPELIRATE_CHAR :: sg_name s ++ CFG_NODE_SPELIRATE_CHAR :: fmt_u i
                 = B ++ CFG_NODE_SPELIRATE_CHAR :: fmt_u i ++ []).
    { unfold B. rewrite app_nil_r, <- app_assoc. done. }
    assert (Hl1 : sep_back (B ++ CFG_NODE_SPELIRATE_CHAR :: fmt_u i ++ [])
              (length (B ++ CFG_NODE_SPELIRATE_CHAR :: fmt_u i ++ [])) = length B).
    { apply sep_back_app; [done|by destruct A| |by right]. rewrite length_app. lia. }
    assert (Hl2 : sep_back (A ++ CFG_NODE_SPELIRATE_CHAR :: sg_name s ++ CFG_NODE_SPELIRATE_CHAR :: fmt_u i)
              (length B - 1) = length A).
    { apply sep_back_app; [done|by destruct A|..]; unfold B; rewrite length_app; simpl; lia. }
    rewrite HB in *. rewrite Hl1, Hl2.
    rewrite (proj2 (Nat.eqb_neq _ 0)), (proj2 (Nat.eqb_neq _ 0)) by (unfold B; rewrite ?length_app; simpl; lia).
    rewrite lookup_app_r by lia. replace (S (length B) - length B)%nat with 1%nat by lia.
    rewrite Hf. cbn. rewrite Hc. unfold B. rewrite <- app_assoc. by rewrite take_app_length.
  - rewrite <- (app_nil_r (sg_name s)).
    rewrite sep_back_app by (done || (by destruct A) || (rewrite length_app; lia) || by right).
    rewrite (proj2 (Nat.eqb_neq _ 0)) by lia.
    rewrite lookup_app_r by lia. replace (S (length A) - length A)%nat with 1%nat by lia.
    rewrite app_nil_r. cbn. destruct (sg_name s) as [|c t]; [done|]. cbn. rewrite Hd.
    by rewrite take_app_length.
Qed.

(** Where the last token of the whole path starts. *)
Lemma last_token :
  let whole := path_of (p ++ [s]) in
  let i := sep_back whole (length whole) in
  Nat.eqb i 0 = false ∧
  drop (S i) whole = match sg_inst s with Some n => fmt_u n | None => sg_name s end.
Proof using Hp Hres.
  intros whole i. destruct last_seg as ([(Hnn & _ & Hdot) _] & Hi & Hne).
  unfold i, whole. rewrite (path_of_snoc p s Hp).
  set (A := path_of p) in *. assert (HA : (0 < length A)%nat) by (destruct A; simpl; [done|lia]).
  assert (Hgo : ∀ B t, (0 < length B)%nat → CFG_NODE_SPELIRATE_CHAR ∉ t →
    let w := B ++ CFG_NODE_SPELIRATE_CHAR :: t in
    Nat.eqb (sep_back w (length w)) 0 = false ∧ drop (S (sep_back w (length w))) w = t).
  { intros B t HB Ht w. assert (Hl : sep_back w (length w) = length B).
    { unfold w. rewrite <- (app_nil_r t) at 1.
      apply sep_back_app; [done|destruct B; simpl in *; [lia|done]|rewrite length_app; lia|by right]. }
    rewrite Hl. split; [apply Nat.eqb_neq; lia|]. unfold w.
    rewrite (drop_app_ge B) by lia. by replace (S (length B) - length B)%nat with 1%nat by lia. }
  unfold seg_tokens. destruct (sg_inst s) as [n|]; cbn [join]; [|by apply Hgo].
  simpl in Hi. destruct (inst_head n Hi) as (c & t & _ & _ & _ & Hid).
  rewrite app_comm_cons, app_assoc. apply Hgo; [rewrite length_app; lia|done].
Qed.

Lemma path_to_oid_of k :
  wf_env E k → (length (p ++ [s]) < CFG_MAX_NODE_LEVEL)%nat →
  cfg_path_to_oid E (Some (path_of (p ++ [s]))) = Ok (target_oid (env_reg E) s).
Proof using Hp Hres Hs.
  intros wf Hlev. destruct last_seg as (_ & Hi & _). destruct Hs as [Hd Hat].
  destruct last_token as [Hne Hdrop]. unfold cfg_path_to_oid. cbn [deref mbind res_bind].
  rewrite Hne, Hdrop.
  rewrite (oid_array_written E k) by (done || (rewrite length_app in *; simpl in *; lia)).
  unfold mbind, res_bind. rewrite length_map, (proj2 (Nat.leb_gt _ _)) by lia.
  rewrite map_app. cbn [map]. rewrite last_snoc. cbn [deref].
  assert (Hty : 100 ≤ type_id (env_reg E) (sg_type s) < 1100).
  { pose proof (resolves_types E k None _ wf ltac:(done) Hres) as Hin.
    apply Forall_app in Hin as [_ [Hin _]%Forall_cons].
    destruct wf as [_ [Hid _ _] _]. exact (Hid _ Hin). }
  unfold target_oid, seg_oid. destruct (sg_inst s) as [n|]; simpl default.
  - destruct (inst_head n Hi) as (_ & _ & _ & _ & Hpos & _). by rewrite (proj2 (Z.ltb_lt _ _)) by lia.
  - rewrite (proj2 (Z.ltb_ge _ _)) by lia. rewrite u32_small by lia.
    rewrite land_type by (unfold uint; lia). rewrite Z.add_comm, Z_mod_plus_full.
    change (1 mod 2 ^ 16) with 1. rewrite s32_small by (unfold INT_MIN, INT_MAX; lia).
    unfold mret, res_ret. f_equal. lia.
Qed.
End written.

(** ** Identifiers of written paths *)

(** The way from the root to the object a path names. *)
Definition ids_of (E : cfg_env) (p : list seg) : list Z := tail (map (seg_oid (env_reg E)) p).

Lemma oid_parts t i : 0 ≤ t < 2 ^ 15 → 0 ≤ i < 2 ^ 16 →
  CFG_OID_TO_TID (t * 2 ^ 16 + i) = t ∧ CFG_OID_TO_ID (t * 2 ^ 16 + i) = i.
Proof.
  intros Ht Hi. unfold CFG_OID_TO_TID, CFG_OID_TO_ID.
  rewrite !(Z.land_ones _ 16), Z.shiftr_div_pow2 by lia. split.
  - rewrite Z.div_add_l, (Z.div_small i), Z.add_0_r, Z.mod_small by lia. done.
  - rewrite Z.add_comm, Z_mod_plus_full, Z.mod_small; lia.
Qed.

Lemma type_id_range E k n :
  wf_env E k → n ∈ all_types (env_root E) k → 100 ≤ type_id (env_reg E) n < 1100.
Proof. intros [_ [Hid _ _] _] Hn. by apply Hid. Qed.

Lemma seg_oids_uint E k node p :
  wf_env E k → (∀ m, node = Some m → m ∈ all_types (env_root E) k) → resolves E node p →
  Forall uint (map (seg_oid (env_reg E)) p).
Proof.
  intros wf. revert node. induction p as [|s p IH]; intros node Hnode; [constructor|].
  intros (Hq & _ & Hi & Hr). pose proof (query_child_types E k wf node _ _ Hnode Hq) as Hty.
  simpl. constructor; [|apply (IH (Some (sg_type s))); [by intros m [= <-]|done]].
  pose proof (type_id_range E k _ wf Hty). unfold seg_oid, uint.
  assert (1 ≤ default 1 (sg_inst s) ≤ 65535) by (destruct (sg_inst s); simpl in *; unfold CFG_OBJ_MASK in *; lia).
  lia.
Qed.

(** The store's answer to a written path. *)
Lemma written_ids E k p :
  wf_env E k → resolves E None p → (1 ≤ length p ≤ CFG_MAX_NODE_LEVEL)%nat →
  ∃ o, cfg_path_to_oid_array E (Some (path_of p)) true = Ok (Some (o :: ids_of E p)) ∧
       Forall uint (ids_of E p).
Proof.
  intros wf Hres Hlen. pose proof (seg_oids_uint E k None p wf ltac:(done) Hres) as Hu.
  rewrite (oid_array_written E k) by done. destruct p as [|s p]; [simpl in Hlen; lia|].
  exists (seg_oid (env_reg E) s). unfold ids_of. simpl in *. apply Forall_cons in Hu as [_ Hu]. done.
Qed.

(** ** Queries *)

(** The instance numbers of the children of one type, in order. *)
Definition instances (kids : eforest) (tid : Z) : list Z :=
  map (λ e, Z.land (e_id e) CFG_OBJ_MASK)
      (filter (λ e, CFG_OID_TO_TID (e_id e) = tid) (roots kids)).

Lemma child_oid_loop_spec s par f fuel tid :
  obj_rep s par f → (length (locs f) < fuel)%nat →
  child_oid_loop fuel (top f) tid s = Ok (instances f tid, s).
Proof.
  revert fuel. induction f as [|e k _ sb IH]; intros [|fuel] Hrep Hlen; [simpl in Hlen; lia|done|simpl in Hlen; lia|].
  destruct Hrep as (He & _ & _ & Hsb). rewrite locs_cons in Hlen. cbn [length] in Hlen. rewrite length_app in Hlen.
  cbn [child_oid_loop top]. step_by (get_node_Ok _ _ _ He). simpl brother.
  step_by (IH fuel Hsb ltac:(lia)). simpl id. unfold instances. cbn [roots].
  destruct (CFG_OID_TO_TID (e_id e) =? tid) eqn:Eq; zify_bool.
  - by rewrite filter_cons_True.
  - by rewrite filter_cons_False.
Qed.

Lemma query_object_run E s F path o ids :
  rep_tree s F → cfg_path_to_oid_array E (Some path) true = Ok (Some (o :: ids)) → Forall uint ids →
  cfg_obj_query_object E (Some path) None true s
  = Ok (match lookup F ids with
        | None => (-1, [])
        | Some (e, _) => (1, [Z.land (e_id e) CFG_OBJ_MASK])
        end, s) ∧
  cfg_obj_query_object E (Some path) None false s
  = Ok (if lookup F ids is Some _ then 1 else -1, [], s).
Proof.
  intros HF Hp Hids.
  assert (Hgo : ∀ g, cfg_obj_query_object E (Some path) None g s
    = Ok (match lookup F ids with
          | None => (-1, [])
          | Some (e, _) => (1, if g : bool then [Z.land (e_id e) CFG_OBJ_MASK] else [])
          end, s)).
  { intros g. unfold cfg_obj_query_object. step_by (mret_Ok (Some (@None tloc)) s). cbn iota.
    step_by (lock_Ok s). step_by (get_obj_spec E _ F _ o ids (rep_tree_lock 1 s F HF) Hp Hids).
    destruct (lookup F ids) as [[e k]|] eqn:Hl; cbn [option_map].
    - destruct (focus_tree s F ids e k HF Hl) as (par & b & _ & He & _).
      assert (Hr : (o ← get_node (e_loc e); mret (1, if g : bool then [Z.land (id o) CFG_OBJ_MASK] else []))
                     (with_lock 1 s)
                   = Ok ((1, if g : bool then [Z.land (e_id e) CFG_OBJ_MASK] else []), with_lock 1 s)).
      { by step_by (get_node_Ok (e_loc e) (with_lock 1 s) _ He). }
      step_by Hr. by step_by (unlock_Ok s).
    - step_by (mret_Ok (-1, @nil Z) (with_lock 1 s)). by step_by (unlock_Ok s). }
  rewrite !Hgo. split; by destruct (lookup F ids) as [[e k]|].
Qed.

Lemma query_children_run E s F path sub o ids t c :
  rep_tree s F → cfg_path_to_oid_array E (Some path) true = Ok (Some (o :: ids)) → Forall uint ids →
  cfg_type_query E (Some path) = Ok (Some t) → cfg_type_query_child E (Some t) (Some sub) = Ok (Some c) →
  cfg_obj_query_object E (Some path) (Some sub) true s
  = Ok (match lookup F ids with
        | None => (-1, [])
        | Some (_, k) =>
            let l := instances k (type_id (env_reg E) c) in (zlen l, l)
        end, s).
Proof.
  intros HF Hp Hids Ht Hc. unfold cfg_obj_query_object.
  assert (Hty : (t ← lift (cfg_type_query E (Some path));
                 match t with
                 | None => mret None
                 | Some _ =>
                     t' ← lift (cfg_type_query_child E t (Some sub));
                     match t' with None => mret None | Some c => mret (Some (Some c)) end
                 end) s = Ok (Some (Some c), s)).
  { step_by (lift_Ok _ _ s Ht). cbn iota. by step_by (lift_Ok _ _ s Hc). }
  step_by Hty. cbn iota. step_by (lock_Ok s).
  step_by (get_obj_spec E _ F _ o ids (rep_tree_lock 1 s F HF) Hp Hids).
  destruct (lookup F ids) as [[e k]|] eqn:Hl; cbn [option_map].
  - destruct (focus_tree s F ids e k HF Hl) as (par & b & _ & He & _ & Hk & Hsk & _).
    set (l := instances k (type_id (env_reg E) c)).
    assert (Hr : cfg_obj_get_child_oid (e_loc e) (type_id (env_reg E) c) true (with_lock 1 s)
                 = Ok ((zlen l, l), with_lock 1 s)).
    { unfold cfg_obj_get_child_oid. step_by (get_node_Ok (e_loc e) (with_lock 1 s) _ He).
      assert (Hi : with_fuel (λ fuel, child_oid_loop fuel (child (node_of e par (top k) b))
                    (type_id (env_reg E) c)) (with_lock 1 s) = Ok (l, with_lock 1 s)).
      { apply (child_oid_loop_spec _ (Some (e_loc e))); [by apply obj_rep_lock|]. by eapply (locs_fuel s). }
      by step_by Hi. }
    step_by Hr. by step_by (unlock_Ok s).
  - step_by (mret_Ok (-1, @nil Z) (with_lock 1 s)). by step_by (unlock_Ok s).
Qed.

(** ** Creation *)

(** Made forests carry 32-bit identifiers. *)
Lemma made_uint E `{Shm} tf f : made E tf f → Forall (λ e, uint (e_id e)) (preorder f).
Proof.
  revert f. induction tf as [|n tk IHk ts IHs]; intros [|e k sb]; simpl; try done.
  intros (He & _ & Hk & Hs). constructor; [rewrite He; apply u32_range|].
  apply Forall_app. split; [by apply IHk|by apply IHs].
Qed.

Lemma subtree_uint E `{Shm} n f : subtree E n f → Forall (λ e, uint (e_id e)) (preorder f).
Proof.
  intros (ck & fk & _ & _ & _ & Hm & ->). pose proof (made_uint E ck fk Hm) as Hu. rewrite Forall_forall in *.
  intros e He. apply Hu. eapply elem_of_sublist; [exact He|apply prune_sublist].
Qed.

Lemma NoDup_glue {A B} (g : A → B) l1 l2 :
  NoDup (map g l1) → NoDup (map g l2) → (∀ x, x ∈ map g l1 → x ∉ map g l2) → NoDup (map g (l1 ++ l2)).
Proof. intros. rewrite map_app, NoDup_app. done. Qed.

Lemma in_use_grow s s' L new par :
  same_but (L ++ locs new) (xlocs new) s s' → obj_rep s' par new →
  (∀ l, l ∈ L → is_Some (nodes s !! l) ∧ is_Some (nodes s' !! l)) →
  in_use s' = ((in_use s).1 ∪ list_to_set (locs new), (in_use s).2 ∪ list_to_set (xlocs new)).
Proof.
  intros Hsame Hrep HL. unfold in_use. f_equal; apply set_eq; intros l; cbn [fst snd];
    rewrite elem_of_union, elem_of_list_to_set, !elem_of_dom.
  - destruct (decide (l ∈ L)) as [Hd|Hd]; [destruct (HL l Hd); tauto|].
    destruct (decide (l ∈ locs new)) as [Hd2|Hd2]; [pose proof (obj_rep_locs _ _ _ Hrep l Hd2); tauto|].
    rewrite (sb_nodes _ _ _ _ Hsame) by set_solver. tauto.
  - destruct (decide (l ∈ xlocs new)) as [Hd2|Hd2]; [pose proof (obj_rep_xlocs _ _ _ Hrep l Hd2); tauto|].
    rewrite (sb_xmls _ _ _ _ Hsame) by done. tauto.
Qed.

(** [create_sub_obj_spec], from the root: the tree with the new object, and
    the memory it takes. *)
Lemma create_sub_tree E tk `{ShmLaws} s F ids ep kids oid n :
  wf_env E tk → rep_tree s F → lookup F ids = Some (ep, kids) → sint oid → sint (new_oid kids oid) →
  cfg_type_from_oid E oid = Some n → f_find kids oid [] = None →
  (CFG_OID_TO_ID oid = 0 → room_for kids oid) →
  (cfg_obj_create_sub_obj E (e_loc ep) oid s = Ok (-1, s) ∧ refuses s = true) ∨
  refuses s = false ∧ ∃ en f s', cfg_obj_create_sub_obj E (e_loc ep) oid s = Ok (new_oid kids oid, s') ∧
    e_id en = new_oid kids oid ∧ e_attrs en = [] ∧ subtree E n f ∧
    rep_tree s' (update F ids ep (fapp kids (FCons en f FNil))) ∧ lock_depth s' = lock_depth s ∧
    in_use s' = ((in_use s).1 ∪ list_to_set (locs (FCons en f FNil)),
                 (in_use s).2 ∪ list_to_set (xlocs (FCons en f FNil))).
Proof.
  intros wf HF Hl Ho Hi Hty Hnone Hroom.
  destruct (focus_tree s F ids ep kids HF Hl) as (par & b & rest & He & Hx & Hk & Hsk & Hperm & Hupd).
  destruct (focus_apart F ep kids rest (rt_sep _ _ HF) Hperm) as (Hsep & HdL & HdX).
  pose proof (rt_rep _ _ HF) as HrepF.
  destruct (create_sub_obj_spec E tk wf s ep par b kids oid n)
    as [?|(Hgive & en & f & s' & Hrun & Hid & Hat & Hsub & Hb' & Hfr & Hsame)];
    [by split; [|split]|by rewrite Hx; eauto|done..|by left|right; split; [done|]].
  exists en, f, s'. do 4 (split; [done|]). set (new := FCons en f FNil) in *.
  destruct Hb' as (Hp' & Hk' & Hsep'). rewrite app_comm_cons in Hsame.
  (* what is new is not in the rest of the tree *)
  destruct (fresh_disjoint _ _ _ _ HrepF Hfr) as [HdF HdFx].
  assert (Hrest : ∀ l, l ∈ e_loc ep :: locs kids ++ locs new → l ∉ map e_loc rest).
  { intros l. rewrite elem_of_cons, elem_of_app. intros [->|[Hl'|Hl']]; [apply HdL; by left|apply HdL; by right|].
    intros Hr. apply (HdF l); [|done]. unfold locs. rewrite Hperm. cbn [map]. rewrite map_app.
    clear -Hr. set_solver. }
  assert (Hrestx : ∀ l, l ∈ e_xml ep :: xlocs kids ++ xlocs new → l ∉ map e_xml rest).
  { intros l. rewrite elem_of_cons, elem_of_app. intros [->|[Hl'|Hl']]; [apply HdX; by left|apply HdX; by right|].
    intros Hr. apply (HdFx l); [|done]. unfold xlocs. rewrite Hperm. cbn [map]. rewrite map_app.
    clear -Hr. set_solver. }
  pose proof (rt_sep _ _ HF) as [Hnd Hndx]. pose proof (rt_ids _ _ HF) as Hids.
  unfold locs, xlocs in Hnd, Hndx. rewrite Hperm, app_comm_cons in Hnd, Hndx, Hids.
  rewrite map_app in Hnd, Hndx.
  split; [|split; [apply Hsame|]].
  - apply (Hupd ep (fapp kids new) s' _ _ eq_refl Hsame); try done.
    + intros l Hin. apply Hrestx. clear -Hin. set_solver.
    + rewrite (sb_xmls _ _ _ _ Hsame); [done|].
      destruct (separate_cons _ _ _ Hsep') as (_ & _ & _ & Hn & _). rewrite app_nil_r, xlocs_fapp in Hn.
      clear -Hn. set_solver.
    + rewrite app_comm_cons. apply NoDup_glue; [|by apply NoDup_app in Hnd as (_ & _ & ?)|].
      * destruct Hsep' as [Hs' _]. unfold locs in Hs'. cbn [preorder] in Hs'. by rewrite app_nil_r in Hs'.
      * intros l Hin. apply Hrest. cbn [map] in Hin. rewrite preorder_fapp, map_app in Hin. exact Hin.
    + rewrite app_comm_cons. apply NoDup_glue; [|by apply NoDup_app in Hndx as (_ & _ & ?)|].
      * destruct Hsep' as [_ Hs']. unfold xlocs in Hs'. cbn [preorder] in Hs'. by rewrite app_nil_r in Hs'.
      * intros l Hin. apply Hrestx. cbn [map] in Hin. rewrite preorder_fapp, map_app in Hin. exact Hin.
    + apply Forall_app in Hids as [[Hep Hids]%Forall_cons _].
      constructor; [done|]. rewrite preorder_fapp. apply Forall_app. split; [done|].
      unfold new. cbn [preorder]. rewrite app_nil_r. constructor; [rewrite Hid; by apply sint_uint|].
      by eapply subtree_uint.
  - eapply in_use_grow; [exact Hsame|exact (obj_rep_fapp _ _ _ _ Hk')|].
    intros l [->|Hl']%elem_of_cons; [rewrite He, Hp'; eauto|]. split; [exact (obj_rep_locs _ _ _ Hk l Hl')|].
    apply (obj_rep_locs s' (Some (e_loc ep)) (fapp kids new) Hk'). rewrite locs_fapp.
    clear -Hl'. set_solver.
Qed.

(** *** By path *)

Lemma roots_uint F ids ep kids s :
  rep_tree s F → lookup F ids = Some (ep, kids) → Forall (λ e, uint (e_id e)) (roots kids).
Proof.
  intros HF Hl. destruct (focus_tree s F ids ep kids HF Hl) as (par & b & rest & _ & _ & _ & _ & Hperm & _).
  pose proof (rt_ids _ _ HF) as Hids. rewrite Hperm in Hids.
  apply Forall_cons in Hids as [_ [Hids _]%Forall_app]. rewrite Forall_forall in *.
  intros e He. by apply Hids, roots_preorder.
Qed.

Section target.
Context (E : cfg_env) (tk : forest tloc) (wf : wf_env E tk).
Context (sg : seg) (Hty : sg_type sg ∈ all_types (env_root E) tk) (Hi : inst_ok (sg_inst sg)).
Let oid := target_oid (env_reg E) sg.

Lemma target_facts :
  sint oid ∧ 0 < oid ∧ cfg_type_from_oid E oid = Some (sg_type sg) ∧
  CFG_OID_TO_ID oid = default 0 (sg_inst sg).
Proof using wf Hty Hi.
  pose proof (type_id_range E tk _ wf Hty) as Hr.
  assert (Hd : 0 ≤ default 0 (sg_inst sg) < 2 ^ 16).
  { destruct (sg_inst sg); simpl in *; unfold CFG_OBJ_MASK in *; lia. }
  destruct (oid_parts (type_id (env_reg E) (sg_type sg)) (default 0 (sg_inst sg)) ltac:(lia) Hd) as [Ht Hid].
  unfold oid, target_oid. split; [unfold sint; lia|]. split; [lia|]. split; [|done].
  unfold cfg_type_from_oid. rewrite Ht. destruct wf as [_ [_ Hfind _] _]. by apply Hfind.
Qed.

(** The identifier is that of the path, or the next one of its type. *)
Lemma target_new_oid kids :
  Forall (λ e, uint (e_id e)) (roots kids) → (sg_inst sg = None → room_for kids oid) →
  sint (new_oid kids oid) ∧ (CFG_OID_TO_ID oid = 0 → room_for kids oid) ∧
  (sg_inst sg = None → ∀ e, e ∈ roots kids → e_id e ≠ new_oid kids oid).
Proof using wf Hty Hi.
  intros Hids Hroom. destruct target_facts as (Hs & Hpos & _ & Hid). pose proof (type_id_range E tk _ wf Hty).
  unfold new_oid. destruct (sg_inst sg) as [i|] eqn:Hin; simpl in Hid, Hi.
  - rewrite (proj2 (Z.eqb_neq _ 0)) by lia. split; [done|]. split; [lia|done].
  - rewrite (proj2 (Z.eqb_eq _ 0)) by done. specialize (Hroom eq_refl).
    destruct (next_oid_fresh kids oid (sint_uint _ Hs) Hids Hroom) as (Hm & Hu & _ & Hf).
    split; [|done]. rewrite !land_type in Hm by (done || by apply sint_uint).
    generalize dependent (next_oid kids oid). intros n Hm _ _. clear Hroom.
    unfold sint in *. unfold oid, target_oid in Hm. rewrite Hin in Hm. simpl default in Hm.
    rewrite Z.add_0_r in Hm. pose proof (Z.mod_pos_bound n (2 ^ 16)).
    assert ((type_id (env_reg E) (sg_type sg) * 2 ^ 16) mod 2 ^ 16 = 0) by apply Z_mod_mult. lia.
Qed.
End target.

Lemma create_object_run E tk `{ShmLaws} s F p sg ep kids :
  let oid := target_oid (env_reg E) sg in
  let path := path_of (p ++ [sg]) in
  wf_env E tk → rep_tree s F → p ≠ [] → resolves E None (p ++ [sg]) → seg_ok sg →
  strlen path < CFG_MAX_PATH_NAME → (length (p ++ [sg]) < CFG_MAX_NODE_LEVEL)%nat →
  lookup F (ids_of E p) = Some (ep, kids) → (sg_inst sg = None → room_for kids oid) →
  match f_find kids oid [] with
  | Some _ => cfg_obj_create_object E (Some path) s = Ok (-1, s)
  | None =>
      if refuses (with_lock 1 s) then cfg_obj_create_object E (Some path) s = Ok (-1, s) else
      ∃ en f s', cfg_obj_create_object E (Some path) s = Ok (new_oid kids oid, s') ∧
        e_id en = new_oid kids oid ∧ e_attrs en = [] ∧ subtree E (sg_type sg) f ∧
        rep_tree s' (update F (ids_of E p) ep (fapp kids (FCons en f FNil))) ∧
        lock_depth s' = lock_depth s ∧
        in_use s' = ((in_use s).1 ∪ list_to_set (locs (FCons en f FNil)),
                     (in_use s).2 ∪ list_to_set (xlocs (FCons en f FNil)))
  end.
Proof.
  intros oid path wf HF Hp Hres Hsg Hlen Hlev Hl Hroom.
  assert (Hresp : resolves E None p).
  { clear -Hres. revert Hres. generalize (@None tloc). induction p as [|a p IH]; intros node; [done|].
    simpl. intros (? & ? & ? & ?). do 3 (split; [done|]). by apply IH. }
  destruct (written_ids E tk p wf Hresp) as (o & Harr & Hids).
  { rewrite length_app in Hlev. destruct p; simpl in *; [done|lia]. }
  pose proof (resolves_types E tk None _ wf ltac:(done) Hres) as Hin.
  apply Forall_app in Hin as [_ [Hty _]%Forall_cons].
  destruct (last_seg E p sg Hp Hres) as (_ & Hi & _).
  destruct (target_facts E tk wf sg Hty Hi) as (Hs & Hpos & Hfrom & Hid).
  destruct (target_new_oid E tk wf sg Hty Hi kids (roots_uint _ _ _ _ _ HF Hl) Hroom) as (Hns & Hroom' & _).
  unfold cfg_obj_create_object. cbn [create_object]. unfold path.
  rewrite (M_bind_Ok _ _ _ _ _ (lift_Ok _ _ s (parent_path_of E p sg Hp Hres Hsg Hlen))). cbn iota.
  destruct (query_object_run E s F _ o _ HF Harr Hids) as [_ Hq]. rewrite Hl in Hq.
  rewrite (M_bind_Ok _ _ _ _ _ Hq). cbn [fst]. rewrite (proj2 (Z.leb_gt 1 0)) by lia.
  rewrite (M_bind_Ok _ _ _ _ _ (mret_Ok true s)). cbn [negb].
  rewrite (M_bind_Ok _ _ _ _ _ (lift_Ok _ _ s (path_to_oid_of E p sg Hp Hres Hsg tk wf Hlev))).
  fold oid in Hpos, Hs, Hfrom, Hid, Hns |- *. rewrite (proj2 (Z.leb_gt oid 0)) by lia.
  rewrite (M_bind_Ok _ _ _ _ _ (lock_Ok s)).
  pose proof (rep_tree_lock 1 s F HF) as HF1.
  rewrite (M_bind_Ok _ _ _ _ _ (get_obj_spec E _ F _ o _ HF1 Harr Hids)). rewrite Hl. cbn [option_map fst].
  destruct (f_find kids oid []) as [[e k]|] eqn:Hf.
  - destruct (focus_tree _ F _ ep kids HF1 Hl) as (par & b & _ & He & _ & Hk & Hsk & _).
    assert (Hr : cfg_obj_create_sub_obj E (e_loc ep) oid (with_lock 1 s) = Ok (-1, with_lock 1 s)).
    { unfold cfg_obj_create_sub_obj. step_by (get_child_spec _ ep par b kids oid He Hk Hsk).
      rewrite (u32_small oid) by (by apply sint_uint). by rewrite Hf. }
    rewrite (M_bind_Ok _ _ _ _ _ Hr). by rewrite (M_bind_Ok _ _ _ _ _ (unlock_Ok s)).
  - destruct (create_sub_tree E tk _ F _ ep kids oid _ wf HF1 Hl Hs Hns Hfrom Hf Hroom')
      as [[Hr ->]|(-> & en & f & s' & Hr & Hen & Hat & Hsub & HF' & Hlk & Huse)];
      rewrite (M_bind_Ok _ _ _ _ _ Hr).
    + by rewrite (M_bind_Ok _ _ _ _ _ (unlock_Ok s)).
    + exists en, f, (with_lock (-1) s'). split; [done|]. do 3 (split; [done|]).
      split; [by apply rep_tree_lock|]. split; [simpl in *; lia|exact Huse].
Qed.
(** Below an object that is not there and of no dynamic type nothing is
    created. *)
Lemma create_object_orphan E tk `{Shm} s F p sg P :
  let path := path_of (p ++ [sg]) in
  wf_env E tk → rep_tree s F → p ≠ [] → resolves E None (p ++ [sg]) → seg_ok sg →
  strlen path < CFG_MAX_PATH_NAME → (length (concat (map seg_tokens p)) < CFG_MAX_NODE_LEVEL)%nat →
  last_type None p = Some P → dynamic (env_types E) (env_reg E) (type_id (env_reg E) P) = false →
  lookup F (ids_of E p) = None → cfg_obj_create_object E (Some path) s = Ok (-1, s).
Proof.
  intros path wf HF Hp Hres Hsg Hlen Hlev HP Hdyn Hl.
  assert (Hresp : resolves E None p).
  { clear -Hres. revert Hres. generalize (@None tloc). induction p as [|a p IH]; intros node; [done|].
    simpl. intros (? & ? & ? & ?). do 3 (split; [done|]). by apply IH. }
  assert (Hlp : (1 ≤ length p ≤ CFG_MAX_NODE_LEVEL)%nat).
  { assert (Ht : (length p ≤ length (concat (map seg_tokens p)))%nat).
    { clear. induction p; [done|]. cbn [map concat]. rewrite length_app. simpl. lia. }
    destruct p; [done|]. simpl length in *. lia. }
  destruct (written_ids E tk p wf Hresp Hlp) as (o & Harr & Hids).
  pose proof (resolves_types E tk None p wf ltac:(done) Hresp) as Hin.
  assert (HPt : P ∈ all_types (env_root E) tk).
  { unfold last_type in HP. destruct (last p) as [a|] eqn:Ha; [|by apply last_None in Ha]. injection HP as <-.
    rewrite Forall_forall in Hin. apply Hin. apply last_Some in Ha as [p' ->]. apply elem_of_app. right. by left. }
  pose proof (type_id_range E tk P wf HPt) as Hr.
  unfold cfg_obj_create_object. cbn [create_object]. unfold path.
  rewrite (M_bind_Ok _ _ _ _ _ (lift_Ok _ _ s (parent_path_of E p sg Hp Hres Hsg Hlen))). cbn iota.
  destruct (query_object_run E s F _ o _ HF Harr Hids) as [_ Hq]. rewrite Hl in Hq.
  rewrite (M_bind_Ok _ _ _ _ _ Hq). cbn [fst]. change (-1 <=? 0) with true. cbn iota.
  rewrite (M_bind_Ok _ _ s false s); [done|].
  assert (Hqt : cfg_type_query E (Some (path_of p)) = Ok (Some P)) by (by rewrite type_query_written, HP).
  rewrite (M_bind_Ok _ _ _ _ _ (lift_Ok _ _ s Hqt)).
  rewrite (M_bind_Ok _ _ _ _ _ (lift_Ok _ _ s (is_dynamic_type_spec E tk (type_id (env_reg E) P) wf ltac:(lia)))).
  by rewrite Hdyn.
Qed.
End CfgSpec.
