(* ===== verification/CfgProps.v ===== *)
(** * Properties of the object store

    Identifiers stay distinct among siblings; setting, creating and deleting
    are what they say on the tree; and two ways in which they are not. *)

From S2P Require Import Prelude CString CfgType CfgPath CfgObj CfgHeap CfgStore CfgCreate CfgSpec.
Open Scope Z_scope.

Module CfgProps.
Import CfgType CfgPath CfgObj CfgHeap CfgStore CfgCreate CfgSpec.

(** ** Siblings have distinct identifiers *)

Definition ids (f : eforest) : list Z := map e_id (roots f).

Fixpoint distinct (f : eforest) : Prop :=
  match f with
  | FNil => True
  | FCons e k sb => e_id e ∉ ids sb ∧ distinct k ∧ distinct sb
  end.

Lemma ids_fapp f g : ids (fapp f g) = ids f ++ ids g.
Proof. unfold ids. induction f as [|e k _ sb IH]; simpl; [done|]. by rewrite IH. Qed.

Lemma distinct_fapp f g : distinct (fapp f g) ↔ distinct f ∧ distinct g ∧ ids f ## ids g.
Proof.
  induction f as [|e k _ sb IH]; cbn [fapp distinct].
  - split; [intros; split; [done|]; split; [done|]; set_solver|tauto].
  - rewrite IH, ids_fapp. unfold ids at 4. cbn [roots map]. fold (ids sb). set_solver.
Qed.

Lemma f_find_None f o : f_find f o [] = None ↔ o ∉ ids f.
Proof.
  unfold ids. induction f as [|e k _ sb IH]; simpl; [set_solver|].
  destruct (e_id e =? o) eqn:Eq; zify_bool; [|rewrite IH; set_solver]. split; [done|set_solver].
Qed.

Lemma ids_update f o l e e' k k' :
  f_find f o l = Some (e, k) → e_id e' = e_id e → ids (f_update f o l e' k') = ids f.
Proof.
  intros Hf He. unfold ids. revert o l Hf. induction f as [|a ka _ sb IH]; intros o l; simpl; [done|].
  destruct (e_id a =? o); [|intros Hf; simpl; by rewrite (IH _ _ Hf)].
  destruct l; simpl; [intros [= -> ->]; by rewrite He|done].
Qed.

Lemma distinct_update f o l e e' k k' :
  distinct f → f_find f o l = Some (e, k) → e_id e' = e_id e → distinct k' →
  distinct (f_update f o l e' k').
Proof.
  intros Hd Hf He Hk'. revert o l Hf Hd. induction f as [|a ka IHk sb IHs]; intros o l; simpl; [done|].
  intros Hf (Ha & Hka & Hsb). destruct (e_id a =? o).
  - destruct l as [|o' l]; simpl; [injection Hf as -> ->; by rewrite He|]. eauto.
  - simpl. rewrite (ids_update sb o l e e' k k') by done. eauto.
Qed.

Lemma distinct_tree F l e e' k k' :
  distinct F → lookup F l = Some (e, k) → e_id e' = e_id e → distinct k' → distinct (update F l e' k').
Proof. unfold lookup, update. destruct F; [done|]. apply distinct_update. Qed.

Lemma distinct_find f o l e k : distinct f → f_find f o l = Some (e, k) → distinct k.
Proof.
  revert o l. induction f as [|a ka IHk sb IHs]; intros o l; simpl; [done|]. intros (_ & Hk & Hs).
  destruct (e_id a =? o); [|eauto]. destruct l; [intros [= -> ->]; done|eauto].
Qed.

Lemma distinct_lookup F l e k : distinct F → lookup F l = Some (e, k) → distinct k.
Proof. unfold lookup. destruct F; [done|]. apply distinct_find. Qed.

Lemma distinct_remove f o : distinct f → distinct (f_remove f o) ∧ o ∉ ids (f_remove f o) ∧
  ids (f_remove f o) ⊆ ids f.
Proof.
  unfold ids. induction f as [|e k _ sb IH]; simpl; [set_solver|]. intros (He & Hk & Hs).
  destruct (IH Hs) as (? & ? & ?). destruct (e_id e =? o) eqn:Eq; zify_bool.
  - subst. split; [done|]. split; [exact He|set_solver].
  - simpl. split; [set_solver|]. set_solver.
Qed.

Lemma prune_ids dyn f : ids (prune dyn f) ⊆ ids f.
Proof.
  unfold ids. induction f as [|e k _ sb IH]; simpl; [done|]. destruct (dyn _); simpl; set_solver.
Qed.

Lemma distinct_prune dyn f : distinct f → distinct (prune dyn f).
Proof.
  induction f as [|e k IHk sb IHs]; simpl; [done|]. intros (He & Hk & Hs).
  destruct (dyn _); simpl; [auto|]. split; [|auto]. intros Hin. by apply He, (prune_ids dyn).
Qed.

(** The objects made for a type table: one for each type, so all distinct. *)
Lemma made_ids E tk `{Shm} tf f :
  wf_env E tk → preorder tf ⊆ all_types (env_root E) tk → NoDup (preorder tf) → made E tf f →
  distinct f ∧
  ∀ i, i ∈ ids f → ∃ n, n ∈ roots tf ∧ i = type_id (env_reg E) n * 2 ^ 16 + 1.
Proof.
  intros wf. revert f. induction tf as [|n tk' IHk ts IHs]; intros [|e k sb] Hin Hnd; cbn [made];
    try done; try (intros; split; [done|set_solver]).
  intros (He & _ & Hk & Hs). cbn [preorder] in Hin, Hnd.
  apply NoDup_cons in Hnd as [Hn [Hnk [_ Hns]]%NoDup_app].
  destruct (IHk k ltac:(set_solver) Hnk Hk) as [Hdk _].
  destruct (IHs sb ltac:(set_solver) Hns Hs) as [Hds Hids].
  pose proof (type_id_range E tk n wf ltac:(set_solver)) as Hr.
  assert (Hei : e_id e = type_id (env_reg E) n * 2 ^ 16 + 1).
  { rewrite He. unfold CFG_TYPE_SHIFT. rewrite Z.shiftl_mul_pow2 by lia. apply u32_small. lia. }
  cbn [distinct]. split.
  - split; [|done]. intros Hbad. destruct (Hids _ Hbad) as (m & Hm & Heq). rewrite Hei in Heq.
    assert (Hmt : m ∈ all_types (env_root E) tk) by (apply Hin; apply roots_preorder in Hm; set_solver).
    assert (n = m); [|subst; apply roots_preorder in Hm; set_solver].
    destruct wf as [_ [_ Hfind _] _].
    assert (Hnt : n ∈ all_types (env_root E) tk) by set_solver.
    pose proof (Hfind n Hnt) as H1. pose proof (Hfind m Hmt) as H2.
    replace (type_id (env_reg E) n) with (type_id (env_reg E) m) in H1 by lia. congruence.
  - unfold ids. cbn [roots map]. intros i [->|Hi]%elem_of_cons; [exists n; set_solver|].
    destruct (Hids i Hi) as (m & Hm & ->). exists m. set_solver.
Qed.

Lemma types_rep_in E tk n ck :
  wf_env E tk → n ∈ all_types (env_root E) tk → types_rep (env_types E) (Some n) ck →
  roots ck ⊆ children E n → preorder ck ⊆ all_types (env_root E) tk.
Proof.
  intros wf. revert n. induction ck as [|m k IHk sb IHs]; intros n Hn Hrep Hch; [set_solver|].
  destruct Hrep as ((ty & Hty & _ & Hsub) & Hk & Hs). cbn [roots] in Hch.
  pose proof (children_types E tk wf n m Hn ltac:(set_solver)) as Hm.
  assert (Hk' : preorder k ⊆ all_types (env_root E) tk).
  { apply (IHk m); [done|done|]. unfold children. by rewrite Hty, Hsub. }
  pose proof (IHs n Hn Hs ltac:(set_solver)). set_solver.
Qed.

Lemma subtree_distinct E tk `{Shm} n f :
  wf_env E tk → n ∈ all_types (env_root E) tk → subtree E n f → distinct f.
Proof.
  intros wf Hn (ck & fk & Hrep & Hch & Hnd & Hm & ->). apply distinct_prune.
  eapply made_ids; [exact wf| |exact Hnd|exact Hm]. apply (types_rep_in E tk n); [done|done|done|].
  by rewrite Hch.
Qed.

(** ** Reading after writing *)

Lemma f_find_update f o l e e' k o' l' :
  f_find f o l = Some (e, k) → e_id e' = e_id e →
  option_map fst (f_find (f_update f o l e' k) o' l')
  = if decide (o = o' ∧ l = l') then Some e' else option_map fst (f_find f o' l').
Proof.
  intros Hf He. revert o l o' l' Hf. induction f as [|a ka IHk sb IHs]; intros o l o' l'; cbn [f_find f_update]; [done|].
  destruct (e_id a =? o) eqn:Eo; zify_bool.
  - destruct l as [|i l]; cbn [f_find].
    + intros [= -> ->]. rewrite He. destruct (e_id e =? o') eqn:Eo'; zify_bool.
      * destruct l' as [|i' l']; [by rewrite decide_True by (subst; done)|].
        rewrite decide_False by naive_solver. done.
      * rewrite decide_False by (intros [-> _]; lia). done.
    + intros Hf. destruct (e_id a =? o') eqn:Eo'; zify_bool.
      * destruct l' as [|i' l']; [rewrite decide_False by naive_solver; done|].
        rewrite (IHk _ _ i' l' Hf). destruct (decide (i = i' ∧ l = l')) as [[-> ->]|Hne].
        -- by rewrite decide_True by (subst; done).
        -- rewrite decide_False by naive_solver. done.
      * rewrite decide_False by (intros [-> _]; lia). done.
  - intros Hf. cbn [f_find]. destruct (e_id a =? o') eqn:Eo'; zify_bool; [|by apply IHs].
    rewrite decide_False by (intros [-> _]; lia). destruct l'; [done|]. done.
Qed.

Lemma lookup_update F l e e' k l' :
  lookup F l = Some (e, k) → e_id e' = e_id e →
  option_map fst (lookup (update F l e' k) l')
  = if decide (l = l') then Some e' else option_map fst (lookup F l').
Proof.
  intros Hl He. unfold lookup, update in *. destruct F as [|r K sb]; [done|].
  assert (Hr : ∃ r' K', f_update (FCons r K sb) (e_id r) l e' k = FCons r' K' sb ∧ e_id r' = e_id r).
  { cbn [f_update f_find] in *. rewrite Z.eqb_refl in *. destruct l; [injection Hl as -> ->|]; eauto. }
  destruct Hr as (r' & K' & Hupd & Hid).
  pose proof (f_find_update (FCons r K sb) (e_id r) l e e' k (e_id r) l' Hl He) as H.
  rewrite Hupd, Hid in *. rewrite H. destruct (decide (l = l')) as [->|]; [by rewrite decide_True|].
  by rewrite decide_False by naive_solver.
Qed.

Lemma f_find_updated f o l e e' k k' :
  f_find f o l = Some (e, k) → e_id e' = e_id e → f_find (f_update f o l e' k') o l = Some (e', k').
Proof.
  intros Hf He. revert o l Hf. induction f as [|a ka IHk sb IHs]; intros o l; simpl; [done|].
  destruct (e_id a =? o) eqn:Eo; simpl; rewrite ?Eo; [|apply IHs].
  destruct l; simpl; [intros [= -> ->]; by rewrite He, Eo|rewrite Eo; apply IHk].
Qed.

Lemma lookup_updated F l e e' k k' :
  lookup F l = Some (e, k) → e_id e' = e_id e → lookup (update F l e' k') l = Some (e', k').
Proof.
  unfold lookup, update. destruct F as [|r K sb]; [done|]. intros Hl He.
  pose proof (f_find_updated (FCons r K sb) (e_id r) l e e' k k' Hl He) as Hf.
  destruct (f_update (FCons r K sb) (e_id r) l e' k') as [|r' K' sb'] eqn:Hu; [done|].
  replace (e_id r') with (e_id r); [done|].
  cbn [f_update f_find] in *. rewrite Z.eqb_refl in *. destruct l; [injection Hl as -> ->|]; by injection Hu as <- <- <-.
Qed.

(** ** Start-up *)

Lemma prune_static dyn f : Forall (λ e, dyn (CFG_OID_TO_TID (e_id e)) = false) (preorder (prune dyn f)).
Proof.
  induction f as [|e k IHk sb IHs]; simpl; [constructor|]. destruct (dyn _) eqn:Hd; [done|].
  simpl. constructor; [done|]. apply Forall_app. done.
Qed.

(** The memory after [f] was made and then cut down to [g]. *)
Lemma in_use_made s s1 s2 f g :
  same_but (locs f) (xlocs f) s s1 → fresh_in f s → same_but (locs f) (xlocs f) s1 s2 → obj_rep s2 None g →
  (∀ l, l ∈ locs f → l ∉ locs g → nodes s2 !! l = None) → (∀ x, x ∈ xlocs f → x ∉ xlocs g → xmls s2 !! x = None) →
  in_use s2 = ((in_use s).1 ∪ list_to_set (locs g), (in_use s).2 ∪ list_to_set (xlocs g)).
Proof.
  intros [Hn1 Hx1 _ _] [Hfn Hfx] [Hn2 Hx2 _ _] Hg Hgn Hgx.
  unfold in_use. f_equal; apply set_eq; intros l; cbn [fst snd]; rewrite elem_of_union, elem_of_list_to_set, !elem_of_dom.
  - destruct (decide (l ∈ locs g)) as [Hd|Hd]; [pose proof (obj_rep_locs _ _ _ Hg l Hd); tauto|].
    destruct (decide (l ∈ locs f)) as [Hf|Hf]; [rewrite Hgn, Hfn by done; tauto|]. rewrite Hn2, Hn1 by done. tauto.
  - destruct (decide (l ∈ xlocs g)) as [Hd|Hd]; [pose proof (obj_rep_xlocs _ _ _ Hg l Hd); tauto|].
    destruct (decide (l ∈ xlocs f)) as [Hf|Hf]; [rewrite Hgx, Hfx by done; tauto|]. rewrite Hx2, Hx1 by done. tauto.
Qed.

Lemma load_from_type_run E tk `{ShmLaws} s :
  wf_env E tk →
  dynamic (env_types E) (env_reg E) (type_id (env_reg E) (env_root E)) = false →
  ∃ F s', cfg_obj_load_from_type E s = Ok (top F, s') ∧ obj_rep s' None F ∧ separate F ∧
    in_use s' = ((in_use s).1 ∪ list_to_set (locs F), (in_use s).2 ∪ list_to_set (xlocs F)) ∧
    lock_depth s' = lock_depth s ∧ cfg_obj_root s' = cfg_obj_root s ∧
    ((F = FNil ∧ ∃ s0, shm_calloc s0 = None) ∨
     ∃ r K, made E (FCons (env_root E) tk FNil) (FCons r K FNil) ∧
            F = FCons r (prune (dynamic (env_types E) (env_reg E)) K) FNil).
Proof.
  intros wf Hroot. pose proof wf as [[Hrep Hnd] _ Hfuel]. unfold cfg_obj_load_from_type.
  assert (Hlen : (length (preorder (FCons (env_root E) tk FNil)) ≤ env_fuel E)%nat).
  { rewrite all_types_preorder. lia. }
  assert (Hsib : siblings_rep (env_types E) None (FCons (env_root E) tk FNil)) by (simpl; lia).
  destruct (create_from_type_spec E (env_fuel E) None (FCons (env_root E) tk FNil) Hrep
              Hsib Hnd Hlen None s (env_root E) eq_refl)
    as (f & s1 & Hr1 & Hm & Hrep1 & Hsep1 & [Hfn Hfx] & Hs1).
  step_by Hr1. destruct f as [|r K sb]; cbn [made top] in *.
  { exists FNil, s1. do 3 (split; [done|]). split; [by apply (in_use_made s s1 s1 FNil FNil)|].
    split; [apply Hs1|]. split; [apply Hs1|by left]. }
  destruct Hm as (Hid & Hat & HmK & Hsb). destruct sb; [|done].
  destruct Hrep1 as (Hr & Hx & HK & _). pose proof (separate_cons _ _ _ Hsep1) as (HsK & _).
  pose proof (type_id_range E tk (env_root E) wf ltac:(by left)) as Hty.
  assert (Htid : CFG_OID_TO_TID (e_id r) = type_id (env_reg E) (env_root E)).
  { rewrite Hid. unfold CFG_TYPE_SHIFT. rewrite Z.shiftl_mul_pow2, u32_small by lia. apply oid_parts; lia. }
  assert (Hfu : (length (locs K) < pred (walk_fuel s1))%nat).
  { pose proof (locs_fuel s1 None (FCons r K FNil)) as Hlt. rewrite locs_cons, app_nil_r in Hlt.
    specialize (Hlt ltac:(simpl; done) Hsep1). simpl in Hlt. lia. }
  destruct (del_from_type_spec E tk wf K _ Hfu s1 r None None FNil) as (r2 & s2 & Hr2 & [Hs2 He2 HK2 Hn2 Hx2]).
  { split; [done|]. split; done. }
  assert (Hxr : xmls s2 !! e_xml r = Some (e_attrs r)).
  { rewrite (sb_xmls _ _ _ _ Hs2); [done|]. destruct (separate_cons _ _ _ Hsep1) as (_ & _ & _ & Hn & _).
    by rewrite app_nil_r in Hn. }
  assert (Hdel : with_fuel (λ fuel, cfg_obj_del_from_type E fuel (Some (e_loc r))) s1 = Ok (1, s2)).
  { unfold with_fuel. replace (walk_fuel s1) with (S (pred (walk_fuel s1))) by (unfold walk_fuel; lia).
    destruct (pred (walk_fuel s1)) as [|n]; [lia|].
    cbn [cfg_obj_del_from_type]. step_by (get_node_Ok _ _ _ Hr). simpl child. step_by Hr2.
    step_by (get_node_Ok _ _ _ He2). cbn [brother node_of].
    step_by (mret_Ok 0 s2). step_by (get_node_Ok _ _ _ He2). cbn [id node_of]. rewrite Htid.
    step_by (lift_Ok _ _ s2 (is_dynamic_type_spec E tk (type_id (env_reg E) (env_root E)) wf ltac:(lia))).
    by rewrite Hroot. }
  step_by Hdel. eexists (FCons r (prune _ K) FNil), s2. split; [done|]. cbn [fapp] in *.
  split; [by split|]. split; [|split; [|split; [|split; [|right; exists r, K; done]]]].
  - eapply separate_sub; [exact Hsep1|]. simpl. rewrite !app_nil_r. apply sublist_skip, prune_sublist.
  - apply (in_use_made s s1 s2 (FCons r K FNil)); [done|by split|..].
    + eapply same_but_weaken; [exact Hs2|..]; rewrite ?locs_cons, ?xlocs_cons, ?app_nil_r; set_solver.
    + by split.
    + rewrite !locs_cons, !app_nil_r. intros l [->|Hl]%elem_of_cons Hno; [by destruct Hno; left|].
      apply Hn2; [done|]. intros Hin. apply Hno. by right.
    + rewrite !xlocs_cons, !app_nil_r. intros l [->|Hl]%elem_of_cons Hno; [by destruct Hno; left|].
      apply Hx2; [done|]. intros Hin. apply Hno. by right.
  - rewrite (sb_lock _ _ _ _ Hs2). apply Hs1.
  - rewrite (sb_root _ _ _ _ Hs2). apply Hs1.
Qed.

(** ** A running instance

    An allocator that always finds room, attributes kept in a list, and the
    store that start-up makes for the table of [CfgType.Table]. *)

#[export] Instance demo_shm : Shm := λ s, Some (fresh (elements (dom (nodes s) ∪ dom (xmls s)))).

#[export] Instance demo_shm_laws : ShmLaws.
Proof.
  split. intros s l [= <-].
  pose proof (infinite_is_fresh (elements (dom (nodes s) ∪ dom (xmls s)))) as Hf.
  split; apply eq_None_not_Some; intros Hs; apply Hf, elem_of_elements, elem_of_union;
    [left|right]; by apply elem_of_dom.
Qed.

Fixpoint attr_set (a : xattrs) (n v : cstr) : xattrs :=
  match a with
  | [] => [(n, v)]
  | (m, w) :: a' => if decide (n = m) then (m, v) :: a' else (m, w) :: attr_set a' n v
  end.
Fixpoint attr_get (a : xattrs) (n : cstr) : option cstr :=
  match a with
  | [] => None
  | (m, w) :: a' => if decide (n = m) then Some w else attr_get a' n
  end.

#[export] Instance demo_xml : Xml := {| cfg_xml_set_attr _ := attr_set; cfg_xml_get_attr := attr_get; xml_room _ _ _ _ := true |}.

#[export] Instance demo_xml_laws : XmlLaws.
Proof.
  split.
  - intros s a n v _. cbn. induction a as [|[m w] a IH]; simpl; [by rewrite decide_True|].
    destruct (decide (n = m)) as [->|]; simpl; [by rewrite decide_True|by rewrite decide_False].
  - intros s a n m v Hne. cbn. induction a as [|[i w] a IH]; simpl; [by rewrite decide_False|].
    destruct (decide (n = i)) as [->|]; simpl; [by rewrite !decide_False|].
    destruct (decide (m = i)); [done|exact IH].
Qed.

(** Reads the tree back out of a store. *)
Fixpoint read_forest (fuel : nat) (s : store) (p : option oloc) : eforest :=
  match fuel, p with
  | S fuel', Some l =>
      match nodes s !! l with
      | Some o =>
          match private o with
          | Some x =>
              FCons {| e_loc := l; e_xml := x; e_id := id o; e_attrs := default [] (xmls s !! x) |}
                    (read_forest fuel' s (child o)) (read_forest fuel' s (brother o))
          | None => FNil
          end
      | None => FNil
      end
  | _, _ => FNil
  end.

Definition empty_store : store := {| nodes := ∅; xmls := ∅; cfg_obj_root := None; lock_depth := 0 |}.

(** The state of an operation that is expected to succeed. *)
Definition after {A} (m : SM A) (s : store) : store :=
  match m s with Ok (_, s') => s' | _ => s end.

(** After start-up. *)
Definition demo_store : store :=
  match cfg_obj_load_from_type demo_env empty_store with
  | Ok (r, s) => {| nodes := nodes s; xmls := xmls s; cfg_obj_root := r; lock_depth := 0 |}
  | _ => empty_store
  end.

Definition demo_tree (s : store) : eforest := read_forest 30 s (cfg_obj_root s).

#[export] Instance node_eq_dec : EqDecision cfg_node_obj.
Proof. solve_decision. Defined.
#[export] Instance obj_rep_dec s par f : Decision (obj_rep s par f).
Proof. revert par. induction f; intros par; simpl; apply _. Defined.
#[export] Instance distinct_dec f : Decision (distinct f).
Proof. induction f; simpl; apply _. Defined.
#[export] Instance uint_dec z : Decision (uint z).
Proof. unfold uint. apply _. Defined.

(** The conjuncts of [rep_tree], for evaluation. *)
Definition rep_treeb (s : store) (F : eforest) : bool :=
  bool_decide (cfg_obj_root s = top F) && bool_decide (obj_rep s None F) &&
  bool_decide (NoDup (locs F)) && bool_decide (NoDup (xlocs F)) &&
  match F with FCons _ _ FNil => true | FNil => true | _ => false end &&
  bool_decide (Forall (λ e, uint (e_id e)) (preorder F)).

Lemma rep_treeb_ok s F : rep_treeb s F = true → rep_tree s F.
Proof.
  unfold rep_treeb. rewrite !andb_true_iff, !bool_decide_eq_true.
  intros (((((? & ?) & ?) & ?) & ?) & ?). split; [done|done|by split| |done].
  destruct F as [|e k [|? ? ?]]; done.
Qed.

Lemma demo_store_rep : rep_tree demo_store (demo_tree demo_store).
Proof. apply rep_treeb_ok. vm_compute. reflexivity. Qed.

Definition run_create (p : string) : SM Z := cfg_obj_create_object demo_env (Some (cs p)).
Definition run_delete (p : string) : SM Z := cfg_obj_delete_object demo_env (Some (cs p)).
Definition run_children (p c : string) : SM (Z * list Z) :=
  cfg_obj_query_object demo_env (Some (cs p)) (Some (cs c)) true.

(** A path ["root.x..."] as segments, for instances of the properties. *)
Definition sroot : seg := {| sg_type := Table.l_root; sg_name := cs "root"; sg_inst := None |}.
Definition sdmz : seg := {| sg_type := Table.l_dmz; sg_name := cs "dmz"; sg_inst := None |}.
Definition sdmz_entry (i : option Z) : seg :=
  {| sg_type := Table.l_dmz_entry; sg_name := cs "entry"; sg_inst := i |}.
Definition stimezone : seg := {| sg_type := Table.l_timezone; sg_name := cs "timezone"; sg_inst := None |}.

(** [demo_store] with one DMZ entry. *)
Definition dmz_store : store := after (run_create "root.dmz.entry.1") demo_store.

Lemma dmz_store_rep : rep_tree dmz_store (demo_tree dmz_store).
Proof. apply rep_treeb_ok. vm_compute. reflexivity. Qed.

Lemma dmz_store_distinct : distinct (demo_tree dmz_store).
Proof. refine (@bool_decide_unpack _ (distinct_dec (demo_tree dmz_store)) _). vm_compute. exact I. Qed.

(** What a lookup that succeeds finds. *)
Definition found (s : store) (l : list Z) : entry * eforest :=
  default ({| e_loc := 1; e_xml := 1; e_id := 0; e_attrs := [] |}, FNil) (lookup (demo_tree s) l).

Lemma found_ok s l : is_Some (lookup (demo_tree s) l) → lookup (demo_tree s) l = Some ((found s l).1, (found s l).2).
Proof. unfold found. intros [[e k] ->]. done. Qed.

Ltac by_path :=
  cbn [resolves app];
  repeat (split; [vm_compute; reflexivity|split; [by_compute|split; [by_compute|]]]); exact I.

(** ** Properties *)

(** C28: [cfg_obj_set_object_attr] on an existing object succeeds, changes that object's
    attributes only in the abstract tree, a later [cfg_obj_get_object_attr] returns the
    value truncated to the caller's buffer (if shared memory had room for it, which the
    function does not look at), and every other attribute of every object reads as
    before. *)
Theorem set_attr_then_get E tk `{XmlLaws} s F p attr val e k :
  wf_env E tk → rep_tree s F → resolves E None p → (1 ≤ length p ≤ CFG_MAX_NODE_LEVEL)%nat →
  lookup F (ids_of E p) = Some (e, k) → attr ≠ [] →
  ∃ s', cfg_obj_set_object_attr E (Some (path_of p)) (Some attr) (Some val) s = Ok (0, s') ∧
    rep_tree s' (update F (ids_of E p) (with_attrs e (cfg_xml_set_attr (with_lock 1 s) (e_attrs e) attr val)) k) ∧
    (∀ size, 0 < size → xml_room (with_lock 1 s) (e_attrs e) attr val = true →
       cfg_obj_get_object_attr E (Some (path_of p)) (Some attr) true size s'
       = Ok ((Z.min (size - 1) (strlen val), Some (take (Z.to_nat (size - 1)) val)), s')) ∧
    (∀ q a size r, resolves E None q → (1 ≤ length q ≤ CFG_MAX_NODE_LEVEL)%nat → 0 < size →
       ids_of E q ≠ ids_of E p ∨ a ≠ attr →
       cfg_obj_get_object_attr E (Some (path_of q)) (Some a) true size s = Ok (r, s) →
       cfg_obj_get_object_attr E (Some (path_of q)) (Some a) true size s' = Ok (r, s')).
Proof.
  intros wf HF Hres Hlen Hl Hne.
  destruct (written_ids E tk p wf Hres Hlen) as (o & Hp & Hu).
  destruct (set_xml_tree s F _ e k (cfg_xml_set_attr (with_lock 1 s) (e_attrs e) attr val) HF Hl) as [HF' _].
  pose proof (λ l, lookup_update F _ e (with_attrs e (cfg_xml_set_attr (with_lock 1 s) (e_attrs e) attr val)) k l Hl eq_refl)
    as Hupd.
  eexists. split; [|split; [exact HF'|split]].
  - rewrite (set_object_attr_run E s F _ attr val o _ HF Hp Hu Hne). by rewrite Hl.
  - intros size Hs Hroom. rewrite (get_object_attr_run E _ _ _ attr size o _ HF' Hp Hu Hs).
    specialize (Hupd (ids_of E p)). rewrite decide_True in Hupd by done.
    destruct (lookup (update _ _ _ _) _) as [[e' k']|]; [|done]. injection Hupd as ->.
    simpl e_attrs. by rewrite xml_get_set.
  - intros q a size r Hresq Hlenq Hs Hother Hget.
    destruct (written_ids E tk q wf Hresq Hlenq) as (oq & Hq & Huq).
    rewrite (get_object_attr_run E s F _ a size oq _ HF Hq Huq Hs) in Hget. injection Hget as <-.
    rewrite (get_object_attr_run E _ _ _ a size oq _ HF' Hq Huq Hs). specialize (Hupd (ids_of E q)).
    destruct (decide (ids_of E p = ids_of E q)) as [Heq|Hneq].
    + rewrite <- Heq in *. rewrite Hl. destruct (lookup (update _ _ _ _) _) as [[e' k']|]; [|done].
      injection Hupd as ->. simpl e_attrs. rewrite xml_get_set_ne; [done|]. naive_solver.
    + destruct (lookup (update _ _ _ _) _) as [[e' k']|], (lookup F (ids_of E q)) as [[e2 k2]|];
        simpl in Hupd; try done. by injection Hupd as ->.
Qed.

Lemma set_attr_then_get_witness :
  ∃ s', cfg_obj_set_object_attr demo_env (Some (path_of [sroot; stimezone])) (Some (cs "TZ"))
          (Some (cs "GMT+08")) demo_store = Ok (0, s') ∧
    cfg_obj_get_object_attr demo_env (Some (path_of [sroot; stimezone])) (Some (cs "TZ")) true 32 s'
    = Ok ((6, Some (cs "GMT+08")), s').
Proof.
  destruct (set_attr_then_get demo_env Table.tree demo_store (demo_tree demo_store) [sroot; stimezone]
              (cs "TZ") (cs "GMT+08") (found demo_store (ids_of demo_env [sroot; stimezone])).1
              (found demo_store (ids_of demo_env [sroot; stimezone])).2 demo_env_wf demo_store_rep) as (s' & Hset & _ & Hget & _).
  - by_path.
  - unfold CFG_MAX_NODE_LEVEL. simpl. lia.
  - apply found_ok. vm_compute. eauto.
  - done.
  - exists s'. split; [exact Hset|]. apply Hget; [lia|reflexivity].
Defined.

(** C29: [cfg_obj_query_object] without a subtype returns the instance number of the
    object, and with a subtype the number and the list, in order, of the instances of
    that child type; it does not change the store. *)
Theorem query_object_answers E tk s F p t sub c :
  wf_env E tk → rep_tree s F → resolves E None p → (1 ≤ length p ≤ CFG_MAX_NODE_LEVEL)%nat →
  cfg_type_query E (Some (path_of p)) = Ok (Some t) →
  cfg_type_query_child E (Some t) (Some sub) = Ok (Some c) →
  cfg_obj_query_object E (Some (path_of p)) None true s
  = Ok (match lookup F (ids_of E p) with
        | None => (-1, [])
        | Some (e, _) => (1, [Z.land (e_id e) CFG_OBJ_MASK])
        end, s) ∧
  cfg_obj_query_object E (Some (path_of p)) (Some sub) true s
  = Ok (match lookup F (ids_of E p) with
        | None => (-1, [])
        | Some (_, k) => let l := instances k (type_id (env_reg E) c) in (zlen l, l)
        end, s).
Proof.
  intros wf HF Hres Hlen Ht Hc. destruct (written_ids E tk p wf Hres Hlen) as (o & Hp & Hu). split.
  - by destruct (query_object_run E s F _ o _ HF Hp Hu) as [Hq _].
  - by apply (query_children_run E s F _ sub o _ t c).
Qed.

Lemma query_object_answers_witness :
  cfg_obj_query_object demo_env (Some (path_of [sroot; sdmz])) (Some (cs "entry")) true dmz_store
  = Ok ((1, [1]), dmz_store).
Proof.
  destruct (query_object_answers demo_env Table.tree dmz_store (demo_tree dmz_store) [sroot; sdmz]
              Table.l_dmz (cs "entry") Table.l_dmz_entry demo_env_wf dmz_store_rep) as [_ ->].
  - by_path.
  - unfold CFG_MAX_NODE_LEVEL. simpl. lia.
  - vm_compute. reflexivity.
  - vm_compute. reflexivity.
  - vm_compute. reflexivity.
Defined.

(** Siblings keep apart when an object is created. *)
Lemma created_distinct E tk `{Shm} s F p sg ep kids en f :
  let oid := target_oid (env_reg E) sg in
  wf_env E tk → rep_tree s F → distinct F → p ≠ [] → resolves E None (p ++ [sg]) →
  lookup F (ids_of E p) = Some (ep, kids) → (sg_inst sg = None → room_for kids oid) →
  f_find kids oid [] = None → e_id en = new_oid kids oid → subtree E (sg_type sg) f →
  distinct (update F (ids_of E p) ep (fapp kids (FCons en f FNil))).
Proof.
  intros oid wf HF Hd Hp Hres Hl Hroom Hf Hid Hsub.
  pose proof (resolves_types E tk None _ wf ltac:(done) Hres) as Hin.
  apply Forall_app in Hin as [_ [Hty _]%Forall_cons].
  destruct (last_seg E p sg Hp Hres) as (_ & Hi & _).
  eapply distinct_tree; [done|exact Hl|done|]. apply distinct_fapp.
  split; [by eapply distinct_lookup|]. split.
  { cbn [distinct]. split; [unfold ids; set_solver|]. split; [by eapply subtree_distinct|done]. }
  assert (Hnew : new_oid kids oid ∉ ids kids).
  { destruct (target_new_oid E tk wf sg Hty Hi kids (roots_uint _ _ _ _ _ HF Hl) Hroom) as (_ & _ & Hfree).
    destruct (sg_inst sg) as [n|] eqn:Hn.
    - destruct (target_facts E tk wf sg Hty ltac:(by rewrite Hn)) as (_ & _ & _ & Hoid). rewrite Hn in Hoid.
      fold oid in Hoid. unfold new_oid. simpl in Hoid, Hi. rewrite (proj2 (Z.eqb_neq _ 0)) by lia.
      by apply f_find_None.
    - intros Hbad. unfold ids in Hbad. apply list_elem_of_fmap in Hbad as (e & Heq & He).
      by apply (Hfree eq_refl e He). }
  unfold ids at 2. cbn [roots map]. rewrite Hid. set_solver.
Qed.

(** C11: [cfg_obj_create_object] refines insertion in the abstract tree, for a written
    path within the limits. Below a parent that is there, for a number that is in use it
    returns -1. Otherwise (an automatic number being left) it returns -1 when memory is
    refused for the node of the new object or for its attributes, and else it appends
    under the parent one object with the requested (or the next free) instance number
    and the subtree of its static child types, leaving the rest of the tree alone; of
    that subtree an object and those beside and below it are missing if memory is refused
    for it, which the result does not show. A parent that is not there and not of a
    dynamic type makes it return -1. -1 leaves the store unchanged. *)
Theorem create_object_refines E tk `{ShmLaws} s F p sg :
  let oid := target_oid (env_reg E) sg in
  let path := path_of (p ++ [sg]) in
  wf_env E tk → rep_tree s F → distinct F → p ≠ [] → resolves E None (p ++ [sg]) → seg_ok sg →
  strlen path < CFG_MAX_PATH_NAME → (length (p ++ [sg]) < CFG_MAX_NODE_LEVEL)%nat →
  match lookup F (ids_of E p) with
  | None =>
      ∀ P, last_type None p = Some P → dynamic (env_types E) (env_reg E) (type_id (env_reg E) P) = false →
        (length (concat (map seg_tokens p)) < CFG_MAX_NODE_LEVEL)%nat →
        cfg_obj_create_object E (Some path) s = Ok (-1, s)
  | Some (ep, kids) =>
      (sg_inst sg = None → room_for kids oid) →
      if (if f_find kids oid [] is Some _ then true else false) || refuses (with_lock 1 s)
      then cfg_obj_create_object E (Some path) s = Ok (-1, s)
      else
        ∃ en f s', cfg_obj_create_object E (Some path) s = Ok (new_oid kids oid, s') ∧
          e_id en = new_oid kids oid ∧ e_attrs en = [] ∧ subtree E (sg_type sg) f ∧
          let F' := update F (ids_of E p) ep (fapp kids (FCons en f FNil)) in
          rep_tree s' F' ∧ distinct F' ∧ lock_depth s' = lock_depth s ∧
          in_use s' = ((in_use s).1 ∪ list_to_set (locs (FCons en f FNil)),
                       (in_use s).2 ∪ list_to_set (xlocs (FCons en f FNil)))
  end.
Proof.
  intros oid path wf HF Hd Hp Hres Hsg Hlen Hlev. destruct (lookup F (ids_of E p)) as [[ep kids]|] eqn:Hl.
  2:{ intros P HP Hdyn Htok. by apply (create_object_orphan E tk s F p sg P). }
  intros Hroom. pose proof (create_object_run E tk s F p sg ep kids wf HF Hp Hres Hsg Hlen Hlev Hl Hroom) as Hrun.
  cbv zeta in Hrun. fold oid path in Hrun.
  destruct (f_find kids oid []) as [[e k]|] eqn:Hf; [exact Hrun|]. cbn [orb].
  destruct (refuses (with_lock 1 s)); [exact Hrun|].
  destruct Hrun as (en & f & s' & Hr & Hid & Hat & Hsub & HF' & Hlk & Huse).
  exists en, f, s'. do 4 (split; [done|]). split; [done|]. split; [|done].
  by eapply created_distinct.
Qed.

Lemma create_object_refines_witness :
  let kids := (found dmz_store (ids_of demo_env [sroot; sdmz])).2 in
  let oid := target_oid (env_reg demo_env) (sdmz_entry None) in
  new_oid kids oid = type_id (env_reg demo_env) Table.l_dmz_entry * 2 ^ 16 + 2 ∧
  ∃ s' F', cfg_obj_create_object demo_env (Some (cs "root.dmz.entry")) dmz_store = Ok (new_oid kids oid, s') ∧
           rep_tree s' F' ∧ distinct F'.
Proof.
  intros kids oid. split; [vm_compute; reflexivity|].
  pose proof (create_object_refines demo_env Table.tree dmz_store (demo_tree dmz_store) [sroot; sdmz]
                (sdmz_entry None) demo_env_wf dmz_store_rep dmz_store_distinct) as H.
  cbv zeta in H. fold oid in H.
  assert (Hl : lookup (demo_tree dmz_store) (ids_of demo_env [sroot; sdmz])
    = Some ((found dmz_store (ids_of demo_env [sroot; sdmz])).1, kids)) by (apply found_ok; vm_compute; eauto).
  rewrite Hl in H. clear Hl.
  assert (Hno : (if f_find kids oid [] is Some _ then true else false) || refuses (with_lock 1 dmz_store) = false)
    by (vm_compute; reflexivity).
  rewrite Hno in H. clear Hno.
  replace (path_of ([sroot; sdmz] ++ [sdmz_entry None])) with (cs "root.dmz.entry") in H
    by (vm_compute; reflexivity).
  destruct H as (en & f & s' & Hr & _ & _ & _ & HF & Hd & _).
  - done.
  - by_path.
  - by_compute.
  - by apply Z.ltb_lt.
  - unfold CFG_MAX_NODE_LEVEL. simpl. lia.
  - intros _. by_compute.
  - eexists s', _. split; [exact Hr|]. split; [exact HF|exact Hd].
Defined.

(** C12: [cfg_obj_delete_object] removes exactly the addressed object and its descendants
    from the abstract tree, releases exactly their nodes and XML records, and the object
    can no longer be found. *)
Theorem delete_object_refines E tk `{Shm} s F p above o ep kids e k :
  wf_env E tk → rep_tree s F → distinct F → resolves E None p → (1 ≤ length p ≤ CFG_MAX_NODE_LEVEL)%nat →
  ids_of E p = above ++ [o] → lookup F above = Some (ep, kids) → f_find kids o [] = Some (e, k) →
  ∃ s', cfg_obj_delete_object E (Some (path_of p)) s = Ok (s32 o, s') ∧
    let F' := update F above ep (f_remove kids o) in
    rep_tree s' F' ∧ distinct F' ∧ lock_depth s' = lock_depth s ∧
    in_use s' = ((in_use s).1 ∖ list_to_set (locs (FCons e k FNil)),
                 (in_use s).2 ∖ list_to_set (xlocs (FCons e k FNil))) ∧
    cfg_obj_query_object E (Some (path_of p)) None true s' = Ok ((-1, []), s').
Proof.
  intros wf HF Hd Hres Hlen Hids Hl Hf. destruct (written_ids E tk p wf Hres Hlen) as (o0 & Hp & Hu).
  rewrite Hids in *.
  destruct (delete_object_run E s F _ o0 above o ep kids e k HF Hp Hu Hl Hf) as (s' & Hr & HF' & Hlk & Huse).
  exists s'. split; [done|]. cbv zeta. split; [done|].
  pose proof (distinct_lookup _ _ _ _ Hd Hl) as Hdk. destruct (distinct_remove kids o Hdk) as (Hd' & Hno & _).
  split; [by eapply distinct_tree|]. do 2 (split; [done|]).
  destruct (query_object_run E s' _ _ o0 _ HF' Hp Hu) as [-> _].
  assert (Hgone : lookup (update F above ep (f_remove kids o)) (above ++ [o]) = None); [|by rewrite Hgone].
  rewrite (lookup_snoc _ _ _ ep (f_remove kids o)) by (by eapply lookup_updated). by apply f_find_None.
Qed.

Lemma delete_object_refines_witness :
  ∃ s', cfg_obj_delete_object demo_env (Some (path_of [sroot; sdmz; sdmz_entry (Some 1)])) dmz_store
        = Ok (s32 (type_id Table.reg Table.l_dmz_entry * 2 ^ 16 + 1), s') ∧
    cfg_obj_query_object demo_env (Some (path_of [sroot; sdmz; sdmz_entry (Some 1)])) None true s'
    = Ok ((-1, []), s').
Proof.
  set (o := type_id Table.reg Table.l_dmz_entry * 2 ^ 16 + 1).
  set (dmz := found dmz_store (ids_of demo_env [sroot; sdmz])).
  set (e := found dmz_store (ids_of demo_env [sroot; sdmz; sdmz_entry (Some 1)])).
  destruct (delete_object_refines demo_env Table.tree dmz_store (demo_tree dmz_store)
              [sroot; sdmz; sdmz_entry (Some 1)] (ids_of demo_env [sroot; sdmz]) o dmz.1 dmz.2 e.1 e.2
              demo_env_wf dmz_store_rep) as (s' & Hr & _ & _ & _ & _ & Hq).
  - exact dmz_store_distinct.
  - by_path.
  - unfold CFG_MAX_NODE_LEVEL. simpl. lia.
  - vm_compute. reflexivity.
  - apply found_ok. vm_compute. eauto.
  - vm_compute. reflexivity.
  - exists s'. split; [exact Hr|exact Hq].
Defined.

(** C30: [cfg_obj_load_from_type] builds the object tree of the type table: one object
    per static type, in the table's shape and order, none for the dynamic
    (multiple-instance) types, with distinct identifiers under each parent; it returns
    no tree only when shared memory runs out. *)
Theorem load_from_type_makes_static_tree E tk `{ShmLaws} s :
  wf_env E tk →
  dynamic (env_types E) (env_reg E) (type_id (env_reg E) (env_root E)) = false →
  ∃ F s', cfg_obj_load_from_type E s = Ok (top F, s') ∧ obj_rep s' None F ∧ separate F ∧ distinct F ∧
    Forall (λ e, dynamic (env_types E) (env_reg E) (CFG_OID_TO_TID (e_id e)) = false) (preorder F) ∧
    ((F = FNil ∧ ∃ s0, shm_calloc s0 = None) ∨
     ∃ r K, made E (FCons (env_root E) tk FNil) (FCons r K FNil) ∧
            F = FCons r (prune (dynamic (env_types E) (env_reg E)) K) FNil).
Proof.
  intros wf Hroot. destruct (load_from_type_run E tk s wf Hroot) as (F & s' & Hr & Hrep & Hsep & _ & _ & _ & Hcase).
  exists F, s'. do 3 (split; [done|]).
  assert (Hgo : distinct F ∧ Forall (λ e, dynamic (env_types E) (env_reg E) (CFG_OID_TO_TID (e_id e)) = false) (preorder F)).
  { destruct Hcase as [[-> _]|(r & K & Hm & ->)]; [split; [done|constructor]|].
    assert (HF : distinct (FCons r K FNil)).
    { eapply (made_ids E tk (FCons (env_root E) tk FNil)); [done| | |exact Hm];
        rewrite all_types_preorder; [done|]. rewrite <- all_types_preorder. apply wf. }
    pose proof (distinct_prune (dynamic (env_types E) (env_reg E)) _ HF) as Hdp.
    pose proof (prune_static (dynamic (env_types E) (env_reg E)) (FCons r K FNil)) as Hst.
    destruct Hm as (Hid & _). pose proof (type_id_range E tk (env_root E) wf ltac:(by left)).
    assert (Htid : CFG_OID_TO_TID (e_id r) = type_id (env_reg E) (env_root E)).
    { rewrite Hid. unfold CFG_TYPE_SHIFT. rewrite Z.shiftl_mul_pow2, u32_small by lia. apply oid_parts; lia. }
    cbn [prune] in Hdp, Hst. by rewrite Htid, Hroot in Hdp, Hst. }
  destruct Hgo as [? ?]. done.
Qed.

Lemma load_from_type_makes_static_tree_witness :
  ∃ F s', cfg_obj_load_from_type demo_env empty_store = Ok (top F, s') ∧ distinct F ∧
          Forall (λ e, dynamic (env_types demo_env) (env_reg demo_env) (CFG_OID_TO_TID (e_id e)) = false)
            (preorder F).
Proof.
  destruct (load_from_type_makes_static_tree demo_env Table.tree empty_store demo_env_wf)
    as (F & s' & Hr & _ & _ & Hd & Hst & _).
  - vm_compute. reflexivity.
  - exists F, s'. split; [exact Hr|]. split; [exact Hd|exact Hst].
Defined.

(** After instances 2, 65535 and 1 of [root.dmz.entry] were created, creating one
    without a number hands out the number 1 again: two objects carry the same
    identifier. *)
Theorem auto_oid_reuses_a_taken_id :
  (run_create "root.dmz.entry.2" ;; run_create "root.dmz.entry.65535" ;;
   run_create "root.dmz.entry.1" ;; run_create "root.dmz.entry" ;;
   run_children "root.dmz" "entry") demo_store
  = Ok ((4, [2; 65535; 1; 2]),
        after (run_create "root.dmz.entry.2" ;; run_create "root.dmz.entry.65535" ;;
               run_create "root.dmz.entry.1" ;; run_create "root.dmz.entry") demo_store).
Proof. vm_compute. reflexivity. Qed.

(** An instance number over 65535 overflows into the type bits: creating
    [root.dmz.entry.65537] succeeds, leaves no instance of that type, and puts an object
    of type [timezone] under [dmz]. *)
Theorem big_instance_makes_another_type :
  match cfg_obj_create_object demo_env (Some (cs "root.dmz.entry.65537")) demo_store with
  | Ok (oid, s') =>
      oid = type_id Table.reg Table.l_timezone * 2 ^ 16 + 1 ∧
      cfg_obj_query_object demo_env (Some (cs "root.dmz")) (Some (cs "entry")) true s' = Ok ((0, []), s') ∧
      ids (match lookup (demo_tree s') (ids_of demo_env [sroot; sdmz]) with Some (_, k) => k | None => FNil end)
        = [type_id Table.reg Table.l_timezone * 2 ^ 16 + 1]
  | _ => False
  end.
Proof. vm_compute. done. Qed.
End CfgProps.
