(* ===== verification/SaveProps.v ===== *)
(** * Properties of saving and of the client library *)

From S2P Require Import Prelude CString Text Utility CfgType CfgPath CfgObj CfgHeap CfgSpec CfgProps CfgSave CfgCli.
Open Scope Z_scope.

Module SaveProps.
Import Text Utility CfgType CfgPath CfgObj CfgHeap CfgSpec CfgProps CfgSave CfgCli.

(** ** Attribute values in XML *)

(** The reading of the four entities the code writes. *)
Definition entities : list (cstr * Z) := [(cs "&amp;", 38); (cs "&lt;", 60); (cs "&gt;", 62); (cs "&quot;", 34)].

Fixpoint first_entity (l : list (cstr * Z)) (s : cstr) : option (cstr * Z) :=
  match l with
  | [] => None
  | (e, c) :: l' => if is_prefix e s then Some (e, c) else first_entity l' s
  end.

(** [skip] counts the bytes of an entity that are still to be passed over. *)
Fixpoint xml_decode (skip : nat) (s : cstr) : cstr :=
  match s with
  | [] => []
  | c :: s' =>
      match skip with
      | S n => xml_decode n s'
      | O => match first_entity entities s with
             | Some (e, d) => d :: xml_decode (length e - 1) s'
             | None => c :: xml_decode O s'
             end
      end
  end.

Definition xml_text (v : cstr) : cstr := concat (map xml_char v).

Lemma xml_decode_skip e s : xml_decode (length e) (e ++ s) = xml_decode 0 s.
Proof. induction e as [|c e IH]; [done|exact IH]. Qed.

Lemma xml_decode_text v : xml_decode 0 (xml_text v) = v.
Proof.
  induction v as [|c v IH]; [done|]. unfold xml_text in *. cbn [map concat].
  assert (Hent : ∀ e d s, (e, d) ∈ entities → xml_decode 0 (e ++ s) = d :: xml_decode 0 s).
  { intros e d s Hin. unfold entities in Hin.
    repeat (apply elem_of_cons in Hin as [[= -> ->]|Hin]; [reflexivity|]). set_solver. }
  set (rest := concat (map xml_char v)) in *. unfold xml_char.
  destruct (c =? 38) eqn:E1; [zify_bool; subst c; rewrite (Hent (cs "&amp;") 38), IH by set_solver; done|].
  destruct (c =? 60) eqn:E2; [zify_bool; subst c; rewrite (Hent (cs "&lt;") 60), IH by set_solver; done|].
  destruct (c =? 62) eqn:E3; [zify_bool; subst c; rewrite (Hent (cs "&gt;") 62), IH by set_solver; done|].
  destruct (c =? 34) eqn:E4; [zify_bool; subst c; rewrite (Hent (cs "&quot;") 34), IH by set_solver; done|].
  cbn [app xml_decode]. assert (Hno : first_entity entities (c :: rest) = None).
  { unfold entities. cbn [first_entity cs is_prefix]. change (chr "&") with 38.
    by rewrite (Z.eqb_sym 38 c), E1. }
  by rewrite Hno, IH.
Qed.

Lemma xml_text_plain v : Forall (λ c, c ∉ [60; 62; 34]) (xml_text v).
Proof.
  unfold xml_text. induction v as [|c v IH]; [constructor|]. cbn [map concat]. apply Forall_app. split; [|done].
  clear IH. unfold xml_char. destruct (c =? 38) eqn:E1; [by_compute|]. destruct (c =? 60) eqn:E2; [by_compute|].
  destruct (c =? 62) eqn:E3; [by_compute|]. destruct (c =? 34) eqn:E4; [by_compute|].
  zify_bool. constructor; [set_solver|constructor].
Qed.

Lemma checkvalue_loop_spec v acc len :
  strlen acc ≤ len - 1 → checkvalue_loop v acc len = take (Z.to_nat (len - 1)) (acc ++ xml_text v).
Proof.
  unfold xml_text. revert acc. induction v as [|c v IH]; intros acc Ha; cbn [checkvalue_loop map concat].
  - rewrite app_nil_r, take_ge; [done|unfold strlen in *; lia].
  - destruct (strlen acc <? len - 1) eqn:E; zify_bool.
    + rewrite IH.
      * assert (Hn : (Z.to_nat (len - 1) = length acc + Z.to_nat (len - strlen acc - 1))%nat) by (unfold strlen in *; lia).
        set (n := Z.to_nat (len - strlen acc - 1)) in *. rewrite Hn, <- !app_assoc, !take_app_add.
        f_equal. destruct (decide (n ≤ length (xml_char c))%nat).
        -- rewrite !take_app_le; rewrite ?length_take; try lia. by rewrite take_take, Nat.min_id.
        -- by rewrite (take_ge (xml_char c)) by lia.
      * rewrite strlen_app. unfold strlen in *. rewrite length_take. lia.
    + rewrite IH by lia. rewrite !take_app_le; [done|unfold strlen in *; lia..].
Qed.

(** An attribute value in the saved XML. [checkvalue] with its buffer of
    1024 bytes writes the value with ampersands, angle brackets and quotes replaced by their entities, so
    that no bracket or quote is left and reading the entities gives the value
    back; a value whose text has 1023 characters or more is cut (in the middle
    of an entity if need be), and then a NUL is stored behind the buffer. *)
Theorem checkvalue_roundtrip v :
  match checkvalue v 1024 with
  | Ok r => r = xml_text v ∧ xml_decode 0 r = v ∧ Forall (λ c, c ∉ [60; 62; 34]) r ∧ strlen r < 1023
  | Fault => 1023 ≤ strlen (xml_text v)
  | NoFuel => False
  end.
Proof.
  unfold checkvalue. rewrite checkvalue_loop_spec by done. cbn [app].
  change (Z.to_nat (1024 - 1)) with 1023%nat.
  destruct (strlen (take 1023 (xml_text v)) + 1 <? 1024) eqn:E; zify_bool; unfold strlen in *;
    rewrite length_take in E; [|lia].
  rewrite take_ge by lia. cbn [mret res_ret].
  split; [done|]. split; [apply xml_decode_text|]. split; [apply xml_text_plain|lia].
Qed.

(** ** The commit lock *)

(** A commit is serialised per type below the root: for every object below
    [root.<name>] the lock file is [/tmp/root.<name>.lock], whatever follows
    in the path; so two commits wait for each other exactly when they concern
    the same such type. *)
Theorem commit_lock_per_type r t p :
  token_ok (sg_name r) → token_ok (sg_name t) → sg_inst r = None →
  strlen (path_of (r :: t :: p)) < 118 →
  commit_lock_file (path_of (r :: t :: p))
  = Ok (Some (cs "/tmp/" ++ (sg_name r ++ [CFG_NODE_SPELIRATE_CHAR] ++ sg_name t) ++ cs ".lock")).
Proof.
  intros (Hr & _ & Hdr) (Ht & _ & Hdt) Hi Hlen. unfold commit_lock_file.
  rewrite (proj2 (Z.leb_gt _ _)) by lia.
  assert (Hp : path_of (r :: t :: p)
    = sg_name r ++ CFG_NODE_SPELIRATE_CHAR :: join (sg_name t ::
        (if sg_inst t is Some n then [fmt_u n] else []) ++ concat (map seg_tokens p))).
  { clear Hlen. destruct r as [? ? ri], t as [? ? [n|]]; simpl in Hi; subst ri; reflexivity. }
  set (more := (if sg_inst t is Some n then [fmt_u n] else []) ++ concat (map seg_tokens p)) in *.
  rewrite Hp in Hlen |- *. rewrite strchr_app by done.
  assert (Hfit : strlen (cs "/tmp/" ++ (sg_name r ++ [CFG_NODE_SPELIRATE_CHAR] ++ sg_name t) ++ cs ".lock") < 128).
  { pose proof (join_cons_length (sg_name t) more). unfold strlen in *.
    repeat (rewrite length_app in * || simpl length in * ). lia. }
  destruct more as [|m more]; cbn [join] in *.
  - rewrite (proj2 (strchr_None _ _) Hdt).
    change (CFG_NODE_SPELIRATE_CHAR :: sg_name t) with ([CFG_NODE_SPELIRATE_CHAR] ++ sg_name t).
    by rewrite (proj2 (Z.ltb_lt _ _) Hfit).
  - rewrite strchr_app by done. by rewrite (proj2 (Z.ltb_lt _ _) Hfit).
Qed.

Lemma commit_lock_per_type_witness :
  commit_lock_file (cs "root.wan.pvc.2.entry.1") = Ok (Some (cs "/tmp/root.wan.lock")).
Proof.
  apply (commit_lock_per_type {| sg_type := 1; sg_name := cs "root"; sg_inst := None |}
           {| sg_type := 2; sg_name := cs "wan"; sg_inst := None |}
           [{| sg_type := 3; sg_name := cs "pvc"; sg_inst := Some 2 |};
            {| sg_type := 4; sg_name := cs "entry"; sg_inst := Some 1 |}]);
    [unfold token_ok; by_compute..|done|vm_compute; done].
Defined.

(** ** Attribute files and profile reading *)

Local Ltac len_lia :=
  repeat first [rewrite length_app | match goal with H : context [length (_ ++ _)] |- _ => rewrite length_app in H end
               | progress cbn [length app] in *]; lia.

Lemma attr_lines_app type a b :
  attr_lines type (a ++ b) = (x ← attr_lines type a; y ← attr_lines type b; mret (x ++ y)).
Proof.
  induction a as [|p a IH]; cbn [app attr_lines].
  - unfold mbind, res_bind, mret, res_ret. by destruct (attr_lines type b).
  - rewrite IH. unfold mbind, res_bind, mret, res_ret. destruct (attr_line type p); [|done..].
    destruct (attr_lines type a); [|done..]. destruct (attr_lines type b); [|done..]. by rewrite app_assoc.
Qed.

Definition qmark (type : Z) : cstr := if type =? QMARKS then [34] else [].

(** The line of an attribute, without its newline. *)
Definition line_of (type : Z) (a : cstr * cstr) : cstr := a.1 ++ [61] ++ qmark type ++ a.2 ++ qmark type.

(** An attribute whose line goes through a file unharmed. *)
Definition line_ok (type : Z) (a : cstr * cstr) : Prop :=
  Forall (λ c, c ≠ NL) (line_of type a) ∧ strlen (line_of type a) < 127 ∧ 96 ∉ a.2.

Lemma attr_line_ok type a :
  type = QMARKS ∨ type = NO_QMARKS → line_ok type a → attr_line type a = Ok (line_of type a ++ [NL]).
Proof.
  intros Ht (_ & Hl & Hq). destruct a as [n v]. unfold line_of, qmark, strlen in *. cbn [fst snd] in *.
  assert (Hfit : ∀ l : cstr, (length l ≤ 2176)%nat → take (Z.to_nat (MAX_TCAPI_MSG_SIZE * 2 + 128)) l = l).
  { intros l Hlen. apply take_ge. exact Hlen. }
  unfold attr_line. destruct Ht as [->| ->].
  - assert (Hesc : escape_special_character v (MAX_TCAPI_MSG_SIZE * 2 + 1) = Ok v).
    { unfold escape_special_character. by rewrite (proj2 (strchr_None _ _) Hq). }
    change (QMARKS =? QMARKS) with true in *. change (QMARKS =? NO_QMARKS) with false. cbn iota in *. unfold mbind, res_bind. rewrite Hesc.
    cbn [mret res_ret]. rewrite Hfit; [|len_lia].
    f_equal. by rewrite <- !app_assoc.
  - change (NO_QMARKS =? QMARKS) with false in *. change (NO_QMARKS =? NO_QMARKS) with true. cbn iota in *. cbn [mret res_ret app] in *.
    rewrite app_nil_r in *. rewrite Hfit; [|len_lia].
    f_equal. by rewrite <- !app_assoc.
Qed.

Lemma attr_lines_ok type attrs :
  type = QMARKS ∨ type = NO_QMARKS → Forall (line_ok type) attrs →
  attr_lines type attrs = Ok (concat (map (λ a, line_of type a ++ [NL]) attrs)).
Proof.
  intros Ht H. induction H as [|a attrs Ha _ IH]; [done|]. cbn [attr_lines map concat].
  unfold mbind, res_bind. by rewrite attr_line_ok, IH.
Qed.

Lemma is_prefix_self p s : is_prefix p (p ++ s) = true.
Proof. apply is_prefix_app. eauto. Qed.

Lemma last_pos_newline s : ∃ n, last_pos (s ++ [NL]) 10 = Some n.
Proof.
  induction s as [|c s [n IH]]; cbn [app last_pos]; [by exists O|]. rewrite IH. eauto.
Qed.

(** The search passes over the lines that do not start with the key. *)
Lemma profile_loop_skip fuel key size ql sq lines rest :
  Forall (λ l, Forall (λ c, c ≠ NL) l ∧ strlen l < 127 ∧ is_prefix key (l ++ [NL]) = false) lines →
  profile_loop (length lines + fuel) key size ql sq (concat (map (λ l, l ++ [NL]) lines) ++ rest)
  = profile_loop fuel key size ql sq rest.
Proof.
  induction 1 as [|l lines (Hn & Hl & Hk) _ IH]; [done|]. cbn [length Nat.add map concat profile_loop].
  rewrite <- !app_assoc. change ([NL] ++ ?x) with (10 :: x).
  rewrite fgets_line; [|unfold strlen in Hl; unfold MAXGET_PROFILE_SIZE; lia|exact Hn].
  pose proof (strstr_start (l ++ [10]) key) as Hs. change NL with 10 in Hk. rewrite Hk in Hs.
  destruct (strstr (l ++ [10]) key) as [[[|c pre] post]|]; [done|exact IH|exact IH].
Qed.

Lemma profile_loop_hit fuel n v size type rest :
  type = QMARKS ∨ type = NO_QMARKS → line_ok type (n, v) →
  profile_loop (S fuel) (n ++ [61]) size (2 * strlen (qmark type)) (length (qmark type))
    (line_of type (n, v) ++ NL :: rest)
  = Ok (if strlen v <? size then (strlen v, Some v) else (FAIL, Some [])).
Proof.
  intros Ht (Hn & Hl & _). cbn [profile_loop].
  rewrite fgets_line; [|unfold strlen in Hl; unfold MAXGET_PROFILE_SIZE; lia|exact Hn].
  destruct (last_pos_newline (line_of type (n, v))) as [m Hm]. change NL with 10 in Hm. rewrite Hm.
  assert (Hline : line_of type (n, v) ++ [10] = ((n ++ [61]) ++ qmark type) ++ v ++ qmark type ++ [10]).
  { unfold line_of. cbn [fst snd]. by rewrite <- !app_assoc. }
  rewrite Hline. rewrite strstr_here by (rewrite <- app_assoc; apply is_prefix_self). cbn iota.
  rewrite <- length_app, drop_app_length.
  assert (Hs : s32 (strlen (((n ++ [61]) ++ qmark type) ++ v ++ qmark type ++ [10]) - strlen (n ++ [61]) - 1
                    - 2 * strlen (qmark type)) = strlen v).
  { rewrite !strlen_app. change (strlen [10]) with 1. rewrite s32_small; [lia|].
    unfold line_of in Hl. rewrite !strlen_app in Hl. cbn [fst snd] in Hl. change (strlen [61]) with 1 in *. unfold INT_MIN, INT_MAX.
    pose proof (strlen_nonneg v). pose proof (strlen_nonneg n). pose proof (strlen_nonneg (qmark type)). lia. }
  rewrite Hs. unfold take_value. pose proof (strlen_nonneg v). rewrite (proj2 (Z.ltb_ge _ 0)) by lia.
  destruct (size <? strlen v + 1) eqn:E1, (strlen v <? size) eqn:E2; zify_bool; try lia; [done|].
  assert (Htk : take (Z.to_nat (strlen v)) (v ++ qmark type ++ [10]) = v).
  { unfold strlen. by rewrite Nat2Z.id, take_app_length. }
  by rewrite Htk.
Qed.

Section attr_file.
Context (E : cfg_env) (tk : forest tloc) (wf : wf_env E tk) `{Shm} `{Xml}.

Lemma save_attrs_run s F p e k type text :
  rep_tree s F → resolves E None p → (1 ≤ length p ≤ CFG_MAX_NODE_LEVEL)%nat →
  lookup F (ids_of E p) = Some (e, k) → attr_lines type (e_attrs e) = Ok text →
  cfg_save_attrs_to_file E (Some (path_of p)) true type s = Ok ((0, text), s).
Proof using wf.
  intros HF Hres Hlen Hl Ht. destruct (written_ids E tk p wf Hres Hlen) as (o & Hp & Hu).
  unfold cfg_save_attrs_to_file, cfg_save_attrs_to_file_fp. cbn [negb].
  step_by (lock_Ok s). step_by (get_obj_spec E _ F _ o _ (rep_tree_lock 1 s F HF) Hp Hu).
  rewrite Hl. cbn [option_map fst].
  destruct (focus_tree s F _ e k HF Hl) as (par & b & _ & He & Hx & _).
  rewrite (M_bind_Ok _ _ _ (0, text) (with_lock 1 s)); [by step_by (unlock_Ok s)|].
  step_by (get_node_Ok (e_loc e) (with_lock 1 s) _ He). cbn [private node_of].
  step_by (get_xml_Ok (e_xml e) (with_lock 1 s) _ Hx). by rewrite (M_bind_Ok _ _ _ _ _ (lift_Ok _ _ _ Ht)).
Qed.
End attr_file.

(** Writing an object's attributes to a file and reading one back. After
    [cfg_save_attrs_to_file] with or without quotation marks, [get_profile_str]
    with the key [name=] returns the value of the first attribute of that name,
    or the error when the caller's buffer is too small. (The lines fit the
    reader's 128 bytes, no earlier line starts with the key.) *)
Theorem saved_attribute_reads_back E tk `{Shm} `{Xml} s F p e k type before name value after size :
  wf_env E tk → rep_tree s F → resolves E None p → (1 ≤ length p ≤ CFG_MAX_NODE_LEVEL)%nat →
  lookup F (ids_of E p) = Some (e, k) → e_attrs e = before ++ (name, value) :: after →
  type = QMARKS ∨ type = NO_QMARKS → Forall (line_ok type) (e_attrs e) →
  Forall (λ a, is_prefix (name ++ [61]) (line_of type a ++ [NL]) = false) before →
  ∃ text, cfg_save_attrs_to_file E (Some (path_of p)) true type s = Ok ((0, text), s) ∧
    get_profile_str (name ++ [61]) size type (Some text)
    = Ok (if strlen value <? size then (strlen value, Some value) else (FAIL, Some [])).
Proof.
  intros wf HF Hres Hlen Hl Ha Ht Hok Hbef. eexists. split.
  { eapply (save_attrs_run E tk wf); [done..|]. by apply attr_lines_ok. }
  rewrite Ha in Hok |- *. apply Forall_app in Hok as [Hokb [Hv _]%Forall_cons].
  set (text := concat _).
  assert (Htext : text = concat (map (λ l, l ++ [NL]) (map (line_of type) before))
                         ++ line_of type (name, value) ++ NL :: concat (map (λ a, line_of type a ++ [NL]) after)).
  { unfold text. rewrite map_app, concat_app, map_map. cbn [map concat]. by rewrite <- (app_assoc (line_of _ _)). }
  assert (Hlen2 : (length (map (line_of type) before) < length text)%nat).
  { rewrite Htext. clear. rewrite length_app. induction before as [|a l IH]; [simpl; rewrite length_app; simpl; lia|].
    cbn [map concat length] in *. rewrite !length_app in *. simpl in *. lia. }
  assert (Hgo : ∀ fuel, (length (map (line_of type) before) < fuel)%nat →
    profile_loop fuel (name ++ [61]) size (2 * strlen (qmark type)) (length (qmark type)) text
    = Ok (if strlen value <? size then (strlen value, Some value) else (FAIL, Some []))).
  { intros fuel Hf. replace fuel with (length (map (line_of type) before) + S (fuel - S (length (map (line_of type) before))))%nat by lia.
    rewrite Htext, profile_loop_skip; [by apply profile_loop_hit|]. apply Forall_map.
    rewrite Forall_forall in *. intros a Hin. destruct (Hokb a Hin) as (? & ? & _). auto. }
  unfold get_profile_str. destruct Ht as [-> | ->]; exact (Hgo (S (length text)) ltac:(lia)).
Qed.

(** The DMZ entry with two attributes. *)
Definition set_demo (a v : string) : SM Z :=
  cfg_obj_set_object_attr demo_env (Some (cs "root.dmz.entry.1")) (Some (cs a)) (Some (cs v)).
Definition attr_store : store := after (set_demo "Active" "Yes" ;; set_demo "DMZ_IP" "192.168.1.5") dmz_store.

Lemma attr_store_rep : rep_tree attr_store (demo_tree attr_store).
Proof. apply rep_treeb_ok. vm_compute. reflexivity. Qed.

Lemma saved_attribute_reads_back_witness :
  ∃ text, cfg_save_attrs_to_file demo_env (Some (path_of [sroot; sdmz; sdmz_entry (Some 1)])) true NO_QMARKS attr_store
          = Ok ((0, text), attr_store) ∧
    get_profile_str (cs "DMZ_IP" ++ [61]) 32 NO_QMARKS (Some text) = Ok (11, Some (cs "192.168.1.5")).
Proof.
  set (I := ids_of demo_env [sroot; sdmz; sdmz_entry (Some 1)]).
  apply (saved_attribute_reads_back demo_env Table.tree attr_store (demo_tree attr_store)
           [sroot; sdmz; sdmz_entry (Some 1)] (found attr_store I).1 (found attr_store I).2 NO_QMARKS
           [(cs "Active", cs "Yes")] (cs "DMZ_IP") (cs "192.168.1.5") [] 32 demo_env_wf attr_store_rep).
  - by_path.
  - unfold CFG_MAX_NODE_LEVEL. simpl. lia.
  - apply found_ok. vm_compute. eauto.
  - vm_compute. reflexivity.
  - by right.
  - assert (Ha : e_attrs (found attr_store I).1 = [(cs "Active", cs "Yes"); (cs "DMZ_IP", cs "192.168.1.5")]).
    { vm_compute. reflexivity. }
    rewrite Ha. unfold line_ok. repeat constructor; by_compute.
  - repeat constructor.
Defined.

(** ** Names of web requests *)

(** A segment as web pages write it: the number counts from 0 and follows the
    name. *)
Definition web_segment (s : seg) : cstr :=
  sg_name s ++ match sg_inst s with Some n => fmt_u (n - 1) | None => [] end.
Definition web_name (q : list seg) : cstr := join_by 95 (map web_segment q).

Definition multiple (E : cfg_env) (n : tloc) : Prop :=
  ∃ ty, env_types E !! n = Some ty ∧ Z.land (t_flag ty) CFG_TYPE_FLAG_MULTIPLE ≠ 0.

(** The last two levels of a short name: a numbered segment is called [entry]
    (or [pvc], on the second level); the others must not look like one. *)
Definition web_level2 (E : cfg_env) (a b : seg) : Prop :=
  match sg_inst b with
  | Some _ => (sg_name b = cs "entry" ∨ sg_name b = cs "pvc") ∧ multiple E (sg_type b)
  | None => is_prefix (cs "entry") (sg_name b) = false ∧ is_prefix (cs "pvc") (sg_name b) = false ∧
            is_prefix (cs "info") (sg_name a) = false
  end.
Definition web_level3 (E : cfg_env) (c : seg) : Prop :=
  match sg_inst c with
  | Some _ => sg_name c = cs "entry" ∧ multiple E (sg_type c)
  | None => is_prefix (cs "entry") (sg_name c) = false
  end.
Definition web_ok (E : cfg_env) (q : list seg) : Prop :=
  match q with
  | [a] => sg_inst a = None
  | [a; b] => sg_inst a = None ∧ web_level2 E a b
  | [a; b; c] => sg_inst a = None ∧ web_level2 E a b ∧ web_level3 E c
  | _ => False
  end.

Lemma strtok_cut_token delim t s :
  tok delim t → match s with [] => True | c :: _ => in_set delim c = true end → strtok_cut delim (t ++ s) = t.
Proof.
  intros [Hne Ht] Hs. unfold strtok_cut. destruct t as [|c t]; [done|].
  assert (Hc : in_set delim c = false) by (by apply Forall_cons in Ht as [? _]).
  cbn [app take_while drop_while]. rewrite Hc. cbn iota. cbn [app].
  change (c :: t ++ s) with ((c :: t) ++ s). clear Hne Hc. induction Ht as [|d l Hd _ IH]; cbn [app take_while].
  - destruct s as [|e s]; [done|]. cbn [take_while]. by rewrite Hs.
  - rewrite Hd. cbn [negb]. by rewrite IH.
Qed.

Lemma rows_ok l : Forall (λ t, strlen t < 31) l → rows l = Ok l.
Proof.
  induction 1 as [|t l Ht _ IH]; [done|]. cbn [rows]. unfold mbind, res_bind, row.
  rewrite (proj2 (Z.ltb_lt _ _) Ht). cbn [mret res_ret]. by rewrite IH.
Qed.

Lemma split_web_name ts :
  ts ≠ [] → (length ts ≤ 3)%nat → Forall (tok [95]) ts → Forall (λ t, strlen t < 31) ts →
  cfg_parse_split_name (join_by 95 ts) [95] = Ok (length ts, ts).
Proof.
  intros Hne Hlen Htok Hshort. destruct ts as [|t ts]; [done|]. unfold cfg_parse_split_name.
  rewrite tokens_join by done. apply Forall_cons in Htok as [Ht _]. apply Forall_cons in Hshort as [Hst Hshort].
  assert (Hcut : strtok_cut [95] (join_by 95 (t :: ts)) = t).
  { destruct ts as [|t' ts]; cbn [join_by]; [rewrite <- (app_nil_r t) at 1|]; by apply strtok_cut_token. }
  rewrite Hcut. cbn [drop]. change (MAX_NODE_LEVEL - 1)%nat with 3%nat. rewrite (take_ge ts) by (simpl in Hlen; lia).
  unfold mbind, res_bind, row. rewrite (proj2 (Z.ltb_lt _ _) Hst). cbn [mret res_ret]. by rewrite rows_ok.
Qed.

Lemma fits_ok size p (s : store) : strlen p < size → fits size p s = Ok (p, s).
Proof. intros H. unfold fits. by rewrite (proj2 (Z.ltb_lt _ _) H). Qed.

Section web.
Context (E : cfg_env) (tk : forest tloc) (wf : wf_env E tk) `{Shm} `{Xml}.

(** A numbered segment below a path that resolves. *)
Lemma numbered_path_run s p sg n size :
  resolves E None (p ++ [sg]) → p ≠ [] → (length (concat (map seg_tokens (p ++ [sg]))) < CFG_MAX_NODE_LEVEL)%nat →
  sg_inst sg = Some n → multiple E (sg_type sg) → sg_name sg = cs "entry" ∨ sg_name sg = cs "pvc" →
  strlen (path_of (p ++ [sg])) < size →
  numbered_path E size (path_of p ++ [46] ++ sg_name sg) (web_segment sg) s = Ok (path_of (p ++ [sg]), s).
Proof using.
  intros Hres Hp Hlen Hn (ty & Hty & Hmul) Hname Hsize.
  set (sg0 := {| sg_type := sg_type sg; sg_name := sg_name sg; sg_inst := None |}).
  assert (Hres0 : resolves E None (p ++ [sg0])).
  { clear -Hres. revert Hres. generalize (@None tloc). induction p as [|a p IH]; intros node; simpl.
    - intros (? & ? & _ & _). done.
    - intros (? & ? & ? & ?). eauto. }
  assert (Hi : 1 ≤ n ≤ CFG_OBJ_MASK).
  { destruct (last_seg E p sg Hp Hres) as (_ & Hi & _). by rewrite Hn in Hi. }
  assert (Hpath0 : path_of (p ++ [sg0]) = path_of p ++ [46] ++ sg_name sg) by (by rewrite path_of_snoc).
  assert (Hpath : path_of (p ++ [sg]) = (path_of p ++ [46] ++ sg_name sg) ++ [46] ++ fmt_d n).
  { rewrite path_of_snoc by done. unfold seg_tokens. rewrite Hn. cbn [join].
    unfold fmt_d. rewrite (proj2 (Z.ltb_ge n 0)) by lia. by rewrite <- app_assoc. }
  rewrite Hpath in *. rewrite <- Hpath0 in *. unfold numbered_path.
  step_by (fits_ok size (path_of (p ++ [sg0])) s ltac:(rewrite strlen_app in Hsize; pose proof (strlen_nonneg ([46] ++ fmt_d n)); lia)).
  rewrite (M_bind_Ok _ _ _ n s); [by apply fits_ok|].
  unfold cfg_parse_entry_pvc_number. rewrite (M_bind_Ok _ _ _ (Some (sg_type sg)) s).
  2:{ apply lift_Ok. rewrite type_query_written; [by unfold last_type; rewrite last_snoc|done|by destruct p|].
      rewrite map_app, concat_app, length_app in *. simpl in *. unfold seg_tokens in *. rewrite Hn in Hlen. simpl in *. lia. }
  cbn iota. rewrite (M_bind_Ok _ _ _ ty s) by (apply lift_Ok; unfold type_at; by rewrite Hty).
  rewrite (proj2 (Z.eqb_neq _ 0) Hmul).
  assert (Hnum : named_number (web_segment sg) = Some (n - 1)).
  { unfold CFG_OBJ_MASK in Hi. destruct (dec_digits_head 10 (n - 1)) as (c & t & Hc & Hd); [lia|done|].
    assert (Hat : atoi (fmt_u (n - 1)) = n - 1).
    { rewrite <- (app_nil_r (fmt_u _)). apply atoi_fmt_u; [unfold INT_MAX; lia|done]. }
    unfold web_segment. rewrite Hn. unfold fmt_u in *. rewrite Hc in *.
    assert (Hpos : 0 <? schar c = true) by (unfold schar; rewrite Z.mod_small by lia; apply Z.ltb_lt; lia).
    unfold named_number, positive_at. destruct Hname as [-> | ->].
    - change ((cs "entry" ++ c :: t) !! 5%nat) with (Some c). rewrite is_prefix_self, Hpos. cbn [andb drop app].
      change (drop 5 (cs "entry" ++ c :: t)) with (c :: t). by rewrite Hat.
    - change ((cs "pvc" ++ c :: t) !! 3%nat) with (Some c). rewrite is_prefix_self, Hpos. cbn [andb].
      change (is_prefix (cs "entry") (cs "pvc" ++ c :: t)) with false. cbn [andb].
      change (drop 3 (cs "pvc" ++ c :: t)) with (c :: t). by rewrite Hat. }
  rewrite Hnum. unfold CFG_OBJ_MASK in Hi. change (default (-1) (Some (n - 1))) with (n - 1).
  rewrite (proj2 (Z.leb_le 0 (n - 1))) by lia.
  rewrite s32_small by (unfold INT_MIN, INT_MAX; lia). unfold mret, M_ret. do 2 f_equal. lia.
Qed.

Lemma web_segment_plain sg : sg_inst sg = None → web_segment sg = sg_name sg.
Proof using. intros Hi. unfold web_segment. by rewrite Hi, app_nil_r. Qed.

Lemma path_snoc_plain p sg : p ≠ [] → sg_inst sg = None → path_of (p ++ [sg]) = path_of p ++ [46] ++ sg_name sg.
Proof using. intros Hp Hi. rewrite path_of_snoc by done. unfold seg_tokens. by rewrite Hi. Qed.

Lemma second_level_run s r a b size :
  resolves E None [r; a; b] → (length (concat (map seg_tokens [r; a; b])) < CFG_MAX_NODE_LEVEL)%nat →
  sg_inst r = None → sg_inst a = None → web_level2 E a b → strlen (path_of [r; a; b]) < size →
  second_level E size (sg_name r) (sg_name a) (web_segment b) s = Ok (path_of [r; a; b], s).
Proof using.
  intros Hres Hlen Hr Ha Hb Hsize. unfold second_level.
  assert (Hbase : ∀ x, (sg_name r ++ [46] ++ sg_name a ++ [46]) ++ x = path_of [r; a] ++ [46] ++ x).
  { intros x. change [r; a] with ([r] ++ [a]). rewrite path_snoc_plain by done.
    assert (Hpr : path_of [r] = sg_name r) by (unfold path_of; simpl; unfold seg_tokens; by rewrite Hr).
    rewrite Hpr. by rewrite <- !app_assoc. }
  unfold web_level2 in Hb. destruct (sg_inst b) as [n|] eqn:Hn.
  - destruct Hb as [Hname Hmul].
    pose proof (numbered_path_run s [r; a] b n size Hres ltac:(done) Hlen Hn Hmul Hname Hsize) as Hrun.
    destruct Hname as [Hname|Hname]; rewrite Hname in Hrun; unfold web_segment in *; rewrite Hname in *.
    + rewrite is_prefix_self. by rewrite Hbase.
    + change (is_prefix (cs "entry") (cs "pvc" ++ ?x)) with false. cbn iota.
      rewrite is_prefix_self. by rewrite Hbase.
  - rewrite web_segment_plain by done. destruct Hb as (-> & -> & ->).
    rewrite Hbase. change [r; a; b] with ([r; a] ++ [b]) in *. rewrite path_snoc_plain in * by done. by apply fits_ok.
Qed.
End web.

(** C37: the short names of web requests. For a path below the root of one to
    three segments, written as web pages do (segments joined by underscores,
    an [entry] or [pvc] number counted from 0 behind its name, in any case),
    [cfg_parse_node_name] returns 0 and the path itself, and leaves the store
    alone. *)
Theorem parse_node_name_gives_path E tk `{Shm} `{Xml} s r q name ty size :
  wf_env E tk → env_types E !! env_root E = Some ty → t_name ty = sg_name r → sg_inst r = None →
  resolves E None (r :: q) → web_ok E q → cfg_str_to_lower name = web_name q →
  Forall (λ t, tok [95] t ∧ strlen t < 31) (map web_segment q) →
  (length (concat (map seg_tokens (r :: q))) < CFG_MAX_NODE_LEVEL)%nat →
  strlen name < size → strlen (path_of (r :: q)) < size →
  cfg_parse_node_name E name size s = Ok ((0, path_of (r :: q)), s).
Proof.
  intros wf Hty Hroot Hr Hres Hq Hname Htoks Hlev Hsn Hsp. unfold cfg_parse_node_name.
  rewrite (proj2 (Z.ltb_ge _ _)) by lia. step_by (fits_ok size name s Hsn). rewrite Hname.
  assert (Hlen : q ≠ [] ∧ (length q ≤ 3)%nat) by (destruct q as [|? [|? [|? [|? ?]]]]; simpl in *; [done|..|done]; split; done || lia).
  rewrite (M_bind_Ok _ _ _ (length (map web_segment q), map web_segment q) s).
  2:{ apply lift_Ok. unfold web_name. apply split_web_name.
      - destruct q; [by destruct Hlen|done].
      - rewrite length_map. apply Hlen.
      - by apply (Forall_and (tok [95])) in Htoks as [? _].
      - by apply (Forall_and (tok [95])) in Htoks as [_ ?]. }
  cbn [fst snd]. rewrite length_map. rewrite (proj2 (Nat.ltb_ge 3 _)) by lia.
  rewrite (M_bind_Ok _ _ _ ty s) by (apply lift_Ok; unfold type_at; by rewrite Hty). rewrite Hroot.
  assert (Hpr : path_of [r] = sg_name r) by (unfold path_of; simpl; unfold seg_tokens; by rewrite Hr).
  destruct q as [|a [|b [|c [|? ?]]]]; [done| | | |done]; cbn [map].
  - cbn [web_ok] in Hq. rewrite web_segment_plain by done.
    change [r; a] with ([r] ++ [a]) in *. rewrite path_snoc_plain, Hpr in * by done.
    by rewrite (M_bind_Ok _ _ _ _ _ (fits_ok _ _ _ Hsp)).
  - destruct Hq as [Ha Hb]. rewrite (web_segment_plain a) by done.
    by rewrite (M_bind_Ok _ _ _ _ _ (second_level_run E s r a b size Hres Hlev Hr Ha Hb Hsp)).
  - destruct Hq as (Ha & Hb & Hc). rewrite (web_segment_plain a) by done.
    assert (Hres2 : resolves E None [r; a; b]) by (simpl in *; tauto).
    change [r; a; b; c] with ([r; a; b] ++ [c]) in *.
    assert (Hsp2 : strlen (path_of [r; a; b]) < size).
    { rewrite path_of_snoc in Hsp by done. rewrite strlen_app in Hsp.
      pose proof (strlen_nonneg (CFG_NODE_SPELIRATE_CHAR :: join (seg_tokens c))). lia. }
    assert (Hlev2 : (length (concat (map seg_tokens [r; a; b])) < CFG_MAX_NODE_LEVEL)%nat).
    { rewrite map_app, concat_app, length_app in Hlev. lia. }
    rewrite (M_bind_Ok _ _ _ _ _ (second_level_run E s r a b size Hres2 Hlev2 Hr Ha Hb Hsp2)).
    unfold web_level3 in Hc. destruct (sg_inst c) as [n|] eqn:Hn.
    + destruct Hc as [Hnm Hmul].
      pose proof (numbered_path_run E s [r; a; b] c n size Hres ltac:(done) Hlev Hn Hmul ltac:(by left) Hsp) as Hrun.
      rewrite Hnm in Hrun. unfold web_segment in *. rewrite Hnm in *. rewrite is_prefix_self.
      change (cs ".entry") with ([46] ++ cs "entry"). by rewrite (M_bind_Ok _ _ _ _ _ Hrun).
    + rewrite (web_segment_plain c), Hc by done. rewrite path_snoc_plain in * by done.
      by rewrite (M_bind_Ok _ _ _ _ _ (fits_ok _ _ _ Hsp)).
Qed.

Lemma parse_node_name_gives_path_witness :
  cfg_parse_node_name demo_env (cs "Dmz_Entry0") 512 dmz_store = Ok ((0, cs "root.dmz.entry.1"), dmz_store).
Proof.
  apply (parse_node_name_gives_path demo_env Table.tree dmz_store sroot [sdmz; sdmz_entry (Some 1)]
           (cs "Dmz_Entry0") Table.demo_root 512 demo_env_wf).
  - vm_compute. reflexivity.
  - vm_compute. reflexivity.
  - reflexivity.
  - by_path.
  - split; [reflexivity|]. split; [by left|]. exists Table.cfg_type_dmz_entry.
    split; [vm_compute; reflexivity|vm_compute; discriminate].
  - vm_compute. reflexivity.
  - unfold tok. repeat constructor; by_compute.
  - unfold CFG_MAX_NODE_LEVEL. simpl. lia.
  - by apply Z.ltb_lt.
  - by apply Z.ltb_lt.
Defined.
End SaveProps.
