(* ===== verification/CfgDoc.v ===== *)
(** * The saved configuration as a document

    What [cfg_obj_save_tree] writes is the text of an XML document: one element
    for each object that is not of a MEMORY type, in the order of the tree.
    [doc_of] is that document; [prints] says how its elements are written. *)

From S2P Require Import Prelude CString Text Utility CfgType CfgPath CfgObj CfgHeap CfgStore CfgCreate CfgSpec CfgProps CfgSave CfgCli SaveProps.
Open Scope Z_scope.

Module CfgDoc.
Import Text Utility CfgType CfgPath CfgObj CfgHeap CfgStore CfgCreate CfgSpec CfgProps CfgSave CfgCli SaveProps.

Section doc.
Context (E : cfg_env).
Let T := env_types E.

(** The table entry of an identifier. *)
Definition type_of_oid (oid : Z) : option (tloc * cfg_node_type) :=
  match cfg_type_from_oid E oid with
  | Some n => match T !! n with Some ty => Some (n, ty) | None => None end
  | None => None
  end.

Definition in_memory (ty : cfg_node_type) : bool := negb (Z.land (t_flag ty) CFG_TYPE_FLAG_MEMORY =? 0).
Definition numbered_type (ty : cfg_node_type) : bool := negb (Z.land (t_flag ty) CFG_TYPE_FLAG_MULTIPLE =? 0).

(** The part of a tree that is saved. *)
Fixpoint saved (f : eforest) : eforest :=
  match f with
  | FNil => FNil
  | FCons e k sb =>
      match type_of_oid (e_id e) with
      | None => FNil
      | Some (_, ty) => if in_memory ty then saved sb else FCons e (saved k) (saved sb)
      end
  end.

Fixpoint doc_of (f : eforest) : forest xnode :=
  match f with
  | FNil => FNil
  | FCons e k sb =>
      match type_of_oid (e_id e) with
      | None => FNil
      | Some (_, ty) =>
          if in_memory ty then doc_of sb
          else FCons (tag_name ty (e_id e), e_attrs e) (doc_of k) (doc_of sb)
      end
  end.

(** The text of an element: its attributes with the entities of [xml_text],
    and either the elements below it between two tags, or, when there is none,
    a single tag if the writer likes. *)
Definition attr_text (a : cstr * cstr) : cstr := cs " " ++ a.1 ++ [61; 34] ++ xml_text a.2 ++ [34].
Definition open_tag (x : xnode) : cstr :=
  cs "<" ++ x.1 ++ concat (map attr_text x.2) ++ (if zlen x.2 =? 0 then [] else cs " ").

Inductive prints : forest xnode → cstr → Prop :=
| prints_none : prints FNil []
| prints_single x sb t : prints sb t → prints (FCons x FNil sb) ((open_tag x ++ cs "/> " ++ [NL]) ++ t)
| prints_pair x k sb below t :
    prints k below → prints sb t →
    prints (FCons x k sb)
      ((open_tag x ++ cs "> " ++ [NL] ++ below ++ cs "</" ++ x.1 ++ cs "> " ++ [NL]) ++ t).

(** Attribute values that fit the buffer of [cfg_obj_save_tree]. *)
Definition values_fit (f : eforest) : Prop :=
  Forall (λ e, Forall (λ a, strlen (xml_text a.2) < 1023) (e_attrs e)) (preorder f).

Lemma checkvalue_ok v : strlen (xml_text v) < 1023 → checkvalue v 1024 = Ok (xml_text v).
Proof.
  intros Hv. unfold checkvalue. rewrite checkvalue_loop_spec by done. cbn [app].
  rewrite take_ge by (unfold strlen in Hv; lia). by rewrite (proj2 (Z.ltb_lt _ _)) by lia.
Qed.

Lemma attrs_text_ok attrs :
  Forall (λ a, strlen (xml_text a.2) < 1023) attrs → attrs_text attrs = Ok (concat (map attr_text attrs)).
Proof.
  induction 1 as [|[n v] attrs Hv _ IH]; [done|]. cbn [attrs_text map concat].
  unfold mbind, res_bind, xmlFormatFunc. rewrite checkvalue_ok, IH by done.
  unfold attr_text. cbn [fst snd]. unfold mret, res_ret. f_equal. by rewrite <- !app_assoc.
Qed.

Lemma values_fit_cons e k sb :
  values_fit (FCons e k sb) →
  Forall (λ a, strlen (xml_text a.2) < 1023) (e_attrs e) ∧ values_fit k ∧ values_fit sb.
Proof. unfold values_fit. cbn [preorder]. intros [? [? ?]%Forall_app]%Forall_cons. done. Qed.

Lemma doc_of_nil f : top f = None → doc_of f = FNil.
Proof. by destruct f. Qed.

(** Every type a registered identifier names is in the table. *)
Lemma type_of_oid_spec tk oid :
  wf_env E tk →
  type_of_oid oid = match cfg_type_from_oid E oid with
                    | Some n => match T !! n with Some ty => Some (n, ty) | None => None end
                    | None => None
                    end ∧
  ∀ n, cfg_type_from_oid E oid = Some n → ∃ ty, T !! n = Some ty ∧ n ∈ all_types (env_root E) tk.
Proof.
  intros wf. split; [done|]. intros n Hn.
  assert (Hin : n ∈ all_types (env_root E) tk).
  { destruct wf as [_ [_ _ Hinv] _]. unfold cfg_type_from_oid in Hn. eapply Hinv; [|exact Hn].
    pose proof (tid_range oid). lia. }
  destruct wf as [[Hrep Hnd] _ _]. pose proof Hin as Hin'. rewrite <- all_types_preorder in Hin'.
  destruct (types_rep_node _ _ _ n Hrep Hnd Hin') as (ty & _ & Hty & _). eauto.
Qed.

(** What [save_tree] writes for the nodes of a forest. *)
Lemma save_tree_spec tk `{Shm} `{Xml} s par f fuel :
  wf_env E tk → obj_rep s par f → values_fit f → (length (locs f) < fuel)%nat →
  ∃ text, save_tree E fuel (top f) s = Ok (text, s) ∧ prints (doc_of f) text.
Proof.
  intros wf. revert par fuel. induction f as [|e k IHk sb IHs]; intros par [|fuel] Hrep Hfit Hlen;
    try (simpl in Hlen; lia); [exists []; split; [done|constructor]|].
  destruct Hrep as (He & Hx & Hk & Hsb). apply values_fit_cons in Hfit as (Hv & Hfk & Hfs).
  rewrite locs_cons in Hlen. cbn [length] in Hlen. rewrite length_app in Hlen.
  destruct (IHk _ fuel Hk Hfk ltac:(lia)) as (tk' & Hrk & Hpk).
  destruct (IHs _ fuel Hsb Hfs ltac:(lia)) as (ts & Hrs & Hps). clear IHk IHs.
  cbn [save_tree top]. step_by (get_node_Ok _ _ _ He). cbn [id node_of doc_of].
  destruct (type_of_oid_spec tk (e_id e) wf) as [-> Hin].
  destruct (cfg_type_from_oid E (e_id e)) as [n|] eqn:Hn; [|exists []; split; [done|constructor]].
  destruct (Hin n eq_refl) as (ty & Hty & _). rewrite Hty.
  rewrite (M_bind_Ok _ _ _ ty s) by (apply lift_Ok; unfold type_at; fold T; by rewrite Hty).
  cbn [private child brother node_of].
  assert (Hrest : ∀ here, (match top sb with
                           | Some _ => rest ← save_tree E fuel (top sb); mret (here ++ rest)
                           | None => mret here
                           end) s = Ok (here ++ (if top sb is Some _ then ts else []), s)).
  { intros here. destruct (top sb); [by step_by Hrs|]. by rewrite app_nil_r. }
  assert (Hts : prints (doc_of sb) (if top sb is Some _ then ts else [])).
  { destruct (top sb) eqn:Ht; [done|]. rewrite doc_of_nil by done. constructor. }
  set (tail_ := if top sb is Some _ then ts else []) in *. fold (in_memory ty).
  destruct (in_memory ty).
  - step_by (mret_Ok (@nil Z) s). rewrite Hrest. by eexists.
  - set (x := (tag_name ty (e_id e), e_attrs e)).
    destruct (top k) eqn:Htk.
    + rewrite (M_bind_Ok _ _ _ (open_tag x ++ cs "> " ++ [NL] ++ tk' ++ cs "</" ++ x.1 ++ cs "> " ++ [NL]) s).
      * rewrite Hrest. eexists. split; [done|]. by apply prints_pair.
      * step_by (get_xml_Ok _ _ _ Hx). rewrite (M_bind_Ok _ _ _ _ _ (lift_Ok _ _ s (attrs_text_ok _ Hv))).
        step_by Hrk. unfold open_tag, x. cbn [fst snd]. rewrite <- !app_assoc. done.
    + rewrite (M_bind_Ok _ _ _ (open_tag x ++ cs "/> " ++ [NL]) s).
      * rewrite Hrest. eexists. split; [done|]. rewrite (doc_of_nil k) by done. by apply prints_single.
      * step_by (get_xml_Ok _ _ _ Hx). rewrite (M_bind_Ok _ _ _ _ _ (lift_Ok _ _ s (attrs_text_ok _ Hv))).
        unfold open_tag, x. cbn [fst snd]. rewrite <- !app_assoc. done.
Qed.
End doc.
End CfgDoc.
