(* ===== verification/CfgReload.v ===== *)
(** * Loading a saved configuration back

    [cfg_load_from_xml] on the document of a tree, into a store that holds the
    static objects: every saved object whose tag names its type is there
    afterwards, with its attributes.  The tag of an object with a number that is
    not called entry or pvc ([BSR0], [Common0]) names no type: it is skipped
    with what is below it. *)

From S2P Require Import Prelude CString Text Utility UtilProps CfgType CfgPath CfgObj CfgHeap CfgStore CfgCreate CfgSpec CfgProps CfgSave CfgCli SaveProps CfgDoc.
Open Scope Z_scope.

Module CfgReload.
Import Text Utility CfgType CfgPath CfgObj CfgHeap CfgStore CfgCreate CfgSpec CfgProps CfgSave CfgCli SaveProps CfgDoc.

(** ** Trees with one object replaced *)

Lemma f_find_id f o e k : f_find f o [] = Some (e, k) → e_id e = o.
Proof. intros Hf. by destruct (f_find_split _ _ _ _ Hf) as (_ & _ & _ & _ & He). Qed.

Lemma f_find_elem f o l e k : f_find f o l = Some (e, k) → e ∈ preorder f.
Proof.
  revert o l. induction f as [|a ka IHk sb IHs]; intros o l; cbn [f_find preorder]; [done|].
  rewrite elem_of_cons, elem_of_app. destruct (e_id a =? o); [|intros Hf; right; right; by eapply IHs].
  destruct l; [intros [= <- _]; by left|intros Hf; right; left; by eapply IHk].
Qed.

Lemma f_find_fapp f g o l :
  f_find (fapp f g) o l = if f_find f o [] is Some _ then f_find f o l else f_find g o l.
Proof. induction f as [|e k _ sb IH]; cbn [fapp f_find]; [done|]. by destruct (e_id e =? o). Qed.

Lemma f_update_id f o l e k : f_find f o l = Some (e, k) → f_update f o l e k = f.
Proof.
  revert o l. induction f as [|a ka IHk sb IHs]; intros o l; cbn [f_find f_update]; [done|].
  destruct (e_id a =? o); [|intros Hf; by rewrite IHs].
  destruct l; [intros [= -> ->]; done|intros Hf; by rewrite IHk].
Qed.

Lemma f_update_twice f o l e k e1 k1 e2 k2 :
  f_find f o l = Some (e, k) → e_id e1 = e_id e →
  f_update (f_update f o l e1 k1) o l e2 k2 = f_update f o l e2 k2.
Proof.
  intros Hf He. revert o l Hf. induction f as [|a ka IHk sb IHs]; intros o l; cbn [f_find f_update]; [done|].
  destruct (e_id a =? o) eqn:Ea; [|intros Hf; cbn [f_update]; by rewrite Ea, IHs].
  destruct l as [|o' l]; [intros [= -> ->]|intros Hf]; cbn [f_update].
  - by rewrite He, Ea.
  - by rewrite Ea, IHk.
Qed.

Lemma f_update_snoc f o l i e k e' k' :
  f_find f o l = Some (e, k) → f_update f o (l ++ [i]) e' k' = f_update f o l e (f_update k i [] e' k').
Proof.
  revert o l. induction f as [|a ka IHk sb IHs]; intros o l; cbn [f_find f_update]; [done|].
  destruct (e_id a =? o); [|intros Hf; by rewrite (IHs o l Hf)].
  destruct l as [|o' l]; cbn [app]; [intros [= -> ->]; done|intros Hf]. by rewrite (IHk o' l Hf).
Qed.

Lemma update_id F l e k : lookup F l = Some (e, k) → update F l e k = F.
Proof. unfold lookup, update. destruct F; [done|]. apply f_update_id. Qed.

Lemma update_root F l e e' k k' r K sb :
  F = FCons r K sb → lookup F l = Some (e, k) → e_id e' = e_id e →
  ∃ r' K', update F l e' k' = FCons r' K' sb ∧ e_id r' = e_id r.
Proof.
  intros -> Hl He. unfold lookup, update in *. cbn [f_find f_update] in *. rewrite Z.eqb_refl in *.
  destruct l; [injection Hl as -> ->|]; eauto.
Qed.

Lemma update_twice F l e k e1 k1 e2 k2 :
  lookup F l = Some (e, k) → e_id e1 = e_id e → update (update F l e1 k1) l e2 k2 = update F l e2 k2.
Proof.
  intros Hl He. destruct F as [|r K sb]; [done|].
  destruct (update_root _ l e e1 k k1 r K sb eq_refl Hl He) as (r' & K' & Hu & Hr).
  pose proof (f_update_twice (FCons r K sb) (e_id r) l e k e1 k1 e2 k2 Hl He) as H.
  unfold update in *. rewrite Hu in *. by rewrite Hr.
Qed.

Lemma update_snoc F l i e k e' k' :
  lookup F l = Some (e, k) → update F (l ++ [i]) e' k' = update F l e (f_update k i [] e' k').
Proof. unfold lookup, update. destruct F; [done|]. apply f_update_snoc. Qed.

(** The attributes of the object at a position below some siblings. *)
Definition view (f : eforest) (o : Z) (l : list Z) : option xattrs :=
  option_map (λ ek, e_attrs ek.1) (f_find f o l).

Lemma view_fapp f g o l a : view f o l = Some a → view (fapp f g) o l = Some a.
Proof.
  unfold view. rewrite f_find_fapp. destruct (f_find f o []) as [[e k]|] eqn:Hf; [done|].
  destruct l as [|o' l]; [by rewrite Hf|]. by rewrite f_find_step, Hf.
Qed.

(** Replacing one sibling. *)
Lemma view_update f o e k e' k' o' l :
  f_find f o [] = Some (e, k) → e_id e' = e_id e →
  view (f_update f o [] e' k') o' l
  = if decide (o = o') then match l with [] => Some (e_attrs e') | i :: l' => view k' i l' end
    else view f o' l.
Proof.
  intros Hf He. pose proof (f_find_updated f o [] e e' k k' Hf He) as Hu. unfold view.
  destruct (decide (o = o')) as [<-|Hne].
  - destruct l as [|i l]; [by rewrite Hu|]. by rewrite f_find_step, Hu.
  - f_equal. clear Hu. induction f as [|a ka _ sb IH]; cbn [f_find f_update] in *; [done|].
    destruct (e_id a =? o) eqn:Ea; cbn [f_find].
    + injection Hf as -> ->. zify_bool. rewrite He. by rewrite (proj2 (Z.eqb_neq (e_id e) o')) by lia.
    + destruct (e_id a =? o'); [done|]. by apply IH.
Qed.

Lemma view_None f o l : o ∉ ids f → f_find f o l = None.
Proof.
  intros Ho. apply f_find_None in Ho. destruct l as [|o' l]; [done|]. by rewrite f_find_step, Ho.
Qed.

(** ** Tags and paths *)

Lemma join_by_dot ts : join_by 46 ts = join ts.
Proof. induction ts as [|t [|t' ts] IH]; [done..|]. cbn [join_by join] in *. by rewrite IH. Qed.

Lemma join_concat ll : Forall (λ l, l ≠ []) ll → join (map join ll) = join (concat ll).
Proof.
  induction 1 as [|l ll Hl Hll IH]; [done|]. destruct ll as [|l' ll].
  - cbn. by rewrite app_nil_r.
  - change (map join (l :: l' :: ll)) with (join l :: map join (l' :: ll)).
    change (concat (l :: l' :: ll)) with (l ++ concat (l' :: ll)).
    rewrite join_app; [|done|]; [|apply Forall_cons in Hll as [Hne _]; by destruct l'].
    rewrite <- IH. done.
Qed.

Lemma path_of_segments p : join_by 46 (map (λ sg, join (seg_tokens sg)) p) = path_of p.
Proof.
  rewrite join_by_dot. unfold path_of. rewrite <- join_concat, map_map; [done|].
  apply Forall_forall. by intros l (sg & -> & _)%list_elem_of_fmap.
Qed.

Lemma join_length ts : Forall token_ok ts → strlen (join ts) ≤ 32 * Z.of_nat (length ts).
Proof.
  induction 1 as [|t ts (_ & Ht & _) _ IH]; [done|]. unfold CFG_MAX_TYPE_NAME in Ht.
  destruct ts as [|t' ts]; [simpl in *; lia|]. cbn [join] in *. rewrite strlen_app, strlen_cons. simpl length in *. lia.
Qed.

(** The number of a tag counts from 0, that of a segment from 1. *)
Lemma renumber_tag pre m :
  0 ≤ m < 65535 → renumber pre (pre ++ fmt_u m) = pre ++ [46] ++ fmt_u (m + 1).
Proof.
  intros Hm. unfold renumber. rewrite drop_app_length. destruct (dec_digits_head 10 m) as (c & t & Hc & Hd); [lia|done|].
  assert (Hat : atoi (fmt_u m) = m).
  { rewrite <- (app_nil_r (fmt_u m)). apply atoi_fmt_u; [unfold INT_MAX; lia|done]. }
  change (fmt_u m = c :: t) in Hc. rewrite Hc in *.
  rewrite is_prefix_self, (proj2 (is_digit_iff c)) by lia. cbn [andb]. rewrite Hat.
  rewrite s32_small by (unfold INT_MIN, INT_MAX; lia). unfold fmt_d.
  by rewrite (proj2 (Z.ltb_ge (m + 1) 0)) by lia.
Qed.

Lemma renumber_other pre x : is_prefix pre x = false → renumber pre x = x.
Proof. intros Hp. unfold renumber. rewrite Hp. by destruct (drop _ _). Qed.

Lemma lower_digits s : digits s → cfg_str_to_lower s = s.
Proof.
  induction 1 as [|c s Hc _ IH]; [done|]. unfold cfg_str_to_lower in *. cbn [map]. rewrite IH. f_equal.
  unfold tolower. by rewrite (proj2 (Z.leb_gt 65 c)) by lia.
Qed.

Lemma node_segment_numbered nm i :
  1 ≤ i ≤ 65535 → cfg_str_to_lower nm = cs "entry" ∨ cfg_str_to_lower nm = cs "pvc" →
  node_segment (nm ++ fmt_d (i - 1)) = cfg_str_to_lower nm ++ CFG_NODE_SPELIRATE_CHAR :: fmt_u i.
Proof.
  intros Hi Hnm. unfold fmt_d. rewrite (proj2 (Z.ltb_ge _ _)) by lia. unfold node_segment.
  replace (cfg_str_to_lower (nm ++ fmt_u (i - 1))) with (cfg_str_to_lower nm ++ fmt_u (i - 1)).
  2:{ unfold cfg_str_to_lower at 2. rewrite map_app. f_equal. symmetry. apply lower_digits, fmt_u_digits. lia. }
  replace i with (i - 1 + 1) at 2 by lia. destruct Hnm as [-> | ->].
  - rewrite (renumber_tag (cs "entry")) by lia. by rewrite renumber_other.
  - rewrite (renumber_other (cs "entry")) by done. by rewrite renumber_tag by lia.
Qed.

(** Names of elements, innermost first, that lead to the path [p]. *)
Definition tags_for (E : cfg_env) (above : list cstr) (p : list seg) : Prop :=
  ∃ r p' tags top ty,
    p = r :: p' ∧ above = rev tags ++ [top] ∧ env_types E !! env_root E = Some ty ∧ strlen (t_name ty) < 31 ∧
    node_segment (t_name ty) = join (seg_tokens r) ∧
    Forall2 (λ tag sg, strlen tag < 31 ∧ node_segment tag = join (seg_tokens sg)) tags p'.

Lemma tags_for_snoc E above p tag sg :
  tags_for E above p → strlen tag < 31 → node_segment tag = join (seg_tokens sg) →
  tags_for E (tag :: above) (p ++ [sg]).
Proof.
  intros (r & p' & tags & top_ & ty & -> & -> & Hty & Hl & Hr & Hall) Hlen Htag.
  exists r, (p' ++ [sg]), (tags ++ [tag]), top_, ty. split; [done|]. split; [by rewrite rev_app_distr|].
  do 3 (split; [done|]). apply Forall2_app; [done|]. by constructor.
Qed.

Lemma node_to_path E above p :
  tags_for E above p → (length p ≤ CFG_MAX_NODE_LEVEL)%nat → cfg_xml_node_to_path E above = Ok (path_of p).
Proof.
  intros (r & p' & tags & top_ & ty & -> & -> & Hty & Hl & Hr & Hall) Hlen. unfold cfg_xml_node_to_path.
  pose proof (Forall2_length _ _ _ Hall) as Hlt. simpl in Hlen.
  unfold type_at, mbind, res_bind. rewrite Hty. cbn [deref].
  rewrite (take_ge (rev tags ++ [top_])) by (rewrite length_app, length_rev; simpl; lia).
  rewrite length_app, length_rev. cbn [length]. rewrite Nat.add_sub, (proj2 (Nat.ltb_lt _ _)) by lia.
  rewrite take_app_le by (rewrite length_rev; lia). rewrite take_ge by (rewrite length_rev; lia).
  rewrite rows_ok.
  - unfold mret, res_ret. f_equal. rewrite map_app, rev_app_distr, map_rev, rev_involutive. cbn [map rev app].
    rewrite <- path_of_segments. cbn [map]. do 2 f_equal; [done|].
    clear -Hall. induction Hall as [|tag sg tags p' [_ Ht] _ IH]; [done|]. cbn [map]. by rewrite Ht, IH.
  - apply Forall_app. split; [|by constructor]. apply Forall_rev. clear -Hall.
    induction Hall as [|tag sg tags p' [Ht _] _ IH]; by constructor.
Qed.

(** ** Objects of a table *)

Section table.
Context (E : cfg_env) (tk : forest tloc) (wf : wf_env E tk).
Let T := env_types E.
Let R := env_reg E.

Definition static (c : tloc) : Prop := dynamic T R (type_id R c) = false.
Definition first_oid (c : tloc) : Z := type_id R c * 2 ^ 16 + 1.

(** The objects of static types are there. *)
Definition statics (P : tloc) (f : eforest) : Prop :=
  Forall (λ c, static c → first_oid c ∈ ids f) (children E P).

(** All objects belong where they are, and have their static children; types
    without numbered instances have at most the first. *)
Fixpoint complete (P : tloc) (f : eforest) : Prop :=
  match f with
  | FNil => True
  | FCons e k sb =>
      match type_of_oid E (e_id e) with
      | Some (n, ty) =>
          n ∈ children E P ∧ (numbered_type ty = false → e_id e = first_oid n) ∧
          statics n k ∧ complete n k
      | None => False
      end ∧ complete P sb
  end.

Lemma complete_find P f o e k :
  complete P f → f_find f o [] = Some (e, k) →
  ∃ n ty, type_of_oid E o = Some (n, ty) ∧ n ∈ children E P ∧
    (numbered_type ty = false → o = first_oid n) ∧ statics n k ∧ complete n k.
Proof using.
  induction f as [|a ka _ sb IH]; cbn [complete f_find]; [done|]. intros [Ha Hsb].
  destruct (e_id a =? o) eqn:Eo; [|by apply IH]. intros [= <- <-]. zify_bool. subst o.
  destruct (type_of_oid E (e_id a)) as [[n ty]|]; [|done]. by exists n, ty.
Qed.

Lemma complete_roots P f e :
  complete P f → e ∈ roots f →
  ∃ n ty, type_of_oid E (e_id e) = Some (n, ty) ∧ (numbered_type ty = false → e_id e = first_oid n).
Proof using.
  induction f as [|a ka _ sb IH]; cbn [complete roots]; [by intros _ ?%not_elem_of_nil|].
  intros [Ha Hsb] [->|He]%elem_of_cons; [|by apply IH].
  destruct (type_of_oid E (e_id a)) as [[n ty]|]; [|done]. exists n, ty. by destruct Ha as (_ & ? & _).
Qed.

Lemma complete_update P f o e k e' k' n ty :
  complete P f → f_find f o [] = Some (e, k) → e_id e' = e_id e → type_of_oid E o = Some (n, ty) →
  statics n k' → complete n k' → complete P (f_update f o [] e' k').
Proof using.
  intros Hc Hf He Hty Hst Hk'. induction f as [|a ka _ sb IH]; [done|]. cbn [f_find f_update] in *.
  destruct Hc as [Ha Hsb]. destruct (e_id a =? o) eqn:Eo; cbn [complete]; [|split; [done|by apply IH]].
  injection Hf as -> ->. zify_bool. rewrite He. split; [|done]. rewrite Eo, Hty in *.
  by destruct Ha as (? & ? & _).
Qed.

Lemma complete_fapp P f g : complete P f → complete P g → complete P (fapp f g).
Proof using. induction f as [|e k _ sb IH]; [done|]. cbn [fapp complete]. intros [Ha Hs] Hg. split; [done|by apply IH]. Qed.

Lemma statics_ids P f g : statics P f → ids f ⊆ ids g → statics P g.
Proof using. unfold statics. intros Hf Hs. eapply Forall_impl; [exact Hf|]. simpl. auto. Qed.

Lemma type_of_packed n i :
  n ∈ all_types (env_root E) tk → 0 ≤ i < 2 ^ 16 →
  ∃ ty, T !! n = Some ty ∧ type_of_oid E (type_id R n * 2 ^ 16 + i) = Some (n, ty).
Proof using wf.
  intros Hn Hi. pose proof (type_id_range E tk n wf Hn) as Hr.
  assert (Hf : cfg_type_from_oid E (type_id R n * 2 ^ 16 + i) = Some n).
  { destruct (oid_parts (type_id R n) i ltac:(unfold R; lia) Hi) as [Ht _]. unfold cfg_type_from_oid. rewrite Ht.
    destruct wf as [_ [_ Hfind _] _]. by apply Hfind. }
  destruct (type_of_oid_spec E tk (type_id R n * 2 ^ 16 + i) wf) as [_ Hin].
  destruct (Hin n Hf) as (ty & Hty & _). exists ty. split; [done|]. unfold type_of_oid. by rewrite Hf, Hty.
Qed.

(** What is made for the table, dynamic objects taken out. *)
Lemma made_complete `{Shm} P tf f :
  (∀ s, is_Some (shm_calloc s)) → P ∈ all_types (env_root E) tk → types_rep T (Some P) tf →
  roots tf ⊆ children E P → made E tf f →
  complete P (prune (dynamic T R) f) ∧
  ∀ c, c ∈ roots tf → static c → first_oid c ∈ ids (prune (dynamic T R) f).
Proof using wf.
  intros Hmem. revert P f. induction tf as [|n tk' IHk ts IHs]; intros P [|e k sb] HP Hrep Hin; cbn [made];
    [|done|intros [s0 Hs0]; destruct (Hmem s0); congruence|].
  { intros _. split; [done|]. by intros c ?%not_elem_of_nil. }
  intros (He & _ & Hk & Hsb). destruct Hrep as ((ty & Hty & _ & Hsub) & Hrk & Hrs). cbn [roots] in Hin.
  pose proof (children_types E tk wf P n HP ltac:(set_solver)) as Hn.
  destruct (IHs P sb HP Hrs ltac:(set_solver) Hsb) as [Hcs Hss].
  assert (Hch : children E n = roots tk') by (unfold children; fold T; by rewrite Hty, Hsub).
  destruct (IHk n k Hn Hrk ltac:(by rewrite Hch) Hk) as [Hck Hsk].
  pose proof (type_id_range E tk n wf Hn) as Hr.
  assert (Hei : e_id e = first_oid n).
  { rewrite He. unfold CFG_TYPE_SHIFT, first_oid. rewrite Z.shiftl_mul_pow2 by lia. apply u32_small. fold R in Hr. lia. }
  assert (Htid : CFG_OID_TO_TID (e_id e) = type_id R n).
  { rewrite Hei. apply oid_parts; unfold R; lia. }
  destruct (type_of_packed n 1 Hn ltac:(lia)) as (ty' & Hty' & Hof). rewrite Hty in Hty'. injection Hty' as <-.
  cbn [prune roots]. rewrite Htid. destruct (dynamic T R (type_id R n)) eqn:Hdyn.
  - split; [done|]. intros c [->|Hc]%elem_of_cons Hst; [unfold static in Hst; congruence|auto].
  - cbn [complete]. rewrite Hei. unfold first_oid at 1. rewrite Hof. split.
    + split; [|done]. split; [set_solver|]. split; [done|]. split; [|done].
      unfold statics. rewrite Hch. apply Forall_forall. auto.
    + unfold ids. cbn [roots map]. intros c [->|Hc]%elem_of_cons Hst; [rewrite Hei; by left|]. right. by apply Hss.
Qed.

Lemma subtree_complete `{Shm} n f :
  (∀ s, is_Some (shm_calloc s)) → n ∈ all_types (env_root E) tk → subtree E n f →
  complete n f ∧ statics n f.
Proof using wf.
  intros Hmem Hn (ck & fk & Hrep & Hch & _ & Hm & ->).
  destruct (made_complete n ck fk Hmem Hn Hrep ltac:(by rewrite Hch) Hm) as [Hc Hs].
  split; [done|]. unfold statics. rewrite Hch. apply Forall_forall. exact Hs.
Qed.
End table.

Lemma resolves_snoc E node p sg P :
  resolves E node p → last_type node p = Some P →
  cfg_type_query_child E (Some P) (Some (sg_name sg)) = Ok (Some (sg_type sg)) →
  name_ok (sg_name sg) → inst_ok (sg_inst sg) → resolves E node (p ++ [sg]).
Proof.
  revert node. induction p as [|a p IH]; intros node Hres Hlast Hq Hn Hi; cbn [app resolves] in *.
  - unfold last_type in Hlast. simpl in Hlast. by subst node.
  - destruct Hres as (Hqa & Hna & Hia & Hres). do 3 (split; [done|]). apply IH; [done| |done..].
    unfold last_type in *. rewrite last_cons in Hlast. by destruct (last p).
Qed.

Lemma ids_of_snoc E p sg : p ≠ [] → ids_of E (p ++ [sg]) = ids_of E p ++ [seg_oid (env_reg E) sg].
Proof. intros Hp. unfold ids_of. rewrite map_app. by destruct p. Qed.

(** ** Objects that load back *)

Section link.
Context (E : cfg_env) (tk : forest tloc) (wf : wf_env E tk).
Let T := env_types E.
Let R := env_reg E.

Definition lname (ty : cfg_node_type) : cstr := cfg_str_to_lower (t_name ty).

(** The tag of an object leads back to its type: it has no number, or it is
    called entry or pvc, whose numbers the loader cuts off. *)
Definition leads_back (ty : cfg_node_type) : bool :=
  negb (numbered_type ty) || bool_decide (lname ty = cs "entry" ∨ lname ty = cs "pvc").

(** The part of a tree that is saved and can be loaded again. *)
Fixpoint lasting (f : eforest) : eforest :=
  match f with
  | FNil => FNil
  | FCons e k sb =>
      match type_of_oid E (e_id e) with
      | None => FNil
      | Some (_, ty) => if in_memory ty || negb (leads_back ty) then lasting sb else FCons e (lasting k) (lasting sb)
      end
  end.

(** An object below one of type [P] whose tag names no type there. *)
Definition lost_ok (P : tloc) (ty : cfg_node_type) (oid : Z) : Prop :=
  strlen (tag_name ty oid) < 31 ∧ name_ok (node_segment (tag_name ty oid)) ∧
  first_named T (children E P) (node_segment (tag_name ty oid)) = None.

(** The segment that names an object in a path. *)
Definition entry_seg (n : tloc) (ty : cfg_node_type) (oid : Z) : seg :=
  {| sg_type := n; sg_name := lname ty;
     sg_inst := if numbered_type ty then Some (CFG_OID_TO_ID oid) else None |}.

(** An object of type [n] below one of type [P] whose tag leads back to it: the
    name is usable in paths, and numbered objects are called entry or pvc. *)
Definition link_ok (P n : tloc) (ty : cfg_node_type) (oid : Z) : Prop :=
  n ∈ children E P ∧ first_named T (children E P) (lname ty) = Some n ∧
  name_ok (lname ty) ∧ seg_ok (entry_seg n ty oid) ∧ strlen (t_name ty) < 26 ∧
  (if numbered_type ty then lname ty = cs "entry" ∨ lname ty = cs "pvc"
   else node_segment (tag_name ty oid) = lname ty ∧ CFG_OID_TO_ID oid = 1) ∧
  (static E n → CFG_OID_TO_ID oid = 1) ∧
  oid = type_id R n * 2 ^ 16 + CFG_OID_TO_ID oid ∧ 1 ≤ CFG_OID_TO_ID oid ≤ CFG_OBJ_MASK.

Lemma link_seg P n ty oid :
  P ∈ all_types (env_root E) tk → link_ok P n ty oid →
  let sg := entry_seg n ty oid in
  n ∈ all_types (env_root E) tk ∧ seg_oid R sg = oid ∧ inst_ok (sg_inst sg) ∧
  cfg_type_query_child E (Some P) (Some (sg_name sg)) = Ok (Some n) ∧
  strlen (tag_name ty oid) < 31 ∧ node_segment (tag_name ty oid) = join (seg_tokens sg).
Proof using wf.
  intros HP (Hch & Hfn & Hname & Hseg & Hlen & Htag & _ & Hoid & Hi) sg.
  split; [by eapply children_types|]. unfold sg, entry_seg, seg_oid, seg_tokens, tag_name in *. cbn [sg_name sg_inst sg_type].
  fold (numbered_type ty) in *. destruct (numbered_type ty); cbn [default inst_ok join].
  - split; [done|]. split; [done|]. split; [rewrite (query_child_spec E tk wf) by done; by f_equal|].
    unfold CFG_OBJ_MASK in Hi. split; [|rewrite node_segment_numbered by (done || lia); done].
    assert (Hd : strlen (fmt_d (CFG_OID_TO_ID oid - 1)) ≤ 5); [|rewrite strlen_app; lia].
    unfold fmt_d. rewrite (proj2 (Z.ltb_ge _ 0)) by lia. unfold fmt_u.
    pose proof (UtilProps.dec_digits_short 10 (CFG_OID_TO_ID oid - 1) [] 5) as Hd. change (strlen []) with 0 in Hd.
    apply Hd; lia.
  - destruct Htag as [Htag H1]. rewrite H1 in Hoid. split; [symmetry; exact Hoid|]. split; [done|].
    split; [rewrite (query_child_spec E tk wf) by done; by f_equal|]. split; [|done].
    destruct (strcmp _ _ =? 0); [by vm_compute|lia].
Qed.
End link.

(** ** Loading one element *)

Section load.
Context (E : cfg_env) (tk : forest tloc) (wf : wf_env E tk) `{ShmLaws} `{Xml}.
Context (Hmem : ∀ s, is_Some (shm_calloc s)).

Let T := env_types E.
Let R := env_reg E.

(** The loader is at the elements below the object with path [p]. *)
Record place (above : list cstr) (p : list seg) (P : tloc) (s : store) (G : eforest)
    (ep : entry) (kids : eforest) : Prop := {
  pl_ne : p ≠ [];
  pl_res : resolves E None p;
  pl_type : last_type None p = Some P;
  pl_depth : (length (concat (map seg_tokens p)) < CFG_MAX_NODE_LEVEL)%nat;
  pl_tags : tags_for E above p;
  pl_rep : rep_tree s G;
  pl_find : lookup G (ids_of E p) = Some (ep, kids);
  pl_complete : complete E P kids;
  pl_statics : statics E P kids
}.

Lemma tokens_length p : (length p ≤ length (concat (map seg_tokens p)))%nat.
Proof using. induction p as [|sg p IH]; [done|]. cbn [map concat]. rewrite length_app. simpl. lia. Qed.

Lemma place_type above p P s G ep kids :
  place above p P s G ep kids → P ∈ all_types (env_root E) tk.
Proof using wf.
  intros Hpl. pose proof (resolves_types E tk None p wf ltac:(done) (pl_res _ _ _ _ _ _ _ Hpl)) as Ht.
  pose proof (pl_type _ _ _ _ _ _ _ Hpl) as Hl. unfold last_type in Hl. destruct (last p) as [sg|] eqn:Hp; [|done].
  injection Hl as <-. rewrite Forall_forall in Ht. apply Ht. apply last_Some in Hp as [p' ->].
  apply elem_of_app. right. by left.
Qed.

Lemma set_attrs_run p s G e k attrs :
  rep_tree s G → resolves E None p → (1 ≤ length p ≤ CFG_MAX_NODE_LEVEL)%nat →
  lookup G (ids_of E p) = Some (e, k) → Forall (λ a, a.1 ≠ []) attrs →
  ∃ s' a, set_attrs E (path_of p) attrs s = Ok (tt, s') ∧ copied (e_attrs e) attrs a ∧
    rep_tree s' (update G (ids_of E p) (with_attrs e a) k).
Proof using wf.
  intros HG Hres Hlen Hl Hattrs. destruct (written_ids E tk p wf Hres Hlen) as (o & Hp & Hu).
  revert s G e HG Hl. induction Hattrs as [|[nm v] attrs Hnm _ IH]; intros s G e HG Hl.
  - exists s, (e_attrs e). split; [done|]. split; [done|]. replace (with_attrs e _) with e by (by destruct e). by rewrite update_id.
  - cbn [set_attrs]. cbn [fst] in Hnm.
    pose proof (set_object_attr_run E s G _ nm v o _ HG Hp Hu Hnm) as Hset. rewrite Hl in Hset.
    set (a1 := cfg_xml_set_attr (with_lock 1 s) (e_attrs e) nm v) in *.
    destruct (set_xml_tree s G _ e k a1 HG Hl) as [HG1 _].
    destruct (IH _ _ (with_attrs e a1) HG1) as (s' & a & Hr & Ha & HG').
    { by eapply lookup_updated. }
    exists s', a. step_by Hset. split; [exact Hr|]. split; [by exists (with_lock 1 s)|].
    by rewrite (update_twice _ _ _ _ _ _ _ _ Hl) in HG'.
Qed.

Lemma get_obj_unknown s G path :
  rep_tree s G → cfg_path_to_oid_array E (Some path) true = Ok None → cfg_obj_get_obj E (Some path) s = Ok (None, s).
Proof using.
  intros HG Hp. unfold cfg_obj_get_obj. rewrite (M_bind_Ok _ _ s (cfg_obj_root s) s) by done.
  destruct (cfg_obj_root s); [|done]. by rewrite (M_bind_Ok _ _ _ _ _ (lift_Ok _ _ s Hp)).
Qed.

(** The element of an object whose tag names no type is skipped. *)
Lemma load_lost above p P s G ep kids ty o attrs d d2 :
  place above p P s G ep kids → lost_ok E P ty o →
  cfg_load_from_xml E above (FCons (tag_name ty o, attrs) d d2) s = cfg_load_from_xml E above d2 s.
Proof using wf.
  intros Hpl (Hlen & Hname & Hno). set (tag := tag_name ty o) in *.
  set (sg := {| sg_type := P; sg_name := node_segment tag; sg_inst := None |}).
  pose proof (place_type _ _ _ _ _ _ _ Hpl) as HP. destruct Hpl as [Hne Hres Hty Hdeep Htags HG _ _ _].
  pose proof (tokens_length p) as Hl.
  assert (Hq : cfg_type_query_child E (last_type None p) (Some (node_segment tag)) = Ok None).
  { rewrite Hty, (query_child_spec E tk wf) by done. by f_equal. }
  assert (Hpath : path_of (p ++ [sg]) = join (concat (map seg_tokens p) ++ [node_segment tag])).
  { unfold path_of. by rewrite map_app, concat_app. }
  assert (Hnp : cfg_xml_node_to_path E (tag :: above) = Ok (path_of (p ++ [sg]))).
  { apply node_to_path; [by apply tags_for_snoc|]. rewrite length_app. simpl. lia. }
  cbn [cfg_load_from_xml]. rewrite (M_bind_Ok _ _ _ _ _ (lift_Ok _ _ s Hnp)), Hpath.
  rewrite (M_bind_Ok _ _ s (-1, []) s).
  2:{ unfold cfg_obj_query_object. step_by (mret_Ok (Some (@None tloc)) s). cbn iota. step_by (lock_Ok s).
      step_by (get_obj_unknown (with_lock 1 s) G _ (rep_tree_lock 1 s G HG)
        (oid_array_unknown E p _ Hres ltac:(lia) Hname Hq)).
      step_by (mret_Ok (-1, @nil Z) (with_lock 1 s)). by step_by (unlock_Ok s). }
  cbn [fst]. change (-1 <=? 0) with true. cbn iota.
  rewrite (M_bind_Ok _ _ _ _ _ (lift_Ok _ _ s (type_query_unknown E p _ Hres Hdeep Hname Hq))). done.
Qed.

Section element.
Context (above : list cstr) (p : list seg) (P : tloc) (s : store) (G : eforest) (ep : entry) (kids : eforest).
Context (Hpl : place above p P s G ep kids).
Context (n : tloc) (ty : cfg_node_type) (o : Z) (Hlink : link_ok E P n ty o) (Hty : type_of_oid E o = Some (n, ty)).
Let sg := entry_seg n ty o.
Let path := path_of (p ++ [sg]).
Context (Hdeep : (length (concat (map seg_tokens (p ++ [sg]))) < CFG_MAX_NODE_LEVEL)%nat).

Lemma element_path :
  resolves E None (p ++ [sg]) ∧ (1 ≤ length (p ++ [sg]) < CFG_MAX_NODE_LEVEL)%nat ∧
  ids_of E (p ++ [sg]) = ids_of E p ++ [o] ∧ cfg_xml_node_to_path E (tag_name ty o :: above) = Ok path ∧
  tags_for E (tag_name ty o :: above) (p ++ [sg]).
Proof using wf Hpl Hlink Hdeep.
  destruct (link_seg E tk wf P n ty o (place_type _ _ _ _ _ _ _ Hpl) Hlink) as (Hn & Hoid & Hi & Hq & Hl & Htag).
  fold sg in Hoid, Hi, Hq, Htag. pose proof (tokens_length (p ++ [sg])) as Htl.
  assert (Hlen : (1 ≤ length (p ++ [sg]) < CFG_MAX_NODE_LEVEL)%nat) by (rewrite length_app in *; simpl in *; lia).
  pose proof (tags_for_snoc E above p _ sg (pl_tags _ _ _ _ _ _ _ Hpl) Hl Htag) as Htags.
  split; [eapply resolves_snoc; [apply Hpl..|done| |done]; apply Hlink|].
  split; [done|]. split; [rewrite ids_of_snoc by apply Hpl; by rewrite Hoid|].
  split; [|done]. apply node_to_path; [done|lia].
Qed.

(** What the loader asks first. *)
Lemma element_query :
  cfg_obj_query_object E (Some path) None false s
  = Ok (if f_find kids o [] is Some _ then 1 else -1, [], s).
Proof using wf Hpl Hlink Hdeep.
  destruct element_path as (Hres & Hlen & Hids & _ & _).
  destruct (written_ids E tk (p ++ [sg]) wf Hres ltac:(lia)) as (o0 & Hp & Hu).
  destruct (query_object_run E s G _ o0 _ (pl_rep _ _ _ _ _ _ _ Hpl) Hp Hu) as [_ Hq]. fold path in Hq. rewrite Hq.
  by rewrite Hids, (lookup_snoc _ _ _ ep kids) by apply Hpl.
Qed.

(** A missing object is of a dynamic type. *)
Lemma missing_dynamic : f_find kids o [] = None → dynamic T R (type_id R n) = true.
Proof using wf Hpl Hlink.
  intros Hno. destruct (dynamic T R (type_id R n)) eqn:Hd; [done|].
  destruct Hlink as (Hch & _ & _ & _ & _ & _ & Hst & Hoid & _). rewrite (Hst Hd) in Hoid.
  pose proof (pl_statics _ _ _ _ _ _ _ Hpl) as Hs. unfold statics in Hs. rewrite Forall_forall in Hs.
  specialize (Hs n Hch Hd). apply f_find_None in Hno. by rewrite Hoid in Hno.
Qed.

(** A type without numbered instances has its first instance created. *)
Lemma missing_target :
  let oid := target_oid R sg in
  f_find kids o [] = None →
  f_find kids oid [] = None ∧ new_oid kids oid = o ∧ (sg_inst sg = None → room_for kids oid).
Proof using wf Hpl Hlink Hty Hdeep.
  intros oid Hno. subst oid.
  destruct (link_seg E tk wf P n ty o (place_type _ _ _ _ _ _ _ Hpl) Hlink) as (Hn & _). pose proof (type_id_range E tk n wf Hn) as Hr.
  destruct Hlink as (_ & _ & _ & _ & _ & Htag & _ & Ho & Hi). unfold CFG_OBJ_MASK in Hi.
  unfold target_oid, sg, entry_seg. cbn [sg_inst sg_type]. fold R in Hr, Ho.
  destruct (numbered_type ty) eqn:Hnum.
  - change (default 0 (Some (CFG_OID_TO_ID o))) with (CFG_OID_TO_ID o). rewrite <- Ho. split; [done|]. split; [|done].
    unfold new_oid. by rewrite (proj2 (Z.eqb_neq _ 0)) by lia.
  - destruct Htag as [_ Hone]. change (default 0 None) with 0. set (t := type_id R n * 2 ^ 16 + 0).
    assert (Hmod : t mod 2 ^ 16 = 0) by (unfold t; rewrite Z.add_0_r; apply Z_mod_mult).
    assert (Ht : Z.land t CFG_TYPE_MASK = t) by (rewrite land_type by (unfold t, uint; lia); lia).
    assert (Hother : ∀ e, e ∈ roots kids → Z.land (e_id e) CFG_TYPE_MASK ≠ t).
    { intros e He Hbad. destruct (complete_roots E P kids e (pl_complete _ _ _ _ _ _ _ Hpl) He) as (n' & ty' & Hof & H').
      pose proof (roots_uint _ _ _ _ _ (pl_rep _ _ _ _ _ _ _ Hpl) (pl_find _ _ _ _ _ _ _ Hpl)) as Hu.
      rewrite Forall_forall in Hu. specialize (Hu e He). rewrite land_type in Hbad by done.
      pose proof (Z.mod_pos_bound (e_id e) (2 ^ 16) ltac:(lia)) as Hb.
      assert (He' : e_id e = type_id R n * 2 ^ 16 + e_id e mod 2 ^ 16) by (unfold t in Hbad; lia).
      assert (Hsame : cfg_type_from_oid E (e_id e) = cfg_type_from_oid E o).
      { unfold cfg_type_from_oid. f_equal.
        destruct (oid_parts (type_id R n) (e_id e mod 2 ^ 16) ltac:(lia) Hb) as [Ha _].
        destruct (oid_parts (type_id R n) (CFG_OID_TO_ID o) ltac:(lia) ltac:(lia)) as [Hc _].
        by rewrite He', Ho, Ha, Hc. }
      unfold type_of_oid in Hof, Hty. rewrite Hsame, Hty in Hof. injection Hof as <- <-.
      apply f_find_None in Hno. apply Hno. rewrite Ho, Hone. change (type_id R n * 2 ^ 16 + 1) with (first_oid E n). rewrite <- (H' Hnum).
      unfold ids. by apply list_elem_of_fmap_2. }
    assert (Hmax : ∀ m, max_oid kids t m = m).
    { clear -Hother. induction kids as [|e k _ sb IH]; intros m; cbn [max_oid]; [done|].
      rewrite (proj2 (Z.eqb_neq _ _)) by (apply Hother; by left). cbn [andb]. apply IH.
      intros e' He'. apply Hother. by right. }
    split; [|split].
    + apply f_find_None. intros Hbad. unfold ids in Hbad. apply list_elem_of_fmap in Hbad as (e & Heq & He).
      by apply (Hother e He); rewrite <- Heq.
    + unfold new_oid, next_oid. replace (CFG_OID_TO_ID t) with 0 by (unfold CFG_OID_TO_ID; rewrite (Z.land_ones _ 16) by lia; done).
      cbn [Z.eqb]. rewrite Ht, Hmax. unfold t. lia.
    + intros _. unfold room_for. rewrite Ht, Hmax, land_obj, Hmod. done.
Qed.

(** Creating it gives an object of its own with the static objects below. *)
Lemma create_missing :
  f_find kids o [] = None →
  ∃ en f s1, cfg_obj_create_object E (Some path) s = Ok (o, s1) ∧ 0 < o ∧ e_id en = o ∧
    rep_tree s1 (update G (ids_of E p) ep (fapp kids (FCons en f FNil))) ∧
    complete E n f ∧ statics E n f.
Proof using wf Hpl Hlink Hty Hdeep Hmem H0.
  intros Hf. destruct element_path as (Hres & Hlen & _). destruct (missing_target Hf) as (Hnone & Hnew & Hroom).
  destruct (link_seg E tk wf P n ty o (place_type _ _ _ _ _ _ _ Hpl) Hlink) as (Hn & _).
  pose proof (create_object_run E tk s G p sg ep kids wf (pl_rep _ _ _ _ _ _ _ Hpl) (pl_ne _ _ _ _ _ _ _ Hpl) Hres) as Hcr.
  cbv zeta in Hcr. fold R path in Hcr. rewrite Hnone in Hcr.
  destruct (refuses (with_lock 1 s)) eqn:Hrf; [destruct (refuses_none _ Hrf) as [s0 Hs0]; destruct (Hmem s0); congruence|].
  destruct Hcr as (en & f & s1 & Hr & Hen & Hat & Hsub & HG1 & _ & _).
  - apply Hlink.
  - pose proof (join_length _ (resolves_tokens E None _ Hres)) as Hj. fold path in Hj.
    unfold path, path_of in *. unfold CFG_MAX_PATH_NAME, CFG_MAX_NODE_LEVEL in *. lia.
  - lia.
  - apply Hpl.
  - done.
  - destruct (subtree_complete E tk wf n f Hmem Hn Hsub) as [Hcf Hsf]. rewrite Hnew in Hr, Hen.
    exists en, f, s1. split; [done|]. split; [|done]. pose proof (type_id_range E tk n wf Hn) as Hrg.
    destruct Hlink as (_ & _ & _ & _ & _ & _ & _ & Ho & Hi). fold R in Hrg, Ho. lia.
Qed.

(** After the loader has looked for the object, and created it if it had to,
    it is there. *)
Lemma ensure_object :
  ∃ s1 kids1 e1 k1,
    (∀ (none : SM Z) (go : bool → SM Z),
       (q ← cfg_obj_query_object E (Some path) None false;
        type ← (if q.1 <=? 0 then lift (cfg_type_query E (Some path)) else mret None);
        if (q.1 <=? 0) && (if type is None then true else false) then none
        else
          exist ← (match type with
                   | Some t =>
                       dyn ← lift (cfg_type_is_dynamic_type T R (type_id R t));
                       if dyn : bool then r ← cfg_obj_create_object E (Some path); mret (0 <? r)
                       else mret false
                   | None => mret true
                   end);
          go exist) s = go true s1) ∧
    rep_tree s1 (update G (ids_of E p) ep kids1) ∧ f_find kids1 o [] = Some (e1, k1) ∧
    complete E P kids1 ∧ statics E P kids1 ∧
    (∀ o' l a, view kids o' l = Some a → view kids1 o' l = Some a).
Proof using wf Hpl Hlink Hty Hdeep Hmem H0.
  destruct element_path as (Hres & Hlen & Hids & _ & _). pose proof element_query as Hq.
  pose proof (pl_find _ _ _ _ _ _ _ Hpl) as Hfind. pose proof (pl_rep _ _ _ _ _ _ _ Hpl) as HG.
  destruct (f_find kids o []) as [[e1 k1]|] eqn:Hf.
  { exists s, kids, e1, k1. split.
    - intros none go. step_by Hq. by step_by (mret_Ok (@None tloc) s).
    - rewrite (update_id _ _ _ _ Hfind). split; [done|]. split; [done|]. split; [apply Hpl|].
      split; [apply Hpl|done]. }
  destruct (create_missing Hf) as (en & f & s1 & Hr & Hpos & Hen & HG1 & Hcf & Hsf).
  destruct (link_seg E tk wf P n ty o (place_type _ _ _ _ _ _ _ Hpl) Hlink) as (Hn & _).
  exists s1, (fapp kids (FCons en f FNil)), en, f. split; [|split; [done|split; [|split; [|split]]]].
  - intros none go. step_by Hq. cbn [fst]. change (-1 <=? 0) with true. cbn iota.
    assert (Hqt : cfg_type_query E (Some path) = Ok (Some n)).
    { unfold path. rewrite type_query_written by (done || by destruct p). unfold last_type. by rewrite last_snoc. }
    rewrite (M_bind_Ok _ _ _ _ _ (lift_Ok _ _ s Hqt)). cbn [andb]. cbn iota.
    rewrite (M_bind_Ok _ _ _ true s1); [done|]. pose proof (type_id_range E tk n wf Hn) as Hrg.
    rewrite (M_bind_Ok _ _ _ _ _ (lift_Ok _ _ s (is_dynamic_type_spec E tk (type_id R n) wf ltac:(unfold R; lia)))).
    fold T R. rewrite (missing_dynamic Hf). step_by Hr. unfold mret, M_ret. do 2 f_equal. by apply Z.ltb_lt.
  - rewrite f_find_fapp, Hf. cbn [f_find]. by rewrite (proj2 (Z.eqb_eq _ _) Hen).
  - apply complete_fapp; [apply Hpl|]. cbn [complete]. rewrite Hen, Hty. split; [|done].
    split; [apply Hlink|]. split; [|done]. intros Hnum.
    destruct Hlink as (_ & _ & _ & _ & _ & Htag & _ & Ho & _). rewrite Hnum in Htag. destruct Htag as [_ Hone].
    by rewrite Hone in Ho.
  - eapply statics_ids; [apply Hpl|]. rewrite ids_fapp. set_solver.
  - intros o' l a. apply view_fapp.
Qed.

(** The whole element, up to what is below and beside it. *)
Lemma load_element attrs :
  Forall (λ a, a.1 ≠ []) attrs →
  ∃ s2 kids2 e2 k2,
    (∀ d d2, cfg_load_from_xml E above (FCons (tag_name ty o, attrs) d d2) s
             = (cfg_load_from_xml E (tag_name ty o :: above) d ;; cfg_load_from_xml E above d2 ;; mret 0) s2) ∧
    rep_tree s2 (update G (ids_of E p) ep kids2) ∧ f_find kids2 o [] = Some (e2, k2) ∧
    (∃ a0, copied a0 attrs (e_attrs e2)) ∧ complete E P kids2 ∧ statics E P kids2 ∧
    (∀ o' l a, (o', l) ≠ (o, []) → view kids o' l = Some a → view kids2 o' l = Some a).
Proof using wf Hpl Hlink Hty Hdeep Hmem H0.
  intros Hattrs. destruct element_path as (Hres & Hlen & Hids & Hnp & _).
  destruct ensure_object as (s1 & kids1 & e1 & k1 & Hrun & HG1 & Hf1 & Hc1 & Hs1 & Hv1).
  pose proof (pl_find _ _ _ _ _ _ _ Hpl) as Hfind.
  assert (Hl1 : lookup (update G (ids_of E p) ep kids1) (ids_of E (p ++ [sg])) = Some (e1, k1)).
  { rewrite Hids, (lookup_snoc _ _ _ ep kids1); [done|]. by eapply lookup_updated. }
  destruct (set_attrs_run (p ++ [sg]) s1 _ e1 k1 attrs HG1 Hres ltac:(lia) Hl1 Hattrs) as (s2 & a2 & Hset & Ha & HG2).
  set (e2 := with_attrs e1 a2) in *.
  exists s2, (f_update kids1 o [] e2 k1), e2, k1. split; [|split; [|split; [|split; [|split; [|split]]]]].
  - intros d d2. cbn [cfg_load_from_xml]. rewrite (M_bind_Ok _ _ _ _ _ (lift_Ok _ _ s Hnp)).
    fold T R in Hrun |- *. rewrite Hrun. fold path in Hset. unfold mbind, M_bind. rewrite Hset.
    destruct (cfg_load_from_xml E (tag_name ty o :: above) d s2) as [[r s3]| |]; [|done|done]. done.
  - rewrite Hids in HG2. erewrite update_snoc in HG2 by (by eapply lookup_updated).
    by rewrite (update_twice _ _ _ _ _ _ _ _ Hfind) in HG2.
  - by eapply f_find_updated.
  - by eexists.
  - destruct (complete_find E P kids1 o e1 k1 Hc1 Hf1) as (n' & ty' & Ho & _ & _ & Hsk & Hck).
    eapply complete_update; [exact Hc1|exact Hf1|done|exact Ho|exact Hsk|exact Hck].
  - eapply statics_ids; [exact Hs1|]. by rewrite (ids_update _ _ _ _ _ _ _ Hf1).
  - intros o' l a Hne Hv. apply Hv1 in Hv. rewrite (view_update _ _ _ _ _ _ _ _ Hf1) by done.
    destruct (decide (o = o')) as [<-|]; [|done]. destruct l as [|i l]; [done|].
    unfold view in Hv |- *. by rewrite f_find_step, Hf1 in Hv.
Qed.
End element.

(** ** Loading a document *)

(** Objects below one of type [P], whose path has [depth] tokens. *)
Fixpoint savable (depth : nat) (P : tloc) (f : eforest) : Prop :=
  match f with
  | FNil => True
  | FCons e k sb =>
      match type_of_oid E (e_id e) with
      | Some (n, ty) =>
          let depth' := (depth + length (seg_tokens (entry_seg n ty (e_id e))))%nat in
          if leads_back ty then
            link_ok E P n ty (e_id e) ∧ Forall (λ a, a.1 ≠ []) (e_attrs e) ∧
            (depth' < CFG_MAX_NODE_LEVEL)%nat ∧ savable depth' n k
          else lost_ok E P ty (e_id e)
      | None => False
      end ∧ savable depth P sb
  end.

(** Objects of [f] carry its attributes on top of what they had; others keep
    what they had. *)
Definition restored (f kids kids' : eforest) : Prop :=
  ∀ o l, match f_find f o l with
         | Some (e, _) => ∃ a0 a, view kids' o l = Some a ∧ copied a0 (e_attrs e) a
         | None => ∀ a, view kids o l = Some a → view kids' o l = Some a
         end.

Lemma restored_cons e sk ssb kids kids2 kids3 kids4 e2 e2' k2 k3 :
  e_id e ∉ ids ssb → f_find kids2 (e_id e) [] = Some (e2, k2) →
  (∃ a0, copied a0 (e_attrs e) (e_attrs e2)) →
  (∀ o' l a, (o', l) ≠ (e_id e, []) → view kids o' l = Some a → view kids2 o' l = Some a) →
  restored sk k2 k3 → e_id e2' = e_id e2 → e_attrs e2' = e_attrs e2 →
  kids3 = f_update kids2 (e_id e) [] e2' k3 → restored ssb kids3 kids4 →
  restored (FCons e sk ssb) kids kids4.
Proof using.
  intros Hnew Hf2 Hat Hv2 Hk Hid Ha -> Hsb o l. set (i := e_id e) in *.
  assert (Hup : ∀ o' l', view (f_update kids2 i [] e2' k3) o' l'
     = if decide (i = o') then match l' with [] => Some (e_attrs e2') | j :: l'' => view k3 j l'' end
       else view kids2 o' l') by (intros o' l'; by eapply view_update).
  specialize (Hsb o l). cbn [f_find]. fold i. destruct (i =? o) eqn:Eo; zify_bool.
  - subst o. rewrite (view_None ssb i l Hnew), Hup in Hsb. rewrite decide_True in Hsb by done.
    destruct l as [|j l]; [rewrite Ha in Hsb; destruct Hat as [a0 Hat]; exists a0, (e_attrs e2); split; [by apply Hsb|done]|].
    specialize (Hk j l). destruct (f_find sk j l) as [[e' ?]|].
    + destruct Hk as (a0 & a & Hk & Ha'). exists a0, a. split; [by apply Hsb|done].
    + intros a Hv. apply Hsb, Hk. apply Hv2 in Hv; [|done]. unfold view in *. by rewrite f_find_step, Hf2 in Hv.
  - destruct (f_find ssb o l) as [[e' ?]|]; [done|]. intros a Hv. apply Hsb. rewrite Hup, decide_False by done.
    apply Hv2; [|done]. intros [= <- _]. done.
Qed.

Lemma load_forest f above p P s G ep kids :
  place above p P s G ep kids →
  savable (length (concat (map seg_tokens p))) P (saved E f) → distinct (lasting E f) →
  ∃ s' kids', cfg_load_from_xml E above (doc_of E f) s = Ok (0, s') ∧
    rep_tree s' (update G (ids_of E p) ep kids') ∧ complete E P kids' ∧ statics E P kids' ∧
    restored (lasting E f) kids kids'.
Proof using wf Hmem H0.
  revert above p P s G ep kids. induction f as [|e k IHk sb IHs]; intros above p P s G ep kids Hpl Hsav Hdis;
    cbn [saved lasting doc_of] in *.
  { exists s, kids. split; [done|]. rewrite update_id by apply Hpl. repeat (split; [apply Hpl|]). by intros o l a. }
  destruct (type_of_oid E (e_id e)) as [[n ty]|] eqn:Hty.
  2: { exists s, kids. split; [done|]. rewrite update_id by apply Hpl. repeat (split; [apply Hpl|]). by intros o l a. }
  destruct (in_memory ty); [by apply (IHs above p P s G ep kids)|]. cbn [orb] in *.
  cbn [savable] in Hsav. rewrite Hty in Hsav. destruct (leads_back ty); cbn [negb] in *; cbv iota in *.
  2: { destruct Hsav as [Hlost Hsavs]. rewrite (load_lost _ _ _ _ _ _ _ _ _ _ _ _ Hpl Hlost).
       by apply (IHs above p P s G ep kids). }
  cbn [distinct] in Hdis.
  destruct Hsav as [(Hlink & Hattrs & Hdeep & Hsavk) Hsavs], Hdis as (Hnew & Hdk & Hds).
  set (sg := entry_seg n ty (e_id e)) in *.
  assert (Hlen : length (concat (map seg_tokens (p ++ [sg])))
                 = (length (concat (map seg_tokens p)) + length (seg_tokens sg))%nat).
  { rewrite map_app, concat_app, length_app. cbn [map concat]. by rewrite app_nil_r. }
  rewrite <- Hlen in Hdeep, Hsavk.
  destruct (element_path above p P s G ep kids Hpl n ty _ Hlink Hdeep) as (Hres2 & _ & Hids & _ & Htags).
  destruct (load_element above p P s G ep kids Hpl n ty _ Hlink Hty Hdeep (e_attrs e) Hattrs)
    as (s2 & kids2 & e2 & k2 & Hrun & HG2 & Hf2 & Hat & Hc2 & Hs2 & Hv2).
  pose proof (pl_find _ _ _ _ _ _ _ Hpl) as Hfind.
  assert (Hfind2 : lookup (update G (ids_of E p) ep kids2) (ids_of E p) = Some (ep, kids2)) by (by eapply lookup_updated).
  destruct (complete_find E P kids2 _ e2 k2 Hc2 Hf2) as (n' & ty' & Ho & _ & _ & Hsk & Hck).
  rewrite Hty in Ho. injection Ho as <- <-.
  destruct (IHk (tag_name ty (e_id e) :: above) (p ++ [sg]) n s2 (update G (ids_of E p) ep kids2) e2 k2)
    as (s3 & k3 & Hr3 & HG3 & Hc3 & Hs3 & Hv3); [|done|done|].
  { split; try done; [by destruct p|unfold last_type; by rewrite last_snoc|].
    unfold sg. rewrite Hids. by rewrite (lookup_snoc _ _ _ ep kids2). }
  unfold sg in HG3. rewrite Hids, (update_snoc _ _ _ _ _ _ _ Hfind2), (update_twice _ _ _ _ _ _ _ _ Hfind) in HG3 by done.
  set (kids3 := f_update kids2 (e_id e) [] e2 k3) in *.
  destruct (IHs above p P s3 (update G (ids_of E p) ep kids3) ep kids3) as (s4 & kids4 & Hr4 & HG4 & Hc4 & Hs4 & Hv4);
    [|done|done|].
  { destruct Hpl. split; try done; [by eapply lookup_updated|by eapply complete_update|].
    eapply statics_ids; [exact Hs2|]. unfold kids3. by rewrite (ids_update _ _ _ _ _ _ _ Hf2). }
  exists s4, kids4. split; [|split; [|split; [done|split; [done|]]]].
  - rewrite Hrun. step_by Hr3. by step_by Hr4.
  - by rewrite (update_twice _ _ _ _ _ _ _ _ Hfind) in HG4.
  - by eapply restored_cons.
Qed.

(** ** Loading a configuration *)

(** The table's root: its name survives as the first segment of every path. *)
Definition root_seg (ty : cfg_node_type) : seg :=
  {| sg_type := env_root E; sg_name := lname ty; sg_inst := None |}.
Definition root_ok (ty : cfg_node_type) : Prop :=
  T !! env_root E = Some ty ∧ in_memory ty = false ∧ strlen (t_name ty) < 31 ∧
  node_segment (t_name ty) = lname ty ∧ name_ok (lname ty) ∧ named T (env_root E) (lname ty) = true ∧ leads_back ty = true.

(** A tree whose saved part can be read back: the tag of each object leads to
    its type or to none. *)
Definition can_save (F : eforest) : Prop :=
  match F with
  | FCons r K FNil =>
      e_id r = first_oid E (env_root E) ∧ Forall (λ a, a.1 ≠ []) (e_attrs r) ∧
      savable 1 (env_root E) (saved E K) ∧ distinct (lasting E K) ∧
      Forall (λ e, NoDup (map fst (e_attrs e))) (preorder (lasting E F))
  | _ => False
  end.

(** A tree to load into. *)
Definition ready (G : eforest) : Prop :=
  match G with
  | FCons _ K FNil => complete E (env_root E) K ∧ statics E (env_root E) K
  | _ => False
  end.

Lemma saved_root ty r K :
  root_ok ty → e_id r = first_oid E (env_root E) →
  lasting E (FCons r K FNil) = FCons r (lasting E K) FNil ∧
  doc_of E (FCons r K FNil) = FCons (tag_name ty (e_id r), e_attrs r) (doc_of E K) FNil.
Proof using wf.
  intros (Hty & Hmemo & _ & _ & _ & _ & Hlead) Hr. destruct (type_of_packed E tk wf (env_root E) 1 ltac:(by left) ltac:(lia)) as (ty' & Hty' & Hof).
  fold T in Hty'. rewrite Hty in Hty'. injection Hty' as <-. cbn [lasting doc_of]. rewrite Hr.
  change (type_id (env_reg E) (env_root E) * 2 ^ 16 + 1) with (first_oid E (env_root E)) in Hof. by rewrite Hof, Hmemo, Hlead.
Qed.

Lemma load_document ty s G r K r0 K0 :
  root_ok ty → rep_tree s G → G = FCons r0 K0 FNil → ready G → can_save (FCons r K FNil) →
  ∃ s' r' K', cfg_load_object E (Some (doc_of E (FCons r K FNil))) s = Ok (0, s') ∧
    rep_tree s' (FCons r' K' FNil) ∧ (∃ a0, copied a0 (e_attrs r) (e_attrs r')) ∧
    restored (lasting E K) K0 K'.
Proof using wf Hmem H0.
  intros Hroot HG HGe Hready (Hr & Hattrs & Hsav & Hdis & _). subst G. destruct Hready as [Hc Hs].
  destruct (saved_root ty r K Hroot Hr) as [_ ->]. destruct Hroot as (Hty & _ & Hlt & Hseg & Hname & Hnamed & _).
  set (sg := root_seg ty). set (tag := tag_name ty (e_id r)).
  assert (Htags : tags_for E [tag] [sg]) by (exists sg, [], [], tag, ty; repeat (split; [done|]); constructor).
  assert (Hres : resolves E None [sg]).
  { split; [|done]. cbn [sg_name sg_type sg root_seg]. rewrite (query_child_root E tk wf). fold T. by rewrite Hnamed. }
  destruct (written_ids E tk [sg] wf Hres ltac:(simpl; unfold CFG_MAX_NODE_LEVEL; lia)) as (o0 & Hp & Hu).
  assert (Hl : lookup (FCons r0 K0 FNil) (ids_of E [sg]) = Some (r0, K0)).
  { unfold lookup, ids_of. cbn [map tail f_find]. by rewrite Z.eqb_refl. }
  destruct (query_object_run E s _ _ o0 _ HG Hp Hu) as [_ Hq]. rewrite Hl in Hq.
  destruct (set_attrs_run [sg] s _ r0 K0 (e_attrs r) HG Hres ltac:(simpl; unfold CFG_MAX_NODE_LEVEL; lia) Hl Hattrs)
    as (s1 & a1 & Hset & Ha1 & HG1).
  set (r1 := with_attrs r0 a1) in *.
  destruct (load_forest K [tag] [sg] (env_root E) s1 (update (FCons r0 K0 FNil) (ids_of E [sg]) r1 K0) r1 K0) as (s2 & K2 & Hrun & HG2 & _ & _ & Hv2); [|done|done|].
  { split; try done; [simpl; unfold CFG_MAX_NODE_LEVEL; lia|]. by eapply lookup_updated. }
  exists s2, r1, K2. split; [|split; [|split; [by eexists|done]]].
  - unfold cfg_load_object. cbn [cfg_load_from_xml].
    rewrite (M_bind_Ok _ _ _ _ _ (lift_Ok _ _ s (node_to_path E [tag] [sg] Htags ltac:(simpl; unfold CFG_MAX_NODE_LEVEL; lia)))).
    step_by Hq. step_by (mret_Ok (@None tloc) s). cbn [fst]. change (1 <=? 0) with false. cbn [andb].
    step_by (mret_Ok true s). unfold mbind, M_bind. rewrite Hset, Hrun. done.
  - rewrite (update_twice _ _ _ _ _ _ _ _ Hl) in HG2 by done.
    unfold update, ids_of in HG2. cbn [map tail f_update] in HG2. by rewrite Z.eqb_refl in HG2.
Qed.
End load.

(** ** Attributes read back *)

(** Shared memory does not run out, neither for objects nor for attributes. *)
Definition enough_memory `{Shm} `{Xml} : Prop :=
  (∀ s, is_Some (shm_calloc s)) ∧ ∀ s a n v, xml_room s a n v = true.

Lemma copied_other `{XmlLaws} a l a' n :
  copied a l a' → n ∉ map fst l → cfg_xml_get_attr a' n = cfg_xml_get_attr a n.
Proof.
  revert a. induction l as [|[m v] l IH]; intros a; cbn [copied map fst snd]; [by intros ->|].
  intros [s Hc] Hn. rewrite (IH _ Hc) by set_solver. apply xml_get_set_ne. set_solver.
Qed.

Lemma copied_get `{XmlLaws} a l a' n v :
  (∀ s a n v, xml_room s a n v = true) → copied a l a' → NoDup (map fst l) → (n, v) ∈ l → cfg_xml_get_attr a' n = Some v.
Proof.
  intros Hroom. revert a. induction l as [|[m w] l IH]; intros a; cbn [copied map fst snd]; [by intros _ _ ?%not_elem_of_nil|].
  intros [s Hc] [Hm Hnd]%NoDup_cons Hin.
  apply elem_of_cons in Hin as [[= -> ->]|Hin]; [|by eapply IH]. rewrite (copied_other _ _ _ _ Hc) by done. by apply xml_get_set.
Qed.

(** What [cfg_obj_get_object_attr] makes of the attributes of the object. *)
Definition reading `{Xml} (a : option xattrs) (attr : cstr) (size : Z) : Z * option cstr :=
  match a with
  | None => (-1, None)
  | Some a =>
      match cfg_xml_get_attr a attr with
      | None => (-2, None)
      | Some v => (Z.min (size - 1) (strlen v), Some (take (Z.to_nat (size - 1)) v))
      end
  end.

Definition attrs_at (G : eforest) (l : list Z) : option xattrs := option_map (λ ek, e_attrs ek.1) (lookup G l).

Lemma read_written E tk `{Shm} `{Xml} s G q attr size :
  wf_env E tk → rep_tree s G → resolves E None q → (1 ≤ length q ≤ CFG_MAX_NODE_LEVEL)%nat → 0 < size →
  cfg_obj_get_object_attr E (Some (path_of q)) (Some attr) true size s
  = Ok (reading (attrs_at G (ids_of E q)) attr size, s).
Proof.
  intros wf HG Hres Hlen Hsize. destruct (written_ids E tk q wf Hres Hlen) as (o0 & Hp & Hu).
  rewrite (get_object_attr_run E s _ _ attr size o0 _ HG Hp Hu Hsize). unfold attrs_at, reading.
  by destruct (lookup G (ids_of E q)) as [[e k]|].
Qed.

Lemma attrs_at_top r K l :
  attrs_at (FCons r K FNil) l = match l with [] => Some (e_attrs r) | o :: l' => view K o l' end.
Proof. unfold attrs_at, lookup, view. cbn [f_find]. rewrite Z.eqb_refl. by destruct l. Qed.

Lemma save_document E tk `{Shm} `{Xml} s F :
  wf_env E tk → rep_tree s F → values_fit F →
  ∃ text, cfg_save_object E true s = Ok ((0, text), s) ∧ prints (doc_of E F) text.
Proof.
  intros wf HF Hfit. pose proof (rep_tree_lock 1 s F HF) as HF1.
  destruct (save_tree_spec E tk (with_lock 1 s) None F (walk_fuel (with_lock 1 s)) wf) as (text & Hrun & Hp);
    [apply HF1|done|eapply locs_fuel; apply HF1|].
  exists text. split; [|done]. unfold cfg_save_object. step_by (lock_Ok s).
  assert (Hroot : gets cfg_obj_root (with_lock 1 s) = Ok (top F, with_lock 1 s)).
  { unfold gets. by rewrite (rt_root _ _ HF1). }
  step_by Hroot. change (save_tree E (walk_fuel (with_lock 1 s)) (top F) (with_lock 1 s))
    with (cfg_obj_save_tree E (top F) (with_lock 1 s)) in Hrun. step_by Hrun. by step_by (unlock_Ok s).
Qed.

(** What [read] gives after loading, from what loading does to the tree. *)
Definition restores (E : cfg_env) `{Shm} `{Xml} (F G : eforest) (s s' : store) : Prop :=
  ∀ q attr size, resolves E None q → (1 ≤ length q ≤ CFG_MAX_NODE_LEVEL)%nat → 0 < size →
    let read := cfg_obj_get_object_attr E (Some (path_of q)) (Some attr) true size in
    match lookup (lasting E F) (ids_of E q) with
    | Some (e, _) => ∀ v, (attr, v) ∈ e_attrs e →
        read s' = Ok ((Z.min (size - 1) (strlen v), Some (take (Z.to_nat (size - 1)) v)), s')
    | None => is_Some (lookup G (ids_of E q)) → ∀ r, read s = Ok (r, s) → read s' = Ok (r, s')
    end.

Lemma load_restores E tk `{ShmLaws} `{XmlLaws} ty s G F :
  wf_env E tk → root_ok E ty → enough_memory →
  rep_tree s G → ready E G → can_save E F →
  ∃ s', cfg_load_object E (Some (doc_of E F)) s = Ok (0, s') ∧ restores E F G s s'.
Proof.
  intros wf Hroot [Hmem Hroom] HG Hready Hsave.
  destruct F as [|r K [|? ? ?]]; [done| |done]. destruct G as [|r0 K0 [|? ? ?]]; [done| |done].
  pose proof Hsave as (Hr & _ & _ & _ & Hnd).
  destruct (load_document E tk wf Hmem ty s _ r K r0 K0 Hroot HG eq_refl Hready Hsave)
    as (s' & r' & K' & Hrun & HG' & [a0 Ha0] & Hv).
  destruct (saved_root E tk wf ty r K Hroot Hr) as [Hsv _]. unfold restores. rewrite Hsv in Hnd |- *. rewrite Forall_forall in Hnd.
  exists s'. split; [done|]. intros q attr size Hres Hlen Hsize. cbv zeta.
  rewrite (read_written E tk s _ q attr size wf HG Hres Hlen Hsize), (read_written E tk s' _ q attr size wf HG' Hres Hlen Hsize).
  rewrite !attrs_at_top. unfold lookup. cbn [f_find]. rewrite !Z.eqb_refl.
  destruct (ids_of E q) as [|o l].
  - intros v Hin. cbn [reading]. rewrite (copied_get _ _ _ _ v Hroom Ha0); [done|by apply Hnd; left|done].
  - specialize (Hv o l). destruct (f_find (lasting E K) o l) as [[e k]|] eqn:Hf.
    + intros v Hin. destruct Hv as (a0' & a & Hv & Ha). rewrite Hv. cbn [reading]. rewrite (copied_get _ _ _ _ v Hroom Ha); [done| |done].
      apply Hnd. right. rewrite app_nil_r. by eapply f_find_elem.
    + intros [[e0 k0] He0] res Hold. unfold view in *. rewrite He0 in *. cbn [option_map fst] in *.
      rewrite (Hv _ eq_refl). by injection Hold as <-.
Qed.

(** ** Instances, for evaluation *)

#[export] Instance statics_dec E P f : Decision (statics E P f).
Proof. unfold statics, static. apply _. Defined.
Fixpoint completeb (E : cfg_env) (P : tloc) (f : eforest) : bool :=
  match f with
  | FNil => true
  | FCons e k sb =>
      match type_of_oid E (e_id e) with
      | Some (n, ty) =>
          bool_decide (n ∈ children E P) && (numbered_type ty || (e_id e =? first_oid E n)) &&
          bool_decide (statics E n k) && completeb E n k
      | None => false
      end && completeb E P sb
  end.

Lemma completeb_ok E P f : completeb E P f = true → complete E P f.
Proof.
  revert P. induction f as [|e k IHk sb IHs]; intros P; cbn [completeb complete]; [done|].
  destruct (type_of_oid E (e_id e)) as [[n ty]|]; [|done]. rewrite !andb_true_iff, !bool_decide_eq_true, orb_true_iff.
  intros ((((Hn & Hi) & Hs) & Hk) & Hsb). split; [|by apply IHs]. split; [done|].
  split; [|split; [done|by apply IHk]]. intros Hnum. destruct Hi as [Hi|Hi]; [congruence|by zify_bool].
Qed.

#[export] Instance link_ok_dec E P n ty o : Decision (link_ok E P n ty o).
Proof. unfold link_ok, static. destruct (numbered_type ty); apply _. Defined.

#[export] Instance lost_ok_dec E P ty o : Decision (lost_ok E P ty o).
Proof. unfold lost_ok. apply _. Defined.

Fixpoint savableb (E : cfg_env) (depth : nat) (P : tloc) (f : eforest) : bool :=
  match f with
  | FNil => true
  | FCons e k sb =>
      match type_of_oid E (e_id e) with
      | Some (n, ty) =>
          let depth' := (depth + length (seg_tokens (entry_seg n ty (e_id e))))%nat in
          if leads_back ty then
            bool_decide (link_ok E P n ty (e_id e)) && bool_decide (Forall (λ a, a.1 ≠ []) (e_attrs e)) &&
            Nat.ltb depth' CFG_MAX_NODE_LEVEL && savableb E depth' n k
          else bool_decide (lost_ok E P ty (e_id e))
      | None => false
      end && savableb E depth P sb
  end.

Lemma savableb_ok E d P f : savableb E d P f = true → savable E d P f.
Proof.
  revert d P. induction f as [|e k IHk sb IHs]; intros d P; cbn [savableb savable]; [done|].
  destruct (type_of_oid E (e_id e)) as [[n ty]|]; [|done]. cbv zeta.
  rewrite andb_true_iff. intros [Hhere Hsb]. split; [|by apply IHs]. destruct (leads_back ty); [|by apply bool_decide_eq_true in Hhere].
  rewrite !andb_true_iff, !bool_decide_eq_true, Nat.ltb_lt in Hhere. destruct Hhere as (((Hl & Ha) & Hd) & Hk).
  repeat (split; [done|]). by apply IHk.
Qed.

Definition can_saveb (E : cfg_env) (F : eforest) : bool :=
  match F with
  | FCons r K FNil =>
      (e_id r =? first_oid E (env_root E)) && bool_decide (Forall (λ a, a.1 ≠ []) (e_attrs r)) &&
      savableb E 1 (env_root E) (saved E K) && bool_decide (distinct (lasting E K)) &&
      bool_decide (Forall (λ e, NoDup (map fst (e_attrs e))) (preorder (lasting E F)))
  | _ => false
  end.

Lemma can_saveb_ok E F : can_saveb E F = true → can_save E F.
Proof.
  destruct F as [|r K [|? ? ?]]; [done| |done]. unfold can_saveb, can_save.
  rewrite !andb_true_iff, !bool_decide_eq_true, Z.eqb_eq.
  intros ((((? & ?) & Hs) & ?) & ?). do 2 (split; [done|]). split; [by apply savableb_ok|done].
Qed.

Definition readyb (E : cfg_env) (G : eforest) : bool :=
  match G with
  | FCons _ K FNil => completeb E (env_root E) K && bool_decide (statics E (env_root E) K)
  | _ => false
  end.

Lemma readyb_ok E G : readyb E G = true → ready E G.
Proof.
  destruct G as [|r K [|? ? ?]]; [done| |done]. unfold readyb, ready.
  rewrite andb_true_iff, bool_decide_eq_true. intros [? ?]. split; [by apply completeb_ok|done].
Qed.

#[export] Instance values_fit_dec F : Decision (values_fit F).
Proof. unfold values_fit. apply _. Defined.

(** ** Properties *)

(** C14: [cfg_save_object] writes an XML document: one element for each object,
    in the order and nesting of the tree, except the objects of MEMORY types
    and what is below them, with all attributes escaped by entities. (The
    escaped values fit the function's buffer of 1024 bytes; see
    [checkvalue_roundtrip] for longer ones.) *)
Theorem save_writes_document E tk `{Shm} `{Xml} s F :
  wf_env E tk → rep_tree s F → values_fit F →
  ∃ text, cfg_save_object E true s = Ok ((0, text), s) ∧ prints (doc_of E F) text.
Proof. exact (save_document E tk s F). Qed.

Lemma save_writes_document_witness :
  ∃ text, cfg_save_object demo_env true attr_store = Ok ((0, text), attr_store) ∧
          prints (doc_of demo_env (demo_tree attr_store)) text.
Proof.
  apply (save_writes_document demo_env Table.tree attr_store (demo_tree attr_store) demo_env_wf attr_store_rep).
  by_compute.
Defined.

(** C13: loading restores what was saved. When [cfg_load_object] reads the
    document of a tree into a store that has the static objects, and shared
    memory does not run out, then it succeeds, and every attribute of every
    object that was saved under a tag of its type, dynamic ones included, reads
    as in the saved tree. These are the objects without number and those called
    entry or pvc; the others (such as [BSR0] and [Common0]) are saved under
    tags that name no type and are skipped. Every other object that was in the
    store, these included, reads as before. *)
Theorem load_restores_saved E tk `{ShmLaws} `{XmlLaws} ty s G F :
  wf_env E tk → root_ok E ty → enough_memory →
  rep_tree s G → ready E G → can_save E F →
  ∃ s', cfg_load_object E (Some (doc_of E F)) s = Ok (0, s') ∧
    ∀ q attr size, resolves E None q → (1 ≤ length q ≤ CFG_MAX_NODE_LEVEL)%nat → 0 < size →
      let read := cfg_obj_get_object_attr E (Some (path_of q)) (Some attr) true size in
      match lookup (lasting E F) (ids_of E q) with
      | Some (e, _) => ∀ v, (attr, v) ∈ e_attrs e →
          read s' = Ok ((Z.min (size - 1) (strlen v), Some (take (Z.to_nat (size - 1)) v)), s')
      | None => is_Some (lookup G (ids_of E q)) → ∀ r, read s = Ok (r, s) → read s' = Ok (r, s')
      end.
Proof. exact (load_restores E tk ty s G F). Qed.

Lemma load_restores_saved_witness :
  ∃ s', cfg_load_object demo_env (Some (doc_of demo_env (demo_tree attr_store))) demo_store = Ok (0, s') ∧
    cfg_obj_get_object_attr demo_env (Some (path_of [sroot; sdmz; sdmz_entry (Some 1)])) (Some (cs "DMZ_IP")) true 32 s'
    = Ok ((11, Some (cs "192.168.1.5")), s').
Proof.
  destruct (load_restores_saved demo_env Table.tree Table.demo_root demo_store (demo_tree demo_store) (demo_tree attr_store)
              demo_env_wf) as (s' & Hrun & Hread).
  - split; [vm_compute; reflexivity|]. split; [vm_compute; reflexivity|]. split; [by_compute|].
    split; [vm_compute; reflexivity|]. split; [by_compute|]. split; [vm_compute; reflexivity|by vm_compute].
  - split; [intros s; by eexists|done].
  - exact demo_store_rep.
  - apply readyb_ok. vm_compute. reflexivity.
  - apply can_saveb_ok. vm_compute. reflexivity.
  - exists s'. split; [exact Hrun|].
    set (q := [sroot; sdmz; sdmz_entry (Some 1)]).
    assert (Hin : match lookup (lasting demo_env (demo_tree attr_store)) (ids_of demo_env q) with
                  | Some (e, _) => bool_decide ((cs "DMZ_IP", cs "192.168.1.5") ∈ e_attrs e)
                  | None => false
                  end = true) by (vm_compute; reflexivity).
    specialize (Hread q (cs "DMZ_IP") 32 ltac:(by_path) ltac:(unfold CFG_MAX_NODE_LEVEL; simpl; lia) ltac:(lia)).
    cbv zeta in Hread. revert Hread Hin. generalize (lookup (lasting demo_env (demo_tree attr_store)) (ids_of demo_env q)).
    intros [[e k]|] Hread Hin; [|discriminate Hin]. apply bool_decide_eq_true in Hin. exact (Hread _ Hin).
Defined.
End CfgReload.
