(* ===== verification/XmlText.v ===== *)
(** * A reader of the saved documents

    The program reads its configuration with the mxml library, which is not
    in the repository.  What the program relies on is that the library gives
    back the document of a text that [prints] describes; this file defines a
    reader that does, so that the assumption has an instance. *)

From S2P Require Import Prelude CString CfgObj CfgSave CfgCli SaveProps CfgDoc.
Open Scope Z_scope.

Module XmlText.
Import CfgObj CfgSave CfgCli SaveProps CfgDoc.

(** ** Names *)

Definition name_char (c : Z) : bool :=
  ((48 <=? c) && (c <=? 57)) || ((65 <=? c) && (c <=? 90)) || ((97 <=? c) && (c <=? 122)) || (c =? 95).
Definition name_ok (s : cstr) : Prop := s ≠ [] ∧ Forall (λ c, name_char c = true) s.

(** The names of a document are such that a reader finds their ends. *)
Definition doc_ok (d : forest xnode) : Prop :=
  Forall (λ x, name_ok x.1 ∧ Forall (λ a, name_ok a.1) x.2) (preorder d).

#[export] Instance name_ok_dec s : Decision (name_ok s).
Proof. unfold name_ok. apply _. Defined.
#[export] Instance doc_ok_dec d : Decision (doc_ok d).
Proof. unfold doc_ok. apply _. Defined.

Fixpoint span (s : cstr) : cstr * cstr :=
  match s with
  | c :: s' => if name_char c then let '(n, r) := span s' in (c :: n, r) else ([], s)
  | [] => ([], [])
  end.

Lemma span_name n r : Forall (λ c, name_char c = true) n → from_option name_char false (head r) = false → span (n ++ r) = (n, r).
Proof.
  intros Hn Hr. induction Hn as [|c n Hc _ IH]; cbn [app span].
  - destruct r as [|d r]; [done|]. cbn in *. by rewrite Hr.
  - by rewrite Hc, IH.
Qed.

(** ** The reader *)

Fixpoint read_attrs (fuel : nat) (s : cstr) : option (xattrs * cstr) :=
  match fuel with
  | O => None
  | S fuel' =>
      match s with
      | 32 :: r =>
          match span r with
          | ([], _) => Some ([], r)
          | (n, 61 :: 34 :: r') =>
              match strchr r' 34 with
              | Some (v, r'') => '(rest, e) ← read_attrs fuel' r''; Some ((n, xml_decode 0 v) :: rest, e)
              | None => None
              end
          | _ => None
          end
      | _ => Some ([], s)
      end
  end.

Definition single_end : cstr := cs "/> " ++ [NL].
Definition tag_end : cstr := cs "> " ++ [NL].
Definition closing (n : cstr) : cstr := cs "</" ++ n ++ tag_end.

Fixpoint read_forest (fuel : nat) (s : cstr) : option (forest xnode * cstr) :=
  match fuel with
  | O => None
  | S fuel' =>
      match s with
      | 60 :: s1 =>
          match span s1 with
          | ([], _) => Some (FNil, s)
          | (n, s2) =>
              '(attrs, s3) ← read_attrs (S (length s2)) s2;
              if is_prefix single_end s3 then
                '(sb, r) ← read_forest fuel' (drop (length single_end) s3); Some (FCons (n, attrs) FNil sb, r)
              else if is_prefix tag_end s3 then
                '(k, s4) ← read_forest fuel' (drop (length tag_end) s3);
                if is_prefix (closing n) s4 then
                  '(sb, r) ← read_forest fuel' (drop (length (closing n)) s4); Some (FCons (n, attrs) k sb, r)
                else None
              else None
          end
      | _ => Some (FNil, s)
      end
  end.

Definition read_text (s : cstr) : option (forest xnode) :=
  match read_forest (S (length s)) s with Some (d, []) => Some d | _ => None end.

(** ** It reads what is printed *)

Lemma read_attrs_text attrs r : ∀ fuel,
  Forall (λ a, name_ok a.1) attrs → (length attrs < fuel)%nat →
  from_option name_char false (head r) = false → head r ≠ Some 32 →
  read_attrs fuel (concat (map attr_text attrs) ++ (if zlen attrs =? 0 then [] else cs " ") ++ r) = Some (attrs, r).
Proof.
  intros fuel Hok Hf Hr H32. destruct attrs as [|a0 attrs0].
  { destruct fuel as [|fuel]; [simpl in Hf; lia|]. cbn [map concat app]. change (zlen [] =? 0) with true. cbn [app read_attrs].
    destruct r as [|c r]; [done|]. destruct (decide (c = 32)) as [-> |Hc]; [done|].
    do 6 (destruct c as [|c|c]; try done); by destruct c. }
  replace (zlen (a0 :: attrs0) =? 0) with false by (symmetry; apply Z.eqb_neq; simpl; lia).
  remember (a0 :: attrs0) as attrs eqn:E. clear E a0 attrs0. revert fuel Hf.
  induction Hok as [|[n v] attrs [Hn0 Hn] _ IH]; intros [|fuel] Hf; try (simpl in Hf; lia).
  - cbn [map concat app read_attrs cs]. change (chr " ") with 32. cbn [app].
    pose proof (span_name [] r ltac:(constructor) Hr) as Hsp. cbn [app] in Hsp. by rewrite Hsp.
  - cbn [map concat]. unfold attr_text at 1. cbn [fst snd]. change (cs " ") with [32]. rewrite <- !app_assoc. cbn [app read_attrs].
    cbn [fst] in Hn0, Hn. rewrite (span_name n (61 :: 34 :: _)) by done. destruct n as [|c n]; [done|].
    rewrite strchr_app.
    + rewrite xml_decode_text. change [32] with (cs " "). rewrite IH by (simpl in Hf; lia). done.
    + intros Hbad. pose proof (xml_text_plain v) as Hp. rewrite Forall_forall in Hp. specialize (Hp _ Hbad). set_solver.
Qed.

(** What may follow a list of elements: nothing, or a closing tag. *)
Definition ends (r : cstr) : Prop := r = [] ∨ ∃ r', r = 60 :: 47 :: r'.

Lemma prefix_of_app p r : is_prefix p (p ++ r) = true.
Proof. induction p as [|c p IH]; [done|]. cbn [app is_prefix]. by rewrite Z.eqb_refl. Qed.

Lemma attr_text_pos (attrs : xattrs) r : (length attrs ≤ length (concat (map attr_text attrs) ++ r))%nat.
Proof.
  rewrite length_app. assert (length attrs ≤ length (concat (map attr_text attrs)))%nat; [|lia].
  induction attrs as [|a attrs IH]; [done|]. cbn [map concat length]. rewrite length_app. change (cs " ") with [32]; unfold attr_text at 1; rewrite !length_app; cbn [length cs]; lia.
Qed.

(** The part of [read_forest] for a tag. *)
Lemma read_tag (x : xnode) r :
  name_ok x.1 → Forall (λ a, name_ok a.1) x.2 → from_option name_char false (head r) = false → head r ≠ Some 32 →
  ∃ s1 s2, open_tag x ++ r = 60 :: s1 ∧ span s1 = (x.1, s2) ∧ read_attrs (S (length s2)) s2 = Some (x.2, r).
Proof.
  intros [Hn0 Hn] Ha Hr H32. destruct x as [n attrs]. unfold open_tag. cbn [fst snd] in *. rewrite <- !app_assoc.
  change (cs "<") with [60]. cbn [app]. set (s2 := concat (map attr_text attrs) ++ (if zlen attrs =? 0 then [] else cs " ") ++ r).
  exists (n ++ s2), s2. split; [done|]. split.
  - apply span_name; [done|]. unfold s2. destruct attrs as [|a attrs]; [done|]. cbn [map concat]. unfold attr_text. done.
  - apply read_attrs_text; [done| |done|done]. unfold s2. pose proof (attr_text_pos attrs ((if zlen attrs =? 0 then [] else cs " ") ++ r)). lia.
Qed.

Lemma read_forest_prints d t : prints d t → doc_ok d → ∀ fuel r,
  ends r → (length (preorder d) < fuel)%nat → read_forest fuel (t ++ r) = Some (d, r).
Proof.
  induction 1 as [|x sb t Hsb IHsb|x k sb below t Hk IHk Hsb IHsb]; intros Hok [|fuel] r Hr Hf; try lia.
  - cbn [app read_forest]. destruct Hr as [-> |[r' ->]]; [done|]. done.
  - apply Forall_cons in Hok as [[Hx Ha] Hok]. cbn [preorder app length] in *. rewrite <- !app_assoc.
    destruct (read_tag x (cs "/> " ++ [NL] ++ t ++ r)) as (s1 & s2 & E1 & E2 & E3); [done|done|done|done|].
    cbn [read_forest]. rewrite E1, E2. destruct x as [n attrs]. cbn [fst snd] in *. destruct n as [|c n]; [by destruct Hx|].
    rewrite E3. cbn [mbind option_bind]. rewrite app_assoc. fold single_end. rewrite prefix_of_app, drop_app_length.
    rewrite IHsb by (done || lia). done.
  - apply Forall_cons in Hok as [[Hx Ha] [Hok1 Hok2]%Forall_app]. cbn [preorder length] in *. rewrite length_app in Hf. rewrite <- !app_assoc.
    destruct (read_tag x (cs "> " ++ [NL] ++ below ++ cs "</" ++ x.1 ++ cs "> " ++ [NL] ++ t ++ r)) as (s1 & s2 & E1 & E2 & E3); [done|done|done|done|].
    cbn [read_forest]. rewrite E1, E2. destruct x as [n attrs]. cbn [fst snd] in *. destruct n as [|c n]; [by destruct Hx|].
    rewrite E3. cbn [mbind option_bind]. change (is_prefix single_end _) with false. cbv iota. rewrite app_assoc. fold tag_end. rewrite prefix_of_app, drop_app_length.
    rewrite IHk; [|done|right; by eexists|lia]. cbn [mbind option_bind].
    assert (Ec : cs "</" ++ (c :: n) ++ cs "> " ++ [NL] ++ t ++ r = closing (c :: n) ++ t ++ r).
    { unfold closing, tag_end. by rewrite <- !app_assoc. }
    rewrite Ec, prefix_of_app, drop_app_length, IHsb by (done || lia). done.
Qed.

Lemma open_tag_pos x : (1 ≤ length (open_tag x))%nat.
Proof. unfold open_tag. rewrite length_app. change (length (cs "<")) with 1%nat. lia. Qed.

Lemma prints_long d t : prints d t → (length (preorder d) ≤ length t)%nat.
Proof.
  induction 1 as [|x sb t Hsb IHsb|x k sb below t Hk IHk Hsb IHsb]; [done| |];
    cbn [preorder length app]; pose proof (open_tag_pos x); rewrite !length_app.
  - lia.
  - cbn [length]. rewrite !length_app. lia.
Qed.

Lemma read_text_prints d t : prints d t → doc_ok d → read_text t = Some d.
Proof.
  intros Hp Hok. unfold read_text. pose proof (prints_long d t Hp) as Hl. rewrite <- (app_nil_r t) at 2.
  rewrite (read_forest_prints d t Hp Hok) by (lia || by left). done.
Qed.
End XmlText.
