(* ===== verification/Romfile.v ===== *)
(** * The configuration in flash ([service/cfg/cfg_romfile.c])

    The saved configuration is stored in the partition [romfile] and, as a
    backup, in the reserve area: the text with a header that has its length
    and checksum, packed by [tar].  At start-up the first copy that is intact
    is loaded, and the others are repaired from it.

    The build modelled is that of the profile in [Project/profile]:
    [TCSUPPORT_CT_BACKUPROMFILEENCHANCEMENT], [TCSUPPORT_CT_ZIPROMFILE],
    [TCSUPPORT_RESERVEAREA_EXTEND] and [CWMP] are set,
    [TCSUPPORT_ITMS_CONFIG_AS_DEFAULT] and [CT_COM_DEVICEREG] are not.  Files
    in [/tmp] can be opened and written. *)

From S2P Require Import Prelude CString Crc CfgType CfgPath CfgObj CfgSave CfgCli.
Open Scope Z_scope.

Module Romfile.
Import CfgType CfgPath CfgObj CfgSave CfgCli.

(** The fields of [struct trx_header] the code uses; the structure itself is
    in a header of the bootloader. *)
Record trx_header := { magic : Z; header_len : Z; len : Z; h_crc32 : Z; romfile_len : Z }.

(** What the code gets from outside: the layout of the header, [tar], the XML
    reader, and the commands that write flash, from the old content of the
    partition and the file. *)
Class Platform := {
  sizeof_trx : nat;
  trx_bytes : trx_header → list Z;
  trx_read : list Z → trx_header;
  tar_czf : list Z → list Z;
  (** The member [ctromfile.cfg] of an archive. *)
  tar_xzf : list Z → option (list Z);
  mxmlLoadFile : list Z → option (forest xnode);
  (** [UPDATE_ROMFILE_CMD] on the partition, and erasing and writing the
      reserve area. *)
  mtd_write : list Z → list Z → list Z;
  reserve_write : list Z → list Z → list Z
}.

Definition TRX_MAGIC3 : Z := 0x33524448.
Definition ROMFILE_MAX_PENDING : Z := 128 * 1024.
Definition ROMFILE_MAX_LEN : Z := 128 * 1024.

(** The size of the buffers. *)
Definition BUF_LEN : Z := ROMFILE_MAX_LEN + ROMFILE_MAX_PENDING.

Section container.
Context `{Platform}.

(** The file made, or [None] when there is an error. *)
Definition compute_checksum (inputfile : option (list Z)) : option (list Z) :=
  match inputfile with
  | None => None
  | Some text =>
      let maxlen := ROMFILE_MAX_LEN - Z.of_nat sizeof_trx + ROMFILE_MAX_PENDING in
      let buf := take (Z.to_nat BUF_LEN) text in
      let read_count := zlen buf in
      if maxlen <? read_count then None
      else
        let txheader := {| magic := TRX_MAGIC3; header_len := Z.of_nat sizeof_trx; len := read_count + Z.of_nat sizeof_trx;
                           h_crc32 := Crc.compute_crc32buf buf; romfile_len := read_count |} in
        Some (tar_czf (trx_bytes txheader ++ buf))
  end.

(** The configuration in a container, or [None] when it is refused.  The
    checksum runs over as many bytes as the header says, and it is a fault
    when the file had fewer. *)
Definition check_checksum (configinfo : list Z) : res (option (list Z)) :=
  match tar_xzf configinfo with
  | None => mret None
  | Some file =>
      let buf := take (Z.to_nat BUF_LEN) file in
      let read_count := zlen buf in
      if read_count <? Z.of_nat sizeof_trx then mret None
      else
        let pheader := trx_read buf in
        if negb (magic pheader =? TRX_MAGIC3) then mret None
        else
          let n := u32 (len pheader - Z.of_nat sizeof_trx) in
          if read_count <? Z.of_nat sizeof_trx + n then Fault
          else
            let body := take (Z.to_nat n) (drop sizeof_trx buf) in
            if negb (h_crc32 pheader =? Crc.compute_crc32buf body) then mret None
            else if len pheader <=? Z.of_nat sizeof_trx then mret None
            else mret (Some body)
  end.

(** An upgrade file holds the configuration at an offset. *)
Definition update_UploadedRomfile (image : list Z) (offset length : Z) : res (Z * list Z) :=
  let buf := take (Z.to_nat BUF_LEN) image in
  if zlen buf <? length then mret (-1, [])
  else if zlen buf <? offset + length then Fault
  else mret (0, take (Z.to_nat length) (drop (Z.to_nat offset) buf)).

(** Flash that was never written reads [0xff]. *)
Fixpoint para_loop (n : nat) (buf : list Z) : res Z :=
  match n with
  | O => mret 1
  | S n' =>
      c ← deref (head buf);
      if c =? 0 then mret 1 else if c =? 0xff then mret 0 else para_loop n' (tail buf)
  end.
Definition checkParaValid (buf : list Z) (len : Z) : res Z := para_loop (Z.to_nat (len - 1)) buf.
End container.

(** ** Start-up and saving *)

(** The store, the partition, the two copies in the reserve area, the files
    they are read to, and the default file of the file system. *)
Record sys := {
  st : store;
  running : list Z; backup : list Z; default : list Z;
  br_file : list Z; dr_file : list Z;
  userfs_file : list Z
}.

Abbreviation RM := (M sys).

Definition set_st s y := {| st := s; running := running y; backup := backup y; default := default y; br_file := br_file y;
  dr_file := dr_file y; userfs_file := userfs_file y |}.
Definition set_running g y := {| st := st y; running := g; backup := backup y; default := default y; br_file := br_file y;
  dr_file := dr_file y; userfs_file := userfs_file y |}.
Definition set_backup g y := {| st := st y; running := running y; backup := g; default := default y; br_file := br_file y;
  dr_file := dr_file y; userfs_file := userfs_file y |}.
Definition set_br g y := {| st := st y; running := running y; backup := backup y; default := default y; br_file := g;
  dr_file := dr_file y; userfs_file := userfs_file y |}.
Definition set_dr g y := {| st := st y; running := running y; backup := backup y; default := default y; br_file := br_file y;
  dr_file := g; userfs_file := userfs_file y |}.

Definition on_store {A} (m : SM A) : RM A :=
  λ y, match m (st y) with Ok (a, s) => Ok (a, set_st s y) | Fault => Fault | NoFuel => NoFuel end.

(** How [tc_parse_romfile] leaves its loop. *)
Inductive parsed :=
| Exit
| Return (r : Z)
| Checked (rechecknum : Z).

Section boot.
Context (E : cfg_env) `{Platform} `{Shm} `{Xml} `{Handlers}.
(** [handle_proline_paras]: the parameters of the production line are written
    over the default configuration. *)
Context (handle_proline_paras : SM unit).

Definition check_romfile (pathname : list Z) : SM Z :=
  flag ← lift (check_checksum pathname);
  match flag with
  | None => mret (-1)
  | Some text => cfg_load_object E (mxmlLoadFile text)
  end.

Definition checkCwmpUploadedRomfile (uploaded : list Z) : SM Z :=
  flag ← lift (check_checksum uploaded);
  match flag with
  | None => mret (-1)
  | Some text => cfg_load_object E (mxmlLoadFile text)
  end.

Definition load_checksum_def_romfile (file : list Z) : SM (option (forest xnode)) :=
  flag ← lift (check_checksum file);
  match flag with
  | None => mret None
  | Some text =>
      ret ← cfg_load_object E (mxmlLoadFile text);
      if ret <? 0 then mret None else mret (mxmlLoadFile text)
  end.

Definition update_romfile (file : list Z) : RM unit := modify (λ y, set_running (mtd_write (running y) file) y).
Definition write_backup (file : list Z) : RM unit := modify (λ y, set_backup (reserve_write (backup y) file) y).
Definition loadBackupRomfile : RM unit := modify (λ y, set_br (backup y) y).
Definition loadDefaultRomfile : RM unit := modify (λ y, set_dr (default y) y).

Definition RUN_ROMFILE_FLAG : Z := 0.
Definition BK_ROMFILE_FLAG : Z := 1.
Definition DEF_ROMFILE_FLAG : Z := 2.
Definition DEFFILESYSTEM_ROMFILE_FLAG : Z := 3.

(** The loop; [operatename] is the content of the file to check. *)
Fixpoint romfile_loop (fuel : nat) (operatename : list Z) (rechecknum : Z) : RM parsed :=
  match fuel with
  | O => out_of_fuel
  | S fuel' =>
      ret ← on_store (check_romfile operatename);
      if ret <? 0 then
        if RUN_ROMFILE_FLAG =? rechecknum then
          loadBackupRomfile;; g ← gets br_file; romfile_loop fuel' g BK_ROMFILE_FLAG
        else if BK_ROMFILE_FLAG =? rechecknum then
          loadDefaultRomfile;; g ← gets dr_file; romfile_loop fuel' g DEF_ROMFILE_FLAG
        else
          g ← gets userfs_file;
          tree ← on_store (load_checksum_def_romfile g);
          match tree with
          | None => mret Exit
          | Some _ =>
              on_store handle_proline_paras;;
              s ← on_store (cfg_save_object E true);
              if s.1 =? -1 then mret (Return (-1))
              else
                match compute_checksum (Some s.2) with
                | None => mret (Return (-1))
                | Some g => update_romfile g;; write_backup g;; mret (Checked DEFFILESYSTEM_ROMFILE_FLAG)
                end
          end
      else mret (Checked rechecknum)
  end.

(** [None] stands for [exit(0)]. *)
Definition tc_parse_romfile : RM (option Z) :=
  g ← gets running;
  p ← romfile_loop 3 g RUN_ROMFILE_FLAG;
  match p with
  | Exit => mret None
  | Return r => mret (Some r)
  | Checked rechecknum =>
      (if RUN_ROMFILE_FLAG =? rechecknum then
         loadBackupRomfile;;
         b ← gets br_file;
         ret ← lift (check_checksum b);
         match ret with
         | None => g ← gets running; write_backup g
         | Some _ => mret tt
         end
       else if BK_ROMFILE_FLAG =? rechecknum then
         b ← gets br_file; update_romfile b
       else if DEF_ROMFILE_FLAG =? rechecknum then
         d ← gets dr_file; update_romfile d;; write_backup d
       else mret tt);;
      mret (Some 0)
  end.

(** [erasesize] is what [blapi_system_get_mtdsize] says. *)
Definition cfg_load_romfile (erasesize : option Z) : RM (option Z) :=
  match erasesize with None => mret None | Some _ => tc_parse_romfile end.

(** The part of [cfg_write_romfile_to_flash] that saves; [upgrade] says that
    the file is wanted for an upgrade and not for the flash. *)
Definition store_romfile (upgrade : bool) : RM Z :=
  s ← on_store (cfg_save_object E true);
  match compute_checksum (if s.1 =? -1 then None else Some s.2) with
  | None => mret (-1)
  | Some g =>
      if upgrade then mret (-1)
      else update_romfile g;; write_backup g;; mret 0
  end.

Definition CWMP_ENTRY_NODE : cstr := cs "root.cwmp.entry".
Definition GLOBALSTATE_COMMON_NODE : cstr := cs "root.globalstate.common".

(** Messages to other processes are left out. *)
Definition cfg_write_romfile_to_flash : RM Z :=
  on_store (cfg_get_object_attr E (Some CWMP_ENTRY_NODE) (Some (cs "tr069Commit")) true 32);;
  on_store (cfg_set_object_attr E (Some CWMP_ENTRY_NODE) (Some (cs "tr069Commit")) (Some (cs "0")));;
  attrValue ← on_store (cfg_get_object_attr E (Some CWMP_ENTRY_NODE) (Some (cs "copyRomfileForUpgrade")) true 32);
  let copyRomfileForUpgrade :=
    match attrValue.2 with Some ((_ :: _) as v) => negb (atoi v =? 0) | _ => false end in
  on_store (cfg_set_object_attr E (Some CWMP_ENTRY_NODE) (Some (cs "copyRomfileForUpgrade")) (Some (cs "0")));;
  flag ← store_romfile copyRomfileForUpgrade;
  if flag <? 0 then mret (-1)
  else
    on_store (cfg_set_object_attr E (Some GLOBALSTATE_COMMON_NODE) (Some (cs "saveStatus")) (Some (cs "0")));;
    tmpBuf ← on_store (cfg_get_object_attr E (Some CWMP_ENTRY_NODE) (Some (cs "FWCompleteFlag")) true 16);
    (match tmpBuf.2 with
     | Some ((_ :: _) as v) =>
         if atoi v =? 0
         then on_store (cfg_set_object_attr E (Some CWMP_ENTRY_NODE) (Some (cs "FWCompleteFlag")) (Some (cs "1")));; mret tt
         else mret tt
     | _ => mret tt
     end);;
    mret 0.
End boot.
End Romfile.
