(* ===== verification/RomProps.v ===== *)
(** * The container of the saved configuration

    What the flash commands and [tar] promise, and what follows for the header
    and the checksum: a configuration that is packed is read back, one with an
    altered byte is refused, and a header with a wrong length is trusted. *)

From S2P Require Import Prelude CString Crc CfgObj CfgSave CfgCli SaveProps CfgDoc XmlText Romfile.
Open Scope Z_scope.

Module RomProps.
Import CfgObj CfgSave CfgCli CfgDoc XmlText Romfile.

(** Fields of 32 bits. *)
Definition trx_ok (h : trx_header) : Prop :=
  0 ≤ magic h < 2 ^ 32 ∧ 0 ≤ header_len h < 2 ^ 32 ∧ 0 ≤ len h < 2 ^ 32 ∧ 0 ≤ h_crc32 h < 2 ^ 32 ∧ 0 ≤ romfile_len h < 2 ^ 32.

(** [slack]: what [tar] ignores behind an archive, such as erased flash. *)
Class PlatformLaws `{Platform} := {
  rom_size : nat;
  ra_size : nat;
  ra_fits : (ra_size ≤ rom_size)%nat;
  slack : list Z → Prop;
  slack_nil : slack [];
  slack_app p q : slack p → slack q → slack (p ++ q);
  slack_take n p : slack p → slack (take n p);
  trx_size : (0 < sizeof_trx)%nat;
  trx_length h : length (trx_bytes h) = sizeof_trx;
  trx_roundtrip h r : trx_ok h → trx_read (trx_bytes h ++ r) = h;
  tar_roundtrip f pad : slack pad → tar_xzf (tar_czf f ++ pad) = Some f;
  xml_reads d t : prints d t → doc_ok d → mxmlLoadFile t = Some d;
  mtd_writes old f : (length f ≤ rom_size)%nat → ∃ pad, slack pad ∧ mtd_write old f = f ++ pad;
  reserve_writes old f : ∃ pad, slack pad ∧ reserve_write old f = take ra_size f ++ pad;
  reserve_length old f : length (reserve_write old f) = ra_size
}.

(** ** Packing *)

Definition trx_for (size : nat) (text : list Z) : trx_header :=
  {| magic := TRX_MAGIC3; header_len := Z.of_nat size; len := zlen text + Z.of_nat size;
     h_crc32 := Crc.compute_crc32buf text; romfile_len := zlen text |}.

(** Texts there is room for. *)
Definition text_ok (size : nat) (text : list Z) : Prop :=
  text ≠ [] ∧ Forall byte_ok text ∧ zlen text + Z.of_nat size ≤ BUF_LEN.

#[export] Instance text_ok_dec size text : Decision (text_ok size text).
Proof. unfold text_ok, byte_ok. apply _. Defined.

Section container.
Context `{PlatformLaws}.

Definition packed (text : list Z) : list Z := tar_czf (trx_bytes (trx_for sizeof_trx text) ++ text).

Lemma trx_for_ok text : text_ok sizeof_trx text → trx_ok (trx_for sizeof_trx text).
Proof using.
  intros (_ & Hb & Hlen). unfold BUF_LEN, ROMFILE_MAX_LEN, ROMFILE_MAX_PENDING in Hlen.
  assert (Hcrc : 0 ≤ Crc.compute_crc32buf text < 2 ^ 32).
  { unfold Crc.compute_crc32buf. rewrite Crc.compute_crc32buf_loop_ref by done. apply Crc.crc_ref_range; [lia|done]. }
  unfold trx_ok, trx_for, TRX_MAGIC3. cbn [magic header_len len h_crc32 romfile_len]. lia.
Qed.

Lemma compute_checksum_packs text : text_ok sizeof_trx text → compute_checksum (Some text) = Some (packed text).
Proof using.
  intros (_ & _ & Hlen). unfold compute_checksum. rewrite take_ge by lia.
  rewrite (proj2 (Z.ltb_ge _ _)) by (unfold BUF_LEN in Hlen; lia). done.
Qed.

Lemma compute_checksum_too_long text : BUF_LEN < zlen text + Z.of_nat sizeof_trx → compute_checksum (Some text) = None.
Proof using All.
  intros Hlen. pose proof trx_size. unfold compute_checksum. rewrite (proj2 (Z.ltb_lt _ _)); [done|].
  rewrite length_take. unfold BUF_LEN, ROMFILE_MAX_LEN, ROMFILE_MAX_PENDING in *. lia.
Qed.

(** What [check_checksum] does with an archive of a header and a body. *)
Lemma check_archive h body pad :
  trx_ok h → slack pad → zlen body + Z.of_nat sizeof_trx ≤ BUF_LEN →
  check_checksum (tar_czf (trx_bytes h ++ body) ++ pad) =
  if negb (magic h =? TRX_MAGIC3) then mret None
  else
    let n := u32 (len h - Z.of_nat sizeof_trx) in
    if zlen body <? n then Fault
    else
      let text := take (Z.to_nat n) body in
      if negb (h_crc32 h =? Crc.compute_crc32buf text) then mret None
      else if len h <=? Z.of_nat sizeof_trx then mret None else mret (Some text).
Proof using All.
  intros Hh Hpad Hlen. unfold check_checksum. rewrite tar_roundtrip by done. pose proof (trx_length h) as Ht.
  rewrite take_ge by (rewrite length_app; lia). rewrite length_app, Ht.
  rewrite (proj2 (Z.ltb_ge _ _)) by lia. rewrite trx_roundtrip by done.
  rewrite drop_app_length' by done. destruct (negb _); [done|]. cbv zeta.
  replace (Z.of_nat (sizeof_trx + length body) <? Z.of_nat sizeof_trx + u32 (len h - Z.of_nat sizeof_trx))
    with (zlen body <? u32 (len h - Z.of_nat sizeof_trx)); [done|].
  destruct (Z.ltb_spec (zlen body) (u32 (len h - Z.of_nat sizeof_trx))) as [?|?]; symmetry; [apply Z.ltb_lt|apply Z.ltb_ge]; lia.
Qed.

(** A body of the length the header says. *)
Lemma check_body text body pad :
  text_ok sizeof_trx text → slack pad → length body = length text →
  check_checksum (tar_czf (trx_bytes (trx_for sizeof_trx text) ++ body) ++ pad) =
  mret (if Crc.compute_crc32buf text =? Crc.compute_crc32buf body then Some body else None).
Proof using All.
  intros Htext Hpad Hlen. pose proof (trx_for_ok text Htext) as Hh. destruct Htext as (Hne & _ & Hsz).
  rewrite check_archive by (done || lia). unfold trx_for. cbn [magic len h_crc32]. rewrite Z.eqb_refl. cbn [negb].
  unfold BUF_LEN, ROMFILE_MAX_LEN, ROMFILE_MAX_PENDING in *. rewrite Z.add_simpl_r, u32_small by lia. cbv zeta.
  rewrite (proj2 (Z.ltb_ge _ _)) by lia. rewrite take_ge by lia. destruct (_ =? _); [|done]. cbn [negb].
  assert (length text ≠ 0%nat) by (by destruct text). by rewrite (proj2 (Z.leb_gt _ _)) by lia.
Qed.

Lemma check_packed text pad : text_ok sizeof_trx text → slack pad → check_checksum (packed text ++ pad) = mret (Some text).
Proof using All. intros. unfold packed. rewrite check_body by done. by rewrite Z.eqb_refl. Qed.
End container.

(** ** An instance *)

Definition word_bytes (w : Z) : list Z := [w mod 256; w / 256 mod 256; w / 65536 mod 256; w / 16777216 mod 256].
Definition word_at (i : nat) (l : list Z) : Z :=
  nth i l 0 + 256 * nth (i + 1) l 0 + 65536 * nth (i + 2) l 0 + 16777216 * nth (i + 3) l 0.

Fixpoint demo_untar (l : list Z) : option (list Z) :=
  match l with
  | 0 :: _ => Some []
  | 1 :: c :: l' => option_map (cons c) (demo_untar l')
  | _ => None
  end.

Definition DEMO_SIZE : nat := 40 * 100.

(** The archive has a mark before each byte and one behind the last. *)
#[export] Instance demo_platform : Platform := {
  sizeof_trx := 20;
  trx_bytes h := word_bytes (magic h) ++ word_bytes (header_len h) ++ word_bytes (len h) ++ word_bytes (h_crc32 h) ++ word_bytes (romfile_len h);
  trx_read l := {| magic := word_at 0 l; header_len := word_at 4 l; len := word_at 8 l; h_crc32 := word_at 12 l; romfile_len := word_at 16 l |};
  tar_czf f := concat (map (λ c, [1; c]) f) ++ [0];
  tar_xzf := demo_untar;
  mxmlLoadFile := read_text;
  mtd_write old f := f ++ replicate (DEMO_SIZE - length f) 255;
  reserve_write old f := take DEMO_SIZE f ++ replicate (DEMO_SIZE - length f) 255
}.

Lemma word_roundtrip w : 0 ≤ w < 2 ^ 32 → w mod 256 + 256 * (w / 256 mod 256) + 65536 * (w / 65536 mod 256) + 16777216 * (w / 16777216 mod 256) = w.
Proof. intros. Z.div_mod_to_equations. lia. Qed.

Lemma demo_untar_tar f pad : demo_untar (concat (map (λ c, [1; c]) f) ++ [0] ++ pad) = Some f.
Proof. induction f as [|c f IH]; [done|]. cbn [map concat app demo_untar] in *. by rewrite IH. Qed.

#[export] Instance demo_platform_laws : PlatformLaws.
Proof.
  refine {| rom_size := DEMO_SIZE; ra_size := DEMO_SIZE; slack := λ _, True |}; try done.
  - simpl. lia.
  - intros h r (? & ? & ? & ? & ?). destruct h as [m hl l c r0]. cbn [magic header_len len h_crc32 romfile_len] in *.
    cbn [trx_read trx_bytes demo_platform]. unfold word_at, word_bytes. cbn [magic header_len len h_crc32 romfile_len app nth Nat.add].
    by rewrite !word_roundtrip by done.
  - intros f pad _. cbn [tar_xzf tar_czf demo_platform]. rewrite <- app_assoc. apply demo_untar_tar.
  - intros d t. apply read_text_prints.
  - intros old f _. by eexists.
  - intros old f. by eexists.
  - intros old f. cbn [reserve_write demo_platform]. rewrite length_app, length_take, length_replicate. lia.
Defined.

(** ** Properties *)

(** The container of a configuration. A text that is not empty and fits
    the buffer with the header is packed, and [check_checksum] gives it back,
    whatever [tar] ignores behind it in the flash; when one of its bytes has
    changed since, the container is refused. A longer text is not packed. *)
Theorem container_roundtrip `{PlatformLaws} text :
  (BUF_LEN < zlen text + Z.of_nat sizeof_trx → compute_checksum (Some text) = None) ∧
  (text_ok sizeof_trx text →
   ∃ h, compute_checksum (Some text) = Some (tar_czf (trx_bytes h ++ text)) ∧
     ∀ pad, slack pad →
       check_checksum (tar_czf (trx_bytes h ++ text) ++ pad) = Ok (Some text) ∧
       ∀ pre c c' post, text = pre ++ c :: post → byte_ok c' → c ≠ c' →
         check_checksum (tar_czf (trx_bytes h ++ pre ++ c' :: post) ++ pad) = Ok None).
Proof.
  split; [apply compute_checksum_too_long|]. intros Htext. exists (trx_for sizeof_trx text).
  split; [by apply compute_checksum_packs|]. intros pad Hpad. split; [by apply check_packed|].
  intros pre c c' post Htx Hc' Hne. rewrite check_body by (done || by rewrite Htx, !length_app).
  rewrite (proj2 (Z.eqb_neq _ _)); [done|]. rewrite Htx. apply Crc.compute_crc32buf_detects_byte_change; [|done|done].
  rewrite <- Htx. apply Htext.
Qed.

Lemma container_roundtrip_witness :
  check_checksum (packed (cs "<Root></Root>") ++ [255; 255]) = Ok (Some (cs "<Root></Root>")) ∧
  check_checksum (tar_czf (trx_bytes (trx_for 20 (cs "<Root></Root>")) ++ cs "<Roet></Root>")) = Ok None.
Proof.
  destruct (container_roundtrip (cs "<Root></Root>")) as [_ Hok].
  destruct Hok as (h & Hpack & Hcheck); [by_compute|].
  assert (Hh : compute_checksum (Some (cs "<Root></Root>")) = Some (packed (cs "<Root></Root>"))) by (vm_compute; reflexivity).
  rewrite Hh in Hpack. apply (inj Some) in Hpack. rewrite Hpack. split; [exact (proj1 (Hcheck [255; 255] I))|].
  vm_compute. reflexivity.
Defined.

(** [check_checksum] trusts the length in the header. It computes the
    checksum over as many bytes as the header says, before it has compared
    this number with anything: when the archive has fewer, or the number is
    smaller than the header itself, it reads memory that the file did not
    fill. *)
Theorem check_checksum_trusts_length `{PlatformLaws} h body pad :
  trx_ok h → slack pad → magic h = TRX_MAGIC3 → zlen body + Z.of_nat sizeof_trx ≤ BUF_LEN →
  len h < Z.of_nat sizeof_trx ∨ Z.of_nat sizeof_trx + zlen body < len h →
  check_checksum (tar_czf (trx_bytes h ++ body) ++ pad) = Fault.
Proof.
  intros Hh Hpad Hm Hlen Hbad. rewrite check_archive by done. rewrite Hm, Z.eqb_refl. cbn [negb]. cbv zeta.
  rewrite (proj2 (Z.ltb_lt _ _)); [done|]. destruct Hh as (_ & _ & Hl & _ & _).
  unfold u32, BUF_LEN, ROMFILE_MAX_LEN, ROMFILE_MAX_PENDING in *. destruct Hbad as [Hb|Hb].
  - rewrite <- (Z_mod_plus_full _ 1), Z.mod_small by lia. lia.
  - rewrite Z.mod_small by lia. lia.
Qed.

(** A configuration cut to half. *)
Lemma check_checksum_trusts_length_witness :
  check_checksum (tar_czf (trx_bytes (trx_for 20 (cs "<Root></Root>")) ++ cs "<Root>") ++ [255; 255]) = Fault.
Proof.
  apply (check_checksum_trusts_length (trx_for 20 (cs "<Root></Root>")) (cs "<Root>") [255; 255]).
  - repeat split; by apply Z.leb_le || by apply Z.ltb_lt.
  - exact I.
  - reflexivity.
  - by apply Z.leb_le.
  - right. by apply Z.ltb_lt.
Defined.
End RomProps.
