(* ===== verification/RomBoot.v ===== *)
(** * Start-up from flash

    [boots] says what [tc_parse_romfile] does with the copies of the
    configuration; the code implements it.  Then the round trip from a store
    through the flash to the store of the next start. *)

From S2P Require Import Prelude CString CfgType CfgPath CfgObj CfgHeap CfgStore CfgCreate CfgSpec CfgProps CfgSave CfgCli SaveProps CfgDoc CfgReload XmlText Romfile RomProps.
Open Scope Z_scope.

Module RomBoot.
Import CfgType CfgPath CfgObj CfgHeap CfgStore CfgCreate CfgSpec CfgProps CfgSave CfgCli SaveProps CfgDoc CfgReload XmlText Romfile RomProps.

(** The parts of an equation between two outcomes. *)
Ltac ok_inj H := let Hv := fresh in pose proof (ok_value _ _ _ _ H) as Hv; apply ok_state in H; subst.

Section boot.
Context (E : cfg_env) `{Platform} `{Shm} `{Xml} `{Handlers}.
Context (handle_proline_paras : SM unit).

(** ** One copy *)

(** A copy with document [d], and one that is refused. *)
Definition accepted (g : list Z) (d : forest xnode) : Prop :=
  ∃ text, check_checksum g = Ok (Some text) ∧ mxmlLoadFile text = Some d.
Definition rejected (g : list Z) : Prop :=
  check_checksum g = Ok None ∨ ∃ text, check_checksum g = Ok (Some text) ∧ mxmlLoadFile text = None.

(** Loading an XML tree always gives 0. *)
Lemma load_from_xml_zero above d s r s' : cfg_load_from_xml E above d s = Ok (r, s') → r = 0.
Proof using.
  revert above s. induction d as [|[name attrs] k _ sb IH]; intros above s; cbn [cfg_load_from_xml]; [by intros [= <- _]|].
  intros (path & s1 & _ & Hrun)%M_bind_inv. apply M_bind_inv in Hrun as (q & s2 & _ & Hrun). apply M_bind_inv in Hrun as (type & s3 & _ & Hrun).
  destruct ((q.1 <=? 0) && _); [by eapply IH|].
  apply M_bind_inv in Hrun as (exist & s4 & _ & Hrun). apply M_bind_inv in Hrun as (u & s5 & _ & Hrun).
  apply M_bind_inv in Hrun as (z & s6 & _ & Hrun). by apply ok_value in Hrun as <-.
Qed.

(** One round of the loop. *)
Definition loads (g : list Z) (s s' : store) : Prop :=
  ∃ d, accepted g d ∧ cfg_load_object E (Some d) s = Ok (0, s').

Lemma copy_cases g :
  (∃ d, accepted g d) ∨ rejected g ∨ ∀ r, check_checksum g ≠ Ok r.
Proof using.
  unfold accepted, rejected. destruct (check_checksum g) as [[text|]| |]; [|auto|by right; right|by right; right].
  destruct (mxmlLoadFile text) as [d|] eqn:Hd; [left|right; left]; eauto.
Qed.

Lemma rejected_not g d : rejected g → ¬ accepted g d.
Proof using. intros [?|(t & ? & ?)] (t' & ? & ?); congruence. Qed.

(** A copy is checked and then either loaded or refused. *)
Lemma check_romfile_accepted g d s : accepted g d → check_romfile E g s = cfg_load_object E (Some d) s.
Proof using. intros (t & Ht & Hd). unfold check_romfile, lift, mbind, M_bind. by rewrite Ht, Hd. Qed.

Lemma check_romfile_rejected g s : rejected g → check_romfile E g s = Ok (-1, s).
Proof using. intros [Ht|(t & Ht & Hd)]; unfold check_romfile, lift, mbind, M_bind; rewrite Ht; [done|]. by rewrite Hd. Qed.

Lemma check_romfile_spec g s r s' :
  check_romfile E g s = Ok (r, s') ↔ rejected g ∧ r = -1 ∧ s' = s ∨ loads g s s' ∧ r = 0.
Proof using.
  split.
  - destruct (copy_cases g) as [[d Hd]|[Hr|Hf]].
    + rewrite (check_romfile_accepted g d s Hd). intros Hrun. pose proof (load_from_xml_zero _ _ _ _ _ Hrun) as ->.
      right. split; [by exists d|done].
    + rewrite (check_romfile_rejected g s Hr). intros [= <- <-]. by left.
    + unfold check_romfile, lift, mbind, M_bind. destruct (check_checksum g) as [r0| |]; [by destruct (Hf r0)|done..].
  - intros [(Hr & -> & ->)|[(d & Hd & Hrun) ->]]; [by apply check_romfile_rejected|].
    by rewrite (check_romfile_accepted g d s Hd).
Qed.

Lemma load_def_spec g s r s' :
  load_checksum_def_romfile E g s = Ok (r, s') ↔
  rejected g ∧ r = None ∧ s' = s ∨ loads g s s' ∧ is_Some r ∧ ∀ d, accepted g d → r = Some d.
Proof using.
  unfold load_checksum_def_romfile. destruct (copy_cases g) as [[d (t & Ht & Hd)]|[Hr|Hf]].
  - unfold lift, mbind, M_bind. rewrite Ht, Hd. split.
    + destruct (cfg_load_object E (Some d) s) as [[r0 s0]| |] eqn:Hrun; [|intros Hbad; discriminate Hbad..].
      pose proof (load_from_xml_zero _ _ _ _ _ Hrun) as ->. cbn [Z.ltb Z.compare]. intros Heq.
      pose proof (ok_value _ _ _ _ Heq) as <-. apply ok_state in Heq as <-. right.
      split; [exists d; split; [by exists t|done]|]. split; [by eexists|]. intros d' (t' & Ht' & Hd'). congruence.
    + intros [(Hr & _)|((d' & Hd' & Hrun) & _ & Hr)]; [destruct (rejected_not g d Hr); by exists t|].
      rewrite (Hr d') by done. destruct Hd' as (t' & Ht' & Hd'). rewrite Ht in Ht'. injection Ht' as <-.
      rewrite Hd in Hd'. injection Hd' as <-. by rewrite Hrun.
  - split.
    + unfold lift, mbind, M_bind. destruct Hr as [Ht|(t & Ht & Hd)]; rewrite Ht; [|rewrite Hd]; intros [= <- <-]; left;
        (split; [|done]); [by left|right; by exists t].
    + intros [(_ & -> & ->)|((d & Hd & _) & _)]; [|by destruct (rejected_not g d Hr)].
      unfold lift, mbind, M_bind. destruct Hr as [Ht|(t & Ht & Hd)]; rewrite Ht; [done|]. by rewrite Hd.
  - split.
    + unfold lift, mbind, M_bind. destruct (check_checksum g) as [r0| |]; [by destruct (Hf r0)|intros Hbad; discriminate Hbad..].
    + intros [([Ht|(t & Ht & _)] & _)|((d & (t & Ht & _) & _) & _)]; by destruct (Hf _ Ht).
Qed.

(** ** What a start does *)

(** The result, and what is in the flash afterwards. *)
Inductive boots (y : sys) : option Z → sys → Prop :=
| boot_running s' b :
    loads (running y) (st y) s' → check_checksum (backup y) = Ok b →
    boots y (Some 0)
      (let y1 := set_br (backup y) (set_st s' y) in
       match b with None => set_backup (reserve_write (backup y) (running y)) y1 | Some _ => y1 end)
| boot_backup s' :
    rejected (running y) → loads (backup y) (st y) s' →
    boots y (Some 0) (set_running (mtd_write (running y) (backup y)) (set_st s' (set_br (backup y) y)))
| boot_default s' :
    rejected (running y) → rejected (backup y) → loads (default y) (st y) s' →
    boots y (Some 0)
      (set_backup (reserve_write (backup y) (default y)) (set_running (mtd_write (running y) (default y))
        (set_st s' (set_dr (default y) (set_br (backup y) y)))))
| boot_exit :
    rejected (running y) → rejected (backup y) → rejected (default y) → rejected (userfs_file y) →
    boots y None (set_dr (default y) (set_br (backup y) y))
| boot_factory s1 s2 r text s3 :
    rejected (running y) → rejected (backup y) → rejected (default y) → loads (userfs_file y) (st y) s1 →
    handle_proline_paras s1 = Ok (tt, s2) → cfg_save_object E true s2 = Ok ((r, text), s3) →
    let y3 := set_st s3 (set_dr (default y) (set_br (backup y) y)) in
    boots y (if r =? -1 then Some (-1) else if compute_checksum (Some text) is Some _ then Some 0 else Some (-1))
      (if r =? -1 then y3
       else match compute_checksum (Some text) with
            | Some g => set_backup (reserve_write (backup y) g) (set_running (mtd_write (running y) g) y3)
            | None => y3
            end).

Lemma set_st_id y : set_st (st y) y = y.
Proof using. by destruct y. Qed.

(** ** The rounds *)

Lemma on_store_inv {A} (m : SM A) y a y' :
  on_store m y = Ok (a, y') → ∃ s', m (st y) = Ok (a, s') ∧ y' = set_st s' y.
Proof using. unfold on_store. destruct (m (st y)) as [[b s]| |]; [|done..]. intros [= -> <-]. eauto. Qed.

Lemma round_loads fuel g k y s' :
  loads g (st y) s' → romfile_loop E handle_proline_paras (S fuel) g k y = Ok (Checked k, set_st s' y).
Proof using.
  intros (d & Hd & Hrun). assert (Hone : on_store (check_romfile E g) y = Ok (0, set_st s' y)).
  { unfold on_store. by rewrite (check_romfile_accepted g d (st y) Hd), Hrun. }
  cbn [romfile_loop]. by step_by Hone.
Qed.

Lemma round_inv fuel g k y p y' :
  romfile_loop E handle_proline_paras (S fuel) g k y = Ok (p, y') →
  rejected g ∨ ∃ s', loads g (st y) s' ∧ p = Checked k ∧ y' = set_st s' y.
Proof using.
  cbn [romfile_loop]. intros (r & y1 & Hone & Hrun)%M_bind_inv. apply on_store_inv in Hone as (s' & Hone & ->).
  apply check_romfile_spec in Hone as [(? & _)|[Hl ->]]; [by left|]. right. exists s'. split; [done|].
  split; [by apply ok_value in Hrun|by apply ok_state in Hrun].
Qed.

Lemma round_rejected fuel g y :
  rejected g →
  let again := romfile_loop E handle_proline_paras fuel in
  romfile_loop E handle_proline_paras (S fuel) g RUN_ROMFILE_FLAG y = again (backup y) BK_ROMFILE_FLAG (set_br (backup y) y) ∧
  romfile_loop E handle_proline_paras (S fuel) g BK_ROMFILE_FLAG y = again (default y) DEF_ROMFILE_FLAG (set_dr (default y) y).
Proof using.
  intros Hr. assert (Hone : on_store (check_romfile E g) y = Ok (-1, y)).
  { unfold on_store. by rewrite (check_romfile_rejected g (st y) Hr), set_st_id. }
  split; cbn [romfile_loop]; by step_by Hone.
Qed.

(** The round for the default file of the reserve area, when it is refused. *)
Definition from_userfs (y : sys) : res (parsed * sys) :=
  match load_checksum_def_romfile E (userfs_file y) (st y) with
  | Ok (None, s) => Ok (Exit, set_st s y)
  | Ok (Some _, s1) =>
      match handle_proline_paras s1 with
      | Ok (_, s2) =>
          match cfg_save_object E true s2 with
          | Ok ((r, text), s3) =>
              if r =? -1 then Ok (Return (-1), set_st s3 y)
              else match compute_checksum (Some text) with
                   | None => Ok (Return (-1), set_st s3 y)
                   | Some g => Ok (Checked DEFFILESYSTEM_ROMFILE_FLAG,
                       set_backup (reserve_write (backup y) g) (set_running (mtd_write (running y) g) (set_st s3 y)))
                   end
          | Fault => Fault
          | NoFuel => NoFuel
          end
      | Fault => Fault
      | NoFuel => NoFuel
      end
  | Fault => Fault
  | NoFuel => NoFuel
  end.

Lemma round_default fuel g y :
  rejected g → romfile_loop E handle_proline_paras (S fuel) g DEF_ROMFILE_FLAG y = from_userfs y.
Proof using.
  intros Hr. assert (Hone : on_store (check_romfile E g) y = Ok (-1, y)).
  { unfold on_store. by rewrite (check_romfile_rejected g (st y) Hr), set_st_id. }
  cbn [romfile_loop]. step_by Hone. unfold from_userfs, on_store, mbind, M_bind, gets.
  cbn -[load_checksum_def_romfile cfg_save_object compute_checksum].
  destruct (load_checksum_def_romfile E (userfs_file y) (st y)) as [[[d|] s1]| |]; [|done..]. cbn [st set_st].
  destruct (handle_proline_paras s1) as [[u s2]| |]; [|done..]. cbn [st set_st].
  destruct (cfg_save_object E true s2) as [[[r text] s3]| |]; [|done..]. cbn [fst snd].
  destruct (r =? -1); [done|]. by destruct (compute_checksum (Some text)).
Qed.

(** ** After the loop *)

Definition after_loop (p : parsed) (y : sys) : res (option Z * sys) :=
  match p with
  | Exit => Ok (None, y)
  | Return r => Ok (Some r, y)
  | Checked k =>
      if RUN_ROMFILE_FLAG =? k then
        match check_checksum (backup y) with
        | Ok (Some _) => Ok (Some 0, set_br (backup y) y)
        | Ok None => Ok (Some 0, set_backup (reserve_write (backup y) (running y)) (set_br (backup y) y))
        | Fault => Fault
        | NoFuel => NoFuel
        end
      else if BK_ROMFILE_FLAG =? k then Ok (Some 0, set_running (mtd_write (running y) (br_file y)) y)
      else if DEF_ROMFILE_FLAG =? k then
        Ok (Some 0, set_backup (reserve_write (backup y) (dr_file y)) (set_running (mtd_write (running y) (dr_file y)) y))
      else Ok (Some 0, y)
  end.

Lemma parse_romfile_after y :
  tc_parse_romfile E handle_proline_paras y =
  match romfile_loop E handle_proline_paras 3 (running y) RUN_ROMFILE_FLAG y with
  | Ok (p, y1) => after_loop p y1
  | Fault => Fault
  | NoFuel => NoFuel
  end.
Proof using.
  unfold tc_parse_romfile, gets, mbind at 1 2, M_bind at 1 2. destruct (romfile_loop _ _ _ _ _ _) as [[[|r|k] y1]| |]; [done..| |done|done].
  unfold after_loop, lift, mbind, M_bind, loadBackupRomfile, modify, gets, write_backup, update_romfile. cbn [br_file set_br backup running st].
  destruct (RUN_ROMFILE_FLAG =? k); [|by destruct (BK_ROMFILE_FLAG =? k); [|destruct (DEF_ROMFILE_FLAG =? k)]].
  by destruct (check_checksum (backup y1)) as [[t|]| |].
Qed.

Lemma boots_result y r y' :
  boots y r y' → tc_parse_romfile E handle_proline_paras y = Ok (r, y').
Proof using.
  rewrite parse_romfile_after.
  destruct 1 as [s' b Hl Hb|s' R1 Hl|s' R1 R2 Hl|R1 R2 R3 R4|s1 s2 r text s3 R1 R2 R3 Hl Hp Hs].
  - rewrite (round_loads _ _ _ _ s' Hl). cbn. rewrite Hb. by destruct b.
  - destruct (round_rejected 2 _ y R1) as [-> _]. by rewrite (round_loads _ _ _ (set_br (backup y) y) s' Hl).
  - destruct (round_rejected 2 _ y R1) as [-> _]. destruct (round_rejected 1 _ (set_br (backup y) y) R2) as [_ ->].
    by rewrite (round_loads _ _ _ (set_dr (default y) (set_br (backup y) y)) s' Hl).
  - destruct (round_rejected 2 _ y R1) as [-> _]. destruct (round_rejected 1 _ (set_br (backup y) y) R2) as [_ ->].
    rewrite (round_default 0 _ _ R3). unfold from_userfs.
    cbn [userfs_file set_dr set_br st]. by rewrite (proj2 (load_def_spec (userfs_file y) (st y) None (st y)) ltac:(by left)).
  - destruct (round_rejected 2 _ y R1) as [-> _]. destruct (round_rejected 1 _ (set_br (backup y) y) R2) as [_ ->].
    rewrite (round_default 0 _ _ R3). unfold from_userfs. cbn [userfs_file set_dr set_br st]. pose proof Hl as (d & Hd & _).
    rewrite (proj2 (load_def_spec (userfs_file y) (st y) (Some d) s1)), Hp, Hs.
    + destruct (r =? -1); [done|]. by destruct (compute_checksum (Some text)).
    + right. split; [done|]. split; [by eexists|]. intros d' (t' & Ht' & Hd'). destruct Hd as (t & Ht & Hd). congruence.
Qed.

Lemma result_boots y r y' :
  tc_parse_romfile E handle_proline_paras y = Ok (r, y') → boots y r y'.
Proof using.
  rewrite parse_romfile_after. destruct (romfile_loop _ _ _ _ _ _) as [[p y1]| |] eqn:Hrun; [|done..].
  destruct (round_inv _ _ _ _ _ _ Hrun) as [R1|(s' & Hl & -> & ->)].
  2:{ intros Ha. cbn in Ha. destruct (check_checksum (backup y)) as [[t|]| |] eqn:Hb; [| |discriminate Ha..].
      - ok_inj Ha. exact (boot_running y s' (Some t) Hl Hb).
      - ok_inj Ha. exact (boot_running y s' None Hl Hb). }
  rewrite (proj1 (round_rejected 2 _ y R1)) in Hrun.
  destruct (round_inv _ _ _ _ _ _ Hrun) as [R2|(s' & Hl & -> & ->)].
  2:{ intros Ha. ok_inj Ha. exact (boot_backup y s' R1 Hl). }
  rewrite (proj2 (round_rejected 1 _ (set_br (backup y) y) R2)) in Hrun.
  destruct (round_inv _ _ _ _ _ _ Hrun) as [R3|(s' & Hl & -> & ->)].
  2:{ intros Ha. ok_inj Ha. exact (boot_default y s' R1 R2 Hl). }
  rewrite (round_default 0 _ _ R3) in Hrun. unfold from_userfs in Hrun. cbn [userfs_file set_dr set_br st default backup running] in *.
  destruct (load_checksum_def_romfile E (userfs_file y) (st y)) as [[tree s1]| |] eqn:Hdef; [|discriminate Hrun..].
  apply load_def_spec in Hdef as [(R4 & -> & ->)|(Hl & [d ->] & _)].
  { intros Ha. ok_inj Hrun. cbn in Ha.
    ok_inj Ha. exact (boot_exit y R1 R2 R3 R4). }
  destruct (handle_proline_paras s1) as [[[] s2]| |] eqn:Hp; [|discriminate Hrun..].
  destruct (cfg_save_object E true s2) as [[[q text] s3]| |] eqn:Hs; [|discriminate Hrun..].
  pose proof (boot_factory y s1 s2 q text s3 R1 R2 R3 Hl Hp Hs) as Hb. cbv zeta in Hb. intros Ha.
  destruct (q =? -1).
  - ok_inj Hrun. cbn in Ha.
    ok_inj Ha. exact Hb.
  - destruct (compute_checksum (Some text)); ok_inj Hrun; cbn in Ha;
      ok_inj Ha; exact Hb.
Qed.
End boot.

(** ** What is in the flash after saving *)

Section flash.
Context `{PlatformLaws}.

(** A copy of the packed text. *)
Definition holds (text g : list Z) : Prop := ∃ pad, slack pad ∧ g = packed text ++ pad.

Lemma holds_check text g : text_ok sizeof_trx text → holds text g → check_checksum g = Ok (Some text).
Proof using All. intros Ht (pad & Hpad & ->). by apply check_packed. Qed.

Lemma holds_accepted text g d : text_ok sizeof_trx text → prints d text → doc_ok d → holds text g → accepted g d.
Proof using All. intros Ht Hp Hd Hg. exists text. split; [by apply holds_check|by apply xml_reads]. Qed.

Lemma mtd_holds text old g : (length g ≤ rom_size)%nat → holds text g → holds text (mtd_write old g).
Proof using All.
  intros Hlen (pad & Hpad & ->). destruct (mtd_writes old _ Hlen) as (pad' & Hpad' & ->). exists (pad ++ pad').
  split; [by apply slack_app|]. by rewrite app_assoc.
Qed.

Lemma reserve_holds text old g : (length (packed text) ≤ ra_size)%nat → holds text g → holds text (reserve_write old g).
Proof using All.
  intros Hlen (pad & Hpad & ->). destruct (reserve_writes old (packed text ++ pad)) as (pad' & Hpad' & ->).
  exists (take (ra_size - length (packed text)) pad ++ pad'). split; [by apply slack_app; [apply slack_take|]|].
  rewrite app_assoc. f_equal. by rewrite take_app, take_ge by lia.
Qed.

Lemma packed_holds text : holds text (packed text).
Proof using All. exists []. split; [apply slack_nil|by rewrite app_nil_r]. Qed.

Lemma store_romfile_run E `{Shm} `{Xml} `{Handlers} y text :
  cfg_save_object E true (st y) = Ok ((0, text), st y) → text_ok sizeof_trx text →
  store_romfile E false y =
    Ok (0, set_backup (reserve_write (backup y) (packed text)) (set_running (mtd_write (running y) (packed text)) y)).
Proof using.
  intros Hs Ht. assert (Hsave : on_store (cfg_save_object E true) y = Ok ((0, text), y)).
  { unfold on_store. by rewrite Hs, set_st_id. }
  unfold store_romfile. step_by Hsave. cbn [fst snd]. change (0 =? -1) with false. cbv iota.
  by rewrite compute_checksum_packs.
Qed.
End flash.

(** ** Properties *)

(** C15: [tc_parse_romfile] implements [boots]: it tries the copy in the
    partition, the backup, the default of the reserve area and the file of
    the file system in this order, loads the first one whose checksum and XML
    are accepted, and repairs the copies before it; the process exits when
    there is none. And it returns, in three rounds, whenever the checks, the
    loading of the accepted document and saving return. *)
Theorem parse_romfile_boots E `{Platform} `{Shm} `{Xml} `{Handlers} handle_proline_paras y :
  (∀ r y', tc_parse_romfile E handle_proline_paras y = Ok (r, y') ↔ boots E handle_proline_paras y r y') ∧
  ((∀ g, g ∈ [running y; backup y; default y; userfs_file y] →
      (∃ b, check_checksum g = Ok b) ∧
      ∀ d, accepted g d → ∃ s1 s2 r text s3, cfg_load_object E (Some d) (st y) = Ok (0, s1) ∧
        handle_proline_paras s1 = Ok (tt, s2) ∧ cfg_save_object E true s2 = Ok ((r, text), s3)) →
   ∃ r y', tc_parse_romfile E handle_proline_paras y = Ok (r, y')).
Proof.
  split; [split; [apply result_boots|apply boots_result]|]. intros Hall.
  assert (Hcase : ∀ g, g ∈ [running y; backup y; default y; userfs_file y] → rejected g ∨
            ∃ s1 s2 r text s3, loads E g (st y) s1 ∧ handle_proline_paras s1 = Ok (tt, s2) ∧
              cfg_save_object E true s2 = Ok ((r, text), s3)).
  { intros g Hg. destruct (Hall g Hg) as [[b Hb] Hd]. destruct (copy_cases g) as [[d Ha]|[?|Hf]]; [|by left|by destruct (Hf b)].
    right. destruct (Hd d Ha) as (s1 & s2 & r & text & s3 & Hl & ? & ?). exists s1, s2, r, text, s3. split; [by exists d|done]. }
  destruct (Hall (backup y)) as [[b Hb] _]; [set_solver|]. clear Hall.
  destruct (Hcase (running y)) as [R1|(s1 & _ & _ & _ & _ & Hl & _)]; [set_solver| |].
  2:{ eexists _, _. apply boots_result. by apply (boot_running _ _ y s1 b). }
  destruct (Hcase (backup y)) as [R2|(s1 & _ & _ & _ & _ & Hl & _)]; [set_solver| |].
  2:{ eexists _, _. apply boots_result. by apply (boot_backup _ _ y s1). }
  destruct (Hcase (default y)) as [R3|(s1 & _ & _ & _ & _ & Hl & _)]; [set_solver| |].
  2:{ eexists _, _. apply boots_result. by apply (boot_default _ _ y s1). }
  destruct (Hcase (userfs_file y)) as [R4|(s1 & s2 & r & text & s3 & Hl & Hp & Hs)]; [set_solver| |].
  - eexists _, _. apply boots_result. by apply boot_exit.
  - eexists _, _. apply boots_result. exact (boot_factory _ _ y s1 s2 r text s3 R1 R2 R3 Hl Hp Hs).
Qed.

(** *** An example: the saved store of [SaveProps], in otherwise empty flash *)

#[export] Instance no_handlers : Handlers := {
  type_create _ _ := mret (-1); type_delete _ _ := mret (-1); type_set _ _ _ _ := mret (-1);
  type_get _ _ _ _ _ := mret (-1, None); type_commit _ _ := mret (-1); type_query _ _ _ _ := mret (-1, [])
}.

Definition saved_text : cstr :=
  match cfg_save_object demo_env true attr_store with Ok ((_, text), _) => text | _ => [] end.
Definition flash_of (s : store) (part back : list Z) : sys :=
  {| st := s; running := part; backup := back; default := []; br_file := []; dr_file := []; userfs_file := [] |}.

(** A document that can be loaded and saved again. *)
Definition reloads (d : forest xnode) (s : store) : bool :=
  match cfg_load_object demo_env (Some d) s with
  | Ok (r, s1) => (r =? 0) && match cfg_save_object demo_env true s1 with Ok _ => true | _ => false end
  | _ => false
  end.

Lemma reloads_runs d s :
  reloads d s = true →
  ∃ s1 s2 r text s3, cfg_load_object demo_env (Some d) s = Ok (0, s1) ∧ (mret tt : SM unit) s1 = Ok (tt, s2) ∧
    cfg_save_object demo_env true s2 = Ok ((r, text), s3).
Proof.
  unfold reloads. destruct (cfg_load_object demo_env (Some d) s) as [[r s1]| |]; [|done..].
  destruct (cfg_save_object demo_env true s1) as [[[r1 text] s3]| |] eqn:Hs; rewrite ?andb_false_r; [|done..].
  rewrite andb_true_r. intros ->%Z.eqb_eq. by exists s1, s1, r1, text, s3.
Qed.

(** What [parse_romfile_boots] asks of a copy. *)
Definition boot_copy (s : store) (g : list Z) : Prop :=
  (∃ b, check_checksum g = Ok b) ∧
  ∀ d, accepted g d → ∃ s1 s2 r text s3, cfg_load_object demo_env (Some d) s = Ok (0, s1) ∧
    (mret tt : SM unit) s1 = Ok (tt, s2) ∧ cfg_save_object demo_env true s2 = Ok ((r, text), s3).

Lemma boot_copy_intact s g text d :
  check_checksum g = Ok (Some text) → mxmlLoadFile text = Some d → reloads d s = true → boot_copy s g.
Proof.
  intros Hg Hd Hr. split; [by eexists|]. intros d' (t & Ht & Hd'). assert (d' = d) as -> by congruence. by apply reloads_runs.
Qed.

Lemma boot_copy_rejected s g : rejected g → boot_copy s g.
Proof.
  intros Hr. split; [destruct Hr as [?|(t & ? & _)]; by eexists|]. intros d Hd. by destruct (rejected_not g d Hr).
Qed.

Lemma parse_romfile_boots_witness :
  ∃ r y', tc_parse_romfile demo_env (mret tt) (flash_of demo_store (packed saved_text) []) = Ok (r, y').
Proof.
  apply (parse_romfile_boots demo_env (mret tt) (flash_of demo_store (packed saved_text) [])).
  assert (Hone : boot_copy demo_store (packed saved_text)).
  { apply (boot_copy_intact _ _ saved_text (doc_of demo_env (demo_tree attr_store))); vm_compute; reflexivity. }
  assert (Hnone : boot_copy demo_store []) by (apply boot_copy_rejected; by left).
  intros g Hg. change (g ∈ [packed saved_text; []; []; []]) in Hg. revert Hg Hone Hnone.
  generalize (packed saved_text). intros p Hg Hone Hnone. change (boot_copy demo_store g).
  apply elem_of_cons in Hg as [-> |Hg]; [exact Hone|]. assert (g = []) as -> by set_solver. exact Hnone.
Defined.

(** C2: a configuration survives saving and a start. After [store_romfile]
    has saved a store, the next start reads from the flash every attribute of
    every object saved under a tag of its type as it was, into a store that has
    the static objects, when the copy in the partition is as it was written and
    the backup can be checked, or when the partition is refused and the backup
    is as it was written. Afterwards the partition holds the configuration, and
    the backup passes the check. The objects under such a tag are those without
    number and those called entry or pvc; the others (such as [BSR0] and
    [Common0]) are saved under tags that name no type, and what was saved of
    them is not read. The conditions are that every saved tag leads back
    to the object's type or names none ([can_save]), that the escaped values fit the buffers of the writer
    ([values_fit]) and the text the partition, that the names in it consist of
    letters, digits and underscores ([doc_ok]), and that shared memory does not
    run out. *)
Theorem saved_configuration_survives E tk `{PlatformLaws} `{ShmLaws} `{XmlLaws} `{Handlers} handle_proline_paras ty y0 F text :
  wf_env E tk → root_ok E ty → enough_memory →
  rep_tree (st y0) F → values_fit F → can_save E F → doc_ok (doc_of E F) →
  cfg_save_object E true (st y0) = Ok ((0, text), st y0) →
  text_ok sizeof_trx text → (length (packed text) ≤ ra_size)%nat →
  ∃ y1, store_romfile E false y0 = Ok (0, y1) ∧
    ∀ y G, rep_tree (st y) G → ready E G →
      running y = running y1 ∧ (∃ b, check_checksum (backup y) = Ok b) ∨
      rejected (running y) ∧ backup y = backup y1 →
      ∃ y2, tc_parse_romfile E handle_proline_paras y = Ok (Some 0, y2) ∧ restores E F G (st y) (st y2) ∧
        accepted (running y2) (doc_of E F) ∧ ∃ t, check_checksum (backup y2) = Ok (Some t).
Proof.
  intros wf Hroot Hmem HF Hfit Hcan Hdoc Hsave Htext Hlen.
  destruct (save_document E tk (st y0) F wf HF Hfit) as (t & Hs & Hp). rewrite Hsave in Hs.
  apply ok_value in Hs. assert (t = text) as -> by congruence. clear Hs.
  eexists. split; [by apply store_romfile_run|]. cbn [running backup set_running set_backup].
  intros y G HG Hready Hflash.
  destruct (load_restores E tk ty (st y) G F wf Hroot Hmem HG Hready Hcan) as (s' & Hload & Hrest).
  pose proof ra_fits as Hra. pose proof (packed_holds text) as Hpk.
  pose proof (λ g, holds_accepted text g (doc_of E F) Htext Hp Hdoc) as Hacc.
  destruct Hflash as [[Hrun [b Hb]]|[Hrej Hbk]].
  - assert (Hr : holds text (running y)) by (rewrite Hrun; apply mtd_holds; [lia|done]).
    eexists. split; [apply boots_result, (boot_running _ _ y s' b); [by exists (doc_of E F); split; [apply Hacc|]|done]|].
    cbv zeta. destruct b as [t|]; (split; [done|]); (split; [by apply Hacc|]); [by exists t|]. cbn [backup set_backup].
    exists text. by apply holds_check, reserve_holds.
  - assert (Hb : holds text (backup y)) by (rewrite Hbk; by apply reserve_holds).
    eexists. split; [apply boots_result, (boot_backup _ _ y s'); [done|by exists (doc_of E F); split; [apply Hacc|]]|].
    cbn [st running backup set_running set_st set_br]. split; [done|]. split; [|exists text; by apply holds_check].
    apply Hacc, mtd_holds; [|done]. rewrite Hbk, reserve_length. lia.
Qed.

Lemma saved_configuration_survives_witness :
  ∃ y1, store_romfile demo_env false (flash_of attr_store [] []) = Ok (0, y1) ∧
    ∃ y2, tc_parse_romfile demo_env (mret tt) (flash_of demo_store [] (backup y1)) = Ok (Some 0, y2) ∧
      cfg_obj_get_object_attr demo_env (Some (path_of [sroot; sdmz; sdmz_entry (Some 1)])) (Some (cs "DMZ_IP")) true 32 (st y2)
      = Ok ((11, Some (cs "192.168.1.5")), st y2).
Proof.
  destruct (saved_configuration_survives demo_env Table.tree (mret tt) Table.demo_root (flash_of attr_store [] [])
              (demo_tree attr_store) saved_text demo_env_wf) as (y1 & Hstore & Hboot).
  - split; [vm_compute; reflexivity|]. split; [vm_compute; reflexivity|]. split; [by_compute|].
    split; [vm_compute; reflexivity|]. split; [by_compute|]. split; [vm_compute; reflexivity|by vm_compute].
  - split; [intros s; by eexists|done].
  - exact attr_store_rep.
  - by_compute.
  - apply can_saveb_ok. vm_compute. reflexivity.
  - by_compute.
  - vm_compute. reflexivity.
  - by_compute.
  - apply Nat.leb_le. vm_compute. reflexivity.
  - exists y1. split; [exact Hstore|].
    destruct (Hboot (flash_of demo_store [] (backup y1)) (demo_tree demo_store)) as (y2 & Hrun & Hread & _).
    + exact demo_store_rep.
    + apply readyb_ok. vm_compute. reflexivity.
    + right. split; [left; vm_compute; reflexivity|reflexivity].
    + exists y2. split; [exact Hrun|]. set (q := [sroot; sdmz; sdmz_entry (Some 1)]).
      assert (Hin : match lookup (lasting demo_env (demo_tree attr_store)) (ids_of demo_env q) with
                    | Some (e, _) => bool_decide ((cs "DMZ_IP", cs "192.168.1.5") ∈ e_attrs e)
                    | None => false
                    end = true) by (vm_compute; reflexivity).
      specialize (Hread q (cs "DMZ_IP") 32 ltac:(by_path) ltac:(unfold CFG_MAX_NODE_LEVEL; simpl; lia) ltac:(lia)).
      cbv zeta in Hread. revert Hread Hin. generalize (lookup (lasting demo_env (demo_tree attr_store)) (ids_of demo_env q)).
      intros [[e k]|] Hread Hin; [|discriminate Hin]. apply bool_decide_eq_true in Hin. exact (Hread _ Hin).
Defined.
End RomBoot.
