(* ===== verification/LanEntry.v ===== *)
(** * An entry of the LAN host table ([lan_host_mgr/lan_host_mgr.h])

    The entry and the MAC addresses in it, with and without colons. *)

From S2P Require Import Prelude CString Text.
Open Scope Z_scope.

Module LanEntry.
Import Text.

(** The fields of [lan_host_entry_t] the manager uses.  A character array is the
    string in it. *)
Record lan_host_entry := Entry {
  valid : Z; exist : Z; update_flag : Z; mac : cstr; host_name : cstr; ip : cstr; conn_type : Z; port : Z;
  port_bind : Z; active : Z; online_time : Z; active_time : cstr; offline_time : Z; inactive_time : cstr;
  online_duration : Z; rxbytes : Z; txbytes : Z; power_level : Z; negorate : Z; duplex_mode : cstr;
  dev_online_notify : Z; expireDay : cstr; expireTime : cstr; AddressSrc : Z
}.

(** The entry after [bzero]. *)
Definition zero_entry : lan_host_entry := Entry 0 0 0 [] [] [] 0 0 0 0 0 [] 0 [] 0 0 0 0 0 [] 0 [] [] 0.

(** Assignments to fields. *)
Definition set_valid (v : Z) '(Entry _ x1 x2 x3 x4 x5 x6 x7 x8 x9 x10 x11 x12 x13 x14 x15 x16 x17 x18 x19 x20 x21 x22 x23) :=
  Entry v x1 x2 x3 x4 x5 x6 x7 x8 x9 x10 x11 x12 x13 x14 x15 x16 x17 x18 x19 x20 x21 x22 x23.
Definition set_exist (v : Z) '(Entry x0 _ x2 x3 x4 x5 x6 x7 x8 x9 x10 x11 x12 x13 x14 x15 x16 x17 x18 x19 x20 x21 x22 x23) :=
  Entry x0 v x2 x3 x4 x5 x6 x7 x8 x9 x10 x11 x12 x13 x14 x15 x16 x17 x18 x19 x20 x21 x22 x23.
Definition set_update_flag (v : Z) '(Entry x0 x1 _ x3 x4 x5 x6 x7 x8 x9 x10 x11 x12 x13 x14 x15 x16 x17 x18 x19 x20 x21 x22 x23) :=
  Entry x0 x1 v x3 x4 x5 x6 x7 x8 x9 x10 x11 x12 x13 x14 x15 x16 x17 x18 x19 x20 x21 x22 x23.
Definition set_mac (v : cstr) '(Entry x0 x1 x2 _ x4 x5 x6 x7 x8 x9 x10 x11 x12 x13 x14 x15 x16 x17 x18 x19 x20 x21 x22 x23) :=
  Entry x0 x1 x2 v x4 x5 x6 x7 x8 x9 x10 x11 x12 x13 x14 x15 x16 x17 x18 x19 x20 x21 x22 x23.
Definition set_host_name (v : cstr) '(Entry x0 x1 x2 x3 _ x5 x6 x7 x8 x9 x10 x11 x12 x13 x14 x15 x16 x17 x18 x19 x20 x21 x22 x23) :=
  Entry x0 x1 x2 x3 v x5 x6 x7 x8 x9 x10 x11 x12 x13 x14 x15 x16 x17 x18 x19 x20 x21 x22 x23.
Definition set_ip (v : cstr) '(Entry x0 x1 x2 x3 x4 _ x6 x7 x8 x9 x10 x11 x12 x13 x14 x15 x16 x17 x18 x19 x20 x21 x22 x23) :=
  Entry x0 x1 x2 x3 x4 v x6 x7 x8 x9 x10 x11 x12 x13 x14 x15 x16 x17 x18 x19 x20 x21 x22 x23.
Definition set_conn_type (v : Z) '(Entry x0 x1 x2 x3 x4 x5 _ x7 x8 x9 x10 x11 x12 x13 x14 x15 x16 x17 x18 x19 x20 x21 x22 x23) :=
  Entry x0 x1 x2 x3 x4 x5 v x7 x8 x9 x10 x11 x12 x13 x14 x15 x16 x17 x18 x19 x20 x21 x22 x23.
Definition set_port (v : Z) '(Entry x0 x1 x2 x3 x4 x5 x6 _ x8 x9 x10 x11 x12 x13 x14 x15 x16 x17 x18 x19 x20 x21 x22 x23) :=
  Entry x0 x1 x2 x3 x4 x5 x6 v x8 x9 x10 x11 x12 x13 x14 x15 x16 x17 x18 x19 x20 x21 x22 x23.
Definition set_port_bind (v : Z) '(Entry x0 x1 x2 x3 x4 x5 x6 x7 _ x9 x10 x11 x12 x13 x14 x15 x16 x17 x18 x19 x20 x21 x22 x23) :=
  Entry x0 x1 x2 x3 x4 x5 x6 x7 v x9 x10 x11 x12 x13 x14 x15 x16 x17 x18 x19 x20 x21 x22 x23.
Definition set_active (v : Z) '(Entry x0 x1 x2 x3 x4 x5 x6 x7 x8 _ x10 x11 x12 x13 x14 x15 x16 x17 x18 x19 x20 x21 x22 x23) :=
  Entry x0 x1 x2 x3 x4 x5 x6 x7 x8 v x10 x11 x12 x13 x14 x15 x16 x17 x18 x19 x20 x21 x22 x23.
Definition set_online_time (v : Z) '(Entry x0 x1 x2 x3 x4 x5 x6 x7 x8 x9 _ x11 x12 x13 x14 x15 x16 x17 x18 x19 x20 x21 x22 x23) :=
  Entry x0 x1 x2 x3 x4 x5 x6 x7 x8 x9 v x11 x12 x13 x14 x15 x16 x17 x18 x19 x20 x21 x22 x23.
Definition set_active_time (v : cstr) '(Entry x0 x1 x2 x3 x4 x5 x6 x7 x8 x9 x10 _ x12 x13 x14 x15 x16 x17 x18 x19 x20 x21 x22 x23) :=
  Entry x0 x1 x2 x3 x4 x5 x6 x7 x8 x9 x10 v x12 x13 x14 x15 x16 x17 x18 x19 x20 x21 x22 x23.
Definition set_offline_time (v : Z) '(Entry x0 x1 x2 x3 x4 x5 x6 x7 x8 x9 x10 x11 _ x13 x14 x15 x16 x17 x18 x19 x20 x21 x22 x23) :=
  Entry x0 x1 x2 x3 x4 x5 x6 x7 x8 x9 x10 x11 v x13 x14 x15 x16 x17 x18 x19 x20 x21 x22 x23.
Definition set_inactive_time (v : cstr) '(Entry x0 x1 x2 x3 x4 x5 x6 x7 x8 x9 x10 x11 x12 _ x14 x15 x16 x17 x18 x19 x20 x21 x22 x23) :=
  Entry x0 x1 x2 x3 x4 x5 x6 x7 x8 x9 x10 x11 x12 v x14 x15 x16 x17 x18 x19 x20 x21 x22 x23.
Definition set_online_duration (v : Z) '(Entry x0 x1 x2 x3 x4 x5 x6 x7 x8 x9 x10 x11 x12 x13 _ x15 x16 x17 x18 x19 x20 x21 x22 x23) :=
  Entry x0 x1 x2 x3 x4 x5 x6 x7 x8 x9 x10 x11 x12 x13 v x15 x16 x17 x18 x19 x20 x21 x22 x23.
Definition set_rxbytes (v : Z) '(Entry x0 x1 x2 x3 x4 x5 x6 x7 x8 x9 x10 x11 x12 x13 x14 _ x16 x17 x18 x19 x20 x21 x22 x23) :=
  Entry x0 x1 x2 x3 x4 x5 x6 x7 x8 x9 x10 x11 x12 x13 x14 v x16 x17 x18 x19 x20 x21 x22 x23.
Definition set_txbytes (v : Z) '(Entry x0 x1 x2 x3 x4 x5 x6 x7 x8 x9 x10 x11 x12 x13 x14 x15 _ x17 x18 x19 x20 x21 x22 x23) :=
  Entry x0 x1 x2 x3 x4 x5 x6 x7 x8 x9 x10 x11 x12 x13 x14 x15 v x17 x18 x19 x20 x21 x22 x23.
Definition set_power_level (v : Z) '(Entry x0 x1 x2 x3 x4 x5 x6 x7 x8 x9 x10 x11 x12 x13 x14 x15 x16 _ x18 x19 x20 x21 x22 x23) :=
  Entry x0 x1 x2 x3 x4 x5 x6 x7 x8 x9 x10 x11 x12 x13 x14 x15 x16 v x18 x19 x20 x21 x22 x23.
Definition set_negorate (v : Z) '(Entry x0 x1 x2 x3 x4 x5 x6 x7 x8 x9 x10 x11 x12 x13 x14 x15 x16 x17 _ x19 x20 x21 x22 x23) :=
  Entry x0 x1 x2 x3 x4 x5 x6 x7 x8 x9 x10 x11 x12 x13 x14 x15 x16 x17 v x19 x20 x21 x22 x23.
Definition set_duplex_mode (v : cstr) '(Entry x0 x1 x2 x3 x4 x5 x6 x7 x8 x9 x10 x11 x12 x13 x14 x15 x16 x17 x18 _ x20 x21 x22 x23) :=
  Entry x0 x1 x2 x3 x4 x5 x6 x7 x8 x9 x10 x11 x12 x13 x14 x15 x16 x17 x18 v x20 x21 x22 x23.
Definition set_dev_online_notify (v : Z) '(Entry x0 x1 x2 x3 x4 x5 x6 x7 x8 x9 x10 x11 x12 x13 x14 x15 x16 x17 x18 x19 _ x21 x22 x23) :=
  Entry x0 x1 x2 x3 x4 x5 x6 x7 x8 x9 x10 x11 x12 x13 x14 x15 x16 x17 x18 x19 v x21 x22 x23.
Definition set_expireDay (v : cstr) '(Entry x0 x1 x2 x3 x4 x5 x6 x7 x8 x9 x10 x11 x12 x13 x14 x15 x16 x17 x18 x19 x20 _ x22 x23) :=
  Entry x0 x1 x2 x3 x4 x5 x6 x7 x8 x9 x10 x11 x12 x13 x14 x15 x16 x17 x18 x19 x20 v x22 x23.
Definition set_expireTime (v : cstr) '(Entry x0 x1 x2 x3 x4 x5 x6 x7 x8 x9 x10 x11 x12 x13 x14 x15 x16 x17 x18 x19 x20 x21 _ x23) :=
  Entry x0 x1 x2 x3 x4 x5 x6 x7 x8 x9 x10 x11 x12 x13 x14 x15 x16 x17 x18 x19 x20 x21 v x23.
Definition set_AddressSrc (v : Z) '(Entry x0 x1 x2 x3 x4 x5 x6 x7 x8 x9 x10 x11 x12 x13 x14 x15 x16 x17 x18 x19 x20 x21 x22 _) :=
  Entry x0 x1 x2 x3 x4 x5 x6 x7 x8 x9 x10 x11 x12 x13 x14 x15 x16 x17 x18 x19 x20 x21 x22 v.

(** ** MAC addresses *)

Definition DEV_MAC_ADDR_LEN : nat := 12.
Definition MAC_ADDR_DOT_LEN : nat := 17.

(** An array of [n] bytes that holds the string. *)
Definition array (n : nat) (s : cstr) : list Z := take n (s ++ replicate n 0).

Fixpoint dot_pairs (l : list Z) : list Z :=
  match l with
  | a :: b :: [] => [a; b]
  | a :: b :: l' => a :: b :: 58 :: dot_pairs l'
  | _ => []
  end.

(** The buffers that are written to were zeroed. *)
Definition mac_add_dot (old_mac : cstr) : cstr := str_of (dot_pairs (array DEV_MAC_ADDR_LEN old_mac)).
Definition mac_rm_dot (old_mac : cstr) : cstr :=
  str_of (filter (λ c, c ≠ 58) (array MAC_ADDR_DOT_LEN old_mac)).
End LanEntry.
