(* ===== verification/LanHost.v ===== *)
(** * The LAN host manager ([lan_host_mgr])

    The table of the hosts behind the device, which a periodic check
    ([lan_host_mgr.c]) and the events of the kernel and the services
    ([lan_host_msg.c]) keep up to date with the functions of [lan_host_api.c].

    The build is that of the profile in [Project/profile]: [TCSUPPORT_WLAN],
    [TCSUPPORT_CFG_NG_UNION] and [TCSUPPORT_CHARSET_CHANGE] are set, the
    variants for [CT_JOYME4], [ANDLINK], [CUC] and [CT_UBUS] are not.  A name is
    GB2312 in the table and UTF-8 in the configuration.  Locking is not modelled:
    the code has none, although the check runs in a thread of its own; each
    function is one step here. *)

From S2P Require Import Prelude CString Text LanEntry.
Open Scope Z_scope.

Module LanHost.
Import Text LanEntry.

(** Lines of the files the manager reads: leases of the DHCP server, neighbours
    of the kernel (without the heading), stations of the bridge. *)
Record lease := { l_mac : cstr; l_ip : cstr; l_time : cstr; l_host_name : cstr }.
Record neigh := { n_ip : cstr; n_hw_addr : cstr; n_dev : cstr }.

Inductive event := Lanhost_update (data : option cstr) | Dbus_inform (msg : cstr).

(** What is outside: the configuration, reached by messages, the files, the
    drivers and the clocks.  A value of the configuration fits the buffer it
    is read to, and a line has all its fields. *)
Class World (W : Type) := {
  MAX_LAN_HOST_NUM : nat;
  tcapi_get : cstr → cstr → W → option cstr;
  tcapi_set : cstr → cstr → cstr → W → W;
  tcapi_unset : cstr → W → W;
  tcapi_commit : cstr → W → W;
  tcapi_save_raw : W → W;
  ecnt_event_send : event → W → W;
  leases : W → option (list lease);
  neighs : W → option (list neigh);
  stb_list : W → option (list (Z * cstr));
  (** The numbers in the first line of [ETH_PORT_STS]. *)
  eth_port_status : W → list Z;
  uptime : W → Z;
  monotonic : W → Z;
  now : W → cstr;
  (** [strftime] of the time in the string plus some seconds. *)
  time_after : cstr → Z → W → cstr;
  (** Bytes received and sent ([blapi_traffic_get_dev_acnt_by_mac]). *)
  traffic : cstr → W → Z * Z;
  (** [wifi_exsit_check], from the tables of the driver. *)
  wifi_exsit_check : cstr → W → bool;
  (** Rate and duplex mode of a port in [/proc]; none when there is no file. *)
  gsw_rate : Z → W → option cstr;
  gsw_duplex : Z → W → option cstr;
  (** [set_ipv6_from_dhcp_arp]: writes attributes of the node of the host. *)
  set_ipv6_from_dhcp_arp : cstr → Z → W → W;
  (** The library that converts characters: a descriptor for a conversion to
      the first set from the second; the bytes it writes for a text into a
      buffer of a size, with the number of bytes of the text that are left, or
      none when it fails. *)
  iconv_open_new : cstr → cstr → option Z;
  iconv_new : Z → cstr → nat → option (list Z * nat)
}.

Definition OFFLINE_TIME : Z := 86400.
Definition WIFI_ONLINING : Z := 2.
Definition ONLINE : Z := 1.
Definition OFFLINE : Z := 0.
Definition HOSTNAME_LEN : nat := 63.
Definition IP_ADDR_LEN : nat := 16.
Definition TIME_LEN : nat := 32.
Definition DUPLEX_LEN : nat := 4.
Definition IP_FLAG : Z := 1.
Definition HOST_NAME_FLAG : Z := 2.
Definition IPV6_FLAG : Z := 4.

Definition SYNC_NEW_ENTRY : Z := 1.
Definition SYNC_DEL_ENTRY : Z := 2.
Definition SYNC_UPDATE_STATE : Z := 2 ^ 2.
Definition SYNC_UPDATE_MAC : Z := 2 ^ 3.
Definition SYNC_UPDATE_IP : Z := 2 ^ 4.
Definition SYNC_UPDATE_CNT : Z := 2 ^ 5.
Definition SYNC_UPDATE_HOSTNAME : Z := 2 ^ 6.
Definition SYNC_UPDATE_ONLINE_TIME : Z := 2 ^ 7.
Definition SYNC_UPDATE_ACTIVE_TIME : Z := 2 ^ 8.
Definition SYNC_UPDATE_INACTIVE_TIME : Z := 2 ^ 9.
Definition SYNC_UPDATE_PORT : Z := 2 ^ 10.
Definition SYNC_UPDATE_POWER_LEVEL : Z := 2 ^ 11.
Definition SYNC_UPDATE_CONNTYPE : Z := 2 ^ 12.
Definition SYNC_UPDATE_NEGORATE : Z := 2 ^ 13.
Definition SYNC_UPDATE_IPv6 : Z := 2 ^ 14.
Definition SYNC_UPDATE_DUPLEXMODE : Z := 2 ^ 15.
Definition SYNC_ADD_IP : Z := 2 ^ 16.

(** Union of flags, and the test for one of some flags. *)
Definition flags (l : list Z) : Z := foldr Z.lor 0 l.
Definition has (f g : Z) : bool := negb (Z.land f g =? 0).
Definition clear (f g : Z) : Z := Z.ldiff f g.

(** The global variables. *)
Record lan (W : Type) := {
  lan_host_info : list lan_host_entry;
  check_flag : list Z;
  lan_port_status : list Z;
  lan_port_rate : list Z;
  lan_port_duplex : list cstr;
  save_flag : Z;
  gLastGetTime : option Z;
  world : W
}.
Arguments lan_host_info {W}. Arguments check_flag {W}. Arguments lan_port_status {W}. Arguments lan_port_rate {W}.
Arguments lan_port_duplex {W}. Arguments save_flag {W}. Arguments gLastGetTime {W}. Arguments world {W}.

Section lan.
Context {W : Type} `{World W}.
Abbreviation LM := (M (lan W)).

Definition with_entries (v : list lan_host_entry) (s : lan W) := {| lan_host_info := v; check_flag := check_flag s; lan_port_status := lan_port_status s;
  lan_port_rate := lan_port_rate s; lan_port_duplex := lan_port_duplex s; save_flag := save_flag s; gLastGetTime := gLastGetTime s; world := world s |}.
Definition with_check (v : list Z) (s : lan W) := {| lan_host_info := lan_host_info s; check_flag := v; lan_port_status := lan_port_status s;
  lan_port_rate := lan_port_rate s; lan_port_duplex := lan_port_duplex s; save_flag := save_flag s; gLastGetTime := gLastGetTime s; world := world s |}.
Definition with_status (v : list Z) (s : lan W) := {| lan_host_info := lan_host_info s; check_flag := check_flag s; lan_port_status := v;
  lan_port_rate := lan_port_rate s; lan_port_duplex := lan_port_duplex s; save_flag := save_flag s; gLastGetTime := gLastGetTime s; world := world s |}.
Definition with_rate (v : list Z) (s : lan W) := {| lan_host_info := lan_host_info s; check_flag := check_flag s; lan_port_status := lan_port_status s;
  lan_port_rate := v; lan_port_duplex := lan_port_duplex s; save_flag := save_flag s; gLastGetTime := gLastGetTime s; world := world s |}.
Definition with_duplex (v : list cstr) (s : lan W) := {| lan_host_info := lan_host_info s; check_flag := check_flag s; lan_port_status := lan_port_status s;
  lan_port_rate := lan_port_rate s; lan_port_duplex := v; save_flag := save_flag s; gLastGetTime := gLastGetTime s; world := world s |}.
Definition with_save (v : Z) (s : lan W) := {| lan_host_info := lan_host_info s; check_flag := check_flag s; lan_port_status := lan_port_status s;
  lan_port_rate := lan_port_rate s; lan_port_duplex := lan_port_duplex s; save_flag := v; gLastGetTime := gLastGetTime s; world := world s |}.
Definition with_get_time (v : option Z) (s : lan W) := {| lan_host_info := lan_host_info s; check_flag := check_flag s; lan_port_status := lan_port_status s;
  lan_port_rate := lan_port_rate s; lan_port_duplex := lan_port_duplex s; save_flag := save_flag s; gLastGetTime := v; world := world s |}.
Definition with_world (v : W) (s : lan W) := {| lan_host_info := lan_host_info s; check_flag := check_flag s; lan_port_status := lan_port_status s;
  lan_port_rate := lan_port_rate s; lan_port_duplex := lan_port_duplex s; save_flag := save_flag s; gLastGetTime := gLastGetTime s; world := v |}.

(** An entry is named by its index. *)
Definition the (i : nat) : LM lan_host_entry := λ s, match lan_host_info s !! i with Some e => Ok (e, s) | None => Fault end.
Definition upd (i : nat) (f : lan_host_entry → lan_host_entry) : LM unit :=
  modify (λ s, with_entries (alter f i (lan_host_info s)) s).
Definition ask {A} (f : W → A) : LM A := gets (λ s, f (world s)).
Definition tell (f : W → W) : LM unit := modify (λ s, with_world (f (world s)) s).
Definition when (b : bool) (m : LM unit) : LM unit := if b then m else mret tt.
Definition node_name (i : nat) : cstr := cs "LANHost2_Entry" ++ fmt_d (Z.of_nat i).
Definition set_node (i : nat) (attr val : cstr) : LM unit := tell (tcapi_set (node_name i) attr val).
Definition update_event (verb : cstr) (i : nat) : LM unit :=
  tell (ecnt_event_send (Lanhost_update (Some (verb ++ fmt_d (Z.of_nat i))))).

(** Twenty digits print any 64-bit number. *)
Definition fmt_llu (n : Z) : cstr := dec_digits 20 n [].

(** [charsetconv] of [ecnt_utility.c]: its result and what is in the buffer
    then, for arguments that are not null. *)
Definition charsetconv (srcchr deschr src : cstr) (outlen : nat) : Z * list Z :=
  match iconv_open_new deschr srcchr with
  | None => (-2, [])
  | Some cd =>
      match iconv_new cd src outlen with
      | Some (des, inlen) => if (inlen =? 0)%nat then (0, des) else (-3, des)
      | None => (-3, [])
      end
  end.

(** The string in a zeroed array of [n] bytes the bytes were written to: it is
    a fault to look for the end of one that is full. *)
Definition string_of (n : nat) (bytes : list Z) : res cstr :=
  if (length (str_of bytes) <? n)%nat then mret (str_of bytes) else Fault.

(** ** Writing an entry to the configuration *)

Definition sync_lan_host_info (i : nat) (update_flag : Z) : LM Z :=
  when (has update_flag (flags [SYNC_NEW_ENTRY; SYNC_DEL_ENTRY; SYNC_UPDATE_STATE; SYNC_UPDATE_MAC; SYNC_UPDATE_HOSTNAME;
                                SYNC_UPDATE_ACTIVE_TIME; SYNC_UPDATE_INACTIVE_TIME; SYNC_UPDATE_PORT]))
    (modify (with_save 1));;
  if update_flag =? 0 then mret (-1)
  else if has update_flag SYNC_DEL_ENTRY then
    tell (tcapi_unset (node_name i));;
    tell (tcapi_commit (cs "LANHost2_Common"));;
    mret 0
  else
    there ← ask (tcapi_get (node_name i) (cs "MAC"));
    if negb (has update_flag SYNC_NEW_ENTRY) && (if there is None then true else false) then
      upd i (λ _, zero_entry);; mret 0
    else
      p ← the i;
      when (has update_flag SYNC_UPDATE_STATE) (set_node i (cs "Active") (fmt_d (active p)));;
      when (has update_flag SYNC_UPDATE_MAC) (set_node i (cs "MAC") (mac p));;
      when (has update_flag SYNC_UPDATE_IP)
        ((if negb (port_bind p =? 0) then set_node i (cs "IP") [] else set_node i (cs "IP") (ip p));;
         if AddressSrc p =? 1 then
           set_node i (cs "AddressSrc") (cs "DHCP");;
           set_node i (cs "ExpireDay") (expireDay p);;
           set_node i (cs "ExpireTime") (expireTime p)
         else
           set_node i (cs "AddressSrc") (cs "Static");;
           set_node i (cs "ExpireDay") (cs "0");;
           set_node i (cs "ExpireTime") (cs "0"));;
      when (has update_flag SYNC_ADD_IP) (set_node i (cs "IP") (ip p));;
      when (has update_flag SYNC_UPDATE_IPv6) (tell (set_ipv6_from_dhcp_arp (mac p) (Z.of_nat i)));;
      when (has update_flag SYNC_UPDATE_CNT)
        (set_node i (cs "RxBytes") (fmt_llu (rxbytes p));; set_node i (cs "TxBytes") (fmt_llu (txbytes p)));;
      when (has update_flag SYNC_UPDATE_HOSTNAME)
        (let conv := charsetconv (cs "gb2312") (cs "utf-8") (host_name p) HOSTNAME_LEN in
         if conv.1 =? 0 then utfValue ← lift (string_of HOSTNAME_LEN conv.2); set_node i (cs "HostName") utfValue
         else set_node i (cs "HostName") (cs "unknown"));;
      when (has update_flag SYNC_UPDATE_ONLINE_TIME) (set_node i (cs "OnlineTime") (fmt_u (online_duration p)));;
      when (has update_flag SYNC_UPDATE_ACTIVE_TIME) (set_node i (cs "LatestActiveTime") (active_time p));;
      when (has update_flag SYNC_UPDATE_INACTIVE_TIME) (set_node i (cs "LatestInactiveTime") (inactive_time p));;
      when (has update_flag SYNC_UPDATE_PORT)
        (set_node i (cs "Port") (fmt_d (port p));; set_node i (cs "PortBind") (fmt_d (port_bind p)));;
      when (has update_flag SYNC_UPDATE_CONNTYPE) (set_node i (cs "ConnectionType") (fmt_d (conn_type p)));;
      when (has update_flag SYNC_UPDATE_POWER_LEVEL) (set_node i (cs "PowerLevel") (fmt_d (power_level p)));;
      when (has update_flag SYNC_UPDATE_NEGORATE) (set_node i (cs "NegoRate") (fmt_d (s32 (negorate p))));;
      when (has update_flag SYNC_UPDATE_DUPLEXMODE) (set_node i (cs "DuplexMode") (duplex_mode p));;
      when (has update_flag SYNC_NEW_ENTRY) (tell (tcapi_commit (cs "LANHost2_Common")));;
      (if has update_flag SYNC_ADD_IP then update_event (cs "add;") i
       else when (has update_flag (flags [SYNC_UPDATE_IP; SYNC_UPDATE_IPv6; SYNC_UPDATE_PORT])) (update_event (cs "update;") i));;
      mret 0.

(** ** Addresses *)

(** The time left of a lease, looked at every three seconds at most. *)
Definition set_expire (i : nat) (lease_time : cstr) (curTime : Z) : LM unit :=
  let timeLeft := s32 (atoi lease_time - curTime) in
  let days := Z.quot timeLeft (60 * 60 * 24) in
  let rest := Z.rem timeLeft (60 * 60 * 24) in
  let hours := Z.quot rest (60 * 60) in
  let rest := Z.rem rest (60 * 60) in
  upd i (set_expireDay (take 9 (fmt_d days)));;
  upd i (set_expireTime (take 9 (fmt_d hours ++ [58] ++ fmt_d (Z.quot rest 60) ++ [58] ++ fmt_d (Z.rem rest 60)))).

Definition check_expire_time (i : nat) (lease_time : cstr) : LM unit :=
  last ← gets gLastGetTime;
  cur ← ask monotonic;
  match last with
  | Some t => if cur - t <? 3 then mret tt else modify (with_get_time (Some cur));; set_expire i lease_time cur
  | None => modify (with_get_time (Some cur));; set_expire i lease_time cur
  end.

Definition set_ip_from_dhcp (i : nat) : LM Z :=
  p ← the i;
  let new_mac := mac_add_dot (mac p) in
  lines ← ask leases;
  match lines with
  | None => mret (-1)
  | Some lines =>
      match list_find (λ l, case_eq (l_mac l) new_mac) lines with
      | None => mret 0
      | Some (_, l) =>
          when (negb (has (update_flag p) HOST_NAME_FLAG) || negb (case_eq (ip p) (l_ip l)))
            (tmphostName ← ask (λ w, default [] (tcapi_get (node_name i) (cs "HostName") w));
             (if negb (streq tmphostName []) then
                let conv := charsetconv (cs "utf-8") (cs "gb2312") tmphostName 128 in
                when (conv.1 =? 0) (upd i (set_host_name (take HOSTNAME_LEN (str_of conv.2))))
              else upd i (set_host_name (take HOSTNAME_LEN (l_host_name l))));;
             upd i (set_ip (take IP_ADDR_LEN (l_ip l)));;
             upd i (λ e, set_update_flag (Z.lor (update_flag e) (flags [HOST_NAME_FLAG; IP_FLAG])) e);;
             check_expire_time i (l_time l);;
             upd i (set_AddressSrc 1);;
             sync_lan_host_info i (flags [SYNC_UPDATE_IP; SYNC_UPDATE_HOSTNAME]);; mret tt);;
          mret 1
      end
  end.

Definition set_ip_from_arp (i : nat) : LM Z :=
  p ← the i;
  if has (update_flag p) IP_FLAG && negb (strlen (ip p) =? 0) then mret 1
  else
    let new_mac := mac_add_dot (mac p) in
    lines ← ask neighs;
    match lines with
    | None => mret 0
    | Some lines =>
        match list_find (λ l, negb (strlen (n_ip l) =? 0) && case_eq (n_dev l) (cs "br0") && case_eq (n_hw_addr l) new_mac) lines with
        | None => mret 0
        | Some (_, l) =>
            upd i (set_ip (take IP_ADDR_LEN (n_ip l)));;
            upd i (λ e, set_update_flag (Z.lor (update_flag e) IP_FLAG) e);;
            upd i (set_AddressSrc 0);;
            sync_lan_host_info i SYNC_UPDATE_IP;;
            mret 1
        end
    end.

Definition set_lan_host_entry (i : nat) : LM Z :=
  r ← set_ip_from_dhcp i;
  if r =? 1 then mret 0
  else
    r ← set_ip_from_arp i;
    if r =? 1 then mret 0 else mret (-1).

(** ** Places in the table *)

Definition lan_host_num (w : W) : Z := default 0 (atoi <$> tcapi_get (cs "LANHost2_Common") (cs "LANHostNumber") w).
Definition lan_host_max_num (w : W) : Z :=
  let n := default 0 (atoi <$> tcapi_get (cs "LANHost2_Common") (cs "LANHostMaxNumber") w) in
  if Z.of_nat MAX_LAN_HOST_NUM <? n then Z.of_nat MAX_LAN_HOST_NUM else n.

(** A host that went offline before [offline_time] and may be forgotten. *)
Definition replaceable (w : W) (offline_time' : Z) (i : nat) (e : lan_host_entry) : bool :=
  (active e =? 0) && (0 <? offline_time e) && (offline_time e <? offline_time') &&
  negb (streq (default [] (tcapi_get (cs "LanHost2_Entry" ++ fmt_d (Z.of_nat i)) (cs "ControlStatus") w)) (cs "1")).

(** What the scan of [check_mac_exist] finds: it returns early with a place,
    or ends with [found], the first empty place and the oldest host. *)
Inductive scan := Early (i : nat) | Scanned (found : bool) (empty latest : Z).

Fixpoint mac_loop (w : W) (new_mac : cstr) (l : list lan_host_entry) (i : nat) (offline_time' latest empty : Z) (found_empty : bool)
    : scan * option nat :=
  match l with
  | [] => (Scanned false empty latest, None)
  | e :: l' =>
      let old := replaceable w offline_time' i e in
      let offline_time' := if old then offline_time e else offline_time' in
      let latest := if old then Z.of_nat i else latest in
      if valid e =? 1 then
        if case_eq (mac e) new_mac then
          if case_eq (ip e) [] && (port_bind e =? 0) then (Early i, None)
          else (Scanned true empty latest, Some i)
        else mac_loop w new_mac l' (S i) offline_time' latest empty found_empty
      else if found_empty then mac_loop w new_mac l' (S i) offline_time' latest empty true
      else mac_loop w new_mac l' (S i) offline_time' latest (Z.of_nat i) true
  end.

(** The result and [*empty_index]. *)
Definition check_mac_exist (mac' : cstr) (empty_index : Z) : LM (Z * Z) :=
  w ← ask (λ w, w);
  let max := lan_host_max_num w in
  l ← gets lan_host_info;
  let '(r, here) := mac_loop w (mac_rm_dot mac') (take (Z.to_nat max) l) 0 OFFLINE_TIME (-1) empty_index false in
  (match here with
   | Some i => upd i (λ e, if exist e =? 0 then set_exist 1 e else e)
   | None => mret tt
   end);;
  mret (match r with
        | Early i => (0, Z.of_nat i)
        | Scanned found empty latest => (if found : bool then 1 else 0, if max =? lan_host_num w then latest else empty)
        end).

(** The place, or none. *)
Fixpoint empty_loop (w : W) (l : list lan_host_entry) (i : nat) (offline_time' : Z) (latest : option nat) : option nat + option nat :=
  match l with
  | [] => inr latest
  | e :: l' =>
      let old := replaceable w offline_time' i e in
      if valid e =? 0 then inl (Some i)
      else empty_loop w l' (S i) (if old then offline_time e else offline_time') (if old then Some i else latest)
  end.

Definition find_empty_lan_host_entry : LM (option nat) :=
  w ← ask (λ w, w);
  let max := lan_host_max_num w in
  l ← gets lan_host_info;
  mret (match empty_loop w (take (Z.to_nat max) l) 0 OFFLINE_TIME None with
        | inl i => i
        | inr latest => if max =? lan_host_num w then latest else None
        end).

Definition find_lan_host_entry_by_mac (mac' : cstr) : LM (option nat) :=
  l ← gets lan_host_info;
  mret (fst <$> list_find (λ e, case_eq (mac e) mac') (take MAX_LAN_HOST_NUM l)).

(** ** Ports *)

Definition get_lan_port_by_mac (dev_mac : cstr) : LM Z :=
  lines ← ask stb_list;
  mret (match lines with
        | None => -1
        | Some lines => match list_find (λ l, case_eq l.2 (mac_add_dot dev_mac)) lines with Some (_, l) => l.1 | None => -1 end
        end).

(** The buffers keep what an earlier node had when a node is not there. *)
Fixpoint bind_loop (w : W) (nodes : list (Z * Z)) (lanName serviceListName wanModeName : cstr) : cstr :=
  match nodes with
  | [] => []
  | (i, j) :: nodes' =>
      let wanNodeName := cs "Wan_PVC" ++ fmt_d i ++ cs "_Entry" ++ fmt_d j in
      let serviceListName := default serviceListName (tcapi_get wanNodeName (cs "ServiceList") w) in
      let wanModeName := default wanModeName (tcapi_get wanNodeName (cs "WanMode") w) in
      if streq serviceListName (cs "OTHER") && streq wanModeName (cs "Bridge") then default [] (tcapi_get wanNodeName lanName w)
      else bind_loop w nodes' lanName serviceListName wanModeName
  end.
Definition get_lan_port_bind (port' : Z) : LM Z :=
  w ← ask (λ w, w);
  let bind_status := bind_loop w (i ← seqZ 0 8; j ← seqZ 0 8; [(i, j)]) (cs "LAN" ++ fmt_d port') [] [] in
  mret (if streq bind_status (cs "Yes") then 1 else 0).

(** The port numbers of the arrays count from 0. *)
Definition at_port {A} (arr : list A) (i : Z) : LM A := lift (if i <? 0 then Fault else deref (arr !! Z.to_nat i)).

Definition get_lan_port_negorate (port' : Z) : LM Z :=
  rates ← gets lan_port_rate;
  rate ← at_port rates (port' - 1);
  if 0 <? rate then mret rate
  else
    text ← ask (gsw_rate port');
    match text with
    | None => mret 0
    | Some real_rate =>
        let new := if streq real_rate (cs "10M") then 10000 else if streq real_rate (cs "100M") then 100000
                   else if streq real_rate (cs "1000M") then 1000000 else rate in
        modify (with_rate (<[Z.to_nat (port' - 1) := new]> rates));; mret new
    end.

Definition get_lan_port_duplexmode (port' : Z) : LM (option cstr) :=
  if (4 <? port') || (port' <? 1) then mret None
  else
    text ← ask (gsw_duplex port');
    match text with
    | None => mret None
    | Some real_duplex =>
        let mode := if streq real_duplex (cs "Half") then cs "Half" else if streq real_duplex (cs "Full") then cs "Full" else cs "Auto" in
        modify (λ s, with_duplex (<[Z.to_nat (port' - 1) := mode]> (lan_port_duplex s)) s);; mret (Some mode)
    end.

(** ** Coming, going, online and offline *)

Definition add_lan_host (p : option nat) (mac' : cstr) (conn_type' port' : Z) : LM Z :=
  match p with
  | None => mret (-1)
  | Some i =>
      let new_mac := mac_rm_dot mac' in
      ip_ret ← set_lan_host_entry i;
      e ← the i;
      if streq (mac e) new_mac && negb (ip_ret =? 0) then mret (-1)
      else
        upd i (set_valid 1);;
        when (conn_type' =? 0) (upd i (set_exist 1);; upd i (set_active 1));;
        upd i (set_mac (take DEV_MAC_ADDR_LEN new_mac));;
        t ← ask now; upd i (set_active_time (take (TIME_LEN - 1) t));;
        up ← ask uptime; upd i (set_online_time up);;
        when (negb (port e =? port')) (upd i (set_port (u8 port')));;
        let update_flag := if port e =? port' then 0 else SYNC_UPDATE_PORT in
        when (conn_type' =? 0) (b ← get_lan_port_bind port'; upd i (set_port_bind b));;
        upd i (set_conn_type (u8 conn_type'));;
        when ((u8 conn_type' =? 0) || (ip_ret =? 0)) (upd i (set_active 1);; upd i (set_exist 1));;
        duplex ← (if conn_type' =? 0 then
                    r ← get_lan_port_negorate port'; upd i (set_negorate r);;
                    m ← get_lan_port_duplexmode port';
                    match m with
                    | None => mret None
                    | Some m => upd i (set_duplex_mode (take DUPLEX_LEN m));;
                                mret (Some (flags [SYNC_UPDATE_NEGORATE; SYNC_UPDATE_DUPLEXMODE]))
                    end
                  else mret (Some 0));
        match duplex with
        | None => mret (-1)
        | Some f =>
            sync_lan_host_info i (flags [update_flag; f; SYNC_NEW_ENTRY; SYNC_UPDATE_STATE; SYNC_UPDATE_MAC; SYNC_UPDATE_CONNTYPE; SYNC_UPDATE_ACTIVE_TIME]);;
            update_event (cs "add;") i;;
            mret 0
        end
  end.

Definition del_lan_host (i : nat) : LM Z :=
  upd i (λ _, zero_entry);;
  sync_lan_host_info i SYNC_DEL_ENTRY;;
  update_event (cs "del;") i;;
  mret 0.

Definition set_lan_host_online (i : nat) (ip_flag : bool) : LM Z :=
  e ← the i;
  if (valid e =? 1) && (active e =? 1) then mret (-1)
  else
    upd i (set_valid 1);;
    ip_ret ← (if ip_flag then
                upd i (λ e, set_update_flag (clear (update_flag e) IP_FLAG) e);; set_lan_host_entry i
              else mret 0);
    e ← the i;
    when ((conn_type e =? 0) || (ip_ret =? 0)) (upd i (set_active 1));;
    t ← ask now; upd i (set_active_time (take (TIME_LEN - 1) t));;
    up ← ask uptime; upd i (set_online_time up);;
    duplex ← (if conn_type e =? 0 then
                r ← get_lan_port_negorate (port e); upd i (set_negorate r);;
                m ← get_lan_port_duplexmode (port e);
                match m with
                | None => mret None
                | Some m => upd i (set_duplex_mode (take DUPLEX_LEN m));;
                            mret (Some (flags [SYNC_UPDATE_NEGORATE; SYNC_UPDATE_DUPLEXMODE]))
                end
              else mret (Some 0));
    match duplex with
    | None => mret (-1)
    | Some f =>
        sync_lan_host_info i (flags [f; SYNC_UPDATE_STATE; SYNC_UPDATE_ACTIVE_TIME; SYNC_UPDATE_CONNTYPE]);;
        notify_val ← ask (tcapi_get (node_name i) (cs "DeviceOnlineNofication"));
        e ← the i;
        when (atoi (default [] notify_val) =? 1)
          (tell (ecnt_event_send (Dbus_inform (take 127 (cs "/com/ctc/igd1/Config/LANHosts/" ++ fmt_d (Z.of_nat i + 1) ++
             cs ";com.ctc.igd1.LANHost;Active:b:" ++ fmt_d (active e) ++ cs ";LatestActiveTime:s:" ++ active_time e)))));;
        mret 0
    end.

Definition mentions (s pat : cstr) : bool := if strstr s pat is Some _ then true else false.

Definition set_lan_host_offline (i : nat) (initflag : Z) : LM Z :=
  upd i (set_active OFFLINE);;
  upd i (set_ip []);;
  upd i (λ e, set_update_flag (clear (update_flag e) IP_FLAG) e);;
  e ← the i;
  when (negb (initflag =? 1) || streq (inactive_time e) [] || mentions (inactive_time e) (cs "1970-"))
    (if negb (mentions (active_time e) (cs "1970-"))
     then t ← ask (time_after (active_time e) (online_duration e)); upd i (set_inactive_time (take (TIME_LEN - 1) t))
     else t ← ask now; upd i (set_inactive_time (take (TIME_LEN - 1) t)));;
  up ← ask uptime; upd i (set_offline_time (u32 up));;
  upd i (set_host_name []);;
  upd i (λ e, set_update_flag (clear (update_flag e) HOST_NAME_FLAG) e);;
  sync_lan_host_info i (flags [SYNC_UPDATE_STATE; SYNC_UPDATE_IP; SYNC_UPDATE_INACTIVE_TIME]);;
  mret 0.

(** ** Start *)

(** [sscanf] with [%u]; with [%ul] the [l] is a literal. *)
Definition scan_u (s : cstr) : Z :=
  match skip_space s with
  | 45 :: s' => u32 (- Z.min (2 ^ 32 - 1) (atoi_digits 0 s'))
  | s' => Z.min (2 ^ 32 - 1) (atoi_digits 0 s')
  end.

Definition init_lan_host_entry (i : nat) : LM Z :=
  let get attr := ask (λ w, default [] (tcapi_get (node_name i) attr w)) in
  v ← get (cs "MAC"); upd i (set_mac (take DEV_MAC_ADDR_LEN v));;
  v ← get (cs "HostName"); upd i (set_host_name (take HOSTNAME_LEN v));;
  v ← get (cs "IP"); upd i (set_ip (take IP_ADDR_LEN v));;
  v ← get (cs "ConnectionType"); upd i (set_conn_type (u8 (atoi v)));;
  v ← get (cs "Port"); upd i (set_port (u8 (atoi v)));;
  v ← get (cs "Active"); upd i (set_active (u8 (atoi v)));;
  v ← get (cs "LatestActiveTime"); upd i (set_active_time (take (TIME_LEN - 1) v));;
  v ← get (cs "LatestInactiveTime"); upd i (set_inactive_time (take (TIME_LEN - 1) v));;
  v ← get (cs "OnlineTime"); upd i (set_online_duration (scan_u v));;
  v ← get (cs "RxBytes"); upd i (set_rxbytes (scan_u v));;
  v ← get (cs "TxBytes"); upd i (set_txbytes (scan_u v));;
  v ← get (cs "PowerLevel"); upd i (set_power_level (atoi v));;
  v ← get (cs "DeviceOnlineNofication"); upd i (set_dev_online_notify (u8 (atoi v)));;
  upd i (set_valid 1);;
  set_lan_host_offline i 1;;
  mret 0.

(** [for (i = 0; i < n; i++)]. *)
Fixpoint each (n : nat) (f : nat → LM unit) (i : nat) : LM unit :=
  match n with O => mret tt | S n' => f i;; each n' f (S i) end.
Definition for_all_entries (f : nat → LM unit) : LM unit := each MAX_LAN_HOST_NUM f 0.

Definition init_lan_host_info : LM Z :=
  modify (with_entries (replicate MAX_LAN_HOST_NUM zero_entry));;
  for_all_entries (λ i,
    there ← ask (tcapi_get (node_name i) (cs "MAC"));
    if there is Some _ then init_lan_host_entry i;; mret tt else mret tt);;
  mret 0.

Definition LAN_PORT_NUM : nat := 4.

Definition init_lan_port_status : LM Z :=
  nums ← ask eth_port_status;
  st ← gets lan_port_status;
  let nums := take LAN_PORT_NUM nums in
  modify (with_status (nums ++ drop (length nums) st));;
  modify (with_check (replicate MAX_LAN_HOST_NUM 10));;
  mret 0.

(** ** The periodic check *)

(** The lines of the bridge's table; [empty_index] keeps its value from line
    to line. *)
Fixpoint stb_loop (lines : list (Z * cstr)) (empty_index : Z) : LM unit :=
  match lines with
  | [] => mret tt
  | (port', mac') :: lines' =>
      r ← check_mac_exist mac' empty_index;
      when ((r.1 =? 0) && (1 <=? port') && (port' <=? 4) && negb (r.2 =? -1))
        (add_lan_host (Some (Z.to_nat r.2)) mac' 0 port';; mret tt);;
      stb_loop lines' r.2
  end.

Definition in_ports (p : Z) : bool := (1 <=? p) && (p <=? 4).

(** The part for an entry that is not online, while [check_flag] counts down;
    [port'] is the port of the last line of the bridge's table. *)
Definition recheck (port' : Z) (i : nat) : LM unit :=
  e ← the i;
  when ((valid e =? 1) && (conn_type e =? 0))
    (lan_port ← get_lan_port_by_mac (mac e);
     when (in_ports lan_port)
       (status ← gets lan_port_status;
        st ← at_port status (lan_port - 1);
        ready ← (if st =? 1 then
                   r ← set_lan_host_entry i;
                   e ← the i; mret ((r =? 0) || negb (port_bind e =? 0))
                 else mret false);
        when ready
          (e ← the i;
           when (negb (lan_port =? port e))
             (upd i (set_port (u8 lan_port));;
              b ← get_lan_port_bind port'; upd i (set_port_bind b);;
              sync_lan_host_info i SYNC_UPDATE_PORT;; mret tt);;
           set_lan_host_online i true;;
           modify (λ s, with_check (<[i := 0]> (check_flag s)) s))));;
  modify (λ s, with_check (alter (λ c, c - 1) i (check_flag s)) s).

Definition check_entry (port' : Z) (i : nat) : LM unit :=
  e ← the i;
  (if (valid e =? 1) && (active e =? 1) then
     b ← ask (traffic (mac e));
     upd i (set_rxbytes b.1);; upd i (set_txbytes b.2);;
     up ← ask uptime;
     upd i (λ e, set_online_duration (u32 (up - online_time e)) e);;
     sync_lan_host_info i (flags [SYNC_UPDATE_CNT; SYNC_UPDATE_ONLINE_TIME]);; mret tt
   else
     cf ← gets check_flag;
     c ← lift (deref (cf !! i));
     when (0 <? c) (recheck port' i));;
  e ← the i;
  (if (valid e =? 1) && (active e =? 1) && (exist e =? 0) then
     assoc ← ask (wifi_exsit_check (mac e));
     when ((conn_type e =? 0) || negb assoc) (set_lan_host_offline i 0;; mret tt)
   else mret tt);;
  e ← the i;
  up ← ask uptime;
  when ((valid e =? 1) && (active e =? 0) && (OFFLINE_TIME <? u32 (up - offline_time e))) (del_lan_host i;; mret tt).

Definition check_lan_host_update : LM Z :=
  for_all_entries (λ i, upd i (λ e, if exist e =? 1 then set_exist 0 e else e));;
  lines ← ask stb_list;
  match lines with
  | None => mret (-1)
  | Some lines =>
      stb_loop lines (-1);;
      for_all_entries (check_entry (default 0 (fst <$> last lines)));;
      sf ← gets save_flag;
      when (sf =? 1)
        (modify (with_save 0);; tell (ecnt_event_send (Lanhost_update None));; tell tcapi_save_raw);;
      mret 0
  end.

(** ** Events *)

(** [data]: verb, number of the SSID, station, MAC address, RSSI and rate. *)
Definition wifi_update_handler (data : cstr) : LM Z :=
  let field k n := take n (nth k (tokens [59] data) []) in
  let cmd := field 0%nat 15%nat in
  let old_ssid_idx := atoi (field 1%nat 15%nat) in
  let new_mac := mac_rm_dot (field 3%nat 31%nat) in
  if streq cmd (cs "add") then
    p ← find_lan_host_entry_by_mac new_mac;
    p ← match p with
        | Some i =>
            upd i (set_conn_type 1);;
            set_lan_host_online i true;;
            e ← the i;
            when (negb (port e =? old_ssid_idx + 1))
              (upd i (set_port (u8 (old_ssid_idx + 1)));; sync_lan_host_info i SYNC_UPDATE_PORT;; mret tt);;
            set_lan_host_online i true;;
            mret (Some i)
        | None =>
            p ← find_empty_lan_host_entry;
            add_lan_host p new_mac 1 (old_ssid_idx + 1);;
            mret p
        end;
    match p with
    | None => mret (-1)
    | Some i =>
        e ← the i;
        when (negb (has (update_flag e) IP_FLAG) || case_eq (ip e) []) (upd i (set_exist WIFI_ONLINING));;
        mret 0
    end
  else if streq cmd (cs "del") then
    p ← find_lan_host_entry_by_mac new_mac;
    match p with
    | Some i => e ← the i; when (port e =? old_ssid_idx + 1) (set_lan_host_offline i 0;; mret tt)
    | None => mret tt
    end;;
    mret 0
  else if streq cmd (cs "update") then
    p ← find_lan_host_entry_by_mac new_mac;
    match p with
    | Some i =>
        upd i (set_power_level (atoi (field 4%nat 15%nat)));;
        upd i (set_negorate (u32 (atoi (field 5%nat 15%nat) * 1000)));;
        e ← the i;
        when (negb (port e =? old_ssid_idx + 1)) (upd i (set_port (u8 (old_ssid_idx + 1))));;
        sync_lan_host_info i (flags [if port e =? old_ssid_idx + 1 then 0 else SYNC_UPDATE_PORT;
                                     SYNC_UPDATE_POWER_LEVEL; SYNC_UPDATE_NEGORATE; SYNC_UPDATE_DUPLEXMODE]);;
        mret tt
    | None => mret tt
    end;;
    mret 0
  else mret 0.

Definition dhcp_reinit_hander : LM Z := for_all_entries (λ i, set_ip_from_dhcp i;; mret tt);; mret 0.

(** An element of an array of ports, when there is one. *)
Definition put_port {A} (arr : list A) (i : Z) (a : A) : LM (list A) :=
  at_port arr i;; mret (<[Z.to_nat i := a]> arr).

(** The speed in Mbit, one of 10, 100 and 1000, and the duplex mode as text. *)
Definition lan_up_handler (lan_port link_speed : Z) (link_duplex : cstr) : LM Z :=
  st ← gets lan_port_status; st ← put_port st lan_port 1; modify (with_status st);;
  ra ← gets lan_port_rate; r ← at_port ra lan_port;
  modify (with_rate (<[Z.to_nat lan_port :=
    if link_speed =? 10 then 10000 else if link_speed =? 100 then 100000 else if link_speed =? 1000 then 1000000 else r]> ra));;
  du ← gets lan_port_duplex; du ← put_port du lan_port (take DUPLEX_LEN link_duplex); modify (with_duplex du);;
  for_all_entries (λ i, modify (λ s, with_check (<[i := 3]> (check_flag s)) s));;
  mret 0.

Definition lan_down_handler (lan_port : Z) : LM Z :=
  st ← gets lan_port_status; st ← put_port st lan_port 0; modify (with_status st);;
  for_all_entries (λ i,
    e ← the i;
    when (negb (valid e =? 0) && negb (active e =? 0) && (conn_type e =? 0) && (port e =? lan_port + 1))
      (set_lan_host_offline i 0;; mret tt));;
  mret 0.

(** Bridged devices announced by another service. *)
Definition alink_bridge_dev_handler (macaddr ipaddr : cstr) : LM Z :=
  let mac_addr := mac_rm_dot macaddr in
  for_all_entries (λ i,
    e ← the i;
    when (case_eq mac_addr (mac e) && (valid e =? 1))
      (lan_port ← get_lan_port_by_mac (mac e);
       when ((0 <? lan_port) &&
             ((active e =? OFFLINE) || (strlen (ip e) =? 0) || (active e =? ONLINE) && negb (case_eq ipaddr (ip e))))
         (upd i (set_ip (take IP_ADDR_LEN ipaddr));;
          upd i (λ e, set_update_flag (Z.lor (update_flag e) IP_FLAG) e);;
          let wired := (conn_type e =? 0) && (lan_port <=? 4) in
          when wired (upd i (set_port (u8 lan_port)));;
          sync_lan_host_info i (flags [SYNC_UPDATE_IP; if wired then SYNC_UPDATE_PORT else 0]);;
          set_lan_host_online i false;; mret tt)));;
  mret 0.

(** An address of a neighbour: [ip_type] is 0 for IPv4 and 1 for IPv6.  A host
    that is online with this address already stays as it is. *)
Definition arp_add_ipv4 (i : nat) (abuf : cstr) (lan_port lan_port_st : Z) : LM unit :=
  e ← the i;
  when (negb (case_eq (ip e) abuf)) (upd i (λ e, set_update_flag (clear (update_flag e) IP_FLAG) e));;
  e ← the i;
  if (active e =? OFFLINE) || negb (has (update_flag e) IP_FLAG) then
    when ((conn_type e =? 1) || (conn_type e =? 0) && (lan_port_st =? 1))
      (when (negb (has (update_flag e) IP_FLAG))
         (upd i (set_ip (take IP_ADDR_LEN abuf));;
          upd i (λ e, set_update_flag (Z.lor (update_flag e) IP_FLAG) e);;
          when (conn_type e =? 0)
            (upd i (set_port (u8 lan_port));; b ← get_lan_port_bind lan_port; upd i (set_port_bind b));;
          sync_lan_host_info i (flags [if case_eq (ip e) [] then SYNC_ADD_IP else SYNC_UPDATE_IP;
                                       if conn_type e =? 0 then SYNC_UPDATE_PORT else 0]);; mret tt);;
       e ← the i;
       when ((conn_type e =? 0) || (exist e =? WIFI_ONLINING)) (set_lan_host_online i false;; mret tt))
  else mret tt.

Definition arp_add_handler (lladdr abuf : cstr) (ip_type : Z) : LM Z :=
  p ← find_lan_host_entry_by_mac (mac_rm_dot lladdr);
  match p with
  | None => mret 0
  | Some i =>
      e ← the i;
      if valid e =? 1 then
        lan_port ← get_lan_port_by_mac (mac e);
        status ← gets lan_port_status;
        lan_port_st ← (if in_ports lan_port then at_port status (lan_port - 1) else mret 0);
        (if ip_type =? 0 then arp_add_ipv4 i abuf lan_port lan_port_st
         else if ip_type =? 1 then
           when (negb (has (update_flag e) IPV6_FLAG))
             (upd i (λ e, set_update_flag (Z.lor (update_flag e) IPV6_FLAG) e);;
              sync_lan_host_info i SYNC_UPDATE_IPv6;; mret tt)
         else mret tt);;
        mret 1
      else mret 0
  end.
End lan.
End LanHost.
