(* ===== verification/LanProps.v ===== *)
(** * The LAN host table stays a table

    What a function may do to an entry ([touched]), and the invariant that no
    two entries have the same MAC address, whatever the order of the events. *)

From stdpp Require Import relations.
From S2P Require Import Prelude CString Text LanEntry LanHost.
Open Scope Z_scope.

Module LanProps.
Import Text LanEntry LanHost.

(** ** Addresses without colons *)

Lemma filter_all {A} (P : A → Prop) `{∀ x, Decision (P x)} (l : list A) : Forall P l → filter P l = l.
Proof. induction 1 as [|x l Hx _ IH]; [done|]. by rewrite filter_cons_True, IH. Qed.

Lemma str_of_pad t n : 0 ∉ t → str_of (t ++ replicate n 0) = t.
Proof.
  induction t as [|c t IH]; intros Ht; [by destruct n|]. cbn [app str_of].
  destruct (Z.eqb_spec c 0) as [-> |?]; [set_solver|]. rewrite IH by set_solver. done.
Qed.

Lemma str_of_cut l : 0 ∉ str_of l ∧ ∃ r, l = str_of l ++ r.
Proof.
  induction l as [|c l [IH1 [r IH2]]]; [split; [set_solver|by exists []]|]. cbn [str_of].
  destruct (Z.eqb_spec c 0) as [-> |Hc]; [split; [set_solver|by eexists]|]. split; [set_solver|]. exists r. cbn. congruence.
Qed.

Lemma mac_rm_dot_twice m : mac_rm_dot (mac_rm_dot m) = mac_rm_dot m.
Proof.
  unfold mac_rm_dot at 2 3. set (l := filter _ _). destruct (str_of_cut l) as [H0 [r Hr]]. set (t := str_of l) in *.
  assert (Hl : Forall (λ c, c ≠ 58) l ∧ (length l ≤ 17)%nat).
  { split; [apply Forall_forall; by intros c [? _]%list_elem_of_filter|].
    unfold l. etrans; [apply length_filter|]. unfold array, MAC_ADDR_DOT_LEN. rewrite length_take. lia. }
  rewrite Hr, length_app in Hl. destruct Hl as [[Hne _]%Forall_app Hlen].
  unfold mac_rm_dot, array, MAC_ADDR_DOT_LEN. rewrite take_app, take_ge by lia.
  rewrite filter_app, filter_all, take_replicate, (filter_all _ (replicate _ _)); [by apply str_of_pad| |done].
  apply Forall_forall. by intros c [-> _]%elem_of_replicate.
Qed.

Section props.
Context {W : Type} `{World W}.
Abbreviation LM := (M (lan W)).

(** ** What happens to an entry *)

(** Its address stays or is cleared; with an address it does not become
    invalid. *)
Definition same_host (e e' : lan_host_entry) : Prop :=
  mac e' = [] ∨ mac e' = mac e ∧ (valid e' = valid e ∨ valid e' = 1).

Definition touched (i : nat) (l l' : list lan_host_entry) : Prop :=
  (∀ j, j ≠ i → l' !! j = l !! j) ∧
  (∀ e', l' !! i = Some e' → ∃ e, l !! i = Some e ∧ same_host e e') ∧ length l' = length l.

Definition keeps {A} (i : nat) (m : LM A) : Prop :=
  ∀ s r s', m s = Ok (r, s') → touched i (lan_host_info s) (lan_host_info s').

Lemma same_host_refl e : same_host e e.
Proof using. right. auto. Qed.

Lemma same_host_trans e1 e2 e3 : same_host e1 e2 → same_host e2 e3 → same_host e1 e3.
Proof using.
  intros [H1|[H1 V1]] [H2|[H2 V2]]; [by left|left; congruence|by left|]. right. split; [congruence|].
  destruct V2 as [-> | ->]; auto.
Qed.

Lemma touched_refl i l : touched i l l.
Proof using. split; [done|]. split; [|done]. intros e He. exists e. split; [done|apply same_host_refl]. Qed.

Lemma touched_trans i l1 l2 l3 : touched i l1 l2 → touched i l2 l3 → touched i l1 l3.
Proof using.
  intros (A1 & B1 & C1) (A2 & B2 & C2). split; [intros j Hj; by rewrite A2, A1|]. split; [|congruence].
  intros e3 H3. destruct (B2 e3 H3) as (e2 & H2 & S2). destruct (B1 e2 H2) as (e1 & H1 & S1).
  exists e1. split; [done|by eapply same_host_trans].
Qed.

Lemma keeps_bind {A B} i (m : LM A) (f : A → LM B) : keeps i m → (∀ a, keeps i (f a)) → keeps i (mbind f m).
Proof using. intros Hm Hf s r s' (a & s1 & Ha & Hb)%M_bind_inv. eapply touched_trans; [by eapply Hm|by eapply Hf]. Qed.

Lemma keeps_ret {A} i (a : A) : keeps i (mret a : LM A).
Proof using. intros s r s' [= _ <-]. apply touched_refl. Qed.

Lemma keeps_gets {A} i (f : lan W → A) : keeps i (gets f).
Proof using. intros s r s' [= _ <-]. apply touched_refl. Qed.

Lemma keeps_the i j : keeps i (the j).
Proof using. intros s r s'. unfold the. destruct (lan_host_info s !! j); [|done]. intros [= _ <-]. apply touched_refl. Qed.

Lemma keeps_lift {A} i (x : res A) : keeps i (lift x : LM A).
Proof using. intros s r s'. unfold lift. destruct x; [|done..]. intros [= _ <-]. apply touched_refl. Qed.

Lemma keeps_modify i (g : lan W → lan W) : (∀ s, lan_host_info (g s) = lan_host_info s) → keeps i (modify g).
Proof using. intros Hg s r s' [= _ <-]. rewrite Hg. apply touched_refl. Qed.

Lemma keeps_upd i f : (∀ e, same_host e (f e)) → keeps i (upd i f).
Proof using.
  intros Hf s r s' [= _ <-]. cbn. split; [intros j Hj; by apply list_lookup_alter_ne|]. split; [|by rewrite length_alter].
  intros e'. rewrite list_lookup_alter_eq. intros (e & He & ->)%fmap_Some. exists e. split; [done|apply Hf].
Qed.

Lemma keeps_when i b (m : LM unit) : keeps i m → keeps i (when b m).
Proof using. destruct b; [done|]. intros _. apply keeps_ret. Qed.
End props.

(** Assignments that leave address and validity alone. *)
Ltac same_host := let e := fresh in intros e; repeat case_match; destruct e; first [right; split; [reflexivity|by auto]|by left].

(** Goes through a function statement by statement; [lan_keeps] has the
    functions done before. *)
Create HintDb lan_keeps.
Ltac keeps_step :=
  first
  [ apply keeps_ret | apply keeps_gets | apply keeps_the | apply keeps_lift
  | solve [auto 2 with lan_keeps nocore]
  | apply keeps_upd; solve [same_host]
  | apply keeps_modify; reflexivity
  | apply keeps_when
  | apply keeps_bind; [|intros ?]
  | progress cbv zeta
  | match goal with |- keeps _ (match ?x with _ => _ end) => destruct x end ].
Ltac keeps := repeat keeps_step.

Section functions.
Context {W : Type} `{World W}.

Lemma ask_keeps {A} i (f : W → A) : keeps i (ask f).
Proof using. apply keeps_gets. Qed.
Lemma tell_keeps i (f : W → W) : keeps i (tell f).
Proof using. by apply keeps_modify. Qed.
Lemma set_node_keeps i j a v : keeps i (set_node j a v).
Proof using. apply tell_keeps. Qed.
Lemma event_keeps i j v : keeps i (update_event v j).
Proof using. apply tell_keeps. Qed.
#[local] Hint Resolve ask_keeps tell_keeps set_node_keeps event_keeps : lan_keeps.

Lemma sync_keeps i f : keeps i (sync_lan_host_info i f).
Proof using. unfold sync_lan_host_info. keeps. Qed.
#[local] Hint Resolve sync_keeps : lan_keeps.
Lemma expire_keeps i t : keeps i (check_expire_time i t).
Proof using. unfold check_expire_time, set_expire. keeps. Qed.
#[local] Hint Resolve expire_keeps : lan_keeps.
Lemma dhcp_keeps i : keeps i (set_ip_from_dhcp i).
Proof using. unfold set_ip_from_dhcp. keeps. Qed.
Lemma arp_keeps i : keeps i (set_ip_from_arp i).
Proof using. unfold set_ip_from_arp. keeps. Qed.
#[local] Hint Resolve dhcp_keeps arp_keeps : lan_keeps.
Lemma entry_keeps i : keeps i (set_lan_host_entry i).
Proof using. unfold set_lan_host_entry. keeps. Qed.
Lemma bind_keeps i p : keeps i (get_lan_port_bind p).
Proof using. unfold get_lan_port_bind. keeps. Qed.
Lemma at_port_keeps {A} i (l : list A) p : keeps i (at_port l p : M (lan W) A).
Proof using. unfold at_port. keeps. Qed.
#[local] Hint Resolve entry_keeps bind_keeps at_port_keeps : lan_keeps.
Lemma negorate_keeps i p : keeps i (get_lan_port_negorate p).
Proof using. unfold get_lan_port_negorate. keeps. Qed.
Lemma duplex_keeps i p : keeps i (get_lan_port_duplexmode p).
Proof using. unfold get_lan_port_duplexmode. keeps. Qed.
Lemma port_keeps i m : keeps i (get_lan_port_by_mac m).
Proof using. unfold get_lan_port_by_mac. keeps. Qed.
#[local] Hint Resolve negorate_keeps duplex_keeps port_keeps : lan_keeps.
Lemma online_keeps i b : keeps i (set_lan_host_online i b).
Proof using. unfold set_lan_host_online. keeps. Qed.
Lemma offline_keeps i f : keeps i (set_lan_host_offline i f).
Proof using. unfold set_lan_host_offline. keeps. Qed.
Lemma del_keeps i : keeps i (del_lan_host i).
Proof using. unfold del_lan_host. keeps. Qed.
#[local] Hint Resolve online_keeps offline_keeps del_keeps : lan_keeps.
Lemma recheck_keeps p i : keeps i (recheck p i).
Proof using. unfold recheck. keeps. Qed.
#[local] Hint Resolve recheck_keeps : lan_keeps.
Lemma check_entry_keeps p i : keeps i (check_entry p i).
Proof using. unfold check_entry. keeps. Qed.
Lemma arp_add_ipv4_keeps i a p st : keeps i (arp_add_ipv4 i a p st).
Proof using. unfold arp_add_ipv4. keeps. Qed.
End functions.
#[export] Hint Resolve ask_keeps tell_keeps set_node_keeps event_keeps sync_keeps expire_keeps dhcp_keeps arp_keeps entry_keeps bind_keeps at_port_keeps
  negorate_keeps duplex_keeps port_keeps online_keeps offline_keeps del_keeps recheck_keeps check_entry_keeps arp_add_ipv4_keeps : lan_keeps.

(** ** The invariant *)

Section table.
Context {W : Type} `{World W}.
Abbreviation LM := (M (lan W)).

(** The limit of the configuration. *)
Context (limit : nat).

(** An entry with an address is valid and below the limit, and no two have the
    same one. *)
Record hosts_ok (l : list lan_host_entry) : Prop := {
  ho_length : length l = MAX_LAN_HOST_NUM;
  ho_valid i e : l !! i = Some e → mac e ≠ [] → valid e = 1 ∧ (i < limit)%nat;
  ho_distinct i j a b : l !! i = Some a → l !! j = Some b → mac a ≠ [] → casefold (mac a) = casefold (mac b) → i = j
}.

Definition stays {A} (m : LM A) : Prop :=
  ∀ s r s', m s = Ok (r, s') → hosts_ok (lan_host_info s) → hosts_ok (lan_host_info s').

Lemma casefold_nil s : casefold s = casefold [] → s = [].
Proof using. by destruct s. Qed.

Lemma touched_at i l l' j e' :
  touched i l l' → l' !! j = Some e' → mac e' ≠ [] →
  ∃ e, l !! j = Some e ∧ mac e' = mac e ∧ (valid e' = valid e ∨ valid e' = 1).
Proof using.
  intros (Ho & Hi & _) He' Hm. destruct (decide (j = i)) as [-> |Hj].
  - destruct (Hi e' He') as (e & He & [?|[? ?]]); [done|]. by exists e.
  - rewrite Ho in He' by done. exists e'. auto.
Qed.

Lemma touched_ok i l l' : touched i l l' → hosts_ok l → hosts_ok l'.
Proof using.
  intros Ht Hok. split.
  - destruct Ht as (_ & _ & ->). apply Hok.
  - intros j e' He' Hm. destruct (touched_at i l l' j e' Ht He' Hm) as (e & He & Hme & Hv).
    destruct (ho_valid l Hok j e He) as [Hv1 Hlt]; [congruence|]. split; [|done]. destruct Hv; congruence.
  - intros j k a b Ha Hb Hm Heq. assert (Hmb : mac b ≠ []).
    { intros Hb0. rewrite Hb0 in Heq. by apply Hm, casefold_nil. }
    destruct (touched_at i l l' j a Ht Ha Hm) as (a0 & Ha0 & Ea & _). destruct (touched_at i l l' k b Ht Hb Hmb) as (b0 & Hb0 & Eb & _).
    apply (ho_distinct l Hok j k a0 b0); congruence.
Qed.

Lemma keeps_stays {A} i (m : LM A) : keeps i m → stays m.
Proof using. intros Hk s r s' Hrun. by apply touched_ok with i, Hk with r. Qed.

Lemma stays_bind {A B} (m : LM A) (f : A → LM B) : stays m → (∀ a, stays (f a)) → stays (mbind f m).
Proof using. intros Hm Hf s r s' (a & s1 & Ha & Hb)%M_bind_inv Hok. eapply Hf; [exact Hb|]. by eapply Hm. Qed.

Lemma stays_each n f i : (∀ j, stays (f j)) → stays (each n f i).
Proof using.
  intros Hf. revert i. induction n as [|n IH]; intros i; cbn [each]; [by apply (keeps_stays 0%nat), keeps_ret|].
  apply stays_bind; [apply Hf|intros []; apply IH].
Qed.

(** *** A host in its place *)

(** No other entry has the address. *)
Definition fresh (k : nat) (new : cstr) (l : list lan_host_entry) : Prop :=
  ∀ j e, j ≠ k → l !! j = Some e → mac e ≠ [] → casefold (mac e) ≠ casefold new.

Lemma fresh_touched i k new l l' : touched i l l' → fresh k new l → fresh k new l'.
Proof using.
  intros Ht Hf j e' Hj He' Hm. destruct (touched_at i l l' j e' Ht He' Hm) as (e & He & Hme & _).
  rewrite Hme. apply Hf with j; congruence.
Qed.

Lemma place_ok k new l e :
  hosts_ok l → l !! k = Some e → valid e = 1 → (k < limit)%nat → fresh k new l →
  hosts_ok (<[k := set_mac new e]> l).
Proof using.
  intros Hok He Hv Hk Hf. assert (Hlen : (k < length l)%nat) by (by eapply lookup_lt_Some).
  assert (Hat : ∀ j a, <[k := set_mac new e]> l !! j = Some a → j = k ∧ a = set_mac new e ∨ j ≠ k ∧ l !! j = Some a).
  { intros j a. destruct (decide (j = k)) as [-> |Hj].
    - rewrite list_lookup_insert_eq by done. intros [= <-]. by left.
    - rewrite list_lookup_insert_ne by done. by right. }
  destruct e as [v ex uf m hn ip0 ct pt pb ac ot at0 oft iat od rx tx pl ng dm dn ed et src]. cbn [set_mac valid] in *.
  split; [by rewrite length_insert; apply Hok| |].
  - intros j a [[-> ->]|[Hj Ha]]%Hat Hm; [done|]. by apply (ho_valid l Hok j a).
  - intros i j a b [[-> ->]|[Hi Ha]]%Hat [[-> ->]|[Hj Hb]]%Hat Hm Heq; [done| | |by apply (ho_distinct l Hok i j a b)].
    + cbn [mac] in *. destruct (Hf j b Hj Hb); [|done]. intros Hb0. rewrite Hb0 in Heq. by apply Hm, casefold_nil.
    + by destruct (Hf i a Hi Ha Hm).
Qed.
(** ** Finding a place *)

Lemma case_eq_true s t : case_eq s t = true ↔ casefold s = casefold t.
Proof using. apply bool_decide_eq_true. Qed.

Lemma mac_loop_spec w new l i off latest empty fe r here :
  mac_loop w new l i off latest empty fe = (r, here) →
  match r with
  | Early k => ∃ e, (i ≤ k)%nat ∧ l !! (k - i)%nat = Some e ∧ casefold (mac e) = casefold new
  | Scanned found em la =>
      (found = false → ∀ j e, l !! j = Some e → valid e = 1 → casefold (mac e) ≠ casefold new) ∧
      (em = empty ∨ Z.of_nat i ≤ em < Z.of_nat (i + length l)) ∧ (la = latest ∨ Z.of_nat i ≤ la < Z.of_nat (i + length l))
  end.
Proof using.
  revert i off latest empty fe. induction l as [|e l IH]; intros i off latest empty fe; cbn [mac_loop].
  { intros [= <- _]. split; [done|]. auto. }
  assert (Hnext : ∀ off' latest' empty' fe', mac_loop w new l (S i) off' latest' empty' fe' = (r, here) →
    (valid e = 1 → casefold (mac e) ≠ casefold new) →
    (empty' = empty ∨ empty' = Z.of_nat i) → (latest' = latest ∨ latest' = Z.of_nat i) →
    match r with
    | Early k => ∃ e0, (i ≤ k)%nat ∧ (e :: l) !! (k - i)%nat = Some e0 ∧ casefold (mac e0) = casefold new
    | Scanned found em la =>
        (found = false → ∀ j e0, (e :: l) !! j = Some e0 → valid e0 = 1 → casefold (mac e0) ≠ casefold new) ∧
        (em = empty ∨ Z.of_nat i ≤ em < Z.of_nat (i + length (e :: l))) ∧
        (la = latest ∨ Z.of_nat i ≤ la < Z.of_nat (i + length (e :: l)))
    end).
  { intros off' latest' empty' fe' Hrun Hne Hem Hla. specialize (IH _ _ _ _ _ Hrun). destruct r as [k|found em la].
    - destruct IH as (e0 & Hk & He0 & Hc). exists e0. split; [lia|]. split; [|done]. by replace (k - i)%nat with (S (k - S i)) by lia.
    - destruct IH as (Hnf & H1 & H2). cbn [length]. split; [|split; [destruct H1|destruct H2]; lia].
      intros Hf [|j] e0 Hj; [injection Hj as <-; done|by apply (Hnf Hf j)]. }
  destruct (valid e =? 1) eqn:Hv.
  - destruct (case_eq (mac e) new) eqn:Hc.
    + apply case_eq_true in Hc. destruct (case_eq (ip e) [] && (port_bind e =? 0)); intros [= <- _].
      * exists e. split; [lia|]. by rewrite Nat.sub_diag.
      * split; [done|]. cbn [length]. split; [by left|]. destruct (replaceable w off i e); [right; lia|by left].
    + intros Hrun. apply (Hnext _ _ _ _ Hrun); [|by left|destruct (replaceable w off i e); auto].
      intros _ Heq. apply case_eq_true in Heq. congruence.
  - zify_bool. destruct fe; intros Hrun; apply (Hnext _ _ _ _ Hrun); try done; destruct (replaceable w off i e); auto.
Qed.

Lemma empty_loop_index w l i off latest n :
  (∀ k, latest = Some k → (k < n)%nat) → (i + length l ≤ n)%nat →
  ∀ k, empty_loop w l i off latest = inl (Some k) ∨ empty_loop w l i off latest = inr (Some k) → (k < n)%nat.
Proof using.
  revert i off latest. induction l as [|e l IH]; intros i off latest Hla Hlen k; cbn [empty_loop length] in *.
  { intros [[=]|[= ->]]. by apply Hla. }
  destruct (valid e =? 0); [intros [[= <-]|[=]]; lia|]. apply IH; [|lia]. destruct (replaceable w off i e); [intros ? [= <-]; lia|done].
Qed.

(** ** Adding a host *)

Lemma upd_run i f (s : lan W) : upd i f s = Ok (tt, with_entries (alter f i (lan_host_info s)) s).
Proof using. done. Qed.

(** The entry takes the address, and otherwise the function keeps it. *)
Lemma add_places k mac' ct p s r s' :
  add_lan_host (Some k) mac' ct p s = Ok (r, s') →
  touched k (lan_host_info s) (lan_host_info s') ∨
  ∃ l1 e, touched k (lan_host_info s) l1 ∧ l1 !! k = Some e ∧ valid e = 1 ∧
    touched k (<[k := set_mac (take DEV_MAC_ADDR_LEN (mac_rm_dot mac')) e]> l1) (lan_host_info s').
Proof using.
  cbn [add_lan_host]. intros (ip_ret & s1 & H1 & Hrun)%M_bind_inv. pose proof (entry_keeps k s _ s1 H1) as T1.
  apply M_bind_inv in Hrun as (e & s2 & H2 & Hrun). pose proof (keeps_the k k s1 _ s2 H2) as T2.
  destruct (streq (mac e) (mac_rm_dot mac') && _).
  { apply ok_state in Hrun as <-. left. by eapply touched_trans. }
  right. unfold the in H2. destruct (lan_host_info s1 !! k) as [e1|] eqn:He1; [|done].
  pose proof (ok_value _ _ _ _ H2) as <-. apply ok_state in H2 as <-.
  rewrite (M_bind_Ok _ _ _ _ _ (upd_run k (set_valid 1) s1)) in Hrun.
  apply M_bind_inv in Hrun as ([] & s3 & H3 & Hrun).
  assert (Hl3 : ∃ e3, lan_host_info s3 !! k = Some e3 ∧ valid e3 = 1 ∧ touched k (lan_host_info s) (lan_host_info s3)).
  { assert (Hv : lan_host_info (with_entries (alter (set_valid 1) k (lan_host_info s1)) s1) !! k = Some (set_valid 1 e1)).
    { cbn. by rewrite list_lookup_alter_eq, He1. }
    assert (T3 : touched k (lan_host_info s) (lan_host_info s3)).
    { eapply touched_trans; [exact T1|]. eapply touched_trans; [eapply (keeps_upd k (set_valid 1)); [same_host|apply upd_run]|].
      assert (K3 : keeps k (when (ct =? 0) (upd k (set_exist 1);; upd k (set_active 1)) : LM unit)) by keeps. by eapply K3. }
    revert H3. unfold when. destruct (ct =? 0).
    - rewrite (M_bind_Ok _ _ _ _ _ (upd_run _ _ _)), upd_run. intros Heq. apply ok_state in Heq. subst s3. cbn in *.
      rewrite !list_lookup_alter_eq, Hv in *. eexists. split; [done|]. split; [|done]. by destruct e1.
    - intros Heq. apply ok_state in Heq. subst s3. eexists. split; [exact Hv|]. split; [by destruct e1|done]. }
  destruct Hl3 as (e3 & He3 & Hv3 & T3). exists (lan_host_info s3), e3. do 3 (split; [done|]).
  rewrite (M_bind_Ok _ _ _ _ _ (upd_run k (set_mac _) s3)) in Hrun.
  assert (Hins : <[k := set_mac (take DEV_MAC_ADDR_LEN (mac_rm_dot mac')) e3]> (lan_host_info s3)
                 = lan_host_info (with_entries (alter (set_mac (take DEV_MAC_ADDR_LEN (mac_rm_dot mac'))) k (lan_host_info s3)) s3)).
  { cbn. apply list_eq. intros j. destruct (decide (j = k)) as [-> |Hj].
    - rewrite list_lookup_insert_eq by (by eapply lookup_lt_Some). by rewrite list_lookup_alter_eq, He3.
    - by rewrite list_lookup_insert_ne, list_lookup_alter_ne. }
  rewrite Hins. revert Hrun. match goal with |- ?m _ = _ → _ => assert (K : keeps k (m : LM Z)) by keeps; intros Hrun end. by eapply K.
Qed.

Lemma add_ok k mac' ct p s r s' :
  add_lan_host (Some k) mac' ct p s = Ok (r, s') → hosts_ok (lan_host_info s) → (k < limit)%nat →
  fresh k (mac_rm_dot mac') (lan_host_info s) → (length (mac_rm_dot mac') ≤ DEV_MAC_ADDR_LEN)%nat →
  hosts_ok (lan_host_info s').
Proof using.
  intros Hrun Hok Hk Hf Hlen. destruct (add_places k mac' ct p s r s' Hrun) as [T|(l1 & e & T1 & He & Hv & T2)].
  - by eapply touched_ok.
  - rewrite take_ge in T2 by done. eapply touched_ok; [exact T2|].
    apply place_ok; [by eapply touched_ok|done|done|done|by eapply fresh_touched].
Qed.
(** ** The functions that add hosts *)

Context (fixed_limit : ∀ w, lan_host_max_num w = Z.of_nat limit).

(** An address as the files and the events have it. *)
Definition mac_ok (m : cstr) : Prop := (length (mac_rm_dot m) ≤ DEV_MAC_ADDR_LEN)%nat.

Lemma check_mac_ok mac' empty s r k s' :
  check_mac_exist mac' empty s = Ok ((r, k), s') → hosts_ok (lan_host_info s) → -1 ≤ empty < Z.of_nat limit →
  hosts_ok (lan_host_info s') ∧ -1 ≤ k < Z.of_nat limit ∧
  (r = 0 → k ≠ -1 → fresh (Z.to_nat k) (mac_rm_dot mac') (lan_host_info s')).
Proof using fixed_limit.
  unfold check_mac_exist. intros (w & s1 & H1 & Hrun)%M_bind_inv. injection H1 as <- <-.
  rewrite fixed_limit, Nat2Z.id in Hrun. cbv zeta in Hrun.
  apply M_bind_inv in Hrun as (l & s2 & H2 & Hrun). injection H2 as <- <-. intros Hok Hem.
  destruct (mac_loop _ _ _ _ _ _ _ _) as [res here] eqn:Hloop. pose proof (mac_loop_spec _ _ _ _ _ _ _ _ _ _ Hloop) as Hspec.
  apply M_bind_inv in Hrun as (u & s3 & H3 & Hrun). pose proof (ok_value _ _ _ _ Hrun) as Hrk. apply ok_state in Hrun as <-.
  assert (Ht : ∃ j, touched j (lan_host_info s) (lan_host_info s3)).
  { destruct here as [j|]; [exists j|exists 0%nat; injection H3 as _ <-; apply touched_refl].
    assert (K : keeps j (upd j (λ e, if exist e =? 0 then set_exist 1 e else e) : LM unit)) by keeps. by eapply K. }
  destruct Ht as [j Ht]. split; [by eapply touched_ok|].
  assert (Hle : (length (take limit (lan_host_info s)) ≤ limit)%nat) by (rewrite length_take; lia).
  destruct res as [i|found em la].
  - injection Hrk as <- <-. destruct Hspec as (e & _ & He & Hc). rewrite Nat.sub_0_r in He.
    apply lookup_take_Some in He as [He Hi]. split; [lia|]. intros _ _. rewrite Nat2Z.id.
    eapply fresh_touched; [exact Ht|]. intros j' e' Hj He' Hm Heq. apply Hj. apply (ho_distinct _ Hok j' i e' e); congruence.
  - destruct Hspec as (Hnf & Hem' & Hla). split; [destruct (_ =? _); injection Hrk as _ ->; [destruct Hla|destruct Hem']; lia|].
    intros -> Hk. destruct found; [destruct (_ =? _); discriminate Hrk|]. eapply fresh_touched; [exact Ht|].
    intros j' e' Hj He' Hm. destruct (ho_valid _ Hok j' e' He' Hm) as [Hv Hlt].
    apply (Hnf eq_refl j' e'); [|done]. by apply lookup_take_Some.
Qed.

Lemma stb_ok lines empty : Forall (λ l, mac_ok l.2) lines → -1 ≤ empty < Z.of_nat limit → stays (stb_loop lines empty).
Proof using fixed_limit.
  intros Hall. revert empty. induction Hall as [|[p m] lines Hm _ IH]; intros empty Hem; cbn [stb_loop].
  { apply (keeps_stays 0%nat), keeps_ret. }
  intros s r s' ([q k] & s1 & Hck & Hrun)%M_bind_inv Hok.
  destruct (check_mac_ok m empty s q k s1 Hck Hok Hem) as (Hok1 & Hk & Hf).
  apply M_bind_inv in Hrun as (u & s2 & Hadd & Hrun). eapply IH; [|exact Hrun|]; [done|]. cbn [fst snd] in *.
  unfold when in Hadd. destruct ((q =? 0) && (1 <=? p) && (p <=? 4) && negb (k =? -1)) eqn:Hc; [|by injection Hadd as _ <-].
  zify_bool. apply M_bind_inv in Hadd as (r0 & s3 & Hrun3 & Hadd). injection Hadd as _ <-.
  eapply add_ok; [exact Hrun3|done|lia|by apply Hf|done].
Qed.

Lemma find_none new s :
  hosts_ok (lan_host_info s) → find_lan_host_entry_by_mac new s = Ok (None, s) → ∀ k, fresh k new (lan_host_info s).
Proof using.
  intros Hok Hf k j e _ He _ Heq. injection Hf as Hf. apply fmap_None, list_find_None in Hf. rewrite Forall_forall in Hf.
  apply (Hf e); [|by apply Is_true_true, case_eq_true]. apply list_elem_of_lookup. exists j.
  apply lookup_take_Some. split; [done|]. rewrite <- (ho_length _ Hok). by eapply lookup_lt_Some.
Qed.

Lemma find_by_mac_same new s r s' : find_lan_host_entry_by_mac new s = Ok (r, s') → s' = s.
Proof using. by intros [= _ <-]. Qed.

Lemma find_empty_index s k s' : find_empty_lan_host_entry s = Ok (Some k, s') → s' = s ∧ (k < limit)%nat.
Proof using fixed_limit.
  unfold find_empty_lan_host_entry. intros (w & s1 & Hw & Hrun)%M_bind_inv. injection Hw as <- <-.
  apply M_bind_inv in Hrun as (l & s2 & Hl & Hrun). injection Hl as <- <-. rewrite fixed_limit, Nat2Z.id in Hrun.
  cbv zeta in Hrun. pose proof (ok_value _ _ _ _ Hrun) as Hk. apply ok_state in Hrun as <-. split; [done|].
  apply (empty_loop_index (world s) (take limit (lan_host_info s)) 0 OFFLINE_TIME None limit); [done|rewrite length_take; lia|].
  destruct (empty_loop _ _ _ _ _) as [i|la]; [left; congruence|]. right. destruct (_ =? _); congruence.
Qed.

(** ** Events *)

Definition wifi_mac (data : cstr) : cstr := take 31 (nth 3 (tokens [59] data) []).

Lemma wifi_stays data : mac_ok (wifi_mac data) → stays (wifi_update_handler data).
Proof using fixed_limit.
  intros Hm. unfold wifi_update_handler. cbv zeta. fold (wifi_mac data). set (new := mac_rm_dot (wifi_mac data)).
  destruct (streq _ (cs "add")).
  - intros s r s' (p & s1 & Hp & Hrun)%M_bind_inv Hok. pose proof (find_by_mac_same new s p s1 Hp) as ->.
    assert (Hrest : ∀ p', stays (match p' with
        | Some i => e ← the i;
            when (negb (has (update_flag e) IP_FLAG) || case_eq (ip e) []) (upd i (set_exist WIFI_ONLINING));; mret 0
        | None => mret (-1) end : LM Z)).
    { intros [i|]; [apply (keeps_stays i)|apply (keeps_stays 0%nat)]; keeps. }
    apply M_bind_inv in Hrun as (p' & s2 & Hp' & Hrun). eapply Hrest; [exact Hrun|]. clear Hrun Hrest. destruct p as [i|].
    + revert Hok. eapply (keeps_stays i); [|exact Hp']. keeps.
    + pose proof (find_none new s Hok Hp) as Hfresh. apply M_bind_inv in Hp' as (q & s3 & Hq & Hp').
      apply M_bind_inv in Hp' as (r1 & s4 & Hadd & Hp'). injection Hp' as _ <-. destruct q as [k|].
      * destruct (find_empty_index s k s3 Hq) as [-> Hk]. eapply add_ok; [exact Hadd|done|done| |].
        -- unfold new. rewrite mac_rm_dot_twice. apply Hfresh.
        -- unfold new. rewrite mac_rm_dot_twice. exact Hm.
      * injection Hq as _ <-. by injection Hadd as _ <-.
  - destruct (streq _ (cs "del")); [|destruct (streq _ (cs "update")); [|by apply (keeps_stays 0%nat), keeps_ret]];
      intros s r s' (p & s1 & Hp & Hrun)%M_bind_inv Hok; rewrite (find_by_mac_same new s p s1 Hp) in Hrun;
      revert Hok; destruct p as [i|]; [eapply (keeps_stays i)|eapply (keeps_stays 0%nat)|eapply (keeps_stays i)|eapply (keeps_stays 0%nat)];
      try exact Hrun; keeps.
Qed.

Lemma arp_add_stays a b t : stays (arp_add_handler a b t).
Proof using.
  unfold arp_add_handler. intros s r s' (p & s1 & Hp & Hrun)%M_bind_inv Hok. rewrite (find_by_mac_same _ s p s1 Hp) in Hrun. revert Hok.
  destruct p as [i|]; [eapply (keeps_stays i)|eapply (keeps_stays 0%nat)]; try exact Hrun; keeps.
Qed.

Lemma dhcp_stays : stays dhcp_reinit_hander.
Proof using. apply stays_bind; [apply stays_each; intros i; apply (keeps_stays i); keeps|intros _; apply (keeps_stays 0%nat); keeps]. Qed.

Lemma put_port_keeps {A} i (l : list A) p a : keeps i (put_port l p a : M (lan W) (list A)).
Proof using. unfold put_port. keeps. Qed.

Lemma lan_up_stays p sp d : stays (lan_up_handler p sp d).
Proof using.
  unfold lan_up_handler. do 3 (apply stays_bind; [apply (keeps_stays 0%nat); first [apply put_port_keeps|keeps]|intros ?]).
  do 3 (apply stays_bind; [apply (keeps_stays 0%nat); keeps|intros ?]).
  do 3 (apply stays_bind; [apply (keeps_stays 0%nat); first [apply put_port_keeps|keeps]|intros ?]).
  apply stays_bind; [apply stays_each; intros i; apply (keeps_stays i); keeps|intros _; apply (keeps_stays 0%nat); keeps].
Qed.

Lemma lan_down_stays p : stays (lan_down_handler p).
Proof using.
  unfold lan_down_handler. do 3 (apply stays_bind; [apply (keeps_stays 0%nat); first [apply put_port_keeps|keeps]|intros ?]).
  apply stays_bind; [apply stays_each; intros i; apply (keeps_stays i); keeps|intros _; apply (keeps_stays 0%nat); keeps].
Qed.

Lemma alink_stays m a : stays (alink_bridge_dev_handler m a).
Proof using. apply stays_bind; [apply stays_each; intros i; apply (keeps_stays i); keeps|intros _; apply (keeps_stays 0%nat); keeps]. Qed.

(** The lines of the bridge's table have addresses. *)
Context (stations_ok : ∀ w lines, stb_list w = Some lines → Forall (λ l, mac_ok l.2) lines).

Lemma check_stays : stays check_lan_host_update.
Proof using fixed_limit stations_ok.
  unfold check_lan_host_update. apply stays_bind; [apply stays_each; intros i; apply (keeps_stays i); keeps|intros _].
  intros s r s' (lines & s1 & Hl & Hrun)%M_bind_inv Hok. injection Hl as <- <-.
  destruct (stb_list (world s)) as [lines|] eqn:Hl; [|by injection Hrun as _ <-].
  pose proof (stations_ok _ _ Hl) as Hall. revert Hok. eapply stays_bind; [| |exact Hrun].
  - apply stb_ok; [done|lia].
  - intros ?. cbv beta. apply stays_bind; [apply stays_each; intros i; apply (keeps_stays i); keeps|intros ?; apply (keeps_stays 0%nat); keeps].
Qed.

(** What happens to the manager: the world changes, the check runs, or an event
    is handled. *)
Inductive lan_step : lan W → lan W → Prop :=
| step_world w s : lan_step s (with_world w s)
| step_check s r s' : check_lan_host_update s = Ok (r, s') → lan_step s s'
| step_wifi data s r s' : mac_ok (wifi_mac data) → wifi_update_handler data s = Ok (r, s') → lan_step s s'
| step_dhcp s r s' : dhcp_reinit_hander s = Ok (r, s') → lan_step s s'
| step_up p sp d s r s' : lan_up_handler p sp d s = Ok (r, s') → lan_step s s'
| step_down p s r s' : lan_down_handler p s = Ok (r, s') → lan_step s s'
| step_alink m a s r s' : alink_bridge_dev_handler m a s = Ok (r, s') → lan_step s s'
| step_arp a b t s r s' : arp_add_handler a b t s = Ok (r, s') → lan_step s s'.

Lemma step_ok s s' : lan_step s s' → hosts_ok (lan_host_info s) → hosts_ok (lan_host_info s').
Proof using fixed_limit stations_ok.
  intros Hstep Hok. destruct Hstep; cbn [lan_host_info with_world];
    first [exact Hok | by eapply check_stays | by eapply dhcp_stays | by eapply lan_up_stays | by eapply lan_down_stays
          | by eapply alink_stays | by eapply arp_add_stays | by eapply wifi_stays].
Qed.
End table.
End LanProps.
