(* ===== verification/LanDemo.v ===== *)
(** * A small network

    An instance of [World] in which the theorems on the LAN host manager are
    applied: four places in the table, a configuration that is a list, and the
    files as they are at the moment. *)

From S2P Require Import Prelude CString Text LanEntry LanHost LanProps.
Open Scope Z_scope.

Module LanDemo.
Import Text LanEntry LanHost LanProps.

Record net := Net {
  d_nodes : list (cstr * cstr * cstr); d_leases : list lease; d_neighs : list neigh; d_stations : list (Z * cstr);
  d_uptime : Z; d_events : list event
}.

Definition PLACES : nat := 4.
Definition NODES : list cstr := (λ i, cs "LANHost2_Entry" ++ fmt_d i) <$> seqZ 0 4.

Definition stored (w : net) (node attr : cstr) : option cstr :=
  (λ p, p.2.2) <$> list_find (λ x : cstr * cstr * cstr, streq x.1.1 node && streq x.1.2 attr) (d_nodes w).

(** The number of hosts is that of the nodes with an address. *)
Definition lookup (node attr : cstr) (w : net) : option cstr :=
  if streq attr (cs "LANHostMaxNumber") then Some (cs "4")
  else if streq attr (cs "LANHostNumber") then
    Some (fmt_d (zlen (filter (λ n, is_Some (stored w n (cs "MAC"))) NODES)))
  else stored w node attr.

Definition store (x : list (cstr * cstr * cstr)) (w : net) : net :=
  Net x (d_leases w) (d_neighs w) (d_stations w) (d_uptime w) (d_events w).

(** A converter for ASCII and one character: the bytes B5 E7 of GB2312 are
    E7 94 B5 in UTF-8 (dian, electric). *)
Fixpoint to_utf8 (text : cstr) : option cstr :=
  match text with
  | [] => Some []
  | 181 :: 231 :: text' => app [231; 148; 181] <$> to_utf8 text'
  | c :: text' => if c <? 128 then cons c <$> to_utf8 text' else None
  end.
Fixpoint to_gb2312 (text : cstr) : option cstr :=
  match text with
  | [] => Some []
  | 231 :: 148 :: 181 :: text' => app [181; 231] <$> to_gb2312 text'
  | c :: text' => if c <? 128 then cons c <$> to_gb2312 text' else None
  end.
Definition convert (utf8 : bool) (text : cstr) (room : nat) : option (list Z * nat) :=
  out ← (if utf8 then to_utf8 text else to_gb2312 text);
  if (length out <=? room)%nat then Some (out, 0%nat) else None.

#[export] Instance net_world : World net := {
  MAX_LAN_HOST_NUM := PLACES;
  tcapi_get := lookup;
  tcapi_set node attr v w := store ((node, attr, v) :: d_nodes w) w;
  tcapi_unset node w := store (filter (λ x : cstr * cstr * cstr, ¬ streq x.1.1 node) (d_nodes w)) w;
  tcapi_commit _ w := w;
  tcapi_save_raw w := w;
  ecnt_event_send e w := Net (d_nodes w) (d_leases w) (d_neighs w) (d_stations w) (d_uptime w) (e :: d_events w);
  leases w := Some (d_leases w);
  neighs w := Some (d_neighs w);
  stb_list w := Some (filter (λ l, mac_ok l.2) (d_stations w));
  eth_port_status _ := [1; 1; 0; 0];
  uptime := d_uptime;
  monotonic := d_uptime;
  now _ := cs "2024-01-01 10:00:00";
  time_after t _ _ := t;
  traffic _ _ := (0, 0);
  wifi_exsit_check _ _ := false;
  gsw_rate _ _ := Some (cs "1000M");
  gsw_duplex _ _ := Some (cs "Full");
  set_ipv6_from_dhcp_arp _ _ w := w;
  iconv_open_new to from := if streq to (cs "utf-8") && streq from (cs "gb2312") then Some 1 else if streq to (cs "gb2312") && streq from (cs "utf-8") then Some 2 else None;
  iconv_new cd text room := convert (cd =? 1) text room
}.

Lemma limit_fixed (w : net) : lan_host_max_num w = Z.of_nat PLACES.
Proof. reflexivity. Qed.

Lemma demo_stations (w : net) lines : stb_list w = Some lines → Forall (λ l, mac_ok l.2) lines.
Proof. intros [= <-]. apply Forall_forall. by intros l [? _]%list_elem_of_filter. Qed.

(** After the start, with an empty table. *)
Definition empty_net : net := Net [] [] [] [] 100 [].
Definition boot (w : net) : lan net := {|
  lan_host_info := replicate PLACES zero_entry; check_flag := replicate PLACES 10; lan_port_status := [1; 1; 0; 0];
  lan_port_rate := [0; 0; 0; 0]; lan_port_duplex := replicate 4 []; save_flag := 0; gLastGetTime := None; world := w |}.

Lemma boot_ok w : hosts_ok PLACES (lan_host_info (boot w)).
Proof.
  split; [done| |].
  - intros i e He Hm. apply lookup_replicate in He as [-> _]. done.
  - intros i j a b Ha _ Hm. apply lookup_replicate in Ha as [-> _]. done.
Qed.
End LanDemo.
