(* ===== verification/LanRun.v ===== *)
(** * Places in the LAN host table, and what goes wrong with them

    Which host gives up its place when the table is full; two runs in which
    the table does not follow the network. *)

From stdpp Require Import relations.
From S2P Require Import Prelude CString Text LanEntry LanHost LanProps LanDemo.
Open Scope Z_scope.

Module LanRun.
Import Text LanEntry LanHost LanProps LanDemo.

Section run.
Context {W : Type} `{World W}.
Abbreviation LM := (M (lan W)).

(** ** The oldest host *)

(** The host both scans end with. *)
Fixpoint oldest (w : W) (l : list lan_host_entry) (i : nat) (off : Z) (latest : option nat) : option nat :=
  match l with
  | [] => latest
  | e :: l' =>
      let old := replaceable w off i e in
      oldest w l' (S i) (if old then offline_time e else off) (if old then Some i else latest)
  end.

Lemma replaceable_bound w off off' i e :
  replaceable w off i e = true → replaceable w off' i e = (offline_time e <? off').
Proof using. unfold replaceable. intros [[[-> ->]%andb_true_iff Ho]%andb_true_iff ->]%andb_true_iff. by rewrite andb_true_r. Qed.

Lemma oldest_spec w l i off latest :
  (oldest w l i off latest = latest ∧ ∀ j e, l !! j = Some e → replaceable w off (i + j) e = false) ∨
  ∃ k e, oldest w l i off latest = Some (i + k)%nat ∧ l !! k = Some e ∧ replaceable w off (i + k) e = true ∧
    ∀ j e', l !! j = Some e' → replaceable w off (i + j) e' = true → offline_time e ≤ offline_time e'.
Proof using.
  revert i off latest. induction l as [|e l IH]; intros i off latest; cbn [oldest]; [by left|].
  destruct (replaceable w off i e) eqn:Hold.
  - assert (Hoff : offline_time e < off).
    { unfold replaceable in Hold. zify_bool. lia. }
    right. destruct (IH (S i) (offline_time e) (Some i)) as [[-> Hno]|(k & e0 & -> & Hk & Hr & Hmin)].
    + exists 0%nat, e. rewrite Nat.add_0_r. do 3 (split; [done|]). intros [|j] e' Hj Hre'; [by injection Hj as <-|].
      pose proof (Hno j e' Hj) as Hne. rewrite <- Nat.add_succ_comm in Hre'. rewrite (replaceable_bound _ _ _ _ _ Hre') in Hne. by zify_bool.
    + pose proof Hr as Hlt. rewrite Nat.add_succ_comm in *. exists (S k), e0. split; [done|]. split; [done|].
      assert (Hlt' : offline_time e0 < offline_time e) by (unfold replaceable in Hlt; zify_bool; lia).
      rewrite (replaceable_bound _ _ _ _ _ Hr). split; [apply Z.ltb_lt; lia|].
      intros [|j] e' Hj Hre'; [injection Hj as <-; lia|]. destruct (Z.le_gt_cases (offline_time e) (offline_time e')); [lia|].
      apply (Hmin j e' Hj). rewrite Nat.add_succ_comm, (replaceable_bound _ _ _ _ _ Hre'). by apply Z.ltb_lt.
  - destruct (IH (S i) off latest) as [[-> Hno]|(k & e0 & -> & Hk & Hr & Hmin)].
    + left. split; [done|]. intros [|j] e' Hj; [injection Hj as <-; by rewrite Nat.add_0_r|]. rewrite <- Nat.add_succ_comm. by apply Hno.
    + right. exists (S k), e0. rewrite Nat.add_succ_comm in *. do 3 (split; [done|]). intros [|j] e' Hj Hre'.
      * injection Hj as <-. rewrite Nat.add_0_r in Hre'. congruence.
      * apply (Hmin j e' Hj). by rewrite Nat.add_succ_comm.
Qed.

(** Both scans, over entries that are valid and belong to others. *)
Lemma mac_loop_oldest w new l i off latest empty fe :
  (∀ j e, l !! j = Some e → valid e = 1 ∧ casefold (mac e) ≠ casefold new) →
  mac_loop w new l i off (from_option Z.of_nat (-1) latest) empty fe
  = (Scanned false empty (from_option Z.of_nat (-1) (oldest w l i off latest)), None).
Proof using.
  revert i off latest. induction l as [|e l IH]; intros i off latest Hall; cbn [mac_loop oldest]; [done|].
  destruct (Hall 0%nat e eq_refl) as [Hv Hm]. rewrite Hv. cbn [Z.eqb Pos.eqb].
  destruct (case_eq (mac e) new) eqn:Hc; [by apply case_eq_true in Hc|].
  rewrite <- IH by (intros j e' Hj; exact (Hall (S j) e' Hj)). by destruct (replaceable w off i e).
Qed.

Lemma empty_loop_oldest w l i off latest :
  (∀ j e, l !! j = Some e → valid e = 1) → empty_loop w l i off latest = inr (oldest w l i off latest).
Proof using.
  revert i off latest. induction l as [|e l IH]; intros i off latest Hall; cbn [empty_loop oldest]; [done|].
  rewrite (Hall 0%nat e eq_refl). cbn [Z.eqb]. apply IH. intros j e' Hj. exact (Hall (S j) e' Hj).
Qed.

(** ** What a function makes of an entry *)

(** The function returns, whatever the rest of the state; the entry at [k] was
    [e] and is then one with [Q]. *)
Definition ewp {A} (k : nat) (m : LM A) (e : lan_host_entry) (Q : A → lan_host_entry → Prop) : Prop :=
  ∀ s, lan_host_info s !! k = Some e → ∃ a s' e', m s = Ok (a, s') ∧ lan_host_info s' !! k = Some e' ∧ Q a e'.

Lemma ewp_bind {A B} k (m : LM A) (f : A → LM B) e (Q : B → lan_host_entry → Prop) : ewp k m e (λ a e', ewp k (f a) e' Q) → ewp k (mbind f m) e Q.
Proof using.
  intros Hm s He. destruct (Hm s He) as (a & s1 & e1 & H1 & He1 & Hf). destruct (Hf s1 He1) as (b & s2 & e2 & H2 & He2 & HQ).
  exists b, s2, e2. by rewrite (M_bind_Ok _ _ s a s1).
Qed.

Lemma ewp_ret {A} k (a : A) e (Q : A → lan_host_entry → Prop) : Q a e → ewp k (mret a) e Q.
Proof using. intros HQ s He. by exists a, s, e. Qed.

Lemma ewp_upd k f e (Q : unit → lan_host_entry → Prop) : Q tt (f e) → ewp k (upd k f) e Q.
Proof using. intros HQ s He. exists tt, (with_entries (alter f k (lan_host_info s)) s), (f e). split; [done|]. split; [|done]. cbn. by rewrite list_lookup_alter_eq, He. Qed.

Lemma ewp_the k e (Q : lan_host_entry → lan_host_entry → Prop) : Q e e → ewp k (the k) e Q.
Proof using. intros HQ s He. exists e, s, e. unfold the. by rewrite He. Qed.

Lemma ewp_gets {A} k (f : lan W → A) e (Q : A → lan_host_entry → Prop) : (∀ a, Q a e) → ewp k (gets f) e Q.
Proof using. intros HQ s He. by exists (f s), s, e. Qed.

Lemma ewp_modify k (g : lan W → lan W) e (Q : unit → lan_host_entry → Prop) :
  (∀ s, lan_host_info (g s) = lan_host_info s) → Q tt e → ewp k (modify g) e Q.
Proof using. intros Hg HQ s He. exists tt, (g s), e. by rewrite Hg. Qed.

Lemma ewp_when k (b : bool) (m : LM unit) e (Q : unit → lan_host_entry → Prop) : (if b then ewp k m e Q else Q tt e) → ewp k (when b m) e Q.
Proof using. destruct b; [done|]. apply ewp_ret. Qed.

(** Functions that leave the entry as it is. *)
Definition quiet {A} (k : nat) (m : LM A) : Prop := ∀ e, ewp k m e (λ _ e', e' = e).

Lemma ewp_quiet {A B} k (m : LM A) (f : A → LM B) e (Q : B → lan_host_entry → Prop) : quiet k m → (∀ a, ewp k (f a) e Q) → ewp k (mbind f m) e Q.
Proof using. intros Hm Hf. apply ewp_bind. intros s He. destruct (Hm e s He) as (a & s1 & e1 & H1 & He1 & ->). exists a, s1, e. split; [done|]. split; [done|apply Hf]. Qed.

Lemma quiet_bind {A B} k (m : LM A) (f : A → LM B) : quiet k m → (∀ a, quiet k (f a)) → quiet k (mbind f m).
Proof using. intros Hm Hf e. apply ewp_quiet; [done|]. intros a. apply Hf. Qed.

Lemma quiet_ret {A} k (a : A) : quiet k (mret a : LM A).
Proof using. intros e. by apply ewp_ret. Qed.

Lemma quiet_the k : quiet k (the k : LM lan_host_entry).
Proof using. intros e. by apply ewp_the. Qed.

Lemma quiet_gets {A} k (f : lan W → A) : quiet k (gets f).
Proof using. intros e. by apply ewp_gets. Qed.

Lemma quiet_modify k (g : lan W → lan W) : (∀ s, lan_host_info (g s) = lan_host_info s) → quiet k (modify g).
Proof using. intros Hg e. by apply ewp_modify. Qed.

Lemma quiet_when k b (m : LM unit) : quiet k m → quiet k (when b m).
Proof using. destruct b; [done|]. intros _. apply quiet_ret. Qed.
End run.

(** Goes through a function. *)
Ltac quiet :=
  repeat first
  [ apply quiet_ret | apply quiet_the | apply quiet_gets | apply quiet_modify; reflexivity | apply quiet_when
  | apply quiet_bind; [|intros ?] | progress cbv zeta
  | match goal with |- quiet _ (if ?b then _ else _) => destruct b end ].

Section entries.
Context {W : Type} `{World W}.

(** Making the node of an entry leaves the entry as it is, its name not being
    written. *)
Lemma sync_new k f :
  has f SYNC_NEW_ENTRY = true → has f SYNC_UPDATE_HOSTNAME = false → quiet (W := W) k (sync_lan_host_info k f).
Proof using.
  intros Hnew Hname. unfold sync_lan_host_info, set_node, update_event, tell, ask. rewrite Hnew, Hname. cbn [negb andb when].
  quiet.
Qed.

(** *** Names of hosts *)

(** What is written to the configuration for a name. *)
Definition stored_name (name : cstr) : res cstr :=
  let conv := charsetconv (cs "gb2312") (cs "utf-8") name HOSTNAME_LEN in
  if conv.1 =? 0 then string_of HOSTNAME_LEN conv.2 else mret (cs "unknown").

(** The name a host has after its lease was found: the name in the
    configuration when there is one, and otherwise the name in the lease. *)
Definition leased_name (w : W) (k : nat) (l : lease) (e : lan_host_entry) : cstr :=
  let stored := default [] (tcapi_get (node_name k) (cs "HostName") w) in
  if streq stored [] then take HOSTNAME_LEN (l_host_name l)
  else
    let conv := charsetconv (cs "utf-8") (cs "gb2312") stored 128 in
    if conv.1 =? 0 then take HOSTNAME_LEN (str_of conv.2) else host_name e.

Definition LEASE_FLAGS : Z := flags [SYNC_UPDATE_IP; SYNC_UPDATE_HOSTNAME].

(** The world after the address and the name of an entry were written. *)
Definition written (k : nat) (v : cstr) (w' : W) : Prop :=
  ∃ ev w, w' = ecnt_event_send ev (tcapi_set (node_name k) (cs "HostName") v w).

Lemma sync_names k e (s : lan W) :
  lan_host_info s !! k = Some e → is_Some (tcapi_get (node_name k) (cs "MAC") (world s)) →
  match stored_name (host_name e) with
  | Ok v => ∃ s', sync_lan_host_info k LEASE_FLAGS s = Ok (0, s') ∧ lan_host_info s' = lan_host_info s ∧ written k v (world s')
  | _ => sync_lan_host_info k LEASE_FLAGS s = Fault
  end.
Proof using.
  intros He [m Hm]. set (s1 := with_save 1 s). unfold sync_lan_host_info.
  change (has LEASE_FLAGS (flags [SYNC_NEW_ENTRY; SYNC_DEL_ENTRY; SYNC_UPDATE_STATE; SYNC_UPDATE_MAC; SYNC_UPDATE_HOSTNAME;
    SYNC_UPDATE_ACTIVE_TIME; SYNC_UPDATE_INACTIVE_TIME; SYNC_UPDATE_PORT])) with true.
  change (LEASE_FLAGS =? 0) with false. change (has LEASE_FLAGS SYNC_DEL_ENTRY) with false. cbn [when].
  rewrite (M_bind_Ok _ _ s tt s1), (M_bind_Ok _ _ s1 (Some m) s1) by (done || (rewrite <- Hm; done)).
  rewrite andb_false_r, (M_bind_Ok _ _ s1 e s1) by (unfold the; cbn; by rewrite He).
  repeat match goal with |- context [has LEASE_FLAGS ?f] => let b := eval vm_compute in (has LEASE_FLAGS f) in change (has LEASE_FLAGS f) with b end.
  cbn [when]. rewrite (M_bind_Ok _ _ s1 tt s1) by done. rewrite (M_bind_Ok _ _ s1 tt s1) by done.
  assert (Hset : ∀ a c (s2 : lan W), set_node k a c s2 = Ok (tt, with_world (tcapi_set (node_name k) a c (world s2)) s2)) by done.
  assert (Hip : ∃ s2, ((if negb (port_bind e =? 0) then set_node k (cs "IP") [] else set_node k (cs "IP") (ip e));;
      if AddressSrc e =? 1 then
        set_node k (cs "AddressSrc") (cs "DHCP");; set_node k (cs "ExpireDay") (expireDay e);; set_node k (cs "ExpireTime") (expireTime e)
      else
        set_node k (cs "AddressSrc") (cs "Static");; set_node k (cs "ExpireDay") (cs "0");; set_node k (cs "ExpireTime") (cs "0")) s1
      = Ok (tt, s2) ∧ lan_host_info s2 = lan_host_info s).
  { destruct (negb _), (AddressSrc e =? 1); repeat erewrite M_bind_Ok by apply Hset; eexists; (split; [apply Hset|done]). }
  destruct Hip as (s2 & Hip & Hi2). rewrite (M_bind_Ok _ _ _ _ _ Hip).
  do 3 rewrite (M_bind_Ok _ _ s2 tt s2) by done.
  unfold stored_name, string_of. set (conv := charsetconv _ _ _ _). cbv zeta.
  assert (Hend : ∀ v, let s3 := with_world (tcapi_set (node_name k) (cs "HostName") v (world s2)) s2 in
    ∃ s', (update_event (cs "update;") k;; mret 0) s3 = Ok (0, s') ∧ lan_host_info s' = lan_host_info s ∧ written k v (world s')).
  { intros v s3. eexists. split; [reflexivity|]. split; [exact Hi2|]. do 2 eexists. reflexivity. }
  destruct (conv.1 =? 0); [destruct (length (str_of conv.2) <? HOSTNAME_LEN)%nat; [|done]|]; cbn [mret res_ret];
    match goal with |- ∃ s', _ ∧ _ ∧ written k ?v _ => destruct (Hend v) as (s' & Hs' & Hrest) end;
    exists s'; (split; [|exact Hrest]); rewrite <- Hs'; reflexivity.
Qed.

(** The time of the lease does not touch the address. *)
Definition same_address (e e' : lan_host_entry) : Prop :=
  mac e' = mac e ∧ ip e' = ip e ∧ host_name e' = host_name e.

Lemma expire_run k t e (s : lan W) :
  lan_host_info s !! k = Some e →
  ∃ s' e', check_expire_time k t s = Ok (tt, s') ∧ lan_host_info s' !! k = Some e' ∧ same_address e e' ∧ world s' = world s.
Proof using.
  intros He. assert (Hset : ∀ t' cur (s1 : lan W), lan_host_info s1 !! k = Some e →
    ∃ s' e', set_expire k t' cur s1 = Ok (tt, s') ∧ lan_host_info s' !! k = Some e' ∧ same_address e e' ∧ world s' = world s1).
  { intros t' cur s1 He1. unfold set_expire. cbv zeta. rewrite (M_bind_Ok _ _ _ _ _ (upd_run _ _ _)), upd_run. do 2 eexists. split; [done|].
    cbn [lan_host_info with_entries world]. rewrite !list_lookup_alter_eq, He1. split; [done|]. split; [by destruct e|done]. }
  unfold check_expire_time. rewrite (M_bind_Ok _ _ s (gLastGetTime s) s), (M_bind_Ok _ _ s (monotonic (world s)) s) by done.
  assert (Hgo : ∃ s' e', (modify (with_get_time (Some (monotonic (world s))));; set_expire k t (monotonic (world s))) s = Ok (tt, s') ∧
    lan_host_info s' !! k = Some e' ∧ same_address e e' ∧ world s' = world s).
  { rewrite (M_bind_Ok _ _ s tt (with_get_time (Some (monotonic (world s))) s)) by done. exact (Hset _ _ (with_get_time _ s) He). }
  destruct (gLastGetTime s) as [last|]; [|done]. destruct (_ <? 3); [|done]. by exists s, e.
Qed.

(** *** Addresses from the files *)

(** The lease of a host is found, and read: the host has no name yet, or the
    lease gives it another address. *)
Record leased (s : lan W) (k : nat) (e : lan_host_entry) (l : lease) : Prop := {
  leased_entry : lan_host_info s !! k = Some e;
  leased_node : is_Some (tcapi_get (node_name k) (cs "MAC") (world s));
  leased_line : ∃ lines n, leases (world s) = Some lines ∧
    list_find (λ l, case_eq (l_mac l) (mac_add_dot (mac e))) lines = Some (n, l);
  leased_flag : negb (has (update_flag e) HOST_NAME_FLAG) || negb (case_eq (ip e) (l_ip l)) = true
}.

Lemma dhcp_leased k e l v (s : lan W) :
  leased s k e l → stored_name (leased_name (world s) k l e) = Ok v →
  ∃ s' e', set_ip_from_dhcp k s = Ok (1, s') ∧ lan_host_info s' !! k = Some e' ∧ written k v (world s') ∧
    mac e' = mac e ∧ ip e' = take IP_ADDR_LEN (l_ip l) ∧ host_name e' = leased_name (world s) k l e.
Proof using.
  intros [He Hn (lines & n & Hl & Hf) Hflag] Hv. set (name := leased_name (world s) k l e) in *.
  unfold set_ip_from_dhcp. rewrite (M_bind_Ok _ _ s e s) by (unfold the; by rewrite He). cbv zeta.
  rewrite (M_bind_Ok _ _ s (Some lines) s) by (by rewrite <- Hl). rewrite Hf, Hflag. cbn [when].
  set (stored := default [] (tcapi_get (node_name k) (cs "HostName") (world s))).
  assert (Hname : ∃ s1, (if negb (streq stored []) then
        when ((charsetconv (cs "utf-8") (cs "gb2312") stored 128).1 =? 0)
          (upd k (set_host_name (take HOSTNAME_LEN (str_of (charsetconv (cs "utf-8") (cs "gb2312") stored 128).2))))
      else upd k (set_host_name (take HOSTNAME_LEN (l_host_name l)))) s = Ok (tt, s1) ∧
      lan_host_info s1 !! k = Some (set_host_name name e) ∧ world s1 = world s).
  { unfold name, leased_name. fold stored. destruct (streq stored []); cbn [negb].
    - rewrite upd_run. eexists. split; [done|]. cbn. by rewrite list_lookup_alter_eq, He.
    - cbv zeta. destruct (_ =? 0); cbn [when]; [rewrite upd_run|]; eexists; (split; [done|]); cbn; [by rewrite list_lookup_alter_eq, He|].
      rewrite He. by destruct e. }
  destruct Hname as (s1 & H1 & He1 & Hw1).
  set (s2 := with_entries (alter (set_ip (take IP_ADDR_LEN (l_ip l))) k (lan_host_info s1)) s1).
  set (s3 := with_entries (alter (λ e, set_update_flag (Z.lor (update_flag e) (flags [HOST_NAME_FLAG; IP_FLAG])) e) k (lan_host_info s2)) s2).
  destruct (expire_run k (l_time l) (set_update_flag (Z.lor (update_flag e) (flags [HOST_NAME_FLAG; IP_FLAG]))
    (set_ip (take IP_ADDR_LEN (l_ip l)) (set_host_name name e))) s3) as (s4 & e4 & H4 & He4 & (A1 & A2 & A3) & Hw4).
  { cbn. rewrite !list_lookup_alter_eq, He1. cbn. by destruct e. }
  set (s5 := with_entries (alter (set_AddressSrc 1) k (lan_host_info s4)) s4).
  pose proof (sync_names k (set_AddressSrc 1 e4) s5) as Hsync.
  replace (host_name (set_AddressSrc 1 e4)) with name in Hsync by (destruct e, e4; exact (eq_sym A3)). rewrite Hv in Hsync.
  destruct Hsync as (s6 & H6 & Hi6 & Hw6).
  { cbn. by rewrite list_lookup_alter_eq, He4. }
  { cbn. rewrite Hw4. cbn. by rewrite Hw1. }
  exists s6, (set_AddressSrc 1 e4). split.
  2:{ rewrite Hi6. cbn. rewrite list_lookup_alter_eq, He4. destruct e, e4; cbn in *; auto. }
  erewrite M_bind_Ok; [done|]. rewrite (M_bind_Ok _ _ s stored s) by done. rewrite (M_bind_Ok _ _ s tt s1) by exact H1. rewrite (M_bind_Ok _ _ s1 tt s2), (M_bind_Ok _ _ s2 tt s3) by done.
  rewrite (M_bind_Ok _ _ _ _ _ H4), (M_bind_Ok _ _ s4 tt s5) by done. by rewrite (M_bind_Ok _ _ _ _ _ H6).
Qed.

Lemma entry_leased k e l v (s : lan W) :
  leased s k e l → stored_name (leased_name (world s) k l e) = Ok v →
  ∃ s' e', set_lan_host_entry k s = Ok (0, s') ∧ lan_host_info s' !! k = Some e' ∧
    mac e' = mac e ∧ ip e' = take IP_ADDR_LEN (l_ip l) ∧ host_name e' = leased_name (world s) k l e.
Proof using.
  intros Hl Hv. destruct (dhcp_leased k e l v s Hl Hv) as (s1 & e1 & Hr & He1 & _ & Hrest). exists s1, e1.
  split; [|done]. unfold set_lan_host_entry. by rewrite (M_bind_Ok _ _ _ _ _ Hr).
Qed.

(** No line of the files is about this address. *)
Definition unknown (m : cstr) (w : W) : Prop :=
  (∀ ls, leases w = Some ls → Forall (λ l, casefold (l_mac l) ≠ casefold (mac_add_dot m)) ls) ∧
  (∀ ls, neighs w = Some ls → Forall (λ l, casefold (n_hw_addr l) ≠ casefold (mac_add_dot m)) ls).

Lemma list_find_no {A} (f : A → bool) ls : Forall (λ x, f x = false) ls → list_find f ls = None.
Proof using. intros Hall. apply list_find_None. eapply Forall_impl; [exact Hall|]. intros x Hx Ht. by rewrite Hx in Ht. Qed.

Lemma case_eq_no a b : casefold a ≠ casefold b → case_eq a b = false.
Proof using. intros Hne. apply not_true_is_false. by rewrite case_eq_true. Qed.

Lemma entry_unknown k e (s : lan W) :
  lan_host_info s !! k = Some e → update_flag e = 0 → unknown (mac e) (world s) → set_lan_host_entry k s = Ok (-1, s).
Proof using.
  intros He Hflag [Hl Hn]. assert (Hthe : the k s = Ok (e, s)) by (unfold the; by rewrite He).
  assert (Hd : set_ip_from_dhcp k s = Ok (if leases (world s) is Some _ then 0 else -1, s)).
  { unfold set_ip_from_dhcp. rewrite (M_bind_Ok _ _ _ _ _ Hthe). cbv zeta.
    rewrite (M_bind_Ok _ _ s (leases (world s)) s) by done. destruct (leases (world s)) as [ls|]; [|done].
    rewrite list_find_no; [done|]. eapply Forall_impl; [by apply Hl|]. intros l. apply case_eq_no. }
  unfold set_lan_host_entry. rewrite (M_bind_Ok _ _ _ _ _ Hd). assert (Ha : set_ip_from_arp k s = Ok (0, s)).
  { unfold set_ip_from_arp. rewrite (M_bind_Ok _ _ _ _ _ Hthe), Hflag. change (has 0 IP_FLAG) with false. cbn [andb]. cbv zeta.
    rewrite (M_bind_Ok _ _ s (neighs (world s)) s) by done. destruct (neighs (world s)) as [ls|]; [|done].
    rewrite list_find_no; [done|]. eapply Forall_impl; [by apply Hn|]. intros l ?. rewrite (case_eq_no _ _ H0). by rewrite andb_false_r. }
  destruct (leases (world s)); cbn [Z.eqb]; by rewrite (M_bind_Ok _ _ _ _ _ Ha).
Qed.

(** *** A Wi-Fi host in a place *)

(** What [add_lan_host] does after the addresses, for a Wi-Fi host. *)
Definition place_wifi (k : nat) (m : cstr) (p ip_ret : Z) (e e' : lan_host_entry) : Prop :=
  mac e' = take DEV_MAC_ADDR_LEN (mac_rm_dot m) ∧ ip e' = ip e ∧ host_name e' = host_name e ∧ valid e' = 1 ∧ conn_type e' = 1 ∧
  active e' = (if ip_ret =? 0 then 1 else active e) ∧ offline_time e' = offline_time e.

Ltac ewp_place :=
  repeat first
  [ apply ewp_bind, ewp_upd | apply ewp_bind, ewp_ret; cbv beta iota | apply ewp_ret | apply ewp_bind, ewp_bind, ewp_upd; apply ewp_upd
  | apply ewp_quiet; [apply sync_new; vm_compute; reflexivity|intros ?]
  | apply ewp_quiet; [unfold ask, update_event, tell; quiet|intros ?] ].

Lemma add_wifi k m p ip_ret e (s s1 : lan W) :
  set_lan_host_entry k s = Ok (ip_ret, s1) → lan_host_info s1 !! k = Some e → mac e ≠ mac_rm_dot m ∨ ip_ret = 0 →
  ∃ s' e', add_lan_host (Some k) m 1 p s = Ok (0, s') ∧ lan_host_info s' !! k = Some e' ∧ place_wifi k m p ip_ret e e'.
Proof using.
  intros Hset He Hne. cbn [add_lan_host]. rewrite (M_bind_Ok _ _ _ _ _ Hset).
  assert (Hwp : ∀ m' : M (lan W) Z, ewp k m' e (λ r e', r = 0 ∧ place_wifi k m p ip_ret e e') →
    ∃ s' e', m' s1 = Ok (0, s') ∧ lan_host_info s' !! k = Some e' ∧ place_wifi k m p ip_ret e e').
  { intros m' Hm'. destruct (Hm' s1 He) as (r & s' & e' & Hr & He' & -> & HQ). by exists s', e'. }
  apply Hwp. clear Hwp. apply ewp_bind, ewp_the.
  destruct (streq (mac e) (mac_rm_dot m) && negb (ip_ret =? 0)) eqn:Hc.
  { apply andb_true_iff in Hc as [Hs%streq_eq Hr]. destruct Hne as [?| ->]; [congruence|done]. }
  change (u8 1 =? 0) with false. change (1 =? 0) with false. cbv iota zeta. unfold place_wifi.
  destruct (port e =? p), (ip_ret =? 0); cbn [negb orb when]; ewp_place; by destruct e.
Qed.

Lemma sync_del k : quiet (W := W) k (sync_lan_host_info k SYNC_DEL_ENTRY).
Proof using. unfold sync_lan_host_info, tell. change (has SYNC_DEL_ENTRY SYNC_DEL_ENTRY) with true. change (SYNC_DEL_ENTRY =? 0) with false. quiet. Qed.

Lemma del_wp k e : ewp (W := W) k (del_lan_host k) e (λ _ e', e' = zero_entry).
Proof using.
  unfold del_lan_host, update_event, tell. apply ewp_bind, ewp_upd, ewp_quiet; [apply sync_del|intros ?]. apply ewp_quiet; [quiet|intros ?]. by apply ewp_ret.
Qed.

(** Nothing happens to an offline Wi-Fi host at the check, until it is deleted. *)
Lemma check_old_wifi port' k e c (s : lan W) :
  lan_host_info s !! k = Some e → check_flag s !! k = Some c →
  valid e = 1 → active e = 0 → conn_type e = 1 → OFFLINE_TIME < u32 (uptime (world s) - offline_time e) →
  ∃ s', check_entry port' k s = Ok (tt, s') ∧ lan_host_info s' !! k = Some zero_entry.
Proof using.
  intros He Hc Hv Ha Hct Hup. assert (Hthe : ∀ s1 : lan W, lan_host_info s1 = lan_host_info s → the k s1 = Ok (e, s1)).
  { intros s1 Heq. unfold the. by rewrite Heq, He. }
  assert (Hcount : ∃ s1, when (0 <? c) (recheck port' k) s = Ok (tt, s1) ∧ lan_host_info s1 = lan_host_info s ∧ world s1 = world s).
  { unfold when, recheck. destruct (0 <? c); [|by exists s]. rewrite (M_bind_Ok _ _ _ _ _ (Hthe s eq_refl)), Hv, Hct. cbn [Z.eqb Pos.eqb andb when].
    rewrite (M_bind_Ok _ _ s tt s) by done. by eexists. }
  destruct Hcount as (s1 & H1 & Hi & Hw). unfold check_entry.
  rewrite (M_bind_Ok _ _ _ _ _ (Hthe s eq_refl)), Hv, Ha. cbn [Z.eqb Pos.eqb andb].
  rewrite (M_bind_Ok _ _ s tt s1).
  2:{ rewrite (M_bind_Ok _ _ s (check_flag s) s), Hc, (M_bind_Ok _ _ s c s) by done. exact H1. }
  rewrite (M_bind_Ok _ _ _ _ _ (Hthe s1 Hi)), Hv, Ha. cbn [Z.eqb Pos.eqb andb]. rewrite (M_bind_Ok _ _ s1 tt s1) by done.
  rewrite (M_bind_Ok _ _ _ _ _ (Hthe s1 Hi)), Hv, Ha. cbn [Z.eqb Pos.eqb andb].
  rewrite (M_bind_Ok _ _ s1 (uptime (world s1)) s1), Hw, (proj2 (Z.ltb_lt _ _) Hup) by done. cbn [andb when].
  destruct (del_wp k e s1) as (r & s2 & e2 & Hdel & He2 & ->); [by rewrite Hi|]. exists s2. split; [|done]. by rewrite (M_bind_Ok _ _ _ _ _ Hdel).
Qed.
End entries.

(** C26: a full table. When every place is taken by another host, both scans
    choose the same place for a new one: that of the host that went offline
    first, among those that are not online or under control. But only hosts
    with an [offline_time] below [OFFLINE_TIME] are looked at, a number of
    seconds since the start of the device being compared with the length of a
    day: there is no place, and -1 or a null pointer is the result, when they
    all went offline later than a day after the start. *)
Theorem full_table_place `{World W} (s : lan W) m empty :
  let w := world s in
  let l := take (Z.to_nat (lan_host_max_num w)) (lan_host_info s) in
  lan_host_num w = lan_host_max_num w →
  (∀ j e, l !! j = Some e → valid e = 1 ∧ casefold (mac e) ≠ casefold (mac_rm_dot m)) →
  ∃ place,
    check_mac_exist m empty s = Ok ((0, from_option Z.of_nat (-1) place), s) ∧
    find_empty_lan_host_entry s = Ok (place, s) ∧
    match place with
    | Some k => ∃ e, l !! k = Some e ∧ replaceable w OFFLINE_TIME k e = true ∧
        ∀ j e', l !! j = Some e' → replaceable w OFFLINE_TIME j e' = true → offline_time e ≤ offline_time e'
    | None => ∀ j e, l !! j = Some e →
        active e ≠ 0 ∨ offline_time e ≤ 0 ∨ OFFLINE_TIME ≤ offline_time e ∨
        tcapi_get (cs "LanHost2_Entry" ++ fmt_d (Z.of_nat j)) (cs "ControlStatus") w = Some (cs "1")
    end.
Proof.
  intros w l Hnum Hall. exists (oldest w l 0 OFFLINE_TIME None). split; [|split].
  - unfold check_mac_exist. rewrite (M_bind_Ok _ _ s w s), (M_bind_Ok _ _ s (lan_host_info s) s) by done. fold w. cbv zeta. fold l.
    pose proof (mac_loop_oldest w (mac_rm_dot m) l 0 OFFLINE_TIME None empty false Hall) as Hrun. cbn [from_option] in Hrun. rewrite Hrun.
    rewrite (M_bind_Ok _ _ s tt s) by done. rewrite Hnum, Z.eqb_refl. done.
  - unfold find_empty_lan_host_entry. rewrite (M_bind_Ok _ _ s w s), (M_bind_Ok _ _ s (lan_host_info s) s) by done. fold w. cbv zeta. fold l.
    rewrite empty_loop_oldest by (intros j e Hj; by apply (Hall j e)). by rewrite Hnum, Z.eqb_refl.
  - destruct (oldest_spec w l 0 OFFLINE_TIME None) as [[-> Hno]|(k & e & -> & Hk & Hr & Hmin)].
    + intros j e Hj. specialize (Hno j e Hj). cbn in Hno. unfold replaceable in Hno. rewrite !andb_false_iff, negb_false_iff in Hno.
      destruct Hno as [[[Hno|Hno]|Hno]|Hno]; zify_bool; [by left|right; left; lia|right; right; left; lia|do 3 right].
      apply streq_eq in Hno. destruct (tcapi_get _ _ w) as [v|]; [by rewrite <- Hno|done].
    + exists e. done.
Qed.
(** A full table of the small network: the second host left first. *)
Definition leaver (m : cstr) (t : Z) : lan_host_entry := set_valid 1 (set_mac m (set_offline_time t zero_entry)).
Definition full : lan net :=
  with_entries [leaver (cs "001122334401") 500; leaver (cs "001122334402") 300; leaver (cs "001122334403") 90000; leaver (cs "001122334404") 400]
    (boot (store ((λ n, (n, cs "MAC", cs "x")) <$> NODES) empty_net)).

Lemma full_table_place_witness :
  lan_host_num (world full) = 4 ∧
  ∃ place, check_mac_exist (cs "00:11:22:33:44:99") (-1) full = Ok ((0, from_option Z.of_nat (-1) place), full) ∧
    find_empty_lan_host_entry full = Ok (place, full).
Proof.
  split; [by vm_compute|]. destruct (full_table_place full (cs "00:11:22:33:44:99") (-1)) as (place & Hc & Hf & _).
  - by vm_compute.
  - change (take _ (lan_host_info full)) with (lan_host_info full). intros [|[|[|[|j]]]] e [=]; subst e; (split; [done|by vm_compute]).
  - exact (ex_intro _ place (conj Hc Hf)).
Defined.

(** C25: no host twice. From a table in which every address is that of one
    host, no order of checks, events and changes of the world leads to one where
    two entries have the same MAC address, or an entry with an address is not
    valid or beyond the limit of the configuration. *)
Theorem lan_hosts_stay_distinct `{World W} (limit : nat)
    (fixed_limit : ∀ w : W, lan_host_max_num w = Z.of_nat limit)
    (stations_ok : ∀ (w : W) lines, stb_list w = Some lines → Forall (λ l, mac_ok l.2) lines) (s s' : lan W) :
  rtc lan_step s s' → hosts_ok limit (lan_host_info s) → hosts_ok limit (lan_host_info s').
Proof.
  induction 1 as [s|s1 s2 s3 Hstep _ IH]; [done|]. intros Hok. apply IH. by eapply step_ok.
Qed.

(** A station at the first port, then the same one by Wi-Fi. *)
Definition tv : cstr := cs "00:11:22:33:44:55".
Definition with_tv : net := Net [] [{| l_mac := tv; l_ip := cs "192.168.1.10"; l_time := cs "4000"; l_host_name := cs "tv" |}] [] [(1, tv)] 100 [].
Definition state (r : res (Z * lan net)) : lan net := match r with Ok (_, s) => s | _ => boot with_tv end.
Definition by_cable : lan net := state (check_lan_host_update (boot with_tv)).
Definition by_wifi : lan net := state (wifi_update_handler (cs "add;0;ra0;00:11:22:33:44:55;-50;300") by_cable).

Lemma cable_run : check_lan_host_update (boot with_tv) = Ok (0, by_cable).
Proof. vm_compute. reflexivity. Qed.
Lemma wifi_run : wifi_update_handler (cs "add;0;ra0;00:11:22:33:44:55;-50;300") by_cable = Ok (0, by_wifi).
Proof. vm_compute. reflexivity. Qed.
Lemma tv_once : mac <$> lan_host_info by_wifi = [cs "001122334455"; []; []; []].
Proof. vm_compute. reflexivity. Qed.

Lemma lan_hosts_stay_distinct_witness :
  hosts_ok PLACES (lan_host_info by_wifi) ∧ mac <$> lan_host_info by_wifi = [cs "001122334455"; []; []; []].
Proof.
  split; [|exact tv_once].
  apply (lan_hosts_stay_distinct PLACES limit_fixed demo_stations (boot with_tv)); [|apply boot_ok].
  eapply rtc_l; [exact (step_check _ _ _ cable_run)|]. eapply rtc_l; [|apply rtc_refl].
  eapply step_wifi; [|exact wifi_run]. by apply Nat.leb_le; vm_compute.
Defined.

(** A Wi-Fi host in an empty place. The address is looked up with the empty
    MAC address of the place, so the host has none after [add_lan_host], even
    with a lease of its own, and is not online. As it was never online its
    [offline_time] is 0, and if it is still as it was when a check comes more
    than [OFFLINE_TIME] seconds after the start of the device, it is deleted at
    once. *)
Theorem wifi_host_without_address_is_forgotten `{World W} (s : lan W) k m p :
  lan_host_info s !! k = Some zero_entry → unknown [] (world s) → mac_rm_dot m ≠ [] →
  ∃ s1 e, add_lan_host (Some k) m 1 p s = Ok (0, s1) ∧ lan_host_info s1 !! k = Some e ∧
    mac e = take DEV_MAC_ADDR_LEN (mac_rm_dot m) ∧ ip e = [] ∧ active e = 0 ∧
    ∀ (s2 : lan W) x c port', lan_host_info s2 !! k = Some (set_exist x e) → check_flag s2 !! k = Some c →
      OFFLINE_TIME < u32 (uptime (world s2)) →
      ∃ s3, check_entry port' k s2 = Ok (tt, s3) ∧ lan_host_info s3 !! k = Some zero_entry.
Proof.
  intros He Hun Hm. destruct (add_wifi k m p (-1) zero_entry s s) as (s1 & e & Hadd & He1 & Hmac & Hip & _ & Hv & Hct & Ha & Hoff).
  - by apply (entry_unknown k zero_entry s).
  - done.
  - left. intros Heq. by apply Hm.
  - exists s1, e. do 5 (split; [done|]). intros s2 x c port' He2 Hc Hup. destruct e. cbn in Hv, Hct, Ha, Hoff. subst.
    by eapply check_old_wifi; [exact He2|exact Hc|..|rewrite Z.sub_0_r].
Qed.

Lemma wifi_host_without_address_is_forgotten_witness :
  ∃ s1 e, add_lan_host (Some 1%nat) tv 1 1 (boot with_tv) = Ok (0, s1) ∧ lan_host_info s1 !! 1%nat = Some e ∧ active e = 0 ∧
    ∀ (s2 : lan net) x c port', lan_host_info s2 !! 1%nat = Some (set_exist x e) → check_flag s2 !! 1%nat = Some c →
      OFFLINE_TIME < u32 (uptime (world s2)) →
      ∃ s3, check_entry port' 1 s2 = Ok (tt, s3) ∧ lan_host_info s3 !! 1%nat = Some zero_entry.
Proof.
  destruct (wifi_host_without_address_is_forgotten (boot with_tv) 1 tv 1) as (s1 & e & Hadd & He & _ & _ & Ha & Hdel).
  - done.
  - split; intros ls [= <-]; [|done]. apply Forall_singleton. apply (bool_decide_unpack (casefold _ ≠ casefold _)). by vm_compute.
  - by vm_compute.
  - exists s1, e. auto.
Defined.

(** A Wi-Fi host in the place of another. When the old host's lease is
    still in the file, its address and its name become those of the new one,
    which is online with them. *)
Theorem reused_place_keeps_the_lease `{World W} (s : lan W) k e l v m p :
  leased s k e l → stored_name (leased_name (world s) k l e) = Ok v →
  ∃ s' e', add_lan_host (Some k) m 1 p s = Ok (0, s') ∧ lan_host_info s' !! k = Some e' ∧
    mac e' = take DEV_MAC_ADDR_LEN (mac_rm_dot m) ∧ ip e' = take IP_ADDR_LEN (l_ip l) ∧
    host_name e' = leased_name (world s) k l e ∧ active e' = 1.
Proof.
  intros Hl Hv. destruct (entry_leased k e l v s Hl Hv) as (s1 & e1 & Hset & He1 & _ & Hip & Hname).
  destruct (add_wifi k m p 0 e1 s s1 Hset He1) as (s' & e' & Hadd & He' & Hmac & Hip' & Hname' & _ & _ & Ha & _); [by right|].
  exists s', e'. rewrite Hip' , Hname'. auto 10.
Qed.

(** The TV left, a telephone takes its place. *)
Definition tv_left : lan net :=
  with_entries [leaver (cs "001122334455") 500; zero_entry; zero_entry; zero_entry]
    (boot (store [(node_name 0, cs "MAC", cs "001122334455")] with_tv)).

Definition tv_lease : lease := {| l_mac := tv; l_ip := cs "192.168.1.10"; l_time := cs "4000"; l_host_name := cs "tv" |}.

Lemma reused_place_keeps_the_lease_witness :
  ∃ s' e', add_lan_host (Some 0%nat) (cs "00:11:22:33:44:99") 1 1 tv_left = Ok (0, s') ∧ lan_host_info s' !! 0%nat = Some e' ∧
    mac e' = cs "001122334499" ∧ ip e' = cs "192.168.1.10" ∧ host_name e' = cs "tv" ∧ active e' = 1.
Proof.
  destruct (reused_place_keeps_the_lease tv_left 0 (leaver (cs "001122334455") 500) tv_lease (cs "tv") (cs "00:11:22:33:44:99") 1)
    as (s' & e' & Hadd & He & Hm & Hip & Hname & Ha).
  - split; [by vm_compute|by eexists; vm_compute; reflexivity| |by vm_compute]. exists (d_leases with_tv), 0%nat. split; by vm_compute.
  - by vm_compute.
  - exists s', e'. rewrite Hm, Hip, Hname. do 5 (split; [by vm_compute|]). exact Ha.
Defined.
End LanRun.
