(* ===== verification/LanName.v ===== *)
(** * The names of the hosts in the configuration

    What becomes of the name of a host from lease to lease ([set_ip_from_dhcp]),
    written in UTF-8 ([sync_lan_host_info]) and read back in GB2312, and the
    name that is too long for the array it is converted into. *)

From S2P Require Import Prelude CString Text LanEntry LanHost LanProps LanDemo LanRun.
Open Scope Z_scope.

Module LanName.
Import Text LanEntry LanHost LanProps LanDemo LanRun.

(** What is read from the configuration after the name was written to it. *)
Class ConfigLaws (W : Type) `{World W} := {
  get_set i v w : (length v < HOSTNAME_LEN)%nat → tcapi_get (node_name i) (cs "HostName") (tcapi_set (node_name i) (cs "HostName") v w) = Some v;
  get_send node attr ev w : tcapi_get node attr (ecnt_event_send ev w) = tcapi_get node attr w
}.

Section names.
Context {W : Type} `{ConfigLaws W}.


End names.


#[export] Instance net_laws : ConfigLaws net.
Proof.
  split; [|done]. intros i v w _. cbn [tcapi_get tcapi_set net_world]. unfold lookup.
  change (streq (cs "HostName") (cs "LANHostMaxNumber")) with false. change (streq (cs "HostName") (cs "LANHostNumber")) with false.
  unfold stored. cbn [d_nodes store list_find fst snd]. unfold streq. rewrite !bool_decide_eq_true_2 by done. done.
Qed.



(** A name that is 63 bytes in UTF-8 fills the array: its end is looked for
    behind it. *)
Lemma long_name_overruns `{World W} k e (s : lan W) utf8 :
  lan_host_info s !! k = Some e → is_Some (tcapi_get (node_name k) (cs "MAC") (world s)) →
  charsetconv (cs "gb2312") (cs "utf-8") (host_name e) HOSTNAME_LEN = (0, utf8) → str_ok utf8 → length utf8 = HOSTNAME_LEN →
  sync_lan_host_info k LEASE_FLAGS s = Fault.
Proof.
  intros He Hn Hc Hu Hl. pose proof (sync_names k e s He Hn) as Hsync. unfold stored_name, string_of in Hsync.
  rewrite Hc in Hsync. cbn [fst snd Z.eqb] in Hsync. by rewrite str_of_ok, Hl in Hsync.
Qed.
End LanName.
