(* ===== verification/WanObj.v ===== *)
(** * WAN connections ([service/wan]): data, list, environment

    The WAN service keeps one object per configured connection, in the list of
    [wan_link_list.c].  This file has the records of [wan_common.h], the state
    of the service, what it uses of the rest of the firmware (the class
    [WanWorld]), the list and the names of interfaces.

    The build is that of the profile in [Project/profile].  An object's fields
    that only functions of other files use ([dhcp_release], [dslite_state],
    the addresses last seen, the prefix bits) are left out. *)

From stdpp Require Import gmap.
From S2P Require Import Prelude CString Text Utility.
Open Scope Z_scope.

Module WanObj.
Import Text Utility.

(** ** Constants of [wan_common.h] and [svchost_evt.h] *)

Definition SVC_WAN_FLAG_STARTED : Z := 1.
Definition SVC_WAN_FLAG_UPV4 : Z := 2.
Definition SVC_WAN_FLAG_UPV6 : Z := 4.

Definition SVC_WAN_ATTR_ACTIVE_DISABLE : Z := 0.
Definition SVC_WAN_ATTR_ACTIVE_ENABLE : Z := 1.
Definition SVC_WAN_ATTR_WANMODE_ROUTE : Z := 1.
Definition SVC_WAN_ATTR_WANMODE_BRIDGE : Z := 2.
Definition SVC_WAN_ATTR_LINKMODE_IP : Z := 1.
Definition SVC_WAN_ATTR_LINKMODE_PPP : Z := 2.
Definition SVC_WAN_ATTR_VTAG_UNTAG : Z := 1.
Definition SVC_WAN_ATTR_VTAG_TRANS : Z := 2.
Definition SVC_WAN_ATTR_VTAG_TAG : Z := 3.
Definition SVC_WAN_ATTR_DOT1P_TAG_TRANS : Z := 4.
Definition SVC_WAN_ATTR_VERSION_IPV4 : Z := 1.
Definition SVC_WAN_ATTR_VERSION_IPV6 : Z := 2.
Definition SVC_WAN_ATTR_VERSION_BOTH : Z := 3.
Definition SVC_WAN_ATTR_ISP_DHCP : Z := 0.
Definition SVC_WAN_ATTR_ISP_STATIC : Z := 1.
Definition SVC_WAN_ATTR_ISP_PPP : Z := 2.
Definition SVC_WAN_ATTR_ISP_BRIDGE : Z := 3.
Definition SVC_WAN_ATTR_CONNECT_KEEP_ALIVE : Z := 0.
Definition SVC_WAN_ATTR_CONNECT_ON_DEMAND : Z := 1.
Definition SVC_WAN_ATTR_CONNECT_MANUALLY : Z := 2.
Definition SVC_WAN_ATTR_IPV6MODE_DHCP : Z := 1.
Definition SVC_WAN_ATTR_IPV6MODE_SLAAC : Z := 2.
Definition SVC_WAN_ATTR_IPV6MODE_STATIC : Z := 3.
Definition SVC_WAN_ATTR_PDMODE_AUTO : Z := 1.
Definition SVC_WAN_ATTR_PDMODE_MANUAL : Z := 2.
Definition SVC_WAN_ATTR_GWV6_OP_MANUAL : Z := 1.
Definition ENABLE : Z := 1.
Definition DISABLE : Z := 0.
Definition E_SRV_INTENET : Z := 2 ^ 0.
Definition E_SRV_E8C_INTENET : Z := 2 ^ 1.
Definition E_SRV_TR069 : Z := 2 ^ 2.
Definition E_SRV_E8C_TR069 : Z := 2 ^ 3.
Definition E_SRV_OTHER : Z := 2 ^ 4.
Definition E_SRV_VOICE : Z := 2 ^ 7.
Definition E_SRV_SPE_SER : Z := 2 ^ 9.
Definition E_NOT_DEFAULT_ROUTE : Z := 0.
Definition E_DEFAULT_ROUTE : Z := 1.
Definition E_DEFAULT_ROUTE_SWITCH : Z := 2.
Definition E_SYSTEM_ONLY_IPV4_ENABLE : Z := 1.
Definition E_SYSTEM_ONLY_IPV6_ENABLE : Z := 2.
Definition E_SYSTEM_IPV4_IPV6_ENABLE : Z := 3.
Definition SVC_WAN_MAX_PVC_NUM : Z := 8.
Definition SVC_WAN_MAX_ENTRY_NUM : Z := 8.

Definition EVT_WAN_CONN_GETV4 : Z := 3.
Definition EVT_WAN_CONN_LOSTV4 : Z := 4.
Definition EVT_WAN_CONN_GETV6 : Z := 5.
Definition EVT_WAN_CONN_LOSTV6 : Z := 6.
Definition EVT_WAN_ENTRY_DELETE : Z := 64.
Definition EVT_WAN_ENTRY_UPDATE : Z := 65.
Definition EVT_WAN_IPV4_UP : Z := 66.
Definition EVT_WAN_IPV4_DOWN : Z := 67.
Definition EVT_WAN_IPV6_UP : Z := 68.
Definition EVT_WAN_IPV6_DOWN : Z := 69.
Definition EVT_WAN_BRIDGE_UP : Z := 70.
Definition EVT_WAN_BRIDGE_DOWN : Z := 71.

(** Lengths of buffers. *)
Definition MAX_WAN_ENTRY_PATH_LEN : nat := 32.
Definition MAX_WAN_DEV_NAME_LEN : nat := 16.
Definition MAX_WAN_IPV4_ADDR_LEN : nat := 16.
Definition MAX_WAN_IPV6_ADDR_LEN : nat := 48.
Definition MAX_WAN_PID_FILE_LEN : nat := 32.
Definition MAX_INFO_LENGTH : nat := 128.

(** ** Records *)

Record wan_entry_cfg := {
  vid : Z; mvid : Z; mtu : Z; pdtm1 : Z; pdtm2 : Z; prefix6 : Z; bindbit : Z;
  active : Z; wanmode : Z; linkmode : Z; version : Z; dot1p : Z; vtag : Z; isp : Z;
  conn_mode : Z; ppp_manual_status : Z; user : cstr; pwd : cstr;
  addrv4 : cstr; maskv4 : cstr; gwv4 : cstr; dns1v4 : cstr; dns2v4 : cstr;
  ipv6mode : Z; addrv6 : cstr; gwv6 : cstr; dns1v6 : cstr; dns2v6 : cstr;
  pd : Z; pdmode : Z; dhcpv6pd : Z; pdaddr : cstr; dslite : Z; dslite_mode : Z;
  srv_list : cstr; srv_type : Z; gwv6_op : Z; ppp_hybrid : Z; pdorigin : cstr;
  proxyenable : Z; dhcp_realy : Z; dhcp_enable : Z; npt : Z
}.

Record wan_entry_obj := {
  next : option positive; path : cstr; flag : Z; idx : Z; dev : cstr;
  cfg : wan_entry_cfg; nat : Z; pid4 : cstr; pid6 : cstr
}.

Definition zero_cfg : wan_entry_cfg := {| vid := 0; mvid := 0; mtu := 0; pdtm1 := 0; pdtm2 := 0; prefix6 := 0; bindbit := 0;
  active := 0; wanmode := 0; linkmode := 0; version := 0; dot1p := 0; vtag := 0; isp := 0; conn_mode := 0;
  ppp_manual_status := 0; user := []; pwd := []; addrv4 := []; maskv4 := []; gwv4 := []; dns1v4 := []; dns2v4 := [];
  ipv6mode := 0; addrv6 := []; gwv6 := []; dns1v6 := []; dns2v6 := []; pd := 0; pdmode := 0; dhcpv6pd := 0; pdaddr := [];
  dslite := 0; dslite_mode := 0; srv_list := []; srv_type := 0; gwv6_op := 0; ppp_hybrid := 0; pdorigin := [];
  proxyenable := 0; dhcp_realy := 0; dhcp_enable := 0; npt := 0 |}.
Definition zero_obj : wan_entry_obj := {| next := None; path := []; flag := 0; idx := 0; dev := []; cfg := zero_cfg;
  nat := 0; pid4 := []; pid6 := [] |}.

Definition set_next v o := {| next := v; path := path o; flag := flag o; idx := idx o; dev := dev o; cfg := cfg o;
  nat := nat o; pid4 := pid4 o; pid6 := pid6 o |}.
Definition set_name p i d o := {| next := next o; path := p; flag := flag o; idx := i; dev := d; cfg := cfg o;
  nat := nat o; pid4 := pid4 o; pid6 := pid6 o |}.
Definition set_flag f o := {| next := next o; path := path o; flag := f; idx := idx o; dev := dev o; cfg := cfg o;
  nat := nat o; pid4 := pid4 o; pid6 := pid6 o |}.
Definition set_cfg c o := {| next := next o; path := path o; flag := flag o; idx := idx o; dev := dev o; cfg := c;
  nat := nat o; pid4 := pid4 o; pid6 := pid6 o |}.
Definition set_nat n o := {| next := next o; path := path o; flag := flag o; idx := idx o; dev := dev o; cfg := cfg o;
  nat := n; pid4 := pid4 o; pid6 := pid6 o |}.
Definition set_pid4 p o := {| next := next o; path := path o; flag := flag o; idx := idx o; dev := dev o; cfg := cfg o;
  nat := nat o; pid4 := p; pid6 := pid6 o |}.
Definition set_pid6 p o := {| next := next o; path := path o; flag := flag o; idx := idx o; dev := dev o; cfg := cfg o;
  nat := nat o; pid4 := pid4 o; pid6 := p |}.

(** The macros on a configuration. *)
Definition has (f g : Z) : bool := negb (Z.land f g =? 0).
Definition SVC_WAN_IS_ACTIVE c := active c =? SVC_WAN_ATTR_ACTIVE_ENABLE.
Definition SVC_WAN_IS_ROUTE c := wanmode c =? SVC_WAN_ATTR_WANMODE_ROUTE.
Definition SVC_WAN_SRV_INTERNET c := has (srv_type c) E_SRV_INTENET.
Definition SVC_WAN_SRV_E8C_INTERNET c := has (srv_type c) E_SRV_E8C_INTENET.
Definition SVC_WAN_SRV_TR069 c := has (srv_type c) E_SRV_TR069.
Definition SVC_WAN_IS_BRIDGE c := (wanmode c =? SVC_WAN_ATTR_WANMODE_BRIDGE) || (isp c =? SVC_WAN_ATTR_ISP_BRIDGE).
Definition SVC_WAN_IS_PPP c := (linkmode c =? SVC_WAN_ATTR_LINKMODE_PPP) || (isp c =? SVC_WAN_ATTR_ISP_PPP).
Definition SVC_WAN_IS_CONN_ON_DEMAND c := conn_mode c =? SVC_WAN_ATTR_CONNECT_ON_DEMAND.
Definition SVC_WAN_IS_PPP_HYBRID c := ppp_hybrid c =? ENABLE.
Definition SVC_WAN_IS_IP c :=
  (linkmode c =? SVC_WAN_ATTR_LINKMODE_IP) || (isp c =? SVC_WAN_ATTR_ISP_STATIC) || (isp c =? SVC_WAN_ATTR_ISP_DHCP).
Definition SVC_WAN_IS_IPV4 c := has (version c) SVC_WAN_ATTR_VERSION_IPV4.
Definition SVC_WAN_IS_IPV6 c := has (version c) SVC_WAN_ATTR_VERSION_IPV6.
Definition SVC_WAN_IS_IPV4_DHCP c := (isp c =? SVC_WAN_ATTR_ISP_DHCP) && SVC_WAN_IS_IPV4 c.
Definition SVC_WAN_IS_IPV4_STATIC c := (isp c =? SVC_WAN_ATTR_ISP_STATIC) && SVC_WAN_IS_IPV4 c.
Definition SVC_WAN_IS_IPV6_DHCP c := (ipv6mode c =? SVC_WAN_ATTR_IPV6MODE_DHCP) && SVC_WAN_IS_IPV6 c.
Definition SVC_WAN_IS_IPV6_STATIC c := (ipv6mode c =? SVC_WAN_ATTR_IPV6MODE_STATIC) && SVC_WAN_IS_IPV6 c.
Definition SVC_WAN_IS_IPV6_SLAAC c := (ipv6mode c =? SVC_WAN_ATTR_IPV6MODE_SLAAC) && SVC_WAN_IS_IPV6 c.
Definition SVC_WAN_IPV6_PD_ENABLE c := pd c =? ENABLE.
Definition SVC_WAN_IPV6_PD_MANUAL c := pdmode c =? SVC_WAN_ATTR_PDMODE_MANUAL.
Definition SVC_WAN_DSLITE_ENABLE c := dslite c =? ENABLE.
Definition SVC_WAN_GWV6_IS_MANUAL c := gwv6_op c =? SVC_WAN_ATTR_GWV6_OP_MANUAL.

(** [flag & f], [flag |= f], [flag &= ~f]. *)
Definition is_set (f : Z) (o : wan_entry_obj) : bool := has (flag o) f.
Definition raise (f : Z) (o : wan_entry_obj) : wan_entry_obj := set_flag (Z.lor (flag o) f) o.
Definition lower (f : Z) (o : wan_entry_obj) : wan_entry_obj := set_flag (Z.ldiff (flag o) f) o.

(** ** The rest of the firmware *)

(** Functions of other files and programs, which do not touch the list or the
    modelled fields of its objects, with the arguments they are given; an
    object is passed as its record at that moment. *)
Inductive call :=
| system (cmd : cstr)
| sleep (seconds : Z)
| cfg_commit_object (path : cstr)
| cfg_evt_write_romfile_to_flash
| cfg_save_attrs_to_file (node file : cstr)
| mkdir (dir : cstr)
| write_file (file text : cstr)
| unlink (file : cstr)
| svc_wan_mgr_send_evt (evt : Z) (path : cstr)
| set_policy_route (o : wan_entry_obj) (evt : Z)
| update_wan_up_time (o : wan_entry_obj) (evt : Z)
| set_port_binding_info (o : wan_entry_obj) (v6 : bool)
| del_route_via_ondemand (v6 : bool) (pvc entry : Z) (ifname : cstr)
| dealwith_link_local_route (dev : cstr) (idx evt : Z)
| check_route (path : cstr)
| check_static_route6 (path : cstr)
| del_static_route (o : wan_entry_obj)
| misc_srv_manage (path : cstr) (evt : Z)
| wan_ip_change_inform (path : cstr) (evt : Z)
| restart_dnsmasq
| svc_wan_update_tr69_vip (o : wan_entry_obj) (evt : Z)
| update_pd_info (o : wan_entry_obj) (evt : Z)
| stop_dslite (o : wan_entry_obj)
| open_VPN_PPP_tunnel
| restartVPN (o : wan_entry_obj)
| close_table_by_ifIndex (idx : Z)
| full_route_execute (o : wan_entry_obj)
| set_port_binding_info2 (path : cstr) (action : Z)
| set_DHCP_PortFilter_info (o : wan_entry_obj) (op : Z)
| set_DHCPRelay_info (o : wan_entry_obj) (op : Z)
| svc_wan_vlanbind_execute (o : option wan_entry_obj) (flag : Z)
| set_childprefx_file (o : wan_entry_obj)
| set_ondemand_route_state (idx : Z)
| ClearOndemandWanHisAddr (idx : Z)
| checkVoipWan.

(** What the service reads.  [cfg_get] is the value of an attribute in the
    configuration, none when the object or the attribute is not there;
    [cfg_exists] is [cfg_query_object(path, NULL, NULL) > 0]. *)
Class WanWorld (W : Type) := {
  cfg_get : cstr → cstr → W → option cstr;
  cfg_set : cstr → cstr → cstr → W → W;
  cfg_exists : cstr → W → bool;
  cfg_children : cstr → cstr → W → list Z;
  cfg_create : cstr → W → W;
  cfg_delete : cstr → W → W;
  (** [cfg_path_to_oid_array], masked: the numbers of the path's segments. *)
  path_ids : cstr → W → list Z;
  run : call → W → W;
  (** The text of a file. *)
  file : cstr → W → option cstr;
  (** [getWanInfo(Mac_type, dev, mac)]. *)
  wan_mac : cstr → W → cstr;
  get_port_binding_interface_info : cstr → wan_entry_cfg → W → Z;
  (** Whether [full_route_execute] returns 1. *)
  is_full_route_enable : wan_entry_obj → W → bool;
  (** [malloc] succeeds; a file can be created. *)
  malloc_ok : W → bool;
  fopen_ok : cstr → W → bool;
  (** What an array on the stack holds before it is written. *)
  uninitialised : W → cstr;
  (** Constants that no header of the repository defines. *)
  MAX_SMUX_NUM : Z;
  MAX_WAN_ENTRY_NUMBER : Z;
  MAX_WAN_IF_INDEX : Z
}.

(** The objects allocated and the head of the list. *)
Record wan (W : Type) := {
  objs : gmap positive wan_entry_obj;
  svc_wan_entry_list : option positive;
  is_avalanche_on : Z;
  world : W
}.
Arguments objs {W}. Arguments svc_wan_entry_list {W}. Arguments is_avalanche_on {W}. Arguments world {W}.

Section wan.
Context {W : Type} `{WanWorld W}.
Abbreviation WM := (M (wan W)).

Definition with_objs (v : gmap positive wan_entry_obj) (s : wan W) := {| objs := v; svc_wan_entry_list := svc_wan_entry_list s;
  is_avalanche_on := is_avalanche_on s; world := world s |}.
Definition with_head (v : option positive) (s : wan W) := {| objs := objs s; svc_wan_entry_list := v;
  is_avalanche_on := is_avalanche_on s; world := world s |}.
Definition with_avalanche (v : Z) (s : wan W) := {| objs := objs s; svc_wan_entry_list := svc_wan_entry_list s;
  is_avalanche_on := v; world := world s |}.
Definition with_world (v : W) (s : wan W) := {| objs := objs s; svc_wan_entry_list := svc_wan_entry_list s;
  is_avalanche_on := is_avalanche_on s; world := v |}.

(** An object behind a pointer. *)
Definition the (p : positive) : WM wan_entry_obj := λ s, match objs s !! p with Some o => Ok (o, s) | None => Fault end.
Definition upd (p : positive) (f : wan_entry_obj → wan_entry_obj) : WM unit :=
  _ ← the p; modify (λ s, with_objs (alter f p (objs s)) s).
Definition ask {A} (f : W → A) : WM A := gets (λ s, f (world s)).
Definition tell (f : W → W) : WM unit := modify (λ s, with_world (f (world s)) s).
Definition when (b : bool) (m : WM unit) : WM unit := if b then m else mret tt.
Definition do_call (c : call) : WM unit := tell (run c).
Definition cfg_set_object_attr (node attr val : cstr) : WM unit := tell (cfg_set node attr val).
(** [cfg_get_object_attr] into a buffer of the size; none for a negative result. *)
Definition cfg_get_object_attr (node attr : cstr) (size : Datatypes.nat) : WM (option cstr) :=
  v ← ask (cfg_get node attr); mret (take (size - 1) <$> v).

(** ** Commands ([wan_common.c]) *)

Definition svc_wan_execute_cmd (cmd : cstr) : WM Z :=
  if check_injection_code_command (Some cmd) =? -1 then mret (-1) else do_call (system cmd);; mret 0.
Definition execute (cmd : cstr) : WM unit := svc_wan_execute_cmd cmd;; mret tt.

(** The lines [fgets] gives for a buffer of 127 bytes, without their ends. *)
Fixpoint file_lines (n : Datatypes.nat) (text : cstr) : list cstr :=
  match n with
  | O => []
  | S n' =>
      match fgets (MAX_INFO_LENGTH - 1) text with
      | None => []
      | Some (line, rest) => (match tokens [10] line with t :: _ => t | [] => [] end) :: file_lines n' rest
      end
  end.
Definition svc_wan_get_file_string (f : cstr) (n : Datatypes.nat) : WM (list cstr) :=
  text ← ask (file f); mret (match text with Some t => file_lines n t | None => [] end).

(** ** The list ([wan_link_list.c]) *)

(** A walk along the list: [body] gives a result to stop with. *)
Fixpoint for_objs {A} (fuel : Datatypes.nat) (p : option positive) (body : positive → wan_entry_obj → WM (option A)) : WM (option A) :=
  match p with
  | None => mret None
  | Some a =>
      match fuel with
      | O => out_of_fuel
      | S fuel' =>
          o ← the a;
          r ← body a o;
          match r with
          | Some x => mret (Some x)
          | None => o ← the a; for_objs fuel' (next o) body
          end
      end
  end.
Definition each_obj {A} (body : positive → wan_entry_obj → WM (option A)) : WM (option A) :=
  n ← gets (λ s, size (objs s));
  p ← gets svc_wan_entry_list;
  for_objs n p body.

Definition svc_wan_init_obj_list : WM unit := modify (with_head None).

Definition svc_wan_free_object (p : positive) : WM unit := _ ← the p; modify (λ s, with_objs (delete p (objs s)) s).

Definition svc_wan_alloc_object : WM (option positive) :=
  ok ← ask malloc_ok;
  if negb ok then mret None
  else
    p ← gets (λ s, fresh (dom (objs s)));
    modify (λ s, with_objs (<[p := zero_obj]> (objs s)) s);;
    mret (Some p).

(** The last object of the list. *)
Fixpoint last_obj (fuel : Datatypes.nat) (p1 : positive) : WM positive :=
  match fuel with
  | O => out_of_fuel
  | S fuel' => o ← the p1; match next o with Some q => last_obj fuel' q | None => mret p1 end
  end.

Definition svc_wan_add_to_list (p : positive) : WM Z :=
  head ← gets svc_wan_entry_list;
  match head with
  | None => upd p (set_next None);; modify (with_head (Some p));; mret 0
  | Some h =>
      n ← gets (λ s, size (objs s));
      p1 ← last_obj n h;
      upd p1 (set_next (Some p));;
      upd p (set_next None);;
      mret 0
  end.

(** The object of the path, and the one before it. *)
Fixpoint path_loop (fuel : Datatypes.nat) (p1 p2 : option positive) (pa : cstr) : WM (option positive * option positive) :=
  match p1 with
  | None => mret (None, p2)
  | Some a =>
      match fuel with
      | O => out_of_fuel
      | S fuel' => o ← the a; if streq (path o) pa then mret (p1, p2) else path_loop fuel' (next o) p1 pa
      end
  end.

Definition svc_wan_del_from_list (p : positive) : WM Z :=
  head ← gets svc_wan_entry_list;
  match head with
  | None => mret 0
  | Some _ =>
      obj ← the p;
      n ← gets (λ s, size (objs s));
      '(p1, p2) ← path_loop n head None (path obj);
      match p1 with
      | Some a =>
          o ← the a;
          if bool_decide (head = p1) then
            modify (with_head (next o));; svc_wan_free_object a;; mret 0
          else
            b ← lift (deref p2);
            match next o with
            | None => upd b (set_next None);; svc_wan_free_object a;; mret 0
            | Some q => upd b (set_next (Some q));; svc_wan_free_object a;; mret 0
            end
      | None => mret 0
      end
  end.

Definition svc_wan_find_object (pa : cstr) : WM (option positive) :=
  each_obj (λ a o, mret (if streq (path o) pa then Some a else None)).

(** [get_wanindex_by_name] of [cfg/utility.c]; [sscanf] with [%1s] takes one
    character that is not blank. *)
Definition one_char (s : cstr) : option (Z * cstr) :=
  match drop_while is_space s with c :: s' => Some (c, s') | [] => None end.
Definition nas_digits (name : cstr) : option (Z * Z) :=
  if is_prefix (cs "nas") name then
    match one_char (drop 3 name) with
    | Some (p, 95 :: s) => match one_char s with Some (e, _) => Some (atoi [p], atoi [e]) | None => None end
    | _ => None
    end
  else None.
Definition nas_index (name : cstr) : option Z := (λ pe, pe.1 * MAX_SMUX_NUM + pe.2) <$> nas_digits name.
Definition get_wanindex_by_name (name : cstr) : Z :=
  let found := if strlen name =? 0 then None
               else match strstr name (cs "ppp") with
                    | Some _ => get_entry_number_cfg2 name (cs "ppp")
                    | None => nas_index name
                    end in
  match found with
  | Some i => if (i <? 0) || (MAX_WAN_IF_INDEX <? i) then -1 else i
  | None => -1
  end.

Definition svc_wan_find_object_by_dev (name : cstr) : WM (option positive) :=
  let wanIf := get_wanindex_by_name name in
  if wanIf <? 0 then mret None
  else each_obj (λ a o, mret (if wanIf =? idx o then Some a else None)).

Definition svc_wan_create_object : WM (option positive) :=
  p ← svc_wan_alloc_object;
  match p with
  | None => mret None
  | Some a => svc_wan_add_to_list a;; mret (Some a)
  end.

(** ** Names *)

Definition ppp_name (i : Z) : cstr := cs "ppp" ++ fmt_d i.
Definition nas_name (pvc entry : Z) : cstr := cs "nas" ++ fmt_d pvc ++ cs "_" ++ fmt_d entry.
(** [obj->dev] is the format string of an [snprintf] into 16 bytes, like the
    buffer it comes from; it has no [%]. *)
Definition svc_wan_intf_name (o : wan_entry_obj) : cstr :=
  if negb (SVC_WAN_IS_BRIDGE (cfg o)) && SVC_WAN_IS_PPP (cfg o) then take 15 (ppp_name (idx o)) else take 15 (dev o).

Definition WANINFO_COMMON_NODE : cstr := cs "root.waninfo.common".
Definition WANINFO_ENTRY_NODE (i : Z) : cstr := cs "root.waninfo.entry." ++ fmt_d i.
Definition waninfo (o : wan_entry_obj) : cstr := WANINFO_ENTRY_NODE (idx o + 1).

End wan.
End WanObj.
