(* ===== verification/WanRoute.v ===== *)
(** * The default route ([wan/default_route_handle.c], [wan/wan_common.c])

    Which connection is the default route, for IPv4 and for IPv6, is kept in
    two attributes of [root.waninfo.common]: the index of an object, or N/A. *)

From stdpp Require Import gmap.
From S2P Require Import Prelude CString Text Utility WanObj.
Open Scope Z_scope.

Module WanRoute.
Import WanObj.

Definition NA : cstr := cs "N/A".
(** The length of [def_route_index_v4] and [def_route_index_v6]. *)
Definition SVC_WAN_BUF_16_LEN : Datatypes.nat := 16.

Section wan.
Context {W : Type} `{WanWorld W}.
Abbreviation WM := (M (wan W)).

(** ** Route commands of [wan_common.c] *)

Definition svc_wan_add_default_ipv4_route (gw d : cstr) : WM unit :=
  if (strlen gw =? 0) || (strlen d =? 0) then mret tt
  else execute (cs "/sbin/route add default gw " ++ gw ++ cs " dev " ++ d).
Definition svc_wan_delete_default_ipv4_route : WM unit := execute (cs "/usr/bin/ip route delete default").
Definition svc_wan_add_default_ipv6_route (gw d : cstr) : WM unit :=
  if (strlen gw =? 0) || (strlen d =? 0) then mret tt
  else execute (cs "/sbin/route -A inet6 add default gw " ++ gw ++ cs " dev " ++ d).
Definition svc_wan_delete_default_ipv6_route : WM unit := execute (cs "/usr/bin/ip -6 route delete default").

(** ** Election *)

(** The gateway in the attribute of the object's information node, unless
    there is none or it is empty. *)
Definition gateway (o : wan_entry_obj) (attr : cstr) (size : Datatypes.nat) : WM (option cstr) :=
  g ← cfg_get_object_attr (waninfo o) attr size;
  mret (match g with Some (c :: g') => Some (c :: g') | _ => None end).

(** The body of the loop: [Some] of the new index, or none to go on. *)
Definition switch_body (evt : Z) (o : wan_entry_obj) : WM (option cstr) :=
  let c := cfg o in
  if negb (SVC_WAN_SRV_E8C_INTERNET c) then mret None
  else if evt =? EVT_WAN_CONN_LOSTV6 then
    if negb (is_set SVC_WAN_FLAG_UPV6 o) then mret None
    else
      g ← gateway o (cs "GateWay6") MAX_WAN_IPV6_ADDR_LEN;
      match g with
      | None => mret None
      | Some gw => svc_wan_add_default_ipv6_route gw (svc_wan_intf_name o);; mret (Some (fmt_d (idx o)))
      end
  else if evt =? EVT_WAN_CONN_LOSTV4 then
    if SVC_WAN_DSLITE_ENABLE c && SVC_WAN_SRV_INTERNET c then
      if negb (is_set SVC_WAN_FLAG_UPV6 o) then mret None
      else
        g ← gateway o (cs "GateWay6") MAX_WAN_IPV6_ADDR_LEN;
        match g with
        | None => mret None
        | Some _ =>
            execute (cs "/sbin/route add default dev ds." ++ svc_wan_intf_name o);;
            mret (Some (fmt_d (idx o)))
        end
    else if negb (is_set SVC_WAN_FLAG_UPV4 o) then mret None
    else
      g ← gateway o (cs "GateWay") MAX_WAN_IPV4_ADDR_LEN;
      match g with
      | None => mret None
      | Some gw =>
          do_call (dealwith_link_local_route (svc_wan_intf_name o) (idx o) E_DEFAULT_ROUTE_SWITCH);;
          svc_wan_add_default_ipv4_route gw (svc_wan_intf_name o);;
          mret (Some (fmt_d (idx o)))
      end
  else mret (Some NA).

(** What [def_route_index] holds afterwards. *)
Definition default_route_switch (def_route_index : cstr) (evt : Z) : WM cstr :=
  when (negb (streq def_route_index NA))
    (if evt =? EVT_WAN_CONN_LOSTV4 then svc_wan_delete_default_ipv4_route
     else when (evt =? EVT_WAN_CONN_LOSTV6) svc_wan_delete_default_ipv6_route);;
  r ← each_obj (λ _ o, switch_body evt o);
  mret (default NA r).

Definition svc_wan_restart_nat (ifname : cstr) : WM unit :=
  execute (cs "iptables -t nat -F " ++ take 15 (cs "VS_" ++ ifname));;
  do_call (cfg_commit_object (cs "root.virserver")).
Definition svc_wan_restart_ddns : WM unit := do_call (cfg_commit_object (cs "root.ddns.common")).

(** The attribute, which is set to N/A when it is not there. *)
Definition def_route_index (attr : cstr) : WM cstr :=
  v ← cfg_get_object_attr WANINFO_COMMON_NODE attr SVC_WAN_BUF_16_LEN;
  match v with
  | Some v => mret v
  | None => cfg_set_object_attr WANINFO_COMMON_NODE attr NA;; mret NA
  end.
Definition DefRouteIndexv4 : cstr := cs "DefRouteIndexv4".
Definition DefRouteIndexv6 : cstr := cs "DefRouteIndexv6".

(** [update_default_route] after its guards: [gw] is the gateway it has read. *)
Definition update_route_rest (o : wan_entry_obj) (evt : Z) (gw : cstr) : WM unit :=
  let c := cfg o in
  let dev_name := svc_wan_intf_name o in
  def4 ← def_route_index DefRouteIndexv4;
  def6 ← def_route_index DefRouteIndexv6;
  if evt =? EVT_WAN_CONN_GETV4 then
    when (SVC_WAN_SRV_E8C_INTERNET c) (do_call open_VPN_PPP_tunnel);;
    if SVC_WAN_SRV_E8C_INTERNET c && streq def4 NA then
      do_call (dealwith_link_local_route dev_name (idx o) E_DEFAULT_ROUTE_SWITCH);;
      svc_wan_add_default_ipv4_route gw dev_name;;
      do_call (dealwith_link_local_route dev_name (idx o) E_NOT_DEFAULT_ROUTE);;
      cfg_set_object_attr WANINFO_COMMON_NODE DefRouteIndexv4 (fmt_d (idx o));;
      do_call (dealwith_link_local_route dev_name (idx o) E_DEFAULT_ROUTE);;
      svc_wan_restart_nat dev_name;;
      svc_wan_restart_ddns
    else do_call (dealwith_link_local_route dev_name (idx o) E_NOT_DEFAULT_ROUTE)
  else if evt =? EVT_WAN_CONN_LOSTV4 then
    when (negb (streq def4 NA))
      (new4 ← (if idx o =? atoi def4 then default_route_switch def4 EVT_WAN_CONN_LOSTV4 else mret def4);
       cfg_set_object_attr WANINFO_COMMON_NODE DefRouteIndexv4 new4;;
       garbage ← ask uninitialised;
       svc_wan_restart_nat garbage)
  else if evt =? EVT_WAN_CONN_GETV6 then
    when (streq def6 NA)
      (svc_wan_add_default_ipv6_route gw dev_name;;
       cfg_set_object_attr WANINFO_COMMON_NODE DefRouteIndexv6 (fmt_d (idx o)))
  else
    when (evt =? EVT_WAN_CONN_LOSTV6)
      (when (negb (streq def6 NA))
         (new6 ← (if idx o =? atoi def6 then default_route_switch def6 EVT_WAN_CONN_LOSTV6 else mret def6);
          cfg_set_object_attr WANINFO_COMMON_NODE DefRouteIndexv6 new6);;
       when (negb (SVC_WAN_IS_BRIDGE c) && SVC_WAN_SRV_INTERNET c && SVC_WAN_DSLITE_ENABLE c && negb (streq def4 NA)
             && (idx o =? atoi def4))
         (new4 ← default_route_switch def4 EVT_WAN_CONN_LOSTV4;
          cfg_set_object_attr WANINFO_COMMON_NODE DefRouteIndexv4 new4)).

Definition update_default_route (pa : cstr) (evt : Z) : WM unit :=
  p ← svc_wan_find_object pa;
  match p with
  | None => mret tt
  | Some p =>
      o ← the p;
      let c := cfg o in
      (** The guards; the result is the gateway the event needs. *)
      gw ← (if evt =? EVT_WAN_CONN_GETV4 then
              if negb (is_set SVC_WAN_FLAG_UPV4 o) then mret None else gateway o (cs "GateWay") MAX_WAN_IPV4_ADDR_LEN
            else if evt =? EVT_WAN_CONN_GETV6 then
              if negb (is_set SVC_WAN_FLAG_UPV6 o) || negb (SVC_WAN_SRV_E8C_INTERNET c) then mret None
              else gateway o (cs "GateWay6") MAX_WAN_IPV6_ADDR_LEN
            else mret (Some []));
      match gw with
      | None => mret tt
      | Some gw => update_route_rest o evt gw
      end
  end.

End wan.
End WanRoute.
