(* ===== verification/WanCfg.v ===== *)
(** * Configuration of a WAN connection ([wan/wan_cfg.c])

    Reading a connection's attributes into its record, checking them, and
    publishing what a connected interface has got. *)

From stdpp Require Import gmap.
From S2P Require Import Prelude CString Text Utility WanObj.
Open Scope Z_scope.

Module WanCfg.
Import Text WanObj.

Section wan.
Context {W : Type} `{WanWorld W}.
Abbreviation WM := (M (wan W)).

(** ** Checking *)

(** The checks of static addresses and of the prefix always succeed. *)
Definition svc_wan_check_ipv4_static (c : wan_entry_cfg) : Z := 1.
Definition svc_wan_check_ipv6_static (c : wan_entry_cfg) : Z := 1.
Definition svc_wan_check_ipv6_pd (c : wan_entry_cfg) : Z := 1.

Definition one_of (v : Z) (l : list Z) : bool := existsb (Z.eqb v) l.

Definition svc_wan_check_cfg (c : wan_entry_cfg) : Z :=
  if negb (active c =? SVC_WAN_ATTR_ACTIVE_ENABLE) then 0
  else if negb (one_of (wanmode c) [SVC_WAN_ATTR_WANMODE_ROUTE; SVC_WAN_ATTR_WANMODE_BRIDGE]) then 0
  else if negb (one_of (linkmode c) [SVC_WAN_ATTR_LINKMODE_IP; SVC_WAN_ATTR_LINKMODE_PPP]) then 0
  else if negb (one_of (vtag c) [SVC_WAN_ATTR_VTAG_UNTAG; SVC_WAN_ATTR_VTAG_TRANS; SVC_WAN_ATTR_VTAG_TAG; SVC_WAN_ATTR_DOT1P_TAG_TRANS])
  then 0
  else if (vtag c =? SVC_WAN_ATTR_VTAG_TAG) && (4096 <=? vid c) then 0
  else if negb (one_of (version c) [SVC_WAN_ATTR_VERSION_IPV4; SVC_WAN_ATTR_VERSION_IPV6; SVC_WAN_ATTR_VERSION_BOTH]) then 0
  else if SVC_WAN_IS_BRIDGE c then 1
  else if SVC_WAN_IS_PPP c then 1
  else if SVC_WAN_IS_IPV4 c && negb (one_of (isp c) [SVC_WAN_ATTR_ISP_DHCP; SVC_WAN_ATTR_ISP_STATIC]) then 0
  else if SVC_WAN_IS_IPV4 c && SVC_WAN_IS_IPV4_STATIC c && (svc_wan_check_ipv4_static c <=? 0) then 0
  else if SVC_WAN_IS_IPV6 c
       && negb (one_of (ipv6mode c) [SVC_WAN_ATTR_IPV6MODE_DHCP; SVC_WAN_ATTR_IPV6MODE_SLAAC; SVC_WAN_ATTR_IPV6MODE_STATIC]) then 0
  else if SVC_WAN_IS_IPV6 c && SVC_WAN_IS_IPV6_STATIC c && (svc_wan_check_ipv6_static c <=? 0) then 0
  else if SVC_WAN_IS_IPV6 c && (dhcpv6pd c =? ENABLE) && (pdmode c =? SVC_WAN_ATTR_PDMODE_MANUAL) && (svc_wan_check_ipv6_pd c <=? 0)
  then 0
  else 1.

Definition svc_wan_cfg_get_system_protocol_version : WM Z :=
  v ← cfg_get_object_attr (cs "root.sys.entry") (cs "IPProtocolVersion") 64;
  mret (match v with Some (c :: t) => atoi (c :: t) | _ => E_SYSTEM_IPV4_IPV6_ENABLE end).

Definition svc_wan_set_intf_name (o : wan_entry_obj) : WM unit :=
  cfg_set_object_attr (path o) (cs "NASName") (dev o);;
  cfg_set_object_attr (path o) (cs "IFName") (svc_wan_intf_name o).

(** ** Loading *)

(** [cfg_get_object_attr] into [tmp]: whether the result is positive, and
    [tmp] afterwards.  [tmp] keeps what it had when there is no attribute. *)
Definition read (w : W) (pa attr tmp : cstr) : bool * cstr :=
  match cfg_get pa attr w with
  | Some v => (0 <? strlen (take 63 v), take 63 v)
  | None => (false, tmp)
  end.
Definition number (r : bool * cstr) (f : Z → Z) (otherwise : Z) : Z := if r.1 then f (atoi r.2) else otherwise.
Definition text (r : bool * cstr) (n : Datatypes.nat) : cstr := if r.1 then take n r.2 else [].
Definition found (s : cstr) (p : string) : bool := match strstr s (cs p) with Some _ => true | None => false end.
(** The value of the first string that is [s]. *)
Fixpoint choice (eq : cstr → cstr → bool) (s : cstr) (l : list (string * Z)) (otherwise : Z) : Z :=
  match l with
  | [] => otherwise
  | (n, v) :: l' => if eq s (cs n) then v else choice eq s l' otherwise
  end.

Definition service_type (w : W) (tmp : cstr) : Z :=
  let one (b : bool) (f : Z) := if b then f else 0 in
  Z.lor (one (found tmp "INTERNET") (Z.lor E_SRV_INTENET E_SRV_E8C_INTENET))
 (Z.lor (one (found tmp "OTHER") E_SRV_OTHER)
 (Z.lor (one (found tmp "TR069") (Z.lor E_SRV_TR069 E_SRV_E8C_TR069))
 (Z.lor (one (found tmp "VOICE") E_SRV_VOICE)
        (one (found tmp "SPECIAL_SERVICE_" && negb (found tmp "VR")) E_SRV_SPE_SER)))).

(** The attributes every connection has. *)
Definition load_link (w : W) (pa : cstr) : wan_entry_cfg * cstr :=
  let rd := read w pa in
  let t := (rd (cs "Active") []).2 in
  let active' := choice streq t [("Yes", SVC_WAN_ATTR_ACTIVE_ENABLE)] 0 in
  let t := (rd (cs "WanMode") t).2 in
  let wanmode' := choice streq t [("Route", SVC_WAN_ATTR_WANMODE_ROUTE); ("Bridge", SVC_WAN_ATTR_WANMODE_BRIDGE)] 0 in
  let t := (rd (cs "LinkMode") t).2 in
  let linkmode' := choice streq t [("linkIP", SVC_WAN_ATTR_LINKMODE_IP); ("linkPPP", SVC_WAN_ATTR_LINKMODE_PPP)] 0 in
  let r := rd (cs "VLANID") t in
  let vid' := number r u16 (u16 (-1)) in
  let r := rd (cs "dot1pData") r.2 in
  let dot1p' := number r schar 0 in
  let t := (rd (cs "VLANMode") r.2).2 in
  let tag := choice streq t [("UNTAG", 1); ("TRANSPARENT", 2); ("TAG", 3)] 0 in
  let t' := (rd (cs "v8021PEnable") []).2 in
  let vtag' := if tag =? 3 then choice streq t' [("No", 4)] 3 else tag in
  let t := if tag =? 3 then t' else t in
  let t := (rd (cs "IPVERSION") t).2 in
  let version' := choice streq t [("IPv4", 1); ("IPv6", 2); ("IPv4/IPv6", 3)] 0 in
  let isp' := number (rd (cs "ISP") t) schar (-1) in
  let r := rd (cs "ServiceList") [] in
  let srv_list' := text r 31 in
  let srv_type' := if r.1 then service_type w r.2 else 0 in
  let r := rd (cs "MTU") r.2 in
  let mtu' := number r u16 0 in
  let r := rd (cs "MulticastVID") r.2 in
  let mvid' := number r u16 0 in
  let proxy := number (rd (cs "ProxyEnable") []) schar 0 in
  let r := rd (cs "DHCPRealy") [] in
  let relay := if r.1 then choice case_eq r.2 [("Yes", 2); ("No", 1)] 0 else 0 in
  let r := rd (cs "DHCPEnable") [] in
  let dhcp := number r schar 0 in
  let c := {| vid := vid'; mvid := mvid'; mtu := mtu'; pdtm1 := 0; pdtm2 := 0; prefix6 := 0; bindbit := 0;
       active := active'; wanmode := wanmode'; linkmode := linkmode'; version := version'; dot1p := dot1p'; vtag := vtag'; isp := isp';
       conn_mode := 0; ppp_manual_status := 0; user := []; pwd := []; addrv4 := []; maskv4 := []; gwv4 := []; dns1v4 := []; dns2v4 := [];
       ipv6mode := 0; addrv6 := []; gwv6 := []; dns1v6 := []; dns2v6 := []; pd := 0; pdmode := 0; dhcpv6pd := 0; pdaddr := [];
       dslite := 0; dslite_mode := 0; srv_list := srv_list'; srv_type := srv_type'; gwv6_op := 0; ppp_hybrid := 0; pdorigin := [];
       proxyenable := proxy; dhcp_realy := relay; dhcp_enable := dhcp; npt := 0 |} in
  (c, r.2).

Definition with_bindbit b c := {| vid := vid c; mvid := mvid c; mtu := mtu c; pdtm1 := pdtm1 c; pdtm2 := pdtm2 c; prefix6 := prefix6 c;
  bindbit := b; active := active c; wanmode := wanmode c; linkmode := linkmode c; version := version c; dot1p := dot1p c;
  vtag := vtag c; isp := isp c; conn_mode := conn_mode c; ppp_manual_status := ppp_manual_status c; user := user c; pwd := pwd c;
  addrv4 := addrv4 c; maskv4 := maskv4 c; gwv4 := gwv4 c; dns1v4 := dns1v4 c; dns2v4 := dns2v4 c;
  ipv6mode := ipv6mode c; addrv6 := addrv6 c; gwv6 := gwv6 c; dns1v6 := dns1v6 c; dns2v6 := dns2v6 c;
  pd := pd c; pdmode := pdmode c; dhcpv6pd := dhcpv6pd c; pdaddr := pdaddr c; dslite := dslite c; dslite_mode := dslite_mode c;
  srv_list := srv_list c; srv_type := srv_type c; gwv6_op := gwv6_op c; ppp_hybrid := ppp_hybrid c; pdorigin := pdorigin c;
  proxyenable := proxyenable c; dhcp_realy := dhcp_realy c; dhcp_enable := dhcp_enable c; npt := npt c |}.

(** PPP.  The manual status is read, into a cleared [tmp], for one mode. *)
Definition load_ppp (w : W) (pa : cstr) (ct : wan_entry_cfg * cstr) : wan_entry_cfg * cstr :=
  let '(c, t) := ct in
  let rd := read w pa in
  let r := rd (cs "USERNAME") t in
  let user' := text r 63 in
  let r := rd (cs "PASSWORD") r.2 in
  let pwd' := text r 63 in
  let r := rd (cs "CONNECTION") [] in
  let mode := if r.1 then choice streq r.2 [("Connect_on_Demand", SVC_WAN_ATTR_CONNECT_ON_DEMAND);
                                             ("Connect_Manually", SVC_WAN_ATTR_CONNECT_MANUALLY)] SVC_WAN_ATTR_CONNECT_KEEP_ALIVE else 0 in
  let m := rd (cs "PPPManualStatus") [] in
  let manual := mode =? SVC_WAN_ATTR_CONNECT_MANUALLY in
  let status := if manual && m.1 && streq m.2 (cs "connect") then 1 else 0 in
  let t := (rd (cs "BridgeInterface") (if manual then m.2 else r.2)).2 in
  ({| vid := vid c; mvid := mvid c; mtu := mtu c; pdtm1 := pdtm1 c; pdtm2 := pdtm2 c; prefix6 := prefix6 c;
     bindbit := bindbit c; active := active c; wanmode := wanmode c; linkmode := linkmode c; version := version c; dot1p := dot1p c;
     vtag := vtag c; isp := isp c; conn_mode := mode; ppp_manual_status := status; user := user'; pwd := pwd';
     addrv4 := addrv4 c; maskv4 := maskv4 c; gwv4 := gwv4 c; dns1v4 := dns1v4 c; dns2v4 := dns2v4 c;
     ipv6mode := ipv6mode c; addrv6 := addrv6 c; gwv6 := gwv6 c; dns1v6 := dns1v6 c; dns2v6 := dns2v6 c;
     pd := pd c; pdmode := pdmode c; dhcpv6pd := dhcpv6pd c; pdaddr := pdaddr c; dslite := dslite c; dslite_mode := dslite_mode c;
     srv_list := srv_list c; srv_type := srv_type c; gwv6_op := gwv6_op c;
     ppp_hybrid := (if case_eq t (cs "Yes") then ENABLE else 0); pdorigin := pdorigin c;
     proxyenable := proxyenable c; dhcp_realy := dhcp_realy c; dhcp_enable := dhcp_enable c; npt := npt c |}, t).

Definition load_ipv4_static (w : W) (pa : cstr) (ct : wan_entry_cfg * cstr) : wan_entry_cfg * cstr :=
  let '(c, t) := ct in
  let rd := read w pa in
  let a := rd (cs "IPADDR") t in
  let m := rd (cs "NETMASK") a.2 in
  let g := rd (cs "GATEWAY") m.2 in
  let d1 := rd (cs "DNS") g.2 in
  let d2 := rd (cs "SecDNS") d1.2 in
  ({| vid := vid c; mvid := mvid c; mtu := mtu c; pdtm1 := pdtm1 c; pdtm2 := pdtm2 c; prefix6 := prefix6 c;
     bindbit := bindbit c; active := active c; wanmode := wanmode c; linkmode := linkmode c; version := version c; dot1p := dot1p c;
     vtag := vtag c; isp := isp c; conn_mode := conn_mode c; ppp_manual_status := ppp_manual_status c; user := user c; pwd := pwd c;
     addrv4 := text a 15; maskv4 := text m 15; gwv4 := text g 15; dns1v4 := text d1 15; dns2v4 := text d2 15;
     ipv6mode := ipv6mode c; addrv6 := addrv6 c; gwv6 := gwv6 c; dns1v6 := dns1v6 c; dns2v6 := dns2v6 c;
     pd := pd c; pdmode := pdmode c; dhcpv6pd := dhcpv6pd c; pdaddr := pdaddr c; dslite := dslite c; dslite_mode := dslite_mode c;
     srv_list := srv_list c; srv_type := srv_type c; gwv6_op := gwv6_op c; ppp_hybrid := ppp_hybrid c; pdorigin := pdorigin c;
     proxyenable := proxyenable c; dhcp_realy := dhcp_realy c; dhcp_enable := dhcp_enable c; npt := npt c |}, d2.2).

(** IPv6.  [DHCPv6PD] is read for [dhcpv6pd], and again for [pdmode].  The
    addresses are what their arrays of 48 bytes hold. *)
Definition load_ipv6 (w : W) (pa : cstr) (ct : wan_entry_cfg * cstr) : wan_entry_cfg :=
  let '(c, _) := ct in
  let rd := read w pa in
  let t := (rd (cs "DsliteEnable") []).2 in
  let dslite' := if case_eq t (cs "Yes") then ENABLE else DISABLE in
  let m := rd (cs "DsliteMode") [] in
  let on := dslite' =? ENABLE in
  let t := (rd (cs "DHCPv6") (if on then m.2 else t)).2 in
  let mode := choice case_eq t [("Yes", SVC_WAN_ATTR_IPV6MODE_DHCP); ("No", SVC_WAN_ATTR_IPV6MODE_SLAAC);
                                ("N/A", SVC_WAN_ATTR_IPV6MODE_STATIC)] 0 in
  let t := (rd (cs "DHCPv6PD") t).2 in
  let dhcpv6pd' := if case_eq t (cs "Yes") then ENABLE else 0 in
  let t := (rd (cs "PDEnable") t).2 in
  let pd' := if case_eq t (cs "Yes") then ENABLE else 0 in
  let t := (rd (cs "NPT") t).2 in
  let npt' := if case_eq t (cs "1") then ENABLE else DISABLE in
  let p := (rd (cs "DHCPv6PD") t).2 in
  let pdmode' := if pd' =? ENABLE
                 then choice case_eq p [("Yes", SVC_WAN_ATTR_PDMODE_AUTO); ("No", SVC_WAN_ATTR_PDMODE_MANUAL)] 0 else 0 in
  let t := if pd' =? ENABLE then p else t in
  let manual := pdmode' =? SVC_WAN_ATTR_PDMODE_MANUAL in
  let time attr := if manual then number (rd attr []) u32 0 else 0 in
  let t := if manual then (rd (cs "PrefixVltime") []).2 else t in
  let is_static := (mode =? SVC_WAN_ATTR_IPV6MODE_STATIC) && has (version c) SVC_WAN_ATTR_VERSION_IPV6 in
  let a := rd (cs "IPADDR6") t in
  let g := rd (cs "GATEWAY6") a.2 in
  let d1 := rd (cs "DNS6") g.2 in
  let d2 := rd (cs "SecDNS6") d1.2 in
  let addr r := if is_static then text r 48 else [] in
  let o := rd (cs "GW6_Manual") [] in
  {| vid := vid c; mvid := mvid c; mtu := mtu c; pdtm1 := time (cs "PrefixPltime"); pdtm2 := time (cs "PrefixVltime");
     prefix6 := number (rd (cs "PREFIX6") []) u16 0;
     bindbit := bindbit c; active := active c; wanmode := wanmode c; linkmode := linkmode c; version := version c; dot1p := dot1p c;
     vtag := vtag c; isp := isp c; conn_mode := conn_mode c; ppp_manual_status := ppp_manual_status c; user := user c; pwd := pwd c;
     addrv4 := addrv4 c; maskv4 := maskv4 c; gwv4 := gwv4 c; dns1v4 := dns1v4 c; dns2v4 := dns2v4 c;
     ipv6mode := mode; addrv6 := addr a; gwv6 := addr g; dns1v6 := addr d1; dns2v6 := addr d2;
     pd := pd'; pdmode := pdmode'; dhcpv6pd := dhcpv6pd'; pdaddr := (if manual then text (rd (cs "PDPrefix") []) 48 else []);
     dslite := dslite'; dslite_mode := (if on then number m schar 0 else 0);
     srv_list := srv_list c; srv_type := srv_type c;
     gwv6_op := (if o.1 && case_eq o.2 (cs "Yes") then SVC_WAN_ATTR_GWV6_OP_MANUAL else 0);
     ppp_hybrid := ppp_hybrid c; pdorigin := text (rd (cs "PDOrigin") []) 31;
     proxyenable := proxyenable c; dhcp_realy := dhcp_realy c; dhcp_enable := dhcp_enable c; npt := npt' |}.

Definition load_cfg (pa : cstr) (w : W) : wan_entry_cfg :=
  let '(c, t) := load_link w pa in
  let c := with_bindbit (u32 (get_port_binding_interface_info pa c w)) c in
  if SVC_WAN_IS_BRIDGE c then c
  else
    let ct := if SVC_WAN_IS_PPP c then load_ppp w pa (c, t) else (c, t) in
    let ct := if SVC_WAN_IS_IPV4_STATIC (ct.1) then load_ipv4_static w pa ct else ct in
    if SVC_WAN_IS_IPV6 (ct.1) then load_ipv6 w pa ct else ct.1.

(** It only reads; the result is always 0. *)
Definition svc_wan_load_cfg (pa : cstr) : WM wan_entry_cfg := ask (load_cfg pa).

Definition svc_wan_load_opt (p : positive) : WM Z :=
  o ← the p;
  (if SVC_WAN_IS_IPV4 (cfg o) then
     v ← cfg_get_object_attr (path o) (cs "NATENABLE") 64;
     match v with
     | Some (x :: v) => upd p (set_nat (if found (x :: v) "Enable" then 1 else 0))
     | _ => mret tt
     end
   else mret tt);;
  mret 0.

(** ** Publishing an interface's addresses *)

(** Sets the attributes to the lines of the file, as far as there are lines. *)
Definition publish (node dir name : cstr) (attrs : list cstr) : WM unit :=
  lines ← svc_wan_get_file_string (dir ++ cs "/" ++ name) (length attrs);
  foldr (λ al m, cfg_set_object_attr node al.1 al.2;; m) (mret tt) (zip attrs lines).

Definition svc_wan_set_ipv4_info (node dir : cstr) : WM unit :=
  cfg_set_object_attr node (cs "Status") (cs "up");;
  publish node dir (cs "ip") [cs "IP"];;
  publish node dir (cs "netmask") [cs "NetMask"];;
  publish node dir (cs "dns") [cs "DNS"; cs "SecDNS"];;
  publish node dir (cs "gateway") [cs "GateWay"].

Definition set_hwaddr (node d : cstr) : WM unit :=
  mac ← ask (wan_mac d); cfg_set_object_attr node (cs "hwaddr") mac.

Definition svc_wan_set_ipv6_info (node dir : cstr) (o : wan_entry_obj) : WM unit :=
  let c := cfg o in
  cfg_set_object_attr node (cs "Status6") (cs "up");;
  publish node dir (cs "ip6") [cs "IP6"];;
  publish node dir (cs "prefix6") [cs "PrefixLen6"];;
  publish node dir (cs "pd6") [cs "PD6"];;
  publish node dir (cs "orgpd6") [cs "OrgPD6"];;
  publish node dir (cs "pd6_ptime") [cs "PD6ptime"];;
  publish node dir (cs "pd6_vtime") [cs "PD6vtime"];;
  when (SVC_WAN_IPV6_PD_MANUAL c && streq (cs "Static") (pdorigin c))
    (cfg_set_object_attr node (cs "PD6") (pdaddr c);;
     cfg_set_object_attr node (cs "OrgPD6") (pdaddr c);;
     cfg_set_object_attr node (cs "PD6ptime") (fmt_d (s32 (pdtm1 c)));;
     cfg_set_object_attr node (cs "PD6vtime") (fmt_d (s32 (pdtm2 c))));;
  publish node dir (cs "dsliteaddr") [cs "DsliteAddr"];;
  publish node dir (cs "dslitename") [cs "DsliteName"];;
  publish node dir (cs "dns6") [cs "DNS6"; cs "SecDNS6"];;
  publish node dir (cs "gateway6") [cs "GateWay6"];;
  set_hwaddr node (dev o).

Definition clear_attrs (node : cstr) (attrs : list string) : WM unit :=
  foldr (λ a m, cfg_set_object_attr node (cs a) [];; m) (mret tt) attrs.

Definition svc_wan_clear_ipv6_info (node : cstr) (o : wan_entry_obj) : WM unit :=
  cfg_set_object_attr node (cs "Status6") (cs "down");;
  clear_attrs node ["IP6"; "PrefixLen6"; "PD6"; "OrgPD6"; "PD6ptime"; "PD6vtime"; "DsliteAddr"; "DsliteName"; "DNS6"; "SecDNS6";
                    "GateWay6"]%string;;
  set_hwaddr node (dev o).

Definition svc_wan_set_info (p : positive) (stat : Z) : WM Z :=
  o ← the p;
  let node := waninfo o in
  there ← ask (cfg_exists node);
  when (negb there) (tell (cfg_create node));;
  let dir := if SVC_WAN_IS_PPP (cfg o) then cs "/var/run/" ++ ppp_name (idx o) else cs "/var/run/" ++ dev o in
  (if stat =? EVT_WAN_CONN_GETV4 then svc_wan_set_ipv4_info node dir;; set_hwaddr node (dev o)
   else if stat =? EVT_WAN_CONN_LOSTV4 then
     cfg_set_object_attr node (cs "Status") (cs "down");;
     clear_attrs node ["IP"; "NetMask"; "DNS"; "SecDNS"; "GateWay"]%string;;
     set_hwaddr node (dev o)
   else if stat =? EVT_WAN_CONN_GETV6 then svc_wan_set_ipv6_info node dir o
   else when (stat =? EVT_WAN_CONN_LOSTV6) (svc_wan_clear_ipv6_info node o));;
  mret 0.

(** ** Connection errors, commits of the TR-069 client *)

Definition is_link_up : WM bool :=
  t ← cfg_get_object_attr (cs "root.xpon.common") (cs "trafficStatus") 64;
  e ← cfg_get_object_attr WANINFO_COMMON_NODE (cs "EthernetState") 8;
  mret (bool_decide (t = Some (cs "up")) || bool_decide (e = Some (cs "up"))).

Definition svc_wan_cfg_update_attr (pa : cstr) (c : wan_entry_cfg) (active : bool) : WM unit :=
  let set e := cfg_set_object_attr pa (cs "ConnectionError") (cs e) in
  if active then
    if SVC_WAN_IS_BRIDGE c then set "ERROR_NONE"
    else if SVC_WAN_IS_IP c then set "ERROR_NONE"
    else up ← is_link_up; if up : bool then set "ERROR_NO_ANSWER" else set "ERROR_NO_CARRIER"
  else set "ERROR_NOT_ENABLED_FOR_INTERNET".

Definition is_commit_from_tr069 : WM bool :=
  v ← cfg_get_object_attr (cs "root.webcustom.entry") (cs "tr69CommitWan") 8;
  match v with
  | None => mret false
  | Some v =>
      if atoi v =? 0 then mret false
      else cfg_set_object_attr (cs "root.webcustom.entry") (cs "tr69CommitWan") (cs "0");; mret true
  end.

End wan.
End WanCfg.
