(* ===== verification/WanDev.v ===== *)
(** * Devices, files and daemons of a WAN interface ([wan/wan_interface.c])

    The commands that make and remove the device of a connection, the files its
    daemons read, and the command line of [pppd].  None of it changes the list
    or the flags. *)

From stdpp Require Import gmap.
From S2P Require Import Prelude CString Text Utility WanObj WanCfg.
Open Scope Z_scope.

Module WanDev.
Import Text Utility WanObj WanCfg.

(** Operations of the rules: to add and to remove. *)
Definition E_ADD_PORT_BIND_RULE : Z := 1.
Definition E_DEL_PORT_BIND_RULE : Z := 2.
Definition E_ADD_DHCPRELAY_RULE : Z := 1.
Definition E_DEL_DHCPRELAY_RULE : Z := 2.
Definition E_ADD_DHCP_PORT_FILTER_RULE : Z := 1.
Definition E_DEL_DHCP_PORT_FILTER_RULE : Z := 4.
Definition E_CREAT_WAN_DEVICE : Z := 1.
Definition E_DEL_WAN_DEVICE : Z := 2.

Section wan.
Context {W : Type} `{WanWorld W}.
Abbreviation WM := (M (wan W)).

Definition RUN (d name : cstr) : cstr := cs "/var/run/" ++ d ++ cs "/" ++ name.
Definition echo (what op f : cstr) : WM unit := execute (cs "/bin/echo " ++ what ++ op ++ f).
Definition TO : cstr := cs " > ".
Definition APPEND : cstr := cs " >> ".

(** [wan_common.c]: the number in a file, and a process that is asked to end
    and then killed. *)
Definition svc_wan_get_pid (f : cstr) : WM Z :=
  t ← ask (file f); mret (match t with Some t => atoi t | None => 0 end).
Definition kill_file (signal f : cstr) : WM unit :=
  pid ← svc_wan_get_pid f;
  when (0 <? pid) (execute (cs "/bin/kill " ++ signal ++ cs " " ++ fmt_d pid)).
Definition svc_wan_kill_process (f : cstr) (release_source : bool) : WM unit :=
  when release_source (kill_file (cs "-15") f;; do_call (sleep 1));;
  kill_file (cs "-9") f.

(** ** Files *)

Definition line (s : string) : cstr := cs s ++ [10].
(** The text of [dhcp6c.conf]; -1 when the file cannot be created. *)
Definition create_dhcp6c_conf (d : cstr) (PD NA DSLite : bool) : WM Z :=
  let f := RUN d (cs "dhcp6c.conf") in
  let tab := [9] : cstr in
  let opt (b : bool) (t : cstr) := if b then t else [] in
  ok ← ask (fopen_ok f);
  if negb ok then mret (-1)
  else
    do_call (write_file f
      (take 63 (cs "interface " ++ d ++ line " {")
       ++ opt PD (tab ++ line "send ia-pd 213;") ++ opt NA (tab ++ line "send ia-na 210;")
       ++ tab ++ line "request domain-name;" ++ tab ++ line "request domain-name-servers;"
       ++ tab ++ cs "script " ++ [34] ++ cs "/usr/script/dhcp6c_script" ++ [34] ++ line ";" ++ tab ++ line "request vendor_opts;"
       ++ opt DSLite (tab ++ line "request dslite-name;")
       ++ opt (negb PD && negb NA) (tab ++ line "information-only;")
       ++ line "};"
       ++ opt PD (line "id-assoc pd 213 {" ++ tab ++ line "prefix-interface br0" ++ tab ++ line "{" ++ tab ++ tab ++ line "sla-len 0;"
                  ++ tab ++ line "};" ++ line "};")
       ++ opt NA (line "id-assoc na 210 { };")));;
    mret 0.

Definition prepare_start_dhcp6c (o : wan_entry_obj) : WM Z :=
  let c := cfg o in
  if negb (SVC_WAN_IS_IPV6 c) || SVC_WAN_IS_IPV6_STATIC c then mret 0
  else create_dhcp6c_conf (svc_wan_intf_name o) (dhcpv6pd c =? ENABLE) (SVC_WAN_IS_IPV6_DHCP c)
         (negb (SVC_WAN_IS_BRIDGE c) && SVC_WAN_SRV_INTERNET c && SVC_WAN_DSLITE_ENABLE c).

(** The directory of an interface's files. *)
Definition conf_dir (o : wan_entry_obj) : cstr :=
  if SVC_WAN_IS_BRIDGE (cfg o) then cs "/var/run/" ++ dev o
  else if SVC_WAN_IS_PPP (cfg o) then cs "/var/run/" ++ ppp_name (idx o)
  else cs "/var/run/" ++ dev o.

Definition svc_wan_create_conf (o : wan_entry_obj) : WM Z :=
  if strlen (dev o) =? 0 then mret (-1)
  else
    let file_in name := take 31 (take 31 (conf_dir o) ++ name) in
    let f := file_in (cs "/pvc.conf") in
    do_call (mkdir (take 31 (conf_dir o)));;
    ok ← ask (fopen_ok f);
    if negb ok then mret (-1)
    else
      do_call (write_file f []);;
      do_call (cfg_save_attrs_to_file (take 31 (cs "root.wan.pvc." ++ fmt_d (Z.quot (idx o) 8 + 1))) f);;
      idle ← cfg_get_object_attr (path o) (cs "CLOSEIFIDLE") 32;
      (match idle with Some (_ :: _) => mret tt | _ => cfg_set_object_attr (path o) (cs "CLOSEIFIDLE") (cs "1800") end);;
      do_call (cfg_save_attrs_to_file (path o) (file_in (cs "/interface.conf")));;
      prepare_start_dhcp6c o.
Definition svc_wan_delete_conf (o : wan_entry_obj) : WM Z :=
  if strlen (dev o) =? 0 then mret (-1) else execute (take 31 (cs "/bin/rm -rf " ++ conf_dir o));; mret 0.

(** ** Devices *)

(** [doValPut] of [cfg/utility.c]; the text is the format of its [fprintf]. *)
Definition doValPut (f text : cstr) : WM unit := ok ← ask (fopen_ok f); when ok (do_call (write_file f text)).
Definition svc_save_protect_wan_info (o : wan_entry_obj) : WM unit :=
  let c := cfg o in
  let attack_file := cs "/proc/tc3162/attackprotector" in
  let put (what : string) := mac ← ask (wan_mac (dev o)); doValPut attack_file (cs what ++ mac) in
  when (SVC_WAN_SRV_TR069 c) (put "T ");;
  when (has (srv_type c) E_SRV_VOICE) (put "V ";; doValPut attack_file (cs "D 5060")).

Definition svc_wan_create_device (o : wan_entry_obj) : WM Z :=
  let c := cfg o in
  let mode := if SVC_WAN_IS_BRIDGE c then Some "bridge" else if SVC_WAN_IS_PPP_HYBRID c then Some "pppoe_bi"
              else if SVC_WAN_IS_PPP c then Some "pppoe" else if SVC_WAN_IS_IP c then Some "ipoe" else None in
  match mode with
  | None => mret (-1)
  | Some mode =>
      t ← cfg_get_object_attr (cs "root.wan.common") (cs "TransMode") 16;
      let base := if bool_decide (t = Some (cs "Ethernet")) then cs "nas10"
                  else if bool_decide (t = Some (cs "ActiveEtherWan")) then cs "ae_wan" else cs "pon" in
      execute (cs "/usr/bin/smuxctl add " ++ cs mode ++ cs " " ++ base ++ cs " " ++ dev o ++ cs " " ++ fmt_d (vtag c) ++ cs " "
               ++ fmt_d (vid c) ++ cs " " ++ fmt_d (dot1p c) ++ cs " " ++ fmt_d (mvid c));;
      when (SVC_WAN_IS_BRIDGE c)
        (execute (cs "/usr/bin/smuxctl ipversion " ++ dev o ++ cs " "
                  ++ fmt_d (if version c =? SVC_WAN_ATTR_VERSION_BOTH then 0 else version c)));;
      svc_save_protect_wan_info o;;
      mret 0
  end.
Definition svc_wan_delete_device (d : cstr) : WM unit := execute (cs "/usr/bin/smuxctl rem " ++ d ++ cs " ").
Definition svc_wan_start_device (o : wan_entry_obj) : WM unit := execute (cs "/sbin/ifconfig " ++ dev o ++ cs " up").
Definition svc_wan_stop_device (o : wan_entry_obj) : WM unit :=
  execute (cs "/sbin/ifconfig " ++ dev o ++ cs " down");; execute (cs "/userfs/bin/hw_nat -!").


Definition clamp (tables op d : cstr) : WM unit :=
  execute (tables ++ op ++ cs " FORWARD -o " ++ d ++ cs " -p tcp --tcp-flags SYN,RST SYN -j TCPMSS --clamp-mss-to-pmtu").
Definition svc_wan_mtu_conf (o : wan_entry_obj) (action : Z) : WM unit :=
  let c := cfg o in
  let d := svc_wan_intf_name o in
  if SVC_WAN_IS_BRIDGE c then mret tt
  else
    when (action =? E_CREAT_WAN_DEVICE)
      (execute (cs "/sbin/ifconfig " ++ dev o ++ cs " mtu " ++ fmt_d (if negb (mtu c =? 0) then mtu c else 1500)));;
    if action =? E_CREAT_WAN_DEVICE then
      clamp (cs "/usr/bin/iptables") (cs " -A") d;; clamp (cs "/usr/bin/ip6tables") (cs " -I") d
    else clamp (cs "/usr/bin/iptables") (cs " -D") d;; clamp (cs "/usr/bin/ip6tables") (cs " -D") d.

Definition svc_wan_config_intf_attr (o : wan_entry_obj) (protocol_version : Z) : WM unit :=
  when (negb (protocol_version =? E_SYSTEM_ONLY_IPV4_ENABLE) && negb (SVC_WAN_IS_IPV6 (cfg o)))
    (execute (cs "echo 1 > /proc/sys/net/ipv6/conf/" ++ dev o ++ cs "/disable_ipv6")).

(** [wan_nat.c]. *)
Definition check_nat_enable : WM unit :=
  nat_flag ← each_obj (λ _ o, mret (if negb (nat o =? 0) then Some tt else None));
  match nat_flag with
  | Some _ => execute (cs "iptables -t raw -F")
  | None =>
      execute (cs "iptables -t raw -A PREROUTING -j NOTRACK");;
      execute (cs "iptables -t raw -A OUTPUT -j NOTRACK")
  end.

Definition svc_wan_do_something_creat_intf (o : wan_entry_obj) (protocol_version : Z) : WM unit :=
  svc_wan_set_intf_name o;;
  full ← ask (is_full_route_enable o);
  do_call (full_route_execute o);;
  when (negb full)
    (do_call (set_port_binding_info2 (path o) E_DEL_PORT_BIND_RULE);;
     do_call (set_port_binding_info2 (path o) E_ADD_PORT_BIND_RULE));;
  when (SVC_WAN_IS_BRIDGE (cfg o)) (do_call (set_DHCPRelay_info o E_ADD_DHCPRELAY_RULE));;
  do_call (set_DHCP_PortFilter_info o E_ADD_DHCP_PORT_FILTER_RULE);;
  check_nat_enable;;
  svc_wan_mtu_conf o E_CREAT_WAN_DEVICE;;
  svc_wan_config_intf_attr o protocol_version;;
  do_call (svc_wan_vlanbind_execute (Some o) 0);;
  do_call (restartVPN o).

Definition svc_wan_do_something_del_intf (p : positive) : WM unit :=
  o ← the p;
  svc_wan_mtu_conf o E_DEL_WAN_DEVICE;;
  do_call (close_table_by_ifIndex (idx o));;
  do_call (set_port_binding_info2 (path o) E_DEL_PORT_BIND_RULE);;
  do_call (set_DHCP_PortFilter_info o E_DEL_DHCP_PORT_FILTER_RULE);;
  do_call (set_DHCPRelay_info o E_DEL_DHCPRELAY_RULE);;
  do_call (stop_dslite o).

(** ** PPP *)

(** The options of [pppd], in the order they are appended to [parm], whose 512
    bytes they do not fill. *)
Definition ppp_version_options (c : wan_entry_cfg) (protocol_flag : Z) : cstr :=
  if protocol_flag =? E_SYSTEM_IPV4_IPV6_ENABLE then
    if (version c =? SVC_WAN_ATTR_VERSION_BOTH) && negb (SVC_WAN_DSLITE_ENABLE c) then cs " ipv6 , "
    else if SVC_WAN_IS_IPV6 c then cs " ipv6 , noip" else []
  else if protocol_flag =? E_SYSTEM_ONLY_IPV6_ENABLE then
    if SVC_WAN_IS_IPV6 c then cs " ipv6 , noip" else cs " noip"
  else if protocol_flag =? E_SYSTEM_ONLY_IPV4_ENABLE then
    if ((version c =? SVC_WAN_ATTR_VERSION_BOTH) && SVC_WAN_DSLITE_ENABLE c) || (version c =? SVC_WAN_ATTR_VERSION_IPV6) then cs " noip"
    else []
  else [].
Definition ppp_parm (d idletime : cstr) (c : wan_entry_cfg) (protocol_flag : Z) : cstr :=
  cs "nodetach holdoff 4 maxfail 0 usepeerdns lcp-echo-interval 10 lcp-echo-failure 6"
  ++ cs " plugin pppoe " ++ d
  ++ cs " noipdefault"
  ++ (if SVC_WAN_IS_CONN_ON_DEMAND c then cs " demand idle " ++ idletime else cs " persist")
  ++ (if negb (mtu c =? 0) then cs " mtu " ++ fmt_d (mtu c) ++ cs " mru " ++ fmt_d (mtu c) else [])
  ++ ppp_version_options c protocol_flag.
(** Where the gateway set by hand is written to a file. *)
Definition ppp_manual_gateway (c : wan_entry_cfg) (protocol_flag : Z) : bool :=
  SVC_WAN_GWV6_IS_MANUAL c &&
  (if protocol_flag =? E_SYSTEM_IPV4_IPV6_ENABLE then
     ((version c =? SVC_WAN_ATTR_VERSION_BOTH) && negb (SVC_WAN_DSLITE_ENABLE c)) || SVC_WAN_IS_IPV6 c
   else if protocol_flag =? E_SYSTEM_ONLY_IPV6_ENABLE then SVC_WAN_IS_IPV6 c
   else if protocol_flag =? E_SYSTEM_ONLY_IPV4_ENABLE then
     ((version c =? SVC_WAN_ATTR_VERSION_BOTH) && SVC_WAN_DSLITE_ENABLE c) || (version c =? SVC_WAN_ATTR_VERSION_IPV6)
   else false).

(** A value between double quotes, escaped into 256 cleared bytes. *)
Definition ESCAPE_VAL (v : cstr) : cstr :=
  match escape_param (Some v) (Some (replicate 256 0)) 256 with Ok t => t | _ => [] end.
(** The arrays for commands have 512 bytes. *)
Definition pppd_command (i : Z) (c : wan_entry_cfg) (parm : cstr) : cstr :=
  take 511 (cs "/usr/bin/pppd unit " ++ fmt_d i ++ cs " user " ++ ESCAPE_VAL (user c) ++ cs " password " ++ ESCAPE_VAL (pwd c)
            ++ cs " " ++ parm).
Definition PPP_START_SH : cstr := cs "/usr/script/pppd_start.sh".
Definition ppp_start_command (i : Z) (cmd : cstr) : cstr :=
  take 511 (PPP_START_SH ++ cs " " ++ [34] ++ cmd ++ [34] ++ cs " ppp" ++ fmt_d i).
Definition ppp_conf_command (i : Z) (cmd : cstr) : cstr :=
  take 511 (cs "/bin/echo " ++ [34] ++ cmd ++ cs " &" ++ [34] ++ cs " > /var/tmp/ppp" ++ fmt_d i ++ cs ".conf").

(** [svc_wan_execute_cmd_normal] does not check the command. *)
Definition svc_wan_execute_cmd_normal (cmd : cstr) : WM unit := do_call (system cmd).

Definition svc_wan_start_ppp (p : positive) (protocol_flag : Z) : WM Z :=
  o ← the p;
  let c := cfg o in
  let ppp := ppp_name (idx o) in
  idle ← (if SVC_WAN_IS_CONN_ON_DEMAND c then cfg_get_object_attr (path o) (cs "CLOSEIFIDLE") 32 else mret None);
  let idletime := match idle with Some (x :: t) => x :: t | _ => cs "1800" end in
  when (ppp_manual_gateway c protocol_flag) (echo (gwv6 c) TO (RUN (dev o) (cs "gateway6")));;
  let cmd := pppd_command (idx o) c (ppp_parm (dev o) idletime c protocol_flag) in
  upd p (set_pid4 (take 31 (cs "/var/run/" ++ ppp ++ cs "/" ++ ppp ++ cs ".pid")));;
  svc_wan_execute_cmd_normal (ppp_start_command (idx o) cmd);;
  svc_wan_execute_cmd_normal (ppp_conf_command (idx o) cmd);;
  when (SVC_WAN_IS_IPV6_SLAAC c) (echo (cs "1") TO (cs "/proc/sys/net/ipv6/conf/" ++ ppp ++ cs "/autoconf"));;
  when (SVC_WAN_IS_PPP_HYBRID c)
    (execute (cs "/userfs/bin/pppoe-relay -C br0 -S " ++ dev o ++ cs " &");;
     pid ← svc_wan_get_pid (take 31 (cs "/var/run/pppoe-relay_" ++ dev o ++ cs ".pid"));
     when (0 <? pid) (execute (cs "renice -10 " ++ fmt_d pid)));;
  mret 0.

Definition stop_pppoe_relay (o : wan_entry_obj) : WM Z :=
  let f := cs "/var/run/pppoe-relay_" ++ dev o ++ cs ".pid" in
  svc_wan_kill_process f true;; do_call (unlink f);; mret 0.

End wan.
End WanDev.
