(* ===== verification/WanMgr.v ===== *)
(** * Connections coming and going ([wan/wan_mgr.c], [wan/wan_interface.c])

    Addresses gained and lost on an interface, starting and stopping an
    interface, and what the service does when a connection's configuration
    changes or goes. *)

From stdpp Require Import gmap.
From S2P Require Import Prelude CString Text Utility WanObj WanRoute WanCfg WanDev.
Open Scope Z_scope.

Module WanMgr.
Import Text Utility WanObj WanRoute WanCfg WanDev.

Section wan.
Context {W : Type} `{WanWorld W}.
Abbreviation WM := (M (wan W)).

(** ** Addresses gained and lost *)

Definition EBTABLES_FILTER : cstr := cs "ebtables -t filter".

Definition bridge_up_down (p : positive) (evt : Z) : WM Z :=
  o ← the p;
  let node := match get_entry_number_cfg2 (path o) (cs "pvc."), get_entry_number_cfg2 (path o) (cs "entry.") with
              | Some pvc, Some entry => WANINFO_ENTRY_NODE ((pvc - 1) * MAX_WAN_ENTRY_NUMBER + entry)
              | _, _ => []
              end in
  there ← (if strlen node =? 0 then mret true else ask (cfg_exists node));
  when (negb there) (tell (cfg_create node));;
  let rule (op rest : string) := execute (EBTABLES_FILTER ++ cs " " ++ cs op ++ cs " INPUT -i " ++ dev o ++ cs rest) in
  (if evt =? EVT_WAN_BRIDGE_UP then
     cfg_set_object_attr node (cs "Status") (cs "up");;
     rule "-A" " -p IPv4 --ip-proto 17 --ip-dport 67 -j DROP";;
     rule "-A" " -p IPv6 --ip6-proto 17 --ip6-dport 547 -j DROP";;
     do_call (svc_wan_mgr_send_evt EVT_WAN_BRIDGE_UP (path o))
   else when (evt =? EVT_WAN_BRIDGE_DOWN)
     (cfg_set_object_attr node (cs "Status") (cs "down");;
      rule "-D" " -p IPv4 --ip-proto 17 --ip-dport 67 -j DROP 2>/dev/null";;
      rule "-D" " -p IPv6 --ip6-proto 17 --ip6-dport 547 -j DROP 2>/dev/null";;
      do_call (svc_wan_mgr_send_evt EVT_WAN_BRIDGE_DOWN (path o))));;
  mret 0.

(** [wan_nat.c]. *)
Definition IPTABLES_NAT : cstr := cs "iptables -t nat".
Definition nat_rule (a d b : cstr) : WM unit := execute (IPTABLES_NAT ++ cs " " ++ a ++ d ++ b).
Definition svc_wan_start_intf_nat (d : cstr) : WM unit :=
  if strlen d =? 0 then mret tt
  else
    nat_rule (cs "-A POSTROUTING -o ") d (cs " -j MASQUERADE");;
    nat_rule (cs "-N VS_") d [];;
    nat_rule (cs "-N DMZ_") d [];;
    nat_rule (cs "-A PREROUTING -j VS_") d [];;
    nat_rule (cs "-A PREROUTING -j DMZ_") d [];;
    execute (cs "/usr/script/nat_stop.sh " ++ d);;
    execute (cs "/usr/script/nat_start.sh " ++ d).
Definition svc_wan_stop_intf_nat (d : cstr) : WM unit :=
  if strlen d =? 0 then mret tt
  else
    nat_rule (cs "-D POSTROUTING -p all -o ") d (cs " -j MASQUERADE");;
    nat_rule (cs "-D PREROUTING -j VS_") d [];;
    nat_rule (cs "-D PREROUTING -j DMZ_") d [];;
    nat_rule (cs "-F VS_") d [];;
    nat_rule (cs "-F DMZ_") d [];;
    nat_rule (cs "-X VS_") d [];;
    nat_rule (cs "-X DMZ_") d [].

Definition svc_wan_handle_conn_evt (p : positive) (evt : Z) : WM Z :=
  o ← the p;
  let itf_name := svc_wan_intf_name o in
  let on_demand v6 := do_call (del_route_via_ondemand v6 (Z.quot (idx o) SVC_WAN_MAX_PVC_NUM)
                                 (Z.rem (idx o) SVC_WAN_MAX_ENTRY_NUM) itf_name) in
  let wan_status := cfg_set_object_attr (cs "root.globalstate.common") (cs "WanStatus") (cs "1") in
  do_call (set_policy_route o evt);;
  do_call (update_wan_up_time o evt);;
  (if (evt =? EVT_WAN_BRIDGE_UP) || (evt =? EVT_WAN_BRIDGE_DOWN) then bridge_up_down p evt;; mret tt
   else if evt =? EVT_WAN_CONN_GETV4 then
     when (negb (nat o =? 0)) (svc_wan_start_intf_nat itf_name);;
     do_call (set_port_binding_info o false);;
     on_demand false;;
     update_default_route (path o) EVT_WAN_CONN_GETV4;;
     do_call (check_route (path o));;
     do_call (misc_srv_manage (path o) EVT_WAN_CONN_GETV4);;
     do_call (wan_ip_change_inform (path o) EVT_WAN_CONN_GETV4);;
     do_call restart_dnsmasq;;
     wan_status;;
     do_call (svc_wan_update_tr69_vip o evt)
   else if evt =? EVT_WAN_CONN_LOSTV4 then
     when (negb (nat o =? 0)) (svc_wan_stop_intf_nat itf_name);;
     do_call (set_port_binding_info o false);;
     update_default_route (path o) EVT_WAN_CONN_LOSTV4;;
     do_call (misc_srv_manage (path o) EVT_WAN_CONN_LOSTV4);;
     do_call (wan_ip_change_inform (path o) EVT_WAN_CONN_LOSTV4);;
     do_call (svc_wan_update_tr69_vip o evt)
   else if evt =? EVT_WAN_CONN_GETV6 then
     do_call (check_static_route6 (path o));;
     do_call (set_port_binding_info o true);;
     on_demand true;;
     update_default_route (path o) EVT_WAN_CONN_GETV6;;
     do_call (update_pd_info o EVT_WAN_CONN_GETV6);;
     do_call (misc_srv_manage (path o) EVT_WAN_CONN_GETV6);;
     do_call (wan_ip_change_inform (path o) EVT_WAN_CONN_GETV6);;
     do_call restart_dnsmasq;;
     wan_status
   else when (evt =? EVT_WAN_CONN_LOSTV6)
     (do_call (set_port_binding_info o true);;
      update_default_route (path o) EVT_WAN_CONN_LOSTV6;;
      do_call (update_pd_info o EVT_WAN_CONN_LOSTV6);;
      do_call (misc_srv_manage (path o) EVT_WAN_CONN_LOSTV6);;
      do_call (wan_ip_change_inform (path o) EVT_WAN_CONN_LOSTV6);;
      do_call (stop_dslite o)));;
  mret 0.

Definition svc_wan_handle_event_conn_getv4 (d : cstr) : WM Z :=
  p ← svc_wan_find_object_by_dev d;
  match p with
  | None => mret (-1)
  | Some p =>
      o ← the p;
      if is_set SVC_WAN_FLAG_UPV4 o then mret 0
      else
        upd p (raise SVC_WAN_FLAG_UPV4);;
        svc_wan_set_info p EVT_WAN_CONN_GETV4;;
        svc_wan_handle_conn_evt p EVT_WAN_CONN_GETV4;;
        do_call (svc_wan_mgr_send_evt EVT_WAN_IPV4_UP (path o));;
        mret 0
  end.

Definition check_ipv6_info_ready (o : wan_entry_obj) : WM bool :=
  let ready name :=
    l ← svc_wan_get_file_string (cs "/var/run/" ++ svc_wan_intf_name o ++ cs "/" ++ cs name) 1;
    mret (0 <? zlen l) in
  ip6 ← ready "ip6";
  if negb ip6 then mret false
  else
    prefix ← ready "prefix6";
    if negb prefix then mret false
    else
      nodns ← ready "nodns6";
      dns ← (if nodns : bool then mret true else ready "dns6");
      if negb dns then mret false else ready "gateway6".

Definition svc_wan_handle_event_conn_getv6 (d : cstr) : WM Z :=
  p ← svc_wan_find_object_by_dev d;
  match p with
  | None => mret (-1)
  | Some p =>
      o ← the p;
      if is_set SVC_WAN_FLAG_UPV6 o && negb (SVC_WAN_IS_IPV6_SLAAC (cfg o)) then mret 0
      else
        ready ← check_ipv6_info_ready o;
        if negb ready then mret 0
        else
          upd p (raise SVC_WAN_FLAG_UPV6);;
          svc_wan_set_info p EVT_WAN_CONN_GETV6;;
          svc_wan_handle_conn_evt p EVT_WAN_CONN_GETV6;;
          do_call (svc_wan_mgr_send_evt EVT_WAN_IPV6_UP (path o));;
          mret 0
  end.

Definition svc_wan_handle_event_conn_lostv4_deal (p : positive) : WM unit :=
  upd p (lower SVC_WAN_FLAG_UPV4);;
  svc_wan_set_info p EVT_WAN_CONN_LOSTV4;;
  svc_wan_handle_conn_evt p EVT_WAN_CONN_LOSTV4;;
  o ← the p;
  do_call (svc_wan_mgr_send_evt EVT_WAN_IPV4_DOWN (path o)).

Definition svc_wan_handle_event_conn_lostv6_deal (p : positive) : WM unit :=
  upd p (lower SVC_WAN_FLAG_UPV6);;
  o ← the p;
  cfg_set_object_attr (waninfo o) (cs "Status6") (cs "down");;
  svc_wan_set_info p EVT_WAN_CONN_LOSTV6;;
  svc_wan_handle_conn_evt p EVT_WAN_CONN_LOSTV6;;
  do_call (svc_wan_mgr_send_evt EVT_WAN_IPV6_DOWN (path o)).

Definition svc_wan_handle_event_conn_lostv4 (d : cstr) : WM Z :=
  p ← svc_wan_find_object_by_dev d;
  match p with
  | None => mret (-1)
  | Some p =>
      o ← the p;
      if negb (is_set SVC_WAN_FLAG_UPV4 o) then mret 0
      else if SVC_WAN_IS_IPV4_STATIC (cfg o) then mret 0
      else svc_wan_handle_event_conn_lostv4_deal p;; mret 0
  end.

Definition svc_wan_handle_event_conn_lostv6 (d : cstr) : WM Z :=
  p ← svc_wan_find_object_by_dev d;
  match p with
  | None => mret (-1)
  | Some p =>
      o ← the p;
      if negb (is_set SVC_WAN_FLAG_UPV6 o) then mret 0
      else if SVC_WAN_IS_IPV6_STATIC (cfg o) then mret 0
      else svc_wan_handle_event_conn_lostv6_deal p;; mret 0
  end.

(** ** Starting an interface ([wan_interface.c]) *)

Definition svc_wan_start_ipv4_dhcp (p : positive) : WM Z :=
  o ← the p;
  upd p (set_pid4 (take 31 (RUN (dev o) (cs "udhcpc.pid"))));;
  execute (cs "/sbin/udhcpc -i " ++ dev o ++ cs " -s /usr/script/udhcpc_nodef.sh -p " ++ RUN (dev o) (cs "udhcpc.pid") ++ cs " &");;
  mret 0.

(** The arrays for a command have 64 bytes. *)
Definition svc_wan_start_ipv4_static (p : positive) : WM Z :=
  o ← the p;
  let c := cfg o in
  let put what op name := execute (take 63 (cs "/bin/echo " ++ what ++ op ++ take 31 (RUN (dev o) (cs name)))) in
  put (cs "up") TO "status";;
  put (addrv4 c) TO "ip";;
  put (maskv4 c) TO "netmask";;
  put (gwv4 c) TO "gateway";;
  put (dns1v4 c) TO "dns";;
  put (dns2v4 c) APPEND "dns";;
  execute (take 63 (cs "/sbin/ifconfig " ++ dev o ++ cs " " ++ addrv4 c ++ cs " netmask " ++ maskv4 c));;
  svc_wan_handle_event_conn_getv4 (dev o);;
  mret 0.

Definition start_dhcp6c (p : positive) : WM Z :=
  o ← the p;
  let c := cfg o in
  let d := dev o in
  when (SVC_WAN_IS_IPV6_SLAAC c) (echo (cs "1") TO (cs "/proc/sys/net/ipv6/conf/" ++ d ++ cs "/autoconf"));;
  upd p (set_pid6 (take 31 (RUN d (cs "dhcp6c.pid"))));;
  (if negb (SVC_WAN_IPV6_PD_ENABLE c) then
     execute (take 255 (cs "/userfs/bin/dhcp6c -c " ++ RUN d (cs "dhcp6c.conf") ++ cs " -p " ++ RUN d (cs "dhcp6c.pid") ++ cs " " ++ d ++ cs " &"))
   else
     execute (take 255 (cs "/userfs/bin/dhcp6c -c " ++ RUN d (cs "dhcp6c.conf") ++ cs " -p " ++ RUN d (cs "dhcp6c.pid")
                         ++ cs " -x " ++ RUN d (cs "pd6") ++ cs " -X " ++ RUN d (cs "orgpd6") ++ cs " -u " ++ RUN d (cs "pd6_ptime")
                         ++ cs " -v " ++ RUN d (cs "pd6_vtime") ++ cs " " ++ d ++ cs " &")));;
  when (SVC_WAN_GWV6_IS_MANUAL c) (echo (gwv6 c) TO (RUN d (cs "gateway6")));;
  mret 0.

Definition svc_wan_start_ipv6_dhcp : positive → WM Z := start_dhcp6c.
Definition svc_wan_start_ipv6_slaac : positive → WM Z := start_dhcp6c.

Definition svc_wan_start_ipv6_static (p : positive) : WM Z :=
  o ← the p;
  let c := cfg o in
  let d := dev o in
  execute (cs "/sbin/ifconfig " ++ d ++ cs " " ++ addrv6 c ++ cs "/" ++ fmt_d (prefix6 c));;
  echo (addrv6 c) TO (RUN d (cs "ip6"));;
  echo (fmt_d (prefix6 c)) TO (RUN d (cs "prefix6"));;
  when (SVC_WAN_GWV6_IS_MANUAL c) (echo (gwv6 c) TO (RUN d (cs "gateway6")));;
  echo (dns1v6 c) TO (RUN d (cs "dns6"));;
  echo (dns2v6 c) APPEND (RUN d (cs "dns6"));;
  echo (cs "up") TO (RUN d (cs "status6"));;
  svc_wan_handle_event_conn_getv6 d;;
  mret 0.

(** Gives up the upstream interface of a proxy. *)
Definition leave_proxy (o : wan_entry_obj) (node kill : cstr) : WM bool :=
  v ← cfg_get_object_attr node (cs "UpstreamIF") 32;
  let proxy_if := default [] v in
  if (0 <? strlen proxy_if) && (streq (dev o) proxy_if || streq (ppp_name (idx o)) proxy_if) then
    cfg_set_object_attr node (cs "UpstreamIF") [];;
    cfg_set_object_attr node (cs "Active") (cs "No");;
    do_call (system kill);;
    mret true
  else mret false.

Definition svc_wan_start_bridge (p : positive) : WM Z :=
  o ← the p;
  igmp ← leave_proxy o (cs "root.igmpproxy.entry") (cs "killall igmpproxy &");
  mld ← leave_proxy o (cs "root.mldproxy.entry") (cs "killall ecmh &");
  when (igmp || mld) (do_call cfg_evt_write_romfile_to_flash);;
  echo (cs "up") TO (RUN (dev o) (cs "status"));;
  execute (cs "/usr/bin/brctl addif br0 " ++ dev o);;
  execute (take 63 (cs "echo 2 > /sys/class/net/br0/brif/" ++ dev o ++ cs "/multicast_router"));;
  svc_wan_handle_conn_evt p EVT_WAN_BRIDGE_UP;;
  mret 0.

(** The IPv4 and the IPv6 part of an interface without PPP; false is
    [goto error]. *)
Definition start_ip4 (p : positive) (c : wan_entry_cfg) : WM bool :=
  if SVC_WAN_IS_IPV4 c then
    if SVC_WAN_IS_IPV4_DHCP c && negb (SVC_WAN_DSLITE_ENABLE c) then svc_wan_start_ipv4_dhcp p;; mret true
    else if SVC_WAN_IS_IPV4_STATIC c then svc_wan_start_ipv4_static p;; mret true
    else mret (SVC_WAN_IS_IPV6 c)
  else mret true.
Definition start_ip6 (p : positive) (c : wan_entry_cfg) : WM bool :=
  if SVC_WAN_IS_IPV6 c then
    if SVC_WAN_IS_IPV6_DHCP c then svc_wan_start_ipv6_dhcp p;; mret true
    else if SVC_WAN_IS_IPV6_STATIC c then svc_wan_start_ipv6_static p;; mret true
    else if SVC_WAN_IS_IPV6_SLAAC c then svc_wan_start_ipv6_slaac p;; mret true
    else mret false
  else mret true.

Definition svc_wan_do_start_intf (p : positive) : WM Z :=
  o ← the p;
  let c := cfg o in
  protocol_version ← svc_wan_cfg_get_system_protocol_version;
  r ← svc_wan_create_conf o;
  if r <? 0 then mret (-1)
  else
    r ← svc_wan_create_device o;
    if r <? 0 then mret (-1)
    else
      svc_wan_do_something_creat_intf o protocol_version;;
      svc_wan_start_device o;;
      ok ← (if SVC_WAN_IS_BRIDGE c then svc_wan_start_bridge p;; mret true
            else if SVC_WAN_IS_PPP c then svc_wan_start_ppp p protocol_version;; mret true
            else if SVC_WAN_IS_IP c then
              ok ← (if protocol_version =? E_SYSTEM_ONLY_IPV6_ENABLE then mret true else start_ip4 p c);
              if negb ok then mret false
              else if protocol_version =? E_SYSTEM_ONLY_IPV4_ENABLE then mret true else start_ip6 p c
            else mret false);
      if ok : bool then mret 0
      else
        svc_wan_do_something_del_intf p;;
        svc_wan_delete_device (dev o);;
        svc_wan_delete_conf o;;
        mret (-1).

(** ** Stopping an interface *)

Definition svc_wan_stop_ipv4_dhcp (p : positive) : WM Z :=
  o ← the p;
  svc_wan_kill_process (pid4 o) true;;
  svc_wan_handle_event_conn_lostv4 (dev o);;
  mret 0.

Definition svc_wan_stop_ipv4_static (p : positive) : WM Z :=
  o ← the p;
  echo (cs "down") TO (take 31 (RUN (dev o) (cs "status")));;
  execute (cs "/sbin/ifconfig " ++ dev o ++ cs " 0.0.0.0");;
  svc_wan_handle_event_conn_lostv4_deal p;;
  mret 0.

(** The events an interface of PPP is given when it stops. *)
Definition ppp_lost (c : wan_entry_cfg) (d : cstr) : WM unit :=
  if SVC_WAN_IS_IPV4 c && SVC_WAN_IS_IPV6 c && negb (SVC_WAN_DSLITE_ENABLE c) then
    svc_wan_handle_event_conn_lostv6 d;; svc_wan_handle_event_conn_lostv4 d;; mret tt
  else if SVC_WAN_IS_IPV6 c then svc_wan_handle_event_conn_lostv6 d;; mret tt
  else if SVC_WAN_IS_IPV4 c then svc_wan_handle_event_conn_lostv4 d;; mret tt
  else mret tt.

Definition svc_wan_stop_ppp (p : positive) : WM Z :=
  o ← the p;
  let c := cfg o in
  execute (cs "/bin/rm -f /var/tmp/ppp" ++ fmt_d (idx o) ++ cs ".conf");;
  when (SVC_WAN_IS_PPP_HYBRID c)
    (stop_pppoe_relay o;; execute (cs "/usr/bin/ip link set br0 promisc off"));;
  svc_wan_kill_process (pid4 o) true;;
  ppp_lost c (ppp_name (idx o));;
  mret 0.

Definition svc_wan_stop_bridge (p : positive) : WM Z :=
  o ← the p;
  echo (cs "down") TO (RUN (dev o) (cs "status"));;
  execute (cs "/usr/bin/brctl delif br0 " ++ dev o);;
  svc_wan_handle_conn_evt p EVT_WAN_BRIDGE_DOWN;;
  mret 0.

Definition stop_dhcp6c (p : positive) : WM Z :=
  o ← the p;
  svc_wan_kill_process (pid6 o) true;;
  svc_wan_handle_event_conn_lostv6 (dev o);;
  mret 0.
Definition svc_wan_stop_ipv6_dhcp : positive → WM Z := stop_dhcp6c.
Definition svc_wan_stop_ipv6_slaac : positive → WM Z := stop_dhcp6c.

Definition svc_wan_stop_ipv6_static (p : positive) : WM Z :=
  o ← the p;
  echo (cs "down") TO (take 31 (RUN (dev o) (cs "status6")));;
  svc_wan_handle_event_conn_lostv6_deal p;;
  mret 0.

Definition stop_ip4 (p : positive) (c : wan_entry_cfg) : WM bool :=
  if SVC_WAN_IS_IPV4 c then
    if SVC_WAN_IS_IPV4_DHCP c then svc_wan_stop_ipv4_dhcp p;; mret true
    else if SVC_WAN_IS_IPV4_STATIC c then svc_wan_stop_ipv4_static p;; mret true
    else mret (SVC_WAN_IS_IPV6 c)
  else mret true.
Definition stop_ip6 (p : positive) (c : wan_entry_cfg) : WM bool :=
  if SVC_WAN_IS_IPV6 c then
    if SVC_WAN_IS_IPV6_DHCP c then svc_wan_stop_ipv6_dhcp p;; mret true
    else if SVC_WAN_IS_IPV6_STATIC c then svc_wan_stop_ipv6_static p;; mret true
    else if SVC_WAN_IS_IPV6_SLAAC c then svc_wan_stop_ipv6_slaac p;; mret true
    else mret false
  else mret true.

Definition svc_wan_do_stop_intf (p : positive) : WM Z :=
  o ← the p;
  let c := cfg o in
  ok ← (if SVC_WAN_IS_BRIDGE c then svc_wan_stop_bridge p;; mret true
        else if SVC_WAN_IS_PPP c then svc_wan_stop_ppp p;; mret true
        else if SVC_WAN_IS_IP c then
          ok ← stop_ip4 p c;
          if negb ok then mret false else stop_ip6 p c
        else mret false);
  if negb ok then mret (-1)
  else
    svc_wan_do_something_del_intf p;;
    o ← the p;
    svc_wan_stop_device o;;
    svc_wan_delete_device (dev o);;
    do_call (restartVPN o);;
    svc_wan_delete_conf o;;
    mret 0.

(** ** Requests ([wan_mgr.c]) *)

Definition svc_wan_stop_intf (p : positive) : WM Z :=
  o ← the p;
  if negb (is_set SVC_WAN_FLAG_STARTED o) then mret 0
  else svc_wan_do_stop_intf p;; upd p (lower SVC_WAN_FLAG_STARTED);; mret 0.

Definition svc_wan_check_xpon_up : Z := 1.

Definition svc_wan_start_intf (p : positive) : WM Z :=
  o ← the p;
  if is_set SVC_WAN_FLAG_STARTED o then mret 0
  else if svc_wan_check_xpon_up <=? 0 then mret 0
  else if svc_wan_check_cfg (cfg o) <=? 0 then mret 0
  else
    ret ← svc_wan_do_start_intf p;
    when (SVC_WAN_IS_CONN_ON_DEMAND (cfg o)) (do_call (set_ondemand_route_state (idx o)));;
    do_call (ClearOndemandWanHisAddr (idx o));;
    when (ret =? 0) (do_call (set_childprefx_file o));;
    upd p (raise SVC_WAN_FLAG_STARTED);;
    mret 0.

(** The test equipment mode of one static connection. *)
Definition avalanche (tmp : wan_entry_cfg) : WM unit :=
  v ← cfg_get_object_attr (cs "root.system.entry") (cs "avalActive") 16;
  on ← gets is_avalanche_on;
  let state := cfg_set_object_attr (cs "root.globalstate.common") (cs "is_avalanche_start") in
  when (bool_decide (v = Some (cs "1")) && SVC_WAN_SRV_INTERNET tmp)
    (if SVC_WAN_IS_ROUTE tmp && (isp tmp =? SVC_WAN_ATTR_ISP_STATIC) && (vid tmp =? 900) then
       when (on =? 0) (modify (with_avalanche 1);; state (cs "Yes");; do_call (system (cs "/usr/script/avalanche_start.sh &")))
     else
       when (on =? 1) (modify (with_avalanche 0);; state [];; do_call (system (cs "/usr/script/avalanche_stop.sh &")))).

Definition svc_wan_update_object (p : positive) : WM Z :=
  o ← the p;
  tmp ← svc_wan_load_cfg (path o);
  avalanche tmp;;
  let was := active (cfg o) in
  let now := active tmp in
  let off := SVC_WAN_ATTR_ACTIVE_DISABLE in
  let on := SVC_WAN_ATTR_ACTIVE_ENABLE in
  if negb (((was =? off) && (now =? on)) || ((was =? on) && (now =? off)) || ((was =? on) && (now =? on))) then mret 0
  else
    tr069 ← (if SVC_WAN_SRV_TR069 (cfg o) then is_commit_from_tr069 else mret false);
    let effect := negb tr069 in
    if (was =? off) && (now =? on) then
      upd p (set_cfg tmp);;
      svc_wan_cfg_update_attr (path o) tmp true;;
      svc_wan_load_opt p;;
      when effect (svc_wan_start_intf p;; mret tt);;
      mret 0
    else if (was =? on) && (now =? off) then
      svc_wan_cfg_update_attr (path o) (cfg o) false;;
      when effect (svc_wan_stop_intf p;; mret tt);;
      upd p (set_cfg tmp);;
      mret 0
    else
      when effect (svc_wan_stop_intf p;; mret tt);;
      upd p (set_cfg tmp);;
      svc_wan_cfg_update_attr (path o) tmp true;;
      svc_wan_load_opt p;;
      when effect (svc_wan_start_intf p;; mret tt);;
      mret 0.

Definition del_object_do_something (p : positive) : WM unit :=
  o ← the p;
  tell (cfg_delete (waninfo o));;
  do_call (del_static_route o).

(** [svc_wan_vlanbind_execute] is given the pointer of the freed object, which
    it does not follow with the flag 1. *)
Definition svc_wan_delete_object (p : positive) : WM Z :=
  svc_wan_stop_intf p;;
  del_object_do_something p;;
  svc_wan_del_from_list p;;
  o ← gets (λ s, objs s !! p);
  do_call (svc_wan_vlanbind_execute o 1);;
  do_call restart_dnsmasq;;
  mret 0.

Definition svc_wan_handle_event_delete (pa : cstr) : WM Z :=
  p ← svc_wan_find_object pa;
  match p with
  | None => mret (-1)
  | Some p => svc_wan_delete_object p;; do_call checkVoipWan;; mret 0
  end.

Definition svc_wan_handle_event_update (pa : cstr) : WM Z :=
  there ← ask (cfg_exists pa);
  if negb there then mret 0
  else
    found ← svc_wan_find_object pa;
    match found with
    | Some p => svc_wan_update_object p;; mret 0
    | None =>
        ids ← ask (path_ids pa);
        match ids with
        | [_; _; pvc; entry] =>
            let pvc := u32 (pvc - 1) in
            let entry := u32 (entry - 1) in
            if (SVC_WAN_MAX_PVC_NUM <=? pvc) || (SVC_WAN_MAX_ENTRY_NUM <=? entry) then mret (-1)
            else
              p ← svc_wan_create_object;
              match p with
              | None => mret (-1)
              | Some p =>
                  upd p (set_name (take 31 pa) (u8 (pvc * SVC_WAN_MAX_ENTRY_NUM + entry)) (take 15 (nas_name (s32 pvc) (s32 entry))));;
                  svc_wan_update_object p;;
                  mret 0
              end
        | _ => mret (-1)
        end
    end.

Definition svc_wan_confirm_delete_node (buf : cstr) : WM unit :=
  there ← ask (cfg_exists buf);
  if negb there then mret tt
  else
    v ← cfg_get_object_attr buf (cs "Active") 16;
    match v with
    | Some _ => mret tt
    | None =>
        tell (cfg_delete buf);;
        let pa := take 63 buf in
        let pa := match strstr pa (cs ".entry.") with Some (pre, _) => pre | None => pa end in
        kids ← ask (cfg_children pa (cs "entry"));
        when (zlen kids <=? 0) (tell (cfg_delete pa))
    end.

(** The list is emptied, each object being stopped first. *)
Fixpoint stop_all (fuel : Datatypes.nat) (p : option positive) : WM unit :=
  match p with
  | None => mret tt
  | Some a =>
      match fuel with
      | O => out_of_fuel
      | S fuel' =>
          o ← the a;
          svc_wan_stop_intf a;;
          svc_wan_del_from_list a;;
          stop_all fuel' (next o)
      end
  end.
Definition svc_wan_stop_all_wan_entry : WM Z :=
  n ← gets (λ s, size (objs s));
  head ← gets svc_wan_entry_list;
  stop_all n head;;
  svc_wan_init_obj_list;;
  mret 0.

(** ** Events *)

(** The events about connections and their configuration. *)
Inductive wan_event :=
| EVT_CFG_DELETE (path : cstr)
| EVT_CFG_UPDATE (path : cstr)
| EVT_CONN_GETV4 (dev : cstr)
| EVT_CONN_GETV6 (dev : cstr)
| EVT_CONN_LOSTV4 (dev : cstr)
| EVT_CONN_LOSTV6 (dev : cstr).

(** The cases of these events. *)
Definition svc_wan_mgr_handle_event (event : wan_event) : WM Z :=
  match event with
  | EVT_CFG_DELETE buf =>
      do_call (svc_wan_mgr_send_evt EVT_WAN_ENTRY_DELETE buf);;
      ret ← svc_wan_handle_event_delete buf;
      svc_wan_confirm_delete_node buf;;
      mret ret
  | EVT_CFG_UPDATE buf =>
      do_call (svc_wan_mgr_send_evt EVT_WAN_ENTRY_UPDATE buf);;
      svc_wan_handle_event_update buf
  | EVT_CONN_GETV4 buf => svc_wan_handle_event_conn_getv4 buf
  | EVT_CONN_GETV6 buf => svc_wan_handle_event_conn_getv6 buf
  | EVT_CONN_LOSTV4 buf => svc_wan_handle_event_conn_lostv4 buf
  | EVT_CONN_LOSTV6 buf => svc_wan_handle_event_conn_lostv6 buf
  end.

(** ** Starting all connections *)

(** A query stores the numbers of all instances in an array of eight. *)
Definition query8 (node type : cstr) : WM (list Z) :=
  ids ← ask (cfg_children node type);
  if SVC_WAN_MAX_PVC_NUM <? zlen ids then lift Fault else mret ids.

(** [tmp] holds the last service list that was read. *)
Fixpoint start_entries (isInternet first_only : bool) (pvc : Z) (entry : list Z) (tmp : cstr) : WM cstr :=
  match entry with
  | [] => mret tmp
  | e :: entry' =>
      let node := take 31 (cs "root.wan.pvc." ++ fmt_d pvc ++ cs ".entry." ++ fmt_d e) in
      if first_only then
        svc_wan_mgr_handle_event (EVT_CFG_UPDATE node);;
        start_entries isInternet first_only pvc entry' tmp
      else
        v ← cfg_get_object_attr node (cs "ServiceList") 64;
        let tmp := default tmp v in
        when (Bool.eqb isInternet (found tmp "INTERNET")) (svc_wan_mgr_handle_event (EVT_CFG_UPDATE node);; mret tt);;
        start_entries isInternet first_only pvc entry' tmp
  end.
Fixpoint start_pvcs (isInternet first_only : bool) (pvc : list Z) (tmp : cstr) : WM unit :=
  match pvc with
  | [] => mret tt
  | i :: pvc' =>
      entry ← query8 (take 31 (cs "root.wan.pvc." ++ fmt_d i)) (cs "entry");
      tmp ← start_entries isInternet first_only i entry tmp;
      start_pvcs isInternet first_only pvc' tmp
  end.
Definition svc_wan_start_all_wan_entry (isInternet : bool) : WM Z :=
  v ← cfg_get_object_attr (cs "root.wan.common") (cs "InternetNotFirst") 12;
  let internetnotfirst := match v with Some (c :: t) => negb (atoi (c :: t) =? 0) | _ => false end in
  if internetnotfirst && negb isInternet then mret 0
  else
    pvc ← query8 (cs "root.wan") (cs "pvc");
    start_pvcs isInternet internetnotfirst pvc [];;
    mret 0.

(** [wan_svc.c]: connections for the Internet are started first. *)
Definition svc_wan_start : WM Z :=
  svc_wan_start_all_wan_entry true;;
  svc_wan_start_all_wan_entry false;;
  mret 0.
Definition svc_wan_stop : WM Z := svc_wan_stop_all_wan_entry;; mret 0.

End wan.
End WanMgr.
