(* ===== verification/WanList.v ===== *)
(** * The list of WAN objects, abstractly

    Which list of objects the pointers of a state stand for, and what the
    functions of [wan_link_list.c] do to that list.  Also the weakest
    preconditions in which the theorems on the service are proved. *)

From stdpp Require Import gmap.
From S2P Require Import Prelude CString Text Utility WanObj.
Open Scope Z_scope.

Module WanList.
Import Text Utility WanObj.

Section wan.
Context {W : Type} `{WanWorld W}.
Abbreviation WM := (M (wan W)).

(** ** Runs that return *)

(** [m] returns from [s], with a result and a state that satisfy [Q]. *)
Definition wp {A} (m : WM A) (s : wan W) (Q : A → wan W → Prop) : Prop :=
  match m s with Ok (a, s') => Q a s' | _ => False end.

Lemma wp_run {A} (m : WM A) s Q : wp m s Q → ∃ a s', m s = Ok (a, s') ∧ Q a s'.
Proof. unfold wp. destruct (m s) as [[a s']| |]; [eauto|done|done]. Qed.
Lemma wp_Ok {A} (m : WM A) s a s' (Q : A → wan W → Prop) : m s = Ok (a, s') → Q a s' → wp m s Q.
Proof. unfold wp. by intros ->. Qed.
Lemma wp_bind {A B} (m : WM A) (f : A → WM B) s Q : wp m s (λ a s', wp (f a) s' Q) → wp (mbind f m) s Q.
Proof. unfold wp, mbind, M_bind. by destruct (m s) as [[a s']| |]. Qed.
Lemma wp_ret {A} (a : A) s (Q : A → wan W → Prop) : Q a s → wp (mret a) s Q.
Proof. done. Qed.
Lemma wp_mono {A} (m : WM A) s (Q Q' : A → wan W → Prop) : wp m s Q → (∀ a s', Q a s' → Q' a s') → wp m s Q'.
Proof. unfold wp. destruct (m s) as [[a s']| |]; eauto. Qed.
Lemma wp_gets {A} (f : wan W → A) s (Q : A → wan W → Prop) : Q (f s) s → wp (gets f) s Q.
Proof. done. Qed.
Lemma wp_ask {A} (f : W → A) s (Q : A → wan W → Prop) : Q (f (world s)) s → wp (ask f) s Q.
Proof. done. Qed.
Lemma wp_the p o s (Q : wan_entry_obj → wan W → Prop) : objs s !! p = Some o → Q o s → wp (the p) s Q.
Proof. unfold wp, the. by intros ->. Qed.
Lemma the_run p o (s : wan W) : objs s !! p = Some o → the p s = Ok (o, s).
Proof. unfold the. by intros ->. Qed.
Lemma upd_obj_run p o f (s : wan W) : objs s !! p = Some o → upd p f s = Ok (tt, with_objs (<[p := f o]> (objs s)) s).
Proof.
  intros Hp. unfold upd. step_by (the_run _ _ _ Hp). unfold modify.
  assert (E : alter f p (objs s) = <[p := f o]> (objs s)); [|by rewrite E].
  apply map_eq. intros a. destruct (decide (a = p)) as [->|].
  - by rewrite lookup_alter_eq, lookup_insert_eq, Hp.
  - by rewrite lookup_alter_ne, lookup_insert_ne.
Qed.
Lemma wp_upd p o f s (Q : unit → wan W → Prop) :
  objs s !! p = Some o → Q tt (with_objs (<[p := f o]> (objs s)) s) → wp (upd p f) s Q.
Proof. intros Hp HQ. by apply (wp_Ok _ _ _ _ _ (upd_obj_run _ _ _ _ Hp)). Qed.
Lemma wp_when (b : bool) (m : WM unit) s Q : (b = true → wp m s Q) → (b = false → Q tt s) → wp (when b m) s Q.
Proof. destruct b; intros Ht Hf; [by apply Ht|by apply Hf]. Qed.

(** ** Chains of pointers *)

Fixpoint chain (m : gmap positive wan_entry_obj) (p : option positive) (l : list (positive * wan_entry_obj)) : Prop :=
  match l with
  | [] => p = None
  | (a, o) :: l' => p = Some a ∧ m !! a = Some o ∧ chain m (next o) l'
  end.

(** The state's list is [l]. *)
Definition wan_rep (s : wan W) (l : list (positive * wan_entry_obj)) : Prop :=
  chain (objs s) (svc_wan_entry_list s) l ∧ NoDup l.*1.

Lemma chain_lookup m p l a o : chain m p l → (a, o) ∈ l → m !! a = Some o.
Proof.
  revert p. induction l as [|[b o'] l IH]; intros p Hc Hin; [set_solver|].
  destruct Hc as (-> & Hb & Hc). apply elem_of_cons in Hin as [[= -> ->]|Hin]; eauto.
Qed.

Lemma chain_frame m m' p l : chain m p l → (∀ a, a ∈ l.*1 → m' !! a = m !! a) → chain m' p l.
Proof.
  revert p. induction l as [|[b o] l IH]; intros p Hc Hm; [done|].
  destruct Hc as (-> & Hb & Hc). split; [done|]. split; [by rewrite Hm by set_solver|].
  apply IH; [done|]. intros a Ha. apply Hm. set_solver.
Qed.

Lemma chain_insert m p l a o : chain m p l → a ∉ l.*1 → chain (<[a := o]> m) p l.
Proof. intros Hc Ha. apply (chain_frame m); [done|]. intros b Hb. apply lookup_insert_ne. by intros ->. Qed.
Lemma chain_delete m p l a : chain m p l → a ∉ l.*1 → chain (delete a m) p l.
Proof. intros Hc Ha. apply (chain_frame m); [done|]. intros b Hb. apply lookup_delete_ne. by intros ->. Qed.

(** A change of an object that keeps its successor. *)
Definition at_obj (p : positive) (o : wan_entry_obj) (ao : positive * wan_entry_obj) : positive * wan_entry_obj :=
  (ao.1, if decide (ao.1 = p) then o else ao.2).
Lemma chain_change m q l p o o' : chain m q l → m !! p = Some o → next o' = next o → chain (<[p := o']> m) q (at_obj p o' <$> l).
Proof.
  intros Hc Hp Hn. revert q Hc. induction l as [|[a oa] l IH]; intros q Hc; [done|].
  destruct Hc as (-> & Ha & Hc). cbn. split; [done|]. case_decide as E.
  - subst a. simplify_eq. split; [by rewrite lookup_insert_eq|]. rewrite Hn. by apply IH.
  - split; [by rewrite lookup_insert_ne|]. by apply IH.
Qed.
Lemma at_obj_fst p o l : (at_obj p o <$> l).*1 = l.*1.
Proof. rewrite <- list_fmap_compose. by apply list_fmap_ext. Qed.

Lemma rep_change s l p o f :
  wan_rep s l → objs s !! p = Some o → next (f o) = next o →
  wan_rep (with_objs (<[p := f o]> (objs s)) s) (at_obj p (f o) <$> l).
Proof.
  intros [Hc Hnd] Hp Hn. split; [by apply (chain_change _ _ _ _ o)|]. by rewrite at_obj_fst.
Qed.

(** A walk has fuel for the whole list. *)
Lemma rep_length s l : wan_rep s l → (length l ≤ size (objs s))%nat.
Proof.
  intros [Hc Hnd]. rewrite <- (length_fmap fst l), <- size_dom, <- (size_list_to_set (C := gset positive)) by done.
  apply subseteq_size. intros a Ha%elem_of_list_to_set.
  apply list_elem_of_fmap in Ha as ([b o] & -> & Hin). apply elem_of_dom. exists o. by apply (chain_lookup _ _ _ _ _ Hc).
Qed.

Lemma rep_in s l a o : wan_rep s l → (a, o) ∈ l → objs s !! a = Some o.
Proof. intros [Hc _]. by eapply chain_lookup. Qed.
Lemma rep_elem s l a o : wan_rep s l → a ∈ l.*1 → objs s !! a = Some o → (a, o) ∈ l.
Proof.
  intros Hr ([b o'] & -> & Hin)%list_elem_of_fmap Ho. cbn in Ho. rewrite (rep_in _ _ _ _ Hr Hin) in Ho. by simplify_eq.
Qed.

(** ** Walks *)

(** A walk whose body does not touch the objects before it stops. *)
Lemma for_objs_walk {A} (body : positive → wan_entry_obj → WM (option A)) (I : list (positive * wan_entry_obj) → wan W → Prop) l n p s Q :
  chain (objs s) p l → (length l ≤ n)%nat → I l s →
  (∀ s', I [] s' → Q None s') →
  (∀ a o l' s', objs s' = objs s → chain (objs s') (Some a) ((a, o) :: l') → I ((a, o) :: l') s' →
     wp (body a o) s' (λ r s'', match r with Some x => Q (Some x) s'' | None => objs s'' = objs s ∧ I l' s'' end)) →
  wp (for_objs n p body) s Q.
Proof.
  intros Hc Hn HI Hend Hbody. remember (objs s) as m eqn:Hm. revert p n s Hm Hc Hn HI.
  induction l as [|[a o] l IH]; intros p n s Hm Hc Hn HI.
  - cbn in Hc. subst p. destruct n; apply wp_ret; by apply Hend.
  - pose proof Hc as (-> & Ha & Hc'). destruct n as [|n]; cbn in Hn; [lia|]. cbn [for_objs].
    apply wp_bind, (wp_the _ o); [by rewrite <- Hm|]. apply wp_bind.
    eapply wp_mono; [apply (Hbody a o l s); [by symmetry|by rewrite <- Hm|done]|].
    intros [x|] s' HQ; [by apply wp_ret|]. destruct HQ as [Hs' HI']. cbn beta iota.
    apply wp_bind, (wp_the _ o); [by rewrite Hs'|]. apply IH; [by symmetry|done|lia|done].
Qed.

(** A search that only looks at the objects. *)
Lemma for_objs_find {A} (f : positive → wan_entry_obj → option A) l n p (s : wan W) :
  chain (objs s) p l → (length l ≤ n)%nat →
  for_objs n p (λ a o, mret (f a o)) s = Ok (list.head (omap (λ ao, f ao.1 ao.2) l), s).
Proof.
  revert p n. induction l as [|[a o] l IH]; intros p n Hc Hn.
  - cbn in Hc. subst p. by destruct n.
  - destruct Hc as (-> & Ha & Hc). destruct n as [|n]; cbn in Hn; [lia|]. cbn [for_objs omap list_omap fst snd].
    rewrite (M_bind_Ok _ _ _ o s) by (unfold the; by rewrite Ha).
    rewrite (M_bind_Ok _ _ _ (f a o) s) by done. destruct (f a o) as [x|]; [done|].
    rewrite (M_bind_Ok _ _ _ o s) by (unfold the; by rewrite Ha). apply IH; [done|lia].
Qed.

Lemma each_obj_find {A} (f : positive → wan_entry_obj → option A) l (s : wan W) :
  wan_rep s l → each_obj (λ a o, mret (f a o)) s = Ok (list.head (omap (λ ao, f ao.1 ao.2) l), s).
Proof. intros Hr. apply for_objs_find; [apply Hr|by apply rep_length]. Qed.

Definition find_path (pa : cstr) (l : list (positive * wan_entry_obj)) : option positive :=
  list.head (omap (λ ao, if streq (path ao.2) pa then Some ao.1 else None) l).
Definition find_idx (i : Z) (l : list (positive * wan_entry_obj)) : option positive :=
  list.head (omap (λ ao, if i =? idx ao.2 then Some ao.1 else None) l).

Lemma find_object_run pa (s : wan W) l : wan_rep s l → svc_wan_find_object pa s = Ok (find_path pa l, s).
Proof. intros Hr. exact (each_obj_find (λ a o, if streq (path o) pa then Some a else None) l s Hr). Qed.
Lemma find_by_dev_run d i (s : wan W) l :
  get_wanindex_by_name d = i → 0 ≤ i → wan_rep s l → svc_wan_find_object_by_dev d s = Ok (find_idx i l, s).
Proof.
  intros Hd Hi Hr. unfold svc_wan_find_object_by_dev. rewrite Hd. destruct (i <? 0) eqn:E; [zbool|].
  exact (each_obj_find (λ a o, if i =? idx o then Some a else None) l s Hr).
Qed.

Lemma head_omap_elem {A B} (f : A → option B) (l : list A) b : list.head (omap f l) = Some b → ∃ a, a ∈ l ∧ f a = Some b.
Proof.
  induction l as [|a l IH]; [done|]. cbn. destruct (f a) eqn:E.
  - intros [= ->]. exists a. set_solver.
  - intros (a' & ? & ?)%IH. exists a'. set_solver.
Qed.
Lemma head_omap_none {A B} (f : A → option B) (l : list A) a : list.head (omap f l) = None → a ∈ l → f a = None.
Proof. induction l as [|b l IH]; [set_solver|]. cbn. destruct (f b) eqn:E; [done|]. intros Hn [->|Hin]%elem_of_cons; eauto. Qed.

Lemma find_path_elem pa l p : find_path pa l = Some p → ∃ o, (p, o) ∈ l ∧ path o = pa.
Proof.
  intros ([a o] & Hin & Hf)%head_omap_elem. cbn in Hf. destruct (streq _ _) eqn:E; simplify_eq. exists o. by apply streq_eq in E.
Qed.
Lemma find_path_none pa l p o : find_path pa l = None → (p, o) ∈ l → path o ≠ pa.
Proof. intros Hn Hin Hp. pose proof (head_omap_none _ _ _ Hn Hin) as E. cbn in E. by rewrite (proj2 (streq_eq _ _) Hp) in E. Qed.
Lemma find_idx_elem i l p : find_idx i l = Some p → ∃ o, (p, o) ∈ l ∧ idx o = i.
Proof. intros ([a o] & Hin & Hf)%head_omap_elem. cbn in Hf. destruct (_ =? _) eqn:E; simplify_eq. exists o. zbool. done. Qed.
Lemma find_idx_none i l p o : find_idx i l = None → (p, o) ∈ l → idx o ≠ i.
Proof.
  intros Hn Hin Hi. pose proof (head_omap_none _ _ _ Hn Hin) as E. cbn in E. subst i. by rewrite Z.eqb_refl in E.
Qed.

(** ** Adding and removing *)

Lemma last_obj_run l n p a o (s : wan W) :
  chain (objs s) (Some p) (l ++ [(a, o)]) → (length l < n)%nat → last_obj n p s = Ok (a, s).
Proof.
  revert p n. induction l as [|[b ob] l IH]; intros p n Hc Hn; (destruct n as [|n]; [cbn in Hn; lia|]); cbn in Hc.
  - destruct Hc as (E & Ha & Hnone). simplify_eq. cbn [last_obj].
    rewrite (M_bind_Ok _ _ _ o s) by (unfold the; by rewrite Ha). by rewrite Hnone.
  - destruct Hc as (E & Hb & Hc). simplify_eq. cbn [last_obj].
    rewrite (M_bind_Ok _ _ _ ob s) by (unfold the; by rewrite Hb).
    destruct (next ob) as [q|] eqn:Hq; [|by destruct l as [|[]]; destruct Hc]. apply IH; [done|cbn in Hn; lia].
Qed.

Lemma chain_snoc m p l a o b ob :
  chain m p (l ++ [(a, o)]) → a ∉ l.*1 → b ∉ (l ++ [(a, o)]).*1 → next ob = None →
  chain (<[b := ob]> (<[a := set_next (Some b) o]> m)) p (l ++ [(a, set_next (Some b) o); (b, ob)]).
Proof.
  intros Hc Ha Hb Hn. revert p Hc Ha Hb. induction l as [|[c oc] l IH]; intros p Hc Ha Hb.
  - destruct Hc as (-> & Hm & _). apply not_elem_of_cons in Hb as [Hb _]. cbn in Hb. cbn [chain app]. split; [done|].
    split; [rewrite lookup_insert_ne by done; apply lookup_insert_eq|].
    split; [done|]. split; [apply lookup_insert_eq|done].
  - destruct Hc as (-> & Hm & Hc). cbn [app fmap list_fmap] in Ha, Hb. apply not_elem_of_cons in Ha as [Hac Ha].
    apply not_elem_of_cons in Hb as [Hbc Hb]. cbn in Hac, Hbc. cbn [chain app]. split; [done|].
    split; [by rewrite !lookup_insert_ne|]. by apply IH.
Qed.

(** The objects without their successors. *)
Definition unlinked (s : wan W) : gmap positive wan_entry_obj := set_next None <$> objs s.
Lemma unlinked_same (m : gmap positive wan_entry_obj) a o q : m !! a = Some o → set_next None <$> <[a := set_next q o]> m = set_next None <$> m.
Proof. intros Ha. rewrite fmap_insert. apply insert_id. by rewrite lookup_fmap, Ha. Qed.

(** Entries without the successor. *)
Definition plain (l : list (positive * wan_entry_obj)) : list (positive * wan_entry_obj) := prod_map id (set_next None) <$> l.

Lemma add_to_list_run s l p o :
  wan_rep s l → objs s !! p = Some o → p ∉ l.*1 →
  ∃ s' l', svc_wan_add_to_list p s = Ok (0, s') ∧ wan_rep s' l' ∧ plain l' = plain (l ++ [(p, o)]) ∧ world s' = world s ∧
    is_avalanche_on s' = is_avalanche_on s ∧ objs s' !! p = Some (set_next None o) ∧ unlinked s' = unlinked s.
Proof.
  intros Hr Hp Hnin. pose proof Hr as [Hc Hnd]. unfold svc_wan_add_to_list.
  rewrite (M_bind_Ok _ _ _ (svc_wan_entry_list s) s) by done.
  destruct l as [|[a oa] l _] using rev_ind.
  - cbn in Hc. rewrite Hc.
    step_by (upd_obj_run _ _ (set_next None) _ Hp). eexists _, [(p, set_next None o)]. split; [reflexivity|]. split; [|].
    { split; cbn; [|apply NoDup_singleton]. split; [done|]. split; [apply lookup_insert_eq|done]. }
    repeat split; [apply lookup_insert_eq|by apply unlinked_same].
  - destruct (svc_wan_entry_list s) as [h|] eqn:Hh; [|by destruct l as [|[]]; destruct Hc].
    rewrite (M_bind_Ok _ _ _ (size (objs s)) s) by done.
    assert (Hl : last_obj (size (objs s)) h s = Ok (a, s)).
    { apply (last_obj_run l _ _ _ oa); [done|]. apply rep_length in Hr. rewrite length_app in Hr. cbn in Hr. lia. }
    rewrite (M_bind_Ok _ _ _ _ _ Hl). rewrite fmap_app in Hnd, Hnin. apply NoDup_app in Hnd as (Hnd & Hdis & _).
    assert (Ha : objs s !! a = Some oa) by (apply (rep_in _ _ _ _ Hr); set_solver).
    assert (Hap : a ≠ p) by set_solver.
    step_by (upd_obj_run _ _ (set_next (Some p)) _ Ha).
    set (s1 := with_objs _ s) in *.
    assert (Hp1 : objs s1 !! p = Some o) by (cbn; by rewrite lookup_insert_ne).
    step_by (upd_obj_run _ _ (set_next None) _ Hp1). eexists _, (l ++ [(a, set_next (Some p) oa); (p, set_next None o)]).
    split; [reflexivity|]. apply not_elem_of_app in Hnin as [Hpl Hpa].
    assert (Hal : a ∉ l.*1) by (intros Hin; apply (Hdis a Hin), list_elem_of_singleton; done).
    split.
    { split.
      - cbn. rewrite Hh. apply chain_snoc; [done|done| |done]. rewrite fmap_app. by apply not_elem_of_app.
      - rewrite fmap_app. cbn. apply NoDup_app. split; [done|]. split.
        + intros x Hx. rewrite !not_elem_of_cons. split; [by intros ->|]. split; [by intros ->|apply not_elem_of_nil].
        + apply NoDup_cons. split; [by rewrite list_elem_of_singleton|apply NoDup_singleton]. }
    split; [unfold plain; rewrite !fmap_app; cbn; by rewrite <- app_assoc|].
    repeat split; [apply lookup_insert_eq|]. unfold unlinked. cbn. rewrite unlinked_same by (by rewrite lookup_insert_ne).
    by apply unlinked_same.
Qed.

Lemma path_loop_run l1 p o l2 n q b0 (s : wan W) :
  chain (objs s) q (l1 ++ (p, o) :: l2) → Forall (λ ao, path ao.2 ≠ path o) l1 → (length l1 < n)%nat →
  path_loop n q b0 (path o) s = Ok ((Some p, default b0 (Some <$> last l1.*1)), s).
Proof.
  revert n q b0. induction l1 as [|[a oa] l1 IH]; intros n q b0 Hc Hne Hn; (destruct n as [|n]; [cbn in Hn; lia|]).
  - destruct Hc as (-> & Hm & _). cbn [path_loop]. step_by (the_run _ _ _ Hm).
    by rewrite (proj2 (streq_eq _ _) eq_refl).
  - destruct Hc as (-> & Hm & Hc). apply Forall_cons in Hne as [Hne1 Hne]. cbn in Hne1. cbn [path_loop]. step_by (the_run _ _ _ Hm).
    rewrite (proj2 (streq_neq _ _) Hne1). rewrite (IH _ _ _ Hc Hne) by (cbn in Hn; lia).
    rewrite fmap_cons, last_cons. by destruct (last l1.*1).
Qed.

Lemma chain_unlink m q l1 b ob p o l2 :
  chain m q (l1 ++ (b, ob) :: (p, o) :: l2) → NoDup (l1 ++ (b, ob) :: (p, o) :: l2).*1 →
  chain (delete p (<[b := set_next (next o) ob]> m)) q (l1 ++ (b, set_next (next o) ob) :: l2).
Proof.
  revert q. induction l1 as [|[a oa] l1 IH]; intros q Hc Hnd.
  - destruct Hc as (-> & Hb & _ & Hp & Hc). cbn [app fmap list_fmap fst] in Hnd.
    apply NoDup_cons in Hnd as [Hbn [Hpn _]%NoDup_cons]. apply not_elem_of_cons in Hbn as [Hbp Hbn].
    cbn [chain app]. split; [done|]. split; [rewrite lookup_delete_ne by done; apply lookup_insert_eq|].
    apply chain_delete; [by apply chain_insert|done].
  - destruct Hc as (-> & Ha & Hc). cbn [app fmap list_fmap fst] in Hnd. apply NoDup_cons in Hnd as [Han Hnd].
    rewrite fmap_app in Han. apply not_elem_of_app in Han as [_ Han]. cbn [fmap list_fmap fst] in Han.
    rewrite !not_elem_of_cons in Han. destruct Han as (Hab & Hap & _).
    cbn [chain app]. split; [done|]. split; [by rewrite lookup_delete_ne, lookup_insert_ne|]. by apply IH.
Qed.

(** The list without an object that has been freed. *)
Definition taken_out (p : positive) (l : list (positive * wan_entry_obj)) (s s' : wan W) : Prop :=
  ∃ l', wan_rep s' l' ∧ plain l' = plain l ∧ world s' = world s ∧ is_avalanche_on s' = is_avalanche_on s ∧ objs s' !! p = None ∧
    unlinked s' = delete p (unlinked s).

Lemma free_run p o (s : wan W) : objs s !! p = Some o → svc_wan_free_object p s = Ok (tt, with_objs (delete p (objs s)) s).
Proof. intros Hp. unfold svc_wan_free_object. by step_by (the_run _ _ _ Hp). Qed.

Lemma take_first s p o l : wan_rep s ((p, o) :: l) →
  let s1 := with_head (next o) s in taken_out p l s (with_objs (delete p (objs s1)) s1).
Proof.
  intros [(_ & _ & Hc) [Hpn Hnd]%NoDup_cons]. exists l. split; [split; [by apply chain_delete|done]|].
  repeat split; [apply lookup_delete_eq|apply fmap_delete].
Qed.
Lemma take_later s l1 b ob p o l2 : wan_rep s (l1 ++ (b, ob) :: (p, o) :: l2) →
  let s1 := with_objs (<[b := set_next (next o) ob]> (objs s)) s in
  taken_out p (l1 ++ (b, ob) :: l2) s (with_objs (delete p (objs s1)) s1).
Proof.
  intros Hr. pose proof Hr as [Hc Hnd]. assert (Hb : objs s !! b = Some ob) by (apply (rep_in _ _ _ _ Hr), elem_of_app; right; left).
  exists (l1 ++ (b, set_next (next o) ob) :: l2). split; [|split; [|repeat split]].
  - split; [by apply (chain_unlink _ _ _ _ _ _ o)|]. rewrite fmap_app in Hnd |- *. cbn [fmap list_fmap fst] in Hnd |- *.
    apply NoDup_app in Hnd as (H1 & H2 & [H3 [H4 H5]%NoDup_cons]%NoDup_cons). apply NoDup_app. split; [done|]. split.
    + intros x Hx. specialize (H2 x Hx). rewrite !not_elem_of_cons in H2. apply not_elem_of_cons. naive_solver.
    + apply NoDup_cons. rewrite not_elem_of_cons in H3. naive_solver.
  - unfold plain. by rewrite !fmap_app.
  - apply lookup_delete_eq.
  - unfold unlinked. cbn. rewrite fmap_delete. by rewrite unlinked_same.
Qed.

(** The object before a later one, and the head, are other objects. *)
Lemma rep_before s l1 b ob p o l2 : wan_rep s (l1 ++ (b, ob) :: (p, o) :: l2) → b ≠ p ∧ svc_wan_entry_list s ≠ Some p.
Proof.
  intros [Hc Hnd]. rewrite fmap_app in Hnd. cbn [fmap list_fmap fst] in Hnd.
  apply NoDup_app in Hnd as (_ & Hd & [Hb _]%NoDup_cons). apply not_elem_of_cons in Hb as [Hb _]. split; [done|].
  destruct l1 as [|[c oc] l1]; destruct Hc as (E & _); rewrite E; [congruence|]. intros [= ->].
  apply (Hd p); [left|right; left].
Qed.

Lemma path_apart l1 p (o : wan_entry_obj) l2 : NoDup ((λ ao : positive * wan_entry_obj, path ao.2) <$> l1 ++ (p, o) :: l2) →
  Forall (λ ao, path ao.2 ≠ path o) l1.
Proof.
  intros Hnd. apply Forall_forall. intros ao Hin E. rewrite fmap_app in Hnd. apply NoDup_app in Hnd as (_ & Hd & _).
  apply (Hd (path o)); [|left]. apply list_elem_of_fmap. by exists ao.
Qed.

Lemma del_from_list_run s l1 p o l2 :
  wan_rep s (l1 ++ (p, o) :: l2) → NoDup ((λ ao, path ao.2) <$> l1 ++ (p, o) :: l2) →
  ∃ s', svc_wan_del_from_list p s = Ok (0, s') ∧ taken_out p (l1 ++ l2) s s'.
Proof.
  intros Hr Hne%path_apart. pose proof Hr as [Hc _]. pose proof (rep_length _ _ Hr) as Hlen. rewrite length_app in Hlen. cbn in Hlen.
  assert (Hp : objs s !! p = Some o) by (apply (rep_in _ _ _ _ Hr), elem_of_app; right; left).
  unfold svc_wan_del_from_list. rewrite (M_bind_Ok _ _ _ (svc_wan_entry_list s) s) by done.
  destruct (svc_wan_entry_list s) as [h|] eqn:Hh; [|by destruct l1 as [|[]]; destruct Hc].
  step_by (the_run _ _ _ Hp). rewrite (M_bind_Ok _ _ _ (size (objs s)) s) by done.
  step_by (path_loop_run l1 p o l2 (size (objs s)) (Some h) None s Hc Hne ltac:(lia)). cbn beta iota. step_by (the_run _ _ _ Hp).
  destruct l1 as [|[b ob] l1 _] using rev_ind.
  - pose proof Hc as (E & _). simplify_eq. rewrite bool_decide_true by done.
    rewrite (M_bind_Ok _ _ _ tt (with_head (next o) s)) by done.
    step_by (free_run p o (with_head (next o) s) Hp). eexists. split; [reflexivity|]. by apply take_first.
  - assert (Hlast : last (l1 ++ [(b, ob)]).*1 = Some b) by (rewrite fmap_app; apply last_snoc).
    rewrite Hlast. cbn [fmap option_fmap option_map default from_option].
    rewrite <- app_assoc in Hr. cbn [app] in Hr. destruct (rep_before _ _ _ _ _ _ _ Hr) as [Hbp Hhp].
    assert (Hb : objs s !! b = Some ob) by (apply (rep_in _ _ _ _ Hr), elem_of_app; right; left).
    rewrite bool_decide_false by congruence. rewrite (M_bind_Ok _ _ _ b s) by done.
    set (s1 := with_objs (<[b := set_next (next o) ob]> (objs s)) s).
    assert (Hp1 : objs s1 !! p = Some o) by (cbn; by rewrite lookup_insert_ne).
    exists (with_objs (delete p (objs s1)) s1). split; [|rewrite <- app_assoc; by apply take_later].
    pose proof (upd_obj_run b ob (set_next (next o)) s Hb) as Hu. destruct (next o); step_by Hu; fold s1; by step_by (free_run _ _ _ Hp1).
Qed.

End wan.
End WanList.
