(* ===== verification/WanProps.v ===== *)
(** * The default route follows the connections

    What is assumed of the rest of the firmware ([WanLaws]), the calculus for
    code that leaves objects and routes alone ([soft]), and the specification
    of [default_route_handle.c] and of the events of connections. *)

From stdpp Require Import gmap.
From S2P Require Import Prelude CString Text Utility WanObj WanRoute WanCfg WanDev WanMgr WanList.
Open Scope Z_scope.

Module WanProps.
Import Text Utility WanObj WanRoute WanCfg WanDev WanMgr WanList.

(** ** Names *)

Definition canon (i : Z) : cstr := cs "root.wan.pvc." ++ fmt_d (i / 8 + 1) ++ cs ".entry." ++ fmt_d (i mod 8 + 1).
Definition nas (i : Z) : cstr := nas_name (i / 8) (i mod 8).
Definition is_route (a : cstr) : bool := streq a DefRouteIndexv4 || streq a DefRouteIndexv6.

Definition WEBCUSTOM_NODE : cstr := cs "root.webcustom.entry".
Definition tr69CommitWan : cstr := cs "tr69CommitWan".

(** The two attributes are the service's own: they hold what was written to
    them last, and nothing else the service does changes them.  Nor does it set
    the mark of a commit by the TR-069 client.  The numbers in the path of a
    connection are read as they are written. *)
Class WanLaws (W : Type) `{WanWorld W} : Prop := {
  smux_num : MAX_SMUX_NUM = 8;
  if_index_max : 63 ≤ MAX_WAN_IF_INDEX;
  route_set a v w : is_route a = true → cfg_get WANINFO_COMMON_NODE a (cfg_set WANINFO_COMMON_NODE a v w) = Some v;
  route_set_other n a b v w : is_route b = true → a ≠ b →
    cfg_get WANINFO_COMMON_NODE b (cfg_set n a v w) = cfg_get WANINFO_COMMON_NODE b w;
  route_run c b w : is_route b = true → cfg_get WANINFO_COMMON_NODE b (run c w) = cfg_get WANINFO_COMMON_NODE b w;
  route_create n b w : is_route b = true → cfg_get WANINFO_COMMON_NODE b (cfg_create n w) = cfg_get WANINFO_COMMON_NODE b w;
  route_delete n b w : is_route b = true → is_prefix n WANINFO_COMMON_NODE = false →
    cfg_get WANINFO_COMMON_NODE b (cfg_delete n w) = cfg_get WANINFO_COMMON_NODE b w;
  commit_set n a v w : a ≠ tr69CommitWan → cfg_get WEBCUSTOM_NODE tr69CommitWan (cfg_set n a v w) = cfg_get WEBCUSTOM_NODE tr69CommitWan w;
  commit_run c w : cfg_get WEBCUSTOM_NODE tr69CommitWan (run c w) = cfg_get WEBCUSTOM_NODE tr69CommitWan w;
  canon_ids i w : 0 ≤ i < 64 → ∃ r k, path_ids (canon i) w = [r; k; i / 8 + 1; i mod 8 + 1]
}.

(** ** Flags *)

Lemma has_bit x k : 0 ≤ k → has x (2 ^ k) = Z.testbit x k.
Proof.
  intros Hk. unfold has. rewrite Z.land_comm. destruct (Z.testbit x k) eqn:E.
  - apply negb_true_iff, Z.eqb_neq. intros E0.
    assert (Z.testbit (Z.land (2 ^ k) x) k = true) by (rewrite Z.land_spec, E, Z.pow2_bits_true by done; done).
    by rewrite E0, Z.bits_0 in *.
  - apply negb_false_iff, Z.eqb_eq, Z.bits_inj_iff'. intros n Hn. rewrite Z.land_spec, Z.bits_0.
    destruct (decide (n = k)) as [->|]; [by rewrite E, andb_false_r|]. by rewrite Z.pow2_bits_false by lia.
Qed.

Lemma raise_set k o : 0 ≤ k → is_set (2 ^ k) (raise (2 ^ k) o) = true.
Proof. intros Hk. unfold is_set. rewrite has_bit by done. cbn. by rewrite Z.lor_spec, Z.pow2_bits_true, orb_true_r. Qed.
Lemma raise_other j k o : 0 ≤ j → 0 ≤ k → j ≠ k → is_set (2 ^ j) (raise (2 ^ k) o) = is_set (2 ^ j) o.
Proof. intros ???. unfold is_set. rewrite !has_bit by done. cbn. by rewrite Z.lor_spec, Z.pow2_bits_false, orb_false_r by lia. Qed.
Lemma lower_set k o : 0 ≤ k → is_set (2 ^ k) (lower (2 ^ k) o) = false.
Proof. intros Hk. unfold is_set. rewrite has_bit by done. cbn. by rewrite Z.ldiff_spec, Z.pow2_bits_true, andb_false_r. Qed.
Lemma lower_other j k o : 0 ≤ j → 0 ≤ k → j ≠ k → is_set (2 ^ j) (lower (2 ^ k) o) = is_set (2 ^ j) o.
Proof. intros ???. unfold is_set. rewrite !has_bit by done. cbn. by rewrite Z.ldiff_spec, Z.pow2_bits_false, andb_true_r by lia. Qed.

Abbreviation started o := (is_set SVC_WAN_FLAG_STARTED o).
Abbreviation up4 o := (is_set SVC_WAN_FLAG_UPV4 o).
Abbreviation up6 o := (is_set SVC_WAN_FLAG_UPV6 o).

(** The flags after a change of one of them. *)
Lemma raise_up4 o : started (raise SVC_WAN_FLAG_UPV4 o) = started o ∧ up4 (raise SVC_WAN_FLAG_UPV4 o) = true ∧ up6 (raise SVC_WAN_FLAG_UPV4 o) = up6 o.
Proof. split; [by apply (raise_other 0 1)|]. split; [by apply (raise_set 1)|by apply (raise_other 2 1)]. Qed.
Lemma raise_up6 o : started (raise SVC_WAN_FLAG_UPV6 o) = started o ∧ up4 (raise SVC_WAN_FLAG_UPV6 o) = up4 o ∧ up6 (raise SVC_WAN_FLAG_UPV6 o) = true.
Proof. split; [by apply (raise_other 0 2)|]. split; [by apply (raise_other 1 2)|by apply (raise_set 2)]. Qed.
Lemma raise_started o : started (raise SVC_WAN_FLAG_STARTED o) = true ∧ up4 (raise SVC_WAN_FLAG_STARTED o) = up4 o ∧ up6 (raise SVC_WAN_FLAG_STARTED o) = up6 o.
Proof. split; [by apply (raise_set 0)|]. split; [by apply (raise_other 1 0)|by apply (raise_other 2 0)]. Qed.
Lemma lower_up4 o : started (lower SVC_WAN_FLAG_UPV4 o) = started o ∧ up4 (lower SVC_WAN_FLAG_UPV4 o) = false ∧ up6 (lower SVC_WAN_FLAG_UPV4 o) = up6 o.
Proof. split; [by apply (lower_other 0 1)|]. split; [by apply (lower_set 1)|by apply (lower_other 2 1)]. Qed.
Lemma lower_up6 o : started (lower SVC_WAN_FLAG_UPV6 o) = started o ∧ up4 (lower SVC_WAN_FLAG_UPV6 o) = up4 o ∧ up6 (lower SVC_WAN_FLAG_UPV6 o) = false.
Proof. split; [by apply (lower_other 0 2)|]. split; [by apply (lower_other 1 2)|by apply (lower_set 2)]. Qed.
Lemma lower_started o : started (lower SVC_WAN_FLAG_STARTED o) = false ∧ up4 (lower SVC_WAN_FLAG_STARTED o) = up4 o ∧ up6 (lower SVC_WAN_FLAG_STARTED o) = up6 o.
Proof. split; [by apply (lower_set 0)|]. split; [by apply (lower_other 1 0)|by apply (lower_other 2 0)]. Qed.

(** ** Indices as text *)

(** What is checked by evaluation for the 64 indices. *)
Definition index_ok (i : Z) : bool :=
  let f := fmt_d i in
  (atoi f =? i) && Nat.leb (length f) 15 && negb (streq f NA) && Nat.leb (length (canon i)) 31 && Nat.leb (length (nas i)) 15
  && streq (nas_name (s32 (i / 8)) (s32 (i mod 8))) (nas i) && (u8 (i / 8 * 8 + i mod 8) =? i) && (u32 (i / 8 + 1 - 1) =? i / 8)
  && (u32 (i mod 8 + 1 - 1) =? i mod 8) && (i / 8 <? 8) && (i mod 8 <? 8).
Lemma index_facts i : 0 ≤ i < 64 → index_ok i = true.
Proof.
  intros Hi. assert (Ha : forallb index_ok (seqZ 0 64) = true) by (by vm_compute).
  rewrite forallb_forall in Ha. apply Ha, list_elem_of_In, elem_of_seqZ. lia.
Qed.
Lemma index_atoi i : 0 ≤ i < 64 → atoi (fmt_d i) = i.
Proof. intros Hi%index_facts. unfold index_ok in Hi. zbool. Qed.
Lemma index_short i : 0 ≤ i < 64 → take 15 (fmt_d i) = fmt_d i.
Proof. intros Hi%index_facts. unfold index_ok in Hi. zify_bool. apply take_ge. by apply Nat.leb_le. Qed.
Lemma index_NA i : 0 ≤ i < 64 → fmt_d i ≠ NA.
Proof. intros Hi%index_facts. unfold index_ok in Hi. zify_bool. by apply streq_neq. Qed.
Lemma index_inj i j : 0 ≤ i < 64 → 0 ≤ j < 64 → fmt_d i = fmt_d j → i = j.
Proof. intros Hi Hj E. by rewrite <- (index_atoi i), E, index_atoi. Qed.

(** The names of an interface give its index back, and paths differ. *)
Definition names_ok (i : Z) : bool :=
  bool_decide (nas_digits (nas i) = Some (i / 8, i mod 8)) && negb (strlen (nas i) =? 0) && negb (strlen (ppp_name i) =? 0)
  && bool_decide (strstr (nas i) (cs "ppp") = None) && bool_decide (is_Some (strstr (ppp_name i) (cs "ppp")))
  && bool_decide (get_entry_number_cfg2 (ppp_name i) (cs "ppp") = Some i)
  && bool_decide (option_map (λ pe, atoi (drop 7 pe.2) - 1) (strstr (canon i) (cs ".entry.")) = Some (i mod 8))
  && (atoi (drop 13 (canon i)) =? i / 8 + 1).
Lemma index_names i : 0 ≤ i < 64 → names_ok i = true.
Proof.
  intros Hi. assert (Ha : forallb names_ok (seqZ 0 64) = true) by (by vm_compute).
  rewrite forallb_forall in Ha. apply Ha, list_elem_of_In, elem_of_seqZ. lia.
Qed.
Lemma canon_inj i j : 0 ≤ i < 64 → 0 ≤ j < 64 → canon i = canon j → i = j.
Proof.
  intros Hi%index_names Hj%index_names E. unfold names_ok in *. rewrite E in Hi. zify_bool.
  assert (i mod 8 = j mod 8) by congruence. assert (i / 8 = j / 8) by lia.
  rewrite (Z.div_mod i 8), (Z.div_mod j 8) by done. lia.
Qed.

Section wan.
Context {W : Type} `{WanLaws W}.
Abbreviation WM := (M (wan W)).

(** ** What the theorems look at

    The head of the list, the objects without their address translation and
    the files of their daemons, and the two routes; an attribute that is not
    there counts as N/A. *)
Definition core (o : wan_entry_obj) : wan_entry_obj := set_nat 0 (set_pid4 [] (set_pid6 [] o)).
Definition route (a : cstr) (w : W) : cstr := default NA (take 15 <$> cfg_get WANINFO_COMMON_NODE a w).
Record view := { v_head : option positive; v_objs : gmap positive wan_entry_obj; v4 : cstr; v6 : cstr }.
Definition look (s : wan W) : view :=
  {| v_head := svc_wan_entry_list s; v_objs := core <$> objs s; v4 := route DefRouteIndexv4 (world s); v6 := route DefRouteIndexv6 (world s) |}.

Lemma look_obj s p o : objs s !! p = Some o → v_objs (look s) !! p = Some (core o).
Proof. intros Hp. cbn. by rewrite lookup_fmap, Hp. Qed.
Lemma look_inv s p o : v_objs (look s) !! p = Some o → ∃ o', objs s !! p = Some o' ∧ core o' = o.
Proof. cbn. rewrite lookup_fmap. intros (o' & ? & ?)%fmap_Some. eauto. Qed.
Lemma look_some s p : is_Some (v_objs (look s) !! p) ↔ is_Some (objs s !! p).
Proof. cbn. by rewrite lookup_fmap, fmap_is_Some. Qed.

(** ** Code that changes nothing of that *)

Definition soft {A} (p : positive) (m : WM A) : Prop := ∀ s, is_Some (objs s !! p) → wp m s (λ _ s', look s' = look s).

Lemma soft_bind {A B} p (m : WM A) (f : A → WM B) : soft p m → (∀ a, soft p (f a)) → soft p (mbind f m).
Proof.
  intros Hm Hf s Hs. apply wp_bind. eapply wp_mono; [by apply Hm|]. intros a s' Hs'. cbn beta.
  eapply wp_mono; [apply Hf; apply look_some; rewrite Hs'; by apply look_some|]. intros b s'' Hs''. cbn beta. congruence.
Qed.
Lemma wp_soft {A B} p (m : WM A) (f : A → WM B) s Q :
  soft p m → is_Some (objs s !! p) → (∀ a s', look s' = look s → wp (f a) s' Q) → wp (mbind f m) s Q.
Proof. intros Hm Hs Hf. apply wp_bind. eapply wp_mono; [by apply Hm|]. intros a s' Hs'. by apply Hf. Qed.
Lemma soft_ret {A} p (a : A) : soft p (mret a : WM A).
Proof. intros s _. by apply wp_ret. Qed.
Lemma soft_gets {A} p (f : wan W → A) : soft p (gets f).
Proof. intros s _. by apply wp_gets. Qed.
Lemma soft_ask {A} p (f : W → A) : soft p (ask f).
Proof. intros s _. by apply wp_ask. Qed.
Lemma soft_the p : soft p (the p).
Proof. intros s [o Ho]. by apply (wp_the _ o). Qed.
Lemma soft_tell p (f : W → W) :
  (∀ a w, is_route a = true → cfg_get WANINFO_COMMON_NODE a (f w) = cfg_get WANINFO_COMMON_NODE a w) → soft p (tell f).
Proof. intros Hf s _. unfold wp, tell, modify, look, route. cbn. by rewrite !Hf. Qed.
Lemma soft_upd p f : (∀ o, core (f o) = core o) → soft p (upd p f).
Proof.
  intros Hf s [o Ho]. apply (wp_upd _ o); [done|]. unfold look. cbn. f_equal. rewrite fmap_insert, Hf. apply insert_id.
  by rewrite lookup_fmap, Ho.
Qed.
Lemma soft_when p (b : bool) (m : WM unit) : soft p m → soft p (when b m).
Proof. intros Hm. destruct b; [done|apply soft_ret]. Qed.
Lemma soft_avalanche p v : soft p (modify (with_avalanche v) : WM unit).
Proof. intros s _. done. Qed.

Lemma soft_run p c : soft p (do_call c : WM unit).
Proof. apply soft_tell. intros. by apply route_run. Qed.
Lemma soft_create p n : soft p (tell (cfg_create n) : WM unit).
Proof. apply soft_tell. intros. by apply route_create. Qed.
Lemma soft_delete p i : soft p (tell (cfg_delete (WANINFO_ENTRY_NODE i)) : WM unit).
Proof. apply soft_tell. intros. by apply route_delete. Qed.
Lemma soft_set p n a v : is_route a = false → soft p (cfg_set_object_attr n a v : WM unit).
Proof. intros Ha. apply soft_tell. intros b w Hb. apply route_set_other; [done|]. intros ->. by rewrite Ha in Hb. Qed.
Lemma soft_get p n a k : soft p (cfg_get_object_attr n a k : WM (option cstr)).
Proof. apply soft_bind; [apply soft_ask|intros v; apply soft_ret]. Qed.
Lemma soft_execute p c : soft p (execute c : WM unit).
Proof.
  apply soft_bind; [|intros; apply soft_ret]. unfold svc_wan_execute_cmd. destruct (_ =? _); [apply soft_ret|].
  apply soft_bind; [apply soft_run|intros; apply soft_ret].
Qed.
Lemma soft_file p f n : soft p (svc_wan_get_file_string f n : WM (list cstr)).
Proof. apply soft_bind; [apply soft_ask|intros; apply soft_ret]. Qed.

End wan.

Create HintDb soft discriminated.
#[export] Hint Constants Opaque : soft.
(** Goes through the steps of a function. *)
Ltac soft_step :=
  lazymatch goal with
  | |- soft _ (mret _) => apply soft_ret
  | |- soft _ (mbind _ _) => apply soft_bind; [|intros ?]
  | |- soft _ (when _ _) => apply soft_when
  | |- soft _ (gets _) => apply soft_gets
  | |- soft _ (ask _) => apply soft_ask
  | |- soft ?p (the ?p) => apply soft_the
  | |- soft _ (do_call _) => apply soft_run
  | |- soft _ (execute _) => apply soft_execute
  | |- soft _ (cfg_set_object_attr _ _ _) => apply soft_set; by vm_compute
  | |- soft _ (cfg_get_object_attr _ _ _) => apply soft_get
  | |- soft _ (svc_wan_get_file_string _ _) => apply soft_file
  | |- soft _ (tell (cfg_create _)) => apply soft_create
  | |- soft _ (tell (cfg_delete _)) => apply soft_delete
  | |- soft _ (upd _ _) => apply soft_upd; by intros []
  | |- soft _ (modify (with_avalanche _)) => apply soft_avalanche
  | |- soft _ (let _ := _ in _) => cbv zeta
  | |- soft _ (match ?x with _ => _ end) => destruct x
  | |- _ => solve [eauto with soft]
  end.
Ltac soft := repeat soft_step.

Section functions.
Context {W : Type} `{WanLaws W}.
Abbreviation WM := (M (wan W)).

Lemma soft_publish p n d f l : Forall (λ a, is_route a = false) l → soft p (publish n d f l : WM unit).
Proof.
  intros Hl. unfold publish. apply soft_bind; [apply soft_file|]. intros lines. revert lines.
  induction Hl as [|a l Ha Hl IH]; intros [|x lines]; cbn [zip zip_with foldr fst snd]; try apply soft_ret.
  apply soft_bind; [by apply soft_set|]. intros _. apply IH.
Qed.
Lemma soft_clear p n l : Forall (λ a, is_route (cs a) = false) l → soft p (clear_attrs n l : WM unit).
Proof.
  intros Hl. unfold clear_attrs. induction Hl as [|a l Ha Hl IH]; cbn [foldr]; [apply soft_ret|].
  apply soft_bind; [by apply soft_set|]. by intros _.
Qed.
Lemma soft_hwaddr p n d : soft p (set_hwaddr n d : WM unit).
Proof. unfold set_hwaddr. soft. Qed.
#[local] Hint Resolve soft_hwaddr : soft.
#[local] Hint Extern 1 (soft _ (publish _ _ _ _)) => apply soft_publish; by_compute : soft.
#[local] Hint Extern 1 (soft _ (clear_attrs _ _)) => apply soft_clear; by_compute : soft.
Lemma soft_ipv4_info p n d : soft p (svc_wan_set_ipv4_info n d : WM unit).
Proof. unfold svc_wan_set_ipv4_info. soft. Qed.
Lemma soft_ipv6_info p n d o : soft p (svc_wan_set_ipv6_info n d o : WM unit).
Proof. unfold svc_wan_set_ipv6_info. soft. Qed.
Lemma soft_clear_ipv6 p n o : soft p (svc_wan_clear_ipv6_info n o : WM unit).
Proof. unfold svc_wan_clear_ipv6_info. soft. Qed.
#[local] Hint Resolve soft_ipv4_info soft_ipv6_info soft_clear_ipv6 : soft.
Lemma soft_set_info p e : soft p (svc_wan_set_info p e : WM Z).
Proof. unfold svc_wan_set_info. soft. Qed.
Lemma soft_start_nat p d : soft p (svc_wan_start_intf_nat d : WM unit).
Proof. unfold svc_wan_start_intf_nat, nat_rule. soft. Qed.
Lemma soft_stop_nat p d : soft p (svc_wan_stop_intf_nat d : WM unit).
Proof. unfold svc_wan_stop_intf_nat, nat_rule. soft. Qed.
Lemma soft_bridge p e : soft p (bridge_up_down p e : WM Z).
Proof. unfold bridge_up_down. soft. Qed.
Lemma soft_add4 p g d : soft p (svc_wan_add_default_ipv4_route g d : WM unit).
Proof. unfold svc_wan_add_default_ipv4_route. soft. Qed.
Lemma soft_add6 p g d : soft p (svc_wan_add_default_ipv6_route g d : WM unit).
Proof. unfold svc_wan_add_default_ipv6_route. soft. Qed.
Lemma soft_nat p d : soft p (svc_wan_restart_nat d : WM unit).
Proof. unfold svc_wan_restart_nat. soft. Qed.
Lemma soft_gateway p o a n : soft p (gateway o a n : WM (option cstr)).
Proof. unfold gateway. soft. Qed.


(** ** The objects of a view *)

(** The pointers make a list of all objects. *)
Definition linked (v : view) : Prop :=
  ∃ l, chain (v_objs v) (v_head v) l ∧ NoDup l.*1 ∧ ∀ a, is_Some (v_objs v !! a) → a ∈ l.*1.

(** Each object has the names of its index, which no other has. *)
Definition named (v : view) : Prop :=
  (∀ a o, v_objs v !! a = Some o → 0 ≤ idx o < 64 ∧ path o = canon (idx o) ∧ dev o = nas (idx o)) ∧
  (∀ a b oa ob, v_objs v !! a = Some oa → v_objs v !! b = Some ob → idx oa = idx ob → a = b).

Lemma chain_core m p l : chain (core <$> m) p l → ∃ l', chain m p l' ∧ l'.*1 = l.*1.
Proof.
  revert p. induction l as [|[a o] l IH]; intros p Hc; [by exists []|].
  destruct Hc as (-> & (o' & <- & Ho)%lookup_fmap_Some & (l' & Hl & E)%IH).
  exists ((a, o') :: l'). cbn. by rewrite E.
Qed.
Lemma linked_rep s : linked (look s) → ∃ l, wan_rep s l ∧ ∀ a, is_Some (objs s !! a) → a ∈ l.*1.
Proof.
  intros (l & (l' & Hc' & E)%chain_core & Hnd & Hall). exists l'. split; [split; [done|by rewrite E]|].
  intros a Ha. rewrite E. by apply Hall, look_some.
Qed.

(** A search finds the object that has what is looked for, if any. *)
Lemma find_object_spec pa (s : wan W) :
  linked (look s) → ∃ r, svc_wan_find_object pa s = Ok (r, s) ∧
    match r with
    | Some a => ∃ o, objs s !! a = Some o ∧ path o = pa
    | None => ∀ a o, objs s !! a = Some o → path o ≠ pa
    end.
Proof.
  intros (l & Hr & Hall)%linked_rep. eexists. split; [by apply find_object_run|].
  destruct (find_path pa l) as [a|] eqn:E.
  - apply find_path_elem in E as (o & Hin & <-). exists o. split; [|done]. by apply (rep_in _ _ _ _ Hr).
  - intros a o Ho. apply (find_path_none _ _ a _ E). apply (rep_elem s); [done|apply Hall; by eexists|done].
Qed.
Lemma named_obj s p o : named (look s) → objs s !! p = Some o → 0 ≤ idx o < 64 ∧ path o = canon (idx o) ∧ dev o = nas (idx o).
Proof. intros [Hn _] Hp. exact (Hn _ _ (look_obj _ _ _ Hp)). Qed.
Lemma named_inj s p q o o' : named (look s) → objs s !! p = Some o → objs s !! q = Some o' → idx o = idx o' → p = q.
Proof. intros [_ Hd] Hp Hq. exact (Hd _ _ _ _ (look_obj _ _ _ Hp) (look_obj _ _ _ Hq)). Qed.
Lemma find_path_unique p o (s : wan W) :
  linked (look s) → named (look s) → objs s !! p = Some o → svc_wan_find_object (path o) s = Ok (Some p, s).
Proof.
  intros Hl Hn Hp. destruct (find_object_spec (path o) s Hl) as (r & Hr & Hspec). rewrite Hr. destruct r as [a|].
  - destruct Hspec as (oa & Ha & Hpa). f_equal. f_equal. f_equal.
    destruct (named_obj _ _ _ Hn Ha) as (Hia & Hca & _). destruct (named_obj _ _ _ Hn Hp) as (Hip & Hcp & _).
    apply (named_inj _ _ _ _ _ Hn Ha Hp). apply canon_inj; [done|done|congruence].
  - by destruct (Hspec _ _ Hp).
Qed.

Lemma get_wanindex_of i name :
  0 ≤ i < 64 → name = nas i ∨ name = ppp_name i → get_wanindex_by_name name = i.
Proof.
  intros Hi Hname. pose proof (index_names i Hi) as Hc. unfold names_ok in Hc. zify_bool.
  pose proof if_index_max. assert (Hb : (i <? 0) || (MAX_WAN_IF_INDEX <? i) = false).
  { apply orb_false_iff. split; [apply Z.ltb_ge|apply Z.ltb_ge]; lia. }
  unfold get_wanindex_by_name. destruct Hname as [-> | ->].
  - destruct (strlen (nas i) =? 0) eqn:E1; [zbool|]. destruct (strstr (nas i) (cs "ppp")); [done|].
    unfold nas_index. destruct (nas_digits (nas i)) as [pe|]; [|done]. simplify_eq. cbn. rewrite smux_num.
    pose proof (Z.div_mod i 8). assert (E : i / 8 * 8 + i mod 8 = i) by lia. by rewrite E, Hb.
  - destruct (strlen (ppp_name i) =? 0) eqn:E1; [zbool|]. destruct (strstr (ppp_name i) (cs "ppp")).
    + match goal with E : get_entry_number_cfg2 _ _ = _ |- _ => rewrite E end. by rewrite Hb.
    + match goal with E : is_Some None |- _ => by destruct E end.
Qed.

(** ** The default route *)

(** What makes an object fit for a default route. *)
Definition carries4 (o : wan_entry_obj) : bool :=
  SVC_WAN_SRV_E8C_INTERNET (cfg o) && (up4 o || (SVC_WAN_DSLITE_ENABLE (cfg o) && SVC_WAN_SRV_INTERNET (cfg o) && up6 o)).
Definition carries6 (o : wan_entry_obj) : bool := SVC_WAN_SRV_E8C_INTERNET (cfg o) && up6 o.
(** The value of a route: none, or an object fit for it. *)
Definition held (fit : wan_entry_obj → bool) (m : gmap positive wan_entry_obj) (r : cstr) : Prop :=
  r = NA ∨ ∃ a o, m !! a = Some o ∧ r = fmt_d (idx o) ∧ fit o = true.
Definition fits (evt : Z) : wan_entry_obj → bool := if evt =? EVT_WAN_CONN_LOSTV6 then carries6 else carries4.


(** The gateway is read; with one, commands follow. *)
Ltac elect :=
  apply wp_bind; eapply wp_Ok; [reflexivity|]; cbn beta;
  match goal with |- wp (match ?g with _ => _ end) ?s _ => destruct g; [|by apply wp_ret] end;
  repeat (eapply wp_soft; [first [apply soft_run | apply soft_execute | apply soft_add4 | apply soft_add6]
                          |apply look_some; match goal with E : look _ = look _ |- _ => rewrite E | _ => idtac end; by apply look_some
                          |intros ? ? ?]);
  apply wp_ret; rewrite ?orb_true_r; repeat split; congruence.

Lemma switch_body_spec evt p o s :
  evt = EVT_WAN_CONN_LOSTV4 ∨ evt = EVT_WAN_CONN_LOSTV6 → is_Some (objs s !! p) →
  wp (switch_body evt o) s (λ r s', match r with
                                    | None => s' = s
                                    | Some v => v = fmt_d (idx o) ∧ fits evt o = true ∧ look s' = look s
                                    end).
Proof.
  intros Hevt Hp. unfold switch_body. destruct (SVC_WAN_SRV_E8C_INTERNET (cfg o)) eqn:He; cbn [negb]; [|by apply wp_ret].
  destruct Hevt as [-> | ->]; cbn [Z.eqb EVT_WAN_CONN_LOSTV4 EVT_WAN_CONN_LOSTV6 Pos.eqb].
  - unfold fits, carries4. cbn [Z.eqb EVT_WAN_CONN_LOSTV4 EVT_WAN_CONN_LOSTV6 Pos.eqb]. rewrite He.
    destruct (SVC_WAN_DSLITE_ENABLE (cfg o) && SVC_WAN_SRV_INTERNET (cfg o)) eqn:Hd.
    + destruct (up6 o) eqn:Hu; cbn [negb]; [|by apply wp_ret]. elect.
    + destruct (up4 o) eqn:Hu; cbn [negb]; [|by apply wp_ret]. elect.
  - unfold fits, carries6. cbn [Z.eqb EVT_WAN_CONN_LOSTV6 Pos.eqb]. rewrite He.
    destruct (up6 o) eqn:Hu; cbn [negb]; [|by apply wp_ret]. elect.
Qed.

Lemma look_world (s s' : wan W) p : look s' = look s → is_Some (objs s !! p) → is_Some (objs s' !! p).
Proof. intros E Hp. apply look_some. rewrite E. by apply look_some. Qed.

Lemma held_core fit (s : wan W) a o r :
  (∀ o, fit (core o) = fit o) → objs s !! a = Some o → r = fmt_d (idx o) → fit o = true → held fit (v_objs (look s)) r.
Proof. intros Hf Ha -> Hfit. right. exists a, (core o). split; [by apply look_obj|]. by rewrite Hf. Qed.
Lemma fits_core evt o : fits evt (core o) = fits evt o.
Proof. unfold fits. by destruct (_ =? _). Qed.

(** The election gives none, or an object fit for the route. *)
Lemma default_route_switch_spec evt p r s :
  evt = EVT_WAN_CONN_LOSTV4 ∨ evt = EVT_WAN_CONN_LOSTV6 → is_Some (objs s !! p) → linked (look s) →
  wp (default_route_switch r evt) s (λ v s', look s' = look s ∧ held (fits evt) (v_objs (look s)) v).
Proof.
  intros Hevt Hp Hl. unfold default_route_switch. eapply wp_soft with (p := p); [|done|].
  { apply soft_when. destruct (_ =? _); [apply soft_execute|apply soft_when, soft_execute]. }
  intros _ s1 E1. rewrite <- E1 in Hl |- *. apply (look_world _ _ _ E1) in Hp. destruct (linked_rep _ Hl) as (l & Hr & Hall).
  apply wp_bind, wp_bind, wp_gets, wp_bind, wp_gets.
  apply (for_objs_walk _ (λ _ s', s' = s1) l); [apply Hr|by apply rep_length|done| |].
  - intros s' ->. apply wp_ret. split; [done|]. by left.
  - intros a o l' s' Ho Hc ->. destruct Hc as (_ & Ha & _).
    eapply wp_mono; [by apply (switch_body_spec evt p)|]. intros [v|] s2; [|by intros ->].
    intros (-> & Hf & E2). apply wp_ret. split; [done|]. cbn [default from_option].
    by apply (held_core _ _ a o); [apply fits_core| | |].
Qed.

Lemma def_route_index_spec attr p s :
  is_route attr = true → is_Some (objs s !! p) → wp (def_route_index attr) s (λ v s', v = route attr (world s) ∧ look s' = look s).
Proof.
  intros Hattr Hp. unfold def_route_index, route. apply wp_bind. eapply wp_Ok; [reflexivity|]. cbn beta.
  change (SVC_WAN_BUF_16_LEN - 1)%nat with 15%nat.
  destruct (cfg_get WANINFO_COMMON_NODE attr (world s)) as [v|] eqn:E; [by apply wp_ret|].
  apply wp_bind. unfold wp at 1, cfg_set_object_attr, tell, modify. apply wp_ret. split; [done|].
  unfold look, route. cbn [svc_wan_entry_list objs world with_world]. f_equal.
  - destruct (decide (attr = DefRouteIndexv4)) as [->|].
    + by rewrite route_set, E.
    + by rewrite route_set_other.
  - destruct (decide (attr = DefRouteIndexv6)) as [->|].
    + by rewrite route_set, E.
    + by rewrite route_set_other.
Qed.

(** Writing a route. *)
Definition set_v4 (r : cstr) (v : view) : view := {| v_head := v_head v; v_objs := v_objs v; v4 := r; v6 := v6 v |}.
Definition set_v6 (r : cstr) (v : view) : view := {| v_head := v_head v; v_objs := v_objs v; v4 := v4 v; v6 := r |}.
Lemma set_route4 r s : take 15 r = r → wp (cfg_set_object_attr WANINFO_COMMON_NODE DefRouteIndexv4 r) s (λ _ s', look s' = set_v4 r (look s)).
Proof.
  intros Hr. unfold wp, cfg_set_object_attr, tell, modify, look, set_v4, route. cbn [svc_wan_entry_list objs world with_world v_head v_objs v6].
  rewrite route_set by done. rewrite route_set_other by done. cbn. by rewrite Hr.
Qed.
Lemma set_route6 r s : take 15 r = r → wp (cfg_set_object_attr WANINFO_COMMON_NODE DefRouteIndexv6 r) s (λ _ s', look s' = set_v6 r (look s)).
Proof.
  intros Hr. unfold wp, cfg_set_object_attr, tell, modify, look, set_v6, route. cbn [svc_wan_entry_list objs world with_world v_head v_objs v4].
  rewrite route_set by done. rewrite (route_set_other _ DefRouteIndexv6 DefRouteIndexv4) by done. cbn. by rewrite Hr.
Qed.

Lemma held_short fit v r : named v → held fit (v_objs v) r → take 15 r = r.
Proof. intros [Hn _] [->|(a & o & Ha & -> & _)]; [done|]. destruct (Hn _ _ Ha) as (Hi & _). by apply index_short. Qed.
Lemma route_short a w : take 15 (route a w) = route a w.
Proof. unfold route. destruct (cfg_get _ a w); [|done]. cbn. rewrite take_take. done. Qed.

(** The object of an event, and the routes before it. *)
Definition at_event (p : positive) (o : wan_entry_obj) (s : wan W) : Prop :=
  objs s !! p = Some o ∧ linked (look s) ∧ named (look s).

(** The parts every event shares. *)
Lemma update_route_found evt p o s Q :
  at_event p o s →
  wp (update_default_route (path o) evt) s Q ↔
  wp (gw ← (if evt =? EVT_WAN_CONN_GETV4 then
              if negb (up4 o) then mret None else gateway o (cs "GateWay") MAX_WAN_IPV4_ADDR_LEN
            else if evt =? EVT_WAN_CONN_GETV6 then
              if negb (up6 o) || negb (SVC_WAN_SRV_E8C_INTERNET (cfg o)) then mret None
              else gateway o (cs "GateWay6") MAX_WAN_IPV6_ADDR_LEN
            else mret (Some []));
      match gw with
      | None => mret tt
      | Some gw => update_route_rest o evt gw
      end) s Q.
Proof.
  intros (Hp & Hl & Hn). unfold update_default_route. unfold wp.
  rewrite (M_bind_Ok _ _ _ _ _ (find_path_unique p o s Hl Hn Hp)). cbn beta iota.
  by rewrite (M_bind_Ok _ _ _ _ _ (the_run _ _ _ Hp)).
Qed.


(** Steps through soft code from a state whose view is known. *)
Lemma wp_at {A B} p v (m : WM A) (f : A → WM B) s Q :
  is_Some (v_objs v !! p) → look s = v → soft p m → (∀ a s', look s' = v → wp (f a) s' Q) → wp (mbind f m) s Q.
Proof. intros Hp <- Hm Hf. apply (wp_soft p); [done|by apply look_some|done]. Qed.
Lemma wp_at_end {A} p v (m : WM A) s (Q : A → wan W → Prop) :
  is_Some (v_objs v !! p) → look s = v → soft p m → (∀ a s', look s' = v → Q a s') → wp m s Q.
Proof. intros Hp <- Hm Hf. eapply wp_mono; [apply Hm; by apply look_some|done]. Qed.
Lemma wp_set4 {B} r v (f : unit → WM B) s Q :
  take 15 r = r → look s = v → (∀ s', look s' = set_v4 r v → wp (f tt) s' Q) →
  wp (mbind f (cfg_set_object_attr WANINFO_COMMON_NODE DefRouteIndexv4 r)) s Q.
Proof. intros Hr <- Hf. apply wp_bind. eapply wp_mono; [by apply set_route4|]. intros []. apply Hf. Qed.
Lemma wp_reads {B} p v (f : cstr → cstr → WM B) s Q :
  is_Some (v_objs v !! p) → look s = v → (∀ s', look s' = v → wp (f (v4 v) (v6 v)) s' Q) →
  wp (def4 ← def_route_index DefRouteIndexv4; def6 ← def_route_index DefRouteIndexv6; f def4 def6) s Q.
Proof.
  intros Hp <- Hf. apply look_some in Hp. apply wp_bind. eapply wp_mono; [by apply (def_route_index_spec _ p)|].
  intros d4 s1 [-> E1]. apply wp_bind. eapply wp_mono; [apply (def_route_index_spec _ p); [done|by eapply look_world]|].
  intros d6 s2 [-> E2]. change (route DefRouteIndexv6 (world s1)) with (v6 (look s1)). rewrite E1. apply Hf. congruence.
Qed.

Lemma at_event_view p o s : at_event p o s → v_objs (look s) !! p = Some (core o).
Proof. intros (Hp & _). by apply look_obj. Qed.
Lemma at_event_idx p o s : at_event p o s → 0 ≤ idx o < 64.
Proof. intros (Hp & _ & Hn). by destruct (named_obj _ _ _ Hn Hp). Qed.

Lemma get4_route p o s :
  at_event p o s →
  wp (update_default_route (path o) EVT_WAN_CONN_GETV4) s
    (λ _ s', look s' = look s ∨ look s' = set_v4 (fmt_d (idx o)) (look s) ∧ SVC_WAN_SRV_E8C_INTERNET (cfg o) = true ∧ up4 o = true).
Proof.
  intros Hev. pose proof (at_event_view _ _ _ Hev) as Hp. apply mk_is_Some in Hp. pose proof (at_event_idx _ _ _ Hev) as Hi.
  apply (update_route_found _ p); [done|].
  cbn [Z.eqb EVT_WAN_CONN_GETV4 Pos.eqb]. destruct (up4 o) eqn:Hu; cbn [negb].
  2: { apply wp_bind, wp_ret, wp_ret. by left. }
  apply (wp_at p (look s)); [done|done|apply soft_gateway|]. intros [gw|] s1 E1; [|apply wp_ret; by left].
  unfold update_route_rest. apply (wp_reads p (look s)); [done|done|]. clear s1 E1. intros s1 E1.
  cbn [Z.eqb EVT_WAN_CONN_GETV4 Pos.eqb]. apply (wp_at p (look s)); [done|done|apply soft_when, soft_run|]. clear s1 E1. intros _ s1 E1.
  destruct (SVC_WAN_SRV_E8C_INTERNET (cfg o) && streq (v4 (look s)) NA) eqn:Hd.
  - apply andb_true_iff in Hd as [He _].
    apply (wp_at p (look s)); [done|done|apply soft_run|]. clear s1 E1. intros _ s1 E1.
    apply (wp_at p (look s)); [done|done|apply soft_add4|]. clear s1 E1. intros _ s1 E1.
    apply (wp_at p (look s)); [done|done|apply soft_run|]. clear s1 E1. intros _ s1 E1.
    apply (wp_set4 _ (look s)); [by apply index_short|done|]. clear s1 E1. intros s1 E1.
    eapply (wp_at_end p); [|done| |]; [done| |intros _ s2 E2; by right].
    apply soft_bind; [apply soft_run|]. intros _. apply soft_bind; [apply soft_nat|]. intros _. apply soft_run.
  - eapply (wp_at_end p); [|done| |]; [done|apply soft_run|]. intros _ s2 E2. by left.
Qed.

Lemma lost4_route p o s :
  at_event p o s →
  wp (update_default_route (path o) EVT_WAN_CONN_LOSTV4) s
    (λ _ s', ∃ x, look s' = set_v4 x (look s) ∧
       (x = v4 (look s) ∧ (x = NA ∨ x ≠ fmt_d (idx o)) ∨ held carries4 (v_objs (look s)) x)).
Proof.
  intros Hev. pose proof (at_event_view _ _ _ Hev) as Hp. apply mk_is_Some in Hp. pose proof (at_event_idx _ _ _ Hev) as Hi.
  apply (update_route_found _ p); [done|]. destruct Hev as (_ & Hl & Hn).
  cbn [Z.eqb EVT_WAN_CONN_LOSTV4 EVT_WAN_CONN_GETV4 EVT_WAN_CONN_GETV6 Pos.eqb]. apply wp_bind, wp_ret.
  unfold update_route_rest. apply (wp_reads p (look s)); [done|done|]. intros s1 E1.
  cbn [Z.eqb EVT_WAN_CONN_LOSTV4 EVT_WAN_CONN_GETV4 EVT_WAN_CONN_GETV6 Pos.eqb].
  apply wp_when; [intros Hna%negb_true_iff%streq_neq|intros Hna%negb_false_iff%streq_eq].
  2: { exists (v4 (look s)). split; [done|]. left. by split; [|left]. }
  apply wp_bind. eapply wp_mono with (Q := λ x s', look s' = look s ∧
    (x = v4 (look s) ∧ (x = NA ∨ x ≠ fmt_d (idx o)) ∨ held carries4 (v_objs (look s)) x)).
  - destruct (idx o =? atoi (v4 (look s))) eqn:Ha.
    + eapply wp_mono; [apply (default_route_switch_spec _ p); [by left|apply look_some; by rewrite E1|by rewrite E1]|].
      intros x s2 [E2 Hx]. rewrite E1 in Hx. split; [congruence|]. by right.
    + apply wp_ret. split; [done|]. left. split; [done|]. right. intros E. rewrite E, index_atoi in Ha by done. zbool.
  - intros x s2 [E2 Hx]. apply (wp_set4 _ (look s)); [|done|].
    { destruct Hx as [[-> _]|Hx]; [apply route_short|by apply (held_short carries4 (look s))]. }
    intros s3 E3. eapply (wp_at_end p); [|done| |]; [done| |intros _ s4 E4; by exists x].
    apply soft_bind; [apply soft_ask|]. intros g. apply soft_nat.
Qed.

Lemma get6_route p o s :
  at_event p o s →
  wp (update_default_route (path o) EVT_WAN_CONN_GETV6) s
    (λ _ s', look s' = look s ∨ look s' = set_v6 (fmt_d (idx o)) (look s) ∧ carries6 o = true).
Proof.
  intros Hev. pose proof (at_event_view _ _ _ Hev) as Hp. apply mk_is_Some in Hp. pose proof (at_event_idx _ _ _ Hev) as Hi.
  apply (update_route_found _ p); [done|]. unfold carries6.
  cbn [Z.eqb EVT_WAN_CONN_GETV6 EVT_WAN_CONN_GETV4 Pos.eqb]. destruct (up6 o) eqn:Hu; cbn [negb orb].
  2: { apply wp_bind, wp_ret, wp_ret. by left. }
  destruct (SVC_WAN_SRV_E8C_INTERNET (cfg o)) eqn:He; cbn [negb].
  2: { apply wp_bind, wp_ret, wp_ret. by left. }
  apply (wp_at p (look s)); [done|done|apply soft_gateway|]. intros [gw|] s1 E1; [|apply wp_ret; by left].
  unfold update_route_rest. apply (wp_reads p (look s)); [done|done|]. clear s1 E1. intros s1 E1.
  cbn [Z.eqb EVT_WAN_CONN_GETV6 EVT_WAN_CONN_LOSTV4 EVT_WAN_CONN_GETV4 Pos.eqb]. apply wp_when; [intros _|intros _; by left].
  apply (wp_at p (look s)); [done|done|apply soft_add6|]. clear s1 E1. intros _ s1 E1.
  eapply wp_mono; [apply set_route6; by apply index_short|]. cbn beta. rewrite E1. intros _ s2 E2. by right.
Qed.

Lemma lost6_route p o s :
  at_event p o s →
  wp (update_default_route (path o) EVT_WAN_CONN_LOSTV6) s
    (λ _ s', ∃ x y, look s' = set_v4 x (set_v6 y (look s)) ∧
       (y = v6 (look s) ∧ (y = NA ∨ y ≠ fmt_d (idx o)) ∨ held carries6 (v_objs (look s)) y) ∧
       (x = v4 (look s) ∧
          (negb (SVC_WAN_IS_BRIDGE (cfg o)) && SVC_WAN_SRV_INTERNET (cfg o) && SVC_WAN_DSLITE_ENABLE (cfg o) = true →
           x = NA ∨ x ≠ fmt_d (idx o))
        ∨ held carries4 (v_objs (look s)) x)).
Proof.
  intros Hev. pose proof (at_event_view _ _ _ Hev) as Hp. apply mk_is_Some in Hp. pose proof (at_event_idx _ _ _ Hev) as Hi.
  apply (update_route_found _ p); [done|]. destruct Hev as (_ & Hl & Hn).
  cbn [Z.eqb EVT_WAN_CONN_LOSTV6 EVT_WAN_CONN_GETV4 EVT_WAN_CONN_GETV6 Pos.eqb]. apply wp_bind, wp_ret.
  unfold update_route_rest. apply (wp_reads p (look s)); [done|done|]. intros s1 E1.
  cbn [Z.eqb EVT_WAN_CONN_LOSTV6 EVT_WAN_CONN_LOSTV4 EVT_WAN_CONN_GETV4 EVT_WAN_CONN_GETV6 Pos.eqb when].
  apply wp_bind. eapply wp_mono with (Q := λ _ s', ∃ y, look s' = set_v6 y (look s) ∧
    (y = v6 (look s) ∧ (y = NA ∨ y ≠ fmt_d (idx o)) ∨ held carries6 (v_objs (look s)) y)).
  { apply wp_when; [intros Hna%negb_true_iff%streq_neq|intros Hna%negb_false_iff%streq_eq].
    2: { exists (v6 (look s)). split; [done|]. left. by split; [|left]. }
    apply wp_bind. eapply wp_mono with (Q := λ y s', look s' = look s ∧
      (y = v6 (look s) ∧ (y = NA ∨ y ≠ fmt_d (idx o)) ∨ held carries6 (v_objs (look s)) y)).
    - destruct (idx o =? atoi (v6 (look s))) eqn:Ha.
      + eapply wp_mono; [apply (default_route_switch_spec _ p); [by right|apply look_some; by rewrite E1|by rewrite E1]|].
        intros x s2 [E2 Hx]. rewrite E1 in Hx. split; [congruence|]. by right.
      + apply wp_ret. split; [done|]. left. split; [done|]. right. intros E. rewrite E, index_atoi in Ha by done. zbool.
    - intros y s2 [E2 Hy]. eapply wp_mono; [apply set_route6|cbn beta; rewrite E2; intros _ s3 E3; by exists y].
      destruct Hy as [[-> _]|Hy]; [apply route_short|by apply (held_short carries6 (look s))]. }
  intros _ s2 (y & E2 & Hy). apply wp_when; intros Hc.
  - apply andb_true_iff in Hc as [_ _]. apply wp_bind.
    eapply wp_mono; [apply (default_route_switch_spec _ p); [by left|apply look_some; by rewrite E2|by rewrite E2]|].
    intros x s3 [E3 Hx]. rewrite E2 in Hx. eapply wp_mono; [apply set_route4; by apply (held_short carries4 (look s))|].
    cbn beta. rewrite E3, E2. intros _ s4 E4. exists x, y. split; [done|]. split; [done|]. by right.
  - exists (v4 (look s)), y. split; [done|]. split; [done|]. left. split; [done|]. intros Hd. rewrite Hd in Hc. cbn [andb] in Hc.
    apply andb_false_iff in Hc as [Hc%negb_false_iff%streq_eq|Hc]; [by left|]. right. intros E. rewrite E, index_atoi in Hc by done. zbool.
Qed.

End functions.
End WanProps.
