(* ===== verification/WanRun.v ===== *)
(** * Connections, from configuration to removal

    The invariant of the service and its proof along updates, removals and
    the events of connections. *)

From stdpp Require Import gmap.
From S2P Require Import Prelude CString Text Utility WanObj WanRoute WanCfg WanDev WanMgr WanList WanProps.
Open Scope Z_scope.

Module WanRun.
Import Text Utility WanObj WanRoute WanCfg WanDev WanMgr WanList WanProps.

(** ** Which addresses an interface reports *)

(** A started interface serves a protocol: what it reports for that protocol
    is taken back when it is stopped. *)
Definition serves4 (c : wan_entry_cfg) : bool :=
  negb (SVC_WAN_IS_BRIDGE c) && SVC_WAN_IS_IPV4 c
  && (negb (SVC_WAN_IS_PPP c) || (negb (SVC_WAN_IS_IPV4_STATIC c) && negb (SVC_WAN_IS_IPV6 c && SVC_WAN_DSLITE_ENABLE c))).
Definition serves6 (c : wan_entry_cfg) : bool :=
  negb (SVC_WAN_IS_BRIDGE c) && SVC_WAN_IS_IPV6 c && (negb (SVC_WAN_IS_PPP c) || negb (SVC_WAN_IS_IPV6_STATIC c)).

Section wan.
Context {W : Type} `{WanLaws W}.
Abbreviation WM := (M (wan W)).

(** ** The invariant

    [q] is an object that is being started: it may have addresses already. *)
Definition flag_ok (q : option positive) (a : positive) (o : wan_entry_obj) : Prop :=
  (started o = true → svc_wan_check_cfg (cfg o) = 1) ∧
  (up4 o = true → (started o = true ∨ q = Some a) ∧ serves4 (cfg o) = true) ∧
  (up6 o = true → (started o = true ∨ q = Some a) ∧ serves6 (cfg o) = true).
Definition flags_ok (q : option positive) (v : view) : Prop := ∀ a o, v_objs v !! a = Some o → flag_ok q a o.
Definition sound (q : option positive) (v : view) : Prop :=
  linked v ∧ named v ∧ flags_ok q v ∧ held carries4 (v_objs v) (v4 v) ∧ held carries6 (v_objs v) (v6 v).

(** ** Changing an object of a view *)

Definition set_obj (p : positive) (o : wan_entry_obj) (v : view) : view :=
  {| v_head := v_head v; v_objs := <[p := o]> (v_objs v); v4 := v4 v; v6 := v6 v |}.

Lemma upd_look p o f s : objs s !! p = Some o → wp (upd p f) s (λ _ s', look s' = set_obj p (core (f o)) (look s)).
Proof. intros Hp. apply (wp_upd _ o); [done|]. unfold look, set_obj. cbn. by rewrite fmap_insert. Qed.

(** What the names and the list depend on. *)
Definition same_place (o o' : wan_entry_obj) : Prop := next o' = next o ∧ path o' = path o ∧ idx o' = idx o ∧ dev o' = dev o.

Lemma linked_set p o o' v : v_objs v !! p = Some o → same_place o o' → linked v → linked (set_obj p o' v).
Proof.
  intros Hp (Hn & _) (l & Hc & Hnd & Hall). exists (at_obj p o' <$> l). rewrite at_obj_fst.
  split; [by apply (chain_change _ _ _ _ o)|]. split; [done|]. cbn. intros a [oa Ha]. apply Hall.
  destruct (decide (a = p)) as [->|]; [by eexists|]. rewrite lookup_insert_ne in Ha by done. by eexists.
Qed.
Lemma named_set p o o' v : v_objs v !! p = Some o → same_place o o' → named v → named (set_obj p o' v).
Proof.
  intros Hp (_ & Hpa & Hi & Hd) [Hn Hinj]. unfold named, set_obj. cbn [v_objs]. split.
  - intros a oa Ha. destruct (decide (a = p)) as [->|].
    + rewrite lookup_insert_eq in Ha. simplify_eq. rewrite Hpa, Hi, Hd. by apply (Hn p).
    + rewrite lookup_insert_ne in Ha by done. by apply (Hn a).
  - assert (Hold : ∀ a oa, <[p := o']> (v_objs v) !! a = Some oa → ∃ ob, v_objs v !! a = Some ob ∧ idx ob = idx oa).
    { intros a oa Ha. destruct (decide (a = p)) as [->|].
      - rewrite lookup_insert_eq in Ha. simplify_eq. by exists o.
      - rewrite lookup_insert_ne in Ha by done. by exists oa. }
    intros a b oa ob (oa' & Ha & Ea)%Hold (ob' & Hb & Eb)%Hold E. apply (Hinj _ _ _ _ Ha Hb). congruence.
Qed.
Lemma flags_set q p o' v : flags_ok q v → flag_ok q p o' → flags_ok q (set_obj p o' v).
Proof.
  intros Hf Hp a o Ha. cbn in Ha. destruct (decide (a = p)) as [->|].
  - rewrite lookup_insert_eq in Ha. by simplify_eq.
  - rewrite lookup_insert_ne in Ha by done. by apply Hf.
Qed.
(** A route that is another object's, or fits the changed one. *)
Lemma held_set fit p o o' m r :
  m !! p = Some o → idx o' = idx o → held fit m r → (r = fmt_d (idx o) → fit o = true → fit o' = true) → held fit (<[p := o']> m) r.
Proof.
  intros Hp Hi [->|(a & oa & Ha & -> & Hfit)] Hk; [by left|]. right. destruct (decide (a = p)) as [->|].
  - simplify_eq. exists p, o'. rewrite lookup_insert_eq, Hi. eauto.
  - exists a, oa. by rewrite lookup_insert_ne.
Qed.
(** A route that was the changed object's, which is not fit any more. *)
Lemma held_lost fit p o o' m r :
  m !! p = Some o → idx o' = idx o → held fit m r → r = NA ∨ r ≠ fmt_d (idx o') → held fit (<[p := o']> m) r.
Proof. intros Hp Hi Hr [->|Hno]; [by left|]. apply (held_set _ _ o); [done|done|done|]. congruence. Qed.


(** What an event of a connection keeps of every object. *)
Definition keep (o : wan_entry_obj) := (next o, path o, idx o, dev o, cfg o, started o).
Definition conns (v v' : view) : Prop := v_head v' = v_head v ∧ keep <$> v_objs v' = keep <$> v_objs v.
#[global] Instance conns_preorder : PreOrder conns.
Proof. split; [done|]. intros v1 v2 v3 [A1 B1] [A2 B2]. split; congruence. Qed.
Lemma conns_obj v v' p o : conns v v' → v_objs v !! p = Some o → ∃ o', v_objs v' !! p = Some o' ∧ keep o' = keep o.
Proof.
  intros [_ Hk] Hp. assert (E : (keep <$> v_objs v') !! p = Some (keep o)) by (by rewrite Hk, lookup_fmap, Hp).
  rewrite lookup_fmap in E. apply fmap_Some in E as (o' & ? & ?). eauto.
Qed.
Lemma conns_set p o o' v : v_objs v !! p = Some o → keep o' = keep o → conns v (set_obj p o' v).
Proof. intros Hp Hk. split; [done|]. cbn. rewrite fmap_insert, Hk. apply insert_id. by rewrite lookup_fmap, Hp. Qed.

(** ** The events of connections *)

(** What an event does to the routes: [o] is its object. *)
Definition got4 (o : wan_entry_obj) (v v' : view) : Prop :=
  v' = v ∨ v' = set_v4 (fmt_d (idx o)) v ∧ SVC_WAN_SRV_E8C_INTERNET (cfg o) = true ∧ up4 o = true.
Definition got6 (o : wan_entry_obj) (v v' : view) : Prop := v' = v ∨ v' = set_v6 (fmt_d (idx o)) v ∧ carries6 o = true.
Definition gone4 (o : wan_entry_obj) (v v' : view) : Prop :=
  ∃ x, v' = set_v4 x v ∧ (x = v4 v ∧ (x = NA ∨ x ≠ fmt_d (idx o)) ∨ held carries4 (v_objs v) x).
Definition gone6 (o : wan_entry_obj) (v v' : view) : Prop :=
  ∃ x y, v' = set_v4 x (set_v6 y v) ∧
    (y = v6 v ∧ (y = NA ∨ y ≠ fmt_d (idx o)) ∨ held carries6 (v_objs v) y) ∧
    (x = v4 v ∧ (negb (SVC_WAN_IS_BRIDGE (cfg o)) && SVC_WAN_SRV_INTERNET (cfg o) && SVC_WAN_DSLITE_ENABLE (cfg o) = true →
                 x = NA ∨ x ≠ fmt_d (idx o))
     ∨ held carries4 (v_objs v) x).
Definition routed (evt : Z) (o : wan_entry_obj) (v v' : view) : Prop :=
  if evt =? EVT_WAN_CONN_GETV4 then got4 o v v'
  else if evt =? EVT_WAN_CONN_GETV6 then got6 o v v'
  else if evt =? EVT_WAN_CONN_LOSTV4 then gone4 o v v' else gone6 o v v'.
Definition conn_event (evt : Z) : Prop :=
  evt = EVT_WAN_CONN_GETV4 ∨ evt = EVT_WAN_CONN_LOSTV4 ∨ evt = EVT_WAN_CONN_GETV6 ∨ evt = EVT_WAN_CONN_LOSTV6.

Lemma update_route_view evt p o v s :
  conn_event evt → look s = v → v_objs v !! p = Some (core o) → linked v → named v →
  wp (update_default_route (path o) evt) s (λ _ s', routed evt o v (look s')).
Proof.
  intros Hevt <- Hp Hl Hn. destruct (look_inv _ _ _ Hp) as (o' & Hp' & E).
  assert (Hev : at_event p o' s) by done. change (path o) with (path (core o)). rewrite <- E. cbn [path core set_nat set_pid4 set_pid6].
  assert (Hi : idx o' = idx o) by (by change (idx (core o') = idx (core o)); rewrite E).
  assert (Hc : cfg o' = cfg o) by (by change (cfg (core o') = cfg (core o)); rewrite E).
  assert (Hf : flag o' = flag o) by (by change (flag (core o') = flag (core o)); rewrite E).
  unfold routed, got4, got6, gone4, gone6, carries6, is_set. rewrite <- Hi, <- Hc, <- Hf.
  destruct Hevt as [->|[->|[->| ->]]].
  - by apply (get4_route p).
  - by apply (lost4_route p).
  - by apply (get6_route p).
  - by apply (lost6_route p).
Qed.

Lemma conn_evt_spec evt p o s :
  conn_event evt → at_event p o s → wp (svc_wan_handle_conn_evt p evt) s (λ _ s', routed evt o (look s) (look s')).
Proof.
  intros Hevt (Hp & Hl & Hn). pose proof (look_obj _ _ _ Hp) as Hv. pose proof (mk_is_Some _ _ Hv) as Hs.
  assert (Hroute : ∀ (f : unit → WM unit) s1, look s1 = look s → (∀ u, soft p (f u)) →
            wp (mbind f (update_default_route (path o) evt)) s1 (λ _ s', routed evt o (look s) (look s'))).
  { intros f s1 E1 Hf. apply wp_bind. eapply wp_mono; [by apply (update_route_view evt p)|]. intros u s2 H2.
    assert (Hs2 : is_Some (objs s2 !! p)).
    { apply look_some. unfold routed, got4, got6, gone4, gone6 in H2. destruct Hevt as [->|[->|[->| ->]]]; cbn in H2.
      - destruct H2 as [->|(-> & _)]; exact Hs.
      - destruct H2 as (x & -> & _). exact Hs.
      - destruct H2 as [->|(-> & _)]; exact Hs.
      - destruct H2 as (x & y & -> & _). exact Hs. }
    eapply wp_mono; [by apply Hf|]. intros [] s3 E3. by rewrite E3. }
  unfold svc_wan_handle_conn_evt. apply wp_bind, (wp_the _ o); [done|].
  apply (wp_at p (look s)); [done|done|apply soft_run|]. intros _ s1 E1.
  apply (wp_at p (look s)); [done|done|apply soft_run|]. clear s1 E1. intros _ s1 E1.
  apply wp_bind. eapply wp_mono with (Q := λ _ s', routed evt o (look s) (look s')); [|intros; by apply wp_ret].
  pose proof (λ b d, soft_when p b _ (soft_start_nat p d)) as Hon. pose proof (λ b d, soft_when p b _ (soft_stop_nat p d)) as Hoff.
  destruct Hevt as [->|[->|[->| ->]]];
    cbn [Z.eqb EVT_WAN_BRIDGE_UP EVT_WAN_BRIDGE_DOWN EVT_WAN_CONN_GETV4 EVT_WAN_CONN_LOSTV4 EVT_WAN_CONN_GETV6 EVT_WAN_CONN_LOSTV6 Pos.eqb orb when].
  - apply (wp_at p (look s)); [done|done|apply Hon|]. clear s1 E1. intros _ s1 E1.
    do 2 (apply (wp_at p (look s)); [done|done|apply soft_run|]; clear s1 E1; intros _ s1 E1).
    apply Hroute; [done|]. intros u. soft.
  - apply (wp_at p (look s)); [done|done|apply Hoff|]. clear s1 E1. intros _ s1 E1.
    apply (wp_at p (look s)); [done|done|apply soft_run|]; clear s1 E1; intros _ s1 E1.
    apply Hroute; [done|]. intros u. soft.
  - do 3 (apply (wp_at p (look s)); [done|done|apply soft_run|]; clear s1 E1; intros _ s1 E1).
    apply Hroute; [done|]. intros u. soft.
  - apply (wp_at p (look s)); [done|done|apply soft_run|]; clear s1 E1; intros _ s1 E1.
    apply Hroute; [done|]. intros u. soft.
Qed.

Lemma find_by_dev_spec d (s : wan W) :
  linked (look s) → named (look s) → ∃ r, svc_wan_find_object_by_dev d s = Ok (r, s) ∧
    match r with
    | Some a => ∃ o, objs s !! a = Some o ∧ idx o = get_wanindex_by_name d
    | None => ∀ a o, objs s !! a = Some o → idx o ≠ get_wanindex_by_name d
    end.
Proof.
  intros (l & Hr & Hall)%linked_rep Hn. destruct (decide (get_wanindex_by_name d < 0)) as [Hneg|Hpos].
  - exists None. unfold svc_wan_find_object_by_dev. rewrite (proj2 (Z.ltb_lt _ _)) by done. split; [done|].
    intros a o Ha. destruct (named_obj _ _ _ Hn Ha) as (Hi & _). lia.
  - eexists. split; [apply find_by_dev_run; [done|lia|done]|]. destruct (find_idx _ l) as [a|] eqn:E.
    + apply find_idx_elem in E as (o & Hin & <-). exists o. split; [|done]. by apply (rep_in _ _ _ _ Hr).
    + intros a o Ha. apply (find_idx_none _ _ a _ E). apply (rep_elem s); [done|apply Hall; by eexists|done].
Qed.
(** The object of an interface's name. *)
Lemma find_by_own_dev p o d (s : wan W) :
  linked (look s) → named (look s) → objs s !! p = Some o → d = dev o ∨ d = ppp_name (idx o) →
  svc_wan_find_object_by_dev d s = Ok (Some p, s).
Proof.
  intros Hl Hn Hp Hd. destruct (named_obj _ _ _ Hn Hp) as (Hi & _ & Hdev).
  assert (E : get_wanindex_by_name d = idx o) by (apply get_wanindex_of; [done|destruct Hd; [left|right]; congruence]).
  destruct (find_by_dev_spec d s Hl Hn) as (r & Hr & Hspec). rewrite Hr. rewrite E in Hspec. destruct r as [a|].
  - destruct Hspec as (oa & Ha & Hia). by rewrite (named_inj _ _ _ _ _ Hn Ha Hp Hia).
  - by destruct (Hspec _ _ Hp).
Qed.

(** An address gained. *)
Lemma sound_get4 q p o v v' :
  sound q v → v_objs v !! p = Some o → (started o = true ∨ q = Some p) ∧ serves4 (cfg o) = true →
  got4 (raise SVC_WAN_FLAG_UPV4 o) (set_obj p (raise SVC_WAN_FLAG_UPV4 o) v) v' → sound q v' ∧ conns v v'.
Proof.
  intros (Hl & Hn & Hf & H4 & H6) Hp Hq Hgot. destruct (raise_up4 o) as (Es & E4 & E6). set (o' := raise SVC_WAN_FLAG_UPV4 o) in *.
  assert (Hplace : same_place o o') by done.
  assert (Hsound : sound q (set_obj p o' v)).
  { split; [by apply (linked_set _ o)|]. split; [by apply (named_set _ o)|]. split.
    - apply flags_set; [done|]. destruct (Hf _ _ Hp) as (F1 & _ & F3). unfold flag_ok. rewrite Es, E6. split; [done|]. by split.
    - split; cbn [set_obj v_objs WanProps.v4 WanProps.v6]; (apply (held_set _ _ o); [done|done|done|intros _]).
      + unfold carries4. rewrite E4. cbn. destruct (SVC_WAN_SRV_E8C_INTERNET (cfg o)); done.
      + unfold carries6. by rewrite E6. }
  assert (Hconns : conns v (set_obj p o' v)) by (apply (conns_set _ o); [done|unfold keep; by rewrite Es]).
  destruct Hgot as [->|(-> & He & Hu)]; [done|]. split; [|done].
  destruct Hsound as (S1 & S2 & S3 & _ & S5). split; [done|]. split; [done|]. split; [done|]. split; [|done].
  right. exists p, o'. cbn. rewrite lookup_insert_eq. split; [done|]. split; [done|]. unfold carries4. by rewrite He, Hu.
Qed.
Lemma sound_get6 q p o v v' :
  sound q v → v_objs v !! p = Some o → (started o = true ∨ q = Some p) ∧ serves6 (cfg o) = true →
  got6 (raise SVC_WAN_FLAG_UPV6 o) (set_obj p (raise SVC_WAN_FLAG_UPV6 o) v) v' → sound q v' ∧ conns v v'.
Proof.
  intros (Hl & Hn & Hf & H4 & H6) Hp Hq Hgot. destruct (raise_up6 o) as (Es & E4 & E6). set (o' := raise SVC_WAN_FLAG_UPV6 o) in *.
  assert (Hplace : same_place o o') by done.
  assert (Hsound : sound q (set_obj p o' v)).
  { split; [by apply (linked_set _ o)|]. split; [by apply (named_set _ o)|]. split.
    - apply flags_set; [done|]. destruct (Hf _ _ Hp) as (F1 & F2 & _). unfold flag_ok. rewrite Es, E4. split; [done|]. by split.
    - split; cbn [set_obj v_objs WanProps.v4 WanProps.v6]; (apply (held_set _ _ o); [done|done|done|intros _]).
      + unfold carries4. rewrite E4, E6. cbn. destruct (SVC_WAN_SRV_E8C_INTERNET (cfg o)), (up4 o); try done.
        destruct (SVC_WAN_DSLITE_ENABLE (cfg o)), (SVC_WAN_SRV_INTERNET (cfg o)); done.
      + unfold carries6. rewrite E6. cbn. by destruct (SVC_WAN_SRV_E8C_INTERNET (cfg o)). }
  assert (Hconns : conns v (set_obj p o' v)) by (apply (conns_set _ o); [done|unfold keep; by rewrite Es]).
  destruct Hgot as [->|(-> & Hc)]; [done|]. split; [|done].
  destruct Hsound as (S1 & S2 & S3 & S4 & _). split; [done|]. split; [done|]. split; [done|]. split; [done|].
  right. exists p, o'. cbn. by rewrite lookup_insert_eq.
Qed.

(** An address lost. *)
Lemma sound_lost4 q p o v v' :
  sound q v → v_objs v !! p = Some o →
  gone4 (lower SVC_WAN_FLAG_UPV4 o) (set_obj p (lower SVC_WAN_FLAG_UPV4 o) v) v' → sound q v' ∧ conns v v'.
Proof.
  intros (Hl & Hn & Hf & H4 & H6) Hp (x & -> & Hx). destruct (lower_up4 o) as (Es & E4 & E6). set (o' := lower SVC_WAN_FLAG_UPV4 o) in *.
  assert (Hplace : same_place o o') by done.
  assert (Hconns : conns v (set_obj p o' v)) by (apply (conns_set _ o); [done|unfold keep; by rewrite Es]).
  split; [|done]. split; [by apply (linked_set _ o)|]. split; [by apply (named_set _ o)|]. split; [|split].
  - apply (flags_set q p o' v); [done|]. destruct (Hf _ _ Hp) as (F1 & _ & F3). unfold flag_ok. rewrite Es, E4, E6. by split.
  - cbn [set_v4 v_objs WanProps.v4 set_obj]. destruct Hx as [[-> Hno]|Hx]; [|done]. by apply (held_lost _ _ o).
  - cbn [set_v4 v_objs WanProps.v6 set_obj]. apply (held_set _ _ o); [done|done|done|intros _]. unfold carries6. by rewrite E6.
Qed.
Lemma sound_lost6 q p o v v' :
  sound q v → v_objs v !! p = Some o →
  gone6 (lower SVC_WAN_FLAG_UPV6 o) (set_obj p (lower SVC_WAN_FLAG_UPV6 o) v) v' → sound q v' ∧ conns v v'.
Proof.
  intros (Hl & Hn & Hf & H4 & H6) Hp (x & y & -> & Hy & Hx). destruct (lower_up6 o) as (Es & E4 & E6). set (o' := lower SVC_WAN_FLAG_UPV6 o) in *.
  assert (Hplace : same_place o o') by done. destruct (Hf _ _ Hp) as (F1 & F2 & F3).
  assert (Hconns : conns v (set_obj p o' v)) by (apply (conns_set _ o); [done|unfold keep; by rewrite Es]).
  split; [|done]. split; [by apply (linked_set _ o)|]. split; [by apply (named_set _ o)|]. split; [|split].
  - apply (flags_set q p o' v); [done|]. unfold flag_ok. rewrite Es, E4, E6. by split.
  - cbn [set_v4 set_v6 v_objs WanProps.v4 set_obj]. destruct Hx as [[-> Hno]|Hx]; [|done].
    destruct (negb (SVC_WAN_IS_BRIDGE (cfg o')) && SVC_WAN_SRV_INTERNET (cfg o') && SVC_WAN_DSLITE_ENABLE (cfg o')) eqn:Hd.
    + apply (held_lost _ _ o); [done|done|done|]. by apply Hno.
    + apply (held_set _ _ o); [done|done|done|intros _]. unfold carries4. rewrite E4, E6. cbn in Hd |- *.
      destruct (SVC_WAN_SRV_E8C_INTERNET (cfg o)); [|done]. destruct (up4 o); [done|]. cbn.
      destruct (up6 o) eqn:Hu; [|by rewrite !andb_false_r]. destruct (F3 eq_refl) as [_ Hs]. unfold serves6 in Hs.
      destruct (SVC_WAN_IS_BRIDGE (cfg o)); [done|]. cbn in Hd.
      destruct (SVC_WAN_DSLITE_ENABLE (cfg o)), (SVC_WAN_SRV_INTERNET (cfg o)); done.
  - cbn [set_v4 set_v6 v_objs WanProps.v6 set_obj]. destruct Hy as [[-> Hno]|Hy]; [|done]. by apply (held_lost _ _ o).
Qed.

(** A flag has been changed: the information node is written, the routes are
    updated. *)
Lemma route_after {A} evt f p o s s1 (k : Z → WM A) Q :
  conn_event evt → (∀ o, core (f o) = f (core o) ∧ same_place o (f o)) → at_event p o s →
  look s1 = set_obj p (f (core o)) (look s) →
  (∀ r s', routed evt (f (core o)) (set_obj p (f (core o)) (look s)) (look s') → wp (k r) s' Q) →
  wp (svc_wan_set_info p evt;; r ← svc_wan_handle_conn_evt p evt; k r) s1 Q.
Proof.
  intros Hevt Hf (Hp & Hl & Hn) E1 Hk. pose proof (look_obj _ _ _ Hp) as Hv.
  assert (Hplace : same_place (core o) (f (core o))) by apply Hf.
  assert (Hv1 : v_objs (set_obj p (f (core o)) (look s)) !! p = Some (f (core o))) by apply lookup_insert_eq.
  apply (wp_at p (set_obj p (f (core o)) (look s))); [by eexists|done|apply soft_set_info|]. intros _ s2 E2.
  rewrite <- E2 in Hv1. destruct (look_inv _ _ _ Hv1) as (o2 & Hp2 & Ho2).
  assert (Hev2 : at_event p o2 s2).
  { split; [done|]. rewrite E2. split; [by apply (linked_set _ (core o))|by apply (named_set _ (core o))]. }
  apply wp_bind. eapply wp_mono; [by apply (conn_evt_spec evt p o2)|]. cbn beta. rewrite E2. intros r s3 H3. apply Hk.
  assert (Er : ∀ v v', routed evt o2 v v' = routed evt (core o2) v v') by done. by rewrite Er, Ho2 in H3.
Qed.
Lemma wp_flag {A} f p o s (k : unit → WM A) Q :
  (∀ o, core (f o) = f (core o) ∧ same_place o (f o)) → objs s !! p = Some o →
  (∀ s1, look s1 = set_obj p (f (core o)) (look s) → wp (k tt) s1 Q) → wp (mbind k (upd p f)) s Q.
Proof.
  intros Hf Hp Hk. destruct (Hf o) as [Hc _]. apply wp_bind. eapply wp_mono; [by apply (upd_look _ o)|].
  cbn beta. rewrite Hc. intros [] s1 E1. by apply Hk.
Qed.

Lemma conns_some v v' p : conns v v' → is_Some (v_objs v !! p) → is_Some (v_objs v' !! p).
Proof. intros Hc [o Ho]. destruct (conns_obj _ _ _ _ Hc Ho) as (o' & ? & _). by eexists. Qed.

(** The result of the handlers: the service stays sound, and connections
    change nothing else. *)
Definition handled {A} (q : option positive) (s : wan W) : A → wan W → Prop := λ _ s', sound q (look s') ∧ conns (look s) (look s').

(** The object of [d] was started for the protocol. *)
Definition may_report (serves : wan_entry_cfg → bool) (q : option positive) (d : cstr) (s : wan W) : Prop :=
  ∀ p o, objs s !! p = Some o → idx o = get_wanindex_by_name d → (started o = true ∨ q = Some p) ∧ serves (cfg o) = true.

Lemma at_event_sound q p o s : sound q (look s) → objs s !! p = Some o → at_event p o s.
Proof. by intros (Hl & Hn & _) Hp. Qed.

Lemma handled_end {A} q p v s (m : WM A) (s0 : wan W) :
  sound q v → conns (look s0) v → is_Some (v_objs v !! p) → look s = v → soft p m → wp m s (handled q s0).
Proof.
  intros Hs Hc Hp Hv Hm. apply (wp_at_end p v); [done|done|done|]. intros a s' E. unfold handled. by rewrite E.
Qed.

Lemma getv4_spec q d s : sound q (look s) → may_report serves4 q d s → wp (svc_wan_handle_event_conn_getv4 d) s (handled q s).
Proof.
  intros Hs Hd. pose proof Hs as (Hl & Hn & _). unfold svc_wan_handle_event_conn_getv4.
  destruct (find_by_dev_spec d s Hl Hn) as (r & Hr & Hspec). apply wp_bind, (wp_Ok _ _ _ _ _ Hr). destruct r as [p|]; [|by apply wp_ret].
  destruct Hspec as (o & Hp & Hi). apply wp_bind, (wp_the _ o); [done|]. destruct (up4 o); [by apply wp_ret|].
  apply (wp_flag _ _ o); [done|done|]. intros s1 E1.
  apply (route_after _ (raise SVC_WAN_FLAG_UPV4) p o s); [by left|done|by apply (at_event_sound q)|done|]. intros r s' Hrt.
  destruct (sound_get4 q p (core o) (look s) (look s') Hs (look_obj _ _ _ Hp) (Hd _ _ Hp Hi) Hrt) as [Hs' Hc].
  apply (handled_end q p (look s')); [done|done| |done|soft]. apply (conns_some _ _ _ Hc). eexists. by apply look_obj.
Qed.

Lemma ready_run o (s : wan W) : ∃ b, check_ipv6_info_ready o s = Ok (b, s).
Proof.
  unfold check_ipv6_info_ready.
  assert (Hf : ∀ f n, ∃ l, svc_wan_get_file_string f n s = Ok (l, s)) by (intros; eexists; reflexivity).
  assert (Hg : ∀ f n, ∃ b, (l ← svc_wan_get_file_string f n; mret (0 <? zlen l)) s = Ok (b, s)).
  { intros f n. destruct (Hf f n) as [l Hl]. step_by Hl. by eexists. }
  cbv zeta.
  match goal with |- ∃ b, (x ← ?m; _) s = _ => destruct (Hg (cs "/var/run/" ++ svc_wan_intf_name o ++ cs "/" ++ cs "ip6") 1%nat) as [b1 H1] end.
  step_by H1. destruct b1; cbn [negb]; [|by eexists].
  destruct (Hg (cs "/var/run/" ++ svc_wan_intf_name o ++ cs "/" ++ cs "prefix6") 1%nat) as [b2 H2]. step_by H2.
  destruct b2; cbn [negb]; [|by eexists].
  destruct (Hg (cs "/var/run/" ++ svc_wan_intf_name o ++ cs "/" ++ cs "nodns6") 1%nat) as [b3 H3]. step_by H3.
  assert (H4 : ∃ b, (if b3 then mret true else l ← svc_wan_get_file_string (cs "/var/run/" ++ svc_wan_intf_name o ++ cs "/" ++ cs "dns6") 1;
                     mret (0 <? zlen l)) s = Ok (b, s)) by (destruct b3; [by eexists|apply Hg]).
  destruct H4 as [b4 H4]. step_by H4. destruct b4; cbn [negb]; [|by eexists]. apply Hg.
Qed.

Lemma getv6_spec q d s : sound q (look s) → may_report serves6 q d s → wp (svc_wan_handle_event_conn_getv6 d) s (handled q s).
Proof.
  intros Hs Hd. pose proof Hs as (Hl & Hn & _). unfold svc_wan_handle_event_conn_getv6.
  destruct (find_by_dev_spec d s Hl Hn) as (r & Hr & Hspec). apply wp_bind, (wp_Ok _ _ _ _ _ Hr). destruct r as [p|]; [|by apply wp_ret].
  destruct Hspec as (o & Hp & Hi). apply wp_bind, (wp_the _ o); [done|]. destruct (up6 o && _); [by apply wp_ret|].
  destruct (ready_run o s) as [b Hb]. apply wp_bind, (wp_Ok _ _ _ _ _ Hb). destruct b; cbn [negb]; [|by apply wp_ret].
  apply (wp_flag _ _ o); [done|done|]. intros s1 E1.
  apply (route_after _ (raise SVC_WAN_FLAG_UPV6) p o s); [by right; right; left|done|by apply (at_event_sound q)|done|]. intros r s' Hrt.
  destruct (sound_get6 q p (core o) (look s) (look s') Hs (look_obj _ _ _ Hp) (Hd _ _ Hp Hi) Hrt) as [Hs' Hc].
  apply (handled_end q p (look s')); [done|done| |done|soft]. apply (conns_some _ _ _ Hc). eexists. by apply look_obj.
Qed.

Lemma routed_objs evt o v v' : conn_event evt → routed evt o v v' → v_objs v' = v_objs v.
Proof.
  unfold routed, got4, got6, gone4, gone6. intros [->|[->|[->| ->]]]; cbn.
  - by intros [->|(-> & _)].
  - by intros (x & -> & _).
  - by intros [->|(-> & _)].
  - by intros (x & y & -> & _).
Qed.

(** The object after the loss of an address. *)
Lemma lostv4_deal_spec q p o s :
  sound q (look s) → objs s !! p = Some o →
  wp (svc_wan_handle_event_conn_lostv4_deal p) s
    (λ r s', handled q s r s' ∧ v_objs (look s') !! p = Some (lower SVC_WAN_FLAG_UPV4 (core o))).
Proof.
  intros Hs Hp. unfold svc_wan_handle_event_conn_lostv4_deal.
  apply (wp_flag _ _ o); [done|done|]. intros s1 E1.
  apply (route_after _ (lower SVC_WAN_FLAG_UPV4) p o s); [by right; left|done|by apply (at_event_sound q)|done|]. intros r s' Hrt.
  destruct (sound_lost4 q p (core o) (look s) (look s') Hs (look_obj _ _ _ Hp) Hrt) as [Hs' Hc].
  apply routed_objs in Hrt; [|by right; left].
  assert (Hp' : v_objs (look s') !! p = Some (lower SVC_WAN_FLAG_UPV4 (core o))) by (rewrite Hrt; apply lookup_insert_eq).
  apply (wp_at_end p (look s')); [by eexists|done|soft|]. intros [] s2 E. unfold handled. by rewrite E.
Qed.
Lemma lostv6_deal_spec q p o s :
  sound q (look s) → objs s !! p = Some o →
  wp (svc_wan_handle_event_conn_lostv6_deal p) s
    (λ r s', handled q s r s' ∧ v_objs (look s') !! p = Some (lower SVC_WAN_FLAG_UPV6 (core o))).
Proof.
  intros Hs Hp. unfold svc_wan_handle_event_conn_lostv6_deal.
  apply (wp_flag _ _ o); [done|done|]. intros s1 E1.
  assert (Hv1 : is_Some (v_objs (set_obj p (lower SVC_WAN_FLAG_UPV6 (core o)) (look s)) !! p)) by (eexists; apply lookup_insert_eq).
  apply (wp_at p _ _ _ _ _ Hv1 E1); [soft|]. intros o1 s2 E2. apply (wp_at p _ _ _ _ _ Hv1 E2); [soft|]. intros _ s3 E3.
  apply (route_after _ (lower SVC_WAN_FLAG_UPV6) p o s); [by right; right; right|done|by apply (at_event_sound q)|done|]. intros r s' Hrt.
  destruct (sound_lost6 q p (core o) (look s) (look s') Hs (look_obj _ _ _ Hp) Hrt) as [Hs' Hc].
  apply routed_objs in Hrt; [|by right; right; right].
  assert (Hp' : v_objs (look s') !! p = Some (lower SVC_WAN_FLAG_UPV6 (core o))) by (rewrite Hrt; apply lookup_insert_eq).
  apply (wp_at_end p (look s')); [by eexists|done|soft|]. intros [] s4 E. unfold handled. by rewrite E.
Qed.

(** The events, for any interface; an object's own event takes its address. *)
Definition lost4_at (p : positive) (o : wan_entry_obj) (v : view) : Prop :=
  ∃ o', v_objs v !! p = Some o' ∧ up6 o' = up6 o ∧ (up4 o = false ∨ SVC_WAN_IS_IPV4_STATIC (cfg o) = false → up4 o' = false).
Definition lost6_at (p : positive) (o : wan_entry_obj) (v : view) : Prop :=
  ∃ o', v_objs v !! p = Some o' ∧ up4 o' = up4 o ∧ (up6 o = false ∨ SVC_WAN_IS_IPV6_STATIC (cfg o) = false → up6 o' = false).

Lemma lostv4_spec q d s :
  sound q (look s) →
  wp (svc_wan_handle_event_conn_lostv4 d) s
    (λ r s', handled q s r s' ∧ ∀ p o, objs s !! p = Some o → idx o = get_wanindex_by_name d → lost4_at p o (look s')).
Proof.
  intros Hs. pose proof Hs as (Hl & Hn & _). unfold svc_wan_handle_event_conn_lostv4.
  destruct (find_by_dev_spec d s Hl Hn) as (r & Hr & Hspec). apply wp_bind, (wp_Ok _ _ _ _ _ Hr). destruct r as [p|].
  2: { apply wp_ret. split; [done|]. intros p o Hp Hi. by destruct (Hspec _ _ Hp). }
  destruct Hspec as (o & Hp & Hi). apply wp_bind, (wp_the _ o); [done|].
  assert (Hone : ∀ p' o', objs s !! p' = Some o' → idx o' = get_wanindex_by_name d → p' = p ∧ o' = o).
  { intros p' o' Hp' Hi'. assert (p' = p) as -> by (apply (named_inj _ _ _ _ _ Hn Hp' Hp); congruence). by simplify_eq. }
  assert (Hsame : (up4 o = false ∨ SVC_WAN_IS_IPV4_STATIC (cfg o) = false → up4 o = false) → ∀ p o, objs s !! p = Some o → idx o = get_wanindex_by_name d →
             lost4_at p o (look s)).
  { intros Hu p' o' Hp' Hi'. destruct (Hone _ _ Hp' Hi') as [-> ->]. exists (core o). split; [by apply look_obj|]. by split. }
  destruct (up4 o) eqn:Hu; cbn [negb]; [|by apply wp_ret; split; [|apply Hsame]].
  destruct (SVC_WAN_IS_IPV4_STATIC (cfg o)) eqn:Hst; [by apply wp_ret; split; [|apply Hsame; intros [|]]|].
  apply wp_bind. eapply wp_mono; [by apply (lostv4_deal_spec q p o)|]. intros [] s' [Hh Hp']. apply wp_ret. split; [done|].
  intros p1 o1 Hp1 Hi1. destruct (Hone _ _ Hp1 Hi1) as [-> ->]. eexists. split; [exact Hp'|]. destruct (lower_up4 o) as (_ & E4 & E6). by split.
Qed.
Lemma lostv6_spec q d s :
  sound q (look s) →
  wp (svc_wan_handle_event_conn_lostv6 d) s
    (λ r s', handled q s r s' ∧ ∀ p o, objs s !! p = Some o → idx o = get_wanindex_by_name d → lost6_at p o (look s')).
Proof.
  intros Hs. pose proof Hs as (Hl & Hn & _). unfold svc_wan_handle_event_conn_lostv6.
  destruct (find_by_dev_spec d s Hl Hn) as (r & Hr & Hspec). apply wp_bind, (wp_Ok _ _ _ _ _ Hr). destruct r as [p|].
  2: { apply wp_ret. split; [done|]. intros p o Hp Hi. by destruct (Hspec _ _ Hp). }
  destruct Hspec as (o & Hp & Hi). apply wp_bind, (wp_the _ o); [done|].
  assert (Hone : ∀ p' o', objs s !! p' = Some o' → idx o' = get_wanindex_by_name d → p' = p ∧ o' = o).
  { intros p' o' Hp' Hi'. assert (p' = p) as -> by (apply (named_inj _ _ _ _ _ Hn Hp' Hp); congruence). by simplify_eq. }
  assert (Hsame : (up6 o = false ∨ SVC_WAN_IS_IPV6_STATIC (cfg o) = false → up6 o = false) → ∀ p o, objs s !! p = Some o → idx o = get_wanindex_by_name d →
             lost6_at p o (look s)).
  { intros Hu p' o' Hp' Hi'. destruct (Hone _ _ Hp' Hi') as [-> ->]. exists (core o). split; [by apply look_obj|]. by split. }
  destruct (up6 o) eqn:Hu; cbn [negb]; [|by apply wp_ret; split; [|apply Hsame]].
  destruct (SVC_WAN_IS_IPV6_STATIC (cfg o)) eqn:Hst; [by apply wp_ret; split; [|apply Hsame; intros [|]]|].
  apply wp_bind. eapply wp_mono; [by apply (lostv6_deal_spec q p o)|]. intros [] s' [Hh Hp']. apply wp_ret. split; [done|].
  intros p1 o1 Hp1 Hi1. destruct (Hone _ _ Hp1 Hi1) as [-> ->]. eexists. split; [exact Hp'|]. destruct (lower_up6 o) as (_ & E4 & E6). by split.
Qed.


End wan.
End WanRun.
