(* ===== verification/WanLife.v ===== *)
(** * Connections from configuration to removal

    Starting and stopping interfaces, updates and removals of connections, and
    the invariant of the service along all of its events. *)

From stdpp Require Import gmap.
From S2P Require Import Prelude CString Text Utility WanObj WanRoute WanCfg WanDev WanMgr WanList WanProps WanRun.
Open Scope Z_scope.

Module WanLife.
Import Text Utility WanObj WanRoute WanCfg WanDev WanMgr WanList WanProps WanRun.

Section soft.
Context {W : Type} `{WanLaws W}.
Abbreviation WM := (M (wan W)).

(** ** Steps that leave flags and routes alone *)

Lemma soft_conn_bridge p e : e = EVT_WAN_BRIDGE_UP ∨ e = EVT_WAN_BRIDGE_DOWN → soft p (svc_wan_handle_conn_evt p e : WM Z).
Proof. intros [-> | ->]; unfold svc_wan_handle_conn_evt; cbn [Z.eqb EVT_WAN_BRIDGE_UP EVT_WAN_BRIDGE_DOWN Pos.eqb orb]; pose proof soft_bridge; soft. Qed.
Lemma soft_ip4_dhcp p : soft p (svc_wan_start_ipv4_dhcp p : WM Z).
Proof. unfold svc_wan_start_ipv4_dhcp. soft. Qed.
Lemma soft_dhcp6c p : soft p (start_dhcp6c p : WM Z).
Proof. unfold start_dhcp6c, echo. soft. Qed.
Lemma soft_ppp p v : soft p (svc_wan_start_ppp p v : WM Z).
Proof. unfold svc_wan_start_ppp, svc_wan_execute_cmd_normal, svc_wan_get_pid, echo. soft. Qed.
Lemma soft_kill p f b : soft p (svc_wan_kill_process f b : WM unit).
Proof. unfold svc_wan_kill_process, kill_file, svc_wan_get_pid. soft. Qed.
#[local] Hint Resolve soft_kill : soft.
Lemma soft_mtu p o a : soft p (svc_wan_mtu_conf o a : WM unit).
Proof. unfold svc_wan_mtu_conf, clamp. soft. Qed.
#[local] Hint Resolve soft_mtu : soft.
Lemma soft_leave p o n k : soft p (leave_proxy o n k : WM bool).
Proof. unfold leave_proxy. soft. Qed.
#[local] Hint Resolve soft_leave : soft.
Lemma soft_start_bridge p : soft p (svc_wan_start_bridge p : WM Z).
Proof. unfold svc_wan_start_bridge, echo. pose proof (λ p, soft_conn_bridge p _ (or_introl eq_refl)). soft. Qed.
Lemma soft_stop_bridge p : soft p (svc_wan_stop_bridge p : WM Z).
Proof. unfold svc_wan_stop_bridge, echo. pose proof (λ p, soft_conn_bridge p _ (or_intror eq_refl)). soft. Qed.
Lemma soft_create_dhcp6c p d a b c : soft p (create_dhcp6c_conf d a b c : WM Z).
Proof. unfold create_dhcp6c_conf. soft. Qed.
#[local] Hint Resolve soft_create_dhcp6c : soft.
Lemma soft_create_conf p o : soft p (svc_wan_create_conf o : WM Z).
Proof. unfold svc_wan_create_conf, prepare_start_dhcp6c. soft. Qed.
Lemma soft_delete_conf p o : soft p (svc_wan_delete_conf o : WM Z).
Proof. unfold svc_wan_delete_conf. soft. Qed.
Lemma soft_create_device p o : soft p (svc_wan_create_device o : WM Z).
Proof. unfold svc_wan_create_device, svc_save_protect_wan_info, doValPut. soft. Qed.
Lemma soft_del_intf p : soft p (svc_wan_do_something_del_intf p : WM unit).
Proof. unfold svc_wan_do_something_del_intf. soft. Qed.
Lemma soft_stop_device p o : soft p (svc_wan_stop_device o : WM unit).
Proof. unfold svc_wan_stop_device. soft. Qed.
Lemma soft_start_device p o : soft p (svc_wan_start_device o : WM unit).
Proof. unfold svc_wan_start_device. soft. Qed.
Lemma soft_delete_device p d : soft p (svc_wan_delete_device d : WM unit).
Proof. unfold svc_wan_delete_device. soft. Qed.
Lemma soft_protocol p : soft p (svc_wan_cfg_get_system_protocol_version : WM Z).
Proof. unfold svc_wan_cfg_get_system_protocol_version. soft. Qed.
Lemma soft_load_opt p : soft p (svc_wan_load_opt p : WM Z).
Proof. unfold svc_wan_load_opt. soft. Qed.
Lemma soft_update_attr p pa c b : soft p (svc_wan_cfg_update_attr pa c b : WM unit).
Proof. unfold svc_wan_cfg_update_attr, is_link_up. soft. Qed.
Lemma soft_avalanche_mode p c : soft p (avalanche c : WM unit).
Proof. unfold avalanche. soft. Qed.
Lemma soft_del_object p : soft p (del_object_do_something p : WM unit).
Proof. unfold del_object_do_something. soft. Qed.
Lemma soft_echo p a b c : soft p (echo a b c : WM unit).
Proof. unfold echo. soft. Qed.
Lemma soft_pppoe p o : soft p (stop_pppoe_relay o : WM Z).
Proof. unfold stop_pppoe_relay. soft. Qed.

End soft.

#[export] Hint Resolve soft_ip4_dhcp soft_dhcp6c soft_ppp soft_start_bridge soft_stop_bridge soft_create_conf soft_delete_conf
  soft_create_device soft_start_device soft_delete_device soft_del_intf soft_stop_device soft_protocol soft_load_opt soft_update_attr soft_avalanche_mode soft_del_object
  soft_echo soft_pppoe soft_kill soft_mtu : soft.

(** Goes through soft steps from a state whose view is [v]. *)
Ltac soft_until p v := cbv zeta; repeat (apply (wp_at p v); [eassumption|eassumption|solve [soft]|intros ? ? ?]).
(** Reads the object, and then the same. *)
Ltac on_object p o s :=
  apply wp_bind, (wp_the _ o); [done|]; let E := fresh "Elook" in pose proof (eq_refl (look s)) as E; soft_until p (look s).

Section life.
Context {W : Type} `{WanLaws W}.
Abbreviation WM := (M (wan W)).

(** ** Starting *)

Lemma may_report_own serves q p o d s :
  sound q (look s) → v_objs (look s) !! p = Some o → d = dev o ∨ d = ppp_name (idx o) →
  started o = true ∨ q = Some p → serves (cfg o) = true → may_report serves q d s.
Proof.
  intros (_ & Hn & _) Hp Hd Hq Hserve p' o' Hp' Hi. destruct (look_inv _ _ _ Hp) as (o1 & Hp1 & <-).
  destruct (named_obj _ _ _ Hn Hp1) as (Hi1 & _ & Hdev).
  assert (E : get_wanindex_by_name d = idx o1) by (apply get_wanindex_of; [done|destruct Hd as [-> | ->]; [by left|by right]]).
  assert (p' = p) as -> by (apply (named_inj _ _ _ _ _ Hn Hp' Hp1); congruence). by simplify_eq.
Qed.

Lemma handled_trans {A B} q s s1 (a : A) (b : B) s2 : handled q s a s1 → handled q s1 b s2 → handled q s b s2.
Proof. intros [_ H1] [H2 H3]. split; [done|]. by transitivity (look s1). Qed.
Lemma handled_refl {A} q s s1 (a : A) : sound q (look s) → look s1 = look s → handled q s a s1.
Proof. intros Hs E. unfold handled. by rewrite E. Qed.
Lemma start_ipv4_static_spec p o s :
  sound (Some p) (look s) → objs s !! p = Some o → serves4 (cfg o) = true →
  wp (svc_wan_start_ipv4_static p) s (handled (Some p) s).
Proof.
  intros Hs Hp Hc. pose proof (look_obj _ _ _ Hp) as Hv. pose proof (mk_is_Some _ _ Hv) as Hsome.
  unfold svc_wan_start_ipv4_static. apply wp_bind, (wp_the _ o); [done|]. pose proof (eq_refl (look s)) as E.
  soft_until p (look s).
  match goal with |- wp _ ?s1 _ => assert (E1 : look s1 = look s) by done end.
  apply wp_bind. eapply wp_mono; [apply (getv4_spec (Some p)); rewrite ?E1; [done|]|].
  - apply (may_report_own _ _ p (core o)); rewrite ?E1; auto.
  - intros r s2 Hh. apply wp_ret. unfold handled in *. by rewrite E1 in Hh.
Qed.
Lemma start_ipv6_static_spec p o s :
  sound (Some p) (look s) → objs s !! p = Some o → serves6 (cfg o) = true →
  wp (svc_wan_start_ipv6_static p) s (handled (Some p) s).
Proof.
  intros Hs Hp Hc. pose proof (look_obj _ _ _ Hp) as Hv. pose proof (mk_is_Some _ _ Hv) as Hsome.
  unfold svc_wan_start_ipv6_static. apply wp_bind, (wp_the _ o); [done|]. pose proof (eq_refl (look s)) as E.
  soft_until p (look s).
  match goal with |- wp _ ?s1 _ => assert (E1 : look s1 = look s) by done end.
  apply wp_bind. eapply wp_mono; [apply (getv6_spec (Some p)); rewrite ?E1; [done|]|].
  - apply (may_report_own _ _ p (core o)); rewrite ?E1; auto.
  - intros r s2 Hh. apply wp_ret. unfold handled in *. by rewrite E1 in Hh.
Qed.

(** A soft branch, and one that is followed by a result only. *)
Lemma soft_handled {A} q p s (m : WM A) : sound q (look s) → is_Some (objs s !! p) → soft p m → wp m s (handled q s).
Proof. intros Hs Hp Hm. eapply wp_mono; [by apply Hm|]. intros a s' E. by apply handled_refl. Qed.
Lemma wp_then {A B} q s (m : WM A) (b : B) : wp m s (handled q s) → wp (mbind (λ _, mret b) m) s (handled q s).
Proof. intros Hm. apply wp_bind. eapply wp_mono; [exact Hm|]. intros a s' Hh. by apply wp_ret. Qed.

Lemma start_ip4_spec p o s :
  sound (Some p) (look s) → objs s !! p = Some o → SVC_WAN_IS_BRIDGE (cfg o) = false → SVC_WAN_IS_PPP (cfg o) = false →
  wp (start_ip4 p (cfg o)) s (handled (Some p) s).
Proof.
  intros Hs Hp Hb Hppp. pose proof (mk_is_Some _ _ Hp) as Hsome. unfold start_ip4.
  destruct (SVC_WAN_IS_IPV4 (cfg o)) eqn:H4; [|by apply wp_ret]. destruct (_ && _); [by apply (soft_handled _ p); [| |soft]|].
  destruct (SVC_WAN_IS_IPV4_STATIC (cfg o)); [|by apply wp_ret]. apply wp_then, (start_ipv4_static_spec p o); [done|done|].
  unfold serves4. by rewrite Hb, Hppp, H4.
Qed.
Lemma start_ip6_spec p o s :
  sound (Some p) (look s) → objs s !! p = Some o → SVC_WAN_IS_BRIDGE (cfg o) = false → SVC_WAN_IS_PPP (cfg o) = false →
  wp (start_ip6 p (cfg o)) s (handled (Some p) s).
Proof.
  intros Hs Hp Hb Hppp. pose proof (mk_is_Some _ _ Hp) as Hsome. unfold start_ip6, svc_wan_start_ipv6_dhcp, svc_wan_start_ipv6_slaac.
  destruct (SVC_WAN_IS_IPV6 (cfg o)) eqn:H6; [|by apply wp_ret]. destruct (SVC_WAN_IS_IPV6_DHCP (cfg o)); [by apply (soft_handled _ p); [| |soft]|].
  destruct (SVC_WAN_IS_IPV6_STATIC (cfg o)).
  - apply wp_then, (start_ipv6_static_spec p o); [done|done|]. unfold serves6. by rewrite Hb, Hppp, H6.
  - destruct (SVC_WAN_IS_IPV6_SLAAC (cfg o)); [by apply (soft_handled _ p); [| |soft]|by apply wp_ret].
Qed.

Lemma keep_inv o o' : keep o' = keep o → same_place o o' ∧ cfg o' = cfg o ∧ started o' = started o.
Proof. unfold keep. intros E. injection E. by repeat split. Qed.
(** An object keeps its configuration while events are handled. *)
Lemma handled_obj {A} q p o s (a : A) s' :
  handled q s a s' → objs s !! p = Some o → ∃ o', objs s' !! p = Some o' ∧ keep o' = keep o.
Proof.
  intros [_ Hc] Hp. destruct (conns_obj _ _ _ _ Hc (look_obj _ _ _ Hp)) as (o1 & (o' & Hp' & <-)%look_inv & Hk). by exists o'.
Qed.
Lemma handled_some {A} q p s (a : A) s' : handled q s a s' → is_Some (objs s !! p) → is_Some (objs s' !! p).
Proof. intros Hh [o Hp]. destruct (handled_obj _ _ _ _ _ _ Hh Hp) as (o' & ? & _). by eexists. Qed.
Lemma handled_soft {A B} q p s s1 (a : A) (m : WM B) :
  handled q s a s1 → is_Some (objs s !! p) → soft p m → wp m s1 (handled q s).
Proof.
  intros Hh Hp Hm. eapply wp_mono; [apply Hm; by eapply handled_some|]. intros b s2 E. unfold handled. rewrite E. exact Hh.
Qed.

(** The check for address translation walks along the list. *)
Lemma check_nat_spec p s : linked (look s) → is_Some (objs s !! p) → wp check_nat_enable s (λ _ s', look s' = look s).
Proof.
  intros (l & Hr & _)%linked_rep Hp. unfold check_nat_enable. apply wp_bind.
  eapply wp_Ok; [exact (each_obj_find (λ _ o, if negb (nat o =? 0) then Some tt else None) l s Hr)|].
  apply (wp_at_end p (look s)); [by apply look_some|done|soft|done].
Qed.
Lemma creat_intf_spec p o b s :
  linked (look s) → is_Some (objs s !! p) → wp (svc_wan_do_something_creat_intf o b) s (λ _ s', look s' = look s).
Proof.
  intros Hl Hp. apply look_some in Hp. unfold svc_wan_do_something_creat_intf, svc_wan_set_intf_name, svc_wan_config_intf_attr.
  pose proof (eq_refl (look s)) as E. soft_until p (look s). apply wp_bind.
  match goal with E1 : look ?s1 = look s |- wp _ ?s1 _ =>
    eapply wp_mono; [apply (check_nat_spec p); [by rewrite E1|apply look_some; by rewrite E1]|rewrite E1] end.
  intros _ s2 E2. apply (wp_at_end p (look s)); [done|done|soft|done].
Qed.

Lemma do_start_spec p o s :
  sound (Some p) (look s) → objs s !! p = Some o → wp (svc_wan_do_start_intf p) s (handled (Some p) s).
Proof.
  intros Hs Hp. pose proof (look_obj _ _ _ Hp) as Hv. pose proof (mk_is_Some _ _ Hv) as Hsome.
  unfold svc_wan_do_start_intf. apply wp_bind, (wp_the _ o); [done|]. pose proof (eq_refl (look s)) as E. cbv zeta.
  do 2 (apply (wp_at p (look s)); [done|done|soft|intros ? ? ?]). destruct (_ <? 0); [by apply wp_ret, handled_refl|].
  apply (wp_at p (look s)); [done|done|soft|intros ? s1 E1]. destruct (_ <? 0); [by apply wp_ret, handled_refl|].
  clear E. apply wp_bind. eapply wp_mono; [by apply (creat_intf_spec p); [rewrite E1; apply Hs|apply look_some; rewrite E1]|rewrite E1]. intros _ s2 E2. apply (wp_at p (look s)); [done|done|soft|intros ? s3 E3].
  assert (Hs3 : sound (Some p) (look s3)) by (by rewrite E3). rewrite <- E3 in Hv. destruct (look_inv _ _ _ Hv) as (o3 & Hp3 & Ho3).
  assert (Hc3 : cfg o3 = cfg o) by (by change (cfg (core o3) = cfg (core o)); rewrite Ho3).
  assert (Hsome3 : is_Some (objs s3 !! p)) by (by eexists). rewrite <- Hc3.
  apply wp_bind. eapply wp_mono with (Q := handled (Some p) s3).
  - destruct (SVC_WAN_IS_BRIDGE (cfg o3)) eqn:Hb; [by apply (soft_handled _ p); [| |soft]|].
    destruct (SVC_WAN_IS_PPP (cfg o3)) eqn:Hppp; [by apply (soft_handled _ p); [| |soft]|].
    destruct (SVC_WAN_IS_IP (cfg o3)); [|by apply wp_ret].
    apply wp_bind. eapply wp_mono with (Q := handled (Some p) s3).
    { destruct (_ =? _); [by apply wp_ret|]. by apply start_ip4_spec. }
    intros b s4 Hh. destruct b; cbn [negb]; [|by apply wp_ret]. destruct (_ =? _); [by apply wp_ret|].
    destruct (handled_obj _ _ _ _ _ _ Hh Hp3) as (o4 & Hp4 & Hk). apply keep_inv in Hk as (_ & Hc4 & _). rewrite <- Hc4.
    eapply wp_mono; [apply (start_ip6_spec p o4); [apply Hh|done|congruence|congruence]|]. intros r s5. by apply (handled_trans _ s3 _ true).
  - intros ok s4 Hh. assert (Hh' : handled (Some p) s ok s4) by (unfold handled in *; by rewrite E3 in Hh).
    destruct ok; [by apply wp_ret|]. eapply handled_soft; [exact Hh'|by eexists|soft].
Qed.
Lemma wp_flag_at {A} f p o v s (k : unit → WM A) Q :
  (∀ o, core (f o) = f (core o)) → v_objs v !! p = Some o → look s = v →
  (∀ s1, look s1 = set_obj p (f o) v → wp (k tt) s1 Q) → wp (mbind k (upd p f)) s Q.
Proof.
  intros Hf Hp <- Hk. destruct (look_inv _ _ _ Hp) as (o' & Hp' & <-). apply wp_bind.
  eapply wp_mono; [by apply (upd_look _ o')|]. cbn beta. rewrite Hf. intros [] s1 E1. by apply Hk.
Qed.

(** An object that is not started has no address. *)
Lemma sound_idle p o v : sound None v → v_objs v !! p = Some o → started o = false → up4 o = false ∧ up6 o = false.
Proof.
  intros (_ & _ & Hf & _) Hp Hst. destruct (Hf _ _ Hp) as (_ & F4 & F6).
  destruct (up4 o); [destruct (F4 eq_refl) as [[|] _]; congruence|]. destruct (up6 o); [destruct (F6 eq_refl) as [[|] _]; congruence|]. done.
Qed.
Lemma sound_some p v : sound None v → sound (Some p) v.
Proof.
  intros (Hl & Hn & Hf & H46). split; [done|]. split; [done|]. split; [|done]. intros a o Ha. destruct (Hf _ _ Ha) as (F1 & F4 & F6).
  split; [done|]. split; intros Hu; [destruct (F4 Hu) as [[|] ?]|destruct (F6 Hu) as [[|] ?]]; try done; by split; [left|].
Qed.

(** The change of one object: the list and the other objects stay. *)
Definition others (p : positive) (v v' : view) : Prop :=
  v_head v' = v_head v ∧ ∀ a, a ≠ p → keep <$> v_objs v' !! a = keep <$> v_objs v !! a.
#[global] Instance others_preorder p : PreOrder (others p).
Proof. split; [done|]. intros v1 v2 v3 [A1 B1] [A2 B2]. split; [congruence|]. intros a Ha. by rewrite B2, B1. Qed.
Lemma conns_others p v v' : conns v v' → others p v v'.
Proof. intros [Hh Hk]. split; [done|]. intros a _. by rewrite <- !lookup_fmap, Hk. Qed.
Lemma set_obj_others p o v : others p v (set_obj p o v).
Proof. split; [done|]. intros a Ha. cbn. by rewrite lookup_insert_ne. Qed.

(** The service is sound, and the object is [o] with another state. *)
Definition becomes (p : positive) (o : wan_entry_obj) (st : bool) (v v' : view) : Prop :=
  sound None v' ∧ others p v v' ∧ ∃ o', v_objs v' !! p = Some o' ∧ same_place o o' ∧ cfg o' = cfg o ∧ started o' = st.

(** The flag of an object that has been started. *)
Lemma sound_commit p o v :
  sound (Some p) v → v_objs v !! p = Some o → svc_wan_check_cfg (cfg o) = 1 → sound None (set_obj p (raise SVC_WAN_FLAG_STARTED o) v).
Proof.
  intros (Hl & Hn & Hf & H4 & H6) Hp Hc. destruct (raise_started o) as (Es & E4 & E6).
  set (o' := raise SVC_WAN_FLAG_STARTED o) in *. assert (Hplace : same_place o o') by done.
  split; [by apply (linked_set _ o)|]. split; [by apply (named_set _ o)|]. split; [|split].
  - intros a oa Ha. cbn in Ha. destruct (decide (a = p)) as [->|Hne].
    + rewrite lookup_insert_eq in Ha. simplify_eq. destruct (Hf _ _ Hp) as (_ & F4 & F6). unfold flag_ok. rewrite Es, E4, E6.
      split; [done|]. split; intros Hu; [destruct (F4 Hu) as [_ ?]|destruct (F6 Hu) as [_ ?]]; by split; [left|].
    + rewrite lookup_insert_ne in Ha by done. destruct (Hf _ _ Ha) as (F1 & F4 & F6). split; [done|].
      split; intros Hu; [destruct (F4 Hu) as [[?|?] ?]|destruct (F6 Hu) as [[?|?] ?]]; simplify_eq; by split; [left|].
  - apply (held_set _ _ o); [done|done|done|intros _]. unfold carries4. by rewrite E4, E6.
  - apply (held_set _ _ o); [done|done|done|intros _]. unfold carries6. by rewrite E6.
Qed.

Lemma check_cfg_one c : (svc_wan_check_cfg c <=? 0) = false → svc_wan_check_cfg c = 1.
Proof.
  intros Hc. assert (Hv : svc_wan_check_cfg c = 0 ∨ svc_wan_check_cfg c = 1).
  { unfold svc_wan_check_cfg. repeat case_match; auto. }
  destruct Hv as [E|]; [rewrite E in Hc|]; done.
Qed.

Lemma start_intf_spec p o s :
  sound None (look s) → objs s !! p = Some o →
  wp (svc_wan_start_intf p) s (λ _ s', becomes p o (started o || negb (svc_wan_check_cfg (cfg o) <=? 0)) (look s) (look s')).
Proof.
  intros Hs Hp. pose proof (look_obj _ _ _ Hp) as Hv. unfold svc_wan_start_intf. apply wp_bind, (wp_the _ o); [done|].
  assert (Hnone : ∀ st, started o = st → becomes p o st (look s) (look s)).
  { intros st Hst. split; [done|]. split; [done|]. by exists (core o). }
  destruct (started o) eqn:Hst; [by apply wp_ret, Hnone|]. change (svc_wan_check_xpon_up <=? 0) with false. cbn [orb].
  destruct (svc_wan_check_cfg (cfg o) <=? 0) eqn:Hc; [by apply wp_ret, Hnone|]. apply check_cfg_one in Hc.
  apply wp_bind. eapply wp_mono; [by apply (do_start_spec p o); [apply sound_some|]|]. intros ret s1 Hh.
  destruct (handled_obj _ _ _ _ _ _ Hh Hp) as (o1 & Hp1 & (Hplace & Hcfg & _)%keep_inv).
  pose proof (look_obj _ _ _ Hp1) as Hv1. pose proof (mk_is_Some _ _ Hv1) as Hsome1. pose proof (eq_refl (look s1)) as E.
  soft_until p (look s1). apply (wp_flag_at _ _ (core o1) (look s1)); [done|done|done|]. intros s3 E3. apply wp_ret. rewrite E3.
  destruct Hh as [Hsound Hconns]. split; [apply sound_commit; [done|done|by change (cfg (core o1)) with (cfg o1); rewrite Hcfg]|].
  split; [transitivity (look s1); [by apply conns_others|apply set_obj_others]|].
  exists (raise SVC_WAN_FLAG_STARTED (core o1)). split; [apply lookup_insert_eq|]. split; [done|]. split; [done|]. apply raise_started.
Qed.
(** ** Stopping *)

Lemma flag_serves v p o : sound None v → v_objs v !! p = Some o →
  (serves4 (cfg o) = false → up4 o = false) ∧ (serves6 (cfg o) = false → up6 o = false).
Proof.
  intros (_ & _ & Hf & _) Hp. destruct (Hf _ _ Hp) as (_ & F4 & F6). split; intros Hs.
  - destruct (up4 o); [|done]. destruct (F4 eq_refl). congruence.
  - destruct (up6 o); [|done]. destruct (F6 eq_refl). congruence.
Qed.

Lemma check_cfg_ip c :
  svc_wan_check_cfg c = 1 → SVC_WAN_IS_BRIDGE c = false → SVC_WAN_IS_PPP c = false →
  SVC_WAN_IS_IP c = true ∧ (SVC_WAN_IS_IPV4 c = true → SVC_WAN_IS_IPV4_DHCP c = true ∨ SVC_WAN_IS_IPV4_STATIC c = true) ∧
  (SVC_WAN_IS_IPV6 c = true → SVC_WAN_IS_IPV6_DHCP c = true ∨ SVC_WAN_IS_IPV6_STATIC c = true ∨ SVC_WAN_IS_IPV6_SLAAC c = true).
Proof.
  unfold svc_wan_check_cfg. intros Hc Hb Hp. rewrite Hb, Hp in Hc.
  destruct (negb (active c =? _)); [done|]. destruct (negb (one_of (wanmode c) _)); [done|].
  destruct (one_of (linkmode c) _) eqn:Hl; [|done]. cbn [negb] in Hc. destruct (negb (one_of (vtag c) _)); [done|].
  destruct (_ && (4096 <=? vid c)); [done|]. destruct (negb (one_of (version c) _)); [done|]. split.
  - unfold SVC_WAN_IS_IP. unfold SVC_WAN_IS_PPP, one_of in *. cbn in Hl. apply orb_false_iff in Hp as [Hp _].
    unfold SVC_WAN_ATTR_LINKMODE_IP, SVC_WAN_ATTR_LINKMODE_PPP in *. rewrite Hp in Hl. rewrite orb_false_r in Hl. by rewrite Hl.
  - unfold SVC_WAN_IS_IPV4_DHCP, SVC_WAN_IS_IPV4_STATIC, SVC_WAN_IS_IPV6_DHCP, SVC_WAN_IS_IPV6_STATIC, SVC_WAN_IS_IPV6_SLAAC in *.
    split; intros Hv; rewrite Hv in *; cbn [andb] in *; rewrite ?andb_true_r.
    + destruct (one_of (isp c) _) eqn:Hi; [|done]. cbn in Hi. rewrite orb_false_r in Hi. by apply orb_true_iff in Hi.
    + destruct (_ && negb (one_of (isp c) _)); [done|]. destruct (_ && (svc_wan_check_ipv4_static c <=? 0)); [done|].
      destruct (one_of (ipv6mode c) _) eqn:Hi; [|done]. cbn in Hi. rewrite orb_false_r in Hi.
      apply orb_true_iff in Hi as [Hi|Hi%orb_true_iff]; [by left|]. right. tauto.
Qed.

Lemma own_index q p o d s :
  sound q (look s) → objs s !! p = Some o → d = dev o ∨ d = ppp_name (idx o) → idx o = get_wanindex_by_name d.
Proof.
  intros (_ & Hn & _) Hp Hd. destruct (named_obj _ _ _ Hn Hp) as (Hi & _ & Hdev).
  symmetry. apply get_wanindex_of; [done|destruct Hd as [-> | ->]; [by left|by right]].
Qed.
Lemma lost4_own q p o d s :
  sound q (look s) → objs s !! p = Some o → d = dev o ∨ d = ppp_name (idx o) →
  wp (svc_wan_handle_event_conn_lostv4 d) s (λ r s', handled q s r s' ∧ lost4_at p o (look s')).
Proof.
  intros Hs Hp Hd. eapply wp_mono; [by apply lostv4_spec|]. intros r s' [Hh Hl]. split; [done|].
  apply Hl; [done|]. by apply (own_index q p o d s).
Qed.
Lemma lost6_own q p o d s :
  sound q (look s) → objs s !! p = Some o → d = dev o ∨ d = ppp_name (idx o) →
  wp (svc_wan_handle_event_conn_lostv6 d) s (λ r s', handled q s r s' ∧ lost6_at p o (look s')).
Proof.
  intros Hs Hp Hd. eapply wp_mono; [by apply lostv6_spec|]. intros r s' [Hh Hl]. split; [done|].
  apply Hl; [done|]. by apply (own_index q p o d s).
Qed.
(** What stopping leaves of the object: no address of the protocol. *)
Definition gone_at (p : positive) (u4 u6 : bool) (v : view) : Prop := ∃ o, v_objs v !! p = Some o ∧ up4 o = u4 ∧ up6 o = u6.

(** A soft prefix does not matter for the loss of an address. *)
Lemma wp_stopped {A B} p o u4 u6 s s1 (m : WM A) (b : B) Q :
  look s1 = look s → sound None (look s) → objs s !! p = Some o →
  (∀ o1, objs s1 !! p = Some o1 → core o1 = core o → wp m s1 (λ r s', handled None s1 r s' ∧ gone_at p u4 u6 (look s'))) →
  (∀ s', handled None s b s' → gone_at p u4 u6 (look s') → Q b s') →
  wp (mbind (λ _, mret b) m) s1 Q.
Proof.
  intros E Hs Hp Hm HQ. pose proof (look_obj _ _ _ Hp) as Hv. rewrite <- E in Hv. destruct (look_inv _ _ _ Hv) as (o1 & Hp1 & Ho1).
  apply wp_bind. eapply wp_mono; [by apply (Hm o1)|]. intros r s2 [Hh Hg]. apply wp_ret, HQ; [|done]. unfold handled in *. by rewrite E in Hh.
Qed.

Lemma lost4_gone q p o d s :
  sound q (look s) → objs s !! p = Some o → d = dev o ∨ d = ppp_name (idx o) → up4 o = false ∨ SVC_WAN_IS_IPV4_STATIC (cfg o) = false →
  wp (svc_wan_handle_event_conn_lostv4 d) s (λ r s', handled q s r s' ∧ gone_at p false (up6 o) (look s')).
Proof.
  intros Hs Hp Hd Hu. eapply wp_mono; [by apply (lost4_own q p o)|]. intros r s' (Hh & o' & Hp' & E6 & E4).
  split; [done|]. exists o'. split; [done|]. split; [by apply E4|done].
Qed.
Lemma lost6_gone q p o d s :
  sound q (look s) → objs s !! p = Some o → d = dev o ∨ d = ppp_name (idx o) → up6 o = false ∨ SVC_WAN_IS_IPV6_STATIC (cfg o) = false →
  wp (svc_wan_handle_event_conn_lostv6 d) s (λ r s', handled q s r s' ∧ gone_at p (up4 o) false (look s')).
Proof.
  intros Hs Hp Hd Hu. eapply wp_mono; [by apply (lost6_own q p o)|]. intros r s' (Hh & o' & Hp' & E4 & E6).
  split; [done|]. exists o'. split; [done|]. split; [done|by apply E6].
Qed.
Lemma deal4_gone q p o s :
  sound q (look s) → objs s !! p = Some o →
  wp (svc_wan_handle_event_conn_lostv4_deal p) s (λ r s', handled q s r s' ∧ gone_at p false (up6 o) (look s')).
Proof.
  intros Hs Hp. eapply wp_mono; [by apply (lostv4_deal_spec q p o)|]. intros r s' [Hh Hp']. split; [done|].
  eexists. split; [exact Hp'|]. apply (lower_up4 (core o)).
Qed.
Lemma deal6_gone q p o s :
  sound q (look s) → objs s !! p = Some o →
  wp (svc_wan_handle_event_conn_lostv6_deal p) s (λ r s', handled q s r s' ∧ gone_at p (up4 o) false (look s')).
Proof.
  intros Hs Hp. eapply wp_mono; [by apply (lostv6_deal_spec q p o)|]. intros r s' [Hh Hp']. split; [done|].
  eexists. split; [exact Hp'|]. destruct (lower_up6 (core o)) as (_ & ? & ?). done.
Qed.
Lemma core_eq o o1 : core o1 = core o →
  up4 o1 = up4 o ∧ up6 o1 = up6 o ∧ started o1 = started o ∧ cfg o1 = cfg o ∧ same_place o o1.
Proof. intros E. assert (Hf : ∀ {A} (f : wan_entry_obj → A), f (core o1) = f (core o)) by (intros; by rewrite E).
  split; [apply (Hf _ (λ o, up4 o))|]. split; [apply (Hf _ (λ o, up6 o))|]. split; [apply (Hf _ (λ o, started o))|]. split; [apply (Hf _ cfg)|].
  split; [apply (Hf _ next)|]. split; [apply (Hf _ path)|]. split; [apply (Hf _ idx)|apply (Hf _ dev)].
Qed.
Lemma not_static c :
  (SVC_WAN_IS_IPV4_DHCP c = true → SVC_WAN_IS_IPV4_STATIC c = false) ∧
  (SVC_WAN_IS_IPV6_DHCP c = true ∨ SVC_WAN_IS_IPV6_SLAAC c = true → SVC_WAN_IS_IPV6_STATIC c = false).
Proof.
  unfold SVC_WAN_IS_IPV4_DHCP, SVC_WAN_IS_IPV4_STATIC, SVC_WAN_IS_IPV6_DHCP, SVC_WAN_IS_IPV6_STATIC, SVC_WAN_IS_IPV6_SLAAC.
  split; [|intros [Hm|Hm]; revert Hm]; intros [->%Z.eqb_eq _]%andb_true_iff; done.
Qed.

Lemma stop_ipv4_dhcp_spec p o s :
  sound None (look s) → objs s !! p = Some o → SVC_WAN_IS_IPV4_DHCP (cfg o) = true →
  wp (svc_wan_stop_ipv4_dhcp p) s (λ r s', handled None s r s' ∧ gone_at p false (up6 o) (look s')).
Proof.
  intros Hs Hp Hc. pose proof (mk_is_Some _ _ (look_obj _ _ _ Hp)) as Hsome. unfold svc_wan_stop_ipv4_dhcp.
  on_object p o s.
  apply (wp_stopped p o false (up6 o) s); [done|done|done| |by auto]. intros o1 Hp1 (E4 & <- & _ & Ecfg & Hpl)%core_eq.
  apply lost4_gone; [congruence|done|left; by destruct Hpl as (_ & _ & _ & ->)|]. right. rewrite Ecfg. by apply not_static.
Qed.
Lemma stop_ipv4_static_spec p o s :
  sound None (look s) → objs s !! p = Some o →
  wp (svc_wan_stop_ipv4_static p) s (λ r s', handled None s r s' ∧ gone_at p false (up6 o) (look s')).
Proof.
  intros Hs Hp. pose proof (mk_is_Some _ _ (look_obj _ _ _ Hp)) as Hsome. unfold svc_wan_stop_ipv4_static.
  on_object p o s.
  apply (wp_stopped p o false (up6 o) s); [done|done|done| |by auto]. intros o1 Hp1 (E4 & <- & _)%core_eq.
  apply deal4_gone; [congruence|done].
Qed.
Lemma stop_dhcp6c_spec p o s :
  sound None (look s) → objs s !! p = Some o → SVC_WAN_IS_IPV6_DHCP (cfg o) = true ∨ SVC_WAN_IS_IPV6_SLAAC (cfg o) = true →
  wp (stop_dhcp6c p) s (λ r s', handled None s r s' ∧ gone_at p (up4 o) false (look s')).
Proof.
  intros Hs Hp Hc. pose proof (mk_is_Some _ _ (look_obj _ _ _ Hp)) as Hsome. unfold stop_dhcp6c.
  on_object p o s.
  apply (wp_stopped p o (up4 o) false s); [done|done|done| |by auto]. intros o1 Hp1 (<- & E6 & _ & Ecfg & Hpl)%core_eq.
  apply lost6_gone; [congruence|done|left; by destruct Hpl as (_ & _ & _ & ->)|]. right. rewrite Ecfg. by apply not_static.
Qed.
Lemma stop_ipv6_static_spec p o s :
  sound None (look s) → objs s !! p = Some o →
  wp (svc_wan_stop_ipv6_static p) s (λ r s', handled None s r s' ∧ gone_at p (up4 o) false (look s')).
Proof.
  intros Hs Hp. pose proof (mk_is_Some _ _ (look_obj _ _ _ Hp)) as Hsome. unfold svc_wan_stop_ipv6_static.
  on_object p o s.
  apply (wp_stopped p o (up4 o) false s); [done|done|done| |by auto]. intros o1 Hp1 (<- & E6 & _)%core_eq.
  apply deal6_gone; [congruence|done].
Qed.
Lemma stop_ip4_spec p o s :
  sound None (look s) → objs s !! p = Some o → started o = true → SVC_WAN_IS_BRIDGE (cfg o) = false → SVC_WAN_IS_PPP (cfg o) = false →
  wp (stop_ip4 p (cfg o)) s (λ ok s', ok = true ∧ handled None s ok s' ∧ gone_at p false (up6 o) (look s')).
Proof.
  intros Hs Hp Hst Hb Hppp. pose proof (look_obj _ _ _ Hp) as Hv.
  assert (Hc : svc_wan_check_cfg (cfg o) = 1) by (by apply Hs in Hv as (F1 & _); apply F1).
  destruct (check_cfg_ip _ Hc Hb Hppp) as (_ & H4 & _). unfold stop_ip4. destruct (SVC_WAN_IS_IPV4 (cfg o)) eqn:Hv4.
  - destruct (SVC_WAN_IS_IPV4_DHCP (cfg o)) eqn:Hd; [|destruct H4 as [?| ->]; [done|congruence|]]; apply wp_bind.
    + eapply wp_mono; [by apply (stop_ipv4_dhcp_spec p o)|]. intros r s' [Hh Hg]. by apply wp_ret.
    + eapply wp_mono; [by apply (stop_ipv4_static_spec p o)|]. intros r s' [Hh Hg]. by apply wp_ret.
  - apply wp_ret. split; [done|]. split; [done|]. exists (core o). split; [done|]. split; [|done].
    apply (flag_serves _ _ _ Hs Hv). unfold serves4. change (cfg (core o)) with (cfg o). by rewrite Hv4, andb_false_r.
Qed.
Lemma stop_ip6_spec p o s :
  sound None (look s) → objs s !! p = Some o → started o = true → SVC_WAN_IS_BRIDGE (cfg o) = false → SVC_WAN_IS_PPP (cfg o) = false →
  wp (stop_ip6 p (cfg o)) s (λ ok s', ok = true ∧ handled None s ok s' ∧ gone_at p (up4 o) false (look s')).
Proof.
  intros Hs Hp Hst Hb Hppp. pose proof (look_obj _ _ _ Hp) as Hv.
  assert (Hc : svc_wan_check_cfg (cfg o) = 1) by (by apply Hs in Hv as (F1 & _); apply F1).
  destruct (check_cfg_ip _ Hc Hb Hppp) as (_ & _ & H6). unfold stop_ip6, svc_wan_stop_ipv6_dhcp, svc_wan_stop_ipv6_slaac.
  destruct (SVC_WAN_IS_IPV6 (cfg o)) eqn:Hv6.
  - destruct (SVC_WAN_IS_IPV6_DHCP (cfg o)) eqn:Hd; [|destruct (SVC_WAN_IS_IPV6_STATIC (cfg o)); [|
      destruct H6 as [?|[?|Hsl]]; [done|congruence|congruence|rewrite Hsl]]]; apply wp_bind.
    + eapply wp_mono; [apply (stop_dhcp6c_spec p o); [done|done|by left]|]. intros r s' [Hh Hg]. by apply wp_ret.
    + eapply wp_mono; [by apply (stop_ipv6_static_spec p o)|]. intros r s' [Hh Hg]. by apply wp_ret.
    + eapply wp_mono; [apply (stop_dhcp6c_spec p o); [done|done|by right]|]. intros r s' [Hh Hg]. by apply wp_ret.
  - apply wp_ret. split; [done|]. split; [done|]. exists (core o). split; [done|]. split; [done|].
    apply (flag_serves _ _ _ Hs Hv). unfold serves6. change (cfg (core o)) with (cfg o). by rewrite Hv6, andb_false_r.
Qed.

(** PPP takes back what it may have reported. *)
Lemma ppp_lost_spec p o s :
  sound None (look s) → objs s !! p = Some o → SVC_WAN_IS_BRIDGE (cfg o) = false → SVC_WAN_IS_PPP (cfg o) = true →
  wp (ppp_lost (cfg o) (ppp_name (idx o))) s (λ r s', handled None s r s' ∧ gone_at p false false (look s')).
Proof.
  intros Hs Hp Hb Hppp. pose proof (look_obj _ _ _ Hp) as Hv. destruct (flag_serves _ _ _ Hs Hv) as [F4 F6].
  change (up4 (core o)) with (up4 o) in F4. change (up6 (core o)) with (up6 o) in F6. change (cfg (core o)) with (cfg o) in F4, F6.
  unfold serves4, serves6 in F4, F6. rewrite Hb, Hppp in F4, F6. cbn [negb andb orb] in F4, F6.
  assert (U4 : up4 o = false ∨ SVC_WAN_IS_IPV4_STATIC (cfg o) = false).
  { destruct (SVC_WAN_IS_IPV4_STATIC (cfg o)); [left; apply F4; by rewrite andb_false_r|by right]. }
  assert (U6 : up6 o = false ∨ SVC_WAN_IS_IPV6_STATIC (cfg o) = false).
  { destruct (SVC_WAN_IS_IPV6_STATIC (cfg o)); [left; apply F6; by rewrite andb_false_r|by right]. }
  unfold ppp_lost. destruct (SVC_WAN_IS_IPV6 (cfg o)), (SVC_WAN_IS_IPV4 (cfg o)); cbn [andb].
  - destruct (SVC_WAN_DSLITE_ENABLE (cfg o)); cbn [negb andb] in *.
    + apply wp_bind. eapply wp_mono; [by apply (lost6_gone None p o); auto|]. intros r s' [Hh Hg]. rewrite andb_false_r in F4.
      rewrite F4 in Hg by done. by apply wp_ret.
    + apply wp_bind. eapply wp_mono; [by apply (lost6_gone None p o); auto|]. intros r s' [Hh (o' & Hv' & E4 & E6)].
      destruct (look_inv _ _ _ Hv') as (o1 & Hp1 & <-). destruct (handled_obj _ _ _ _ _ _ Hh Hp) as (o2 & Hp2 & (Hpl & Ecfg & _)%keep_inv).
      simplify_eq. apply wp_bind. eapply wp_mono; [apply (lost4_gone None p o1); [apply Hh|done|right; f_equal; symmetry; apply Hpl|]|].
      * rewrite Ecfg. destruct U4 as [U4|U4]; [left|by right]. change (up4 o1) with (up4 (core o1)). congruence.
      * intros r' s2 [Hh2 Hg]. apply wp_ret. split; [by apply (handled_trans None s s' r tt s2)|]. change (up6 o1) with (up6 (core o1)) in Hg.
        by rewrite E6 in Hg.
  - apply wp_bind. eapply wp_mono; [by apply (lost6_gone None p o); auto|]. intros r s' [Hh Hg]. rewrite F4 in Hg by done. by apply wp_ret.
  - apply wp_bind. eapply wp_mono; [by apply (lost4_gone None p o); auto|]. intros r s' [Hh Hg]. rewrite F6 in Hg by done. by apply wp_ret.
  - apply wp_ret. split; [done|]. exists (core o). split; [done|]. split; [by apply F4|by apply F6].
Qed.
Lemma stop_ppp_spec p o s :
  sound None (look s) → objs s !! p = Some o → SVC_WAN_IS_BRIDGE (cfg o) = false → SVC_WAN_IS_PPP (cfg o) = true →
  wp (svc_wan_stop_ppp p) s (λ r s', handled None s r s' ∧ gone_at p false false (look s')).
Proof.
  intros Hs Hp Hb Hppp. pose proof (mk_is_Some _ _ (look_obj _ _ _ Hp)) as Hsome. unfold svc_wan_stop_ppp. on_object p o s.
  apply (wp_stopped p o false false s); [done|done|done| |by auto]. intros o1 Hp1 (_ & _ & _ & Ecfg & _ & _ & Ei & _)%core_eq.
  rewrite <- Ecfg, <- Ei. apply (ppp_lost_spec p o1); congruence.
Qed.
Lemma do_stop_spec p o s :
  sound None (look s) → objs s !! p = Some o → started o = true →
  wp (svc_wan_do_stop_intf p) s (λ r s', handled None s r s' ∧ gone_at p false false (look s')).
Proof.
  intros Hs Hp Hst. pose proof (look_obj _ _ _ Hp) as Hv. pose proof (mk_is_Some _ _ Hv) as Hsome.
  assert (Hc : svc_wan_check_cfg (cfg o) = 1) by (by apply Hs in Hv as (F1 & _); apply F1).
  unfold svc_wan_do_stop_intf. apply wp_bind, (wp_the _ o); [done|]. cbv zeta. apply wp_bind.
  eapply wp_mono with (Q := λ ok s', ok = true ∧ handled None s ok s' ∧ gone_at p false false (look s')).
  - destruct (SVC_WAN_IS_BRIDGE (cfg o)) eqn:Hb.
    { apply (wp_at p (look s)); [done|done|soft|]. intros _ s1 E. apply wp_ret. split; [done|]. split; [by apply handled_refl|].
      rewrite E. exists (core o). split; [done|]. destruct (flag_serves _ _ _ Hs Hv) as [F4 F6]. unfold serves4, serves6 in F4, F6.
      change (cfg (core o)) with (cfg o) in F4, F6. rewrite Hb in F4, F6. split; [by apply F4|by apply F6]. }
    destruct (SVC_WAN_IS_PPP (cfg o)) eqn:Hppp.
    { apply wp_bind. eapply wp_mono; [by apply (stop_ppp_spec p o)|]. intros r s1 [Hh Hg]. by apply wp_ret. }
    destruct (check_cfg_ip _ Hc Hb Hppp) as (-> & _). apply wp_bind. eapply wp_mono; [by apply (stop_ip4_spec p o)|].
    intros ok s1 (-> & Hh & o1' & Hv1 & E4 & E6). cbn [negb]. destruct (look_inv _ _ _ Hv1) as (o1 & Hp1 & <-).
    destruct (handled_obj _ _ _ _ _ _ Hh Hp) as (o2 & Hp2 & (Hpl & Ecfg & Est)%keep_inv). simplify_eq. rewrite <- Ecfg.
    eapply wp_mono; [apply (stop_ip6_spec p o1); [apply Hh|done|congruence|congruence|congruence]|].
    intros ok2 s2 (-> & Hh2 & Hg). split; [done|]. split; [by apply (handled_trans None s s1 true true s2)|].
    change (up4 o1) with (up4 (core o1)) in Hg. by rewrite E4 in Hg.
  - intros ok s1 (-> & Hh & Hg). cbn [negb].
    assert (Hs1 : is_Some (objs s1 !! p)) by (apply (handled_some _ _ _ _ _ Hh); by eexists).
    apply (wp_at_end p (look s1)); [by apply look_some|done|soft|]. intros r s2 E. unfold handled. rewrite E. by split.
Qed.

(** An object that is not started any more. *)
Lemma sound_stop p o v :
  sound None v → v_objs v !! p = Some o → up4 o = false → up6 o = false → sound None (set_obj p (lower SVC_WAN_FLAG_STARTED o) v).
Proof.
  intros (Hl & Hn & Hf & H4 & H6) Hp Hu4 Hu6. destruct (lower_started o) as (Es & E4 & E6).
  set (o' := lower SVC_WAN_FLAG_STARTED o) in *. assert (Hplace : same_place o o') by done.
  split; [by apply (linked_set _ o)|]. split; [by apply (named_set _ o)|]. split; [|split].
  - apply flags_set; [done|]. unfold flag_ok. rewrite Es, E4, E6, Hu4, Hu6. done.
  - apply (held_set _ _ o); [done|done|done|intros _]. unfold carries4. by rewrite E4, E6.
  - apply (held_set _ _ o); [done|done|done|intros _]. unfold carries6. by rewrite E6.
Qed.

Lemma stop_intf_spec p o s :
  sound None (look s) → objs s !! p = Some o → wp (svc_wan_stop_intf p) s (λ _ s', becomes p o false (look s) (look s')).
Proof.
  intros Hs Hp. pose proof (look_obj _ _ _ Hp) as Hv. unfold svc_wan_stop_intf. apply wp_bind, (wp_the _ o); [done|].
  destruct (started o) eqn:Hst; cbn [negb].
  2: { apply wp_ret. split; [done|]. split; [done|]. by exists (core o). }
  apply wp_bind. eapply wp_mono; [by apply (do_stop_spec p o)|]. intros r s1 [Hh (o1' & Hv1 & E4 & E6)].
  destruct (look_inv _ _ _ Hv1) as (o1 & Hp1 & <-). destruct (handled_obj _ _ _ _ _ _ Hh Hp) as (o2 & Hp2 & (Hpl & Ecfg & Est)%keep_inv).
  simplify_eq. apply (wp_flag_at _ _ (core o1) (look s1)); [done|done|done|]. intros s2 E2. apply wp_ret. rewrite E2.
  destruct Hh as [Hs1 Hconns]. split; [by apply sound_stop|].
  split; [transitivity (look s1); [by apply conns_others|apply set_obj_others]|].
  exists (lower SVC_WAN_FLAG_STARTED (core o1)). split; [apply lookup_insert_eq|]. split; [done|]. split; [done|]. apply lower_started.
Qed.
(** ** Updates *)

Lemma sound_cfg p o c v :
  sound None v → v_objs v !! p = Some o → started o = false → sound None (set_obj p (set_cfg c o) v).
Proof.
  intros Hs Hp Hst. destruct (sound_idle _ _ _ Hs Hp Hst) as [Hu4 Hu6]. destruct Hs as (Hl & Hn & Hf & H4 & H6).
  assert (Hplace : same_place o (set_cfg c o)) by done.
  split; [by apply (linked_set _ o)|]. split; [by apply (named_set _ o)|]. split; [|split].
  - apply flags_set; [done|]. unfold flag_ok, is_set in *. cbn [flag set_cfg]. by rewrite Hst, Hu4, Hu6.
  - apply (held_set _ _ o); [done|done|done|intros _]. unfold carries4. by rewrite Hu4, Hu6, !andb_false_r.
  - apply (held_set _ _ o); [done|done|done|intros _]. unfold carries6. by rewrite Hu6, andb_false_r.
Qed.

(** Whether the client of TR-069 has marked a commit. *)
Definition commit (w : W) : bool :=
  match cfg_get WEBCUSTOM_NODE tr69CommitWan w with Some v => negb (atoi (take 7 v) =? 0) | None => false end.
Lemma no_commit_run s : commit (world s) = false → is_commit_from_tr069 s = Ok (false, s).
Proof.
  unfold commit. intros Hc. unfold is_commit_from_tr069, cfg_get_object_attr. change (cs "root.webcustom.entry") with WEBCUSTOM_NODE.
  change (cs "tr69CommitWan") with tr69CommitWan. unfold mbind, M_bind, ask, gets, mret, M_ret. cbn [fmap option_fmap option_map].
  destruct (cfg_get WEBCUSTOM_NODE tr69CommitWan (world s)) as [v|]; [|done]. cbn. apply negb_false_iff in Hc. by rewrite Hc.
Qed.
Lemma wp_and {A} (m : WM A) s (Q Q' : A → wan W → Prop) : wp m s Q → wp m s Q' → wp m s (λ a s', Q a s' ∧ Q' a s').
Proof. unfold wp. by destruct (m s) as [[a s']| |]. Qed.
Lemma avalanche_commit c s : wp (avalanche c) s (λ _ s', commit (world s') = commit (world s)).
Proof.
  unfold avalanche. apply wp_bind. eapply wp_Ok; [reflexivity|]. apply wp_bind, wp_gets. cbv zeta.
  assert (Hc : ∀ n a v w, a ≠ tr69CommitWan → commit (cfg_set n a v w) = commit w) by (intros; unfold commit; by rewrite commit_set).
  assert (Hr : ∀ k w, commit (run k w) = commit w) by (intros; unfold commit; by rewrite commit_run).
  apply wp_when; [intros _|done]. destruct (_ && _); (apply wp_when; [intros _|done]); 
    do 2 (apply wp_bind; eapply wp_Ok; [reflexivity|]); (eapply wp_Ok; [reflexivity|]); cbn [world with_world with_avalanche]; by rewrite Hr, Hc.
Qed.

Lemma load_active pa w : active (load_cfg pa w) = 0 ∨ active (load_cfg pa w) = 1.
Proof.
  unfold load_cfg. destruct (load_link w pa) as [c t] eqn:E.
  assert (Ha : active c = 0 ∨ active c = 1).
  { unfold load_link in E. injection E as <- <-. cbn [active choice]. destruct (streq _ _); auto. }
  cbv zeta. set (c1 := with_bindbit _ c). change (active c) with (active c1) in Ha.
  destruct (SVC_WAN_IS_BRIDGE c1); [done|].
  set (ct := if SVC_WAN_IS_PPP c1 then _ else _). assert (Ha1 : active ct.1 = active c1) by (unfold ct; by destruct (SVC_WAN_IS_PPP c1)).
  set (ct2 := if SVC_WAN_IS_IPV4_STATIC ct.1 then _ else _).
  assert (Ha2 : active ct2.1 = active c1) by (unfold ct2; destruct (SVC_WAN_IS_IPV4_STATIC ct.1); [by destruct ct|done]).
  destruct (SVC_WAN_IS_IPV6 ct2.1); [|by rewrite Ha2]. destruct ct2 as [c2 t2]. cbn in Ha2 |- *. by rewrite Ha2.
Qed.
(** What an update makes of the object: it has the configuration that was
    read, and is started if that is valid; or it was neither enabled nor
    disabled and stays. *)
Definition updated (p : positive) (o : wan_entry_obj) (c : wan_entry_cfg) (v v' : view) : Prop :=
  sound None v' ∧ others p v v' ∧ ∃ o', v_objs v' !! p = Some o' ∧ same_place o o' ∧
    (cfg o' = c ∧ started o' = negb (svc_wan_check_cfg c <=? 0)
     ∨ cfg o' = cfg o ∧ started o' = started o ∧ active (cfg o) ≠ 1 ∧ (active c = 1 → active (cfg o) ≠ 0)).

Lemma check_active c : active c ≠ 1 → svc_wan_check_cfg c = 0.
Proof. intros Ha. unfold svc_wan_check_cfg, SVC_WAN_ATTR_ACTIVE_ENABLE. by rewrite (proj2 (Z.eqb_neq _ _) Ha). Qed.
Lemma started_active p o v : sound None v → v_objs v !! p = Some o → active (cfg o) ≠ 1 → started o = false.
Proof.
  intros (_ & _ & Hf & _) Hp Ha%check_active. destruct (Hf _ _ Hp) as (F & _). destruct (started o); [|done].
  by rewrite F in Ha.
Qed.

Lemma same_place_trans o o1 o2 : same_place o o1 → same_place o1 o2 → same_place o o2.
Proof. intros (? & ? & ? & ?) (? & ? & ? & ?). repeat split; congruence. Qed.
(** The two ways an update ends. *)
Lemma becomes_updated p o o1 c v v1 v2 st :
  others p v v1 → same_place o o1 → cfg o1 = c → st = negb (svc_wan_check_cfg c <=? 0) → becomes p o1 st v1 v2 → updated p o c v v2.
Proof.
  intros Ho Hpl <- -> (Hs & Ho2 & o2 & Hp2 & Hpl2 & Hc2 & Hst). split; [done|]. split; [by transitivity v1|].
  exists o2. split; [done|]. split; [|by left]. by apply (same_place_trans o o1 o2).
Qed.

(** A configuration is stored in an object that is not started, and the
    interface is started. *)
Lemma restart_spec p o c v s :
  sound None (look s) → v_objs (look s) !! p = Some o → started o = false → others p v (look s) →
  wp (upd p (set_cfg c);;
      svc_wan_cfg_update_attr (path o) c true;;
      svc_wan_load_opt p;;
      when true (svc_wan_start_intf p;; mret tt);;
      mret 0) s (λ _ s', updated p o c v (look s')).
Proof.
  intros Hs Hp Hst Ho. apply (wp_flag_at _ _ o (look s)); [done|done|done|]. intros s1 E1.
  pose proof (sound_cfg _ _ c _ Hs Hp Hst) as Hs1. set (v1 := set_obj p (set_cfg c o) (look s)) in *.
  assert (Hp1 : v_objs v1 !! p = Some (set_cfg c o)) by apply lookup_insert_eq.
  assert (Hsome : is_Some (v_objs v1 !! p)) by (by eexists).
  do 2 (apply (wp_at p v1); [done|done|soft|]; clear s1 E1; intros ? s1 E1). cbn [when].
  pose proof Hp1 as Hp2. rewrite <- E1 in Hp2. destruct (look_inv _ _ _ Hp2) as (o2 & Hp3 & Eo2). apply wp_bind, wp_bind.
  eapply wp_mono; [apply (start_intf_spec p o2); [by rewrite E1|done]|]. intros r s2 Hb. apply wp_ret, wp_ret.
  assert (Est : started o2 = false) by (change (started (core o2) = false); by rewrite Eo2).
  assert (Ec : cfg o2 = c) by (change (cfg (core o2) = c); by rewrite Eo2).
  assert (Epl : same_place o o2) by (change (same_place o (core o2)); by rewrite Eo2).
  rewrite Est in Hb. cbn [orb] in Hb. eapply becomes_updated; [|exact Epl|exact Ec| |exact Hb].
  - rewrite E1. transitivity (look s); [done|apply set_obj_others].
  - by rewrite Ec.
Qed.

Lemma update_object_spec p o s :
  sound None (look s) → objs s !! p = Some o → SVC_WAN_SRV_TR069 (cfg o) && commit (world s) = false →
  wp (svc_wan_update_object p) s (λ _ s', updated p o (load_cfg (path o) (world s)) (look s) (look s')).
Proof.
  intros Hs Hp Hq. pose proof (look_obj _ _ _ Hp) as Hv. pose proof (mk_is_Some _ _ Hv) as Hsome.
  unfold svc_wan_update_object. apply wp_bind, (wp_the _ o); [done|]. apply wp_bind, wp_ask. set (c := load_cfg (path o) (world s)).
  apply wp_bind. eapply wp_mono; [apply wp_and; [apply (soft_avalanche_mode p c s); by eexists|apply avalanche_commit]|].
  intros _ s1 [E1 Ec1]. cbv zeta. unfold SVC_WAN_ATTR_ACTIVE_DISABLE, SVC_WAN_ATTR_ACTIVE_ENABLE.
  destruct (negb _) eqn:Hact.
  { apply wp_ret. rewrite E1. split; [done|]. split; [done|]. exists (core o). split; [done|]. split; [done|]. right.
    split; [done|]. split; [done|]. destruct (load_active (path o) (world s)) as [Ha|Ha]; fold c in Ha; change (cfg (core o)) with (cfg o);
      rewrite Ha in *; split; intros; try lia; intros E; rewrite E in Hact; done. }
  apply wp_bind. eapply (wp_Ok _ _ false s1).
  { destruct (SVC_WAN_SRV_TR069 (cfg o)); [|done]. apply no_commit_run. by rewrite Ec1. }
  cbn [negb]. apply negb_false_iff in Hact.
  assert (Hs1 : sound None (look s1)) by (by rewrite E1). rewrite <- E1 in Hv. destruct (look_inv _ _ _ Hv) as (o1 & Hp1 & Eo1).
  pose proof (core_eq _ _ Eo1) as (_ & _ & Est1 & Ecfg1 & Hpl1).
  destruct ((active (cfg o) =? 0) && (active c =? 1)) eqn:A1.
  { apply andb_true_iff in A1 as [A1%Z.eqb_eq A2%Z.eqb_eq].
    assert (Hst : started (core o) = false) by (apply (started_active p (core o) (look s1)); [done|done|]; cbn [cfg core set_nat set_pid4 set_pid6]; lia).
    eapply wp_mono; [apply (restart_spec p (core o) c (look s)); [done|done|done|by rewrite E1]|]. by intros. }
  assert (Hstop : ∀ s2, look s2 = look s → wp (svc_wan_stop_intf p) s2 (λ _ s', becomes p (core o) false (look s) (look s'))).
  { intros s2 E2. rewrite E1, <- E2 in Hv. destruct (look_inv _ _ _ Hv) as (o2 & Hp2 & Eo2). rewrite <- E2, <- Eo2.
    by apply (stop_intf_spec p o2); [rewrite E2|]. }
  destruct ((active (cfg o) =? 1) && (active c =? 0)) eqn:A2.
  - apply andb_true_iff in A2 as [_ A3%Z.eqb_eq].
    apply (wp_at p (look s)); [done|done|soft|]. clear s1 E1 Ec1 Hs1 Hv o1 Hp1 Eo1 Est1 Ecfg1 Hpl1. intros _ s1 E1. cbn [when].
    apply wp_bind, wp_bind. eapply wp_mono; [by apply Hstop|]. intros _ s2 (Hs2 & Ho2 & o2 & Hv2 & Hpl2 & Ec2 & Est2). apply wp_ret.
    apply (wp_flag_at _ _ o2 (look s2)); [done|done|done|]. intros s3 E3. apply wp_ret. rewrite E3.
    split; [by apply sound_cfg|]. split; [transitivity (look s2); [done|apply set_obj_others]|].
    exists (set_cfg c o2). split; [apply lookup_insert_eq|]. split; [done|]. left. split; [done|]. rewrite check_active by lia. exact Est2.
  - cbn [when]. apply wp_bind, wp_bind. eapply wp_mono; [by apply Hstop|].
    intros _ s2 (Hs2 & Ho2 & o2 & Hv2 & Hpl2 & Ec2 & Est2). apply wp_ret.
    assert (E : path o = path o2) by (symmetry; apply Hpl2). rewrite E. eapply wp_mono; [by apply (restart_spec p o2 c (look s))|].
    intros r s3 (Hs3 & Ho3 & o3 & Hp3 & Hpl3 & [[Hc3 Hst3]|(_ & _ & Hbad & _)]).
    + split; [done|]. split; [done|]. exists o3. split; [done|]. split; [|by left].
      exact (same_place_trans (core o) o2 o3 Hpl2 Hpl3).
    + exfalso. apply Hbad. rewrite Ec2. cbn [cfg core set_nat set_pid4 set_pid6]. clear -Hact A1 A2.
      destruct (active (cfg o) =? 1) eqn:B; [by apply Z.eqb_eq|]. rewrite !orb_false_r in Hact. by rewrite Hact in A1.
Qed.

End life.
End WanLife.
