(* ===== verification/WanEvents.v ===== *)
(** * The WAN service as a whole

    New and removed connections, the end of the service, and the invariant
    along every sequence of events: the default routes follow the
    connections. *)

From stdpp Require Import gmap.
From S2P Require Import Prelude CString Text Utility WanObj WanRoute WanCfg WanDev WanMgr WanList WanProps WanRun WanLife.
Open Scope Z_scope.

Module WanEvents.
Import Text Utility WanObj WanRoute WanCfg WanDev WanMgr WanList WanProps WanRun WanLife.

Section wan.
Context {W : Type} `{WanLaws W}.
Abbreviation WM := (M (wan W)).

(** ** The list and the view *)

Lemma chain_fmap m p l : chain m p l → chain (core <$> m) p (prod_map id core <$> l).
Proof.
  revert p. induction l as [|[a o] l IH]; intros p Hc; [done|]. destruct Hc as (-> & Ha & Hc). split; [done|].
  split; [cbn; by rewrite lookup_fmap, Ha|]. by apply IH.
Qed.
Lemma rep_linked s l : wan_rep s l → (∀ a, is_Some (objs s !! a) → a ∈ l.*1) → linked (look s).
Proof.
  intros [Hc Hnd] Hall. exists (prod_map id core <$> l).
  assert (E : (prod_map id core <$> l).*1 = l.*1) by (rewrite <- list_fmap_compose; by apply list_fmap_ext).
  rewrite E. split; [by apply chain_fmap|]. split; [done|]. intros a Ha. by apply Hall, look_some.
Qed.
Lemma plain_fst l : (plain l).*1 = l.*1.
Proof. unfold plain. rewrite <- list_fmap_compose. by apply list_fmap_ext. Qed.
Lemma unlinked_some (s : wan W) a : is_Some (unlinked s !! a) ↔ is_Some (objs s !! a).
Proof. unfold unlinked. by rewrite lookup_fmap, fmap_is_Some. Qed.

(** What soundness says besides the list does not depend on successors. *)
Definition placed (v : view) : Prop :=
  named v ∧ flags_ok None v ∧ held carries4 (v_objs v) (v4 v) ∧ held carries6 (v_objs v) (v6 v).
Definition bare (v : view) : gmap positive wan_entry_obj := set_next None <$> v_objs v.
Lemma bare_look s : bare (look s) = core <$> unlinked s.
Proof. unfold bare, look, unlinked. cbn. rewrite <- !map_fmap_compose. by apply map_fmap_ext. Qed.
Lemma bare_obj v v' a o : bare v' = bare v → v_objs v !! a = Some o → ∃ o', v_objs v' !! a = Some o' ∧ o = set_next (next o) o'.
Proof.
  intros E Ha. assert (E' : bare v' !! a = Some (set_next None o)) by (rewrite E; unfold bare; by rewrite lookup_fmap, Ha).
  unfold bare in E'. rewrite lookup_fmap in E'. apply fmap_Some in E' as (o' & Ha' & Eo). exists o'. split; [done|].
  destruct o, o'. unfold set_next in *. cbn in *. congruence.
Qed.
Lemma held_bare fit v v' r : (∀ n o, fit (set_next n o) = fit o) → bare v' = bare v → held fit (v_objs v) r → held fit (v_objs v') r.
Proof.
  intros Hf E [->|(a & o & Ha & -> & Hfit)]; [by left|]. right. destruct (bare_obj _ _ _ _ E Ha) as (o' & Ha' & Eo).
  exists a, o'. split; [done|]. rewrite Eo in Hfit |- *. by rewrite Hf in Hfit.
Qed.
Lemma placed_bare v v' : bare v' = bare v → v4 v' = v4 v → v6 v' = v6 v → placed v → placed v'.
Proof.
  intros E E4 E6 ([Hn Hinj] & Hf & H4 & H6). split; [|split; [|split]].
  - split.
    + intros a o Ha. destruct (bare_obj _ v _ _ (eq_sym E) Ha) as (o' & Ha' & ->). exact (Hn a o' Ha').
    + intros a b oa ob Ha Hb Ei. destruct (bare_obj _ v _ _ (eq_sym E) Ha) as (oa' & Ha' & Ea), (bare_obj _ v _ _ (eq_sym E) Hb) as (ob' & Hb' & Eb).
      apply (Hinj _ _ _ _ Ha' Hb'). by rewrite Ea, Eb in Ei.
  - intros a o Ha. destruct (bare_obj _ v _ _ (eq_sym E) Ha) as (o' & Ha' & ->). exact (Hf a o' Ha').
  - rewrite E4. by apply (held_bare _ v).
  - rewrite E6. by apply (held_bare _ v).
Qed.

(** A new object that has no address, and the removal of one. *)
Lemma held_insert fit m p o r : m !! p = None → held fit m r → held fit (<[p := o]> m) r.
Proof.
  intros Hp [->|(a & oa & Ha & -> & Hfit)]; [by left|]. right. exists a, oa. by rewrite lookup_insert_ne by congruence.
Qed.
Lemma placed_insert v p o :
  placed v → v_objs v !! p = None → 0 ≤ idx o < 64 ∧ path o = canon (idx o) ∧ dev o = nas (idx o) → flag o = 0 →
  (∀ a oa, v_objs v !! a = Some oa → idx oa ≠ idx o) → placed (set_obj p o v).
Proof.
  intros ([Hn Hinj] & Hf & H4 & H6) Hp Ho Hflag Hnew. split; [|split; [|split]]; cbn [set_obj v_objs WanProps.v4 WanProps.v6].
  - unfold named, set_obj. cbn [v_objs]. split.
    + intros a oa Ha. destruct (decide (a = p)) as [->|]; [rewrite lookup_insert_eq in Ha; by simplify_eq|].
      rewrite lookup_insert_ne in Ha by done. by apply (Hn a).
    + intros a b oa ob Ha Hb Ei. destruct (decide (a = p)) as [->|], (decide (b = p)) as [->|]; [done| | |];
        rewrite ?lookup_insert_eq, ?lookup_insert_ne in Ha by done; rewrite ?lookup_insert_eq, ?lookup_insert_ne in Hb by done; simplify_eq.
      * by destruct (Hnew _ _ Hb).
      * by destruct (Hnew _ _ Ha).
      * by apply (Hinj _ _ _ _ Ha Hb).
  - apply (flags_set None p o v); [done|]. unfold flag_ok, is_set. by rewrite Hflag.
  - by apply held_insert.
  - by apply held_insert.
Qed.
Lemma held_delete fit m p r : held fit m r → (∀ o, m !! p = Some o → fit o = false) → held fit (delete p m) r.
Proof.
  intros [->|(a & oa & Ha & -> & Hfit)] Hp; [by left|]. right. exists a, oa. rewrite lookup_delete_ne; [done|].
  intros <-. rewrite Hp in Hfit; done.
Qed.
Definition del_obj (p : positive) (v : view) : view := {| v_head := v_head v; v_objs := delete p (v_objs v); v4 := v4 v; v6 := v6 v |}.
Lemma placed_delete v p o : placed v → v_objs v !! p = Some o → up4 o = false → up6 o = false → placed (del_obj p v).
Proof.
  intros ([Hn Hinj] & Hf & H4 & H6) Hp Hu4 Hu6. split; [|split; [|split]]; unfold named, flags_ok, del_obj; cbn [v_objs WanProps.v4 WanProps.v6].
  - split.
    + intros a oa [_ Ha]%lookup_delete_Some. by apply (Hn a).
    + intros a b oa ob [_ Ha]%lookup_delete_Some [_ Hb]%lookup_delete_Some. by apply (Hinj a b).
  - intros a oa [_ Ha]%lookup_delete_Some. by apply Hf.
  - apply held_delete; [done|]. intros o' Ho'. simplify_eq. unfold carries4. by rewrite Hu4, Hu6, !andb_false_r.
  - apply held_delete; [done|]. intros o' Ho'. simplify_eq. unfold carries6. by rewrite Hu6, andb_false_r.
Qed.
(** ** New connections *)

Lemma create_list_run s l :
  wan_rep s l → malloc_ok (world s) = true →
  ∃ p s' l', svc_wan_create_object s = Ok (Some p, s') ∧ wan_rep s' l' ∧ plain l' = plain (l ++ [(p, zero_obj)]) ∧
    objs s !! p = None ∧ objs s' !! p = Some zero_obj ∧ world s' = world s ∧ unlinked s' = <[p := zero_obj]> (unlinked s).
Proof.
  intros [Hc Hnd] Hm. set (p := fresh (dom (objs s))).
  assert (Hp : objs s !! p = None) by (apply not_elem_of_dom; apply is_fresh).
  assert (Hnin : p ∉ l.*1).
  { intros ([a o] & -> & Hin)%list_elem_of_fmap. cbn in Hp. by rewrite (chain_lookup _ _ _ _ _ Hc Hin) in Hp. }
  set (s1 := with_objs (<[p := zero_obj]> (objs s)) s).
  assert (Halloc : svc_wan_alloc_object s = Ok (Some p, s1)).
  { unfold svc_wan_alloc_object. rewrite (M_bind_Ok _ _ _ true s); [done|]. unfold ask, gets. by rewrite Hm. }
  assert (Hr : wan_rep s1 l) by (split; [by apply chain_insert|done]).
  assert (Hp1 : objs s1 !! p = Some zero_obj) by apply lookup_insert_eq.
  destruct (add_to_list_run s1 l p zero_obj Hr Hp1 Hnin) as (s2 & l2 & Hrun & Hr2 & Hpl & Hw & _ & Hp2 & Hun).
  exists p, s2, l2. split; [unfold svc_wan_create_object; step_by Halloc; cbn beta iota; by step_by Hrun|].
  do 5 (split; [done|]). rewrite Hun. unfold unlinked. cbn. by rewrite fmap_insert.
Qed.
Lemma create_run s :
  linked (look s) → malloc_ok (world s) = true →
  ∃ p s' l, svc_wan_create_object s = Ok (Some p, s') ∧ objs s !! p = None ∧ objs s' !! p = Some zero_obj ∧ world s' = world s ∧
    unlinked s' = <[p := zero_obj]> (unlinked s) ∧ wan_rep s' l ∧ (∀ a, is_Some (objs s' !! a) → a ∈ l.*1).
Proof.
  intros (l & Hr & Hall)%linked_rep Hm.
  destruct (create_list_run s l Hr Hm) as (p & s2 & l2 & Hrun & Hr2 & Hpl & Hp & Hp2 & Hw & Eun).
  exists p, s2, l2. do 6 (split; [done|]). intros a Ha%unlinked_some. rewrite Eun in Ha. rewrite <- plain_fst, Hpl, plain_fst, fmap_app.
  apply elem_of_app. destruct (decide (a = p)) as [->|]; [right; by apply list_elem_of_singleton|left].
  rewrite lookup_insert_ne in Ha by done. by apply Hall, unlinked_some.
Qed.

(** A new object with its names joins a sound service. *)
Lemma new_object_sound i p l s s' :
  sound None (look s) → (∀ a o, objs s !! a = Some o → idx o ≠ i) → 0 ≤ i < 64 →
  objs s !! p = None → objs s' !! p = Some zero_obj → world s' = world s → unlinked s' = <[p := zero_obj]> (unlinked s) →
  wan_rep s' l → (∀ a, is_Some (objs s' !! a) → a ∈ l.*1) →
  sound None (look (with_objs (<[p := set_name (canon i) i (nas i) zero_obj]> (objs s')) s')).
Proof.
  intros [Hl Hpl] Hnew Hi Hp Hp' Hw Hun Hr Hall. set (o := set_name (canon i) i (nas i) zero_obj). split.
  - apply (rep_linked _ (at_obj p o <$> l)).
    + by apply (rep_change s' l p zero_obj (set_name (canon i) i (nas i))).
    + intros a [oa Ha]. rewrite at_obj_fst. apply Hall. cbn in Ha. destruct (decide (a = p)) as [->|]; [by eexists|].
      rewrite lookup_insert_ne in Ha by done. by eexists.
  - apply (placed_bare (set_obj p (core o) (look s))).
    + rewrite bare_look. unfold bare, set_obj, unlinked. cbn [v_objs objs with_objs]. rewrite !fmap_insert.
      change (set_next None <$> v_objs (look s)) with (bare (look s)). rewrite bare_look.
      change (set_next None <$> objs s') with (unlinked s'). by rewrite Hun, fmap_insert, insert_insert_eq.
    + cbn. by rewrite Hw.
    + cbn. by rewrite Hw.
    + apply placed_insert; [done|cbn; by rewrite lookup_fmap, Hp|done|done|].
      intros a oa (oa' & Ha & <-)%look_inv. exact (Hnew a oa' Ha).
Qed.
(** The numbers of a path give the names of its connection. *)
Lemma index_new i : 0 ≤ i < 64 →
  u32 (i / 8 + 1 - 1) = i / 8 ∧ u32 (i mod 8 + 1 - 1) = i mod 8 ∧
  (SVC_WAN_MAX_PVC_NUM <=? i / 8) || (SVC_WAN_MAX_ENTRY_NUM <=? i mod 8) = false ∧
  take 31 (canon i) = canon i ∧ u8 (i / 8 * SVC_WAN_MAX_ENTRY_NUM + i mod 8) = i ∧
  take 15 (nas_name (s32 (i / 8)) (s32 (i mod 8))) = nas i.
Proof.
  intros Hi%index_facts. unfold index_ok in Hi. unfold SVC_WAN_MAX_PVC_NUM, SVC_WAN_MAX_ENTRY_NUM.
  repeat match goal with Hb : _ && _ = true |- _ => apply andb_true_iff in Hb as [? ?] end.
  repeat match goal with Hb : Nat.leb _ _ = true |- _ => apply Nat.leb_le in Hb | Hb : (_ =? _) = true |- _ => apply Z.eqb_eq in Hb
    | Hb : (_ <? _) = true |- _ => apply Z.ltb_lt in Hb | Hb : streq _ _ = true |- _ => apply streq_eq in Hb end.
  split; [done|]. split; [done|]. split; [apply orb_false_iff; split; apply Z.leb_gt; lia|].
  split; [by apply take_ge|]. split; [done|]. match goal with E : nas_name _ _ = _ |- _ => rewrite E end. by apply take_ge.
Qed.

(** ** Updates *)

(** Enabled or not, the service knows nothing else. *)
Definition binary (v : view) : Prop := ∀ a o, v_objs v !! a = Some o → active (cfg o) = 0 ∨ active (cfg o) = 1.
Definition good (v : view) : Prop := sound None v ∧ binary v.

(** The connection [i]: started if its configuration is valid, and then with
    that configuration. *)
Definition configured (i : Z) (c : wan_entry_cfg) (v : view) : Prop :=
  ∃ p o, v_objs v !! p = Some o ∧ idx o = i ∧ path o = canon i ∧ started o = negb (svc_wan_check_cfg c <=? 0) ∧
    (started o = true → cfg o = c).
(** The other connections keep everything but their place in the list and
    their addresses. *)
Definition rest (o : wan_entry_obj) := (path o, idx o, dev o, cfg o, started o).
Definition spared (i : Z) (v v' : view) : Prop :=
  ∀ a o, v_objs v !! a = Some o → idx o ≠ i → ∃ o', v_objs v' !! a = Some o' ∧ rest o' = rest o.
#[global] Instance spared_preorder i : PreOrder (spared i).
Proof.
  split; [intros v a o Ha _; by exists o|]. intros v1 v2 v3 H12 H23 a o Ha Hi. destruct (H12 a o Ha Hi) as (o2 & Ha2 & E2).
  assert (Hi2 : idx o2 ≠ i) by (by injection E2 as _ -> _ _ _). destruct (H23 a o2 Ha2 Hi2) as (o3 & Ha3 & E3). exists o3. split; [done|congruence].
Qed.
Lemma others_spared p o v v' : v_objs v !! p = Some o → others p v v' → spared (idx o) v v'.
Proof.
  intros Hp [_ Ho] a oa Ha Hi. assert (Hne : a ≠ p) by (intros ->; by simplify_eq). specialize (Ho a Hne). rewrite Ha in Ho.
  apply fmap_Some in Ho as (o' & Ha' & Hk). exists o'. split; [done|]. apply eq_sym, keep_inv in Hk as ((_ & ? & ? & ?) & ? & ?).
  unfold rest. congruence.
Qed.
Lemma bare_spared i v v' : (∀ a o, v_objs v !! a = Some o → ∃ o', v_objs v' !! a = Some o' ∧ set_next None o' = set_next None o) → spared i v v'.
Proof.
  intros Hv a o Ha _. destruct (Hv a o Ha) as (o' & Ha' & E). exists o'. split; [done|]. unfold rest, is_set.
  injection E. by intros _ _ _ -> -> -> -> ->.
Qed.

Lemma updated_good p o c v v' :
  binary v → v_objs v !! p = Some o → active c = 0 ∨ active c = 1 → updated p o c v v' →
  good v' ∧ ∃ o', v_objs v' !! p = Some o' ∧ same_place o o' ∧ started o' = negb (svc_wan_check_cfg c <=? 0) ∧ (started o' = true → cfg o' = c).
Proof.
  intros Hb Hp Hc (Hs & [_ Ho] & o' & Hp' & Hpl & Hcase). split.
  - split; [done|]. intros a oa Ha. destruct (decide (a = p)) as [->|Hne].
    + simplify_eq. destruct Hcase as [[-> _]|[-> _]]; [done|by apply (Hb p)].
    + specialize (Ho a Hne). rewrite Ha in Ho. cbn [fmap option_fmap option_map] in Ho. symmetry in Ho. apply fmap_Some in Ho as (ob & Hob & Hk).
      apply keep_inv in Hk as (_ & -> & _). by apply (Hb a).
  - exists o'. split; [done|]. split; [done|]. destruct Hcase as [[Hc' Hst]|(Hc' & Hst & Hoff & Hon)]; [done|].
    assert (Hst0 : started o' = false) by (apply (started_active p o' v'); [done|done|by rewrite Hc']).
    rewrite Hst0. split; [|done]. symmetry. rewrite check_active; [done|]. intros E. destruct (Hb _ _ Hp) as [E0|]; [|done]. by apply (Hon E).
Qed.
(** The client of TR-069 has not committed the connection over itself. *)
Definition quiet (i : Z) (s : wan W) : Prop :=
  ∀ p o, objs s !! p = Some o → idx o = i → SVC_WAN_SRV_TR069 (cfg o) && commit (world s) = false.

Lemma update_found p o i s :
  good (look s) → objs s !! p = Some o → idx o = i → quiet i s →
  wp (svc_wan_update_object p) s (λ _ s', good (look s') ∧ spared i (look s) (look s') ∧
    configured i (load_cfg (canon i) (world s)) (look s')).
Proof.
  intros [Hs Hb] Hp <- Hq. destruct (named_obj _ _ _ (proj1 (proj2 Hs)) Hp) as (Hi & Hpa & _). pose proof (look_obj _ _ _ Hp) as Hv.
  eapply wp_mono; [apply (update_object_spec p o); [done|done|by apply (Hq p)]|]. rewrite Hpa. intros r s' Hu.
  assert (Ho : others p (look s) (look s')) by apply Hu.
  destruct (updated_good p (core o) _ _ _ Hb Hv (load_active _ _) Hu) as (Hg & o' & Hp' & (_ & Epa & Ei & _) & Hst & Hc).
  split; [done|]. split; [by apply (others_spared p (core o))|]. exists p, o'. split; [done|]. split; [by rewrite Ei|].
  split; [by rewrite Epa|done].
Qed.

Lemma event_update_spec i s :
  0 ≤ i < 64 → good (look s) → quiet i s →
  wp (svc_wan_handle_event_update (canon i)) s (λ r s', good (look s') ∧ spared i (look s) (look s') ∧
    (cfg_exists (canon i) (world s) = true → malloc_ok (world s) = true →
     r = 0 ∧ configured i (load_cfg (canon i) (world s)) (look s'))).
Proof.
  intros Hi Hg Hq. pose proof Hg as [(Hl & Hn & Hrest) Hb]. unfold svc_wan_handle_event_update. apply wp_bind, wp_ask.
  destruct (cfg_exists (canon i) (world s)) eqn:Hex; cbn [negb]; [|by apply wp_ret].
  destruct (find_object_spec (canon i) s Hl) as (r & Hr & Hspec). apply wp_bind, (wp_Ok _ _ _ _ _ Hr). destruct r as [p|].
  - destruct Hspec as (o & Hp & Hpa). destruct (named_obj _ _ _ Hn Hp) as (Hio & Hco & _).
    apply wp_bind. eapply wp_mono; [apply (update_found p o i); [done|done|apply canon_inj; [done|done|congruence]|done]|].
    intros r s' (H1 & H2 & H3). by apply wp_ret.
  - destruct (canon_ids i (world s) Hi) as (r & k & Hids). apply wp_bind, wp_ask. rewrite Hids.
    destruct (index_new i Hi) as (E1 & E2 & E3 & E4 & E5 & E6). rewrite E1, E2, E3.
    destruct (malloc_ok (world s)) eqn:Hm.
    2: { apply wp_bind. eapply (wp_Ok _ _ None s); [|by apply wp_ret]. unfold svc_wan_create_object, svc_wan_alloc_object.
         unfold mbind, M_bind, ask, gets. by rewrite Hm. }
    destruct (create_run s Hl Hm) as (p & s1 & l & Hrun & Hnew & Hp1 & Hw & Hun & Hrep & Hall).
    apply wp_bind, (wp_Ok _ _ _ _ _ Hrun). rewrite E4, E5, E6. apply wp_bind, (wp_upd _ zero_obj); [done|].
    set (o := set_name (canon i) i (nas i) zero_obj). set (s2 := with_objs _ s1).
    assert (Hfresh : ∀ a oa, objs s !! a = Some oa → idx oa ≠ i).
    { intros a oa Ha E. apply (Hspec a oa Ha). destruct (named_obj _ _ _ Hn Ha) as (_ & -> & _). by rewrite E. }
    assert (Hs2 : sound None (look s2)) by (by apply (new_object_sound i p l s s1)).
    assert (Hp2 : objs s2 !! p = Some o) by apply lookup_insert_eq.
    assert (Hold : ∀ a, a ≠ p → set_next None <$> objs s2 !! a = set_next None <$> objs s !! a).
    { intros a Ha. cbn. rewrite lookup_insert_ne by done. rewrite <- !lookup_fmap. change (unlinked s1 !! a = unlinked s !! a).
      by rewrite Hun, lookup_insert_ne. }
    assert (Hb2 : binary (look s2)).
    { intros a oa (oa' & Ha & <-)%look_inv. destruct (decide (a = p)) as [->|Hne]; [simplify_eq; by left|].
      specialize (Hold a Hne). rewrite Ha in Hold. symmetry in Hold. apply fmap_Some in Hold as (ob & Hob & E).
      assert (Ec : cfg oa' = cfg ob) by (by injection E). change (cfg (core oa')) with (cfg oa'). rewrite Ec.
      apply (Hb a (core ob)). by apply look_obj. }
    assert (Hsp : spared i (look s) (look s2)).
    { apply bare_spared. intros a oa (oa' & Ha & <-)%look_inv. assert (Hne : a ≠ p) by congruence.
      specialize (Hold a Hne). rewrite Ha in Hold. apply fmap_Some in Hold as (ob & Hob & E). exists (core ob). split; [by apply look_obj|].
      exact (f_equal core (eq_sym E)). }
    apply wp_bind. eapply wp_mono; [apply (update_found p o i s2); [by split|done|done|]|].
    { intros p' o' Hp' Hi'. assert (p' = p) as ->; [|rewrite Hp2 in Hp'; by injection Hp' as <-].
      exact (named_inj s2 _ _ _ _ (proj1 (proj2 Hs2)) Hp' Hp2 Hi'). }
    intros r' s' (G1 & G2 & G3). apply wp_ret. split; [done|]. split; [by transitivity (look s2)|]. intros _ _. split; [done|].
    change (world s2) with (world s1) in G3. by rewrite Hw in G3.
Qed.
(** ** Removal *)

Lemma call_look c s : wp (do_call c) s (λ _ s', look s' = look s).
Proof. unfold wp, do_call, tell, modify, look, route. cbn. by rewrite !route_run. Qed.
Lemma wp_call {A} c s (k : unit → WM A) Q : (∀ s', look s' = look s → wp (k tt) s' Q) → wp (mbind k (do_call c)) s Q.
Proof. intros Hk. apply wp_bind. eapply wp_mono; [apply call_look|]. intros [] s'. apply Hk. Qed.

Lemma paths_nodup l s : wan_rep s l → named (look s) → NoDup ((λ ao, path ao.2) <$> l).
Proof.
  intros [Hc Hnd] Hn. apply NoDup_fmap_2_strong; [|by apply NoDup_fmap_1 in Hnd]. intros [a oa] [b ob] Ha Hb E. cbn in E.
  pose proof (chain_lookup _ _ _ _ _ Hc Ha) as Ha'. pose proof (chain_lookup _ _ _ _ _ Hc Hb) as Hb'.
  destruct (named_obj _ _ _ Hn Ha') as (Hia & Hca & _), (named_obj _ _ _ Hn Hb') as (Hib & Hcb & _).
  assert (a = b) as ->; [|by simplify_eq]. apply (named_inj _ _ _ _ _ Hn Ha' Hb'). apply canon_inj; [done|done|congruence].
Qed.

Lemma del_spec p o s :
  sound None (look s) → objs s !! p = Some o → started o = false →
  ∃ s', svc_wan_del_from_list p s = Ok (0, s') ∧ sound None (look s') ∧ world s' = world s ∧ objs s' !! p = None ∧
    unlinked s' = delete p (unlinked s).
Proof.
  intros Hs Hp Hst. destruct (sound_idle _ _ _ Hs (look_obj _ _ _ Hp) Hst) as [Hu4 Hu6]. destruct Hs as [Hl Hpl].
  destruct (linked_rep _ Hl) as (l & Hr & Hall).
  assert (Hin : (p, o) ∈ l) by (apply (rep_elem s); [done|apply Hall; by eexists|done]).
  apply list_elem_of_split in Hin as (l1 & l2 & ->).
  destruct (del_from_list_run s l1 p o l2 Hr) as (s' & Hrun & l' & Hr' & Epl & Hw & _ & Hnone & Hun); [exact (paths_nodup _ s Hr (proj1 Hpl))|].
  exists s'. split; [done|]. split; [|done]. split.
  - apply (rep_linked _ l' Hr'). intros a Ha%unlinked_some. rewrite Hun in Ha. destruct (decide (a = p)) as [->|Hne].
    { rewrite lookup_delete_eq in Ha. by destruct Ha. }
    rewrite lookup_delete_ne in Ha by done. rewrite <- plain_fst, Epl, plain_fst. apply unlinked_some, Hall in Ha.
    rewrite !fmap_app in *. cbn [fmap list_fmap fst] in Ha. apply elem_of_app in Ha as [Ha|[->|Ha]%elem_of_cons]; [|done|];
      apply elem_of_app; auto.
  - apply (placed_bare (del_obj p (look s))).
    + rewrite bare_look, Hun, fmap_delete, <- bare_look. unfold bare, del_obj. cbn [v_objs]. by rewrite fmap_delete.
    + cbn. by rewrite Hw.
    + cbn. by rewrite Hw.
    + apply (placed_delete _ p (core o)); [done|by apply look_obj|done|done].
Qed.

(** The connection [i] has no object. *)
Definition absent (i : Z) (v : view) : Prop := ∀ a o, v_objs v !! a = Some o → idx o ≠ i.

Lemma deleted_good p o s s' :
  good (look s) → objs s !! p = Some o → sound None (look s') → unlinked s' = delete p (unlinked s) →
  good (look s') ∧ spared (idx o) (look s) (look s') ∧ absent (idx o) (look s').
Proof.
  intros [Hs Hb] Hp Hs' Hun.
  assert (Hold : ∀ a oa, objs s' !! a = Some oa → a ≠ p ∧ ∃ ob, objs s !! a = Some ob ∧ set_next None oa = set_next None ob).
  { intros a oa Ha. assert (E : unlinked s' !! a = Some (set_next None oa)) by (unfold unlinked; by rewrite lookup_fmap, Ha).
    rewrite Hun in E. apply lookup_delete_Some in E as [Hne E]. split; [done|]. unfold unlinked in E. rewrite lookup_fmap in E.
    apply fmap_Some in E as (ob & Hob & E). by exists ob. }
  split; [split; [done|]|split].
  - intros a oa (oa' & Ha & <-)%look_inv. destruct (Hold _ _ Ha) as (_ & ob & Hob & E).
    assert (Ec : cfg oa' = cfg ob) by (by injection E). change (cfg (core oa')) with (cfg oa'). rewrite Ec.
    apply (Hb a (core ob)). by apply look_obj.
  - intros a oa (oa' & Ha & <-)%look_inv Hi. assert (Hne : a ≠ p) by (intros ->; by simplify_eq).
    assert (E : unlinked s' !! a = Some (set_next None oa')).
    { rewrite Hun, lookup_delete_ne by done. unfold unlinked. by rewrite lookup_fmap, Ha. }
    unfold unlinked in E. rewrite lookup_fmap in E. apply fmap_Some in E as (ob & Hob & E). exists (core ob). split; [by apply look_obj|].
    unfold rest, is_set. injection E. cbn. by intros _ _ _ -> -> -> -> ->.
  - intros a oa (oa' & Ha & <-)%look_inv Hi. destruct (Hold _ _ Ha) as (Hne & ob & Hob & E). apply Hne.
    apply (named_inj s a p ob o (proj1 (proj2 Hs)) Hob Hp). change (idx (core oa')) with (idx oa') in Hi. rewrite <- Hi. by injection E.
Qed.

Lemma becomes_good p o st v v' : binary v → v_objs v !! p = Some o → becomes p o st v v' → good v' ∧ spared (idx o) v v'.
Proof.
  intros Hb Hp (Hs & Ho & o' & Hp' & Hpl & Hc & Hst). split; [|by apply (others_spared p o)]. split; [done|].
  intros a oa Ha. destruct (decide (a = p)) as [->|Hne]; [simplify_eq; rewrite Hc; by apply (Hb p)|].
  destruct Ho as [_ Ho]. specialize (Ho a Hne). rewrite Ha in Ho. symmetry in Ho. apply fmap_Some in Ho as (ob & Hob & Hk).
  apply keep_inv in Hk as (_ & -> & _). by apply (Hb a).
Qed.
(** Deleting nodes of the configuration of a connection. *)
Definition pvc_path (buf : cstr) : cstr :=
  let pa := take 63 buf in match strstr pa (cs ".entry.") with Some (pre, _) => pre | None => pa end.
Lemma canon_prefix i : 0 ≤ i < 64 →
  is_prefix (canon i) WANINFO_COMMON_NODE = false ∧ is_prefix (pvc_path (canon i)) WANINFO_COMMON_NODE = false.
Proof.
  intros Hi. assert (Ha : forallb (λ i, negb (is_prefix (canon i) WANINFO_COMMON_NODE) && negb (is_prefix (pvc_path (canon i)) WANINFO_COMMON_NODE))
                            (seqZ 0 64) = true) by (by vm_compute).
  rewrite forallb_forall in Ha. assert (Hin : In i (seqZ 0 64)) by (apply list_elem_of_In, elem_of_seqZ; lia).
  apply Ha, andb_true_iff in Hin as [H1%negb_true_iff H2%negb_true_iff]. done.
Qed.
Lemma delete_look n s : is_prefix n WANINFO_COMMON_NODE = false → wp (tell (cfg_delete n) : WM unit) s (λ _ s', look s' = look s).
Proof. intros Hn. unfold wp, tell, modify, look, route. cbn. by rewrite !route_delete. Qed.
Lemma confirm_look i s : 0 ≤ i < 64 → wp (svc_wan_confirm_delete_node (canon i) : WM unit) s (λ _ s', look s' = look s).
Proof.
  intros [H1 H2]%canon_prefix. unfold svc_wan_confirm_delete_node. apply wp_bind, wp_ask.
  destruct (negb _); [by apply wp_ret|]. apply wp_bind. eapply wp_Ok; [reflexivity|]. destruct (_ <$> _); [by apply wp_ret|].
  apply wp_bind. eapply wp_mono; [by apply delete_look|]. intros _ s1 <-. fold (pvc_path (canon i)).
  apply wp_bind, wp_ask, wp_when; [|done]. intros _. by apply delete_look.
Qed.

Lemma delete_object_spec p o s :
  good (look s) → objs s !! p = Some o →
  wp (svc_wan_delete_object p) s (λ _ s', good (look s') ∧ spared (idx o) (look s) (look s') ∧ absent (idx o) (look s')).
Proof.
  intros [Hs Hb] Hp. pose proof (look_obj _ _ _ Hp) as Hv. unfold svc_wan_delete_object. apply wp_bind.
  eapply wp_mono; [by apply (stop_intf_spec p o)|]. intros r s1 Hbe. pose proof Hbe as (Hs1 & _ & o1 & Hv1 & (_ & _ & Ei & _) & _ & Hst).
  destruct (becomes_good _ _ _ _ _ Hb Hv Hbe) as [Hg1 Hsp1].
  apply (wp_at p (look s1)); [by eexists|done|soft|]. intros _ s2 E2. rewrite <- E2 in Hv1, Hg1, Hsp1.
  destruct (look_inv _ _ _ Hv1) as (o2 & Hp2 & <-).
  destruct (del_spec p o2 s2 (proj1 Hg1) Hp2 Hst) as (s3 & Hrun & Hs3 & _ & _ & Hun).
  apply wp_bind, (wp_Ok _ _ _ _ _ Hrun). destruct (deleted_good p o2 s2 s3 Hg1 Hp2 Hs3 Hun) as (Hg3 & Hsp3 & Hab).
  assert (Eo : idx o2 = idx o) by (by rewrite <- Ei). rewrite Eo in Hsp3, Hab.
  apply wp_bind, wp_gets, wp_call. intros s4 E4. apply wp_call. intros s5 E5. apply wp_ret.
  rewrite E5, E4. split; [done|]. split; [|done]. by transitivity (look s2).
Qed.

Lemma event_delete_spec i s :
  0 ≤ i < 64 → good (look s) →
  wp (svc_wan_handle_event_delete (canon i)) s (λ _ s', good (look s') ∧ spared i (look s) (look s') ∧ absent i (look s')).
Proof.
  intros Hi Hg. pose proof Hg as [(Hl & Hn & _) _]. unfold svc_wan_handle_event_delete.
  destruct (find_object_spec (canon i) s Hl) as (r & Hr & Hspec). apply wp_bind, (wp_Ok _ _ _ _ _ Hr). destruct r as [p|].
  - destruct Hspec as (o & Hp & Hpa). destruct (named_obj _ _ _ Hn Hp) as (Hio & Hco & _).
    assert (idx o = i) as <- by (apply canon_inj; [done|done|congruence]).
    apply wp_bind. eapply wp_mono; [by apply (delete_object_spec p o)|]. intros _ s1 (G1 & G2 & G3).
    apply wp_call. intros s2 E2. apply wp_ret. by rewrite E2.
  - apply wp_ret. split; [done|]. split; [done|]. intros a o (o' & Ha & <-)%look_inv E. apply (Hspec a o' Ha).
    destruct (named_obj _ _ _ Hn Ha) as (_ & -> & _). f_equal. exact E.
Qed.
(** ** The end of the service *)

Lemma becomes_dom p o st s s1 : objs s !! p = Some o → becomes p (core o) st (look s) (look s1) → size (objs s1) = size (objs s).
Proof.
  intros Hp (_ & [_ Ho] & o' & Hp' & _). rewrite <- !size_dom. f_equal. apply set_eq. intros a. rewrite !elem_of_dom, <- !look_some.
  destruct (decide (a = p)) as [->|Hne]; [rewrite Hp', (look_obj _ _ _ Hp); by split; eexists|].
  rewrite <- (fmap_is_Some keep (v_objs (look s1) !! a)), <- (fmap_is_Some keep (v_objs (look s) !! a)). by rewrite Ho.
Qed.

Lemma del_head p o s s' :
  sound None (look s) → svc_wan_entry_list s = Some p → objs s !! p = Some o → svc_wan_del_from_list p s = Ok (0, s') →
  svc_wan_entry_list s' = next o.
Proof.
  intros (Hl & Hn & _) Hh Hp Hrun. destruct (linked_rep _ Hl) as (l & Hr & _). pose proof Hr as [Hc _]. rewrite Hh in Hc.
  destruct l as [|[b ob] l]; [done|]. destruct Hc as ([= <-] & Hb & Hc). simplify_eq.
  destruct (del_from_list_run s [] p o l Hr (paths_nodup _ s Hr Hn)) as (s2 & Hrun' & l' & [Hc' _] & Epl & _). rewrite Hrun in Hrun'. simplify_eq.
  cbn [app] in Epl. assert (Ef : l'.*1 = l.*1) by (by rewrite <- plain_fst, Epl, plain_fst). clear -Hc Hc' Ef.
  destruct l as [|[c oc] l], l' as [|[c' oc'] l']; try done.
  - cbn in Hc, Hc'. congruence.
  - destruct Hc as (-> & _), Hc' as (-> & _). cbn in Ef. by injection Ef as ->.
Qed.

Lemma stop_all_run n s :
  good (look s) → (size (objs s) ≤ n)%nat →
  wp (stop_all n (svc_wan_entry_list s)) s (λ _ s', good (look s') ∧ objs s' = ∅).
Proof.
  revert s. induction n as [|n IH]; intros s [Hs Hb] Hn; pose proof Hs as [Hl _]; destruct (linked_rep _ Hl) as (l & [Hc _] & Hall);
    destruct (svc_wan_entry_list s) as [p|] eqn:Hh.
  - destruct l as [|[b o] l]; [done|]. destruct Hc as (_ & Hb' & _). apply Nat.le_0_r, map_size_empty_iff in Hn. by rewrite Hn in Hb'.
  - apply wp_ret. split; [done|]. by apply map_size_empty_iff, Nat.le_0_r.
  - destruct l as [|[b o] l]; [done|]. destruct Hc as ([= <-] & Hp & _). cbn [stop_all]. apply wp_bind, (wp_the _ o); [done|].
    apply wp_bind. eapply wp_mono; [by apply (stop_intf_spec p o)|]. intros r s1 Hbe.
    pose proof (becomes_dom _ _ _ _ _ Hp Hbe) as Hsize. destruct (becomes_good _ (core o) _ _ _ Hb (look_obj _ _ _ Hp) Hbe) as [Hg1 _].
    destruct Hbe as (Hs1 & [Hh1 _] & o1' & Hv1 & (Enx & _) & _ & Hst). destruct (look_inv _ _ _ Hv1) as (o1 & Hp1 & <-).
    destruct (del_spec p o1 s1 Hs1 Hp1 Hst) as (s2 & Hrun & Hs2 & _ & Hnone & Hun). apply wp_bind, (wp_Ok _ _ _ _ _ Hrun).
    assert (E : svc_wan_entry_list s2 = next o1) by (apply (del_head p o1 s1); [done|cbn in Hh1; by rewrite Hh1|done|done]).
    change (next (core o1)) with (next o1) in Enx. change (next (core o)) with (next o) in Enx. rewrite <- Enx, <- E. apply IH.
    + by destruct (deleted_good p o1 s1 s2 Hg1 Hp1 Hs2 Hun).
    + assert (Hz : size (objs s2) = pred (size (objs s1))); [|lia].
      rewrite <- (map_size_fmap (set_next None) (objs s2)), <- (map_size_fmap (set_next None) (objs s1)).
      change (size (unlinked s2) = pred (size (unlinked s1))). rewrite Hun, map_size_delete_Some; [done|]. apply unlinked_some. by eexists.
  - cbn [stop_all]. apply wp_ret. split; [done|]. apply map_empty. intros a. destruct (objs s !! a) as [o|] eqn:Ha; [|done].
    assert (Hin : a ∈ l.*1) by (apply Hall; by eexists). destruct l as [|[b ob] l]; [by apply not_elem_of_nil in Hin|].
    by destruct Hc.
Qed.

End wan.
End WanEvents.
