(* ===== verification/WanService.v ===== *)
(** * Theorems on the WAN service

    The default routes follow the connections along every sequence of events;
    what an update, a removal and the end of the service do; who is elected;
    and what goes wrong. *)

From stdpp Require Import gmap.
From S2P Require Import Prelude CString Text Utility WanObj WanRoute WanCfg WanDev WanMgr WanList WanProps WanRun WanLife WanEvents.
Open Scope Z_scope.

Module WanService.
Import Text Utility WanObj WanRoute WanCfg WanDev WanMgr WanList WanProps WanRun WanLife WanEvents.

Section wan.
Context {W : Type} `{WanLaws W}.
Abbreviation WM := (M (wan W)).

(** ** Runs of the service *)

(** The events the theorems are about, and their conditions.
    - A change or a removal in the configuration has the path of one of the 64
      connections.
    - At a change, the TR-069 client has not marked a commit or the connection
      is not its own ([quiet]).  The other case is
      [commit_over_itself_swaps_configuration].
    - An address is reported for an interface that is started, or for none, and
      only for a protocol whose loss the stop of the interface reports
      ([serves4], [serves6]): the interface is no bridge and has the protocol;
      a PPP interface has no static addresses of it, nor IPv4 beside DS-Lite.
      The case of static IPv6 is [ppp_static_ipv6_outlives_the_interface].
    - A loss may be reported at any time. *)
Definition allowed (e : wan_event) (s : wan W) : Prop :=
  match e with
  | EVT_CFG_DELETE pa => ∃ i, 0 ≤ i < 64 ∧ pa = canon i
  | EVT_CFG_UPDATE pa => ∃ i, 0 ≤ i < 64 ∧ pa = canon i ∧ quiet i s
  | EVT_CONN_GETV4 d => may_report serves4 None d s
  | EVT_CONN_GETV6 d => may_report serves6 None d s
  | EVT_CONN_LOSTV4 _ | EVT_CONN_LOSTV6 _ => True
  end.

Lemma conns_good v v' : good v → sound None v' → conns v v' → good v'.
Proof.
  intros [_ Hb] Hs [_ Hk]. split; [done|]. intros a o' Ha. assert (E : (keep <$> v_objs v') !! a = Some (keep o')) by (by rewrite lookup_fmap, Ha).
  rewrite Hk, lookup_fmap in E. apply fmap_Some in E as (o & Ho & (_ & -> & _)%keep_inv). by apply (Hb a).
Qed.

Lemma handle_good e s : good (look s) → allowed e s → wp (svc_wan_mgr_handle_event e) s (λ _ s', good (look s')).
Proof.
  intros Hg Ha. destruct e as [pa|pa|d|d|d|d]; cbn [svc_wan_mgr_handle_event allowed] in *.
  - destruct Ha as (i & Hi & ->). apply wp_call. intros s1 E1. rewrite <- E1 in Hg. apply wp_bind.
    eapply wp_mono; [by apply (event_delete_spec i)|]. intros r s2 (Hg2 & _). apply wp_bind.
    eapply wp_mono; [by apply (confirm_look i)|]. intros r' s3 E3. apply wp_ret. by rewrite E3.
  - destruct Ha as (i & Hi & -> & Hq). apply wp_bind. unfold wp, do_call, tell, modify.
    assert (E1 : look (with_world (run (svc_wan_mgr_send_evt EVT_WAN_ENTRY_UPDATE (canon i)) (world s)) s) = look s) by (apply (call_look _ s)).
    eapply (wp_mono (svc_wan_handle_event_update (canon i))); [apply (event_update_spec i); [done|by rewrite E1|]|].
    + intros p o Hp Ho. rewrite <- (Hq p o Hp Ho). f_equal. unfold commit. cbn. by rewrite commit_run.
    + by intros r s2 (Hg2 & _).
  - eapply wp_mono; [by apply (getv4_spec None), Ha; apply Hg|]. intros r s' [Hs Hc]. by apply (conns_good (look s)).
  - eapply wp_mono; [by apply (getv6_spec None), Ha; apply Hg|]. intros r s' [Hs Hc]. by apply (conns_good (look s)).
  - eapply wp_mono; [by apply (lostv4_spec None); apply Hg|]. intros r s' [[Hs Hc] _]. by apply (conns_good (look s)).
  - eapply wp_mono; [by apply (lostv6_spec None); apply Hg|]. intros r s' [[Hs Hc] _]. by apply (conns_good (look s)).
Qed.

(** An event, or a change of the world around the service. *)
Inductive wan_step : wan W → wan W → Prop :=
| step_event e r s s' : allowed e s → svc_wan_mgr_handle_event e s = Ok (r, s') → wan_step s s'
| step_world w s : route DefRouteIndexv4 w = route DefRouteIndexv4 (world s) → route DefRouteIndexv6 w = route DefRouteIndexv6 (world s) →
    wan_step s (with_world w s).

(** A sequence of events, each allowed. *)
Definition ok_event (e : wan_event) (s : wan W) : bool :=
  let path_ok pa := existsb (λ i, streq pa (canon i)) (seqZ 0 64) in
  let report_ok serves d :=
    forallb (λ po, negb (idx po.2 =? get_wanindex_by_name d) || (started po.2 && serves (cfg po.2))) (map_to_list (objs s)) in
  match e with
  | EVT_CFG_DELETE pa => path_ok pa
  | EVT_CFG_UPDATE pa => path_ok pa && negb (commit (world s))
  | EVT_CONN_GETV4 d => report_ok serves4 d
  | EVT_CONN_GETV6 d => report_ok serves6 d
  | EVT_CONN_LOSTV4 _ | EVT_CONN_LOSTV6 _ => true
  end.
Fixpoint handle_all (es : list wan_event) (s : wan W) : option (wan W) :=
  match es with
  | [] => Some s
  | e :: es' =>
      if ok_event e s then match svc_wan_mgr_handle_event e s with Ok (_, s') => handle_all es' s' | _ => None end
      else None
  end.

Lemma path_ok_canon pa : existsb (λ i, streq pa (canon i)) (seqZ 0 64) = true → ∃ i, 0 ≤ i < 64 ∧ pa = canon i.
Proof. intros (i & Hin & E%streq_eq)%existsb_exists. exists i. split; [|done]. apply list_elem_of_In, elem_of_seqZ in Hin. lia. Qed.
Lemma ok_event_allowed e s : ok_event e s = true → allowed e s.
Proof.
  assert (Hr : ∀ serves d, forallb (λ po, negb (idx po.2 =? get_wanindex_by_name d) || (started po.2 && serves (cfg po.2))) (map_to_list (objs s)) = true →
    may_report serves None d s).
  { intros serves d Hf p o Hp Hi. rewrite forallb_forall in Hf. specialize (Hf (p, o)). cbn [snd] in Hf.
    rewrite Hi, Z.eqb_refl in Hf. cbn [negb orb] in Hf. apply andb_true_iff in Hf as [? ?]; [by split; [left|]|].
    by apply list_elem_of_In, elem_of_map_to_list. }
  destruct e as [pa|pa|d|d|d|d]; cbn [ok_event allowed]; cbv zeta; [apply path_ok_canon| |by apply Hr|by apply Hr|done|done].
  intros [(i & Hi & ->)%path_ok_canon Hc%negb_true_iff]%andb_true_iff. exists i. split; [done|]. split; [done|].
  intros p o _ _. rewrite Hc. apply andb_false_r.
Qed.
Lemma handle_all_steps es s s' : handle_all es s = Some s' → rtc wan_step s s'.
Proof.
  revert s. induction es as [|e es IH]; intros s; cbn [handle_all]; [by intros [= ->]|].
  destruct (ok_event e s) eqn:Ha; [|done]. destruct (svc_wan_mgr_handle_event e s) as [[r s1]| |] eqn:E; [|done|done].
  intros Hrun. apply (rtc_l _ _ s1); [|by apply IH]. apply (step_event e r); [by apply ok_event_allowed|done].
Qed.

(** The start: no connection, no default route. *)
Definition boot (w : W) : wan W := {| objs := ∅; svc_wan_entry_list := None; is_avalanche_on := 0; world := w |}.
Definition no_route (w : W) : Prop := route DefRouteIndexv4 w = NA ∧ route DefRouteIndexv6 w = NA.

Lemma boot_good w : no_route w → good (look (boot w)).
Proof.
  intros [H4 H6]. split.
  - split; [exists []; split; [done|]; split; [apply NoDup_nil_2|]; intros a [o Ha]; cbn in Ha; by rewrite lookup_fmap, lookup_empty in Ha|].
    assert (He : ∀ a o, v_objs (look (boot w)) !! a ≠ Some o) by (intros a o; cbn; by rewrite lookup_fmap, lookup_empty).
    split; [split; [by intros a o ?%He|by intros a b oa ob ?%He]|]. split; [by intros a o ?%He|]. split; by left.
  - intros a o Ha. cbn in Ha. by rewrite lookup_fmap, lookup_empty in Ha.
Qed.
Lemma step_good s s' : good (look s) → wan_step s s' → good (look s').
Proof.
  intros Hg Hst. revert Hg. destruct Hst as [e r s1 s2 Ha Hrun|w s1 E4 E6]; intros Hg.
  - pose proof (handle_good e s1 Hg Ha) as Hwp. unfold wp in Hwp. by rewrite Hrun in Hwp.
  - unfold look in *. cbn in *. by rewrite E4, E6.
Qed.
Lemma steps_good s s' : good (look s) → rtc wan_step s s' → good (look s').
Proof. intros Hg Hr. induction Hr as [|s1 s2 s3 Hs _ IH]; [done|]. apply IH. by apply (step_good s1). Qed.

(** A route designates nothing, or a connection of the list. *)
Definition designates (fit : wan_entry_obj → bool) (r : cstr) (l : list (positive * wan_entry_obj)) : Prop :=
  r = NA ∨ ∃ p o, (p, o) ∈ l ∧ r = fmt_d (idx o) ∧ fit o = true.

Lemma held_designates fit r (s : wan W) l :
  (∀ o, fit (core o) = fit o) → wan_rep s l → (∀ a, is_Some (objs s !! a) → a ∈ l.*1) → held fit (v_objs (look s)) r → designates fit r l.
Proof.
  intros Hf Hr Hall [->|(a & o & (o' & Ha & <-)%look_inv & -> & Hfit)]; [by left|]. right. exists a, o'.
  split; [apply (rep_elem s); [done|apply Hall; by eexists|done]|]. by rewrite Hf in Hfit.
Qed.

(** C3: From a start without default route, whatever sequence of events is
    handled, and however the world changes in between, if each event meets the
    conditions of [allowed]: no change over a commit that the TR-069 client
    has marked for its own connection, and addresses reported only for started
    interfaces and for protocols whose loss their stop reports (so no IPv6
    address for PPP with static IPv6).  Then the pointers make a list of the
    connections, without repetition; each default route is N/A or the index of
    a listed Internet connection that is up for the protocol (by DS-Lite, IPv4
    over IPv6); what is started has a valid configuration; and the next such
    event returns. *)
Theorem default_routes_follow (w : W) (s : wan W) :
  no_route w → rtc wan_step (boot w) s →
  (∃ l, wan_rep s l ∧ (∀ a, is_Some (objs s !! a) ↔ a ∈ l.*1) ∧ NoDup ((λ ao, idx ao.2) <$> l) ∧
     designates carries4 (route DefRouteIndexv4 (world s)) l ∧ designates carries6 (route DefRouteIndexv6 (world s)) l ∧
     Forall (λ ao, started ao.2 = true → svc_wan_check_cfg (cfg ao.2) = 1) l) ∧
  ∀ e, allowed e s → ∃ r s', svc_wan_mgr_handle_event e s = Ok (r, s').
Proof.
  intros Hw Hrun. pose proof (steps_good _ _ (boot_good w Hw) Hrun) as Hg. split.
  - destruct Hg as [(Hl & Hn & Hf & H4 & H6) _]. destruct (linked_rep _ Hl) as (l & Hr & Hall). pose proof Hr as [Hc Hnd].
    assert (Hobj : ∀ ao, ao ∈ l → objs s !! ao.1 = Some ao.2) by (intros [a o]; apply (rep_in _ _ _ _ Hr)).
    exists l. split; [done|]. split; [|split; [|split; [|split]]].
    + intros a. split; [apply Hall|]. intros (ao & -> & Hin)%list_elem_of_fmap. eexists. by apply Hobj.
    + apply NoDup_fmap_2_strong; [|by apply NoDup_fmap_1 in Hnd]. intros [a oa] [b ob] Ha%Hobj Hb%Hobj E. cbn in *.
      assert (a = b) as -> by (by apply (named_inj _ _ _ _ _ Hn Ha Hb)). by simplify_eq.
    + by apply (held_designates carries4 _ s).
    + by apply (held_designates carries6 _ s).
    + apply Forall_forall. intros ao Hin%Hobj. by apply (Hf _ _ (look_obj _ _ _ Hin)).
  - intros e Ha. destruct (wp_run _ _ _ (handle_good e s Hg Ha)) as (r & s' & Hok & _). by exists r, s'.
Qed.
(** ** Updates, removals, the end *)

Lemma update_event_spec (i : Z) (s : wan W) :
  0 ≤ i < 64 → good (look s) → quiet i s →
  let w1 := run (svc_wan_mgr_send_evt EVT_WAN_ENTRY_UPDATE (canon i)) (world s) in
  wp (svc_wan_mgr_handle_event (EVT_CFG_UPDATE (canon i))) s (λ r s', good (look s') ∧ spared i (look s) (look s') ∧
    (cfg_exists (canon i) w1 = true → malloc_ok w1 = true → r = 0 ∧ configured i (load_cfg (canon i) w1) (look s'))).
Proof.
  intros Hi Hg Hq w1. assert (E1 : look (with_world w1 s) = look s) by (apply (call_look _ s)).
  apply wp_bind. unfold wp, do_call, tell, modify. fold w1. rewrite <- E1 in Hg.
  eapply (wp_mono (svc_wan_handle_event_update (canon i))); [apply (event_update_spec i); [done|done|]|].
  - intros p o Hp Ho. rewrite <- (Hq p o Hp Ho). f_equal. unfold commit, w1. cbn. by rewrite commit_run.
  - rewrite E1. by intros r s2 Hpost.
Qed.

(** C4: From a state the service can reach by events that meet the conditions
    of [allowed], the event of a changed configuration brings the connection to
    its configuration, unless the TR-069 client has marked a commit and the
    connection is its own ([quiet]): it returns, and when the node exists and
    [malloc] gives an object, afterwards the connection has an object, started
    if and only if the configuration that was read is valid, and then with that
    configuration.  The other connections keep their configuration, their names
    and whether they are started. *)
Theorem update_applies_configuration (w : W) (s : wan W) (i : Z) :
  no_route w → rtc wan_step (boot w) s → 0 ≤ i < 64 → quiet i s →
  let w1 := run (svc_wan_mgr_send_evt EVT_WAN_ENTRY_UPDATE (canon i)) (world s) in
  ∃ r s', svc_wan_mgr_handle_event (EVT_CFG_UPDATE (canon i)) s = Ok (r, s') ∧ spared i (look s) (look s') ∧
    (cfg_exists (canon i) w1 = true → malloc_ok w1 = true → r = 0 ∧ configured i (load_cfg (canon i) w1) (look s')).
Proof.
  intros Hw Hrun Hi Hq w1. pose proof (steps_good _ _ (boot_good w Hw) Hrun) as Hg.
  destruct (wp_run _ _ _ (update_event_spec i s Hi Hg Hq)) as (r & s' & Hok & _ & Hpost). by exists r, s'.
Qed.

Lemma absent_route fit i v r : absent i v → 0 ≤ i < 64 → named v → held fit (v_objs v) r → r ≠ fmt_d i.
Proof.
  intros Hab Hi [Hn _] [->|(a & o & Ha & -> & _)] E; [by apply (index_NA i)|].
  apply (Hab a o Ha). apply index_inj; [by apply (Hn a o Ha)|done|done].
Qed.

(** C6: From a state the service can reach by events that meet the conditions
    of [allowed] (addresses reported only for started interfaces and for
    protocols whose loss their stop reports, so no IPv6 address for PPP with
    static IPv6), the event of a removed configuration leaves no object of the
    connection and no default route that designates it; the other connections
    are spared. *)
Theorem removal_forgets_connection (w : W) (s : wan W) (i : Z) :
  no_route w → rtc wan_step (boot w) s → 0 ≤ i < 64 →
  ∃ r s', svc_wan_mgr_handle_event (EVT_CFG_DELETE (canon i)) s = Ok (r, s') ∧ spared i (look s) (look s') ∧
    (∀ a o, objs s' !! a = Some o → idx o ≠ i ∧ path o ≠ canon i) ∧
    route DefRouteIndexv4 (world s') ≠ fmt_d i ∧ route DefRouteIndexv6 (world s') ≠ fmt_d i.
Proof.
  intros Hw Hrun Hi. pose proof (steps_good _ _ (boot_good w Hw) Hrun) as Hg.
  assert (Hwp : wp (svc_wan_mgr_handle_event (EVT_CFG_DELETE (canon i))) s
    (λ _ s', good (look s') ∧ spared i (look s) (look s') ∧ absent i (look s'))).
  { apply wp_call. intros s1 E1. rewrite <- E1 in Hg |- *. apply wp_bind.
    eapply wp_mono; [by apply (event_delete_spec i)|]. intros r s2 Hpost. apply wp_bind.
    eapply wp_mono; [by apply (confirm_look i)|]. intros r' s3 E3. apply wp_ret. by rewrite E3. }
  apply wp_run in Hwp as (r & s' & Hok & [(_ & Hn & _ & H4 & H6) _] & Hsp & Hab). exists r, s'. split; [done|]. split; [done|].
  split; [|split; [by apply (absent_route _ i _ _ Hab Hi Hn H4)|by apply (absent_route _ i _ _ Hab Hi Hn H6)]].
  intros a o Ha. assert (Hne : idx o ≠ i) by apply (Hab a (core o) (look_obj _ _ _ Ha)). split; [done|].
  destruct (named_obj _ _ _ Hn Ha) as (Hio & -> & _). intros E. apply Hne. by apply canon_inj.
Qed.

(** C7: From a state the service can reach by events that meet the conditions
    of [allowed] (addresses reported only for started interfaces and for
    protocols whose loss their stop reports, so no IPv6 address for PPP with
    static IPv6), [svc_wan_stop_all_wan_entry] returns: the walk over the list
    it takes apart comes to the end.  All objects are freed, and there is no
    default route left. *)
Theorem service_stop_frees_all (w : W) (s : wan W) :
  no_route w → rtc wan_step (boot w) s →
  ∃ s', svc_wan_stop_all_wan_entry s = Ok (0, s') ∧ objs s' = ∅ ∧ svc_wan_entry_list s' = None ∧ no_route (world s').
Proof.
  intros Hw Hrun. pose proof (steps_good _ _ (boot_good w Hw) Hrun) as Hg.
  destruct (wp_run _ _ _ (stop_all_run (size (objs s)) s Hg (le_n _))) as ([] & s' & Hok & [(_ & _ & _ & H4 & H6) _] & He).
  assert (Hnone : ∀ fit r, held fit (v_objs (look s')) r → r = NA).
  { intros fit r [?|(a & o & (o' & Ha & _)%look_inv & _)]; [done|]. by rewrite He, lookup_empty in Ha. }
  exists (with_head None s'). split; [unfold svc_wan_stop_all_wan_entry|].
  - rewrite (M_bind_Ok _ _ _ (size (objs s)) s) by done. rewrite (M_bind_Ok _ _ _ (svc_wan_entry_list s) s) by done. by step_by Hok.
  - split; [done|]. split; [done|]. split; [exact (Hnone _ _ H4)|exact (Hnone _ _ H6)].
Qed.

(** ** The list *)

(** C10: The list of [wan_link_list.c] refines a list of objects: finding by
    path is the first object of that path; a created object is a zeroed one at
    the end; deleting an object, the paths being distinct, takes exactly it out
    and frees it.  The successors aside, the other objects are not touched. *)
Theorem list_functions_refine (s : wan W) (l : list (positive * wan_entry_obj)) :
  wan_rep s l → NoDup ((λ ao, path ao.2) <$> l) →
  (∀ pa, svc_wan_find_object pa s = Ok (find_path pa l, s)) ∧
  (malloc_ok (world s) = true →
   ∃ p s' l', svc_wan_create_object s = Ok (Some p, s') ∧ wan_rep s' l' ∧ plain l' = plain (l ++ [(p, zero_obj)]) ∧ objs s !! p = None) ∧
  (∀ l1 p o l2, l = l1 ++ (p, o) :: l2 →
   ∃ s' l', svc_wan_del_from_list p s = Ok (0, s') ∧ wan_rep s' l' ∧ plain l' = plain (l1 ++ l2) ∧ objs s' !! p = None).
Proof.
  intros Hr Hnd. split; [|split].
  - intros pa. by apply find_object_run.
  - intros Hm. destruct (create_list_run s l Hr Hm) as (p & s' & l' & Hrun & Hr' & Hpl & Hp & _). by exists p, s', l'.
  - intros l1 p o l2 ->. destruct (del_from_list_run s l1 p o l2 Hr Hnd) as (s' & Hrun & l' & Hr' & Hpl & _ & _ & Hp & _).
    by exists s', l'.
Qed.

(** ** Election *)

(** The command that takes the old default route away. *)
Definition without_route (r : cstr) (evt : Z) (s : wan W) : W :=
  if streq r NA then world s
  else run (system (cs (if evt =? EVT_WAN_CONN_LOSTV4 then "/usr/bin/ip route delete default" else "/usr/bin/ip -6 route delete default")))
         (world s).
(** A connection for the Internet that is up and has a gateway; one with
    DS-Lite carries IPv4 over IPv6. *)
Definition usable (evt : Z) (w : W) (o : wan_entry_obj) : bool :=
  let gw attr size := match take (size - 1) <$> cfg_get (waninfo o) attr w with Some (_ :: _) => true | _ => false end in
  let six := is_set SVC_WAN_FLAG_UPV6 o && gw (cs "GateWay6") MAX_WAN_IPV6_ADDR_LEN in
  SVC_WAN_SRV_E8C_INTERNET (cfg o) &&
  if (evt =? EVT_WAN_CONN_LOSTV6) || (SVC_WAN_DSLITE_ENABLE (cfg o) && SVC_WAN_SRV_INTERNET (cfg o)) then six
  else is_set SVC_WAN_FLAG_UPV4 o && gw (cs "GateWay") MAX_WAN_IPV4_ADDR_LEN.

(** Commands always return. *)
Definition returns (m : WM unit) : Prop := ∀ s, ∃ s', m s = Ok (tt, s').
Lemma returns_execute c : returns (execute c).
Proof.
  intros s. unfold execute, svc_wan_execute_cmd. destruct (_ =? _); [by exists s|]. by exists (with_world (run (system c) (world s)) s).
Qed.
Lemma returns_call c : returns (do_call c).
Proof. intros s. by eexists. Qed.
Lemma returns_add4 g d : returns (svc_wan_add_default_ipv4_route g d).
Proof. unfold svc_wan_add_default_ipv4_route. destruct (_ || _); [intros s; by exists s|apply returns_execute]. Qed.
Lemma returns_add6 g d : returns (svc_wan_add_default_ipv6_route g d).
Proof. unfold svc_wan_add_default_ipv6_route. destruct (_ || _); [intros s; by exists s|apply returns_execute]. Qed.

Lemma switch_body_elects evt o s :
  evt = EVT_WAN_CONN_LOSTV4 ∨ evt = EVT_WAN_CONN_LOSTV6 →
  if usable evt (world s) o then ∃ s', switch_body evt o s = Ok (Some (fmt_d (idx o)), s') else switch_body evt o s = Ok (None, s).
Proof.
  intros Hevt. unfold switch_body, usable. destruct (SVC_WAN_SRV_E8C_INTERNET (cfg o)); cbn [negb andb]; [|done].
  set (gw := λ a n, match take (n - 1) <$> cfg_get (waninfo o) a (world s) with Some (c :: g') => Some (c :: g') | _ => None end).
  assert (Hgw : ∀ a n, gateway o a n s = Ok (gw a n, s)) by (intros; reflexivity).
  assert (Hrun : ∀ (m : WM unit), returns m → ∃ s', (m;; mret (Some (fmt_d (idx o)))) s = Ok (Some (fmt_d (idx o)), s')).
  { intros m Hm. destruct (Hm s) as [s' E]. exists s'. by step_by E. }
  assert (Hcase : ∀ a n (k : cstr → WM unit), (∀ g, returns (k g)) →
    if match take (n - 1) <$> cfg_get (waninfo o) a (world s) with Some (_ :: _) => true | _ => false end
    then ∃ s', (g ← gateway o a n; match g with None => mret None | Some g => k g;; mret (Some (fmt_d (idx o))) end) s = Ok (Some (fmt_d (idx o)), s')
    else (g ← gateway o a n; match g with None => mret None | Some g => k g;; mret (Some (fmt_d (idx o))) end) s = Ok (None, s)).
  { intros a n k Hk. rewrite (M_bind_Ok _ _ _ _ _ (Hgw a n)). unfold gw. destruct (take (n - 1) <$> _) as [[|c g]|]; [done| |done]. by apply Hrun. }
  destruct Hevt as [-> | ->]; cbn [Z.eqb EVT_WAN_CONN_LOSTV4 EVT_WAN_CONN_LOSTV6 Pos.eqb orb].
  - destruct (SVC_WAN_DSLITE_ENABLE (cfg o) && SVC_WAN_SRV_INTERNET (cfg o)).
    + destruct (is_set SVC_WAN_FLAG_UPV6 o); cbn [negb andb]; [|done]. apply (Hcase _ _ (λ _, _)). intros g. apply returns_execute.
    + destruct (is_set SVC_WAN_FLAG_UPV4 o); cbn [negb andb]; [|done].
      rewrite (M_bind_Ok _ _ _ _ _ (Hgw _ _)). unfold gw. destruct (take _ <$> _) as [[|c g]|]; [done| |done].
      destruct (returns_call (dealwith_link_local_route (svc_wan_intf_name o) (idx o) E_DEFAULT_ROUTE_SWITCH) s) as [s1 E1].
      destruct (returns_add4 (c :: g) (svc_wan_intf_name o) s1) as [s2 E2]. exists s2. step_by E1. by step_by E2.
  - destruct (is_set SVC_WAN_FLAG_UPV6 o); cbn [negb andb]; [|done]. apply (Hcase _ _ (λ g, _)). intros g. apply returns_add6.
Qed.

Lemma for_objs_elects evt l n p s :
  evt = EVT_WAN_CONN_LOSTV4 ∨ evt = EVT_WAN_CONN_LOSTV6 → chain (objs s) p l → (length l ≤ n)%nat →
  ∃ s', for_objs n p (λ _ o, switch_body evt o) s
        = Ok ((λ ao, fmt_d (idx ao.2)) <$> List.find (λ ao, usable evt (world s) ao.2) l, s').
Proof.
  intros Hevt. revert p n. induction l as [|[a o] l IH]; intros p n Hc Hn.
  - cbn in Hc. subst p. destruct n; by eexists.
  - destruct Hc as (-> & Ha & Hc). destruct n as [|n]; cbn in Hn; [lia|]. cbn [for_objs List.find]. cbn [snd].
    rewrite (M_bind_Ok _ _ _ _ _ (the_run _ _ _ Ha)). pose proof (switch_body_elects evt o s Hevt) as Hb.
    destruct (usable evt (world s) o).
    + destruct Hb as [s' Hb]. exists s'. by rewrite (M_bind_Ok _ _ _ _ _ Hb).
    + rewrite (M_bind_Ok _ _ _ _ _ Hb). rewrite (M_bind_Ok _ _ _ _ _ (the_run _ _ _ Ha)). apply IH; [done|lia].
Qed.

(** C9: Who becomes the default route when the old one is lost: the old route
    is deleted, and the first usable connection in the order of the list is
    elected, none when there is none. *)
Theorem default_route_switch_elects_first (r : cstr) (evt : Z) (s : wan W) (l : list (positive * wan_entry_obj)) :
  evt = EVT_WAN_CONN_LOSTV4 ∨ evt = EVT_WAN_CONN_LOSTV6 → wan_rep s l →
  ∃ s', default_route_switch r evt s
        = Ok (default NA ((λ ao, fmt_d (idx ao.2)) <$> List.find (λ ao, usable evt (without_route r evt s) ao.2) l), s').
Proof.
  intros Hevt Hr. set (s1 := with_world (without_route r evt s) s).
  assert (H1 : when (negb (streq r NA))
    (if evt =? EVT_WAN_CONN_LOSTV4 then svc_wan_delete_default_ipv4_route
     else when (evt =? EVT_WAN_CONN_LOSTV6) svc_wan_delete_default_ipv6_route) s = Ok (tt, s1)).
  { unfold s1, without_route. destruct (streq r NA); cbn [negb when]; [by destruct s|]. destruct Hevt as [-> | ->]; reflexivity. }
  destruct (for_objs_elects evt l (size (objs s1)) (svc_wan_entry_list s1) s1 Hevt) as [s2 H2]; [apply Hr|by apply (rep_length s)|].
  assert (H3 : each_obj (λ _ o, switch_body evt o) s1 = Ok ((λ ao, fmt_d (idx ao.2)) <$> List.find (λ ao, usable evt (world s1) ao.2) l, s2))
    by exact H2.
  exists s2. unfold default_route_switch. step_by H1. by step_by H3.
Qed.

(** ** What goes wrong *)

(** C39: When the TR-069 client has marked a commit and the connection is its
    own, an update stores the new configuration in the object of an interface
    that keeps running with the old one: the flags stay, nothing is stopped,
    no route is updated; a later stop goes by the new configuration. *)
Theorem commit_over_itself_swaps_configuration (s : wan W) (p : positive) (o : wan_entry_obj) :
  objs s !! p = Some o → SVC_WAN_SRV_TR069 (cfg o) = true → commit (world s) = true →
  active (cfg o) = SVC_WAN_ATTR_ACTIVE_ENABLE → active (load_cfg (path o) (world s)) = SVC_WAN_ATTR_ACTIVE_ENABLE →
  ∃ s' o', svc_wan_update_object p s = Ok (0, s') ∧ objs s' !! p = Some o' ∧ cfg o' = load_cfg (path o) (world s) ∧ flag o' = flag o ∧
    v4 (look s') = v4 (look s) ∧ v6 (look s') = v6 (look s).
Proof.
  intros Hp Htr Hc Ha Hl. pose proof (look_obj _ _ _ Hp) as Hv. pose proof (mk_is_Some _ _ Hv) as Hsome. set (c := load_cfg (path o) (world s)) in *.
  assert (Hwp : wp (svc_wan_update_object p) s (λ r s', r = 0 ∧ look s' = set_obj p (set_cfg c (core o)) (look s))).
  { unfold svc_wan_update_object. apply wp_bind, (wp_the _ o); [done|]. apply wp_bind, wp_ask. fold c.
    apply wp_bind. eapply wp_mono; [apply wp_and; [apply (soft_avalanche_mode p c s); by eexists|apply avalanche_commit]|].
    intros _ s1 [E1 Ec1]. cbv zeta. rewrite Ha, Hl, Htr. cbn [Z.eqb SVC_WAN_ATTR_ACTIVE_DISABLE SVC_WAN_ATTR_ACTIVE_ENABLE Pos.eqb andb orb negb].
    apply wp_bind. eapply wp_mono with (Q := λ b s', b = true ∧ look s' = look s).
    { rewrite <- Ec1 in Hc. unfold commit in Hc. unfold is_commit_from_tr069. apply wp_bind. eapply wp_Ok; [reflexivity|]. cbn beta.
      change (cs "root.webcustom.entry") with WEBCUSTOM_NODE. change (cs "tr69CommitWan") with tr69CommitWan.
      destruct (cfg_get WEBCUSTOM_NODE tr69CommitWan (world s1)) as [v|]; [|done]. cbn [fmap option_fmap option_map].
      change (8 - 1)%nat with 7%nat. apply negb_true_iff in Hc. rewrite Hc.
      apply (wp_at p (look s)); [done|done|soft|]. intros _ s2 E2. by apply wp_ret. }
    intros b s2 [-> E2]. cbn [negb when]. apply wp_bind, wp_ret.
    apply (wp_flag_at _ _ (core o) (look s)); [done|done|done|]. intros s3 E3.
    assert (Hsome3 : is_Some (v_objs (set_obj p (set_cfg c (core o)) (look s)) !! p)) by (eexists; apply lookup_insert_eq).
    do 2 (apply (wp_at p _ _ _ _ _ Hsome3 E3); [soft|]; clear s3 E3; intros ? s3 E3). apply wp_bind, wp_ret, wp_ret. by split. }
  apply wp_run in Hwp as (r & s' & Hok & -> & E).
  assert (Hv' : v_objs (look s') !! p = Some (set_cfg c (core o))) by (rewrite E; apply lookup_insert_eq).
  destruct (look_inv _ _ _ Hv') as (o' & Hp' & Eo). exists s', o'. split; [done|]. split; [done|].
  split; [exact (f_equal cfg Eo)|]. split; [exact (f_equal flag Eo)|]. by rewrite E.
Qed.

(** C40: An IPv6 address of a PPP interface whose IPv6 mode is static is not
    taken back when the interface stops, since the loss of a static address is
    ignored: the object stays marked as up, and the default route stays its. *)
Theorem ppp_static_ipv6_outlives_the_interface (s : wan W) (p : positive) (o : wan_entry_obj) :
  linked (look s) → named (look s) → objs s !! p = Some o → started o = true → up6 o = true →
  SVC_WAN_IS_BRIDGE (cfg o) = false → SVC_WAN_IS_PPP (cfg o) = true → SVC_WAN_IS_IPV4 (cfg o) = false → SVC_WAN_IS_IPV6_STATIC (cfg o) = true →
  ∃ s' o', svc_wan_stop_intf p s = Ok (0, s') ∧ objs s' !! p = Some o' ∧ started o' = false ∧ up6 o' = true ∧
    route DefRouteIndexv6 (world s') = route DefRouteIndexv6 (world s).
Proof.
  intros Hl Hn Hp Hst Hu Hb Hppp Hv4 Hstat. pose proof (look_obj _ _ _ Hp) as Hv. pose proof (mk_is_Some _ _ Hv) as Hsome.
  assert (H6 : SVC_WAN_IS_IPV6 (cfg o) = true) by (unfold SVC_WAN_IS_IPV6_STATIC in Hstat; by apply andb_true_iff in Hstat as [_ ?]).
  assert (Hlost : ∀ s1, look s1 = look s → wp (ppp_lost (cfg o) (ppp_name (idx o))) s1 (λ _ s', look s' = look s)).
  { intros s1 E1. pose proof Hv as Hv1. rewrite <- E1 in Hv1. destruct (look_inv _ _ _ Hv1) as (o1 & Hp1 & Eo).
    apply core_eq in Eo as (_ & Eu & _ & Ec & _ & _ & Ei & _). unfold ppp_lost. rewrite Hv4, H6. cbn [andb]. apply wp_bind.
    unfold svc_wan_handle_event_conn_lostv6. apply wp_bind. eapply wp_Ok.
    { apply (find_by_own_dev p o1); [by rewrite E1|by rewrite E1|done|right; by rewrite Ei]. }
    apply wp_bind, (wp_the _ o1); [done|]. rewrite Eu, Ec, Hu, Hstat. cbn [negb]. by apply wp_ret, wp_ret. }
  assert (Hwp : wp (svc_wan_do_stop_intf p) s (λ _ s', look s' = look s)).
  { unfold svc_wan_do_stop_intf. apply wp_bind, (wp_the _ o); [done|]. cbv zeta. rewrite Hb, Hppp. apply wp_bind, wp_bind.
    eapply wp_mono with (Q := λ _ s', look s' = look s).
    - unfold svc_wan_stop_ppp. on_object p o s. apply wp_bind. eapply wp_mono; [by apply Hlost|]. intros r2 s2 E2. by apply wp_ret.
    - intros r1 s1 E1. apply wp_ret. cbn [negb]. apply (wp_at_end p (look s)); [done|done|soft|done]. }
  assert (Hstop : wp (svc_wan_stop_intf p) s (λ r s', r = 0 ∧ look s' = set_obj p (lower SVC_WAN_FLAG_STARTED (core o)) (look s))).
  { unfold svc_wan_stop_intf. apply wp_bind, (wp_the _ o); [done|]. rewrite Hst. cbn [negb]. apply wp_bind.
    eapply wp_mono; [exact Hwp|]. intros r s1 E1. apply (wp_flag_at _ _ (core o) (look s)); [done|done|done|]. intros s2 E2. by apply wp_ret. }
  apply wp_run in Hstop as (r & s' & Hok & -> & E).
  assert (Hv' : v_objs (look s') !! p = Some (lower SVC_WAN_FLAG_STARTED (core o))) by (rewrite E; apply lookup_insert_eq).
  destruct (look_inv _ _ _ Hv') as (o' & Hp' & Eo). destruct (lower_started (core o)) as (Es & _ & E6).
  exists s', o'. split; [done|]. split; [done|]. split; [|split].
  - change (started (core o') = false). by rewrite Eo.
  - change (up6 (core o') = true). by rewrite Eo, E6.
  - change (v6 (look s') = v6 (look s)). by rewrite E.
Qed.

(** More than eight instances of [pvc] are written behind the array of the
    start. *)
Lemma start_all_overflows (s : wan W) :
  SVC_WAN_MAX_PVC_NUM < zlen (cfg_children (cs "root.wan") (cs "pvc") (world s)) → svc_wan_start_all_wan_entry true s = Fault.
Proof.
  intros Hn%Z.ltb_lt. unfold svc_wan_start_all_wan_entry, query8, cfg_get_object_attr.
  unfold mbind, M_bind, ask, gets, mret, M_ret. cbn [negb andb]. rewrite andb_false_r. by rewrite Hn.
Qed.

(** An attribute that is not there is given the value of the one read
    before it, since [svc_wan_load_cfg] does not clear its buffer: without
    [PDEnable], prefix delegation is enabled if and only if [DHCPv6PD] asks for
    it. *)
Theorem absent_attribute_is_inherited (w : W) (pa : cstr) (ct : wan_entry_cfg * cstr) (v : cstr) :
  cfg_get pa (cs "DHCPv6PD") w = Some v → cfg_get pa (cs "PDEnable") w = None →
  pd (load_ipv6 w pa ct) = if case_eq (take 63 v) (cs "Yes") then ENABLE else 0.
Proof.
  intros Hv Hn. destruct ct as [c t]. unfold load_ipv6. cbn [pd]. unfold read at 1. rewrite Hn. cbn [snd]. unfold read at 1. by rewrite Hv.
Qed.

End wan.
End WanService.
