(* ===== verification/WanDemo.v ===== *)
(** * An example of the WAN service

    A world in which the assumptions of the theorems hold, two connections, and
    the theorems applied to them. *)

From stdpp Require Import gmap.
From S2P Require Import Prelude CString Text Utility WanObj WanRoute WanCfg WanDev WanMgr WanList WanProps WanRun WanLife WanEvents WanService.
Open Scope Z_scope.

Module WanDemo.
Import Text Utility WanObj WanRoute WanCfg WanDev WanMgr WanList WanProps WanRun WanLife WanEvents WanService.

(** The configuration as a function, the files of the daemons, the calls. *)
Record demo_world := { store : cstr → cstr → option cstr; disk : cstr → option cstr; log : list call }.
Definition demo_set n a v w :=
  {| store := λ n' a', if streq n n' && streq a a' then Some v else store w n' a'; disk := disk w; log := log w |}.
Definition demo_delete n w := {| store := λ n' a', if is_prefix n n' then None else store w n' a'; disk := disk w; log := log w |}.
Definition demo_run c w := {| store := store w; disk := disk w; log := c :: log w |}.
Definition demo_ids (pa : cstr) : list Z :=
  match strstr pa (cs ".entry.") with Some (_, e) => [1; 1; atoi (drop 13 pa); atoi (drop 7 e)] | None => [] end.

#[global] Instance demo_wan_world : WanWorld demo_world := {|
  cfg_get n a w := store w n a;
  cfg_set := demo_set;
  cfg_exists n w := match store w n (cs "Active") with Some _ => true | None => false end;
  cfg_children _ _ _ := [];
  cfg_create _ w := w;
  cfg_delete := demo_delete;
  path_ids pa _ := demo_ids pa;
  run := demo_run;
  file f w := disk w f;
  wan_mac _ _ := cs "00:00:00:00:00:01";
  get_port_binding_interface_info _ _ _ := 0;
  is_full_route_enable _ _ := false;
  malloc_ok _ := true;
  fopen_ok _ _ := true;
  uninitialised _ := [];
  MAX_SMUX_NUM := 8;
  MAX_WAN_ENTRY_NUMBER := 8;
  MAX_WAN_IF_INDEX := 63
|}.

Lemma demo_ids_canon i : 0 ≤ i < 64 → demo_ids (canon i) = [1; 1; i / 8 + 1; i mod 8 + 1].
Proof.
  intros Hi. assert (Ha : forallb (λ i, bool_decide (demo_ids (canon i) = [1; 1; i / 8 + 1; i mod 8 + 1])) (seqZ 0 64) = true)
    by (by vm_compute).
  rewrite forallb_forall in Ha. apply (bool_decide_eq_true_1 _), Ha, list_elem_of_In, elem_of_seqZ. lia.
Qed.

#[global] Instance demo_laws : WanLaws demo_world.
Proof.
  assert (Hr : ∀ x, streq x x = true) by (intros; by apply streq_eq).
  split; try done; intros; cbn [cfg_get cfg_set cfg_delete demo_wan_world demo_set demo_delete store].
  - by rewrite !Hr.
  - match goal with Hab : _ ≠ _ |- _ => apply streq_neq in Hab; by rewrite Hab, andb_false_r end.
  - match goal with Hn : is_prefix _ _ = false |- _ => by rewrite Hn end.
  - match goal with Ha : _ ≠ _ |- _ => apply streq_neq in Ha; by rewrite Ha, andb_false_r end.
  - exists 1, 1. by apply demo_ids_canon.
Qed.

(** Two connections for the Internet by DHCP. *)
Definition attr_list (l : list (string * string)) (a : cstr) : option cstr :=
  (λ nv, cs nv.2) <$> List.find (λ nv, streq a (cs nv.1)) l.
Definition dhcp : list (string * string) :=
  [("Active", "Yes"); ("WanMode", "Route"); ("LinkMode", "linkIP"); ("ISP", "0"); ("VLANMode", "UNTAG"); ("IPVERSION", "IPv4");
   ("ServiceList", "INTERNET")]%string.
Definition demo_store (n a : cstr) : option cstr := if streq n (canon 0) || streq n (canon 1) then attr_list dhcp a else None.
Definition demo_disk (f : cstr) : option cstr :=
  if streq f (cs "/var/run/nas0_0/gateway") then Some (cs "10.0.0.1" ++ [10])
  else if streq f (cs "/var/run/nas0_1/gateway") then Some (cs "10.0.1.1" ++ [10]) else None.
Definition demo : demo_world := {| store := demo_store; disk := demo_disk; log := [] |}.

(** Both are configured and get an address. *)
Definition demo_events : list wan_event :=
  [EVT_CFG_UPDATE (canon 0); EVT_CFG_UPDATE (canon 1); EVT_CONN_GETV4 (nas 0); EVT_CONN_GETV4 (nas 1)].
Definition after (es : list wan_event) : wan demo_world := default (boot demo) (handle_all es (boot demo)).
Lemma after_reached es :
  match handle_all es (boot demo) with Some _ => true | None => false end = true → rtc wan_step (boot demo) (after es).
Proof. unfold after. destruct (handle_all es (boot demo)) as [s|] eqn:E; [|done]. intros _. by apply (handle_all_steps es). Qed.

Lemma demo_no_route : no_route demo.
Proof. by split; vm_compute. Qed.
Lemma demo_up : rtc wan_step (boot demo) (after demo_events).
Proof. apply after_reached. by vm_compute. Qed.
(** The default connection loses its address: the other one is elected. *)
Lemma demo_lost : rtc wan_step (boot demo) (after (demo_events ++ [EVT_CONN_LOSTV4 (nas 0)])).
Proof. apply after_reached. by vm_compute. Qed.
Lemma demo_lost_route : route DefRouteIndexv4 (world (after (demo_events ++ [EVT_CONN_LOSTV4 (nas 0)]))) = fmt_d 1.
Proof. by vm_compute. Qed.

(** ** The theorems, applied *)

Lemma default_routes_follow_witness :
  let s := after (demo_events ++ [EVT_CONN_LOSTV4 (nas 0)]) in
  ∃ l, wan_rep s l ∧ designates carries4 (fmt_d 1) l.
Proof.
  intros s. destruct (default_routes_follow demo s demo_no_route demo_lost) as [(l & Hr & _ & _ & H4 & _) _].
  unfold s in H4. rewrite demo_lost_route in H4. exact (ex_intro _ l (conj Hr H4)).
Defined.

Lemma boot_quiet i : quiet i (boot demo).
Proof. intros p o Hp. cbn in Hp. by rewrite lookup_empty in Hp. Qed.
Lemma small_index i : (0 <=? i) && (i <? 64) = true → 0 ≤ i < 64.
Proof. lia. Qed.
Lemma update_applies_configuration_witness :
  ∃ r s', svc_wan_mgr_handle_event (EVT_CFG_UPDATE (canon 0)) (boot demo) = Ok (r, s') ∧
    configured 0 (load_cfg (canon 0) (run (svc_wan_mgr_send_evt EVT_WAN_ENTRY_UPDATE (canon 0)) demo)) (look s').
Proof.
  destruct (update_applies_configuration demo (boot demo) 0 demo_no_route (rtc_refl _ _) (small_index 0 eq_refl) (boot_quiet 0))
    as (r & s' & Hok & _ & Hc).
  exact (ex_intro _ r (ex_intro _ s' (conj Hok (proj2 (Hc eq_refl eq_refl))))).
Defined.

Lemma removal_forgets_connection_witness :
  ∃ r s', svc_wan_mgr_handle_event (EVT_CFG_DELETE (canon 0)) (after demo_events) = Ok (r, s') ∧
    route DefRouteIndexv4 (world s') ≠ fmt_d 0.
Proof.
  destruct (removal_forgets_connection demo (after demo_events) 0 demo_no_route demo_up (small_index 0 eq_refl))
    as (r & s' & Hok & _ & _ & Hr & _).
  exact (ex_intro _ r (ex_intro _ s' (conj Hok Hr))).
Defined.

Lemma service_stop_frees_all_witness :
  ∃ s', svc_wan_stop_all_wan_entry (after demo_events) = Ok (0, s') ∧ objs s' = ∅ ∧ no_route (world s').
Proof.
  destruct (service_stop_frees_all demo (after demo_events) demo_no_route demo_up) as (s' & Hok & He & _ & Hn).
  exact (ex_intro _ s' (conj Hok (conj He Hn))).
Defined.

(** A list of two connections for the Internet; the second is up. *)
Definition internet : wan_entry_cfg := load_cfg (canon 0) demo.
Definition first_obj : wan_entry_obj := set_cfg internet (set_name (canon 0) 0 (nas 0) (set_next (Some 2%positive) zero_obj)).
Definition second_obj : wan_entry_obj := set_flag 3 (set_cfg internet (set_name (canon 1) 1 (nas 1) zero_obj)).
Definition gateway_world : demo_world := demo_set (waninfo second_obj) (cs "GateWay") (cs "10.0.1.1") demo.
Definition pair_list : list (positive * wan_entry_obj) := [(1%positive, first_obj); (2%positive, second_obj)].
Definition pair_state : wan demo_world :=
  {| objs := list_to_map pair_list; svc_wan_entry_list := Some 1%positive; is_avalanche_on := 0; world := gateway_world |}.
Lemma pair_rep : wan_rep pair_state pair_list.
Proof. split; [by repeat split|]. apply (bool_decide_unpack _). by vm_compute. Qed.
Lemma pair_paths : NoDup ((λ ao, path ao.2) <$> pair_list).
Proof. apply (bool_decide_unpack _). by vm_compute. Qed.

Lemma list_functions_refine_witness :
  svc_wan_find_object (canon 1) pair_state = Ok (find_path (canon 1) pair_list, pair_state) ∧
  ∃ s' l', svc_wan_del_from_list 1 pair_state = Ok (0, s') ∧ wan_rep s' l' ∧ plain l' = plain [(2%positive, second_obj)].
Proof.
  destruct (list_functions_refine pair_state pair_list pair_rep pair_paths) as (Hf & _ & Hd).
  destruct (Hd [] 1%positive first_obj [(2%positive, second_obj)] eq_refl) as (s' & l' & Hrun & Hr & Hpl & _).
  exact (conj (Hf (canon 1)) (ex_intro _ s' (ex_intro _ l' (conj Hrun (conj Hr Hpl))))).
Defined.

Lemma pair_elected :
  default NA ((λ ao, fmt_d (idx ao.2)) <$>
    List.find (λ ao, usable EVT_WAN_CONN_LOSTV4 (without_route (fmt_d 0) EVT_WAN_CONN_LOSTV4 pair_state) ao.2) pair_list) = fmt_d 1.
Proof. by vm_compute. Qed.
Lemma default_route_switch_elects_first_witness :
  ∃ s', default_route_switch (fmt_d 0) EVT_WAN_CONN_LOSTV4 pair_state = Ok (fmt_d 1, s').
Proof.
  destruct (default_route_switch_elects_first (fmt_d 0) EVT_WAN_CONN_LOSTV4 pair_state pair_list (or_introl eq_refl) pair_rep) as [s' E].
  rewrite pair_elected in E. exact (ex_intro _ s' E).
Defined.

(** One connection. *)
Definition single (o : wan_entry_obj) (w : demo_world) : wan demo_world :=
  {| objs := {[1%positive := o]}; svc_wan_entry_list := Some 1%positive; is_avalanche_on := 0; world := w |}.
Lemma single_obj o w : objs (single o w) !! 1%positive = Some o.
Proof. apply lookup_singleton_eq. Qed.
Lemma single_linked o w : next o = None → linked (look (single o w)).
Proof.
  intros Hn. apply (rep_linked _ [(1%positive, o)]).
  - split; [split; [done|split; [apply single_obj|exact Hn]]|apply NoDup_singleton].
  - intros a [o' Ha]. cbn in Ha. apply lookup_singleton_Some in Ha as [<- _]. by left.
Qed.
Lemma single_named i f c w : 0 ≤ i < 64 → named (look (single (set_flag f (set_cfg c (set_name (canon i) i (nas i) zero_obj))) w)).
Proof.
  intros Hi. assert (Hone : ∀ a o, v_objs (look (single (set_flag f (set_cfg c (set_name (canon i) i (nas i) zero_obj))) w)) !! a = Some o →
    a = 1%positive ∧ o = core (set_flag f (set_cfg c (set_name (canon i) i (nas i) zero_obj)))).
  { intros a o (o' & Ha & <-)%look_inv. cbn in Ha. by apply lookup_singleton_Some in Ha as [<- <-]. }
  split; [by intros a o [-> ->]%Hone|]. by intros a b oa ob [-> _]%Hone [-> _]%Hone _.
Qed.

(** The connection of the TR-069 client, whose service list it has changed. *)
Definition tr069 : list (string * string) :=
  [("Active", "Yes"); ("WanMode", "Route"); ("LinkMode", "linkIP"); ("ISP", "0"); ("VLANMode", "UNTAG"); ("IPVERSION", "IPv4");
   ("ServiceList", "TR069")]%string.
Definition commit_world : demo_world :=
  {| store := λ n a, if streq n (canon 0) then attr_list dhcp a
                     else if streq n WEBCUSTOM_NODE && streq a tr69CommitWan then Some (cs "1") else None;
     disk := demo_disk; log := [] |}.
Definition tr069_obj : wan_entry_obj :=
  set_flag 3 (set_cfg (load_cfg (canon 0) {| store := λ _, attr_list tr069; disk := demo_disk; log := [] |})
                      (set_name (canon 0) 0 (nas 0) zero_obj)).
Lemma tr069_facts :
  SVC_WAN_SRV_TR069 (cfg tr069_obj) = true ∧ commit commit_world = true ∧ active (cfg tr069_obj) = 1 ∧
  active (load_cfg (path tr069_obj) commit_world) = 1.
Proof. repeat split; by vm_compute. Qed.
Lemma commit_over_itself_swaps_configuration_witness :
  ∃ s' o', svc_wan_update_object 1 (single tr069_obj commit_world) = Ok (0, s') ∧ objs s' !! 1%positive = Some o' ∧
    cfg o' = load_cfg (path tr069_obj) commit_world ∧ flag o' = flag tr069_obj.
Proof.
  destruct tr069_facts as (H1 & H2 & H3 & H4).
  destruct (commit_over_itself_swaps_configuration (single tr069_obj commit_world) 1 tr069_obj (single_obj _ _) H1 H2 H3 H4)
    as (s' & o' & Hok & Hp & Hc & Hf & _).
  exact (ex_intro _ s' (ex_intro _ o' (conj Hok (conj Hp (conj Hc Hf))))).
Defined.

Definition ppp_static : list (string * string) :=
  [("Active", "Yes"); ("WanMode", "Route"); ("LinkMode", "linkPPP"); ("ISP", "2"); ("VLANMode", "UNTAG"); ("IPVERSION", "IPv6");
   ("ServiceList", "INTERNET"); ("DsliteEnable", "No"); ("DHCPv6", "N/A")]%string.
Definition ppp_cfg : wan_entry_cfg := load_cfg (canon 0) {| store := λ _, attr_list ppp_static; disk := demo_disk; log := [] |}.
Definition ppp_obj : wan_entry_obj := set_flag 5 (set_cfg ppp_cfg (set_name (canon 0) 0 (nas 0) zero_obj)).
Lemma ppp_facts :
  started ppp_obj = true ∧ up6 ppp_obj = true ∧ SVC_WAN_IS_BRIDGE (cfg ppp_obj) = false ∧ SVC_WAN_IS_PPP (cfg ppp_obj) = true ∧
  SVC_WAN_IS_IPV4 (cfg ppp_obj) = false ∧ SVC_WAN_IS_IPV6_STATIC (cfg ppp_obj) = true ∧ svc_wan_check_cfg (cfg ppp_obj) = 1.
Proof. repeat split; by vm_compute. Qed.
Lemma ppp_static_ipv6_outlives_the_interface_witness :
  ∃ s' o', svc_wan_stop_intf 1 (single ppp_obj demo) = Ok (0, s') ∧ objs s' !! 1%positive = Some o' ∧ started o' = false ∧ up6 o' = true.
Proof.
  destruct ppp_facts as (H1 & H2 & H3 & H4 & H5 & H6 & _).
  destruct (ppp_static_ipv6_outlives_the_interface (single ppp_obj demo) 1 ppp_obj (single_linked ppp_obj demo eq_refl)
              (single_named 0 5 ppp_cfg demo (small_index 0 eq_refl)) (single_obj _ _) H1 H2 H3 H4 H5 H6) as (s' & o' & Hok & Hp & Hs & Hu & _).
  exact (ex_intro _ s' (ex_intro _ o' (conj Hok (conj Hp (conj Hs Hu))))).
Defined.

Definition pd_world : demo_world := {| store := λ _, attr_list [("DHCPv6PD", "Yes")]%string; disk := demo_disk; log := [] |}.
Lemma absent_attribute_is_inherited_witness : pd (load_ipv6 pd_world (canon 0) (zero_cfg, [])) = ENABLE.
Proof. exact (absent_attribute_is_inherited pd_world (canon 0) (zero_cfg, []) (cs "Yes") eq_refl eq_refl). Defined.

End WanDemo.
