(* ===== verification/WanPpp.v ===== *)
(** * What the shell makes of the command line of [pppd]

    [svc_wan_start_ppp] passes the user name, the password and the idle time of
    a connection to the shell, between double quotes and without the check of
    other commands. *)

From S2P Require Import Prelude CString Text Utility UtilProps WanObj WanProps WanDev.
Open Scope Z_scope.

Module WanPpp.
Import Text Utility UtilProps WanObj WanProps WanDev.

(** ** Double quotes

    What the shell reads after an opening double quote: the word up to the
    closing one, and the rest.  It stops at a substitution, which it would
    carry out: at a backquote, or at a dollar before a name, a digit, a special
    parameter, a brace or a parenthesis; before anything else a dollar stands
    for itself.  A backslash is taken away before the four characters that are
    special, and with a following end of line. *)
Definition expands (d : Z) : bool :=
  ((65 <=? d) && (d <=? 90)) || ((97 <=? d) && (d <=? 122)) || (d =? 95) || is_digit d
  || existsb (Z.eqb d) (cs "({@*#?-$!").
Inductive dq := Word (w rest : cstr) | Substitution | Unterminated.
Definition dq_cons (c : Z) (r : dq) : dq := match r with Word w rest => Word (c :: w) rest | r => r end.
Fixpoint double_quoted (s : cstr) : dq :=
  match s with
  | [] => Unterminated
  | c :: s' =>
      if c =? 34 then Word [] s'
      else if c =? 96 then Substitution
      else if c =? 36 then
        match s' with
        | [] => Unterminated
        | d :: _ => if expands d then Substitution else dq_cons c (double_quoted s')
        end
      else if c =? 92 then
        match s' with
        | [] => Unterminated
        | d :: s'' =>
            if NEED_C d then dq_cons d (double_quoted s'')
            else if d =? 10 then double_quoted s''
            else dq_cons c (dq_cons d (double_quoted s''))
        end
      else dq_cons c (double_quoted s')
  end.
Definition dq_app (v : cstr) (r : dq) : dq := match r with Word w rest => Word (v ++ w) rest | r => r end.
Abbreviation plain_text s := (Forall (λ c, NEED_C c = false) s).

Lemma double_quoted_esc v rest : double_quoted (esc NEED_C v ++ rest) = dq_app v (double_quoted rest).
Proof.
  induction v as [|c v IH]; [change (esc NEED_C [] ++ rest) with rest; by destruct (double_quoted rest)|].
  assert (Hcons : ∀ r, dq_cons c (dq_app v r) = dq_app (c :: v) r) by (by intros []).
  unfold esc in *. cbn [map concat]. destruct (NEED_C c) eqn:Hc; cbn [app double_quoted].
  - change (92 =? 34) with false. change (92 =? 96) with false. change (92 =? 36) with false. change (92 =? 92) with true. cbn iota.
    by rewrite Hc, IH, Hcons.
  - unfold NEED_C in Hc. apply orb_false_iff in Hc as [[[H1 H2]%orb_false_iff H3]%orb_false_iff H4].
    by rewrite H2, H1, H4, H3, IH, Hcons.
Qed.
Lemma double_quoted_plain v rest : plain_text v → double_quoted (v ++ rest) = dq_app v (double_quoted rest).
Proof. intros Hv. rewrite <- (esc_id NEED_C v) at 1 by done. apply double_quoted_esc. Qed.
Lemma dq_app_app v w r : dq_app v (dq_app w r) = dq_app (v ++ w) r.
Proof. destruct r; [|done|done]. cbn. by rewrite app_assoc. Qed.

(** ** Lengths *)

Lemma ESCAPE_VAL_esc v : str_ok v → (length v ≤ 63)%nat → ESCAPE_VAL v = esc NEED_C v.
Proof.
  intros Hv Hl. destruct v as [|c v]; [done|]. set (s := c :: v) in *.
  destruct (escape_param_loop_spec s 255 Hv) as (k & Hk & Hok & Hlen & Hend); [lia|].
  assert (Hs : take k s = s).
  { destruct Hend as [|Hend]; [done|]. rewrite Hk in Hend. pose proof (esc_length NEED_C (take k s)) as [_ Hle].
    rewrite length_take in Hle. unfold strlen in Hend. lia. }
  unfold ESCAPE_VAL, escape_param. change (256 - 1) with 255. change (255 <? 2) with false. cbn iota.
  rewrite (proj2 (Z.leb_gt (strlen s) 0)) by (unfold s; rewrite strlen_cons; pose proof (strlen_nonneg v); lia).
  rewrite length_replicate. unfold strlen in Hlen. rewrite (proj2 (Z.ltb_ge _ _)) by lia.
  rewrite drop_replicate. destruct (256 - length (escape_param_loop s 255))%nat as [|n] eqn:En; [exfalso; lia|].
  cbn [replicate mret res_ret]. rewrite str_of_app_nul by done. by rewrite Hk, Hs.
Qed.

Definition index_text (i : Z) : bool :=
  Nat.leb (length (fmt_d i)) 2 && Nat.leb (length (nas i)) 6 && forallb (λ c, negb (NEED_C c)) (fmt_d i ++ nas i).
Lemma index_plain i : 0 ≤ i < 64 → (length (fmt_d i) ≤ 2)%nat ∧ (length (nas i) ≤ 6)%nat ∧ plain_text (fmt_d i) ∧ plain_text (nas i).
Proof.
  intros Hi. assert (Ha : forallb index_text (seqZ 0 64) = true) by (by vm_compute).
  rewrite forallb_forall in Ha. assert (Hin : In i (seqZ 0 64)) by (apply list_elem_of_In, elem_of_seqZ; lia).
  apply Ha, andb_true_iff in Hin as [[H1%Nat.leb_le H2%Nat.leb_le]%andb_true_iff H3]. split; [done|]. split; [done|].
  rewrite forallb_forall in H3. apply Forall_app, Forall_forall. intros c Hc%list_elem_of_In%H3. by apply negb_true_iff.
Qed.

Lemma digit_plain s : digits s → plain_text s.
Proof.
  intros Hs. eapply Forall_impl; [exact Hs|]. intros c Hc. cbn beta in Hc. unfold NEED_C.
  rewrite !(proj2 (Z.eqb_neq _ _)) by lia. done.
Qed.
Lemma number_plain n : 0 ≤ n < 65536 → (length (fmt_d n) ≤ 5)%nat ∧ plain_text (fmt_d n).
Proof.
  intros Hn. assert (E : fmt_d n = fmt_u n) by (unfold fmt_d; rewrite (proj2 (Z.ltb_ge n 0)) by lia; done). rewrite E. split.
  - pose proof (dec_digits_short 10 n [] 5 ltac:(lia) ltac:(lia)) as H. unfold strlen in H. change (length []) with O in H. unfold fmt_u. lia.
  - apply digit_plain, fmt_u_digits. lia.
Qed.

(** ** The options of [pppd] *)

Definition ppp_head (d : cstr) : cstr :=
  cs "nodetach holdoff 4 maxfail 0 usepeerdns lcp-echo-interval 10 lcp-echo-failure 6 plugin pppoe " ++ d ++ cs " noipdefault".
Definition ppp_mtu (c : wan_entry_cfg) : cstr :=
  if negb (mtu c =? 0) then cs " mtu " ++ fmt_d (mtu c) ++ cs " mru " ++ fmt_d (mtu c) else [].

(** What the configuration of a connection keeps within: the arrays for the
    user name and the password have 64 bytes, the one for the idle time 32. *)
Record ppp_fits (i : Z) (idle : cstr) (c : wan_entry_cfg) : Prop := {
  fits_idx : 0 ≤ i < 64;
  fits_idle : (length idle ≤ 31)%nat;
  fits_mtu : 0 ≤ mtu c < 65536;
  fits_user : str_ok (user c) ∧ (length (user c) ≤ 63)%nat;
  fits_pwd : str_ok (pwd c) ∧ (length (pwd c) ≤ 63)%nat }.

Ltac lengths :=
  rewrite ?length_app;
  repeat match goal with |- context [length (cs ?s)] => let n := eval vm_compute in (length (cs s)) in change (length (cs s)) with n end.

Lemma forallb_plain s : forallb (λ c, negb (NEED_C c)) s = true → plain_text s.
Proof. intros H. apply Forall_forall. rewrite forallb_forall in H. intros c Hc%list_elem_of_In%H. by apply negb_true_iff. Qed.
Ltac plain_words := repeat match goal with |- Forall _ (_ ++ _) => apply Forall_app; split end; first [assumption|apply forallb_plain; vm_compute; reflexivity|constructor].

Lemma version_options_text c flag : (length (ppp_version_options c flag) ≤ 12)%nat ∧ plain_text (ppp_version_options c flag).
Proof. unfold ppp_version_options. repeat case_match; (split; [lengths; cbn [length]; lia|plain_words]). Qed.
Lemma mtu_text c : 0 ≤ mtu c < 65536 → (length (ppp_mtu c) ≤ 20)%nat ∧ plain_text (ppp_mtu c).
Proof.
  intros [Hl Hp]%number_plain. unfold ppp_mtu. destruct (negb _); [|split; [cbn; lia|constructor]].
  split; [lengths; lia|plain_words].
Qed.
Lemma head_text i : 0 ≤ i < 64 → (length (ppp_head (nas i)) ≤ 111)%nat ∧ plain_text (ppp_head (nas i)).
Proof. intros (_ & Hl & _ & Hp)%index_plain. unfold ppp_head. split; [lengths; lia|plain_words]. Qed.

Lemma ppp_parm_split d idle c flag :
  ppp_parm d idle c flag =
  ppp_head d ++ (if SVC_WAN_IS_CONN_ON_DEMAND c then cs " demand idle " ++ idle else cs " persist") ++ ppp_mtu c
  ++ ppp_version_options c flag.
Proof. unfold ppp_parm, ppp_head, ppp_mtu. rewrite <- !app_assoc. reflexivity. Qed.

Lemma parm_length i idle c flag : ppp_fits i idle c → (length (ppp_parm (nas i) idle c flag) ≤ 187)%nat.
Proof.
  intros [Hi Hd Hm _ _]. rewrite ppp_parm_split, !length_app.
  destruct (head_text i Hi) as [H1 _], (mtu_text c Hm) as [H2 _], (version_options_text c flag) as [H3 _].
  destruct (SVC_WAN_IS_CONN_ON_DEMAND c); lengths; lia.
Qed.
Lemma parm_plain i idle c flag : ppp_fits i idle c → (SVC_WAN_IS_CONN_ON_DEMAND c = true → plain_text idle) → plain_text (ppp_parm (nas i) idle c flag).
Proof.
  intros [Hi _ Hm _ _] Hp. rewrite ppp_parm_split.
  destruct (head_text i Hi) as [_ H1], (mtu_text c Hm) as [_ H2], (version_options_text c flag) as [_ H3].
  destruct (SVC_WAN_IS_CONN_ON_DEMAND c); [specialize (Hp eq_refl)|]; plain_words.
Qed.

(** ** The command lines *)

Definition pppd_line (i : Z) (u w parm : cstr) : cstr :=
  cs "/usr/bin/pppd unit " ++ fmt_d i ++ cs " user " ++ u ++ cs " password " ++ w ++ cs " " ++ parm.

(** Nothing is cut: the longest command needs the last byte of its array. *)
Lemma pppd_command_whole i idle c flag : ppp_fits i idle c →
  let parm := ppp_parm (nas i) idle c flag in
  pppd_command i c parm = pppd_line i (esc NEED_C (user c)) (esc NEED_C (pwd c)) parm ∧
  (length (pppd_command i c parm) ≤ 477)%nat.
Proof.
  intros Hfits parm. pose proof (parm_length i idle c flag Hfits) as Hp. fold parm in Hp. clearbody parm.
  destruct Hfits as [Hi _ _ [Hu Hu'] [Hw Hw']]. destruct (index_plain i Hi) as (Hn & _).
  assert (Hl : (length (pppd_line i (esc NEED_C (user c)) (esc NEED_C (pwd c)) parm) ≤ 477)%nat).
  { pose proof (esc_length NEED_C (user c)). pose proof (esc_length NEED_C (pwd c)). unfold pppd_line. lengths. lia. }
  assert (He : pppd_command i c parm = pppd_line i (esc NEED_C (user c)) (esc NEED_C (pwd c)) parm).
  { unfold pppd_command. rewrite !ESCAPE_VAL_esc by done. apply take_ge. etrans; [exact Hl|lia]. }
  by rewrite He.
Qed.

Lemma start_command_whole i cmd : 0 ≤ i < 64 → (length cmd ≤ 477)%nat →
  ppp_start_command i cmd = PPP_START_SH ++ cs " " ++ [34] ++ cmd ++ [34] ++ cs " ppp" ++ fmt_d i.
Proof.
  intros (Hn & _)%index_plain Hl. unfold ppp_start_command. apply take_ge. unfold PPP_START_SH. lengths. cbn [length]. lia.
Qed.

Lemma quoted_line i u w parm rest : 0 ≤ i < 64 →
  double_quoted (pppd_line i (esc NEED_C u) (esc NEED_C w) parm ++ rest)
  = dq_app (cs "/usr/bin/pppd unit " ++ fmt_d i ++ cs " user " ++ u ++ cs " password " ++ w ++ cs " ") (double_quoted (parm ++ rest)).
Proof.
  intros (_ & _ & Hp & _)%index_plain. unfold pppd_line. rewrite <- !app_assoc.
  rewrite (double_quoted_plain (cs "/usr/bin/pppd unit ")) by plain_words.
  rewrite (double_quoted_plain (fmt_d i)) by done. rewrite (double_quoted_plain (cs " user ")) by plain_words.
  rewrite double_quoted_esc. rewrite (double_quoted_plain (cs " password ")) by plain_words.
  rewrite double_quoted_esc. rewrite (double_quoted_plain (cs " ")) by plain_words.
  by rewrite !dq_app_app, <- !app_assoc.
Qed.

Lemma start_ppp_line i idle c flag : ppp_fits i idle c →
  let cmd := pppd_command i c (ppp_parm (nas i) idle c flag) in
  ppp_start_command i cmd = PPP_START_SH ++ cs " " ++ [34] ++ cmd ++ [34] ++ cs " ppp" ++ fmt_d i ∧
  double_quoted (cmd ++ [34] ++ cs " ppp" ++ fmt_d i)
  = dq_app (cs "/usr/bin/pppd unit " ++ fmt_d i ++ cs " user " ++ user c ++ cs " password " ++ pwd c ++ cs " ")
      (double_quoted (ppp_parm (nas i) idle c flag ++ [34] ++ cs " ppp" ++ fmt_d i)).
Proof.
  intros Hfits cmd. destruct (pppd_command_whole i idle c flag Hfits) as [He Hl]. fold cmd in He, Hl.
  split; [by apply start_command_whole; [apply Hfits|]|]. rewrite He. by apply quoted_line, Hfits.
Qed.

(** C8: whatever the user name and the password of a connection are made of,
    and whatever they and the idle time are up to the lengths of their arrays,
    the command that starts [pppd] is not cut, and the shell reads in it, up to
    the options behind the password, exactly the command line with that name and
    that password: no quote ends it there and no substitution is carried out
    there.  And it reads the whole line so, as one word, unless the connection
    is on demand and its idle time, which is not escaped, has one of the four
    characters special to the shell. *)
Theorem ppp_credentials_are_quoted i idle c protocol_flag : ppp_fits i idle c →
  let parm := ppp_parm (nas i) idle c protocol_flag in
  let cmd := pppd_command i c parm in
  let words := cs "/usr/bin/pppd unit " ++ fmt_d i ++ cs " user " ++ user c ++ cs " password " ++ pwd c ++ cs " " in
  let file := cs " ppp" ++ fmt_d i in
  ppp_start_command i cmd = PPP_START_SH ++ cs " " ++ [34] ++ cmd ++ [34] ++ file ∧
  double_quoted (cmd ++ [34] ++ file) = dq_app words (double_quoted (parm ++ [34] ++ file)) ∧
  ((SVC_WAN_IS_CONN_ON_DEMAND c = true → plain_text idle) → double_quoted (cmd ++ [34] ++ file) = Word (words ++ parm) file).
Proof.
  intros Hfits parm cmd words file. destruct (start_ppp_line i idle c protocol_flag Hfits) as [H1 H2].
  split; [exact H1|]. split; [exact H2|]. intros Hidle.
  unfold cmd, parm, words, file in *. rewrite H2, double_quoted_plain by (by apply parm_plain).
  change (double_quoted ([34] ++ cs " ppp" ++ fmt_d i)) with (Word [] (cs " ppp" ++ fmt_d i)).
  cbn [dq_app]. by rewrite app_nil_r, <- !app_assoc.
Qed.


(** ** Witnesses *)

Definition demand_cfg (u w : cstr) (m : Z) : wan_entry_cfg :=
  {| vid := 0; mvid := 0; mtu := m; pdtm1 := 0; pdtm2 := 0; prefix6 := 0; bindbit := 0; active := 1;
     wanmode := SVC_WAN_ATTR_WANMODE_ROUTE; linkmode := SVC_WAN_ATTR_LINKMODE_PPP; version := SVC_WAN_ATTR_VERSION_IPV6;
     dot1p := 0; vtag := 0; isp := 0; conn_mode := SVC_WAN_ATTR_CONNECT_ON_DEMAND;
     ppp_manual_status := 0; user := u; pwd := w; addrv4 := []; maskv4 := []; gwv4 := []; dns1v4 := []; dns2v4 := [];
     ipv6mode := 0; addrv6 := []; gwv6 := []; dns1v6 := []; dns2v6 := []; pd := 0; pdmode := 0; dhcpv6pd := 0; pdaddr := [];
     dslite := 0; dslite_mode := 0; srv_list := []; srv_type := 0; gwv6_op := 0; ppp_hybrid := 0; pdorigin := [];
     proxyenable := 0; dhcp_realy := 0; dhcp_enable := 0; npt := 0 |}.
Definition quotes : cstr := replicate 63 34.

Lemma demand_fits u w m idle : bool_decide (str_ok u ∧ str_ok w) && Nat.leb (length u) 63 && Nat.leb (length w) 63 = true →
  (length idle ≤ 31)%nat → 0 ≤ m < 65536 → ppp_fits 15 idle (demand_cfg u w m).
Proof.
  intros [[[Hu Hw]%bool_decide_eq_true Hu'%Nat.leb_le]%andb_true_iff Hw'%Nat.leb_le]%andb_true_iff Hi Hm.
  by split; [lia|..].
Qed.

(** A name and a password of the longest, all of quotes: the command fills its
    array to the last byte. *)
Example longest_start_command :
  let cmd := pppd_command 15 (demand_cfg quotes quotes 65535)
    (ppp_parm (nas 15) (replicate 31 49) (demand_cfg quotes quotes 65535) E_SYSTEM_ONLY_IPV6_ENABLE) in
  length (ppp_start_command 15 cmd) = 511%nat ∧
  double_quoted (drop 27 (ppp_start_command 15 cmd)) ≠ Unterminated.
Proof. split; [by vm_compute|]. vm_compute. discriminate. Qed.

(** The copy of the command written to the file of the interface needs two
    bytes more, and loses the end of the file's name. *)
Example longest_conf_command :
  let cmd := pppd_command 15 (demand_cfg quotes quotes 65535)
    (ppp_parm (nas 15) (replicate 31 49) (demand_cfg quotes quotes 65535) E_SYSTEM_ONLY_IPV6_ENABLE) in
  drop 490 (ppp_conf_command 15 cmd) = [34] ++ cs " > /var/tmp/ppp15.co".
Proof. by vm_compute. Qed.

(** The password holds what would be a substitution. *)
Lemma ppp_credentials_are_quoted_witness :
  let c := demand_cfg quotes (cs "a b$(c)") 1492 in
  let parm := ppp_parm (nas 15) (cs "1800") c E_SYSTEM_ONLY_IPV4_ENABLE in
  let cmd := pppd_command 15 c parm in
  ppp_start_command 15 cmd = PPP_START_SH ++ cs " " ++ [34] ++ cmd ++ [34] ++ cs " ppp15" ∧
  double_quoted (cmd ++ [34] ++ cs " ppp15")
  = Word ((cs "/usr/bin/pppd unit 15 user " ++ quotes ++ cs " password a b$(c) ") ++ parm) (cs " ppp15").
Proof.
  intros c parm cmd.
  destruct (ppp_credentials_are_quoted 15 (cs "1800") c E_SYSTEM_ONLY_IPV4_ENABLE
    (demand_fits quotes (cs "a b$(c)") 1492 (cs "1800") eq_refl ltac:(vm_compute; lia) ltac:(lia))) as (H1 & _ & H3).
  split; [exact H1|]. exact (H3 (λ _, forallb_plain (cs "1800") eq_refl)).
Defined.

(** A dollar at the end of the idle time stands for itself. *)
Example dollar_at_the_end :
  let c := demand_cfg (cs "u") (cs "p") 1492 in
  let cmd := pppd_command 15 c (ppp_parm (nas 15) (cs "60$") c E_SYSTEM_ONLY_IPV4_ENABLE) in
  double_quoted (cmd ++ [34] ++ cs " ppp15") = Word cmd (cs " ppp15").
Proof. by vm_compute. Qed.

End WanPpp.
