(* ===== verification/WanStable.v ===== *)
(** * What the WAN service leaves as it is

    The handling of an update writes to the configuration and calls the rest of
    the firmware at many places.  This file shows once for all of them that a
    property of the world which the writes of the service and the calls respect
    holds afterwards when it held before ([alone]). *)

From stdpp Require Import gmap.
From S2P Require Import Prelude CString Text Utility WanObj WanRoute WanCfg WanDev WanMgr WanList WanProps WanRun WanLife.
Open Scope Z_scope.

Module WanStable.
Import Text Utility WanObj WanRoute WanCfg WanDev WanMgr WanList WanProps WanRun WanLife.

(** The attributes that the service reads from the configuration of
    connections. *)
Definition config_attrs : list cstr := cs <$>
  ["Active"; "WanMode"; "LinkMode"; "VLANID"; "dot1pData"; "VLANMode"; "v8021PEnable"; "IPVERSION"; "ISP"; "ServiceList"; "MTU";
   "MulticastVID"; "ProxyEnable"; "DHCPRealy"; "DHCPEnable"; "USERNAME"; "PASSWORD"; "CONNECTION"; "PPPManualStatus";
   "BridgeInterface"; "IPADDR"; "NETMASK"; "GATEWAY"; "DNS"; "SecDNS"; "DsliteEnable"; "DsliteMode"; "DHCPv6"; "DHCPv6PD";
   "PDEnable"; "NPT"; "PrefixPltime"; "PrefixVltime"; "IPADDR6"; "GATEWAY6"; "DNS6"; "SecDNS6"; "GW6_Manual"; "PREFIX6";
   "PDPrefix"; "PDOrigin"; "InternetNotFirst"]%string.
Definition is_config (a : cstr) : bool := existsb (streq a) config_attrs.
(** An object of [root.wan] or below. *)
Definition in_wan (n : cstr) : bool := is_prefix (cs "root.wan.") (n ++ cs ".").
(** What the service writes on its own: outside [root.wan], or an attribute it
    does not read there; and never the mark of a commit. *)
Definition ours (n a : cstr) : bool := negb (streq a tr69CommitWan) && (negb (in_wan n) || negb (is_config a)).

Lemma ours_attr n a : streq a tr69CommitWan || is_config a = false → ours n a = true.
Proof. unfold ours. intros [-> ->]%orb_false_iff. apply orb_true_r. Qed.
Lemma ours_node n a : in_wan n = false → streq a tr69CommitWan = false → ours n a = true.
Proof. unfold ours. by intros -> ->. Qed.
Lemma waninfo_outside i : in_wan (WANINFO_ENTRY_NODE i) = false.
Proof. reflexivity. Qed.
(** No name of an attribute is computed. *)
Ltac ours := first [apply ours_attr; vm_compute; reflexivity|apply ours_node; [first [assumption|reflexivity]|vm_compute; reflexivity]].

Class Undisturbed {W : Type} `{WanWorld W} (P : W → Prop) : Prop := {
  undisturbed_run c w : P w → P (run c w);
  undisturbed_set n a v w : ours n a = true → P w → P (cfg_set n a v w);
  undisturbed_create i w : P w → P (cfg_create (WANINFO_ENTRY_NODE i) w);
  undisturbed_commit w : P w → commit w = false
}.

(** The property holds after [m], if [m] returns. *)
Definition alone {W A} (P : W → Prop) (m : M (wan W) A) : Prop :=
  ∀ s a s', P (world s) → m s = Ok (a, s') → P (world s').

Section steps.
Context {W : Type} `{Undisturbed W P}.
Abbreviation WM := (M (wan W)).

Lemma alone_bind {A B} (m : WM A) (f : A → WM B) : alone P m → (∀ a, alone P (f a)) → alone P (mbind f m).
Proof. intros Hm Hf s b s' HP (a & s1 & H1 & H2)%M_bind_inv. apply (Hf a s1 b); [by apply (Hm s a)|done]. Qed.
Lemma alone_gets {A} (f : wan W → A) : alone P (gets f).
Proof. by intros s a s' HP [= <- <-]. Qed.
Lemma alone_ret {A} (a : A) : alone P (mret a : WM A).
Proof. by intros s b s' HP [= <- <-]. Qed.
Lemma alone_ask {A} (f : W → A) : alone P (ask f).
Proof. apply alone_gets. Qed.
Lemma alone_lift {A} (r : res A) : alone P (lift r : WM A).
Proof. intros s a s' HP. unfold lift. by destruct r; intros [= <- <-]. Qed.
Lemma alone_fuel {A} : alone P (out_of_fuel : WM A).
Proof. by intros s a s' HP [=]. Qed.
Lemma alone_modify (f : wan W → wan W) : (∀ s, world (f s) = world s) → alone P (modify f).
Proof. intros Hf s a s' HP [= <- <-]. by rewrite Hf. Qed.
Lemma alone_the p : alone P (the p : WM _).
Proof. intros s a s' HP. unfold the. by destruct (objs s !! p); intros [= <- <-]. Qed.
Lemma alone_upd p f : alone P (upd p f : WM unit).
Proof. unfold upd. apply alone_bind; [apply alone_the|intros _; by apply alone_modify]. Qed.
Lemma alone_tell (f : W → W) : (∀ w, P w → P (f w)) → alone P (tell f).
Proof. intros Hf s a s' HP [= <- <-]. by apply Hf. Qed.
Lemma alone_run c : alone P (do_call c : WM unit).
Proof. apply alone_tell, undisturbed_run. Qed.
Lemma alone_set n a v : ours n a = true → alone P (cfg_set_object_attr n a v : WM unit).
Proof. intros Ho. apply alone_tell. intros w. by apply undisturbed_set. Qed.
Lemma alone_create i : alone P (tell (cfg_create (WANINFO_ENTRY_NODE i)) : WM unit).
Proof. apply alone_tell, undisturbed_create. Qed.
Lemma alone_when (b : bool) (m : WM unit) : alone P m → alone P (when b m).
Proof. intros Hm. destruct b; [done|apply alone_ret]. Qed.
Lemma alone_get n a k : alone P (cfg_get_object_attr n a k : WM _).
Proof. unfold cfg_get_object_attr. apply alone_bind; [apply alone_ask|intros; apply alone_ret]. Qed.
Lemma alone_execute c : alone P (execute c : WM unit).
Proof.
  unfold execute, svc_wan_execute_cmd. apply alone_bind; [|intros; apply alone_ret]. destruct (_ =? _); [apply alone_ret|].
  apply alone_bind; [apply alone_run|intros; apply alone_ret].
Qed.
Lemma alone_file f n : alone P (svc_wan_get_file_string f n : WM _).
Proof. unfold svc_wan_get_file_string. apply alone_bind; [apply alone_ask|intros; apply alone_ret]. Qed.
Lemma alone_for_objs {A} (body : positive → wan_entry_obj → WM (option A)) n p :
  (∀ a o, alone P (body a o)) → alone P (for_objs n p body).
Proof.
  intros Hb. revert p. induction n as [|n IH]; intros [p|]; cbn [for_objs]; try apply alone_ret; [apply alone_fuel|].
  apply alone_bind; [apply alone_the|intros o]. apply alone_bind; [apply Hb|intros [x|]]; [apply alone_ret|].
  apply alone_bind; [apply alone_the|intros o']. apply IH.
Qed.
Lemma alone_each {A} (body : positive → wan_entry_obj → WM (option A)) : (∀ a o, alone P (body a o)) → alone P (each_obj body).
Proof.
  intros Hb. unfold each_obj. apply alone_bind; [apply alone_gets|intros n]. apply alone_bind; [apply alone_gets|intros p].
  by apply alone_for_objs.
Qed.
Lemma alone_writes {A} (n : cstr) (l : list A) (f : A → cstr) (g : A → cstr) :
  forallb (λ x, ours n (f x)) l = true → alone P (foldr (λ x m, cfg_set_object_attr n (f x) (g x);; m) (mret tt) l : WM unit).
Proof.
  induction l as [|x l IH]; cbn [foldr forallb]; [intros _; apply alone_ret|]. intros [Hx Hl]%andb_true_iff.
  apply alone_bind; [by apply alone_set|]. intros _. by apply IH.
Qed.

End steps.

Create HintDb alone discriminated.
#[export] Hint Constants Opaque : alone.
(** Goes through the steps of a function. *)
Ltac keep_step :=
  lazymatch goal with
  | |- alone _ (mret _) => apply alone_ret
  | |- alone _ (mbind _ _) => apply alone_bind; [|intros ?]
  | |- alone _ (when _ _) => apply alone_when
  | |- alone _ (gets _) => apply alone_gets
  | |- alone _ (ask _) => apply alone_ask
  | |- alone _ (lift _) => apply alone_lift
  | |- alone _ out_of_fuel => apply alone_fuel
  | |- alone _ (the _) => apply alone_the
  | |- alone _ (upd _ _) => apply alone_upd
  | |- alone _ (modify _) => apply alone_modify; by intros []
  | |- alone _ (do_call _) => apply alone_run
  | |- alone _ (execute _) => apply alone_execute
  | |- alone _ (cfg_set_object_attr _ _ _) => apply alone_set; ours
  | |- alone _ (cfg_get_object_attr _ _ _) => apply alone_get
  | |- alone _ (svc_wan_get_file_string _ _) => apply alone_file
  | |- alone _ (tell (cfg_create _)) => apply alone_create
  | |- alone _ (each_obj _) => apply alone_each; intros ? ?
  | |- alone _ (let _ := _ in _) => cbv zeta
  | |- alone _ (match ?x with _ => _ end) => destruct x
  | |- _ => solve [eauto with alone]
  end.
Ltac keep := repeat keep_step.

Section functions.
Context {W : Type} `{Undisturbed W P}.
Abbreviation WM := (M (wan W)).

(** ** Addresses and routes *)

Lemma alone_hwaddr n d : in_wan n = false → alone P (set_hwaddr n d : WM unit).
Proof. intros Hn. unfold set_hwaddr. keep. Qed.
Lemma alone_publish n d f l : in_wan n = false → forallb (λ a, negb (streq a tr69CommitWan)) l = true → alone P (publish n d f l : WM unit).
Proof.
  intros Hn Hl. unfold publish. keep. apply (alone_writes n _ fst snd). rewrite forallb_forall in Hl. apply forallb_forall.
  intros [x v] Hin%in_combine_l. apply ours_node; [done|]. by apply negb_true_iff, Hl.
Qed.
Lemma alone_clear n l : in_wan n = false → forallb (λ a, negb (streq (cs a) tr69CommitWan)) l = true → alone P (clear_attrs n l : WM unit).
Proof.
  intros Hn Hl. unfold clear_attrs. apply (alone_writes n l cs (λ _, [])). rewrite forallb_forall in Hl. apply forallb_forall.
  intros a Hin. apply ours_node; [done|]. by apply negb_true_iff, Hl.
Qed.
#[local] Hint Resolve alone_hwaddr : alone.
#[local] Hint Extern 1 (alone _ (publish _ _ _ _)) => apply alone_publish; [assumption|vm_compute; reflexivity] : alone.
#[local] Hint Extern 1 (alone _ (clear_attrs _ _)) => apply alone_clear; [first [assumption|reflexivity]|vm_compute; reflexivity] : alone.
Lemma alone_ipv4_info n d : in_wan n = false → alone P (svc_wan_set_ipv4_info n d : WM unit).
Proof. intros Hn. unfold svc_wan_set_ipv4_info. keep. Qed.
Lemma alone_ipv6_info n d o : in_wan n = false → alone P (svc_wan_set_ipv6_info n d o : WM unit).
Proof. intros Hn. unfold svc_wan_set_ipv6_info. keep. Qed.
Lemma alone_clear_ipv6 n o : in_wan n = false → alone P (svc_wan_clear_ipv6_info n o : WM unit).
Proof. intros Hn. unfold svc_wan_clear_ipv6_info. keep. Qed.
#[local] Hint Resolve alone_ipv4_info alone_ipv6_info alone_clear_ipv6 waninfo_outside : alone.
Lemma alone_set_info p e : alone P (svc_wan_set_info p e : WM Z).
Proof. unfold svc_wan_set_info, waninfo. keep. Qed.
Lemma alone_start_nat d : alone P (svc_wan_start_intf_nat d : WM unit).
Proof. unfold svc_wan_start_intf_nat, nat_rule. keep. Qed.
Lemma alone_stop_nat d : alone P (svc_wan_stop_intf_nat d : WM unit).
Proof. unfold svc_wan_stop_intf_nat, nat_rule. keep. Qed.
#[local] Hint Resolve alone_set_info alone_start_nat alone_stop_nat : alone.

Lemma alone_bridge_up_down p e : alone P (bridge_up_down p e : WM Z).
Proof.
  (* An object is only created when the path has its numbers. *)
  assert (Hnone : ∀ f : bool → WM Z, alone P (f true) → alone P (mbind f (mret true))) by (intros f Hf; exact Hf).
  unfold bridge_up_down. keep_step; [keep|]. cbv zeta. destruct (get_entry_number_cfg2 _ _); [destruct (get_entry_number_cfg2 _ _)|].
  - keep.
  - apply Hnone. cbn [negb when]. keep.
  - apply Hnone. cbn [negb when]. keep.
Qed.
Lemma alone_add4 g d : alone P (svc_wan_add_default_ipv4_route g d : WM unit).
Proof. unfold svc_wan_add_default_ipv4_route. keep. Qed.
Lemma alone_add6 g d : alone P (svc_wan_add_default_ipv6_route g d : WM unit).
Proof. unfold svc_wan_add_default_ipv6_route. keep. Qed.
Lemma alone_restart_nat d : alone P (svc_wan_restart_nat d : WM unit).
Proof. unfold svc_wan_restart_nat. keep. Qed.
Lemma alone_gateway o a n : alone P (gateway o a n : WM _).
Proof. unfold gateway. keep. Qed.
#[local] Hint Resolve alone_bridge_up_down alone_add4 alone_add6 alone_restart_nat alone_gateway : alone.
Lemma alone_switch r e : alone P (default_route_switch r e : WM _).
Proof. unfold default_route_switch, svc_wan_delete_default_ipv4_route, svc_wan_delete_default_ipv6_route, switch_body. keep. Qed.
Lemma alone_index a : streq a tr69CommitWan = false → alone P (def_route_index a : WM _).
Proof. intros Ha. unfold def_route_index. keep. apply alone_set. by apply ours_node. Qed.
#[local] Hint Resolve alone_switch : alone.
#[local] Hint Extern 1 (alone _ (def_route_index _)) => apply alone_index; vm_compute; reflexivity : alone.
Lemma alone_default_route pa e : alone P (update_default_route pa e : WM unit).
Proof. unfold update_default_route, update_route_rest, svc_wan_find_object, svc_wan_restart_ddns. keep. Qed.
#[local] Hint Resolve alone_default_route : alone.
Lemma alone_conn_evt p e : alone P (svc_wan_handle_conn_evt p e : WM Z).
Proof. unfold svc_wan_handle_conn_evt. keep. Qed.
#[local] Hint Resolve alone_conn_evt : alone.
Lemma alone_by_dev d : alone P (svc_wan_find_object_by_dev d : WM _).
Proof. unfold svc_wan_find_object_by_dev. keep. Qed.
#[local] Hint Resolve alone_by_dev : alone.
Lemma alone_getv4 d : alone P (svc_wan_handle_event_conn_getv4 d : WM Z).
Proof. unfold svc_wan_handle_event_conn_getv4. keep. Qed.
Lemma alone_getv6 d : alone P (svc_wan_handle_event_conn_getv6 d : WM Z).
Proof. unfold svc_wan_handle_event_conn_getv6, check_ipv6_info_ready. keep. Qed.
Lemma alone_deal4 p : alone P (svc_wan_handle_event_conn_lostv4_deal p : WM unit).
Proof. unfold svc_wan_handle_event_conn_lostv4_deal. keep. Qed.
Lemma alone_deal6 p : alone P (svc_wan_handle_event_conn_lostv6_deal p : WM unit).
Proof. unfold svc_wan_handle_event_conn_lostv6_deal. keep. Qed.
#[local] Hint Resolve alone_deal4 alone_deal6 : alone.
Lemma alone_lostv4 d : alone P (svc_wan_handle_event_conn_lostv4 d : WM Z).
Proof. unfold svc_wan_handle_event_conn_lostv4. keep. Qed.
Lemma alone_lostv6 d : alone P (svc_wan_handle_event_conn_lostv6 d : WM Z).
Proof. unfold svc_wan_handle_event_conn_lostv6. keep. Qed.
#[local] Hint Resolve alone_getv4 alone_getv6 alone_lostv4 alone_lostv6 : alone.

(** ** Starting and stopping *)

Lemma alone_echo a b c : alone P (echo a b c : WM unit).
Proof. unfold echo. keep. Qed.
Lemma alone_kill f b : alone P (svc_wan_kill_process f b : WM unit).
Proof. unfold svc_wan_kill_process, kill_file, svc_wan_get_pid. keep. Qed.
Lemma alone_leave o n k : in_wan n = false → alone P (leave_proxy o n k : WM bool).
Proof. intros Hn. unfold leave_proxy. keep. Qed.
#[local] Hint Resolve alone_echo alone_kill : alone.
#[local] Hint Extern 1 (alone _ (leave_proxy _ _ _)) => apply alone_leave; reflexivity : alone.
Lemma alone_start_bridge p : alone P (svc_wan_start_bridge p : WM Z).
Proof. unfold svc_wan_start_bridge. keep. Qed.
Lemma alone_start_ppp p v : alone P (svc_wan_start_ppp p v : WM Z).
Proof. unfold svc_wan_start_ppp, svc_wan_execute_cmd_normal, svc_wan_get_pid. keep. Qed.
Lemma alone_start_ip4 p c : alone P (start_ip4 p c : WM bool).
Proof. unfold start_ip4, svc_wan_start_ipv4_dhcp, svc_wan_start_ipv4_static. keep. Qed.
Lemma alone_dhcp6c p : alone P (start_dhcp6c p : WM Z).
Proof. unfold start_dhcp6c. keep. Qed.
#[local] Hint Resolve alone_start_bridge alone_start_ppp alone_start_ip4 alone_dhcp6c : alone.
Lemma alone_start_ip6 p c : alone P (start_ip6 p c : WM bool).
Proof. unfold start_ip6, svc_wan_start_ipv6_dhcp, svc_wan_start_ipv6_slaac, svc_wan_start_ipv6_static. keep. Qed.
Lemma alone_create_conf o : alone P (svc_wan_create_conf o : WM Z).
Proof. unfold svc_wan_create_conf, prepare_start_dhcp6c, create_dhcp6c_conf. keep. Qed.
Lemma alone_delete_conf o : alone P (svc_wan_delete_conf o : WM Z).
Proof. unfold svc_wan_delete_conf. keep. Qed.
Lemma alone_create_device o : alone P (svc_wan_create_device o : WM Z).
Proof. unfold svc_wan_create_device, svc_save_protect_wan_info, doValPut. keep. Qed.
Lemma alone_mtu o a : alone P (svc_wan_mtu_conf o a : WM unit).
Proof. unfold svc_wan_mtu_conf, clamp. keep. Qed.
#[local] Hint Resolve alone_start_ip6 alone_create_conf alone_delete_conf alone_create_device alone_mtu : alone.
Lemma alone_creat_intf o v : alone P (svc_wan_do_something_creat_intf o v : WM unit).
Proof. unfold svc_wan_do_something_creat_intf, svc_wan_set_intf_name, check_nat_enable, svc_wan_config_intf_attr. keep. Qed.
Lemma alone_del_intf p : alone P (svc_wan_do_something_del_intf p : WM unit).
Proof. unfold svc_wan_do_something_del_intf. keep. Qed.
#[local] Hint Resolve alone_creat_intf alone_del_intf : alone.
Lemma alone_do_start p : alone P (svc_wan_do_start_intf p : WM Z).
Proof. unfold svc_wan_do_start_intf, svc_wan_cfg_get_system_protocol_version, svc_wan_start_device, svc_wan_delete_device. keep. Qed.
Lemma alone_stop_ip4 p c : alone P (stop_ip4 p c : WM bool).
Proof. unfold stop_ip4, svc_wan_stop_ipv4_dhcp, svc_wan_stop_ipv4_static. keep. Qed.
Lemma alone_stop_ip6 p c : alone P (stop_ip6 p c : WM bool).
Proof. unfold stop_ip6, svc_wan_stop_ipv6_dhcp, svc_wan_stop_ipv6_slaac, stop_dhcp6c, svc_wan_stop_ipv6_static. keep. Qed.
Lemma alone_stop_ppp p : alone P (svc_wan_stop_ppp p : WM Z).
Proof. unfold svc_wan_stop_ppp, stop_pppoe_relay, ppp_lost. keep. Qed.
Lemma alone_stop_bridge p : alone P (svc_wan_stop_bridge p : WM Z).
Proof. unfold svc_wan_stop_bridge. keep. Qed.
#[local] Hint Resolve alone_do_start alone_stop_ip4 alone_stop_ip6 alone_stop_ppp alone_stop_bridge : alone.
Lemma alone_do_stop p : alone P (svc_wan_do_stop_intf p : WM Z).
Proof. unfold svc_wan_do_stop_intf, svc_wan_stop_device, svc_wan_delete_device. keep. Qed.
#[local] Hint Resolve alone_do_stop : alone.
Lemma alone_stop p : alone P (svc_wan_stop_intf p : WM Z).
Proof. unfold svc_wan_stop_intf. keep. Qed.
Lemma alone_start p : alone P (svc_wan_start_intf p : WM Z).
Proof. unfold svc_wan_start_intf. keep. Qed.

(** ** Updates *)

(** There is no commit to take back. *)
Lemma alone_commit : alone P (is_commit_from_tr069 : WM bool).
Proof.
  intros s a s' HP Hrun. pose proof (undisturbed_commit (world s) HP) as Hc. rewrite (no_commit_run s Hc) in Hrun. by simplify_eq.
Qed.
#[local] Hint Resolve alone_stop alone_start alone_commit : alone.
Lemma alone_update_object p : alone P (svc_wan_update_object p : WM Z).
Proof. unfold svc_wan_update_object, svc_wan_load_cfg, avalanche, svc_wan_cfg_update_attr, is_link_up, svc_wan_load_opt. keep. Qed.
Lemma alone_create_object : alone P (svc_wan_create_object : WM _).
Proof.
  unfold svc_wan_create_object, svc_wan_alloc_object, svc_wan_add_to_list. keep.
  match goal with |- alone _ (last_obj ?n ?p) => generalize n p end. intros n. induction n as [|n IH]; intros q; cbn [last_obj]; keep.
Qed.
#[local] Hint Resolve alone_update_object alone_create_object : alone.
Lemma alone_update pa : alone P (svc_wan_mgr_handle_event (EVT_CFG_UPDATE pa) : WM Z).
Proof. cbn [svc_wan_mgr_handle_event]. unfold svc_wan_handle_event_update, svc_wan_find_object. keep. Qed.

End functions.

End WanStable.
