(* ===== verification/WanBoot.v ===== *)
(** * The start of the WAN service

    When the service starts it handles every connection of the configuration as
    if it had changed.  The theorem says that afterwards each of them is
    started, if its configuration is valid. *)

From stdpp Require Import gmap.
From S2P Require Import Prelude CString Text Utility WanObj WanRoute WanCfg WanDev WanMgr WanList WanProps WanRun WanLife.
From S2P Require Import WanEvents WanService WanStable.
Open Scope Z_scope.

Module WanBoot.
Import Text Utility WanObj WanRoute WanCfg WanDev WanMgr WanList WanProps WanRun WanLife WanEvents WanService WanStable.

(** Documented behaviour of the object store: a write changes one attribute of
    one object and makes no object; an object that is created below [waninfo]
    is not in [root.wan].  And the rest of the firmware leaves alone what is
    configured there. *)
Class WanConf (W : Type) `{WanWorld W} : Prop := {
  get_set_other n a v m b w : n ≠ m ∨ a ≠ b → cfg_get m b (cfg_set n a v w) = cfg_get m b w;
  children_set n a v m t w : cfg_children m t (cfg_set n a v w) = cfg_children m t w;
  exists_set n a v m w : cfg_exists m (cfg_set n a v w) = cfg_exists m w;
  get_create n m b w : is_prefix n m = false → cfg_get m b (cfg_create n w) = cfg_get m b w;
  children_create i m t w : in_wan m = true → cfg_children m t (cfg_create (WANINFO_ENTRY_NODE i) w) = cfg_children m t w;
  exists_create n m w : is_prefix n m = false → cfg_exists m (cfg_create n w) = cfg_exists m w;
  get_run c m b w : in_wan m = true → is_config b = true → cfg_get m b (run c w) = cfg_get m b w;
  children_run c m t w : in_wan m = true → cfg_children m t (run c w) = cfg_children m t w;
  exists_run c m w : in_wan m = true → cfg_exists m (run c w) = cfg_exists m w
}.

(** ** The configuration of the connections *)

Section conf.
Context {W : Type} `{WanConf W}.

Record same_conf (w0 w : W) : Prop := {
  same_get m b : in_wan m = true → is_config b = true → cfg_get m b w = cfg_get m b w0;
  same_children m t : in_wan m = true → cfg_children m t w = cfg_children m t w0;
  same_exists m : in_wan m = true → cfg_exists m w = cfg_exists m w0;
  same_commit : commit w = false
}.

Lemma in_wan_apart i m : in_wan m = true → is_prefix (WANINFO_ENTRY_NODE i) m = false.
Proof. intros Hm. destruct (is_prefix _ m) eqn:E; [|done]. apply is_prefix_app in E as [post ->]. by vm_compute in Hm. Qed.
Lemma in_wan_node n m : in_wan n = false → in_wan m = true → n ≠ m.
Proof. by intros Hn Hm ->; rewrite Hn in Hm. Qed.

#[export] Instance same_conf_undisturbed w0 : WanLaws W → Undisturbed (same_conf w0).
Proof.
  intros HL. split.
  - intros c w [Hg Hc He Hm]. split.
    + intros m b Hin Hb. by rewrite get_run, Hg.
    + intros m t Hin. by rewrite children_run, Hc.
    + intros m Hin. by rewrite exists_run, He.
    + unfold commit in *. by rewrite commit_run.
  - intros n a v w Ho [Hg Hc He Hm]. unfold ours in Ho. apply andb_true_iff in Ho as [Ha Hn]. apply negb_true_iff, streq_neq in Ha. split.
    + intros m b Hin Hb. rewrite get_set_other, Hg; [done|done|done|]. apply orb_true_iff in Hn as [Hn|Hn]; apply negb_true_iff in Hn.
      * left. by apply in_wan_node.
      * right. intros ->. by rewrite Hn in Hb.
    + intros m t Hin. by rewrite children_set, Hc.
    + intros m Hin. by rewrite exists_set, He.
    + unfold commit in *. by rewrite commit_set.
  - intros i w [Hg Hc He Hm]. split.
    + intros m b Hin Hb. rewrite get_create, Hg; [done|done|done|by apply in_wan_apart].
    + intros m t Hin. by rewrite children_create, Hc.
    + intros m Hin. rewrite exists_create, He; [done|done|by apply in_wan_apart].
    + unfold commit in *. by rewrite get_create.
  - by intros w [].
Qed.

(** ** What is read depends on the configuration only *)

Lemma read_same w0 w pa a t : same_conf w0 w → in_wan pa = true → is_config a = true → read w pa a t = read w0 pa a t.
Proof. intros Hs Hp Ha. unfold read. by rewrite (same_get _ _ Hs). Qed.

Ltac same_reads w0 w := rewrite ?(read_same w0 w) by first [assumption|reflexivity].

Lemma load_link_same w0 w pa : same_conf w0 w → in_wan pa = true → load_link w pa = load_link w0 pa.
Proof. intros Hs Hp. unfold load_link. same_reads w0 w. reflexivity. Qed.
Lemma load_ppp_same w0 w pa ct : same_conf w0 w → in_wan pa = true → load_ppp w pa ct = load_ppp w0 pa ct.
Proof. intros Hs Hp. destruct ct as [c t]. unfold load_ppp. same_reads w0 w. reflexivity. Qed.
Lemma load_ipv4_same w0 w pa ct : same_conf w0 w → in_wan pa = true → load_ipv4_static w pa ct = load_ipv4_static w0 pa ct.
Proof. intros Hs Hp. destruct ct as [c t]. unfold load_ipv4_static. same_reads w0 w. reflexivity. Qed.
Lemma load_ipv6_same w0 w pa ct : same_conf w0 w → in_wan pa = true → load_ipv6 w pa ct = load_ipv6 w0 pa ct.
Proof. intros Hs Hp. destruct ct as [c t]. unfold load_ipv6. same_reads w0 w. reflexivity. Qed.

(** The ports bound to a connection are not checked. *)
Definition bound (b : Z) (ct : wan_entry_cfg * cstr) : wan_entry_cfg * cstr := (with_bindbit b ct.1, ct.2).
Lemma load_ppp_bound b w pa ct : load_ppp w pa (bound b ct) = bound b (load_ppp w pa ct).
Proof. destruct ct as [c t]. reflexivity. Qed.
Lemma load_ipv4_bound b w pa ct : load_ipv4_static w pa (bound b ct) = bound b (load_ipv4_static w pa ct).
Proof. destruct ct as [c t]. reflexivity. Qed.
Lemma load_ipv6_bound b w pa ct : load_ipv6 w pa (bound b ct) = with_bindbit b (load_ipv6 w pa ct).
Proof. destruct ct as [c t]. reflexivity. Qed.
Lemma check_bound b c : svc_wan_check_cfg (with_bindbit b c) = svc_wan_check_cfg c.
Proof. reflexivity. Qed.

Lemma load_cfg_same w0 w pa : same_conf w0 w → in_wan pa = true → ∃ b, load_cfg pa w = with_bindbit b (load_cfg pa w0).
Proof.
  intros Hs Hp. unfold load_cfg. rewrite (load_link_same w0 w) by done. destruct (load_link w0 pa) as [c t].
  set (b := u32 _). set (b0 := u32 _). exists b. assert (Eb : with_bindbit b c = with_bindbit b (with_bindbit b0 c)) by reflexivity.
  rewrite Eb. set (c0 := with_bindbit b0 c). change (SVC_WAN_IS_BRIDGE (with_bindbit b c0)) with (SVC_WAN_IS_BRIDGE c0).
  destruct (SVC_WAN_IS_BRIDGE c0); [done|]. change (SVC_WAN_IS_PPP (with_bindbit b c0)) with (SVC_WAN_IS_PPP c0).
  change (with_bindbit b c0, t) with (bound b (c0, t)). rewrite (load_ppp_same w0 w), load_ppp_bound by done.
  assert (E : ∀ (x : bool) y z, (if x then bound b y else bound b z) = bound b (if x then y else z)) by (by intros []).
  rewrite E. set (c1 := if SVC_WAN_IS_PPP c0 then _ else _).
  change (SVC_WAN_IS_IPV4_STATIC (bound b c1).1) with (SVC_WAN_IS_IPV4_STATIC c1.1).
  rewrite (load_ipv4_same w0 w), load_ipv4_bound, E by done. set (c2 := if SVC_WAN_IS_IPV4_STATIC c1.1 then _ else _).
  change (SVC_WAN_IS_IPV6 (bound b c2).1) with (SVC_WAN_IS_IPV6 c2.1).
  rewrite (load_ipv6_same w0 w), load_ipv6_bound by done. by destruct (SVC_WAN_IS_IPV6 c2.1).
Qed.
Lemma check_same w0 w pa : same_conf w0 w → in_wan pa = true → svc_wan_check_cfg (load_cfg pa w) = svc_wan_check_cfg (load_cfg pa w0).
Proof. intros Hs Hp. destruct (load_cfg_same w0 w pa Hs Hp) as [b ->]. apply check_bound. Qed.

End conf.

(** ** The two walks *)

Section boot.
Context {W : Type} `{WanLaws W} `{!WanConf W}.
Abbreviation WM := (M (wan W)).

Definition WAN_NODE : cstr := cs "root.wan".
Definition pvc_node (p : Z) : cstr := take 31 (cs "root.wan.pvc." ++ fmt_d p).
Definition index_of (p e : Z) : Z := (p - 1) * 8 + (e - 1).
(** A connection of the configuration. *)
Definition connection (w : W) (i : Z) : Prop :=
  ∃ p e, p ∈ cfg_children WAN_NODE (cs "pvc") w ∧ e ∈ cfg_children (pvc_node p) (cs "entry") w ∧ i = index_of p e.
(** At most eight of each, numbered from 1 to 8. *)
Definition layout (w : W) : Prop :=
  (length (cfg_children WAN_NODE (cs "pvc") w) ≤ 8)%nat ∧
  Forall (λ p, 1 ≤ p ≤ 8 ∧ (length (cfg_children (pvc_node p) (cs "entry") w) ≤ 8)%nat ∧
    Forall (λ e, 1 ≤ e ≤ 8 ∧ cfg_exists (canon (index_of p e)) w = true) (cfg_children (pvc_node p) (cs "entry") w))
    (cfg_children WAN_NODE (cs "pvc") w).

Lemma entry_node p e : 1 ≤ p ≤ 8 → 1 ≤ e ≤ 8 →
  take 31 (cs "root.wan.pvc." ++ fmt_d p ++ cs ".entry." ++ fmt_d e) = canon (index_of p e) ∧ 0 ≤ index_of p e < 64.
Proof.
  intros Hp He. unfold index_of. split; [|lia]. unfold canon.
  assert (E1 : ((p - 1) * 8 + (e - 1)) / 8 = p - 1) by (symmetry; apply (Z.div_unique _ 8 _ (e - 1)); lia).
  assert (E2 : ((p - 1) * 8 + (e - 1)) mod 8 = e - 1) by (symmetry; apply (Z.mod_unique _ 8 (p - 1)); lia).
  rewrite E1, E2, !Z.sub_add. apply take_ge.
  assert (Hd : ∀ n, 1 ≤ n ≤ 8 → (length (fmt_d n) ≤ 2)%nat).
  { intros n Hn. assert (Ha : forallb (λ n, Nat.leb (length (fmt_d n)) 2) (seqZ 1 8) = true) by (by vm_compute).
    rewrite forallb_forall in Ha. apply Nat.leb_le, Ha, list_elem_of_In, elem_of_seqZ. lia. }
  pose proof (Hd p Hp). pose proof (Hd e He). rewrite !length_app.
  change (length (cs "root.wan.pvc.")) with 13%nat. change (length (cs ".entry.")) with 7%nat. lia.
Qed.
Lemma canon_in_wan i : in_wan (canon i) = true.
Proof. reflexivity. Qed.

(** *** One connection *)

Variables (s0 : wan W).
Hypothesis memory : ∀ w : W, malloc_ok w = true.
Let w0 := world s0.

(** The service has come from [s0], where the configuration was the same. *)
Definition running (s : wan W) : Prop := same_conf w0 (world s) ∧ good (look s) ∧ rtc wan_step s0 s.
(** The connection has been brought up, if it can be. *)
Definition brought_up (i : Z) (s : wan W) : Prop :=
  ∃ p o, objs s !! p = Some o ∧ idx o = i ∧ path o = canon i ∧ started o = negb (svc_wan_check_cfg (load_cfg (canon i) w0) <=? 0).
(** What a step of the walks does: [done] are brought up, none is lost. *)
Definition progress (now : Z → Prop) (s s' : wan W) : Prop :=
  running s' ∧ (∀ i, now i → brought_up i s') ∧ (∀ i, brought_up i s → brought_up i s').

Lemma progress_trans now1 now2 s1 s2 s3 : progress now1 s1 s2 → progress now2 s2 s3 → progress (λ i, now1 i ∨ now2 i) s1 s3.
Proof. intros (_ & Hn1 & Hk1) (Hr & Hn2 & Hk2). split; [done|]. split; [intros i [?|?]; auto|auto]. Qed.
Lemma progress_refl s : running s → progress (λ _, False) s s.
Proof. by split. Qed.
Lemma progress_mono (now now' : Z → Prop) s s' : (∀ i, now' i → now i) → progress now s s' → progress now' s s'.
Proof. intros Hi (Hr & Hn & Hk). split; [done|]. split; [|done]. auto. Qed.

Lemma brought_up_look i s : brought_up i s ↔
  ∃ p o, v_objs (look s) !! p = Some o ∧ idx o = i ∧ path o = canon i ∧ started o = negb (svc_wan_check_cfg (load_cfg (canon i) w0) <=? 0).
Proof.
  split; intros (p & o & Hp & Hi & Hpa & Hs).
  - exists p, (core o). split; [by apply look_obj|done].
  - destruct (look_inv _ _ _ Hp) as (o' & Hp' & <-). by exists p, o'.
Qed.

Lemma handle_connection i s : 0 ≤ i < 64 → cfg_exists (canon i) w0 = true → running s →
  wp (svc_wan_mgr_handle_event (EVT_CFG_UPDATE (canon i))) s (λ _ s', progress (λ j, j = i) s s').
Proof.
  intros Hi Hex (Hc & Hg & Hst). assert (Hq : quiet i s) by (intros p o _ _; rewrite (same_commit _ _ Hc); apply andb_false_r).
  destruct (wp_run _ _ _ (update_event_spec i s Hi Hg Hq)) as (r & s' & Hok & Hg' & Hsp & Hconf).
  apply (wp_Ok _ _ _ _ _ Hok). set (w1 := run _ _) in Hconf.
  assert (Hc1 : same_conf w0 w1) by (by apply (undisturbed_run (P := same_conf w0))).
  assert (Hup : brought_up i s').
  { destruct Hconf as (_ & p & o & Hp & Ho & Hpa & Hs & _); [by rewrite (same_exists _ _ Hc1)|apply memory|].
    apply brought_up_look. exists p, o. do 3 (split; [done|]). by rewrite Hs, (check_same w0 w1) by done. }
  split; [|split].
  - split; [by apply (alone_update (P := same_conf w0) _ _ _ _ Hc Hok)|]. split; [done|]. apply (rtc_r _ s); [done|].
    apply (step_event (EVT_CFG_UPDATE (canon i)) r); [by exists i|done].
  - by intros j ->.
  - intros j Hj. destruct (decide (j = i)) as [->|Hne]; [done|]. apply brought_up_look in Hj as (p & o & Hp & Ho & Hpa & Hs).
    destruct (Hsp p o Hp) as (o' & Hp' & E); [congruence|]. apply brought_up_look. exists p, o'. injection E as E1 E2 _ _ E3.
    split; [done|]. split; [congruence|]. split; congruence.
Qed.

(** *** A walk

    The connections with whether they are taken to be for the Internet: one
    without a list of services is taken to be what the one before it is. *)
Fixpoint plan_entries (p : Z) (entry : list Z) (tmp : cstr) : list (Z * bool) * cstr :=
  match entry with
  | [] => ([], tmp)
  | e :: entry' =>
      let tmp := default tmp (take 63 <$> cfg_get (canon (index_of p e)) (cs "ServiceList") w0) in
      let rest := plan_entries p entry' tmp in
      ((index_of p e, found tmp "INTERNET") :: rest.1, rest.2)
  end.
Fixpoint plan_pvcs (pvc : list Z) (tmp : cstr) : list (Z * bool) :=
  match pvc with
  | [] => []
  | p :: pvc' =>
      let here := plan_entries p (cfg_children (pvc_node p) (cs "entry") w0) tmp in
      here.1 ++ plan_pvcs pvc' here.2
  end.
(** Those a walk handles: all, or the ones of one kind. *)
Definition entries_walked (first int : bool) (p : Z) (entry : list Z) (tmp : cstr) (i : Z) : Prop :=
  if first then i ∈ index_of p <$> entry else (i, int) ∈ (plan_entries p entry tmp).1.
Definition pvcs_walked (first int : bool) (pvc : list Z) (tmp : cstr) (i : Z) : Prop :=
  if first then ∃ p e, p ∈ pvc ∧ e ∈ cfg_children (pvc_node p) (cs "entry") w0 ∧ i = index_of p e else (i, int) ∈ plan_pvcs pvc tmp.
Definition entries_ok (p : Z) (entry : list Z) : Prop := Forall (λ e, 1 ≤ e ≤ 8 ∧ cfg_exists (canon (index_of p e)) w0 = true) entry.

(** A connection, and those after it. *)
Lemma walk_next {A} (m : WM A) i s (c : bool) now (Q : A → wan W → Prop) :
  0 ≤ i < 64 → cfg_exists (canon i) w0 = true → running s →
  (∀ s', running s' → wp m s' (λ a s'', progress now s' s'' ∧ Q a s'')) →
  wp (when c (svc_wan_mgr_handle_event (EVT_CFG_UPDATE (canon i));; mret tt);; m) s
    (λ a s', progress (λ j, (c = true ∧ j = i) ∨ now j) s s' ∧ Q a s').
Proof.
  intros Hi Hex Hrun Hm. apply wp_bind. eapply wp_mono with (Q := λ _ s', progress (λ j, c = true ∧ j = i) s s').
  - apply wp_when; intros Hc.
    + apply wp_bind. eapply wp_mono; [by apply handle_connection|]. intros ? s' Hpr. apply wp_ret.
      eapply progress_mono; [|exact Hpr]. by intros j [_ ?].
    + eapply progress_mono; [|by apply progress_refl]. intros j [? _]. congruence.
  - intros ? s' Hpr. eapply wp_mono; [apply Hm, Hpr|]. intros ? s'' [Hpr' HQ]. split; [|done]. exact (progress_trans _ _ _ _ _ Hpr Hpr').
Qed.
Lemma walk_first {A} (m : WM A) i s now (Q : A → wan W → Prop) :
  0 ≤ i < 64 → cfg_exists (canon i) w0 = true → running s →
  (∀ s', running s' → wp m s' (λ a s'', progress now s' s'' ∧ Q a s'')) →
  wp (svc_wan_mgr_handle_event (EVT_CFG_UPDATE (canon i));; m) s (λ a s', progress (λ j, j = i ∨ now j) s s' ∧ Q a s').
Proof.
  intros Hi Hex Hrun Hm. apply wp_bind. eapply wp_mono; [by apply handle_connection|].
  intros ? s' Hpr. eapply wp_mono; [apply Hm, Hpr|]. intros ? s'' [Hpr' HQ]. split; [|done]. exact (progress_trans _ _ _ _ _ Hpr Hpr').
Qed.

Lemma get_same n a k s : in_wan n = true → is_config a = true → running s →
  cfg_get_object_attr n a k s = Ok (take (k - 1) <$> cfg_get n a w0, s).
Proof.
  intros Hn Ha [Hc _]. unfold cfg_get_object_attr. rewrite (M_bind_Ok _ _ _ (cfg_get n a (world s)) s) by done. by rewrite (same_get _ _ Hc).
Qed.

Lemma start_entries_run int first p entry tmp s : 1 ≤ p ≤ 8 → entries_ok p entry → running s →
  wp (start_entries int first p entry tmp) s
    (λ tmp' s', progress (entries_walked first int p entry tmp) s s' ∧ (first = false → tmp' = (plan_entries p entry tmp).2)).
Proof.
  intros Hp Hok. revert tmp s. induction Hok as [|e entry [He Hex] Hok IH]; intros tmp s Hrun; cbn [start_entries plan_entries].
  - apply wp_ret. split; [|done]. eapply progress_mono; [|by apply progress_refl]. intros i. destruct first; apply not_elem_of_nil.
  - cbv zeta. cbn [fst snd]. destruct (entry_node p e Hp He) as [-> Hi]. destruct first.
    + eapply wp_mono; [by apply (walk_first _ (index_of p e) s _ _ Hi Hex Hrun (IH tmp))|]. intros tmp' s' [Hpr _]. split; [|done].
      eapply progress_mono; [|exact Hpr]. by intros i [->|Hin]%elem_of_cons; [left|right].
    + apply wp_bind. apply (wp_Ok _ _ _ _ _ (get_same (canon (index_of p e)) (cs "ServiceList") 64 s eq_refl eq_refl Hrun)). change (64 - 1)%nat with 63%nat.
      set (t := default tmp _). eapply wp_mono; [by apply (walk_next _ (index_of p e) s _ _ _ Hi Hex Hrun (IH t))|].
      intros tmp' s' [Hpr Htmp]. split; [|done]. eapply progress_mono; [|exact Hpr].
      intros i [[= Ei Eb]|Hin]%elem_of_cons; [left; by rewrite Ei, Eb, eqb_reflx|by right].
Qed.

Lemma query8_run n t s : in_wan n = true → (length (cfg_children n t w0) ≤ 8)%nat → running s →
  query8 n t s = Ok (cfg_children n t w0, s).
Proof.
  intros Hn Hl [Hc _]. unfold query8. rewrite (M_bind_Ok _ _ _ (cfg_children n t (world s)) s), (same_children _ _ Hc) by done.
  by rewrite (proj2 (Z.ltb_ge _ _)) by (unfold SVC_WAN_MAX_PVC_NUM; lia).
Qed.

Lemma pvc_in_wan p : 1 ≤ p ≤ 8 → in_wan (pvc_node p) = true.
Proof.
  intros Hp. assert (Ha : forallb (λ p, in_wan (pvc_node p)) (seqZ 1 8) = true) by (by vm_compute).
  rewrite forallb_forall in Ha. apply Ha, list_elem_of_In, elem_of_seqZ. lia.
Qed.

Lemma start_pvcs_run int first pvc tmp s :
  Forall (λ p, 1 ≤ p ≤ 8 ∧ (length (cfg_children (pvc_node p) (cs "entry") w0) ≤ 8)%nat ∧ entries_ok p (cfg_children (pvc_node p) (cs "entry") w0)) pvc →
  running s → wp (start_pvcs int first pvc tmp) s (λ _ s', progress (pvcs_walked first int pvc tmp) s s').
Proof.
  intros Hok. revert tmp s. induction Hok as [|p pvc (Hp & Hl & He) Hok IH]; intros tmp s Hrun; cbn [start_pvcs plan_pvcs].
  - apply wp_ret. eapply progress_mono; [|by apply progress_refl]. intros i. destruct first; [by intros (p & e & ?%elem_of_nil & _)|apply not_elem_of_nil].
  - apply wp_bind. apply (wp_Ok _ _ _ _ _ (query8_run _ _ s (pvc_in_wan p Hp) Hl Hrun)). apply wp_bind.
    eapply wp_mono; [by apply start_entries_run|]. intros tmp' s' [Hpr Htmp]. eapply wp_mono; [apply IH, Hpr|]. intros ? s'' Hpr'.
    eapply progress_mono; [|exact (progress_trans _ _ _ _ _ Hpr Hpr')]. intros i. unfold pvcs_walked, entries_walked. destruct first.
    + intros (q & e & [->|Hin]%elem_of_cons & Hine & ->); [left; apply list_elem_of_fmap; by exists e|right; by exists q, e].
    + rewrite (Htmp eq_refl). cbn [plan_pvcs]. cbv zeta. intros [?|?]%elem_of_app; [by left|by right].
Qed.

(** The first walk is for all when the attribute is set, and the second then
    does nothing. *)
Definition all_first : bool :=
  match take 11 <$> cfg_get (cs "root.wan.common") (cs "InternetNotFirst") w0 with Some (c :: t) => negb (atoi (c :: t) =? 0) | _ => false end.
Lemma start_all_run int s : layout w0 → running s →
  wp (svc_wan_start_all_wan_entry int) s (λ r s', r = 0 ∧ progress (λ i, (all_first && negb int) = false ∧
    pvcs_walked all_first int (cfg_children WAN_NODE (cs "pvc") w0) [] i) s s').
Proof.
  intros [Hl Hok] Hrun. unfold svc_wan_start_all_wan_entry. apply wp_bind.
  apply (wp_Ok _ _ _ _ _ (get_same (cs "root.wan.common") (cs "InternetNotFirst") 12 s eq_refl eq_refl Hrun)). cbv zeta. change (12 - 1)%nat with 11%nat.
  fold all_first. destruct (all_first && negb int).
  - apply wp_ret. split; [done|]. eapply progress_mono; [|by apply progress_refl]. by intros i [? _].
  - apply wp_bind. apply (wp_Ok _ _ _ _ _ (query8_run WAN_NODE (cs "pvc") s eq_refl Hl Hrun)). apply wp_bind.
    eapply wp_mono; [by apply start_pvcs_run|]. intros ? s' Hpr. apply wp_ret. split; [done|]. eapply progress_mono; [|exact Hpr].
    by intros i [_ ?].
Qed.

Lemma planned p entry tmp e : e ∈ entry → ∃ b, (index_of p e, b) ∈ (plan_entries p entry tmp).1.
Proof.
  revert tmp. induction entry as [|e' entry IH]; intros tmp; [by intros ?%elem_of_nil|]. cbn [plan_entries]. cbv zeta. cbn [fst].
  intros [->|Hin]%elem_of_cons; [eexists; left|]. destruct (IH (default tmp (take 63 <$> cfg_get (canon (index_of p e')) (cs "ServiceList") w0)) Hin) as [b Hb].
  exists b. by right.
Qed.
Lemma planned_pvc pvc tmp p e : p ∈ pvc → e ∈ cfg_children (pvc_node p) (cs "entry") w0 → ∃ b, (index_of p e, b) ∈ plan_pvcs pvc tmp.
Proof.
  intros Hp He. revert tmp Hp. induction pvc as [|q pvc IH]; intros tmp; [by intros ?%elem_of_nil|]. cbn [plan_pvcs]. cbv zeta.
  intros [->|Hin]%elem_of_cons.
  - destruct (planned q _ tmp e He) as [b Hb]. exists b. apply elem_of_app. by left.
  - destruct (IH (plan_entries q (cfg_children (pvc_node q) (cs "entry") w0) tmp).2 Hin) as [b Hb]. exists b. apply elem_of_app. by right.
Qed.

Lemma start_run : layout w0 → running s0 →
  wp svc_wan_start s0 (λ r s', r = 0 ∧ running s' ∧ ∀ i, connection w0 i → brought_up i s').
Proof.
  intros Hlay Hrun. unfold svc_wan_start. apply wp_bind. eapply wp_mono; [by apply start_all_run|]. intros _ s1 (_ & Hr1 & Hn1 & _).
  apply wp_bind. eapply wp_mono; [by apply start_all_run|]. intros _ s2 (_ & Hr2 & Hn2 & Hk2). apply wp_ret. split; [done|]. split; [done|].
  intros i (p & e & Hp & He & ->). destruct all_first.
  - apply Hk2, Hn1. split; [done|]. by exists p, e.
  - destruct (planned_pvc _ [] p e Hp He) as [[] Hb]; [apply Hk2, Hn1|apply Hn2]; by split.
Qed.

End boot.

(** C5: When the service starts, with at most eight instances of each kind and
    no commit under way, it returns, and every connection of the configuration
    has an object, started if and only if its configuration was valid; the
    connections are handled by events the service may be given, so what holds
    along all events holds here too.  Those for the Internet come first, but
    whatever [InternetNotFirst] says and whatever services are listed, none is
    left out. *)
Theorem service_start_brings_up_all {W : Type} `{WanLaws W} `{!WanConf W} (w : W) (s : wan W) :
  no_route w → rtc wan_step (boot w) s → (∀ w' : W, malloc_ok w' = true) → commit (world s) = false → layout (world s) →
  ∃ s', svc_wan_start s = Ok (0, s') ∧ rtc wan_step s s' ∧
    ∀ i, connection (world s) i → ∃ p o, objs s' !! p = Some o ∧ idx o = i ∧ path o = canon i ∧
      started o = negb (svc_wan_check_cfg (load_cfg (canon i) (world s)) <=? 0).
Proof.
  intros Hw Hrun Hmem Hc Hlay. assert (Hr : running s s).
  { split; [by split|]. split; [exact (steps_good _ _ (boot_good w Hw) Hrun)|done]. }
  destruct (wp_run _ _ _ (start_run s Hmem Hlay Hr)) as (r & s' & Hok & -> & (_ & _ & Hst) & Hup). by exists s'.
Qed.

(** ** An example

    A configuration that nobody else changes, with three connections, one of
    them disabled. *)
Record site := { site_store : cstr → cstr → option cstr }.
Definition site_children (n t : cstr) : list Z :=
  if streq n WAN_NODE then [1; 2] else if streq n (pvc_node 1) then [1; 2] else if streq n (pvc_node 2) then [1] else [].
Definition site_ids (pa : cstr) : list Z :=
  match strstr pa (cs ".entry.") with Some (_, e) => [1; 1; atoi (drop 13 pa); atoi (drop 7 e)] | None => [] end.
#[global] Instance site_world : WanWorld site := {|
  cfg_get n a w := site_store w n a;
  cfg_set n a v w := {| site_store := λ m b, if streq n m && streq a b then Some v else site_store w m b |};
  cfg_exists n _ := in_wan n;
  cfg_children n t _ := site_children n t;
  cfg_create _ w := w;
  cfg_delete n w := {| site_store := λ m b, if is_prefix n m then None else site_store w m b |};
  path_ids pa _ := site_ids pa;
  run _ w := w;
  file _ _ := None;
  wan_mac _ _ := [];
  get_port_binding_interface_info _ _ _ := 0;
  is_full_route_enable _ _ := false;
  malloc_ok _ := true;
  fopen_ok _ _ := true;
  uninitialised _ := [];
  MAX_SMUX_NUM := 8;
  MAX_WAN_ENTRY_NUMBER := 8;
  MAX_WAN_IF_INDEX := 63
|}.
Lemma site_ids_canon i : 0 ≤ i < 64 → site_ids (canon i) = [1; 1; i / 8 + 1; i mod 8 + 1].
Proof.
  intros Hi. assert (Ha : forallb (λ i, bool_decide (site_ids (canon i) = [1; 1; i / 8 + 1; i mod 8 + 1])) (seqZ 0 64) = true)
    by (by vm_compute).
  rewrite forallb_forall in Ha. apply (bool_decide_eq_true_1 _), Ha, list_elem_of_In, elem_of_seqZ. lia.
Qed.
Lemma site_set_other n a v m b w : n ≠ m ∨ a ≠ b → cfg_get (W := site) m b (cfg_set n a v w) = cfg_get m b w.
Proof.
  intros Hne. cbn [cfg_get cfg_set site_world site_store]. destruct Hne as [E|E]; apply streq_neq in E; by rewrite E, ?andb_false_r.
Qed.
#[global] Instance site_laws : WanLaws site.
Proof.
  split; try done; intros; cbn [cfg_delete site_world].
  - cbn [cfg_get cfg_set site_world site_store]. by rewrite !(proj2 (streq_eq _ _) eq_refl).
  - apply site_set_other. by right.
  - cbn [cfg_get site_world site_store]. match goal with Hn : is_prefix _ _ = false |- _ => by rewrite Hn end.
  - apply site_set_other. by right.
  - exists 1, 1. by apply site_ids_canon.
Qed.
#[global] Instance site_conf : WanConf site.
Proof. split; try done. apply site_set_other. Qed.

Definition site_attrs (l : list (string * string)) (a : cstr) : option cstr :=
  (λ nv, cs nv.2) <$> List.find (λ nv, streq a (cs nv.1)) l.
Definition by_dhcp (active services : string) : list (string * string) :=
  [("Active", active); ("WanMode", "Route"); ("LinkMode", "linkIP"); ("ISP", "0"); ("VLANMode", "UNTAG"); ("IPVERSION", "IPv4");
   ("ServiceList", services)]%string.
Definition three : site := {| site_store := λ n a,
  if streq n (canon 0) then site_attrs (by_dhcp "Yes" "TR069") a
  else if streq n (canon 1) then site_attrs (by_dhcp "Yes" "INTERNET") a
  else if streq n (canon 8) then site_attrs (by_dhcp "No" "OTHER") a else None |}.

Lemma three_layout : layout three.
Proof.
  unfold layout. change (cfg_children WAN_NODE (cs "pvc") three) with [1; 2]. split; [cbn; lia|].
  apply Forall_cons. split; [|apply Forall_singleton]; (split; [lia|]).
  - change (cfg_children (pvc_node 1) (cs "entry") three) with [1; 2]. split; [cbn; lia|].
    apply Forall_cons. split; [|apply Forall_singleton]; (split; [lia|by vm_compute]).
  - change (cfg_children (pvc_node 2) (cs "entry") three) with [1]. split; [cbn; lia|].
    apply Forall_singleton. split; [lia|by vm_compute].
Qed.
(** Which of them come up. *)
Example three_started :
  match svc_wan_start (boot three) with
  | Ok (r, s') => (r, (λ o, (idx o, started o)) <$> (map_to_list (objs s')).*2)
  | _ => (-1, []) end = (0, [(8, false); (0, true); (1, true)]).
Proof. by vm_compute. Qed.

Lemma service_start_brings_up_all_witness :
  layout three ∧ ∃ s', svc_wan_start (boot three) = Ok (0, s') ∧ rtc wan_step (boot three) s' ∧
    ∀ i, connection three i → ∃ p o, objs s' !! p = Some o ∧ idx o = i ∧ path o = canon i ∧
      started o = negb (svc_wan_check_cfg (load_cfg (canon i) three) <=? 0).
Proof.
  exact (conj three_layout (service_start_brings_up_all three (boot three) (conj eq_refl eq_refl) (rtc_refl _ _) (λ _, eq_refl) eq_refl three_layout)).
Defined.

End WanBoot.
