(* ===== verification/CfgTyped.v ===== *)
(** * The store stays well typed

    Whatever clients create, delete, write and copy, the store stands for a
    tree whose objects hang where the type table says, the memory in use is
    that of the tree, and the next operation returns. *)

From S2P Require Import Prelude CString CfgType CfgPath CfgObj CfgHeap CfgStore CfgCreate CfgSpec CfgProps CfgDoc CfgReload.
Open Scope Z_scope.

Module CfgTyped.
Import CfgType CfgPath CfgObj CfgHeap CfgStore CfgCreate CfgSpec CfgProps CfgDoc CfgReload.

(** ** The tree of a store is determined *)

Lemma obj_rep_unique s par f g : obj_rep s par f → obj_rep s par g → top f = top g → f = g.
Proof.
  revert par g. induction f as [|e k IHk sb IHs]; intros par [|e' k' sb']; [done..|].
  intros (He & Hx & Hk & Hs) (He' & Hx' & Hk' & Hs') [= Hloc]. rewrite <- Hloc, He in He'.
  unfold node_of in He'. injection He' as Hid Htk Hts Hxl. rewrite <- Hxl, Hx in Hx'. injection Hx' as Hat.
  assert (e = e') as <- by (destruct e, e'; simpl in *; congruence).
  by rewrite (IHk _ k' Hk Hk' Htk), (IHs _ sb' Hs Hs' Hts).
Qed.

Lemma rep_tree_unique s F G : rep_tree s F → rep_tree s G → F = G.
Proof. intros [HF rF _ _ _] [HG rG _ _ _]. eapply obj_rep_unique; [done..|congruence]. Qed.

(** ** Typed trees *)

Section table.
Context (E : cfg_env) (tk : forest tloc) (wf : wf_env E tk).
Let T := env_types E.
Let R := env_reg E.

(** The objects below one of type [P] are of types below [P]. *)
Fixpoint typed (P : tloc) (f : eforest) : Prop :=
  match f with
  | FNil => True
  | FCons e k sb =>
      match cfg_type_from_oid E (e_id e) with
      | Some n => n ∈ children E P ∧ typed n k
      | None => False
      end ∧ typed P sb
  end.

Definition typed_tree (F : eforest) : Prop :=
  match F with
  | FNil => True
  | FCons r K _ => cfg_type_from_oid E (e_id r) = Some (env_root E) ∧ typed (env_root E) K
  end.

Lemma typed_fapp P f g : typed P f → typed P g → typed P (fapp f g).
Proof using. induction f as [|e k _ sb IH]; [done|]. cbn [fapp typed]. intros [Ha Hs] Hg. split; [done|by apply IH]. Qed.

Lemma typed_remove P f o : typed P f → typed P (f_remove f o).
Proof using.
  induction f as [|e k _ sb IH]; [done|]. cbn [f_remove typed]. intros [Ha Hs].
  destruct (e_id e =? o); [done|]. split; [done|by apply IH].
Qed.

(** The type of an object on the way, and what may be put in its place. *)
Lemma typed_focus P f o l e k :
  typed P f → f_find f o l = Some (e, k) →
  ∃ n, cfg_type_from_oid E (e_id e) = Some n ∧ typed n k ∧
    ∀ e' k', e_id e' = e_id e → typed n k' → typed P (f_update f o l e' k').
Proof using.
  revert P o l. induction f as [|a ka IHk sb IHs]; intros P o l; cbn [typed f_find]; [done|]. intros [Ha Hsb].
  destruct (e_id a =? o) eqn:Eo.
  - destruct (cfg_type_from_oid E (e_id a)) as [m|] eqn:Hm; [|done]. destruct Ha as [Hin Hka]. destruct l as [|o' l].
    + intros [= <- <-]. exists m. do 2 (split; [done|]). intros e' k' He Hk'. cbn [f_update]. rewrite Eo.
      cbn [typed]. by rewrite He, Hm.
    + intros Hf. destruct (IHk m o' l Hka Hf) as (n & Hn & Hk & Hup). exists n. do 2 (split; [done|]).
      intros e' k' He Hk'. cbn [f_update]. rewrite Eo. cbn [typed]. rewrite Hm. split; [split; [done|by apply Hup]|done].
  - intros Hf. destruct (IHs P o l Hsb Hf) as (n & Hn & Hk & Hup). exists n. do 2 (split; [done|]).
    intros e' k' He Hk'. cbn [f_update]. rewrite Eo. cbn [typed]. split; [done|by apply Hup].
Qed.

Lemma typed_lookup F l e k :
  typed_tree F → lookup F l = Some (e, k) →
  ∃ n, cfg_type_from_oid E (e_id e) = Some n ∧ typed n k ∧
    ∀ e' k', e_id e' = e_id e → typed n k' → typed_tree (update F l e' k').
Proof using.
  unfold lookup, update. destruct F as [|r K sb]; [done|]. intros [Hr HK]. cbn [f_find f_update]. rewrite Z.eqb_refl.
  destruct l as [|o l].
  - intros [= <- <-]. exists (env_root E). do 2 (split; [done|]). intros e' k' He Hk'. cbn [typed_tree]. by rewrite He.
  - intros Hf. destruct (typed_focus _ _ _ _ _ _ HK Hf) as (n & Hn & Hk & Hup). exists n. do 2 (split; [done|]).
    intros e' k' He Hk'. cbn [typed_tree]. split; [done|by apply Hup].
Qed.

(** What is made for the table is typed, dynamic objects taken out or not. *)
Lemma made_typed `{Shm} P tf f dyn :
  P ∈ all_types (env_root E) tk → types_rep T (Some P) tf → roots tf ⊆ children E P → made E tf f →
  typed P (prune dyn f).
Proof using wf.
  revert P f. induction tf as [|n tk' IHk ts IHs]; intros P [|e k sb] HP Hrep Hin; cbn [made]; [done..|].
  intros (He & _ & Hk & Hsb). destruct Hrep as ((ty & Hty & _ & Hsub) & Hrk & Hrs). cbn [roots] in Hin.
  assert (HnP : n ∈ children E P) by (apply Hin; by left).
  pose proof (children_types E tk wf P n HP HnP) as Hn.
  assert (Hch : children E n = roots tk') by (unfold children; fold T; by rewrite Hty, Hsub).
  pose proof (IHs P sb HP Hrs ltac:(intros c Hc; apply Hin; by right) Hsb) as Hts.
  pose proof (IHk n k Hn Hrk ltac:(by rewrite Hch) Hk) as Htk.
  pose proof (type_id_range E tk n wf Hn) as Hr.
  cbn [prune]. destruct (dyn _); [done|]. cbn [typed]. split; [|done].
  replace (cfg_type_from_oid E (e_id e)) with (Some n); [done|]. symmetry.
  assert (Hei : e_id e = type_id R n * 2 ^ 16 + 1).
  { rewrite He. unfold CFG_TYPE_SHIFT. rewrite Z.shiftl_mul_pow2 by lia. apply u32_small. fold R in Hr. lia. }
  destruct (oid_parts (type_id R n) 1 ltac:(unfold R; lia) ltac:(lia)) as [Ht _].
  unfold cfg_type_from_oid. rewrite Hei, Ht. destruct wf as [_ [_ Hfind _] _]. by apply Hfind.
Qed.

Lemma subtree_typed `{Shm} n f : n ∈ all_types (env_root E) tk → subtree E n f → typed n f.
Proof using wf.
  intros Hn (ck & fk & Hrep & Hch & _ & Hm & ->). apply (made_typed n ck); [done|done|by rewrite Hch|done].
Qed.

(** The object a path names has the type of the last segment. *)
Lemma last_type_types p n : resolves E None p → last_type None p = Some n → n ∈ all_types (env_root E) tk.
Proof using wf.
  intros Hres Hl. pose proof (resolves_types E tk None p wf ltac:(done) Hres) as Ht. unfold last_type in Hl.
  destruct (last p) as [sg|] eqn:Hp; [|done]. injection Hl as <-. rewrite Forall_forall in Ht. apply Ht.
  apply last_Some in Hp as [p' ->]. apply elem_of_app. right. by left.
Qed.

Lemma new_oid_type sg kids :
  sg_type sg ∈ all_types (env_root E) tk → inst_ok (sg_inst sg) → Forall (λ e, uint (e_id e)) (roots kids) →
  (sg_inst sg = None → room_for kids (target_oid R sg)) →
  cfg_type_from_oid E (new_oid kids (target_oid R sg)) = Some (sg_type sg).
Proof using wf.
  intros Hty Hi Hids Hroom. destruct (target_facts E tk wf sg Hty Hi) as (Hs & Hpos & Hfrom & Hid).
  fold R in Hs, Hpos, Hfrom, Hid. unfold new_oid. destruct (CFG_OID_TO_ID _ =? 0) eqn:Hz; [|done]. zify_bool. rewrite Hid in Hz.
  destruct (sg_inst sg) as [i|] eqn:Hin; [simpl in Hz, Hi; lia|]. specialize (Hroom eq_refl).
  destruct (next_oid_fresh kids _ (sint_uint _ Hs) Hids Hroom) as (Hm & Hu & _).
  pose proof (type_id_range E tk _ wf Hty) as Hr. fold R in Hr.
  rewrite !land_type in Hm by (done || by apply sint_uint).
  assert (Ht : target_oid R sg = type_id R (sg_type sg) * 2 ^ 16) by (unfold target_oid; rewrite Hin; simpl; lia).
  rewrite Ht, Z_mod_mult, Z.sub_0_r in Hm. pose proof (Z.mod_pos_bound (next_oid kids (target_oid R sg)) (2 ^ 16) ltac:(lia)) as Hb.
  destruct (oid_parts (type_id R (sg_type sg)) (next_oid kids (target_oid R sg) mod 2 ^ 16) ltac:(lia) Hb) as [Hp _].
  unfold cfg_type_from_oid in *. replace (next_oid kids (target_oid R sg))
    with (type_id R (sg_type sg) * 2 ^ 16 + next_oid kids (target_oid R sg) mod 2 ^ 16) by (rewrite Ht in *; lia).
  rewrite Hp. destruct wf as [_ [_ Hfind _] _]. by apply Hfind.
Qed.

Lemma f_find_last_id f o l e k : f_find f o l = Some (e, k) → e_id e = default o (last l).
Proof using.
  revert o l. induction f as [|a ka IHk sb IHs]; intros o l; cbn [f_find]; [done|].
  destruct (e_id a =? o) eqn:Eo; [|apply IHs]. destruct l as [|o' l]; [intros [= <- <-]; by zify_bool|].
  intros Hf. rewrite (IHk _ _ Hf), last_cons. by destruct (last l).
Qed.

Lemma found_type F p e k :
  typed_tree F → resolves E None p → p ≠ [] → lookup F (ids_of E p) = Some (e, k) →
  cfg_type_from_oid E (e_id e) = last_type None p.
Proof using wf.
  intros HF Hres Hp Hl. destruct p as [|r p]; [done|]. destruct p as [|sg p] using rev_ind.
  - cbn [resolves] in Hres. destruct Hres as (Hq & _). unfold ids_of, lookup in Hl. destruct F as [|r' K sb]; [done|].
    cbn [map tail f_find] in Hl. rewrite Z.eqb_refl in Hl. injection Hl as <- <-. destruct HF as [-> _].
    unfold last_type. cbn [last]. unfold cfg_type_query_child in Hq. destruct (type_at _ _); [|done..].
    unfold mbind, res_bind in Hq. by destruct (_ =? 0); [injection Hq as <-|].
  - clear IHp. unfold ids_of, lookup in Hl. destruct F as [|r' K sb]; [done|].
    apply f_find_last_id in Hl. rewrite app_comm_cons, map_app in Hl. cbn [map tail app] in Hl.
    rewrite last_snoc in Hl. cbn [default from_option id] in Hl.
    assert (Hlt : last_type None (r :: p ++ [sg]) = Some (sg_type sg)) by (unfold last_type; by rewrite app_comm_cons, last_snoc).
    rewrite Hlt. pose proof (last_type_types _ _ Hres Hlt) as Hty. pose proof (type_id_range E tk _ wf Hty) as Hr.
    assert (Hi : inst_ok (sg_inst sg)).
    { clear -Hres. destruct (last_seg E (r :: p) sg) as (_ & Hi & _); [done|done|done]. }
    destruct (oid_parts (type_id R (sg_type sg)) (default 1 (sg_inst sg))) as [Hp1 _]; [unfold R; lia| |].
    { destruct (sg_inst sg); simpl in *; unfold CFG_OBJ_MASK in *; lia. }
    change (e_id e = seg_oid R sg) in Hl. unfold cfg_type_from_oid, seg_oid in *. rewrite Hl, Hp1.
    destruct wf as [_ [_ Hfind _] _]. by apply Hfind.
Qed.
End table.

(** ** Memory *)

(** The entries of a tree around the one that is replaced. *)
Lemma f_update_perm f o l e k :
  f_find f o l = Some (e, k) →
  ∃ rest, preorder f ≡ₚ e :: preorder k ++ rest ∧
    ∀ e' k', preorder (f_update f o l e' k') ≡ₚ e' :: preorder k' ++ rest.
Proof.
  revert o l. induction f as [|a ka IHk sb IHs]; intros o l; cbn [f_find f_update preorder]; [done|].
  destruct (e_id a =? o).
  - destruct l as [|o' l]; [intros [= <- <-]; by exists (preorder sb)|]. intros Hf.
    destruct (IHk o' l Hf) as (rest & Hp & Hu). exists (a :: rest ++ preorder sb). cbn [preorder]. split.
    + rewrite Hp. cbn [app]. rewrite <- app_assoc. by rewrite <- Permutation_middle, perm_swap.
    + intros e' k'. cbn [preorder]. rewrite Hu. cbn [app]. rewrite <- app_assoc. by rewrite <- Permutation_middle, perm_swap.
  - intros Hf. destruct (IHs o l Hf) as (rest & Hp & Hu). exists (a :: preorder ka ++ rest).
    assert (Hmove : ∀ (x : entry) m, a :: preorder ka ++ x :: m ++ rest ≡ₚ x :: m ++ a :: preorder ka ++ rest).
    { intros x m. rewrite <- Permutation_middle, perm_swap. constructor. rewrite <- Permutation_middle. constructor.
      by rewrite !app_assoc, (Permutation_app_comm m). }
    split; [by rewrite Hp|]. intros e' k'. cbn [preorder]. by rewrite Hu.
Qed.

Lemma update_perm F l e k :
  lookup F l = Some (e, k) →
  ∃ rest, preorder F ≡ₚ e :: preorder k ++ rest ∧ ∀ e' k', preorder (update F l e' k') ≡ₚ e' :: preorder k' ++ rest.
Proof. unfold lookup, update. destruct F; [done|]. apply f_update_perm. Qed.

(** What a tree occupies. *)
Definition mem_of (l : list entry) : gset oloc * gset oloc := (list_to_set (map e_loc l), list_to_set (map e_xml l)).
Definition mem (F : eforest) : gset oloc * gset oloc := (list_to_set (locs F), list_to_set (xlocs F)).

Lemma mem_perm F l : preorder F ≡ₚ l → mem F = mem_of l.
Proof.
  intros Hp. unfold mem, mem_of, locs, xlocs.
  f_equal; apply list_to_set_perm_L, fmap_Permutation; exact Hp.
Qed.

Lemma mem_of_app l1 l2 : mem_of (l1 ++ l2) = ((mem_of l1).1 ∪ (mem_of l2).1, (mem_of l1).2 ∪ (mem_of l2).2).
Proof. unfold mem_of. cbn [fst snd]. by rewrite !map_app, !list_to_set_app_L. Qed.

(** Writing an XML node that is there takes no memory. *)
Lemma attrs_mem s F l e k a :
  rep_tree s F → in_use s = mem F → lookup F l = Some (e, k) →
  in_use (with_xmls <[e_xml e := a]> s) = mem (update F l (with_attrs e a) k).
Proof.
  intros HF Hm Hl. destruct (update_perm F l e k Hl) as (rest & Hp & Hu). specialize (Hu (with_attrs e a) k).
  rewrite (mem_perm _ _ Hu). rewrite (mem_perm _ _ Hp) in Hm. transitivity (in_use s); [|exact Hm].
  destruct (focus_tree s F l e k HF Hl) as (par & b & _ & _ & Hx & _).
  unfold in_use. cbn [nodes xmls with_xmls]. f_equal. by apply dom_insert_lookup_L.
Qed.

Lemma mem_add F l e k new :
  lookup F l = Some (e, k) → mem (update F l e (fapp k new)) = ((mem F).1 ∪ (mem new).1, (mem F).2 ∪ (mem new).2).
Proof.
  intros Hl. destruct (update_perm F l e k Hl) as (rest & Hp & Hu). specialize (Hu e (fapp k new)).
  assert (Hperm : preorder (update F l e (fapp k new)) ≡ₚ preorder F ++ preorder new).
  { etrans; [exact Hu|]. etrans; [|apply Permutation_app_tail; symmetry; exact Hp]. rewrite preorder_fapp.
    cbn [app]. constructor. rewrite <- !app_assoc. apply Permutation_app_head, Permutation_app_comm. }
  rewrite (mem_perm _ _ Hperm), mem_of_app. done.
Qed.

Lemma mem_remove F l ep kids o e k :
  separate F → lookup F l = Some (ep, kids) → f_find kids o [] = Some (e, k) →
  mem (update F l ep (f_remove kids o)) = ((mem F).1 ∖ (mem (FCons e k FNil)).1, (mem F).2 ∖ (mem (FCons e k FNil)).2).
Proof.
  intros [Hn Hx] Hl Hf. destruct (update_perm F l ep kids Hl) as (rest & Hp & Hu). specialize (Hu ep (f_remove kids o)).
  pose proof (f_remove_preorder kids o e k Hf) as Hr. set (G := update F l ep (f_remove kids o)) in *.
  assert (Hperm : preorder F ≡ₚ preorder (FCons e k FNil) ++ preorder G).
  { etrans; [exact Hp|]. cbn [preorder]. rewrite app_nil_r. etrans; [|apply Permutation_app_head; symmetry; exact Hu].
    etrans; [|apply Permutation_middle]. constructor. rewrite app_assoc. by apply Permutation_app_tail. }
  rewrite (mem_perm F _ Hperm), mem_of_app. unfold locs, xlocs in Hn, Hx.
  apply (fmap_Permutation e_loc) in Hperm as Hpl. apply (fmap_Permutation e_xml) in Hperm as Hpx.
  assert (Hn' : NoDup (map e_loc (preorder (FCons e k FNil) ++ preorder G))) by by rewrite <- Hpl.
  assert (Hx' : NoDup (map e_xml (preorder (FCons e k FNil) ++ preorder G))) by by rewrite <- Hpx.
  rewrite map_app in Hn', Hx'. apply NoDup_app in Hn' as (_ & Hn' & _). apply NoDup_app in Hx' as (_ & Hx' & _).
  unfold mem, mem_of, locs, xlocs. cbn [fst snd]. clear -Hn' Hx'.
  f_equal; apply set_eq; intros x; rewrite elem_of_difference, elem_of_union, !elem_of_list_to_set; naive_solver.
Qed.

(** ** Copying attributes *)

Lemma xml_inj f o1 l1 e1 k1 o2 l2 e2 k2 :
  NoDup (xlocs f) → f_find f o1 l1 = Some (e1, k1) → f_find f o2 l2 = Some (e2, k2) → e_xml e1 = e_xml e2 →
  o1 = o2 ∧ l1 = l2.
Proof.
  assert (Hx : ∀ g o l e k, f_find g o l = Some (e, k) → e_xml e ∈ xlocs g).
  { intros g o l e k Hg. unfold xlocs. apply list_elem_of_fmap_2. by eapply f_find_elem. }
  revert o1 l1 o2 l2. induction f as [|a ka IHk sb IHs]; intros o1 l1 o2 l2; [done|].
  rewrite xlocs_cons. intros [Ha (Hk & Hd & Hs)%NoDup_app]%NoDup_cons. cbn [f_find].
  rewrite elem_of_app in Ha.
  assert (Hout : ∀ o l e k, (if e_id a =? o then f_find ka o l else f_find sb o l) = Some (e, k) → e_xml e ≠ e_xml a).
  { intros o l e k Hf Heq. apply Ha. rewrite <- Heq. destruct (_ =? o); [left|right]; by eapply Hx. }
  destruct (e_id a =? o1) eqn:E1, (e_id a =? o2) eqn:E2; intros H1 H2 Heq.
  - assert (o1 = o2) as <- by zbool. split; [done|].
    destruct l1 as [|i1 l1], l2 as [|i2 l2]; simplify_eq/=; [done|..].
    + apply Hx in H2. rewrite <- Heq in H2. tauto.
    + apply Hx in H1. rewrite Heq in H1. tauto.
    + destruct (IHk i1 l1 i2 l2 Hk H1 H2 Heq) as [-> ->]. done.
  - destruct l1 as [|i1 l1]; simplify_eq/=.
    + apply Hx in H2. rewrite <- Heq in H2. tauto.
    + apply Hx in H1, H2. rewrite Heq in H1. by destruct (Hd _ H1).
  - destruct l2 as [|i2 l2]; simplify_eq/=.
    + apply Hx in H1. rewrite Heq in H1. tauto.
    + apply Hx in H1, H2. rewrite <- Heq in H2. by destruct (Hd _ H2).
  - by apply IHs.
Qed.

Lemma lookup_xml_inj F l1 e1 k1 l2 e2 k2 :
  separate F → lookup F l1 = Some (e1, k1) → lookup F l2 = Some (e2, k2) → e_xml e1 = e_xml e2 → l1 = l2.
Proof. intros [_ Hx]. unfold lookup. destruct F; [done|]. intros. by eapply xml_inj. Qed.

Section copy.
Context (E : cfg_env) (tk : forest tloc) `{ShmLaws} `{Xml}.

Lemma copy_loop_run num : ∀ i s xs xd a d,
  xmls s !! xs = Some a → xmls s !! xd = Some d → xs ≠ xd → length a = (i + num)%nat →
  ∃ d', copy_loop num i (Some xs) (Some xd) s = Ok (tt, with_xmls <[xd := d']> s) ∧ copied d (drop i a) d'.
Proof using.
  induction num as [|num IH]; intros i s xs xd a d Hs Hd Hne Hlen.
  - exists d. rewrite drop_ge by lia. split; [|done]. cbn [copy_loop]. unfold mret, M_ret, with_xmls.
    rewrite insert_id by done. by destruct s.
  - cbn [copy_loop]. destruct (lookup_lt_is_Some_2 a i ltac:(lia)) as [nv Hnv].
    destruct (IH (S i) (with_xmls <[xd := cfg_xml_set_attr s d nv.1 nv.2]> s) xs xd a (cfg_xml_set_attr s d nv.1 nv.2)) as (d' & Hr & Hc).
    + simpl. by rewrite lookup_insert_ne.
    + simpl. by rewrite lookup_insert_eq.
    + done.
    + lia.
    + exists d'. split.
      * step_by (get_xml_Ok _ _ _ Hs). rewrite Hnv. rewrite (M_bind_Ok _ _ _ nv s) by done.
        step_by (xml_set_Ok _ _ _ nv.1 nv.2 Hd). rewrite Hr. unfold with_xmls. simpl. by rewrite insert_insert_eq.
      * rewrite (drop_S a nv i Hnv). by exists s.
Qed.

Lemma copy_without_del_run s F dst src od ids_d os ids_s :
  rep_tree s F → cfg_path_to_oid_array E (Some dst) true = Ok (Some (od :: ids_d)) → Forall uint ids_d →
  cfg_path_to_oid_array E (Some src) true = Ok (Some (os :: ids_s)) → Forall uint ids_s → ids_d ≠ ids_s →
  ∃ a, cfg_obj_copy_private_without_del E (Some dst) (Some src) s
  = Ok (match lookup F ids_d, lookup F ids_s with
        | Some (ed, _), Some (es, _) => (0, with_xmls <[e_xml ed := a]> s)
        | _, _ => (-1, s)
        end) ∧
  ∀ ed kd es ks, lookup F ids_d = Some (ed, kd) → lookup F ids_s = Some (es, ks) → copied (e_attrs ed) (e_attrs es) a.
Proof using.
  intros HF Hpd Hud Hps Hus Hne. unfold cfg_obj_copy_private_without_del. step_by (lock_Ok s).
  pose proof (rep_tree_lock 1 s F HF) as HF1.
  step_by (get_obj_spec E _ F _ od ids_d HF1 Hpd Hud). step_by (get_obj_spec E _ F _ os ids_s HF1 Hps Hus).
  destruct (lookup F ids_d) as [[ed kd]|] eqn:Hld, (lookup F ids_s) as [[es ks]|] eqn:Hls; cbn [option_map];
    try by (exists []; split; [|done]; step_by (mret_Ok (-1) (with_lock 1 s)); by step_by (unlock_Ok s)).
  destruct (focus_tree _ F ids_d ed kd HF1 Hld) as (pd & bd & _ & Hed & Hxd & _).
  destruct (focus_tree _ F ids_s es ks HF1 Hls) as (ps & bs & _ & Hes & Hxs & _).
  assert (Hnx : e_xml es ≠ e_xml ed).
  { intros Heq. apply Hne. symmetry. by eapply (lookup_xml_inj F); [apply HF|..]. }
  destruct (copy_loop_run (length (e_attrs es)) 0 _ _ _ _ _ Hxs Hxd Hnx eq_refl) as (d & Hcopy & Hd). rewrite drop_0 in Hd.
  exists d. split; [|by intros ? ? ? ? [= <- <-] [= <- <-]].
  set (s1 := with_xmls _ (with_lock 1 s)) in Hcopy.
  rewrite (M_bind_Ok _ _ _ 0 s1).
  - unfold cfg_obj_unlock, modify, mbind, M_bind, mret, M_ret, s1, with_lock, with_xmls. destruct s. simpl. do 3 f_equal. lia.
  - cbn [fst]. step_by (get_node_Ok _ _ _ Hes). step_by (get_node_Ok _ _ _ Hed). cbn [private node_of].
    step_by (get_xml_Ok _ _ _ Hxs). by step_by Hcopy.
Qed.

(** The entry with another XML node. *)
Definition with_xml (e : entry) (x : oloc) (a : xattrs) : entry :=
  {| e_loc := e_loc e; e_xml := x; e_id := e_id e; e_attrs := a |}.

(** The XML node of an object is replaced by the fresh one at [x]. *)
Lemma replace_xml_tree s F ids e k x a :
  rep_tree s F → lookup F ids = Some (e, k) → xmls s !! x = None →
  ∃ par b, nodes s !! e_loc e = Some (node_of e par (top k) b) ∧
    let s' := with_nodes <[e_loc e := node_of (with_xml e x a) par (top k) b]>
                (with_xmls (λ m, delete (e_xml e) (<[x := a]> m)) s) in
    rep_tree s' (update F ids (with_xml e x a) k) ∧ mem (update F ids (with_xml e x a) k) = 
    ((mem F).1, ((mem F).2 ∖ {[e_xml e]}) ∪ {[x]}).
Proof using.
  intros HF Hl Hfresh. destruct (focus_tree s F ids e k HF Hl) as (par & b & rest & He & Hx & Hk & Hsk & Hperm & Hupd).
  exists par, b. split; [done|]. intros s'.
  assert (Hnew : x ∉ xlocs F).
  { intros Hin. destruct (obj_rep_xlocs _ _ _ (rt_rep _ _ HF) x Hin) as [? Hs]. congruence. }
  destruct HF as [_ _ [Hnd Hndx] _ Hids]. unfold locs, xlocs in *.
  apply (fmap_Permutation e_loc) in Hperm as Hpl. apply (fmap_Permutation e_xml) in Hperm as Hpx.
  change (e_loc <$> preorder F) with (map e_loc (preorder F)) in Hpl. change (e_xml <$> preorder F) with (map e_xml (preorder F)) in Hpx.
  rewrite Hpl in Hnd. rewrite Hpx in Hndx, Hnew. rewrite Hperm in Hids. cbn [fmap list_fmap] in Hnd, Hndx, Hnew.
  rewrite fmap_app in Hnd, Hndx, Hnew. apply NoDup_cons in Hnd as [Hne Hnd]. apply NoDup_cons in Hndx as [Hnx Hndx].
  rewrite not_elem_of_cons, not_elem_of_app in Hnew. destruct Hnew as (Hxe & Hxk & Hxr).
  rewrite not_elem_of_app in Hne, Hnx. destruct Hne as [Hek Her], Hnx as [Hxek Hxer].
  assert (Hsame : same_but [e_loc e] [x; e_xml e] s s').
  { split; [| |done|done].
    - intros l Hl'. unfold s'. simpl. rewrite lookup_insert_ne; [done|]. intros Heq. apply Hl'. rewrite Heq. by left.
    - intros y Hy. rewrite !not_elem_of_cons in Hy. unfold s'. simpl. rewrite lookup_delete_ne, lookup_insert_ne by naive_solver. done. }
  destruct (Hupd (with_xml e x a) k s' [e_loc e] [x; e_xml e]) as [Hrep Hp']; try done.
  - intros l ->%list_elem_of_singleton. exact Her.
  - intros y [->|[->|Hy]%elem_of_cons]%elem_of_cons; [exact Hxr|exact Hxer|by apply not_elem_of_nil in Hy].
  - unfold s'. simpl. by rewrite lookup_insert_eq.
  - unfold s'. simpl. rewrite lookup_delete_ne by congruence. by rewrite lookup_insert_eq.
  - eapply obj_rep_frame; [exact Hsame|..|exact Hk].
    + intros l ->%list_elem_of_singleton. exact Hek.
    + intros y [->|[->|Hy]%elem_of_cons]%elem_of_cons; [exact Hxk|exact Hxek|by apply not_elem_of_nil in Hy].
  - cbn [map]. rewrite map_app. apply NoDup_cons. split; [|exact Hnd]. cbn [e_loc with_xml]. by rewrite not_elem_of_app.
  - cbn [map]. rewrite map_app. apply NoDup_cons. split; [|exact Hndx]. cbn [e_xml with_xml]. by rewrite not_elem_of_app.
  - rewrite app_comm_cons in Hids. apply Forall_app in Hids as [Hids _]. apply Forall_cons in Hids as [? ?]. by constructor.
  - split; [exact Hrep|]. rewrite (mem_perm _ _ Hp'), (mem_perm _ _ Hperm). unfold mem_of. cbn [map fst snd e_loc e_xml with_xml list_to_set].
    f_equal. apply set_eq. intros y.
    rewrite !elem_of_union, elem_of_difference, elem_of_union, !elem_of_singleton, elem_of_list_to_set, map_app, elem_of_app.
    change (map e_xml ?l) with (e_xml <$> l). destruct (decide (y = e_xml e)) as [->|]; naive_solver.
Qed.

Lemma copy_private_run s F dst src od ids_d os ids_s :
  rep_tree s F → cfg_path_to_oid_array E (Some dst) true = Ok (Some (od :: ids_d)) → Forall uint ids_d →
  cfg_path_to_oid_array E (Some src) true = Ok (Some (os :: ids_s)) → Forall uint ids_s →
  cfg_obj_copy_private E (Some dst) (Some src) s = Ok (-1, s) ∨
  ∃ ed kd es ks x a s', cfg_obj_copy_private E (Some dst) (Some src) s = Ok (0, s') ∧
    lookup F ids_d = Some (ed, kd) ∧ lookup F ids_s = Some (es, ks) ∧ copied [] (e_attrs es) a ∧
    let F' := update F ids_d (with_xml ed x a) kd in
    rep_tree s' F' ∧ lock_depth s' = lock_depth s ∧ (in_use s = mem F → in_use s' = mem F').
Proof.
  intros HF Hpd Hud Hps Hus. unfold cfg_obj_copy_private. step_by (lock_Ok s).
  pose proof (rep_tree_lock 1 s F HF) as HF1.
  step_by (get_obj_spec E _ F _ od ids_d HF1 Hpd Hud). step_by (get_obj_spec E _ F _ os ids_s HF1 Hps Hus).
  destruct (lookup F ids_d) as [[ed kd]|] eqn:Hld, (lookup F ids_s) as [[es ks]|] eqn:Hls; cbn [option_map];
    try by (left; step_by (mret_Ok (-1) (with_lock 1 s)); by step_by (unlock_Ok s)).
  destruct (focus_tree _ F ids_s es ks HF1 Hls) as (ps & bs & _ & Hes & Hxs & _).
  destruct (focus_tree _ F ids_d ed kd HF1 Hld) as (pd & bd & _ & Hed & Hxd & _).
  set (s1 := with_lock 1 s) in *. destruct (shm_calloc s1) as [x|] eqn:Hx.
  2:{ left. assert (Hc : calloc_xml s1 = Ok (None, s1)) by (unfold calloc_xml; by rewrite Hx).
      rewrite (M_bind_Ok _ _ _ (-1) s1); [by step_by (unlock_Ok s)|]. cbn [fst].
      step_by (get_node_Ok _ _ _ Hes). step_by Hc. done. }
  right. destruct (shm_fresh _ _ Hx) as [_ Hfx].
  set (s2 := with_xmls <[x := []]> s1).
  assert (Hc : calloc_xml s1 = Ok (Some x, s2)) by (unfold calloc_xml; by rewrite Hx).
  assert (Hne : ∀ y v, xmls s1 !! y = Some v → x ≠ y) by (intros y v Hy ->; congruence).
  assert (Hxs2 : xmls s2 !! e_xml es = Some (e_attrs es)) by (simpl; rewrite lookup_insert_ne; [done|by eapply Hne]).
  assert (Hx2 : xmls s2 !! x = Some []) by apply lookup_insert_eq.
  assert (Hnex : e_xml es ≠ x) by (intros E'; by apply (Hne _ _ Hxs)).
  destruct (copy_loop_run (length (e_attrs es)) 0 _ _ _ _ _ Hxs2 Hx2 Hnex eq_refl) as (a & Hcopy & Ha). rewrite drop_0 in Ha.
  destruct (replace_xml_tree s1 F ids_d ed kd x a HF1 Hld Hfx) as (p & b & Hn & HF' & Hm).
  set (s3 := with_xmls <[x := a]> s2).
  assert (Hr3 : cfg_xml_release_node (e_xml ed) s3 = Ok (tt, with_xmls (delete (e_xml ed)) s3)).
  { unfold cfg_xml_release_node. replace (xmls s3 !! e_xml ed) with (Some (e_attrs ed)); [done|].
    unfold s3, s2. cbn [xmls with_xmls]. by rewrite !lookup_insert_ne by (by eapply Hne). }
  set (s4 := with_xmls _ s3) in Hr3. assert (Hn4 : nodes s4 !! e_loc ed = Some (node_of ed p (top kd) b)) by exact Hn.
  exists ed, kd, es, ks, x, a. eexists (with_lock (-1) _). split; [|split; [done|split; [done|split; [done|]]]].
  - rewrite (M_bind_Ok _ _ _ 0 (with_nodes <[e_loc ed := set_private (Some x) (node_of ed p (top kd) b)]> s4)); [done|].
    cbn [fst]. step_by (get_node_Ok _ _ _ Hes). step_by Hc. cbn [private node_of].
    step_by (get_xml_Ok _ _ _ Hxs2). step_by Hcopy.
    step_by (get_node_Ok (e_loc ed) s3 _ Hn). cbn [private node_of]. step_by Hr3.
    step_by (alter_node_Ok _ (set_private (Some x)) _ _ Hn4). done.
  - assert (Hs : with_nodes <[e_loc ed := node_of (with_xml ed x a) p (top kd) b]>
                (with_xmls (λ m, delete (e_xml ed) (<[x := a]> m)) s1)
              = with_nodes <[e_loc ed := set_private (Some x) (node_of ed p (top kd) b)]> s4).
    { unfold s4, s3, s2, with_nodes, with_xmls. simpl. by rewrite insert_insert_eq. }
    rewrite Hs in HF'. cbv zeta. split; [by apply rep_tree_lock|]. split; [simpl; lia|].
    intros Huse. rewrite Hm. unfold in_use in *. rewrite <- Huse. cbn [fst snd]. simpl. rewrite !insert_insert_eq.
    f_equal; apply set_eq; intros y.
    + rewrite dom_insert, elem_of_union, elem_of_singleton, !elem_of_dom. split; [intros [->|Hy]; [|done]|by right].
      change (nodes s) with (nodes s1). by rewrite Hn.
    + rewrite elem_of_union, elem_of_difference, !elem_of_singleton, dom_delete, dom_insert, elem_of_difference, elem_of_union, !elem_of_singleton.
      pose proof (Hne _ _ Hxd). naive_solver.
Qed.
End copy.

(** ** The operations of clients *)

Inductive operation :=
| Create (above : list seg) (sg : seg)
| Delete (above : list seg) (sg : seg)
| Set_attr (p : list seg) (attr val : cstr)
| Get_attr (p : list seg) (attr : cstr) (size : Z)
| Query (p : list seg)
| Copy (dst src : list seg)
| Merge (dst src : list seg).

Section clients.
Context (E : cfg_env) (tk : forest tloc) (wf : wf_env E tk) `{ShmLaws} `{Xml}.

Definition exec (o : operation) : SM Z :=
  match o with
  | Create above sg => cfg_obj_create_object E (Some (path_of (above ++ [sg])))
  | Delete above sg => cfg_obj_delete_object E (Some (path_of (above ++ [sg])))
  | Set_attr p attr val => cfg_obj_set_object_attr E (Some (path_of p)) (Some attr) (Some val)
  | Get_attr p attr size => r ← cfg_obj_get_object_attr E (Some (path_of p)) (Some attr) true size; mret r.1
  | Query p => r ← cfg_obj_query_object E (Some (path_of p)) None true; mret r.1
  | Copy dst src => cfg_obj_copy_private E (Some (path_of dst)) (Some (path_of src))
  | Merge dst src => cfg_obj_copy_private_without_del E (Some (path_of dst)) (Some (path_of src))
  end.

Definition path_ok (p : list seg) : Prop := resolves E None p ∧ (1 ≤ length p ≤ CFG_MAX_NODE_LEVEL)%nat.

(** Paths are written with names of types and numbers up to 65535, and below
    the limits of length and depth.  An object is created below one that exists
    or that is missing and of no dynamic type; one without a number, when its
    type still has a number to give.  The root is not deleted.  An object is
    not merged into itself. *)
Definition allowed (F : eforest) (o : operation) : Prop :=
  match o with
  | Create above sg =>
      above ≠ [] ∧ resolves E None (above ++ [sg]) ∧ seg_ok sg ∧ strlen (path_of (above ++ [sg])) < CFG_MAX_PATH_NAME ∧
      (length (above ++ [sg]) < CFG_MAX_NODE_LEVEL)%nat ∧
      match lookup F (ids_of E above) with
      | Some (_, kids) => sg_inst sg = None → room_for kids (target_oid (env_reg E) sg)
      | None => (length (concat (map seg_tokens above)) < CFG_MAX_NODE_LEVEL)%nat ∧
          ∃ P, last_type None above = Some P ∧ dynamic (env_types E) (env_reg E) (type_id (env_reg E) P) = false
      end
  | Delete above sg => above ≠ [] ∧ path_ok (above ++ [sg])
  | Set_attr p _ _ | Query p => path_ok p
  | Get_attr p _ size => path_ok p ∧ 0 < size
  | Copy dst src => path_ok dst ∧ path_ok src
  | Merge dst src => path_ok dst ∧ path_ok src ∧ ids_of E dst ≠ ids_of E src
  end.

(** The store stands for a typed tree with distinct names among siblings, has
    no memory besides, and is not locked. *)
Record well_formed (s : store) (F : eforest) : Prop := {
  ws_rep : rep_tree s F;
  ws_distinct : distinct F;
  ws_typed : typed_tree E F;
  ws_mem : in_use s = mem F;
  ws_lock : lock_depth s = 0
}.

Lemma resolves_front p sg node : resolves E node (p ++ [sg]) → resolves E node p.
Proof using. revert node. induction p as [|a p IH]; intros node; [done|]. cbn [app resolves]. intros (? & ? & ? & ?). do 3 (split; [done|]). by apply IH. Qed.

Lemma resolves_child p sg P :
  resolves E None (p ++ [sg]) → last_type None p = Some P → P ∈ all_types (env_root E) tk →
  sg_type sg ∈ children E P.
Proof using wf.
  intros Hres Hl HP. assert (Hq : cfg_type_query_child E (last_type None p) (Some (sg_name sg)) = Ok (Some (sg_type sg))).
  { clear -Hres. unfold last_type. revert Hres. generalize (@None tloc). induction p as [|a p IH]; intros node; cbn [app resolves].
    - intros (Hq & _). done.
    - intros (_ & _ & _ & Hr). specialize (IH _ Hr). rewrite last_cons. by destruct (last p). }
  rewrite Hl, (query_child_spec E tk wf) in Hq by done. injection Hq as Hq. by apply first_named_elem in Hq as [? _].
Qed.

(** Replacing the attributes of an object, or its XML node. *)
Lemma well_formed_attrs s s' F l e k e' :
  well_formed s F → lookup F l = Some (e, k) → e_id e' = e_id e → rep_tree s' (update F l e' k) →
  in_use s' = mem (update F l e' k) → lock_depth s' = lock_depth s → well_formed s' (update F l e' k).
Proof using.
  intros [HF Hd Ht Hm Hk] Hl He HF' Hm' Hlk. destruct (typed_lookup E F l e k Ht Hl) as (n & _ & Hkn & Hup). split.
  - done.
  - eapply distinct_tree; [done|exact Hl|done|by eapply distinct_lookup].
  - by apply Hup.
  - done.
  - congruence.
Qed.

Lemma attrs_step s F l e k a :
  well_formed s F → lookup F l = Some (e, k) →
  ∃ r s' F', Ok (0, with_xmls <[e_xml e := a]> s) = Ok (r, s') ∧ well_formed s' F'.
Proof using.
  intros Hw Hl. destruct (Hw) as [HF _ _ Hm _]. destruct (set_xml_tree s F l e k a HF Hl) as [HF' _].
  exists 0, (with_xmls <[e_xml e := a]> s), (update F l (with_attrs e a) k). split; [done|].
  apply (well_formed_attrs s _ F l e k (with_attrs e a)); [exact Hw|exact Hl|done|exact HF'| |done]. by apply attrs_mem.
Qed.

Lemma exec_set s F p attr val :
  well_formed s F → path_ok p → ∃ r s' F', exec (Set_attr p attr val) s = Ok (r, s') ∧ well_formed s' F'.
Proof using wf.
  intros Hw [Hres Hlen]. destruct (Hw) as [HF _ _ Hm _]. cbn [exec].
  destruct (decide (attr = [])) as [->|Hne]; [by exists (-1), s, F|].
  destruct (written_ids E tk p wf Hres Hlen) as (o & Hp & Hu).
  rewrite (set_object_attr_run E s F _ attr val o _ HF Hp Hu Hne).
  destruct (lookup F (ids_of E p)) as [[e k]|] eqn:Hl; [|by exists (-1), s, F].
  by eapply attrs_step.
Qed.

Lemma exec_reads s F o :
  well_formed s F → allowed F o → match o with Get_attr _ _ _ | Query _ => True | _ => False end →
  ∃ r, exec o s = Ok (r, s).
Proof using wf.
  intros [HF _ _ _ _] Ho Hread. destruct o as [| | |p attr size|p| |]; try done; cbn [exec].
  - destruct Ho as [[Hres Hlen] Hs]. destruct (written_ids E tk p wf Hres Hlen) as (o & Hp & Hu).
    eexists. by rewrite (M_bind_Ok _ _ _ _ _ (get_object_attr_run E s F _ attr size o _ HF Hp Hu Hs)).
  - destruct Ho as [Hres Hlen]. destruct (written_ids E tk p wf Hres Hlen) as (o & Hp & Hu).
    destruct (query_object_run E s F _ o _ HF Hp Hu) as [Hq _].
    eexists. by rewrite (M_bind_Ok _ _ _ _ _ Hq).
Qed.

Lemma exec_create s F above sg :
  well_formed s F → allowed F (Create above sg) →
  ∃ r s' F', exec (Create above sg) s = Ok (r, s') ∧ well_formed s' F'.
Proof using wf H0.
  intros Hw (Hne & Hres & Hsg & Hlen & Hlev & Hroom). destruct (Hw) as [HF Hd Ht Hm Hk].
  destruct (lookup F (ids_of E above)) as [[ep kids]|] eqn:Hl.
  2:{ destruct Hroom as (Htok & P & HP & Hdyn). exists (-1), s, F. split; [|done]. by apply (create_object_orphan E tk s F above sg P). }
  pose proof (create_object_run E tk s F above sg ep kids wf HF Hne Hres Hsg Hlen Hlev Hl Hroom) as Hrun.
  cbv zeta in Hrun. cbn [exec]. destruct (f_find kids _ []) as [[e k]|] eqn:Hf; [by exists (-1), s, F|].
  destruct (refuses (with_lock 1 s)); [by exists (-1), s, F|].
  destruct Hrun as (en & f & s' & Hr & Hid & _ & Hsub & HF' & Hlk & Huse).
  eexists _, s', _. split; [exact Hr|].
  assert (Hcd : resolves E None above) by (by eapply resolves_front).
  destruct (typed_lookup E F _ ep kids Ht Hl) as (P & HP & HK & Hup).
  pose proof (found_type E tk wf F above ep kids Ht Hcd Hne Hl) as Hlast. rewrite HP in Hlast. symmetry in Hlast.
  pose proof (last_type_types E tk wf above P Hcd Hlast) as HPt.
  pose proof (resolves_child above sg P Hres Hlast HPt) as Hch.
  pose proof (children_types E tk wf P _ HPt Hch) as Hst.
  destruct (last_seg E above sg Hne Hres) as (_ & Hi & _).
  split; [done|by eapply created_distinct| | |congruence].
  - apply Hup; [done|]. apply typed_fapp; [done|]. cbn [typed].
    rewrite Hid, (new_oid_type E tk wf sg kids Hst Hi (roots_uint _ _ _ _ _ HF Hl) Hroom).
    split; [|done]. split; [done|]. by apply (subtree_typed E tk wf).
  - rewrite Huse, Hm, (mem_add _ _ _ _ _ Hl). done.
Qed.

Lemma exec_delete s F above sg :
  well_formed s F → allowed F (Delete above sg) →
  ∃ r s' F', exec (Delete above sg) s = Ok (r, s') ∧ well_formed s' F'.
Proof using wf.
  intros Hw (Hne & Hres & Hlen). destruct (Hw) as [HF Hd Ht Hm Hk].
  destruct (written_ids E tk (above ++ [sg]) wf Hres Hlen) as (o & Hp & Hu). rewrite (ids_of_snoc E above sg Hne) in Hp, Hu.
  set (l := ids_of E above) in *. set (i := seg_oid (env_reg E) sg) in *. cbn [exec].
  destruct (lookup F (l ++ [i])) as [[e k]|] eqn:Hf.
  2:{ exists (-1), s, F. split; [|done]. unfold cfg_obj_delete_object. step_by (lock_Ok s).
      step_by (get_obj_spec E _ F _ o (l ++ [i]) (rep_tree_lock 1 s F HF) Hp Hu). rewrite Hf. cbn [option_map].
      step_by (mret_Ok (-1) (with_lock 1 s)). by step_by (unlock_Ok s). }
  destruct (lookup F l) as [[ep kids]|] eqn:Hl.
  2:{ exfalso. unfold lookup in Hf, Hl. destruct F as [|r K sb]; [done|]. revert Hf Hl. clear.
      generalize (e_id r). generalize (FCons r K sb). clear. intros f z. revert f z. induction l as [|j l IH]; intros f z; cbn [app].
      - rewrite f_find_step. by destruct (f_find f z []) as [[]|].
      - rewrite (f_find_step f z j (l ++ [i])), (f_find_step f z j l). destruct (f_find f z []) as [[x kx]|]; [apply IH|done]. }
  rewrite (lookup_snoc _ _ _ _ _ Hl) in Hf.
  destruct (delete_object_run E s F _ o l i ep kids e k HF Hp Hu Hl Hf) as (s' & Hr & HF' & Hlk & Huse).
  destruct (typed_lookup E F l ep kids Ht Hl) as (P & _ & HK & Hup).
  eexists _, s', _. split; [exact Hr|]. split; [done| | | |congruence].
  - pose proof (distinct_lookup _ _ _ _ Hd Hl) as Hdk. destruct (distinct_remove kids i Hdk) as (Hd' & _ & _).
    by eapply distinct_tree.
  - apply Hup; [done|]. by apply typed_remove.
  - rewrite Huse, Hm. symmetry. apply (mem_remove F l ep kids i e k (rt_sep _ _ HF) Hl Hf).
Qed.

Lemma exec_copies s F o :
  well_formed s F → allowed F o → match o with Copy _ _ | Merge _ _ => True | _ => False end →
  ∃ r s' F', exec o s = Ok (r, s') ∧ well_formed s' F'.
Proof using wf H0.
  intros Hw Ho Hcopy. destruct (Hw) as [HF Hd Ht Hm Hk]. destruct o as [| | | | |dst src|dst src]; try done; cbn [exec].
  - destruct Ho as [[Hrd Hld] [Hrs Hls]].
    destruct (written_ids E tk dst wf Hrd Hld) as (od & Hpd & Hud), (written_ids E tk src wf Hrs Hls) as (os & Hps & Hus).
    destruct (copy_private_run E s F _ _ _ _ _ _ HF Hpd Hud Hps Hus) as [Hr|(ed & kd & es & ks & x & a & s' & Hr & Hl & _ & _ & HF' & Hlk & Huse)];
      [by exists (-1), s, F|].
    eexists 0, s', _. split; [exact Hr|]. eapply well_formed_attrs; [exact Hw|exact Hl| |exact HF'|by apply Huse|done]. done.
  - destruct Ho as ([Hrd Hld] & [Hrs Hls] & Hne).
    destruct (written_ids E tk dst wf Hrd Hld) as (od & Hpd & Hud), (written_ids E tk src wf Hrs Hls) as (os & Hps & Hus).
    destruct (copy_without_del_run E s F _ _ _ _ _ _ HF Hpd Hud Hps Hus Hne) as (a & -> & _).
    destruct (lookup F (ids_of E dst)) as [[ed kd]|] eqn:Hl; [|by exists (-1), s, F].
    destruct (lookup F (ids_of E src)) as [[es ks]|] eqn:Hl'; [|by exists (-1), s, F]. by eapply attrs_step.
Qed.

Lemma client_op_spec s F o :
  well_formed s F → allowed F o → ∃ r s' F', exec o s = Ok (r, s') ∧ well_formed s' F'.
Proof using wf H0.
  intros Hw Ho. destruct o.
  - by apply (exec_create s F).
  - by apply (exec_delete s F).
  - by apply (exec_set s F).
  - destruct (exec_reads s F _ Hw Ho I) as [r Hr]. by exists r, s, F.
  - destruct (exec_reads s F _ Hw Ho I) as [r Hr]. by exists r, s, F.
  - by apply (exec_copies s F).
  - by apply (exec_copies s F).
Qed.

(** ** Start-up and reachable stores *)

Lemma obj_rep_root s r par f :
  obj_rep s par f →
  obj_rep {| nodes := nodes s; xmls := xmls s; cfg_obj_root := r; lock_depth := lock_depth s |} par f.
Proof using. revert par. induction f as [|e k IHk sb IHs]; intros par; [done|]. intros (? & ? & ? & ?). split_and!; auto. Qed.

Lemma made_distinct_prune dyn r K :
  made E (FCons (env_root E) tk FNil) (FCons r K FNil) → distinct (FCons r (prune dyn K) FNil).
Proof using wf.
  intros Hm. assert (HF : distinct (FCons r K FNil)).
  { eapply (made_ids E tk (FCons (env_root E) tk FNil)); [done| | |exact Hm]; rewrite all_types_preorder; [done|].
    rewrite <- all_types_preorder. apply wf. }
  cbn [distinct] in *. destruct HF as (Hr & HK & _). split; [done|]. split; [by apply distinct_prune|done].
Qed.

Lemma start_well_formed s :
  dynamic (env_types E) (env_reg E) (type_id (env_reg E) (env_root E)) = false →
  in_use s = (∅, ∅) → cfg_obj_root s = None → lock_depth s = 0 →
  ∃ r s' F, svc_cfg_load_object E (mret tt) s = Ok (r, s') ∧ well_formed s' F.
Proof using wf H0.
  intros Hroot Huse Hnone Hlock.
  destruct (load_from_type_run E tk s wf Hroot) as (F & s' & Hr & Hrep & Hsep & Hmem & Hlk & Hrt & Hcase).
  assert (Hmem' : in_use s' = mem F) by (rewrite Hmem, Huse; unfold mem; cbn [fst snd]; by rewrite !(left_id_L ∅ (∪))).
  unfold svc_cfg_load_object. step_by Hr. destruct Hcase as [[-> _]|(r & K & Hm & ->)]; cbn [top].
  - exists None, s', FNil. split; [done|]. split; [split; [cbn [top]; congruence|done|done|done|constructor]|done|done|done|congruence].
  - eexists _, _, (FCons r (prune _ K) FNil). split; [done|].
    pose proof (made_uint E _ _ Hm) as Hu. pose proof (made_distinct_prune (dynamic (env_types E) (env_reg E)) r K Hm) as Hdis.
    cbn [made] in Hm. destruct Hm as (Hid & _ & HK & _). pose proof (type_id_range E tk (env_root E) wf ltac:(by left)) as Hty.
    destruct wf as [[Hrepk _] [_ Hfind _] _].
    split; [split; [done|by apply obj_rep_root|done|done|]|exact Hdis| |done|simpl; congruence].
    + cbn [preorder] in Hu |- *. rewrite app_nil_r in *. apply Forall_cons in Hu as [Hur Hu]. constructor; [done|].
      rewrite Forall_forall in *. intros e He. apply Hu. eapply elem_of_sublist; [exact He|apply prune_sublist].
    + split; [|].
      * unfold CFG_TYPE_SHIFT in Hid. rewrite Z.shiftl_mul_pow2, u32_small in Hid by lia.
        destruct (oid_parts (type_id (env_reg E) (env_root E)) 1 ltac:(lia) ltac:(lia)) as [Ht _].
        unfold cfg_type_from_oid. rewrite Hid, Ht. apply Hfind. by left.
      * destruct Hrepk as ((ty & Hety & _ & Hsub) & Hrk & _).
        apply (made_typed E tk wf (env_root E) tk); [by left|done| |done].
        unfold children. rewrite Hety, Hsub. done.
Qed.

Inductive step : store → store → Prop :=
| step_exec s F o r s' : rep_tree s F → allowed F o → exec o s = Ok (r, s') → step s s'.

Lemma steps_well_formed s s' F : rtc step s s' → well_formed s F → ∃ F', well_formed s' F'.
Proof using wf H0.
  intros Hrtc. revert F. induction Hrtc as [s|s1 s2 s3 [s G o r s' HG Ho Hr] _ IH]; intros F Hw; [by exists F|].
  assert (G = F) as -> by (eapply rep_tree_unique; [done|apply Hw]).
  destruct (client_op_spec s F o Hw Ho) as (r' & s'' & F' & Hr' & Hw'). rewrite Hr in Hr'. injection Hr' as <- <-. by eapply IH.
Qed.
End clients.

(** ** Properties *)

(** C1: the store stays well typed.  After start-up from empty memory, and
    after any sequence of client operations that meet the conditions of
    [allowed], whether they succeed or not and whatever memory the allocator
    refuses, the store stands for a tree in which every object is of a type that
    the table puts below the type of its parent, and siblings have different
    identifiers; the shared memory in use is exactly that of the tree; the lock
    is free; and every such operation returns.  The conditions are: paths of
    names of types and of numbers up to 65535, within the limits of length and
    depth; an object is created below a parent that is there or is not of a
    dynamic type, without a number only while its type has one to give; the
    root is not deleted, and no object is merged into itself.  (For what
    happens otherwise see [auto_oid_reuses_a_taken_id] and
    [big_instance_makes_another_type].) *)
Theorem store_stays_well_typed E tk `{ShmLaws} `{Xml} s0 :
  wf_env E tk → dynamic (env_types E) (env_reg E) (type_id (env_reg E) (env_root E)) = false →
  in_use s0 = (∅, ∅) → cfg_obj_root s0 = None → lock_depth s0 = 0 →
  ∃ r s1, svc_cfg_load_object E (mret tt) s0 = Ok (r, s1) ∧
    ∀ s, rtc (step E) s1 s →
    ∃ F, well_formed E s F ∧ ∀ o, allowed E F o → ∃ r' s', exec E o s = Ok (r', s').
Proof.
  intros wf Hroot Huse Hnone Hlock.
  destruct (start_well_formed E tk wf s0 Hroot Huse Hnone Hlock) as (r & s1 & F1 & Hr & Hw1).
  exists r, s1. split; [done|]. intros s Hrtc.
  destruct (steps_well_formed E tk wf s1 s F1 Hrtc Hw1) as (F & Hw). exists F. split; [done|].
  intros o Ho. destruct (client_op_spec E tk wf s F o Hw Ho) as (r' & s' & _ & Hr' & _). by exists r', s'.
Qed.

(** *** An example: an object is created, then deleted *)

Lemma demo_load : svc_cfg_load_object demo_env (mret tt) empty_store = Ok (cfg_obj_root demo_store, demo_store).
Proof. vm_compute. reflexivity. Qed.

Lemma demo_create_allowed : allowed demo_env (demo_tree demo_store) (Create [sroot; sdmz] (sdmz_entry (Some 1))).
Proof.
  split; [done|]. split; [by_path|]. split; [by_compute|]. split; [by apply Z.ltb_lt|].
  split; [unfold CFG_MAX_NODE_LEVEL; simpl; lia|].
  rewrite (found_ok demo_store (ids_of demo_env [sroot; sdmz])) by (vm_compute; eauto).
  intros Hno. discriminate Hno.
Qed.

Lemma store_stays_well_typed_witness :
  ∃ r s, exec demo_env (Create [sroot; sdmz] (sdmz_entry (Some 1))) demo_store = Ok (r, s) ∧
    ∃ F, well_formed demo_env s F ∧
      ∃ r' s', exec demo_env (Delete [sroot; sdmz] (sdmz_entry (Some 1))) s = Ok (r', s').
Proof.
  destruct (store_stays_well_typed demo_env Table.tree empty_store demo_env_wf) as (r & s1 & Hr & Hall);
    [by vm_compute|by vm_compute|done|done|].
  rewrite demo_load in Hr. pose proof (ok_state _ _ _ _ Hr) as Heq. subst s1. clear Hr.
  destruct (Hall demo_store (rtc_refl _ _)) as (F & Hw & Hret).
  assert (HF : F = demo_tree demo_store) by (eapply rep_tree_unique; [apply Hw|exact demo_store_rep]).
  destruct (Hret (Create [sroot; sdmz] (sdmz_entry (Some 1)))) as (rc & s & Hc); [rewrite HF; exact demo_create_allowed|].
  exists rc, s. split; [exact Hc|].
  destruct (Hall s) as (F' & Hw' & Hret').
  { eapply rtc_once, step_exec; [exact demo_store_rep|exact demo_create_allowed|exact Hc]. }
  exists F'. split; [exact Hw'|]. apply Hret'. split; [done|]. split; [by_path|unfold CFG_MAX_NODE_LEVEL; simpl; lia].
Defined.
End CfgTyped.
